(* ===== verification/_CoqProject ===== *)
-Q . S2P
Prelude.v
SphTypes.v
MdHelper.v
Rounds.v
Sha2Big.v
Sha2.v
Sha1.v
Sha0.v
Md4.v
Md5.v
Ripemd.v
Tiger.v
WhirlpoolTables.v
Whirlpool.v
Vectors.v
Sha2Cpp.v
Errors.v
Totals.v
Momentum.v
WorkMessage.v
PoolServer.v
Miner.v
Base64.v
Asset.v
Records.v
ChainInterface.v
Block.v
PendingState.v
ChainDatabase.v
EvalState.v
Operations.v
Schedule.v
Chain.v
Conservation.v
Closure.v
Concrete.v
Evaluate.v
Spending.v
Accounts.v
Trading.v
Undo.v
ForkTree.v
BlockEffects.v
History.v
Supply.v
Delegates.v
Header.v
Queue.v
Genesis.v
Origin.v
Switching.v
Story.v
NetMessages.v
Framing.v
PeerDatabase.v
MessageCache.v
NodeState.v
NodePeers.v
NodeSync.v
NodeItems.v
Node.v
NodeChanges.v
NodeRuns.v
NodeSafety.v
NodeFetching.v
NodeConnecting.v
Client.v
ClientSync.v
Synopses.v
NodeClient.v
NodeStory.v
Transaction.v
WalletDb.v
WalletStored.v
WalletPersists.v
Wallet.v
WalletSpending.v
WalletScan.v
WalletSync.v
WalletStory.v
