(* ===== verification/Prelude.v ===== *)
(** * A verification of Keyhotee: its hash library, miner, blockchain, network and wallet

    Keyhotee is a desktop client for mail, identities and wallets on top of the BitShares
    toolkit. Five parts carry its own logic and are modelled here: the hash functions that
    its proof-of-work miner is built with ([src/miner/sphlib-3.0/c]), the miner and its pool
    ([src/miner]), the ledger that the wallet and the client talk to
    ([src/bitshares_toolkit/libraries/blockchain]), the node of the peer-to-peer network
    ([src/bitshares_toolkit/libraries/net]) with the client that joins it to the ledger
    ([src/bitshares_toolkit/libraries/client/client.cpp]), and the wallet
    ([src/bitshares_toolkit/libraries/wallet]).

    ** The hash library

    Every hash of the MD and SHA families includes [md_helper.c], which implements
    buffering, padding and output once, over macros, and adds a compression function and an
    initial value.

    - [SphTypes]: [sph_types.h]; words are [Z], bytes lists of [Z] in [0,255]. The portable
      byte-by-byte codecs and the fast paths of a little-endian 64-bit machine agree.
    - [MdHelper]: [md_helper.c] over a [config] (word size, byte order, block length,
      length field, padding byte), a compression function and the addresses of the data.
      [engine_correct]: any sequence of updates and a close compute the compression function
      folded over the padded message. [update_invariant] is the invariant of a context;
      padding is whole blocks ([length_pad]) and injective ([pad_injective]). Its module
      [Standard] is the padding and iteration as the standards describe them, without a
      [config]; the references of the hashes are built on it.
    - [Sha2], [Sha2Big], [Sha1], [Sha0], [Md4], [Md5], [Ripemd] (three functions), [Tiger]
      (two): the macros, tables and bodies of each file, a reference definition written after
      the standard and apart from the code (iterated steps, message schedule, its own initial
      value, constants and padding), the equality of the two, and the
      theorem [x_stream] on the functions a caller uses. [Rounds] holds what they share. The
      substitution tables of Tiger, which were drawn at random, are data of both; their
      columns are permutations ([columns_are_permutations]).
    - [WhirlpoolTables], [Whirlpool]: the three versions of [whirlpool.c]; their 24 tables
      are shown to be those of the algebraic definition ([whirlpool_stream]), whose padding is
      its own; the definition itself gives the digests of [test_whirlpool.c].
    - [Vectors]: the known answers of the repository's test programs, evaluated, which also
      check the reference definitions ([known_answers]); [streams_correct], ten of the
      theorems and these answers in one statement.

    The loops of the engine have the length of the data as fuel; [engine_correct] shows that
    it is enough, since every turn consumes at least one byte.

    ** The miner

    A miner looks for two nonces with the same part of a SHA-512 digest (Momentum), for work
    that a pool server hands out; the server checks and counts what the miners send.

    - [Sha2Cpp]: [sha2.cpp], a second implementation of SHA-2 with its own buffering; equal
      to the standard for messages of under [2^29] bytes ([sha2_cpp_correct]).
    - [Momentum]: [hashtable.hpp] as instances of the class [Hashtable], with the laws
      [HashtableLaws] of a whole store (the table of Windows does not keep them);
      [search] of [fast_momentum.cpp], the loop of one thread. The threads share a table
      without a lock: the module [Race] is the machine whose steps are their single reads and
      writes of a word, and [momentum_search] runs it under a schedule. What is found verifies
      when no thread compares an entry that another one is storing to ([momentum_sound]);
      otherwise it need not ([race_reports_false_pair]). What can be
      missed ([momentum_complete]), and how the threads divide the nonces ([threads_divide]).
      [momentum_verify].
    - [WorkMessage]: the data of [bitcoin.hpp], [user_database.hpp], [work_message.hpp].
      [PoolServer]: [server.cpp] as a transition system of fibers, posted tasks and answers
      of bitcoind. [Miner]: [start_work] of [miner.cpp], each of whose turns has the schedule of
      its threads, and [shares_of_miners_count] on the two sides together. [Base64]: [base64.hpp].

    ** The ledger

    A transaction is a list of operations, evaluated in turn against a [chain_interface]; a
    [pending_chain_state] collects the changes over a previous state, which is another one
    or the [chain_database], and applies them at the end. A [transaction_evaluation_state]
    tracks what was withdrawn and not deposited yet; what is left is the fee.

    - [Errors]: [exceptions.hpp] as a type [exn], results as values or exceptions. A thrown
      exception leaves no state, as the callers drop the pending state of a transaction that
      threw. A [run] is a computation on the chain itself, whose state survives an exception
      and is seen by its handler.
    - [Asset]: [asset.hpp], [asset.cpp]; [int64] arithmetic with its wrap-around.
    - [Records]: the record types, [config.hpp].
    - [ChainInterface]: [chain_interface] as the class [ChainInterface], with
      [chain_interface.cpp]; the classes [ChainView] and [ChainStores] state what the
      proofs use of an instance: its look-ups read, and its stores change by one record, a
      [ledger] of finite maps.
    - [PendingState], [ChainDatabase]: the two instances. In [PendingState] the state below
      is any instance, so that pending states stack.
    - [EvalState], [Operations]: [transaction_evaluation_state], the thirteen operations of
      [operations.cpp], the dispatch and [evaluate].
    - [Totals], [Conservation], [Closure]: sums over maps; each operation conserves shares,
      and keeps what every store keeps.
    - [Evaluate]: [evaluate_conserves], [evaluate_admission], [evaluate_fees], on whole
      transactions.
    - [Spending], [Accounts], [Trading]: what single operations check and change, and where
      they do not do what they mean to.
    - [Undo]: [apply_changes_commits], [undo_restores], on blocks pushed and popped.

    ** The chain of blocks

    [chain_database.cpp] places every block that arrives in a tree, extends the chain when
    the block follows its head, and switches to another fork when that is longer, undoing
    blocks with the undo states it saved. Delegates sign in turn, in an order shuffled every
    97 blocks. A queue holds the transactions that the next block is generated from.

    - [Block]: [block.hpp], [block.cpp]. [Schedule]: delegates by votes, signing slots,
      production statistics, pay, shuffle, random seed.
    - [Chain]: [block_fork_data] and the part of [store_and_index], [mark_invalid] and
      [mark_included] on [_fork_db]; the members of [chain_database_impl] as the record [chain]; [push_block],
      [extend_chain], [pop_block], [get_fork_history], [switch_to_fork], the pending queue,
      [generate_block], as [run]s on it. [Genesis]: [initialize_genesis].
    - [ForkTree]: a block is marked linked exactly when it descends from the genesis
      ([index_forks_linked]); marking a block invalid marks exactly the blocks after it.
    - [BlockEffects], [History], [Supply]: each step of a block on the pending state keeps it
      well-formed and conserves shares; the invariant of a chain, that its ledger is built by
      the blocks of the official chain, is kept by [push_block] through extensions, undone
      blocks and exceptions ([push_block_ok]); a refused block changes nothing but the tree
      ([extend_chain_refused]).
    - [Origin]: the same from the genesis on, for all sequences of pushed blocks, queued
      transactions and ticks of the clock (the relation [reachable]): [genesis_starts],
      [forks_leave_no_trace], [supply_is_circulating], [queue_invariant].
    - [Delegates]: the top delegates, the shuffle, and what the slots between two blocks
      leave in the records. [Header]: exactly which headers verify, and the fee rate.
      [Queue]: the order of the queue; a generated block verifies.
      [Switching]: the path to a fork, the head after a push, and transactions that are lost.
    - [Concrete], [Story]: stand-ins for external code, a small database, and a chain with
      a fork on it, on which the theorems are instantiated (the lemmas whose names end in
      [_witness]).

    ** The network

    A node keeps connections to peers, asks them for the blocks that it is missing, and
    passes on what its delegate, the client, accepts. All of it runs in fibers that take
    turns where they wait: one that reads from each peer, one for each connection that is
    being made, five loops, and the calls of the client.

    - [NetMessages]: the messages, as values after unpacking. [Framing]: how they travel, in
      encrypted blocks of 16 bytes ([message_oriented_connection.cpp], [stcp_socket.cpp]);
      [connection_delivers], for messages up to the size that the reader asserts; a larger one
      ends it ([oversize_ends_reader]). [PeerDatabase]: [peer_database.cpp] over [level_pod_map.hpp];
      [peer_database_persists]. [MessageCache]: the cache of [node.cpp]; [cache_spec].
    - [NodeState]: [peer_connection] and [node_impl] as records with aliasing made explicit
      (the sets of connections hold names of the peers), the interface of the client as the
      class [NodeDelegate], and a fiber as the list of its next [task]s, from one point where
      it waits to the next. [NodePeers], [NodeSync], [NodeItems]: the operations, as [run]s:
      connections and handshake; synopses, lists of ids and the backlog of blocks;
      advertising, fetching and broadcast. [Node]: the dispatch of messages, calls and tasks,
      and runs of the whole node, as the relation [steps] on [event]s and as the function
      [exec].
    - [NodeChanges], [NodeRuns]: every operation of the node as a sequence of elementary
      changes, each under the permission that its caller has; [NodeSafety]: what therefore
      holds in every run, whatever the peers send: the client only gets messages that were
      asked for ([only_what_was_asked]), nothing is advertised twice ([advertised_once]).
      [NodeFetching]: a block that was requested is never requested again, not even from
      another peer, and a loop that fails to write to a peer ends ([requested_once],
      [write_failure_ends_loop]: what the code does, not what its comments mean).
      [NodeConnecting]: [connecting_ends], and how peers become active.
    - [Client]: the instance of [NodeDelegate] that [client.cpp] is, over [Chain].
      [ClientSync], [Synopses]: the ids that a peer is sent ([get_item_ids_spec]) and the
      synopsis that it is asked with ([synopsis_spec]), on any chain that [push_block] can
      build. A synopsis is spaced for the number that the node has counted for the last block of
      the peer that it has, which is not always its number ([counted_from_zero]); both rest on the index of the official chain by number, which [History] keeps
      as [indexed]. [NodeClient]: [network_keeps_ledger], the theorems about the chain hold
      for a client in the network.
    - [NodeStory]: a run on which these theorems are applied.

    ** The wallet

    A wallet keeps accounts, keys that are encrypted under a passphrase, the transactions
    that concern it and the balances that its keys can spend, in memory and in a database of
    records. It scans the blocks that are applied to the chain, finds the deposits to its
    accounts, which only it can recognise, and builds and signs transactions.

    - [Transaction]: [withdraw_types.cpp] over [extended_address.cpp]: a deposit goes to a
      key that is derived from that of the receiver; [memo_roundtrip], the receiver finds it,
      with its message, and can spend it. [transaction.cpp] and the constructors of the
      operations.
    - [WalletDb]: [wallet_records.hpp] and [wallet_db.cpp]: the maps in memory and the
      records on the disk, by directory, as the record [wallet_db]; loading, storing, and
      every operation that changes both. [WalletStored]: the relation [mirror] between a map
      and the records of its kind, and what the operations keep of it, up to what the source
      changes on one side only. [WalletPersists]: [wallet_persists], closing and opening
      finds everything again, after [k] operations of [db_step] with [2 k + 10 < 2^31] (the
      indexes of records are 32 bits wide). [change_passphrase] and [remove_contact_account] are left out of
      these operations: after them it is not so ([keys_unreadable], [key_lost]).
    - [Wallet]: the password, accounts and keys of [wallet.cpp], over [WalletDb] and a chain
      that is read only, the signing of blocks and what is listed. [WalletSpending]: the
      transactions that it builds, with amounts in IEEE doubles;
      [withdraw_to_transaction_spec], what is taken from which balances; the orders on the
      market, which go into the queue of the chain at once ([cancel_leaves_no_fee]).
      [WalletScan]: the scan of the chain.
    - [WalletSync]: what a block leaves of the balances of the chain, operation by operation
      (the relation [frame]); [wallet_in_step], a wallet that scans the chain from its beginning
      and then every block that is applied has the balances of the chain under its keys; not so
      when blocks are undone, or for balances under older forms of an address
      ([older_form_missed]). [signed_block_verifies], when the chain accepts
      the block that it has generated and the wallet of the delegate has signed.
    - [WalletStory]: a wallet on the chain of [Story], on which these theorems are applied,
      and examples of what the wallet does and does not mean to.

    Hashes, addresses, serialization, signatures and big integers belong to the fc library,
    which is not part of the repository: they are the classes [Fc], [FcTransaction],
    [FcOperations], [FcBlock], [FcGenesis], [FcMining], [FcBigint], [FcNet], [FcAes], [FcKeys],
    [FcMemo], [FcPrivate], [FcPack], [FcSecrets], [FcTexts] and [FcSizes], and the theorems hold
    for all their instances (those on prices under the laws [FcBigintLaws],
    [connection_delivers] under [FcAesLaws], those on memos under [FcKeysLaws], those on keys
    and signatures of the wallet under [FcPackLaws]: the curve, the cipher and the
    serialization do what their documentation says). [Build] says whether a build has its assertions,
    [Uninitialised] what an uninitialised variable holds. Public keys, addresses,
    hashes, ids and times are integers. The order of iteration over hash maps is that of
    stdpp's [map_to_list] or [elements], in the wallet any order (the class [HashOrder]); the
    theorems do not depend on it. The clock that
    [verify_header] reads is a member of the database.

    ** Fuel

    A loop that is not structural takes fuel and throws [does_not_return] without it; that
    exception is caught by no handler.
    - [verify_parents]: the length of the name plus two; [verify_parents_spec] shows that
      more changes nothing, and that the exception stands exactly for the runs that never
      end.
    - [recursive_mark]: the number of entries of [_fork_db], as a path of different blocks
      is not longer ([index_forks_linked], [extend_chain_refused]).
    - [get_fork_history]: the number of block records plus one; [pop_until]: the number of
      the head block plus one ([get_fork_history_spec]).
    - [search_loop]: the turns until the last nonce ([threads_divide]).
    - [production_loop]: the number of slots between two blocks ([production_info_ends]).
      [shuffle]: the number of delegates ([active_list_shuffled]). [next_slot]: the number
      of delegates, as a turn goes on by one slot ([next_slot_ends]).
    - [synopsis_loop]: the number of the last block plus one, as every turn goes on by at
      least one block ([synopsis_spec]). [connect_while_wanting]: the number of connections
      wanted plus one ([connecting_ends]). [write_loop]: the length of what is written.
    - [import_private_key]: two calls, as the second finds the key or the account that the
      first has added.

    ** What is not modelled

    The opening, closing and scanning of the databases, observers, the JSON file of the
    genesis; the text forms of assets and prices; the market operations that are not
    registered (short, cover, collateral); sockets, the exchange of keys, listening at ports
    and the limits of the rate; bitcoind's JSON interface and the output of the miner. Of the
    client, the commands of the user, the RPC servers and the command line; of the wallet, the
    fiber that locks it again, the import of other wallets and of JSON, and what it displays;
    the Qt client. These are input and output around this core. Other hashes of sphlib share
    no code with the ones that are modelled. *)
From Stdlib Require Export ZArith.
From stdpp Require Export base list numbers.
Open Scope Z_scope.

(** ** Bit operations on machine words, written as in the C sources *)
Declare Scope word_scope.
Delimit Scope word_scope with word.
Infix "^^" := Z.lxor (at level 50, left associativity) : word_scope.
Infix "&." := Z.land (at level 48, left associativity) : word_scope.
Infix "|." := Z.lor (at level 52, left associativity) : word_scope.
Infix "<<." := Z.shiftl (at level 45, left associativity) : word_scope.
Infix ">>." := Z.shiftr (at level 45, left associativity) : word_scope.

(** Assigning to an [unsigned char]. *)
Definition byte (x : Z) : Z := Z.land x 255.

(** Two's complement reading of the low 64 bits: C++ [int64_t] arithmetic. *)
Definition int64 (x : Z) : Z := (x + 2 ^ 63) mod 2 ^ 64 - 2 ^ 63.
Definition uint64 (x : Z) : Z := x mod 2 ^ 64.
Definition uint32 (x : Z) : Z := x mod 2 ^ 32.
Definition int32 (x : Z) : Z := (x + 2 ^ 31) mod 2 ^ 32 - 2 ^ 31.
Definition in_int64 (x : Z) : Prop := - 2 ^ 63 <= x < 2 ^ 63.

Create HintDb model discriminated.

Lemma int64_id x : in_int64 x -> int64 x = x.
Proof. unfold in_int64, int64. intros. rewrite Z.mod_small; lia. Qed.

Lemma int64_range x : in_int64 (int64 x).
Proof.
  unfold in_int64, int64.
  pose proof (Z.mod_pos_bound (x + 2 ^ 63) (2 ^ 64) ltac:(lia)). lia.
Qed.

(** [int64] only forgets a multiple of [2^64]. *)
Lemma int64_mod x : int64 x mod 2 ^ 64 = x mod 2 ^ 64.
Proof.
  unfold int64. rewrite Zminus_mod_idemp_l. f_equal. lia.
Qed.

Lemma int64_step x : exists k, int64 x = x + k * 2 ^ 64.
Proof.
  unfold int64. exists (- ((x + 2 ^ 63) / 2 ^ 64)).
  pose proof (Z.div_mod (x + 2 ^ 63) (2 ^ 64) ltac:(lia)). lia.
Qed.

Lemma byte_range x : 0 <= byte x < 256.
Proof.
  unfold byte. change 255 with (Z.ones 8). rewrite Z.land_ones by lia.
  apply Z.mod_pos_bound. lia.
Qed.

Lemma byte_mod x : byte x = x mod 256.
Proof. unfold byte. change 255 with (Z.ones 8). rewrite Z.land_ones by lia. reflexivity. Qed.

Lemma byte_id x : 0 <= x < 256 -> byte x = x.
Proof. intros. rewrite byte_mod. apply Z.mod_small; lia. Qed.

#[export] Hint Resolve int64_range byte_range : model.
#[export] Hint Rewrite byte_mod : words.

(** ** Records with some members assigned

    [r <| m := x |>] is [r] after [r.m = x]; an instance of [Members] lists the members. *)
Class Members (R : Type) := { eta : R -> R; eta_id r : eta r = r }.
Class Member {R A : Type} (get : R -> A) := update : (A -> A) -> R -> R.
Arguments update {R A} get {_} f r.
Ltac find_member R get :=
  let e := constr:(@eta R _) in
  let e := eval hnf in e in
  lazymatch eval pattern get in e with
  | ?put _ => exact (fun f => put (fun r => f (get r)))
  end.
#[export] Hint Extern 1 (@Member ?R _ ?get) => find_member R get : typeclass_instances.
Definition const {A} (x : A) : A -> A := fun _ => x.
Arguments const {A} x _ /.
Notation "r <| get := x |>" := (update get (const x) r)
  (at level 1, x at level 99, left associativity, format "r <| get := x |>").
Notation "r <| get ::= f |>" := (update get f r)
  (at level 1, f at level 99, left associativity, format "r <| get ::= f |>").

(** ** Buffers *)

(** [memcpy(buf + off, data, |data|)] into a buffer of fixed size. *)
Definition memcpy {A} (buf : list A) (off : nat) (data : list A) : list A :=
  take off buf ++ data ++ drop (off + length data) buf.

(** [memset(buf + off, x, len)]. *)
Definition memset {A} (buf : list A) (off : nat) (x : A) (len : nat) : list A :=
  memcpy buf off (replicate len x).

Lemma length_memcpy {A} (buf : list A) off data :
  (off + length data <= length buf)%nat -> length (memcpy buf off data) = length buf.
Proof. intros. unfold memcpy. rewrite !length_app, length_take, length_drop. lia. Qed.

Lemma take_memcpy {A} (buf : list A) off data :
  (off + length data <= length buf)%nat ->
  take (off + length data) (memcpy buf off data) = take off buf ++ data.
Proof.
  intros. unfold memcpy. rewrite app_assoc, take_app_length'; [done|].
  rewrite length_app, length_take. lia.
Qed.

Lemma find_app {A} (f : A -> bool) l l' :
  List.find f (l ++ l') = match List.find f l with Some a => Some a | None => List.find f l' end.
Proof. induction l as [|a l IH]; cbn; [done|]. by destruct (f a). Qed.

(** Cutting a message into blocks of [k] bytes; a last incomplete block is dropped. *)
Fixpoint chunks_aux {A} (n k : nat) (l : list A) : list (list A) :=
  match n with
  | O => []
  | S n => take k l :: chunks_aux n k (drop k l)
  end.
Definition chunks {A} (k : nat) (l : list A) : list (list A) :=
  chunks_aux (length l / k) k l.

Lemma length_concat_blocks {A} (k : nat) (bs : list (list A)) :
  Forall (fun b => length b = k) bs -> length (concat bs) = (length bs * k)%nat.
Proof. induction 1; simpl; [done|]. rewrite length_app. lia. Qed.

Lemma chunks_concat {A} (k : nat) (bs : list (list A)) :
  (0 < k)%nat -> Forall (fun b => length b = k) bs -> chunks k (concat bs) = bs.
Proof.
  intros Hk Hbs. unfold chunks. rewrite (length_concat_blocks k) by done.
  rewrite Nat.div_mul by lia. induction Hbs as [|b bs Hb _ IH]; simpl; [done|].
  rewrite take_app_length' by done. rewrite drop_app_length' by done. by rewrite IH.
Qed.

(** Case analysis on the [if]s and matches of a definition. *)
Ltac case_if :=
  match goal with
  | |- context [if ?b then _ else _] => destruct b eqn:?
  | H : context [if ?b then _ else _] |- _ => destruct b eqn:?
  end.

(** What [chunks] leaves out. *)
Definition rest {A} (k : nat) (l : list A) : list A := drop (length l / k * k) l.

Lemma chunks_aux_app {A} n k (l l' : list A) :
  (n * k <= length l)%nat -> chunks_aux n k (l ++ l') = chunks_aux n k l.
Proof.
  revert l. induction n as [|n IH]; intros l Hl; simpl; [done|].
  rewrite take_app_le, drop_app_le by lia. f_equal. apply IH. rewrite length_drop. lia.
Qed.

Lemma chunks_spec {A} n k (l : list A) :
  (n * k <= length l)%nat ->
  concat (chunks_aux n k l) = take (n * k) l /\ length (chunks_aux n k l) = n /\
  Forall (fun b => length b = k) (chunks_aux n k l).
Proof.
  revert l. induction n as [|n IH]; intros l Hl; simpl; [done|].
  destruct (IH (drop k l)) as (E & F & G); [rewrite length_drop; lia|].
  split; [|split; [lia|constructor; [rewrite length_take; lia|done]]].
  rewrite E. symmetry. rewrite <- (take_drop k (take (k + n * k) l)), take_take.
  f_equal; [f_equal; lia|]. rewrite skipn_firstn_comm. f_equal. lia.
Qed.

Section Chunks.
Context {A : Type} (k : nat) (Hk : (0 < k)%nat).
Implicit Types l : list A.

Lemma div_mul_le l : (length l / k * k <= length l)%nat.
Proof. pose proof (Nat.div_mod_eq (length l) k). lia. Qed.

Lemma chunks_lengths l : Forall (fun b => length b = k) (chunks k l).
Proof. apply chunks_spec, div_mul_le. Qed.

Lemma chunks_rest l : concat (chunks k l) ++ rest k l = l.
Proof.
  unfold chunks, rest. destruct (chunks_spec (length l / k) k l (div_mul_le l)) as (-> & _).
  apply take_drop.
Qed.

Lemma length_rest l : length (rest k l) = (length l mod k)%nat.
Proof. unfold rest. rewrite length_drop. pose proof (Nat.div_mod_eq (length l) k). lia. Qed.

Lemma rest_lt l : (length (rest k l) < k)%nat.
Proof. rewrite length_rest. apply Nat.mod_upper_bound. lia. Qed.

Lemma chunks_small l : (length l < k)%nat -> chunks k l = [].
Proof. intros. unfold chunks. by rewrite Nat.div_small. Qed.

Lemma rest_small l : (length l < k)%nat -> rest k l = l.
Proof. intros. unfold rest. by rewrite Nat.div_small. Qed.

Lemma chunks_one l : length l = k -> chunks k l = [l].
Proof.
  intros E. unfold chunks. rewrite E, Nat.div_same by lia. simpl.
  by rewrite take_ge by lia.
Qed.

(** Whole blocks first: the rest of the message is cut independently. *)
Lemma chunks_blocks_app bs l :
  Forall (fun b => length b = k) bs ->
  chunks k (concat bs ++ l) = bs ++ chunks k l /\ rest k (concat bs ++ l) = rest k l.
Proof.
  intros Hbs. unfold chunks, rest. rewrite length_app, (length_concat_blocks k) by done.
  rewrite (Nat.add_comm (length bs * k)), Nat.div_add by lia. split.
  - rewrite Nat.add_comm. clear Hk. induction Hbs as [|b bs Hb _ IH]; simpl; [done|].
    rewrite <- app_assoc, take_app_length', drop_app_length' by done. by rewrite IH.
  - rewrite Nat.mul_add_distr_r, (Nat.add_comm _ (length bs * k)), <- drop_drop.
    f_equal. apply drop_app_length'. symmetry. by apply length_concat_blocks.
Qed.

Lemma chunks_app l l' :
  chunks k (l ++ l') = chunks k l ++ chunks k (rest k l ++ l').
Proof.
  rewrite <- (chunks_rest l) at 1. rewrite <- app_assoc.
  apply (chunks_blocks_app _ _ (chunks_lengths l)).
Qed.

Lemma rest_app l l' : rest k (l ++ l') = rest k (rest k l ++ l').
Proof.
  rewrite <- (chunks_rest l) at 1. rewrite <- app_assoc.
  apply (chunks_blocks_app _ _ (chunks_lengths l)).
Qed.

Lemma rest_exact l : length l = k -> rest k l = [].
Proof. intros E. unfold rest. rewrite E, Nat.div_same by lia. apply drop_ge. lia. Qed.
End Chunks.

(** ** Writing into a buffer whose first bytes are known *)
Lemma take_memcpy_exact {A} (buf : list A) off data p :
  take off buf = p -> length p = off -> (off + length data <= length buf)%nat ->
  take (off + length data) (memcpy buf off data) = p ++ data.
Proof. intros <- _ ?. by apply take_memcpy. Qed.

(** A write that ends with the buffer fixes all of it. *)
Lemma memcpy_to_end {A} (buf : list A) off data :
  (off + length data)%nat = length buf -> memcpy buf off data = take off buf ++ data.
Proof. intros. unfold memcpy. rewrite drop_ge by lia. by rewrite app_nil_r. Qed.

Lemma memset_to_end {A} (buf : list A) off (x : A) n :
  (off + n)%nat = length buf -> memset buf off x n = take off buf ++ replicate n x.
Proof. intros. apply memcpy_to_end. by rewrite length_replicate. Qed.

Lemma length_memset {A} (buf : list A) off (x : A) n :
  (off + n <= length buf)%nat -> length (memset buf off x n) = length buf.
Proof. intros. apply length_memcpy. by rewrite length_replicate. Qed.

Lemma take_memset {A} (buf : list A) off (x : A) n m :
  (off + n <= length buf)%nat -> m = (off + n)%nat ->
  take m (memset buf off x n) = take off buf ++ replicate n x.
Proof.
  intros ? ->. unfold memset. rewrite <- (length_replicate n x) at 1.
  apply take_memcpy. by rewrite length_replicate.
Qed.

Lemma take_memcpy_before {A} (buf : list A) off data m :
  (m <= off <= length buf)%nat -> take m (memcpy buf off data) = take m buf.
Proof.
  intros. unfold memcpy. rewrite take_app_le by (rewrite length_take; lia).
  rewrite take_take. f_equal. lia.
Qed.

#[export] Hint Rewrite @length_app @length_take @length_drop @length_replicate
  @length_rev @length_cons @length_nil : lens.

(** Two adjacent writes are one. *)
Lemma memcpy_adjacent {A} (buf : list A) off1 off2 d1 d2 :
  off2 = (off1 + length d1)%nat -> (off2 + length d2 <= length buf)%nat ->
  memcpy (memcpy buf off1 d1) off2 d2 = memcpy buf off1 (d1 ++ d2).
Proof.
  intros -> Hl. unfold memcpy at 1. rewrite take_memcpy by lia.
  unfold memcpy. rewrite length_app, <- !app_assoc. do 3 f_equal.
  rewrite app_assoc, drop_app, (drop_ge (_ ++ _)) by (rewrite length_app, length_take; lia).
  simpl. rewrite drop_drop. f_equal. rewrite length_app, length_take. lia.
Qed.

(** Lengths of the lists at hand. *)
Ltac len_lia := autorewrite with lens; lia.

(** ** Congruence modulo [2^64], which wrapping arithmetic respects *)
Definition eqm (x y : Z) : Prop := x mod 2 ^ 64 = y mod 2 ^ 64.
Infix "==" := eqm (at level 70, no associativity) : Z_scope.

#[export] Instance eqm_equiv : Equivalence eqm.
Proof. unfold eqm. split; red; intros; congruence. Qed.
#[export] Instance eqm_add : Proper (eqm ==> eqm ==> eqm) Z.add.
Proof. unfold eqm. intros x x' Hx y y' Hy. by rewrite Zplus_mod, Hx, Hy, <- Zplus_mod. Qed.
#[export] Instance eqm_sub : Proper (eqm ==> eqm ==> eqm) Z.sub.
Proof. unfold eqm. intros x x' Hx y y' Hy. by rewrite Zminus_mod, Hx, Hy, <- Zminus_mod. Qed.

Lemma eqm_refl_eq x y : x = y -> x == y.
Proof. by intros ->. Qed.
Lemma int64_eqm x : int64 x == x.
Proof. apply int64_mod. Qed.
Lemma uint64_eqm x : uint64 x == x.
Proof. unfold eqm, uint64. by rewrite Zmod_mod. Qed.
#[export] Hint Rewrite int64_eqm uint64_eqm : wrap.

(** Removes the wrapping of int64, then compares. *)
Ltac eqm_lia := rewrite ?int64_eqm; apply eqm_refl_eq; lia.
