(* ===== verification/SphTypes.v ===== *)
(** [sph_types.h] of sphlib: truncation, rotations, and the encoding of 32-bit and
    64-bit words to and from bytes, as the hash functions of
    [src/miner/sphlib-3.0/c] use them. Bytes are [Z] in [0,255], words are [Z]. *)
From S2P Require Import Prelude.
Open Scope word_scope.

(** ** Truncation and rotation *)
Definition SPH_T32 (x : Z) : Z := x &. 0xFFFFFFFF.
Definition SPH_ROTL32 (x n : Z) : Z := SPH_T32 ((x <<. n) |. (x >>. (32 - n))).
Definition SPH_ROTR32 (x n : Z) : Z := SPH_ROTL32 x (32 - n).
Definition SPH_T64 (x : Z) : Z := x &. 0xFFFFFFFFFFFFFFFF.
Definition SPH_ROTL64 (x n : Z) : Z := SPH_T64 ((x <<. n) |. (x >>. (64 - n))).
Definition SPH_ROTR64 (x n : Z) : Z := SPH_ROTL64 x (64 - n).

(** [~ x] on [sph_u32] and [sph_u64]. *)
Definition not32 (x : Z) : Z := x ^^ 0xFFFFFFFF.
Definition not64 (x : Z) : Z := x ^^ 0xFFFFFFFFFFFFFFFF.

(** ** Byte order *)
Definition sph_bswap32 (x : Z) : Z :=
  let x := SPH_T32 ((x <<. 16) |. (x >>. 16)) in
  ((x &. 0xFF00FF00) >>. 8) |. ((x &. 0x00FF00FF) <<. 8).

Definition sph_bswap64 (x : Z) : Z :=
  let x := SPH_T64 ((x <<. 32) |. (x >>. 32)) in
  let x := ((x &. 0xFFFF0000FFFF0000) >>. 16)
           |. ((x &. 0x0000FFFF0000FFFF) <<. 16) in
  ((x &. 0xFF00FF00FF00FF00) >>. 8) |. ((x &. 0x00FF00FF00FF00FF) <<. 8).

(** A store through a word pointer on a little-endian machine. *)
Fixpoint store_le (n : nat) (val : Z) : list Z :=
  match n with
  | O => []
  | S n => byte val :: store_le n (val >>. 8)
  end.

(** A load through a word pointer on a little-endian machine. *)
Fixpoint load_le (src : list Z) : Z :=
  match src with
  | [] => 0
  | b :: src => b |. (load_le src <<. 8)
  end.

(** [src[i]]. *)
Definition at_ (src : list Z) (i : nat) : Z := nth i src 0.

Definition sph_enc32be (val : Z) : list Z :=
  [byte (val >>. 24); byte (val >>. 16); byte (val >>. 8); byte val].
Definition sph_dec32be (src : list Z) : Z :=
  (at_ src 0 <<. 24) |. (at_ src 1 <<. 16) |. (at_ src 2 <<. 8) |. at_ src 3.
Definition sph_enc32le (val : Z) : list Z :=
  [byte val; byte (val >>. 8); byte (val >>. 16); byte (val >>. 24)].
Definition sph_dec32le (src : list Z) : Z :=
  at_ src 0 |. (at_ src 1 <<. 8) |. (at_ src 2 <<. 16) |. (at_ src 3 <<. 24).

Definition sph_enc64be (val : Z) : list Z :=
  [byte (val >>. 56); byte (val >>. 48); byte (val >>. 40); byte (val >>. 32);
   byte (val >>. 24); byte (val >>. 16); byte (val >>. 8); byte val].
Definition sph_dec64be (src : list Z) : Z :=
  (at_ src 0 <<. 56) |. (at_ src 1 <<. 48) |. (at_ src 2 <<. 40) |. (at_ src 3 <<. 32)
  |. (at_ src 4 <<. 24) |. (at_ src 5 <<. 16) |. (at_ src 6 <<. 8) |. at_ src 7.
Definition sph_enc64le (val : Z) : list Z :=
  [byte val; byte (val >>. 8); byte (val >>. 16); byte (val >>. 24);
   byte (val >>. 32); byte (val >>. 40); byte (val >>. 48); byte (val >>. 56)].
Definition sph_dec64le (src : list Z) : Z :=
  at_ src 0 |. (at_ src 1 <<. 8) |. (at_ src 2 <<. 16) |. (at_ src 3 <<. 24)
  |. (at_ src 4 <<. 32) |. (at_ src 5 <<. 40) |. (at_ src 6 <<. 48) |. (at_ src 7 <<. 56).

(** The [_aligned] functions on a little-endian machine. *)
Definition sph_enc32be_aligned (val : Z) : list Z := store_le 4 (sph_bswap32 val).
Definition sph_dec32be_aligned (src : list Z) : Z := sph_bswap32 (load_le (take 4 src)).
Definition sph_enc64be_aligned (val : Z) : list Z := store_le 8 (sph_bswap64 val).
Definition sph_dec64be_aligned (src : list Z) : Z := sph_bswap64 (load_le (take 8 src)).
Definition sph_enc32le_aligned (val : Z) : list Z := store_le 4 val.
Definition sph_dec32le_aligned (src : list Z) : Z := load_le (take 4 src).
Definition sph_enc64le_aligned (val : Z) : list Z := store_le 8 val.
Definition sph_dec64le_aligned (src : list Z) : Z := load_le (take 8 src).

(** ** Words as numbers modulo a power of two *)
Lemma T32_mod x : SPH_T32 x = x mod 2 ^ 32.
Proof. apply (Z.land_ones x 32). lia. Qed.

Lemma T64_mod x : SPH_T64 x = x mod 2 ^ 64.
Proof. apply (Z.land_ones x 64). lia. Qed.

Lemma T32_range x : 0 <= SPH_T32 x < 2 ^ 32.
Proof. rewrite T32_mod. apply Z.mod_pos_bound. lia. Qed.

Lemma T64_range x : 0 <= SPH_T64 x < 2 ^ 64.
Proof. rewrite T64_mod. apply Z.mod_pos_bound. lia. Qed.

#[export] Hint Resolve T32_range T64_range : model.

(** Bits of a word below [2^w]. *)
Lemma testbit_small x w i : 0 <= x < 2 ^ w -> w <= i -> Z.testbit x i = false.
Proof.
  intros Hx Hi. destruct (decide (i < 0)) as [|Hi0]; [by apply Z.testbit_neg_r|].
  rewrite <- (Z.mod_small x (2 ^ w)) by lia. apply Z.mod_pow2_bits_high. split; [|lia].
  destruct (decide (w < 0)); [|lia]. rewrite Z.pow_neg_r in Hx by lia. lia.
Qed.

(** The bits of the constant [255]; [i] must be a number. *)
Lemma testbit_byte x i : 0 <= i -> Z.testbit (byte x) i = (i <? 8) && Z.testbit x i.
Proof.
  intros. unfold byte. change 255 with (Z.ones 8). rewrite Z.land_spec.
  rewrite Z.testbit_ones_nonneg by lia. by rewrite andb_comm.
Qed.

(** Byte [k / 8] of a word, put back in its place. *)
Lemma testbit_slice v k i :
  0 <= k -> 0 <= i ->
  Z.testbit (byte (v >>. k) <<. k) i = (k <=? i) && (i <? k + 8) && Z.testbit v i.
Proof.
  intros. rewrite Z.shiftl_spec by lia.
  destruct (Z.leb_spec k i); simpl.
  - rewrite testbit_byte, Z.shiftr_spec by lia.
    replace (i - k + k) with i by lia.
    f_equal. apply eq_true_iff_eq. rewrite !Z.ltb_lt. lia.
  - rewrite Z.testbit_neg_r by lia. reflexivity.
Qed.

Lemma testbit_slice0 v i :
  0 <= i -> Z.testbit (byte v) i = (0 <=? i) && (i <? 8) && Z.testbit v i.
Proof. intros. rewrite testbit_byte by lia. by replace (0 <=? i) with true by lia. Qed.

(** A word rebuilt from its bytes: compares each bit, using the word's bound. *)
Ltac word_of_bytes w :=
  apply Z.bits_inj'; intros i Hi; rewrite ?Z.lor_spec;
  rewrite ?testbit_slice, ?testbit_slice0 by lia;
  match goal with
  | |- _ = Z.testbit ?v i =>
      destruct (Z.testbit v i) eqn:E; rewrite ?andb_false_r; [|reflexivity];
      destruct (decide (i < w)); [lia|];
      rewrite (testbit_small v w i) in E by lia; discriminate
  end.

Lemma dec_enc32be v : 0 <= v < 2 ^ 32 -> sph_dec32be (sph_enc32be v) = v.
Proof. intros. unfold sph_dec32be, sph_enc32be, at_; cbn [nth]. word_of_bytes 32. Qed.

Lemma dec_enc32le v : 0 <= v < 2 ^ 32 -> sph_dec32le (sph_enc32le v) = v.
Proof. intros. unfold sph_dec32le, sph_enc32le, at_; cbn [nth]. word_of_bytes 32. Qed.

Lemma dec_enc64be v : 0 <= v < 2 ^ 64 -> sph_dec64be (sph_enc64be v) = v.
Proof. intros. unfold sph_dec64be, sph_enc64be, at_; cbn [nth]. word_of_bytes 64. Qed.

Lemma dec_enc64le v : 0 <= v < 2 ^ 64 -> sph_dec64le (sph_enc64le v) = v.
Proof. intros. unfold sph_dec64le, sph_enc64le, at_; cbn [nth]. word_of_bytes 64. Qed.

(** ** The word-at-a-time code agrees with the byte-at-a-time code *)

(** Bits of a swapped word, one index at a time; every side condition is closed by
    computation. *)
Ltac by_compute := first [apply Z.leb_le; reflexivity | apply Z.ltb_lt; reflexivity].
Ltac bswap_bit v Hv w :=
  cbv beta zeta delta [sph_bswap32 sph_bswap64 SPH_T32 SPH_T64];
  repeat first
    [ rewrite Z.lor_spec | rewrite Z.land_spec
    | rewrite Z.shiftl_spec by by_compute | rewrite Z.shiftr_spec by by_compute ];
  repeat match goal with
    | |- context [Z.testbit ?c ?i] =>
        lazymatch c with v => fail | _ => idtac end;
        let r := eval vm_compute in (Z.testbit c i) in
        change (Z.testbit c i) with r
    end;
  rewrite ?andb_true_r, ?andb_false_r, ?orb_false_r;
  repeat match goal with
    | |- context [Z.testbit v ?i] =>
        let j := eval vm_compute in i in
        first [ progress change i with j
              | rewrite (Z.testbit_neg_r v i) by by_compute
              | rewrite (testbit_small v w i Hv) by by_compute ]
    end;
  rewrite ?orb_false_r; reflexivity.

Lemma testbit_bswap32 v n :
  0 <= v < 2 ^ 32 -> (n < 32)%nat ->
  Z.testbit (sph_bswap32 v) (Z.of_nat n) =
  Z.testbit v (8 * (3 - Z.of_nat n / 8) + Z.of_nat n mod 8).
Proof.
  intros Hv Hn. do 32 (destruct n as [|n]; [bswap_bit v Hv 32|]). lia.
Qed.

Lemma testbit_bswap64 v n :
  0 <= v < 2 ^ 64 -> (n < 64)%nat ->
  Z.testbit (sph_bswap64 v) (Z.of_nat n) =
  Z.testbit v (8 * (7 - Z.of_nat n / 8) + Z.of_nat n mod 8).
Proof.
  intros Hv Hn. do 64 (destruct n as [|n]; [bswap_bit v Hv 64|]). lia.
Qed.

Ltac div_lia := Z.to_euclidean_division_equations; lia.

Lemma testbit_bswap32_Z v i :
  0 <= v < 2 ^ 32 -> 0 <= i < 32 ->
  Z.testbit (sph_bswap32 v) i = Z.testbit v (8 * (3 - i / 8) + i mod 8).
Proof.
  intros Hv Hi. rewrite <- (Z2Nat.id i) by lia. apply testbit_bswap32; [done|lia].
Qed.

Lemma testbit_bswap64_Z v i :
  0 <= v < 2 ^ 64 -> 0 <= i < 64 ->
  Z.testbit (sph_bswap64 v) i = Z.testbit v (8 * (7 - i / 8) + i mod 8).
Proof.
  intros Hv Hi. rewrite <- (Z2Nat.id i) by lia. apply testbit_bswap64; [done|lia].
Qed.

(** Byte [j] of the swapped word is byte [k] of the word, [j + k] being the last index. *)
Lemma byte_bswap32 v j k :
  0 <= v < 2 ^ 32 -> 0 <= k <= 3 -> j = 8 * (3 - k) ->
  byte (sph_bswap32 v >>. j) = byte (v >>. (8 * k)).
Proof.
  intros Hv Hk ->. apply Z.bits_inj'. intros i Hi.
  rewrite !testbit_byte, !Z.shiftr_spec by lia.
  destruct (Z.ltb_spec i 8); [|done]. simpl.
  rewrite testbit_bswap32_Z by lia. f_equal. div_lia.
Qed.

Lemma byte_bswap64 v j k :
  0 <= v < 2 ^ 64 -> 0 <= k <= 7 -> j = 8 * (7 - k) ->
  byte (sph_bswap64 v >>. j) = byte (v >>. (8 * k)).
Proof.
  intros Hv Hk ->. apply Z.bits_inj'. intros i Hi.
  rewrite !testbit_byte, !Z.shiftr_spec by lia.
  destruct (Z.ltb_spec i 8); [|done]. simpl.
  rewrite testbit_bswap64_Z by lia. f_equal. div_lia.
Qed.

Ltac store_bytes lem :=
  cbn [store_le]; rewrite !Z.shiftr_shiftr by lia; simpl Z.add;
  repeat match goal with |- _ :: _ = _ :: _ => apply f_equal2 end;
  match goal with
  | |- [] = [] => reflexivity
  | |- byte (_ ?v >>. ?j) = byte (?v >>. ?k) =>
      let k' := eval compute in (k / 8) in apply (lem v j k'); lia
  | |- byte (_ ?v >>. ?j) = byte ?v =>
      transitivity (byte (v >>. (8 * 0))); [apply (lem v j 0); lia|by rewrite Z.shiftr_0_r]
  | |- byte (?f ?v) = byte (?v >>. ?k) =>
      let k' := eval compute in (k / 8) in
      transitivity (byte (f v >>. 0)); [by rewrite Z.shiftr_0_r|apply (lem v 0 k'); lia]
  end.

Lemma enc32be_aligned_eq v :
  0 <= v < 2 ^ 32 -> sph_enc32be_aligned v = sph_enc32be v.
Proof. intros. unfold sph_enc32be_aligned, sph_enc32be. store_bytes byte_bswap32. Qed.

Lemma enc64be_aligned_eq v :
  0 <= v < 2 ^ 64 -> sph_enc64be_aligned v = sph_enc64be v.
Proof. intros. unfold sph_enc64be_aligned, sph_enc64be. store_bytes byte_bswap64. Qed.

Lemma enc32le_aligned_eq v : sph_enc32le_aligned v = sph_enc32le v.
Proof.
  unfold sph_enc32le_aligned, sph_enc32le. cbn [store_le].
  rewrite !Z.shiftr_shiftr by lia. reflexivity.
Qed.

Lemma enc64le_aligned_eq v : sph_enc64le_aligned v = sph_enc64le v.
Proof.
  unfold sph_enc64le_aligned, sph_enc64le. cbn [store_le].
  rewrite !Z.shiftr_shiftr by lia. reflexivity.
Qed.

Lemma testbit_bswap64_high v i : 64 <= i -> Z.testbit (sph_bswap64 v) i = false.
Proof.
  intros Hi. unfold sph_bswap64. cbv zeta.
  rewrite Z.lor_spec, Z.shiftr_spec, Z.shiftl_spec, !Z.land_spec by lia.
  rewrite (testbit_small 0xFF00FF00FF00FF00 64), (testbit_small 0x00FF00FF00FF00FF 56) by lia.
  by rewrite !andb_false_r.
Qed.

Lemma testbit_bswap32_high v i : 32 <= i -> Z.testbit (sph_bswap32 v) i = false.
Proof.
  intros Hi. unfold sph_bswap32. cbv zeta.
  rewrite Z.lor_spec, Z.shiftr_spec, Z.shiftl_spec, !Z.land_spec by lia.
  rewrite (testbit_small 0xFF00FF00 32), (testbit_small 0x00FF00FF 24) by lia.
  by rewrite !andb_false_r.
Qed.

(** A number whose bits from [w] on are zero is below [2^w]. *)
Lemma bits_high_bound x w :
  0 <= w -> 0 <= x -> (forall i, w <= i -> Z.testbit x i = false) -> x < 2 ^ w.
Proof.
  intros Hw Hx Hb. destruct (decide (x = 0)) as [->|]; [apply Z.pow_pos_nonneg; lia|].
  apply Z.log2_lt_pow2; [lia|]. destruct (decide (Z.log2 x < w)); [done|].
  pose proof (Z.bit_log2 x ltac:(lia)) as Hl. rewrite Hb in Hl by lia. done.
Qed.

Lemma sph_bswap64_nonneg v : 0 <= sph_bswap64 v.
Proof. unfold sph_bswap64. apply Z.lor_nonneg. rewrite Z.shiftr_nonneg, Z.shiftl_nonneg.
  split; apply Z.land_nonneg; lia. Qed.

Lemma sph_bswap32_nonneg v : 0 <= sph_bswap32 v.
Proof. unfold sph_bswap32. apply Z.lor_nonneg. rewrite Z.shiftr_nonneg, Z.shiftl_nonneg.
  split; apply Z.land_nonneg; lia. Qed.

Lemma sph_bswap64_range v : 0 <= sph_bswap64 v < 2 ^ 64.
Proof.
  split; [apply sph_bswap64_nonneg|]. apply bits_high_bound; [lia|apply sph_bswap64_nonneg|].
  apply testbit_bswap64_high.
Qed.

Lemma sph_bswap32_range v : 0 <= sph_bswap32 v < 2 ^ 32.
Proof.
  split; [apply sph_bswap32_nonneg|]. apply bits_high_bound; [lia|apply sph_bswap32_nonneg|].
  apply testbit_bswap32_high.
Qed.

Lemma sph_bswap64_involutive v : 0 <= v < 2 ^ 64 -> sph_bswap64 (sph_bswap64 v) = v.
Proof.
  intros Hv. apply Z.bits_inj'. intros i Hi. destruct (decide (i < 64)).
  - rewrite testbit_bswap64_Z by (done || apply sph_bswap64_range).
    rewrite testbit_bswap64_Z by (done || div_lia). f_equal. div_lia.
  - rewrite testbit_bswap64_high by lia. by rewrite (testbit_small v 64) by lia.
Qed.

Lemma sph_bswap32_involutive v : 0 <= v < 2 ^ 32 -> sph_bswap32 (sph_bswap32 v) = v.
Proof.
  intros Hv. apply Z.bits_inj'. intros i Hi. destruct (decide (i < 32)).
  - rewrite testbit_bswap32_Z by (done || apply sph_bswap32_range).
    rewrite testbit_bswap32_Z by (done || div_lia). f_equal. div_lia.
  - rewrite testbit_bswap32_high by lia. by rewrite (testbit_small v 32) by lia.
Qed.

Lemma load_store_le n v : 0 <= v -> load_le (store_le n v) = v mod 2 ^ (8 * Z.of_nat n).
Proof.
  revert v. induction n as [|n IH]; intros v Hv; cbn [store_le load_le].
  - by rewrite Z.mod_1_r.
  - rewrite IH by (apply Z.shiftr_nonneg; lia).
    apply Z.bits_inj'. intros i Hi.
    rewrite Z.lor_spec, Z.shiftl_spec, testbit_byte by lia.
    destruct (Z.ltb_spec i 8); simpl.
    + rewrite (Z.testbit_neg_r _ (i - 8)), orb_false_r by lia.
      by rewrite Z.mod_pow2_bits_low by lia.
    + destruct (decide (i < 8 * Z.of_nat (S n))).
      * rewrite !Z.mod_pow2_bits_low, Z.shiftr_spec by lia. f_equal. lia.
      * by rewrite !Z.mod_pow2_bits_high by lia.
Qed.

(** A decoded word encodes back to the bytes it was read from. *)
Definition is_bytes (l : list Z) : Prop := Forall (fun b => 0 <= b < 256) l.

Lemma byte_of_sum v k b :
  0 <= k -> 0 <= b < 256 -> (forall i, 0 <= i < 8 -> Z.testbit v (i + k) = Z.testbit b i) ->
  byte (v >>. k) = b.
Proof.
  intros Hk Hb Hv. apply Z.bits_inj'. intros i Hi. rewrite testbit_byte by lia.
  destruct (Z.ltb_spec i 8); simpl.
  - rewrite Z.shiftr_spec by lia. apply Hv. lia.
  - by rewrite (testbit_small b 8) by lia.
Qed.

Lemma byte_of_sum0 v b :
  0 <= b < 256 -> (forall i, 0 <= i < 8 -> Z.testbit v i = Z.testbit b i) -> byte v = b.
Proof.
  intros Hb Hv. rewrite <- (Z.shiftr_0_r v). apply byte_of_sum; [lia|done|].
  intros i Hi. rewrite Z.add_0_r. by apply Hv.
Qed.

Ltac dec_bytes :=
  intros i Hi; rewrite !Z.lor_spec, ?Z.shiftl_spec by lia;
  repeat match goal with
    | H : 0 <= ?b < 256 |- context [Z.testbit ?b ?j] =>
        first [ rewrite (Z.testbit_neg_r b j) by lia
              | rewrite (testbit_small b 8 j) by lia
              | lazymatch goal with
                | |- context [Z.testbit b (i + ?k - ?k')] =>
                    replace (i + k - k') with i by lia
                end ]
    end; rewrite ?orb_false_r; reflexivity.

Lemma enc_dec64be src :
  is_bytes src -> length src = 8%nat -> sph_enc64be (sph_dec64be src) = src.
Proof.
  intros Hb Hl. do 9 (destruct src as [|? src]; try done).
  unfold is_bytes in Hb.
  repeat match goal with H : Forall _ (_ :: _) |- _ => apply Forall_cons_iff in H as [? H] end.
  unfold sph_enc64be, sph_dec64be, at_. cbn [nth].
  repeat match goal with |- _ :: _ = _ :: _ => apply f_equal2 end; [..|done];
    first [apply byte_of_sum; [lia|done|dec_bytes] | apply byte_of_sum0; [done|dec_bytes]].
Qed.

Lemma enc_dec32be src :
  is_bytes src -> length src = 4%nat -> sph_enc32be (sph_dec32be src) = src.
Proof.
  intros Hb Hl. do 5 (destruct src as [|? src]; try done).
  unfold is_bytes in Hb.
  repeat match goal with H : Forall _ (_ :: _) |- _ => apply Forall_cons_iff in H as [? H] end.
  unfold sph_enc32be, sph_dec32be, at_. cbn [nth].
  repeat match goal with |- _ :: _ = _ :: _ => apply f_equal2 end; [..|done];
    first [apply byte_of_sum; [lia|done|dec_bytes] | apply byte_of_sum0; [done|dec_bytes]].
Qed.

(** ** [store_le] as a positional notation *)
Lemma length_store_le n v : length (store_le n v) = n.
Proof. revert v. induction n; intros; simpl; auto. Qed.

Lemma store_le_app a b v :
  store_le (a + b) v = store_le a v ++ store_le b (v >>. (8 * Z.of_nat a)).
Proof.
  revert v. induction a as [|a IH]; intros v; cbn [store_le Nat.add app].
  - by rewrite Z.shiftr_0_r.
  - rewrite IH, Z.shiftr_shiftr by lia. do 4 f_equal. lia.
Qed.

Lemma store_le_mod n v : store_le n (v mod 2 ^ (8 * Z.of_nat n)) = store_le n v.
Proof.
  revert v. induction n as [|n IH]; intros v; cbn [store_le]; [done|]. f_equal.
  - apply Z.bits_inj'. intros i Hi. rewrite !testbit_byte by lia.
    destruct (Z.ltb_spec i 8); simpl; [|done]. by rewrite Z.mod_pow2_bits_low by lia.
  - rewrite <- (IH (v >>. 8)). f_equal.
    apply Z.bits_inj'. intros i Hi. rewrite Z.shiftr_spec by lia.
    destruct (decide (i < 8 * Z.of_nat n)).
    + rewrite !Z.mod_pow2_bits_low, Z.shiftr_spec by lia. done.
    + by rewrite !Z.mod_pow2_bits_high by lia.
Qed.

Lemma store_le_0 n : store_le n 0 = replicate n 0.
Proof. induction n as [|n IH]; cbn [store_le replicate]; [done|]. by rewrite Z.shiftr_0_l, IH. Qed.

Lemma enc64le_store v : sph_enc64le v = store_le 8 v.
Proof. symmetry. apply enc64le_aligned_eq. Qed.

Lemma enc64be_store v : sph_enc64be v = rev (store_le 8 v).
Proof. rewrite <- enc64le_store. reflexivity. Qed.

Lemma enc32be_store v : sph_enc32be v = rev (store_le 4 v).
Proof. change (sph_enc32be v) with (rev (sph_enc32le v)). by rewrite <- enc32le_aligned_eq. Qed.
#[export] Hint Rewrite length_store_le : lens.

(** ** Aligned decoding *)
Lemma lor_bound x y w : 0 <= w -> 0 <= x < 2 ^ w -> 0 <= y < 2 ^ w -> 0 <= x |. y < 2 ^ w.
Proof.
  intros Hw Hx Hy. assert (0 <= x |. y) by (apply Z.lor_nonneg; lia). split; [done|].
  apply bits_high_bound; [done|done|]. intros i Hi. rewrite Z.lor_spec.
  by rewrite (testbit_small x w), (testbit_small y w) by lia.
Qed.

Lemma shiftl_bound x k a w :
  0 <= a -> 0 <= k -> a + k <= w -> 0 <= x < 2 ^ a -> 0 <= x <<. k < 2 ^ w.
Proof.
  intros Ha Hk Hw Hx. rewrite Z.shiftl_mul_pow2 by done. split; [nia|].
  apply Z.lt_le_trans with (2 ^ a * 2 ^ k).
  - apply Z.mul_lt_mono_pos_r; [|lia]. apply Z.pow_pos_nonneg; lia.
  - rewrite <- Z.pow_add_r by done. apply Z.pow_le_mono_r; lia.
Qed.

Ltac bytes_bound w :=
  repeat (apply lor_bound; [lia| |]);
  first [ apply shiftl_bound with 8; lia
        | split; [lia|]; apply Z.lt_le_trans with (2 ^ 8); [lia|apply Z.pow_le_mono_r; lia] ].

Ltac split_bytes H :=
  unfold is_bytes in H;
  repeat match type of H with
    | Forall _ (_ :: _) => apply Forall_cons_iff in H as [? H]
    end.

Lemma sph_dec32be_range src :
  is_bytes src -> length src = 4%nat -> 0 <= sph_dec32be src < 2 ^ 32.
Proof.
  intros Hb Hl. do 5 (destruct src as [|? src]; try done). split_bytes Hb.
  unfold sph_dec32be, at_. cbn [nth]. bytes_bound 32.
Qed.

Lemma sph_dec64be_range src :
  is_bytes src -> length src = 8%nat -> 0 <= sph_dec64be src < 2 ^ 64.
Proof.
  intros Hb Hl. do 9 (destruct src as [|? src]; try done). split_bytes Hb.
  unfold sph_dec64be, at_. cbn [nth]. bytes_bound 64.
Qed.

Lemma at_take src n i : (i < n)%nat -> at_ (take n src) i = at_ src i.
Proof.
  unfold at_. revert n i. induction src as [|x src IH]; intros [|n] [|i] Hi; simpl;
    try done; try lia. apply IH. lia.
Qed.

Lemma dec32be_aligned_eq src :
  is_bytes src -> (4 <= length src)%nat -> sph_dec32be_aligned src = sph_dec32be src.
Proof.
  intros Hb Hl.
  assert (Hs : is_bytes (take 4 src)) by (by apply Forall_take).
  assert (Hn : length (take 4 src) = 4%nat) by (rewrite length_take; lia).
  pose proof (sph_dec32be_range _ Hs Hn) as Hr.
  assert (E : sph_dec32be (take 4 src) = sph_dec32be src)
    by (unfold sph_dec32be; rewrite !at_take by lia; done).
  unfold sph_dec32be_aligned. rewrite <- (enc_dec32be _ Hs Hn) at 1.
  rewrite <- enc32be_aligned_eq by done. unfold sph_enc32be_aligned.
  rewrite load_store_le by apply sph_bswap32_nonneg.
  rewrite Z.mod_small by apply sph_bswap32_range.
  by rewrite sph_bswap32_involutive.
Qed.

Lemma dec64be_aligned_eq src :
  is_bytes src -> (8 <= length src)%nat -> sph_dec64be_aligned src = sph_dec64be src.
Proof.
  intros Hb Hl.
  assert (Hs : is_bytes (take 8 src)) by (by apply Forall_take).
  assert (Hn : length (take 8 src) = 8%nat) by (rewrite length_take; lia).
  pose proof (sph_dec64be_range _ Hs Hn) as Hr.
  assert (E : sph_dec64be (take 8 src) = sph_dec64be src)
    by (unfold sph_dec64be; rewrite !at_take by lia; done).
  unfold sph_dec64be_aligned. rewrite <- (enc_dec64be _ Hs Hn) at 1.
  rewrite <- enc64be_aligned_eq by done. unfold sph_enc64be_aligned.
  rewrite load_store_le by apply sph_bswap64_nonneg.
  rewrite Z.mod_small by apply sph_bswap64_range.
  by rewrite sph_bswap64_involutive.
Qed.

(** Little-endian loads: the aligned and the portable form are the same sum. *)
Lemma dec32le_aligned_eq src :
  (4 <= length src)%nat -> sph_dec32le_aligned src = sph_dec32le src.
Proof.
  intros Hl. do 4 (destruct src as [|? src]; [simpl in Hl; lia|]).
  unfold sph_dec32le_aligned, sph_dec32le, at_. simpl take. cbn [load_le nth].
  rewrite Z.shiftl_0_l, Z.lor_0_r, !Z.shiftl_lor, !Z.shiftl_shiftl by lia.
  rewrite <- !Z.lor_assoc. reflexivity.
Qed.

Lemma dec64le_aligned_eq src :
  (8 <= length src)%nat -> sph_dec64le_aligned src = sph_dec64le src.
Proof.
  intros Hl. do 8 (destruct src as [|? src]; [simpl in Hl; lia|]).
  unfold sph_dec64le_aligned, sph_dec64le, at_. simpl take. cbn [load_le nth].
  rewrite Z.shiftl_0_l, Z.lor_0_r, !Z.shiftl_lor, !Z.shiftl_shiftl by lia.
  rewrite <- !Z.lor_assoc. reflexivity.
Qed.

Lemma store_le_inj n v w :
  0 <= v < 2 ^ (8 * Z.of_nat n) -> 0 <= w < 2 ^ (8 * Z.of_nat n) ->
  store_le n v = store_le n w -> v = w.
Proof.
  intros Hv Hw E. rewrite <- (Z.mod_small v (2 ^ (8 * Z.of_nat n))) by done.
  rewrite <- (Z.mod_small w (2 ^ (8 * Z.of_nat n))) by done.
  rewrite <- !load_store_le by lia. by rewrite E.
Qed.

(** ** Properties *)

(** Encoding a word to bytes and decoding the bytes gives the word back, for both
    widths and both byte orders. *)
Theorem enc_dec_roundtrip v w :
  0 <= v < 2 ^ 32 -> 0 <= w < 2 ^ 64 ->
  sph_dec32be (sph_enc32be v) = v /\ sph_dec32le (sph_enc32le v) = v /\
  sph_dec64be (sph_enc64be w) = w /\ sph_dec64le (sph_enc64le w) = w.
Proof.
  intros. split; [by apply dec_enc32be|]. split; [by apply dec_enc32le|].
  split; [by apply dec_enc64be|by apply dec_enc64le].
Qed.

Lemma enc_dec_roundtrip_witness :
  sph_dec32be (sph_enc32be 0xDEADBEEF) = 0xDEADBEEF /\
  sph_dec32le (sph_enc32le 0xDEADBEEF) = 0xDEADBEEF /\
  sph_dec64be (sph_enc64be 0xFEDCBA9876543210) = 0xFEDCBA9876543210 /\
  sph_dec64le (sph_enc64le 0xFEDCBA9876543210) = 0xFEDCBA9876543210.
Proof. exact (enc_dec_roundtrip 0xDEADBEEF 0xFEDCBA9876543210 ltac:(lia) ltac:(lia)). Defined.

(** The fast paths on aligned data, which store and load a whole word of a
    little-endian machine and swap its bytes, agree with the portable byte-by-byte code. *)
Theorem aligned_portable v w src :
  0 <= v < 2 ^ 32 -> 0 <= w < 2 ^ 64 -> is_bytes src -> (8 <= length src)%nat ->
  (sph_enc32be_aligned v = sph_enc32be v /\ sph_enc32le_aligned v = sph_enc32le v /\
   sph_enc64be_aligned w = sph_enc64be w /\ sph_enc64le_aligned w = sph_enc64le w) /\
  (sph_dec32be_aligned src = sph_dec32be src /\ sph_dec32le_aligned src = sph_dec32le src /\
   sph_dec64be_aligned src = sph_dec64be src /\ sph_dec64le_aligned src = sph_dec64le src).
Proof.
  intros Hv Hw Hb Hl. repeat apply conj.
  - by apply enc32be_aligned_eq.
  - apply enc32le_aligned_eq.
  - by apply enc64be_aligned_eq.
  - apply enc64le_aligned_eq.
  - apply dec32be_aligned_eq; [done|lia].
  - apply dec32le_aligned_eq; lia.
  - apply dec64be_aligned_eq; done.
  - apply dec64le_aligned_eq; done.
Qed.

Lemma aligned_portable_witness :
  let src := [1; 2; 3; 4; 5; 6; 7; 255] in
  (sph_enc32be_aligned 77 = sph_enc32be 77 /\ sph_enc32le_aligned 77 = sph_enc32le 77 /\
   sph_enc64be_aligned 77 = sph_enc64be 77 /\ sph_enc64le_aligned 77 = sph_enc64le 77) /\
  (sph_dec32be_aligned src = sph_dec32be src /\ sph_dec32le_aligned src = sph_dec32le src /\
   sph_dec64be_aligned src = sph_dec64be src /\ sph_dec64le_aligned src = sph_dec64le src).
Proof.
  apply (aligned_portable 77 77 [1; 2; 3; 4; 5; 6; 7; 255]); [lia|lia|repeat constructor; lia|cbn; lia].
Defined.

(** The mask-and-rotate byte swaps reverse the bytes of a word and are their own
    inverses. *)
Theorem bswap_reverses v w :
  0 <= v < 2 ^ 32 -> 0 <= w < 2 ^ 64 ->
  (store_le 4 (sph_bswap32 v) = rev (store_le 4 v) /\ sph_bswap32 (sph_bswap32 v) = v) /\
  (store_le 8 (sph_bswap64 w) = rev (store_le 8 w) /\ sph_bswap64 (sph_bswap64 w) = w).
Proof.
  intros Hv Hw. split; split.
  - rewrite <- enc32be_store. by apply enc32be_aligned_eq.
  - by apply sph_bswap32_involutive.
  - rewrite <- enc64be_store. by apply enc64be_aligned_eq.
  - by apply sph_bswap64_involutive.
Qed.

Lemma bswap_reverses_witness :
  (store_le 4 (sph_bswap32 0x01020304) = rev (store_le 4 0x01020304) /\
   sph_bswap32 (sph_bswap32 0x01020304) = 0x01020304) /\
  (store_le 8 (sph_bswap64 0xFF) = rev (store_le 8 0xFF) /\ sph_bswap64 (sph_bswap64 0xFF) = 0xFF).
Proof. exact (bswap_reverses 0x01020304 0xFF ltac:(lia) ltac:(lia)). Defined.
