(* ===== verification/MdHelper.v ===== *)
(** [md_helper.c] of sphlib: the Merkle-Damgard engine that every hash of the MD and SHA
    families includes, with its buffering, its direct path on whole blocks, its padding
    and its length field; parameterised, as the C file is by its macros, by a
    configuration and by the compression function [RFUN]. The model is the [SPH_64] build
    on a little-endian machine. *)
From S2P Require Import Prelude SphTypes.
Open Scope word_scope.

(** The macros PLW1 and PLW4 select the width of the length field. *)
Inductive length_words := PLW1 | PLW2 | PLW4.

(** The macros of one inclusion: [word64]: BE64 or LE64 (otherwise BE32 or LE32);
    [big_endian]: BE64 or BE32; [BLEN]; [PW01]; and of the platform: [SPH_UPTR] (a
    pointer-sized integer type exists) and [SPH_UNALIGNED]. *)
Record config := Config {
  word64 : bool;
  big_endian : bool;
  BLEN : option nat;
  PW01 : bool;
  plw : length_words;
  SPH_UPTR : bool;
  SPH_UNALIGNED : bool
}.

Definition SPH_BLEN (c : config) : nat :=
  match BLEN c with
  | Some b => b
  | None => if word64 c then 128%nat else 64%nat
  end.
Definition SPH_WLEN (c : config) : nat := if word64 c then 8%nat else 4%nat.
Definition SPH_MAXPAD (c : config) : nat :=
  match plw c with
  | PLW1 => SPH_BLEN c - SPH_WLEN c
  | PLW4 => SPH_BLEN c - 4 * SPH_WLEN c
  | PLW2 => SPH_BLEN c - 2 * SPH_WLEN c
  end%nat.

(** [sph_XXX_context]: the data buffer, the chaining value, the byte count. *)
Record context := Context_ { buf : list Z; val : list Z; count : Z }.

Section Engine.
Context (c : config) (RFUN : list Z -> list Z -> list Z).
Notation B := (SPH_BLEN c).

(** [(unsigned)sc->count & (SPH_BLEN - 1U)]. *)
Definition current_of (sc : context) : nat :=
  Z.to_nat ((count sc &. 0xFFFFFFFF) &. (Z.of_nat B - 1)).

(** The loop of [HASH_short]; one round consumes at least one byte, so [length data]
    rounds are enough. *)
Fixpoint short_loop (fuel : nat) (current : nat) (data : list Z) (sc : context) : context :=
  match fuel with
  | O => sc
  | S fuel =>
      if (length data =? 0)%nat then sc
      else
        let clen := Nat.min (B - current) (length data) in
        let buf' := memcpy (buf sc) current (take clen data) in
        let current' := (current + clen)%nat in
        let count' := SPH_T64 (count sc + Z.of_nat clen) in
        if (current' =? B)%nat
        then short_loop fuel 0 (drop clen data) (Context_ buf' (RFUN buf' (val sc)) count')
        else short_loop fuel current' (drop clen data) (Context_ buf' (val sc) count')
  end.

Definition HASH_short (sc : context) (data : list Z) : context :=
  short_loop (length data) (current_of sc) data sc.

(** The loop on whole blocks of [sph_HASH]: the chaining value and the bytes left. *)
Fixpoint block_loop (fuel : nat) (data : list Z) (v : list Z) : list Z * list Z :=
  match fuel with
  | O => (v, data)
  | S fuel =>
      if (B <=? length data)%nat
      then block_loop fuel (drop B data) (RFUN (take B data) v)
      else (v, data)
  end.

(** [sph_HASH(cc, data, len)], [addr] being the address [data] points to. *)
Definition sph_HASH (sc : context) (addr : Z) (data : list Z) : context :=
  if negb (SPH_UPTR c) then HASH_short sc data
  else if (length data <? 2 * B)%nat then HASH_short sc data
  else
    let current := current_of sc in
    let t := if (0 <? current)%nat then (B - current)%nat else 0%nat in
    let sc := if (0 <? current)%nat then HASH_short sc (take t data) else sc in
    let data := drop t data in
    let addr := addr + Z.of_nat t in
    if negb (SPH_UNALIGNED c) && negb ((addr &. (Z.of_nat (SPH_WLEN c) - 1)) =? 0)
    then HASH_short sc data
    else
      let '(v, tail) := block_loop (length data) data (val sc) in
      Context_ (if (0 <? length tail)%nat then memcpy (buf sc) 0 tail else buf sc) v
        (SPH_T64 (count sc + Z.of_nat (length data))).

(** The byte written after the message: [ub] holds [n] more bits. *)
Definition pad_byte (ub n : Z) : Z :=
  if PW01 c then byte ((0x100 |. (ub &. 0xFF)) >>. (8 - n))
  else let z := 0x80 >>. n in ((ub &. (2 ^ 32 - z)) |. z) &. 0xFF.

(** The length field, by configuration. *)
Definition put_length (buf : list Z) (count n : Z) : list Z :=
  let W := SPH_WLEN c in
  let M := SPH_MAXPAD c in
  let low := SPH_T64 (count <<. 3) + n in
  let high := count >>. 61 in
  match word64 c, big_endian c, plw c with
  | true, true, PLW1 => memcpy buf M (sph_enc64be_aligned low)
  | true, true, PLW4 =>
      let buf := memset buf M 0 (2 * W) in
      let buf := memcpy buf (M + 2 * W) (sph_enc64be_aligned high) in
      memcpy buf (M + 3 * W) (sph_enc64be_aligned low)
  | true, true, PLW2 =>
      let buf := memcpy buf M (sph_enc64be_aligned high) in
      memcpy buf (M + W) (sph_enc64be_aligned low)
  | true, false, PLW1 => memcpy buf M (sph_enc64le_aligned low)
  | true, false, _ =>
      let buf := memcpy buf M (sph_enc64le_aligned low) in
      memcpy buf (M + W) (sph_enc64le_aligned high)
  | false, true, _ => memcpy buf M (sph_enc64be_aligned low)
  | false, false, _ => memcpy buf M (sph_enc64le_aligned low)
  end.

Definition enc_word (x : Z) : list Z :=
  match word64 c, big_endian c with
  | true, true => sph_enc64be x
  | true, false => sph_enc64le x
  | false, true => sph_enc32be x
  | false, false => sph_enc32le x
  end.

(** [HASH_addbits_and_close]: the context and the [rnum] words written to [dst]. *)
Definition addbits_and_close (sc : context) (ub n : Z) (rnum : nat) : context * list Z :=
  let current := current_of sc in
  let b := memcpy (buf sc) current [pad_byte ub n] in
  let current := S current in
  let '(b, v) :=
    if (SPH_MAXPAD c <? current)%nat then
      let b := memset b current 0 (B - current) in
      (memset b 0 0 (SPH_MAXPAD c), RFUN b (val sc))
    else (memset b current 0 (SPH_MAXPAD c - current), val sc) in
  let b := put_length b (count sc) n in
  let v := RFUN b v in
  (Context_ b v (count sc), concat (map enc_word (take rnum v))).

Definition HASH_close (sc : context) (rnum : nat) : context * list Z :=
  addbits_and_close sc 0 0 rnum.

(** A sequence of updates, each a pointer and the bytes it points to. *)
Definition updates (sc : context) (ds : list (Z * list Z)) : context :=
  fold_left (fun sc d => sph_HASH sc d.1 d.2) ds sc.
End Engine.

(** ** The function computed, without buffers *)
Section Reference.
Context (c : config) (RFUN : list Z -> list Z -> list Z).
Notation B := (SPH_BLEN c).

(** The chaining value after the whole blocks of [m]. *)
Definition absorb (m : list Z) (v : list Z) : list Z :=
  fold_left (fun v b => RFUN b v) (chunks B m) v.

(** The bit length on the bytes left for it. *)
Definition length_field (bits : Z) : list Z :=
  let bytes := store_le (B - SPH_MAXPAD c) bits in
  if big_endian c then rev bytes else bytes.

(** The message [m] followed by the [n] high bits of [ub], padded. *)
Definition pad (m : list Z) (ub n : Z) : list Z :=
  m ++ pad_byte c ub n
    :: replicate (Z.to_nat ((Z.of_nat (SPH_MAXPAD c) - Z.of_nat (length m) - 1)
                            mod Z.of_nat B)) 0
    ++ length_field (8 * Z.of_nat (length m) + n).

Definition hash_bits (iv : list Z) (rnum : nat) (m : list Z) (ub n : Z) : list Z :=
  concat (map (enc_word c) (take rnum (absorb (pad m ub n) iv))).
End Reference.

(** ** What the standards say
    The hash standards pad, cut and write numbers in one of a few ways. Each standard names its
    own: nothing here is read from a configuration of the file. *)
Module Standard.
(** A number in [k] bytes. *)
Definition little (k : nat) (v : Z) : list Z := map (fun i => v / 2 ^ (8 * Z.of_nat i) mod 256) (seq 0 k).
Definition big (k : nat) (v : Z) : list Z := rev (little k v).
Definition written (msb_first : bool) (k : nat) (v : Z) : list Z := if msb_first then big k v else little k v.

(** The byte after the message: its last [n] bits, which are the high bits of [ub], then a one. *)
Definition marker (ub n : Z) : Z := (2 * (ub mod 256 / 2 ^ (8 - n)) + 1) * 2 ^ (7 - n).

(** Blocks of [B] bytes, the last of which ends with the length in bits, on [L] bytes: after the
    message and the byte [first] come as few zeros as fill the blocks. *)
Definition padded (B L : nat) (msb_first : bool) (first bits : Z) (m : list Z) : list Z :=
  m ++ first
    :: replicate (Z.to_nat (- (Z.of_nat (length m) + 1 + Z.of_nat L) mod Z.of_nat B)) 0
    ++ written msb_first L bits.

(** The compression function over the blocks. *)
Definition iterate (B : nat) (f : list Z -> list Z -> list Z) (m h : list Z) : list Z :=
  fold_left (fun h b => f b h) (chunks B m) h.

(** The digest of a message and [n] more bits: [rnum] words of [W] bytes. *)
Definition digest (B L W : nat) (msb_first : bool) (f : list Z -> list Z -> list Z) (h0 : list Z) (rnum : nat)
    (m : list Z) (ub n : Z) : list Z :=
  concat (map (written msb_first W)
    (take rnum (iterate B f (padded B L msb_first (marker ub n) (8 * Z.of_nat (length m) + n) m) h0))).

(** Constants from small primes: the first bits after the point of their square and cube roots. *)
Definition primes (n : nat) : list Z :=
  take n (List.filter (fun p => forallb (fun d => (p <=? d) || negb (p mod d =? 0)) (map Z.of_nat (seq 2 19)))
    (map Z.of_nat (seq 2 420))).
Definition root (k x : Z) (bits : nat) : Z :=
  fold_left (fun r i => let r' := r + 2 ^ i in if r' ^ k <=? x then r' else r) (rev (map Z.of_nat (seq 0 bits))) 0.
Definition root_bits (k w p : Z) : Z := root k (p * 2 ^ (k * w)) (Z.to_nat w + 5) mod 2 ^ w.
End Standard.

(** The configurations the file supports: a block length that is a power of two with room
    for the length field, 64-bit words when that field is not two words, and not LE64
    with PLW4 (whose branch the file does not reach). *)
Definition valid_config (c : config) : bool :=
  bool_decide (SPH_BLEN c = 2 ^ Nat.log2 (SPH_BLEN c))%nat
  && (Nat.log2 (SPH_BLEN c) <=? 31)%nat
  && match plw c with
     | PLW1 => word64 c && (8 <? SPH_BLEN c)%nat
     | PLW2 => (2 * SPH_WLEN c <? SPH_BLEN c)%nat
     | PLW4 => word64 c && big_endian c && (32 <? SPH_BLEN c)%nat
     end.

(** ** The configuration's arithmetic *)
Section Valid.
Context (c : config) (Hc : valid_config c = true).
Notation B := (SPH_BLEN c).

Lemma blen_pow2 : exists k, 0 <= k <= 31 /\ Z.of_nat B = 2 ^ k.
Proof.
  unfold valid_config in Hc. rewrite !andb_true_iff in Hc. destruct Hc as [[H1 H2] _].
  apply bool_decide_eq_true in H1. apply Nat.leb_le in H2.
  exists (Z.of_nat (Nat.log2 B)). split; [lia|]. rewrite H1 at 1.
  rewrite Nat2Z.inj_pow. f_equal.
Qed.

Lemma blen_pos : (0 < B)%nat.
Proof. destruct blen_pow2 as (k & Hk & E). pose proof (Z.pow_pos_nonneg 2 k). lia. Qed.

(** The masked counter is the length modulo the block length, whatever the wrap. *)
Lemma current_mod v (n : nat) :
  count v = Z.of_nat n mod 2 ^ 64 -> current_of c v = (n mod B)%nat.
Proof.
  intros E. unfold current_of. rewrite E. destruct blen_pow2 as (k & Hk & EB).
  rewrite EB. replace (2 ^ k - 1) with (Z.ones k) by (rewrite Z.ones_equiv; lia).
  change 0xFFFFFFFF with (Z.ones 32). rewrite !Z.land_ones by lia.
  rewrite (Z.mod_mod_divide _ (2 ^ 32)) by (exists (2 ^ (32 - k)); rewrite <- Z.pow_add_r by lia;
    f_equal; lia).
  rewrite Z.mod_mod_divide.
  - rewrite <- EB, <- Nat2Z.inj_mod. lia.
  - exists (2 ^ (64 - k)). rewrite <- Z.pow_add_r by lia. f_equal. lia.
Qed.

Lemma maxpad_field : (SPH_MAXPAD c < B)%nat /\ (0 < SPH_MAXPAD c)%nat.
Proof.
  pose proof blen_pos. unfold valid_config in Hc. rewrite !andb_true_iff in Hc.
  destruct Hc as [_ H']. unfold SPH_MAXPAD, SPH_WLEN in *.
  destruct (plw c), (word64 c), (big_endian c); simpl in *;
    try discriminate; apply Nat.ltb_lt in H'; lia.
Qed.

Lemma length_length_field L : length (length_field c L) = (B - SPH_MAXPAD c)%nat.
Proof.
  unfold length_field. destruct (big_endian c); rewrite ?length_rev; apply length_store_le.
Qed.

(** The two words the file computes are the bit length. *)
Lemma low_word cnt n :
  0 <= cnt < 2 ^ 64 -> 0 <= n < 8 ->
  SPH_T64 (cnt <<. 3) + n = (8 * cnt + n) mod 2 ^ 64 /\
  cnt >>. 61 = (8 * cnt + n) >>. 64.
Proof.
  intros. rewrite T64_mod, !Z.shiftl_mul_pow2, !Z.shiftr_div_pow2 by lia.
  change (2 ^ 3) with 8. change (2 ^ 61) with 2305843009213693952.
  change (2 ^ 64) with 18446744073709551616 in *.
  split; Z.to_euclidean_division_equations; lia.
Qed.
End Valid.

(** ** The length field *)
Lemma put_length_spec c buf cnt n :
  valid_config c = true -> length buf = SPH_BLEN c ->
  0 <= cnt < 2 ^ 64 -> 0 <= n < 8 ->
  put_length c buf cnt n = take (SPH_MAXPAD c) buf ++ length_field c (8 * cnt + n).
Proof.
  intros Hc Hb Hcnt Hn. unfold put_length.
  destruct (low_word cnt n Hcnt Hn) as [-> ->].
  set (L := 8 * cnt + n). assert (0 <= L < 2 ^ 68) by (unfold L; lia).
  assert (0 <= L mod 2 ^ 64 < 2 ^ 64) by (apply Z.mod_pos_bound; lia).
  assert (0 <= L >>. 64 < 2 ^ 64).
  { rewrite Z.shiftr_div_pow2 by lia. split; [apply Z.div_pos; lia|].
    apply Z.div_lt_upper_bound; lia. }
  rewrite !enc64be_aligned_eq by done.
  rewrite !enc64be_store. unfold sph_enc64le_aligned.
  assert (Elow : store_le 8 (L mod 2 ^ 64) = store_le 8 L) by apply (store_le_mod 8 L).
  rewrite !Elow.
  destruct (maxpad_field c Hc) as [Hm1 Hm2]. pose proof (blen_pos c Hc).
  pose proof (store_le_app 8 8 L) as E16.
  change (8 * Z.of_nat 8) with 64 in E16.
  assert (E32 : store_le 32 L = store_le 8 L ++ store_le 8 (L >>. 64) ++ replicate 16 0).
  { change 32%nat with (8 + (8 + 16))%nat. rewrite !store_le_app. do 2 f_equal.
    rewrite Z.shiftr_shiftr by lia. rewrite (Z.shiftr_div_pow2 L) by lia.
    rewrite Z.div_small by (simpl; lia). by rewrite store_le_0. }
  unfold length_field. unfold valid_config in Hc. rewrite !andb_true_iff in Hc.
  destruct Hc as [_ Hv]. clear Hcnt Hn. clearbody L.
  unfold SPH_MAXPAD, SPH_WLEN in *.
  destruct (word64 c), (big_endian c), (plw c); simpl in Hv; try discriminate;
    apply Nat.ltb_lt in Hv;
  cbv beta iota;
  match goal with
  | |- context [store_le (?b - (?b - ?k)) _] => replace (b - (b - k))%nat with k by lia
  end; simpl (2 * _)%nat; simpl (4 * _)%nat; simpl (3 * _)%nat; rewrite ?E16, ?E32.
  all: unfold memset; rewrite ?memcpy_adjacent by (rewrite ?length_memcpy; len_lia);
    rewrite ?memcpy_to_end by len_lia.
  all: rewrite ?rev_app_distr, <- ?app_assoc; reflexivity.
Qed.

(** ** The buffer invariant *)
Section Correct.
Context (c : config) (RFUN : list Z -> list Z -> list Z) (Hc : valid_config c = true).
Context (iv : list Z).
Notation B := (SPH_BLEN c).
Implicit Types sc : context.

(** The context after the bytes [m], from the initial value [iv]. *)
Record repr (m : list Z) sc : Prop := {
  repr_buf : length (buf sc) = B;
  repr_count : count sc = Z.of_nat (length m) mod 2 ^ 64;
  repr_tail : take (length (rest B m)) (buf sc) = rest B m;
  repr_val : val sc = absorb c RFUN m iv
}.

Let Bpos : (0 < B)%nat := blen_pos c Hc.

Lemma repr_current m sc : repr m sc -> current_of c sc = length (rest B m).
Proof. intros H. rewrite length_rest by done. apply (current_mod c Hc), (repr_count _ _ H). Qed.

Lemma repr_init buf0 : length buf0 = B -> repr [] (Context_ buf0 iv 0).
Proof.
  intros H. split; simpl; [done|done| |].
  - by rewrite rest_small.
  - unfold absorb. by rewrite chunks_small.
Qed.

Lemma count_app m d sc :
  repr m sc -> SPH_T64 (count sc + Z.of_nat (length d)) = Z.of_nat (length (m ++ d)) mod 2 ^ 64.
Proof.
  intros H. rewrite T64_mod, (repr_count _ _ H), Zplus_mod_idemp_l, length_app.
  f_equal. lia.
Qed.

Lemma absorb_app m d v :
  absorb c RFUN (m ++ d) v = absorb c RFUN (rest B m ++ d) (absorb c RFUN m v).
Proof. unfold absorb. rewrite (chunks_app B Bpos), fold_left_app. done. Qed.

(** One round of the loop that does not fill the buffer, and one that does. *)
Lemma feed_partial m sc d :
  repr m sc -> (length (rest B m) + length d < B)%nat ->
  let sc' := Context_ (memcpy (buf sc) (length (rest B m)) d) (val sc)
               (SPH_T64 (count sc + Z.of_nat (length d))) in
  repr (m ++ d) sc' /\ rest B (m ++ d) = rest B m ++ d.
Proof.
  intros H Hl. pose proof (repr_buf _ _ H) as Hb.
  assert (E : rest B (m ++ d) = rest B m ++ d)
    by (rewrite (rest_app B Bpos); apply rest_small; len_lia).
  split; [|done]. split; cbn [buf val count].
  - rewrite length_memcpy; lia.
  - by apply count_app.
  - rewrite E, length_app. apply take_memcpy_exact; [apply (repr_tail _ _ H)|done|lia].
  - rewrite (repr_val _ _ H), absorb_app. unfold absorb at 2.
    by rewrite (chunks_small B (rest B m ++ d)) by len_lia.
Qed.

Lemma feed_full m sc d :
  repr m sc -> (length (rest B m) + length d = B)%nat ->
  let b := memcpy (buf sc) (length (rest B m)) d in
  repr (m ++ d) (Context_ b (RFUN b (val sc)) (SPH_T64 (count sc + Z.of_nat (length d)))) /\
  rest B (m ++ d) = [].
Proof.
  intros H Hl. pose proof (repr_buf _ _ H) as Hb.
  assert (E : rest B (m ++ d) = [])
    by (rewrite (rest_app B Bpos); apply rest_exact; [done|len_lia]).
  split; [|done]. split; cbn [buf val count].
  - rewrite length_memcpy; lia.
  - by apply count_app.
  - by rewrite E.
  - rewrite absorb_app. unfold absorb at 1.
    rewrite (chunks_one B (Bpos)) by len_lia. cbn [fold_left].
    rewrite memcpy_to_end, (repr_tail _ _ H), (repr_val _ _ H) by lia. done.
Qed.

Lemma short_loop_repr fuel m sc data :
  repr m sc -> (length data <= fuel)%nat ->
  repr (m ++ data) (short_loop c RFUN fuel (length (rest B m)) data sc).
Proof.
  revert m sc data. induction fuel as [|fuel IH]; intros m sc data H Hf; simpl.
  { destruct data; simpl in *; [by rewrite app_nil_r|lia]. }
  destruct (Nat.eqb_spec (length data) 0) as [E|Hne].
  { destruct data; [by rewrite app_nil_r|done]. }
  set (clen := Nat.min (B - length (rest B m)) (length data)).
  pose proof (rest_lt B Bpos m).
  assert (Hcl : (length (take clen data) = clen)%nat) by (rewrite length_take; lia).
  assert (Hd : (length (drop clen data) <= fuel)%nat) by (rewrite length_drop; lia).
  replace (m ++ data) with ((m ++ take clen data) ++ drop clen data)
    by (by rewrite <- app_assoc, take_drop).
  destruct (Nat.eqb_spec (length (rest B m) + clen) B) as [Ef|Ef].
  - destruct (feed_full m sc (take clen data) H ltac:(lia)) as [H' E'].
    specialize (IH _ _ _ H' Hd). rewrite E', Hcl in IH. exact IH.
  - destruct (feed_partial m sc (take clen data) H ltac:(lia)) as [H' E'].
    specialize (IH _ _ _ H' Hd). rewrite E', length_app, Hcl in IH. exact IH.
Qed.

Lemma HASH_short_repr m sc data :
  repr m sc -> repr (m ++ data) (HASH_short c RFUN sc data).
Proof.
  intros H. unfold HASH_short. rewrite (repr_current _ _ H). by apply short_loop_repr.
Qed.

(** The direct loop folds the compression function over the whole blocks. *)
Lemma block_loop_spec fuel data v :
  (length data <= fuel)%nat ->
  block_loop c RFUN fuel data v = (absorb c RFUN data v, rest B data).
Proof.
  revert data v. induction fuel as [|fuel IH]; intros data v Hf; simpl.
  { destruct data; simpl in *; [|lia]. unfold absorb. rewrite chunks_small, rest_small; done. }
  destruct (Nat.leb_spec B (length data)).
  - rewrite IH by (rewrite length_drop; lia).
    assert (Hh : Forall (fun b => length b = B) [take B data])
      by (repeat constructor; rewrite length_take; lia).
    destruct (chunks_blocks_app B Bpos [take B data] (drop B data) Hh) as [E1 E2].
    cbn [concat] in E1, E2. rewrite app_nil_r, take_drop in E1, E2.
    unfold absorb. by rewrite E1, E2.
  - unfold absorb. by rewrite chunks_small, rest_small by lia.
Qed.

(** A context with an empty buffer takes the direct path. *)
Lemma direct_repr m sc data :
  repr m sc -> rest B m = [] ->
  repr (m ++ data)
    (Context_ (if (0 <? length (rest B data))%nat then memcpy (buf sc) 0 (rest B data)
               else buf sc)
       (absorb c RFUN data (val sc)) (SPH_T64 (count sc + Z.of_nat (length data)))).
Proof.
  intros H E. pose proof (rest_lt B Bpos data). pose proof (repr_buf _ _ H).
  assert (Er : rest B (m ++ data) = rest B data) by (by rewrite (rest_app B Bpos), E).
  split; cbn [buf val count].
  - destruct (0 <? _)%nat; [|done]. rewrite length_memcpy; lia.
  - by apply count_app.
  - rewrite Er. destruct (Nat.ltb_spec 0 (length (rest B data))).
    + pose proof (take_memcpy (buf sc) 0 (rest B data) ltac:(lia)) as Et. done.
    + destruct (rest B data); simpl in *; [done|lia].
  - rewrite absorb_app, E, (repr_val _ _ H). done.
Qed.

Lemma sph_HASH_repr m sc addr data :
  repr m sc -> repr (m ++ data) (sph_HASH c RFUN sc addr data).
Proof.
  intros H. unfold sph_HASH.
  destruct (negb (SPH_UPTR c)); [by apply HASH_short_repr|].
  destruct (Nat.ltb_spec (length data) (2 * B)); [by apply HASH_short_repr|].
  rewrite (repr_current _ _ H). pose proof (rest_lt B Bpos m).
  set (t := if (0 <? _)%nat then _ else _).
  set (sc1 := if (0 <? _)%nat then _ else _).
  assert (Ht : repr (m ++ take t data) sc1 /\ rest B (m ++ take t data) = []).
  { unfold sc1, t. destruct (Nat.ltb_spec 0 (length (rest B m))).
    - split; [by apply HASH_short_repr|]. rewrite (rest_app B Bpos).
      apply rest_exact; [done|len_lia].
    - rewrite take_0, app_nil_r. split; [done|]. destruct (rest B m); simpl in *; [done|lia]. }
  destruct Ht as [Ht1 Ht2].
  replace (m ++ data) with ((m ++ take t data) ++ drop t data)
    by (by rewrite <- app_assoc, take_drop).
  destruct (negb _ && negb _); [by apply HASH_short_repr|].
  rewrite block_loop_spec by done. by apply direct_repr.
Qed.

Lemma updates_repr m sc ds :
  repr m sc -> repr (m ++ concat (map snd ds)) (updates c RFUN sc ds).
Proof.
  revert m sc. induction ds as [|[addr d] ds IH]; intros m sc H; simpl.
  - by rewrite app_nil_r.
  - rewrite app_assoc. apply IH. by apply sph_HASH_repr.
Qed.

(** ** Closing *)
Lemma length_put_length b cnt n :
  length b = B -> 0 <= cnt < 2 ^ 64 -> 0 <= n < 8 -> length (put_length c b cnt n) = B.
Proof.
  intros. rewrite put_length_spec by done. destruct (maxpad_field c Hc).
  rewrite length_app, length_length_field, length_take. lia.
Qed.

(** The zeros between the marker and the length field. *)
Lemma pad_zeros (r : nat) (L : Z) :
  (r < B)%nat -> 0 <= L -> L mod Z.of_nat B = Z.of_nat r ->
  Z.to_nat ((Z.of_nat (SPH_MAXPAD c) - L - 1) mod Z.of_nat B) =
  if (SPH_MAXPAD c <? S r)%nat then (B - S r + SPH_MAXPAD c)%nat
  else (SPH_MAXPAD c - S r)%nat.
Proof.
  intros Hr HL E. destruct (maxpad_field c Hc) as [Hm _].
  pose proof (Z.div_mod L (Z.of_nat B) ltac:(lia)) as Ed. rewrite E in Ed.
  set (q := L / Z.of_nat B) in *.
  destruct (Nat.ltb_spec (SPH_MAXPAD c) (S r)).
  - rewrite <- (Z.mod_unique_pos _ (Z.of_nat B) (- q - 1)
      (Z.of_nat (B - S r + SPH_MAXPAD c))); lia.
  - rewrite <- (Z.mod_unique_pos _ (Z.of_nat B) (- q)
      (Z.of_nat (SPH_MAXPAD c - S r))); lia.
Qed.

(** The last block or the last two. *)
Lemma absorb_pad m ub n :
  absorb c RFUN (pad c m ub n) iv =
  absorb c RFUN (rest B m ++ pad_byte c ub n ::
    replicate (let r := length (rest B m) in
               if (SPH_MAXPAD c <? S r)%nat then (B - S r + SPH_MAXPAD c)%nat
               else (SPH_MAXPAD c - S r)%nat) 0
    ++ length_field c (8 * Z.of_nat (length m) + n)) (absorb c RFUN m iv).
Proof.
  unfold pad. rewrite absorb_app. pose proof (rest_lt B Bpos m).
  rewrite (pad_zeros (length (rest B m))); try lia; [done|].
  rewrite length_rest by done. by rewrite Nat2Z.inj_mod.
Qed.

Lemma close_val m sc ub n rnum :
  repr m sc -> 0 <= n < 8 -> Z.of_nat (length m) < 2 ^ 64 ->
  let sc' := (addbits_and_close c RFUN sc ub n rnum).1 in
  val sc' = absorb c RFUN (pad c m ub n) iv /\ length (buf sc') = B.
Proof.
  intros H Hn Hl. pose proof (repr_buf _ _ H) as Hb.
  pose proof (rest_lt B Bpos m) as Hr. destruct (maxpad_field c Hc) as [Hm1 Hm2].
  assert (Hcnt : count sc = Z.of_nat (length m))
    by (rewrite (repr_count _ _ H); apply Z.mod_small; lia).
  unfold addbits_and_close. rewrite (repr_current _ _ H), Hcnt.
  set (r := length (rest B m)) in *. set (x := pad_byte c ub n).
  set (b1 := memcpy (buf sc) r [x]).
  assert (Hb1 : length b1 = B) by (unfold b1; rewrite length_memcpy; simpl; lia).
  assert (Ht1 : take (S r) b1 = rest B m ++ [x]).
  { replace (S r) with (r + length [x])%nat by (simpl; lia).
    apply take_memcpy_exact; [apply (repr_tail _ _ H)|done|simpl; lia]. }
  set (LF := length_field c (8 * Z.of_nat (length m) + n)).
  assert (HLF : length LF = (B - SPH_MAXPAD c)%nat) by (by apply length_length_field).
  rewrite (absorb_pad m ub n), <- (repr_val _ _ H). cbv zeta.
  change (length (rest B m)) with r. change (length_field _ _) with LF.
  change (pad_byte c ub n) with x.
  destruct (Nat.ltb_spec (SPH_MAXPAD c) (S r)); cbn [buf val fst].
  - set (b2 := memset b1 (S r) 0 (B - S r)).
    assert (Hb2 : length b2 = B) by (unfold b2; rewrite length_memset; lia).
    assert (Hb3 : length (memset b2 0 0 (SPH_MAXPAD c)) = B)
      by (rewrite length_memset; lia).
    split; [|apply length_put_length; [done|lia|done]].
    rewrite put_length_spec by (done || lia).
    rewrite take_memset with (off := 0%nat) by lia. rewrite take_0. cbn [app].
    rewrite replicate_add. unfold absorb.
    replace (rest B m ++ x :: (replicate (B - S r) 0 ++ replicate (SPH_MAXPAD c) 0) ++ LF)
      with (concat [b2; replicate (SPH_MAXPAD c) 0 ++ LF]).
    + rewrite chunks_concat by first [done | repeat constructor; first [done|len_lia]]. done.
    + simpl. unfold b2. rewrite memset_to_end, Ht1 by lia.
      rewrite app_nil_r, <- !app_assoc. done.
  - set (b2 := memset b1 (S r) 0 (SPH_MAXPAD c - S r)).
    assert (Hb2 : length b2 = B) by (unfold b2; rewrite length_memset; lia).
    split; [|apply length_put_length; [done|lia|done]].
    rewrite put_length_spec by (done || lia).
    unfold b2. rewrite (take_memset b1 (S r)), Ht1 by lia.
    unfold absorb. rewrite <- !app_assoc. cbn [app].
    rewrite chunks_one by (try done; unfold r in *; len_lia). done.
Qed.

Lemma close_repr m sc ub n rnum :
  repr m sc -> 0 <= n < 8 -> Z.of_nat (length m) < 2 ^ 64 ->
  let '(sc', dst) := addbits_and_close c RFUN sc ub n rnum in
  dst = hash_bits c RFUN iv rnum m ub n /\ length (buf sc') = B.
Proof.
  intros H Hn Hl. destruct (close_val m sc ub n rnum H Hn Hl) as [Hv Hb].
  assert (E : (addbits_and_close c RFUN sc ub n rnum).2 =
    concat (map (enc_word c) (take rnum (val (addbits_and_close c RFUN sc ub n rnum).1))))
    by (unfold addbits_and_close; by destruct (_ <? _)%nat).
  destruct (addbits_and_close c RFUN sc ub n rnum) as [sc' dst]. cbn [fst snd] in *.
  by rewrite E, Hv.
Qed.
End Correct.

(** ** Streaming *)
Lemma updates_close c RFUN iv rnum buf0 ds ub n :
  valid_config c = true -> length buf0 = SPH_BLEN c -> 0 <= n < 8 ->
  Z.of_nat (length (concat (map snd ds))) < 2 ^ 64 ->
  let sc := updates c RFUN (Context_ buf0 iv 0) ds in
  snd (addbits_and_close c RFUN sc ub n rnum) =
    hash_bits c RFUN iv rnum (concat (map snd ds)) ub n /\
  length (buf (fst (addbits_and_close c RFUN sc ub n rnum))) = SPH_BLEN c.
Proof.
  intros Hc Hb Hn Hl. cbv zeta.
  pose proof (updates_repr c RFUN Hc iv [] _ ds (repr_init c RFUN Hc iv buf0 Hb)) as H.
  pose proof (close_repr c RFUN Hc iv _ _ ub n rnum H Hn Hl) as Hcl.
  by destruct (addbits_and_close _ _ _ _ _ _).
Qed.

Lemma updates_val c RFUN iv rnum buf0 ds ub n :
  valid_config c = true -> length buf0 = SPH_BLEN c -> 0 <= n < 8 ->
  Z.of_nat (length (concat (map snd ds))) < 2 ^ 64 ->
  val (addbits_and_close c RFUN (updates c RFUN (Context_ buf0 iv 0) ds) ub n rnum).1 =
    absorb c RFUN (pad c (concat (map snd ds)) ub n) iv.
Proof.
  intros Hc Hb Hn Hl.
  pose proof (updates_repr c RFUN Hc iv [] _ ds (repr_init c RFUN Hc iv buf0 Hb)) as H.
  exact (proj1 (close_val c RFUN Hc iv _ _ ub n rnum H Hn Hl)).
Qed.

(** The compression function only sees blocks of bytes. *)
Lemma is_bytes_store_le n v : is_bytes (store_le n v).
Proof. revert v. induction n; intros v; constructor; [apply byte_range|apply IHn]. Qed.

Lemma is_bytes_rev l : is_bytes l -> is_bytes (rev l).
Proof. unfold is_bytes. intros H. by apply Forall_rev. Qed.

Lemma pad_byte_range c ub n : 0 <= pad_byte c ub n < 256.
Proof. unfold pad_byte. destruct (PW01 c); apply byte_range. Qed.

Lemma is_bytes_pad c m ub n : is_bytes m -> is_bytes (pad c m ub n).
Proof.
  intros Hm. unfold pad, length_field. apply Forall_app. split; [done|].
  constructor; [apply pad_byte_range|]. apply Forall_app. split.
  - apply Forall_replicate. lia.
  - destruct (big_endian c); [apply is_bytes_rev|]; apply is_bytes_store_le.
Qed.

Lemma is_bytes_chunks k m : is_bytes m -> Forall is_bytes (chunks k m).
Proof.
  unfold chunks. generalize (length m / k)%nat as n. intros n. revert m.
  induction n as [|n IH]; intros m Hm; constructor.
  - by apply Forall_take.
  - apply IH. by apply Forall_drop.
Qed.

(** Compression functions that agree on blocks of bytes compute the same hash. *)
Lemma absorb_ext c f g m v :
  valid_config c = true -> is_bytes m ->
  (forall b v, is_bytes b -> length b = SPH_BLEN c -> f b v = g b v) ->
  absorb c f m v = absorb c g m v.
Proof.
  intros Hc Hm Hfg. unfold absorb.
  pose proof (chunks_lengths (SPH_BLEN c) (blen_pos c Hc) m) as Hl.
  pose proof (is_bytes_chunks (SPH_BLEN c) m Hm) as Hb. revert v.
  induction Hl; intros v; [done|]. apply Forall_cons_iff in Hb as [Hx Hb]. cbn [fold_left].
  rewrite Hfg by done. by apply IHHl.
Qed.

Lemma length_field_inj c L L' :
  valid_config c = true -> 0 <= L < 2 ^ 64 -> 0 <= L' < 2 ^ 64 ->
  length_field c L = length_field c L' -> L = L'.
Proof.
  intros Hc HL HL' E.
  assert (Hw : (8 <= SPH_BLEN c - SPH_MAXPAD c)%nat).
  { unfold valid_config in Hc. rewrite !andb_true_iff in Hc. destruct Hc as [_ Hv].
    unfold SPH_MAXPAD, SPH_WLEN in *.
    destruct (plw c), (word64 c), (big_endian c); simpl in *; try discriminate;
      apply Nat.ltb_lt in Hv; lia. }
  assert (2 ^ 64 <= 2 ^ (8 * Z.of_nat (SPH_BLEN c - SPH_MAXPAD c)))
    by (apply Z.pow_le_mono_r; lia).
  apply (store_le_inj (SPH_BLEN c - SPH_MAXPAD c)); [lia|lia|].
  unfold length_field in E. destruct (big_endian c); [|done].
  by rewrite <- (rev_involutive (store_le _ L)), E, rev_involutive.
Qed.

(** ** What an instance has to show
    [g] is the reference compression function; the instance's [f] agrees with it on blocks
    of bytes. Then any sequence of updates, wherever each buffer lies in memory, followed
    by the closing function computes the reference hash of the concatenation, and leaves a
    buffer of the right size, so that the context can be initialised and used again. *)
Section Instance.
Context (c : config) (f g : list Z -> list Z -> list Z).
Context (Hc : valid_config c = true).
Context (Hfg : forall b v, is_bytes b -> length b = SPH_BLEN c -> f b v = g b v).

Lemma stream_correct iv rnum buf0 ds ub n :
  length buf0 = SPH_BLEN c -> is_bytes (concat (map snd ds)) -> 0 <= n < 8 ->
  Z.of_nat (length (concat (map snd ds))) < 2 ^ 64 ->
  exists b,
    length b = SPH_BLEN c /\
    buf (fst (addbits_and_close c f (updates c f (Context_ buf0 iv 0) ds) ub n rnum)) = b /\
    snd (addbits_and_close c f (updates c f (Context_ buf0 iv 0) ds) ub n rnum) =
      hash_bits c g iv rnum (concat (map snd ds)) ub n.
Proof.
  intros Hb Hm Hn Hl.
  destruct (updates_close c f iv rnum buf0 ds ub n Hc Hb Hn Hl) as [E1 E2].
  eexists. split; [exact E2|]. split; [done|]. rewrite E1. unfold hash_bits.
  rewrite (absorb_ext c f g) by (done || by apply is_bytes_pad). done.
Qed.

(** The same for the chaining value, which a function may write out in its own way. *)
Lemma stream_val iv rnum buf0 ds ub n :
  length buf0 = SPH_BLEN c -> is_bytes (concat (map snd ds)) -> 0 <= n < 8 ->
  Z.of_nat (length (concat (map snd ds))) < 2 ^ 64 ->
  val (addbits_and_close c f (updates c f (Context_ buf0 iv 0) ds) ub n rnum).1 =
    absorb c g (pad c (concat (map snd ds)) ub n) iv.
Proof.
  intros Hb Hm Hn Hl. rewrite updates_val by done.
  by rewrite (absorb_ext c f g) by (done || by apply is_bytes_pad).
Qed.
End Instance.

(** ** The reference in the terms of the standards *)
Lemma little_store k v : Standard.little k v = store_le k v.
Proof.
  unfold Standard.little. revert v. induction k as [|k IH]; intros v; [done|]. cbn [seq map store_le]. f_equal.
  - unfold byte. rewrite Z.div_1_r. change 0xFF with (Z.ones 8). by rewrite Z.land_ones by lia.
  - rewrite <- IH, <- seq_shift, map_map. apply map_ext. intros i.
    rewrite Z.shiftr_div_pow2, Zdiv.Zdiv_Zdiv, <- Z.pow_add_r by lia. do 3 f_equal. lia.
Qed.
Lemma written_store msb_first k v :
  Standard.written msb_first k v = if msb_first then rev (store_le k v) else store_le k v.
Proof. unfold Standard.written, Standard.big. by rewrite little_store. Qed.
Lemma enc_word_written c x : enc_word c x = Standard.written (big_endian c) (SPH_WLEN c) x.
Proof.
  rewrite written_store. unfold enc_word, SPH_WLEN. destruct (word64 c), (big_endian c).
  - apply enc64be_store.
  - apply enc64le_store.
  - apply enc32be_store.
  - rewrite <- enc32le_aligned_eq. reflexivity.
Qed.
Lemma pad_byte_split c ub n :
  PW01 c = false -> 0 <= ub < 256 -> 0 <= n < 8 ->
  pad_byte c ub n = ub / 2 ^ (8 - n) * 2 ^ (8 - n) + 2 ^ (7 - n).
Proof.
  intros Hp Hub Hn. unfold pad_byte. rewrite Hp. cbv zeta.
  assert (Hall : forallb (fun n => forallb (fun ub =>
      ((ub &. (2 ^ 32 - (0x80 >>. n))) |. (0x80 >>. n)) &. 0xFF
      =? ub / 2 ^ (8 - n) * 2 ^ (8 - n) + 2 ^ (7 - n))
    (map Z.of_nat (seq 0 256))) (map Z.of_nat (seq 0 8)) = true) by (vm_compute; reflexivity).
  rewrite forallb_forall in Hall. specialize (Hall n). rewrite forallb_forall in Hall.
  apply Z.eqb_eq, Hall; apply in_map_iff.
  - exists (Z.to_nat n). split; [lia|]. apply in_seq. lia.
  - exists (Z.to_nat ub). split; [lia|]. apply in_seq. lia.
Qed.
Lemma marker_pad_byte c ub n : PW01 c = false -> 0 <= n < 8 -> pad_byte c ub n = Standard.marker ub n.
Proof.
  intros Hp Hn. unfold Standard.marker. pose proof (Z.mod_pos_bound ub 256 ltac:(lia)) as Hb.
  transitivity (pad_byte c (ub mod 256) n).
  - unfold pad_byte. rewrite Hp. cbv zeta. change 256 with (2 ^ 8). rewrite <- Z.land_ones by lia.
    change 255 with (Z.ones 8). apply Z.bits_inj'. intros i Hi. rewrite !Z.land_spec, !Z.lor_spec, !Z.land_spec.
    destruct (Z.testbit (Z.ones 8) i), (Z.testbit ub i); rewrite ?andb_false_r; done.
  - rewrite pad_byte_split by done. replace (8 - n) with (1 + (7 - n)) by lia. rewrite Z.pow_add_r by lia. ring.
Qed.

(** The padding of a configuration is that of a standard with its sizes, and so is the hash. *)
Lemma pad_standard c m ub n :
  valid_config c = true ->
  pad c m ub n = Standard.padded (SPH_BLEN c) (SPH_BLEN c - SPH_MAXPAD c) (big_endian c) (pad_byte c ub n)
    (8 * Z.of_nat (length m) + n) m.
Proof.
  intros Hc. destruct (maxpad_field c Hc) as [Hm _]. unfold pad, Standard.padded, length_field.
  rewrite written_store. do 4 f_equal.
  replace (Z.of_nat (SPH_MAXPAD c) - Z.of_nat (length m) - 1)
    with (- (Z.of_nat (length m) + 1 + Z.of_nat (SPH_BLEN c - SPH_MAXPAD c)) + 1 * Z.of_nat (SPH_BLEN c)) by lia.
  by rewrite Z.mod_add by lia.
Qed.
Lemma hash_bits_standard c g iv rnum m ub n :
  valid_config c = true -> PW01 c = false -> 0 <= n < 8 ->
  hash_bits c g iv rnum m ub n =
  Standard.digest (SPH_BLEN c) (SPH_BLEN c - SPH_MAXPAD c) (SPH_WLEN c) (big_endian c) g iv rnum m ub n.
Proof.
  intros Hc Hp Hn. unfold hash_bits, Standard.digest. rewrite pad_standard, marker_pad_byte by done.
  f_equal. apply map_ext, enc_word_written.
Qed.

(** ** Properties *)

(** C18: The engine, for any compression function and any configuration the file
    supports, in the build with 64-bit words on a little-endian machine: whatever buffers a
    message of less than [2^64] bytes comes in and wherever they lie (the copying path,
    the direct path on whole blocks, the fall-back on unaligned data), updating and closing
    computes the compression function over the padded message, and keeps the buffer's
    size. All loops end within the fuel, which is the length of the data. Not supported
    ([valid_config]) are little-endian 64-bit words with [PLW4], for which the file writes no
    length ([le64_plw4_gap]); no hash is configured so. *)
Theorem engine_correct c RFUN iv rnum buf0 ds ub n :
  valid_config c = true -> length buf0 = SPH_BLEN c -> 0 <= n < 8 ->
  Z.of_nat (length (concat (map snd ds))) < 2 ^ 64 ->
  let sc := updates c RFUN (Context_ buf0 iv 0) ds in
  snd (addbits_and_close c RFUN sc ub n rnum) =
    hash_bits c RFUN iv rnum (concat (map snd ds)) ub n /\
  length (buf (fst (addbits_and_close c RFUN sc ub n rnum))) = SPH_BLEN c.
Proof. apply updates_close. Qed.

Lemma engine_correct_witness :
  let c := Config false true None false PLW2 true false in
  let f b v := map (fun x => SPH_T32 (x + Z.of_nat (length b))) v in
  let m := repeat 7 200 in
  let sc := updates c f (Context_ (replicate 64 1) [5; 6] 0) [(3, take 30 m); (33, drop 30 m)] in
  snd (addbits_and_close c f sc 0 0 2) = hash_bits c f [5; 6] 2 m 0 0 /\
  length (buf (fst (addbits_and_close c f sc 0 0 2))) = 64%nat.
Proof.
  exact (engine_correct (Config false true None false PLW2 true false)
           (fun b v => map (fun x => SPH_T32 (x + Z.of_nat (length b))) v) [5; 6] 2
           (replicate 64 1) [(3, take 30 (repeat 7 200)); (33, drop 30 (repeat 7 200))] 0 0
           eq_refl eq_refl ltac:(lia) eq_refl).
Defined.

(** The representation invariant of a context that holds the message [m]: the
    buffer has the block's size and starts with the bytes after the last whole block, the
    count is the length modulo [2^64], the chaining value is the one of the whole blocks.
    Every update keeps it, for the message extended with its data. *)
Theorem update_invariant c RFUN iv m sc addr data :
  valid_config c = true -> repr c RFUN iv m sc ->
  repr c RFUN iv (m ++ data) (sph_HASH c RFUN sc addr data).
Proof. intros Hc. by apply sph_HASH_repr. Qed.

Lemma update_invariant_witness :
  let c := Config false true None false PLW2 true false in
  let f b v := map (fun x => SPH_T32 (x + Z.of_nat (length b))) v in
  repr c f [5; 6] (repeat 7 200) (sph_HASH c f (Context_ (replicate 64 1) [5; 6] 0) 3 (repeat 7 200)).
Proof.
  apply (update_invariant (Config false true None false PLW2 true false) _ [5; 6] []);
    [reflexivity|]. by constructor.
Defined.

(** With LE64 and PLW4 the branch for the four-word length field is not reached
    (its guard repeats that of PLW1): the last sixteen bytes of the block are compressed as
    they were left in the buffer, so the digest depends on what it held before. *)
Theorem le64_plw4_gap c b cnt n :
  word64 c = true -> big_endian c = false -> plw c = PLW4 ->
  length b = SPH_BLEN c -> (32 <= SPH_BLEN c)%nat ->
  drop (SPH_BLEN c - 16) (put_length c b cnt n) = drop (SPH_BLEN c - 16) b.
Proof.
  intros Hw Hb Hp Hl HB. unfold put_length. rewrite Hw, Hb, Hp.
  assert (HM : SPH_MAXPAD c = (SPH_BLEN c - 32)%nat)
    by (unfold SPH_MAXPAD, SPH_WLEN; by rewrite Hp, Hw).
  assert (HW : SPH_WLEN c = 8%nat) by (unfold SPH_WLEN; by rewrite Hw).
  rewrite HM, HW. cbv beta iota zeta. unfold sph_enc64le_aligned.
  rewrite memcpy_adjacent by (rewrite ?length_store_le; lia).
  unfold memcpy. rewrite app_assoc, drop_app_length'; rewrite !length_app, ?length_take,
    !length_store_le; [f_equal|]; lia.
Qed.

Lemma le64_plw4_gap_witness :
  let c := Config true false None false PLW4 true false in
  drop 112 (put_length c (replicate 128 9) 3 0) = replicate 16 9.
Proof.
  exact (le64_plw4_gap (Config true false None false PLW4 true false) (replicate 128 9) 3 0
           eq_refl eq_refl eq_refl eq_refl ltac:(cbn; lia)).
Defined.

(** Padding makes whole blocks: the length of the padded message is a multiple of
    the block length, in every configuration the file supports. *)
Theorem length_pad c m ub n :
  valid_config c = true -> (length (pad c m ub n) mod SPH_BLEN c = 0)%nat.
Proof.
  intros Hc. pose proof (blen_pos c Hc). destruct (maxpad_field c Hc) as [Hm _].
  unfold pad. rewrite length_app. cbn [length].
  rewrite length_app, length_replicate, length_length_field by done.
  set (M := SPH_MAXPAD c) in *. set (B := SPH_BLEN c) in *. set (L := length m).
  apply Nat2Z.inj. rewrite Nat2Z.inj_mod, Nat2Z.inj_add, Nat2Z.inj_succ, Nat2Z.inj_add.
  pose proof (Z.mod_pos_bound (Z.of_nat M - Z.of_nat L - 1) (Z.of_nat B) ltac:(lia)).
  rewrite Z2Nat.id by lia. rewrite Nat2Z.inj_sub by lia.
  pose proof (Z.div_mod (Z.of_nat M - Z.of_nat L - 1) (Z.of_nat B) ltac:(lia)) as E.
  set (q := (_ / _)) in E. set (r := (_ mod _)) in *.
  replace (Z.of_nat L + Z.succ (r + (Z.of_nat B - Z.of_nat M))) with ((1 - q) * Z.of_nat B)
    by lia. by rewrite Z.mod_mul by lia.
Qed.

Lemma length_pad_witness :
  (length (pad (Config true true None false PLW4 true false) [1; 2; 3]%Z 0x80%Z 1%Z) mod 128 = 0)%nat.
Proof. exact (length_pad (Config true true None false PLW4 true false) _ _ _ eq_refl). Defined.

(** Padding is injective: two bit strings of less than [2^64] bits whose padded
    forms agree are the same whole bytes, the same number of extra bits and the same
    marker byte. The length field and the marker separate every two messages. *)
Theorem pad_injective c m m' ub ub' n n' :
  valid_config c = true -> 0 <= n < 8 -> 0 <= n' < 8 ->
  8 * Z.of_nat (length m) + n < 2 ^ 64 -> 8 * Z.of_nat (length m') + n' < 2 ^ 64 ->
  pad c m ub n = pad c m' ub' n' ->
  m = m' /\ n = n' /\ pad_byte c ub n = pad_byte c ub' n'.
Proof.
  intros Hc Hn Hn' Hl Hl' E. unfold pad in E.
  rewrite !app_comm_cons, !app_assoc in E.
  apply app_inj_2 in E as [E1 E2]; [|by rewrite !length_length_field].
  apply length_field_inj in E2; [|done|lia|lia].
  assert (Hlen : length m = length m') by lia. assert (Enn : n = n') by lia.
  apply app_inj_1 in E1 as [-> E1]; [|done]. split; [done|]. split; [done|]. congruence.
Qed.

Lemma pad_injective_witness :
  let c := Config false true None false PLW2 true false in
  pad c [1; 2; 3] 0x80 1 = pad c [1; 2; 3] 0xA5 1 /\
  [1; 2; 3] = [1; 2; 3] /\ 1 = 1 /\ pad_byte c 0x80 1 = pad_byte c 0xA5 1.
Proof.
  split; [reflexivity|].
  apply (pad_injective (Config false true None false PLW2 true false)); (reflexivity || (cbn; lia)).
Defined.

(** The byte after the message, without PW01: the [n] high bits of [ub], then a
    one, then zeros. *)
Theorem pad_byte_value c ub n :
  PW01 c = false -> 0 <= ub < 256 -> 0 <= n < 8 ->
  pad_byte c ub n = ub / 2 ^ (8 - n) * 2 ^ (8 - n) + 2 ^ (7 - n).
Proof. apply pad_byte_split. Qed.

Lemma pad_byte_value_witness :
  pad_byte (Config false true None false PLW2 true false) 0xFF 3 = 0xF0.
Proof.
  exact (pad_byte_value (Config false true None false PLW2 true false) 0xFF 3
           eq_refl ltac:(lia) ltac:(lia)).
Defined.
