(* ===== verification/Rounds.v ===== *)
(** What the compression functions of SHA-0, SHA-1 and SHA-2 share: a message schedule in
    which each word is computed from the previous sixteen, steps that consume the words in
    order, and the tactic that compares an unrolled body, one assignment per line, with
    the iterated step. *)
From S2P Require Import Prelude SphTypes.

Section Schedule.
Context (next : list Z -> Z) {S : Type} (step : Z -> Z -> S -> S).

(** The [n] words that follow the window [ws] of the last sixteen. *)
Fixpoint schedule (n : nat) (ws : list Z) : list Z :=
  match n with
  | O => []
  | Datatypes.S n => next ws :: schedule n (tail ws ++ [next ws])
  end.

Lemma length_schedule n ws : length (schedule n ws) = n.
Proof. revert ws. induction n; intros; simpl; auto. Qed.

(** The window moves along the words produced. *)
Lemma schedule_snoc n ws :
  (1 <= length ws)%nat ->
  schedule (Datatypes.S n) ws = schedule n ws ++ [next (drop n (ws ++ schedule n ws))].
Proof.
  revert ws. induction n as [|n IH]; intros ws Hl.
  - simpl. by rewrite app_nil_r, drop_0.
  - change (schedule (Datatypes.S (Datatypes.S n)) ws)
      with (next ws :: schedule (Datatypes.S n) (tail ws ++ [next ws])).
    rewrite IH by (rewrite length_app; simpl; lia).
    destruct ws as [|w ws]; [simpl in Hl; lia|]. simpl. by rewrite <- app_assoc.
Qed.

(** Steps with the constants [ks] on the words [ws], and on the words that follow. *)
Definition rounds_given (ks ws : list Z) (st : S) : S :=
  fold_left (fun st kw => step kw.1 kw.2 st) (combine ks ws) st.

Fixpoint rounds (ks : list Z) (ws : list Z) (st : S) : S * list Z :=
  match ks with
  | [] => (st, ws)
  | k :: ks => rounds ks (tail ws ++ [next ws]) (step k (next ws) st)
  end.

Lemma rounds_app ks1 ks2 ws st :
  rounds (ks1 ++ ks2) ws st =
  let '(st', ws') := rounds ks1 ws st in rounds ks2 ws' st'.
Proof. revert ws st. induction ks1; intros; simpl; auto. Qed.

Lemma length_rounds ks ws st :
  (1 <= length ws)%nat -> length (rounds ks ws st).2 = length ws.
Proof.
  revert ws st. induction ks as [|k ks IH]; intros ws st Hl; simpl; [done|].
  destruct ws as [|w ws]; simpl in *; [lia|].
  rewrite IH; rewrite length_app; simpl; lia.
Qed.

Lemma rounds_schedule ks ws st :
  fst (rounds ks ws st) = rounds_given ks (schedule (length ks) ws) st.
Proof.
  unfold rounds_given. revert ws st. induction ks as [|k ks IH]; intros; simpl; [done|].
  apply IH.
Qed.

Lemma rounds_given_app ks1 ks2 ws1 ws2 st :
  length ks1 = length ws1 ->
  rounds_given (ks1 ++ ks2) (ws1 ++ ws2) st =
  rounds_given ks2 ws2 (rounds_given ks1 ws1 st).
Proof.
  unfold rounds_given. revert ws1 st. induction ks1 as [|k ks1 IH]; intros [|w ws1] st Hl;
    simpl in *; try lia; [done|]. apply IH. lia.
Qed.

(** The whole iteration: sixteen given words, then those of the schedule. *)
Lemma rounds_given_rounds ks ws st :
  length ws = 16%nat -> (16 <= length ks)%nat ->
  rounds_given ks (ws ++ schedule (length ks - 16) ws) st =
  fst (rounds (drop 16 ks) ws (rounds_given (take 16 ks) ws st)).
Proof.
  intros Hw Hk. rewrite rounds_schedule, length_drop.
  rewrite <- (take_drop 16 ks) at 1. apply rounds_given_app.
  rewrite length_take. lia.
Qed.
(** An array of words filled in order, each from the sixteen before it. *)
Lemma schedule_array n ws (word_at : list Z -> nat -> Z) :
  length ws = 16%nat ->
  (forall m w, length w = (16 + m)%nat -> word_at w (16 + m)%nat = next (drop m w)) ->
  fold_left (fun w i => w ++ [word_at w i]) (seq 16 n) ws = ws ++ schedule n ws.
Proof.
  intros Hl Hw. induction n as [|n IH]; [by rewrite app_nil_r|].
  rewrite seq_S, fold_left_app, IH, schedule_snoc by lia. cbn [fold_left].
  rewrite <- app_assoc. do 3 f_equal. apply Hw. rewrite length_app, length_schedule. lia.
Qed.

(** Reading two arrays at [0], [1], ... is consuming them in order. *)
Lemma rounds_given_at ks ws st :
  length ks = length ws ->
  fold_left (fun st i => step (at_ ks i) (at_ ws i) st) (seq 0 (length ks)) st =
  rounds_given ks ws st.
Proof.
  intros Hl. unfold rounds_given.
  assert (E : forall n j (ks' ws' : list Z) st,
    length ks' = n -> length ws' = n ->
    (forall i, (i < n)%nat -> at_ ks (j + i) = at_ ks' i) ->
    (forall i, (i < n)%nat -> at_ ws (j + i) = at_ ws' i) ->
    fold_left (fun st i => step (at_ ks i) (at_ ws i) st) (seq j n) st =
    fold_left (fun st kw => step kw.1 kw.2 st) (combine ks' ws') st).
  { clear. induction n as [|n IH]; intros j ks' ws' st Hk Hw EK EW.
    - destruct ks'; [done|discriminate Hk].
    - destruct ks' as [|k ks']; [discriminate Hk|]. destruct ws' as [|w ws']; [discriminate Hw|].
      cbn [seq fold_left combine fst snd]. rewrite (IH (Datatypes.S j) ks' ws').
      + f_equal. pose proof (EK 0%nat ltac:(lia)) as E1.
        pose proof (EW 0%nat ltac:(lia)) as E2. rewrite Nat.add_0_r in E1, E2.
        by rewrite E1, E2.
      + by injection Hk.
      + by injection Hw.
      + intros i Hi. rewrite Nat.add_succ_comm, EK by lia. done.
      + intros i Hi. rewrite Nat.add_succ_comm, EW by lia. done. }
  by apply E.
Qed.
End Schedule.

(** Equal steps, and schedules equal on the words that occur. *)
Lemma rounds_given_ext {S} (step step' : Z -> Z -> S -> S) ks ws st :
  (forall k w st, step k w st = step' k w st) ->
  rounds_given step ks ws st = rounds_given step' ks ws st.
Proof.
  intros H. unfold rounds_given. generalize (combine ks ws) as l. intros l.
  revert st. induction l as [|kw l IH]; intros st; cbn [fold_left]; [done|]. rewrite H. apply IH.
Qed.

Lemma schedule_ext (P : Z -> Prop) next next' n ws :
  (forall ws, Forall P ws -> next ws = next' ws /\ P (next ws)) ->
  Forall P ws -> schedule next n ws = schedule next' n ws.
Proof.
  intros H. revert ws. induction n as [|n IH]; intros ws Hw; cbn [schedule]; [done|].
  destruct (H ws Hw) as [E Hn]. rewrite <- E, IH; [done|].
  apply Forall_app. split; [by apply Forall_tail|by constructor].
Qed.

(** A list of sixteen words as sixteen variables. *)
Ltac split16 ws Hw :=
  do 16 (destruct ws as [|? ws]; [discriminate Hw|]);
  destruct ws; [|discriminate Hw].

(** ** Assignments
    [dlet x := e in b] is an assignment of the C code: it evaluates as [let] does, and no
    reduction of the kernel or of a tactic copies [e] into [b] unasked, which would blow
    up a body of several hundred assignments. *)
Definition Let_In {A B : Type} (e : A) (b : A -> B) : B := b e.
Notation "'dlet' x := e 'in' b" := (Let_In e (fun x => b))
  (at level 200, x name, b at level 200, format "'[v' 'dlet'  x  :=  e  'in' '/' b ']'").

(** An assignment of the unrolled code, taken out as a variable on both sides. *)
Lemma let_pull {A B C} (f : B -> C) (e : A) (b : A -> B) (g : A -> C) :
  (forall v, f (b v) = g v) -> f (Let_In e b) = g e.
Proof. intros H. apply H. Qed.

Ltac pull :=
  lazymatch goal with
  | |- ?f (Let_In ?e ?b) = ?r =>
      let r' := eval pattern e in r in
      lazymatch r' with
      | ?g _ => refine (let_pull f e b g _); let v := fresh "v" in intros v; cbv beta
      end
  end.

(** Wraps a body that is not yet under a function, for [pull]. *)
Lemma pull_start {A} (l r : A) : id l = r -> l = r.
Proof. intros H. exact H. Qed.

Ltac add_id := lazymatch goal with |- ?l = ?r => refine (pull_start l r _) end.
