(* ===== verification/Sha2Big.v ===== *)
(** [sha2big.c] of sphlib: SHA-384 and SHA-512, whose compression function computes the
    whole message schedule first and then runs eight steps per turn of a loop; shown
    equal to FIPS 180-4. *)
From S2P Require Import Prelude SphTypes MdHelper Rounds.
Open Scope word_scope.

(** ** Macros and tables of the file *)
Definition CH X Y Z := ((Y ^^ Z) &. X) ^^ Z.
Definition MAJ X Y Z := (X &. Y) |. ((X |. Y) &. Z).
Definition ROTR64 (x n : Z) : Z := SPH_ROTR64 x n.
Definition BSG5_0 (x : Z) : Z := ROTR64 x 28 ^^ ROTR64 x 34 ^^ ROTR64 x 39.
Definition BSG5_1 (x : Z) : Z := ROTR64 x 14 ^^ ROTR64 x 18 ^^ ROTR64 x 41.
Definition SSG5_0 (x : Z) : Z := ROTR64 x 1 ^^ ROTR64 x 8 ^^ SPH_T64 (x >>. 7).
Definition SSG5_1 (x : Z) : Z := ROTR64 x 19 ^^ ROTR64 x 61 ^^ SPH_T64 (x >>. 6).

Definition K512 : list Z :=
  [ 0x428A2F98D728AE22; 0x7137449123EF65CD; 0xB5C0FBCFEC4D3B2F; 0xE9B5DBA58189DBBC;
    0x3956C25BF348B538; 0x59F111F1B605D019; 0x923F82A4AF194F9B; 0xAB1C5ED5DA6D8118;
    0xD807AA98A3030242; 0x12835B0145706FBE; 0x243185BE4EE4B28C; 0x550C7DC3D5FFB4E2;
    0x72BE5D74F27B896F; 0x80DEB1FE3B1696B1; 0x9BDC06A725C71235; 0xC19BF174CF692694;
    0xE49B69C19EF14AD2; 0xEFBE4786384F25E3; 0x0FC19DC68B8CD5B5; 0x240CA1CC77AC9C65;
    0x2DE92C6F592B0275; 0x4A7484AA6EA6E483; 0x5CB0A9DCBD41FBD4; 0x76F988DA831153B5;
    0x983E5152EE66DFAB; 0xA831C66D2DB43210; 0xB00327C898FB213F; 0xBF597FC7BEEF0EE4;
    0xC6E00BF33DA88FC2; 0xD5A79147930AA725; 0x06CA6351E003826F; 0x142929670A0E6E70;
    0x27B70A8546D22FFC; 0x2E1B21385C26C926; 0x4D2C6DFC5AC42AED; 0x53380D139D95B3DF;
    0x650A73548BAF63DE; 0x766A0ABB3C77B2A8; 0x81C2C92E47EDAEE6; 0x92722C851482353B;
    0xA2BFE8A14CF10364; 0xA81A664BBC423001; 0xC24B8B70D0F89791; 0xC76C51A30654BE30;
    0xD192E819D6EF5218; 0xD69906245565A910; 0xF40E35855771202A; 0x106AA07032BBD1B8;
    0x19A4C116B8D2D0C8; 0x1E376C085141AB53; 0x2748774CDF8EEB99; 0x34B0BCB5E19B48A8;
    0x391C0CB3C5C95A63; 0x4ED8AA4AE3418ACB; 0x5B9CCA4F7763E373; 0x682E6FF3D6B2B8A3;
    0x748F82EE5DEFB2FC; 0x78A5636F43172F60; 0x84C87814A1F0AB72; 0x8CC702081A6439EC;
    0x90BEFFFA23631E28; 0xA4506CEBDE82BDE9; 0xBEF9A3F7B2C67915; 0xC67178F2E372532B;
    0xCA273ECEEA26619C; 0xD186B8C721C0C207; 0xEADA7DD6CDE0EB1E; 0xF57D4F7FEE6ED178;
    0x06F067AA72176FBA; 0x0A637DC5A2C898A6; 0x113F9804BEF90DAE; 0x1B710B35131C471B;
    0x28DB77F523047D84; 0x32CAAB7B40C72493; 0x3C9EBE0A15C9BEBC; 0x431D67C49C100D4C;
    0x4CC5D4BECB3E42B6; 0x597F299CFC657E2A; 0x5FCB6FAB3AD6FAEC; 0x6C44198C4A475817 ].

Definition H384 : list Z :=
  [ 0xCBBB9D5DC1059ED8; 0x629A292A367CD507; 0x9159015A3070DD17; 0x152FECD8F70E5939;
    0x67332667FFC00B31; 0x8EB44A8768581511; 0xDB0C2E0D64F98FA7; 0x47B5481DBEFA4FA4 ].

Definition H512 : list Z :=
  [ 0x6A09E667F3BCC908; 0xBB67AE8584CAA73B; 0x3C6EF372FE94F82B; 0xA54FF53A5F1D36F1;
    0x510E527FADE682D1; 0x9B05688C2B3E6C1F; 0x1F83D9ABFB41BD6B; 0x5BE0CD19137E2179 ].

Definition regs : Type := Z * Z * Z * Z * Z * Z * Z * Z.

(** ** The compression function *)

(** One step: the new [D] and [H]. *)
Definition SHA3_STEP (W : list Z) (A B C D E F G H : Z) (i : nat) : Z * Z :=
  let T1 := SPH_T64 (H + BSG5_1 E + CH E F G + at_ K512 i + at_ W i) in
  let T2 := SPH_T64 (BSG5_0 A + MAJ A B C) in
  (SPH_T64 (D + T1), SPH_T64 (T1 + T2)).

(** The two loops that fill [W]; the array is written in order. *)
Definition SHA3_W (inp : nat -> Z) : list Z :=
  fold_left (fun W i =>
      W ++ [SPH_T64 (SSG5_1 (at_ W (i - 2)) + at_ W (i - 7)
                     + SSG5_0 (at_ W (i - 15)) + at_ W (i - 16))])
    (seq 16 64) (map inp (seq 0 16)).

(** The body of the loop of steps. *)
Definition SHA3_steps (W : list Z) (st : regs) (i : nat) : regs :=
  let '(A, B, C, D, E, F, G, H) := st in
  let '(D, H) := SHA3_STEP W A B C D E F G H (i + 0) in
  let '(C, G) := SHA3_STEP W H A B C D E F G (i + 1) in
  let '(B, F) := SHA3_STEP W G H A B C D E F (i + 2) in
  let '(A, E) := SHA3_STEP W F G H A B C D E (i + 3) in
  let '(H, D) := SHA3_STEP W E F G H A B C D (i + 4) in
  let '(G, C) := SHA3_STEP W D E F G H A B C (i + 5) in
  let '(F, B) := SHA3_STEP W C D E F G H A B (i + 6) in
  let '(E, A) := SHA3_STEP W B C D E F G H A (i + 7) in
  (A, B, C, D, E, F, G, H).

Definition add_regs (r : list Z) (st : regs) : list Z :=
  let '(A, B, C, D, E, F, G, H) := st in
  [SPH_T64 (at_ r 0 + A); SPH_T64 (at_ r 1 + B); SPH_T64 (at_ r 2 + C); SPH_T64 (at_ r 3 + D);
   SPH_T64 (at_ r 4 + E); SPH_T64 (at_ r 5 + F); SPH_T64 (at_ r 6 + G); SPH_T64 (at_ r 7 + H)].

Definition SHA3_ROUND_BODY (inp : nat -> Z) (r : list Z) : list Z :=
  let W := SHA3_W inp in
  let st := (at_ r 0, at_ r 1, at_ r 2, at_ r 3, at_ r 4, at_ r 5, at_ r 6, at_ r 7) in
  add_regs r (fold_left (SHA3_steps W) [0; 8; 16; 24; 32; 40; 48; 56; 64; 72]%nat st).

Definition sha3_round (data r : list Z) : list Z :=
  SHA3_ROUND_BODY (fun x => sph_dec64be_aligned (drop (8 * x) data)) r.

Definition sph_sha384_comp (msg val : list Z) : list Z :=
  SHA3_ROUND_BODY (fun x => at_ msg x) val.

(** ** The contexts *)
Section Api.
(** SPH_UPTR and SPH_UNALIGNED. *)
Context (uptr unaligned : bool).

(** [#define BE64 1], then the inclusion of md_helper.c. *)
Definition sha384_config : config := Config true true None false PLW2 uptr unaligned.

Definition sph_sha384_init (sc : context) : context := Context_ (buf sc) H384 0.
Definition sph_sha512_init (sc : context) : context := Context_ (buf sc) H512 0.
Definition sph_sha384 := sph_HASH sha384_config sha3_round.
Definition sph_sha512 := sph_HASH sha384_config sha3_round.

Definition sph_sha384_close (sc : context) : context * list Z :=
  let '(sc, dst) := HASH_close sha384_config sha3_round sc 6 in (sph_sha384_init sc, dst).
Definition sph_sha384_addbits_and_close (sc : context) (ub n : Z) : context * list Z :=
  let '(sc, dst) := addbits_and_close sha384_config sha3_round sc ub n 6 in
  (sph_sha384_init sc, dst).
Definition sph_sha512_close (sc : context) : context * list Z :=
  let '(sc, dst) := HASH_close sha384_config sha3_round sc 8 in (sph_sha512_init sc, dst).
Definition sph_sha512_addbits_and_close (sc : context) (ub n : Z) : context * list Z :=
  let '(sc, dst) := addbits_and_close sha384_config sha3_round sc ub n 8 in
  (sph_sha512_init sc, dst).
End Api.

(** ** FIPS 180-4
    The constants are those that the standard derives from primes; only the operations on words
    are shared. *)
Module FIPS.
Definition K : list Z := Eval vm_compute in map (Standard.root_bits 3 64) (Standard.primes 80).
Definition H0_384 : list Z := Eval vm_compute in map (Standard.root_bits 2 64) (drop 8 (Standard.primes 16)).
Definition H0_512 : list Z := Eval vm_compute in map (Standard.root_bits 2 64) (Standard.primes 8).

Definition Sigma0 (x : Z) : Z := SPH_ROTR64 x 28 ^^ SPH_ROTR64 x 34 ^^ SPH_ROTR64 x 39.
Definition Sigma1 (x : Z) : Z := SPH_ROTR64 x 14 ^^ SPH_ROTR64 x 18 ^^ SPH_ROTR64 x 41.
Definition sigma0 (x : Z) : Z := SPH_ROTR64 x 1 ^^ SPH_ROTR64 x 8 ^^ SPH_T64 (x >>. 7).
Definition sigma1 (x : Z) : Z := SPH_ROTR64 x 19 ^^ SPH_ROTR64 x 61 ^^ SPH_T64 (x >>. 6).
Definition Ch (x y z : Z) : Z := (x &. y) ^^ (Z.lnot x &. z).
Definition Maj (x y z : Z) : Z := (x &. y) ^^ (x &. z) ^^ (y &. z).

(** [W_t] from [W_(t-16)], ..., [W_(t-1)]. *)
Definition next (ws : list Z) : Z :=
  SPH_T64 (sigma1 (at_ ws 14) + at_ ws 9 + sigma0 (at_ ws 1) + at_ ws 0).

Definition step (k w : Z) (st : regs) : regs :=
  let '(a, b, c, d, e, f, g, h) := st in
  let T1 := SPH_T64 (h + Sigma1 e + Ch e f g + k + w) in
  let T2 := SPH_T64 (Sigma0 a + Maj a b c) in
  (SPH_T64 (T1 + T2), a, b, c, SPH_T64 (d + T1), e, f, g).

Definition add (r : list Z) (st : regs) : list Z :=
  let '(a, b, c, d, e, f, g, h) := st in
  [SPH_T64 (at_ r 0 + a); SPH_T64 (at_ r 1 + b); SPH_T64 (at_ r 2 + c); SPH_T64 (at_ r 3 + d);
   SPH_T64 (at_ r 4 + e); SPH_T64 (at_ r 5 + f); SPH_T64 (at_ r 6 + g); SPH_T64 (at_ r 7 + h)].

Definition words (inp : nat -> Z) : list Z := map inp (seq 0 16).

Definition compress (inp : nat -> Z) (r : list Z) : list Z :=
  add r
    (rounds_given step K (words inp ++ schedule next 64 (words inp))
       (at_ r 0, at_ r 1, at_ r 2, at_ r 3, at_ r 4, at_ r 5, at_ r 6, at_ r 7)).

(** The block as sixteen big-endian words. *)
Definition block (data r : list Z) : list Z :=
  compress (fun x => sph_dec64be (drop (8 * x) data)) r.

Definition SHA384 (m : list Z) (ub n : Z) : list Z :=
  Standard.digest 128 16 8 true block H0_384 6 m ub n.
Definition SHA512 (m : list Z) (ub n : Z) : list Z :=
  Standard.digest 128 16 8 true block H0_512 8 m ub n.
End FIPS.

(** ** Proofs *)
Lemma sha2big_CH_Ch x y z : FIPS.Ch x y z = CH x y z.
Proof.
  apply Z.bits_inj'. intros i Hi. unfold FIPS.Ch, CH.
  rewrite !Z.lxor_spec, !Z.land_spec, Z.lnot_spec, Z.lxor_spec by lia.
  by destruct (Z.testbit x i), (Z.testbit y i), (Z.testbit z i).
Qed.

Lemma sha2big_MAJ_Maj x y z : FIPS.Maj x y z = MAJ x y z.
Proof.
  apply Z.bits_inj'. intros i Hi. unfold FIPS.Maj, MAJ.
  rewrite !Z.lxor_spec, Z.lor_spec, !Z.land_spec, Z.lor_spec.
  by destruct (Z.testbit x i), (Z.testbit y i), (Z.testbit z i).
Qed.

(** The array is the sixteen words and the schedule. *)
Lemma at_drop n l j : at_ (drop n l) j = at_ l (n + j).
Proof.
  unfold at_. revert l. induction n as [|n IH]; intros [|x l]; simpl; try done.
  - by destruct j.
Qed.

Lemma SHA3_W_schedule inp :
  SHA3_W inp = FIPS.words inp ++ schedule FIPS.next 64 (FIPS.words inp).
Proof.
  unfold SHA3_W. apply schedule_array; [done|]. intros m w _. unfold FIPS.next.
  rewrite !at_drop.
  replace (16 + m - 2)%nat with (m + 14)%nat by lia.
  replace (16 + m - 7)%nat with (m + 9)%nat by lia.
  replace (16 + m - 15)%nat with (m + 1)%nat by lia.
  by replace (16 + m - 16)%nat with (m + 0)%nat by lia.
Qed.

(** One step as the source writes it. *)
Lemma STEP_pull {C} (f : Z * Z -> C) W a b c d e g h j i r :
  id (dlet t1 := SPH_T64 (j + BSG5_1 e + CH e g h + at_ K512 i + at_ W i) in
      dlet t2 := SPH_T64 (BSG5_0 a + MAJ a b c) in
      dlet d' := SPH_T64 (d + t1) in
      dlet h' := SPH_T64 (t1 + t2) in
      f (d', h')) = r ->
  f (SHA3_STEP W a b c d e g h j i) = r.
Proof. intros <-. reflexivity. Qed.

Lemma sha2big_step_src k w a b c d e f g h :
  FIPS.step k w (a, b, c, d, e, f, g, h) =
  (SPH_T64 (SPH_T64 (h + BSG5_1 e + CH e f g + k + w) + SPH_T64 (BSG5_0 a + MAJ a b c)),
   a, b, c, SPH_T64 (d + SPH_T64 (h + BSG5_1 e + CH e f g + k + w)), e, f, g).
Proof. unfold FIPS.step. cbv zeta. by rewrite sha2big_CH_Ch, sha2big_MAJ_Maj. Qed.

Definition step_at (W : list Z) (st : regs) (i : nat) : regs :=
  FIPS.step (at_ K512 i) (at_ W i) st.

Lemma fold_step_src W i l a b c d e f g h :
  fold_left (step_at W) (i :: l) (a, b, c, d, e, f, g, h) =
  fold_left (step_at W) l
    (let t1 := SPH_T64 (h + BSG5_1 e + CH e f g + at_ K512 i + at_ W i) in
     (SPH_T64 (t1 + SPH_T64 (BSG5_0 a + MAJ a b c)), a, b, c, SPH_T64 (d + t1), e, f, g)).
Proof. cbv zeta. rewrite <- sha2big_step_src. reflexivity. Qed.

Lemma SHA3_steps_fold W st i :
  SHA3_steps W st i =
  fold_left (step_at W) [i + 0; i + 1; i + 2; i + 3; i + 4; i + 5; i + 6; i + 7]%nat st.
Proof.
  destruct st as [[[[[[[? ?] ?] ?] ?] ?] ?] ?]. cbv beta iota delta [SHA3_steps].
  do 8 (lazymatch goal with
  | |- ?l = _ =>
      match l with
      | context [SHA3_STEP ?W ?a ?b ?c ?d ?e ?g ?h ?j ?i] =>
          let l' := eval pattern (SHA3_STEP W a b c d e g h j i) in l in
          lazymatch l' with ?f _ => refine (STEP_pull f W a b c d e g h j i _ _) end;
          rewrite fold_step_src
      end
  end; cbv beta zeta; do 4 pull).
  reflexivity.
Qed.

Lemma fold_step_at W st :
  length W = 80%nat ->
  fold_left (step_at W) (seq 0 80) st = rounds_given FIPS.step K512 W st.
Proof. intros Hl. by apply (rounds_given_at FIPS.step K512). Qed.

Lemma SHA3_loop W st :
  fold_left (SHA3_steps W) [0; 8; 16; 24; 32; 40; 48; 56; 64; 72]%nat st =
  fold_left (step_at W) (seq 0 80) st.
Proof.
  cbn [fold_left]. rewrite !SHA3_steps_fold, <- !fold_left_app. f_equal.
Qed.

(** The constants are those of the standard. *)
Lemma sha2big_K : FIPS.K = K512.
Proof. reflexivity. Qed.
Lemma sha2big_add r st : FIPS.add r st = add_regs r st.
Proof. reflexivity. Qed.

Lemma sha2big_body_compress inp r : SHA3_ROUND_BODY inp r = FIPS.compress inp r.
Proof.
  unfold SHA3_ROUND_BODY, FIPS.compress. cbv zeta. rewrite sha2big_K.
  etransitivity; [|symmetry; apply sha2big_add]. apply (f_equal (add_regs r)).
  rewrite SHA3_loop, SHA3_W_schedule. apply fold_step_at.
  by rewrite length_app, length_schedule.
Qed.

(** *** The hash functions *)
Lemma sha2big_compress_ext inp inp' r :
  (forall i, (i < 16)%nat -> inp i = inp' i) -> FIPS.compress inp r = FIPS.compress inp' r.
Proof.
  intros H. unfold FIPS.compress.
  assert (E : FIPS.words inp = FIPS.words inp').
  { unfold FIPS.words. apply map_ext_in. intros i Hi. apply H. apply in_seq in Hi. lia. }
  by rewrite E.
Qed.

Lemma sha3_round_block data r :
  is_bytes data -> length data = 128%nat -> sha3_round data r = FIPS.block data r.
Proof.
  intros Hb Hl. unfold sha3_round, FIPS.block. rewrite sha2big_body_compress.
  apply sha2big_compress_ext. intros i Hi. apply dec64be_aligned_eq.
  - by apply Forall_drop.
  - rewrite length_drop. lia.
Qed.

Section Correct.
Context (uptr unaligned : bool).
Notation config := (sha384_config uptr unaligned).

Lemma sha2big_digests m ub n :
  0 <= n < 8 ->
  hash_bits config FIPS.block H384 6 m ub n = FIPS.SHA384 m ub n /\
  hash_bits config FIPS.block H512 8 m ub n = FIPS.SHA512 m ub n.
Proof. intros Hn. split; by apply hash_bits_standard. Qed.

(** SHA-512: in the little-endian build with 64-bit words (aligned or unaligned reads), a context initialised with whatever it held
    before, updated with buffers that lie anywhere in memory and closed with [n] more bits,
    writes the digest that the standard defines for the concatenated message, and is initialised
    again. *)
Theorem sha512_stream buf0 ds ub n :
  length buf0 = 128%nat -> is_bytes (concat (map snd ds)) -> 0 <= n < 8 ->
  Z.of_nat (length (concat (map snd ds))) < 2 ^ 64 ->
  forall v0 c0,
  let sc := updates config sha3_round (sph_sha512_init (Context_ buf0 v0 c0)) ds in
  let '(sc', dst) := sph_sha512_addbits_and_close uptr unaligned sc ub n in
  dst = FIPS.SHA512 (concat (map snd ds)) ub n /\
  exists b, length b = 128%nat /\ sc' = Context_ b H512 0.
Proof.
  intros Hb Hm Hn Hl v0 c0. cbv zeta. unfold sph_sha512_addbits_and_close, sph_sha512_init.
  cbn [buf]. destruct (stream_correct config sha3_round FIPS.block eq_refl sha3_round_block
    H512 8 buf0 ds ub n Hb Hm Hn Hl) as (b & Hlb & Eb & Ed).
  destruct (addbits_and_close _ _ _ _ _ _) as [sc' dst]. cbn [fst snd buf] in *.
  split; [rewrite Ed; by apply sha2big_digests|]. exists b. by rewrite Eb.
Qed.

(** SHA-384: in the little-endian build with 64-bit words (aligned or unaligned reads), a context initialised with whatever it held
    before, updated with buffers that lie anywhere in memory and closed with [n] more bits,
    writes the digest that the standard defines for the concatenated message, and is initialised
    again. *)
Theorem sha384_stream buf0 ds ub n :
  length buf0 = 128%nat -> is_bytes (concat (map snd ds)) -> 0 <= n < 8 ->
  Z.of_nat (length (concat (map snd ds))) < 2 ^ 64 ->
  forall v0 c0,
  let sc := updates config sha3_round (sph_sha384_init (Context_ buf0 v0 c0)) ds in
  let '(sc', dst) := sph_sha384_addbits_and_close uptr unaligned sc ub n in
  dst = FIPS.SHA384 (concat (map snd ds)) ub n /\
  exists b, length b = 128%nat /\ sc' = Context_ b H384 0.
Proof.
  intros Hb Hm Hn Hl v0 c0. cbv zeta. unfold sph_sha384_addbits_and_close, sph_sha384_init.
  cbn [buf]. destruct (stream_correct config sha3_round FIPS.block eq_refl sha3_round_block
    H384 6 buf0 ds ub n Hb Hm Hn Hl) as (b & Hlb & Eb & Ed).
  destruct (addbits_and_close _ _ _ _ _ _) as [sc' dst]. cbn [fst snd buf] in *.
  split; [rewrite Ed; by apply sha2big_digests|]. exists b. by rewrite Eb.
Qed.
End Correct.

Lemma sha512_stream_witness :
  let '(sc, dst) := sph_sha512_addbits_and_close true false
    (updates (sha384_config true false) sha3_round
       (sph_sha512_init (Context_ (replicate 128 0) [] 7))
       [(1, [97; 98]); (6, [99])]) 0x80 1 in
  dst = FIPS.SHA512 [97; 98; 99] 0x80 1 /\ exists b, length b = 128%nat /\ sc = Context_ b H512 0.
Proof.
  refine (sha512_stream true false (replicate 128 0) [(1, [97; 98]); (6, [99])] 0x80 1
            _ _ _ _ [] 7);
    [reflexivity|cbn; repeat constructor; lia|lia|reflexivity].
Defined.

Lemma sha384_stream_witness :
  let '(sc, dst) := sph_sha384_addbits_and_close true true
    (updates (sha384_config true true) sha3_round
       (sph_sha384_init (Context_ (replicate 128 0) [] 7))
       [(1, [97; 98]); (6, [99])]) 0x80 1 in
  dst = FIPS.SHA384 [97; 98; 99] 0x80 1 /\ exists b, length b = 128%nat /\ sc = Context_ b H384 0.
Proof.
  refine (sha384_stream true true (replicate 128 0) [(1, [97; 98]); (6, [99])] 0x80 1
            _ _ _ _ [] 7);
    [reflexivity|cbn; repeat constructor; lia|lia|reflexivity].
Defined.
