(* ===== verification/Sha2.v ===== *)
(** [sha2.c] of sphlib: SHA-224 and SHA-256. The file has two bodies for the compression
    function, selected by SPH_SMALL_FOOTPRINT_SHA2: [Small], with tables and a loop, and
    [Unrolled]. Both are shown equal to the iteration of FIPS 180-4, then the hash
    functions, for any platform and either body, equal to FIPS 180-4's. *)
From S2P Require Import Prelude SphTypes MdHelper Rounds.
Open Scope word_scope.

(** ** Macros and tables of the file *)
Definition CH X Y Z := ((Y ^^ Z) &. X) ^^ Z.
Definition MAJ X Y Z := (Y &. Z) |. ((Y |. Z) &. X).
Definition ROTR (x n : Z) : Z := SPH_ROTR32 x n.
Definition BSG2_0 (x : Z) : Z := ROTR x 2 ^^ ROTR x 13 ^^ ROTR x 22.
Definition BSG2_1 (x : Z) : Z := ROTR x 6 ^^ ROTR x 11 ^^ ROTR x 25.
Definition SSG2_0 (x : Z) : Z := ROTR x 7 ^^ ROTR x 18 ^^ SPH_T32 (x >>. 3).
Definition SSG2_1 (x : Z) : Z := ROTR x 17 ^^ ROTR x 19 ^^ SPH_T32 (x >>. 10).

Definition H224 : list Z :=
  [ 0xC1059ED8; 0x367CD507; 0x3070DD17; 0xF70E5939; 0xFFC00B31; 0x68581511;
    0x64F98FA7; 0xBEFA4FA4 ].

Definition H256 : list Z :=
  [ 0x6A09E667; 0xBB67AE85; 0x3C6EF372; 0xA54FF53A; 0x510E527F; 0x9B05688C;
    0x1F83D9AB; 0x5BE0CD19 ].

Definition K : list Z :=
  [ 0x428A2F98; 0x71374491; 0xB5C0FBCF; 0xE9B5DBA5; 0x3956C25B; 0x59F111F1;
    0x923F82A4; 0xAB1C5ED5; 0xD807AA98; 0x12835B01; 0x243185BE; 0x550C7DC3;
    0x72BE5D74; 0x80DEB1FE; 0x9BDC06A7; 0xC19BF174; 0xE49B69C1; 0xEFBE4786;
    0x0FC19DC6; 0x240CA1CC; 0x2DE92C6F; 0x4A7484AA; 0x5CB0A9DC; 0x76F988DA;
    0x983E5152; 0xA831C66D; 0xB00327C8; 0xBF597FC7; 0xC6E00BF3; 0xD5A79147;
    0x06CA6351; 0x14292967; 0x27B70A85; 0x2E1B2138; 0x4D2C6DFC; 0x53380D13;
    0x650A7354; 0x766A0ABB; 0x81C2C92E; 0x92722C85; 0xA2BFE8A1; 0xA81A664B;
    0xC24B8B70; 0xC76C51A3; 0xD192E819; 0xD6990624; 0xF40E3585; 0x106AA070;
    0x19A4C116; 0x1E376C08; 0x2748774C; 0x34B0BCB5; 0x391C0CB3; 0x4ED8AA4A;
    0x5B9CCA4F; 0x682E6FF3; 0x748F82EE; 0x78A5636F; 0x84C87814; 0x8CC70208;
    0x90BEFFFA; 0xA4506CEB; 0xBEF9A3F7; 0xC67178F2 ].

Definition regs : Type := Z * Z * Z * Z * Z * Z * Z * Z.
Definition words16 : Type := Z * Z * Z * Z * Z * Z * Z * Z * Z * Z * Z * Z * Z * Z * Z * Z.

(** [(r)[i] = SPH_T32((r)[i] + X)], the end of both bodies. *)
Definition add_regs (r : list Z) (st : regs) : list Z :=
  let '(A, B, C, D, E, F, G, H) := st in
  [SPH_T32 (at_ r 0 + A); SPH_T32 (at_ r 1 + B); SPH_T32 (at_ r 2 + C); SPH_T32 (at_ r 3 + D);
   SPH_T32 (at_ r 4 + E); SPH_T32 (at_ r 5 + F); SPH_T32 (at_ r 6 + G); SPH_T32 (at_ r 7 + H)].

(** ** The body with tables *)
Module Small.
Section Body.
Context (inp : nat -> Z).

(** [W[(x) & 0x0F]]. *)
Definition idx (x : Z) : nat := Z.to_nat (x &. 0x0F).

Definition SHA2_MEXP1 (W : list Z) (pc : Z) : list Z :=
  <[Z.to_nat pc := inp (Z.to_nat pc)]> W.

Definition SHA2_MEXP2 (W : list Z) (pc : Z) : list Z :=
  <[idx pc := SPH_T32 (SSG2_1 (at_ W (idx (pc - 2))) + at_ W (idx (pc - 7))
                       + SSG2_0 (at_ W (idx (pc - 15))) + at_ W (idx pc))]> W.

(** One step: the new [W], [d] and [h]. *)
Definition SHA2_STEPn (mexp : list Z -> Z -> list Z) (pcount : Z) (W : list Z)
    (a b c d e f g h : Z) (pc : Z) : list Z * Z * Z :=
  let W := mexp W pc in
  let t1 := SPH_T32 (h + BSG2_1 e + CH e f g + at_ K (Z.to_nat (pcount + pc))
                     + at_ W (idx pc)) in
  let t2 := SPH_T32 (BSG2_0 a + MAJ a b c) in
  (W, SPH_T32 (d + t1), SPH_T32 (t1 + t2)).
Definition SHA2_STEP1 := SHA2_STEPn SHA2_MEXP1.
Definition SHA2_STEP2 := SHA2_STEPn SHA2_MEXP2.

Definition steps1 (pcount : Z) (W : list Z) (st : regs) : list Z * regs :=
  let '(A, B, C, D, E, F, G, H) := st in
  let '(W, D, H) := SHA2_STEP1 pcount W A B C D E F G H 0 in
  let '(W, C, G) := SHA2_STEP1 pcount W H A B C D E F G 1 in
  let '(W, B, F) := SHA2_STEP1 pcount W G H A B C D E F 2 in
  let '(W, A, E) := SHA2_STEP1 pcount W F G H A B C D E 3 in
  let '(W, H, D) := SHA2_STEP1 pcount W E F G H A B C D 4 in
  let '(W, G, C) := SHA2_STEP1 pcount W D E F G H A B C 5 in
  let '(W, F, B) := SHA2_STEP1 pcount W C D E F G H A B 6 in
  let '(W, E, A) := SHA2_STEP1 pcount W B C D E F G H A 7 in
  let '(W, D, H) := SHA2_STEP1 pcount W A B C D E F G H 8 in
  let '(W, C, G) := SHA2_STEP1 pcount W H A B C D E F G 9 in
  let '(W, B, F) := SHA2_STEP1 pcount W G H A B C D E F 10 in
  let '(W, A, E) := SHA2_STEP1 pcount W F G H A B C D E 11 in
  let '(W, H, D) := SHA2_STEP1 pcount W E F G H A B C D 12 in
  let '(W, G, C) := SHA2_STEP1 pcount W D E F G H A B C 13 in
  let '(W, F, B) := SHA2_STEP1 pcount W C D E F G H A B 14 in
  let '(W, E, A) := SHA2_STEP1 pcount W B C D E F G H A 15 in
  (W, (A, B, C, D, E, F, G, H)).

Definition steps2 (pcount : Z) (W : list Z) (st : regs) : list Z * regs :=
  let '(A, B, C, D, E, F, G, H) := st in
  let '(W, D, H) := SHA2_STEP2 pcount W A B C D E F G H 0 in
  let '(W, C, G) := SHA2_STEP2 pcount W H A B C D E F G 1 in
  let '(W, B, F) := SHA2_STEP2 pcount W G H A B C D E F 2 in
  let '(W, A, E) := SHA2_STEP2 pcount W F G H A B C D E 3 in
  let '(W, H, D) := SHA2_STEP2 pcount W E F G H A B C D 4 in
  let '(W, G, C) := SHA2_STEP2 pcount W D E F G H A B C 5 in
  let '(W, F, B) := SHA2_STEP2 pcount W C D E F G H A B 6 in
  let '(W, E, A) := SHA2_STEP2 pcount W B C D E F G H A 7 in
  let '(W, D, H) := SHA2_STEP2 pcount W A B C D E F G H 8 in
  let '(W, C, G) := SHA2_STEP2 pcount W H A B C D E F G 9 in
  let '(W, B, F) := SHA2_STEP2 pcount W G H A B C D E F 10 in
  let '(W, A, E) := SHA2_STEP2 pcount W F G H A B C D E 11 in
  let '(W, H, D) := SHA2_STEP2 pcount W E F G H A B C D 12 in
  let '(W, G, C) := SHA2_STEP2 pcount W D E F G H A B C 13 in
  let '(W, F, B) := SHA2_STEP2 pcount W C D E F G H A B 14 in
  let '(W, E, A) := SHA2_STEP2 pcount W B C D E F G H A 15 in
  (W, (A, B, C, D, E, F, G, H)).

Definition SHA2_ROUND_BODY (r : list Z) : list Z :=
  let st := (at_ r 0, at_ r 1, at_ r 2, at_ r 3, at_ r 4, at_ r 5, at_ r 6, at_ r 7) in
  let '(W, st) := steps1 0 (replicate 16 0) st in
  let '(W, st) := fold_left (fun '(W, st) pcount => steps2 pcount W st) [16; 32; 48] (W, st) in
  add_regs r st.
End Body.
End Small.

(** ** The unrolled body, sixteen steps at a time *)
Module Unrolled.

Definition steps_0_15 (inp : nat -> Z) (r : list Z) : regs * words16 :=
  dlet A := at_ r 0 in
  dlet B := at_ r 1 in
  dlet C := at_ r 2 in
  dlet D := at_ r 3 in
  dlet E := at_ r 4 in
  dlet F := at_ r 5 in
  dlet G := at_ r 6 in
  dlet H := at_ r 7 in
  dlet W00 := inp 0%nat in
  dlet T1 := SPH_T32 (H + BSG2_1 E + CH E F G + 0x428A2F98 + W00) in
  dlet T2 := SPH_T32 (BSG2_0 A + MAJ A B C) in
  dlet D := SPH_T32 (D + T1) in
  dlet H := SPH_T32 (T1 + T2) in
  dlet W01 := inp 1%nat in
  dlet T1 := SPH_T32 (G + BSG2_1 D + CH D E F + 0x71374491 + W01) in
  dlet T2 := SPH_T32 (BSG2_0 H + MAJ H A B) in
  dlet C := SPH_T32 (C + T1) in
  dlet G := SPH_T32 (T1 + T2) in
  dlet W02 := inp 2%nat in
  dlet T1 := SPH_T32 (F + BSG2_1 C + CH C D E + 0xB5C0FBCF + W02) in
  dlet T2 := SPH_T32 (BSG2_0 G + MAJ G H A) in
  dlet B := SPH_T32 (B + T1) in
  dlet F := SPH_T32 (T1 + T2) in
  dlet W03 := inp 3%nat in
  dlet T1 := SPH_T32 (E + BSG2_1 B + CH B C D + 0xE9B5DBA5 + W03) in
  dlet T2 := SPH_T32 (BSG2_0 F + MAJ F G H) in
  dlet A := SPH_T32 (A + T1) in
  dlet E := SPH_T32 (T1 + T2) in
  dlet W04 := inp 4%nat in
  dlet T1 := SPH_T32 (D + BSG2_1 A + CH A B C + 0x3956C25B + W04) in
  dlet T2 := SPH_T32 (BSG2_0 E + MAJ E F G) in
  dlet H := SPH_T32 (H + T1) in
  dlet D := SPH_T32 (T1 + T2) in
  dlet W05 := inp 5%nat in
  dlet T1 := SPH_T32 (C + BSG2_1 H + CH H A B + 0x59F111F1 + W05) in
  dlet T2 := SPH_T32 (BSG2_0 D + MAJ D E F) in
  dlet G := SPH_T32 (G + T1) in
  dlet C := SPH_T32 (T1 + T2) in
  dlet W06 := inp 6%nat in
  dlet T1 := SPH_T32 (B + BSG2_1 G + CH G H A + 0x923F82A4 + W06) in
  dlet T2 := SPH_T32 (BSG2_0 C + MAJ C D E) in
  dlet F := SPH_T32 (F + T1) in
  dlet B := SPH_T32 (T1 + T2) in
  dlet W07 := inp 7%nat in
  dlet T1 := SPH_T32 (A + BSG2_1 F + CH F G H + 0xAB1C5ED5 + W07) in
  dlet T2 := SPH_T32 (BSG2_0 B + MAJ B C D) in
  dlet E := SPH_T32 (E + T1) in
  dlet A := SPH_T32 (T1 + T2) in
  dlet W08 := inp 8%nat in
  dlet T1 := SPH_T32 (H + BSG2_1 E + CH E F G + 0xD807AA98 + W08) in
  dlet T2 := SPH_T32 (BSG2_0 A + MAJ A B C) in
  dlet D := SPH_T32 (D + T1) in
  dlet H := SPH_T32 (T1 + T2) in
  dlet W09 := inp 9%nat in
  dlet T1 := SPH_T32 (G + BSG2_1 D + CH D E F + 0x12835B01 + W09) in
  dlet T2 := SPH_T32 (BSG2_0 H + MAJ H A B) in
  dlet C := SPH_T32 (C + T1) in
  dlet G := SPH_T32 (T1 + T2) in
  dlet W10 := inp 10%nat in
  dlet T1 := SPH_T32 (F + BSG2_1 C + CH C D E + 0x243185BE + W10) in
  dlet T2 := SPH_T32 (BSG2_0 G + MAJ G H A) in
  dlet B := SPH_T32 (B + T1) in
  dlet F := SPH_T32 (T1 + T2) in
  dlet W11 := inp 11%nat in
  dlet T1 := SPH_T32 (E + BSG2_1 B + CH B C D + 0x550C7DC3 + W11) in
  dlet T2 := SPH_T32 (BSG2_0 F + MAJ F G H) in
  dlet A := SPH_T32 (A + T1) in
  dlet E := SPH_T32 (T1 + T2) in
  dlet W12 := inp 12%nat in
  dlet T1 := SPH_T32 (D + BSG2_1 A + CH A B C + 0x72BE5D74 + W12) in
  dlet T2 := SPH_T32 (BSG2_0 E + MAJ E F G) in
  dlet H := SPH_T32 (H + T1) in
  dlet D := SPH_T32 (T1 + T2) in
  dlet W13 := inp 13%nat in
  dlet T1 := SPH_T32 (C + BSG2_1 H + CH H A B + 0x80DEB1FE + W13) in
  dlet T2 := SPH_T32 (BSG2_0 D + MAJ D E F) in
  dlet G := SPH_T32 (G + T1) in
  dlet C := SPH_T32 (T1 + T2) in
  dlet W14 := inp 14%nat in
  dlet T1 := SPH_T32 (B + BSG2_1 G + CH G H A + 0x9BDC06A7 + W14) in
  dlet T2 := SPH_T32 (BSG2_0 C + MAJ C D E) in
  dlet F := SPH_T32 (F + T1) in
  dlet B := SPH_T32 (T1 + T2) in
  dlet W15 := inp 15%nat in
  dlet T1 := SPH_T32 (A + BSG2_1 F + CH F G H + 0xC19BF174 + W15) in
  dlet T2 := SPH_T32 (BSG2_0 B + MAJ B C D) in
  dlet E := SPH_T32 (E + T1) in
  dlet A := SPH_T32 (T1 + T2) in
  ((A, B, C, D, E, F, G, H),
   (W00, W01, W02, W03, W04, W05, W06, W07, W08, W09, W10, W11, W12, W13, W14, W15)).

Definition steps_16_31 (rw : regs * words16) : regs * words16 :=
  let '((A, B, C, D, E, F, G, H),
    (W00, W01, W02, W03, W04, W05, W06, W07, W08, W09, W10, W11, W12, W13, W14, W15)) := rw in
  dlet W00 := SPH_T32 (SSG2_1 W14 + W09 + SSG2_0 W01 + W00) in
  dlet T1 := SPH_T32 (H + BSG2_1 E + CH E F G + 0xE49B69C1 + W00) in
  dlet T2 := SPH_T32 (BSG2_0 A + MAJ A B C) in
  dlet D := SPH_T32 (D + T1) in
  dlet H := SPH_T32 (T1 + T2) in
  dlet W01 := SPH_T32 (SSG2_1 W15 + W10 + SSG2_0 W02 + W01) in
  dlet T1 := SPH_T32 (G + BSG2_1 D + CH D E F + 0xEFBE4786 + W01) in
  dlet T2 := SPH_T32 (BSG2_0 H + MAJ H A B) in
  dlet C := SPH_T32 (C + T1) in
  dlet G := SPH_T32 (T1 + T2) in
  dlet W02 := SPH_T32 (SSG2_1 W00 + W11 + SSG2_0 W03 + W02) in
  dlet T1 := SPH_T32 (F + BSG2_1 C + CH C D E + 0x0FC19DC6 + W02) in
  dlet T2 := SPH_T32 (BSG2_0 G + MAJ G H A) in
  dlet B := SPH_T32 (B + T1) in
  dlet F := SPH_T32 (T1 + T2) in
  dlet W03 := SPH_T32 (SSG2_1 W01 + W12 + SSG2_0 W04 + W03) in
  dlet T1 := SPH_T32 (E + BSG2_1 B + CH B C D + 0x240CA1CC + W03) in
  dlet T2 := SPH_T32 (BSG2_0 F + MAJ F G H) in
  dlet A := SPH_T32 (A + T1) in
  dlet E := SPH_T32 (T1 + T2) in
  dlet W04 := SPH_T32 (SSG2_1 W02 + W13 + SSG2_0 W05 + W04) in
  dlet T1 := SPH_T32 (D + BSG2_1 A + CH A B C + 0x2DE92C6F + W04) in
  dlet T2 := SPH_T32 (BSG2_0 E + MAJ E F G) in
  dlet H := SPH_T32 (H + T1) in
  dlet D := SPH_T32 (T1 + T2) in
  dlet W05 := SPH_T32 (SSG2_1 W03 + W14 + SSG2_0 W06 + W05) in
  dlet T1 := SPH_T32 (C + BSG2_1 H + CH H A B + 0x4A7484AA + W05) in
  dlet T2 := SPH_T32 (BSG2_0 D + MAJ D E F) in
  dlet G := SPH_T32 (G + T1) in
  dlet C := SPH_T32 (T1 + T2) in
  dlet W06 := SPH_T32 (SSG2_1 W04 + W15 + SSG2_0 W07 + W06) in
  dlet T1 := SPH_T32 (B + BSG2_1 G + CH G H A + 0x5CB0A9DC + W06) in
  dlet T2 := SPH_T32 (BSG2_0 C + MAJ C D E) in
  dlet F := SPH_T32 (F + T1) in
  dlet B := SPH_T32 (T1 + T2) in
  dlet W07 := SPH_T32 (SSG2_1 W05 + W00 + SSG2_0 W08 + W07) in
  dlet T1 := SPH_T32 (A + BSG2_1 F + CH F G H + 0x76F988DA + W07) in
  dlet T2 := SPH_T32 (BSG2_0 B + MAJ B C D) in
  dlet E := SPH_T32 (E + T1) in
  dlet A := SPH_T32 (T1 + T2) in
  dlet W08 := SPH_T32 (SSG2_1 W06 + W01 + SSG2_0 W09 + W08) in
  dlet T1 := SPH_T32 (H + BSG2_1 E + CH E F G + 0x983E5152 + W08) in
  dlet T2 := SPH_T32 (BSG2_0 A + MAJ A B C) in
  dlet D := SPH_T32 (D + T1) in
  dlet H := SPH_T32 (T1 + T2) in
  dlet W09 := SPH_T32 (SSG2_1 W07 + W02 + SSG2_0 W10 + W09) in
  dlet T1 := SPH_T32 (G + BSG2_1 D + CH D E F + 0xA831C66D + W09) in
  dlet T2 := SPH_T32 (BSG2_0 H + MAJ H A B) in
  dlet C := SPH_T32 (C + T1) in
  dlet G := SPH_T32 (T1 + T2) in
  dlet W10 := SPH_T32 (SSG2_1 W08 + W03 + SSG2_0 W11 + W10) in
  dlet T1 := SPH_T32 (F + BSG2_1 C + CH C D E + 0xB00327C8 + W10) in
  dlet T2 := SPH_T32 (BSG2_0 G + MAJ G H A) in
  dlet B := SPH_T32 (B + T1) in
  dlet F := SPH_T32 (T1 + T2) in
  dlet W11 := SPH_T32 (SSG2_1 W09 + W04 + SSG2_0 W12 + W11) in
  dlet T1 := SPH_T32 (E + BSG2_1 B + CH B C D + 0xBF597FC7 + W11) in
  dlet T2 := SPH_T32 (BSG2_0 F + MAJ F G H) in
  dlet A := SPH_T32 (A + T1) in
  dlet E := SPH_T32 (T1 + T2) in
  dlet W12 := SPH_T32 (SSG2_1 W10 + W05 + SSG2_0 W13 + W12) in
  dlet T1 := SPH_T32 (D + BSG2_1 A + CH A B C + 0xC6E00BF3 + W12) in
  dlet T2 := SPH_T32 (BSG2_0 E + MAJ E F G) in
  dlet H := SPH_T32 (H + T1) in
  dlet D := SPH_T32 (T1 + T2) in
  dlet W13 := SPH_T32 (SSG2_1 W11 + W06 + SSG2_0 W14 + W13) in
  dlet T1 := SPH_T32 (C + BSG2_1 H + CH H A B + 0xD5A79147 + W13) in
  dlet T2 := SPH_T32 (BSG2_0 D + MAJ D E F) in
  dlet G := SPH_T32 (G + T1) in
  dlet C := SPH_T32 (T1 + T2) in
  dlet W14 := SPH_T32 (SSG2_1 W12 + W07 + SSG2_0 W15 + W14) in
  dlet T1 := SPH_T32 (B + BSG2_1 G + CH G H A + 0x06CA6351 + W14) in
  dlet T2 := SPH_T32 (BSG2_0 C + MAJ C D E) in
  dlet F := SPH_T32 (F + T1) in
  dlet B := SPH_T32 (T1 + T2) in
  dlet W15 := SPH_T32 (SSG2_1 W13 + W08 + SSG2_0 W00 + W15) in
  dlet T1 := SPH_T32 (A + BSG2_1 F + CH F G H + 0x14292967 + W15) in
  dlet T2 := SPH_T32 (BSG2_0 B + MAJ B C D) in
  dlet E := SPH_T32 (E + T1) in
  dlet A := SPH_T32 (T1 + T2) in
  ((A, B, C, D, E, F, G, H),
   (W00, W01, W02, W03, W04, W05, W06, W07, W08, W09, W10, W11, W12, W13, W14, W15)).

Definition steps_32_47 (rw : regs * words16) : regs * words16 :=
  let '((A, B, C, D, E, F, G, H),
    (W00, W01, W02, W03, W04, W05, W06, W07, W08, W09, W10, W11, W12, W13, W14, W15)) := rw in
  dlet W00 := SPH_T32 (SSG2_1 W14 + W09 + SSG2_0 W01 + W00) in
  dlet T1 := SPH_T32 (H + BSG2_1 E + CH E F G + 0x27B70A85 + W00) in
  dlet T2 := SPH_T32 (BSG2_0 A + MAJ A B C) in
  dlet D := SPH_T32 (D + T1) in
  dlet H := SPH_T32 (T1 + T2) in
  dlet W01 := SPH_T32 (SSG2_1 W15 + W10 + SSG2_0 W02 + W01) in
  dlet T1 := SPH_T32 (G + BSG2_1 D + CH D E F + 0x2E1B2138 + W01) in
  dlet T2 := SPH_T32 (BSG2_0 H + MAJ H A B) in
  dlet C := SPH_T32 (C + T1) in
  dlet G := SPH_T32 (T1 + T2) in
  dlet W02 := SPH_T32 (SSG2_1 W00 + W11 + SSG2_0 W03 + W02) in
  dlet T1 := SPH_T32 (F + BSG2_1 C + CH C D E + 0x4D2C6DFC + W02) in
  dlet T2 := SPH_T32 (BSG2_0 G + MAJ G H A) in
  dlet B := SPH_T32 (B + T1) in
  dlet F := SPH_T32 (T1 + T2) in
  dlet W03 := SPH_T32 (SSG2_1 W01 + W12 + SSG2_0 W04 + W03) in
  dlet T1 := SPH_T32 (E + BSG2_1 B + CH B C D + 0x53380D13 + W03) in
  dlet T2 := SPH_T32 (BSG2_0 F + MAJ F G H) in
  dlet A := SPH_T32 (A + T1) in
  dlet E := SPH_T32 (T1 + T2) in
  dlet W04 := SPH_T32 (SSG2_1 W02 + W13 + SSG2_0 W05 + W04) in
  dlet T1 := SPH_T32 (D + BSG2_1 A + CH A B C + 0x650A7354 + W04) in
  dlet T2 := SPH_T32 (BSG2_0 E + MAJ E F G) in
  dlet H := SPH_T32 (H + T1) in
  dlet D := SPH_T32 (T1 + T2) in
  dlet W05 := SPH_T32 (SSG2_1 W03 + W14 + SSG2_0 W06 + W05) in
  dlet T1 := SPH_T32 (C + BSG2_1 H + CH H A B + 0x766A0ABB + W05) in
  dlet T2 := SPH_T32 (BSG2_0 D + MAJ D E F) in
  dlet G := SPH_T32 (G + T1) in
  dlet C := SPH_T32 (T1 + T2) in
  dlet W06 := SPH_T32 (SSG2_1 W04 + W15 + SSG2_0 W07 + W06) in
  dlet T1 := SPH_T32 (B + BSG2_1 G + CH G H A + 0x81C2C92E + W06) in
  dlet T2 := SPH_T32 (BSG2_0 C + MAJ C D E) in
  dlet F := SPH_T32 (F + T1) in
  dlet B := SPH_T32 (T1 + T2) in
  dlet W07 := SPH_T32 (SSG2_1 W05 + W00 + SSG2_0 W08 + W07) in
  dlet T1 := SPH_T32 (A + BSG2_1 F + CH F G H + 0x92722C85 + W07) in
  dlet T2 := SPH_T32 (BSG2_0 B + MAJ B C D) in
  dlet E := SPH_T32 (E + T1) in
  dlet A := SPH_T32 (T1 + T2) in
  dlet W08 := SPH_T32 (SSG2_1 W06 + W01 + SSG2_0 W09 + W08) in
  dlet T1 := SPH_T32 (H + BSG2_1 E + CH E F G + 0xA2BFE8A1 + W08) in
  dlet T2 := SPH_T32 (BSG2_0 A + MAJ A B C) in
  dlet D := SPH_T32 (D + T1) in
  dlet H := SPH_T32 (T1 + T2) in
  dlet W09 := SPH_T32 (SSG2_1 W07 + W02 + SSG2_0 W10 + W09) in
  dlet T1 := SPH_T32 (G + BSG2_1 D + CH D E F + 0xA81A664B + W09) in
  dlet T2 := SPH_T32 (BSG2_0 H + MAJ H A B) in
  dlet C := SPH_T32 (C + T1) in
  dlet G := SPH_T32 (T1 + T2) in
  dlet W10 := SPH_T32 (SSG2_1 W08 + W03 + SSG2_0 W11 + W10) in
  dlet T1 := SPH_T32 (F + BSG2_1 C + CH C D E + 0xC24B8B70 + W10) in
  dlet T2 := SPH_T32 (BSG2_0 G + MAJ G H A) in
  dlet B := SPH_T32 (B + T1) in
  dlet F := SPH_T32 (T1 + T2) in
  dlet W11 := SPH_T32 (SSG2_1 W09 + W04 + SSG2_0 W12 + W11) in
  dlet T1 := SPH_T32 (E + BSG2_1 B + CH B C D + 0xC76C51A3 + W11) in
  dlet T2 := SPH_T32 (BSG2_0 F + MAJ F G H) in
  dlet A := SPH_T32 (A + T1) in
  dlet E := SPH_T32 (T1 + T2) in
  dlet W12 := SPH_T32 (SSG2_1 W10 + W05 + SSG2_0 W13 + W12) in
  dlet T1 := SPH_T32 (D + BSG2_1 A + CH A B C + 0xD192E819 + W12) in
  dlet T2 := SPH_T32 (BSG2_0 E + MAJ E F G) in
  dlet H := SPH_T32 (H + T1) in
  dlet D := SPH_T32 (T1 + T2) in
  dlet W13 := SPH_T32 (SSG2_1 W11 + W06 + SSG2_0 W14 + W13) in
  dlet T1 := SPH_T32 (C + BSG2_1 H + CH H A B + 0xD6990624 + W13) in
  dlet T2 := SPH_T32 (BSG2_0 D + MAJ D E F) in
  dlet G := SPH_T32 (G + T1) in
  dlet C := SPH_T32 (T1 + T2) in
  dlet W14 := SPH_T32 (SSG2_1 W12 + W07 + SSG2_0 W15 + W14) in
  dlet T1 := SPH_T32 (B + BSG2_1 G + CH G H A + 0xF40E3585 + W14) in
  dlet T2 := SPH_T32 (BSG2_0 C + MAJ C D E) in
  dlet F := SPH_T32 (F + T1) in
  dlet B := SPH_T32 (T1 + T2) in
  dlet W15 := SPH_T32 (SSG2_1 W13 + W08 + SSG2_0 W00 + W15) in
  dlet T1 := SPH_T32 (A + BSG2_1 F + CH F G H + 0x106AA070 + W15) in
  dlet T2 := SPH_T32 (BSG2_0 B + MAJ B C D) in
  dlet E := SPH_T32 (E + T1) in
  dlet A := SPH_T32 (T1 + T2) in
  ((A, B, C, D, E, F, G, H),
   (W00, W01, W02, W03, W04, W05, W06, W07, W08, W09, W10, W11, W12, W13, W14, W15)).

Definition steps_48_63 (rw : regs * words16) : regs * words16 :=
  let '((A, B, C, D, E, F, G, H),
    (W00, W01, W02, W03, W04, W05, W06, W07, W08, W09, W10, W11, W12, W13, W14, W15)) := rw in
  dlet W00 := SPH_T32 (SSG2_1 W14 + W09 + SSG2_0 W01 + W00) in
  dlet T1 := SPH_T32 (H + BSG2_1 E + CH E F G + 0x19A4C116 + W00) in
  dlet T2 := SPH_T32 (BSG2_0 A + MAJ A B C) in
  dlet D := SPH_T32 (D + T1) in
  dlet H := SPH_T32 (T1 + T2) in
  dlet W01 := SPH_T32 (SSG2_1 W15 + W10 + SSG2_0 W02 + W01) in
  dlet T1 := SPH_T32 (G + BSG2_1 D + CH D E F + 0x1E376C08 + W01) in
  dlet T2 := SPH_T32 (BSG2_0 H + MAJ H A B) in
  dlet C := SPH_T32 (C + T1) in
  dlet G := SPH_T32 (T1 + T2) in
  dlet W02 := SPH_T32 (SSG2_1 W00 + W11 + SSG2_0 W03 + W02) in
  dlet T1 := SPH_T32 (F + BSG2_1 C + CH C D E + 0x2748774C + W02) in
  dlet T2 := SPH_T32 (BSG2_0 G + MAJ G H A) in
  dlet B := SPH_T32 (B + T1) in
  dlet F := SPH_T32 (T1 + T2) in
  dlet W03 := SPH_T32 (SSG2_1 W01 + W12 + SSG2_0 W04 + W03) in
  dlet T1 := SPH_T32 (E + BSG2_1 B + CH B C D + 0x34B0BCB5 + W03) in
  dlet T2 := SPH_T32 (BSG2_0 F + MAJ F G H) in
  dlet A := SPH_T32 (A + T1) in
  dlet E := SPH_T32 (T1 + T2) in
  dlet W04 := SPH_T32 (SSG2_1 W02 + W13 + SSG2_0 W05 + W04) in
  dlet T1 := SPH_T32 (D + BSG2_1 A + CH A B C + 0x391C0CB3 + W04) in
  dlet T2 := SPH_T32 (BSG2_0 E + MAJ E F G) in
  dlet H := SPH_T32 (H + T1) in
  dlet D := SPH_T32 (T1 + T2) in
  dlet W05 := SPH_T32 (SSG2_1 W03 + W14 + SSG2_0 W06 + W05) in
  dlet T1 := SPH_T32 (C + BSG2_1 H + CH H A B + 0x4ED8AA4A + W05) in
  dlet T2 := SPH_T32 (BSG2_0 D + MAJ D E F) in
  dlet G := SPH_T32 (G + T1) in
  dlet C := SPH_T32 (T1 + T2) in
  dlet W06 := SPH_T32 (SSG2_1 W04 + W15 + SSG2_0 W07 + W06) in
  dlet T1 := SPH_T32 (B + BSG2_1 G + CH G H A + 0x5B9CCA4F + W06) in
  dlet T2 := SPH_T32 (BSG2_0 C + MAJ C D E) in
  dlet F := SPH_T32 (F + T1) in
  dlet B := SPH_T32 (T1 + T2) in
  dlet W07 := SPH_T32 (SSG2_1 W05 + W00 + SSG2_0 W08 + W07) in
  dlet T1 := SPH_T32 (A + BSG2_1 F + CH F G H + 0x682E6FF3 + W07) in
  dlet T2 := SPH_T32 (BSG2_0 B + MAJ B C D) in
  dlet E := SPH_T32 (E + T1) in
  dlet A := SPH_T32 (T1 + T2) in
  dlet W08 := SPH_T32 (SSG2_1 W06 + W01 + SSG2_0 W09 + W08) in
  dlet T1 := SPH_T32 (H + BSG2_1 E + CH E F G + 0x748F82EE + W08) in
  dlet T2 := SPH_T32 (BSG2_0 A + MAJ A B C) in
  dlet D := SPH_T32 (D + T1) in
  dlet H := SPH_T32 (T1 + T2) in
  dlet W09 := SPH_T32 (SSG2_1 W07 + W02 + SSG2_0 W10 + W09) in
  dlet T1 := SPH_T32 (G + BSG2_1 D + CH D E F + 0x78A5636F + W09) in
  dlet T2 := SPH_T32 (BSG2_0 H + MAJ H A B) in
  dlet C := SPH_T32 (C + T1) in
  dlet G := SPH_T32 (T1 + T2) in
  dlet W10 := SPH_T32 (SSG2_1 W08 + W03 + SSG2_0 W11 + W10) in
  dlet T1 := SPH_T32 (F + BSG2_1 C + CH C D E + 0x84C87814 + W10) in
  dlet T2 := SPH_T32 (BSG2_0 G + MAJ G H A) in
  dlet B := SPH_T32 (B + T1) in
  dlet F := SPH_T32 (T1 + T2) in
  dlet W11 := SPH_T32 (SSG2_1 W09 + W04 + SSG2_0 W12 + W11) in
  dlet T1 := SPH_T32 (E + BSG2_1 B + CH B C D + 0x8CC70208 + W11) in
  dlet T2 := SPH_T32 (BSG2_0 F + MAJ F G H) in
  dlet A := SPH_T32 (A + T1) in
  dlet E := SPH_T32 (T1 + T2) in
  dlet W12 := SPH_T32 (SSG2_1 W10 + W05 + SSG2_0 W13 + W12) in
  dlet T1 := SPH_T32 (D + BSG2_1 A + CH A B C + 0x90BEFFFA + W12) in
  dlet T2 := SPH_T32 (BSG2_0 E + MAJ E F G) in
  dlet H := SPH_T32 (H + T1) in
  dlet D := SPH_T32 (T1 + T2) in
  dlet W13 := SPH_T32 (SSG2_1 W11 + W06 + SSG2_0 W14 + W13) in
  dlet T1 := SPH_T32 (C + BSG2_1 H + CH H A B + 0xA4506CEB + W13) in
  dlet T2 := SPH_T32 (BSG2_0 D + MAJ D E F) in
  dlet G := SPH_T32 (G + T1) in
  dlet C := SPH_T32 (T1 + T2) in
  dlet W14 := SPH_T32 (SSG2_1 W12 + W07 + SSG2_0 W15 + W14) in
  dlet T1 := SPH_T32 (B + BSG2_1 G + CH G H A + 0xBEF9A3F7 + W14) in
  dlet T2 := SPH_T32 (BSG2_0 C + MAJ C D E) in
  dlet F := SPH_T32 (F + T1) in
  dlet B := SPH_T32 (T1 + T2) in
  dlet W15 := SPH_T32 (SSG2_1 W13 + W08 + SSG2_0 W00 + W15) in
  dlet T1 := SPH_T32 (A + BSG2_1 F + CH F G H + 0xC67178F2 + W15) in
  dlet T2 := SPH_T32 (BSG2_0 B + MAJ B C D) in
  dlet E := SPH_T32 (E + T1) in
  dlet A := SPH_T32 (T1 + T2) in
  ((A, B, C, D, E, F, G, H),
   (W00, W01, W02, W03, W04, W05, W06, W07, W08, W09, W10, W11, W12, W13, W14, W15)).

Definition SHA2_ROUND_BODY (inp : nat -> Z) (r : list Z) : list Z :=
  add_regs r (fst (steps_48_63 (steps_32_47 (steps_16_31 (steps_0_15 inp r))))).
End Unrolled.

(** ** The compression function and the contexts *)
Definition SHA2_ROUND_BODY (small : bool) (inp : nat -> Z) (r : list Z) : list Z :=
  if small then Small.SHA2_ROUND_BODY inp r else Unrolled.SHA2_ROUND_BODY inp r.

Section Api.
(** SPH_SMALL_FOOTPRINT_SHA2, SPH_UPTR and SPH_UNALIGNED. *)
Context (small uptr unaligned : bool).

Definition sha2_round (data r : list Z) : list Z :=
  SHA2_ROUND_BODY small (fun x => sph_dec32be_aligned (drop (4 * x) data)) r.

Definition sph_sha224_comp (msg val : list Z) : list Z :=
  SHA2_ROUND_BODY small (fun x => at_ msg x) val.

(** [#define BE32 1], then the inclusion of md_helper.c. *)
Definition sha224_config : config := Config false true None false PLW2 uptr unaligned.

Definition sph_sha224_init (sc : context) : context := Context_ (buf sc) H224 0.
Definition sph_sha256_init (sc : context) : context := Context_ (buf sc) H256 0.
Definition sph_sha224 := sph_HASH sha224_config sha2_round.
Definition sph_sha256 := sph_HASH sha224_config sha2_round.

Definition sph_sha224_close (sc : context) : context * list Z :=
  let '(sc, dst) := HASH_close sha224_config sha2_round sc 7 in (sph_sha224_init sc, dst).
Definition sph_sha224_addbits_and_close (sc : context) (ub n : Z) : context * list Z :=
  let '(sc, dst) := addbits_and_close sha224_config sha2_round sc ub n 7 in
  (sph_sha224_init sc, dst).
Definition sph_sha256_close (sc : context) : context * list Z :=
  let '(sc, dst) := HASH_close sha224_config sha2_round sc 8 in (sph_sha256_init sc, dst).
Definition sph_sha256_addbits_and_close (sc : context) (ub n : Z) : context * list Z :=
  let '(sc, dst) := addbits_and_close sha224_config sha2_round sc ub n 8 in
  (sph_sha256_init sc, dst).
End Api.

(** ** FIPS 180-4
    The constants are those that the standard derives from primes; only the operations on words
    are shared. *)
Module FIPS.
Definition K : list Z := Eval vm_compute in map (Standard.root_bits 3 32) (Standard.primes 64).
Definition H0_256 : list Z := Eval vm_compute in map (Standard.root_bits 2 32) (Standard.primes 8).
Definition H0_224 : list Z := Eval vm_compute in
  map (fun p => Standard.root_bits 2 64 p mod 2 ^ 32) (drop 8 (Standard.primes 16)).

Definition Sigma0 (x : Z) : Z := SPH_ROTR32 x 2 ^^ SPH_ROTR32 x 13 ^^ SPH_ROTR32 x 22.
Definition Sigma1 (x : Z) : Z := SPH_ROTR32 x 6 ^^ SPH_ROTR32 x 11 ^^ SPH_ROTR32 x 25.
Definition sigma0 (x : Z) : Z := SPH_ROTR32 x 7 ^^ SPH_ROTR32 x 18 ^^ SPH_T32 (x >>. 3).
Definition sigma1 (x : Z) : Z := SPH_ROTR32 x 17 ^^ SPH_ROTR32 x 19 ^^ SPH_T32 (x >>. 10).
Definition Ch (x y z : Z) : Z := (x &. y) ^^ (Z.lnot x &. z).
Definition Maj (x y z : Z) : Z := (x &. y) ^^ (x &. z) ^^ (y &. z).

(** [W_t] from [W_(t-16)], ..., [W_(t-1)]. *)
Definition next (ws : list Z) : Z :=
  SPH_T32 (sigma1 (at_ ws 14) + at_ ws 9 + sigma0 (at_ ws 1) + at_ ws 0).

Definition step (k w : Z) (st : regs) : regs :=
  let '(a, b, c, d, e, f, g, h) := st in
  let T1 := SPH_T32 (h + Sigma1 e + Ch e f g + k + w) in
  let T2 := SPH_T32 (Sigma0 a + Maj a b c) in
  (SPH_T32 (T1 + T2), a, b, c, SPH_T32 (d + T1), e, f, g).

Definition add (r : list Z) (st : regs) : list Z :=
  let '(a, b, c, d, e, f, g, h) := st in
  [SPH_T32 (at_ r 0 + a); SPH_T32 (at_ r 1 + b); SPH_T32 (at_ r 2 + c); SPH_T32 (at_ r 3 + d);
   SPH_T32 (at_ r 4 + e); SPH_T32 (at_ r 5 + f); SPH_T32 (at_ r 6 + g); SPH_T32 (at_ r 7 + h)].

Definition words (inp : nat -> Z) : list Z := map inp (seq 0 16).

Definition compress (inp : nat -> Z) (r : list Z) : list Z :=
  add r
    (rounds_given step K (words inp ++ schedule next 48 (words inp))
       (at_ r 0, at_ r 1, at_ r 2, at_ r 3, at_ r 4, at_ r 5, at_ r 6, at_ r 7)).

(** The block as sixteen big-endian words. *)
Definition block (data r : list Z) : list Z :=
  compress (fun x => sph_dec32be (drop (4 * x) data)) r.

Definition SHA224 (m : list Z) (ub n : Z) : list Z :=
  Standard.digest 64 8 4 true block H0_224 7 m ub n.
Definition SHA256 (m : list Z) (ub n : Z) : list Z :=
  Standard.digest 64 8 4 true block H0_256 8 m ub n.
End FIPS.

(** ** Proofs *)
Lemma sha2_CH_Ch x y z : FIPS.Ch x y z = CH x y z.
Proof.
  apply Z.bits_inj'. intros i Hi. unfold FIPS.Ch, CH.
  rewrite !Z.lxor_spec, !Z.land_spec, Z.lnot_spec, Z.lxor_spec by lia.
  by destruct (Z.testbit x i), (Z.testbit y i), (Z.testbit z i).
Qed.

Lemma sha2_MAJ_Maj x y z : FIPS.Maj x y z = MAJ x y z.
Proof.
  apply Z.bits_inj'. intros i Hi. unfold FIPS.Maj, MAJ.
  rewrite !Z.lxor_spec, Z.lor_spec, !Z.land_spec, Z.lor_spec.
  by destruct (Z.testbit x i), (Z.testbit y i), (Z.testbit z i).
Qed.

(** The constants are those of the standard. *)
Lemma sha2_K : FIPS.K = K.
Proof. reflexivity. Qed.
Lemma sha2_add r st : FIPS.add r st = add_regs r st.
Proof. reflexivity. Qed.

(** One step, with the expressions of the source. *)
Lemma sha2_step_src k w a b c d e f g h :
  FIPS.step k w (a, b, c, d, e, f, g, h) =
  (SPH_T32 (SPH_T32 (h + BSG2_1 e + CH e f g + k + w) + SPH_T32 (BSG2_0 a + MAJ a b c)),
   a, b, c, SPH_T32 (d + SPH_T32 (h + BSG2_1 e + CH e f g + k + w)), e, f, g).
Proof. unfold FIPS.step. by rewrite sha2_CH_Ch, sha2_MAJ_Maj. Qed.

Lemma rounds_given_src k ks w ws a b c d e f g h :
  rounds_given FIPS.step (k :: ks) (w :: ws) (a, b, c, d, e, f, g, h) =
  rounds_given FIPS.step ks ws
  (SPH_T32 (SPH_T32 (h + BSG2_1 e + CH e f g + k + w) + SPH_T32 (BSG2_0 a + MAJ a b c)),
   a, b, c, SPH_T32 (d + SPH_T32 (h + BSG2_1 e + CH e f g + k + w)), e, f, g).
Proof. rewrite <- sha2_step_src. reflexivity. Qed.

Lemma sha2_rounds_src k ks w0 w1 w2 w3 w4 w5 w6 w7 w8 w9 w10 w11 w12 w13 w14 w15
    a b c d e f g h :
  let w := SPH_T32 (SSG2_1 w14 + w9 + SSG2_0 w1 + w0) in
  rounds FIPS.next FIPS.step (k :: ks)
    [w0; w1; w2; w3; w4; w5; w6; w7; w8; w9; w10; w11; w12; w13; w14; w15]
    (a, b, c, d, e, f, g, h) =
  rounds FIPS.next FIPS.step ks
    [w1; w2; w3; w4; w5; w6; w7; w8; w9; w10; w11; w12; w13; w14; w15; w]
  (SPH_T32 (SPH_T32 (h + BSG2_1 e + CH e f g + k + w) + SPH_T32 (BSG2_0 a + MAJ a b c)),
   a, b, c, SPH_T32 (d + SPH_T32 (h + BSG2_1 e + CH e f g + k + w)), e, f, g).
Proof. intros w. rewrite <- sha2_step_src. reflexivity. Qed.

Definition list16 (rw : regs * words16) : regs * list Z :=
  let '(st, (w0, w1, w2, w3, w4, w5, w6, w7, w8, w9, w10, w11, w12, w13, w14, w15)) := rw in
  (st, [w0; w1; w2; w3; w4; w5; w6; w7; w8; w9; w10; w11; w12; w13; w14; w15]).

Lemma unrolled_0_15 inp r :
  list16 (Unrolled.steps_0_15 inp r) =
  (rounds_given FIPS.step (take 16 K) (FIPS.words inp)
     (at_ r 0, at_ r 1, at_ r 2, at_ r 3, at_ r 4, at_ r 5, at_ r 6, at_ r 7),
   FIPS.words inp).
Proof.
  unfold FIPS.words. cbn [map seq]. cbv beta delta [Unrolled.steps_0_15].
  let k := eval vm_compute in (take 16 K) in change (take 16 K) with k.
  do 8 pull. do 16 (pull; rewrite rounds_given_src; do 4 pull). reflexivity.
Qed.

(** The registers and the words of a tuple as variables. *)
Ltac split_rw rw :=
  destruct rw as [[[[[[[[? ?] ?] ?] ?] ?] ?] ?] [[[[[[[[[[[[[[[? ?] ?] ?] ?] ?] ?] ?] ?] ?] ?] ?] ?] ?] ?] ?]].

Ltac run_steps :=
  lazymatch goal with
  | |- _ = rounds _ _ ?ks _ _ =>
      let k := eval vm_compute in ks in change ks with k;
      do 16 (rewrite sha2_rounds_src; cbv zeta; do 5 pull); reflexivity
  end.

Lemma unrolled_16_31 rw st ws :
  list16 rw = (st, ws) ->
  list16 (Unrolled.steps_16_31 rw) = rounds FIPS.next FIPS.step (take 16 (drop 16 K)) ws st.
Proof.
  split_rw rw. intros [= <- <-]. cbv beta iota delta [Unrolled.steps_16_31]. run_steps.
Qed.

Lemma unrolled_32_47 rw st ws :
  list16 rw = (st, ws) ->
  list16 (Unrolled.steps_32_47 rw) = rounds FIPS.next FIPS.step (take 16 (drop 32 K)) ws st.
Proof.
  split_rw rw. intros [= <- <-]. cbv beta iota delta [Unrolled.steps_32_47]. run_steps.
Qed.

Lemma unrolled_48_63 rw st ws :
  list16 rw = (st, ws) ->
  list16 (Unrolled.steps_48_63 rw) = rounds FIPS.next FIPS.step (take 16 (drop 48 K)) ws st.
Proof.
  split_rw rw. intros [= <- <-]. cbv beta iota delta [Unrolled.steps_48_63]. run_steps.
Qed.

#[local] Opaque Unrolled.steps_0_15 Unrolled.steps_16_31 Unrolled.steps_32_47
  Unrolled.steps_48_63.

(** The standard's iteration in four groups of sixteen. *)
Lemma compress_groups inp r :
  let st0 := (at_ r 0, at_ r 1, at_ r 2, at_ r 3, at_ r 4, at_ r 5, at_ r 6, at_ r 7) in
  let s1 := (rounds_given FIPS.step (take 16 K) (FIPS.words inp) st0, FIPS.words inp) in
  let s2 := rounds FIPS.next FIPS.step (take 16 (drop 16 K)) s1.2 s1.1 in
  let s3 := rounds FIPS.next FIPS.step (take 16 (drop 32 K)) s2.2 s2.1 in
  let s4 := rounds FIPS.next FIPS.step (take 16 (drop 48 K)) s3.2 s3.1 in
  FIPS.compress inp r = add_regs r s4.1.
Proof.
  intros st0 s1 s2 s3 s4. unfold FIPS.compress. rewrite sha2_K.
  etransitivity; [apply sha2_add|]. apply (f_equal (add_regs r)).
  change (at_ r 0, at_ r 1, at_ r 2, at_ r 3, at_ r 4, at_ r 5, at_ r 6, at_ r 7) with st0.
  change 48%nat with (length K - 16)%nat.
  rewrite rounds_given_rounds by (done || (vm_compute; lia)).
  assert (E : drop 16 K = take 16 (drop 16 K) ++ take 16 (drop 32 K) ++ take 16 (drop 48 K))
    by (vm_compute; reflexivity).
  rewrite E at 1. clear E. subst s4 s3 s2 s1. clearbody st0. rewrite !rounds_app.
  cbn [fst snd]. destruct (rounds _ _ (take 16 (drop 16 K)) _ _) as [s2 w2].
  rewrite rounds_app. by destruct (rounds _ _ (take 16 (drop 32 K)) _ _) as [s3 w3].
Qed.

Lemma unrolled_compress inp r : Unrolled.SHA2_ROUND_BODY inp r = FIPS.compress inp r.
Proof.
  refine (eq_trans _ (eq_sym (compress_groups inp r))). cbv zeta.
  rewrite <- unrolled_0_15.
  set (r1 := Unrolled.steps_0_15 inp r).
  rewrite <- (unrolled_16_31 r1 _ _ (surjective_pairing _)).
  rewrite <- (unrolled_32_47 _ _ _ (surjective_pairing _)).
  rewrite <- (unrolled_48_63 _ _ _ (surjective_pairing _)).
  unfold Unrolled.SHA2_ROUND_BODY. fold r1. apply (f_equal (add_regs r)).
  set (r4 := Unrolled.steps_48_63 _). by split_rw r4.
Qed.

(** *** The looped body *)
Lemma STEP1_pull {C} (f : list Z * Z * Z -> C) inp p W a b c d e g h j pc r :
  id (dlet w := inp (Z.to_nat pc) in
   dlet t1 := SPH_T32 (j + BSG2_1 e + CH e g h + at_ K (Z.to_nat (p + pc))
                       + at_ (<[Z.to_nat pc := w]> W) (Small.idx pc)) in
   dlet t2 := SPH_T32 (BSG2_0 a + MAJ a b c) in
   dlet d' := SPH_T32 (d + t1) in
   dlet h' := SPH_T32 (t1 + t2) in
   f (<[Z.to_nat pc := w]> W, d', h')) = r ->
  f (Small.SHA2_STEP1 inp p W a b c d e g h j pc) = r.
Proof. intros <-. reflexivity. Qed.

Lemma STEP2_pull {C} (f : list Z * Z * Z -> C) p W a b c d e g h j pc r :
  id (dlet w := SPH_T32 (SSG2_1 (at_ W (Small.idx (pc - 2))) + at_ W (Small.idx (pc - 7))
                      + SSG2_0 (at_ W (Small.idx (pc - 15))) + at_ W (Small.idx pc)) in
   dlet t1 := SPH_T32 (j + BSG2_1 e + CH e g h + at_ K (Z.to_nat (p + pc))
                       + at_ (<[Small.idx pc := w]> W) (Small.idx pc)) in
   dlet t2 := SPH_T32 (BSG2_0 a + MAJ a b c) in
   dlet d' := SPH_T32 (d + t1) in
   dlet h' := SPH_T32 (t1 + t2) in
   f (<[Small.idx pc := w]> W, d', h')) = r ->
  f (Small.SHA2_STEP2 p W a b c d e g h j pc) = r.
Proof. intros <-. reflexivity. Qed.

(** Reads and writes of an array of variables at a known index. *)
Ltac array_step :=
  match goal with
  | |- context [Z.to_nat ?n] =>
      let x := eval vm_compute in (Z.to_nat n) in change (Z.to_nat n) with x
  | |- context [at_ ?W ?j] =>
      let x := eval vm_compute in (at_ W j) in progress change (at_ W j) with x
  | |- context [@insert nat Z (list Z) ?I ?i ?v ?W] =>
      let W' := eval vm_compute in (@insert nat Z (list Z) I i v W) in
      change (@insert nat Z (list Z) I i v W) with W'
  end.

Ltac small_step :=
  lazymatch goal with
  | |- ?l = _ =>
      match l with
      | context [Small.SHA2_STEP1 ?i ?p ?W ?a ?b ?c ?d ?e ?g ?h ?j ?pc] =>
          let l' := eval pattern (Small.SHA2_STEP1 i p W a b c d e g h j pc) in l in
          lazymatch l' with ?f _ => refine (STEP1_pull f i p W a b c d e g h j pc _ _) end;
          rewrite rounds_given_src
      | context [Small.SHA2_STEP2 ?p ?W ?a ?b ?c ?d ?e ?g ?h ?j ?pc] =>
          let l' := eval pattern (Small.SHA2_STEP2 p W a b c d e g h j pc) in l in
          lazymatch l' with ?f _ => refine (STEP2_pull f p W a b c d e g h j pc _ _) end;
          rewrite sha2_rounds_src
      end
  end; cbv beta zeta; repeat array_step; pull; repeat array_step; do 4 pull.

Definition swap (x : list Z * regs) : regs * list Z := (x.2, x.1).

Ltac small_steps :=
  lazymatch goal with
  | |- context [take 16 ?l] =>
      let k := eval vm_compute in (take 16 l) in change (take 16 l) with k
  end;
  cbv beta iota delta [Small.steps1 Small.steps2]; do 16 small_step; reflexivity.

Lemma small_0_15 inp st :
  swap (Small.steps1 inp 0 (replicate 16 0) st) =
  (rounds_given FIPS.step (take 16 K) (FIPS.words inp) st, FIPS.words inp).
Proof.
  destruct st as [[[[[[[? ?] ?] ?] ?] ?] ?] ?]. unfold FIPS.words. cbn [map seq]. small_steps.
Qed.

Lemma small_16 ws st : length ws = 16%nat ->
  swap (Small.steps2 16 ws st) = rounds FIPS.next FIPS.step (take 16 (drop 16 K)) ws st.
Proof.
  intros Hw. destruct st as [[[[[[[? ?] ?] ?] ?] ?] ?] ?].
  split16 ws Hw. small_steps.
Qed.

Lemma small_32 ws st : length ws = 16%nat ->
  swap (Small.steps2 32 ws st) = rounds FIPS.next FIPS.step (take 16 (drop 32 K)) ws st.
Proof.
  intros Hw. destruct st as [[[[[[[? ?] ?] ?] ?] ?] ?] ?].
  split16 ws Hw. small_steps.
Qed.

Lemma small_48 ws st : length ws = 16%nat ->
  swap (Small.steps2 48 ws st) = rounds FIPS.next FIPS.step (take 16 (drop 48 K)) ws st.
Proof.
  intros Hw. destruct st as [[[[[[[? ?] ?] ?] ?] ?] ?] ?].
  split16 ws Hw. small_steps.
Qed.

#[local] Opaque Small.steps1 Small.steps2.

#[local] Opaque FIPS.step FIPS.next FIPS.words K.

Lemma swap_eq x y : swap x = y -> x = (y.2, y.1).
Proof. intros <-. by destruct x. Qed.

Lemma small_compress inp r : Small.SHA2_ROUND_BODY inp r = FIPS.compress inp r.
Proof.
  refine (eq_trans _ (eq_sym (compress_groups inp r))). unfold Small.SHA2_ROUND_BODY.
  cbv zeta. cbn [fst snd].
  set (st0 := (_, at_ r 7)). clearbody st0.
  rewrite (swap_eq _ _ (small_0_15 inp st0)). cbn [fold_left fst snd].
  assert (H1 : length (FIPS.words inp) = 16%nat) by reflexivity.
  rewrite (swap_eq _ _ (small_16 _ _ H1)).
  set (r2 := rounds _ _ (take 16 (drop 16 K)) _ _).
  assert (H2 : length r2.2 = 16%nat) by (unfold r2; rewrite length_rounds; by rewrite H1; lia).
  clearbody r2. rewrite (swap_eq _ _ (small_32 _ _ H2)).
  set (r3 := rounds _ _ (take 16 (drop 32 K)) _ _).
  assert (H3 : length r3.2 = 16%nat) by (unfold r3; rewrite length_rounds; by rewrite H2; lia).
  clearbody r3. rewrite (swap_eq _ _ (small_48 _ _ H3)). reflexivity.
Qed.

(** Both bodies are the standard's compression function. *)
Lemma sha2_body_compress small inp r : SHA2_ROUND_BODY small inp r = FIPS.compress inp r.
Proof. destruct small; [apply small_compress|apply unrolled_compress]. Qed.

#[local] Transparent FIPS.words.

(** *** The hash functions *)
Lemma sha2_compress_ext inp inp' r :
  (forall i, (i < 16)%nat -> inp i = inp' i) -> FIPS.compress inp r = FIPS.compress inp' r.
Proof.
  intros H. unfold FIPS.compress.
  assert (E : FIPS.words inp = FIPS.words inp').
  { unfold FIPS.words. apply map_ext_in. intros i Hi. apply H. apply in_seq in Hi. lia. }
  by rewrite E.
Qed.

Lemma sha2_round_block small data r :
  is_bytes data -> length data = 64%nat -> sha2_round small data r = FIPS.block data r.
Proof.
  intros Hb Hl. unfold sha2_round, FIPS.block. rewrite sha2_body_compress.
  apply sha2_compress_ext. intros i Hi. apply dec32be_aligned_eq.
  - by apply Forall_drop.
  - rewrite length_drop. lia.
Qed.

Section Correct.
Context (small uptr unaligned : bool).
Notation config := (sha224_config uptr unaligned).
Notation round := (sha2_round small).

Lemma sha2_digests m ub n :
  0 <= n < 8 ->
  hash_bits config FIPS.block H224 7 m ub n = FIPS.SHA224 m ub n /\
  hash_bits config FIPS.block H256 8 m ub n = FIPS.SHA256 m ub n.
Proof. intros Hn. split; by apply hash_bits_standard. Qed.

(** SHA-256: in the little-endian build with 64-bit words (small-footprint or unrolled body, aligned or unaligned reads), a context initialised with whatever it held
    before, updated with buffers that lie anywhere in memory and closed with [n] more bits,
    writes the digest that the standard defines for the concatenated message, and is initialised
    again. *)
Theorem sha256_stream buf0 ds ub n :
  length buf0 = 64%nat -> is_bytes (concat (map snd ds)) -> 0 <= n < 8 ->
  Z.of_nat (length (concat (map snd ds))) < 2 ^ 64 ->
  forall v0 c0,
  let sc := updates config round (sph_sha256_init (Context_ buf0 v0 c0)) ds in
  let '(sc', dst) := sph_sha256_addbits_and_close small uptr unaligned sc ub n in
  dst = FIPS.SHA256 (concat (map snd ds)) ub n /\
  exists b, length b = 64%nat /\ sc' = Context_ b H256 0.
Proof.
  intros Hb Hm Hn Hl v0 c0. cbv zeta. unfold sph_sha256_addbits_and_close, sph_sha256_init.
  cbn [buf]. destruct (stream_correct config round FIPS.block eq_refl (sha2_round_block small)
    H256 8 buf0 ds ub n Hb Hm Hn Hl) as (b & Hlb & Eb & Ed).
  destruct (addbits_and_close _ _ _ _ _ _) as [sc' dst]. cbn [fst snd buf] in *.
  split; [rewrite Ed; by apply sha2_digests|]. exists b. by rewrite Eb.
Qed.

(** SHA-224: in the little-endian build with 64-bit words (small-footprint or unrolled body, aligned or unaligned reads), a context initialised with whatever it held
    before, updated with buffers that lie anywhere in memory and closed with [n] more bits,
    writes the digest that the standard defines for the concatenated message, and is initialised
    again. *)
Theorem sha224_stream buf0 ds ub n :
  length buf0 = 64%nat -> is_bytes (concat (map snd ds)) -> 0 <= n < 8 ->
  Z.of_nat (length (concat (map snd ds))) < 2 ^ 64 ->
  forall v0 c0,
  let sc := updates config round (sph_sha224_init (Context_ buf0 v0 c0)) ds in
  let '(sc', dst) := sph_sha224_addbits_and_close small uptr unaligned sc ub n in
  dst = FIPS.SHA224 (concat (map snd ds)) ub n /\
  exists b, length b = 64%nat /\ sc' = Context_ b H224 0.
Proof.
  intros Hb Hm Hn Hl v0 c0. cbv zeta. unfold sph_sha224_addbits_and_close, sph_sha224_init.
  cbn [buf]. destruct (stream_correct config round FIPS.block eq_refl (sha2_round_block small)
    H224 7 buf0 ds ub n Hb Hm Hn Hl) as (b & Hlb & Eb & Ed).
  destruct (addbits_and_close _ _ _ _ _ _) as [sc' dst]. cbn [fst snd buf] in *.
  split; [rewrite Ed; by apply sha2_digests|]. exists b. by rewrite Eb.
Qed.
End Correct.

Lemma sha256_stream_witness :
  let '(sc, dst) := sph_sha256_addbits_and_close false true false
    (updates (sha224_config true false) (sha2_round false)
       (sph_sha256_init (Context_ (replicate 64 0) [] 7))
       [(1, [97; 98]); (6, [99])]) 0x80 1 in
  dst = FIPS.SHA256 [97; 98; 99] 0x80 1 /\ exists b, length b = 64%nat /\ sc = Context_ b H256 0.
Proof.
  refine (sha256_stream false true false (replicate 64 0) [(1, [97; 98]); (6, [99])] 0x80 1
            _ _ _ _ [] 7);
    [reflexivity|cbn; repeat constructor; lia|lia|reflexivity].
Defined.

Lemma sha224_stream_witness :
  let '(sc, dst) := sph_sha224_addbits_and_close true true false
    (updates (sha224_config true false) (sha2_round true)
       (sph_sha224_init (Context_ (replicate 64 0) [] 7))
       [(1, [97; 98]); (6, [99])]) 0x80 1 in
  dst = FIPS.SHA224 [97; 98; 99] 0x80 1 /\ exists b, length b = 64%nat /\ sc = Context_ b H224 0.
Proof.
  refine (sha224_stream true true false (replicate 64 0) [(1, [97; 98]); (6, [99])] 0x80 1
            _ _ _ _ [] 7);
    [reflexivity|cbn; repeat constructor; lia|lia|reflexivity].
Defined.

(** The two bodies of the file, the small-footprint loop over a rotating state and
    the sixty-four unrolled steps with their in-place message schedule, both compute the
    compression function of the standard, on every block and chaining value. *)
Theorem bodies_standard inp r :
  Small.SHA2_ROUND_BODY inp r = FIPS.compress inp r /\
  Unrolled.SHA2_ROUND_BODY inp r = FIPS.compress inp r.
Proof. split; [apply small_compress|apply unrolled_compress]. Qed.
