(* ===== verification/Sha0.v ===== *)
(** [sha0.c] of sphlib: SHA-0, SHA-1 without the rotation in the message schedule (FIPS 180); its unrolled
    body is shown equal to the standard's eighty steps, and the hash to the standard's. *)
From S2P Require Import Prelude SphTypes MdHelper Rounds.
Open Scope word_scope.

(** ** Macros and tables of the file *)
Definition F (B C D : Z) : Z := ((C ^^ D) &. B) ^^ D.
Definition G (B C D : Z) : Z := B ^^ C ^^ D.
Definition H (B C D : Z) : Z := (D &. C) |. ((D |. C) &. B).
Definition I (B C D : Z) : Z := G B C D.
Definition ROTL (x n : Z) : Z := SPH_ROTL32 x n.

Definition K1 : Z := 0x5A827999.
Definition K2 : Z := 0x6ED9EBA1.
Definition K3 : Z := 0x8F1BBCDC.
Definition K4 : Z := 0xCA62C1D6.

Definition IV : list Z := [0x67452301; 0xEFCDAB89; 0x98BADCFE; 0x10325476; 0xC3D2E1F0].

(** ** The compression function, in groups of steps *)
Definition regs : Type := Z * Z * Z * Z * Z.
Definition words16 : Type := Z * Z * Z * Z * Z * Z * Z * Z * Z * Z * Z * Z * Z * Z * Z * Z.

Definition steps_0_19 (inp : nat -> Z) (r : list Z) : regs * words16 :=
  dlet A := at_ r 0 in
  dlet B := at_ r 1 in
  dlet C := at_ r 2 in
  dlet D := at_ r 3 in
  dlet E := at_ r 4 in
  dlet W00 := inp 0%nat in
  dlet E := SPH_T32 (ROTL A 5 + F B C D + E + W00 + K1) in
  dlet B := ROTL B 30 in
  dlet W01 := inp 1%nat in
  dlet D := SPH_T32 (ROTL E 5 + F A B C + D + W01 + K1) in
  dlet A := ROTL A 30 in
  dlet W02 := inp 2%nat in
  dlet C := SPH_T32 (ROTL D 5 + F E A B + C + W02 + K1) in
  dlet E := ROTL E 30 in
  dlet W03 := inp 3%nat in
  dlet B := SPH_T32 (ROTL C 5 + F D E A + B + W03 + K1) in
  dlet D := ROTL D 30 in
  dlet W04 := inp 4%nat in
  dlet A := SPH_T32 (ROTL B 5 + F C D E + A + W04 + K1) in
  dlet C := ROTL C 30 in
  dlet W05 := inp 5%nat in
  dlet E := SPH_T32 (ROTL A 5 + F B C D + E + W05 + K1) in
  dlet B := ROTL B 30 in
  dlet W06 := inp 6%nat in
  dlet D := SPH_T32 (ROTL E 5 + F A B C + D + W06 + K1) in
  dlet A := ROTL A 30 in
  dlet W07 := inp 7%nat in
  dlet C := SPH_T32 (ROTL D 5 + F E A B + C + W07 + K1) in
  dlet E := ROTL E 30 in
  dlet W08 := inp 8%nat in
  dlet B := SPH_T32 (ROTL C 5 + F D E A + B + W08 + K1) in
  dlet D := ROTL D 30 in
  dlet W09 := inp 9%nat in
  dlet A := SPH_T32 (ROTL B 5 + F C D E + A + W09 + K1) in
  dlet C := ROTL C 30 in
  dlet W10 := inp 10%nat in
  dlet E := SPH_T32 (ROTL A 5 + F B C D + E + W10 + K1) in
  dlet B := ROTL B 30 in
  dlet W11 := inp 11%nat in
  dlet D := SPH_T32 (ROTL E 5 + F A B C + D + W11 + K1) in
  dlet A := ROTL A 30 in
  dlet W12 := inp 12%nat in
  dlet C := SPH_T32 (ROTL D 5 + F E A B + C + W12 + K1) in
  dlet E := ROTL E 30 in
  dlet W13 := inp 13%nat in
  dlet B := SPH_T32 (ROTL C 5 + F D E A + B + W13 + K1) in
  dlet D := ROTL D 30 in
  dlet W14 := inp 14%nat in
  dlet A := SPH_T32 (ROTL B 5 + F C D E + A + W14 + K1) in
  dlet C := ROTL C 30 in
  dlet W15 := inp 15%nat in
  dlet E := SPH_T32 (ROTL A 5 + F B C D + E + W15 + K1) in
  dlet B := ROTL B 30 in
  dlet W00 := W13 ^^ W08 ^^ W02 ^^ W00 in
  dlet D := SPH_T32 (ROTL E 5 + F A B C + D + W00 + K1) in
  dlet A := ROTL A 30 in
  dlet W01 := W14 ^^ W09 ^^ W03 ^^ W01 in
  dlet C := SPH_T32 (ROTL D 5 + F E A B + C + W01 + K1) in
  dlet E := ROTL E 30 in
  dlet W02 := W15 ^^ W10 ^^ W04 ^^ W02 in
  dlet B := SPH_T32 (ROTL C 5 + F D E A + B + W02 + K1) in
  dlet D := ROTL D 30 in
  dlet W03 := W00 ^^ W11 ^^ W05 ^^ W03 in
  dlet A := SPH_T32 (ROTL B 5 + F C D E + A + W03 + K1) in
  dlet C := ROTL C 30 in
  ((A, B, C, D, E),
   (W00, W01, W02, W03, W04, W05, W06, W07, W08, W09, W10, W11, W12, W13, W14, W15)).

Definition steps_20_39 (rw : regs * words16) : regs * words16 :=
  let '((A, B, C, D, E),
    (W00, W01, W02, W03, W04, W05, W06, W07, W08, W09, W10, W11, W12, W13, W14, W15)) := rw in
  dlet W04 := W01 ^^ W12 ^^ W06 ^^ W04 in
  dlet E := SPH_T32 (ROTL A 5 + G B C D + E + W04 + K2) in
  dlet B := ROTL B 30 in
  dlet W05 := W02 ^^ W13 ^^ W07 ^^ W05 in
  dlet D := SPH_T32 (ROTL E 5 + G A B C + D + W05 + K2) in
  dlet A := ROTL A 30 in
  dlet W06 := W03 ^^ W14 ^^ W08 ^^ W06 in
  dlet C := SPH_T32 (ROTL D 5 + G E A B + C + W06 + K2) in
  dlet E := ROTL E 30 in
  dlet W07 := W04 ^^ W15 ^^ W09 ^^ W07 in
  dlet B := SPH_T32 (ROTL C 5 + G D E A + B + W07 + K2) in
  dlet D := ROTL D 30 in
  dlet W08 := W05 ^^ W00 ^^ W10 ^^ W08 in
  dlet A := SPH_T32 (ROTL B 5 + G C D E + A + W08 + K2) in
  dlet C := ROTL C 30 in
  dlet W09 := W06 ^^ W01 ^^ W11 ^^ W09 in
  dlet E := SPH_T32 (ROTL A 5 + G B C D + E + W09 + K2) in
  dlet B := ROTL B 30 in
  dlet W10 := W07 ^^ W02 ^^ W12 ^^ W10 in
  dlet D := SPH_T32 (ROTL E 5 + G A B C + D + W10 + K2) in
  dlet A := ROTL A 30 in
  dlet W11 := W08 ^^ W03 ^^ W13 ^^ W11 in
  dlet C := SPH_T32 (ROTL D 5 + G E A B + C + W11 + K2) in
  dlet E := ROTL E 30 in
  dlet W12 := W09 ^^ W04 ^^ W14 ^^ W12 in
  dlet B := SPH_T32 (ROTL C 5 + G D E A + B + W12 + K2) in
  dlet D := ROTL D 30 in
  dlet W13 := W10 ^^ W05 ^^ W15 ^^ W13 in
  dlet A := SPH_T32 (ROTL B 5 + G C D E + A + W13 + K2) in
  dlet C := ROTL C 30 in
  dlet W14 := W11 ^^ W06 ^^ W00 ^^ W14 in
  dlet E := SPH_T32 (ROTL A 5 + G B C D + E + W14 + K2) in
  dlet B := ROTL B 30 in
  dlet W15 := W12 ^^ W07 ^^ W01 ^^ W15 in
  dlet D := SPH_T32 (ROTL E 5 + G A B C + D + W15 + K2) in
  dlet A := ROTL A 30 in
  dlet W00 := W13 ^^ W08 ^^ W02 ^^ W00 in
  dlet C := SPH_T32 (ROTL D 5 + G E A B + C + W00 + K2) in
  dlet E := ROTL E 30 in
  dlet W01 := W14 ^^ W09 ^^ W03 ^^ W01 in
  dlet B := SPH_T32 (ROTL C 5 + G D E A + B + W01 + K2) in
  dlet D := ROTL D 30 in
  dlet W02 := W15 ^^ W10 ^^ W04 ^^ W02 in
  dlet A := SPH_T32 (ROTL B 5 + G C D E + A + W02 + K2) in
  dlet C := ROTL C 30 in
  dlet W03 := W00 ^^ W11 ^^ W05 ^^ W03 in
  dlet E := SPH_T32 (ROTL A 5 + G B C D + E + W03 + K2) in
  dlet B := ROTL B 30 in
  dlet W04 := W01 ^^ W12 ^^ W06 ^^ W04 in
  dlet D := SPH_T32 (ROTL E 5 + G A B C + D + W04 + K2) in
  dlet A := ROTL A 30 in
  dlet W05 := W02 ^^ W13 ^^ W07 ^^ W05 in
  dlet C := SPH_T32 (ROTL D 5 + G E A B + C + W05 + K2) in
  dlet E := ROTL E 30 in
  dlet W06 := W03 ^^ W14 ^^ W08 ^^ W06 in
  dlet B := SPH_T32 (ROTL C 5 + G D E A + B + W06 + K2) in
  dlet D := ROTL D 30 in
  dlet W07 := W04 ^^ W15 ^^ W09 ^^ W07 in
  dlet A := SPH_T32 (ROTL B 5 + G C D E + A + W07 + K2) in
  dlet C := ROTL C 30 in
  ((A, B, C, D, E),
   (W00, W01, W02, W03, W04, W05, W06, W07, W08, W09, W10, W11, W12, W13, W14, W15)).

Definition steps_40_59 (rw : regs * words16) : regs * words16 :=
  let '((A, B, C, D, E),
    (W00, W01, W02, W03, W04, W05, W06, W07, W08, W09, W10, W11, W12, W13, W14, W15)) := rw in
  dlet W08 := W05 ^^ W00 ^^ W10 ^^ W08 in
  dlet E := SPH_T32 (ROTL A 5 + H B C D + E + W08 + K3) in
  dlet B := ROTL B 30 in
  dlet W09 := W06 ^^ W01 ^^ W11 ^^ W09 in
  dlet D := SPH_T32 (ROTL E 5 + H A B C + D + W09 + K3) in
  dlet A := ROTL A 30 in
  dlet W10 := W07 ^^ W02 ^^ W12 ^^ W10 in
  dlet C := SPH_T32 (ROTL D 5 + H E A B + C + W10 + K3) in
  dlet E := ROTL E 30 in
  dlet W11 := W08 ^^ W03 ^^ W13 ^^ W11 in
  dlet B := SPH_T32 (ROTL C 5 + H D E A + B + W11 + K3) in
  dlet D := ROTL D 30 in
  dlet W12 := W09 ^^ W04 ^^ W14 ^^ W12 in
  dlet A := SPH_T32 (ROTL B 5 + H C D E + A + W12 + K3) in
  dlet C := ROTL C 30 in
  dlet W13 := W10 ^^ W05 ^^ W15 ^^ W13 in
  dlet E := SPH_T32 (ROTL A 5 + H B C D + E + W13 + K3) in
  dlet B := ROTL B 30 in
  dlet W14 := W11 ^^ W06 ^^ W00 ^^ W14 in
  dlet D := SPH_T32 (ROTL E 5 + H A B C + D + W14 + K3) in
  dlet A := ROTL A 30 in
  dlet W15 := W12 ^^ W07 ^^ W01 ^^ W15 in
  dlet C := SPH_T32 (ROTL D 5 + H E A B + C + W15 + K3) in
  dlet E := ROTL E 30 in
  dlet W00 := W13 ^^ W08 ^^ W02 ^^ W00 in
  dlet B := SPH_T32 (ROTL C 5 + H D E A + B + W00 + K3) in
  dlet D := ROTL D 30 in
  dlet W01 := W14 ^^ W09 ^^ W03 ^^ W01 in
  dlet A := SPH_T32 (ROTL B 5 + H C D E + A + W01 + K3) in
  dlet C := ROTL C 30 in
  dlet W02 := W15 ^^ W10 ^^ W04 ^^ W02 in
  dlet E := SPH_T32 (ROTL A 5 + H B C D + E + W02 + K3) in
  dlet B := ROTL B 30 in
  dlet W03 := W00 ^^ W11 ^^ W05 ^^ W03 in
  dlet D := SPH_T32 (ROTL E 5 + H A B C + D + W03 + K3) in
  dlet A := ROTL A 30 in
  dlet W04 := W01 ^^ W12 ^^ W06 ^^ W04 in
  dlet C := SPH_T32 (ROTL D 5 + H E A B + C + W04 + K3) in
  dlet E := ROTL E 30 in
  dlet W05 := W02 ^^ W13 ^^ W07 ^^ W05 in
  dlet B := SPH_T32 (ROTL C 5 + H D E A + B + W05 + K3) in
  dlet D := ROTL D 30 in
  dlet W06 := W03 ^^ W14 ^^ W08 ^^ W06 in
  dlet A := SPH_T32 (ROTL B 5 + H C D E + A + W06 + K3) in
  dlet C := ROTL C 30 in
  dlet W07 := W04 ^^ W15 ^^ W09 ^^ W07 in
  dlet E := SPH_T32 (ROTL A 5 + H B C D + E + W07 + K3) in
  dlet B := ROTL B 30 in
  dlet W08 := W05 ^^ W00 ^^ W10 ^^ W08 in
  dlet D := SPH_T32 (ROTL E 5 + H A B C + D + W08 + K3) in
  dlet A := ROTL A 30 in
  dlet W09 := W06 ^^ W01 ^^ W11 ^^ W09 in
  dlet C := SPH_T32 (ROTL D 5 + H E A B + C + W09 + K3) in
  dlet E := ROTL E 30 in
  dlet W10 := W07 ^^ W02 ^^ W12 ^^ W10 in
  dlet B := SPH_T32 (ROTL C 5 + H D E A + B + W10 + K3) in
  dlet D := ROTL D 30 in
  dlet W11 := W08 ^^ W03 ^^ W13 ^^ W11 in
  dlet A := SPH_T32 (ROTL B 5 + H C D E + A + W11 + K3) in
  dlet C := ROTL C 30 in
  ((A, B, C, D, E),
   (W00, W01, W02, W03, W04, W05, W06, W07, W08, W09, W10, W11, W12, W13, W14, W15)).

Definition steps_60_79 (rw : regs * words16) : regs * words16 :=
  let '((A, B, C, D, E),
    (W00, W01, W02, W03, W04, W05, W06, W07, W08, W09, W10, W11, W12, W13, W14, W15)) := rw in
  dlet W12 := W09 ^^ W04 ^^ W14 ^^ W12 in
  dlet E := SPH_T32 (ROTL A 5 + I B C D + E + W12 + K4) in
  dlet B := ROTL B 30 in
  dlet W13 := W10 ^^ W05 ^^ W15 ^^ W13 in
  dlet D := SPH_T32 (ROTL E 5 + I A B C + D + W13 + K4) in
  dlet A := ROTL A 30 in
  dlet W14 := W11 ^^ W06 ^^ W00 ^^ W14 in
  dlet C := SPH_T32 (ROTL D 5 + I E A B + C + W14 + K4) in
  dlet E := ROTL E 30 in
  dlet W15 := W12 ^^ W07 ^^ W01 ^^ W15 in
  dlet B := SPH_T32 (ROTL C 5 + I D E A + B + W15 + K4) in
  dlet D := ROTL D 30 in
  dlet W00 := W13 ^^ W08 ^^ W02 ^^ W00 in
  dlet A := SPH_T32 (ROTL B 5 + I C D E + A + W00 + K4) in
  dlet C := ROTL C 30 in
  dlet W01 := W14 ^^ W09 ^^ W03 ^^ W01 in
  dlet E := SPH_T32 (ROTL A 5 + I B C D + E + W01 + K4) in
  dlet B := ROTL B 30 in
  dlet W02 := W15 ^^ W10 ^^ W04 ^^ W02 in
  dlet D := SPH_T32 (ROTL E 5 + I A B C + D + W02 + K4) in
  dlet A := ROTL A 30 in
  dlet W03 := W00 ^^ W11 ^^ W05 ^^ W03 in
  dlet C := SPH_T32 (ROTL D 5 + I E A B + C + W03 + K4) in
  dlet E := ROTL E 30 in
  dlet W04 := W01 ^^ W12 ^^ W06 ^^ W04 in
  dlet B := SPH_T32 (ROTL C 5 + I D E A + B + W04 + K4) in
  dlet D := ROTL D 30 in
  dlet W05 := W02 ^^ W13 ^^ W07 ^^ W05 in
  dlet A := SPH_T32 (ROTL B 5 + I C D E + A + W05 + K4) in
  dlet C := ROTL C 30 in
  dlet W06 := W03 ^^ W14 ^^ W08 ^^ W06 in
  dlet E := SPH_T32 (ROTL A 5 + I B C D + E + W06 + K4) in
  dlet B := ROTL B 30 in
  dlet W07 := W04 ^^ W15 ^^ W09 ^^ W07 in
  dlet D := SPH_T32 (ROTL E 5 + I A B C + D + W07 + K4) in
  dlet A := ROTL A 30 in
  dlet W08 := W05 ^^ W00 ^^ W10 ^^ W08 in
  dlet C := SPH_T32 (ROTL D 5 + I E A B + C + W08 + K4) in
  dlet E := ROTL E 30 in
  dlet W09 := W06 ^^ W01 ^^ W11 ^^ W09 in
  dlet B := SPH_T32 (ROTL C 5 + I D E A + B + W09 + K4) in
  dlet D := ROTL D 30 in
  dlet W10 := W07 ^^ W02 ^^ W12 ^^ W10 in
  dlet A := SPH_T32 (ROTL B 5 + I C D E + A + W10 + K4) in
  dlet C := ROTL C 30 in
  dlet W11 := W08 ^^ W03 ^^ W13 ^^ W11 in
  dlet E := SPH_T32 (ROTL A 5 + I B C D + E + W11 + K4) in
  dlet B := ROTL B 30 in
  dlet W12 := W09 ^^ W04 ^^ W14 ^^ W12 in
  dlet D := SPH_T32 (ROTL E 5 + I A B C + D + W12 + K4) in
  dlet A := ROTL A 30 in
  dlet W13 := W10 ^^ W05 ^^ W15 ^^ W13 in
  dlet C := SPH_T32 (ROTL D 5 + I E A B + C + W13 + K4) in
  dlet E := ROTL E 30 in
  dlet W14 := W11 ^^ W06 ^^ W00 ^^ W14 in
  dlet B := SPH_T32 (ROTL C 5 + I D E A + B + W14 + K4) in
  dlet D := ROTL D 30 in
  dlet W15 := W12 ^^ W07 ^^ W01 ^^ W15 in
  dlet A := SPH_T32 (ROTL B 5 + I C D E + A + W15 + K4) in
  dlet C := ROTL C 30 in
  ((A, B, C, D, E),
   (W00, W01, W02, W03, W04, W05, W06, W07, W08, W09, W10, W11, W12, W13, W14, W15)).

(** The end of the body. *)
Definition add_regs (r : list Z) (st : regs) : list Z :=
  let '(A, B, C, D, E) := st in
  [SPH_T32 (at_ r 0 + A); SPH_T32 (at_ r 1 + B); SPH_T32 (at_ r 2 + C);
   SPH_T32 (at_ r 3 + D); SPH_T32 (at_ r 4 + E)].

Definition SHA0_ROUND_BODY (inp : nat -> Z) (r : list Z) : list Z :=
  add_regs r (fst (steps_60_79 (steps_40_59 (steps_20_39 (steps_0_19 inp r))))).

Definition sha0_round (data r : list Z) : list Z :=
  SHA0_ROUND_BODY (fun x => sph_dec32be_aligned (drop (4 * x) data)) r.

Definition sph_sha0_comp (msg val : list Z) : list Z :=
  SHA0_ROUND_BODY (fun x => at_ msg x) val.

Section Api.
(** SPH_UPTR and SPH_UNALIGNED. *)
Context (uptr unaligned : bool).

(** [#define BE32 1], then the inclusion of md_helper.c. *)
Definition sha0_config : config := Config false true None false PLW2 uptr unaligned.

Definition sph_sha0_init (sc : context) : context := Context_ (buf sc) IV 0.
Definition sph_sha0 := sph_HASH sha0_config sha0_round.
Definition sph_sha0_close (sc : context) : context * list Z :=
  let '(sc, dst) := HASH_close sha0_config sha0_round sc 5 in (sph_sha0_init sc, dst).
Definition sph_sha0_addbits_and_close (sc : context) (ub n : Z) : context * list Z :=
  let '(sc, dst) := addbits_and_close sha0_config sha0_round sc ub n 5 in
  (sph_sha0_init sc, dst).
End Api.

(** ** The standard
    Constants, padding and all are those of the standard; only the operations on words are shared. *)
Module FIPS.
Definition ROTL (x n : Z) : Z := SPH_ROTL32 x n.
Definition Ch (x y z : Z) : Z := (x &. y) ^^ (Z.lnot x &. z).
Definition Parity (x y z : Z) : Z := x ^^ y ^^ z.
Definition Maj (x y z : Z) : Z := (x &. y) ^^ (x &. z) ^^ (y &. z).

Definition f (t x y z : Z) : Z :=
  if t <? 20 then Ch x y z else if t <? 40 then Parity x y z
  else if t <? 60 then Maj x y z else Parity x y z.
Definition K (t : Z) : Z :=
  if t <? 20 then 0x5A827999 else if t <? 40 then 0x6ED9EBA1
  else if t <? 60 then 0x8F1BBCDC else 0xCA62C1D6.

(** [W_t] from [W_(t-16)], ..., [W_(t-1)]. *)
Definition next (ws : list Z) : Z :=
  (at_ ws 13 ^^ at_ ws 8 ^^ at_ ws 2 ^^ at_ ws 0).

Definition step (t w : Z) (st : regs) : regs :=
  let '(a, b, c, d, e) := st in
  (SPH_T32 (ROTL a 5 + f t b c d + e + w + K t), a, ROTL b 30, c, d).

Definition words (inp : nat -> Z) : list Z := map inp (seq 0 16).
Definition add (r : list Z) (st : Z * Z * Z * Z * Z) : list Z :=
  let '(a, b, c, d, e) := st in
  [SPH_T32 (at_ r 0 + a); SPH_T32 (at_ r 1 + b); SPH_T32 (at_ r 2 + c); SPH_T32 (at_ r 3 + d); SPH_T32 (at_ r 4 + e)].
Definition times : list Z := map Z.of_nat (seq 0 80).

Definition compress (inp : nat -> Z) (r : list Z) : list Z :=
  add r
    (rounds_given step times (words inp ++ schedule next 64 (words inp))
       (at_ r 0, at_ r 1, at_ r 2, at_ r 3, at_ r 4)).

(** The block as sixteen big-endian words. *)
Definition block (data r : list Z) : list Z :=
  compress (fun x => sph_dec32be (drop (4 * x) data)) r.

Definition H0 : list Z := [0x67452301; 0xEFCDAB89; 0x98BADCFE; 0x10325476; 0xC3D2E1F0].
Definition SHA0 (m : list Z) (ub n : Z) : list Z :=
  Standard.digest 64 8 4 true block H0 5 m ub n.
End FIPS.

(** ** Proofs *)
Lemma sha0_F_Ch x y z : FIPS.Ch x y z = F x y z.
Proof.
  apply Z.bits_inj'. intros i Hi. unfold FIPS.Ch, F.
  rewrite !Z.lxor_spec, !Z.land_spec, Z.lnot_spec, Z.lxor_spec by lia.
  by destruct (Z.testbit x i), (Z.testbit y i), (Z.testbit z i).
Qed.

Lemma sha0_H_Maj x y z : FIPS.Maj x y z = H x y z.
Proof.
  apply Z.bits_inj'. intros i Hi. unfold FIPS.Maj, H.
  rewrite !Z.lxor_spec, Z.lor_spec, !Z.land_spec, Z.lor_spec.
  by destruct (Z.testbit x i), (Z.testbit y i), (Z.testbit z i).
Qed.

(** The four kinds of step, with the expressions of the source. *)
Definition step_with (fn : Z -> Z -> Z -> Z) (k w : Z) (st : regs) : regs :=
  let '(a, b, c, d, e) := st in
  (SPH_T32 (ROTL a 5 + fn b c d + e + w + k), a, ROTL b 30, c, d).

Lemma sha0_step_src t w st :
  FIPS.step t w st =
  if t <? 20 then step_with F K1 w st else if t <? 40 then step_with G K2 w st
  else if t <? 60 then step_with H K3 w st else step_with I K4 w st.
Proof.
  destruct st as [[[[a b] c] d] e]. unfold FIPS.step, FIPS.f, FIPS.K, step_with.
  rewrite sha0_F_Ch, sha0_H_Maj. by destruct (t <? 20), (t <? 40), (t <? 60).
Qed.

Lemma sha0_given_src t ts w ws st :
  rounds_given FIPS.step (t :: ts) (w :: ws) st =
  rounds_given FIPS.step ts ws
    (if t <? 20 then step_with F K1 w st else if t <? 40 then step_with G K2 w st
     else if t <? 60 then step_with H K3 w st else step_with I K4 w st).
Proof. rewrite <- sha0_step_src. reflexivity. Qed.

Lemma sha0_rounds_src t ts w0 w1 w2 w3 w4 w5 w6 w7 w8 w9 w10 w11 w12 w13 w14 w15 st :
  let w := (w13 ^^ w8 ^^ w2 ^^ w0) in
  rounds FIPS.next FIPS.step (t :: ts)
    [w0; w1; w2; w3; w4; w5; w6; w7; w8; w9; w10; w11; w12; w13; w14; w15] st =
  rounds FIPS.next FIPS.step ts
    [w1; w2; w3; w4; w5; w6; w7; w8; w9; w10; w11; w12; w13; w14; w15; w]
    (if t <? 20 then step_with F K1 w st else if t <? 40 then step_with G K2 w st
     else if t <? 60 then step_with H K3 w st else step_with I K4 w st).
Proof. intros w. rewrite <- sha0_step_src. reflexivity. Qed.

(** The registers, and the window whose oldest word is in variable [k]. *)
Definition list16 (k : nat) (rw : regs * words16) : regs * list Z :=
  let '(st, (w0, w1, w2, w3, w4, w5, w6, w7, w8, w9, w10, w11, w12, w13, w14, w15)) := rw in
  let ws := [w0; w1; w2; w3; w4; w5; w6; w7; w8; w9; w10; w11; w12; w13; w14; w15] in
  (st, drop k ws ++ take k ws).

(** Choose the step's kind at a known time, and expose its expressions. *)
Ltac select_step :=
  repeat match goal with
  | |- context [Z.ltb ?t ?n] =>
      let b := eval vm_compute in (Z.ltb t n) in change (Z.ltb t n) with b
  end; cbv beta iota zeta delta [step_with].

Ltac times_literal :=
  match goal with
  | |- context [take ?n (drop ?m FIPS.times)] =>
      let k := eval vm_compute in (take n (drop m FIPS.times)) in
      change (take n (drop m FIPS.times)) with k
  end.

Lemma sha0_given_nil st : rounds_given FIPS.step [] [] st = st.
Proof. reflexivity. Qed.

Lemma sha0_group_0_19 inp r :
  list16 4 (steps_0_19 inp r) =
  rounds FIPS.next FIPS.step (take 4 (drop 16 FIPS.times)) (FIPS.words inp)
    (rounds_given FIPS.step (take 16 (drop 0 FIPS.times)) (FIPS.words inp)
       (at_ r 0, at_ r 1, at_ r 2, at_ r 3, at_ r 4)).
Proof.
  unfold FIPS.words. cbn [map seq]. cbv beta delta [steps_0_19]. do 2 times_literal.
  do 5 pull. do 16 (pull; rewrite sha0_given_src; select_step; do 2 pull). rewrite sha0_given_nil.
  do 4 (rewrite sha0_rounds_src; select_step; do 3 pull). reflexivity.
Qed.

Ltac split_rw rw :=
  destruct rw as [[[[[? ?] ?] ?] ?] [[[[[[[[[[[[[[[? ?] ?] ?] ?] ?] ?] ?] ?] ?] ?] ?] ?] ?] ?] ?]].

Lemma sha0_group_20_39 rw st ws :
  list16 4 rw = (st, ws) ->
  list16 8 (steps_20_39 rw) = rounds FIPS.next FIPS.step (take 20 (drop 20 FIPS.times)) ws st.
Proof.
  split_rw rw. intros E. vm_compute in E. injection E as <- <-.
  cbv beta iota delta [steps_20_39]. times_literal.
  do 20 (rewrite sha0_rounds_src; select_step; do 3 pull). reflexivity.
Qed.

Lemma sha0_group_40_59 rw st ws :
  list16 8 rw = (st, ws) ->
  list16 12 (steps_40_59 rw) = rounds FIPS.next FIPS.step (take 20 (drop 40 FIPS.times)) ws st.
Proof.
  split_rw rw. intros E. vm_compute in E. injection E as <- <-.
  cbv beta iota delta [steps_40_59]. times_literal.
  do 20 (rewrite sha0_rounds_src; select_step; do 3 pull). reflexivity.
Qed.

Lemma sha0_group_60_79 rw st ws :
  list16 12 rw = (st, ws) ->
  list16 0 (steps_60_79 rw) = rounds FIPS.next FIPS.step (take 20 (drop 60 FIPS.times)) ws st.
Proof.
  split_rw rw. intros E. vm_compute in E. injection E as <- <-.
  cbv beta iota delta [steps_60_79]. times_literal.
  do 20 (rewrite sha0_rounds_src; select_step; do 3 pull). reflexivity.
Qed.

#[local] Opaque steps_0_19 steps_20_39 steps_40_59 steps_60_79 FIPS.step FIPS.next FIPS.words.

Lemma sha0_body_compress inp r : SHA0_ROUND_BODY inp r = FIPS.compress inp r.
Proof.
  unfold SHA0_ROUND_BODY, FIPS.compress. change FIPS.add with add_regs. apply (f_equal (add_regs r)).
  change 64%nat with (length FIPS.times - 16)%nat.
  assert (Hw : length (FIPS.words inp) = 16%nat) by reflexivity.
  rewrite rounds_given_rounds by (done || (vm_compute; lia)).
  assert (Ed : drop 16 FIPS.times = take 4 (drop 16 FIPS.times) ++
    take 20 (drop 20 FIPS.times) ++ take 20 (drop 40 FIPS.times) ++
    take 20 (drop 60 FIPS.times)) by (vm_compute; reflexivity).
  rewrite Ed at 1. clear Ed. rewrite !rounds_app.
  change (take 16 FIPS.times) with (take 16 (drop 0 FIPS.times)).
  rewrite <- sha0_group_0_19.
  destruct (list16 4 (steps_0_19 inp r)) as [s1 w1] eqn:E1. rewrite rounds_app.
  rewrite <- (sha0_group_20_39 _ _ _ E1).
  destruct (list16 8 (steps_20_39 _)) as [s2 w2] eqn:E2. rewrite rounds_app.
  rewrite <- (sha0_group_40_59 _ _ _ E2).
  destruct (list16 12 (steps_40_59 _)) as [s3 w3] eqn:E3.
  rewrite <- (sha0_group_60_79 _ _ _ E3).
  set (r4 := steps_60_79 _). by split_rw r4.
Qed.

#[local] Transparent FIPS.words.

(** *** The hash function *)
Lemma sha0_compress_ext inp inp' r :
  (forall i, (i < 16)%nat -> inp i = inp' i) -> FIPS.compress inp r = FIPS.compress inp' r.
Proof.
  intros Hi. unfold FIPS.compress.
  assert (E : FIPS.words inp = FIPS.words inp').
  { unfold FIPS.words. apply map_ext_in. intros i Hin. apply Hi. apply in_seq in Hin. lia. }
  by rewrite E.
Qed.

Lemma sha0_round_block data r :
  is_bytes data -> length data = 64%nat -> sha0_round data r = FIPS.block data r.
Proof.
  intros Hb Hl. unfold sha0_round, FIPS.block. rewrite sha0_body_compress.
  apply sha0_compress_ext. intros i Hi. apply dec32be_aligned_eq.
  - by apply Forall_drop.
  - rewrite length_drop. lia.
Qed.

Lemma sha0_digest uptr unaligned m ub n :
  0 <= n < 8 -> hash_bits (sha0_config uptr unaligned) FIPS.block IV 5 m ub n = FIPS.SHA0 m ub n.
Proof. intros Hn. by apply hash_bits_standard. Qed.

(** SHA-0: in the little-endian build with 64-bit words (aligned or unaligned reads), a context initialised with whatever it held
    before, updated with buffers that lie anywhere in memory and closed with [n] more bits,
    writes the digest that the withdrawn standard defines for the concatenated message, and is initialised
    again. *)
Theorem sha0_stream uptr unaligned buf0 ds ub n :
  length buf0 = 64%nat -> is_bytes (concat (map snd ds)) -> 0 <= n < 8 ->
  Z.of_nat (length (concat (map snd ds))) < 2 ^ 64 ->
  forall v0 c0,
  let sc := updates (sha0_config uptr unaligned) sha0_round
              (sph_sha0_init (Context_ buf0 v0 c0)) ds in
  let '(sc', dst) := sph_sha0_addbits_and_close uptr unaligned sc ub n in
  dst = FIPS.SHA0 (concat (map snd ds)) ub n /\
  exists b, length b = 64%nat /\ sc' = Context_ b IV 0.
Proof.
  intros Hb Hm Hn Hl v0 c0. cbv zeta. unfold sph_sha0_addbits_and_close, sph_sha0_init.
  cbn [buf]. destruct (stream_correct (sha0_config uptr unaligned) sha0_round FIPS.block
    eq_refl sha0_round_block IV 5 buf0 ds ub n Hb Hm Hn Hl) as (b & Hlb & Eb & Ed).
  destruct (addbits_and_close _ _ _ _ _ _) as [sc' dst]. cbn [fst snd buf] in *.
  split; [rewrite Ed; by apply sha0_digest|]. exists b. by rewrite Eb.
Qed.

Lemma sha0_stream_witness :
  let '(sc, dst) := sph_sha0_addbits_and_close true false
    (updates (sha0_config true false) sha0_round
       (sph_sha0_init (Context_ (replicate 64 0) [] 7))
       [(1, [97; 98]); (6, [99])]) 0x80 1 in
  dst = FIPS.SHA0 [97; 98; 99] 0x80 1 /\ exists b, length b = 64%nat /\ sc = Context_ b IV 0.
Proof.
  refine (sha0_stream true false (replicate 64 0) [(1, [97; 98]); (6, [99])] 0x80 1
            _ _ _ _ [] 7);
    [reflexivity|cbn; repeat constructor; lia|lia|reflexivity].
Defined.
