(* ===== verification/Md4.v ===== *)
(** [md4.c] of sphlib: MD4 (RFC 1320); its unrolled body is shown equal to the RFC's
    iterated step, and the hash to the RFC's. *)
From S2P Require Import Prelude SphTypes MdHelper Rounds.
Open Scope word_scope.

(** ** Macros and tables of the file *)
Definition F (B C D : Z) : Z := ((C ^^ D) &. B) ^^ D.
Definition G (B C D : Z) : Z := (D &. C) |. ((D |. C) &. B).
Definition H (B C D : Z) : Z := B ^^ C ^^ D.
Definition ROTL (x n : Z) : Z := SPH_ROTL32 x n.

Definition IV : list Z := [0x67452301; 0xEFCDAB89; 0x98BADCFE; 0x10325476].

(** ** The compression function, round by round *)
Definition regs : Type := Z * Z * Z * Z.

Definition round_1 (inp : nat -> Z) (r : list Z) : regs :=
  dlet A := at_ r 0 in
  dlet B := at_ r 1 in
  dlet C := at_ r 2 in
  dlet D := at_ r 3 in
  dlet A := ROTL (SPH_T32 (A + F B C D + inp 0%nat)) 3 in
  dlet D := ROTL (SPH_T32 (D + F A B C + inp 1%nat)) 7 in
  dlet C := ROTL (SPH_T32 (C + F D A B + inp 2%nat)) 11 in
  dlet B := ROTL (SPH_T32 (B + F C D A + inp 3%nat)) 19 in
  dlet A := ROTL (SPH_T32 (A + F B C D + inp 4%nat)) 3 in
  dlet D := ROTL (SPH_T32 (D + F A B C + inp 5%nat)) 7 in
  dlet C := ROTL (SPH_T32 (C + F D A B + inp 6%nat)) 11 in
  dlet B := ROTL (SPH_T32 (B + F C D A + inp 7%nat)) 19 in
  dlet A := ROTL (SPH_T32 (A + F B C D + inp 8%nat)) 3 in
  dlet D := ROTL (SPH_T32 (D + F A B C + inp 9%nat)) 7 in
  dlet C := ROTL (SPH_T32 (C + F D A B + inp 10%nat)) 11 in
  dlet B := ROTL (SPH_T32 (B + F C D A + inp 11%nat)) 19 in
  dlet A := ROTL (SPH_T32 (A + F B C D + inp 12%nat)) 3 in
  dlet D := ROTL (SPH_T32 (D + F A B C + inp 13%nat)) 7 in
  dlet C := ROTL (SPH_T32 (C + F D A B + inp 14%nat)) 11 in
  dlet B := ROTL (SPH_T32 (B + F C D A + inp 15%nat)) 19 in
  (A, B, C, D).

Definition round_2 (inp : nat -> Z) (st : regs) : regs :=
  let '(A, B, C, D) := st in
  dlet A := ROTL (SPH_T32 (A + G B C D + inp 0%nat + 0x5A827999)) 3 in
  dlet D := ROTL (SPH_T32 (D + G A B C + inp 4%nat + 0x5A827999)) 5 in
  dlet C := ROTL (SPH_T32 (C + G D A B + inp 8%nat + 0x5A827999)) 9 in
  dlet B := ROTL (SPH_T32 (B + G C D A + inp 12%nat + 0x5A827999)) 13 in
  dlet A := ROTL (SPH_T32 (A + G B C D + inp 1%nat + 0x5A827999)) 3 in
  dlet D := ROTL (SPH_T32 (D + G A B C + inp 5%nat + 0x5A827999)) 5 in
  dlet C := ROTL (SPH_T32 (C + G D A B + inp 9%nat + 0x5A827999)) 9 in
  dlet B := ROTL (SPH_T32 (B + G C D A + inp 13%nat + 0x5A827999)) 13 in
  dlet A := ROTL (SPH_T32 (A + G B C D + inp 2%nat + 0x5A827999)) 3 in
  dlet D := ROTL (SPH_T32 (D + G A B C + inp 6%nat + 0x5A827999)) 5 in
  dlet C := ROTL (SPH_T32 (C + G D A B + inp 10%nat + 0x5A827999)) 9 in
  dlet B := ROTL (SPH_T32 (B + G C D A + inp 14%nat + 0x5A827999)) 13 in
  dlet A := ROTL (SPH_T32 (A + G B C D + inp 3%nat + 0x5A827999)) 3 in
  dlet D := ROTL (SPH_T32 (D + G A B C + inp 7%nat + 0x5A827999)) 5 in
  dlet C := ROTL (SPH_T32 (C + G D A B + inp 11%nat + 0x5A827999)) 9 in
  dlet B := ROTL (SPH_T32 (B + G C D A + inp 15%nat + 0x5A827999)) 13 in
  (A, B, C, D).

Definition round_3 (inp : nat -> Z) (st : regs) : regs :=
  let '(A, B, C, D) := st in
  dlet A := ROTL (SPH_T32 (A + H B C D + inp 0%nat + 0x6ED9EBA1)) 3 in
  dlet D := ROTL (SPH_T32 (D + H A B C + inp 8%nat + 0x6ED9EBA1)) 9 in
  dlet C := ROTL (SPH_T32 (C + H D A B + inp 4%nat + 0x6ED9EBA1)) 11 in
  dlet B := ROTL (SPH_T32 (B + H C D A + inp 12%nat + 0x6ED9EBA1)) 15 in
  dlet A := ROTL (SPH_T32 (A + H B C D + inp 2%nat + 0x6ED9EBA1)) 3 in
  dlet D := ROTL (SPH_T32 (D + H A B C + inp 10%nat + 0x6ED9EBA1)) 9 in
  dlet C := ROTL (SPH_T32 (C + H D A B + inp 6%nat + 0x6ED9EBA1)) 11 in
  dlet B := ROTL (SPH_T32 (B + H C D A + inp 14%nat + 0x6ED9EBA1)) 15 in
  dlet A := ROTL (SPH_T32 (A + H B C D + inp 1%nat + 0x6ED9EBA1)) 3 in
  dlet D := ROTL (SPH_T32 (D + H A B C + inp 9%nat + 0x6ED9EBA1)) 9 in
  dlet C := ROTL (SPH_T32 (C + H D A B + inp 5%nat + 0x6ED9EBA1)) 11 in
  dlet B := ROTL (SPH_T32 (B + H C D A + inp 13%nat + 0x6ED9EBA1)) 15 in
  dlet A := ROTL (SPH_T32 (A + H B C D + inp 3%nat + 0x6ED9EBA1)) 3 in
  dlet D := ROTL (SPH_T32 (D + H A B C + inp 11%nat + 0x6ED9EBA1)) 9 in
  dlet C := ROTL (SPH_T32 (C + H D A B + inp 7%nat + 0x6ED9EBA1)) 11 in
  dlet B := ROTL (SPH_T32 (B + H C D A + inp 15%nat + 0x6ED9EBA1)) 15 in
  (A, B, C, D).

(** The end of the body. *)
Definition add_regs (r : list Z) (st : regs) : list Z :=
  let '(A, B, C, D) := st in
  [SPH_T32 (at_ r 0 + A); SPH_T32 (at_ r 1 + B); SPH_T32 (at_ r 2 + C);
   SPH_T32 (at_ r 3 + D)].

Definition MD4_ROUND_BODY (inp : nat -> Z) (r : list Z) : list Z :=
  add_regs r (round_3 inp (round_2 inp (round_1 inp r))).

Definition md4_round (data r : list Z) : list Z :=
  MD4_ROUND_BODY (fun idx => sph_dec32le_aligned (drop (4 * idx) data)) r.

Definition sph_md4_comp (msg val : list Z) : list Z :=
  MD4_ROUND_BODY (fun i => at_ msg i) val.

Section Api.
(** SPH_UPTR and SPH_UNALIGNED. *)
Context (uptr unaligned : bool).

(** [#define LE32 1], then the inclusion of md_helper.c. *)
Definition md4_config : config := Config false false None false PLW2 uptr unaligned.

Definition sph_md4_init (sc : context) : context := Context_ (buf sc) IV 0.
Definition sph_md4 := sph_HASH md4_config md4_round.
Definition sph_md4_close (sc : context) : context * list Z :=
  let '(sc, dst) := HASH_close md4_config md4_round sc 4 in (sph_md4_init sc, dst).
End Api.

(** ** The RFC
    Constants, padding and all are those of the RFC; only the operations on words are shared. *)
Module RFC.
Definition ROTL (x n : Z) : Z := SPH_ROTL32 x n.
Definition F' (x y z : Z) : Z := (x &. y) |. (Z.lnot x &. z).
Definition G' (x y z : Z) : Z := (x &. y) |. (x &. z) |. (y &. z).
Definition H' (x y z : Z) : Z := x ^^ y ^^ z.

(** Function, index of the word, rotation and constant of step [t]. *)
Definition fn (t : Z) : Z -> Z -> Z -> Z :=
  if t <? 16 then F' else if t <? 32 then G' else H'.
Definition word (t : Z) : nat :=
  nth (Z.to_nat t)
    [0; 1; 2; 3; 4; 5; 6; 7; 8; 9; 10; 11; 12; 13; 14; 15;
     0; 4; 8; 12; 1; 5; 9; 13; 2; 6; 10; 14; 3; 7; 11; 15;
     0; 8; 4; 12; 2; 10; 6; 14; 1; 9; 5; 13; 3; 11; 7; 15]%nat 0%nat.
Definition rot (t : Z) : Z :=
  at_ (if t <? 16 then [3; 7; 11; 19] else if t <? 32 then [3; 5; 9; 13] else [3; 9; 11; 15])
    (Z.to_nat (t mod 4)).
Definition const (t : Z) : Z :=
  if t <? 16 then 0 else if t <? 32 then 0x5A827999 else 0x6ED9EBA1.

Definition step (inp : nat -> Z) (st : regs) (t : Z) : regs :=
  let '(a, b, c, d) := st in
  (d, ROTL (SPH_T32 (a + fn t b c d + inp (word t) + const t)) (rot t), b, c).

Definition times : list Z := map Z.of_nat (seq 0 48).

Definition add (r : list Z) (st : Z * Z * Z * Z) : list Z :=
  let '(a, b, c, d) := st in
  [SPH_T32 (at_ r 0 + a); SPH_T32 (at_ r 1 + b); SPH_T32 (at_ r 2 + c); SPH_T32 (at_ r 3 + d)].
Definition compress (inp : nat -> Z) (r : list Z) : list Z :=
  add r (fold_left (step inp) times (at_ r 0, at_ r 1, at_ r 2, at_ r 3)).

(** The block as sixteen little-endian words. *)
Definition block (data r : list Z) : list Z :=
  compress (fun x => sph_dec32le (drop (4 * x) data)) r.

(** The four words of the buffer, whose bytes, low ones first, count up and down. *)
Definition ABCD : list Z := Eval vm_compute in
  map load_le [[0x01; 0x23; 0x45; 0x67]; [0x89; 0xAB; 0xCD; 0xEF]; [0xFE; 0xDC; 0xBA; 0x98]; [0x76; 0x54; 0x32; 0x10]].
Definition MD4 (m : list Z) (ub n : Z) : list Z :=
  Standard.digest 64 8 4 false block ABCD 4 m ub n.
End RFC.

(** ** Proofs *)
Ltac by_bits f g x y z :=
  apply Z.bits_inj'; intros i Hi; unfold f, g;
  rewrite ?Z.lxor_spec, ?Z.lor_spec, ?Z.land_spec, ?Z.lxor_spec, ?Z.lor_spec, ?Z.lnot_spec by lia;
  by destruct (Z.testbit x i), (Z.testbit y i), (Z.testbit z i).

Lemma md4_F_ref x y z : RFC.F' x y z = F x y z.
Proof. by_bits RFC.F' F x y z. Qed.
Lemma md4_G_ref x y z : RFC.G' x y z = G x y z.
Proof. by_bits RFC.G' G x y z. Qed.

(** The three kinds of step, with the expressions of the source. *)
Definition step_with (t : Z) (w k s : Z) (st : regs) : regs :=
  let '(a, b, c, d) := st in
  (d, ROTL (SPH_T32 (if t <? 16 then a + F b c d + w else if t <? 32 then a + G b c d + w + k
                     else a + H b c d + w + k)) s, b, c).

Lemma md4_step_src inp t st :
  RFC.step inp st t = step_with t (inp (RFC.word t)) (RFC.const t) (RFC.rot t) st.
Proof.
  destruct st as [[[a b] c] d]. unfold RFC.step, step_with, RFC.fn, RFC.const.
  destruct (t <? 16); [by rewrite md4_F_ref, Z.add_0_r|]. destruct (t <? 32); by rewrite ?md4_G_ref.
Qed.

Lemma md4_fold_src inp t ts st :
  fold_left (RFC.step inp) (t :: ts) st =
  fold_left (RFC.step inp) ts
    (step_with t (inp (RFC.word t)) (RFC.const t) (RFC.rot t) st).
Proof. rewrite <- md4_step_src. reflexivity. Qed.

(** Choose the step's kind and parameters at a known time. *)
Ltac select_step :=
  cbv beta iota zeta delta [step_with];
  repeat match goal with
  | |- context [Z.ltb ?t ?n] =>
      let b := eval vm_compute in (Z.ltb t n) in change (Z.ltb t n) with b
  | |- context [RFC.word ?t] =>
      let b := eval vm_compute in (RFC.word t) in change (RFC.word t) with b
  | |- context [RFC.const ?t] =>
      let b := eval vm_compute in (RFC.const t) in change (RFC.const t) with b
  | |- context [RFC.rot ?t] =>
      let b := eval vm_compute in (RFC.rot t) in change (RFC.rot t) with b
  end; cbv beta iota.

Ltac times_literal :=
  match goal with
  | |- context [take ?n (drop ?m RFC.times)] =>
      let k := eval vm_compute in (take n (drop m RFC.times)) in
      change (take n (drop m RFC.times)) with k
  end.

Lemma md4_group_1 inp r :
  round_1 inp r =
  fold_left (RFC.step inp) (take 16 (drop 0 RFC.times)) (at_ r 0, at_ r 1, at_ r 2, at_ r 3).
Proof.
  cbv beta delta [round_1]. add_id. times_literal. do 4 pull.
  do 16 (rewrite md4_fold_src; select_step; pull). reflexivity.
Qed.

Lemma md4_group_2 inp st :
  round_2 inp st = fold_left (RFC.step inp) (take 16 (drop 16 RFC.times)) st.
Proof.
  destruct st as [[[? ?] ?] ?]. cbv beta iota delta [round_2]. add_id. times_literal.
  do 16 (rewrite md4_fold_src; select_step; pull). reflexivity.
Qed.

Lemma md4_group_3 inp st :
  round_3 inp st = fold_left (RFC.step inp) (take 16 (drop 32 RFC.times)) st.
Proof.
  destruct st as [[[? ?] ?] ?]. cbv beta iota delta [round_3]. add_id. times_literal.
  do 16 (rewrite md4_fold_src; select_step; pull). reflexivity.
Qed.

#[local] Opaque round_1 round_2 round_3 RFC.step.

Lemma md4_body_compress inp r : MD4_ROUND_BODY inp r = RFC.compress inp r.
Proof.
  unfold MD4_ROUND_BODY, RFC.compress. change RFC.add with add_regs. apply (f_equal (add_regs r)).
  assert (E : RFC.times = take 16 (drop 0 RFC.times) ++ take 16 (drop 16 RFC.times) ++ take 16 (drop 32 RFC.times))
    by (vm_compute; reflexivity).
  rewrite E at 1. clear E. rewrite !fold_left_app, md4_group_3, md4_group_2, md4_group_1. reflexivity.
Qed.

#[local] Transparent RFC.step.

(** *** The hash function *)
Lemma md4_word_lt t : In t RFC.times -> (RFC.word t < 16)%nat.
Proof.
  assert (E : forallb (fun t => (RFC.word t <? 16)%nat) RFC.times = true)
    by (vm_compute; reflexivity).
  rewrite forallb_forall in E. intros Ht. by apply Nat.ltb_lt, E.
Qed.

Lemma md4_compress_ext inp inp' r :
  (forall i, (i < 16)%nat -> inp i = inp' i) -> RFC.compress inp r = RFC.compress inp' r.
Proof.
  intros Hi. unfold RFC.compress. f_equal.
  generalize (at_ r 0, at_ r 1, at_ r 2, at_ r 3) as st.
  assert (Ht : forall t, In t RFC.times -> (RFC.word t < 16)%nat) by exact md4_word_lt.
  induction RFC.times as [|t ts IH]; intros st; [done|]. cbn [fold_left].
  assert (E : RFC.step inp st t = RFC.step inp' st t).
  { destruct st as [[[a b] c] d]. unfold RFC.step. rewrite Hi; [done|]. apply Ht. by left. }
  rewrite E. apply IH. intros t' Ht'. apply Ht. by right.
Qed.

Lemma md4_round_block data r :
  is_bytes data -> length data = 64%nat -> md4_round data r = RFC.block data r.
Proof.
  intros Hb Hl. unfold md4_round, RFC.block. rewrite md4_body_compress.
  apply md4_compress_ext. intros i Hi. apply dec32le_aligned_eq. rewrite length_drop. lia.
Qed.

Lemma md4_digest uptr unaligned m ub n :
  0 <= n < 8 -> hash_bits (md4_config uptr unaligned) RFC.block IV 4 m ub n = RFC.MD4 m ub n.
Proof. intros Hn. by apply hash_bits_standard. Qed.

(** MD4: a context initialised with whatever it held before, updated with
    buffers that lie anywhere in memory and closed, writes the digest that RFC 1320 defines
    for the concatenated message, and is initialised again. *)
Theorem md4_stream uptr unaligned buf0 ds :
  length buf0 = 64%nat -> is_bytes (concat (map snd ds)) -> Z.of_nat (length (concat (map snd ds))) < 2 ^ 64 ->
  forall v0 c0,
  let sc := updates (md4_config uptr unaligned) md4_round
              (sph_md4_init (Context_ buf0 v0 c0)) ds in
  let '(sc', dst) := sph_md4_close uptr unaligned sc in
  dst = RFC.MD4 (concat (map snd ds)) 0 0 /\
  exists b, length b = 64%nat /\ sc' = Context_ b IV 0.
Proof.
  intros Hb Hm Hl v0 c0. cbv zeta. unfold sph_md4_close, HASH_close, sph_md4_init.
  cbn [buf]. destruct (stream_correct (md4_config uptr unaligned) md4_round RFC.block
    eq_refl md4_round_block IV 4 buf0 ds 0 0 Hb Hm ltac:(lia) Hl) as (b & Hlb & Eb & Ed).
  destruct (addbits_and_close _ _ _ _ _ _) as [sc' dst]. cbn [fst snd buf] in *.
  split; [rewrite Ed; by apply md4_digest|]. exists b. by rewrite Eb.
Qed.

Lemma md4_stream_witness :
  let '(sc, dst) := sph_md4_close true false
    (updates (md4_config true false) md4_round
       (sph_md4_init (Context_ (replicate 64 0) [] 7))
       [(1, [97; 98]); (6, [99])]) in
  dst = RFC.MD4 [97; 98; 99] 0 0 /\ exists b, length b = 64%nat /\ sc = Context_ b IV 0.
Proof.
  refine (md4_stream true false (replicate 64 0) [(1, [97; 98]); (6, [99])]
            _ _ _ [] 7);
    [reflexivity|cbn; repeat constructor; lia|reflexivity].
Defined.
