(* ===== verification/Md5.v ===== *)
(** [md5.c] of sphlib: MD5 (RFC 1321); its unrolled body is shown equal to the RFC's
    iterated step, and the hash to the RFC's. *)
From S2P Require Import Prelude SphTypes MdHelper Rounds.
Open Scope word_scope.

(** ** Macros and tables of the file *)
Definition F (B C D : Z) : Z := ((C ^^ D) &. B) ^^ D.
Definition G (B C D : Z) : Z := ((C ^^ B) &. D) ^^ C.
Definition H (B C D : Z) : Z := B ^^ C ^^ D.
Definition I (B C D : Z) : Z := C ^^ (B |. not32 D).
Definition ROTL (x n : Z) : Z := SPH_ROTL32 (SPH_T32 x) n.

Definition IV : list Z := [0x67452301; 0xEFCDAB89; 0x98BADCFE; 0x10325476].

(** ** The compression function, round by round *)
Definition regs : Type := Z * Z * Z * Z.

Definition round_1 (inp : nat -> Z) (r : list Z) : regs :=
  dlet A := at_ r 0 in
  dlet B := at_ r 1 in
  dlet C := at_ r 2 in
  dlet D := at_ r 3 in
  dlet A := SPH_T32 (B + ROTL (A + F B C D + inp 0%nat + 0xD76AA478) 7) in
  dlet D := SPH_T32 (A + ROTL (D + F A B C + inp 1%nat + 0xE8C7B756) 12) in
  dlet C := SPH_T32 (D + ROTL (C + F D A B + inp 2%nat + 0x242070DB) 17) in
  dlet B := SPH_T32 (C + ROTL (B + F C D A + inp 3%nat + 0xC1BDCEEE) 22) in
  dlet A := SPH_T32 (B + ROTL (A + F B C D + inp 4%nat + 0xF57C0FAF) 7) in
  dlet D := SPH_T32 (A + ROTL (D + F A B C + inp 5%nat + 0x4787C62A) 12) in
  dlet C := SPH_T32 (D + ROTL (C + F D A B + inp 6%nat + 0xA8304613) 17) in
  dlet B := SPH_T32 (C + ROTL (B + F C D A + inp 7%nat + 0xFD469501) 22) in
  dlet A := SPH_T32 (B + ROTL (A + F B C D + inp 8%nat + 0x698098D8) 7) in
  dlet D := SPH_T32 (A + ROTL (D + F A B C + inp 9%nat + 0x8B44F7AF) 12) in
  dlet C := SPH_T32 (D + ROTL (C + F D A B + inp 10%nat + 0xFFFF5BB1) 17) in
  dlet B := SPH_T32 (C + ROTL (B + F C D A + inp 11%nat + 0x895CD7BE) 22) in
  dlet A := SPH_T32 (B + ROTL (A + F B C D + inp 12%nat + 0x6B901122) 7) in
  dlet D := SPH_T32 (A + ROTL (D + F A B C + inp 13%nat + 0xFD987193) 12) in
  dlet C := SPH_T32 (D + ROTL (C + F D A B + inp 14%nat + 0xA679438E) 17) in
  dlet B := SPH_T32 (C + ROTL (B + F C D A + inp 15%nat + 0x49B40821) 22) in
  (A, B, C, D).

Definition round_2 (inp : nat -> Z) (st : regs) : regs :=
  let '(A, B, C, D) := st in
  dlet A := SPH_T32 (B + ROTL (A + G B C D + inp 1%nat + 0xF61E2562) 5) in
  dlet D := SPH_T32 (A + ROTL (D + G A B C + inp 6%nat + 0xC040B340) 9) in
  dlet C := SPH_T32 (D + ROTL (C + G D A B + inp 11%nat + 0x265E5A51) 14) in
  dlet B := SPH_T32 (C + ROTL (B + G C D A + inp 0%nat + 0xE9B6C7AA) 20) in
  dlet A := SPH_T32 (B + ROTL (A + G B C D + inp 5%nat + 0xD62F105D) 5) in
  dlet D := SPH_T32 (A + ROTL (D + G A B C + inp 10%nat + 0x02441453) 9) in
  dlet C := SPH_T32 (D + ROTL (C + G D A B + inp 15%nat + 0xD8A1E681) 14) in
  dlet B := SPH_T32 (C + ROTL (B + G C D A + inp 4%nat + 0xE7D3FBC8) 20) in
  dlet A := SPH_T32 (B + ROTL (A + G B C D + inp 9%nat + 0x21E1CDE6) 5) in
  dlet D := SPH_T32 (A + ROTL (D + G A B C + inp 14%nat + 0xC33707D6) 9) in
  dlet C := SPH_T32 (D + ROTL (C + G D A B + inp 3%nat + 0xF4D50D87) 14) in
  dlet B := SPH_T32 (C + ROTL (B + G C D A + inp 8%nat + 0x455A14ED) 20) in
  dlet A := SPH_T32 (B + ROTL (A + G B C D + inp 13%nat + 0xA9E3E905) 5) in
  dlet D := SPH_T32 (A + ROTL (D + G A B C + inp 2%nat + 0xFCEFA3F8) 9) in
  dlet C := SPH_T32 (D + ROTL (C + G D A B + inp 7%nat + 0x676F02D9) 14) in
  dlet B := SPH_T32 (C + ROTL (B + G C D A + inp 12%nat + 0x8D2A4C8A) 20) in
  (A, B, C, D).

Definition round_3 (inp : nat -> Z) (st : regs) : regs :=
  let '(A, B, C, D) := st in
  dlet A := SPH_T32 (B + ROTL (A + H B C D + inp 5%nat + 0xFFFA3942) 4) in
  dlet D := SPH_T32 (A + ROTL (D + H A B C + inp 8%nat + 0x8771F681) 11) in
  dlet C := SPH_T32 (D + ROTL (C + H D A B + inp 11%nat + 0x6D9D6122) 16) in
  dlet B := SPH_T32 (C + ROTL (B + H C D A + inp 14%nat + 0xFDE5380C) 23) in
  dlet A := SPH_T32 (B + ROTL (A + H B C D + inp 1%nat + 0xA4BEEA44) 4) in
  dlet D := SPH_T32 (A + ROTL (D + H A B C + inp 4%nat + 0x4BDECFA9) 11) in
  dlet C := SPH_T32 (D + ROTL (C + H D A B + inp 7%nat + 0xF6BB4B60) 16) in
  dlet B := SPH_T32 (C + ROTL (B + H C D A + inp 10%nat + 0xBEBFBC70) 23) in
  dlet A := SPH_T32 (B + ROTL (A + H B C D + inp 13%nat + 0x289B7EC6) 4) in
  dlet D := SPH_T32 (A + ROTL (D + H A B C + inp 0%nat + 0xEAA127FA) 11) in
  dlet C := SPH_T32 (D + ROTL (C + H D A B + inp 3%nat + 0xD4EF3085) 16) in
  dlet B := SPH_T32 (C + ROTL (B + H C D A + inp 6%nat + 0x04881D05) 23) in
  dlet A := SPH_T32 (B + ROTL (A + H B C D + inp 9%nat + 0xD9D4D039) 4) in
  dlet D := SPH_T32 (A + ROTL (D + H A B C + inp 12%nat + 0xE6DB99E5) 11) in
  dlet C := SPH_T32 (D + ROTL (C + H D A B + inp 15%nat + 0x1FA27CF8) 16) in
  dlet B := SPH_T32 (C + ROTL (B + H C D A + inp 2%nat + 0xC4AC5665) 23) in
  (A, B, C, D).

Definition round_4 (inp : nat -> Z) (st : regs) : regs :=
  let '(A, B, C, D) := st in
  dlet A := SPH_T32 (B + ROTL (A + I B C D + inp 0%nat + 0xF4292244) 6) in
  dlet D := SPH_T32 (A + ROTL (D + I A B C + inp 7%nat + 0x432AFF97) 10) in
  dlet C := SPH_T32 (D + ROTL (C + I D A B + inp 14%nat + 0xAB9423A7) 15) in
  dlet B := SPH_T32 (C + ROTL (B + I C D A + inp 5%nat + 0xFC93A039) 21) in
  dlet A := SPH_T32 (B + ROTL (A + I B C D + inp 12%nat + 0x655B59C3) 6) in
  dlet D := SPH_T32 (A + ROTL (D + I A B C + inp 3%nat + 0x8F0CCC92) 10) in
  dlet C := SPH_T32 (D + ROTL (C + I D A B + inp 10%nat + 0xFFEFF47D) 15) in
  dlet B := SPH_T32 (C + ROTL (B + I C D A + inp 1%nat + 0x85845DD1) 21) in
  dlet A := SPH_T32 (B + ROTL (A + I B C D + inp 8%nat + 0x6FA87E4F) 6) in
  dlet D := SPH_T32 (A + ROTL (D + I A B C + inp 15%nat + 0xFE2CE6E0) 10) in
  dlet C := SPH_T32 (D + ROTL (C + I D A B + inp 6%nat + 0xA3014314) 15) in
  dlet B := SPH_T32 (C + ROTL (B + I C D A + inp 13%nat + 0x4E0811A1) 21) in
  dlet A := SPH_T32 (B + ROTL (A + I B C D + inp 4%nat + 0xF7537E82) 6) in
  dlet D := SPH_T32 (A + ROTL (D + I A B C + inp 11%nat + 0xBD3AF235) 10) in
  dlet C := SPH_T32 (D + ROTL (C + I D A B + inp 2%nat + 0x2AD7D2BB) 15) in
  dlet B := SPH_T32 (C + ROTL (B + I C D A + inp 9%nat + 0xEB86D391) 21) in
  (A, B, C, D).

(** The end of the body. *)
Definition add_regs (r : list Z) (st : regs) : list Z :=
  let '(A, B, C, D) := st in
  [SPH_T32 (at_ r 0 + A); SPH_T32 (at_ r 1 + B); SPH_T32 (at_ r 2 + C);
   SPH_T32 (at_ r 3 + D)].

Definition MD5_ROUND_BODY (inp : nat -> Z) (r : list Z) : list Z :=
  add_regs r (round_4 inp (round_3 inp (round_2 inp (round_1 inp r)))).

Definition md5_round (data r : list Z) : list Z :=
  MD5_ROUND_BODY (fun idx => sph_dec32le_aligned (drop (4 * idx) data)) r.

Definition sph_md5_comp (msg val : list Z) : list Z :=
  MD5_ROUND_BODY (fun i => at_ msg i) val.

Section Api.
(** SPH_UPTR and SPH_UNALIGNED. *)
Context (uptr unaligned : bool).

(** [#define LE32 1], then the inclusion of md_helper.c. *)
Definition md5_config : config := Config false false None false PLW2 uptr unaligned.

Definition sph_md5_init (sc : context) : context := Context_ (buf sc) IV 0.
Definition sph_md5 := sph_HASH md5_config md5_round.
Definition sph_md5_close (sc : context) : context * list Z :=
  let '(sc, dst) := HASH_close md5_config md5_round sc 4 in (sph_md5_init sc, dst).
Definition sph_md5_addbits_and_close (sc : context) (ub n : Z) : context * list Z :=
  let '(sc, dst) := addbits_and_close md5_config md5_round sc ub n 4 in
  (sph_md5_init sc, dst).
End Api.

(** ** The RFC
    Constants, padding and all are those of the RFC; only the operations on words are shared. *)
Module RFC.
Definition ROTL (x n : Z) : Z := SPH_ROTL32 (SPH_T32 x) n.
Definition F' (x y z : Z) : Z := (x &. y) |. (Z.lnot x &. z).
Definition G' (x y z : Z) : Z := (x &. z) |. (y &. Z.lnot z).
Definition H' (x y z : Z) : Z := x ^^ y ^^ z.
Definition I' (x y z : Z) : Z := y ^^ (x |. not32 z).

(** Function, index of the word, rotation and constant of step [t]. *)
Definition fn (t : Z) : Z -> Z -> Z -> Z :=
  if t <? 16 then F' else if t <? 32 then G' else if t <? 48 then H' else I'.
Definition word (t : Z) : nat :=
  Z.to_nat ((if t <? 16 then t else if t <? 32 then 5 * t + 1
             else if t <? 48 then 3 * t + 5 else 7 * t) mod 16).
Definition rot (t : Z) : Z :=
  at_ (if t <? 16 then [7; 12; 17; 22] else if t <? 32 then [5; 9; 14; 20]
       else if t <? 48 then [4; 11; 16; 23] else [6; 10; 15; 21]) (Z.to_nat (t mod 4)).
Definition T : list Z :=
  [ 0xD76AA478; 0xE8C7B756; 0x242070DB; 0xC1BDCEEE; 0xF57C0FAF; 0x4787C62A;
    0xA8304613; 0xFD469501; 0x698098D8; 0x8B44F7AF; 0xFFFF5BB1; 0x895CD7BE;
    0x6B901122; 0xFD987193; 0xA679438E; 0x49B40821; 0xF61E2562; 0xC040B340;
    0x265E5A51; 0xE9B6C7AA; 0xD62F105D; 0x02441453; 0xD8A1E681; 0xE7D3FBC8;
    0x21E1CDE6; 0xC33707D6; 0xF4D50D87; 0x455A14ED; 0xA9E3E905; 0xFCEFA3F8;
    0x676F02D9; 0x8D2A4C8A; 0xFFFA3942; 0x8771F681; 0x6D9D6122; 0xFDE5380C;
    0xA4BEEA44; 0x4BDECFA9; 0xF6BB4B60; 0xBEBFBC70; 0x289B7EC6; 0xEAA127FA;
    0xD4EF3085; 0x04881D05; 0xD9D4D039; 0xE6DB99E5; 0x1FA27CF8; 0xC4AC5665;
    0xF4292244; 0x432AFF97; 0xAB9423A7; 0xFC93A039; 0x655B59C3; 0x8F0CCC92;
    0xFFEFF47D; 0x85845DD1; 0x6FA87E4F; 0xFE2CE6E0; 0xA3014314; 0x4E0811A1;
    0xF7537E82; 0xBD3AF235; 0x2AD7D2BB; 0xEB86D391 ].
Definition const (t : Z) : Z := at_ T (Z.to_nat t).

Definition step (inp : nat -> Z) (st : regs) (t : Z) : regs :=
  let '(a, b, c, d) := st in
  (d, SPH_T32 (b + ROTL (a + fn t b c d + inp (word t) + const t) (rot t)), b, c).

Definition times : list Z := map Z.of_nat (seq 0 64).

Definition add (r : list Z) (st : Z * Z * Z * Z) : list Z :=
  let '(a, b, c, d) := st in
  [SPH_T32 (at_ r 0 + a); SPH_T32 (at_ r 1 + b); SPH_T32 (at_ r 2 + c); SPH_T32 (at_ r 3 + d)].
Definition compress (inp : nat -> Z) (r : list Z) : list Z :=
  add r (fold_left (step inp) times (at_ r 0, at_ r 1, at_ r 2, at_ r 3)).

(** The block as sixteen little-endian words. *)
Definition block (data r : list Z) : list Z :=
  compress (fun x => sph_dec32le (drop (4 * x) data)) r.

(** The four words of the buffer, whose bytes, low ones first, count up and down. *)
Definition ABCD : list Z := Eval vm_compute in
  map load_le [[0x01; 0x23; 0x45; 0x67]; [0x89; 0xAB; 0xCD; 0xEF]; [0xFE; 0xDC; 0xBA; 0x98]; [0x76; 0x54; 0x32; 0x10]].
Definition MD5 (m : list Z) (ub n : Z) : list Z :=
  Standard.digest 64 8 4 false block ABCD 4 m ub n.
End RFC.

(** ** Proofs *)
Ltac by_bits f g x y z :=
  apply Z.bits_inj'; intros i Hi; unfold f, g;
  rewrite ?Z.lxor_spec, ?Z.lor_spec, ?Z.land_spec, ?Z.lxor_spec, ?Z.lor_spec, ?Z.lnot_spec by lia;
  by destruct (Z.testbit x i), (Z.testbit y i), (Z.testbit z i).

Lemma md5_F_ref x y z : RFC.F' x y z = F x y z.
Proof. by_bits RFC.F' F x y z. Qed.
Lemma md5_G_ref x y z : RFC.G' x y z = G x y z.
Proof. by_bits RFC.G' G x y z. Qed.

(** The four kinds of step, with the expressions of the source. *)
Definition step_with (t : Z) (w k s : Z) (st : regs) : regs :=
  let '(a, b, c, d) := st in
  (d, SPH_T32 (b + ROTL (a + (if t <? 16 then F b c d else if t <? 32 then G b c d
                         else if t <? 48 then H b c d else I b c d) + w + k) s), b, c).

Lemma md5_step_src inp t st :
  RFC.step inp st t = step_with t (inp (RFC.word t)) (RFC.const t) (RFC.rot t) st.
Proof.
  destruct st as [[[a b] c] d]. unfold RFC.step, step_with, RFC.fn.
  destruct (t <? 16); [by rewrite md5_F_ref|]. destruct (t <? 32); [by rewrite md5_G_ref|].
  by destruct (t <? 48).
Qed.

Lemma md5_fold_src inp t ts st :
  fold_left (RFC.step inp) (t :: ts) st =
  fold_left (RFC.step inp) ts
    (step_with t (inp (RFC.word t)) (RFC.const t) (RFC.rot t) st).
Proof. rewrite <- md5_step_src. reflexivity. Qed.

(** Choose the step's kind and parameters at a known time. *)
Ltac select_step :=
  cbv beta iota zeta delta [step_with];
  repeat match goal with
  | |- context [Z.ltb ?t ?n] =>
      let b := eval vm_compute in (Z.ltb t n) in change (Z.ltb t n) with b
  | |- context [RFC.word ?t] =>
      let b := eval vm_compute in (RFC.word t) in change (RFC.word t) with b
  | |- context [RFC.const ?t] =>
      let b := eval vm_compute in (RFC.const t) in change (RFC.const t) with b
  | |- context [RFC.rot ?t] =>
      let b := eval vm_compute in (RFC.rot t) in change (RFC.rot t) with b
  end; cbv beta iota.

Ltac times_literal :=
  match goal with
  | |- context [take ?n (drop ?m RFC.times)] =>
      let k := eval vm_compute in (take n (drop m RFC.times)) in
      change (take n (drop m RFC.times)) with k
  end.

Lemma md5_group_1 inp r :
  round_1 inp r =
  fold_left (RFC.step inp) (take 16 (drop 0 RFC.times)) (at_ r 0, at_ r 1, at_ r 2, at_ r 3).
Proof.
  cbv beta delta [round_1]. add_id. times_literal. do 4 pull.
  do 16 (rewrite md5_fold_src; select_step; pull). reflexivity.
Qed.

Lemma md5_group_2 inp st :
  round_2 inp st = fold_left (RFC.step inp) (take 16 (drop 16 RFC.times)) st.
Proof.
  destruct st as [[[? ?] ?] ?]. cbv beta iota delta [round_2]. add_id. times_literal.
  do 16 (rewrite md5_fold_src; select_step; pull). reflexivity.
Qed.

Lemma md5_group_3 inp st :
  round_3 inp st = fold_left (RFC.step inp) (take 16 (drop 32 RFC.times)) st.
Proof.
  destruct st as [[[? ?] ?] ?]. cbv beta iota delta [round_3]. add_id. times_literal.
  do 16 (rewrite md5_fold_src; select_step; pull). reflexivity.
Qed.

Lemma group_4 inp st :
  round_4 inp st = fold_left (RFC.step inp) (take 16 (drop 48 RFC.times)) st.
Proof.
  destruct st as [[[? ?] ?] ?]. cbv beta iota delta [round_4]. add_id. times_literal.
  do 16 (rewrite md5_fold_src; select_step; pull). reflexivity.
Qed.

#[local] Opaque round_1 round_2 round_3 round_4 RFC.step.

Lemma md5_body_compress inp r : MD5_ROUND_BODY inp r = RFC.compress inp r.
Proof.
  unfold MD5_ROUND_BODY, RFC.compress. change RFC.add with add_regs. apply (f_equal (add_regs r)).
  assert (E : RFC.times = take 16 (drop 0 RFC.times) ++ take 16 (drop 16 RFC.times) ++ take 16 (drop 32 RFC.times) ++ take 16 (drop 48 RFC.times))
    by (vm_compute; reflexivity).
  rewrite E at 1. clear E. rewrite !fold_left_app, group_4, md5_group_3, md5_group_2, md5_group_1. reflexivity.
Qed.

#[local] Transparent RFC.step.

(** *** The hash function *)
Lemma md5_word_lt t : In t RFC.times -> (RFC.word t < 16)%nat.
Proof.
  assert (E : forallb (fun t => (RFC.word t <? 16)%nat) RFC.times = true)
    by (vm_compute; reflexivity).
  rewrite forallb_forall in E. intros Ht. by apply Nat.ltb_lt, E.
Qed.

Lemma md5_compress_ext inp inp' r :
  (forall i, (i < 16)%nat -> inp i = inp' i) -> RFC.compress inp r = RFC.compress inp' r.
Proof.
  intros Hi. unfold RFC.compress. f_equal.
  generalize (at_ r 0, at_ r 1, at_ r 2, at_ r 3) as st.
  assert (Ht : forall t, In t RFC.times -> (RFC.word t < 16)%nat) by exact md5_word_lt.
  induction RFC.times as [|t ts IH]; intros st; [done|]. cbn [fold_left].
  assert (E : RFC.step inp st t = RFC.step inp' st t).
  { destruct st as [[[a b] c] d]. unfold RFC.step. rewrite Hi; [done|]. apply Ht. by left. }
  rewrite E. apply IH. intros t' Ht'. apply Ht. by right.
Qed.

Lemma md5_round_block data r :
  is_bytes data -> length data = 64%nat -> md5_round data r = RFC.block data r.
Proof.
  intros Hb Hl. unfold md5_round, RFC.block. rewrite md5_body_compress.
  apply md5_compress_ext. intros i Hi. apply dec32le_aligned_eq. rewrite length_drop. lia.
Qed.

Lemma md5_digest uptr unaligned m ub n :
  0 <= n < 8 -> hash_bits (md5_config uptr unaligned) RFC.block IV 4 m ub n = RFC.MD5 m ub n.
Proof. intros Hn. by apply hash_bits_standard. Qed.

(** MD5: in the little-endian build with 64-bit words (aligned or unaligned reads), a context initialised with whatever it held
    before, updated with buffers that lie anywhere in memory and closed with [n] more bits,
    writes the digest that RFC 1321 defines for the concatenated message, and is initialised
    again. *)
Theorem md5_stream uptr unaligned buf0 ds ub n :
  length buf0 = 64%nat -> is_bytes (concat (map snd ds)) -> 0 <= n < 8 ->
  Z.of_nat (length (concat (map snd ds))) < 2 ^ 64 ->
  forall v0 c0,
  let sc := updates (md5_config uptr unaligned) md5_round
              (sph_md5_init (Context_ buf0 v0 c0)) ds in
  let '(sc', dst) := sph_md5_addbits_and_close uptr unaligned sc ub n in
  dst = RFC.MD5 (concat (map snd ds)) ub n /\
  exists b, length b = 64%nat /\ sc' = Context_ b IV 0.
Proof.
  intros Hb Hm Hn Hl v0 c0. cbv zeta. unfold sph_md5_addbits_and_close, sph_md5_init.
  cbn [buf]. destruct (stream_correct (md5_config uptr unaligned) md5_round RFC.block
    eq_refl md5_round_block IV 4 buf0 ds ub n Hb Hm Hn Hl) as (b & Hlb & Eb & Ed).
  destruct (addbits_and_close _ _ _ _ _ _) as [sc' dst]. cbn [fst snd buf] in *.
  split; [rewrite Ed; by apply md5_digest|]. exists b. by rewrite Eb.
Qed.

Lemma md5_stream_witness :
  let '(sc, dst) := sph_md5_addbits_and_close true false
    (updates (md5_config true false) md5_round
       (sph_md5_init (Context_ (replicate 64 0) [] 7))
       [(1, [97; 98]); (6, [99])]) 0x80 1 in
  dst = RFC.MD5 [97; 98; 99] 0x80 1 /\ exists b, length b = 64%nat /\ sc = Context_ b IV 0.
Proof.
  refine (md5_stream true false (replicate 64 0) [(1, [97; 98]); (6, [99])] 0x80 1
            _ _ _ _ [] 7);
    [reflexivity|cbn; repeat constructor; lia|lia|reflexivity].
Defined.
