(* ===== verification/Ripemd.v ===== *)
(** [ripemd.c] of sphlib: the original RIPEMD, RIPEMD-128 and RIPEMD-160. The unrolled
    lines are shown equal to the iterated steps of the RIPEMD-160 paper, whose word order
    is given by the permutations rho and pi and whose rotations are indexed by the word. *)
From S2P Require Import Prelude SphTypes MdHelper Rounds.
Open Scope word_scope.

(** ** Round functions *)
Definition F (x y z : Z) : Z := ((y ^^ z) &. x) ^^ z.
Definition G (x y z : Z) : Z := (x &. y) |. ((x |. y) &. z).
Definition H (x y z : Z) : Z := x ^^ y ^^ z.

Definition oIV : list Z := [0x67452301; 0xEFCDAB89; 0x98BADCFE; 0x10325476; 0].

Definition F1 (x y z : Z) : Z := x ^^ y ^^ z.
Definition F2 (x y z : Z) : Z := ((y ^^ z) &. x) ^^ z.
Definition F3 (x y z : Z) : Z := (x |. not32 y) ^^ z.
Definition F4 (x y z : Z) : Z := ((x ^^ y) &. z) ^^ y.
Definition F5 (x y z : Z) : Z := x ^^ (y |. not32 z).

Definition IV : list Z := [0x67452301; 0xEFCDAB89; 0x98BADCFE; 0x10325476; 0xC3D2E1F0].

Definition ROTL (x n : Z) : Z := SPH_ROTL32 x n.

(** ** The order of the words and the rotations, from the paper *)
Definition rho : list nat := [7; 4; 13; 1; 10; 6; 15; 3; 12; 0; 9; 5; 2; 14; 11; 8]%nat.
Definition pi (i : nat) : nat := ((9 * i + 5) mod 16)%nat.

(** Step [t] of a line ([false]: left, [true]: right) reads word
    rho^(t / 16) of its index, on the right line after pi. *)
Definition word (right : bool) (t : Z) : nat :=
  let i := Z.to_nat (t mod 16) in
  Nat.iter (Z.to_nat (t / 16)) (fun w => nth w rho 0%nat)
    (if right then pi i else i).

(** Rotations by round and word. *)
Definition shifts : list (list Z) :=
  [ [11; 14; 15; 12; 5; 8; 7; 9; 11; 13; 14; 15; 6; 7; 9; 8];
    [12; 13; 11; 15; 6; 9; 9; 7; 12; 15; 11; 13; 7; 8; 7; 7];
    [13; 15; 14; 11; 7; 7; 6; 8; 13; 14; 13; 12; 5; 5; 6; 9];
    [14; 11; 12; 14; 8; 6; 5; 5; 15; 12; 15; 14; 9; 9; 8; 6];
    [15; 12; 13; 13; 9; 5; 8; 6; 14; 11; 12; 11; 8; 6; 5; 5] ].
Definition shift (right : bool) (t : Z) : Z :=
  at_ (nth (Z.to_nat (t / 16)) shifts []) (word right t).

Definition times (rounds : nat) : list Z := map Z.of_nat (seq 0 (16 * rounds)).

(** The functions of the paper. *)
Definition f1 (x y z : Z) : Z := x ^^ y ^^ z.
Definition f2 (x y z : Z) : Z := (x &. y) |. (Z.lnot x &. z).
Definition f3 (x y z : Z) : Z := (x |. not32 y) ^^ z.
Definition f4 (x y z : Z) : Z := (x &. z) |. (y &. Z.lnot z).
Definition f5 (x y z : Z) : Z := x ^^ (y |. not32 z).
Definition maj (x y z : Z) : Z := (x &. y) |. (x &. z) |. (y &. z).

(** The initial value of the papers. *)
Definition h0 : list Z := [0x67452301; 0xEFCDAB89; 0x98BADCFE; 0x10325476; 0xC3D2E1F0].

Ltac by_bits f g x y z :=
  apply Z.bits_inj'; intros i Hi; unfold f, g;
  rewrite ?Z.lxor_spec, ?Z.lor_spec, ?Z.land_spec, ?Z.lxor_spec, ?Z.lor_spec, ?Z.lnot_spec by lia;
  by destruct (Z.testbit x i), (Z.testbit y i), (Z.testbit z i).

Lemma F2_f2 x y z : f2 x y z = F2 x y z.
Proof. by_bits f2 F2 x y z. Qed.
Lemma F4_f4 x y z : f4 x y z = F4 x y z.
Proof. by_bits f4 F4 x y z. Qed.
Lemma F_f2 x y z : f2 x y z = F x y z.
Proof. by_bits f2 F x y z. Qed.
Lemma G_maj x y z : maj x y z = G x y z.
Proof. by_bits maj G x y z. Qed.

(** ** RIPEMD *)
Module Original.
Definition regs : Type := Z * Z * Z * Z.

(** The new value of the first register. *)
Definition FF1 (A B C D X s : Z) : Z :=
  let tmp := SPH_T32 (A + F B C D + X) in ROTL tmp s.
Definition GG1 (A B C D X s : Z) : Z :=
  let tmp := SPH_T32 (A + G B C D + X + 0x5A827999) in ROTL tmp s.
Definition HH1 (A B C D X s : Z) : Z :=
  let tmp := SPH_T32 (A + H B C D + X + 0x6ED9EBA1) in ROTL tmp s.
Definition FF2 (A B C D X s : Z) : Z :=
  let tmp := SPH_T32 (A + F B C D + X + 0x50A28BE6) in ROTL tmp s.
Definition GG2 (A B C D X s : Z) : Z :=
  let tmp := SPH_T32 (A + G B C D + X) in ROTL tmp s.
Definition HH2 (A B C D X s : Z) : Z :=
  let tmp := SPH_T32 (A + H B C D + X + 0x5C4DD124) in ROTL tmp s.

Definition line1 (inp : nat -> Z) (h : list Z) : regs :=
  dlet A1 := at_ h 0 in
  dlet B1 := at_ h 1 in
  dlet C1 := at_ h 2 in
  dlet D1 := at_ h 3 in
  dlet A1 := FF1 A1 B1 C1 D1 (inp 0%nat) 11 in
  dlet D1 := FF1 D1 A1 B1 C1 (inp 1%nat) 14 in
  dlet C1 := FF1 C1 D1 A1 B1 (inp 2%nat) 15 in
  dlet B1 := FF1 B1 C1 D1 A1 (inp 3%nat) 12 in
  dlet A1 := FF1 A1 B1 C1 D1 (inp 4%nat) 5 in
  dlet D1 := FF1 D1 A1 B1 C1 (inp 5%nat) 8 in
  dlet C1 := FF1 C1 D1 A1 B1 (inp 6%nat) 7 in
  dlet B1 := FF1 B1 C1 D1 A1 (inp 7%nat) 9 in
  dlet A1 := FF1 A1 B1 C1 D1 (inp 8%nat) 11 in
  dlet D1 := FF1 D1 A1 B1 C1 (inp 9%nat) 13 in
  dlet C1 := FF1 C1 D1 A1 B1 (inp 10%nat) 14 in
  dlet B1 := FF1 B1 C1 D1 A1 (inp 11%nat) 15 in
  dlet A1 := FF1 A1 B1 C1 D1 (inp 12%nat) 6 in
  dlet D1 := FF1 D1 A1 B1 C1 (inp 13%nat) 7 in
  dlet C1 := FF1 C1 D1 A1 B1 (inp 14%nat) 9 in
  dlet B1 := FF1 B1 C1 D1 A1 (inp 15%nat) 8 in
  dlet A1 := GG1 A1 B1 C1 D1 (inp 7%nat) 7 in
  dlet D1 := GG1 D1 A1 B1 C1 (inp 4%nat) 6 in
  dlet C1 := GG1 C1 D1 A1 B1 (inp 13%nat) 8 in
  dlet B1 := GG1 B1 C1 D1 A1 (inp 1%nat) 13 in
  dlet A1 := GG1 A1 B1 C1 D1 (inp 10%nat) 11 in
  dlet D1 := GG1 D1 A1 B1 C1 (inp 6%nat) 9 in
  dlet C1 := GG1 C1 D1 A1 B1 (inp 15%nat) 7 in
  dlet B1 := GG1 B1 C1 D1 A1 (inp 3%nat) 15 in
  dlet A1 := GG1 A1 B1 C1 D1 (inp 12%nat) 7 in
  dlet D1 := GG1 D1 A1 B1 C1 (inp 0%nat) 12 in
  dlet C1 := GG1 C1 D1 A1 B1 (inp 9%nat) 15 in
  dlet B1 := GG1 B1 C1 D1 A1 (inp 5%nat) 9 in
  dlet A1 := GG1 A1 B1 C1 D1 (inp 14%nat) 7 in
  dlet D1 := GG1 D1 A1 B1 C1 (inp 2%nat) 11 in
  dlet C1 := GG1 C1 D1 A1 B1 (inp 11%nat) 13 in
  dlet B1 := GG1 B1 C1 D1 A1 (inp 8%nat) 12 in
  dlet A1 := HH1 A1 B1 C1 D1 (inp 3%nat) 11 in
  dlet D1 := HH1 D1 A1 B1 C1 (inp 10%nat) 13 in
  dlet C1 := HH1 C1 D1 A1 B1 (inp 2%nat) 14 in
  dlet B1 := HH1 B1 C1 D1 A1 (inp 4%nat) 7 in
  dlet A1 := HH1 A1 B1 C1 D1 (inp 9%nat) 14 in
  dlet D1 := HH1 D1 A1 B1 C1 (inp 15%nat) 9 in
  dlet C1 := HH1 C1 D1 A1 B1 (inp 8%nat) 13 in
  dlet B1 := HH1 B1 C1 D1 A1 (inp 1%nat) 15 in
  dlet A1 := HH1 A1 B1 C1 D1 (inp 14%nat) 6 in
  dlet D1 := HH1 D1 A1 B1 C1 (inp 7%nat) 8 in
  dlet C1 := HH1 C1 D1 A1 B1 (inp 0%nat) 13 in
  dlet B1 := HH1 B1 C1 D1 A1 (inp 6%nat) 6 in
  dlet A1 := HH1 A1 B1 C1 D1 (inp 11%nat) 12 in
  dlet D1 := HH1 D1 A1 B1 C1 (inp 13%nat) 5 in
  dlet C1 := HH1 C1 D1 A1 B1 (inp 5%nat) 7 in
  dlet B1 := HH1 B1 C1 D1 A1 (inp 12%nat) 5 in
  (A1, B1, C1, D1).

Definition line2 (inp : nat -> Z) (h : list Z) : regs :=
  dlet A2 := at_ h 0 in
  dlet B2 := at_ h 1 in
  dlet C2 := at_ h 2 in
  dlet D2 := at_ h 3 in
  dlet A2 := FF2 A2 B2 C2 D2 (inp 0%nat) 11 in
  dlet D2 := FF2 D2 A2 B2 C2 (inp 1%nat) 14 in
  dlet C2 := FF2 C2 D2 A2 B2 (inp 2%nat) 15 in
  dlet B2 := FF2 B2 C2 D2 A2 (inp 3%nat) 12 in
  dlet A2 := FF2 A2 B2 C2 D2 (inp 4%nat) 5 in
  dlet D2 := FF2 D2 A2 B2 C2 (inp 5%nat) 8 in
  dlet C2 := FF2 C2 D2 A2 B2 (inp 6%nat) 7 in
  dlet B2 := FF2 B2 C2 D2 A2 (inp 7%nat) 9 in
  dlet A2 := FF2 A2 B2 C2 D2 (inp 8%nat) 11 in
  dlet D2 := FF2 D2 A2 B2 C2 (inp 9%nat) 13 in
  dlet C2 := FF2 C2 D2 A2 B2 (inp 10%nat) 14 in
  dlet B2 := FF2 B2 C2 D2 A2 (inp 11%nat) 15 in
  dlet A2 := FF2 A2 B2 C2 D2 (inp 12%nat) 6 in
  dlet D2 := FF2 D2 A2 B2 C2 (inp 13%nat) 7 in
  dlet C2 := FF2 C2 D2 A2 B2 (inp 14%nat) 9 in
  dlet B2 := FF2 B2 C2 D2 A2 (inp 15%nat) 8 in
  dlet A2 := GG2 A2 B2 C2 D2 (inp 7%nat) 7 in
  dlet D2 := GG2 D2 A2 B2 C2 (inp 4%nat) 6 in
  dlet C2 := GG2 C2 D2 A2 B2 (inp 13%nat) 8 in
  dlet B2 := GG2 B2 C2 D2 A2 (inp 1%nat) 13 in
  dlet A2 := GG2 A2 B2 C2 D2 (inp 10%nat) 11 in
  dlet D2 := GG2 D2 A2 B2 C2 (inp 6%nat) 9 in
  dlet C2 := GG2 C2 D2 A2 B2 (inp 15%nat) 7 in
  dlet B2 := GG2 B2 C2 D2 A2 (inp 3%nat) 15 in
  dlet A2 := GG2 A2 B2 C2 D2 (inp 12%nat) 7 in
  dlet D2 := GG2 D2 A2 B2 C2 (inp 0%nat) 12 in
  dlet C2 := GG2 C2 D2 A2 B2 (inp 9%nat) 15 in
  dlet B2 := GG2 B2 C2 D2 A2 (inp 5%nat) 9 in
  dlet A2 := GG2 A2 B2 C2 D2 (inp 14%nat) 7 in
  dlet D2 := GG2 D2 A2 B2 C2 (inp 2%nat) 11 in
  dlet C2 := GG2 C2 D2 A2 B2 (inp 11%nat) 13 in
  dlet B2 := GG2 B2 C2 D2 A2 (inp 8%nat) 12 in
  dlet A2 := HH2 A2 B2 C2 D2 (inp 3%nat) 11 in
  dlet D2 := HH2 D2 A2 B2 C2 (inp 10%nat) 13 in
  dlet C2 := HH2 C2 D2 A2 B2 (inp 2%nat) 14 in
  dlet B2 := HH2 B2 C2 D2 A2 (inp 4%nat) 7 in
  dlet A2 := HH2 A2 B2 C2 D2 (inp 9%nat) 14 in
  dlet D2 := HH2 D2 A2 B2 C2 (inp 15%nat) 9 in
  dlet C2 := HH2 C2 D2 A2 B2 (inp 8%nat) 13 in
  dlet B2 := HH2 B2 C2 D2 A2 (inp 1%nat) 15 in
  dlet A2 := HH2 A2 B2 C2 D2 (inp 14%nat) 6 in
  dlet D2 := HH2 D2 A2 B2 C2 (inp 7%nat) 8 in
  dlet C2 := HH2 C2 D2 A2 B2 (inp 0%nat) 13 in
  dlet B2 := HH2 B2 C2 D2 A2 (inp 6%nat) 6 in
  dlet A2 := HH2 A2 B2 C2 D2 (inp 11%nat) 12 in
  dlet D2 := HH2 D2 A2 B2 C2 (inp 13%nat) 5 in
  dlet C2 := HH2 C2 D2 A2 B2 (inp 5%nat) 7 in
  dlet B2 := HH2 B2 C2 D2 A2 (inp 12%nat) 5 in
  (A2, B2, C2, D2).

Definition RIPEMD_ROUND_BODY (inp : nat -> Z) (h : list Z) : list Z :=
  let '(A1, B1, C1, D1) := line1 inp h in
  let '(A2, B2, C2, D2) := line2 inp h in
  let tmp := SPH_T32 (at_ h 1 + C1 + D2) in
  [ tmp; SPH_T32 (at_ h 2 + D1 + A2); SPH_T32 (at_ h 3 + A1 + B2); SPH_T32 (at_ h 0 + B1 + C2) ].

Definition ripemd_round (data r : list Z) : list Z :=
  RIPEMD_ROUND_BODY (fun x => sph_dec32le_aligned (drop (4 * x) data)) r.

Definition sph_ripemd_comp (msg val : list Z) : list Z :=
  RIPEMD_ROUND_BODY (fun x => at_ msg x) val.

Section Api.
(** SPH_UPTR and SPH_UNALIGNED. *)
Context (uptr unaligned : bool).

(** [#define LE32 1], then the inclusion of md_helper.c. *)
Definition ripemd_config : config := Config false false None false PLW2 uptr unaligned.

Definition sph_ripemd_init (sc : context) : context := Context_ (buf sc) (take 4 oIV) 0.
Definition sph_ripemd := sph_HASH ripemd_config ripemd_round.
Definition sph_ripemd_close (sc : context) : context * list Z :=
  let '(sc, dst) := HASH_close ripemd_config ripemd_round sc 4 in (sph_ripemd_init sc, dst).
End Api.

(** Both lines read the words in the same order, with the same rotations. *)
Definition word (right : bool) (t : Z) : nat :=
  nth (Z.to_nat t)
    [ 0; 1; 2; 3; 4; 5; 6; 7; 8; 9; 10; 11; 12; 13; 14; 15;
      7; 4; 13; 1; 10; 6; 15; 3; 12; 0; 9; 5; 14; 2; 11; 8;
      3; 10; 2; 4; 9; 15; 8; 1; 14; 7; 0; 6; 11; 13; 5; 12 ]%nat 0%nat.
Definition shift (right : bool) (t : Z) : Z :=
  at_ [ 11; 14; 15; 12; 5; 8; 7; 9; 11; 13; 14; 15; 6; 7; 9; 8;
        7; 6; 8; 13; 11; 9; 7; 15; 7; 12; 15; 9; 7; 11; 13; 12;
        11; 13; 14; 7; 14; 9; 13; 15; 6; 8; 13; 6; 12; 5; 7; 5 ] (Z.to_nat t).

Module Ref.
Definition fn (t : Z) : Z -> Z -> Z -> Z := if t <? 16 then f2 else if t <? 32 then maj else f1.
Definition const (right : bool) (t : Z) : Z :=
  if right then if t <? 16 then 0x50A28BE6 else if t <? 32 then 0 else 0x5C4DD124
  else if t <? 16 then 0 else if t <? 32 then 0x5A827999 else 0x6ED9EBA1.

Definition step (right : bool) (inp : nat -> Z) (st : regs) (t : Z) : regs :=
  let '(a, b, c, d) := st in
  (d, ROTL (SPH_T32 (a + fn t b c d + inp (word right t) + const right t)) (shift right t), b, c).

Definition compress (inp : nat -> Z) (h : list Z) : list Z :=
  let st := (at_ h 0, at_ h 1, at_ h 2, at_ h 3) in
  let '(A1, B1, C1, D1) := fold_left (step false inp) (times 3) st in
  let '(A2, B2, C2, D2) := fold_left (step true inp) (times 3) st in
  [ SPH_T32 (at_ h 1 + C1 + D2); SPH_T32 (at_ h 2 + D1 + A2);
    SPH_T32 (at_ h 3 + A1 + B2); SPH_T32 (at_ h 0 + B1 + C2) ].

(** The block as sixteen little-endian words. *)
Definition block (data r : list Z) : list Z :=
  compress (fun x => sph_dec32le (drop (4 * x) data)) r.
Definition hash (m : list Z) : list Z :=
  Standard.digest 64 8 4 false block (take 4 h0) 4 m 0 0.
End Ref.

(** The kinds of step, with the expressions of the source. *)
Definition step_with (right : bool) (t w s : Z) (st : regs) : regs :=
  let '(a, b, c, d) := st in
  (d, (if right then if t <? 16 then FF2 a b c d w s else if t <? 32 then GG2 a b c d w s
                     else HH2 a b c d w s
       else if t <? 16 then FF1 a b c d w s else if t <? 32 then GG1 a b c d w s
            else HH1 a b c d w s), b, c).

Lemma ripemd_step_src right inp t st :
  0 <= t < 48 ->
  Ref.step right inp st t = step_with right t (inp (word right t)) (shift right t) st.
Proof.
  intros _. destruct st as [[[a b] c] d].
  unfold Ref.step, step_with, Ref.fn, Ref.const, FF1, GG1, HH1, FF2, GG2, HH2. cbv zeta.
  destruct right, (t <? 16), (t <? 32); by rewrite ?F_f2, ?G_maj, ?Z.add_0_r.
Qed.

Lemma ripemd_fold_src side inp t ts st :
  0 <= t < 16 * 3 ->
  fold_left (Ref.step side inp) (t :: ts) st =
  fold_left (Ref.step side inp) ts
    (step_with side t (inp (word side t)) (shift side t) st).
Proof. intros Ht. rewrite <- ripemd_step_src by exact Ht. reflexivity. Qed.

Ltac select_step :=
  cbv beta iota zeta delta [step_with];
  repeat match goal with
  | |- context [Z.ltb ?t ?n] =>
      let b := eval vm_compute in (Z.ltb t n) in change (Z.ltb t n) with b
  | |- context [word ?s ?t] =>
      let b := eval vm_compute in (word s t) in change (word s t) with b
  | |- context [shift ?s ?t] =>
      let b := eval vm_compute in (shift s t) in change (shift s t) with b
  end; cbv beta iota.

Lemma ripemd_line1_fold inp h :
  line1 inp h = fold_left (Ref.step false inp) (times 3) (at_ h 0, at_ h 1, at_ h 2, at_ h 3).
Proof.
  let k := eval vm_compute in (times 3) in change (times 3) with k.
  cbv beta delta [line1]. add_id. do 4 pull.
  do 48 (rewrite ripemd_fold_src by (split; [discriminate|reflexivity]); select_step; pull). reflexivity.
Qed.

Lemma ripemd_line2_fold inp h :
  line2 inp h = fold_left (Ref.step true inp) (times 3) (at_ h 0, at_ h 1, at_ h 2, at_ h 3).
Proof.
  let k := eval vm_compute in (times 3) in change (times 3) with k.
  cbv beta delta [line2]. add_id. do 4 pull.
  do 48 (rewrite ripemd_fold_src by (split; [discriminate|reflexivity]); select_step; pull). reflexivity.
Qed.

Lemma ripemd_body_compress inp h : RIPEMD_ROUND_BODY inp h = Ref.compress inp h.
Proof. unfold RIPEMD_ROUND_BODY, Ref.compress. rewrite ripemd_line1_fold, ripemd_line2_fold. reflexivity. Qed.

(** *** The hash function *)
Lemma ripemd_fold_ext side inp inp' st :
  (forall i, (i < 16)%nat -> inp i = inp' i) ->
  fold_left (Ref.step side inp) (times 3) st = fold_left (Ref.step side inp') (times 3) st.
Proof.
  intros Hi.
  assert (E : forallb (fun t => (word side t <? 16)%nat) (times 3) = true)
    by (destruct side; vm_compute; reflexivity).
  rewrite forallb_forall in E. revert st. induction (times 3) as [|t ts IH]; intros st; [done|].
  cbn [fold_left].
  assert (Es : Ref.step side inp st t = Ref.step side inp' st t).
  { destruct st as [[[a b] c] d]. unfold Ref.step.
    rewrite Hi; [done|]. apply Nat.ltb_lt, E. by left. }
  rewrite Es. apply IH. intros t' Ht'. apply E. by right.
Qed.

Lemma ripemd_round_block data r :
  is_bytes data -> length data = 64%nat -> ripemd_round data r = Ref.block data r.
Proof.
  intros Hb Hl. unfold ripemd_round, Ref.block. rewrite ripemd_body_compress. unfold Ref.compress.
  assert (Hi : forall i, (i < 16)%nat -> sph_dec32le_aligned (drop (4 * i) data) =
                                 sph_dec32le (drop (4 * i) data)).
  { intros i Hi. apply dec32le_aligned_eq. rewrite length_drop. lia. }
  rewrite (ripemd_fold_ext false _ _ _ Hi), (ripemd_fold_ext true _ _ _ Hi). reflexivity.
Qed.

Lemma ripemd_digest uptr unaligned m :
  hash_bits (ripemd_config uptr unaligned) Ref.block (take 4 oIV) 4 m 0 0 = Ref.hash m.
Proof. by apply hash_bits_standard. Qed.

(** The original RIPEMD: a context initialised with whatever it held before, updated with
    buffers that lie anywhere in memory and closed, writes the digest that the reference defines
    for the concatenated message, and is initialised again. *)
Theorem ripemd_stream uptr unaligned buf0 ds :
  length buf0 = 64%nat -> is_bytes (concat (map snd ds)) ->
  Z.of_nat (length (concat (map snd ds))) < 2 ^ 64 ->
  forall v0 c0,
  let sc := updates (ripemd_config uptr unaligned) ripemd_round
              (sph_ripemd_init (Context_ buf0 v0 c0)) ds in
  let '(sc', dst) := sph_ripemd_close uptr unaligned sc in
  dst = Ref.hash (concat (map snd ds)) /\
  exists b, length b = 64%nat /\ sc' = Context_ b (take 4 oIV) 0.
Proof.
  intros Hb Hm Hl v0 c0. cbv zeta. unfold sph_ripemd_close, HASH_close, sph_ripemd_init.
  cbn [buf]. destruct (stream_correct (ripemd_config uptr unaligned) ripemd_round Ref.block
    eq_refl ripemd_round_block (take 4 oIV) 4 buf0 ds 0 0 Hb Hm ltac:(lia) Hl) as (b & Hlb & Eb & Ed).
  destruct (addbits_and_close _ _ _ _ _ _) as [sc' dst]. cbn [fst snd buf] in *.
  split; [rewrite Ed; by apply ripemd_digest|]. exists b. by rewrite Eb.
Qed.

Lemma ripemd_stream_witness :
  let '(sc, dst) := sph_ripemd_close true false
    (updates (ripemd_config true false) ripemd_round
       (sph_ripemd_init (Context_ (replicate 64 0) [] 7))
       [(1, [97; 98]); (6, [99])]) in
  dst = Ref.hash [97; 98; 99] /\ exists b, length b = 64%nat /\ sc = Context_ b (take 4 oIV) 0.
Proof.
  refine (ripemd_stream true false (replicate 64 0) [(1, [97; 98]); (6, [99])]
            _ _ _ [] 7);
    [reflexivity|cbn; repeat constructor; lia|reflexivity].
Defined.

End Original.

(** ** RIPEMD-128 *)
Module R128.
Definition regs : Type := Z * Z * Z * Z.

Definition sK11 : Z := 0x00000000.
Definition sK12 : Z := 0x5A827999.
Definition sK13 : Z := 0x6ED9EBA1.
Definition sK14 : Z := 0x8F1BBCDC.

Definition sK21 : Z := 0x50A28BE6.
Definition sK22 : Z := 0x5C4DD124.
Definition sK23 : Z := 0x6D703EF3.
Definition sK24 : Z := 0x00000000.

(** The new value of the first register. *)
Definition sRR (a b c d : Z) (f : Z -> Z -> Z -> Z) (s r k : Z) : Z :=
  ROTL (SPH_T32 (a + f b c d + r + k)) s.

Definition line1 (inp : nat -> Z) (h : list Z) : regs :=
  dlet A1 := at_ h 0 in
  dlet B1 := at_ h 1 in
  dlet C1 := at_ h 2 in
  dlet D1 := at_ h 3 in
  dlet A1 := sRR A1 B1 C1 D1 F1 11 (inp 0%nat) sK11 in
  dlet D1 := sRR D1 A1 B1 C1 F1 14 (inp 1%nat) sK11 in
  dlet C1 := sRR C1 D1 A1 B1 F1 15 (inp 2%nat) sK11 in
  dlet B1 := sRR B1 C1 D1 A1 F1 12 (inp 3%nat) sK11 in
  dlet A1 := sRR A1 B1 C1 D1 F1 5 (inp 4%nat) sK11 in
  dlet D1 := sRR D1 A1 B1 C1 F1 8 (inp 5%nat) sK11 in
  dlet C1 := sRR C1 D1 A1 B1 F1 7 (inp 6%nat) sK11 in
  dlet B1 := sRR B1 C1 D1 A1 F1 9 (inp 7%nat) sK11 in
  dlet A1 := sRR A1 B1 C1 D1 F1 11 (inp 8%nat) sK11 in
  dlet D1 := sRR D1 A1 B1 C1 F1 13 (inp 9%nat) sK11 in
  dlet C1 := sRR C1 D1 A1 B1 F1 14 (inp 10%nat) sK11 in
  dlet B1 := sRR B1 C1 D1 A1 F1 15 (inp 11%nat) sK11 in
  dlet A1 := sRR A1 B1 C1 D1 F1 6 (inp 12%nat) sK11 in
  dlet D1 := sRR D1 A1 B1 C1 F1 7 (inp 13%nat) sK11 in
  dlet C1 := sRR C1 D1 A1 B1 F1 9 (inp 14%nat) sK11 in
  dlet B1 := sRR B1 C1 D1 A1 F1 8 (inp 15%nat) sK11 in
  dlet A1 := sRR A1 B1 C1 D1 F2 7 (inp 7%nat) sK12 in
  dlet D1 := sRR D1 A1 B1 C1 F2 6 (inp 4%nat) sK12 in
  dlet C1 := sRR C1 D1 A1 B1 F2 8 (inp 13%nat) sK12 in
  dlet B1 := sRR B1 C1 D1 A1 F2 13 (inp 1%nat) sK12 in
  dlet A1 := sRR A1 B1 C1 D1 F2 11 (inp 10%nat) sK12 in
  dlet D1 := sRR D1 A1 B1 C1 F2 9 (inp 6%nat) sK12 in
  dlet C1 := sRR C1 D1 A1 B1 F2 7 (inp 15%nat) sK12 in
  dlet B1 := sRR B1 C1 D1 A1 F2 15 (inp 3%nat) sK12 in
  dlet A1 := sRR A1 B1 C1 D1 F2 7 (inp 12%nat) sK12 in
  dlet D1 := sRR D1 A1 B1 C1 F2 12 (inp 0%nat) sK12 in
  dlet C1 := sRR C1 D1 A1 B1 F2 15 (inp 9%nat) sK12 in
  dlet B1 := sRR B1 C1 D1 A1 F2 9 (inp 5%nat) sK12 in
  dlet A1 := sRR A1 B1 C1 D1 F2 11 (inp 2%nat) sK12 in
  dlet D1 := sRR D1 A1 B1 C1 F2 7 (inp 14%nat) sK12 in
  dlet C1 := sRR C1 D1 A1 B1 F2 13 (inp 11%nat) sK12 in
  dlet B1 := sRR B1 C1 D1 A1 F2 12 (inp 8%nat) sK12 in
  dlet A1 := sRR A1 B1 C1 D1 F3 11 (inp 3%nat) sK13 in
  dlet D1 := sRR D1 A1 B1 C1 F3 13 (inp 10%nat) sK13 in
  dlet C1 := sRR C1 D1 A1 B1 F3 6 (inp 14%nat) sK13 in
  dlet B1 := sRR B1 C1 D1 A1 F3 7 (inp 4%nat) sK13 in
  dlet A1 := sRR A1 B1 C1 D1 F3 14 (inp 9%nat) sK13 in
  dlet D1 := sRR D1 A1 B1 C1 F3 9 (inp 15%nat) sK13 in
  dlet C1 := sRR C1 D1 A1 B1 F3 13 (inp 8%nat) sK13 in
  dlet B1 := sRR B1 C1 D1 A1 F3 15 (inp 1%nat) sK13 in
  dlet A1 := sRR A1 B1 C1 D1 F3 14 (inp 2%nat) sK13 in
  dlet D1 := sRR D1 A1 B1 C1 F3 8 (inp 7%nat) sK13 in
  dlet C1 := sRR C1 D1 A1 B1 F3 13 (inp 0%nat) sK13 in
  dlet B1 := sRR B1 C1 D1 A1 F3 6 (inp 6%nat) sK13 in
  dlet A1 := sRR A1 B1 C1 D1 F3 5 (inp 13%nat) sK13 in
  dlet D1 := sRR D1 A1 B1 C1 F3 12 (inp 11%nat) sK13 in
  dlet C1 := sRR C1 D1 A1 B1 F3 7 (inp 5%nat) sK13 in
  dlet B1 := sRR B1 C1 D1 A1 F3 5 (inp 12%nat) sK13 in
  dlet A1 := sRR A1 B1 C1 D1 F4 11 (inp 1%nat) sK14 in
  dlet D1 := sRR D1 A1 B1 C1 F4 12 (inp 9%nat) sK14 in
  dlet C1 := sRR C1 D1 A1 B1 F4 14 (inp 11%nat) sK14 in
  dlet B1 := sRR B1 C1 D1 A1 F4 15 (inp 10%nat) sK14 in
  dlet A1 := sRR A1 B1 C1 D1 F4 14 (inp 0%nat) sK14 in
  dlet D1 := sRR D1 A1 B1 C1 F4 15 (inp 8%nat) sK14 in
  dlet C1 := sRR C1 D1 A1 B1 F4 9 (inp 12%nat) sK14 in
  dlet B1 := sRR B1 C1 D1 A1 F4 8 (inp 4%nat) sK14 in
  dlet A1 := sRR A1 B1 C1 D1 F4 9 (inp 13%nat) sK14 in
  dlet D1 := sRR D1 A1 B1 C1 F4 14 (inp 3%nat) sK14 in
  dlet C1 := sRR C1 D1 A1 B1 F4 5 (inp 7%nat) sK14 in
  dlet B1 := sRR B1 C1 D1 A1 F4 6 (inp 15%nat) sK14 in
  dlet A1 := sRR A1 B1 C1 D1 F4 8 (inp 14%nat) sK14 in
  dlet D1 := sRR D1 A1 B1 C1 F4 6 (inp 5%nat) sK14 in
  dlet C1 := sRR C1 D1 A1 B1 F4 5 (inp 6%nat) sK14 in
  dlet B1 := sRR B1 C1 D1 A1 F4 12 (inp 2%nat) sK14 in
  (A1, B1, C1, D1).

Definition line2 (inp : nat -> Z) (h : list Z) : regs :=
  dlet A2 := at_ h 0 in
  dlet B2 := at_ h 1 in
  dlet C2 := at_ h 2 in
  dlet D2 := at_ h 3 in
  dlet A2 := sRR A2 B2 C2 D2 F4 8 (inp 5%nat) sK21 in
  dlet D2 := sRR D2 A2 B2 C2 F4 9 (inp 14%nat) sK21 in
  dlet C2 := sRR C2 D2 A2 B2 F4 9 (inp 7%nat) sK21 in
  dlet B2 := sRR B2 C2 D2 A2 F4 11 (inp 0%nat) sK21 in
  dlet A2 := sRR A2 B2 C2 D2 F4 13 (inp 9%nat) sK21 in
  dlet D2 := sRR D2 A2 B2 C2 F4 15 (inp 2%nat) sK21 in
  dlet C2 := sRR C2 D2 A2 B2 F4 15 (inp 11%nat) sK21 in
  dlet B2 := sRR B2 C2 D2 A2 F4 5 (inp 4%nat) sK21 in
  dlet A2 := sRR A2 B2 C2 D2 F4 7 (inp 13%nat) sK21 in
  dlet D2 := sRR D2 A2 B2 C2 F4 7 (inp 6%nat) sK21 in
  dlet C2 := sRR C2 D2 A2 B2 F4 8 (inp 15%nat) sK21 in
  dlet B2 := sRR B2 C2 D2 A2 F4 11 (inp 8%nat) sK21 in
  dlet A2 := sRR A2 B2 C2 D2 F4 14 (inp 1%nat) sK21 in
  dlet D2 := sRR D2 A2 B2 C2 F4 14 (inp 10%nat) sK21 in
  dlet C2 := sRR C2 D2 A2 B2 F4 12 (inp 3%nat) sK21 in
  dlet B2 := sRR B2 C2 D2 A2 F4 6 (inp 12%nat) sK21 in
  dlet A2 := sRR A2 B2 C2 D2 F3 9 (inp 6%nat) sK22 in
  dlet D2 := sRR D2 A2 B2 C2 F3 13 (inp 11%nat) sK22 in
  dlet C2 := sRR C2 D2 A2 B2 F3 15 (inp 3%nat) sK22 in
  dlet B2 := sRR B2 C2 D2 A2 F3 7 (inp 7%nat) sK22 in
  dlet A2 := sRR A2 B2 C2 D2 F3 12 (inp 0%nat) sK22 in
  dlet D2 := sRR D2 A2 B2 C2 F3 8 (inp 13%nat) sK22 in
  dlet C2 := sRR C2 D2 A2 B2 F3 9 (inp 5%nat) sK22 in
  dlet B2 := sRR B2 C2 D2 A2 F3 11 (inp 10%nat) sK22 in
  dlet A2 := sRR A2 B2 C2 D2 F3 7 (inp 14%nat) sK22 in
  dlet D2 := sRR D2 A2 B2 C2 F3 7 (inp 15%nat) sK22 in
  dlet C2 := sRR C2 D2 A2 B2 F3 12 (inp 8%nat) sK22 in
  dlet B2 := sRR B2 C2 D2 A2 F3 7 (inp 12%nat) sK22 in
  dlet A2 := sRR A2 B2 C2 D2 F3 6 (inp 4%nat) sK22 in
  dlet D2 := sRR D2 A2 B2 C2 F3 15 (inp 9%nat) sK22 in
  dlet C2 := sRR C2 D2 A2 B2 F3 13 (inp 1%nat) sK22 in
  dlet B2 := sRR B2 C2 D2 A2 F3 11 (inp 2%nat) sK22 in
  dlet A2 := sRR A2 B2 C2 D2 F2 9 (inp 15%nat) sK23 in
  dlet D2 := sRR D2 A2 B2 C2 F2 7 (inp 5%nat) sK23 in
  dlet C2 := sRR C2 D2 A2 B2 F2 15 (inp 1%nat) sK23 in
  dlet B2 := sRR B2 C2 D2 A2 F2 11 (inp 3%nat) sK23 in
  dlet A2 := sRR A2 B2 C2 D2 F2 8 (inp 7%nat) sK23 in
  dlet D2 := sRR D2 A2 B2 C2 F2 6 (inp 14%nat) sK23 in
  dlet C2 := sRR C2 D2 A2 B2 F2 6 (inp 6%nat) sK23 in
  dlet B2 := sRR B2 C2 D2 A2 F2 14 (inp 9%nat) sK23 in
  dlet A2 := sRR A2 B2 C2 D2 F2 12 (inp 11%nat) sK23 in
  dlet D2 := sRR D2 A2 B2 C2 F2 13 (inp 8%nat) sK23 in
  dlet C2 := sRR C2 D2 A2 B2 F2 5 (inp 12%nat) sK23 in
  dlet B2 := sRR B2 C2 D2 A2 F2 14 (inp 2%nat) sK23 in
  dlet A2 := sRR A2 B2 C2 D2 F2 13 (inp 10%nat) sK23 in
  dlet D2 := sRR D2 A2 B2 C2 F2 13 (inp 0%nat) sK23 in
  dlet C2 := sRR C2 D2 A2 B2 F2 7 (inp 4%nat) sK23 in
  dlet B2 := sRR B2 C2 D2 A2 F2 5 (inp 13%nat) sK23 in
  dlet A2 := sRR A2 B2 C2 D2 F1 15 (inp 8%nat) sK24 in
  dlet D2 := sRR D2 A2 B2 C2 F1 5 (inp 6%nat) sK24 in
  dlet C2 := sRR C2 D2 A2 B2 F1 8 (inp 4%nat) sK24 in
  dlet B2 := sRR B2 C2 D2 A2 F1 11 (inp 1%nat) sK24 in
  dlet A2 := sRR A2 B2 C2 D2 F1 14 (inp 3%nat) sK24 in
  dlet D2 := sRR D2 A2 B2 C2 F1 14 (inp 11%nat) sK24 in
  dlet C2 := sRR C2 D2 A2 B2 F1 6 (inp 15%nat) sK24 in
  dlet B2 := sRR B2 C2 D2 A2 F1 14 (inp 0%nat) sK24 in
  dlet A2 := sRR A2 B2 C2 D2 F1 6 (inp 5%nat) sK24 in
  dlet D2 := sRR D2 A2 B2 C2 F1 9 (inp 12%nat) sK24 in
  dlet C2 := sRR C2 D2 A2 B2 F1 12 (inp 2%nat) sK24 in
  dlet B2 := sRR B2 C2 D2 A2 F1 9 (inp 13%nat) sK24 in
  dlet A2 := sRR A2 B2 C2 D2 F1 12 (inp 9%nat) sK24 in
  dlet D2 := sRR D2 A2 B2 C2 F1 5 (inp 7%nat) sK24 in
  dlet C2 := sRR C2 D2 A2 B2 F1 15 (inp 10%nat) sK24 in
  dlet B2 := sRR B2 C2 D2 A2 F1 8 (inp 14%nat) sK24 in
  (A2, B2, C2, D2).

Definition RIPEMD128_ROUND_BODY (inp : nat -> Z) (h : list Z) : list Z :=
  let '(A1, B1, C1, D1) := line1 inp h in
  let '(A2, B2, C2, D2) := line2 inp h in
  let tmp := SPH_T32 (at_ h 1 + C1 + D2) in
  [ tmp; SPH_T32 (at_ h 2 + D1 + A2); SPH_T32 (at_ h 3 + A1 + B2); SPH_T32 (at_ h 0 + B1 + C2) ].

Definition ripemd128_round (data r : list Z) : list Z :=
  RIPEMD128_ROUND_BODY (fun x => sph_dec32le_aligned (drop (4 * x) data)) r.

Definition sph_ripemd128_comp (msg val : list Z) : list Z :=
  RIPEMD128_ROUND_BODY (fun x => at_ msg x) val.

Section Api.
(** SPH_UPTR and SPH_UNALIGNED. *)
Context (uptr unaligned : bool).

(** [#define LE32 1], then the inclusion of md_helper.c. *)
Definition ripemd128_config : config := Config false false None false PLW2 uptr unaligned.

Definition sph_ripemd128_init (sc : context) : context := Context_ (buf sc) (take 4 IV) 0.
Definition sph_ripemd128 := sph_HASH ripemd128_config ripemd128_round.
Definition sph_ripemd128_close (sc : context) : context * list Z :=
  let '(sc, dst) := HASH_close ripemd128_config ripemd128_round sc 4 in (sph_ripemd128_init sc, dst).
End Api.

Module Ref.
Definition fn (right : bool) (t : Z) : Z -> Z -> Z -> Z :=
  nth (Z.to_nat (if right then 3 - t / 16 else t / 16)) [f1; f2; f3; f4] f1.
Definition const (right : bool) (t : Z) : Z :=
  at_ (if right then [0x50A28BE6; 0x5C4DD124; 0x6D703EF3; 0]
       else [0; 0x5A827999; 0x6ED9EBA1; 0x8F1BBCDC]) (Z.to_nat (t / 16)).

Definition step (right : bool) (inp : nat -> Z) (st : regs) (t : Z) : regs :=
  let '(a, b, c, d) := st in
  (d, ROTL (SPH_T32 (a + fn right t b c d + inp (word right t) + const right t))
        (shift right t), b, c).

Definition compress (inp : nat -> Z) (h : list Z) : list Z :=
  let st := (at_ h 0, at_ h 1, at_ h 2, at_ h 3) in
  let '(A1, B1, C1, D1) := fold_left (step false inp) (times 4) st in
  let '(A2, B2, C2, D2) := fold_left (step true inp) (times 4) st in
  [ SPH_T32 (at_ h 1 + C1 + D2); SPH_T32 (at_ h 2 + D1 + A2);
    SPH_T32 (at_ h 3 + A1 + B2); SPH_T32 (at_ h 0 + B1 + C2) ].

Definition block (data r : list Z) : list Z :=
  compress (fun x => sph_dec32le (drop (4 * x) data)) r.
Definition hash (m : list Z) : list Z :=
  Standard.digest 64 8 4 false block (take 4 h0) 4 m 0 0.
End Ref.

Definition step_with (right : bool) (t w s : Z) (st : regs) : regs :=
  let '(a, b, c, d) := st in
  (d, (if right then
         if t <? 16 then sRR a b c d F4 s w sK21 else if t <? 32 then sRR a b c d F3 s w sK22
         else if t <? 48 then sRR a b c d F2 s w sK23 else sRR a b c d F1 s w sK24
       else
         if t <? 16 then sRR a b c d F1 s w sK11 else if t <? 32 then sRR a b c d F2 s w sK12
         else if t <? 48 then sRR a b c d F3 s w sK13 else sRR a b c d F4 s w sK14), b, c).

Lemma ripemd128_step_src right inp t st :
  0 <= t < 64 ->
  Ref.step right inp st t = step_with right t (inp (word right t)) (shift right t) st.
Proof.
  intros Ht. destruct st as [[[a b] c] d]. unfold Ref.step, step_with, Ref.fn, Ref.const, sRR.
  assert (Hq : t / 16 = 0 /\ t < 16 \/ t / 16 = 1 /\ 16 <= t < 32 \/
               t / 16 = 2 /\ 32 <= t < 48 \/ t / 16 = 3 /\ 48 <= t) by div_lia.
  destruct Hq as [[-> ?]|[[-> ?]|[[-> ?]|[-> ?]]]]; destruct right; cbv beta;
    repeat match goal with |- context [?x <? ?y] => destruct (Z.ltb_spec x y); try lia end;
    simpl nth; rewrite ?F2_f2, ?F4_f4; reflexivity.
Qed.

Lemma ripemd128_fold_src side inp t ts st :
  0 <= t < 16 * 4 ->
  fold_left (Ref.step side inp) (t :: ts) st =
  fold_left (Ref.step side inp) ts
    (step_with side t (inp (word side t)) (shift side t) st).
Proof. intros Ht. rewrite <- ripemd128_step_src by exact Ht. reflexivity. Qed.

Ltac select_step :=
  cbv beta iota zeta delta [step_with];
  repeat match goal with
  | |- context [Z.ltb ?t ?n] =>
      let b := eval vm_compute in (Z.ltb t n) in change (Z.ltb t n) with b
  | |- context [word ?s ?t] =>
      let b := eval vm_compute in (word s t) in change (word s t) with b
  | |- context [shift ?s ?t] =>
      let b := eval vm_compute in (shift s t) in change (shift s t) with b
  end; cbv beta iota.

Lemma ripemd128_line1_fold inp h :
  line1 inp h = fold_left (Ref.step false inp) (times 4) (at_ h 0, at_ h 1, at_ h 2, at_ h 3).
Proof.
  let k := eval vm_compute in (times 4) in change (times 4) with k.
  cbv beta delta [line1]. add_id. do 4 pull.
  do 64 (rewrite ripemd128_fold_src by (split; [discriminate|reflexivity]); select_step; pull). reflexivity.
Qed.

Lemma ripemd128_line2_fold inp h :
  line2 inp h = fold_left (Ref.step true inp) (times 4) (at_ h 0, at_ h 1, at_ h 2, at_ h 3).
Proof.
  let k := eval vm_compute in (times 4) in change (times 4) with k.
  cbv beta delta [line2]. add_id. do 4 pull.
  do 64 (rewrite ripemd128_fold_src by (split; [discriminate|reflexivity]); select_step; pull). reflexivity.
Qed.

Lemma ripemd128_body_compress inp h : RIPEMD128_ROUND_BODY inp h = Ref.compress inp h.
Proof. unfold RIPEMD128_ROUND_BODY, Ref.compress. rewrite ripemd128_line1_fold, ripemd128_line2_fold. reflexivity. Qed.

(** *** The hash function *)
Lemma ripemd128_fold_ext side inp inp' st :
  (forall i, (i < 16)%nat -> inp i = inp' i) ->
  fold_left (Ref.step side inp) (times 4) st = fold_left (Ref.step side inp') (times 4) st.
Proof.
  intros Hi.
  assert (E : forallb (fun t => (word side t <? 16)%nat) (times 4) = true)
    by (destruct side; vm_compute; reflexivity).
  rewrite forallb_forall in E. revert st. induction (times 4) as [|t ts IH]; intros st; [done|].
  cbn [fold_left].
  assert (Es : Ref.step side inp st t = Ref.step side inp' st t).
  { destruct st as [[[a b] c] d]. unfold Ref.step.
    rewrite Hi; [done|]. apply Nat.ltb_lt, E. by left. }
  rewrite Es. apply IH. intros t' Ht'. apply E. by right.
Qed.

Lemma ripemd128_round_block data r :
  is_bytes data -> length data = 64%nat -> ripemd128_round data r = Ref.block data r.
Proof.
  intros Hb Hl. unfold ripemd128_round, Ref.block. rewrite ripemd128_body_compress. unfold Ref.compress.
  assert (Hi : forall i, (i < 16)%nat -> sph_dec32le_aligned (drop (4 * i) data) =
                                 sph_dec32le (drop (4 * i) data)).
  { intros i Hi. apply dec32le_aligned_eq. rewrite length_drop. lia. }
  rewrite (ripemd128_fold_ext false _ _ _ Hi), (ripemd128_fold_ext true _ _ _ Hi). reflexivity.
Qed.

Lemma ripemd128_digest uptr unaligned m :
  hash_bits (ripemd128_config uptr unaligned) Ref.block (take 4 IV) 4 m 0 0 = Ref.hash m.
Proof. by apply hash_bits_standard. Qed.

(** RIPEMD-128: a context initialised with whatever it held before, updated with
    buffers that lie anywhere in memory and closed, writes the digest that the reference defines
    for the concatenated message, and is initialised again. *)
Theorem ripemd128_stream uptr unaligned buf0 ds :
  length buf0 = 64%nat -> is_bytes (concat (map snd ds)) ->
  Z.of_nat (length (concat (map snd ds))) < 2 ^ 64 ->
  forall v0 c0,
  let sc := updates (ripemd128_config uptr unaligned) ripemd128_round
              (sph_ripemd128_init (Context_ buf0 v0 c0)) ds in
  let '(sc', dst) := sph_ripemd128_close uptr unaligned sc in
  dst = Ref.hash (concat (map snd ds)) /\
  exists b, length b = 64%nat /\ sc' = Context_ b (take 4 IV) 0.
Proof.
  intros Hb Hm Hl v0 c0. cbv zeta. unfold sph_ripemd128_close, HASH_close, sph_ripemd128_init.
  cbn [buf]. destruct (stream_correct (ripemd128_config uptr unaligned) ripemd128_round Ref.block
    eq_refl ripemd128_round_block (take 4 IV) 4 buf0 ds 0 0 Hb Hm ltac:(lia) Hl) as (b & Hlb & Eb & Ed).
  destruct (addbits_and_close _ _ _ _ _ _) as [sc' dst]. cbn [fst snd buf] in *.
  split; [rewrite Ed; by apply ripemd128_digest|]. exists b. by rewrite Eb.
Qed.

Lemma ripemd128_stream_witness :
  let '(sc, dst) := sph_ripemd128_close true false
    (updates (ripemd128_config true false) ripemd128_round
       (sph_ripemd128_init (Context_ (replicate 64 0) [] 7))
       [(1, [97; 98]); (6, [99])]) in
  dst = Ref.hash [97; 98; 99] /\ exists b, length b = 64%nat /\ sc = Context_ b (take 4 IV) 0.
Proof.
  refine (ripemd128_stream true false (replicate 64 0) [(1, [97; 98]); (6, [99])]
            _ _ _ [] 7);
    [reflexivity|cbn; repeat constructor; lia|reflexivity].
Defined.

End R128.

(** ** RIPEMD-160 *)
Module R160.
Definition regs : Type := Z * Z * Z * Z * Z.

Definition K11 : Z := 0x00000000.
Definition K12 : Z := 0x5A827999.
Definition K13 : Z := 0x6ED9EBA1.
Definition K14 : Z := 0x8F1BBCDC.
Definition K15 : Z := 0xA953FD4E.

Definition K21 : Z := 0x50A28BE6.
Definition K22 : Z := 0x5C4DD124.
Definition K23 : Z := 0x6D703EF3.
Definition K24 : Z := 0x7A6D76E9.
Definition K25 : Z := 0x00000000.

(** The new value of the first register; the third is then rotated by ten bits. *)
Definition RR (a b c d e : Z) (f : Z -> Z -> Z -> Z) (s r k : Z) : Z :=
  SPH_T32 (ROTL (SPH_T32 (a + f b c d + r + k)) s + e).

Definition line1 (inp : nat -> Z) (h : list Z) : regs :=
  dlet A1 := at_ h 0 in
  dlet B1 := at_ h 1 in
  dlet C1 := at_ h 2 in
  dlet D1 := at_ h 3 in
  dlet E1 := at_ h 4 in
  dlet A1 := RR A1 B1 C1 D1 E1 F1 11 (inp 0%nat) K11 in
  dlet C1 := ROTL C1 10 in
  dlet E1 := RR E1 A1 B1 C1 D1 F1 14 (inp 1%nat) K11 in
  dlet B1 := ROTL B1 10 in
  dlet D1 := RR D1 E1 A1 B1 C1 F1 15 (inp 2%nat) K11 in
  dlet A1 := ROTL A1 10 in
  dlet C1 := RR C1 D1 E1 A1 B1 F1 12 (inp 3%nat) K11 in
  dlet E1 := ROTL E1 10 in
  dlet B1 := RR B1 C1 D1 E1 A1 F1 5 (inp 4%nat) K11 in
  dlet D1 := ROTL D1 10 in
  dlet A1 := RR A1 B1 C1 D1 E1 F1 8 (inp 5%nat) K11 in
  dlet C1 := ROTL C1 10 in
  dlet E1 := RR E1 A1 B1 C1 D1 F1 7 (inp 6%nat) K11 in
  dlet B1 := ROTL B1 10 in
  dlet D1 := RR D1 E1 A1 B1 C1 F1 9 (inp 7%nat) K11 in
  dlet A1 := ROTL A1 10 in
  dlet C1 := RR C1 D1 E1 A1 B1 F1 11 (inp 8%nat) K11 in
  dlet E1 := ROTL E1 10 in
  dlet B1 := RR B1 C1 D1 E1 A1 F1 13 (inp 9%nat) K11 in
  dlet D1 := ROTL D1 10 in
  dlet A1 := RR A1 B1 C1 D1 E1 F1 14 (inp 10%nat) K11 in
  dlet C1 := ROTL C1 10 in
  dlet E1 := RR E1 A1 B1 C1 D1 F1 15 (inp 11%nat) K11 in
  dlet B1 := ROTL B1 10 in
  dlet D1 := RR D1 E1 A1 B1 C1 F1 6 (inp 12%nat) K11 in
  dlet A1 := ROTL A1 10 in
  dlet C1 := RR C1 D1 E1 A1 B1 F1 7 (inp 13%nat) K11 in
  dlet E1 := ROTL E1 10 in
  dlet B1 := RR B1 C1 D1 E1 A1 F1 9 (inp 14%nat) K11 in
  dlet D1 := ROTL D1 10 in
  dlet A1 := RR A1 B1 C1 D1 E1 F1 8 (inp 15%nat) K11 in
  dlet C1 := ROTL C1 10 in
  dlet E1 := RR E1 A1 B1 C1 D1 F2 7 (inp 7%nat) K12 in
  dlet B1 := ROTL B1 10 in
  dlet D1 := RR D1 E1 A1 B1 C1 F2 6 (inp 4%nat) K12 in
  dlet A1 := ROTL A1 10 in
  dlet C1 := RR C1 D1 E1 A1 B1 F2 8 (inp 13%nat) K12 in
  dlet E1 := ROTL E1 10 in
  dlet B1 := RR B1 C1 D1 E1 A1 F2 13 (inp 1%nat) K12 in
  dlet D1 := ROTL D1 10 in
  dlet A1 := RR A1 B1 C1 D1 E1 F2 11 (inp 10%nat) K12 in
  dlet C1 := ROTL C1 10 in
  dlet E1 := RR E1 A1 B1 C1 D1 F2 9 (inp 6%nat) K12 in
  dlet B1 := ROTL B1 10 in
  dlet D1 := RR D1 E1 A1 B1 C1 F2 7 (inp 15%nat) K12 in
  dlet A1 := ROTL A1 10 in
  dlet C1 := RR C1 D1 E1 A1 B1 F2 15 (inp 3%nat) K12 in
  dlet E1 := ROTL E1 10 in
  dlet B1 := RR B1 C1 D1 E1 A1 F2 7 (inp 12%nat) K12 in
  dlet D1 := ROTL D1 10 in
  dlet A1 := RR A1 B1 C1 D1 E1 F2 12 (inp 0%nat) K12 in
  dlet C1 := ROTL C1 10 in
  dlet E1 := RR E1 A1 B1 C1 D1 F2 15 (inp 9%nat) K12 in
  dlet B1 := ROTL B1 10 in
  dlet D1 := RR D1 E1 A1 B1 C1 F2 9 (inp 5%nat) K12 in
  dlet A1 := ROTL A1 10 in
  dlet C1 := RR C1 D1 E1 A1 B1 F2 11 (inp 2%nat) K12 in
  dlet E1 := ROTL E1 10 in
  dlet B1 := RR B1 C1 D1 E1 A1 F2 7 (inp 14%nat) K12 in
  dlet D1 := ROTL D1 10 in
  dlet A1 := RR A1 B1 C1 D1 E1 F2 13 (inp 11%nat) K12 in
  dlet C1 := ROTL C1 10 in
  dlet E1 := RR E1 A1 B1 C1 D1 F2 12 (inp 8%nat) K12 in
  dlet B1 := ROTL B1 10 in
  dlet D1 := RR D1 E1 A1 B1 C1 F3 11 (inp 3%nat) K13 in
  dlet A1 := ROTL A1 10 in
  dlet C1 := RR C1 D1 E1 A1 B1 F3 13 (inp 10%nat) K13 in
  dlet E1 := ROTL E1 10 in
  dlet B1 := RR B1 C1 D1 E1 A1 F3 6 (inp 14%nat) K13 in
  dlet D1 := ROTL D1 10 in
  dlet A1 := RR A1 B1 C1 D1 E1 F3 7 (inp 4%nat) K13 in
  dlet C1 := ROTL C1 10 in
  dlet E1 := RR E1 A1 B1 C1 D1 F3 14 (inp 9%nat) K13 in
  dlet B1 := ROTL B1 10 in
  dlet D1 := RR D1 E1 A1 B1 C1 F3 9 (inp 15%nat) K13 in
  dlet A1 := ROTL A1 10 in
  dlet C1 := RR C1 D1 E1 A1 B1 F3 13 (inp 8%nat) K13 in
  dlet E1 := ROTL E1 10 in
  dlet B1 := RR B1 C1 D1 E1 A1 F3 15 (inp 1%nat) K13 in
  dlet D1 := ROTL D1 10 in
  dlet A1 := RR A1 B1 C1 D1 E1 F3 14 (inp 2%nat) K13 in
  dlet C1 := ROTL C1 10 in
  dlet E1 := RR E1 A1 B1 C1 D1 F3 8 (inp 7%nat) K13 in
  dlet B1 := ROTL B1 10 in
  dlet D1 := RR D1 E1 A1 B1 C1 F3 13 (inp 0%nat) K13 in
  dlet A1 := ROTL A1 10 in
  dlet C1 := RR C1 D1 E1 A1 B1 F3 6 (inp 6%nat) K13 in
  dlet E1 := ROTL E1 10 in
  dlet B1 := RR B1 C1 D1 E1 A1 F3 5 (inp 13%nat) K13 in
  dlet D1 := ROTL D1 10 in
  dlet A1 := RR A1 B1 C1 D1 E1 F3 12 (inp 11%nat) K13 in
  dlet C1 := ROTL C1 10 in
  dlet E1 := RR E1 A1 B1 C1 D1 F3 7 (inp 5%nat) K13 in
  dlet B1 := ROTL B1 10 in
  dlet D1 := RR D1 E1 A1 B1 C1 F3 5 (inp 12%nat) K13 in
  dlet A1 := ROTL A1 10 in
  dlet C1 := RR C1 D1 E1 A1 B1 F4 11 (inp 1%nat) K14 in
  dlet E1 := ROTL E1 10 in
  dlet B1 := RR B1 C1 D1 E1 A1 F4 12 (inp 9%nat) K14 in
  dlet D1 := ROTL D1 10 in
  dlet A1 := RR A1 B1 C1 D1 E1 F4 14 (inp 11%nat) K14 in
  dlet C1 := ROTL C1 10 in
  dlet E1 := RR E1 A1 B1 C1 D1 F4 15 (inp 10%nat) K14 in
  dlet B1 := ROTL B1 10 in
  dlet D1 := RR D1 E1 A1 B1 C1 F4 14 (inp 0%nat) K14 in
  dlet A1 := ROTL A1 10 in
  dlet C1 := RR C1 D1 E1 A1 B1 F4 15 (inp 8%nat) K14 in
  dlet E1 := ROTL E1 10 in
  dlet B1 := RR B1 C1 D1 E1 A1 F4 9 (inp 12%nat) K14 in
  dlet D1 := ROTL D1 10 in
  dlet A1 := RR A1 B1 C1 D1 E1 F4 8 (inp 4%nat) K14 in
  dlet C1 := ROTL C1 10 in
  dlet E1 := RR E1 A1 B1 C1 D1 F4 9 (inp 13%nat) K14 in
  dlet B1 := ROTL B1 10 in
  dlet D1 := RR D1 E1 A1 B1 C1 F4 14 (inp 3%nat) K14 in
  dlet A1 := ROTL A1 10 in
  dlet C1 := RR C1 D1 E1 A1 B1 F4 5 (inp 7%nat) K14 in
  dlet E1 := ROTL E1 10 in
  dlet B1 := RR B1 C1 D1 E1 A1 F4 6 (inp 15%nat) K14 in
  dlet D1 := ROTL D1 10 in
  dlet A1 := RR A1 B1 C1 D1 E1 F4 8 (inp 14%nat) K14 in
  dlet C1 := ROTL C1 10 in
  dlet E1 := RR E1 A1 B1 C1 D1 F4 6 (inp 5%nat) K14 in
  dlet B1 := ROTL B1 10 in
  dlet D1 := RR D1 E1 A1 B1 C1 F4 5 (inp 6%nat) K14 in
  dlet A1 := ROTL A1 10 in
  dlet C1 := RR C1 D1 E1 A1 B1 F4 12 (inp 2%nat) K14 in
  dlet E1 := ROTL E1 10 in
  dlet B1 := RR B1 C1 D1 E1 A1 F5 9 (inp 4%nat) K15 in
  dlet D1 := ROTL D1 10 in
  dlet A1 := RR A1 B1 C1 D1 E1 F5 15 (inp 0%nat) K15 in
  dlet C1 := ROTL C1 10 in
  dlet E1 := RR E1 A1 B1 C1 D1 F5 5 (inp 5%nat) K15 in
  dlet B1 := ROTL B1 10 in
  dlet D1 := RR D1 E1 A1 B1 C1 F5 11 (inp 9%nat) K15 in
  dlet A1 := ROTL A1 10 in
  dlet C1 := RR C1 D1 E1 A1 B1 F5 6 (inp 7%nat) K15 in
  dlet E1 := ROTL E1 10 in
  dlet B1 := RR B1 C1 D1 E1 A1 F5 8 (inp 12%nat) K15 in
  dlet D1 := ROTL D1 10 in
  dlet A1 := RR A1 B1 C1 D1 E1 F5 13 (inp 2%nat) K15 in
  dlet C1 := ROTL C1 10 in
  dlet E1 := RR E1 A1 B1 C1 D1 F5 12 (inp 10%nat) K15 in
  dlet B1 := ROTL B1 10 in
  dlet D1 := RR D1 E1 A1 B1 C1 F5 5 (inp 14%nat) K15 in
  dlet A1 := ROTL A1 10 in
  dlet C1 := RR C1 D1 E1 A1 B1 F5 12 (inp 1%nat) K15 in
  dlet E1 := ROTL E1 10 in
  dlet B1 := RR B1 C1 D1 E1 A1 F5 13 (inp 3%nat) K15 in
  dlet D1 := ROTL D1 10 in
  dlet A1 := RR A1 B1 C1 D1 E1 F5 14 (inp 8%nat) K15 in
  dlet C1 := ROTL C1 10 in
  dlet E1 := RR E1 A1 B1 C1 D1 F5 11 (inp 11%nat) K15 in
  dlet B1 := ROTL B1 10 in
  dlet D1 := RR D1 E1 A1 B1 C1 F5 8 (inp 6%nat) K15 in
  dlet A1 := ROTL A1 10 in
  dlet C1 := RR C1 D1 E1 A1 B1 F5 5 (inp 15%nat) K15 in
  dlet E1 := ROTL E1 10 in
  dlet B1 := RR B1 C1 D1 E1 A1 F5 6 (inp 13%nat) K15 in
  dlet D1 := ROTL D1 10 in
  (A1, B1, C1, D1, E1).

Definition line2 (inp : nat -> Z) (h : list Z) : regs :=
  dlet A2 := at_ h 0 in
  dlet B2 := at_ h 1 in
  dlet C2 := at_ h 2 in
  dlet D2 := at_ h 3 in
  dlet E2 := at_ h 4 in
  dlet A2 := RR A2 B2 C2 D2 E2 F5 8 (inp 5%nat) K21 in
  dlet C2 := ROTL C2 10 in
  dlet E2 := RR E2 A2 B2 C2 D2 F5 9 (inp 14%nat) K21 in
  dlet B2 := ROTL B2 10 in
  dlet D2 := RR D2 E2 A2 B2 C2 F5 9 (inp 7%nat) K21 in
  dlet A2 := ROTL A2 10 in
  dlet C2 := RR C2 D2 E2 A2 B2 F5 11 (inp 0%nat) K21 in
  dlet E2 := ROTL E2 10 in
  dlet B2 := RR B2 C2 D2 E2 A2 F5 13 (inp 9%nat) K21 in
  dlet D2 := ROTL D2 10 in
  dlet A2 := RR A2 B2 C2 D2 E2 F5 15 (inp 2%nat) K21 in
  dlet C2 := ROTL C2 10 in
  dlet E2 := RR E2 A2 B2 C2 D2 F5 15 (inp 11%nat) K21 in
  dlet B2 := ROTL B2 10 in
  dlet D2 := RR D2 E2 A2 B2 C2 F5 5 (inp 4%nat) K21 in
  dlet A2 := ROTL A2 10 in
  dlet C2 := RR C2 D2 E2 A2 B2 F5 7 (inp 13%nat) K21 in
  dlet E2 := ROTL E2 10 in
  dlet B2 := RR B2 C2 D2 E2 A2 F5 7 (inp 6%nat) K21 in
  dlet D2 := ROTL D2 10 in
  dlet A2 := RR A2 B2 C2 D2 E2 F5 8 (inp 15%nat) K21 in
  dlet C2 := ROTL C2 10 in
  dlet E2 := RR E2 A2 B2 C2 D2 F5 11 (inp 8%nat) K21 in
  dlet B2 := ROTL B2 10 in
  dlet D2 := RR D2 E2 A2 B2 C2 F5 14 (inp 1%nat) K21 in
  dlet A2 := ROTL A2 10 in
  dlet C2 := RR C2 D2 E2 A2 B2 F5 14 (inp 10%nat) K21 in
  dlet E2 := ROTL E2 10 in
  dlet B2 := RR B2 C2 D2 E2 A2 F5 12 (inp 3%nat) K21 in
  dlet D2 := ROTL D2 10 in
  dlet A2 := RR A2 B2 C2 D2 E2 F5 6 (inp 12%nat) K21 in
  dlet C2 := ROTL C2 10 in
  dlet E2 := RR E2 A2 B2 C2 D2 F4 9 (inp 6%nat) K22 in
  dlet B2 := ROTL B2 10 in
  dlet D2 := RR D2 E2 A2 B2 C2 F4 13 (inp 11%nat) K22 in
  dlet A2 := ROTL A2 10 in
  dlet C2 := RR C2 D2 E2 A2 B2 F4 15 (inp 3%nat) K22 in
  dlet E2 := ROTL E2 10 in
  dlet B2 := RR B2 C2 D2 E2 A2 F4 7 (inp 7%nat) K22 in
  dlet D2 := ROTL D2 10 in
  dlet A2 := RR A2 B2 C2 D2 E2 F4 12 (inp 0%nat) K22 in
  dlet C2 := ROTL C2 10 in
  dlet E2 := RR E2 A2 B2 C2 D2 F4 8 (inp 13%nat) K22 in
  dlet B2 := ROTL B2 10 in
  dlet D2 := RR D2 E2 A2 B2 C2 F4 9 (inp 5%nat) K22 in
  dlet A2 := ROTL A2 10 in
  dlet C2 := RR C2 D2 E2 A2 B2 F4 11 (inp 10%nat) K22 in
  dlet E2 := ROTL E2 10 in
  dlet B2 := RR B2 C2 D2 E2 A2 F4 7 (inp 14%nat) K22 in
  dlet D2 := ROTL D2 10 in
  dlet A2 := RR A2 B2 C2 D2 E2 F4 7 (inp 15%nat) K22 in
  dlet C2 := ROTL C2 10 in
  dlet E2 := RR E2 A2 B2 C2 D2 F4 12 (inp 8%nat) K22 in
  dlet B2 := ROTL B2 10 in
  dlet D2 := RR D2 E2 A2 B2 C2 F4 7 (inp 12%nat) K22 in
  dlet A2 := ROTL A2 10 in
  dlet C2 := RR C2 D2 E2 A2 B2 F4 6 (inp 4%nat) K22 in
  dlet E2 := ROTL E2 10 in
  dlet B2 := RR B2 C2 D2 E2 A2 F4 15 (inp 9%nat) K22 in
  dlet D2 := ROTL D2 10 in
  dlet A2 := RR A2 B2 C2 D2 E2 F4 13 (inp 1%nat) K22 in
  dlet C2 := ROTL C2 10 in
  dlet E2 := RR E2 A2 B2 C2 D2 F4 11 (inp 2%nat) K22 in
  dlet B2 := ROTL B2 10 in
  dlet D2 := RR D2 E2 A2 B2 C2 F3 9 (inp 15%nat) K23 in
  dlet A2 := ROTL A2 10 in
  dlet C2 := RR C2 D2 E2 A2 B2 F3 7 (inp 5%nat) K23 in
  dlet E2 := ROTL E2 10 in
  dlet B2 := RR B2 C2 D2 E2 A2 F3 15 (inp 1%nat) K23 in
  dlet D2 := ROTL D2 10 in
  dlet A2 := RR A2 B2 C2 D2 E2 F3 11 (inp 3%nat) K23 in
  dlet C2 := ROTL C2 10 in
  dlet E2 := RR E2 A2 B2 C2 D2 F3 8 (inp 7%nat) K23 in
  dlet B2 := ROTL B2 10 in
  dlet D2 := RR D2 E2 A2 B2 C2 F3 6 (inp 14%nat) K23 in
  dlet A2 := ROTL A2 10 in
  dlet C2 := RR C2 D2 E2 A2 B2 F3 6 (inp 6%nat) K23 in
  dlet E2 := ROTL E2 10 in
  dlet B2 := RR B2 C2 D2 E2 A2 F3 14 (inp 9%nat) K23 in
  dlet D2 := ROTL D2 10 in
  dlet A2 := RR A2 B2 C2 D2 E2 F3 12 (inp 11%nat) K23 in
  dlet C2 := ROTL C2 10 in
  dlet E2 := RR E2 A2 B2 C2 D2 F3 13 (inp 8%nat) K23 in
  dlet B2 := ROTL B2 10 in
  dlet D2 := RR D2 E2 A2 B2 C2 F3 5 (inp 12%nat) K23 in
  dlet A2 := ROTL A2 10 in
  dlet C2 := RR C2 D2 E2 A2 B2 F3 14 (inp 2%nat) K23 in
  dlet E2 := ROTL E2 10 in
  dlet B2 := RR B2 C2 D2 E2 A2 F3 13 (inp 10%nat) K23 in
  dlet D2 := ROTL D2 10 in
  dlet A2 := RR A2 B2 C2 D2 E2 F3 13 (inp 0%nat) K23 in
  dlet C2 := ROTL C2 10 in
  dlet E2 := RR E2 A2 B2 C2 D2 F3 7 (inp 4%nat) K23 in
  dlet B2 := ROTL B2 10 in
  dlet D2 := RR D2 E2 A2 B2 C2 F3 5 (inp 13%nat) K23 in
  dlet A2 := ROTL A2 10 in
  dlet C2 := RR C2 D2 E2 A2 B2 F2 15 (inp 8%nat) K24 in
  dlet E2 := ROTL E2 10 in
  dlet B2 := RR B2 C2 D2 E2 A2 F2 5 (inp 6%nat) K24 in
  dlet D2 := ROTL D2 10 in
  dlet A2 := RR A2 B2 C2 D2 E2 F2 8 (inp 4%nat) K24 in
  dlet C2 := ROTL C2 10 in
  dlet E2 := RR E2 A2 B2 C2 D2 F2 11 (inp 1%nat) K24 in
  dlet B2 := ROTL B2 10 in
  dlet D2 := RR D2 E2 A2 B2 C2 F2 14 (inp 3%nat) K24 in
  dlet A2 := ROTL A2 10 in
  dlet C2 := RR C2 D2 E2 A2 B2 F2 14 (inp 11%nat) K24 in
  dlet E2 := ROTL E2 10 in
  dlet B2 := RR B2 C2 D2 E2 A2 F2 6 (inp 15%nat) K24 in
  dlet D2 := ROTL D2 10 in
  dlet A2 := RR A2 B2 C2 D2 E2 F2 14 (inp 0%nat) K24 in
  dlet C2 := ROTL C2 10 in
  dlet E2 := RR E2 A2 B2 C2 D2 F2 6 (inp 5%nat) K24 in
  dlet B2 := ROTL B2 10 in
  dlet D2 := RR D2 E2 A2 B2 C2 F2 9 (inp 12%nat) K24 in
  dlet A2 := ROTL A2 10 in
  dlet C2 := RR C2 D2 E2 A2 B2 F2 12 (inp 2%nat) K24 in
  dlet E2 := ROTL E2 10 in
  dlet B2 := RR B2 C2 D2 E2 A2 F2 9 (inp 13%nat) K24 in
  dlet D2 := ROTL D2 10 in
  dlet A2 := RR A2 B2 C2 D2 E2 F2 12 (inp 9%nat) K24 in
  dlet C2 := ROTL C2 10 in
  dlet E2 := RR E2 A2 B2 C2 D2 F2 5 (inp 7%nat) K24 in
  dlet B2 := ROTL B2 10 in
  dlet D2 := RR D2 E2 A2 B2 C2 F2 15 (inp 10%nat) K24 in
  dlet A2 := ROTL A2 10 in
  dlet C2 := RR C2 D2 E2 A2 B2 F2 8 (inp 14%nat) K24 in
  dlet E2 := ROTL E2 10 in
  dlet B2 := RR B2 C2 D2 E2 A2 F1 8 (inp 12%nat) K25 in
  dlet D2 := ROTL D2 10 in
  dlet A2 := RR A2 B2 C2 D2 E2 F1 5 (inp 15%nat) K25 in
  dlet C2 := ROTL C2 10 in
  dlet E2 := RR E2 A2 B2 C2 D2 F1 12 (inp 10%nat) K25 in
  dlet B2 := ROTL B2 10 in
  dlet D2 := RR D2 E2 A2 B2 C2 F1 9 (inp 4%nat) K25 in
  dlet A2 := ROTL A2 10 in
  dlet C2 := RR C2 D2 E2 A2 B2 F1 12 (inp 1%nat) K25 in
  dlet E2 := ROTL E2 10 in
  dlet B2 := RR B2 C2 D2 E2 A2 F1 5 (inp 5%nat) K25 in
  dlet D2 := ROTL D2 10 in
  dlet A2 := RR A2 B2 C2 D2 E2 F1 14 (inp 8%nat) K25 in
  dlet C2 := ROTL C2 10 in
  dlet E2 := RR E2 A2 B2 C2 D2 F1 6 (inp 7%nat) K25 in
  dlet B2 := ROTL B2 10 in
  dlet D2 := RR D2 E2 A2 B2 C2 F1 8 (inp 6%nat) K25 in
  dlet A2 := ROTL A2 10 in
  dlet C2 := RR C2 D2 E2 A2 B2 F1 13 (inp 2%nat) K25 in
  dlet E2 := ROTL E2 10 in
  dlet B2 := RR B2 C2 D2 E2 A2 F1 6 (inp 13%nat) K25 in
  dlet D2 := ROTL D2 10 in
  dlet A2 := RR A2 B2 C2 D2 E2 F1 5 (inp 14%nat) K25 in
  dlet C2 := ROTL C2 10 in
  dlet E2 := RR E2 A2 B2 C2 D2 F1 15 (inp 0%nat) K25 in
  dlet B2 := ROTL B2 10 in
  dlet D2 := RR D2 E2 A2 B2 C2 F1 13 (inp 3%nat) K25 in
  dlet A2 := ROTL A2 10 in
  dlet C2 := RR C2 D2 E2 A2 B2 F1 11 (inp 9%nat) K25 in
  dlet E2 := ROTL E2 10 in
  dlet B2 := RR B2 C2 D2 E2 A2 F1 11 (inp 11%nat) K25 in
  dlet D2 := ROTL D2 10 in
  (A2, B2, C2, D2, E2).

Definition RIPEMD160_ROUND_BODY (inp : nat -> Z) (h : list Z) : list Z :=
  let '(A1, B1, C1, D1, E1) := line1 inp h in
  let '(A2, B2, C2, D2, E2) := line2 inp h in
  let tmp := SPH_T32 (at_ h 1 + C1 + D2) in
  [ tmp; SPH_T32 (at_ h 2 + D1 + E2); SPH_T32 (at_ h 3 + E1 + A2); SPH_T32 (at_ h 4 + A1 + B2);
    SPH_T32 (at_ h 0 + B1 + C2) ].

Definition ripemd160_round (data r : list Z) : list Z :=
  RIPEMD160_ROUND_BODY (fun x => sph_dec32le_aligned (drop (4 * x) data)) r.

Definition sph_ripemd160_comp (msg val : list Z) : list Z :=
  RIPEMD160_ROUND_BODY (fun x => at_ msg x) val.

Section Api.
(** SPH_UPTR and SPH_UNALIGNED. *)
Context (uptr unaligned : bool).

(** [#define LE32 1], then the inclusion of md_helper.c. *)
Definition ripemd160_config : config := Config false false None false PLW2 uptr unaligned.

Definition sph_ripemd160_init (sc : context) : context := Context_ (buf sc) (take 5 IV) 0.
Definition sph_ripemd160 := sph_HASH ripemd160_config ripemd160_round.
Definition sph_ripemd160_close (sc : context) : context * list Z :=
  let '(sc, dst) := HASH_close ripemd160_config ripemd160_round sc 5 in (sph_ripemd160_init sc, dst).
End Api.

Module Ref.
Definition fn (right : bool) (t : Z) : Z -> Z -> Z -> Z :=
  nth (Z.to_nat (if right then 4 - t / 16 else t / 16)) [f1; f2; f3; f4; f5] f1.
Definition const (right : bool) (t : Z) : Z :=
  at_ (if right then [0x50A28BE6; 0x5C4DD124; 0x6D703EF3; 0x7A6D76E9; 0]
       else [0; 0x5A827999; 0x6ED9EBA1; 0x8F1BBCDC; 0xA953FD4E]) (Z.to_nat (t / 16)).

Definition step (right : bool) (inp : nat -> Z) (st : regs) (t : Z) : regs :=
  let '(a, b, c, d, e) := st in
  (e, SPH_T32 (ROTL (SPH_T32 (a + fn right t b c d + inp (word right t) + const right t))
                 (shift right t) + e), b, ROTL c 10, d).

Definition compress (inp : nat -> Z) (h : list Z) : list Z :=
  let st := (at_ h 0, at_ h 1, at_ h 2, at_ h 3, at_ h 4) in
  let '(A1, B1, C1, D1, E1) := fold_left (step false inp) (times 5) st in
  let '(A2, B2, C2, D2, E2) := fold_left (step true inp) (times 5) st in
  [ SPH_T32 (at_ h 1 + C1 + D2); SPH_T32 (at_ h 2 + D1 + E2); SPH_T32 (at_ h 3 + E1 + A2);
    SPH_T32 (at_ h 4 + A1 + B2); SPH_T32 (at_ h 0 + B1 + C2) ].

Definition block (data r : list Z) : list Z :=
  compress (fun x => sph_dec32le (drop (4 * x) data)) r.
Definition hash (m : list Z) : list Z :=
  Standard.digest 64 8 4 false block (take 5 h0) 5 m 0 0.
End Ref.

Definition step_with (right : bool) (t w s : Z) (st : regs) : regs :=
  let '(a, b, c, d, e) := st in
  (e, (if right then
         if t <? 16 then RR a b c d e F5 s w K21 else if t <? 32 then RR a b c d e F4 s w K22
         else if t <? 48 then RR a b c d e F3 s w K23
         else if t <? 64 then RR a b c d e F2 s w K24 else RR a b c d e F1 s w K25
       else
         if t <? 16 then RR a b c d e F1 s w K11 else if t <? 32 then RR a b c d e F2 s w K12
         else if t <? 48 then RR a b c d e F3 s w K13
         else if t <? 64 then RR a b c d e F4 s w K14 else RR a b c d e F5 s w K15),
   b, ROTL c 10, d).

Lemma ripemd160_step_src right inp t st :
  0 <= t < 80 ->
  Ref.step right inp st t = step_with right t (inp (word right t)) (shift right t) st.
Proof.
  intros Ht. destruct st as [[[[a b] c] d] e].
  unfold Ref.step, step_with, Ref.fn, Ref.const, RR.
  assert (Hq : t / 16 = 0 /\ t < 16 \/ t / 16 = 1 /\ 16 <= t < 32 \/
               t / 16 = 2 /\ 32 <= t < 48 \/ t / 16 = 3 /\ 48 <= t < 64 \/
               t / 16 = 4 /\ 64 <= t) by div_lia.
  destruct Hq as [[-> ?]|[[-> ?]|[[-> ?]|[[-> ?]|[-> ?]]]]]; destruct right; cbv beta;
    repeat match goal with |- context [?x <? ?y] => destruct (Z.ltb_spec x y); try lia end;
    simpl nth; rewrite ?F2_f2, ?F4_f4; reflexivity.
Qed.

Lemma ripemd160_fold_src side inp t ts st :
  0 <= t < 16 * 5 ->
  fold_left (Ref.step side inp) (t :: ts) st =
  fold_left (Ref.step side inp) ts
    (step_with side t (inp (word side t)) (shift side t) st).
Proof. intros Ht. rewrite <- ripemd160_step_src by exact Ht. reflexivity. Qed.

Ltac select_step :=
  cbv beta iota zeta delta [step_with];
  repeat match goal with
  | |- context [Z.ltb ?t ?n] =>
      let b := eval vm_compute in (Z.ltb t n) in change (Z.ltb t n) with b
  | |- context [word ?s ?t] =>
      let b := eval vm_compute in (word s t) in change (word s t) with b
  | |- context [shift ?s ?t] =>
      let b := eval vm_compute in (shift s t) in change (shift s t) with b
  end; cbv beta iota.

Lemma ripemd160_line1_fold inp h :
  line1 inp h = fold_left (Ref.step false inp) (times 5) (at_ h 0, at_ h 1, at_ h 2, at_ h 3, at_ h 4).
Proof.
  let k := eval vm_compute in (times 5) in change (times 5) with k.
  cbv beta delta [line1]. add_id. do 5 pull.
  do 80 (rewrite ripemd160_fold_src by (split; [discriminate|reflexivity]); select_step; do 2 pull). reflexivity.
Qed.

Lemma ripemd160_line2_fold inp h :
  line2 inp h = fold_left (Ref.step true inp) (times 5) (at_ h 0, at_ h 1, at_ h 2, at_ h 3, at_ h 4).
Proof.
  let k := eval vm_compute in (times 5) in change (times 5) with k.
  cbv beta delta [line2]. add_id. do 5 pull.
  do 80 (rewrite ripemd160_fold_src by (split; [discriminate|reflexivity]); select_step; do 2 pull). reflexivity.
Qed.

Lemma ripemd160_body_compress inp h : RIPEMD160_ROUND_BODY inp h = Ref.compress inp h.
Proof. unfold RIPEMD160_ROUND_BODY, Ref.compress. rewrite ripemd160_line1_fold, ripemd160_line2_fold. reflexivity. Qed.

(** *** The hash function *)
Lemma ripemd160_fold_ext side inp inp' st :
  (forall i, (i < 16)%nat -> inp i = inp' i) ->
  fold_left (Ref.step side inp) (times 5) st = fold_left (Ref.step side inp') (times 5) st.
Proof.
  intros Hi.
  assert (E : forallb (fun t => (word side t <? 16)%nat) (times 5) = true)
    by (destruct side; vm_compute; reflexivity).
  rewrite forallb_forall in E. revert st. induction (times 5) as [|t ts IH]; intros st; [done|].
  cbn [fold_left].
  assert (Es : Ref.step side inp st t = Ref.step side inp' st t).
  { destruct st as [[[[a b] c] d] e]. unfold Ref.step.
    rewrite Hi; [done|]. apply Nat.ltb_lt, E. by left. }
  rewrite Es. apply IH. intros t' Ht'. apply E. by right.
Qed.

Lemma ripemd160_round_block data r :
  is_bytes data -> length data = 64%nat -> ripemd160_round data r = Ref.block data r.
Proof.
  intros Hb Hl. unfold ripemd160_round, Ref.block. rewrite ripemd160_body_compress. unfold Ref.compress.
  assert (Hi : forall i, (i < 16)%nat -> sph_dec32le_aligned (drop (4 * i) data) =
                                 sph_dec32le (drop (4 * i) data)).
  { intros i Hi. apply dec32le_aligned_eq. rewrite length_drop. lia. }
  rewrite (ripemd160_fold_ext false _ _ _ Hi), (ripemd160_fold_ext true _ _ _ Hi). reflexivity.
Qed.

Lemma ripemd160_digest uptr unaligned m :
  hash_bits (ripemd160_config uptr unaligned) Ref.block (take 5 IV) 5 m 0 0 = Ref.hash m.
Proof. by apply hash_bits_standard. Qed.

(** RIPEMD-160: a context initialised with whatever it held before, updated with
    buffers that lie anywhere in memory and closed, writes the digest that the reference defines
    for the concatenated message, and is initialised again. *)
Theorem ripemd160_stream uptr unaligned buf0 ds :
  length buf0 = 64%nat -> is_bytes (concat (map snd ds)) ->
  Z.of_nat (length (concat (map snd ds))) < 2 ^ 64 ->
  forall v0 c0,
  let sc := updates (ripemd160_config uptr unaligned) ripemd160_round
              (sph_ripemd160_init (Context_ buf0 v0 c0)) ds in
  let '(sc', dst) := sph_ripemd160_close uptr unaligned sc in
  dst = Ref.hash (concat (map snd ds)) /\
  exists b, length b = 64%nat /\ sc' = Context_ b (take 5 IV) 0.
Proof.
  intros Hb Hm Hl v0 c0. cbv zeta. unfold sph_ripemd160_close, HASH_close, sph_ripemd160_init.
  cbn [buf]. destruct (stream_correct (ripemd160_config uptr unaligned) ripemd160_round Ref.block
    eq_refl ripemd160_round_block (take 5 IV) 5 buf0 ds 0 0 Hb Hm ltac:(lia) Hl) as (b & Hlb & Eb & Ed).
  destruct (addbits_and_close _ _ _ _ _ _) as [sc' dst]. cbn [fst snd buf] in *.
  split; [rewrite Ed; by apply ripemd160_digest|]. exists b. by rewrite Eb.
Qed.

Lemma ripemd160_stream_witness :
  let '(sc, dst) := sph_ripemd160_close true false
    (updates (ripemd160_config true false) ripemd160_round
       (sph_ripemd160_init (Context_ (replicate 64 0) [] 7))
       [(1, [97; 98]); (6, [99])]) in
  dst = Ref.hash [97; 98; 99] /\ exists b, length b = 64%nat /\ sc = Context_ b (take 5 IV) 0.
Proof.
  refine (ripemd160_stream true false (replicate 64 0) [(1, [97; 98]); (6, [99])]
            _ _ _ [] 7);
    [reflexivity|cbn; repeat constructor; lia|reflexivity].
Defined.

End R160.
