(* ===== verification/WhirlpoolTables.v ===== *)
(** The tables of [whirlpool.c] in sphlib, for the three versions of the function: the
    current one ([plain]), the first one ([old0]) and the second one ([old1]). *)
From S2P Require Import Prelude.

Definition plain_T0 : list Z :=
  [ 0xD83078C018601818; 0x2646AF05238C2323; 0xB891F97EC63FC6C6; 0xFBCD6F13E887E8E8;
    0xCB13A14C87268787; 0x116D62A9B8DAB8B8; 0x0902050801040101; 0x0D9E6E424F214F4F;
    0x9B6CEEAD36D83636; 0xFF510459A6A2A6A6; 0x0CB9BDDED26FD2D2; 0x0EF706FBF5F3F5F5;
    0x96F280EF79F97979; 0x30DECE5F6FA16F6F; 0x6D3FEFFC917E9191; 0xF8A407AA52555252;
    0x47C0FD27609D6060; 0x35657689BCCABCBC; 0x372BCDAC9B569B9B; 0x8A018C048E028E8E;
    0xD25B1571A3B6A3A3; 0x6C183C600C300C0C; 0x84F68AFF7BF17B7B; 0x806AE1B535D43535;
    0xF53A69E81D741D1D; 0xB3DD4753E0A7E0E0; 0x21B3ACF6D77BD7D7; 0x9C99ED5EC22FC2C2;
    0x435C966D2EB82E2E; 0x29967A624B314B4B; 0x5DE121A3FEDFFEFE; 0xD5AE168257415757;
    0xBD2A41A815541515; 0xE8EEB69F77C17777; 0x926EEBA537DC3737; 0x9ED7567BE5B3E5E5;
    0x1323D98C9F469F9F; 0x23FD17D3F0E7F0F0; 0x20947F6A4A354A4A; 0x44A9959EDA4FDADA;
    0xA2B025FA587D5858; 0xCF8FCA06C903C9C9; 0x7C528D5529A42929; 0x5A1422500A280A0A;
    0x507F4FE1B1FEB1B1; 0xC95D1A69A0BAA0A0; 0x14D6DA7F6BB16B6B; 0xD917AB5C852E8585;
    0x3C677381BDCEBDBD; 0x8FBA34D25D695D5D; 0x9020508010401010; 0x07F503F3F4F7F4F4;
    0xDD8BC016CB0BCBCB; 0xD37CC6ED3EF83E3E; 0x2D0A112805140505; 0x78CEE61F67816767;
    0x97D55373E4B7E4E4; 0x024EBB25279C2727; 0x7382583241194141; 0xA70B9D2C8B168B8B;
    0xF6530151A7A6A7A7; 0xB2FA94CF7DE97D7D; 0x4937FBDC956E9595; 0x56AD9F8ED847D8D8;
    0x70EB308BFBCBFBFB; 0xCDC17123EE9FEEEE; 0xBBF891C77CED7C7C; 0x71CCE31766856666;
    0x7BA78EA6DD53DDDD; 0xAF2E4BB8175C1717; 0x458E460247014747; 0x1A21DC849E429E9E;
    0xD489C51ECA0FCACA; 0x585A99752DB42D2D; 0x2E637991BFC6BFBF; 0x3F0E1B38071C0707;
    0xAC472301AD8EADAD; 0xB0B42FEA5A755A5A; 0xEF1BB56C83368383; 0xB666FF8533CC3333;
    0x5CC6F23F63916363; 0x12040A1002080202; 0x93493839AA92AAAA; 0xDEE2A8AF71D97171;
    0xC68DCF0EC807C8C8; 0xD1327DC819641919; 0x3B92707249394949; 0x5FAF9A86D943D9D9;
    0x31F91DC3F2EFF2F2; 0xA8DB484BE3ABE3E3; 0xB9B62AE25B715B5B; 0xBC0D9234881A8888;
    0x3E29C8A49A529A9A; 0x0B4CBE2D26982626; 0xBF64FA8D32C83232; 0x597D4AE9B0FAB0B0;
    0xF2CF6A1BE983E9E9; 0x771E33780F3C0F0F; 0x33B7A6E6D573D5D5; 0xF41DBA74803A8080;
    0x27617C99BEC2BEBE; 0xEB87DE26CD13CDCD; 0x8968E4BD34D03434; 0x3290757A483D4848;
    0x54E324ABFFDBFFFF; 0x8DF48FF77AF57A7A; 0x643DEAF4907A9090; 0x9DBE3EC25F615F5F;
    0x3D40A01D20802020; 0x0FD0D56768BD6868; 0xCA3472D01A681A1A; 0xB7412C19AE82AEAE;
    0x7D755EC9B4EAB4B4; 0xCEA8199A544D5454; 0x7F3BE5EC93769393; 0x2F44AA0D22882222;
    0x63C8E907648D6464; 0x2AFF12DBF1E3F1F1; 0xCCE6A2BF73D17373; 0x82245A9012481212;
    0x7A805D3A401D4040; 0x4810284008200808; 0x959BE856C32BC3C3; 0xDFC57B33EC97ECEC;
    0x4DAB9096DB4BDBDB; 0xC05F1F61A1BEA1A1; 0x9107831C8D0E8D8D; 0xC87AC9F53DF43D3D;
    0x5B33F1CC97669797; 0x0000000000000000; 0xF983D436CF1BCFCF; 0x6E5687452BAC2B2B;
    0xE1ECB39776C57676; 0xE619B06482328282; 0x28B1A9FED67FD6D6; 0xC33677D81B6C1B1B;
    0x74775BC1B5EEB5B5; 0xBE432911AF86AFAF; 0x1DD4DF776AB56A6A; 0xEAA00DBA505D5050;
    0x578A4C1245094545; 0x38FB18CBF3EBF3F3; 0xAD60F09D30C03030; 0xC4C3742BEF9BEFEF;
    0xDA7EC3E53FFC3F3F; 0xC7AA1C9255495555; 0xDB591079A2B2A2A2; 0xE9C96503EA8FEAEA;
    0x6ACAEC0F65896565; 0x036968B9BAD2BABA; 0x4A5E93652FBC2F2F; 0x8E9DE74EC027C0C0;
    0x60A181BEDE5FDEDE; 0xFC386CE01C701C1C; 0x46E72EBBFDD3FDFD; 0x1F9A64524D294D4D;
    0x7639E0E492729292; 0xFAEABC8F75C97575; 0x360C1E3006180606; 0xAE0998248A128A8A;
    0x4B7940F9B2F2B2B2; 0x85D15963E6BFE6E6; 0x7E1C36700E380E0E; 0xE73E63F81F7C1F1F;
    0x55C4F73762956262; 0x3AB5A3EED477D4D4; 0x814D3229A89AA8A8; 0x5231F4C496629696;
    0x62EF3A9BF9C3F9F9; 0xA397F666C533C5C5; 0x104AB13525942525; 0xABB220F259795959;
    0xD015AE54842A8484; 0xC5E4A7B772D57272; 0xEC72DDD539E43939; 0x1698615A4C2D4C4C;
    0x94BC3BCA5E655E5E; 0x9FF085E778FD7878; 0xE570D8DD38E03838; 0x980586148C0A8C8C;
    0x17BFB2C6D163D1D1; 0xE4570B41A5AEA5A5; 0xA1D94D43E2AFE2E2; 0x4EC2F82F61996161;
    0x427B45F1B3F6B3B3; 0x3442A51521842121; 0x0825D6949C4A9C9C; 0xEE3C66F01E781E1E;
    0x6186522243114343; 0xB193FC76C73BC7C7; 0x4FE52BB3FCD7FCFC; 0x2408142004100404;
    0xE3A208B251595151; 0x252FC7BC995E9999; 0x22DAC44F6DA96D6D; 0x651A39680D340D0D;
    0x79E93583FACFFAFA; 0x69A384B6DF5BDFDF; 0xA9FC9BD77EE57E7E; 0x1948B43D24902424;
    0xFE76D7C53BEC3B3B; 0x9A4B3D31AB96ABAB; 0xF081D13ECE1FCECE; 0x9922558811441111;
    0x8303890C8F068F8F; 0x049C6B4A4E254E4E; 0x667351D1B7E6B7B7; 0xE0CB600BEB8BEBEB;
    0xC178CCFD3CF03C3C; 0xFD1FBF7C813E8181; 0x4035FED4946A9494; 0x1CF30CEBF7FBF7F7;
    0x186F67A1B9DEB9B9; 0x8B265F98134C1313; 0x51589C7D2CB02C2C; 0x05BBB8D6D36BD3D3;
    0x8CD35C6BE7BBE7E7; 0x39DCCB576EA56E6E; 0xAA95F36EC437C4C4; 0x1B060F18030C0303;
    0xDCAC138A56455656; 0x5E88491A440D4444; 0xA0FE9EDF7FE17F7F; 0x884F3721A99EA9A9;
    0x6754824D2AA82A2A; 0x0A6B6DB1BBD6BBBB; 0x879FE246C123C1C1; 0xF1A602A253515353;
    0x72A58BAEDC57DCDC; 0x531627580B2C0B0B; 0x0127D39C9D4E9D9D; 0x2BD8C1476CAD6C6C;
    0xA462F59531C43131; 0xF3E8B98774CD7474; 0x15F109E3F6FFF6F6; 0x4C8C430A46054646;
    0xA5452609AC8AACAC; 0xB50F973C891E8989; 0xB42844A014501414; 0xBADF425BE1A3E1E1;
    0xA62C4EB016581616; 0xF774D2CD3AE83A3A; 0x06D2D06F69B96969; 0x41122D4809240909;
    0xD7E0ADA770DD7070; 0x6F7154D9B6E2B6B6; 0x1EBDB7CED067D0D0; 0xD6C77E3BED93EDED;
    0xE285DB2ECC17CCCC; 0x6884572A42154242; 0x2C2DC2B4985A9898; 0xED550E49A4AAA4A4;
    0x7550885D28A02828; 0x86B831DA5C6D5C5C; 0x6BED3F93F8C7F8F8; 0xC211A44486228686 ].

Definition plain_T1 : list Z :=
  [ 0x3078C018601818D8; 0x46AF05238C232326; 0x91F97EC63FC6C6B8; 0xCD6F13E887E8E8FB;
    0x13A14C87268787CB; 0x6D62A9B8DAB8B811; 0x0205080104010109; 0x9E6E424F214F4F0D;
    0x6CEEAD36D836369B; 0x510459A6A2A6A6FF; 0xB9BDDED26FD2D20C; 0xF706FBF5F3F5F50E;
    0xF280EF79F9797996; 0xDECE5F6FA16F6F30; 0x3FEFFC917E91916D; 0xA407AA52555252F8;
    0xC0FD27609D606047; 0x657689BCCABCBC35; 0x2BCDAC9B569B9B37; 0x018C048E028E8E8A;
    0x5B1571A3B6A3A3D2; 0x183C600C300C0C6C; 0xF68AFF7BF17B7B84; 0x6AE1B535D4353580;
    0x3A69E81D741D1DF5; 0xDD4753E0A7E0E0B3; 0xB3ACF6D77BD7D721; 0x99ED5EC22FC2C29C;
    0x5C966D2EB82E2E43; 0x967A624B314B4B29; 0xE121A3FEDFFEFE5D; 0xAE168257415757D5;
    0x2A41A815541515BD; 0xEEB69F77C17777E8; 0x6EEBA537DC373792; 0xD7567BE5B3E5E59E;
    0x23D98C9F469F9F13; 0xFD17D3F0E7F0F023; 0x947F6A4A354A4A20; 0xA9959EDA4FDADA44;
    0xB025FA587D5858A2; 0x8FCA06C903C9C9CF; 0x528D5529A429297C; 0x1422500A280A0A5A;
    0x7F4FE1B1FEB1B150; 0x5D1A69A0BAA0A0C9; 0xD6DA7F6BB16B6B14; 0x17AB5C852E8585D9;
    0x677381BDCEBDBD3C; 0xBA34D25D695D5D8F; 0x2050801040101090; 0xF503F3F4F7F4F407;
    0x8BC016CB0BCBCBDD; 0x7CC6ED3EF83E3ED3; 0x0A1128051405052D; 0xCEE61F6781676778;
    0xD55373E4B7E4E497; 0x4EBB25279C272702; 0x8258324119414173; 0x0B9D2C8B168B8BA7;
    0x530151A7A6A7A7F6; 0xFA94CF7DE97D7DB2; 0x37FBDC956E959549; 0xAD9F8ED847D8D856;
    0xEB308BFBCBFBFB70; 0xC17123EE9FEEEECD; 0xF891C77CED7C7CBB; 0xCCE3176685666671;
    0xA78EA6DD53DDDD7B; 0x2E4BB8175C1717AF; 0x8E46024701474745; 0x21DC849E429E9E1A;
    0x89C51ECA0FCACAD4; 0x5A99752DB42D2D58; 0x637991BFC6BFBF2E; 0x0E1B38071C07073F;
    0x472301AD8EADADAC; 0xB42FEA5A755A5AB0; 0x1BB56C83368383EF; 0x66FF8533CC3333B6;
    0xC6F23F639163635C; 0x040A100208020212; 0x493839AA92AAAA93; 0xE2A8AF71D97171DE;
    0x8DCF0EC807C8C8C6; 0x327DC819641919D1; 0x927072493949493B; 0xAF9A86D943D9D95F;
    0xF91DC3F2EFF2F231; 0xDB484BE3ABE3E3A8; 0xB62AE25B715B5BB9; 0x0D9234881A8888BC;
    0x29C8A49A529A9A3E; 0x4CBE2D269826260B; 0x64FA8D32C83232BF; 0x7D4AE9B0FAB0B059;
    0xCF6A1BE983E9E9F2; 0x1E33780F3C0F0F77; 0xB7A6E6D573D5D533; 0x1DBA74803A8080F4;
    0x617C99BEC2BEBE27; 0x87DE26CD13CDCDEB; 0x68E4BD34D0343489; 0x90757A483D484832;
    0xE324ABFFDBFFFF54; 0xF48FF77AF57A7A8D; 0x3DEAF4907A909064; 0xBE3EC25F615F5F9D;
    0x40A01D208020203D; 0xD0D56768BD68680F; 0x3472D01A681A1ACA; 0x412C19AE82AEAEB7;
    0x755EC9B4EAB4B47D; 0xA8199A544D5454CE; 0x3BE5EC937693937F; 0x44AA0D228822222F;
    0xC8E907648D646463; 0xFF12DBF1E3F1F12A; 0xE6A2BF73D17373CC; 0x245A901248121282;
    0x805D3A401D40407A; 0x1028400820080848; 0x9BE856C32BC3C395; 0xC57B33EC97ECECDF;
    0xAB9096DB4BDBDB4D; 0x5F1F61A1BEA1A1C0; 0x07831C8D0E8D8D91; 0x7AC9F53DF43D3DC8;
    0x33F1CC976697975B; 0x0000000000000000; 0x83D436CF1BCFCFF9; 0x5687452BAC2B2B6E;
    0xECB39776C57676E1; 0x19B06482328282E6; 0xB1A9FED67FD6D628; 0x3677D81B6C1B1BC3;
    0x775BC1B5EEB5B574; 0x432911AF86AFAFBE; 0xD4DF776AB56A6A1D; 0xA00DBA505D5050EA;
    0x8A4C124509454557; 0xFB18CBF3EBF3F338; 0x60F09D30C03030AD; 0xC3742BEF9BEFEFC4;
    0x7EC3E53FFC3F3FDA; 0xAA1C9255495555C7; 0x591079A2B2A2A2DB; 0xC96503EA8FEAEAE9;
    0xCAEC0F658965656A; 0x6968B9BAD2BABA03; 0x5E93652FBC2F2F4A; 0x9DE74EC027C0C08E;
    0xA181BEDE5FDEDE60; 0x386CE01C701C1CFC; 0xE72EBBFDD3FDFD46; 0x9A64524D294D4D1F;
    0x39E0E49272929276; 0xEABC8F75C97575FA; 0x0C1E300618060636; 0x0998248A128A8AAE;
    0x7940F9B2F2B2B24B; 0xD15963E6BFE6E685; 0x1C36700E380E0E7E; 0x3E63F81F7C1F1FE7;
    0xC4F7376295626255; 0xB5A3EED477D4D43A; 0x4D3229A89AA8A881; 0x31F4C49662969652;
    0xEF3A9BF9C3F9F962; 0x97F666C533C5C5A3; 0x4AB1352594252510; 0xB220F259795959AB;
    0x15AE54842A8484D0; 0xE4A7B772D57272C5; 0x72DDD539E43939EC; 0x98615A4C2D4C4C16;
    0xBC3BCA5E655E5E94; 0xF085E778FD78789F; 0x70D8DD38E03838E5; 0x0586148C0A8C8C98;
    0xBFB2C6D163D1D117; 0x570B41A5AEA5A5E4; 0xD94D43E2AFE2E2A1; 0xC2F82F619961614E;
    0x7B45F1B3F6B3B342; 0x42A5152184212134; 0x25D6949C4A9C9C08; 0x3C66F01E781E1EEE;
    0x8652224311434361; 0x93FC76C73BC7C7B1; 0xE52BB3FCD7FCFC4F; 0x0814200410040424;
    0xA208B251595151E3; 0x2FC7BC995E999925; 0xDAC44F6DA96D6D22; 0x1A39680D340D0D65;
    0xE93583FACFFAFA79; 0xA384B6DF5BDFDF69; 0xFC9BD77EE57E7EA9; 0x48B43D2490242419;
    0x76D7C53BEC3B3BFE; 0x4B3D31AB96ABAB9A; 0x81D13ECE1FCECEF0; 0x2255881144111199;
    0x03890C8F068F8F83; 0x9C6B4A4E254E4E04; 0x7351D1B7E6B7B766; 0xCB600BEB8BEBEBE0;
    0x78CCFD3CF03C3CC1; 0x1FBF7C813E8181FD; 0x35FED4946A949440; 0xF30CEBF7FBF7F71C;
    0x6F67A1B9DEB9B918; 0x265F98134C13138B; 0x589C7D2CB02C2C51; 0xBBB8D6D36BD3D305;
    0xD35C6BE7BBE7E78C; 0xDCCB576EA56E6E39; 0x95F36EC437C4C4AA; 0x060F18030C03031B;
    0xAC138A56455656DC; 0x88491A440D44445E; 0xFE9EDF7FE17F7FA0; 0x4F3721A99EA9A988;
    0x54824D2AA82A2A67; 0x6B6DB1BBD6BBBB0A; 0x9FE246C123C1C187; 0xA602A253515353F1;
    0xA58BAEDC57DCDC72; 0x1627580B2C0B0B53; 0x27D39C9D4E9D9D01; 0xD8C1476CAD6C6C2B;
    0x62F59531C43131A4; 0xE8B98774CD7474F3; 0xF109E3F6FFF6F615; 0x8C430A460546464C;
    0x452609AC8AACACA5; 0x0F973C891E8989B5; 0x2844A014501414B4; 0xDF425BE1A3E1E1BA;
    0x2C4EB016581616A6; 0x74D2CD3AE83A3AF7; 0xD2D06F69B9696906; 0x122D480924090941;
    0xE0ADA770DD7070D7; 0x7154D9B6E2B6B66F; 0xBDB7CED067D0D01E; 0xC77E3BED93EDEDD6;
    0x85DB2ECC17CCCCE2; 0x84572A4215424268; 0x2DC2B4985A98982C; 0x550E49A4AAA4A4ED;
    0x50885D28A0282875; 0xB831DA5C6D5C5C86; 0xED3F93F8C7F8F86B; 0x11A44486228686C2 ].

Definition plain_T2 : list Z :=
  [ 0x78C018601818D830; 0xAF05238C23232646; 0xF97EC63FC6C6B891; 0x6F13E887E8E8FBCD;
    0xA14C87268787CB13; 0x62A9B8DAB8B8116D; 0x0508010401010902; 0x6E424F214F4F0D9E;
    0xEEAD36D836369B6C; 0x0459A6A2A6A6FF51; 0xBDDED26FD2D20CB9; 0x06FBF5F3F5F50EF7;
    0x80EF79F9797996F2; 0xCE5F6FA16F6F30DE; 0xEFFC917E91916D3F; 0x07AA52555252F8A4;
    0xFD27609D606047C0; 0x7689BCCABCBC3565; 0xCDAC9B569B9B372B; 0x8C048E028E8E8A01;
    0x1571A3B6A3A3D25B; 0x3C600C300C0C6C18; 0x8AFF7BF17B7B84F6; 0xE1B535D43535806A;
    0x69E81D741D1DF53A; 0x4753E0A7E0E0B3DD; 0xACF6D77BD7D721B3; 0xED5EC22FC2C29C99;
    0x966D2EB82E2E435C; 0x7A624B314B4B2996; 0x21A3FEDFFEFE5DE1; 0x168257415757D5AE;
    0x41A815541515BD2A; 0xB69F77C17777E8EE; 0xEBA537DC3737926E; 0x567BE5B3E5E59ED7;
    0xD98C9F469F9F1323; 0x17D3F0E7F0F023FD; 0x7F6A4A354A4A2094; 0x959EDA4FDADA44A9;
    0x25FA587D5858A2B0; 0xCA06C903C9C9CF8F; 0x8D5529A429297C52; 0x22500A280A0A5A14;
    0x4FE1B1FEB1B1507F; 0x1A69A0BAA0A0C95D; 0xDA7F6BB16B6B14D6; 0xAB5C852E8585D917;
    0x7381BDCEBDBD3C67; 0x34D25D695D5D8FBA; 0x5080104010109020; 0x03F3F4F7F4F407F5;
    0xC016CB0BCBCBDD8B; 0xC6ED3EF83E3ED37C; 0x1128051405052D0A; 0xE61F6781676778CE;
    0x5373E4B7E4E497D5; 0xBB25279C2727024E; 0x5832411941417382; 0x9D2C8B168B8BA70B;
    0x0151A7A6A7A7F653; 0x94CF7DE97D7DB2FA; 0xFBDC956E95954937; 0x9F8ED847D8D856AD;
    0x308BFBCBFBFB70EB; 0x7123EE9FEEEECDC1; 0x91C77CED7C7CBBF8; 0xE3176685666671CC;
    0x8EA6DD53DDDD7BA7; 0x4BB8175C1717AF2E; 0x460247014747458E; 0xDC849E429E9E1A21;
    0xC51ECA0FCACAD489; 0x99752DB42D2D585A; 0x7991BFC6BFBF2E63; 0x1B38071C07073F0E;
    0x2301AD8EADADAC47; 0x2FEA5A755A5AB0B4; 0xB56C83368383EF1B; 0xFF8533CC3333B666;
    0xF23F639163635CC6; 0x0A10020802021204; 0x3839AA92AAAA9349; 0xA8AF71D97171DEE2;
    0xCF0EC807C8C8C68D; 0x7DC819641919D132; 0x7072493949493B92; 0x9A86D943D9D95FAF;
    0x1DC3F2EFF2F231F9; 0x484BE3ABE3E3A8DB; 0x2AE25B715B5BB9B6; 0x9234881A8888BC0D;
    0xC8A49A529A9A3E29; 0xBE2D269826260B4C; 0xFA8D32C83232BF64; 0x4AE9B0FAB0B0597D;
    0x6A1BE983E9E9F2CF; 0x33780F3C0F0F771E; 0xA6E6D573D5D533B7; 0xBA74803A8080F41D;
    0x7C99BEC2BEBE2761; 0xDE26CD13CDCDEB87; 0xE4BD34D034348968; 0x757A483D48483290;
    0x24ABFFDBFFFF54E3; 0x8FF77AF57A7A8DF4; 0xEAF4907A9090643D; 0x3EC25F615F5F9DBE;
    0xA01D208020203D40; 0xD56768BD68680FD0; 0x72D01A681A1ACA34; 0x2C19AE82AEAEB741;
    0x5EC9B4EAB4B47D75; 0x199A544D5454CEA8; 0xE5EC937693937F3B; 0xAA0D228822222F44;
    0xE907648D646463C8; 0x12DBF1E3F1F12AFF; 0xA2BF73D17373CCE6; 0x5A90124812128224;
    0x5D3A401D40407A80; 0x2840082008084810; 0xE856C32BC3C3959B; 0x7B33EC97ECECDFC5;
    0x9096DB4BDBDB4DAB; 0x1F61A1BEA1A1C05F; 0x831C8D0E8D8D9107; 0xC9F53DF43D3DC87A;
    0xF1CC976697975B33; 0x0000000000000000; 0xD436CF1BCFCFF983; 0x87452BAC2B2B6E56;
    0xB39776C57676E1EC; 0xB06482328282E619; 0xA9FED67FD6D628B1; 0x77D81B6C1B1BC336;
    0x5BC1B5EEB5B57477; 0x2911AF86AFAFBE43; 0xDF776AB56A6A1DD4; 0x0DBA505D5050EAA0;
    0x4C1245094545578A; 0x18CBF3EBF3F338FB; 0xF09D30C03030AD60; 0x742BEF9BEFEFC4C3;
    0xC3E53FFC3F3FDA7E; 0x1C9255495555C7AA; 0x1079A2B2A2A2DB59; 0x6503EA8FEAEAE9C9;
    0xEC0F658965656ACA; 0x68B9BAD2BABA0369; 0x93652FBC2F2F4A5E; 0xE74EC027C0C08E9D;
    0x81BEDE5FDEDE60A1; 0x6CE01C701C1CFC38; 0x2EBBFDD3FDFD46E7; 0x64524D294D4D1F9A;
    0xE0E4927292927639; 0xBC8F75C97575FAEA; 0x1E3006180606360C; 0x98248A128A8AAE09;
    0x40F9B2F2B2B24B79; 0x5963E6BFE6E685D1; 0x36700E380E0E7E1C; 0x63F81F7C1F1FE73E;
    0xF7376295626255C4; 0xA3EED477D4D43AB5; 0x3229A89AA8A8814D; 0xF4C4966296965231;
    0x3A9BF9C3F9F962EF; 0xF666C533C5C5A397; 0xB13525942525104A; 0x20F259795959ABB2;
    0xAE54842A8484D015; 0xA7B772D57272C5E4; 0xDDD539E43939EC72; 0x615A4C2D4C4C1698;
    0x3BCA5E655E5E94BC; 0x85E778FD78789FF0; 0xD8DD38E03838E570; 0x86148C0A8C8C9805;
    0xB2C6D163D1D117BF; 0x0B41A5AEA5A5E457; 0x4D43E2AFE2E2A1D9; 0xF82F619961614EC2;
    0x45F1B3F6B3B3427B; 0xA515218421213442; 0xD6949C4A9C9C0825; 0x66F01E781E1EEE3C;
    0x5222431143436186; 0xFC76C73BC7C7B193; 0x2BB3FCD7FCFC4FE5; 0x1420041004042408;
    0x08B251595151E3A2; 0xC7BC995E9999252F; 0xC44F6DA96D6D22DA; 0x39680D340D0D651A;
    0x3583FACFFAFA79E9; 0x84B6DF5BDFDF69A3; 0x9BD77EE57E7EA9FC; 0xB43D249024241948;
    0xD7C53BEC3B3BFE76; 0x3D31AB96ABAB9A4B; 0xD13ECE1FCECEF081; 0x5588114411119922;
    0x890C8F068F8F8303; 0x6B4A4E254E4E049C; 0x51D1B7E6B7B76673; 0x600BEB8BEBEBE0CB;
    0xCCFD3CF03C3CC178; 0xBF7C813E8181FD1F; 0xFED4946A94944035; 0x0CEBF7FBF7F71CF3;
    0x67A1B9DEB9B9186F; 0x5F98134C13138B26; 0x9C7D2CB02C2C5158; 0xB8D6D36BD3D305BB;
    0x5C6BE7BBE7E78CD3; 0xCB576EA56E6E39DC; 0xF36EC437C4C4AA95; 0x0F18030C03031B06;
    0x138A56455656DCAC; 0x491A440D44445E88; 0x9EDF7FE17F7FA0FE; 0x3721A99EA9A9884F;
    0x824D2AA82A2A6754; 0x6DB1BBD6BBBB0A6B; 0xE246C123C1C1879F; 0x02A253515353F1A6;
    0x8BAEDC57DCDC72A5; 0x27580B2C0B0B5316; 0xD39C9D4E9D9D0127; 0xC1476CAD6C6C2BD8;
    0xF59531C43131A462; 0xB98774CD7474F3E8; 0x09E3F6FFF6F615F1; 0x430A460546464C8C;
    0x2609AC8AACACA545; 0x973C891E8989B50F; 0x44A014501414B428; 0x425BE1A3E1E1BADF;
    0x4EB016581616A62C; 0xD2CD3AE83A3AF774; 0xD06F69B9696906D2; 0x2D48092409094112;
    0xADA770DD7070D7E0; 0x54D9B6E2B6B66F71; 0xB7CED067D0D01EBD; 0x7E3BED93EDEDD6C7;
    0xDB2ECC17CCCCE285; 0x572A421542426884; 0xC2B4985A98982C2D; 0x0E49A4AAA4A4ED55;
    0x885D28A028287550; 0x31DA5C6D5C5C86B8; 0x3F93F8C7F8F86BED; 0xA44486228686C211 ].

Definition plain_T3 : list Z :=
  [ 0xC018601818D83078; 0x05238C23232646AF; 0x7EC63FC6C6B891F9; 0x13E887E8E8FBCD6F;
    0x4C87268787CB13A1; 0xA9B8DAB8B8116D62; 0x0801040101090205; 0x424F214F4F0D9E6E;
    0xAD36D836369B6CEE; 0x59A6A2A6A6FF5104; 0xDED26FD2D20CB9BD; 0xFBF5F3F5F50EF706;
    0xEF79F9797996F280; 0x5F6FA16F6F30DECE; 0xFC917E91916D3FEF; 0xAA52555252F8A407;
    0x27609D606047C0FD; 0x89BCCABCBC356576; 0xAC9B569B9B372BCD; 0x048E028E8E8A018C;
    0x71A3B6A3A3D25B15; 0x600C300C0C6C183C; 0xFF7BF17B7B84F68A; 0xB535D43535806AE1;
    0xE81D741D1DF53A69; 0x53E0A7E0E0B3DD47; 0xF6D77BD7D721B3AC; 0x5EC22FC2C29C99ED;
    0x6D2EB82E2E435C96; 0x624B314B4B29967A; 0xA3FEDFFEFE5DE121; 0x8257415757D5AE16;
    0xA815541515BD2A41; 0x9F77C17777E8EEB6; 0xA537DC3737926EEB; 0x7BE5B3E5E59ED756;
    0x8C9F469F9F1323D9; 0xD3F0E7F0F023FD17; 0x6A4A354A4A20947F; 0x9EDA4FDADA44A995;
    0xFA587D5858A2B025; 0x06C903C9C9CF8FCA; 0x5529A429297C528D; 0x500A280A0A5A1422;
    0xE1B1FEB1B1507F4F; 0x69A0BAA0A0C95D1A; 0x7F6BB16B6B14D6DA; 0x5C852E8585D917AB;
    0x81BDCEBDBD3C6773; 0xD25D695D5D8FBA34; 0x8010401010902050; 0xF3F4F7F4F407F503;
    0x16CB0BCBCBDD8BC0; 0xED3EF83E3ED37CC6; 0x28051405052D0A11; 0x1F6781676778CEE6;
    0x73E4B7E4E497D553; 0x25279C2727024EBB; 0x3241194141738258; 0x2C8B168B8BA70B9D;
    0x51A7A6A7A7F65301; 0xCF7DE97D7DB2FA94; 0xDC956E95954937FB; 0x8ED847D8D856AD9F;
    0x8BFBCBFBFB70EB30; 0x23EE9FEEEECDC171; 0xC77CED7C7CBBF891; 0x176685666671CCE3;
    0xA6DD53DDDD7BA78E; 0xB8175C1717AF2E4B; 0x0247014747458E46; 0x849E429E9E1A21DC;
    0x1ECA0FCACAD489C5; 0x752DB42D2D585A99; 0x91BFC6BFBF2E6379; 0x38071C07073F0E1B;
    0x01AD8EADADAC4723; 0xEA5A755A5AB0B42F; 0x6C83368383EF1BB5; 0x8533CC3333B666FF;
    0x3F639163635CC6F2; 0x100208020212040A; 0x39AA92AAAA934938; 0xAF71D97171DEE2A8;
    0x0EC807C8C8C68DCF; 0xC819641919D1327D; 0x72493949493B9270; 0x86D943D9D95FAF9A;
    0xC3F2EFF2F231F91D; 0x4BE3ABE3E3A8DB48; 0xE25B715B5BB9B62A; 0x34881A8888BC0D92;
    0xA49A529A9A3E29C8; 0x2D269826260B4CBE; 0x8D32C83232BF64FA; 0xE9B0FAB0B0597D4A;
    0x1BE983E9E9F2CF6A; 0x780F3C0F0F771E33; 0xE6D573D5D533B7A6; 0x74803A8080F41DBA;
    0x99BEC2BEBE27617C; 0x26CD13CDCDEB87DE; 0xBD34D034348968E4; 0x7A483D4848329075;
    0xABFFDBFFFF54E324; 0xF77AF57A7A8DF48F; 0xF4907A9090643DEA; 0xC25F615F5F9DBE3E;
    0x1D208020203D40A0; 0x6768BD68680FD0D5; 0xD01A681A1ACA3472; 0x19AE82AEAEB7412C;
    0xC9B4EAB4B47D755E; 0x9A544D5454CEA819; 0xEC937693937F3BE5; 0x0D228822222F44AA;
    0x07648D646463C8E9; 0xDBF1E3F1F12AFF12; 0xBF73D17373CCE6A2; 0x901248121282245A;
    0x3A401D40407A805D; 0x4008200808481028; 0x56C32BC3C3959BE8; 0x33EC97ECECDFC57B;
    0x96DB4BDBDB4DAB90; 0x61A1BEA1A1C05F1F; 0x1C8D0E8D8D910783; 0xF53DF43D3DC87AC9;
    0xCC976697975B33F1; 0x0000000000000000; 0x36CF1BCFCFF983D4; 0x452BAC2B2B6E5687;
    0x9776C57676E1ECB3; 0x6482328282E619B0; 0xFED67FD6D628B1A9; 0xD81B6C1B1BC33677;
    0xC1B5EEB5B574775B; 0x11AF86AFAFBE4329; 0x776AB56A6A1DD4DF; 0xBA505D5050EAA00D;
    0x1245094545578A4C; 0xCBF3EBF3F338FB18; 0x9D30C03030AD60F0; 0x2BEF9BEFEFC4C374;
    0xE53FFC3F3FDA7EC3; 0x9255495555C7AA1C; 0x79A2B2A2A2DB5910; 0x03EA8FEAEAE9C965;
    0x0F658965656ACAEC; 0xB9BAD2BABA036968; 0x652FBC2F2F4A5E93; 0x4EC027C0C08E9DE7;
    0xBEDE5FDEDE60A181; 0xE01C701C1CFC386C; 0xBBFDD3FDFD46E72E; 0x524D294D4D1F9A64;
    0xE4927292927639E0; 0x8F75C97575FAEABC; 0x3006180606360C1E; 0x248A128A8AAE0998;
    0xF9B2F2B2B24B7940; 0x63E6BFE6E685D159; 0x700E380E0E7E1C36; 0xF81F7C1F1FE73E63;
    0x376295626255C4F7; 0xEED477D4D43AB5A3; 0x29A89AA8A8814D32; 0xC4966296965231F4;
    0x9BF9C3F9F962EF3A; 0x66C533C5C5A397F6; 0x3525942525104AB1; 0xF259795959ABB220;
    0x54842A8484D015AE; 0xB772D57272C5E4A7; 0xD539E43939EC72DD; 0x5A4C2D4C4C169861;
    0xCA5E655E5E94BC3B; 0xE778FD78789FF085; 0xDD38E03838E570D8; 0x148C0A8C8C980586;
    0xC6D163D1D117BFB2; 0x41A5AEA5A5E4570B; 0x43E2AFE2E2A1D94D; 0x2F619961614EC2F8;
    0xF1B3F6B3B3427B45; 0x15218421213442A5; 0x949C4A9C9C0825D6; 0xF01E781E1EEE3C66;
    0x2243114343618652; 0x76C73BC7C7B193FC; 0xB3FCD7FCFC4FE52B; 0x2004100404240814;
    0xB251595151E3A208; 0xBC995E9999252FC7; 0x4F6DA96D6D22DAC4; 0x680D340D0D651A39;
    0x83FACFFAFA79E935; 0xB6DF5BDFDF69A384; 0xD77EE57E7EA9FC9B; 0x3D249024241948B4;
    0xC53BEC3B3BFE76D7; 0x31AB96ABAB9A4B3D; 0x3ECE1FCECEF081D1; 0x8811441111992255;
    0x0C8F068F8F830389; 0x4A4E254E4E049C6B; 0xD1B7E6B7B7667351; 0x0BEB8BEBEBE0CB60;
    0xFD3CF03C3CC178CC; 0x7C813E8181FD1FBF; 0xD4946A94944035FE; 0xEBF7FBF7F71CF30C;
    0xA1B9DEB9B9186F67; 0x98134C13138B265F; 0x7D2CB02C2C51589C; 0xD6D36BD3D305BBB8;
    0x6BE7BBE7E78CD35C; 0x576EA56E6E39DCCB; 0x6EC437C4C4AA95F3; 0x18030C03031B060F;
    0x8A56455656DCAC13; 0x1A440D44445E8849; 0xDF7FE17F7FA0FE9E; 0x21A99EA9A9884F37;
    0x4D2AA82A2A675482; 0xB1BBD6BBBB0A6B6D; 0x46C123C1C1879FE2; 0xA253515353F1A602;
    0xAEDC57DCDC72A58B; 0x580B2C0B0B531627; 0x9C9D4E9D9D0127D3; 0x476CAD6C6C2BD8C1;
    0x9531C43131A462F5; 0x8774CD7474F3E8B9; 0xE3F6FFF6F615F109; 0x0A460546464C8C43;
    0x09AC8AACACA54526; 0x3C891E8989B50F97; 0xA014501414B42844; 0x5BE1A3E1E1BADF42;
    0xB016581616A62C4E; 0xCD3AE83A3AF774D2; 0x6F69B9696906D2D0; 0x480924090941122D;
    0xA770DD7070D7E0AD; 0xD9B6E2B6B66F7154; 0xCED067D0D01EBDB7; 0x3BED93EDEDD6C77E;
    0x2ECC17CCCCE285DB; 0x2A42154242688457; 0xB4985A98982C2DC2; 0x49A4AAA4A4ED550E;
    0x5D28A02828755088; 0xDA5C6D5C5C86B831; 0x93F8C7F8F86BED3F; 0x4486228686C211A4 ].

Definition plain_T4 : list Z :=
  [ 0x18601818D83078C0; 0x238C23232646AF05; 0xC63FC6C6B891F97E; 0xE887E8E8FBCD6F13;
    0x87268787CB13A14C; 0xB8DAB8B8116D62A9; 0x0104010109020508; 0x4F214F4F0D9E6E42;
    0x36D836369B6CEEAD; 0xA6A2A6A6FF510459; 0xD26FD2D20CB9BDDE; 0xF5F3F5F50EF706FB;
    0x79F9797996F280EF; 0x6FA16F6F30DECE5F; 0x917E91916D3FEFFC; 0x52555252F8A407AA;
    0x609D606047C0FD27; 0xBCCABCBC35657689; 0x9B569B9B372BCDAC; 0x8E028E8E8A018C04;
    0xA3B6A3A3D25B1571; 0x0C300C0C6C183C60; 0x7BF17B7B84F68AFF; 0x35D43535806AE1B5;
    0x1D741D1DF53A69E8; 0xE0A7E0E0B3DD4753; 0xD77BD7D721B3ACF6; 0xC22FC2C29C99ED5E;
    0x2EB82E2E435C966D; 0x4B314B4B29967A62; 0xFEDFFEFE5DE121A3; 0x57415757D5AE1682;
    0x15541515BD2A41A8; 0x77C17777E8EEB69F; 0x37DC3737926EEBA5; 0xE5B3E5E59ED7567B;
    0x9F469F9F1323D98C; 0xF0E7F0F023FD17D3; 0x4A354A4A20947F6A; 0xDA4FDADA44A9959E;
    0x587D5858A2B025FA; 0xC903C9C9CF8FCA06; 0x29A429297C528D55; 0x0A280A0A5A142250;
    0xB1FEB1B1507F4FE1; 0xA0BAA0A0C95D1A69; 0x6BB16B6B14D6DA7F; 0x852E8585D917AB5C;
    0xBDCEBDBD3C677381; 0x5D695D5D8FBA34D2; 0x1040101090205080; 0xF4F7F4F407F503F3;
    0xCB0BCBCBDD8BC016; 0x3EF83E3ED37CC6ED; 0x051405052D0A1128; 0x6781676778CEE61F;
    0xE4B7E4E497D55373; 0x279C2727024EBB25; 0x4119414173825832; 0x8B168B8BA70B9D2C;
    0xA7A6A7A7F6530151; 0x7DE97D7DB2FA94CF; 0x956E95954937FBDC; 0xD847D8D856AD9F8E;
    0xFBCBFBFB70EB308B; 0xEE9FEEEECDC17123; 0x7CED7C7CBBF891C7; 0x6685666671CCE317;
    0xDD53DDDD7BA78EA6; 0x175C1717AF2E4BB8; 0x47014747458E4602; 0x9E429E9E1A21DC84;
    0xCA0FCACAD489C51E; 0x2DB42D2D585A9975; 0xBFC6BFBF2E637991; 0x071C07073F0E1B38;
    0xAD8EADADAC472301; 0x5A755A5AB0B42FEA; 0x83368383EF1BB56C; 0x33CC3333B666FF85;
    0x639163635CC6F23F; 0x0208020212040A10; 0xAA92AAAA93493839; 0x71D97171DEE2A8AF;
    0xC807C8C8C68DCF0E; 0x19641919D1327DC8; 0x493949493B927072; 0xD943D9D95FAF9A86;
    0xF2EFF2F231F91DC3; 0xE3ABE3E3A8DB484B; 0x5B715B5BB9B62AE2; 0x881A8888BC0D9234;
    0x9A529A9A3E29C8A4; 0x269826260B4CBE2D; 0x32C83232BF64FA8D; 0xB0FAB0B0597D4AE9;
    0xE983E9E9F2CF6A1B; 0x0F3C0F0F771E3378; 0xD573D5D533B7A6E6; 0x803A8080F41DBA74;
    0xBEC2BEBE27617C99; 0xCD13CDCDEB87DE26; 0x34D034348968E4BD; 0x483D48483290757A;
    0xFFDBFFFF54E324AB; 0x7AF57A7A8DF48FF7; 0x907A9090643DEAF4; 0x5F615F5F9DBE3EC2;
    0x208020203D40A01D; 0x68BD68680FD0D567; 0x1A681A1ACA3472D0; 0xAE82AEAEB7412C19;
    0xB4EAB4B47D755EC9; 0x544D5454CEA8199A; 0x937693937F3BE5EC; 0x228822222F44AA0D;
    0x648D646463C8E907; 0xF1E3F1F12AFF12DB; 0x73D17373CCE6A2BF; 0x1248121282245A90;
    0x401D40407A805D3A; 0x0820080848102840; 0xC32BC3C3959BE856; 0xEC97ECECDFC57B33;
    0xDB4BDBDB4DAB9096; 0xA1BEA1A1C05F1F61; 0x8D0E8D8D9107831C; 0x3DF43D3DC87AC9F5;
    0x976697975B33F1CC; 0x0000000000000000; 0xCF1BCFCFF983D436; 0x2BAC2B2B6E568745;
    0x76C57676E1ECB397; 0x82328282E619B064; 0xD67FD6D628B1A9FE; 0x1B6C1B1BC33677D8;
    0xB5EEB5B574775BC1; 0xAF86AFAFBE432911; 0x6AB56A6A1DD4DF77; 0x505D5050EAA00DBA;
    0x45094545578A4C12; 0xF3EBF3F338FB18CB; 0x30C03030AD60F09D; 0xEF9BEFEFC4C3742B;
    0x3FFC3F3FDA7EC3E5; 0x55495555C7AA1C92; 0xA2B2A2A2DB591079; 0xEA8FEAEAE9C96503;
    0x658965656ACAEC0F; 0xBAD2BABA036968B9; 0x2FBC2F2F4A5E9365; 0xC027C0C08E9DE74E;
    0xDE5FDEDE60A181BE; 0x1C701C1CFC386CE0; 0xFDD3FDFD46E72EBB; 0x4D294D4D1F9A6452;
    0x927292927639E0E4; 0x75C97575FAEABC8F; 0x06180606360C1E30; 0x8A128A8AAE099824;
    0xB2F2B2B24B7940F9; 0xE6BFE6E685D15963; 0x0E380E0E7E1C3670; 0x1F7C1F1FE73E63F8;
    0x6295626255C4F737; 0xD477D4D43AB5A3EE; 0xA89AA8A8814D3229; 0x966296965231F4C4;
    0xF9C3F9F962EF3A9B; 0xC533C5C5A397F666; 0x25942525104AB135; 0x59795959ABB220F2;
    0x842A8484D015AE54; 0x72D57272C5E4A7B7; 0x39E43939EC72DDD5; 0x4C2D4C4C1698615A;
    0x5E655E5E94BC3BCA; 0x78FD78789FF085E7; 0x38E03838E570D8DD; 0x8C0A8C8C98058614;
    0xD163D1D117BFB2C6; 0xA5AEA5A5E4570B41; 0xE2AFE2E2A1D94D43; 0x619961614EC2F82F;
    0xB3F6B3B3427B45F1; 0x218421213442A515; 0x9C4A9C9C0825D694; 0x1E781E1EEE3C66F0;
    0x4311434361865222; 0xC73BC7C7B193FC76; 0xFCD7FCFC4FE52BB3; 0x0410040424081420;
    0x51595151E3A208B2; 0x995E9999252FC7BC; 0x6DA96D6D22DAC44F; 0x0D340D0D651A3968;
    0xFACFFAFA79E93583; 0xDF5BDFDF69A384B6; 0x7EE57E7EA9FC9BD7; 0x249024241948B43D;
    0x3BEC3B3BFE76D7C5; 0xAB96ABAB9A4B3D31; 0xCE1FCECEF081D13E; 0x1144111199225588;
    0x8F068F8F8303890C; 0x4E254E4E049C6B4A; 0xB7E6B7B7667351D1; 0xEB8BEBEBE0CB600B;
    0x3CF03C3CC178CCFD; 0x813E8181FD1FBF7C; 0x946A94944035FED4; 0xF7FBF7F71CF30CEB;
    0xB9DEB9B9186F67A1; 0x134C13138B265F98; 0x2CB02C2C51589C7D; 0xD36BD3D305BBB8D6;
    0xE7BBE7E78CD35C6B; 0x6EA56E6E39DCCB57; 0xC437C4C4AA95F36E; 0x030C03031B060F18;
    0x56455656DCAC138A; 0x440D44445E88491A; 0x7FE17F7FA0FE9EDF; 0xA99EA9A9884F3721;
    0x2AA82A2A6754824D; 0xBBD6BBBB0A6B6DB1; 0xC123C1C1879FE246; 0x53515353F1A602A2;
    0xDC57DCDC72A58BAE; 0x0B2C0B0B53162758; 0x9D4E9D9D0127D39C; 0x6CAD6C6C2BD8C147;
    0x31C43131A462F595; 0x74CD7474F3E8B987; 0xF6FFF6F615F109E3; 0x460546464C8C430A;
    0xAC8AACACA5452609; 0x891E8989B50F973C; 0x14501414B42844A0; 0xE1A3E1E1BADF425B;
    0x16581616A62C4EB0; 0x3AE83A3AF774D2CD; 0x69B9696906D2D06F; 0x0924090941122D48;
    0x70DD7070D7E0ADA7; 0xB6E2B6B66F7154D9; 0xD067D0D01EBDB7CE; 0xED93EDEDD6C77E3B;
    0xCC17CCCCE285DB2E; 0x421542426884572A; 0x985A98982C2DC2B4; 0xA4AAA4A4ED550E49;
    0x28A028287550885D; 0x5C6D5C5C86B831DA; 0xF8C7F8F86BED3F93; 0x86228686C211A444 ].

Definition plain_T5 : list Z :=
  [ 0x601818D83078C018; 0x8C23232646AF0523; 0x3FC6C6B891F97EC6; 0x87E8E8FBCD6F13E8;
    0x268787CB13A14C87; 0xDAB8B8116D62A9B8; 0x0401010902050801; 0x214F4F0D9E6E424F;
    0xD836369B6CEEAD36; 0xA2A6A6FF510459A6; 0x6FD2D20CB9BDDED2; 0xF3F5F50EF706FBF5;
    0xF9797996F280EF79; 0xA16F6F30DECE5F6F; 0x7E91916D3FEFFC91; 0x555252F8A407AA52;
    0x9D606047C0FD2760; 0xCABCBC35657689BC; 0x569B9B372BCDAC9B; 0x028E8E8A018C048E;
    0xB6A3A3D25B1571A3; 0x300C0C6C183C600C; 0xF17B7B84F68AFF7B; 0xD43535806AE1B535;
    0x741D1DF53A69E81D; 0xA7E0E0B3DD4753E0; 0x7BD7D721B3ACF6D7; 0x2FC2C29C99ED5EC2;
    0xB82E2E435C966D2E; 0x314B4B29967A624B; 0xDFFEFE5DE121A3FE; 0x415757D5AE168257;
    0x541515BD2A41A815; 0xC17777E8EEB69F77; 0xDC3737926EEBA537; 0xB3E5E59ED7567BE5;
    0x469F9F1323D98C9F; 0xE7F0F023FD17D3F0; 0x354A4A20947F6A4A; 0x4FDADA44A9959EDA;
    0x7D5858A2B025FA58; 0x03C9C9CF8FCA06C9; 0xA429297C528D5529; 0x280A0A5A1422500A;
    0xFEB1B1507F4FE1B1; 0xBAA0A0C95D1A69A0; 0xB16B6B14D6DA7F6B; 0x2E8585D917AB5C85;
    0xCEBDBD3C677381BD; 0x695D5D8FBA34D25D; 0x4010109020508010; 0xF7F4F407F503F3F4;
    0x0BCBCBDD8BC016CB; 0xF83E3ED37CC6ED3E; 0x1405052D0A112805; 0x81676778CEE61F67;
    0xB7E4E497D55373E4; 0x9C2727024EBB2527; 0x1941417382583241; 0x168B8BA70B9D2C8B;
    0xA6A7A7F6530151A7; 0xE97D7DB2FA94CF7D; 0x6E95954937FBDC95; 0x47D8D856AD9F8ED8;
    0xCBFBFB70EB308BFB; 0x9FEEEECDC17123EE; 0xED7C7CBBF891C77C; 0x85666671CCE31766;
    0x53DDDD7BA78EA6DD; 0x5C1717AF2E4BB817; 0x014747458E460247; 0x429E9E1A21DC849E;
    0x0FCACAD489C51ECA; 0xB42D2D585A99752D; 0xC6BFBF2E637991BF; 0x1C07073F0E1B3807;
    0x8EADADAC472301AD; 0x755A5AB0B42FEA5A; 0x368383EF1BB56C83; 0xCC3333B666FF8533;
    0x9163635CC6F23F63; 0x08020212040A1002; 0x92AAAA93493839AA; 0xD97171DEE2A8AF71;
    0x07C8C8C68DCF0EC8; 0x641919D1327DC819; 0x3949493B92707249; 0x43D9D95FAF9A86D9;
    0xEFF2F231F91DC3F2; 0xABE3E3A8DB484BE3; 0x715B5BB9B62AE25B; 0x1A8888BC0D923488;
    0x529A9A3E29C8A49A; 0x9826260B4CBE2D26; 0xC83232BF64FA8D32; 0xFAB0B0597D4AE9B0;
    0x83E9E9F2CF6A1BE9; 0x3C0F0F771E33780F; 0x73D5D533B7A6E6D5; 0x3A8080F41DBA7480;
    0xC2BEBE27617C99BE; 0x13CDCDEB87DE26CD; 0xD034348968E4BD34; 0x3D48483290757A48;
    0xDBFFFF54E324ABFF; 0xF57A7A8DF48FF77A; 0x7A9090643DEAF490; 0x615F5F9DBE3EC25F;
    0x8020203D40A01D20; 0xBD68680FD0D56768; 0x681A1ACA3472D01A; 0x82AEAEB7412C19AE;
    0xEAB4B47D755EC9B4; 0x4D5454CEA8199A54; 0x7693937F3BE5EC93; 0x8822222F44AA0D22;
    0x8D646463C8E90764; 0xE3F1F12AFF12DBF1; 0xD17373CCE6A2BF73; 0x48121282245A9012;
    0x1D40407A805D3A40; 0x2008084810284008; 0x2BC3C3959BE856C3; 0x97ECECDFC57B33EC;
    0x4BDBDB4DAB9096DB; 0xBEA1A1C05F1F61A1; 0x0E8D8D9107831C8D; 0xF43D3DC87AC9F53D;
    0x6697975B33F1CC97; 0x0000000000000000; 0x1BCFCFF983D436CF; 0xAC2B2B6E5687452B;
    0xC57676E1ECB39776; 0x328282E619B06482; 0x7FD6D628B1A9FED6; 0x6C1B1BC33677D81B;
    0xEEB5B574775BC1B5; 0x86AFAFBE432911AF; 0xB56A6A1DD4DF776A; 0x5D5050EAA00DBA50;
    0x094545578A4C1245; 0xEBF3F338FB18CBF3; 0xC03030AD60F09D30; 0x9BEFEFC4C3742BEF;
    0xFC3F3FDA7EC3E53F; 0x495555C7AA1C9255; 0xB2A2A2DB591079A2; 0x8FEAEAE9C96503EA;
    0x8965656ACAEC0F65; 0xD2BABA036968B9BA; 0xBC2F2F4A5E93652F; 0x27C0C08E9DE74EC0;
    0x5FDEDE60A181BEDE; 0x701C1CFC386CE01C; 0xD3FDFD46E72EBBFD; 0x294D4D1F9A64524D;
    0x7292927639E0E492; 0xC97575FAEABC8F75; 0x180606360C1E3006; 0x128A8AAE0998248A;
    0xF2B2B24B7940F9B2; 0xBFE6E685D15963E6; 0x380E0E7E1C36700E; 0x7C1F1FE73E63F81F;
    0x95626255C4F73762; 0x77D4D43AB5A3EED4; 0x9AA8A8814D3229A8; 0x6296965231F4C496;
    0xC3F9F962EF3A9BF9; 0x33C5C5A397F666C5; 0x942525104AB13525; 0x795959ABB220F259;
    0x2A8484D015AE5484; 0xD57272C5E4A7B772; 0xE43939EC72DDD539; 0x2D4C4C1698615A4C;
    0x655E5E94BC3BCA5E; 0xFD78789FF085E778; 0xE03838E570D8DD38; 0x0A8C8C980586148C;
    0x63D1D117BFB2C6D1; 0xAEA5A5E4570B41A5; 0xAFE2E2A1D94D43E2; 0x9961614EC2F82F61;
    0xF6B3B3427B45F1B3; 0x8421213442A51521; 0x4A9C9C0825D6949C; 0x781E1EEE3C66F01E;
    0x1143436186522243; 0x3BC7C7B193FC76C7; 0xD7FCFC4FE52BB3FC; 0x1004042408142004;
    0x595151E3A208B251; 0x5E9999252FC7BC99; 0xA96D6D22DAC44F6D; 0x340D0D651A39680D;
    0xCFFAFA79E93583FA; 0x5BDFDF69A384B6DF; 0xE57E7EA9FC9BD77E; 0x9024241948B43D24;
    0xEC3B3BFE76D7C53B; 0x96ABAB9A4B3D31AB; 0x1FCECEF081D13ECE; 0x4411119922558811;
    0x068F8F8303890C8F; 0x254E4E049C6B4A4E; 0xE6B7B7667351D1B7; 0x8BEBEBE0CB600BEB;
    0xF03C3CC178CCFD3C; 0x3E8181FD1FBF7C81; 0x6A94944035FED494; 0xFBF7F71CF30CEBF7;
    0xDEB9B9186F67A1B9; 0x4C13138B265F9813; 0xB02C2C51589C7D2C; 0x6BD3D305BBB8D6D3;
    0xBBE7E78CD35C6BE7; 0xA56E6E39DCCB576E; 0x37C4C4AA95F36EC4; 0x0C03031B060F1803;
    0x455656DCAC138A56; 0x0D44445E88491A44; 0xE17F7FA0FE9EDF7F; 0x9EA9A9884F3721A9;
    0xA82A2A6754824D2A; 0xD6BBBB0A6B6DB1BB; 0x23C1C1879FE246C1; 0x515353F1A602A253;
    0x57DCDC72A58BAEDC; 0x2C0B0B531627580B; 0x4E9D9D0127D39C9D; 0xAD6C6C2BD8C1476C;
    0xC43131A462F59531; 0xCD7474F3E8B98774; 0xFFF6F615F109E3F6; 0x0546464C8C430A46;
    0x8AACACA5452609AC; 0x1E8989B50F973C89; 0x501414B42844A014; 0xA3E1E1BADF425BE1;
    0x581616A62C4EB016; 0xE83A3AF774D2CD3A; 0xB9696906D2D06F69; 0x24090941122D4809;
    0xDD7070D7E0ADA770; 0xE2B6B66F7154D9B6; 0x67D0D01EBDB7CED0; 0x93EDEDD6C77E3BED;
    0x17CCCCE285DB2ECC; 0x1542426884572A42; 0x5A98982C2DC2B498; 0xAAA4A4ED550E49A4;
    0xA028287550885D28; 0x6D5C5C86B831DA5C; 0xC7F8F86BED3F93F8; 0x228686C211A44486 ].

Definition plain_T6 : list Z :=
  [ 0x1818D83078C01860; 0x23232646AF05238C; 0xC6C6B891F97EC63F; 0xE8E8FBCD6F13E887;
    0x8787CB13A14C8726; 0xB8B8116D62A9B8DA; 0x0101090205080104; 0x4F4F0D9E6E424F21;
    0x36369B6CEEAD36D8; 0xA6A6FF510459A6A2; 0xD2D20CB9BDDED26F; 0xF5F50EF706FBF5F3;
    0x797996F280EF79F9; 0x6F6F30DECE5F6FA1; 0x91916D3FEFFC917E; 0x5252F8A407AA5255;
    0x606047C0FD27609D; 0xBCBC35657689BCCA; 0x9B9B372BCDAC9B56; 0x8E8E8A018C048E02;
    0xA3A3D25B1571A3B6; 0x0C0C6C183C600C30; 0x7B7B84F68AFF7BF1; 0x3535806AE1B535D4;
    0x1D1DF53A69E81D74; 0xE0E0B3DD4753E0A7; 0xD7D721B3ACF6D77B; 0xC2C29C99ED5EC22F;
    0x2E2E435C966D2EB8; 0x4B4B29967A624B31; 0xFEFE5DE121A3FEDF; 0x5757D5AE16825741;
    0x1515BD2A41A81554; 0x7777E8EEB69F77C1; 0x3737926EEBA537DC; 0xE5E59ED7567BE5B3;
    0x9F9F1323D98C9F46; 0xF0F023FD17D3F0E7; 0x4A4A20947F6A4A35; 0xDADA44A9959EDA4F;
    0x5858A2B025FA587D; 0xC9C9CF8FCA06C903; 0x29297C528D5529A4; 0x0A0A5A1422500A28;
    0xB1B1507F4FE1B1FE; 0xA0A0C95D1A69A0BA; 0x6B6B14D6DA7F6BB1; 0x8585D917AB5C852E;
    0xBDBD3C677381BDCE; 0x5D5D8FBA34D25D69; 0x1010902050801040; 0xF4F407F503F3F4F7;
    0xCBCBDD8BC016CB0B; 0x3E3ED37CC6ED3EF8; 0x05052D0A11280514; 0x676778CEE61F6781;
    0xE4E497D55373E4B7; 0x2727024EBB25279C; 0x4141738258324119; 0x8B8BA70B9D2C8B16;
    0xA7A7F6530151A7A6; 0x7D7DB2FA94CF7DE9; 0x95954937FBDC956E; 0xD8D856AD9F8ED847;
    0xFBFB70EB308BFBCB; 0xEEEECDC17123EE9F; 0x7C7CBBF891C77CED; 0x666671CCE3176685;
    0xDDDD7BA78EA6DD53; 0x1717AF2E4BB8175C; 0x4747458E46024701; 0x9E9E1A21DC849E42;
    0xCACAD489C51ECA0F; 0x2D2D585A99752DB4; 0xBFBF2E637991BFC6; 0x07073F0E1B38071C;
    0xADADAC472301AD8E; 0x5A5AB0B42FEA5A75; 0x8383EF1BB56C8336; 0x3333B666FF8533CC;
    0x63635CC6F23F6391; 0x020212040A100208; 0xAAAA93493839AA92; 0x7171DEE2A8AF71D9;
    0xC8C8C68DCF0EC807; 0x1919D1327DC81964; 0x49493B9270724939; 0xD9D95FAF9A86D943;
    0xF2F231F91DC3F2EF; 0xE3E3A8DB484BE3AB; 0x5B5BB9B62AE25B71; 0x8888BC0D9234881A;
    0x9A9A3E29C8A49A52; 0x26260B4CBE2D2698; 0x3232BF64FA8D32C8; 0xB0B0597D4AE9B0FA;
    0xE9E9F2CF6A1BE983; 0x0F0F771E33780F3C; 0xD5D533B7A6E6D573; 0x8080F41DBA74803A;
    0xBEBE27617C99BEC2; 0xCDCDEB87DE26CD13; 0x34348968E4BD34D0; 0x48483290757A483D;
    0xFFFF54E324ABFFDB; 0x7A7A8DF48FF77AF5; 0x9090643DEAF4907A; 0x5F5F9DBE3EC25F61;
    0x20203D40A01D2080; 0x68680FD0D56768BD; 0x1A1ACA3472D01A68; 0xAEAEB7412C19AE82;
    0xB4B47D755EC9B4EA; 0x5454CEA8199A544D; 0x93937F3BE5EC9376; 0x22222F44AA0D2288;
    0x646463C8E907648D; 0xF1F12AFF12DBF1E3; 0x7373CCE6A2BF73D1; 0x121282245A901248;
    0x40407A805D3A401D; 0x0808481028400820; 0xC3C3959BE856C32B; 0xECECDFC57B33EC97;
    0xDBDB4DAB9096DB4B; 0xA1A1C05F1F61A1BE; 0x8D8D9107831C8D0E; 0x3D3DC87AC9F53DF4;
    0x97975B33F1CC9766; 0x0000000000000000; 0xCFCFF983D436CF1B; 0x2B2B6E5687452BAC;
    0x7676E1ECB39776C5; 0x8282E619B0648232; 0xD6D628B1A9FED67F; 0x1B1BC33677D81B6C;
    0xB5B574775BC1B5EE; 0xAFAFBE432911AF86; 0x6A6A1DD4DF776AB5; 0x5050EAA00DBA505D;
    0x4545578A4C124509; 0xF3F338FB18CBF3EB; 0x3030AD60F09D30C0; 0xEFEFC4C3742BEF9B;
    0x3F3FDA7EC3E53FFC; 0x5555C7AA1C925549; 0xA2A2DB591079A2B2; 0xEAEAE9C96503EA8F;
    0x65656ACAEC0F6589; 0xBABA036968B9BAD2; 0x2F2F4A5E93652FBC; 0xC0C08E9DE74EC027;
    0xDEDE60A181BEDE5F; 0x1C1CFC386CE01C70; 0xFDFD46E72EBBFDD3; 0x4D4D1F9A64524D29;
    0x92927639E0E49272; 0x7575FAEABC8F75C9; 0x0606360C1E300618; 0x8A8AAE0998248A12;
    0xB2B24B7940F9B2F2; 0xE6E685D15963E6BF; 0x0E0E7E1C36700E38; 0x1F1FE73E63F81F7C;
    0x626255C4F7376295; 0xD4D43AB5A3EED477; 0xA8A8814D3229A89A; 0x96965231F4C49662;
    0xF9F962EF3A9BF9C3; 0xC5C5A397F666C533; 0x2525104AB1352594; 0x5959ABB220F25979;
    0x8484D015AE54842A; 0x7272C5E4A7B772D5; 0x3939EC72DDD539E4; 0x4C4C1698615A4C2D;
    0x5E5E94BC3BCA5E65; 0x78789FF085E778FD; 0x3838E570D8DD38E0; 0x8C8C980586148C0A;
    0xD1D117BFB2C6D163; 0xA5A5E4570B41A5AE; 0xE2E2A1D94D43E2AF; 0x61614EC2F82F6199;
    0xB3B3427B45F1B3F6; 0x21213442A5152184; 0x9C9C0825D6949C4A; 0x1E1EEE3C66F01E78;
    0x4343618652224311; 0xC7C7B193FC76C73B; 0xFCFC4FE52BB3FCD7; 0x0404240814200410;
    0x5151E3A208B25159; 0x9999252FC7BC995E; 0x6D6D22DAC44F6DA9; 0x0D0D651A39680D34;
    0xFAFA79E93583FACF; 0xDFDF69A384B6DF5B; 0x7E7EA9FC9BD77EE5; 0x24241948B43D2490;
    0x3B3BFE76D7C53BEC; 0xABAB9A4B3D31AB96; 0xCECEF081D13ECE1F; 0x1111992255881144;
    0x8F8F8303890C8F06; 0x4E4E049C6B4A4E25; 0xB7B7667351D1B7E6; 0xEBEBE0CB600BEB8B;
    0x3C3CC178CCFD3CF0; 0x8181FD1FBF7C813E; 0x94944035FED4946A; 0xF7F71CF30CEBF7FB;
    0xB9B9186F67A1B9DE; 0x13138B265F98134C; 0x2C2C51589C7D2CB0; 0xD3D305BBB8D6D36B;
    0xE7E78CD35C6BE7BB; 0x6E6E39DCCB576EA5; 0xC4C4AA95F36EC437; 0x03031B060F18030C;
    0x5656DCAC138A5645; 0x44445E88491A440D; 0x7F7FA0FE9EDF7FE1; 0xA9A9884F3721A99E;
    0x2A2A6754824D2AA8; 0xBBBB0A6B6DB1BBD6; 0xC1C1879FE246C123; 0x5353F1A602A25351;
    0xDCDC72A58BAEDC57; 0x0B0B531627580B2C; 0x9D9D0127D39C9D4E; 0x6C6C2BD8C1476CAD;
    0x3131A462F59531C4; 0x7474F3E8B98774CD; 0xF6F615F109E3F6FF; 0x46464C8C430A4605;
    0xACACA5452609AC8A; 0x8989B50F973C891E; 0x1414B42844A01450; 0xE1E1BADF425BE1A3;
    0x1616A62C4EB01658; 0x3A3AF774D2CD3AE8; 0x696906D2D06F69B9; 0x090941122D480924;
    0x7070D7E0ADA770DD; 0xB6B66F7154D9B6E2; 0xD0D01EBDB7CED067; 0xEDEDD6C77E3BED93;
    0xCCCCE285DB2ECC17; 0x42426884572A4215; 0x98982C2DC2B4985A; 0xA4A4ED550E49A4AA;
    0x28287550885D28A0; 0x5C5C86B831DA5C6D; 0xF8F86BED3F93F8C7; 0x8686C211A4448622 ].

Definition plain_T7 : list Z :=
  [ 0x18D83078C0186018; 0x232646AF05238C23; 0xC6B891F97EC63FC6; 0xE8FBCD6F13E887E8;
    0x87CB13A14C872687; 0xB8116D62A9B8DAB8; 0x0109020508010401; 0x4F0D9E6E424F214F;
    0x369B6CEEAD36D836; 0xA6FF510459A6A2A6; 0xD20CB9BDDED26FD2; 0xF50EF706FBF5F3F5;
    0x7996F280EF79F979; 0x6F30DECE5F6FA16F; 0x916D3FEFFC917E91; 0x52F8A407AA525552;
    0x6047C0FD27609D60; 0xBC35657689BCCABC; 0x9B372BCDAC9B569B; 0x8E8A018C048E028E;
    0xA3D25B1571A3B6A3; 0x0C6C183C600C300C; 0x7B84F68AFF7BF17B; 0x35806AE1B535D435;
    0x1DF53A69E81D741D; 0xE0B3DD4753E0A7E0; 0xD721B3ACF6D77BD7; 0xC29C99ED5EC22FC2;
    0x2E435C966D2EB82E; 0x4B29967A624B314B; 0xFE5DE121A3FEDFFE; 0x57D5AE1682574157;
    0x15BD2A41A8155415; 0x77E8EEB69F77C177; 0x37926EEBA537DC37; 0xE59ED7567BE5B3E5;
    0x9F1323D98C9F469F; 0xF023FD17D3F0E7F0; 0x4A20947F6A4A354A; 0xDA44A9959EDA4FDA;
    0x58A2B025FA587D58; 0xC9CF8FCA06C903C9; 0x297C528D5529A429; 0x0A5A1422500A280A;
    0xB1507F4FE1B1FEB1; 0xA0C95D1A69A0BAA0; 0x6B14D6DA7F6BB16B; 0x85D917AB5C852E85;
    0xBD3C677381BDCEBD; 0x5D8FBA34D25D695D; 0x1090205080104010; 0xF407F503F3F4F7F4;
    0xCBDD8BC016CB0BCB; 0x3ED37CC6ED3EF83E; 0x052D0A1128051405; 0x6778CEE61F678167;
    0xE497D55373E4B7E4; 0x27024EBB25279C27; 0x4173825832411941; 0x8BA70B9D2C8B168B;
    0xA7F6530151A7A6A7; 0x7DB2FA94CF7DE97D; 0x954937FBDC956E95; 0xD856AD9F8ED847D8;
    0xFB70EB308BFBCBFB; 0xEECDC17123EE9FEE; 0x7CBBF891C77CED7C; 0x6671CCE317668566;
    0xDD7BA78EA6DD53DD; 0x17AF2E4BB8175C17; 0x47458E4602470147; 0x9E1A21DC849E429E;
    0xCAD489C51ECA0FCA; 0x2D585A99752DB42D; 0xBF2E637991BFC6BF; 0x073F0E1B38071C07;
    0xADAC472301AD8EAD; 0x5AB0B42FEA5A755A; 0x83EF1BB56C833683; 0x33B666FF8533CC33;
    0x635CC6F23F639163; 0x0212040A10020802; 0xAA93493839AA92AA; 0x71DEE2A8AF71D971;
    0xC8C68DCF0EC807C8; 0x19D1327DC8196419; 0x493B927072493949; 0xD95FAF9A86D943D9;
    0xF231F91DC3F2EFF2; 0xE3A8DB484BE3ABE3; 0x5BB9B62AE25B715B; 0x88BC0D9234881A88;
    0x9A3E29C8A49A529A; 0x260B4CBE2D269826; 0x32BF64FA8D32C832; 0xB0597D4AE9B0FAB0;
    0xE9F2CF6A1BE983E9; 0x0F771E33780F3C0F; 0xD533B7A6E6D573D5; 0x80F41DBA74803A80;
    0xBE27617C99BEC2BE; 0xCDEB87DE26CD13CD; 0x348968E4BD34D034; 0x483290757A483D48;
    0xFF54E324ABFFDBFF; 0x7A8DF48FF77AF57A; 0x90643DEAF4907A90; 0x5F9DBE3EC25F615F;
    0x203D40A01D208020; 0x680FD0D56768BD68; 0x1ACA3472D01A681A; 0xAEB7412C19AE82AE;
    0xB47D755EC9B4EAB4; 0x54CEA8199A544D54; 0x937F3BE5EC937693; 0x222F44AA0D228822;
    0x6463C8E907648D64; 0xF12AFF12DBF1E3F1; 0x73CCE6A2BF73D173; 0x1282245A90124812;
    0x407A805D3A401D40; 0x0848102840082008; 0xC3959BE856C32BC3; 0xECDFC57B33EC97EC;
    0xDB4DAB9096DB4BDB; 0xA1C05F1F61A1BEA1; 0x8D9107831C8D0E8D; 0x3DC87AC9F53DF43D;
    0x975B33F1CC976697; 0x0000000000000000; 0xCFF983D436CF1BCF; 0x2B6E5687452BAC2B;
    0x76E1ECB39776C576; 0x82E619B064823282; 0xD628B1A9FED67FD6; 0x1BC33677D81B6C1B;
    0xB574775BC1B5EEB5; 0xAFBE432911AF86AF; 0x6A1DD4DF776AB56A; 0x50EAA00DBA505D50;
    0x45578A4C12450945; 0xF338FB18CBF3EBF3; 0x30AD60F09D30C030; 0xEFC4C3742BEF9BEF;
    0x3FDA7EC3E53FFC3F; 0x55C7AA1C92554955; 0xA2DB591079A2B2A2; 0xEAE9C96503EA8FEA;
    0x656ACAEC0F658965; 0xBA036968B9BAD2BA; 0x2F4A5E93652FBC2F; 0xC08E9DE74EC027C0;
    0xDE60A181BEDE5FDE; 0x1CFC386CE01C701C; 0xFD46E72EBBFDD3FD; 0x4D1F9A64524D294D;
    0x927639E0E4927292; 0x75FAEABC8F75C975; 0x06360C1E30061806; 0x8AAE0998248A128A;
    0xB24B7940F9B2F2B2; 0xE685D15963E6BFE6; 0x0E7E1C36700E380E; 0x1FE73E63F81F7C1F;
    0x6255C4F737629562; 0xD43AB5A3EED477D4; 0xA8814D3229A89AA8; 0x965231F4C4966296;
    0xF962EF3A9BF9C3F9; 0xC5A397F666C533C5; 0x25104AB135259425; 0x59ABB220F2597959;
    0x84D015AE54842A84; 0x72C5E4A7B772D572; 0x39EC72DDD539E439; 0x4C1698615A4C2D4C;
    0x5E94BC3BCA5E655E; 0x789FF085E778FD78; 0x38E570D8DD38E038; 0x8C980586148C0A8C;
    0xD117BFB2C6D163D1; 0xA5E4570B41A5AEA5; 0xE2A1D94D43E2AFE2; 0x614EC2F82F619961;
    0xB3427B45F1B3F6B3; 0x213442A515218421; 0x9C0825D6949C4A9C; 0x1EEE3C66F01E781E;
    0x4361865222431143; 0xC7B193FC76C73BC7; 0xFC4FE52BB3FCD7FC; 0x0424081420041004;
    0x51E3A208B2515951; 0x99252FC7BC995E99; 0x6D22DAC44F6DA96D; 0x0D651A39680D340D;
    0xFA79E93583FACFFA; 0xDF69A384B6DF5BDF; 0x7EA9FC9BD77EE57E; 0x241948B43D249024;
    0x3BFE76D7C53BEC3B; 0xAB9A4B3D31AB96AB; 0xCEF081D13ECE1FCE; 0x1199225588114411;
    0x8F8303890C8F068F; 0x4E049C6B4A4E254E; 0xB7667351D1B7E6B7; 0xEBE0CB600BEB8BEB;
    0x3CC178CCFD3CF03C; 0x81FD1FBF7C813E81; 0x944035FED4946A94; 0xF71CF30CEBF7FBF7;
    0xB9186F67A1B9DEB9; 0x138B265F98134C13; 0x2C51589C7D2CB02C; 0xD305BBB8D6D36BD3;
    0xE78CD35C6BE7BBE7; 0x6E39DCCB576EA56E; 0xC4AA95F36EC437C4; 0x031B060F18030C03;
    0x56DCAC138A564556; 0x445E88491A440D44; 0x7FA0FE9EDF7FE17F; 0xA9884F3721A99EA9;
    0x2A6754824D2AA82A; 0xBB0A6B6DB1BBD6BB; 0xC1879FE246C123C1; 0x53F1A602A2535153;
    0xDC72A58BAEDC57DC; 0x0B531627580B2C0B; 0x9D0127D39C9D4E9D; 0x6C2BD8C1476CAD6C;
    0x31A462F59531C431; 0x74F3E8B98774CD74; 0xF615F109E3F6FFF6; 0x464C8C430A460546;
    0xACA5452609AC8AAC; 0x89B50F973C891E89; 0x14B42844A0145014; 0xE1BADF425BE1A3E1;
    0x16A62C4EB0165816; 0x3AF774D2CD3AE83A; 0x6906D2D06F69B969; 0x0941122D48092409;
    0x70D7E0ADA770DD70; 0xB66F7154D9B6E2B6; 0xD01EBDB7CED067D0; 0xEDD6C77E3BED93ED;
    0xCCE285DB2ECC17CC; 0x426884572A421542; 0x982C2DC2B4985A98; 0xA4ED550E49A4AAA4;
    0x287550885D28A028; 0x5C86B831DA5C6D5C; 0xF86BED3F93F8C7F8; 0x86C211A444862286 ].

Definition plain_RC : list Z :=
  [ 0x4F01B887E8C62318; 0x52916F79F5D2A636; 0x357B0CA38E9BBC60; 0x57FE4B2EC2D7E01D;
    0xDA4AF09FE5377715; 0x856BA0B10A29C958; 0x67053ECBF4105DBD; 0xD8957DA78B4127E4;
    0x9E4717DD667CEEFB; 0x33835AAD07BF2DCA ].

Definition old0_T0 : list Z :=
  [ 0xD50F67D568B86868; 0xB71ECEB7D06DD0D0; 0x60E00B60EB20EBEB; 0x876E45872B7D2B2B;
    0x75327A7548D84848; 0xD3019CD39DBA9D9D; 0xDF1D77DF6ABE6A6A; 0x53977353E431E4E4;
    0x48A84B48E338E3E3; 0x15D27115A3F8A3A3; 0x13DC8A1356FA5656; 0xBFFD7CBF819E8181;
    0x94B2CF947D877D7D; 0x122ADB12F10EF1F1; 0xABD95CAB85928585; 0xDC1A84DC9EBF9E9E;
    0x9C517D9C2C742C2C; 0x8C8A048C8E8F8E8E; 0x859FE78578887878; 0xC5D41EC5CA43CACA;
    0x4BAFB84B17391717; 0x37882137A9E6A9A9; 0xF84E2FF861A36161; 0xA633E6A6D562D5D5;
    0x348FD2345DE75D5D; 0x275358270B1D0B0B; 0x869814868C898C8C; 0xCCC1FDCC3C443C3C;
    0xB6E89FB677997777; 0x08E3B20851F35151; 0xAA2F0DAA22662222; 0x57682A5742C64242;
    0xC3DAE5C33F413F3F; 0x19CE9A1954FC5454; 0x5873325841C34141; 0xBAF474BA809D8080;
    0xDBE22EDBCC49CCCC; 0xA4C244A486978686; 0x4542F145B3C8B3B3; 0x78D8C07818281818;
    0x96436D962E722E2E; 0x16D5821657F95757; 0x1E36301E060A0606; 0xF75537F762A66262;
    0x0307F303F401F4F4; 0xEE9BADEE365A3636; 0xB217C6B2D16ED1D1; 0xDA147FDA6BBD6B6B;
    0x77C3D8771B2D1B1B; 0xEC6A0FEC65AF6565; 0xBCFA8FBC759F7575; 0x5090805010301010;
    0x95449E95DA73DADA; 0x703B727049DB4949; 0xBE0B2DBE266A2626; 0x3A629B3AF916F9F9;
    0xC0DD16C0CB40CBCB; 0xE37117E366AA6666; 0x5C8C6B5CE734E7E7; 0x6803B968BAD3BABA;
    0x2CB7192CAEEFAEAE; 0x0DEABA0D50F05050; 0x07F8AA0752F65252; 0x3D9A313DABE0ABAB;
    0x112D2811050F0505; 0x1723D317F00DF0F0; 0x396568390D170D0D; 0xA2CCBFA273957373;
    0xD7FEC5D73B4D3B3B; 0x14242014040C0404; 0xA03D1DA020602020; 0x215DA321FE1FFEFE;
    0x8E7BA68EDD7ADDDD; 0x060EFB06F502F5F5; 0x5E7DC95EB4C1B4B4; 0x3E9DC23E5FE15F5F;
    0x225A50220A1E0A0A; 0x5B74C15BB5C2B5B5; 0xE78E4EE7C05DC0C0; 0x1AC9691AA0FDA0A0;
    0xA8DEAFA871937171; 0x0BE4410BA5F2A5A5; 0x995875992D772D2D; 0xFD4727FD60A06060;
    0xA7C5B7A772967272; 0xE57FECE593A89393; 0xDDECD5DD394B3939; 0x2848402808180808;
    0xB5EF6CB583988383; 0xA53415A521632121; 0x3186DA315CE45C5C; 0xA1CB4CA187948787;
    0x4F50E14FB1CEB1B1; 0x47B35347E03DE0E0; 0x0000000000000000; 0xE89556E8C358C3C3;
    0x5A82905A12361212; 0xEF6DFCEF91AE9191; 0x98AE24988A838A8A; 0x0A12100A02060202;
    0x6CFCE06C1C241C1C; 0x59856359E637E6E6; 0x4C57124C45CF4545; 0xED9C5EEDC25BC2C2;
    0xF3AA6EF3C451C4C4; 0x2E46BB2EFD1AFDFD; 0x792E9179BFDCBFBF; 0x495E1A4944CC4444;
    0x1FC0611FA1FEA1A1; 0x61165A614CD44C4C; 0xFFB685FF33553333; 0xF6A366F6C552C5C5;
    0xAED054AE84918484; 0xAF2605AF23652323; 0x91BBC7917C847C7C; 0x4A59E94AB0CDB0B0;
    0xB11035B1256F2525; 0x41BDA841153F1515; 0xE180B5E1355F3535; 0xD0066FD069BB6969;
    0x2454AB24FF1CFFFF; 0xFE40D4FE94A19494; 0x641F52644DD74D4D; 0xADD7A7AD70907070;
    0x10DB7910A2FBA2A2; 0x29BE1129AFECAFAF; 0xDEEB26DECD4ACDCD; 0xA928FEA9D667D6D6;
    0xC12B47C16CB46C6C; 0x5166D151B7C4B7B7; 0x3F6B933FF815F8F8; 0x2D41482D091B0909;
    0x1838CB18F308F3F3; 0xE6781FE667A96767; 0x0EED490EA4F1A4A4; 0x65E90365EA23EAEA;
    0x7BDF337BEC29ECEC; 0x546FD954B6C7B6B6; 0xA33AEEA3D461D4D4; 0xBD0CDEBDD26BD2D2;
    0x44B4A044143C1414; 0x66EEF0661E221E1E; 0x42BA5B42E13EE1E1; 0xB4193DB4246C2424;
    0xD8E5DDD838483838; 0xF9B87EF9C657C6C6; 0x904D9690DB70DBDB; 0x7A29627A4BDD4B4B;
    0x8F8DF78F7A8E7A7A; 0xD2F7CDD23A4E3A3A; 0x8160BE81DE7FDEDE; 0x3B94CA3B5EE25E5E;
    0x8469B684DF7CDFDF; 0xFB49DCFB95A29595; 0x2B4FB32BFC19FCFC; 0x38933938AAE3AAAA;
    0xAC21F6ACD764D7D7; 0xD1F03ED1CE4FCECE; 0x1B3F381B07090707; 0x337778330F110F0F;
    0xC9C8F5C93D473D3D; 0x25A2FA2558E85858; 0xC83EA4C89AB39A9A; 0xC22CB4C298B59898;
    0xD60894D69CB99C9C; 0x1D31C31DF20BF2F2; 0x01F65101A7F4A7A7; 0x5599885511331111;
    0x9BA9D79B7E827E7E; 0x9DA72C9D8B808B8B; 0x5261225243C54343; 0x0F1B180F03050303;
    0x4DA1434DE23BE2E2; 0x8B72AE8BDC79DCDC; 0x569E7B56E532E5E5; 0x404BF940B2CBB2B2;
    0x6B044A6B4ED24E4E; 0xFCB176FCC754C7C7; 0xC4224FC46DB76D6D; 0x6AF21B6AE926E9E9;
    0xBB0225BB27692727; 0x5D7A3A5D40C04040; 0x9F568E9FD875D8D8; 0xEB92A5EB37593737;
    0xE076E4E092AB9292; 0x89830C898F8C8F8F; 0x0509080501030101; 0x69F5E8691D271D1D;
    0x02F1A20253F55353; 0xC6D3EDC63E423E3E; 0x20ABF22059EB5959; 0xE28746E2C15EC1C1;
    0x6E0D426E4FD14F4F; 0xFABF8DFA32563232; 0x4EA6B04E163A1616; 0x35798335FA13FAFA;
    0xB9F387B9749C7474; 0x30708B30FB10FBFB; 0xF25C3FF263A56363; 0xD9138CD99FBC9F9F;
    0xE489BDE4345C3434; 0x72CAD0721A2E1A1A; 0x82674D822A7E2A2A; 0x2FB0EA2F5AEE5A5A;
    0x83911C838D8A8D8D; 0xCACF06CAC946C9C9; 0xD4F936D4CF4CCFCF; 0x0915E309F607F6F6;
    0xEA64F4EA90AD9090; 0x88755D8828782828; 0x92BC349288858888; 0xCD37ACCD9BB09B9B;
    0xF5A495F531533131; 0x367E70360E120E0E; 0x733C8173BDDABDBD; 0x7F206A7F4ADE4A4A;
    0x6FFB136FE825E8E8; 0xF452C4F496A79696; 0x04FF5904A6F7A6A6; 0x3C6C603C0C140C0C;
    0xCFC60ECFC845C8C8; 0x8096EF80798B7979; 0x76358976BCD9BCBC; 0x7C27997CBEDFBEBE;
    0x74C42B74EF2CEFEF; 0xCB3957CB6EB26E6E; 0x434C0A4346CA4646; 0xF15BCCF197A49797;
    0x2AB9E22A5BED5B5B; 0x7ED63B7EED2AEDED; 0x7DD1C87D192B1919; 0x9A5F869AD976D9D9;
    0x26A50926ACE9ACAC; 0xC725BCC799B69999; 0x32812932A8E5A8A8; 0x8D7C558D297B2929;
    0xE96307E964AC6464; 0x63E7F8631F211F1F; 0x23AC0123ADEAADAD; 0x1CC7921C55FF5555;
    0x5F8B985F13351313; 0x6D0AB16DBBD0BBBB; 0x0C1CEB0CF704F7F7; 0xCE305FCE6FB16F6F;
    0x6718A167B9D6B9B9; 0x4645024647C94747; 0x934A65932F712F2F; 0x71CD2371EE2FEEEE;
    0x6211A962B8D5B8B8; 0x8A84FF8A7B8D7B7B; 0x97B53C9789868989; 0xF0AD9DF030503030;
    0xB805D6B8D368D3D3; 0x9EA0DF9E7F817F7F; 0xB3E197B3769A7676; 0xB0E664B0829B8282 ].

Definition old0_T1 : list Z :=
  [ 0x0F67D568B86868D5; 0x1ECEB7D06DD0D0B7; 0xE00B60EB20EBEB60; 0x6E45872B7D2B2B87;
    0x327A7548D8484875; 0x019CD39DBA9D9DD3; 0x1D77DF6ABE6A6ADF; 0x977353E431E4E453;
    0xA84B48E338E3E348; 0xD27115A3F8A3A315; 0xDC8A1356FA565613; 0xFD7CBF819E8181BF;
    0xB2CF947D877D7D94; 0x2ADB12F10EF1F112; 0xD95CAB85928585AB; 0x1A84DC9EBF9E9EDC;
    0x517D9C2C742C2C9C; 0x8A048C8E8F8E8E8C; 0x9FE7857888787885; 0xD41EC5CA43CACAC5;
    0xAFB84B173917174B; 0x882137A9E6A9A937; 0x4E2FF861A36161F8; 0x33E6A6D562D5D5A6;
    0x8FD2345DE75D5D34; 0x5358270B1D0B0B27; 0x9814868C898C8C86; 0xC1FDCC3C443C3CCC;
    0xE89FB677997777B6; 0xE3B20851F3515108; 0x2F0DAA22662222AA; 0x682A5742C6424257;
    0xDAE5C33F413F3FC3; 0xCE9A1954FC545419; 0x73325841C3414158; 0xF474BA809D8080BA;
    0xE22EDBCC49CCCCDB; 0xC244A486978686A4; 0x42F145B3C8B3B345; 0xD8C0781828181878;
    0x436D962E722E2E96; 0xD5821657F9575716; 0x36301E060A06061E; 0x5537F762A66262F7;
    0x07F303F401F4F403; 0x9BADEE365A3636EE; 0x17C6B2D16ED1D1B2; 0x147FDA6BBD6B6BDA;
    0xC3D8771B2D1B1B77; 0x6A0FEC65AF6565EC; 0xFA8FBC759F7575BC; 0x9080501030101050;
    0x449E95DA73DADA95; 0x3B727049DB494970; 0x0B2DBE266A2626BE; 0x629B3AF916F9F93A;
    0xDD16C0CB40CBCBC0; 0x7117E366AA6666E3; 0x8C6B5CE734E7E75C; 0x03B968BAD3BABA68;
    0xB7192CAEEFAEAE2C; 0xEABA0D50F050500D; 0xF8AA0752F6525207; 0x9A313DABE0ABAB3D;
    0x2D2811050F050511; 0x23D317F00DF0F017; 0x6568390D170D0D39; 0xCCBFA273957373A2;
    0xFEC5D73B4D3B3BD7; 0x242014040C040414; 0x3D1DA020602020A0; 0x5DA321FE1FFEFE21;
    0x7BA68EDD7ADDDD8E; 0x0EFB06F502F5F506; 0x7DC95EB4C1B4B45E; 0x9DC23E5FE15F5F3E;
    0x5A50220A1E0A0A22; 0x74C15BB5C2B5B55B; 0x8E4EE7C05DC0C0E7; 0xC9691AA0FDA0A01A;
    0xDEAFA871937171A8; 0xE4410BA5F2A5A50B; 0x5875992D772D2D99; 0x4727FD60A06060FD;
    0xC5B7A772967272A7; 0x7FECE593A89393E5; 0xECD5DD394B3939DD; 0x4840280818080828;
    0xEF6CB583988383B5; 0x3415A521632121A5; 0x86DA315CE45C5C31; 0xCB4CA187948787A1;
    0x50E14FB1CEB1B14F; 0xB35347E03DE0E047; 0x0000000000000000; 0x9556E8C358C3C3E8;
    0x82905A123612125A; 0x6DFCEF91AE9191EF; 0xAE24988A838A8A98; 0x12100A020602020A;
    0xFCE06C1C241C1C6C; 0x856359E637E6E659; 0x57124C45CF45454C; 0x9C5EEDC25BC2C2ED;
    0xAA6EF3C451C4C4F3; 0x46BB2EFD1AFDFD2E; 0x2E9179BFDCBFBF79; 0x5E1A4944CC444449;
    0xC0611FA1FEA1A11F; 0x165A614CD44C4C61; 0xB685FF33553333FF; 0xA366F6C552C5C5F6;
    0xD054AE84918484AE; 0x2605AF23652323AF; 0xBBC7917C847C7C91; 0x59E94AB0CDB0B04A;
    0x1035B1256F2525B1; 0xBDA841153F151541; 0x80B5E1355F3535E1; 0x066FD069BB6969D0;
    0x54AB24FF1CFFFF24; 0x40D4FE94A19494FE; 0x1F52644DD74D4D64; 0xD7A7AD70907070AD;
    0xDB7910A2FBA2A210; 0xBE1129AFECAFAF29; 0xEB26DECD4ACDCDDE; 0x28FEA9D667D6D6A9;
    0x2B47C16CB46C6CC1; 0x66D151B7C4B7B751; 0x6B933FF815F8F83F; 0x41482D091B09092D;
    0x38CB18F308F3F318; 0x781FE667A96767E6; 0xED490EA4F1A4A40E; 0xE90365EA23EAEA65;
    0xDF337BEC29ECEC7B; 0x6FD954B6C7B6B654; 0x3AEEA3D461D4D4A3; 0x0CDEBDD26BD2D2BD;
    0xB4A044143C141444; 0xEEF0661E221E1E66; 0xBA5B42E13EE1E142; 0x193DB4246C2424B4;
    0xE5DDD838483838D8; 0xB87EF9C657C6C6F9; 0x4D9690DB70DBDB90; 0x29627A4BDD4B4B7A;
    0x8DF78F7A8E7A7A8F; 0xF7CDD23A4E3A3AD2; 0x60BE81DE7FDEDE81; 0x94CA3B5EE25E5E3B;
    0x69B684DF7CDFDF84; 0x49DCFB95A29595FB; 0x4FB32BFC19FCFC2B; 0x933938AAE3AAAA38;
    0x21F6ACD764D7D7AC; 0xF03ED1CE4FCECED1; 0x3F381B070907071B; 0x7778330F110F0F33;
    0xC8F5C93D473D3DC9; 0xA2FA2558E8585825; 0x3EA4C89AB39A9AC8; 0x2CB4C298B59898C2;
    0x0894D69CB99C9CD6; 0x31C31DF20BF2F21D; 0xF65101A7F4A7A701; 0x9988551133111155;
    0xA9D79B7E827E7E9B; 0xA72C9D8B808B8B9D; 0x61225243C5434352; 0x1B180F030503030F;
    0xA1434DE23BE2E24D; 0x72AE8BDC79DCDC8B; 0x9E7B56E532E5E556; 0x4BF940B2CBB2B240;
    0x044A6B4ED24E4E6B; 0xB176FCC754C7C7FC; 0x224FC46DB76D6DC4; 0xF21B6AE926E9E96A;
    0x0225BB27692727BB; 0x7A3A5D40C040405D; 0x568E9FD875D8D89F; 0x92A5EB37593737EB;
    0x76E4E092AB9292E0; 0x830C898F8C8F8F89; 0x0908050103010105; 0xF5E8691D271D1D69;
    0xF1A20253F5535302; 0xD3EDC63E423E3EC6; 0xABF22059EB595920; 0x8746E2C15EC1C1E2;
    0x0D426E4FD14F4F6E; 0xBF8DFA32563232FA; 0xA6B04E163A16164E; 0x798335FA13FAFA35;
    0xF387B9749C7474B9; 0x708B30FB10FBFB30; 0x5C3FF263A56363F2; 0x138CD99FBC9F9FD9;
    0x89BDE4345C3434E4; 0xCAD0721A2E1A1A72; 0x674D822A7E2A2A82; 0xB0EA2F5AEE5A5A2F;
    0x911C838D8A8D8D83; 0xCF06CAC946C9C9CA; 0xF936D4CF4CCFCFD4; 0x15E309F607F6F609;
    0x64F4EA90AD9090EA; 0x755D882878282888; 0xBC34928885888892; 0x37ACCD9BB09B9BCD;
    0xA495F531533131F5; 0x7E70360E120E0E36; 0x3C8173BDDABDBD73; 0x206A7F4ADE4A4A7F;
    0xFB136FE825E8E86F; 0x52C4F496A79696F4; 0xFF5904A6F7A6A604; 0x6C603C0C140C0C3C;
    0xC60ECFC845C8C8CF; 0x96EF80798B797980; 0x358976BCD9BCBC76; 0x27997CBEDFBEBE7C;
    0xC42B74EF2CEFEF74; 0x3957CB6EB26E6ECB; 0x4C0A4346CA464643; 0x5BCCF197A49797F1;
    0xB9E22A5BED5B5B2A; 0xD63B7EED2AEDED7E; 0xD1C87D192B19197D; 0x5F869AD976D9D99A;
    0xA50926ACE9ACAC26; 0x25BCC799B69999C7; 0x812932A8E5A8A832; 0x7C558D297B29298D;
    0x6307E964AC6464E9; 0xE7F8631F211F1F63; 0xAC0123ADEAADAD23; 0xC7921C55FF55551C;
    0x8B985F133513135F; 0x0AB16DBBD0BBBB6D; 0x1CEB0CF704F7F70C; 0x305FCE6FB16F6FCE;
    0x18A167B9D6B9B967; 0x45024647C9474746; 0x4A65932F712F2F93; 0xCD2371EE2FEEEE71;
    0x11A962B8D5B8B862; 0x84FF8A7B8D7B7B8A; 0xB53C978986898997; 0xAD9DF030503030F0;
    0x05D6B8D368D3D3B8; 0xA0DF9E7F817F7F9E; 0xE197B3769A7676B3; 0xE664B0829B8282B0 ].

Definition old0_T2 : list Z :=
  [ 0x67D568B86868D50F; 0xCEB7D06DD0D0B71E; 0x0B60EB20EBEB60E0; 0x45872B7D2B2B876E;
    0x7A7548D848487532; 0x9CD39DBA9D9DD301; 0x77DF6ABE6A6ADF1D; 0x7353E431E4E45397;
    0x4B48E338E3E348A8; 0x7115A3F8A3A315D2; 0x8A1356FA565613DC; 0x7CBF819E8181BFFD;
    0xCF947D877D7D94B2; 0xDB12F10EF1F1122A; 0x5CAB85928585ABD9; 0x84DC9EBF9E9EDC1A;
    0x7D9C2C742C2C9C51; 0x048C8E8F8E8E8C8A; 0xE78578887878859F; 0x1EC5CA43CACAC5D4;
    0xB84B173917174BAF; 0x2137A9E6A9A93788; 0x2FF861A36161F84E; 0xE6A6D562D5D5A633;
    0xD2345DE75D5D348F; 0x58270B1D0B0B2753; 0x14868C898C8C8698; 0xFDCC3C443C3CCCC1;
    0x9FB677997777B6E8; 0xB20851F3515108E3; 0x0DAA22662222AA2F; 0x2A5742C642425768;
    0xE5C33F413F3FC3DA; 0x9A1954FC545419CE; 0x325841C341415873; 0x74BA809D8080BAF4;
    0x2EDBCC49CCCCDBE2; 0x44A486978686A4C2; 0xF145B3C8B3B34542; 0xC0781828181878D8;
    0x6D962E722E2E9643; 0x821657F9575716D5; 0x301E060A06061E36; 0x37F762A66262F755;
    0xF303F401F4F40307; 0xADEE365A3636EE9B; 0xC6B2D16ED1D1B217; 0x7FDA6BBD6B6BDA14;
    0xD8771B2D1B1B77C3; 0x0FEC65AF6565EC6A; 0x8FBC759F7575BCFA; 0x8050103010105090;
    0x9E95DA73DADA9544; 0x727049DB4949703B; 0x2DBE266A2626BE0B; 0x9B3AF916F9F93A62;
    0x16C0CB40CBCBC0DD; 0x17E366AA6666E371; 0x6B5CE734E7E75C8C; 0xB968BAD3BABA6803;
    0x192CAEEFAEAE2CB7; 0xBA0D50F050500DEA; 0xAA0752F6525207F8; 0x313DABE0ABAB3D9A;
    0x2811050F0505112D; 0xD317F00DF0F01723; 0x68390D170D0D3965; 0xBFA273957373A2CC;
    0xC5D73B4D3B3BD7FE; 0x2014040C04041424; 0x1DA020602020A03D; 0xA321FE1FFEFE215D;
    0xA68EDD7ADDDD8E7B; 0xFB06F502F5F5060E; 0xC95EB4C1B4B45E7D; 0xC23E5FE15F5F3E9D;
    0x50220A1E0A0A225A; 0xC15BB5C2B5B55B74; 0x4EE7C05DC0C0E78E; 0x691AA0FDA0A01AC9;
    0xAFA871937171A8DE; 0x410BA5F2A5A50BE4; 0x75992D772D2D9958; 0x27FD60A06060FD47;
    0xB7A772967272A7C5; 0xECE593A89393E57F; 0xD5DD394B3939DDEC; 0x4028081808082848;
    0x6CB583988383B5EF; 0x15A521632121A534; 0xDA315CE45C5C3186; 0x4CA187948787A1CB;
    0xE14FB1CEB1B14F50; 0x5347E03DE0E047B3; 0x0000000000000000; 0x56E8C358C3C3E895;
    0x905A123612125A82; 0xFCEF91AE9191EF6D; 0x24988A838A8A98AE; 0x100A020602020A12;
    0xE06C1C241C1C6CFC; 0x6359E637E6E65985; 0x124C45CF45454C57; 0x5EEDC25BC2C2ED9C;
    0x6EF3C451C4C4F3AA; 0xBB2EFD1AFDFD2E46; 0x9179BFDCBFBF792E; 0x1A4944CC4444495E;
    0x611FA1FEA1A11FC0; 0x5A614CD44C4C6116; 0x85FF33553333FFB6; 0x66F6C552C5C5F6A3;
    0x54AE84918484AED0; 0x05AF23652323AF26; 0xC7917C847C7C91BB; 0xE94AB0CDB0B04A59;
    0x35B1256F2525B110; 0xA841153F151541BD; 0xB5E1355F3535E180; 0x6FD069BB6969D006;
    0xAB24FF1CFFFF2454; 0xD4FE94A19494FE40; 0x52644DD74D4D641F; 0xA7AD70907070ADD7;
    0x7910A2FBA2A210DB; 0x1129AFECAFAF29BE; 0x26DECD4ACDCDDEEB; 0xFEA9D667D6D6A928;
    0x47C16CB46C6CC12B; 0xD151B7C4B7B75166; 0x933FF815F8F83F6B; 0x482D091B09092D41;
    0xCB18F308F3F31838; 0x1FE667A96767E678; 0x490EA4F1A4A40EED; 0x0365EA23EAEA65E9;
    0x337BEC29ECEC7BDF; 0xD954B6C7B6B6546F; 0xEEA3D461D4D4A33A; 0xDEBDD26BD2D2BD0C;
    0xA044143C141444B4; 0xF0661E221E1E66EE; 0x5B42E13EE1E142BA; 0x3DB4246C2424B419;
    0xDDD838483838D8E5; 0x7EF9C657C6C6F9B8; 0x9690DB70DBDB904D; 0x627A4BDD4B4B7A29;
    0xF78F7A8E7A7A8F8D; 0xCDD23A4E3A3AD2F7; 0xBE81DE7FDEDE8160; 0xCA3B5EE25E5E3B94;
    0xB684DF7CDFDF8469; 0xDCFB95A29595FB49; 0xB32BFC19FCFC2B4F; 0x3938AAE3AAAA3893;
    0xF6ACD764D7D7AC21; 0x3ED1CE4FCECED1F0; 0x381B070907071B3F; 0x78330F110F0F3377;
    0xF5C93D473D3DC9C8; 0xFA2558E8585825A2; 0xA4C89AB39A9AC83E; 0xB4C298B59898C22C;
    0x94D69CB99C9CD608; 0xC31DF20BF2F21D31; 0x5101A7F4A7A701F6; 0x8855113311115599;
    0xD79B7E827E7E9BA9; 0x2C9D8B808B8B9DA7; 0x225243C543435261; 0x180F030503030F1B;
    0x434DE23BE2E24DA1; 0xAE8BDC79DCDC8B72; 0x7B56E532E5E5569E; 0xF940B2CBB2B2404B;
    0x4A6B4ED24E4E6B04; 0x76FCC754C7C7FCB1; 0x4FC46DB76D6DC422; 0x1B6AE926E9E96AF2;
    0x25BB27692727BB02; 0x3A5D40C040405D7A; 0x8E9FD875D8D89F56; 0xA5EB37593737EB92;
    0xE4E092AB9292E076; 0x0C898F8C8F8F8983; 0x0805010301010509; 0xE8691D271D1D69F5;
    0xA20253F5535302F1; 0xEDC63E423E3EC6D3; 0xF22059EB595920AB; 0x46E2C15EC1C1E287;
    0x426E4FD14F4F6E0D; 0x8DFA32563232FABF; 0xB04E163A16164EA6; 0x8335FA13FAFA3579;
    0x87B9749C7474B9F3; 0x8B30FB10FBFB3070; 0x3FF263A56363F25C; 0x8CD99FBC9F9FD913;
    0xBDE4345C3434E489; 0xD0721A2E1A1A72CA; 0x4D822A7E2A2A8267; 0xEA2F5AEE5A5A2FB0;
    0x1C838D8A8D8D8391; 0x06CAC946C9C9CACF; 0x36D4CF4CCFCFD4F9; 0xE309F607F6F60915;
    0xF4EA90AD9090EA64; 0x5D88287828288875; 0x34928885888892BC; 0xACCD9BB09B9BCD37;
    0x95F531533131F5A4; 0x70360E120E0E367E; 0x8173BDDABDBD733C; 0x6A7F4ADE4A4A7F20;
    0x136FE825E8E86FFB; 0xC4F496A79696F452; 0x5904A6F7A6A604FF; 0x603C0C140C0C3C6C;
    0x0ECFC845C8C8CFC6; 0xEF80798B79798096; 0x8976BCD9BCBC7635; 0x997CBEDFBEBE7C27;
    0x2B74EF2CEFEF74C4; 0x57CB6EB26E6ECB39; 0x0A4346CA4646434C; 0xCCF197A49797F15B;
    0xE22A5BED5B5B2AB9; 0x3B7EED2AEDED7ED6; 0xC87D192B19197DD1; 0x869AD976D9D99A5F;
    0x0926ACE9ACAC26A5; 0xBCC799B69999C725; 0x2932A8E5A8A83281; 0x558D297B29298D7C;
    0x07E964AC6464E963; 0xF8631F211F1F63E7; 0x0123ADEAADAD23AC; 0x921C55FF55551CC7;
    0x985F133513135F8B; 0xB16DBBD0BBBB6D0A; 0xEB0CF704F7F70C1C; 0x5FCE6FB16F6FCE30;
    0xA167B9D6B9B96718; 0x024647C947474645; 0x65932F712F2F934A; 0x2371EE2FEEEE71CD;
    0xA962B8D5B8B86211; 0xFF8A7B8D7B7B8A84; 0x3C978986898997B5; 0x9DF030503030F0AD;
    0xD6B8D368D3D3B805; 0xDF9E7F817F7F9EA0; 0x97B3769A7676B3E1; 0x64B0829B8282B0E6 ].

Definition old0_T3 : list Z :=
  [ 0xD568B86868D50F67; 0xB7D06DD0D0B71ECE; 0x60EB20EBEB60E00B; 0x872B7D2B2B876E45;
    0x7548D8484875327A; 0xD39DBA9D9DD3019C; 0xDF6ABE6A6ADF1D77; 0x53E431E4E4539773;
    0x48E338E3E348A84B; 0x15A3F8A3A315D271; 0x1356FA565613DC8A; 0xBF819E8181BFFD7C;
    0x947D877D7D94B2CF; 0x12F10EF1F1122ADB; 0xAB85928585ABD95C; 0xDC9EBF9E9EDC1A84;
    0x9C2C742C2C9C517D; 0x8C8E8F8E8E8C8A04; 0x8578887878859FE7; 0xC5CA43CACAC5D41E;
    0x4B173917174BAFB8; 0x37A9E6A9A9378821; 0xF861A36161F84E2F; 0xA6D562D5D5A633E6;
    0x345DE75D5D348FD2; 0x270B1D0B0B275358; 0x868C898C8C869814; 0xCC3C443C3CCCC1FD;
    0xB677997777B6E89F; 0x0851F3515108E3B2; 0xAA22662222AA2F0D; 0x5742C6424257682A;
    0xC33F413F3FC3DAE5; 0x1954FC545419CE9A; 0x5841C34141587332; 0xBA809D8080BAF474;
    0xDBCC49CCCCDBE22E; 0xA486978686A4C244; 0x45B3C8B3B34542F1; 0x781828181878D8C0;
    0x962E722E2E96436D; 0x1657F9575716D582; 0x1E060A06061E3630; 0xF762A66262F75537;
    0x03F401F4F40307F3; 0xEE365A3636EE9BAD; 0xB2D16ED1D1B217C6; 0xDA6BBD6B6BDA147F;
    0x771B2D1B1B77C3D8; 0xEC65AF6565EC6A0F; 0xBC759F7575BCFA8F; 0x5010301010509080;
    0x95DA73DADA95449E; 0x7049DB4949703B72; 0xBE266A2626BE0B2D; 0x3AF916F9F93A629B;
    0xC0CB40CBCBC0DD16; 0xE366AA6666E37117; 0x5CE734E7E75C8C6B; 0x68BAD3BABA6803B9;
    0x2CAEEFAEAE2CB719; 0x0D50F050500DEABA; 0x0752F6525207F8AA; 0x3DABE0ABAB3D9A31;
    0x11050F0505112D28; 0x17F00DF0F01723D3; 0x390D170D0D396568; 0xA273957373A2CCBF;
    0xD73B4D3B3BD7FEC5; 0x14040C0404142420; 0xA020602020A03D1D; 0x21FE1FFEFE215DA3;
    0x8EDD7ADDDD8E7BA6; 0x06F502F5F5060EFB; 0x5EB4C1B4B45E7DC9; 0x3E5FE15F5F3E9DC2;
    0x220A1E0A0A225A50; 0x5BB5C2B5B55B74C1; 0xE7C05DC0C0E78E4E; 0x1AA0FDA0A01AC969;
    0xA871937171A8DEAF; 0x0BA5F2A5A50BE441; 0x992D772D2D995875; 0xFD60A06060FD4727;
    0xA772967272A7C5B7; 0xE593A89393E57FEC; 0xDD394B3939DDECD5; 0x2808180808284840;
    0xB583988383B5EF6C; 0xA521632121A53415; 0x315CE45C5C3186DA; 0xA187948787A1CB4C;
    0x4FB1CEB1B14F50E1; 0x47E03DE0E047B353; 0x0000000000000000; 0xE8C358C3C3E89556;
    0x5A123612125A8290; 0xEF91AE9191EF6DFC; 0x988A838A8A98AE24; 0x0A020602020A1210;
    0x6C1C241C1C6CFCE0; 0x59E637E6E6598563; 0x4C45CF45454C5712; 0xEDC25BC2C2ED9C5E;
    0xF3C451C4C4F3AA6E; 0x2EFD1AFDFD2E46BB; 0x79BFDCBFBF792E91; 0x4944CC4444495E1A;
    0x1FA1FEA1A11FC061; 0x614CD44C4C61165A; 0xFF33553333FFB685; 0xF6C552C5C5F6A366;
    0xAE84918484AED054; 0xAF23652323AF2605; 0x917C847C7C91BBC7; 0x4AB0CDB0B04A59E9;
    0xB1256F2525B11035; 0x41153F151541BDA8; 0xE1355F3535E180B5; 0xD069BB6969D0066F;
    0x24FF1CFFFF2454AB; 0xFE94A19494FE40D4; 0x644DD74D4D641F52; 0xAD70907070ADD7A7;
    0x10A2FBA2A210DB79; 0x29AFECAFAF29BE11; 0xDECD4ACDCDDEEB26; 0xA9D667D6D6A928FE;
    0xC16CB46C6CC12B47; 0x51B7C4B7B75166D1; 0x3FF815F8F83F6B93; 0x2D091B09092D4148;
    0x18F308F3F31838CB; 0xE667A96767E6781F; 0x0EA4F1A4A40EED49; 0x65EA23EAEA65E903;
    0x7BEC29ECEC7BDF33; 0x54B6C7B6B6546FD9; 0xA3D461D4D4A33AEE; 0xBDD26BD2D2BD0CDE;
    0x44143C141444B4A0; 0x661E221E1E66EEF0; 0x42E13EE1E142BA5B; 0xB4246C2424B4193D;
    0xD838483838D8E5DD; 0xF9C657C6C6F9B87E; 0x90DB70DBDB904D96; 0x7A4BDD4B4B7A2962;
    0x8F7A8E7A7A8F8DF7; 0xD23A4E3A3AD2F7CD; 0x81DE7FDEDE8160BE; 0x3B5EE25E5E3B94CA;
    0x84DF7CDFDF8469B6; 0xFB95A29595FB49DC; 0x2BFC19FCFC2B4FB3; 0x38AAE3AAAA389339;
    0xACD764D7D7AC21F6; 0xD1CE4FCECED1F03E; 0x1B070907071B3F38; 0x330F110F0F337778;
    0xC93D473D3DC9C8F5; 0x2558E8585825A2FA; 0xC89AB39A9AC83EA4; 0xC298B59898C22CB4;
    0xD69CB99C9CD60894; 0x1DF20BF2F21D31C3; 0x01A7F4A7A701F651; 0x5511331111559988;
    0x9B7E827E7E9BA9D7; 0x9D8B808B8B9DA72C; 0x5243C54343526122; 0x0F030503030F1B18;
    0x4DE23BE2E24DA143; 0x8BDC79DCDC8B72AE; 0x56E532E5E5569E7B; 0x40B2CBB2B2404BF9;
    0x6B4ED24E4E6B044A; 0xFCC754C7C7FCB176; 0xC46DB76D6DC4224F; 0x6AE926E9E96AF21B;
    0xBB27692727BB0225; 0x5D40C040405D7A3A; 0x9FD875D8D89F568E; 0xEB37593737EB92A5;
    0xE092AB9292E076E4; 0x898F8C8F8F89830C; 0x0501030101050908; 0x691D271D1D69F5E8;
    0x0253F5535302F1A2; 0xC63E423E3EC6D3ED; 0x2059EB595920ABF2; 0xE2C15EC1C1E28746;
    0x6E4FD14F4F6E0D42; 0xFA32563232FABF8D; 0x4E163A16164EA6B0; 0x35FA13FAFA357983;
    0xB9749C7474B9F387; 0x30FB10FBFB30708B; 0xF263A56363F25C3F; 0xD99FBC9F9FD9138C;
    0xE4345C3434E489BD; 0x721A2E1A1A72CAD0; 0x822A7E2A2A82674D; 0x2F5AEE5A5A2FB0EA;
    0x838D8A8D8D83911C; 0xCAC946C9C9CACF06; 0xD4CF4CCFCFD4F936; 0x09F607F6F60915E3;
    0xEA90AD9090EA64F4; 0x882878282888755D; 0x928885888892BC34; 0xCD9BB09B9BCD37AC;
    0xF531533131F5A495; 0x360E120E0E367E70; 0x73BDDABDBD733C81; 0x7F4ADE4A4A7F206A;
    0x6FE825E8E86FFB13; 0xF496A79696F452C4; 0x04A6F7A6A604FF59; 0x3C0C140C0C3C6C60;
    0xCFC845C8C8CFC60E; 0x80798B79798096EF; 0x76BCD9BCBC763589; 0x7CBEDFBEBE7C2799;
    0x74EF2CEFEF74C42B; 0xCB6EB26E6ECB3957; 0x4346CA4646434C0A; 0xF197A49797F15BCC;
    0x2A5BED5B5B2AB9E2; 0x7EED2AEDED7ED63B; 0x7D192B19197DD1C8; 0x9AD976D9D99A5F86;
    0x26ACE9ACAC26A509; 0xC799B69999C725BC; 0x32A8E5A8A8328129; 0x8D297B29298D7C55;
    0xE964AC6464E96307; 0x631F211F1F63E7F8; 0x23ADEAADAD23AC01; 0x1C55FF55551CC792;
    0x5F133513135F8B98; 0x6DBBD0BBBB6D0AB1; 0x0CF704F7F70C1CEB; 0xCE6FB16F6FCE305F;
    0x67B9D6B9B96718A1; 0x4647C94747464502; 0x932F712F2F934A65; 0x71EE2FEEEE71CD23;
    0x62B8D5B8B86211A9; 0x8A7B8D7B7B8A84FF; 0x978986898997B53C; 0xF030503030F0AD9D;
    0xB8D368D3D3B805D6; 0x9E7F817F7F9EA0DF; 0xB3769A7676B3E197; 0xB0829B8282B0E664 ].

Definition old0_T4 : list Z :=
  [ 0x68B86868D50F67D5; 0xD06DD0D0B71ECEB7; 0xEB20EBEB60E00B60; 0x2B7D2B2B876E4587;
    0x48D8484875327A75; 0x9DBA9D9DD3019CD3; 0x6ABE6A6ADF1D77DF; 0xE431E4E453977353;
    0xE338E3E348A84B48; 0xA3F8A3A315D27115; 0x56FA565613DC8A13; 0x819E8181BFFD7CBF;
    0x7D877D7D94B2CF94; 0xF10EF1F1122ADB12; 0x85928585ABD95CAB; 0x9EBF9E9EDC1A84DC;
    0x2C742C2C9C517D9C; 0x8E8F8E8E8C8A048C; 0x78887878859FE785; 0xCA43CACAC5D41EC5;
    0x173917174BAFB84B; 0xA9E6A9A937882137; 0x61A36161F84E2FF8; 0xD562D5D5A633E6A6;
    0x5DE75D5D348FD234; 0x0B1D0B0B27535827; 0x8C898C8C86981486; 0x3C443C3CCCC1FDCC;
    0x77997777B6E89FB6; 0x51F3515108E3B208; 0x22662222AA2F0DAA; 0x42C6424257682A57;
    0x3F413F3FC3DAE5C3; 0x54FC545419CE9A19; 0x41C3414158733258; 0x809D8080BAF474BA;
    0xCC49CCCCDBE22EDB; 0x86978686A4C244A4; 0xB3C8B3B34542F145; 0x1828181878D8C078;
    0x2E722E2E96436D96; 0x57F9575716D58216; 0x060A06061E36301E; 0x62A66262F75537F7;
    0xF401F4F40307F303; 0x365A3636EE9BADEE; 0xD16ED1D1B217C6B2; 0x6BBD6B6BDA147FDA;
    0x1B2D1B1B77C3D877; 0x65AF6565EC6A0FEC; 0x759F7575BCFA8FBC; 0x1030101050908050;
    0xDA73DADA95449E95; 0x49DB4949703B7270; 0x266A2626BE0B2DBE; 0xF916F9F93A629B3A;
    0xCB40CBCBC0DD16C0; 0x66AA6666E37117E3; 0xE734E7E75C8C6B5C; 0xBAD3BABA6803B968;
    0xAEEFAEAE2CB7192C; 0x50F050500DEABA0D; 0x52F6525207F8AA07; 0xABE0ABAB3D9A313D;
    0x050F0505112D2811; 0xF00DF0F01723D317; 0x0D170D0D39656839; 0x73957373A2CCBFA2;
    0x3B4D3B3BD7FEC5D7; 0x040C040414242014; 0x20602020A03D1DA0; 0xFE1FFEFE215DA321;
    0xDD7ADDDD8E7BA68E; 0xF502F5F5060EFB06; 0xB4C1B4B45E7DC95E; 0x5FE15F5F3E9DC23E;
    0x0A1E0A0A225A5022; 0xB5C2B5B55B74C15B; 0xC05DC0C0E78E4EE7; 0xA0FDA0A01AC9691A;
    0x71937171A8DEAFA8; 0xA5F2A5A50BE4410B; 0x2D772D2D99587599; 0x60A06060FD4727FD;
    0x72967272A7C5B7A7; 0x93A89393E57FECE5; 0x394B3939DDECD5DD; 0x0818080828484028;
    0x83988383B5EF6CB5; 0x21632121A53415A5; 0x5CE45C5C3186DA31; 0x87948787A1CB4CA1;
    0xB1CEB1B14F50E14F; 0xE03DE0E047B35347; 0x0000000000000000; 0xC358C3C3E89556E8;
    0x123612125A82905A; 0x91AE9191EF6DFCEF; 0x8A838A8A98AE2498; 0x020602020A12100A;
    0x1C241C1C6CFCE06C; 0xE637E6E659856359; 0x45CF45454C57124C; 0xC25BC2C2ED9C5EED;
    0xC451C4C4F3AA6EF3; 0xFD1AFDFD2E46BB2E; 0xBFDCBFBF792E9179; 0x44CC4444495E1A49;
    0xA1FEA1A11FC0611F; 0x4CD44C4C61165A61; 0x33553333FFB685FF; 0xC552C5C5F6A366F6;
    0x84918484AED054AE; 0x23652323AF2605AF; 0x7C847C7C91BBC791; 0xB0CDB0B04A59E94A;
    0x256F2525B11035B1; 0x153F151541BDA841; 0x355F3535E180B5E1; 0x69BB6969D0066FD0;
    0xFF1CFFFF2454AB24; 0x94A19494FE40D4FE; 0x4DD74D4D641F5264; 0x70907070ADD7A7AD;
    0xA2FBA2A210DB7910; 0xAFECAFAF29BE1129; 0xCD4ACDCDDEEB26DE; 0xD667D6D6A928FEA9;
    0x6CB46C6CC12B47C1; 0xB7C4B7B75166D151; 0xF815F8F83F6B933F; 0x091B09092D41482D;
    0xF308F3F31838CB18; 0x67A96767E6781FE6; 0xA4F1A4A40EED490E; 0xEA23EAEA65E90365;
    0xEC29ECEC7BDF337B; 0xB6C7B6B6546FD954; 0xD461D4D4A33AEEA3; 0xD26BD2D2BD0CDEBD;
    0x143C141444B4A044; 0x1E221E1E66EEF066; 0xE13EE1E142BA5B42; 0x246C2424B4193DB4;
    0x38483838D8E5DDD8; 0xC657C6C6F9B87EF9; 0xDB70DBDB904D9690; 0x4BDD4B4B7A29627A;
    0x7A8E7A7A8F8DF78F; 0x3A4E3A3AD2F7CDD2; 0xDE7FDEDE8160BE81; 0x5EE25E5E3B94CA3B;
    0xDF7CDFDF8469B684; 0x95A29595FB49DCFB; 0xFC19FCFC2B4FB32B; 0xAAE3AAAA38933938;
    0xD764D7D7AC21F6AC; 0xCE4FCECED1F03ED1; 0x070907071B3F381B; 0x0F110F0F33777833;
    0x3D473D3DC9C8F5C9; 0x58E8585825A2FA25; 0x9AB39A9AC83EA4C8; 0x98B59898C22CB4C2;
    0x9CB99C9CD60894D6; 0xF20BF2F21D31C31D; 0xA7F4A7A701F65101; 0x1133111155998855;
    0x7E827E7E9BA9D79B; 0x8B808B8B9DA72C9D; 0x43C5434352612252; 0x030503030F1B180F;
    0xE23BE2E24DA1434D; 0xDC79DCDC8B72AE8B; 0xE532E5E5569E7B56; 0xB2CBB2B2404BF940;
    0x4ED24E4E6B044A6B; 0xC754C7C7FCB176FC; 0x6DB76D6DC4224FC4; 0xE926E9E96AF21B6A;
    0x27692727BB0225BB; 0x40C040405D7A3A5D; 0xD875D8D89F568E9F; 0x37593737EB92A5EB;
    0x92AB9292E076E4E0; 0x8F8C8F8F89830C89; 0x0103010105090805; 0x1D271D1D69F5E869;
    0x53F5535302F1A202; 0x3E423E3EC6D3EDC6; 0x59EB595920ABF220; 0xC15EC1C1E28746E2;
    0x4FD14F4F6E0D426E; 0x32563232FABF8DFA; 0x163A16164EA6B04E; 0xFA13FAFA35798335;
    0x749C7474B9F387B9; 0xFB10FBFB30708B30; 0x63A56363F25C3FF2; 0x9FBC9F9FD9138CD9;
    0x345C3434E489BDE4; 0x1A2E1A1A72CAD072; 0x2A7E2A2A82674D82; 0x5AEE5A5A2FB0EA2F;
    0x8D8A8D8D83911C83; 0xC946C9C9CACF06CA; 0xCF4CCFCFD4F936D4; 0xF607F6F60915E309;
    0x90AD9090EA64F4EA; 0x2878282888755D88; 0x8885888892BC3492; 0x9BB09B9BCD37ACCD;
    0x31533131F5A495F5; 0x0E120E0E367E7036; 0xBDDABDBD733C8173; 0x4ADE4A4A7F206A7F;
    0xE825E8E86FFB136F; 0x96A79696F452C4F4; 0xA6F7A6A604FF5904; 0x0C140C0C3C6C603C;
    0xC845C8C8CFC60ECF; 0x798B79798096EF80; 0xBCD9BCBC76358976; 0xBEDFBEBE7C27997C;
    0xEF2CEFEF74C42B74; 0x6EB26E6ECB3957CB; 0x46CA4646434C0A43; 0x97A49797F15BCCF1;
    0x5BED5B5B2AB9E22A; 0xED2AEDED7ED63B7E; 0x192B19197DD1C87D; 0xD976D9D99A5F869A;
    0xACE9ACAC26A50926; 0x99B69999C725BCC7; 0xA8E5A8A832812932; 0x297B29298D7C558D;
    0x64AC6464E96307E9; 0x1F211F1F63E7F863; 0xADEAADAD23AC0123; 0x55FF55551CC7921C;
    0x133513135F8B985F; 0xBBD0BBBB6D0AB16D; 0xF704F7F70C1CEB0C; 0x6FB16F6FCE305FCE;
    0xB9D6B9B96718A167; 0x47C9474746450246; 0x2F712F2F934A6593; 0xEE2FEEEE71CD2371;
    0xB8D5B8B86211A962; 0x7B8D7B7B8A84FF8A; 0x8986898997B53C97; 0x30503030F0AD9DF0;
    0xD368D3D3B805D6B8; 0x7F817F7F9EA0DF9E; 0x769A7676B3E197B3; 0x829B8282B0E664B0 ].

Definition old0_T5 : list Z :=
  [ 0xB86868D50F67D568; 0x6DD0D0B71ECEB7D0; 0x20EBEB60E00B60EB; 0x7D2B2B876E45872B;
    0xD8484875327A7548; 0xBA9D9DD3019CD39D; 0xBE6A6ADF1D77DF6A; 0x31E4E453977353E4;
    0x38E3E348A84B48E3; 0xF8A3A315D27115A3; 0xFA565613DC8A1356; 0x9E8181BFFD7CBF81;
    0x877D7D94B2CF947D; 0x0EF1F1122ADB12F1; 0x928585ABD95CAB85; 0xBF9E9EDC1A84DC9E;
    0x742C2C9C517D9C2C; 0x8F8E8E8C8A048C8E; 0x887878859FE78578; 0x43CACAC5D41EC5CA;
    0x3917174BAFB84B17; 0xE6A9A937882137A9; 0xA36161F84E2FF861; 0x62D5D5A633E6A6D5;
    0xE75D5D348FD2345D; 0x1D0B0B275358270B; 0x898C8C869814868C; 0x443C3CCCC1FDCC3C;
    0x997777B6E89FB677; 0xF3515108E3B20851; 0x662222AA2F0DAA22; 0xC6424257682A5742;
    0x413F3FC3DAE5C33F; 0xFC545419CE9A1954; 0xC341415873325841; 0x9D8080BAF474BA80;
    0x49CCCCDBE22EDBCC; 0x978686A4C244A486; 0xC8B3B34542F145B3; 0x28181878D8C07818;
    0x722E2E96436D962E; 0xF9575716D5821657; 0x0A06061E36301E06; 0xA66262F75537F762;
    0x01F4F40307F303F4; 0x5A3636EE9BADEE36; 0x6ED1D1B217C6B2D1; 0xBD6B6BDA147FDA6B;
    0x2D1B1B77C3D8771B; 0xAF6565EC6A0FEC65; 0x9F7575BCFA8FBC75; 0x3010105090805010;
    0x73DADA95449E95DA; 0xDB4949703B727049; 0x6A2626BE0B2DBE26; 0x16F9F93A629B3AF9;
    0x40CBCBC0DD16C0CB; 0xAA6666E37117E366; 0x34E7E75C8C6B5CE7; 0xD3BABA6803B968BA;
    0xEFAEAE2CB7192CAE; 0xF050500DEABA0D50; 0xF6525207F8AA0752; 0xE0ABAB3D9A313DAB;
    0x0F0505112D281105; 0x0DF0F01723D317F0; 0x170D0D396568390D; 0x957373A2CCBFA273;
    0x4D3B3BD7FEC5D73B; 0x0C04041424201404; 0x602020A03D1DA020; 0x1FFEFE215DA321FE;
    0x7ADDDD8E7BA68EDD; 0x02F5F5060EFB06F5; 0xC1B4B45E7DC95EB4; 0xE15F5F3E9DC23E5F;
    0x1E0A0A225A50220A; 0xC2B5B55B74C15BB5; 0x5DC0C0E78E4EE7C0; 0xFDA0A01AC9691AA0;
    0x937171A8DEAFA871; 0xF2A5A50BE4410BA5; 0x772D2D995875992D; 0xA06060FD4727FD60;
    0x967272A7C5B7A772; 0xA89393E57FECE593; 0x4B3939DDECD5DD39; 0x1808082848402808;
    0x988383B5EF6CB583; 0x632121A53415A521; 0xE45C5C3186DA315C; 0x948787A1CB4CA187;
    0xCEB1B14F50E14FB1; 0x3DE0E047B35347E0; 0x0000000000000000; 0x58C3C3E89556E8C3;
    0x3612125A82905A12; 0xAE9191EF6DFCEF91; 0x838A8A98AE24988A; 0x0602020A12100A02;
    0x241C1C6CFCE06C1C; 0x37E6E659856359E6; 0xCF45454C57124C45; 0x5BC2C2ED9C5EEDC2;
    0x51C4C4F3AA6EF3C4; 0x1AFDFD2E46BB2EFD; 0xDCBFBF792E9179BF; 0xCC4444495E1A4944;
    0xFEA1A11FC0611FA1; 0xD44C4C61165A614C; 0x553333FFB685FF33; 0x52C5C5F6A366F6C5;
    0x918484AED054AE84; 0x652323AF2605AF23; 0x847C7C91BBC7917C; 0xCDB0B04A59E94AB0;
    0x6F2525B11035B125; 0x3F151541BDA84115; 0x5F3535E180B5E135; 0xBB6969D0066FD069;
    0x1CFFFF2454AB24FF; 0xA19494FE40D4FE94; 0xD74D4D641F52644D; 0x907070ADD7A7AD70;
    0xFBA2A210DB7910A2; 0xECAFAF29BE1129AF; 0x4ACDCDDEEB26DECD; 0x67D6D6A928FEA9D6;
    0xB46C6CC12B47C16C; 0xC4B7B75166D151B7; 0x15F8F83F6B933FF8; 0x1B09092D41482D09;
    0x08F3F31838CB18F3; 0xA96767E6781FE667; 0xF1A4A40EED490EA4; 0x23EAEA65E90365EA;
    0x29ECEC7BDF337BEC; 0xC7B6B6546FD954B6; 0x61D4D4A33AEEA3D4; 0x6BD2D2BD0CDEBDD2;
    0x3C141444B4A04414; 0x221E1E66EEF0661E; 0x3EE1E142BA5B42E1; 0x6C2424B4193DB424;
    0x483838D8E5DDD838; 0x57C6C6F9B87EF9C6; 0x70DBDB904D9690DB; 0xDD4B4B7A29627A4B;
    0x8E7A7A8F8DF78F7A; 0x4E3A3AD2F7CDD23A; 0x7FDEDE8160BE81DE; 0xE25E5E3B94CA3B5E;
    0x7CDFDF8469B684DF; 0xA29595FB49DCFB95; 0x19FCFC2B4FB32BFC; 0xE3AAAA38933938AA;
    0x64D7D7AC21F6ACD7; 0x4FCECED1F03ED1CE; 0x0907071B3F381B07; 0x110F0F337778330F;
    0x473D3DC9C8F5C93D; 0xE8585825A2FA2558; 0xB39A9AC83EA4C89A; 0xB59898C22CB4C298;
    0xB99C9CD60894D69C; 0x0BF2F21D31C31DF2; 0xF4A7A701F65101A7; 0x3311115599885511;
    0x827E7E9BA9D79B7E; 0x808B8B9DA72C9D8B; 0xC543435261225243; 0x0503030F1B180F03;
    0x3BE2E24DA1434DE2; 0x79DCDC8B72AE8BDC; 0x32E5E5569E7B56E5; 0xCBB2B2404BF940B2;
    0xD24E4E6B044A6B4E; 0x54C7C7FCB176FCC7; 0xB76D6DC4224FC46D; 0x26E9E96AF21B6AE9;
    0x692727BB0225BB27; 0xC040405D7A3A5D40; 0x75D8D89F568E9FD8; 0x593737EB92A5EB37;
    0xAB9292E076E4E092; 0x8C8F8F89830C898F; 0x0301010509080501; 0x271D1D69F5E8691D;
    0xF5535302F1A20253; 0x423E3EC6D3EDC63E; 0xEB595920ABF22059; 0x5EC1C1E28746E2C1;
    0xD14F4F6E0D426E4F; 0x563232FABF8DFA32; 0x3A16164EA6B04E16; 0x13FAFA35798335FA;
    0x9C7474B9F387B974; 0x10FBFB30708B30FB; 0xA56363F25C3FF263; 0xBC9F9FD9138CD99F;
    0x5C3434E489BDE434; 0x2E1A1A72CAD0721A; 0x7E2A2A82674D822A; 0xEE5A5A2FB0EA2F5A;
    0x8A8D8D83911C838D; 0x46C9C9CACF06CAC9; 0x4CCFCFD4F936D4CF; 0x07F6F60915E309F6;
    0xAD9090EA64F4EA90; 0x78282888755D8828; 0x85888892BC349288; 0xB09B9BCD37ACCD9B;
    0x533131F5A495F531; 0x120E0E367E70360E; 0xDABDBD733C8173BD; 0xDE4A4A7F206A7F4A;
    0x25E8E86FFB136FE8; 0xA79696F452C4F496; 0xF7A6A604FF5904A6; 0x140C0C3C6C603C0C;
    0x45C8C8CFC60ECFC8; 0x8B79798096EF8079; 0xD9BCBC76358976BC; 0xDFBEBE7C27997CBE;
    0x2CEFEF74C42B74EF; 0xB26E6ECB3957CB6E; 0xCA4646434C0A4346; 0xA49797F15BCCF197;
    0xED5B5B2AB9E22A5B; 0x2AEDED7ED63B7EED; 0x2B19197DD1C87D19; 0x76D9D99A5F869AD9;
    0xE9ACAC26A50926AC; 0xB69999C725BCC799; 0xE5A8A832812932A8; 0x7B29298D7C558D29;
    0xAC6464E96307E964; 0x211F1F63E7F8631F; 0xEAADAD23AC0123AD; 0xFF55551CC7921C55;
    0x3513135F8B985F13; 0xD0BBBB6D0AB16DBB; 0x04F7F70C1CEB0CF7; 0xB16F6FCE305FCE6F;
    0xD6B9B96718A167B9; 0xC947474645024647; 0x712F2F934A65932F; 0x2FEEEE71CD2371EE;
    0xD5B8B86211A962B8; 0x8D7B7B8A84FF8A7B; 0x86898997B53C9789; 0x503030F0AD9DF030;
    0x68D3D3B805D6B8D3; 0x817F7F9EA0DF9E7F; 0x9A7676B3E197B376; 0x9B8282B0E664B082 ].

Definition old0_T6 : list Z :=
  [ 0x6868D50F67D568B8; 0xD0D0B71ECEB7D06D; 0xEBEB60E00B60EB20; 0x2B2B876E45872B7D;
    0x484875327A7548D8; 0x9D9DD3019CD39DBA; 0x6A6ADF1D77DF6ABE; 0xE4E453977353E431;
    0xE3E348A84B48E338; 0xA3A315D27115A3F8; 0x565613DC8A1356FA; 0x8181BFFD7CBF819E;
    0x7D7D94B2CF947D87; 0xF1F1122ADB12F10E; 0x8585ABD95CAB8592; 0x9E9EDC1A84DC9EBF;
    0x2C2C9C517D9C2C74; 0x8E8E8C8A048C8E8F; 0x7878859FE7857888; 0xCACAC5D41EC5CA43;
    0x17174BAFB84B1739; 0xA9A937882137A9E6; 0x6161F84E2FF861A3; 0xD5D5A633E6A6D562;
    0x5D5D348FD2345DE7; 0x0B0B275358270B1D; 0x8C8C869814868C89; 0x3C3CCCC1FDCC3C44;
    0x7777B6E89FB67799; 0x515108E3B20851F3; 0x2222AA2F0DAA2266; 0x424257682A5742C6;
    0x3F3FC3DAE5C33F41; 0x545419CE9A1954FC; 0x41415873325841C3; 0x8080BAF474BA809D;
    0xCCCCDBE22EDBCC49; 0x8686A4C244A48697; 0xB3B34542F145B3C8; 0x181878D8C0781828;
    0x2E2E96436D962E72; 0x575716D5821657F9; 0x06061E36301E060A; 0x6262F75537F762A6;
    0xF4F40307F303F401; 0x3636EE9BADEE365A; 0xD1D1B217C6B2D16E; 0x6B6BDA147FDA6BBD;
    0x1B1B77C3D8771B2D; 0x6565EC6A0FEC65AF; 0x7575BCFA8FBC759F; 0x1010509080501030;
    0xDADA95449E95DA73; 0x4949703B727049DB; 0x2626BE0B2DBE266A; 0xF9F93A629B3AF916;
    0xCBCBC0DD16C0CB40; 0x6666E37117E366AA; 0xE7E75C8C6B5CE734; 0xBABA6803B968BAD3;
    0xAEAE2CB7192CAEEF; 0x50500DEABA0D50F0; 0x525207F8AA0752F6; 0xABAB3D9A313DABE0;
    0x0505112D2811050F; 0xF0F01723D317F00D; 0x0D0D396568390D17; 0x7373A2CCBFA27395;
    0x3B3BD7FEC5D73B4D; 0x040414242014040C; 0x2020A03D1DA02060; 0xFEFE215DA321FE1F;
    0xDDDD8E7BA68EDD7A; 0xF5F5060EFB06F502; 0xB4B45E7DC95EB4C1; 0x5F5F3E9DC23E5FE1;
    0x0A0A225A50220A1E; 0xB5B55B74C15BB5C2; 0xC0C0E78E4EE7C05D; 0xA0A01AC9691AA0FD;
    0x7171A8DEAFA87193; 0xA5A50BE4410BA5F2; 0x2D2D995875992D77; 0x6060FD4727FD60A0;
    0x7272A7C5B7A77296; 0x9393E57FECE593A8; 0x3939DDECD5DD394B; 0x0808284840280818;
    0x8383B5EF6CB58398; 0x2121A53415A52163; 0x5C5C3186DA315CE4; 0x8787A1CB4CA18794;
    0xB1B14F50E14FB1CE; 0xE0E047B35347E03D; 0x0000000000000000; 0xC3C3E89556E8C358;
    0x12125A82905A1236; 0x9191EF6DFCEF91AE; 0x8A8A98AE24988A83; 0x02020A12100A0206;
    0x1C1C6CFCE06C1C24; 0xE6E659856359E637; 0x45454C57124C45CF; 0xC2C2ED9C5EEDC25B;
    0xC4C4F3AA6EF3C451; 0xFDFD2E46BB2EFD1A; 0xBFBF792E9179BFDC; 0x4444495E1A4944CC;
    0xA1A11FC0611FA1FE; 0x4C4C61165A614CD4; 0x3333FFB685FF3355; 0xC5C5F6A366F6C552;
    0x8484AED054AE8491; 0x2323AF2605AF2365; 0x7C7C91BBC7917C84; 0xB0B04A59E94AB0CD;
    0x2525B11035B1256F; 0x151541BDA841153F; 0x3535E180B5E1355F; 0x6969D0066FD069BB;
    0xFFFF2454AB24FF1C; 0x9494FE40D4FE94A1; 0x4D4D641F52644DD7; 0x7070ADD7A7AD7090;
    0xA2A210DB7910A2FB; 0xAFAF29BE1129AFEC; 0xCDCDDEEB26DECD4A; 0xD6D6A928FEA9D667;
    0x6C6CC12B47C16CB4; 0xB7B75166D151B7C4; 0xF8F83F6B933FF815; 0x09092D41482D091B;
    0xF3F31838CB18F308; 0x6767E6781FE667A9; 0xA4A40EED490EA4F1; 0xEAEA65E90365EA23;
    0xECEC7BDF337BEC29; 0xB6B6546FD954B6C7; 0xD4D4A33AEEA3D461; 0xD2D2BD0CDEBDD26B;
    0x141444B4A044143C; 0x1E1E66EEF0661E22; 0xE1E142BA5B42E13E; 0x2424B4193DB4246C;
    0x3838D8E5DDD83848; 0xC6C6F9B87EF9C657; 0xDBDB904D9690DB70; 0x4B4B7A29627A4BDD;
    0x7A7A8F8DF78F7A8E; 0x3A3AD2F7CDD23A4E; 0xDEDE8160BE81DE7F; 0x5E5E3B94CA3B5EE2;
    0xDFDF8469B684DF7C; 0x9595FB49DCFB95A2; 0xFCFC2B4FB32BFC19; 0xAAAA38933938AAE3;
    0xD7D7AC21F6ACD764; 0xCECED1F03ED1CE4F; 0x07071B3F381B0709; 0x0F0F337778330F11;
    0x3D3DC9C8F5C93D47; 0x585825A2FA2558E8; 0x9A9AC83EA4C89AB3; 0x9898C22CB4C298B5;
    0x9C9CD60894D69CB9; 0xF2F21D31C31DF20B; 0xA7A701F65101A7F4; 0x1111559988551133;
    0x7E7E9BA9D79B7E82; 0x8B8B9DA72C9D8B80; 0x43435261225243C5; 0x03030F1B180F0305;
    0xE2E24DA1434DE23B; 0xDCDC8B72AE8BDC79; 0xE5E5569E7B56E532; 0xB2B2404BF940B2CB;
    0x4E4E6B044A6B4ED2; 0xC7C7FCB176FCC754; 0x6D6DC4224FC46DB7; 0xE9E96AF21B6AE926;
    0x2727BB0225BB2769; 0x40405D7A3A5D40C0; 0xD8D89F568E9FD875; 0x3737EB92A5EB3759;
    0x9292E076E4E092AB; 0x8F8F89830C898F8C; 0x0101050908050103; 0x1D1D69F5E8691D27;
    0x535302F1A20253F5; 0x3E3EC6D3EDC63E42; 0x595920ABF22059EB; 0xC1C1E28746E2C15E;
    0x4F4F6E0D426E4FD1; 0x3232FABF8DFA3256; 0x16164EA6B04E163A; 0xFAFA35798335FA13;
    0x7474B9F387B9749C; 0xFBFB30708B30FB10; 0x6363F25C3FF263A5; 0x9F9FD9138CD99FBC;
    0x3434E489BDE4345C; 0x1A1A72CAD0721A2E; 0x2A2A82674D822A7E; 0x5A5A2FB0EA2F5AEE;
    0x8D8D83911C838D8A; 0xC9C9CACF06CAC946; 0xCFCFD4F936D4CF4C; 0xF6F60915E309F607;
    0x9090EA64F4EA90AD; 0x282888755D882878; 0x888892BC34928885; 0x9B9BCD37ACCD9BB0;
    0x3131F5A495F53153; 0x0E0E367E70360E12; 0xBDBD733C8173BDDA; 0x4A4A7F206A7F4ADE;
    0xE8E86FFB136FE825; 0x9696F452C4F496A7; 0xA6A604FF5904A6F7; 0x0C0C3C6C603C0C14;
    0xC8C8CFC60ECFC845; 0x79798096EF80798B; 0xBCBC76358976BCD9; 0xBEBE7C27997CBEDF;
    0xEFEF74C42B74EF2C; 0x6E6ECB3957CB6EB2; 0x4646434C0A4346CA; 0x9797F15BCCF197A4;
    0x5B5B2AB9E22A5BED; 0xEDED7ED63B7EED2A; 0x19197DD1C87D192B; 0xD9D99A5F869AD976;
    0xACAC26A50926ACE9; 0x9999C725BCC799B6; 0xA8A832812932A8E5; 0x29298D7C558D297B;
    0x6464E96307E964AC; 0x1F1F63E7F8631F21; 0xADAD23AC0123ADEA; 0x55551CC7921C55FF;
    0x13135F8B985F1335; 0xBBBB6D0AB16DBBD0; 0xF7F70C1CEB0CF704; 0x6F6FCE305FCE6FB1;
    0xB9B96718A167B9D6; 0x47474645024647C9; 0x2F2F934A65932F71; 0xEEEE71CD2371EE2F;
    0xB8B86211A962B8D5; 0x7B7B8A84FF8A7B8D; 0x898997B53C978986; 0x3030F0AD9DF03050;
    0xD3D3B805D6B8D368; 0x7F7F9EA0DF9E7F81; 0x7676B3E197B3769A; 0x8282B0E664B0829B ].

Definition old0_T7 : list Z :=
  [ 0x68D50F67D568B868; 0xD0B71ECEB7D06DD0; 0xEB60E00B60EB20EB; 0x2B876E45872B7D2B;
    0x4875327A7548D848; 0x9DD3019CD39DBA9D; 0x6ADF1D77DF6ABE6A; 0xE453977353E431E4;
    0xE348A84B48E338E3; 0xA315D27115A3F8A3; 0x5613DC8A1356FA56; 0x81BFFD7CBF819E81;
    0x7D94B2CF947D877D; 0xF1122ADB12F10EF1; 0x85ABD95CAB859285; 0x9EDC1A84DC9EBF9E;
    0x2C9C517D9C2C742C; 0x8E8C8A048C8E8F8E; 0x78859FE785788878; 0xCAC5D41EC5CA43CA;
    0x174BAFB84B173917; 0xA937882137A9E6A9; 0x61F84E2FF861A361; 0xD5A633E6A6D562D5;
    0x5D348FD2345DE75D; 0x0B275358270B1D0B; 0x8C869814868C898C; 0x3CCCC1FDCC3C443C;
    0x77B6E89FB6779977; 0x5108E3B20851F351; 0x22AA2F0DAA226622; 0x4257682A5742C642;
    0x3FC3DAE5C33F413F; 0x5419CE9A1954FC54; 0x415873325841C341; 0x80BAF474BA809D80;
    0xCCDBE22EDBCC49CC; 0x86A4C244A4869786; 0xB34542F145B3C8B3; 0x1878D8C078182818;
    0x2E96436D962E722E; 0x5716D5821657F957; 0x061E36301E060A06; 0x62F75537F762A662;
    0xF40307F303F401F4; 0x36EE9BADEE365A36; 0xD1B217C6B2D16ED1; 0x6BDA147FDA6BBD6B;
    0x1B77C3D8771B2D1B; 0x65EC6A0FEC65AF65; 0x75BCFA8FBC759F75; 0x1050908050103010;
    0xDA95449E95DA73DA; 0x49703B727049DB49; 0x26BE0B2DBE266A26; 0xF93A629B3AF916F9;
    0xCBC0DD16C0CB40CB; 0x66E37117E366AA66; 0xE75C8C6B5CE734E7; 0xBA6803B968BAD3BA;
    0xAE2CB7192CAEEFAE; 0x500DEABA0D50F050; 0x5207F8AA0752F652; 0xAB3D9A313DABE0AB;
    0x05112D2811050F05; 0xF01723D317F00DF0; 0x0D396568390D170D; 0x73A2CCBFA2739573;
    0x3BD7FEC5D73B4D3B; 0x0414242014040C04; 0x20A03D1DA0206020; 0xFE215DA321FE1FFE;
    0xDD8E7BA68EDD7ADD; 0xF5060EFB06F502F5; 0xB45E7DC95EB4C1B4; 0x5F3E9DC23E5FE15F;
    0x0A225A50220A1E0A; 0xB55B74C15BB5C2B5; 0xC0E78E4EE7C05DC0; 0xA01AC9691AA0FDA0;
    0x71A8DEAFA8719371; 0xA50BE4410BA5F2A5; 0x2D995875992D772D; 0x60FD4727FD60A060;
    0x72A7C5B7A7729672; 0x93E57FECE593A893; 0x39DDECD5DD394B39; 0x0828484028081808;
    0x83B5EF6CB5839883; 0x21A53415A5216321; 0x5C3186DA315CE45C; 0x87A1CB4CA1879487;
    0xB14F50E14FB1CEB1; 0xE047B35347E03DE0; 0x0000000000000000; 0xC3E89556E8C358C3;
    0x125A82905A123612; 0x91EF6DFCEF91AE91; 0x8A98AE24988A838A; 0x020A12100A020602;
    0x1C6CFCE06C1C241C; 0xE659856359E637E6; 0x454C57124C45CF45; 0xC2ED9C5EEDC25BC2;
    0xC4F3AA6EF3C451C4; 0xFD2E46BB2EFD1AFD; 0xBF792E9179BFDCBF; 0x44495E1A4944CC44;
    0xA11FC0611FA1FEA1; 0x4C61165A614CD44C; 0x33FFB685FF335533; 0xC5F6A366F6C552C5;
    0x84AED054AE849184; 0x23AF2605AF236523; 0x7C91BBC7917C847C; 0xB04A59E94AB0CDB0;
    0x25B11035B1256F25; 0x1541BDA841153F15; 0x35E180B5E1355F35; 0x69D0066FD069BB69;
    0xFF2454AB24FF1CFF; 0x94FE40D4FE94A194; 0x4D641F52644DD74D; 0x70ADD7A7AD709070;
    0xA210DB7910A2FBA2; 0xAF29BE1129AFECAF; 0xCDDEEB26DECD4ACD; 0xD6A928FEA9D667D6;
    0x6CC12B47C16CB46C; 0xB75166D151B7C4B7; 0xF83F6B933FF815F8; 0x092D41482D091B09;
    0xF31838CB18F308F3; 0x67E6781FE667A967; 0xA40EED490EA4F1A4; 0xEA65E90365EA23EA;
    0xEC7BDF337BEC29EC; 0xB6546FD954B6C7B6; 0xD4A33AEEA3D461D4; 0xD2BD0CDEBDD26BD2;
    0x1444B4A044143C14; 0x1E66EEF0661E221E; 0xE142BA5B42E13EE1; 0x24B4193DB4246C24;
    0x38D8E5DDD8384838; 0xC6F9B87EF9C657C6; 0xDB904D9690DB70DB; 0x4B7A29627A4BDD4B;
    0x7A8F8DF78F7A8E7A; 0x3AD2F7CDD23A4E3A; 0xDE8160BE81DE7FDE; 0x5E3B94CA3B5EE25E;
    0xDF8469B684DF7CDF; 0x95FB49DCFB95A295; 0xFC2B4FB32BFC19FC; 0xAA38933938AAE3AA;
    0xD7AC21F6ACD764D7; 0xCED1F03ED1CE4FCE; 0x071B3F381B070907; 0x0F337778330F110F;
    0x3DC9C8F5C93D473D; 0x5825A2FA2558E858; 0x9AC83EA4C89AB39A; 0x98C22CB4C298B598;
    0x9CD60894D69CB99C; 0xF21D31C31DF20BF2; 0xA701F65101A7F4A7; 0x1155998855113311;
    0x7E9BA9D79B7E827E; 0x8B9DA72C9D8B808B; 0x435261225243C543; 0x030F1B180F030503;
    0xE24DA1434DE23BE2; 0xDC8B72AE8BDC79DC; 0xE5569E7B56E532E5; 0xB2404BF940B2CBB2;
    0x4E6B044A6B4ED24E; 0xC7FCB176FCC754C7; 0x6DC4224FC46DB76D; 0xE96AF21B6AE926E9;
    0x27BB0225BB276927; 0x405D7A3A5D40C040; 0xD89F568E9FD875D8; 0x37EB92A5EB375937;
    0x92E076E4E092AB92; 0x8F89830C898F8C8F; 0x0105090805010301; 0x1D69F5E8691D271D;
    0x5302F1A20253F553; 0x3EC6D3EDC63E423E; 0x5920ABF22059EB59; 0xC1E28746E2C15EC1;
    0x4F6E0D426E4FD14F; 0x32FABF8DFA325632; 0x164EA6B04E163A16; 0xFA35798335FA13FA;
    0x74B9F387B9749C74; 0xFB30708B30FB10FB; 0x63F25C3FF263A563; 0x9FD9138CD99FBC9F;
    0x34E489BDE4345C34; 0x1A72CAD0721A2E1A; 0x2A82674D822A7E2A; 0x5A2FB0EA2F5AEE5A;
    0x8D83911C838D8A8D; 0xC9CACF06CAC946C9; 0xCFD4F936D4CF4CCF; 0xF60915E309F607F6;
    0x90EA64F4EA90AD90; 0x2888755D88287828; 0x8892BC3492888588; 0x9BCD37ACCD9BB09B;
    0x31F5A495F5315331; 0x0E367E70360E120E; 0xBD733C8173BDDABD; 0x4A7F206A7F4ADE4A;
    0xE86FFB136FE825E8; 0x96F452C4F496A796; 0xA604FF5904A6F7A6; 0x0C3C6C603C0C140C;
    0xC8CFC60ECFC845C8; 0x798096EF80798B79; 0xBC76358976BCD9BC; 0xBE7C27997CBEDFBE;
    0xEF74C42B74EF2CEF; 0x6ECB3957CB6EB26E; 0x46434C0A4346CA46; 0x97F15BCCF197A497;
    0x5B2AB9E22A5BED5B; 0xED7ED63B7EED2AED; 0x197DD1C87D192B19; 0xD99A5F869AD976D9;
    0xAC26A50926ACE9AC; 0x99C725BCC799B699; 0xA832812932A8E5A8; 0x298D7C558D297B29;
    0x64E96307E964AC64; 0x1F63E7F8631F211F; 0xAD23AC0123ADEAAD; 0x551CC7921C55FF55;
    0x135F8B985F133513; 0xBB6D0AB16DBBD0BB; 0xF70C1CEB0CF704F7; 0x6FCE305FCE6FB16F;
    0xB96718A167B9D6B9; 0x474645024647C947; 0x2F934A65932F712F; 0xEE71CD2371EE2FEE;
    0xB86211A962B8D5B8; 0x7B8A84FF8A7B8D7B; 0x8997B53C97898689; 0x30F0AD9DF0305030;
    0xD3B805D6B8D368D3; 0x7F9EA0DF9E7F817F; 0x76B3E197B3769A76; 0x82B0E664B0829B82 ].

Definition old0_RC : list Z :=
  [ 0xE46A9D482BEBD068; 0x9E85F17D8156A3E3; 0xD561A917CA788E2C; 0x422251773C8C0B5D;
    0x18B386CC8041543F; 0x6BD136F46206572E; 0xF92649DA1075651B; 0xAB5250AEBAE766CB;
    0xFE20043B730DF005; 0xA0C0B50A5FB4F5DD ].

Definition old1_T0 : list Z :=
  [ 0x78D8C07818281818; 0xAF2605AF23652323; 0xF9B87EF9C657C6C6; 0x6FFB136FE825E8E8;
    0xA1CB4CA187948787; 0x6211A962B8D5B8B8; 0x0509080501030101; 0x6E0D426E4FD14F4F;
    0xEE9BADEE365A3636; 0x04FF5904A6F7A6A6; 0xBD0CDEBDD26BD2D2; 0x060EFB06F502F5F5;
    0x8096EF80798B7979; 0xCE305FCE6FB16F6F; 0xEF6DFCEF91AE9191; 0x07F8AA0752F65252;
    0xFD4727FD60A06060; 0x76358976BCD9BCBC; 0xCD37ACCD9BB09B9B; 0x8C8A048C8E8F8E8E;
    0x15D27115A3F8A3A3; 0x3C6C603C0C140C0C; 0x8A84FF8A7B8D7B7B; 0xE180B5E1355F3535;
    0x69F5E8691D271D1D; 0x47B35347E03DE0E0; 0xAC21F6ACD764D7D7; 0xED9C5EEDC25BC2C2;
    0x96436D962E722E2E; 0x7A29627A4BDD4B4B; 0x215DA321FE1FFEFE; 0x16D5821657F95757;
    0x41BDA841153F1515; 0xB6E89FB677997777; 0xEB92A5EB37593737; 0x569E7B56E532E5E5;
    0xD9138CD99FBC9F9F; 0x1723D317F00DF0F0; 0x7F206A7F4ADE4A4A; 0x95449E95DA73DADA;
    0x25A2FA2558E85858; 0xCACF06CAC946C9C9; 0x8D7C558D297B2929; 0x225A50220A1E0A0A;
    0x4F50E14FB1CEB1B1; 0x1AC9691AA0FDA0A0; 0xDA147FDA6BBD6B6B; 0xABD95CAB85928585;
    0x733C8173BDDABDBD; 0x348FD2345DE75D5D; 0x5090805010301010; 0x0307F303F401F4F4;
    0xC0DD16C0CB40CBCB; 0xC6D3EDC63E423E3E; 0x112D2811050F0505; 0xE6781FE667A96767;
    0x53977353E431E4E4; 0xBB0225BB27692727; 0x5873325841C34141; 0x9DA72C9D8B808B8B;
    0x01F65101A7F4A7A7; 0x94B2CF947D877D7D; 0xFB49DCFB95A29595; 0x9F568E9FD875D8D8;
    0x30708B30FB10FBFB; 0x71CD2371EE2FEEEE; 0x91BBC7917C847C7C; 0xE37117E366AA6666;
    0x8E7BA68EDD7ADDDD; 0x4BAFB84B17391717; 0x4645024647C94747; 0xDC1A84DC9EBF9E9E;
    0xC5D41EC5CA43CACA; 0x995875992D772D2D; 0x792E9179BFDCBFBF; 0x1B3F381B07090707;
    0x23AC0123ADEAADAD; 0x2FB0EA2F5AEE5A5A; 0xB5EF6CB583988383; 0xFFB685FF33553333;
    0xF25C3FF263A56363; 0x0A12100A02060202; 0x38933938AAE3AAAA; 0xA8DEAFA871937171;
    0xCFC60ECFC845C8C8; 0x7DD1C87D192B1919; 0x703B727049DB4949; 0x9A5F869AD976D9D9;
    0x1D31C31DF20BF2F2; 0x48A84B48E338E3E3; 0x2AB9E22A5BED5B5B; 0x92BC349288858888;
    0xC83EA4C89AB39A9A; 0xBE0B2DBE266A2626; 0xFABF8DFA32563232; 0x4A59E94AB0CDB0B0;
    0x6AF21B6AE926E9E9; 0x337778330F110F0F; 0xA633E6A6D562D5D5; 0xBAF474BA809D8080;
    0x7C27997CBEDFBEBE; 0xDEEB26DECD4ACDCD; 0xE489BDE4345C3434; 0x75327A7548D84848;
    0x2454AB24FF1CFFFF; 0x8F8DF78F7A8E7A7A; 0xEA64F4EA90AD9090; 0x3E9DC23E5FE15F5F;
    0xA03D1DA020602020; 0xD50F67D568B86868; 0x72CAD0721A2E1A1A; 0x2CB7192CAEEFAEAE;
    0x5E7DC95EB4C1B4B4; 0x19CE9A1954FC5454; 0xE57FECE593A89393; 0xAA2F0DAA22662222;
    0xE96307E964AC6464; 0x122ADB12F10EF1F1; 0xA2CCBFA273957373; 0x5A82905A12361212;
    0x5D7A3A5D40C04040; 0x2848402808180808; 0xE89556E8C358C3C3; 0x7BDF337BEC29ECEC;
    0x904D9690DB70DBDB; 0x1FC0611FA1FEA1A1; 0x83911C838D8A8D8D; 0xC9C8F5C93D473D3D;
    0xF15BCCF197A49797; 0x0000000000000000; 0xD4F936D4CF4CCFCF; 0x876E45872B7D2B2B;
    0xB3E197B3769A7676; 0xB0E664B0829B8282; 0xA928FEA9D667D6D6; 0x77C3D8771B2D1B1B;
    0x5B74C15BB5C2B5B5; 0x29BE1129AFECAFAF; 0xDF1D77DF6ABE6A6A; 0x0DEABA0D50F05050;
    0x4C57124C45CF4545; 0x1838CB18F308F3F3; 0xF0AD9DF030503030; 0x74C42B74EF2CEFEF;
    0xC3DAE5C33F413F3F; 0x1CC7921C55FF5555; 0x10DB7910A2FBA2A2; 0x65E90365EA23EAEA;
    0xEC6A0FEC65AF6565; 0x6803B968BAD3BABA; 0x934A65932F712F2F; 0xE78E4EE7C05DC0C0;
    0x8160BE81DE7FDEDE; 0x6CFCE06C1C241C1C; 0x2E46BB2EFD1AFDFD; 0x641F52644DD74D4D;
    0xE076E4E092AB9292; 0xBCFA8FBC759F7575; 0x1E36301E060A0606; 0x98AE24988A838A8A;
    0x404BF940B2CBB2B2; 0x59856359E637E6E6; 0x367E70360E120E0E; 0x63E7F8631F211F1F;
    0xF75537F762A66262; 0xA33AEEA3D461D4D4; 0x32812932A8E5A8A8; 0xF452C4F496A79696;
    0x3A629B3AF916F9F9; 0xF6A366F6C552C5C5; 0xB11035B1256F2525; 0x20ABF22059EB5959;
    0xAED054AE84918484; 0xA7C5B7A772967272; 0xDDECD5DD394B3939; 0x61165A614CD44C4C;
    0x3B94CA3B5EE25E5E; 0x859FE78578887878; 0xD8E5DDD838483838; 0x869814868C898C8C;
    0xB217C6B2D16ED1D1; 0x0BE4410BA5F2A5A5; 0x4DA1434DE23BE2E2; 0xF84E2FF861A36161;
    0x4542F145B3C8B3B3; 0xA53415A521632121; 0xD60894D69CB99C9C; 0x66EEF0661E221E1E;
    0x5261225243C54343; 0xFCB176FCC754C7C7; 0x2B4FB32BFC19FCFC; 0x14242014040C0404;
    0x08E3B20851F35151; 0xC725BCC799B69999; 0xC4224FC46DB76D6D; 0x396568390D170D0D;
    0x35798335FA13FAFA; 0x8469B684DF7CDFDF; 0x9BA9D79B7E827E7E; 0xB4193DB4246C2424;
    0xD7FEC5D73B4D3B3B; 0x3D9A313DABE0ABAB; 0xD1F03ED1CE4FCECE; 0x5599885511331111;
    0x89830C898F8C8F8F; 0x6B044A6B4ED24E4E; 0x5166D151B7C4B7B7; 0x60E00B60EB20EBEB;
    0xCCC1FDCC3C443C3C; 0xBFFD7CBF819E8181; 0xFE40D4FE94A19494; 0x0C1CEB0CF704F7F7;
    0x6718A167B9D6B9B9; 0x5F8B985F13351313; 0x9C517D9C2C742C2C; 0xB805D6B8D368D3D3;
    0x5C8C6B5CE734E7E7; 0xCB3957CB6EB26E6E; 0xF3AA6EF3C451C4C4; 0x0F1B180F03050303;
    0x13DC8A1356FA5656; 0x495E1A4944CC4444; 0x9EA0DF9E7F817F7F; 0x37882137A9E6A9A9;
    0x82674D822A7E2A2A; 0x6D0AB16DBBD0BBBB; 0xE28746E2C15EC1C1; 0x02F1A20253F55353;
    0x8B72AE8BDC79DCDC; 0x275358270B1D0B0B; 0xD3019CD39DBA9D9D; 0xC12B47C16CB46C6C;
    0xF5A495F531533131; 0xB9F387B9749C7474; 0x0915E309F607F6F6; 0x434C0A4346CA4646;
    0x26A50926ACE9ACAC; 0x97B53C9789868989; 0x44B4A044143C1414; 0x42BA5B42E13EE1E1;
    0x4EA6B04E163A1616; 0xD2F7CDD23A4E3A3A; 0xD0066FD069BB6969; 0x2D41482D091B0909;
    0xADD7A7AD70907070; 0x546FD954B6C7B6B6; 0xB71ECEB7D06DD0D0; 0x7ED63B7EED2AEDED;
    0xDBE22EDBCC49CCCC; 0x57682A5742C64242; 0xC22CB4C298B59898; 0x0EED490EA4F1A4A4;
    0x88755D8828782828; 0x3186DA315CE45C5C; 0x3F6B933FF815F8F8; 0xA4C244A486978686 ].

Definition old1_T1 : list Z :=
  [ 0xD8C0781828181878; 0x2605AF23652323AF; 0xB87EF9C657C6C6F9; 0xFB136FE825E8E86F;
    0xCB4CA187948787A1; 0x11A962B8D5B8B862; 0x0908050103010105; 0x0D426E4FD14F4F6E;
    0x9BADEE365A3636EE; 0xFF5904A6F7A6A604; 0x0CDEBDD26BD2D2BD; 0x0EFB06F502F5F506;
    0x96EF80798B797980; 0x305FCE6FB16F6FCE; 0x6DFCEF91AE9191EF; 0xF8AA0752F6525207;
    0x4727FD60A06060FD; 0x358976BCD9BCBC76; 0x37ACCD9BB09B9BCD; 0x8A048C8E8F8E8E8C;
    0xD27115A3F8A3A315; 0x6C603C0C140C0C3C; 0x84FF8A7B8D7B7B8A; 0x80B5E1355F3535E1;
    0xF5E8691D271D1D69; 0xB35347E03DE0E047; 0x21F6ACD764D7D7AC; 0x9C5EEDC25BC2C2ED;
    0x436D962E722E2E96; 0x29627A4BDD4B4B7A; 0x5DA321FE1FFEFE21; 0xD5821657F9575716;
    0xBDA841153F151541; 0xE89FB677997777B6; 0x92A5EB37593737EB; 0x9E7B56E532E5E556;
    0x138CD99FBC9F9FD9; 0x23D317F00DF0F017; 0x206A7F4ADE4A4A7F; 0x449E95DA73DADA95;
    0xA2FA2558E8585825; 0xCF06CAC946C9C9CA; 0x7C558D297B29298D; 0x5A50220A1E0A0A22;
    0x50E14FB1CEB1B14F; 0xC9691AA0FDA0A01A; 0x147FDA6BBD6B6BDA; 0xD95CAB85928585AB;
    0x3C8173BDDABDBD73; 0x8FD2345DE75D5D34; 0x9080501030101050; 0x07F303F401F4F403;
    0xDD16C0CB40CBCBC0; 0xD3EDC63E423E3EC6; 0x2D2811050F050511; 0x781FE667A96767E6;
    0x977353E431E4E453; 0x0225BB27692727BB; 0x73325841C3414158; 0xA72C9D8B808B8B9D;
    0xF65101A7F4A7A701; 0xB2CF947D877D7D94; 0x49DCFB95A29595FB; 0x568E9FD875D8D89F;
    0x708B30FB10FBFB30; 0xCD2371EE2FEEEE71; 0xBBC7917C847C7C91; 0x7117E366AA6666E3;
    0x7BA68EDD7ADDDD8E; 0xAFB84B173917174B; 0x45024647C9474746; 0x1A84DC9EBF9E9EDC;
    0xD41EC5CA43CACAC5; 0x5875992D772D2D99; 0x2E9179BFDCBFBF79; 0x3F381B070907071B;
    0xAC0123ADEAADAD23; 0xB0EA2F5AEE5A5A2F; 0xEF6CB583988383B5; 0xB685FF33553333FF;
    0x5C3FF263A56363F2; 0x12100A020602020A; 0x933938AAE3AAAA38; 0xDEAFA871937171A8;
    0xC60ECFC845C8C8CF; 0xD1C87D192B19197D; 0x3B727049DB494970; 0x5F869AD976D9D99A;
    0x31C31DF20BF2F21D; 0xA84B48E338E3E348; 0xB9E22A5BED5B5B2A; 0xBC34928885888892;
    0x3EA4C89AB39A9AC8; 0x0B2DBE266A2626BE; 0xBF8DFA32563232FA; 0x59E94AB0CDB0B04A;
    0xF21B6AE926E9E96A; 0x7778330F110F0F33; 0x33E6A6D562D5D5A6; 0xF474BA809D8080BA;
    0x27997CBEDFBEBE7C; 0xEB26DECD4ACDCDDE; 0x89BDE4345C3434E4; 0x327A7548D8484875;
    0x54AB24FF1CFFFF24; 0x8DF78F7A8E7A7A8F; 0x64F4EA90AD9090EA; 0x9DC23E5FE15F5F3E;
    0x3D1DA020602020A0; 0x0F67D568B86868D5; 0xCAD0721A2E1A1A72; 0xB7192CAEEFAEAE2C;
    0x7DC95EB4C1B4B45E; 0xCE9A1954FC545419; 0x7FECE593A89393E5; 0x2F0DAA22662222AA;
    0x6307E964AC6464E9; 0x2ADB12F10EF1F112; 0xCCBFA273957373A2; 0x82905A123612125A;
    0x7A3A5D40C040405D; 0x4840280818080828; 0x9556E8C358C3C3E8; 0xDF337BEC29ECEC7B;
    0x4D9690DB70DBDB90; 0xC0611FA1FEA1A11F; 0x911C838D8A8D8D83; 0xC8F5C93D473D3DC9;
    0x5BCCF197A49797F1; 0x0000000000000000; 0xF936D4CF4CCFCFD4; 0x6E45872B7D2B2B87;
    0xE197B3769A7676B3; 0xE664B0829B8282B0; 0x28FEA9D667D6D6A9; 0xC3D8771B2D1B1B77;
    0x74C15BB5C2B5B55B; 0xBE1129AFECAFAF29; 0x1D77DF6ABE6A6ADF; 0xEABA0D50F050500D;
    0x57124C45CF45454C; 0x38CB18F308F3F318; 0xAD9DF030503030F0; 0xC42B74EF2CEFEF74;
    0xDAE5C33F413F3FC3; 0xC7921C55FF55551C; 0xDB7910A2FBA2A210; 0xE90365EA23EAEA65;
    0x6A0FEC65AF6565EC; 0x03B968BAD3BABA68; 0x4A65932F712F2F93; 0x8E4EE7C05DC0C0E7;
    0x60BE81DE7FDEDE81; 0xFCE06C1C241C1C6C; 0x46BB2EFD1AFDFD2E; 0x1F52644DD74D4D64;
    0x76E4E092AB9292E0; 0xFA8FBC759F7575BC; 0x36301E060A06061E; 0xAE24988A838A8A98;
    0x4BF940B2CBB2B240; 0x856359E637E6E659; 0x7E70360E120E0E36; 0xE7F8631F211F1F63;
    0x5537F762A66262F7; 0x3AEEA3D461D4D4A3; 0x812932A8E5A8A832; 0x52C4F496A79696F4;
    0x629B3AF916F9F93A; 0xA366F6C552C5C5F6; 0x1035B1256F2525B1; 0xABF22059EB595920;
    0xD054AE84918484AE; 0xC5B7A772967272A7; 0xECD5DD394B3939DD; 0x165A614CD44C4C61;
    0x94CA3B5EE25E5E3B; 0x9FE7857888787885; 0xE5DDD838483838D8; 0x9814868C898C8C86;
    0x17C6B2D16ED1D1B2; 0xE4410BA5F2A5A50B; 0xA1434DE23BE2E24D; 0x4E2FF861A36161F8;
    0x42F145B3C8B3B345; 0x3415A521632121A5; 0x0894D69CB99C9CD6; 0xEEF0661E221E1E66;
    0x61225243C5434352; 0xB176FCC754C7C7FC; 0x4FB32BFC19FCFC2B; 0x242014040C040414;
    0xE3B20851F3515108; 0x25BCC799B69999C7; 0x224FC46DB76D6DC4; 0x6568390D170D0D39;
    0x798335FA13FAFA35; 0x69B684DF7CDFDF84; 0xA9D79B7E827E7E9B; 0x193DB4246C2424B4;
    0xFEC5D73B4D3B3BD7; 0x9A313DABE0ABAB3D; 0xF03ED1CE4FCECED1; 0x9988551133111155;
    0x830C898F8C8F8F89; 0x044A6B4ED24E4E6B; 0x66D151B7C4B7B751; 0xE00B60EB20EBEB60;
    0xC1FDCC3C443C3CCC; 0xFD7CBF819E8181BF; 0x40D4FE94A19494FE; 0x1CEB0CF704F7F70C;
    0x18A167B9D6B9B967; 0x8B985F133513135F; 0x517D9C2C742C2C9C; 0x05D6B8D368D3D3B8;
    0x8C6B5CE734E7E75C; 0x3957CB6EB26E6ECB; 0xAA6EF3C451C4C4F3; 0x1B180F030503030F;
    0xDC8A1356FA565613; 0x5E1A4944CC444449; 0xA0DF9E7F817F7F9E; 0x882137A9E6A9A937;
    0x674D822A7E2A2A82; 0x0AB16DBBD0BBBB6D; 0x8746E2C15EC1C1E2; 0xF1A20253F5535302;
    0x72AE8BDC79DCDC8B; 0x5358270B1D0B0B27; 0x019CD39DBA9D9DD3; 0x2B47C16CB46C6CC1;
    0xA495F531533131F5; 0xF387B9749C7474B9; 0x15E309F607F6F609; 0x4C0A4346CA464643;
    0xA50926ACE9ACAC26; 0xB53C978986898997; 0xB4A044143C141444; 0xBA5B42E13EE1E142;
    0xA6B04E163A16164E; 0xF7CDD23A4E3A3AD2; 0x066FD069BB6969D0; 0x41482D091B09092D;
    0xD7A7AD70907070AD; 0x6FD954B6C7B6B654; 0x1ECEB7D06DD0D0B7; 0xD63B7EED2AEDED7E;
    0xE22EDBCC49CCCCDB; 0x682A5742C6424257; 0x2CB4C298B59898C2; 0xED490EA4F1A4A40E;
    0x755D882878282888; 0x86DA315CE45C5C31; 0x6B933FF815F8F83F; 0xC244A486978686A4 ].

Definition old1_T2 : list Z :=
  [ 0xC0781828181878D8; 0x05AF23652323AF26; 0x7EF9C657C6C6F9B8; 0x136FE825E8E86FFB;
    0x4CA187948787A1CB; 0xA962B8D5B8B86211; 0x0805010301010509; 0x426E4FD14F4F6E0D;
    0xADEE365A3636EE9B; 0x5904A6F7A6A604FF; 0xDEBDD26BD2D2BD0C; 0xFB06F502F5F5060E;
    0xEF80798B79798096; 0x5FCE6FB16F6FCE30; 0xFCEF91AE9191EF6D; 0xAA0752F6525207F8;
    0x27FD60A06060FD47; 0x8976BCD9BCBC7635; 0xACCD9BB09B9BCD37; 0x048C8E8F8E8E8C8A;
    0x7115A3F8A3A315D2; 0x603C0C140C0C3C6C; 0xFF8A7B8D7B7B8A84; 0xB5E1355F3535E180;
    0xE8691D271D1D69F5; 0x5347E03DE0E047B3; 0xF6ACD764D7D7AC21; 0x5EEDC25BC2C2ED9C;
    0x6D962E722E2E9643; 0x627A4BDD4B4B7A29; 0xA321FE1FFEFE215D; 0x821657F9575716D5;
    0xA841153F151541BD; 0x9FB677997777B6E8; 0xA5EB37593737EB92; 0x7B56E532E5E5569E;
    0x8CD99FBC9F9FD913; 0xD317F00DF0F01723; 0x6A7F4ADE4A4A7F20; 0x9E95DA73DADA9544;
    0xFA2558E8585825A2; 0x06CAC946C9C9CACF; 0x558D297B29298D7C; 0x50220A1E0A0A225A;
    0xE14FB1CEB1B14F50; 0x691AA0FDA0A01AC9; 0x7FDA6BBD6B6BDA14; 0x5CAB85928585ABD9;
    0x8173BDDABDBD733C; 0xD2345DE75D5D348F; 0x8050103010105090; 0xF303F401F4F40307;
    0x16C0CB40CBCBC0DD; 0xEDC63E423E3EC6D3; 0x2811050F0505112D; 0x1FE667A96767E678;
    0x7353E431E4E45397; 0x25BB27692727BB02; 0x325841C341415873; 0x2C9D8B808B8B9DA7;
    0x5101A7F4A7A701F6; 0xCF947D877D7D94B2; 0xDCFB95A29595FB49; 0x8E9FD875D8D89F56;
    0x8B30FB10FBFB3070; 0x2371EE2FEEEE71CD; 0xC7917C847C7C91BB; 0x17E366AA6666E371;
    0xA68EDD7ADDDD8E7B; 0xB84B173917174BAF; 0x024647C947474645; 0x84DC9EBF9E9EDC1A;
    0x1EC5CA43CACAC5D4; 0x75992D772D2D9958; 0x9179BFDCBFBF792E; 0x381B070907071B3F;
    0x0123ADEAADAD23AC; 0xEA2F5AEE5A5A2FB0; 0x6CB583988383B5EF; 0x85FF33553333FFB6;
    0x3FF263A56363F25C; 0x100A020602020A12; 0x3938AAE3AAAA3893; 0xAFA871937171A8DE;
    0x0ECFC845C8C8CFC6; 0xC87D192B19197DD1; 0x727049DB4949703B; 0x869AD976D9D99A5F;
    0xC31DF20BF2F21D31; 0x4B48E338E3E348A8; 0xE22A5BED5B5B2AB9; 0x34928885888892BC;
    0xA4C89AB39A9AC83E; 0x2DBE266A2626BE0B; 0x8DFA32563232FABF; 0xE94AB0CDB0B04A59;
    0x1B6AE926E9E96AF2; 0x78330F110F0F3377; 0xE6A6D562D5D5A633; 0x74BA809D8080BAF4;
    0x997CBEDFBEBE7C27; 0x26DECD4ACDCDDEEB; 0xBDE4345C3434E489; 0x7A7548D848487532;
    0xAB24FF1CFFFF2454; 0xF78F7A8E7A7A8F8D; 0xF4EA90AD9090EA64; 0xC23E5FE15F5F3E9D;
    0x1DA020602020A03D; 0x67D568B86868D50F; 0xD0721A2E1A1A72CA; 0x192CAEEFAEAE2CB7;
    0xC95EB4C1B4B45E7D; 0x9A1954FC545419CE; 0xECE593A89393E57F; 0x0DAA22662222AA2F;
    0x07E964AC6464E963; 0xDB12F10EF1F1122A; 0xBFA273957373A2CC; 0x905A123612125A82;
    0x3A5D40C040405D7A; 0x4028081808082848; 0x56E8C358C3C3E895; 0x337BEC29ECEC7BDF;
    0x9690DB70DBDB904D; 0x611FA1FEA1A11FC0; 0x1C838D8A8D8D8391; 0xF5C93D473D3DC9C8;
    0xCCF197A49797F15B; 0x0000000000000000; 0x36D4CF4CCFCFD4F9; 0x45872B7D2B2B876E;
    0x97B3769A7676B3E1; 0x64B0829B8282B0E6; 0xFEA9D667D6D6A928; 0xD8771B2D1B1B77C3;
    0xC15BB5C2B5B55B74; 0x1129AFECAFAF29BE; 0x77DF6ABE6A6ADF1D; 0xBA0D50F050500DEA;
    0x124C45CF45454C57; 0xCB18F308F3F31838; 0x9DF030503030F0AD; 0x2B74EF2CEFEF74C4;
    0xE5C33F413F3FC3DA; 0x921C55FF55551CC7; 0x7910A2FBA2A210DB; 0x0365EA23EAEA65E9;
    0x0FEC65AF6565EC6A; 0xB968BAD3BABA6803; 0x65932F712F2F934A; 0x4EE7C05DC0C0E78E;
    0xBE81DE7FDEDE8160; 0xE06C1C241C1C6CFC; 0xBB2EFD1AFDFD2E46; 0x52644DD74D4D641F;
    0xE4E092AB9292E076; 0x8FBC759F7575BCFA; 0x301E060A06061E36; 0x24988A838A8A98AE;
    0xF940B2CBB2B2404B; 0x6359E637E6E65985; 0x70360E120E0E367E; 0xF8631F211F1F63E7;
    0x37F762A66262F755; 0xEEA3D461D4D4A33A; 0x2932A8E5A8A83281; 0xC4F496A79696F452;
    0x9B3AF916F9F93A62; 0x66F6C552C5C5F6A3; 0x35B1256F2525B110; 0xF22059EB595920AB;
    0x54AE84918484AED0; 0xB7A772967272A7C5; 0xD5DD394B3939DDEC; 0x5A614CD44C4C6116;
    0xCA3B5EE25E5E3B94; 0xE78578887878859F; 0xDDD838483838D8E5; 0x14868C898C8C8698;
    0xC6B2D16ED1D1B217; 0x410BA5F2A5A50BE4; 0x434DE23BE2E24DA1; 0x2FF861A36161F84E;
    0xF145B3C8B3B34542; 0x15A521632121A534; 0x94D69CB99C9CD608; 0xF0661E221E1E66EE;
    0x225243C543435261; 0x76FCC754C7C7FCB1; 0xB32BFC19FCFC2B4F; 0x2014040C04041424;
    0xB20851F3515108E3; 0xBCC799B69999C725; 0x4FC46DB76D6DC422; 0x68390D170D0D3965;
    0x8335FA13FAFA3579; 0xB684DF7CDFDF8469; 0xD79B7E827E7E9BA9; 0x3DB4246C2424B419;
    0xC5D73B4D3B3BD7FE; 0x313DABE0ABAB3D9A; 0x3ED1CE4FCECED1F0; 0x8855113311115599;
    0x0C898F8C8F8F8983; 0x4A6B4ED24E4E6B04; 0xD151B7C4B7B75166; 0x0B60EB20EBEB60E0;
    0xFDCC3C443C3CCCC1; 0x7CBF819E8181BFFD; 0xD4FE94A19494FE40; 0xEB0CF704F7F70C1C;
    0xA167B9D6B9B96718; 0x985F133513135F8B; 0x7D9C2C742C2C9C51; 0xD6B8D368D3D3B805;
    0x6B5CE734E7E75C8C; 0x57CB6EB26E6ECB39; 0x6EF3C451C4C4F3AA; 0x180F030503030F1B;
    0x8A1356FA565613DC; 0x1A4944CC4444495E; 0xDF9E7F817F7F9EA0; 0x2137A9E6A9A93788;
    0x4D822A7E2A2A8267; 0xB16DBBD0BBBB6D0A; 0x46E2C15EC1C1E287; 0xA20253F5535302F1;
    0xAE8BDC79DCDC8B72; 0x58270B1D0B0B2753; 0x9CD39DBA9D9DD301; 0x47C16CB46C6CC12B;
    0x95F531533131F5A4; 0x87B9749C7474B9F3; 0xE309F607F6F60915; 0x0A4346CA4646434C;
    0x0926ACE9ACAC26A5; 0x3C978986898997B5; 0xA044143C141444B4; 0x5B42E13EE1E142BA;
    0xB04E163A16164EA6; 0xCDD23A4E3A3AD2F7; 0x6FD069BB6969D006; 0x482D091B09092D41;
    0xA7AD70907070ADD7; 0xD954B6C7B6B6546F; 0xCEB7D06DD0D0B71E; 0x3B7EED2AEDED7ED6;
    0x2EDBCC49CCCCDBE2; 0x2A5742C642425768; 0xB4C298B59898C22C; 0x490EA4F1A4A40EED;
    0x5D88287828288875; 0xDA315CE45C5C3186; 0x933FF815F8F83F6B; 0x44A486978686A4C2 ].

Definition old1_T3 : list Z :=
  [ 0x781828181878D8C0; 0xAF23652323AF2605; 0xF9C657C6C6F9B87E; 0x6FE825E8E86FFB13;
    0xA187948787A1CB4C; 0x62B8D5B8B86211A9; 0x0501030101050908; 0x6E4FD14F4F6E0D42;
    0xEE365A3636EE9BAD; 0x04A6F7A6A604FF59; 0xBDD26BD2D2BD0CDE; 0x06F502F5F5060EFB;
    0x80798B79798096EF; 0xCE6FB16F6FCE305F; 0xEF91AE9191EF6DFC; 0x0752F6525207F8AA;
    0xFD60A06060FD4727; 0x76BCD9BCBC763589; 0xCD9BB09B9BCD37AC; 0x8C8E8F8E8E8C8A04;
    0x15A3F8A3A315D271; 0x3C0C140C0C3C6C60; 0x8A7B8D7B7B8A84FF; 0xE1355F3535E180B5;
    0x691D271D1D69F5E8; 0x47E03DE0E047B353; 0xACD764D7D7AC21F6; 0xEDC25BC2C2ED9C5E;
    0x962E722E2E96436D; 0x7A4BDD4B4B7A2962; 0x21FE1FFEFE215DA3; 0x1657F9575716D582;
    0x41153F151541BDA8; 0xB677997777B6E89F; 0xEB37593737EB92A5; 0x56E532E5E5569E7B;
    0xD99FBC9F9FD9138C; 0x17F00DF0F01723D3; 0x7F4ADE4A4A7F206A; 0x95DA73DADA95449E;
    0x2558E8585825A2FA; 0xCAC946C9C9CACF06; 0x8D297B29298D7C55; 0x220A1E0A0A225A50;
    0x4FB1CEB1B14F50E1; 0x1AA0FDA0A01AC969; 0xDA6BBD6B6BDA147F; 0xAB85928585ABD95C;
    0x73BDDABDBD733C81; 0x345DE75D5D348FD2; 0x5010301010509080; 0x03F401F4F40307F3;
    0xC0CB40CBCBC0DD16; 0xC63E423E3EC6D3ED; 0x11050F0505112D28; 0xE667A96767E6781F;
    0x53E431E4E4539773; 0xBB27692727BB0225; 0x5841C34141587332; 0x9D8B808B8B9DA72C;
    0x01A7F4A7A701F651; 0x947D877D7D94B2CF; 0xFB95A29595FB49DC; 0x9FD875D8D89F568E;
    0x30FB10FBFB30708B; 0x71EE2FEEEE71CD23; 0x917C847C7C91BBC7; 0xE366AA6666E37117;
    0x8EDD7ADDDD8E7BA6; 0x4B173917174BAFB8; 0x4647C94747464502; 0xDC9EBF9E9EDC1A84;
    0xC5CA43CACAC5D41E; 0x992D772D2D995875; 0x79BFDCBFBF792E91; 0x1B070907071B3F38;
    0x23ADEAADAD23AC01; 0x2F5AEE5A5A2FB0EA; 0xB583988383B5EF6C; 0xFF33553333FFB685;
    0xF263A56363F25C3F; 0x0A020602020A1210; 0x38AAE3AAAA389339; 0xA871937171A8DEAF;
    0xCFC845C8C8CFC60E; 0x7D192B19197DD1C8; 0x7049DB4949703B72; 0x9AD976D9D99A5F86;
    0x1DF20BF2F21D31C3; 0x48E338E3E348A84B; 0x2A5BED5B5B2AB9E2; 0x928885888892BC34;
    0xC89AB39A9AC83EA4; 0xBE266A2626BE0B2D; 0xFA32563232FABF8D; 0x4AB0CDB0B04A59E9;
    0x6AE926E9E96AF21B; 0x330F110F0F337778; 0xA6D562D5D5A633E6; 0xBA809D8080BAF474;
    0x7CBEDFBEBE7C2799; 0xDECD4ACDCDDEEB26; 0xE4345C3434E489BD; 0x7548D8484875327A;
    0x24FF1CFFFF2454AB; 0x8F7A8E7A7A8F8DF7; 0xEA90AD9090EA64F4; 0x3E5FE15F5F3E9DC2;
    0xA020602020A03D1D; 0xD568B86868D50F67; 0x721A2E1A1A72CAD0; 0x2CAEEFAEAE2CB719;
    0x5EB4C1B4B45E7DC9; 0x1954FC545419CE9A; 0xE593A89393E57FEC; 0xAA22662222AA2F0D;
    0xE964AC6464E96307; 0x12F10EF1F1122ADB; 0xA273957373A2CCBF; 0x5A123612125A8290;
    0x5D40C040405D7A3A; 0x2808180808284840; 0xE8C358C3C3E89556; 0x7BEC29ECEC7BDF33;
    0x90DB70DBDB904D96; 0x1FA1FEA1A11FC061; 0x838D8A8D8D83911C; 0xC93D473D3DC9C8F5;
    0xF197A49797F15BCC; 0x0000000000000000; 0xD4CF4CCFCFD4F936; 0x872B7D2B2B876E45;
    0xB3769A7676B3E197; 0xB0829B8282B0E664; 0xA9D667D6D6A928FE; 0x771B2D1B1B77C3D8;
    0x5BB5C2B5B55B74C1; 0x29AFECAFAF29BE11; 0xDF6ABE6A6ADF1D77; 0x0D50F050500DEABA;
    0x4C45CF45454C5712; 0x18F308F3F31838CB; 0xF030503030F0AD9D; 0x74EF2CEFEF74C42B;
    0xC33F413F3FC3DAE5; 0x1C55FF55551CC792; 0x10A2FBA2A210DB79; 0x65EA23EAEA65E903;
    0xEC65AF6565EC6A0F; 0x68BAD3BABA6803B9; 0x932F712F2F934A65; 0xE7C05DC0C0E78E4E;
    0x81DE7FDEDE8160BE; 0x6C1C241C1C6CFCE0; 0x2EFD1AFDFD2E46BB; 0x644DD74D4D641F52;
    0xE092AB9292E076E4; 0xBC759F7575BCFA8F; 0x1E060A06061E3630; 0x988A838A8A98AE24;
    0x40B2CBB2B2404BF9; 0x59E637E6E6598563; 0x360E120E0E367E70; 0x631F211F1F63E7F8;
    0xF762A66262F75537; 0xA3D461D4D4A33AEE; 0x32A8E5A8A8328129; 0xF496A79696F452C4;
    0x3AF916F9F93A629B; 0xF6C552C5C5F6A366; 0xB1256F2525B11035; 0x2059EB595920ABF2;
    0xAE84918484AED054; 0xA772967272A7C5B7; 0xDD394B3939DDECD5; 0x614CD44C4C61165A;
    0x3B5EE25E5E3B94CA; 0x8578887878859FE7; 0xD838483838D8E5DD; 0x868C898C8C869814;
    0xB2D16ED1D1B217C6; 0x0BA5F2A5A50BE441; 0x4DE23BE2E24DA143; 0xF861A36161F84E2F;
    0x45B3C8B3B34542F1; 0xA521632121A53415; 0xD69CB99C9CD60894; 0x661E221E1E66EEF0;
    0x5243C54343526122; 0xFCC754C7C7FCB176; 0x2BFC19FCFC2B4FB3; 0x14040C0404142420;
    0x0851F3515108E3B2; 0xC799B69999C725BC; 0xC46DB76D6DC4224F; 0x390D170D0D396568;
    0x35FA13FAFA357983; 0x84DF7CDFDF8469B6; 0x9B7E827E7E9BA9D7; 0xB4246C2424B4193D;
    0xD73B4D3B3BD7FEC5; 0x3DABE0ABAB3D9A31; 0xD1CE4FCECED1F03E; 0x5511331111559988;
    0x898F8C8F8F89830C; 0x6B4ED24E4E6B044A; 0x51B7C4B7B75166D1; 0x60EB20EBEB60E00B;
    0xCC3C443C3CCCC1FD; 0xBF819E8181BFFD7C; 0xFE94A19494FE40D4; 0x0CF704F7F70C1CEB;
    0x67B9D6B9B96718A1; 0x5F133513135F8B98; 0x9C2C742C2C9C517D; 0xB8D368D3D3B805D6;
    0x5CE734E7E75C8C6B; 0xCB6EB26E6ECB3957; 0xF3C451C4C4F3AA6E; 0x0F030503030F1B18;
    0x1356FA565613DC8A; 0x4944CC4444495E1A; 0x9E7F817F7F9EA0DF; 0x37A9E6A9A9378821;
    0x822A7E2A2A82674D; 0x6DBBD0BBBB6D0AB1; 0xE2C15EC1C1E28746; 0x0253F5535302F1A2;
    0x8BDC79DCDC8B72AE; 0x270B1D0B0B275358; 0xD39DBA9D9DD3019C; 0xC16CB46C6CC12B47;
    0xF531533131F5A495; 0xB9749C7474B9F387; 0x09F607F6F60915E3; 0x4346CA4646434C0A;
    0x26ACE9ACAC26A509; 0x978986898997B53C; 0x44143C141444B4A0; 0x42E13EE1E142BA5B;
    0x4E163A16164EA6B0; 0xD23A4E3A3AD2F7CD; 0xD069BB6969D0066F; 0x2D091B09092D4148;
    0xAD70907070ADD7A7; 0x54B6C7B6B6546FD9; 0xB7D06DD0D0B71ECE; 0x7EED2AEDED7ED63B;
    0xDBCC49CCCCDBE22E; 0x5742C6424257682A; 0xC298B59898C22CB4; 0x0EA4F1A4A40EED49;
    0x882878282888755D; 0x315CE45C5C3186DA; 0x3FF815F8F83F6B93; 0xA486978686A4C244 ].

Definition old1_T4 : list Z :=
  [ 0x1828181878D8C078; 0x23652323AF2605AF; 0xC657C6C6F9B87EF9; 0xE825E8E86FFB136F;
    0x87948787A1CB4CA1; 0xB8D5B8B86211A962; 0x0103010105090805; 0x4FD14F4F6E0D426E;
    0x365A3636EE9BADEE; 0xA6F7A6A604FF5904; 0xD26BD2D2BD0CDEBD; 0xF502F5F5060EFB06;
    0x798B79798096EF80; 0x6FB16F6FCE305FCE; 0x91AE9191EF6DFCEF; 0x52F6525207F8AA07;
    0x60A06060FD4727FD; 0xBCD9BCBC76358976; 0x9BB09B9BCD37ACCD; 0x8E8F8E8E8C8A048C;
    0xA3F8A3A315D27115; 0x0C140C0C3C6C603C; 0x7B8D7B7B8A84FF8A; 0x355F3535E180B5E1;
    0x1D271D1D69F5E869; 0xE03DE0E047B35347; 0xD764D7D7AC21F6AC; 0xC25BC2C2ED9C5EED;
    0x2E722E2E96436D96; 0x4BDD4B4B7A29627A; 0xFE1FFEFE215DA321; 0x57F9575716D58216;
    0x153F151541BDA841; 0x77997777B6E89FB6; 0x37593737EB92A5EB; 0xE532E5E5569E7B56;
    0x9FBC9F9FD9138CD9; 0xF00DF0F01723D317; 0x4ADE4A4A7F206A7F; 0xDA73DADA95449E95;
    0x58E8585825A2FA25; 0xC946C9C9CACF06CA; 0x297B29298D7C558D; 0x0A1E0A0A225A5022;
    0xB1CEB1B14F50E14F; 0xA0FDA0A01AC9691A; 0x6BBD6B6BDA147FDA; 0x85928585ABD95CAB;
    0xBDDABDBD733C8173; 0x5DE75D5D348FD234; 0x1030101050908050; 0xF401F4F40307F303;
    0xCB40CBCBC0DD16C0; 0x3E423E3EC6D3EDC6; 0x050F0505112D2811; 0x67A96767E6781FE6;
    0xE431E4E453977353; 0x27692727BB0225BB; 0x41C3414158733258; 0x8B808B8B9DA72C9D;
    0xA7F4A7A701F65101; 0x7D877D7D94B2CF94; 0x95A29595FB49DCFB; 0xD875D8D89F568E9F;
    0xFB10FBFB30708B30; 0xEE2FEEEE71CD2371; 0x7C847C7C91BBC791; 0x66AA6666E37117E3;
    0xDD7ADDDD8E7BA68E; 0x173917174BAFB84B; 0x47C9474746450246; 0x9EBF9E9EDC1A84DC;
    0xCA43CACAC5D41EC5; 0x2D772D2D99587599; 0xBFDCBFBF792E9179; 0x070907071B3F381B;
    0xADEAADAD23AC0123; 0x5AEE5A5A2FB0EA2F; 0x83988383B5EF6CB5; 0x33553333FFB685FF;
    0x63A56363F25C3FF2; 0x020602020A12100A; 0xAAE3AAAA38933938; 0x71937171A8DEAFA8;
    0xC845C8C8CFC60ECF; 0x192B19197DD1C87D; 0x49DB4949703B7270; 0xD976D9D99A5F869A;
    0xF20BF2F21D31C31D; 0xE338E3E348A84B48; 0x5BED5B5B2AB9E22A; 0x8885888892BC3492;
    0x9AB39A9AC83EA4C8; 0x266A2626BE0B2DBE; 0x32563232FABF8DFA; 0xB0CDB0B04A59E94A;
    0xE926E9E96AF21B6A; 0x0F110F0F33777833; 0xD562D5D5A633E6A6; 0x809D8080BAF474BA;
    0xBEDFBEBE7C27997C; 0xCD4ACDCDDEEB26DE; 0x345C3434E489BDE4; 0x48D8484875327A75;
    0xFF1CFFFF2454AB24; 0x7A8E7A7A8F8DF78F; 0x90AD9090EA64F4EA; 0x5FE15F5F3E9DC23E;
    0x20602020A03D1DA0; 0x68B86868D50F67D5; 0x1A2E1A1A72CAD072; 0xAEEFAEAE2CB7192C;
    0xB4C1B4B45E7DC95E; 0x54FC545419CE9A19; 0x93A89393E57FECE5; 0x22662222AA2F0DAA;
    0x64AC6464E96307E9; 0xF10EF1F1122ADB12; 0x73957373A2CCBFA2; 0x123612125A82905A;
    0x40C040405D7A3A5D; 0x0818080828484028; 0xC358C3C3E89556E8; 0xEC29ECEC7BDF337B;
    0xDB70DBDB904D9690; 0xA1FEA1A11FC0611F; 0x8D8A8D8D83911C83; 0x3D473D3DC9C8F5C9;
    0x97A49797F15BCCF1; 0x0000000000000000; 0xCF4CCFCFD4F936D4; 0x2B7D2B2B876E4587;
    0x769A7676B3E197B3; 0x829B8282B0E664B0; 0xD667D6D6A928FEA9; 0x1B2D1B1B77C3D877;
    0xB5C2B5B55B74C15B; 0xAFECAFAF29BE1129; 0x6ABE6A6ADF1D77DF; 0x50F050500DEABA0D;
    0x45CF45454C57124C; 0xF308F3F31838CB18; 0x30503030F0AD9DF0; 0xEF2CEFEF74C42B74;
    0x3F413F3FC3DAE5C3; 0x55FF55551CC7921C; 0xA2FBA2A210DB7910; 0xEA23EAEA65E90365;
    0x65AF6565EC6A0FEC; 0xBAD3BABA6803B968; 0x2F712F2F934A6593; 0xC05DC0C0E78E4EE7;
    0xDE7FDEDE8160BE81; 0x1C241C1C6CFCE06C; 0xFD1AFDFD2E46BB2E; 0x4DD74D4D641F5264;
    0x92AB9292E076E4E0; 0x759F7575BCFA8FBC; 0x060A06061E36301E; 0x8A838A8A98AE2498;
    0xB2CBB2B2404BF940; 0xE637E6E659856359; 0x0E120E0E367E7036; 0x1F211F1F63E7F863;
    0x62A66262F75537F7; 0xD461D4D4A33AEEA3; 0xA8E5A8A832812932; 0x96A79696F452C4F4;
    0xF916F9F93A629B3A; 0xC552C5C5F6A366F6; 0x256F2525B11035B1; 0x59EB595920ABF220;
    0x84918484AED054AE; 0x72967272A7C5B7A7; 0x394B3939DDECD5DD; 0x4CD44C4C61165A61;
    0x5EE25E5E3B94CA3B; 0x78887878859FE785; 0x38483838D8E5DDD8; 0x8C898C8C86981486;
    0xD16ED1D1B217C6B2; 0xA5F2A5A50BE4410B; 0xE23BE2E24DA1434D; 0x61A36161F84E2FF8;
    0xB3C8B3B34542F145; 0x21632121A53415A5; 0x9CB99C9CD60894D6; 0x1E221E1E66EEF066;
    0x43C5434352612252; 0xC754C7C7FCB176FC; 0xFC19FCFC2B4FB32B; 0x040C040414242014;
    0x51F3515108E3B208; 0x99B69999C725BCC7; 0x6DB76D6DC4224FC4; 0x0D170D0D39656839;
    0xFA13FAFA35798335; 0xDF7CDFDF8469B684; 0x7E827E7E9BA9D79B; 0x246C2424B4193DB4;
    0x3B4D3B3BD7FEC5D7; 0xABE0ABAB3D9A313D; 0xCE4FCECED1F03ED1; 0x1133111155998855;
    0x8F8C8F8F89830C89; 0x4ED24E4E6B044A6B; 0xB7C4B7B75166D151; 0xEB20EBEB60E00B60;
    0x3C443C3CCCC1FDCC; 0x819E8181BFFD7CBF; 0x94A19494FE40D4FE; 0xF704F7F70C1CEB0C;
    0xB9D6B9B96718A167; 0x133513135F8B985F; 0x2C742C2C9C517D9C; 0xD368D3D3B805D6B8;
    0xE734E7E75C8C6B5C; 0x6EB26E6ECB3957CB; 0xC451C4C4F3AA6EF3; 0x030503030F1B180F;
    0x56FA565613DC8A13; 0x44CC4444495E1A49; 0x7F817F7F9EA0DF9E; 0xA9E6A9A937882137;
    0x2A7E2A2A82674D82; 0xBBD0BBBB6D0AB16D; 0xC15EC1C1E28746E2; 0x53F5535302F1A202;
    0xDC79DCDC8B72AE8B; 0x0B1D0B0B27535827; 0x9DBA9D9DD3019CD3; 0x6CB46C6CC12B47C1;
    0x31533131F5A495F5; 0x749C7474B9F387B9; 0xF607F6F60915E309; 0x46CA4646434C0A43;
    0xACE9ACAC26A50926; 0x8986898997B53C97; 0x143C141444B4A044; 0xE13EE1E142BA5B42;
    0x163A16164EA6B04E; 0x3A4E3A3AD2F7CDD2; 0x69BB6969D0066FD0; 0x091B09092D41482D;
    0x70907070ADD7A7AD; 0xB6C7B6B6546FD954; 0xD06DD0D0B71ECEB7; 0xED2AEDED7ED63B7E;
    0xCC49CCCCDBE22EDB; 0x42C6424257682A57; 0x98B59898C22CB4C2; 0xA4F1A4A40EED490E;
    0x2878282888755D88; 0x5CE45C5C3186DA31; 0xF815F8F83F6B933F; 0x86978686A4C244A4 ].

Definition old1_T5 : list Z :=
  [ 0x28181878D8C07818; 0x652323AF2605AF23; 0x57C6C6F9B87EF9C6; 0x25E8E86FFB136FE8;
    0x948787A1CB4CA187; 0xD5B8B86211A962B8; 0x0301010509080501; 0xD14F4F6E0D426E4F;
    0x5A3636EE9BADEE36; 0xF7A6A604FF5904A6; 0x6BD2D2BD0CDEBDD2; 0x02F5F5060EFB06F5;
    0x8B79798096EF8079; 0xB16F6FCE305FCE6F; 0xAE9191EF6DFCEF91; 0xF6525207F8AA0752;
    0xA06060FD4727FD60; 0xD9BCBC76358976BC; 0xB09B9BCD37ACCD9B; 0x8F8E8E8C8A048C8E;
    0xF8A3A315D27115A3; 0x140C0C3C6C603C0C; 0x8D7B7B8A84FF8A7B; 0x5F3535E180B5E135;
    0x271D1D69F5E8691D; 0x3DE0E047B35347E0; 0x64D7D7AC21F6ACD7; 0x5BC2C2ED9C5EEDC2;
    0x722E2E96436D962E; 0xDD4B4B7A29627A4B; 0x1FFEFE215DA321FE; 0xF9575716D5821657;
    0x3F151541BDA84115; 0x997777B6E89FB677; 0x593737EB92A5EB37; 0x32E5E5569E7B56E5;
    0xBC9F9FD9138CD99F; 0x0DF0F01723D317F0; 0xDE4A4A7F206A7F4A; 0x73DADA95449E95DA;
    0xE8585825A2FA2558; 0x46C9C9CACF06CAC9; 0x7B29298D7C558D29; 0x1E0A0A225A50220A;
    0xCEB1B14F50E14FB1; 0xFDA0A01AC9691AA0; 0xBD6B6BDA147FDA6B; 0x928585ABD95CAB85;
    0xDABDBD733C8173BD; 0xE75D5D348FD2345D; 0x3010105090805010; 0x01F4F40307F303F4;
    0x40CBCBC0DD16C0CB; 0x423E3EC6D3EDC63E; 0x0F0505112D281105; 0xA96767E6781FE667;
    0x31E4E453977353E4; 0x692727BB0225BB27; 0xC341415873325841; 0x808B8B9DA72C9D8B;
    0xF4A7A701F65101A7; 0x877D7D94B2CF947D; 0xA29595FB49DCFB95; 0x75D8D89F568E9FD8;
    0x10FBFB30708B30FB; 0x2FEEEE71CD2371EE; 0x847C7C91BBC7917C; 0xAA6666E37117E366;
    0x7ADDDD8E7BA68EDD; 0x3917174BAFB84B17; 0xC947474645024647; 0xBF9E9EDC1A84DC9E;
    0x43CACAC5D41EC5CA; 0x772D2D995875992D; 0xDCBFBF792E9179BF; 0x0907071B3F381B07;
    0xEAADAD23AC0123AD; 0xEE5A5A2FB0EA2F5A; 0x988383B5EF6CB583; 0x553333FFB685FF33;
    0xA56363F25C3FF263; 0x0602020A12100A02; 0xE3AAAA38933938AA; 0x937171A8DEAFA871;
    0x45C8C8CFC60ECFC8; 0x2B19197DD1C87D19; 0xDB4949703B727049; 0x76D9D99A5F869AD9;
    0x0BF2F21D31C31DF2; 0x38E3E348A84B48E3; 0xED5B5B2AB9E22A5B; 0x85888892BC349288;
    0xB39A9AC83EA4C89A; 0x6A2626BE0B2DBE26; 0x563232FABF8DFA32; 0xCDB0B04A59E94AB0;
    0x26E9E96AF21B6AE9; 0x110F0F337778330F; 0x62D5D5A633E6A6D5; 0x9D8080BAF474BA80;
    0xDFBEBE7C27997CBE; 0x4ACDCDDEEB26DECD; 0x5C3434E489BDE434; 0xD8484875327A7548;
    0x1CFFFF2454AB24FF; 0x8E7A7A8F8DF78F7A; 0xAD9090EA64F4EA90; 0xE15F5F3E9DC23E5F;
    0x602020A03D1DA020; 0xB86868D50F67D568; 0x2E1A1A72CAD0721A; 0xEFAEAE2CB7192CAE;
    0xC1B4B45E7DC95EB4; 0xFC545419CE9A1954; 0xA89393E57FECE593; 0x662222AA2F0DAA22;
    0xAC6464E96307E964; 0x0EF1F1122ADB12F1; 0x957373A2CCBFA273; 0x3612125A82905A12;
    0xC040405D7A3A5D40; 0x1808082848402808; 0x58C3C3E89556E8C3; 0x29ECEC7BDF337BEC;
    0x70DBDB904D9690DB; 0xFEA1A11FC0611FA1; 0x8A8D8D83911C838D; 0x473D3DC9C8F5C93D;
    0xA49797F15BCCF197; 0x0000000000000000; 0x4CCFCFD4F936D4CF; 0x7D2B2B876E45872B;
    0x9A7676B3E197B376; 0x9B8282B0E664B082; 0x67D6D6A928FEA9D6; 0x2D1B1B77C3D8771B;
    0xC2B5B55B74C15BB5; 0xECAFAF29BE1129AF; 0xBE6A6ADF1D77DF6A; 0xF050500DEABA0D50;
    0xCF45454C57124C45; 0x08F3F31838CB18F3; 0x503030F0AD9DF030; 0x2CEFEF74C42B74EF;
    0x413F3FC3DAE5C33F; 0xFF55551CC7921C55; 0xFBA2A210DB7910A2; 0x23EAEA65E90365EA;
    0xAF6565EC6A0FEC65; 0xD3BABA6803B968BA; 0x712F2F934A65932F; 0x5DC0C0E78E4EE7C0;
    0x7FDEDE8160BE81DE; 0x241C1C6CFCE06C1C; 0x1AFDFD2E46BB2EFD; 0xD74D4D641F52644D;
    0xAB9292E076E4E092; 0x9F7575BCFA8FBC75; 0x0A06061E36301E06; 0x838A8A98AE24988A;
    0xCBB2B2404BF940B2; 0x37E6E659856359E6; 0x120E0E367E70360E; 0x211F1F63E7F8631F;
    0xA66262F75537F762; 0x61D4D4A33AEEA3D4; 0xE5A8A832812932A8; 0xA79696F452C4F496;
    0x16F9F93A629B3AF9; 0x52C5C5F6A366F6C5; 0x6F2525B11035B125; 0xEB595920ABF22059;
    0x918484AED054AE84; 0x967272A7C5B7A772; 0x4B3939DDECD5DD39; 0xD44C4C61165A614C;
    0xE25E5E3B94CA3B5E; 0x887878859FE78578; 0x483838D8E5DDD838; 0x898C8C869814868C;
    0x6ED1D1B217C6B2D1; 0xF2A5A50BE4410BA5; 0x3BE2E24DA1434DE2; 0xA36161F84E2FF861;
    0xC8B3B34542F145B3; 0x632121A53415A521; 0xB99C9CD60894D69C; 0x221E1E66EEF0661E;
    0xC543435261225243; 0x54C7C7FCB176FCC7; 0x19FCFC2B4FB32BFC; 0x0C04041424201404;
    0xF3515108E3B20851; 0xB69999C725BCC799; 0xB76D6DC4224FC46D; 0x170D0D396568390D;
    0x13FAFA35798335FA; 0x7CDFDF8469B684DF; 0x827E7E9BA9D79B7E; 0x6C2424B4193DB424;
    0x4D3B3BD7FEC5D73B; 0xE0ABAB3D9A313DAB; 0x4FCECED1F03ED1CE; 0x3311115599885511;
    0x8C8F8F89830C898F; 0xD24E4E6B044A6B4E; 0xC4B7B75166D151B7; 0x20EBEB60E00B60EB;
    0x443C3CCCC1FDCC3C; 0x9E8181BFFD7CBF81; 0xA19494FE40D4FE94; 0x04F7F70C1CEB0CF7;
    0xD6B9B96718A167B9; 0x3513135F8B985F13; 0x742C2C9C517D9C2C; 0x68D3D3B805D6B8D3;
    0x34E7E75C8C6B5CE7; 0xB26E6ECB3957CB6E; 0x51C4C4F3AA6EF3C4; 0x0503030F1B180F03;
    0xFA565613DC8A1356; 0xCC4444495E1A4944; 0x817F7F9EA0DF9E7F; 0xE6A9A937882137A9;
    0x7E2A2A82674D822A; 0xD0BBBB6D0AB16DBB; 0x5EC1C1E28746E2C1; 0xF5535302F1A20253;
    0x79DCDC8B72AE8BDC; 0x1D0B0B275358270B; 0xBA9D9DD3019CD39D; 0xB46C6CC12B47C16C;
    0x533131F5A495F531; 0x9C7474B9F387B974; 0x07F6F60915E309F6; 0xCA4646434C0A4346;
    0xE9ACAC26A50926AC; 0x86898997B53C9789; 0x3C141444B4A04414; 0x3EE1E142BA5B42E1;
    0x3A16164EA6B04E16; 0x4E3A3AD2F7CDD23A; 0xBB6969D0066FD069; 0x1B09092D41482D09;
    0x907070ADD7A7AD70; 0xC7B6B6546FD954B6; 0x6DD0D0B71ECEB7D0; 0x2AEDED7ED63B7EED;
    0x49CCCCDBE22EDBCC; 0xC6424257682A5742; 0xB59898C22CB4C298; 0xF1A4A40EED490EA4;
    0x78282888755D8828; 0xE45C5C3186DA315C; 0x15F8F83F6B933FF8; 0x978686A4C244A486 ].

Definition old1_T6 : list Z :=
  [ 0x181878D8C0781828; 0x2323AF2605AF2365; 0xC6C6F9B87EF9C657; 0xE8E86FFB136FE825;
    0x8787A1CB4CA18794; 0xB8B86211A962B8D5; 0x0101050908050103; 0x4F4F6E0D426E4FD1;
    0x3636EE9BADEE365A; 0xA6A604FF5904A6F7; 0xD2D2BD0CDEBDD26B; 0xF5F5060EFB06F502;
    0x79798096EF80798B; 0x6F6FCE305FCE6FB1; 0x9191EF6DFCEF91AE; 0x525207F8AA0752F6;
    0x6060FD4727FD60A0; 0xBCBC76358976BCD9; 0x9B9BCD37ACCD9BB0; 0x8E8E8C8A048C8E8F;
    0xA3A315D27115A3F8; 0x0C0C3C6C603C0C14; 0x7B7B8A84FF8A7B8D; 0x3535E180B5E1355F;
    0x1D1D69F5E8691D27; 0xE0E047B35347E03D; 0xD7D7AC21F6ACD764; 0xC2C2ED9C5EEDC25B;
    0x2E2E96436D962E72; 0x4B4B7A29627A4BDD; 0xFEFE215DA321FE1F; 0x575716D5821657F9;
    0x151541BDA841153F; 0x7777B6E89FB67799; 0x3737EB92A5EB3759; 0xE5E5569E7B56E532;
    0x9F9FD9138CD99FBC; 0xF0F01723D317F00D; 0x4A4A7F206A7F4ADE; 0xDADA95449E95DA73;
    0x585825A2FA2558E8; 0xC9C9CACF06CAC946; 0x29298D7C558D297B; 0x0A0A225A50220A1E;
    0xB1B14F50E14FB1CE; 0xA0A01AC9691AA0FD; 0x6B6BDA147FDA6BBD; 0x8585ABD95CAB8592;
    0xBDBD733C8173BDDA; 0x5D5D348FD2345DE7; 0x1010509080501030; 0xF4F40307F303F401;
    0xCBCBC0DD16C0CB40; 0x3E3EC6D3EDC63E42; 0x0505112D2811050F; 0x6767E6781FE667A9;
    0xE4E453977353E431; 0x2727BB0225BB2769; 0x41415873325841C3; 0x8B8B9DA72C9D8B80;
    0xA7A701F65101A7F4; 0x7D7D94B2CF947D87; 0x9595FB49DCFB95A2; 0xD8D89F568E9FD875;
    0xFBFB30708B30FB10; 0xEEEE71CD2371EE2F; 0x7C7C91BBC7917C84; 0x6666E37117E366AA;
    0xDDDD8E7BA68EDD7A; 0x17174BAFB84B1739; 0x47474645024647C9; 0x9E9EDC1A84DC9EBF;
    0xCACAC5D41EC5CA43; 0x2D2D995875992D77; 0xBFBF792E9179BFDC; 0x07071B3F381B0709;
    0xADAD23AC0123ADEA; 0x5A5A2FB0EA2F5AEE; 0x8383B5EF6CB58398; 0x3333FFB685FF3355;
    0x6363F25C3FF263A5; 0x02020A12100A0206; 0xAAAA38933938AAE3; 0x7171A8DEAFA87193;
    0xC8C8CFC60ECFC845; 0x19197DD1C87D192B; 0x4949703B727049DB; 0xD9D99A5F869AD976;
    0xF2F21D31C31DF20B; 0xE3E348A84B48E338; 0x5B5B2AB9E22A5BED; 0x888892BC34928885;
    0x9A9AC83EA4C89AB3; 0x2626BE0B2DBE266A; 0x3232FABF8DFA3256; 0xB0B04A59E94AB0CD;
    0xE9E96AF21B6AE926; 0x0F0F337778330F11; 0xD5D5A633E6A6D562; 0x8080BAF474BA809D;
    0xBEBE7C27997CBEDF; 0xCDCDDEEB26DECD4A; 0x3434E489BDE4345C; 0x484875327A7548D8;
    0xFFFF2454AB24FF1C; 0x7A7A8F8DF78F7A8E; 0x9090EA64F4EA90AD; 0x5F5F3E9DC23E5FE1;
    0x2020A03D1DA02060; 0x6868D50F67D568B8; 0x1A1A72CAD0721A2E; 0xAEAE2CB7192CAEEF;
    0xB4B45E7DC95EB4C1; 0x545419CE9A1954FC; 0x9393E57FECE593A8; 0x2222AA2F0DAA2266;
    0x6464E96307E964AC; 0xF1F1122ADB12F10E; 0x7373A2CCBFA27395; 0x12125A82905A1236;
    0x40405D7A3A5D40C0; 0x0808284840280818; 0xC3C3E89556E8C358; 0xECEC7BDF337BEC29;
    0xDBDB904D9690DB70; 0xA1A11FC0611FA1FE; 0x8D8D83911C838D8A; 0x3D3DC9C8F5C93D47;
    0x9797F15BCCF197A4; 0x0000000000000000; 0xCFCFD4F936D4CF4C; 0x2B2B876E45872B7D;
    0x7676B3E197B3769A; 0x8282B0E664B0829B; 0xD6D6A928FEA9D667; 0x1B1B77C3D8771B2D;
    0xB5B55B74C15BB5C2; 0xAFAF29BE1129AFEC; 0x6A6ADF1D77DF6ABE; 0x50500DEABA0D50F0;
    0x45454C57124C45CF; 0xF3F31838CB18F308; 0x3030F0AD9DF03050; 0xEFEF74C42B74EF2C;
    0x3F3FC3DAE5C33F41; 0x55551CC7921C55FF; 0xA2A210DB7910A2FB; 0xEAEA65E90365EA23;
    0x6565EC6A0FEC65AF; 0xBABA6803B968BAD3; 0x2F2F934A65932F71; 0xC0C0E78E4EE7C05D;
    0xDEDE8160BE81DE7F; 0x1C1C6CFCE06C1C24; 0xFDFD2E46BB2EFD1A; 0x4D4D641F52644DD7;
    0x9292E076E4E092AB; 0x7575BCFA8FBC759F; 0x06061E36301E060A; 0x8A8A98AE24988A83;
    0xB2B2404BF940B2CB; 0xE6E659856359E637; 0x0E0E367E70360E12; 0x1F1F63E7F8631F21;
    0x6262F75537F762A6; 0xD4D4A33AEEA3D461; 0xA8A832812932A8E5; 0x9696F452C4F496A7;
    0xF9F93A629B3AF916; 0xC5C5F6A366F6C552; 0x2525B11035B1256F; 0x595920ABF22059EB;
    0x8484AED054AE8491; 0x7272A7C5B7A77296; 0x3939DDECD5DD394B; 0x4C4C61165A614CD4;
    0x5E5E3B94CA3B5EE2; 0x7878859FE7857888; 0x3838D8E5DDD83848; 0x8C8C869814868C89;
    0xD1D1B217C6B2D16E; 0xA5A50BE4410BA5F2; 0xE2E24DA1434DE23B; 0x6161F84E2FF861A3;
    0xB3B34542F145B3C8; 0x2121A53415A52163; 0x9C9CD60894D69CB9; 0x1E1E66EEF0661E22;
    0x43435261225243C5; 0xC7C7FCB176FCC754; 0xFCFC2B4FB32BFC19; 0x040414242014040C;
    0x515108E3B20851F3; 0x9999C725BCC799B6; 0x6D6DC4224FC46DB7; 0x0D0D396568390D17;
    0xFAFA35798335FA13; 0xDFDF8469B684DF7C; 0x7E7E9BA9D79B7E82; 0x2424B4193DB4246C;
    0x3B3BD7FEC5D73B4D; 0xABAB3D9A313DABE0; 0xCECED1F03ED1CE4F; 0x1111559988551133;
    0x8F8F89830C898F8C; 0x4E4E6B044A6B4ED2; 0xB7B75166D151B7C4; 0xEBEB60E00B60EB20;
    0x3C3CCCC1FDCC3C44; 0x8181BFFD7CBF819E; 0x9494FE40D4FE94A1; 0xF7F70C1CEB0CF704;
    0xB9B96718A167B9D6; 0x13135F8B985F1335; 0x2C2C9C517D9C2C74; 0xD3D3B805D6B8D368;
    0xE7E75C8C6B5CE734; 0x6E6ECB3957CB6EB2; 0xC4C4F3AA6EF3C451; 0x03030F1B180F0305;
    0x565613DC8A1356FA; 0x4444495E1A4944CC; 0x7F7F9EA0DF9E7F81; 0xA9A937882137A9E6;
    0x2A2A82674D822A7E; 0xBBBB6D0AB16DBBD0; 0xC1C1E28746E2C15E; 0x535302F1A20253F5;
    0xDCDC8B72AE8BDC79; 0x0B0B275358270B1D; 0x9D9DD3019CD39DBA; 0x6C6CC12B47C16CB4;
    0x3131F5A495F53153; 0x7474B9F387B9749C; 0xF6F60915E309F607; 0x4646434C0A4346CA;
    0xACAC26A50926ACE9; 0x898997B53C978986; 0x141444B4A044143C; 0xE1E142BA5B42E13E;
    0x16164EA6B04E163A; 0x3A3AD2F7CDD23A4E; 0x6969D0066FD069BB; 0x09092D41482D091B;
    0x7070ADD7A7AD7090; 0xB6B6546FD954B6C7; 0xD0D0B71ECEB7D06D; 0xEDED7ED63B7EED2A;
    0xCCCCDBE22EDBCC49; 0x424257682A5742C6; 0x9898C22CB4C298B5; 0xA4A40EED490EA4F1;
    0x282888755D882878; 0x5C5C3186DA315CE4; 0xF8F83F6B933FF815; 0x8686A4C244A48697 ].

Definition old1_T7 : list Z :=
  [ 0x1878D8C078182818; 0x23AF2605AF236523; 0xC6F9B87EF9C657C6; 0xE86FFB136FE825E8;
    0x87A1CB4CA1879487; 0xB86211A962B8D5B8; 0x0105090805010301; 0x4F6E0D426E4FD14F;
    0x36EE9BADEE365A36; 0xA604FF5904A6F7A6; 0xD2BD0CDEBDD26BD2; 0xF5060EFB06F502F5;
    0x798096EF80798B79; 0x6FCE305FCE6FB16F; 0x91EF6DFCEF91AE91; 0x5207F8AA0752F652;
    0x60FD4727FD60A060; 0xBC76358976BCD9BC; 0x9BCD37ACCD9BB09B; 0x8E8C8A048C8E8F8E;
    0xA315D27115A3F8A3; 0x0C3C6C603C0C140C; 0x7B8A84FF8A7B8D7B; 0x35E180B5E1355F35;
    0x1D69F5E8691D271D; 0xE047B35347E03DE0; 0xD7AC21F6ACD764D7; 0xC2ED9C5EEDC25BC2;
    0x2E96436D962E722E; 0x4B7A29627A4BDD4B; 0xFE215DA321FE1FFE; 0x5716D5821657F957;
    0x1541BDA841153F15; 0x77B6E89FB6779977; 0x37EB92A5EB375937; 0xE5569E7B56E532E5;
    0x9FD9138CD99FBC9F; 0xF01723D317F00DF0; 0x4A7F206A7F4ADE4A; 0xDA95449E95DA73DA;
    0x5825A2FA2558E858; 0xC9CACF06CAC946C9; 0x298D7C558D297B29; 0x0A225A50220A1E0A;
    0xB14F50E14FB1CEB1; 0xA01AC9691AA0FDA0; 0x6BDA147FDA6BBD6B; 0x85ABD95CAB859285;
    0xBD733C8173BDDABD; 0x5D348FD2345DE75D; 0x1050908050103010; 0xF40307F303F401F4;
    0xCBC0DD16C0CB40CB; 0x3EC6D3EDC63E423E; 0x05112D2811050F05; 0x67E6781FE667A967;
    0xE453977353E431E4; 0x27BB0225BB276927; 0x415873325841C341; 0x8B9DA72C9D8B808B;
    0xA701F65101A7F4A7; 0x7D94B2CF947D877D; 0x95FB49DCFB95A295; 0xD89F568E9FD875D8;
    0xFB30708B30FB10FB; 0xEE71CD2371EE2FEE; 0x7C91BBC7917C847C; 0x66E37117E366AA66;
    0xDD8E7BA68EDD7ADD; 0x174BAFB84B173917; 0x474645024647C947; 0x9EDC1A84DC9EBF9E;
    0xCAC5D41EC5CA43CA; 0x2D995875992D772D; 0xBF792E9179BFDCBF; 0x071B3F381B070907;
    0xAD23AC0123ADEAAD; 0x5A2FB0EA2F5AEE5A; 0x83B5EF6CB5839883; 0x33FFB685FF335533;
    0x63F25C3FF263A563; 0x020A12100A020602; 0xAA38933938AAE3AA; 0x71A8DEAFA8719371;
    0xC8CFC60ECFC845C8; 0x197DD1C87D192B19; 0x49703B727049DB49; 0xD99A5F869AD976D9;
    0xF21D31C31DF20BF2; 0xE348A84B48E338E3; 0x5B2AB9E22A5BED5B; 0x8892BC3492888588;
    0x9AC83EA4C89AB39A; 0x26BE0B2DBE266A26; 0x32FABF8DFA325632; 0xB04A59E94AB0CDB0;
    0xE96AF21B6AE926E9; 0x0F337778330F110F; 0xD5A633E6A6D562D5; 0x80BAF474BA809D80;
    0xBE7C27997CBEDFBE; 0xCDDEEB26DECD4ACD; 0x34E489BDE4345C34; 0x4875327A7548D848;
    0xFF2454AB24FF1CFF; 0x7A8F8DF78F7A8E7A; 0x90EA64F4EA90AD90; 0x5F3E9DC23E5FE15F;
    0x20A03D1DA0206020; 0x68D50F67D568B868; 0x1A72CAD0721A2E1A; 0xAE2CB7192CAEEFAE;
    0xB45E7DC95EB4C1B4; 0x5419CE9A1954FC54; 0x93E57FECE593A893; 0x22AA2F0DAA226622;
    0x64E96307E964AC64; 0xF1122ADB12F10EF1; 0x73A2CCBFA2739573; 0x125A82905A123612;
    0x405D7A3A5D40C040; 0x0828484028081808; 0xC3E89556E8C358C3; 0xEC7BDF337BEC29EC;
    0xDB904D9690DB70DB; 0xA11FC0611FA1FEA1; 0x8D83911C838D8A8D; 0x3DC9C8F5C93D473D;
    0x97F15BCCF197A497; 0x0000000000000000; 0xCFD4F936D4CF4CCF; 0x2B876E45872B7D2B;
    0x76B3E197B3769A76; 0x82B0E664B0829B82; 0xD6A928FEA9D667D6; 0x1B77C3D8771B2D1B;
    0xB55B74C15BB5C2B5; 0xAF29BE1129AFECAF; 0x6ADF1D77DF6ABE6A; 0x500DEABA0D50F050;
    0x454C57124C45CF45; 0xF31838CB18F308F3; 0x30F0AD9DF0305030; 0xEF74C42B74EF2CEF;
    0x3FC3DAE5C33F413F; 0x551CC7921C55FF55; 0xA210DB7910A2FBA2; 0xEA65E90365EA23EA;
    0x65EC6A0FEC65AF65; 0xBA6803B968BAD3BA; 0x2F934A65932F712F; 0xC0E78E4EE7C05DC0;
    0xDE8160BE81DE7FDE; 0x1C6CFCE06C1C241C; 0xFD2E46BB2EFD1AFD; 0x4D641F52644DD74D;
    0x92E076E4E092AB92; 0x75BCFA8FBC759F75; 0x061E36301E060A06; 0x8A98AE24988A838A;
    0xB2404BF940B2CBB2; 0xE659856359E637E6; 0x0E367E70360E120E; 0x1F63E7F8631F211F;
    0x62F75537F762A662; 0xD4A33AEEA3D461D4; 0xA832812932A8E5A8; 0x96F452C4F496A796;
    0xF93A629B3AF916F9; 0xC5F6A366F6C552C5; 0x25B11035B1256F25; 0x5920ABF22059EB59;
    0x84AED054AE849184; 0x72A7C5B7A7729672; 0x39DDECD5DD394B39; 0x4C61165A614CD44C;
    0x5E3B94CA3B5EE25E; 0x78859FE785788878; 0x38D8E5DDD8384838; 0x8C869814868C898C;
    0xD1B217C6B2D16ED1; 0xA50BE4410BA5F2A5; 0xE24DA1434DE23BE2; 0x61F84E2FF861A361;
    0xB34542F145B3C8B3; 0x21A53415A5216321; 0x9CD60894D69CB99C; 0x1E66EEF0661E221E;
    0x435261225243C543; 0xC7FCB176FCC754C7; 0xFC2B4FB32BFC19FC; 0x0414242014040C04;
    0x5108E3B20851F351; 0x99C725BCC799B699; 0x6DC4224FC46DB76D; 0x0D396568390D170D;
    0xFA35798335FA13FA; 0xDF8469B684DF7CDF; 0x7E9BA9D79B7E827E; 0x24B4193DB4246C24;
    0x3BD7FEC5D73B4D3B; 0xAB3D9A313DABE0AB; 0xCED1F03ED1CE4FCE; 0x1155998855113311;
    0x8F89830C898F8C8F; 0x4E6B044A6B4ED24E; 0xB75166D151B7C4B7; 0xEB60E00B60EB20EB;
    0x3CCCC1FDCC3C443C; 0x81BFFD7CBF819E81; 0x94FE40D4FE94A194; 0xF70C1CEB0CF704F7;
    0xB96718A167B9D6B9; 0x135F8B985F133513; 0x2C9C517D9C2C742C; 0xD3B805D6B8D368D3;
    0xE75C8C6B5CE734E7; 0x6ECB3957CB6EB26E; 0xC4F3AA6EF3C451C4; 0x030F1B180F030503;
    0x5613DC8A1356FA56; 0x44495E1A4944CC44; 0x7F9EA0DF9E7F817F; 0xA937882137A9E6A9;
    0x2A82674D822A7E2A; 0xBB6D0AB16DBBD0BB; 0xC1E28746E2C15EC1; 0x5302F1A20253F553;
    0xDC8B72AE8BDC79DC; 0x0B275358270B1D0B; 0x9DD3019CD39DBA9D; 0x6CC12B47C16CB46C;
    0x31F5A495F5315331; 0x74B9F387B9749C74; 0xF60915E309F607F6; 0x46434C0A4346CA46;
    0xAC26A50926ACE9AC; 0x8997B53C97898689; 0x1444B4A044143C14; 0xE142BA5B42E13EE1;
    0x164EA6B04E163A16; 0x3AD2F7CDD23A4E3A; 0x69D0066FD069BB69; 0x092D41482D091B09;
    0x70ADD7A7AD709070; 0xB6546FD954B6C7B6; 0xD0B71ECEB7D06DD0; 0xED7ED63B7EED2AED;
    0xCCDBE22EDBCC49CC; 0x4257682A5742C642; 0x98C22CB4C298B598; 0xA40EED490EA4F1A4;
    0x2888755D88287828; 0x5C3186DA315CE45C; 0xF83F6B933FF815F8; 0x86A4C244A4869786 ].

Definition old1_RC : list Z :=
  [ 0x4F01B887E8C62318; 0x52916F79F5D2A636; 0x357B0CA38E9BBC60; 0x57FE4B2EC2D7E01D;
    0xDA4AF09FE5377715; 0x856BA0B10A29C958; 0x67053ECBF4105DBD; 0xD8957DA78B4127E4;
    0x9E4717DD667CEEFB; 0x33835AAD07BF2DCA ].
