(* ===== verification/Whirlpool.v ===== *)
(** [whirlpool.c] of sphlib: the three versions of WHIRLPOOL, which differ in their tables,
    with eight tables or, in a small footprint, with one that is rotated. The tables are
    shown to be those of the definition of the function: a substitution of bytes, followed
    by a product with a circulant matrix over the field of 256 elements. *)
From Stdlib Require Import Ascii String.
From S2P Require Import Prelude SphTypes MdHelper Rounds.
From S2P Require Import WhirlpoolTables.
Open Scope word_scope.
Open Scope Z_scope.

(** The arguments [plain], [old0] and [old1] of the macros: the tables [T0] to [T7] and the
    round constants. *)
Record tables := Tables { T : list (list Z); RC : list Z }.
Definition plain : tables :=
  Tables [plain_T0; plain_T1; plain_T2; plain_T3; plain_T4; plain_T5; plain_T6; plain_T7] plain_RC.
Definition old0 : tables :=
  Tables [old0_T0; old0_T1; old0_T2; old0_T3; old0_T4; old0_T5; old0_T6; old0_T7] old0_RC.
Definition old1 : tables :=
  Tables [old1_T0; old1_T1; old1_T2; old1_T3; old1_T4; old1_T5; old1_T6; old1_T7] old1_RC.

Definition BYTE (x n : Z) : Z := ((x >>. (8 * n)) &. 0xFFFFFFFF) &. 0xFF.
Definition table_skew (val num : Z) : Z := SPH_ROTL64 val (8 * num).

Section Macros.
(** SPH_SMALL_FOOTPRINT_WHIRLPOOL, SPH_LITTLE_FAST. *)
Context (small little_fast : bool) (type : tables).

(** [table ## j[BYTE( in ## i, j )]]. *)
Definition lookup_ (inp : list Z) (j i : nat) : Z :=
  let byte := Z.to_nat (BYTE (at_ inp i) (Z.of_nat j)) in
  if small then
    let x := at_ (nth 0 (T type) []) byte in
    if (j =? 0)%nat then x else table_skew x (Z.of_nat j)
  else at_ (nth j (T type) []) byte.

Definition ROUND_ELT (inp : list Z) (i0 i1 i2 i3 i4 i5 i6 i7 : nat) : Z :=
  lookup_ inp 0 i0 ^^ lookup_ inp 1 i1 ^^ lookup_ inp 2 i2 ^^ lookup_ inp 3 i3
  ^^ lookup_ inp 4 i4 ^^ lookup_ inp 5 i5 ^^ lookup_ inp 6 i6 ^^ lookup_ inp 7 i7.

Definition ROUND (inp : list Z) (c0 c1 c2 c3 c4 c5 c6 c7 : Z) : list Z :=
  [ ROUND_ELT inp 0 7 6 5 4 3 2 1 ^^ c0;
    ROUND_ELT inp 1 0 7 6 5 4 3 2 ^^ c1;
    ROUND_ELT inp 2 1 0 7 6 5 4 3 ^^ c2;
    ROUND_ELT inp 3 2 1 0 7 6 5 4 ^^ c3;
    ROUND_ELT inp 4 3 2 1 0 7 6 5 ^^ c4;
    ROUND_ELT inp 5 4 3 2 1 0 7 6 ^^ c5;
    ROUND_ELT inp 6 5 4 3 2 1 0 7 ^^ c6;
    ROUND_ELT inp 7 6 5 4 3 2 1 0 ^^ c7 ].

Definition ROUND_KSCHED (inp : list Z) (c : Z) : list Z := ROUND inp c 0 0 0 0 0 0 0.
Definition ROUND_WENC (inp key : list Z) : list Z :=
  ROUND inp (at_ key 0) (at_ key 1) (at_ key 2) (at_ key 3)
    (at_ key 4) (at_ key 5) (at_ key 6) (at_ key 7).

Definition READ_DATA (src : list Z) : list Z :=
  map (fun x => sph_dec64le_aligned (drop (8 * x) src)) (seq 0 8).
Definition READ_STATE (state : list Z) : list Z := map (at_ state) (seq 0 8).
Definition ROUND0 (n h : list Z) : list Z := map (fun x => at_ n x ^^ at_ h x) (seq 0 8).
(** With SPH_LITTLE_FAST the data is read again, else it was kept in [sn]. *)
Definition UPDATE_STATE (src state n sn : list Z) : list Z :=
  if little_fast then
    map (fun x => at_ state x ^^ (at_ n x ^^ sph_dec64le_aligned (drop (8 * x) src))) (seq 0 8)
  else map (fun x => at_ state x ^^ (at_ n x ^^ at_ sn x)) (seq 0 8).

(** [ROUND_FUN]: the body of [whirlpool_round] and its like. *)
Definition ROUND_FUN (src state : list Z) : list Z :=
  let n := READ_DATA src in
  let sn := n in
  let h := READ_STATE state in
  let n := ROUND0 n h in
  let '(h, n) := fold_left (fun '(h, n) r =>
    let h := ROUND_KSCHED h (at_ (RC type) r) in
    let n := ROUND_WENC n h in
    (h, n)) (seq 0 10) (h, n) in
  UPDATE_STATE src state n sn.
End Macros.

(** ** The contexts *)
Section Api.
Context (small little_fast uptr unaligned : bool).

Definition whirlpool_round := ROUND_FUN small little_fast plain.
Definition whirlpool0_round := ROUND_FUN small little_fast old0.
Definition whirlpool1_round := ROUND_FUN small little_fast old1.

(** [BE64], [BLEN 64U], [PLW4]. *)
Definition whirlpool_config : config := Config true true (Some 64%nat) false PLW4 uptr unaligned.

Definition sph_whirlpool_init (sc : context) : context := Context_ (buf sc) (replicate 8 0) 0.
Definition sph_whirlpool := sph_HASH whirlpool_config whirlpool_round.
Definition sph_whirlpool0 := sph_HASH whirlpool_config whirlpool0_round.
Definition sph_whirlpool1 := sph_HASH whirlpool_config whirlpool1_round.

(** [MAKE_CLOSE]: the engine writes no words, they are encoded here. *)
Definition MAKE_CLOSE (round : list Z -> list Z -> list Z) (sc : context) : context * list Z :=
  let '(sc, _) := HASH_close whirlpool_config round sc 0 in
  let dst := concat (map (fun i => sph_enc64le (at_ (val sc) i)) (seq 0 8)) in
  (sph_whirlpool_init sc, dst).
Definition sph_whirlpool_close := MAKE_CLOSE whirlpool_round.
Definition sph_whirlpool0_close := MAKE_CLOSE whirlpool0_round.
Definition sph_whirlpool1_close := MAKE_CLOSE whirlpool1_round.
End Api.

(** ** The definition of the function
    A state is eight rows of eight bytes. *)
Module Spec.
(** Products in the field: polynomials over bits modulo [x^8 + x^4 + x^3 + x^2 + 1]. *)
Definition xtime (x : Z) : Z := if Z.testbit x 7 then ((x <<. 1) &. 0xFF) ^^ 0x1D else x <<. 1.
Definition gmul (x y : Z) : Z :=
  fold_right (fun i acc =>
    let acc := xtime acc in if Z.testbit y (Z.of_nat i) then acc ^^ x else acc) 0 (seq 0 8).

(** A version: its substitution and the first row of its circulant matrix. *)
Record version := Version { S_ : Z -> Z; cir : list Z }.

Section Cipher.
Context (v : version).
Definition rows : Type := list (list Z).
Definition cell (st : rows) (i j : nat) : Z := nth j (nth i st []) 0.
Definition make (f : nat -> nat -> Z) : rows := map (fun i => map (f i) (seq 0 8)) (seq 0 8).

Definition SubBytes (st : rows) : rows := make (fun i j => S_ v (cell st i j)).
Definition ShiftColumns (st : rows) : rows := make (fun i j => cell st ((i + 8 - j) mod 8) j).
(** The product with the matrix whose entry [j, m] is the coefficient [m - j]. *)
Definition MixRows (st : rows) : rows := make (fun i m =>
  fold_left (fun acc j => acc ^^ gmul (cell st i j) (nth ((m + 8 - j) mod 8) (cir v) 0)) (seq 0 8) 0).
Definition AddRoundKey (key st : rows) : rows := make (fun i j => cell st i j ^^ cell key i j).

Definition round (key st : rows) : rows := AddRoundKey key (MixRows (ShiftColumns (SubBytes st))).
(** The constants: bytes of the substitution in the first row. *)
Definition constant (r : nat) : rows :=
  make (fun i j => if (i =? 0)%nat then S_ v (Z.of_nat (8 * r + j)) else 0).

Fixpoint cipher (count r : nat) (key st : rows) : rows :=
  match count with
  | O => st
  | S count =>
      let key := round (constant r) key in
      cipher count (S r) key (round key st)
  end.
Definition W (key st : rows) : rows := cipher 10 0 key (AddRoundKey key st).

(** The compression function of Miyaguchi and Preneel. *)
Definition compress (block h : rows) : rows := AddRoundKey block (AddRoundKey h (W h block)).
End Cipher.

(** The substitution of the current version and of the second one, from two small ones. *)
Definition E : list Z := [1; 11; 9; 12; 13; 6; 15; 3; 14; 8; 7; 4; 10; 2; 5; 0].
Definition E_inv (y : Z) : Z :=
  match list_find (eq y) E with Some (i, _) => Z.of_nat i | None => 0 end.
Definition R : list Z := [7; 12; 11; 13; 14; 4; 9; 15; 6; 3; 8; 10; 2; 5; 1; 0].
Definition S_box (x : Z) : Z :=
  let hi := at_ E (Z.to_nat (x >>. 4)) in
  let lo := E_inv (x &. 15) in
  let r := at_ R (Z.to_nat (hi ^^ lo)) in
  (at_ E (Z.to_nat (hi ^^ r)) <<. 4) |. E_inv (lo ^^ r).

Definition whirlpool : version := Version S_box [1; 1; 4; 1; 8; 5; 2; 9].
Definition whirlpool1 : version := Version S_box [1; 1; 3; 1; 5; 8; 9; 5].
(** The substitution of the first version, which was drawn at random. *)
Definition S_box0 : list Z :=
  [ 0x68; 0xD0; 0xEB; 0x2B; 0x48; 0x9D; 0x6A; 0xE4; 0xE3; 0xA3; 0x56; 0x81; 0x7D; 0xF1; 0x85; 0x9E;
    0x2C; 0x8E; 0x78; 0xCA; 0x17; 0xA9; 0x61; 0xD5; 0x5D; 0x0B; 0x8C; 0x3C; 0x77; 0x51; 0x22; 0x42;
    0x3F; 0x54; 0x41; 0x80; 0xCC; 0x86; 0xB3; 0x18; 0x2E; 0x57; 0x06; 0x62; 0xF4; 0x36; 0xD1; 0x6B;
    0x1B; 0x65; 0x75; 0x10; 0xDA; 0x49; 0x26; 0xF9; 0xCB; 0x66; 0xE7; 0xBA; 0xAE; 0x50; 0x52; 0xAB;
    0x05; 0xF0; 0x0D; 0x73; 0x3B; 0x04; 0x20; 0xFE; 0xDD; 0xF5; 0xB4; 0x5F; 0x0A; 0xB5; 0xC0; 0xA0;
    0x71; 0xA5; 0x2D; 0x60; 0x72; 0x93; 0x39; 0x08; 0x83; 0x21; 0x5C; 0x87; 0xB1; 0xE0; 0x00; 0xC3;
    0x12; 0x91; 0x8A; 0x02; 0x1C; 0xE6; 0x45; 0xC2; 0xC4; 0xFD; 0xBF; 0x44; 0xA1; 0x4C; 0x33; 0xC5;
    0x84; 0x23; 0x7C; 0xB0; 0x25; 0x15; 0x35; 0x69; 0xFF; 0x94; 0x4D; 0x70; 0xA2; 0xAF; 0xCD; 0xD6;
    0x6C; 0xB7; 0xF8; 0x09; 0xF3; 0x67; 0xA4; 0xEA; 0xEC; 0xB6; 0xD4; 0xD2; 0x14; 0x1E; 0xE1; 0x24;
    0x38; 0xC6; 0xDB; 0x4B; 0x7A; 0x3A; 0xDE; 0x5E; 0xDF; 0x95; 0xFC; 0xAA; 0xD7; 0xCE; 0x07; 0x0F;
    0x3D; 0x58; 0x9A; 0x98; 0x9C; 0xF2; 0xA7; 0x11; 0x7E; 0x8B; 0x43; 0x03; 0xE2; 0xDC; 0xE5; 0xB2;
    0x4E; 0xC7; 0x6D; 0xE9; 0x27; 0x40; 0xD8; 0x37; 0x92; 0x8F; 0x01; 0x1D; 0x53; 0x3E; 0x59; 0xC1;
    0x4F; 0x32; 0x16; 0xFA; 0x74; 0xFB; 0x63; 0x9F; 0x34; 0x1A; 0x2A; 0x5A; 0x8D; 0xC9; 0xCF; 0xF6;
    0x90; 0x28; 0x88; 0x9B; 0x31; 0x0E; 0xBD; 0x4A; 0xE8; 0x96; 0xA6; 0x0C; 0xC8; 0x79; 0xBC; 0xBE;
    0xEF; 0x6E; 0x46; 0x97; 0x5B; 0xED; 0x19; 0xD9; 0xAC; 0x99; 0xA8; 0x29; 0x64; 0x1F; 0xAD; 0x55;
    0x13; 0xBB; 0xF7; 0x6F; 0xB9; 0x47; 0x2F; 0xEE; 0xB8; 0x7B; 0x89; 0x30; 0xD3; 0x7F; 0x76; 0x82 ].
Definition whirlpool0 : version := Version (fun x => at_ S_box0 (Z.to_nat x)) [1; 1; 3; 1; 5; 8; 9; 5].
End Spec.

(** The rows of a block, and the hash of a message: blocks of 64 bytes, a one bit and zeros, the
    length on 32 bytes with the high ones first. *)
Definition block_rows (b : list Z) : Spec.rows := Spec.make (fun i j => at_ b (8 * i + j)).
Definition spec_hash (v : Spec.version) (m : list Z) : list Z :=
  concat (fold_left (fun h b => Spec.compress v (block_rows b) h)
    (chunks 64 (Standard.padded 64 32 true 0x80 (8 * Z.of_nat (length m)) m)) (Spec.make (fun _ _ => 0))).

(** ** The tables are those of the definition *)
Definition table_word (v : Spec.version) (j : nat) (x : Z) : Z :=
  load_le (map (fun m => Spec.gmul (Spec.S_ v x) (nth ((m + 8 - j) mod 8) (Spec.cir v) 0)) (seq 0 8)).
Definition bytes : list Z := map Z.of_nat (seq 0 256).
Definition tables_of (v : Spec.version) : tables :=
  Tables (map (fun j => map (table_word v j) bytes) (seq 0 8))
    (map (fun r => load_le (map (fun j => Spec.S_ v (Z.of_nat (8 * r + j))) (seq 0 8))) (seq 0 10)).

(** What is checked by evaluation, on all entries: the tables, those of the small
    footprint, and that products and substitutions are bytes. *)
Definition is_byte (x : Z) : bool := (0 <=? x) && (x <? 256).
Definition checks (v : Spec.version) : bool :=
  forallb (fun j => bool_decide (map (fun w => table_skew w (Z.of_nat j)) (map (table_word v 0) bytes) =
    map (table_word v j) bytes)) (seq 1 7) &&
  forallb (fun x => is_byte (Spec.S_ v x) && forallb (fun c => is_byte (Spec.gmul (Spec.S_ v x) c)) (Spec.cir v))
    bytes && (length (Spec.cir v) =? 8)%nat.

Definition built (type : tables) (v : Spec.version) : Prop :=
  T type = T (tables_of v) /\ RC type = RC (tables_of v) /\ checks v = true.
Lemma plain_built : built plain Spec.whirlpool.
Proof. split; [|split]; apply (bool_decide_unpack _); vm_compute; exact I. Qed.
Lemma old0_built : built old0 Spec.whirlpool0.
Proof. split; [|split]; apply (bool_decide_unpack _); vm_compute; exact I. Qed.
Lemma old1_built : built old1 Spec.whirlpool1.
Proof. split; [|split]; apply (bool_decide_unpack _); vm_compute; exact I. Qed.

(** ** Bytes of words *)
Lemma BYTE_byte x n : BYTE x n = byte (x >>. (8 * n)).
Proof. unfold BYTE, byte. by rewrite <- Z.land_assoc. Qed.
Lemma BYTE_range x n : 0 <= BYTE x n < 256.
Proof. rewrite BYTE_byte. apply byte_range. Qed.
Lemma BYTE_lxor x y n : BYTE (x ^^ y) n = BYTE x n ^^ BYTE y n.
Proof.
  rewrite !BYTE_byte, Z.shiftr_lxor. apply Z.bits_inj'. intros i Hi.
  rewrite Z.lxor_spec, !testbit_byte, Z.lxor_spec by done. by destruct (i <? 8).
Qed.
Lemma BYTE_0 n : BYTE 0 n = 0.
Proof. unfold BYTE. by rewrite Z.shiftr_0_l. Qed.

Lemma BYTE_load_le bs n :
  Forall (fun b => 0 <= b < 256) bs -> BYTE (load_le bs) (Z.of_nat n) = at_ bs n.
Proof.
  intros Hb. revert n. induction Hb as [|b bs Hb0 Hb IH]; intros n; cbn [load_le].
  { rewrite BYTE_0. by destruct n. }
  destruct n as [|n].
  - rewrite BYTE_byte, Z.shiftr_0_r. apply Z.bits_inj'. intros i Hi.
    rewrite testbit_byte, Z.lor_spec, Z.shiftl_spec by done. cbn [at_ nth].
    destruct (Z.ltb_spec i 8); [rewrite (Z.testbit_neg_r _ (i - 8)) by lia; apply orb_false_r|].
    by rewrite (testbit_small b 8) by lia.
  - rewrite BYTE_byte. replace (8 * Z.of_nat (S n)) with (8 + 8 * Z.of_nat n) by lia.
    rewrite <- Z.shiftr_shiftr, Z.shiftr_lor, Z.shiftr_shiftl_l, Z.shiftl_0_r by lia.
    replace (b >>. 8) with 0 by (symmetry; rewrite Z.shiftr_div_pow2 by lia; apply Z.div_small; lia).
    rewrite Z.lor_0_l, <- BYTE_byte. apply IH.
Qed.

(** ** Cells of states *)
Lemma length_bytes : length bytes = 256%nat.
Proof. reflexivity. Qed.
Lemma nth_bytes b d : 0 <= b < 256 -> nth (Z.to_nat b) bytes d = b.
Proof.
  intros Hb. rewrite (nth_indep _ d (Z.of_nat 0)) by (rewrite length_bytes; lia).
  unfold bytes. rewrite map_nth, seq_nth by lia. lia.
Qed.
Lemma in_bytes b : 0 <= b < 256 -> In b bytes.
Proof. intros Hb. rewrite <- (nth_bytes b 0 Hb). apply nth_In. rewrite length_bytes. lia. Qed.
Lemma T_tables_of v : T (tables_of v) = map (fun j => map (table_word v j) bytes) (seq 0 8).
Proof. reflexivity. Qed.
Lemma RC_tables_of v : RC (tables_of v) =
  map (fun r => load_le (map (fun j => Spec.S_ v (Z.of_nat (8 * r + j))) (seq 0 8))) (seq 0 10).
Proof. reflexivity. Qed.
#[local] Opaque bytes tables_of.

Lemma nth_map_seq {A} (f : nat -> A) n i d : (i < n)%nat -> nth i (map f (seq 0 n)) d = f i.
Proof.
  intros Hi. rewrite (nth_indep _ d (f 0%nat)) by (rewrite length_map, length_seq; lia).
  rewrite map_nth, seq_nth by lia. done.
Qed.
Lemma cell_make f i j : (i < 8)%nat -> (j < 8)%nat -> Spec.cell (Spec.make f) i j = f i j.
Proof. intros Hi Hj. unfold Spec.cell, Spec.make. by rewrite !nth_map_seq. Qed.
Lemma make_ext f g :
  (forall i j, (i < 8)%nat -> (j < 8)%nat -> f i j = g i j) -> Spec.make f = Spec.make g.
Proof.
  intros H. unfold Spec.make. apply map_ext_in. intros i Hi%in_seq. apply map_ext_in.
  intros j Hj%in_seq. apply H; lia.
Qed.

(** The state that eight words hold. *)
Definition word_row (x : Z) : list Z := map (fun n => BYTE x (Z.of_nat n)) (seq 0 8).
Definition rows_of (ws : list Z) : Spec.rows := Spec.make (fun i j => BYTE (at_ ws i) (Z.of_nat j)).

Lemma below_8 (P : nat -> Prop) :
  P 0%nat -> P 1%nat -> P 2%nat -> P 3%nat -> P 4%nat -> P 5%nat -> P 6%nat -> P 7%nat ->
  forall i, (i < 8)%nat -> P i.
Proof. intros. do 8 (destruct i as [|i]; [done|]). lia. Qed.

Section Round.
Context (small : bool) (type : tables) (v : Spec.version) (Hv : built type v).

Lemma checks_ok :
  length (Spec.cir v) = 8%nat /\
  (forall j x, (0 < j < 8)%nat -> 0 <= x < 256 ->
     table_skew (table_word v 0 x) (Z.of_nat j) = table_word v j x) /\
  (forall x, 0 <= x < 256 -> 0 <= Spec.S_ v x < 256 /\
     forall c, In c (Spec.cir v) -> 0 <= Spec.gmul (Spec.S_ v x) c < 256).
Proof.
  destruct Hv as (_ & _ & H). unfold checks in H.
  apply andb_prop in H as [[H1 H2]%andb_prop H3]. apply Nat.eqb_eq in H3.
  rewrite forallb_forall in H1, H2.
  assert (Hin : forall x, is_byte x = true -> 0 <= x < 256).
  { intros x [?%Z.leb_le ?%Z.ltb_lt]%andb_prop. lia. }
  split; [done|]. split.
  - intros j x Hj Hx. specialize (H1 j ltac:(apply in_seq; lia)).
    apply bool_decide_eq_true_1 in H1. rewrite map_map in H1.
    apply (ext_in_map H1). by apply in_bytes.
  - intros x Hx. specialize (H2 x (in_bytes x Hx)). apply andb_prop in H2 as [H2 H4].
    split; [by apply Hin|]. rewrite forallb_forall in H4. intros c Hc. apply Hin, H4, Hc.
Qed.

Lemma lookup_word inp j i :
  (j < 8)%nat ->
  lookup_ small type inp j i = table_word v j (BYTE (at_ inp i) (Z.of_nat j)).
Proof.
  intros Hj. pose proof (BYTE_range (at_ inp i) (Z.of_nat j)) as Hb. unfold lookup_.
  set (b := BYTE _ _) in *. destruct Hv as (-> & _ & _). destruct checks_ok as (_ & Hs & _).
  assert (E : forall k, (k < 8)%nat ->
    at_ (nth k (T (tables_of v)) []) (Z.to_nat b) = table_word v k b).
  { intros k Hk. rewrite T_tables_of, nth_map_seq by done. unfold at_.
    rewrite (nth_indep _ 0 (table_word v k 0)) by (rewrite length_map, length_bytes; lia).
    by rewrite map_nth, nth_bytes. }
  destruct small; [|by apply E]. rewrite E by lia.
  destruct (Nat.eqb_spec j 0) as [->|]; [done|]. apply Hs; lia.
Qed.

(** A byte of a table entry. *)
Lemma BYTE_table_word j x m :
  (m < 8)%nat -> 0 <= x < 256 ->
  BYTE (table_word v j x) (Z.of_nat m) = Spec.gmul (Spec.S_ v x) (nth ((m + 8 - j) mod 8) (Spec.cir v) 0).
Proof.
  intros Hm Hx. destruct checks_ok as (Hl & _ & Hg). unfold table_word. rewrite BYTE_load_le.
  - unfold at_. by rewrite nth_map_seq.
  - apply Forall_forall. intros y Hy. apply in_map_iff in Hy as (k & <- & _).
    apply Hg; [done|]. apply nth_In. rewrite Hl. apply Nat.mod_upper_bound. lia.
Qed.

Definition elt (st : Spec.rows) (i m : nat) : Z :=
  fold_left (fun acc j => acc ^^ Spec.gmul (Spec.S_ v (Spec.cell st ((i + 8 - j) mod 8) j))
    (nth ((m + 8 - j) mod 8) (Spec.cir v) 0)) (seq 0 8) 0.

Lemma round_elt key st :
  Spec.round v key st = Spec.make (fun i m => elt st i m ^^ Spec.cell key i m).
Proof.
  unfold Spec.round, Spec.AddRoundKey. apply make_ext. intros i m Hi Hm. f_equal.
  unfold Spec.MixRows. rewrite cell_make by done. unfold elt.
  assert (E : forall l acc, (forall j, In j l -> (j < 8)%nat) ->
    fold_left (fun acc j => acc ^^ Spec.gmul
      (Spec.cell (Spec.ShiftColumns (Spec.SubBytes v st)) i j)
      (nth ((m + 8 - j) mod 8) (Spec.cir v) 0)) l acc =
    fold_left (fun acc j => acc ^^ Spec.gmul (Spec.S_ v (Spec.cell st ((i + 8 - j) mod 8) j))
      (nth ((m + 8 - j) mod 8) (Spec.cir v) 0)) l acc).
  { induction l as [|j l IH]; intros acc Hl; [done|]. cbn [fold_left].
    rewrite IH by (intros; apply Hl; by right). do 3 f_equal.
    specialize (Hl j ltac:(by left)). unfold Spec.ShiftColumns. rewrite cell_make by done.
    unfold Spec.SubBytes. rewrite cell_make; [done|apply Nat.mod_upper_bound; lia|done]. }
  apply E. intros j Hj%in_seq. lia.
Qed.

Lemma ROUND_ELT_byte inp i m i0 i1 i2 i3 i4 i5 i6 i7 :
  (i < 8)%nat -> (m < 8)%nat ->
  [i0; i1; i2; i3; i4; i5; i6; i7] = map (fun j => (i + 8 - j) mod 8)%nat (seq 0 8) ->
  BYTE (ROUND_ELT small type inp i0 i1 i2 i3 i4 i5 i6 i7) (Z.of_nat m) = elt (rows_of inp) i m.
Proof.
  intros Hi Hm E. unfold ROUND_ELT. rewrite !BYTE_lxor, !lookup_word by lia.
  rewrite !BYTE_table_word by (done || apply BYTE_range).
  unfold elt. cbn [seq fold_left]. rewrite Z.lxor_0_l.
  cbn [seq map] in E. injection E as -> -> -> -> -> -> -> ->.
  unfold rows_of. rewrite !cell_make by (lia || (apply Nat.mod_upper_bound; lia)). done.
Qed.

(** The macro is a round of the definition, with the key in words. *)
Lemma ROUND_rows inp c0 c1 c2 c3 c4 c5 c6 c7 :
  rows_of (ROUND small type inp c0 c1 c2 c3 c4 c5 c6 c7) =
  Spec.round v (rows_of [c0; c1; c2; c3; c4; c5; c6; c7]) (rows_of inp).
Proof.
  rewrite round_elt. unfold rows_of at 1. apply make_ext. intros i m Hi Hm.
  unfold rows_of at 2. rewrite cell_make by done.
  revert i Hi. apply below_8; unfold ROUND, at_; cbn [nth]; rewrite BYTE_lxor; f_equal;
    apply ROUND_ELT_byte; (lia || reflexivity).
Qed.

Lemma rows_of_8 ws :
  rows_of [at_ ws 0; at_ ws 1; at_ ws 2; at_ ws 3; at_ ws 4; at_ ws 5; at_ ws 6; at_ ws 7] = rows_of ws.
Proof. apply make_ext. intros i m Hi Hm. revert i Hi. by apply below_8. Qed.

Lemma rows_constant r :
  (r < 10)%nat -> rows_of [at_ (RC type) r; 0; 0; 0; 0; 0; 0; 0] = Spec.constant v r.
Proof.
  intros Hr. destruct Hv as (_ & HRC & _). destruct checks_ok as (_ & _ & Hg).
  apply make_ext. intros i m Hi Hm. revert i Hi.
  apply below_8; cbn [at_ nth Nat.eqb]; rewrite ?BYTE_0; try done.
  rewrite HRC, RC_tables_of. unfold at_. rewrite nth_map_seq by done.
  rewrite BYTE_load_le; [unfold at_; by rewrite nth_map_seq|].
  apply Forall_forall. intros y Hy. apply in_map_iff in Hy as (j & <- & Hj%in_seq). apply Hg. lia.
Qed.

#[local] Opaque ROUND Spec.round Spec.constant rows_of.

Definition step_ (st : list Z * list Z) (r : nat) : list Z * list Z :=
  let h := ROUND_KSCHED small type st.1 (at_ (RC type) r) in
  (h, ROUND_WENC small type st.2 h).

Lemma step_rows h n r :
  (r < 10)%nat ->
  let key := Spec.round v (Spec.constant v r) (rows_of h) in
  rows_of (step_ (h, n) r).1 = key /\ rows_of (step_ (h, n) r).2 = Spec.round v key (rows_of n).
Proof.
  intros Hr key. unfold step_. cbn [fst snd].
  assert (E : rows_of (ROUND_KSCHED small type h (at_ (RC type) r)) = key).
  { unfold ROUND_KSCHED. rewrite ROUND_rows, rows_constant by done. done. }
  split; [exact E|]. unfold ROUND_WENC. rewrite ROUND_rows, rows_of_8, E. done.
Qed.

Lemma cipher_S count r key st :
  Spec.cipher v (S count) r key st =
  Spec.cipher v count (S r) (Spec.round v (Spec.constant v r) key)
    (Spec.round v (Spec.round v (Spec.constant v r) key) st).
Proof. reflexivity. Qed.

Lemma rounds_cipher count r st :
  (r + count <= 10)%nat ->
  rows_of (fold_left step_ (seq r count) st).2 = Spec.cipher v count r (rows_of st.1) (rows_of st.2).
Proof.
  revert r st. induction count as [|count IH]; intros r st Hr; [done|].
  rewrite cipher_S. destruct st as [h n]. destruct (step_rows h n r) as [E1 E2]; [lia|].
  cbn [fst snd] in *. rewrite <- E2, <- E1. apply IH. lia.
Qed.
End Round.

(** ** The compression function *)
Lemma BYTE_enc64le x n : (n < 8)%nat -> BYTE x (Z.of_nat n) = at_ (sph_enc64le x) n.
Proof.
  intros Hn. rewrite BYTE_byte. revert n Hn. by apply below_8.
Qed.

Lemma dec64le_load src : (8 <= length src)%nat -> sph_dec64le_aligned src = load_le (take 8 src).
Proof. reflexivity. Qed.

Lemma block_byte src i j :
  is_bytes src -> length src = 64%nat -> (i < 8)%nat -> (j < 8)%nat ->
  BYTE (sph_dec64le_aligned (drop (8 * i) src)) (Z.of_nat j) = at_ src (8 * i + j).
Proof.
  intros Hb Hl Hi Hj. rewrite dec64le_load by (rewrite length_drop; lia).
  rewrite BYTE_load_le by by apply Forall_take, Forall_drop.
  rewrite at_take by done. unfold at_. rewrite <- (take_drop (8 * i) src) at 2.
  rewrite app_nth2 by (rewrite length_take; lia). f_equal. rewrite length_take. lia.
Qed.

(** The words written at the end are the rows. *)
Lemma enc_rows ws :
  concat (map (fun i => sph_enc64le (at_ ws i)) (seq 0 8)) = concat (rows_of ws).
Proof.
  f_equal. unfold rows_of, Spec.make. apply map_ext_in. intros i _.
  transitivity (map (at_ (sph_enc64le (at_ ws i))) (seq 0 8)); [reflexivity|].
  apply map_ext_in. intros j Hj%in_seq. rewrite BYTE_enc64le by lia. done.
Qed.

Lemma rows_zero : rows_of (replicate 8 0) = Spec.make (fun _ _ => 0).
Proof. apply make_ext. intros i j Hi _. revert i Hi. apply below_8; apply BYTE_0. Qed.

Section Block.
Context (small little_fast : bool) (type : tables) (v : Spec.version) (Hv : built type v).

Lemma at_map_seq f i : (i < 8)%nat -> at_ (map f (seq 0 8)) i = f i.
Proof. intros Hi. unfold at_. by apply nth_map_seq. Qed.

Lemma ROUND_FUN_steps src state :
  ROUND_FUN small little_fast type src state =
  UPDATE_STATE little_fast src state
    (fold_left (step_ small type) (seq 0 10)
      (READ_STATE state, ROUND0 (READ_DATA src) (READ_STATE state))).2 (READ_DATA src).
Proof.
  unfold ROUND_FUN.
  assert (E : forall l st, fold_left (fun '(h, n) r =>
      let h := ROUND_KSCHED small type h (at_ (RC type) r) in
      let n := ROUND_WENC small type n h in (h, n)) l st = fold_left (step_ small type) l st).
  { induction l as [|r l IH]; intros st; [done|]. destruct st as [h n]. apply IH. }
  cbv zeta in *. rewrite E. by destruct (fold_left _ _ _).
Qed.

Lemma W_cipher key st : Spec.W v key st = Spec.cipher v 10 0 key (Spec.AddRoundKey key st).
Proof. reflexivity. Qed.
#[local] Opaque Spec.W Spec.cipher fold_left.

Definition steps_ (src state : list Z) : list Z :=
  (fold_left (step_ small type) (seq 0 10) (READ_STATE state, ROUND0 (READ_DATA src) (READ_STATE state))).2.

Lemma steps_W src state :
  is_bytes src -> length src = 64%nat ->
  rows_of (steps_ src state) = Spec.W v (rows_of state) (block_rows src).
Proof.
  intros Hb Hl. unfold steps_.
  rewrite (rounds_cipher small type v Hv 10 0) by lia. rewrite W_cipher. cbn [fst snd].
  assert (Eh : rows_of (READ_STATE state) = rows_of state)
    by (apply make_ext; intros i j Hi Hj; unfold READ_STATE; by rewrite at_map_seq).
  assert (En : rows_of (ROUND0 (READ_DATA src) (READ_STATE state)) =
    Spec.AddRoundKey (rows_of state) (block_rows src)).
  { apply make_ext. intros i j Hi Hj. unfold ROUND0, READ_DATA, READ_STATE.
    rewrite !at_map_seq, BYTE_lxor, block_byte by done. unfold rows_of, block_rows.
    by rewrite !cell_make. }
  by rewrite Eh, En.
Qed.

Lemma update_rows src state n :
  is_bytes src -> length src = 64%nat ->
  rows_of (UPDATE_STATE little_fast src state n (READ_DATA src)) =
  Spec.AddRoundKey (block_rows src) (Spec.AddRoundKey (rows_of state) (rows_of n)).
Proof.
  intros Hb Hl. apply make_ext. intros i j Hi Hj.
  unfold Spec.AddRoundKey, block_rows, rows_of. rewrite !cell_make by done.
  unfold UPDATE_STATE, READ_DATA.
  destruct little_fast; rewrite !at_map_seq, !BYTE_lxor, block_byte by done;
    by rewrite <- Z.lxor_assoc, (Z.lxor_comm (BYTE (at_ state i) _)).
Qed.

(** A block updates the state as the definition says, with either way to keep the data. *)
Lemma block_compress src state :
  is_bytes src -> length src = 64%nat ->
  rows_of (ROUND_FUN small little_fast type src state) =
  Spec.compress v (block_rows src) (rows_of state).
Proof.
  intros Hb Hl. rewrite ROUND_FUN_steps. fold (steps_ src state).
  by rewrite update_rows, steps_W.
Qed.
#[local] Transparent fold_left.
#[local] Opaque ROUND_FUN Spec.compress rows_of block_rows.

Lemma fold_left_step {A B} (f : A -> B -> A) b bs a : fold_left f bs (f a b) = fold_left f (b :: bs) a.
Proof. reflexivity. Qed.

Lemma absorb_rows bs state :
  Forall is_bytes bs -> Forall (fun b => length b = 64%nat) bs ->
  rows_of (fold_left (fun s b => ROUND_FUN small little_fast type b s) bs state) =
  fold_left (fun h b => Spec.compress v (block_rows b) h) bs (rows_of state).
Proof.
  intros Hb. revert state. induction Hb as [|b bs Hb0 Hb IH]; intros state Hl; [reflexivity|].
  apply Forall_cons_iff in Hl as [Hl0 Hl].
  rewrite <- (fold_left_step (fun h b => Spec.compress v (block_rows b) h)).
  rewrite <- (block_compress b state Hb0 Hl0).
  rewrite <- (fold_left_step (fun s b => ROUND_FUN small little_fast type b s)).
  exact (IH _ Hl).
Qed.

(** A context that is initialised, updated in pieces and closed. *)
Lemma close_spec uptr unaligned buf0 ds :
  let round := ROUND_FUN small little_fast type in
  let config := whirlpool_config uptr unaligned in
  length buf0 = 64%nat -> is_bytes (concat (map snd ds)) ->
  Z.of_nat (length (concat (map snd ds))) < 2 ^ 64 ->
  (MAKE_CLOSE uptr unaligned round
     (updates config round (sph_whirlpool_init (Context_ buf0 [] 0)) ds)).2 =
  spec_hash v (concat (map snd ds)).
Proof.
  intros round config Hb Hm Hl. unfold MAKE_CLOSE, HASH_close, sph_whirlpool_init. cbn [buf].
  pose proof (stream_val config round round eq_refl (fun _ _ _ _ => eq_refl) (replicate 8 0) 0
    buf0 ds 0 0 Hb Hm ltac:(lia) Hl) as E.
  fold config. destruct (addbits_and_close config round _ 0 0 0) as [sc dst]. cbn [fst snd] in *.
  rewrite enc_rows, E. unfold spec_hash, absorb. f_equal.
  assert (Hp : is_bytes (pad config (concat (map snd ds)) 0 0)) by by apply is_bytes_pad.
  assert (Ep : pad config (concat (map snd ds)) 0 0 =
    Standard.padded 64 32 true 0x80 (8 * Z.of_nat (length (concat (map snd ds)))) (concat (map snd ds))).
  { rewrite pad_standard by done. by rewrite Z.add_0_r. }
  rewrite <- Ep.
  rewrite absorb_rows; [|by apply is_bytes_chunks|apply (chunks_lengths 64); lia].
  by rewrite rows_zero.
Qed.
End Block.

(** ** Answers of the test program [test_whirlpool.c]
    For each version a message or two with the digest, read as one number. *)
Definition whirlpool_vectors : list (string * Z) :=
  [ (""%string,
     0x19FA61D75522A4669B44E39C1D2E1726C530232130D407F89AFEE0964997F7A73E83BE698B288FEBCF88E3E03C4F0757EA8964E59B63D93708B138CC42A66EB3);
    ("message digest"%string,
     0x378C84A4126E2DC6E56DCC7458377AAC838D00032230F53CE1F5700C0FFB4D3B8421557659EF55C106B4B52AC5A4AAA692ED920052838F3362E86DBD37A8903E) ].
Definition whirlpool0_vectors : list (string * Z) :=
  [ (""%string,
     0xB3E1AB6EAF640A34F784593F2074416ACCD3B8E62C620175FCA0997B1BA2347339AA0D79E754C308209EA36811DFA40C1C32F1A2B9004725D987D3635165D3C8) ].
Definition whirlpool1_vectors : list (string * Z) :=
  [ (""%string,
     0x470F0409ABAA446E49667D4EBE12A14387CEDBD10DD17B8243CAD550A089DC0FEEA7AA40F6C2AAAB71C6EBD076E43C7CFCA0AD32567897DCB5969861049A0F5A) ].
Definition answers (v : Spec.version) (vectors : list (string * Z)) : Prop :=
  Forall (fun p => spec_hash v (map (fun a => Z.of_N (Ascii.N_of_ascii a)) (String.list_ascii_of_string p.1)) =
    Standard.big 64 p.2) vectors.

Lemma definition_answers :
  answers Spec.whirlpool whirlpool_vectors /\ answers Spec.whirlpool0 whirlpool0_vectors /\
  answers Spec.whirlpool1 whirlpool1_vectors.
Proof.
  split; [|split]; apply (bool_decide_unpack (answers _ _)); vm_compute; exact I.
Qed.

(** C38: WHIRLPOOL computes its definition, in the build with 64-bit words on a little-endian
    machine. A context of any of the three versions, initialised with whatever it held before,
    updated with buffers anywhere in memory and closed, gives the hash of the concatenated
    message, which has less than [2^64] bytes, after the definition: byte substitution, column
    shift, product with a circulant matrix over the field of 256 elements, in the mode of
    Miyaguchi and Preneel, over the message padded to blocks of 64 bytes with its length on the
    last 32, all of it written out apart from the code. This is so with the eight tables and with
    one, and in either way to keep the data. The substitution of two of the versions is composed of
    two small ones, as published; that of the first one is data, and the definition itself gives
    the digests of the repository's test program, four of which are evaluated. *)
Theorem whirlpool_stream small little_fast uptr unaligned sc0 ds :
  length (buf sc0) = 64%nat -> is_bytes (concat (map snd ds)) ->
  Z.of_nat (length (concat (map snd ds))) < 2 ^ 64 ->
  let m := concat (map snd ds) in
  let config := whirlpool_config uptr unaligned in
  let sc := sph_whirlpool_init sc0 in
  let run round := updates config (round small little_fast) sc ds in
  (sph_whirlpool_close small little_fast uptr unaligned (run whirlpool_round)).2 =
    spec_hash Spec.whirlpool m /\
  (sph_whirlpool0_close small little_fast uptr unaligned (run whirlpool0_round)).2 =
    spec_hash Spec.whirlpool0 m /\
  (sph_whirlpool1_close small little_fast uptr unaligned (run whirlpool1_round)).2 =
    spec_hash Spec.whirlpool1 m /\
  answers Spec.whirlpool whirlpool_vectors /\ answers Spec.whirlpool0 whirlpool0_vectors /\
  answers Spec.whirlpool1 whirlpool1_vectors.
Proof.
  intros Hb Hm Hl m config sc run.
  exact (conj (close_spec small little_fast plain Spec.whirlpool plain_built uptr unaligned (buf sc0) ds Hb Hm Hl)
    (conj (close_spec small little_fast old0 Spec.whirlpool0 old0_built uptr unaligned (buf sc0) ds Hb Hm Hl)
      (conj (close_spec small little_fast old1 Spec.whirlpool1 old1_built uptr unaligned (buf sc0) ds Hb Hm Hl)
        definition_answers))).
Qed.

(** The message [abc], in two pieces; its digest is one of the repository's test program. *)
Lemma whirlpool_stream_witness :
  let sc := sph_whirlpool_init (Context_ (replicate 64 1) [] 7) in
  let run round := updates (whirlpool_config true false) round sc [(1, [97; 98]); (6, [99])] in
  (sph_whirlpool_close false true true false (run (whirlpool_round false true))).2 =
    spec_hash Spec.whirlpool [97; 98; 99] /\
  spec_hash Spec.whirlpool [97; 98; 99] = sph_enc64be 0x4E2448A4C6F486BB ++
    sph_enc64be 0x16B6562C73B4020B ++ sph_enc64be 0xF3043E3A731BCE72 ++
    sph_enc64be 0x1AE1B303D97E6D4C ++ sph_enc64be 0x7181EEBDB6C57E27 ++
    sph_enc64be 0x7D0E34957114CBD6 ++ sph_enc64be 0xC797FC9D95D8B582 ++
    sph_enc64be 0xD225292076D4EEF5.
Proof.
  split; [|vm_compute; reflexivity].
  refine (proj1 (whirlpool_stream false true true false (Context_ (replicate 64 1) [] 7)
    [(1, [97; 98]); (6, [99])] _ _ _)); [reflexivity|cbn; repeat constructor; lia|reflexivity].
Defined.
