(* ===== verification/Vectors.v ===== *)
(** The shorter and the older hash functions of sphlib: known answers, the vectors and the
    collisions of the test programs ([test_*.c]), evaluated on the models; and what they
    compute, in one statement. *)
From Stdlib Require Import Ascii String.
From S2P Require Import Prelude SphTypes MdHelper Sha2Big Sha2 Sha1 Sha0 Md4 Md5 Ripemd Tiger.

(** The bytes of a string, and of its hexadecimal notation ([utest_strtobin]). *)
Definition bytes_of (s : string) : list Z :=
  map (fun a => Z.of_N (N_of_ascii a)) (list_ascii_of_string s).

Definition digit (c : Z) : Z := if c <? 58 then c - 48 else c - 87.

Fixpoint pairs (l : list Z) : list Z :=
  match l with
  | a :: b :: l => (16 * digit a + digit b) :: pairs l
  | _ => []
  end.
Definition utest_strtobin (s : string) : list Z := pairs (bytes_of s).

(** A hash as the tests call it: one update, then the closing function with the bits left. *)
Definition run (c : config) (round : list Z -> list Z -> list Z) (iv : list Z) (rnum : nat)
    (m : list Z) (ub n : Z) : list Z :=
  snd (addbits_and_close c round
         (sph_HASH c round (Context_ (replicate (SPH_BLEN c) 0) iv 0) 1 m) ub n rnum).

Definition eq_bytes (a b : list Z) : bool := bool_decide (a = b).

(** [TEST_DIGEST_INTERNAL], [TEST_DIGEST_INTERNAL_BITS] and [TEST_COLLISION]. *)
Definition test_internal (h : list Z -> Z -> Z -> list Z) (v : string * string) : bool :=
  eq_bytes (h (bytes_of v.1) 0 0) (utest_strtobin v.2).
Definition test_internal_bits (h : list Z -> Z -> Z -> list Z) (v : string * Z * string) : bool :=
  let '(data, ignored, res) := v in
  let m := utest_strtobin data in
  eq_bytes
    (if ignored =? 0 then h m 0 0
     else h (take (length m - 1) m) (at_ m (length m - 1)) (8 - ignored))
    (utest_strtobin res).
Definition test_collision (h : list Z -> Z -> Z -> list Z) (v : string * string) : bool :=
  let m1 := utest_strtobin v.1 in
  let m2 := utest_strtobin v.2 in
  negb (eq_bytes m1 m2) && eq_bytes (h m1 0 0) (h m2 0 0).

Definition sha224_small_hash : list Z -> Z -> Z -> list Z :=
  run (sha224_config true true) (sha2_round true) H224 7.
Definition sha224_hash : list Z -> Z -> Z -> list Z :=
  run (sha224_config true true) (sha2_round false) H224 7.
Definition sha224_vectors : list (string * string) :=
  [ ("abc"%string,
     "23097d223405d8228642a477bda255b32aadbce4bda0b3f7e36c9da7"%string);
    ("abcdbcdecdefdefgefghfghighijhijkijkljklmklmnlmnomnopnopq"%string,
     "75388b16512776cc5dba5da1fd890150b0c6455cb4f58b1952522525"%string) ].
Definition sha224_bits_vectors : list (string * Z * string) :=
  [ ("68"%string, 3,
     "e3b048552c3c387bcab37f6eb06bb79b96a4aee5ff27f51531a9551c"%string);
    ("07"%string, 0,
     "00ecd5f138422b8ad74c9799fd826c531bad2fcabc7450bee2aa8c2a"%string);
    ("f07006f25a0bea68cd76a29587c28da0"%string, 5,
     "1b01db6cb4a9e43ded1516beb3db0b87b6d1ea43187462c608137150"%string);
    ("18804005dd4fbd1556299d6f9d93df62"%string, 0,
     "df90d78aa78821c99b40ba4c966921accd8ffb1e98ac388e56191db1"%string);
    ("a2be6e463281090294d9ce94826569423a3a305ed5e2116cd4a4c987fc0657006491b149ccd4b51130ac62b19dc248c744543d20cd3952dced1f06cc3b18b91f3f55633ecc3085f4907060d2e0"%string, 5,
     "54bea6eab8195a2eb0a7906a4b4a876666300eefbd1f3b8474f9cd57"%string) ].

Definition sha256_small_hash : list Z -> Z -> Z -> list Z :=
  run (sha224_config true true) (sha2_round true) H256 8.
Definition sha256_hash : list Z -> Z -> Z -> list Z :=
  run (sha224_config true true) (sha2_round false) H256 8.
Definition sha256_vectors : list (string * string) :=
  [ ("abc"%string,
     "ba7816bf8f01cfea414140de5dae2223b00361a396177a9cb410ff61f20015ad"%string);
    ("abcdbcdecdefdefgefghfghighijhijkijkljklmklmnlmnomnopnopq"%string,
     "248d6a61d20638b8e5c026930c3e6039a33ce45964ff2167f6ecedd419db06c1"%string) ].
Definition sha256_bits_vectors : list (string * Z * string) :=
  [ ("68"%string, 3,
     "d6d3e02a31a84a8caa9718ed6c2057be09db45e7823eb5079ce7a573a3760f95"%string);
    ("19"%string, 0,
     "68aa2e2ee5dff96e3355e6c7ee373e3d6a4e17f75f9518d843709c0c9bc3e3d4"%string);
    ("be2746c6db52765fdb2f88700f9a7360"%string, 5,
     "77ec1dc89c821ff2a1279089fa091b35b8cd960bcaf7de01c6a7680756beb972"%string);
    ("e3d72570dcdd787ce3887ab2cd684652"%string, 0,
     "175ee69b02ba9b58e2b0a5fd13819cea573f3940a94f825128cf4209beabb4e8"%string);
    ("3e740371c810c2b99fc04e804907ef7cf26be28b57cb58a3e2f3c007166e49c12e9ba34c0104069129ea7615642545703a2bd901e16eb0e05deba014ebff6406a07d54364eff742da779b0b3a0"%string, 5,
     "3e9ad6468bbbad2ac3c2cdc292e018ba5fd70b960cf1679777fce708fdb066e9"%string) ].

Definition sha384_hash : list Z -> Z -> Z -> list Z :=
  run (sha384_config true true) sha3_round H384 6.
Definition sha384_vectors : list (string * string) :=
  [ ("abc"%string,
     "cb00753f45a35e8bb5a03d699ac65007272c32ab0eded1631a8b605a43ff5bed8086072ba1e7cc2358baeca134c825a7"%string);
    ("abcdefghbcdefghicdefghijdefghijkefghijklfghijklmghijklmnhijklmnoijklmnopjklmnopqklmnopqrlmnopqrsmnopqrstnopqrstu"%string,
     "09330c33f71147e83d192fc782cd1b4753111b173b3b05d22fa08086e3b0f712fcc7c71a557e2db966c3e9fa91746039"%string) ].
Definition sha384_bits_vectors : list (string * Z * string) :=
  [ ("10"%string, 3,
     "8d17be79e32b6718e07d8a603eb84ba0478f7fcfd1bb93995f7d1149e09143ac1ffcfc56820e469f3878d957a15a3fe4"%string);
    ("b9"%string, 0,
     "bc8089a19007c0b14195f4ecc74094fec64f01f90929282c2fb392881578208ad466828b1c6c283d2722cf0ad1ab6938"%string);
    ("8bc500c77ceed9879da989107ce0aaa0"%string, 5,
     "d8c43b38e12e7c42a7c9b810299fd6a770bef30920f17532a898de62c7a07e4293449c0b5fa70109f0783211cfc4bce3"%string);
    ("a41c497779c0375ff10a7f4e08591739"%string, 0,
     "c9a68443a005812256b8ec76b00516f0dbb74fab26d665913f194b6ffb0e91ea9967566b58109cbc675cc208e4c823f7"%string);
    ("68f501792dea9796767022d93da71679309920fa1012aea357b2b1331d40a1d03c41c240b3c9a75b4892f4c0724b68c875321ab8cfe5023bd375bc0f94bd89fe04f297105d7b82ffc0021aeb1ccb674f5244ea3497de26a4191c5f62e5e9a2d8082f0551f4a5306826e91cc006ce1bf60ff719d42fa521c871cd2394d96ef4468f21966b41f2ba80c26e83a9e0"%string, 5,
     "5860e8de91c21578bb4174d227898a98e0b45c4c760f009549495614daedc0775d92d11d9f8ce9b064eeac8dafc3a297"%string) ].

Definition sha512_hash : list Z -> Z -> Z -> list Z :=
  run (sha384_config true true) sha3_round H512 8.
Definition sha512_vectors : list (string * string) :=
  [ ("abc"%string,
     "ddaf35a193617abacc417349ae20413112e6fa4e89a97ea20a9eeee64b55d39a2192992a274fc1a836ba3c23a3feebbd454d4423643ce80e2a9ac94fa54ca49f"%string);
    ("abcdefghbcdefghicdefghijdefghijkefghijklfghijklmghijklmnhijklmnoijklmnopjklmnopqklmnopqrlmnopqrsmnopqrstnopqrstu"%string,
     "8e959b75dae313da8cf4f72814fc143f8f7779c6eb9f7fa17299aeadb6889018501d289e4900f7e4331b99dec4b5433ac7d329eeb6dd26545e96e55b874be909"%string) ].
Definition sha512_bits_vectors : list (string * Z * string) :=
  [ ("b0"%string, 3,
     "d4ee29a9e90985446b913cf1d1376c836f4be2c1cf3cada0720a6bf4857d886a7ecb3c4e4c0fa8c7f95214e41dc1b0d21b22a84cc03bf8ce4845f34dd5bdbad4"%string);
    ("d0"%string, 0,
     "9992202938e882e73e20f6b69e68a0a7149090423d93c81bab3f21678d4aceeee50e4e8cafada4c85a54ea8306826c4ad6e74cece9631bfa8a549b4ab3fbba15"%string);
    ("08ecb52ebae1f7422db62bcd54267080"%string, 5,
     "ed8dc78e8b01b69750053dbb7a0a9eda0fb9e9d292b1ed715e80a7fe290a4e16664fd913e85854400c5af05e6dad316b7359b43e64f8bec3c1f237119986bbb6"%string);
    ("8d4e3c0e3889191491816e9d98bff0a0"%string, 0,
     "cb0b67a4b8712cd73c9aabc0b199e9269b20844afb75acbdd1c153c9828924c3ddedaafe669c5fdd0bc66f630f6773988213eb1b16f517ad0de4b2f0c95c90f8"%string);
    ("3addec85593216d1619aa02d9756970bfc70ace2744f7c6b2788151028f7b6a2550fd74a7e6e69c2c9b45fc454966dc31d2e10da1f95ce02beb4bf8765574cbd6e8337ef420adc98c15cb6d5e4a0241ba0046d250e510231cac2046c991606ab4ee4145bee2ff4bb123aab498d9d44794f99ccad89a9a1621259eda70a5b6dd4bdd87778c9043b9384f5490680"%string, 5,
     "32ba76fc30eaa0208aeb50ffb5af1864fdbf17902a4dc0a682c61fcea6d92b783267b21080301837f59de79c6b337db2526f8a0a510e5e53cafed4355fe7c2f1"%string) ].

Definition sha1_hash : list Z -> Z -> Z -> list Z :=
  run (sha1_config true true) sha1_round Sha1.IV 5.
Definition sha1_vectors : list (string * string) :=
  [ ("abc"%string,
     "a9993e364706816aba3e25717850c26c9cd0d89d"%string);
    ("abcdbcdecdefdefgefghfghighijhijkijkljklmklmnlmnomnopnopq"%string,
     "84983e441c3bd26ebaae4aa1f95129e5e54670f1"%string) ].
Definition sha1_bits_vectors : list (string * Z * string) :=
  [ ("98"%string, 3,
     "29826b003b906e660eff4027ce98af3531ac75ba"%string);
    ("5e"%string, 0,
     "5e6f80a34a9798cafc6a5db96cc57ba4c4db59c2"%string);
    ("49b2aec2594bbe3a3b117542d94ac880"%string, 5,
     "6239781e03729919c01955b3ffa8acb60b988340"%string);
    ("9a7dfdf1ecead06ed646aa55fe757146"%string, 0,
     "82abff6605dbe1c17def12a394fa22a82b544a35"%string);
    ("65f932995ba4ce2cb1b4a2e71ae70220aacec8962dd4499cbd7c887a94eaaa101ea5aabc529b4e7e43665a5af2cd03fe678ea6a5005bba3b082204c28b9109f469dac92aaab3aa7c11a1b32ae0"%string, 5,
     "8c5b2a5ddae5a97fc7f9d85661c672adbf7933d4"%string) ].

Definition sha0_hash : list Z -> Z -> Z -> list Z :=
  run (sha0_config true true) sha0_round Sha0.IV 5.
Definition sha0_vectors : list (string * string) :=
  [ ("abc"%string,
     "0164b8a914cd2a5e74c4f7ff082c4d97f1edf880"%string);
    ("abcdbcdecdefdefgefghfghighijhijkijkljklmklmnlmnomnopnopq"%string,
     "d2516ee1acfa5baf33dfc1c471e438449ef134c8"%string) ].

Definition md4_hash : list Z -> Z -> Z -> list Z :=
  run (md4_config true true) md4_round Md4.IV 4.
Definition md4_vectors : list (string * string) :=
  [ (""%string,
     "31d6cfe0d16ae931b73c59d7e0c089c0"%string);
    ("a"%string,
     "bde52cb31de33e46245e05fbdbd6fb24"%string);
    ("abc"%string,
     "a448017aaf21d8525fc10ae87aa6729d"%string);
    ("message digest"%string,
     "d9130a8164549fe818874806e1c7014b"%string);
    ("abcdefghijklmnopqrstuvwxyz"%string,
     "d79e1c308aa5bbcdeea8ed63df412da9"%string);
    ("ABCDEFGHIJKLMNOPQRSTUVWXYZabcdefghijklmnopqrstuvwxyz0123456789"%string,
     "043f8582f241db351ce627e153e7f0e4"%string);
    ("12345678901234567890123456789012345678901234567890123456789012345678901234567890"%string,
     "e33b4ddc9c38f2199c3e7b164fcc0536"%string) ].
Definition md4_collisions : list (string * string) :=
  [ ("839c7a4d7a92cb5678a5d5b9eea5a7573c8a74deb366c3dc20a083b69f5d2a3bb3719dc69891e9f95e809fd7e8b23ba6318edd45e51fe39708bf9427e9c3e8b9"%string,
     "839c7a4d7a92cbd678a5d529eea5a7573c8a74deb366c3dc20a083b69f5d2a3bb3719dc69891e9f95e809fd7e8b23ba6318edc45e51fe39708bf9427e9c3e8b9"%string);
    ("839c7a4d7a92cb5678a5d5b9eea5a7573c8a74deb366c3dc20a083b69f5d2a3bb3719dc69891e9f95e809fd7e8b23ba6318edd45e51fe39740c213f769cfb8a7"%string,
     "839c7a4d7a92cbd678a5d529eea5a7573c8a74deb366c3dc20a083b69f5d2a3bb3719dc69891e9f95e809fd7e8b23ba6318edc45e51fe39740c213f769cfb8a7"%string) ].

Definition md5_hash : list Z -> Z -> Z -> list Z :=
  run (md5_config true true) md5_round Md5.IV 4.
Definition md5_vectors : list (string * string) :=
  [ (""%string,
     "d41d8cd98f00b204e9800998ecf8427e"%string);
    ("a"%string,
     "0cc175b9c0f1b6a831c399e269772661"%string);
    ("abc"%string,
     "900150983cd24fb0d6963f7d28e17f72"%string);
    ("message digest"%string,
     "f96b697d7cb7938d525a2f31aaf161d0"%string);
    ("abcdefghijklmnopqrstuvwxyz"%string,
     "c3fcd3d76192e4007dfb496cca67e13b"%string);
    ("ABCDEFGHIJKLMNOPQRSTUVWXYZabcdefghijklmnopqrstuvwxyz0123456789"%string,
     "d174ab98d277d9f5a5611c2c9f419d9f"%string);
    ("12345678901234567890123456789012345678901234567890123456789012345678901234567890"%string,
     "57edf4a22be3c955ac49da2e2107b67a"%string) ].
Definition md5_collisions : list (string * string) :=
  [ ("d131dd02c5e6eec4693d9a0698aff95c2fcab58712467eab4004583eb8fb7f8955ad340609f4b30283e488832571415a085125e8f7cdc99fd91dbdf280373c5b960b1dd1dc417b9ce4d897f45a6555d535739ac7f0ebfd0c3029f166d109b18f75277f7930d55ceb22e8adba79cc155ced74cbdd5fc5d36db19b0ad835cca7e3"%string,
     "d131dd02c5e6eec4693d9a0698aff95c2fcab50712467eab4004583eb8fb7f8955ad340609f4b30283e4888325f1415a085125e8f7cdc99fd91dbd7280373c5b960b1dd1dc417b9ce4d897f45a6555d535739a47f0ebfd0c3029f166d109b18f75277f7930d55ceb22e8adba794c155ced74cbdd5fc5d36db19b0a5835cca7e3"%string);
    ("d131dd02c5e6eec4693d9a0698aff95c2fcab58712467eab4004583eb8fb7f8955ad340609f4b30283e488832571415a085125e8f7cdc99fd91dbdf280373c5bd8823e3156348f5bae6dacd436c919c6dd53e2b487da03fd02396306d248cda0e99f33420f577ee8ce54b67080a80d1ec69821bcb6a8839396f9652b6ff72a70"%string,
     "d131dd02c5e6eec4693d9a0698aff95c2fcab50712467eab4004583eb8fb7f8955ad340609f4b30283e4888325f1415a085125e8f7cdc99fd91dbd7280373c5bd8823e3156348f5bae6dacd436c919c6dd53e23487da03fd02396306d248cda0e99f33420f577ee8ce54b67080280d1ec69821bcb6a8839396f965ab6ff72a70"%string) ].

Definition ripemd_hash : list Z -> Z -> Z -> list Z :=
  run (Original.ripemd_config true true) Original.ripemd_round (take 4 oIV) 4.
Definition ripemd_vectors : list (string * string) :=
  [ (""%string,
     "9f73aa9b372a9dacfb86a6108852e2d9"%string);
    ("a"%string,
     "486f74f790bc95ef7963cd2382b4bbc9"%string);
    ("abc"%string,
     "3f14bad4c2f9b0ea805e5485d3d6882d"%string);
    ("message digest"%string,
     "5f5c7ebe1abbb3c7036482942d5f9d49"%string);
    ("abcdefghijklmnopqrstuvwxyz"%string,
     "ff6e1547494251a1cca6f005a6eaa2b4"%string);
    ("ABCDEFGHIJKLMNOPQRSTUVWXYZabcdefghijklmnopqrstuvwxyz0123456789"%string,
     "ff418a5aed3763d8f2ddf88a29e62486"%string);
    ("12345678901234567890123456789012345678901234567890123456789012345678901234567890"%string,
     "dfd6b45f60fe79bbbde87c6bfc6580a5"%string) ].
Definition ripemd_collisions : list (string * string) :=
  [ ("8eaf9f5779f5ec09ba6a4a5711354178a410b4a29f6c2fad2c20560b1179754de7aade0bf291bc787d6dbc47b1d1bd9a15205da4ff047181a8584726a54e0661"%string,
     "8eaf9f5779f5ec09ba6a4a5711355178a410b4a29f6c2fad2c20560b1179754de7aade0bf291bc787d6dc0c7b1d1bd9a15205da4ff047181a8584726a54e06e1"%string);
    ("8eaf9f5779f5ec09ba6a4a5711354178a410b4a29f6c2fad2c20560b1179754de7aade0bf291bc787d6dbc47b1d1bd9a15205da4ff04a5a0a8588db1b6660ce7"%string,
     "8eaf9f5779f5ec09ba6a4a5711355178a410b4a29f6c2fad2c20560b1179754de7aade0bf291bc787d6dc0c7b1d1bd9a15205da4ff04a5a0a8588db1b6660c67"%string) ].

Definition ripemd128_hash : list Z -> Z -> Z -> list Z :=
  run (R128.ripemd128_config true true) R128.ripemd128_round (take 4 Ripemd.IV) 4.
Definition ripemd128_vectors : list (string * string) :=
  [ (""%string,
     "cdf26213a150dc3ecb610f18f6b38b46"%string);
    ("a"%string,
     "86be7afa339d0fc7cfc785e72f578d33"%string);
    ("abc"%string,
     "c14a12199c66e4ba84636b0f69144c77"%string);
    ("message digest"%string,
     "9e327b3d6e523062afc1132d7df9d1b8"%string);
    ("abcdefghijklmnopqrstuvwxyz"%string,
     "fd2aa607f71dc8f510714922b371834e"%string);
    ("abcdbcdecdefdefgefghfghighijhijkijkljklmklmnlmnomnopnopq"%string,
     "a1aa0689d0fafa2ddc22e88b49133a06"%string);
    ("ABCDEFGHIJKLMNOPQRSTUVWXYZabcdefghijklmnopqrstuvwxyz0123456789"%string,
     "d1e959eb179c911faea4624c60c5c702"%string);
    ("12345678901234567890123456789012345678901234567890123456789012345678901234567890"%string,
     "3f45ef194732c2dbb2c4a2c769795fa3"%string) ].

Definition ripemd160_hash : list Z -> Z -> Z -> list Z :=
  run (R160.ripemd160_config true true) R160.ripemd160_round (take 5 Ripemd.IV) 5.
Definition ripemd160_vectors : list (string * string) :=
  [ (""%string,
     "9c1185a5c5e9fc54612808977ee8f548b2258d31"%string);
    ("a"%string,
     "0bdc9d2d256b3ee9daae347be6f4dc835a467ffe"%string);
    ("abc"%string,
     "8eb208f7e05d987a9b044a8e98c6b087f15a0bfc"%string);
    ("message digest"%string,
     "5d0689ef49d2fae572b881b123a85ffa21595f36"%string);
    ("abcdefghijklmnopqrstuvwxyz"%string,
     "f71c27109c692c1b56bbdceb5b9d2865b3708dbc"%string);
    ("abcdbcdecdefdefgefghfghighijhijkijkljklmklmnlmnomnopnopq"%string,
     "12a053384a9c0c88e405a06c27dcf49ada62eb2b"%string);
    ("ABCDEFGHIJKLMNOPQRSTUVWXYZabcdefghijklmnopqrstuvwxyz0123456789"%string,
     "b0e20b6e3116640286ed3a87a5713079b21f5189"%string);
    ("12345678901234567890123456789012345678901234567890123456789012345678901234567890"%string,
     "9b752e45573d4b39f4dbd3323cab82bf63326bfb"%string) ].

Definition tiger_hash : list Z -> Z -> Z -> list Z :=
  run (tiger_config true true) tiger_round Tiger.IV 3.
Definition tiger_vectors : list (string * string) :=
  [ (""%string,
     "3293ac630c13f0245f92bbb1766e16167a4e58492dde73f3"%string);
    ("a"%string,
     "77befbef2e7ef8ab2ec8f93bf587a7fc613e247f5f247809"%string);
    ("abc"%string,
     "2aab1484e8c158f2bfb8c5ff41b57a525129131c957b5f93"%string);
    ("message digest"%string,
     "d981f8cb78201a950dcf3048751e441c517fca1aa55a29f6"%string);
    ("abcdefghijklmnopqrstuvwxyz"%string,
     "1714a472eee57d30040412bfcc55032a0b11602ff37beee9"%string);
    ("abcdbcdecdefdefgefghfghighijhijkijkljklmklmnlmnomnopnopq"%string,
     "0f7bf9a19b9c58f2b7610df7e84f0ac3a71c631e7b53f78e"%string);
    ("ABCDEFGHIJKLMNOPQRSTUVWXYZabcdefghijklmnopqrstuvwxyz0123456789"%string,
     "8dcea680a17583ee502ba38a3c368651890ffbccdc49a8cc"%string);
    ("12345678901234567890123456789012345678901234567890123456789012345678901234567890"%string,
     "1c14795529fd9f207a958f84c52f11e887fa0cabdfd91bfd"%string) ].

Definition tiger2_hash : list Z -> Z -> Z -> list Z :=
  run (tiger2_config true true) tiger_round Tiger.IV 3.
Definition tiger2_vectors : list (string * string) :=
  [ (""%string,
     "4441be75f6018773c206c22745374b924aa8313fef919f41"%string);
    ("a"%string,
     "67e6ae8e9e968999f70a23e72aeaa9251cbc7c78a7916636"%string);
    ("abc"%string,
     "f68d7bc5af4b43a06e048d7829560d4a9415658bb0b1f3bf"%string);
    ("message digest"%string,
     "e29419a1b5fa259de8005e7de75078ea81a542ef2552462d"%string);
    ("abcdefghijklmnopqrstuvwxyz"%string,
     "f5b6b6a78c405c8547e91cd8624cb8be83fc804a474488fd"%string);
    ("abcdbcdecdefdefgefghfghighijhijkijkljklmklmnlmnomnopnopq"%string,
     "a6737f3997e8fbb63d20d2df88f86376b5fe2d5ce36646a9"%string);
    ("ABCDEFGHIJKLMNOPQRSTUVWXYZabcdefghijklmnopqrstuvwxyz0123456789"%string,
     "ea9ab6228cee7b51b77544fca6066c8cbb5bbae6319505cd"%string);
    ("12345678901234567890123456789012345678901234567890123456789012345678901234567890"%string,
     "d85278115329ebaa0eec85ecdc5396fda8aa3a5820942fff"%string) ].

Definition known_answers : bool :=
  forallb (test_internal sha224_small_hash) sha224_vectors &&
  forallb (test_internal_bits sha224_small_hash) sha224_bits_vectors &&
  forallb (test_internal sha224_hash) sha224_vectors &&
  forallb (test_internal_bits sha224_hash) sha224_bits_vectors &&
  forallb (test_internal sha256_small_hash) sha256_vectors &&
  forallb (test_internal_bits sha256_small_hash) sha256_bits_vectors &&
  forallb (test_internal sha256_hash) sha256_vectors &&
  forallb (test_internal_bits sha256_hash) sha256_bits_vectors &&
  forallb (test_internal sha384_hash) sha384_vectors &&
  forallb (test_internal_bits sha384_hash) sha384_bits_vectors &&
  forallb (test_internal sha512_hash) sha512_vectors &&
  forallb (test_internal_bits sha512_hash) sha512_bits_vectors &&
  forallb (test_internal sha1_hash) sha1_vectors &&
  forallb (test_internal_bits sha1_hash) sha1_bits_vectors &&
  forallb (test_internal sha0_hash) sha0_vectors &&
  forallb (test_internal md4_hash) md4_vectors &&
  forallb (test_collision md4_hash) md4_collisions &&
  forallb (test_internal md5_hash) md5_vectors &&
  forallb (test_collision md5_hash) md5_collisions &&
  forallb (test_internal ripemd_hash) ripemd_vectors &&
  forallb (test_collision ripemd_hash) ripemd_collisions &&
  forallb (test_internal ripemd128_hash) ripemd128_vectors &&
  forallb (test_internal ripemd160_hash) ripemd160_vectors &&
  forallb (test_internal tiger_hash) tiger_vectors &&
  forallb (test_internal tiger2_hash) tiger2_vectors.

(** Every known answer of the test programs of the repository, the standards'
    vectors with their bit strings and the published collisions of MD4, MD5 and RIPEMD,
    evaluates to the expected digest in the model, for all the hashes and builds. *)
Lemma answers_hold : known_answers = true.
Proof. vm_compute. reflexivity. Qed.

(** * Each of the hash functions, used as a stream, computes its standard *)

(** The digest that a closing function wrote. *)
Notation digest p := (snd p).

(** The first part of what is known of a closed context. *)
Ltac by_stream H :=
  match type of H with (let '(_, _) := ?p in _) =>
    destruct p as [? ?]; destruct H as [H _]; exact H end.

(** C31: SHA-224, SHA-384, SHA-1, SHA-0, MD5, MD4, RIPEMD, RIPEMD-128, Tiger and Tiger2: in the
    build with 64-bit words on a little-endian machine, with either footprint and whatever it reads
    words with, a context initialised with whatever it held before, updated with buffers that lie
    anywhere in memory, less than [2^64] bytes in all, and closed, where the API has it with [n]
    more bits, writes the digest that the standard defines for the concatenated message. Each
    standard is written out apart from the code, with its initial value, its constants and its
    padding; Tiger's substitution tables are data. The vectors of the test programs, which pin all
    of these, evaluate to the expected digests. *)
Theorem streams_correct small uptr unaligned buf64 buf128 ds ub n v c :
  length buf64 = 64%nat -> length buf128 = 128%nat -> is_bytes (concat (map snd ds)) ->
  0 <= n < 8 -> Z.of_nat (length (concat (map snd ds))) < 2 ^ 64 ->
  let m := concat (map snd ds) in
  let x := Context_ buf64 v c in
  digest (sph_sha224_addbits_and_close small uptr unaligned
    (updates (sha224_config uptr unaligned) (sha2_round small) (sph_sha224_init x) ds) ub n)
    = Sha2.FIPS.SHA224 m ub n /\
  digest (sph_sha384_addbits_and_close uptr unaligned
    (updates (sha384_config uptr unaligned) sha3_round (sph_sha384_init (Context_ buf128 v c)) ds) ub n)
    = Sha2Big.FIPS.SHA384 m ub n /\
  digest (sph_sha1_addbits_and_close uptr unaligned
    (updates (sha1_config uptr unaligned) sha1_round (sph_sha1_init x) ds) ub n)
    = Sha1.FIPS.SHA1 m ub n /\
  digest (sph_sha0_addbits_and_close uptr unaligned
    (updates (sha0_config uptr unaligned) sha0_round (sph_sha0_init x) ds) ub n)
    = Sha0.FIPS.SHA0 m ub n /\
  digest (sph_md5_addbits_and_close uptr unaligned
    (updates (md5_config uptr unaligned) md5_round (sph_md5_init x) ds) ub n)
    = Md5.RFC.MD5 m ub n /\
  digest (sph_md4_close uptr unaligned
    (updates (md4_config uptr unaligned) md4_round (sph_md4_init x) ds)) = Md4.RFC.MD4 m 0 0 /\
  digest (Original.sph_ripemd_close uptr unaligned
    (updates (Original.ripemd_config uptr unaligned) Original.ripemd_round
       (Original.sph_ripemd_init x) ds)) = Original.Ref.hash m /\
  digest (R128.sph_ripemd128_close uptr unaligned
    (updates (R128.ripemd128_config uptr unaligned) R128.ripemd128_round
       (R128.sph_ripemd128_init x) ds)) = R128.Ref.hash m /\
  digest (sph_tiger_close uptr unaligned
    (updates (tiger_config uptr unaligned) tiger_round (sph_tiger_init x) ds)) = Tiger.Ref.Tiger m /\
  digest (sph_tiger2_close uptr unaligned
    (updates (tiger_config uptr unaligned) tiger_round (sph_tiger_init x) ds)) = Tiger.Ref.Tiger2 m /\
  known_answers = true.
Proof.
  intros H64 H128 Hm Hn Hl m x.
  pose proof (sha224_stream small uptr unaligned buf64 ds ub n H64 Hm Hn Hl v c) as H1.
  pose proof (sha384_stream uptr unaligned buf128 ds ub n H128 Hm Hn Hl v c) as H2.
  pose proof (sha1_stream uptr unaligned buf64 ds ub n H64 Hm Hn Hl v c) as H3.
  pose proof (sha0_stream uptr unaligned buf64 ds ub n H64 Hm Hn Hl v c) as H4.
  pose proof (md5_stream uptr unaligned buf64 ds ub n H64 Hm Hn Hl v c) as H5.
  pose proof (md4_stream uptr unaligned buf64 ds H64 Hm Hl v c) as H6.
  pose proof (Original.ripemd_stream uptr unaligned buf64 ds H64 Hm Hl v c) as H7.
  pose proof (R128.ripemd128_stream uptr unaligned buf64 ds H64 Hm Hl v c) as H8.
  pose proof (tiger_stream uptr unaligned buf64 ds H64 Hm Hl v c) as [H9 H10].
  cbv zeta in *. fold x m in H1, H2, H3, H4, H5, H6, H7, H8, H9, H10.
  split; [by_stream H1|]. split; [by_stream H2|]. split; [by_stream H3|].
  split; [by_stream H4|]. split; [by_stream H5|]. split; [by_stream H6|].
  split; [by_stream H7|]. split; [by_stream H8|]. split; [exact H9|].
  split; [exact H10|exact answers_hold].
Qed.

Lemma streams_correct_witness :
  digest (sph_sha1_addbits_and_close true false
    (updates (sha1_config true false) sha1_round (sph_sha1_init (Context_ (replicate 64 0) [] 7))
       [(1, [97; 98]); (6, [99])]) 0x80 1) = Sha1.FIPS.SHA1 [97; 98; 99] 0x80 1.
Proof.
  apply (streams_correct true true false (replicate 64 0) (replicate 128 0)
    [(1, [97; 98]); (6, [99])] 0x80 1 [] 7);
    [reflexivity|reflexivity|cbn; repeat constructor; lia|lia|reflexivity].
Defined.
