(* ===== verification/Sha2Cpp.v ===== *)
(** [miner/sha2.cpp]: the second SHA-2 of the repository, which the miner is linked with.
    It has its own contexts and its own padding, with a length of 32 bits. Shown equal, for
    messages short enough, to the same definitions of FIPS 180-4 as the functions of
    sphlib. *)
From S2P Require Import Prelude SphTypes MdHelper Rounds.
From S2P Require Sha2 Sha2Big.
Open Scope word_scope.

(** ** Macros and tables of the file
    A word is the remainder of the arithmetic; [word] is the assignment to it. *)
Definition SHFR (x n : Z) : Z := x >>. n.
Definition CH (x y z : Z) : Z := (x &. y) ^^ (Z.lnot x &. z).
Definition MAJ (x y z : Z) : Z := (x &. y) ^^ (x &. z) ^^ (y &. z).
(** [ROTR(x, n)] on [uint32] and on [uint64]. *)
Definition ROTR32 (x n : Z) : Z := SPH_T32 ((x >>. n) |. (x <<. (32 - n))).
Definition ROTR64 (x n : Z) : Z := SPH_T64 ((x >>. n) |. (x <<. (64 - n))).

Definition SHA256_F1 (x : Z) : Z := ROTR32 x 2 ^^ ROTR32 x 13 ^^ ROTR32 x 22.
Definition SHA256_F2 (x : Z) : Z := ROTR32 x 6 ^^ ROTR32 x 11 ^^ ROTR32 x 25.
Definition SHA256_F3 (x : Z) : Z := ROTR32 x 7 ^^ ROTR32 x 18 ^^ SHFR x 3.
Definition SHA256_F4 (x : Z) : Z := ROTR32 x 17 ^^ ROTR32 x 19 ^^ SHFR x 10.

Definition SHA512_F1 (x : Z) : Z := ROTR64 x 28 ^^ ROTR64 x 34 ^^ ROTR64 x 39.
Definition SHA512_F2 (x : Z) : Z := ROTR64 x 14 ^^ ROTR64 x 18 ^^ ROTR64 x 41.
Definition SHA512_F3 (x : Z) : Z := ROTR64 x 1 ^^ ROTR64 x 8 ^^ SHFR x 7.
Definition SHA512_F4 (x : Z) : Z := ROTR64 x 19 ^^ ROTR64 x 61 ^^ SHFR x 6.

Definition UNPACK32 (x : Z) : list Z :=
  [byte (x >>. 24); byte (x >>. 16); byte (x >>. 8); byte x].
Definition PACK32 (str : list Z) : Z :=
  at_ str 3 |. (at_ str 2 <<. 8) |. (at_ str 1 <<. 16) |. (at_ str 0 <<. 24).
Definition UNPACK64 (x : Z) : list Z :=
  [byte (x >>. 56); byte (x >>. 48); byte (x >>. 40); byte (x >>. 32);
   byte (x >>. 24); byte (x >>. 16); byte (x >>. 8); byte x].
Definition PACK64 (str : list Z) : Z :=
  at_ str 7 |. (at_ str 6 <<. 8) |. (at_ str 5 <<. 16) |. (at_ str 4 <<. 24)
  |. (at_ str 3 <<. 32) |. (at_ str 2 <<. 40) |. (at_ str 1 <<. 48) |. (at_ str 0 <<. 56).

Definition sha224_h0 : list Z :=
  [ 0xC1059ED8; 0x367CD507; 0x3070DD17; 0xF70E5939; 0xFFC00B31; 0x68581511; 0x64F98FA7;
    0xBEFA4FA4 ].
Definition sha256_h0 : list Z :=
  [ 0x6A09E667; 0xBB67AE85; 0x3C6EF372; 0xA54FF53A; 0x510E527F; 0x9B05688C; 0x1F83D9AB;
    0x5BE0CD19 ].
Definition sha384_h0 : list Z :=
  [ 0xCBBB9D5DC1059ED8; 0x629A292A367CD507; 0x9159015A3070DD17; 0x152FECD8F70E5939;
    0x67332667FFC00B31; 0x8EB44A8768581511; 0xDB0C2E0D64F98FA7; 0x47B5481DBEFA4FA4 ].
Definition sha512_h0 : list Z :=
  [ 0x6A09E667F3BCC908; 0xBB67AE8584CAA73B; 0x3C6EF372FE94F82B; 0xA54FF53A5F1D36F1;
    0x510E527FADE682D1; 0x9B05688C2B3E6C1F; 0x1F83D9ABFB41BD6B; 0x5BE0CD19137E2179 ].

Definition sha256_k : list Z :=
  [ 0x428A2F98; 0x71374491; 0xB5C0FBCF; 0xE9B5DBA5; 0x3956C25B; 0x59F111F1;
    0x923F82A4; 0xAB1C5ED5; 0xD807AA98; 0x12835B01; 0x243185BE; 0x550C7DC3;
    0x72BE5D74; 0x80DEB1FE; 0x9BDC06A7; 0xC19BF174; 0xE49B69C1; 0xEFBE4786;
    0x0FC19DC6; 0x240CA1CC; 0x2DE92C6F; 0x4A7484AA; 0x5CB0A9DC; 0x76F988DA;
    0x983E5152; 0xA831C66D; 0xB00327C8; 0xBF597FC7; 0xC6E00BF3; 0xD5A79147;
    0x06CA6351; 0x14292967; 0x27B70A85; 0x2E1B2138; 0x4D2C6DFC; 0x53380D13;
    0x650A7354; 0x766A0ABB; 0x81C2C92E; 0x92722C85; 0xA2BFE8A1; 0xA81A664B;
    0xC24B8B70; 0xC76C51A3; 0xD192E819; 0xD6990624; 0xF40E3585; 0x106AA070;
    0x19A4C116; 0x1E376C08; 0x2748774C; 0x34B0BCB5; 0x391C0CB3; 0x4ED8AA4A;
    0x5B9CCA4F; 0x682E6FF3; 0x748F82EE; 0x78A5636F; 0x84C87814; 0x8CC70208;
    0x90BEFFFA; 0xA4506CEB; 0xBEF9A3F7; 0xC67178F2 ].

Definition sha512_k : list Z :=
  [ 0x428A2F98D728AE22; 0x7137449123EF65CD; 0xB5C0FBCFEC4D3B2F; 0xE9B5DBA58189DBBC;
    0x3956C25BF348B538; 0x59F111F1B605D019; 0x923F82A4AF194F9B; 0xAB1C5ED5DA6D8118;
    0xD807AA98A3030242; 0x12835B0145706FBE; 0x243185BE4EE4B28C; 0x550C7DC3D5FFB4E2;
    0x72BE5D74F27B896F; 0x80DEB1FE3B1696B1; 0x9BDC06A725C71235; 0xC19BF174CF692694;
    0xE49B69C19EF14AD2; 0xEFBE4786384F25E3; 0x0FC19DC68B8CD5B5; 0x240CA1CC77AC9C65;
    0x2DE92C6F592B0275; 0x4A7484AA6EA6E483; 0x5CB0A9DCBD41FBD4; 0x76F988DA831153B5;
    0x983E5152EE66DFAB; 0xA831C66D2DB43210; 0xB00327C898FB213F; 0xBF597FC7BEEF0EE4;
    0xC6E00BF33DA88FC2; 0xD5A79147930AA725; 0x06CA6351E003826F; 0x142929670A0E6E70;
    0x27B70A8546D22FFC; 0x2E1B21385C26C926; 0x4D2C6DFC5AC42AED; 0x53380D139D95B3DF;
    0x650A73548BAF63DE; 0x766A0ABB3C77B2A8; 0x81C2C92E47EDAEE6; 0x92722C851482353B;
    0xA2BFE8A14CF10364; 0xA81A664BBC423001; 0xC24B8B70D0F89791; 0xC76C51A30654BE30;
    0xD192E819D6EF5218; 0xD69906245565A910; 0xF40E35855771202A; 0x106AA07032BBD1B8;
    0x19A4C116B8D2D0C8; 0x1E376C085141AB53; 0x2748774CDF8EEB99; 0x34B0BCB5E19B48A8;
    0x391C0CB3C5C95A63; 0x4ED8AA4AE3418ACB; 0x5B9CCA4F7763E373; 0x682E6FF3D6B2B8A3;
    0x748F82EE5DEFB2FC; 0x78A5636F43172F60; 0x84C87814A1F0AB72; 0x8CC702081A6439EC;
    0x90BEFFFA23631E28; 0xA4506CEBDE82BDE9; 0xBEF9A3F7B2C67915; 0xC67178F2E372532B;
    0xCA273ECEEA26619C; 0xD186B8C721C0C207; 0xEADA7DD6CDE0EB1E; 0xF57D4F7FEE6ED178;
    0x06F067AA72176FBA; 0x0A637DC5A2C898A6; 0x113F9804BEF90DAE; 0x1B710B35131C471B;
    0x28DB77F523047D84; 0x32CAAB7B40C72493; 0x3C9EBE0A15C9BEBC; 0x431D67C49C100D4C;
    0x4CC5D4BECB3E42B6; 0x597F299CFC657E2A; 0x5FCB6FAB3AD6FAEC; 0x6C44198C4A475817 ].

(** What the two halves of the file, for 32-bit and for 64-bit words, differ in. *)
Record variant := Variant {
  word : Z -> Z;
  pack : list Z -> Z;
  unpack : Z -> list Z;
  word_size : nat;
  F1 : Z -> Z; F2 : Z -> Z; F3 : Z -> Z; F4 : Z -> Z;
  k : list Z;
  (** The bytes after the message that must fit: [0x80] and the length. *)
  tail_size : nat
}.
Definition V256 : variant :=
  Variant SPH_T32 PACK32 UNPACK32 4 SHA256_F1 SHA256_F2 SHA256_F3 SHA256_F4 sha256_k 9.
Definition V512 : variant :=
  Variant SPH_T64 PACK64 UNPACK64 8 SHA512_F1 SHA512_F2 SHA512_F3 SHA512_F4 sha512_k 17.

(** [sha256_ctx], [sha512_ctx]: the block has room for two. *)
Record ctx := Ctx { tot_len : Z; len : Z; block : list Z; h : list Z }.

Section File.
(** UNROLL_LOOPS. *)
Context (V : variant) (UNROLL_LOOPS : bool).
Notation W := (word V).
Definition BLOCK_SIZE : nat := 16 * word_size V.

(** ** The compression function *)

(** [SHA256_SCR( i )]; the array is written in order. *)
Definition SCR (w : list Z) (i : nat) : list Z :=
  w ++ [W (F4 V (at_ w (i - 2)) + at_ w (i - 7) + F3 V (at_ w (i - 15)) + at_ w (i - 16))].

(** [SHA256_EXP( a, ..., h, j )]. *)
Definition EXP (w : list Z) (a b c d e f g h j : nat) (wv : list Z) : list Z :=
  let t1 := W (at_ wv h + F2 V (at_ wv e) + CH (at_ wv e) (at_ wv f) (at_ wv g)
               + at_ (k V) j + at_ w j) in
  let t2 := W (F1 V (at_ wv a) + MAJ (at_ wv a) (at_ wv b) (at_ wv c)) in
  let wv := <[d := W (at_ wv d + t1)]> wv in
  <[h := W (t1 + t2)]> wv.

(** Eight of them: a turn of the loop of [sha512_transf], two lines of [sha256_transf]. *)
Definition EXP8 (w : list Z) (wv : list Z) (j : nat) : list Z :=
  let wv := EXP w 0 1 2 3 4 5 6 7 j wv in
  let wv := EXP w 7 0 1 2 3 4 5 6 (j + 1) wv in
  let wv := EXP w 6 7 0 1 2 3 4 5 (j + 2) wv in
  let wv := EXP w 5 6 7 0 1 2 3 4 (j + 3) wv in
  let wv := EXP w 4 5 6 7 0 1 2 3 (j + 4) wv in
  let wv := EXP w 3 4 5 6 7 0 1 2 (j + 5) wv in
  let wv := EXP w 2 3 4 5 6 7 0 1 (j + 6) wv in
  EXP w 1 2 3 4 5 6 7 0 (j + 7) wv.

(** The body of the loop without UNROLL_LOOPS. *)
Definition rolled_step (w : list Z) (wv : list Z) (j : nat) : list Z :=
  let t1 := W (at_ wv 7 + F2 V (at_ wv 4) + CH (at_ wv 4) (at_ wv 5) (at_ wv 6)
               + at_ (k V) j + at_ w j) in
  let t2 := W (F1 V (at_ wv 0) + MAJ (at_ wv 0) (at_ wv 1) (at_ wv 2)) in
  let wv := <[7%nat := at_ wv 6]> wv in
  let wv := <[6%nat := at_ wv 5]> wv in
  let wv := <[5%nat := at_ wv 4]> wv in
  let wv := <[4%nat := W (at_ wv 3 + t1)]> wv in
  let wv := <[3%nat := at_ wv 2]> wv in
  let wv := <[2%nat := at_ wv 1]> wv in
  let wv := <[1%nat := at_ wv 0]> wv in
  <[0%nat := W (t1 + t2)]> wv.

(** One turn of the outer loop of [sha256_transf]. *)
Definition transf_block (h sub_block : list Z) : list Z :=
  let rounds := length (k V) in
  let w := map (fun j => pack V (drop (word_size V * j) sub_block)) (seq 0 16) in
  let w := fold_left SCR (seq 16 (rounds - 16)) w in
  let wv :=
    if UNROLL_LOOPS then fold_left (EXP8 w) (map (fun i => 8 * i)%nat (seq 0 (rounds / 8))) h
    else fold_left (rolled_step w) (seq 0 rounds) h in
  map (fun j => W (at_ h j + at_ wv j)) (seq 0 8).

(** [sha256_transf( ctx, message, block_nb )], on [ctx->h]. *)
Definition transf (h message : list Z) (block_nb : nat) : list Z :=
  fold_left (fun h i => transf_block h (take BLOCK_SIZE (drop (i * BLOCK_SIZE) message)))
    (seq 0 block_nb) h.

(** ** The contexts *)
Definition init (h0 : list Z) (c : ctx) : ctx := Ctx 0 0 (block c) h0.

Definition update (c : ctx) (message : list Z) : ctx :=
  let BS := Z.of_nat BLOCK_SIZE in
  let n := Z.of_nat (length message) in
  let tmp_len := uint32 (BS - len c) in
  let rem_len := if n <? tmp_len then n else tmp_len in
  let b := memcpy (block c) (Z.to_nat (len c)) (take (Z.to_nat rem_len) message) in
  if uint32 (len c + n) <? BS then Ctx (tot_len c) (uint32 (len c + n)) b (h c)
  else
    let new_len := uint32 (n - rem_len) in
    let block_nb := Z.quot new_len BS in
    let shifted_message := drop (Z.to_nat rem_len) message in
    let h := transf (h c) b 1 in
    let h := transf h shifted_message (Z.to_nat block_nb) in
    let rem_len := Z.rem new_len BS in
    let b := memcpy b 0 (take (Z.to_nat rem_len)
                           (drop (Z.to_nat (uint32 (block_nb * BS))) shifted_message)) in
    Ctx (uint32 (tot_len c + (block_nb + 1) * BS)) rem_len b h.

(** The last lines of the three functions that close: [rnum] words are written. *)
Definition close (c : ctx) (rnum : nat) : ctx * list Z :=
  let BS := Z.of_nat BLOCK_SIZE in
  let block_nb := 1 + (if BS - Z.of_nat (tail_size V) <? Z.rem (len c) BS then 1 else 0) in
  let len_b := uint32 ((tot_len c + len c) <<. 3) in
  let pm_len := block_nb * BS in
  let b := memset (block c) (Z.to_nat (len c)) 0 (Z.to_nat (uint32 (pm_len - len c))) in
  let b := memcpy b (Z.to_nat (len c)) [0x80] in
  let b := memcpy b (Z.to_nat (pm_len - 4)) (UNPACK32 len_b) in
  let h := transf (h c) b (Z.to_nat block_nb) in
  (Ctx (tot_len c) (len c) b h, concat (map (unpack V) (take rnum h))).

(** [sha512_update_final]: the message is put behind what the block holds, unchecked. *)
Definition update_final (c : ctx) (message : list Z) (rnum : nat) : ctx * list Z :=
  let b := memcpy (block c) (Z.to_nat (len c)) message in
  close (Ctx (tot_len c) (uint32 (len c + Z.of_nat (length message))) b (h c)) rnum.
End File.

(** ** The functions of the file *)
Section Api.
Context (UNROLL_LOOPS : bool).
Definition sha256_transf := transf V256 UNROLL_LOOPS.
Definition sha256_init (c : ctx) : ctx := init sha256_h0 c.
Definition sha256_update := update V256 UNROLL_LOOPS.
Definition sha256_final (c : ctx) : ctx * list Z := close V256 UNROLL_LOOPS c 8.
Definition sha256 (c : ctx) (message : list Z) : list Z :=
  (sha256_final (sha256_update (sha256_init c) message)).2.

Definition sha512_transf := transf V512 UNROLL_LOOPS.
Definition sha512_init (c : ctx) : ctx := init sha512_h0 c.
Definition sha512_update := update V512 UNROLL_LOOPS.
Definition sha512_final (c : ctx) : ctx * list Z := close V512 UNROLL_LOOPS c 8.
Definition sha512_update_final (c : ctx) (message : list Z) : ctx * list Z :=
  update_final V512 UNROLL_LOOPS c message 8.
Definition sha512 (c : ctx) (message : list Z) : list Z :=
  (sha512_final (sha512_update (sha512_init c) message)).2.

Definition sha384_init (c : ctx) : ctx := init sha384_h0 c.
Definition sha384_update := update V512 UNROLL_LOOPS.
Definition sha384_final (c : ctx) : ctx * list Z := close V512 UNROLL_LOOPS c 6.
Definition sha384 (c : ctx) (message : list Z) : list Z :=
  (sha384_final (sha384_update (sha384_init c) message)).2.

Definition sha224_init (c : ctx) : ctx := init sha224_h0 c.
Definition sha224_update := update V256 UNROLL_LOOPS.
Definition sha224_final (c : ctx) : ctx * list Z := close V256 UNROLL_LOOPS c 7.
Definition sha224 (c : ctx) (message : list Z) : list Z :=
  (sha224_final (sha224_update (sha224_init c) message)).2.
End Api.

(** ** The compression function is the iteration of the standard
    [gstep], [gnext] and [gcompress] are the definitions of FIPS 180-4 over a [variant]. *)
Section Compress.
Context (V : variant).
Notation W := (word V).

Definition regs : Type := Z * Z * Z * Z * Z * Z * Z * Z.

Definition gnext (ws : list Z) : Z :=
  W (F4 V (at_ ws 14) + at_ ws 9 + F3 V (at_ ws 1) + at_ ws 0).
Definition gstep (k w : Z) (st : regs) : regs :=
  let '(a, b, c, d, e, f, g, h) := st in
  let T1 := W (h + F2 V e + CH e f g + k + w) in
  let T2 := W (F1 V a + MAJ a b c) in
  (W (T1 + T2), a, b, c, W (d + T1), e, f, g).

(** The registers in an array that starts at [r]: the macros are called with rotated
    indices instead of moving the words. *)
Definition view (r : nat) (wv : list Z) : regs :=
  let x i := at_ wv ((r + i) mod 8) in (x 0, x 1, x 2, x 3, x 4, x 5, x 6, x 7)%nat.

Definition step_at (w : list Z) (st : regs) (i : nat) : regs :=
  gstep (at_ (k V) i) (at_ w i) st.

Lemma EXP_view r j w wv :
  (r < 8)%nat -> length wv = 8%nat ->
  let x i := ((r + i) mod 8)%nat in
  let wv' := (EXP V w (x 0) (x 1) (x 2) (x 3) (x 4) (x 5) (x 6) (x 7) j wv)%nat in
  (length wv' = 8 /\ view ((r + 7) mod 8) wv' = step_at w (view r wv) j)%nat.
Proof.
  intros Hr Hl. do 8 (destruct wv as [|? wv]; [discriminate Hl|]). destruct wv; [|discriminate Hl].
  do 8 (destruct r as [|r]; [split; reflexivity|]). lia.
Qed.

Lemma EXP8_view w wv j :
  length wv = 8%nat ->
  length (EXP8 V w wv j) = 8%nat /\
  view 0 (EXP8 V w wv j) =
    fold_left (step_at w) [j + 0; j + 1; j + 2; j + 3; j + 4; j + 5; j + 6; j + 7]%nat (view 0 wv).
Proof.
  intros Hl. unfold EXP8. cbn [fold_left]. rewrite Nat.add_0_r.
  do 8 (lazymatch goal with
  | H : length ?wv = 8%nat |- context [EXP V w ?a ?b ?c ?d ?e ?f ?g ?h ?i ?wv] =>
      destruct (EXP_view a i w wv ltac:(lia) H :
        length (EXP V w a b c d e f g h i wv) = 8%nat /\
        view h (EXP V w a b c d e f g h i wv) = step_at w (view a wv) i) as [Hn <-];
      clear H; revert Hn; generalize (EXP V w a b c d e f g h i wv); clear wv;
      intros wv H
  end).
  done.
Qed.

Lemma rolled_view w wv j :
  length wv = 8%nat ->
  length (rolled_step V w wv j) = 8%nat /\
  view 0 (rolled_step V w wv j) = step_at w (view 0 wv) j.
Proof.
  intros Hl. do 8 (destruct wv as [|? wv]; [discriminate Hl|]). destruct wv; [|discriminate Hl].
  split; reflexivity.
Qed.

Lemma rolled_fold w l wv :
  length wv = 8%nat ->
  length (fold_left (rolled_step V w) l wv) = 8%nat /\
  view 0 (fold_left (rolled_step V w) l wv) = fold_left (step_at w) l (view 0 wv).
Proof.
  revert wv. induction l as [|j l IH]; intros wv Hl; [done|]. cbn [fold_left].
  destruct (rolled_view w wv j Hl) as [H <-]. by apply IH.
Qed.

Lemma unrolled_fold w n wv :
  length wv = 8%nat ->
  let wv' := fold_left (EXP8 V w) (map (fun i => 8 * i)%nat (seq 0 n)) wv in
  length wv' = 8%nat /\ view 0 wv' = fold_left (step_at w) (seq 0 (8 * n)) (view 0 wv).
Proof.
  intros Hl. induction n as [|n IH]; [done|]. rewrite seq_S, map_app, fold_left_app.
  destruct IH as [Hn IH]. destruct (EXP8_view w _ (8 * n) Hn) as [H E].
  split; [exact H|]. cbn [map fold_left] in *. rewrite Nat.add_0_l in *. rewrite E, IH.
  replace (8 * S n)%nat with (8 * n + 8)%nat by lia.
  rewrite seq_app, fold_left_app, Nat.add_0_r. cbn [fold_left seq].
  do 8 f_equal; rewrite <- ?Nat.add_succ_comm; lia.
Qed.

Definition gadd (h : list Z) (st : regs) : list Z :=
  let '(A, B, C, D, E, F, G, H) := st in
  [W (at_ h 0 + A); W (at_ h 1 + B); W (at_ h 2 + C); W (at_ h 3 + D);
   W (at_ h 4 + E); W (at_ h 5 + F); W (at_ h 6 + G); W (at_ h 7 + H)].

Definition gcompress (ws h : list Z) : list Z :=
  gadd h (rounds_given gstep (k V) (ws ++ schedule gnext (length (k V) - 16) ws) (view 0 h)).

Lemma transf_block_compress unroll h sub_block n :
  length h = 8%nat -> length (k V) = (8 * n)%nat -> (2 <= n)%nat ->
  transf_block V unroll h sub_block =
  gcompress (map (fun j => pack V (drop (word_size V * j) sub_block)) (seq 0 16)) h.
Proof.
  intros Hh Hk Hn. unfold transf_block, gcompress. cbv zeta.
  set (ws := map _ (seq 0 16)). assert (Hw : length ws = 16%nat) by reflexivity. clearbody ws.
  unfold SCR. rewrite (schedule_array gnext); [|done|].
  2:{ intros m w _. unfold gnext. rewrite !Sha2Big.at_drop.
      replace (16 + m - 2)%nat with (m + 14)%nat by lia.
      replace (16 + m - 7)%nat with (m + 9)%nat by lia.
      replace (16 + m - 15)%nat with (m + 1)%nat by lia.
      by replace (16 + m - 16)%nat with (m + 0)%nat by lia. }
  set (w := ws ++ _). set (wv := if unroll then _ else _).
  change (map _ (seq 0 8)) with (gadd h (view 0 wv)). f_equal.
  transitivity (fold_left (step_at w) (seq 0 (length (k V))) (view 0 h)).
  - unfold wv. destruct unroll; [|by apply rolled_fold].
    rewrite Hk, (Nat.mul_comm 8 n), Nat.div_mul, Nat.mul_comm by lia. by apply unrolled_fold.
  - apply rounds_given_at. unfold w. rewrite length_app, length_schedule. lia.
Qed.
End Compress.

(** *** The two word sizes *)
Lemma SHFR_word b x n :
  0 <= x < 2 ^ b -> 0 <= n -> (x >>. n) mod 2 ^ b = x >>. n.
Proof.
  intros Hx Hn. apply Z.mod_small. rewrite Z.shiftr_div_pow2 by done.
  pose proof (Z.pow_pos_nonneg 2 n ltac:(lia) Hn).
  split; [apply Z.div_pos; lia|]. apply Z.div_lt_upper_bound; nia.
Qed.

Definition is_word (b x : Z) : Prop := 0 <= x < 2 ^ b.

Lemma at_word b ws i : 0 <= b -> Forall (is_word b) ws -> is_word b (at_ ws i).
Proof.
  intros Hb H. unfold at_, is_word. pose proof (Z.pow_pos_nonneg 2 b ltac:(lia) Hb).
  destruct (nth_in_or_default i ws 0) as [Hi| ->]; [|lia].
  rewrite List.Forall_forall in H. by apply H.
Qed.

Lemma ROTR32_sph x n : ROTR32 x n = SPH_ROTR32 x n.
Proof.
  unfold ROTR32, SPH_ROTR32, SPH_ROTL32. replace (32 - (32 - n)) with n by lia.
  by rewrite Z.lor_comm.
Qed.
Lemma ROTR64_sph x n : ROTR64 x n = SPH_ROTR64 x n.
Proof.
  unfold ROTR64, SPH_ROTR64, SPH_ROTL64. replace (64 - (64 - n)) with n by lia.
  by rewrite Z.lor_comm.
Qed.
Lemma PACK32_be str : PACK32 str = sph_dec32be str.
Proof. unfold PACK32, sph_dec32be. apply Z.bits_inj'. intros i _. rewrite !Z.lor_spec. by
  repeat (destruct (Z.testbit _ i)). Qed.
Lemma PACK64_be str : PACK64 str = sph_dec64be str.
Proof. unfold PACK64, sph_dec64be. apply Z.bits_inj'. intros i _. rewrite !Z.lor_spec. by
  repeat (destruct (Z.testbit _ i)). Qed.

(** The words of a block of bytes. *)
Lemma dec32be_word src : is_bytes src -> (4 <= length src)%nat -> is_word 32 (sph_dec32be src).
Proof.
  intros Hb Hl. pose proof (sph_dec32be_range (take 4 src)) as H.
  unfold sph_dec32be in *. rewrite !at_take in H by lia. apply H; [by apply Forall_take|].
  rewrite length_take. lia.
Qed.
Lemma dec64be_word src : is_bytes src -> (8 <= length src)%nat -> is_word 64 (sph_dec64be src).
Proof.
  intros Hb Hl. pose proof (sph_dec64be_range (take 8 src)) as H.
  unfold sph_dec64be in *. rewrite !at_take in H by lia. apply H; [by apply Forall_take|].
  rewrite length_take. lia.
Qed.

#[local] Opaque rounds_given schedule.

Lemma sha256_k_table : sha256_k = Sha2.FIPS.K.
Proof. reflexivity. Qed.

Lemma gstep256 kk w st : gstep V256 kk w st = Sha2.FIPS.step kk w st.
Proof.
  destruct st as [[[[[[[a b] c] d] e] f] g] h].
  unfold gstep, Sha2.FIPS.step, Sha2.FIPS.Sigma0, Sha2.FIPS.Sigma1. cbn [word F1 F2 V256].
  unfold SHA256_F1, SHA256_F2. rewrite !ROTR32_sph. reflexivity.
Qed.

Lemma gnext256 ws :
  Forall (is_word 32) ws -> gnext V256 ws = Sha2.FIPS.next ws /\ is_word 32 (gnext V256 ws).
Proof.
  intros Hw. split; [|apply T32_range].
  unfold gnext, Sha2.FIPS.next, Sha2.FIPS.sigma0, Sha2.FIPS.sigma1. cbn [word F3 F4 V256].
  unfold SHA256_F3, SHA256_F4, SHFR. rewrite !ROTR32_sph, !(T32_mod (_ >>. _)).
  rewrite !(SHFR_word 32) by (lia || by apply at_word). reflexivity.
Qed.

Lemma gcompress256 ws h :
  Forall (is_word 32) ws ->
  gcompress V256 ws h =
  Sha2.FIPS.add h (rounds_given Sha2.FIPS.step Sha2.FIPS.K (ws ++ schedule Sha2.FIPS.next 48 ws) (view 0 h)).
Proof.
  intros Hw. unfold gcompress.
  rewrite (schedule_ext (is_word 32) _ _ _ ws gnext256 Hw), (rounds_given_ext _ _ _ _ _ gstep256).
  change (k V256) with sha256_k. rewrite sha256_k_table. reflexivity.
Qed.

Lemma block_words256 data :
  is_bytes data -> length data = 64%nat ->
  let inp x := sph_dec32be (drop (4 * x) data) in
  map (fun j => pack V256 (drop (word_size V256 * j) data)) (seq 0 16) = Sha2.FIPS.words inp /\
  Forall (is_word 32) (Sha2.FIPS.words inp).
Proof.
  intros Hb Hd. split; [apply map_ext; intros j; apply PACK32_be|].
  apply List.Forall_forall. intros x Hx. apply in_map_iff in Hx as (j & <- & Hj).
  apply in_seq in Hj. apply dec32be_word; [by apply Forall_drop|rewrite length_drop; lia].
Qed.

Lemma transf256_block unroll h data :
  length h = 8%nat -> is_bytes data -> length data = 64%nat ->
  transf_block V256 unroll h data = Sha2.FIPS.block data h.
Proof.
  intros Hh Hb Hd.
  rewrite (transf_block_compress V256 unroll h data 8 Hh eq_refl) by lia.
  destruct (block_words256 data Hb Hd) as [-> Hw]. by rewrite gcompress256.
Qed.

Lemma sha512_k_table : sha512_k = Sha2Big.FIPS.K.
Proof. reflexivity. Qed.

Lemma gstep512 kk w st : gstep V512 kk w st = Sha2Big.FIPS.step kk w st.
Proof.
  destruct st as [[[[[[[a b] c] d] e] f] g] h].
  unfold gstep, Sha2Big.FIPS.step, Sha2Big.FIPS.Sigma0, Sha2Big.FIPS.Sigma1. cbn [word F1 F2 V512].
  unfold SHA512_F1, SHA512_F2. rewrite !ROTR64_sph. reflexivity.
Qed.

Lemma gnext512 ws :
  Forall (is_word 64) ws -> gnext V512 ws = Sha2Big.FIPS.next ws /\ is_word 64 (gnext V512 ws).
Proof.
  intros Hw. split; [|apply T64_range].
  unfold gnext, Sha2Big.FIPS.next, Sha2Big.FIPS.sigma0, Sha2Big.FIPS.sigma1. cbn [word F3 F4 V512].
  unfold SHA512_F3, SHA512_F4, SHFR. rewrite !ROTR64_sph, !(T64_mod (_ >>. _)).
  rewrite !(SHFR_word 64) by (lia || by apply at_word). reflexivity.
Qed.

Lemma gcompress512 ws h :
  Forall (is_word 64) ws ->
  gcompress V512 ws h =
  Sha2Big.FIPS.add h (rounds_given Sha2Big.FIPS.step Sha2Big.FIPS.K (ws ++ schedule Sha2Big.FIPS.next 64 ws) (view 0 h)).
Proof.
  intros Hw. unfold gcompress.
  rewrite (schedule_ext (is_word 64) _ _ _ ws gnext512 Hw), (rounds_given_ext _ _ _ _ _ gstep512).
  change (k V512) with sha512_k. rewrite sha512_k_table. reflexivity.
Qed.

Lemma block_words512 data :
  is_bytes data -> length data = 128%nat ->
  let inp x := sph_dec64be (drop (8 * x) data) in
  map (fun j => pack V512 (drop (word_size V512 * j) data)) (seq 0 16) = Sha2Big.FIPS.words inp /\
  Forall (is_word 64) (Sha2Big.FIPS.words inp).
Proof.
  intros Hb Hd. split; [apply map_ext; intros j; apply PACK64_be|].
  apply List.Forall_forall. intros x Hx. apply in_map_iff in Hx as (j & <- & Hj).
  apply in_seq in Hj. apply dec64be_word; [by apply Forall_drop|rewrite length_drop; lia].
Qed.

Lemma transf512_block unroll h data :
  length h = 8%nat -> is_bytes data -> length data = 128%nat ->
  transf_block V512 unroll h data = Sha2Big.FIPS.block data h.
Proof.
  intros Hh Hb Hd.
  rewrite (transf_block_compress V512 unroll h data 10 Hh eq_refl) by lia.
  destruct (block_words512 data Hb Hd) as [-> Hw]. by rewrite gcompress512.
Qed.

(** ** Buffering and padding
    [holds m x]: the context [x] has taken the bytes [m], from the initial value [iv]. *)
Section Buffer.
Context (V : variant) (UNROLL_LOOPS : bool).
Context (c : config) (f : list Z -> list Z -> list Z) (iv : list Z).
Notation B := (SPH_BLEN c).
Context (Hc : valid_config c = true) (HB : BLOCK_SIZE V = B) (HB64 : (64 <= B <= 128)%nat) (Hiv : length iv = 8%nat).
Context (Hf : forall h data, length h = 8%nat -> is_bytes data -> length data = B ->
  transf_block V UNROLL_LOOPS h data = f data h).
Context (Hf8 : forall h data, length h = 8%nat -> length (f data h) = 8%nat).

Let Bpos : (0 < B)%nat.
Proof. lia. Qed.

Record holds (m : list Z) (x : ctx) : Prop := {
  holds_block : length (block x) = (2 * B)%nat;
  holds_len : len x = Z.of_nat (length (rest B m));
  holds_tot : tot_len x = Z.of_nat (length m) - len x;
  holds_rest : take (length (rest B m)) (block x) = rest B m;
  holds_h : h x = absorb c f m iv
}.

Lemma absorb_length m v : length v = 8%nat -> length (absorb c f m v) = 8%nat.
Proof.
  unfold absorb. generalize (chunks B m) as l. intros l. revert v.
  induction l as [|b l IH]; intros v Hv; cbn [fold_left]; [done|]. apply IH, Hf8, Hv.
Qed.

Lemma chunks_aux_map n (l : list Z) :
  chunks_aux n B l = map (fun i => take B (drop (i * B) l)) (seq 0 n).
Proof.
  revert l. induction n as [|n IH]; intros l; [done|]. cbn [chunks_aux seq map].
  rewrite IH, <- seq_shift, map_map. f_equal.
  apply map_ext. intros i. by rewrite drop_drop.
Qed.

Lemma bytes_block n i (l : list Z) :
  is_bytes (take (n * B) l) -> (i < n)%nat -> is_bytes (take B (drop (i * B) l)).
Proof.
  intros H Hi. replace B with (i * B + B - i * B)%nat at 1 by lia.
  rewrite <- skipn_firstn_comm. apply Forall_drop.
  replace (i * B + B)%nat with (Nat.min (i * B + B) (n * B)) by nia.
  rewrite <- take_take. by apply Forall_take.
Qed.

(** Blocks are transformed in order. *)
Lemma transf_chunks v msg n :
  length v = 8%nat -> is_bytes (take (n * B) msg) -> (n * B <= length msg)%nat ->
  transf V UNROLL_LOOPS v msg n = fold_left (fun v b => f b v) (chunks_aux n B msg) v.
Proof.
  intros Hv Hb Hn. unfold transf. rewrite HB, chunks_aux_map.
  assert (Hall : forall i, In i (seq 0 n) -> length (take B (drop (i * B) msg)) = B /\
    is_bytes (take B (drop (i * B) msg))).
  { intros i Hi. apply in_seq in Hi. split; [rewrite length_take, length_drop; nia|].
    apply (bytes_block n); [done|lia]. }
  revert Hall v Hv. generalize (seq 0 n) as l. intros l.
  induction l as [|i l IH]; intros Hall v Hv; cbn [fold_left map]; [done|].
  destruct (Hall i ltac:(by left)) as [Hi1 Hi2]. rewrite Hf by done.
  apply IH; [|by apply Hf8]. intros j Hj. apply Hall. by right.
Qed.

Lemma holds_rest_len m x : holds m x -> 0 <= len x < Z.of_nat B.
Proof. intros H. rewrite (holds_len _ _ H). pose proof (rest_lt B Bpos m). lia. Qed.

Lemma init_holds h0 x : h0 = iv -> length (block x) = (2 * B)%nat -> holds [] (init h0 x).
Proof.
  intros -> Hx. assert (E : rest B ([] : list Z) = []) by (by apply rest_small).
  split; cbn [block len tot_len h init]; rewrite ?E; try done.
  unfold absorb. by rewrite chunks_small.
Qed.

(** The two branches of [update]. *)
Lemma update_partial m x d :
  holds m x -> (length (rest B m) + length d < B)%nat ->
  holds (m ++ d) (Ctx (tot_len x) (len x + Z.of_nat (length d))
                    (memcpy (block x) (length (rest B m)) d) (h x)).
Proof.
  intros H Hs. pose proof (holds_len _ _ H) as El.
  assert (E : rest B (m ++ d) = rest B m ++ d)
    by (rewrite (rest_app B Bpos); apply rest_small; rewrite length_app; lia).
  split; cbn [block len tot_len h]; rewrite ?E, ?length_app.
  - rewrite length_memcpy; rewrite (holds_block _ _ H); lia.
  - lia.
  - rewrite (holds_tot _ _ H). lia.
  - apply take_memcpy_exact; [apply (holds_rest _ _ H)|done|rewrite (holds_block _ _ H); lia].
  - rewrite (holds_h _ _ H), absorb_app by done. unfold absorb at 2.
    rewrite (chunks_small B (rest B m ++ d)); [done|]. rewrite length_app. lia.
Qed.

Lemma update_full m x d t :
  holds m x -> is_bytes (m ++ d) -> (length (rest B m) + t = B)%nat -> (t <= length d)%nat ->
  let b := memcpy (block x) (length (rest B m)) (take t d) in
  let s := drop t d in
  let v := transf V UNROLL_LOOPS (transf V UNROLL_LOOPS (h x) b 1) s (length s / B) in
  holds (m ++ d)
    (Ctx (tot_len x + Z.of_nat (length s / B + 1) * Z.of_nat B) (Z.of_nat (length (rest B s)))
       (memcpy b 0 (rest B s)) v).
Proof.
  intros H Hb Ht Hd b s v. apply Forall_app in Hb as [Hm Hbd].
  pose proof (rest_lt B Bpos s) as Hs. pose proof (holds_block _ _ H) as Hbl.
  assert (Hlt : length (take t d) = t) by (rewrite length_take; lia).
  assert (Hbb : take B b = rest B m ++ take t d).
  { unfold b. replace B with (length (rest B m) + length (take t d))%nat at 1 by lia.
    apply take_memcpy_exact; [apply (holds_rest _ _ H)|done|lia]. }
  assert (Hlb : length b = (2 * B)%nat) by (unfold b; rewrite length_memcpy; lia).
  assert (E : rest B m ++ d = concat [rest B m ++ take t d] ++ s).
  { cbn [concat]. rewrite app_nil_r, <- app_assoc. unfold s. by rewrite take_drop. }
  assert (Hone : Forall (fun b => length b = B) [rest B m ++ take t d]).
  { repeat constructor. rewrite length_app. lia. }
  destruct (chunks_blocks_app B Bpos _ s Hone) as [Ec Er].
  assert (Erest : rest B (m ++ d) = rest B s) by (by rewrite (rest_app B Bpos), E, Er).
  assert (Hrm : is_bytes (rest B m)) by by apply Forall_drop.
  assert (Hv8 : length (h x) = 8%nat) by (rewrite (holds_h _ _ H); by apply absorb_length).
  split; cbn [block len tot_len h]; rewrite ?Erest.
  - by rewrite length_memcpy by lia.
  - done.
  - rewrite (holds_tot _ _ H), (holds_len _ _ H), length_app. rewrite !length_rest in * by lia.
    assert (Hds : length d = (t + length s)%nat) by (unfold s; rewrite length_drop; lia).
    pose proof (Nat.div_mod_eq (length s) B). lia.
  - exact (take_memcpy_exact b 0 (rest B s) [] eq_refl eq_refl ltac:(lia)).
  - unfold v. rewrite (transf_chunks (h x) b 1); [|done| |lia].
    2:{ rewrite Nat.mul_1_l, Hbb. apply Forall_app. split; [done|by apply Forall_take]. }
    cbn [chunks_aux fold_left]. rewrite Hbb.
    rewrite transf_chunks; [|by apply Hf8|by apply Forall_take, Forall_drop|by apply div_mul_le].
    rewrite (absorb_app c f Hc), E. unfold absorb at 1. rewrite Ec, (holds_h _ _ H). done.
Qed.

Lemma update_holds m x d :
  holds m x -> is_bytes (m ++ d) -> Z.of_nat (length (m ++ d)) < 2 ^ 29 ->
  holds (m ++ d) (update V UNROLL_LOOPS x d).
Proof.
  intros H Hb Hl. pose proof (holds_rest_len _ _ H) as Hx. pose proof (holds_len _ _ H) as El.
  rewrite length_app in Hl. unfold update. rewrite HB. unfold uint32.
  rewrite !(Z.mod_small (Z.of_nat B - _)), (Z.mod_small (len x + _)) by lia.
  destruct (Z.ltb_spec (len x + Z.of_nat (length d)) (Z.of_nat B)) as [Hs|Hs].
  - destruct (Z.ltb_spec (Z.of_nat (length d)) (Z.of_nat B - len x)); [|lia].
    rewrite Nat2Z.id, take_ge, El, Nat2Z.id, <- El by lia. apply update_partial; [done|lia].
  - destruct (Z.ltb_spec (Z.of_nat (length d)) (Z.of_nat B - len x)); [lia|].
    set (t := Z.to_nat (Z.of_nat B - len x)).
    assert (Hs' : Z.of_nat (length d) - (Z.of_nat B - len x) = Z.of_nat (length (drop t d)))
      by (rewrite length_drop; lia).
    rewrite Hs', (Z.mod_small (Z.of_nat _)), Z.quot_div_nonneg, Z.rem_mod_nonneg by lia.
    rewrite <- Nat2Z.inj_div, <- Nat2Z.inj_mod, !Nat2Z.id.
    set (s := drop t d) in *. pose proof (Nat.div_mod_eq (length s) B) as Hdm.
    pose proof (length_rest B Bpos s) as Hrs.
    rewrite (Z.mod_small (Z.of_nat (length s / B) * _)) by nia.
    replace (Z.to_nat (Z.of_nat (length s / B) * Z.of_nat B)) with (length s / B * B)%nat by lia.
    change (drop (length s / B * B) s) with (rest B s). rewrite (take_ge (rest B s)), <- Hrs by lia.
    replace (Z.to_nat (len x)) with (length (rest B m)) by lia.
    pose proof (update_full m x d t H Hb ltac:(lia) ltac:(lia)) as HF. cbv zeta in HF.
    fold s in HF. rewrite Z.mod_small; [|rewrite (holds_tot _ _ H); nia].
    replace (Z.of_nat (length s / B) + 1) with (Z.of_nat (length s / B + 1)) by lia. exact HF.
Qed.

Lemma updates_hold h0 x ds :
  h0 = iv -> length (block x) = (2 * B)%nat -> is_bytes (concat ds) ->
  Z.of_nat (length (concat ds)) < 2 ^ 29 ->
  holds (concat ds) (fold_left (update V UNROLL_LOOPS) ds (init h0 x)).
Proof.
  intros Hh Hx. induction ds as [|d ds IH] using rev_ind; intros Hb Hl; [by apply init_holds|].
  rewrite concat_app in *. cbn [concat] in *. rewrite app_nil_r in *.
  rewrite fold_left_app. cbn [fold_left]. apply update_holds; [|done|done].
  apply IH; [by apply Forall_app in Hb as [? _]|]. rewrite length_app in Hl. lia.
Qed.

(** What [close] hashes last: the bytes of the block, [0x80], zeros and a length of which
    only the low 32 bits are written. *)
Context (Hbe : big_endian c = true) (Hpw : PW01 c = false).
Context (Htail : (tail_size V + SPH_MAXPAD c = B + 1)%nat) (Hfield : (SPH_MAXPAD c + 8 <= B)%nat).
Context (Henc : forall w, unpack V w = enc_word c w).

Definition blocks_left (r : nat) : nat := if (SPH_MAXPAD c <=? r)%nat then 2 else 1.

Definition last_bytes (m : list Z) : list Z :=
  rest B m ++ 0x80 :: replicate (blocks_left (length (rest B m)) * B - length (rest B m) - 5) 0
  ++ UNPACK32 (8 * Z.of_nat (length m)).

Lemma length_field_short L :
  0 <= L < 2 ^ 32 ->
  length_field c L = replicate (B - SPH_MAXPAD c - 4) 0 ++ UNPACK32 L.
Proof.
  intros HL. unfold length_field. rewrite Hbe.
  replace (B - SPH_MAXPAD c)%nat with (4 + (B - SPH_MAXPAD c - 4))%nat at 1 by lia.
  rewrite store_le_app, rev_app_distr. change (UNPACK32 L) with (sph_enc32be L).
  rewrite enc32be_store. f_equal.
  change (8 * Z.of_nat 4) with 32. rewrite Z.shiftr_div_pow2, Z.div_small by lia.
  rewrite store_le_0, rev_alt. apply reverse_replicate.
Qed.

Lemma last_bytes_pad m :
  Z.of_nat (length m) < 2 ^ 29 ->
  exists p, pad c m 0 0 = m ++ p /\ rest B m ++ p = last_bytes m.
Proof.
  intros Hm. unfold pad, last_bytes. eexists. split; [reflexivity|]. do 2 f_equal.
  { unfold pad_byte. rewrite Hpw. reflexivity. }
  rewrite Z.add_0_r, length_field_short by lia. rewrite app_assoc. f_equal.
  rewrite <- replicate_add. unfold blocks_left. rewrite length_rest by lia.
  set (M := SPH_MAXPAD c) in *. pose proof (Nat.div_mod_eq (length m) B) as Hdm.
  pose proof (Nat.mod_upper_bound (length m) B ltac:(lia)) as Hr.
  set (q := (length m / B)%nat) in *. set (r := (length m mod B)%nat) in *. clearbody q r.
  f_equal.
  replace (Z.of_nat M - Z.of_nat (length m) - 1)
    with (Z.of_nat M - 1 - Z.of_nat r + (- Z.of_nat q) * Z.of_nat B) by nia.
  rewrite Z.mod_add by lia.
  destruct (Nat.leb_spec M r).
  - replace (Z.of_nat M - 1 - Z.of_nat r)
      with (Z.of_nat M - 1 - Z.of_nat r + Z.of_nat B + (-1) * Z.of_nat B) by lia.
    rewrite Z.mod_add, Z.mod_small by lia. lia.
  - rewrite Z.mod_small by lia. lia.
Qed.

(** A write inside the known bytes of a buffer. *)
Lemma memcpy_within (b p q s d : list Z) n :
  take n b = p ++ q ++ s -> (n <= length b)%nat -> length q = length d ->
  take n (memcpy b (length p) d) = p ++ d ++ s /\ length (memcpy b (length p) d) = length b.
Proof.
  intros H Hn Hq. assert (Hl : n = (length p + length d + length s)%nat).
  { rewrite <- Hq, <- Nat.add_assoc, <- !length_app, <- H, length_take. lia. }
  split; [|apply length_memcpy; lia].
  rewrite <- (take_drop n b), H. unfold memcpy. rewrite <- !app_assoc, take_app_length.
  rewrite drop_app, drop_ge by lia.
  replace (length p + length d - length p)%nat with (length q) by lia.
  rewrite drop_app_length. change ([] ++ ?l) with l. rewrite !app_assoc, take_app_length'; [done|].
  rewrite !length_app. lia.
Qed.

Lemma close_buffer m x :
  holds m x ->
  let r := length (rest B m) in
  let n := (blocks_left r * B)%nat in
  let b := memcpy (memcpy (memset (block x) r 0 (n - r)) r [0x80]) (n - 4)
             (UNPACK32 (8 * Z.of_nat (length m))) in
  take n b = last_bytes m /\ length b = (2 * B)%nat.
Proof.
  intros H r n b. pose proof (rest_lt B Bpos m) as Hr. fold r in Hr.
  pose proof (holds_block _ _ H) as Hb. pose proof (holds_rest _ _ H) as Ht. fold r in Ht.
  assert (Hn : (r + 9 <= n <= 2 * B)%nat).
  { unfold n, blocks_left. destruct (Nat.leb_spec (SPH_MAXPAD c) r); lia. }
  unfold b, last_bytes. fold r. fold n. clear b. clearbody n. unfold memset.
  set (w := UNPACK32 _). assert (Hw : length w = 4%nat) by done. clearbody w.
  assert (H0 : take n (block x) = rest B m ++ take (n - r) (drop r (block x)) ++ []).
  { rewrite app_nil_r, <- Ht at 1. rewrite take_take_drop. f_equal. lia. }
  destruct (memcpy_within _ _ _ _ (replicate (n - r) 0) _ H0) as [H1 L1];
    [lia|rewrite length_take, length_drop, length_replicate; lia|].
  assert (E1 : replicate (n - r) 0 ++ [] = [0] ++ replicate (n - r - 1) 0).
  { rewrite app_nil_r. by replace (n - r)%nat with (S (n - r - 1)) at 1 by lia. }
  rewrite E1 in H1.
  destruct (memcpy_within _ _ _ _ [0x80] _ H1) as [H2 L2]; [lia|done|].
  assert (E2 : rest B m ++ [0x80] ++ replicate (n - r - 1) 0 =
    (rest B m ++ 0x80 :: replicate (n - r - 5) 0) ++ replicate 4 0 ++ []).
  { rewrite app_nil_r, <- app_assoc. cbn [app]. do 2 f_equal.
    rewrite <- replicate_add. f_equal. lia. }
  rewrite E2 in H2.
  destruct (memcpy_within _ _ _ _ w _ H2) as [H3 L3]; [lia|done|]. fold r in H3, L3, L2, L1.
  replace (length (rest B m ++ 0x80 :: replicate (n - r - 5) 0)) with (n - 4)%nat in H3, L3
    by (rewrite length_app, length_cons, length_replicate; fold r; lia).
  split; [|lia]. rewrite H3, app_nil_r, <- app_assoc. done.
Qed.

Lemma last_bytes_ok m :
  is_bytes m -> is_bytes (last_bytes m) /\
  length (last_bytes m) = (blocks_left (length (rest B m)) * B)%nat.
Proof.
  intros Hm. pose proof (rest_lt B Bpos m) as Hr. split.
  - unfold last_bytes. apply Forall_app. split; [by apply Forall_drop|].
    constructor; [lia|]. apply Forall_app. split; [apply Forall_replicate; lia|].
    unfold UNPACK32. repeat constructor; apply byte_range.
  - unfold last_bytes. rewrite length_app, length_cons, length_app, length_replicate.
    cbn [length UNPACK32]. unfold blocks_left. destruct (Nat.leb_spec (SPH_MAXPAD c) (length (rest B m))); lia.
Qed.

Lemma close_holds m x rnum :
  holds m x -> is_bytes m -> Z.of_nat (length m) < 2 ^ 29 ->
  (close V UNROLL_LOOPS x rnum).2 = hash_bits c f iv rnum m 0 0.
Proof.
  intros H Hb Hm. pose proof (holds_rest_len _ _ H) as Hx. pose proof (holds_len _ _ H) as El.
  destruct (close_buffer m x H) as [Hn Hl]. destruct (last_bytes_ok m Hb) as [Hlb Hll].
  set (r := length (rest B m)) in *. unfold close, hash_bits. rewrite HB. cbv zeta. cbn [snd].
  assert (En : 1 + (if Z.of_nat B - Z.of_nat (tail_size V) <? Z.rem (len x) (Z.of_nat B)
                    then 1 else 0) = Z.of_nat (blocks_left r)).
  { rewrite Z.rem_small by lia. unfold blocks_left.
    destruct (Z.ltb_spec (Z.of_nat B - Z.of_nat (tail_size V)) (len x)),
      (Nat.leb_spec (SPH_MAXPAD c) r); lia. }
  rewrite En. clear En. set (n := blocks_left r) in *.
  assert (Hn1 : (1 <= n <= 2)%nat) by (unfold n, blocks_left; destruct (_ <=? _)%nat; lia).
  replace (uint32 ((tot_len x + len x) <<. 3)) with (8 * Z.of_nat (length m)).
  2:{ rewrite (holds_tot _ _ H), Z.shiftl_mul_pow2 by lia. unfold uint32.
      rewrite Z.mod_small; lia. }
  replace (Z.to_nat (uint32 (Z.of_nat n * Z.of_nat B - len x))) with (n * B - r)%nat
    by (unfold uint32; rewrite Z.mod_small by nia; nia).
  replace (Z.to_nat (Z.of_nat n * Z.of_nat B - 4)) with (n * B - 4)%nat by nia.
  rewrite Nat2Z.id. replace (Z.to_nat (len x)) with r by lia.
  rewrite transf_chunks; [|rewrite (holds_h _ _ H); by apply absorb_length|by rewrite Hn|rewrite Hl; nia].
  rewrite <- (take_drop (n * B) (memcpy _ _ _)), Hn, chunks_aux_app by (rewrite Hll; lia).
  destruct (last_bytes_pad m Hm) as (p & -> & Hp).
  rewrite (absorb_app c f Hc), Hp, (holds_h _ _ H). unfold absorb at 2, chunks.
  rewrite Hll, Nat.div_mul by lia. f_equal. apply map_ext, Henc.
Qed.
End Buffer.

(** *** The functions of the file *)
Lemma block_length256 h data : length h = 8%nat -> length (Sha2.FIPS.block data h) = 8%nat.
Proof. intros _. unfold Sha2.FIPS.block, Sha2.FIPS.compress. by destruct (rounds_given _ _ _ _) as [[[[[[[? ?] ?] ?] ?] ?] ?] ?]. Qed.
Lemma block_length512 h data : length h = 8%nat -> length (Sha2Big.FIPS.block data h) = 8%nat.
Proof. intros _. unfold Sha2Big.FIPS.block, Sha2Big.FIPS.compress. by destruct (rounds_given _ _ _ _) as [[[[[[[? ?] ?] ?] ?] ?] ?] ?]. Qed.

Section Streams.
Context (UNROLL_LOOPS : bool) (h0 : list Z) (rnum : nat).

Lemma stream256 ds c :
  length h0 = 8%nat -> length (block c) = 128%nat -> is_bytes (concat ds) ->
  Z.of_nat (length (concat ds)) < 2 ^ 29 ->
  (close V256 UNROLL_LOOPS (fold_left (update V256 UNROLL_LOOPS) ds (init h0 c)) rnum).2 =
  hash_bits (Sha2.sha224_config false false) Sha2.FIPS.block h0 rnum (concat ds) 0 0.
Proof.
  intros Hh Hc Hb Hl.
  refine (close_holds V256 UNROLL_LOOPS (Sha2.sha224_config false false) Sha2.FIPS.block h0 eq_refl eq_refl ltac:(cbn; lia) Hh
    (transf256_block UNROLL_LOOPS) block_length256 eq_refl eq_refl eq_refl ltac:(cbn; lia)
    (fun _ => eq_refl) _ _ rnum _ Hb Hl).
  exact (updates_hold V256 UNROLL_LOOPS (Sha2.sha224_config false false) Sha2.FIPS.block h0 eq_refl eq_refl ltac:(cbn; lia) Hh
    (transf256_block UNROLL_LOOPS) block_length256 h0 c ds eq_refl Hc Hb Hl).
Qed.

Lemma stream512 ds c :
  length h0 = 8%nat -> length (block c) = 256%nat -> is_bytes (concat ds) ->
  Z.of_nat (length (concat ds)) < 2 ^ 29 ->
  (close V512 UNROLL_LOOPS (fold_left (update V512 UNROLL_LOOPS) ds (init h0 c)) rnum).2 =
  hash_bits (Sha2Big.sha384_config false false) Sha2Big.FIPS.block h0 rnum (concat ds) 0 0.
Proof.
  intros Hh Hc Hb Hl.
  refine (close_holds V512 UNROLL_LOOPS (Sha2Big.sha384_config false false) Sha2Big.FIPS.block h0 eq_refl eq_refl ltac:(cbn; lia) Hh
    (transf512_block UNROLL_LOOPS) block_length512 eq_refl eq_refl eq_refl ltac:(cbn; lia)
    (fun _ => eq_refl) _ _ rnum _ Hb Hl).
  exact (updates_hold V512 UNROLL_LOOPS (Sha2Big.sha384_config false false) Sha2Big.FIPS.block h0 eq_refl eq_refl ltac:(cbn; lia) Hh
    (transf512_block UNROLL_LOOPS) block_length512 h0 c ds eq_refl Hc Hb Hl).
Qed.

End Streams.

(** C37: The two SHA-2 of the repository agree. SHA-224, SHA-256, SHA-384 and SHA-512 of
    [sha2.cpp], unrolled or not, on contexts that held anything before, compute for every
    message that is given in pieces the digest of FIPS 180-4, which is what the functions of
    sphlib compute, as long as the message is shorter than 2^29 bytes: the length is kept in
    32 bits. *)
Theorem sha2_cpp_correct UNROLL_LOOPS ds c c' :
  length (block c) = 128%nat -> length (block c') = 256%nat -> is_bytes (concat ds) ->
  Z.of_nat (length (concat ds)) < 2 ^ 29 ->
  let U := UNROLL_LOOPS in let m := concat ds in
  (sha224_final U (fold_left (sha224_update U) ds (sha224_init c))).2 = Sha2.FIPS.SHA224 m 0 0 /\
  (sha256_final U (fold_left (sha256_update U) ds (sha256_init c))).2 = Sha2.FIPS.SHA256 m 0 0 /\
  (sha384_final U (fold_left (sha384_update U) ds (sha384_init c'))).2 =
    Sha2Big.FIPS.SHA384 m 0 0 /\
  (sha512_final U (fold_left (sha512_update U) ds (sha512_init c'))).2 =
    Sha2Big.FIPS.SHA512 m 0 0.
Proof.
  intros Hc Hc' Hb Hl. cbv zeta.
  split; [|split; [|split]].
  - rewrite <- (proj1 (Sha2.sha2_digests false false _ 0 0 ltac:(lia))).
    exact (stream256 UNROLL_LOOPS sha224_h0 7 ds c eq_refl Hc Hb Hl).
  - rewrite <- (proj2 (Sha2.sha2_digests false false _ 0 0 ltac:(lia))).
    exact (stream256 UNROLL_LOOPS sha256_h0 8 ds c eq_refl Hc Hb Hl).
  - rewrite <- (proj1 (Sha2Big.sha2big_digests false false _ 0 0 ltac:(lia))).
    exact (stream512 UNROLL_LOOPS sha384_h0 6 ds c' eq_refl Hc' Hb Hl).
  - rewrite <- (proj2 (Sha2Big.sha2big_digests false false _ 0 0 ltac:(lia))).
    exact (stream512 UNROLL_LOOPS sha512_h0 8 ds c' eq_refl Hc' Hb Hl).
Qed.

Lemma sha2_cpp_correct_witness :
  let c n := Ctx 5 6 (replicate n 9) [] in
  (sha224_final true (fold_left (sha224_update true) [[97; 98]; [99]] (sha224_init (c 128%nat)))).2
    = Sha2.FIPS.SHA224 [97; 98; 99] 0 0 /\
  (sha256_final true (fold_left (sha256_update true) [[97; 98]; [99]] (sha256_init (c 128%nat)))).2
    = Sha2.FIPS.SHA256 [97; 98; 99] 0 0 /\
  (sha384_final true (fold_left (sha384_update true) [[97; 98]; [99]] (sha384_init (c 256%nat)))).2
    = Sha2Big.FIPS.SHA384 [97; 98; 99] 0 0 /\
  (sha512_final true (fold_left (sha512_update true) [[97; 98]; [99]] (sha512_init (c 256%nat)))).2
    = Sha2Big.FIPS.SHA512 [97; 98; 99] 0 0.
Proof.
  apply (sha2_cpp_correct true [[97; 98]; [99]] (Ctx 5 6 (replicate 128 9) [])
    (Ctx 5 6 (replicate 256 9) [])); [reflexivity|reflexivity| |reflexivity].
  cbn. repeat constructor; lia.
Defined.

(** [sha512_update_final] is an update and a close, when the message still fits the block. *)
Lemma update_final_correct UNROLL_LOOPS m c d :
  holds (Sha2Big.sha384_config false false) Sha2Big.FIPS.block sha512_h0 m c ->
  is_bytes (m ++ d) -> Z.of_nat (length (m ++ d)) < 2 ^ 29 ->
  (length (rest 128 m) + length d < 128)%nat ->
  (sha512_update_final UNROLL_LOOPS c d).2 = Sha2Big.FIPS.SHA512 (m ++ d) 0 0.
Proof.
  intros H Hb Hl Hs. unfold sha512_update_final, update_final.
  rewrite <- (proj2 (Sha2Big.sha2big_digests false false _ 0 0 ltac:(lia))).
  refine (close_holds V512 UNROLL_LOOPS (Sha2Big.sha384_config false false) Sha2Big.FIPS.block sha512_h0 eq_refl eq_refl ltac:(cbn; lia) eq_refl
    (transf512_block UNROLL_LOOPS) block_length512 eq_refl eq_refl eq_refl ltac:(cbn; lia)
    (fun _ => eq_refl) _ _ 8%nat _ Hb Hl).
  pose proof (holds_len _ _ _ _ _ H) as El. rewrite length_app in Hl.
  replace (uint32 _) with (len c + Z.of_nat (length d))
    by (unfold uint32; change (SPH_BLEN _) with 128%nat in El; rewrite Z.mod_small; lia).
  replace (Z.to_nat (len c)) with (length (rest 128 m)) by (change (SPH_BLEN _) with 128%nat in El; lia).
  exact (update_partial V512 (Sha2Big.sha384_config false false) Sha2Big.FIPS.block sha512_h0 eq_refl eq_refl ltac:(cbn; lia) eq_refl m c d H Hs).
Qed.
