(* ===== verification/Errors.v ===== *)
(** The exceptions of [exceptions.hpp], the result of a call that may throw, and computations
    on a state that survives them. A throwing call that is a [result] leaves no state behind:
    the callers of the chain discard the pending state of a transaction that threw. *)
From S2P Require Import Prelude.

(** The exceptions the modelled code throws, with the names of the source;
    [assert_exception] is a failed FC_ASSERT, [undefined_behaviour] the dereference of an
    end iterator, of a null pointer or of an empty optional, and a division by zero;
    [bad_cast], [key_not_found] and [unpack_error] come from [fc::variant], the database and
    [fc::raw]; [wallet_insufficient_funds] is that of [bts::wallet]; [aborted] is a failed [assert], which ends the program, and [does_not_return] a
    loop that never ends. *)
Inductive exn :=
  | assert_exception
  | undefined_behaviour
  | addition_overflow
  | addition_underthrow
  | asset_type_mismatch
  | asset_divide_by_self
  | asset_divide_by_zero
  | duplicate_transaction
  | zero_amount
  | zero_price
  | negative_deposit
  | not_a_delegate
  | unknown_balance_record
  | insufficient_funds
  | missing_signature
  | invalid_claim_password
  | invalid_withdraw_condition
  | negative_withdraw
  | not_an_active_delegate
  | expired_transaction
  | invalid_account_name
  | unknown_account_id
  | unknown_account_name
  | missing_parent_account_signature
  | parent_account_retracted
  | account_already_registered
  | account_key_in_use
  | account_retracted
  | unknown_parent_account_name
  | invalid_fire_operation
  | not_a_delegate_signature
  | invalid_vote_message_size
  | unknown_proposal_id
  | invalid_precision
  | invalid_asset_symbol
  | unknown_asset_id
  | asset_symbol_in_use
  | invalid_asset_amount
  | negative_issue
  | over_issue
  | delegate_vote_limit
  | insufficient_fee
  | negative_fee
  | missing_deposit
  | unknown_market_order
  | unknown_transaction
  | block_numbers_not_sequential
  | invalid_previous_block_id
  | invalid_block_time
  | time_in_past
  | unsupported_chain_operation
  | bad_cast
  | key_not_found
  | unpack_error
  | unlinkable_block
  | login_required
  | invalid_password
  | wallet_already_exists
  | no_such_wallet
  | unknown_receive_account
  | wallet_closed
  | wallet_insufficient_funds
  | password_too_short
  | wallet_unknown_market_order
  | unknown_address
  | fee_greater_than_amount
  | negative_bid
  | invalid_price
  | unknown_asset_symbol
  | invalid_market
  | aborted
  | does_not_return.

#[export] Instance exn_eq_dec : EqDecision exn.
Proof. solve_decision. Defined.

Inductive result (A : Type) :=
  | Ok (a : A)
  | Throw (e : exn).
Arguments Ok {A} a.
Arguments Throw {A} e.

Definition bind {A B} (r : result A) (f : A -> result B) : result B :=
  match r with
  | Ok a => f a
  | Throw e => Throw e
  end.

Declare Scope result_scope.
Delimit Scope result_scope with result.
Notation "'let*' x := e 'in' b" := (bind e (fun x => b))
  (at level 200, x pattern, b at level 200) : result_scope.
Open Scope result_scope.

(** [if( b ) FC_CAPTURE_AND_THROW( e )]. *)
Definition throw_if (b : bool) (e : exn) : result unit := if b then Throw e else Ok tt.
(** [FC_ASSERT( b )]. *)
Definition FC_ASSERT (b : bool) : result unit := throw_if (negb b) assert_exception.
(** [if( !o ) FC_CAPTURE_AND_THROW( e )], then [*o]. *)
Definition value_or_throw {A} (o : option A) (e : exn) : result A :=
  match o with Some a => Ok a | None => Throw e end.
(** [*o], [o->...] on an [optional]. *)
Definition deref {A} (o : option A) : result A := value_or_throw o undefined_behaviour.

(** A loop whose body may throw. *)
Fixpoint foldM {A B} (f : B -> A -> result B) (b : B) (l : list A) : result B :=
  match l with
  | [] => Ok b
  | a :: l => let* b := f b a in foldM f b l
  end.

Definition is_ok {A} (r : result A) : bool := match r with Ok _ => true | Throw _ => false end.

(** ** Inversion of successful computations *)
Lemma bind_ok {A B} (r : result A) (f : A -> result B) b :
  bind r f = Ok b <-> exists a, r = Ok a /\ f a = Ok b.
Proof.
  destruct r; simpl; split.
  - eauto.
  - by intros (a' & [= ->] & ?).
  - done.
  - by intros (a' & ? & _).
Qed.

Lemma Ok_inj {A} (a b : A) : Ok a = Ok b -> a = b.
Proof. congruence. Qed.

Lemma throw_if_ok b e u : throw_if b e = Ok u <-> b = false.
Proof. destruct u, b; simpl; split; done. Qed.

Lemma FC_ASSERT_ok b u : FC_ASSERT b = Ok u <-> b = true.
Proof. unfold FC_ASSERT. rewrite throw_if_ok. by destruct b. Qed.

Lemma value_or_throw_ok {A} (o : option A) e a : value_or_throw o e = Ok a <-> o = Some a.
Proof. destruct o; simpl; split; congruence. Qed.

(** Takes a hypothesis [computation = Ok v] apart, guard by guard. *)
Ltac inv_ok_step :=
  match goal with
  | H : bind _ _ = Ok _ |- _ => apply bind_ok in H as (? & ? & H); cbv beta iota zeta in H
  | H : throw_if _ _ = Ok _ |- _ => apply throw_if_ok in H
  | H : FC_ASSERT _ = Ok _ |- _ => apply FC_ASSERT_ok in H
  | H : value_or_throw _ _ = Ok _ |- _ => apply value_or_throw_ok in H
  | H : deref _ = Ok _ |- _ => apply value_or_throw_ok in H
  | H : Ok _ = Ok _ |- _ => apply Ok_inj in H
  | H : Throw _ = Ok _ |- _ => discriminate H
  | H : (let '(_, _) := ?x in _) = Ok _ |- _ => destruct x
  | H : (_, _) = (_, _) |- _ => injection H as ?; subst
  | x : unit |- _ => destruct x
  end.
Ltac inv_ok := repeat inv_ok_step; subst.

(** The same, through the branches of the computation. *)
Ltac inv_run :=
  repeat first
    [ inv_ok_step
    | match goal with
      | H : (if ?b then _ else _) = Ok _ |- _ => destruct b eqn:?
      | H : (match ?o with Some _ => _ | None => _ end) = Ok _ |- _ => destruct o eqn:?
      end ]; subst.

(** The cases of a hypothesis [(if b then _ else _) = Ok v]. *)
Ltac case_if_ok H := match type of H with (if ?b then _ else _) = _ => destruct b eqn:? end.

(** * Computations on a state that survives exceptions: what was stored before a [throw] stays
    stored, and a handler sees it. *)

Section Run.
Context {S : Type}.

Definition run (A : Type) : Type := S -> result A * S.

Definition ret {A} (a : A) : run A := fun s => (Ok a, s).
Definition raise {A} (e : exn) : run A := fun s => (Throw e, s).
Definition run_bind {A B} (m : run A) (f : A -> run B) : run B := fun s =>
  match m s with
  | (Ok a, s) => f a s
  | (Throw e, s) => (Throw e, s)
  end.
(** Reading the state, with a computation that may throw; and changing it. *)
Definition reads {A} (f : S -> result A) : run A := fun s => (f s, s).
Definition modify (f : S -> S) : run unit := fun s => (Ok tt, f s).

(** An [fc::exception]: undefined behaviour, the end of the program and a loop that never ends
    are none. *)
Definition is_fc_exception (e : exn) : bool :=
  match e with undefined_behaviour | aborted | does_not_return => false | _ => true end.

(** The outcome of a computation that did not crash. *)
Definition returned {A} (r : result A) : Prop :=
  match r with Ok _ => True | Throw e => is_fc_exception e = true end.

(** [try m catch( const fc::exception& e ) h]. *)
Definition try_catch {A} (m : run A) (h : exn -> run A) : run A := fun s =>
  match m s with
  | (Throw e, s) => if is_fc_exception e then h e s else (Throw e, s)
  | r => r
  end.

Fixpoint run_each {B} (f : B -> run unit) (l : list B) : run unit :=
  match l with
  | [] => ret tt
  | b :: l => run_bind (f b) (fun _ => run_each f l)
  end.
Fixpoint run_fold {A B} (f : A -> B -> run A) (a : A) (l : list B) : run A :=
  match l with
  | [] => ret a
  | b :: l => run_bind (f a b) (fun a => run_fold f a l)
  end.
End Run.
Arguments run : clear implicits.

Declare Scope run_scope.
Delimit Scope run_scope with run.
Notation "'let!' x := e 'in' b" := (run_bind e (fun x => b))
  (at level 200, x pattern, b at level 200) : run_scope.
Open Scope run_scope.

(** A computation on a part of the state. *)
Definition on_part {S T A} (get : S -> T) (put : T -> S -> S) (m : run T A) : run S A := fun s =>
  let '(r, t) := m (get s) in (r, put t s).

(** ** Inversion of computations that do not throw *)
Section Inversion.
Context {S : Type}.
Implicit Types s : S.

Lemma run_bind_ok {A B} (m : run S A) (f : A -> run S B) s b s' :
  run_bind m f s = (Ok b, s') <-> exists a s1, m s = (Ok a, s1) /\ f a s1 = (Ok b, s').
Proof.
  unfold run_bind. destruct (m s) as [[a|e] s1]; split.
  - eauto.
  - by intros (? & ? & [= -> ->] & ?).
  - intros [=].
  - by intros (? & ? & [=] & ?).
Qed.

Lemma ret_ok {A} (a b : A) s s' : ret a s = (Ok b, s') <-> b = a /\ s' = s.
Proof. unfold ret. split; [intros H; injection H; auto|intros [? ?]; congruence]. Qed.
Lemma raise_ok {A} e (b : A) s s' : raise e s = (Ok b, s') <-> False.
Proof. unfold raise. split; [discriminate|done]. Qed.
Lemma reads_ok {A} (f : S -> result A) s a s' : reads f s = (Ok a, s') <-> f s = Ok a /\ s' = s.
Proof. unfold reads. split; [intros H; injection H; auto|intros [? ?]; congruence]. Qed.
Lemma modify_ok (f : S -> S) s u s' : modify f s = (Ok u, s') <-> s' = f s.
Proof. unfold modify. destruct u. split; [intros H; injection H; auto|congruence]. Qed.

Lemma try_catch_ok {A} (m : run S A) h s a s' :
  try_catch m h s = (Ok a, s') <->
  m s = (Ok a, s') \/
  exists e s1, m s = (Throw e, s1) /\ is_fc_exception e = true /\ h e s1 = (Ok a, s').
Proof.
  unfold try_catch. destruct (m s) as [[b|e] s1].
  { split; [by left|]. intros [?|(e & ? & [=] & _)]. done. }
  destruct (is_fc_exception e) eqn:E; split.
  - intros Hh. right. by exists e, s1.
  - intros [[=]|(e' & s2 & Hm & _ & Hh)]. injection Hm as -> ->. done.
  - intros [=].
  - intros [[=]|(e' & s2 & Hm & He & _)]. injection Hm as -> ->. congruence.
Qed.

(** A handler that throws again does not succeed. *)
Lemma try_rethrow_ok {A} (m : run S A) (h : exn -> run S unit) s a s' :
  try_catch m (fun e => let! _ := h e in raise e) s = (Ok a, s') <-> m s = (Ok a, s').
Proof.
  rewrite try_catch_ok. split; [|by left]. intros [Hm|(e & s1 & _ & _ & Hh)]; [done|].
  apply run_bind_ok in Hh as (? & ? & _ & Hr). by apply raise_ok in Hr.
Qed.

Lemma on_part_ok {T A} (get : S -> T) put (m : run T A) s a s' :
  on_part get put m s = (Ok a, s') <-> exists t, m (get s) = (Ok a, t) /\ s' = put t s.
Proof.
  unfold on_part. destruct (m (get s)) as [r t]. split.
  - intros H. injection H as -> <-. by exists t.
  - intros (t' & H & ->). by injection H as -> ->.
Qed.
End Inversion.

(** ** Running a computation step by step *)
Section Steps.
Context {S : Type}.
Implicit Types s : S.

Lemma run_reads {A B} (f : S -> result A) (k : A -> run S B) s :
  run_bind (reads f) k s = match f s with Ok a => k a s | Throw e => (Throw e, s) end.
Proof. reflexivity. Qed.
Lemma run_modify {B} f (k : unit -> run S B) s : run_bind (modify f) k s = k tt (f s).
Proof. reflexivity. Qed.
Lemma run_assoc {A B C} (m : run S A) (f : A -> run S B) (k : B -> run S C) s :
  run_bind (run_bind m f) k s = run_bind m (fun a => run_bind (f a) k) s.
Proof. unfold run_bind. by destruct (m s) as [[a|e] s1]. Qed.
Lemma run_step {A B} (m : run S A) (k : A -> run S B) s a s1 :
  m s = (Ok a, s1) -> run_bind m k s = k a s1.
Proof. unfold run_bind. by intros ->. Qed.
Lemma run_raise {A B} e (k : A -> run S B) s : run_bind (raise e) k s = (Throw e, s).
Proof. reflexivity. Qed.
End Steps.

(** Takes a hypothesis [computation s = (Ok v, s')] apart. *)
Ltac inv_run_step :=
  match goal with
  | H : run_bind _ _ _ = (Ok _, _) |- _ =>
      apply run_bind_ok in H as (? & ? & ? & H); cbv beta iota zeta in H
  | H : ret _ _ = (Ok _, _) |- _ => apply ret_ok in H as [? ?]
  | H : raise _ _ = (Ok _, _) |- _ => by apply raise_ok in H
  | H : reads _ _ = (Ok _, _) |- _ => apply reads_ok in H as [? ?]
  | H : modify _ _ = (Ok _, _) |- _ => apply modify_ok in H
  | x : unit |- _ => destruct x
  end.
Ltac inv_st := repeat inv_run_step; subst.
