(* ===== verification/Totals.v ===== *)
(** Sums over finite maps: the total of a quantity over all the records of a map, and how
    inserting or removing one record changes it. *)
From stdpp Require Import gmap.
From S2P Require Import Prelude.

Section Total.
Context {K A : Type} `{Countable K}.
Implicit Types (f : K -> A -> Z) (m : gmap K A).

Definition total f m : Z := map_fold (fun k r acc => f k r + acc) 0 m.

Lemma total_empty f : total f ∅ = 0.
Proof. apply map_fold_empty. Qed.

Lemma total_insert_fresh f m k r : m !! k = None -> total f (<[k := r]> m) = f k r + total f m.
Proof.
  intros Hk. unfold total. rewrite map_fold_insert_L; [done| |done]. intros. lia.
Qed.

(** What the record at [k] contributes. *)
Definition at_key f m k : Z := match m !! k with Some r => f k r | None => 0 end.

Lemma total_delete f m k : total f (delete k m) = total f m - at_key f m k.
Proof.
  unfold at_key. destruct (m !! k) as [r|] eqn:E.
  - rewrite <- (insert_delete_id m k r E) at 2.
    rewrite total_insert_fresh by apply lookup_delete_eq. lia.
  - rewrite delete_id by done. lia.
Qed.

Lemma total_insert f m k r : total f (<[k := r]> m) = total f m - at_key f m k + f k r.
Proof.
  rewrite <- insert_delete_eq, total_insert_fresh by apply lookup_delete_eq.
  rewrite total_delete. lia.
Qed.

Lemma total_nonneg f m : (forall k r, m !! k = Some r -> 0 <= f k r) -> 0 <= total f m.
Proof.
  induction m as [|k r m Hk IH] using map_ind; intros Hf; [by rewrite total_empty|].
  rewrite total_insert_fresh by done.
  specialize (Hf k r (lookup_insert_eq m k r)) as Hr.
  assert (0 <= total f m); [|lia]. apply IH. intros k' r' Hk'. apply Hf.
  rewrite lookup_insert_ne; [done|]. congruence.
Qed.
End Total.
