(* ===== verification/Momentum.v ===== *)
(** The Momentum proof of work of the miner: [hashtable.hpp], [fast_momentum.cpp] and
    [momentum.hpp]. The search looks for two nonces with the same birthday, a part of a
    SHA-512 digest; birthdays are kept in a table that overwrites on collisions of indices.
    The search hashes with sphlib, the verification with OpenSSL. The threads share the table
    without a lock: [Race] is the machine of their single reads and writes, which
    [momentum_search] runs under a schedule; [momentum_sound] says for which schedules what it
    finds verifies, [race_reports_false_pair] that for others it need not. *)
From stdpp Require Import gmap.
From S2P Require Import Prelude SphTypes MdHelper.
From S2P Require Import Sha2Big.

Definition MAX_MOMENTUM_NONCE : Z := 2 ^ 26.
Definition SEARCH_SPACE_BITS : Z := 50.
Definition BIRTHDAYS_PER_HASH : Z := 8.

(** [uint32_t( -1 )]: nothing was found. *)
Definition not_found : Z := 0xFFFFFFFF.

(** ** The table of birthdays *)

(** What the search asks of a table. *)
Class Hashtable (T : Type) := {
  reset : T -> T;
  store : Z -> Z -> T -> Z * T
}.

(** What it relies on: after [reset] nothing is in the table, and a value that is returned
    was stored under the same key since. [stored] lists the pairs of keys and values. *)
Class HashtableLaws (T : Type) `{Hashtable T} (table_ok : list (Z * Z) -> T -> Prop) : Prop := {
  reset_ok t : table_ok [] (reset t);
  store_ok stored key val t :
    table_ok stored t -> key <> 0 ->
    let '(cur, t') := store key val t in
    table_ok ((key, val) :: stored) t' /\ (cur = not_found \/ (key, cur) ∈ stored)
}.

(** An array of pairs of a key and a value, zero where nothing was written. *)
Notation entries := (gmap Z (Z * Z)).
Definition entry (t : entries) (index : Z) : Z * Z := default (0, 0) (t !! index).

(** The table, other than on Windows. *)
Module Linux.
Definition TABLE_SIZE : Z := Z.quot (2 ^ 26 * 15) 10.

Definition reset (table : entries) : entries := ∅.
Definition store (key val : Z) (table : entries) : Z * entries :=
  let next_key := key in
  let index := Z.rem next_key TABLE_SIZE in
  if (entry table index).1 =? key then ((entry table index).2, table)
  else (not_found, <[index := (key, val)]> table).

#[global] Instance hashtable : Hashtable entries := { reset := reset; store := store }.
End Linux.

(** The two tables on Windows. [reset] clears the first one twice. *)
Module Win32.
Definition TABLE_SIZE : Z := 2 ^ 25.
Record hashtable := Hashtable_ { table : entries; table2 : entries }.

Definition reset (t : hashtable) : hashtable := Hashtable_ ∅ (table2 t).
Definition store (key val : Z) (t : hashtable) : Z * hashtable :=
  let next_key := key in
  let index := Z.rem next_key TABLE_SIZE in
  if negb ((entry (table t) index).1 =? 0) then
    if (entry (table t) index).1 =? key then ((entry (table t) index).2, t)
    else if (entry (table2 t) index).1 =? key then ((entry (table2 t) index).2, t)
    else (not_found, Hashtable_ (table t) (<[index := (key, val)]> (table2 t)))
  else (not_found, Hashtable_ (<[index := (key, val)]> (table t)) (table2 t)).

#[global] Instance hashtable_ : Hashtable hashtable := { reset := reset; store := store }.
End Win32.

(** ** The search *)

(** [_hash[x]] of an [fc::sha512] or an array of [uint64_t], in memory. *)
Definition hash_word (result : list Z) (x : nat) : Z := sph_dec64le (drop (8 * x) result).

Section Search.
(** The build of sphlib, and for every turn of the loop what the stack holds where the
    context is made, and the addresses of [i] and [head]. *)
Context (uptr unaligned : bool) (frame : Z -> context * Z * Z).
Context `{Hashtable T} (get_thread_count : Z) (cancel_search : Z -> bool).

Definition search_hash (head : list Z) (i : Z) : list Z :=
  let '(context, addr_i, addr_head) := frame i in
  let sc := sph_sha512_init context in
  let sc := sph_sha512 uptr unaligned sc addr_i (sph_enc32le i) in
  let sc := sph_sha512 uptr unaligned sc addr_head head in
  (sph_sha512_close uptr unaligned sc).2.

(** The body of the loop over the eight birthdays of a digest; the state is [found] and
    [results]. *)
Definition try_birthday (result : list Z) (i : Z) (st : T * list (Z * Z)) (x : nat)
    : T * list (Z * Z) :=
  let birthday := Z.shiftr (hash_word result x) 14 in
  if negb (birthday =? 0) then
    let nonce := uint32 (i + Z.of_nat x) in
    let '(cur, found) := store birthday nonce st.1 in
    if negb (cur =? not_found) then (found, st.2 ++ [(cur, nonce); (nonce, cur)])
    else (found, st.2)
  else st.

(** The outer loop; [cancel_search] is what is read in the turn for [i]. *)
Fixpoint search_loop (fuel : nat) (head : list Z) (i : Z) (st : T * list (Z * Z))
    : option (T * list (Z * Z)) :=
  if negb (cancel_search i) && (i <? MAX_MOMENTUM_NONCE) then
    match fuel with
    | O => None
    | S fuel =>
        let result := search_hash head i in
        let st := fold_left (try_birthday result i) (seq 0 8) st in
        search_loop fuel head (uint32 (i + 8 * get_thread_count)) st
    end
  else Some st.

(** The turns until the last nonce. *)
Definition search_fuel : nat := S (Z.to_nat (MAX_MOMENTUM_NONCE / (8 * get_thread_count))).
Definition search (offset : Z) (found : T) (head : list Z) : option (T * list (Z * Z)) :=
  search_loop search_fuel head (uint32 (offset * 8)) (found, []).
End Search.

(** ** The verification *)
Section Verify.
(** OpenSSL. *)
Context (SHA512 : list Z -> list Z).

Definition getBirthdayHash (midHash : list Z) (a : Z) : Z :=
  let index := a - Z.rem a BIRTHDAYS_PER_HASH in
  let hash_tmp := sph_enc32le index ++ midHash in
  let result_hash := SHA512 hash_tmp in
  Z.shiftr (hash_word result_hash (Z.to_nat (Z.rem a BIRTHDAYS_PER_HASH)))
    (64 - SEARCH_SPACE_BITS).

Definition momentum_verify (head : list Z) (a b : Z) : bool :=
  if a =? b then false
  else if a =? 0 then false
  else if b =? 0 then false
  else if MAX_MOMENTUM_NONCE <? a then false
  else if MAX_MOMENTUM_NONCE <? b then false
  else getBirthdayHash head a =? getBirthdayHash head b.
End Verify.

(** ** Stores of several threads
    Nothing locks the table: the comparison, the read and the two writes of [store] are
    steps of their own, and the threads take them in any order. (A step reads or writes one
    word, which is whole; C++ itself promises nothing for such programs.) The table is the one
    other than on Windows. *)
Module Race.
Inductive pc := comparing | reading | writing_first | writing_second.
Record thread := Thread {
  at_pc : pc; todo : list (Z * Z); results : list (Z * Z) }.

Definition write_first (index key : Z) (t : entries) : entries :=
  <[index := (key, (entry t index).2)]> t.
Definition write_second (index val : Z) (t : entries) : entries :=
  <[index := ((entry t index).1, val)]> t.

(** One step of a thread that stores the pairs of keys and values in [todo]. *)
Definition thread_step (th : thread) (table : entries) : thread * entries :=
  match todo th with
  | [] => (th, table)
  | (key, val) :: rest =>
      let index := Z.rem key Linux.TABLE_SIZE in
      match at_pc th with
      | comparing =>
          if (entry table index).1 =? key then (Thread reading (todo th) (results th), table)
          else (Thread writing_first (todo th) (results th), table)
      | reading =>
          let cur := (entry table index).2 in
          (Thread comparing rest
             (if negb (cur =? not_found) then results th ++ [(cur, val); (val, cur)]
              else results th), table)
      | writing_first => (Thread writing_second (todo th) (results th), write_first index key table)
      | writing_second => (Thread comparing rest (results th), write_second index val table)
      end
  end.

(** The threads, scheduled by a list that says whose turn it is. *)
Record machine := Machine { threads : list thread; memory : entries }.
Definition step (m : machine) (t : nat) : machine :=
  match threads m !! t with
  | Some th =>
      let '(th, table) := thread_step th (memory m) in
      Machine (<[t := th]> (threads m)) table
  | None => m
  end.
Definition run (schedule : list nat) (m : machine) : machine := fold_left step schedule m.

(** The index whose entry a thread has compared and not yet finished with. *)
Definition inside (th : thread) : option Z :=
  match at_pc th, todo th with
  | comparing, _ | _, [] => None
  | _, (key, _) :: _ => Some (Z.rem key Linux.TABLE_SIZE)
  end.

(** No thread compares an entry that another one is in the middle of storing to. *)
Definition undisturbed_step (m : machine) (t : nat) : bool :=
  match threads m !! t with
  | Some (Thread comparing ((key, _) :: _) _) =>
      forallb (fun th => bool_decide (inside th <> Some (Z.rem key Linux.TABLE_SIZE))) (threads m)
  | _ => true
  end.
Fixpoint undisturbed (schedule : list nat) (m : machine) : bool :=
  match schedule with
  | [] => true
  | t :: schedule => undisturbed_step m t && undisturbed schedule (step m t)
  end.
End Race.

(** ** The threads of [momentum_search] *)
Inductive merge {A} : list (list A) -> list A -> Prop :=
| merge_nil ls : Forall (eq []) ls -> merge ls []
| merge_cons ls1 x l ls2 order :
    merge (ls1 ++ l :: ls2) order -> merge (ls1 ++ (x :: l) :: ls2) (x :: order).

Section Threads.
Context (uptr unaligned : bool) (frame : Z -> context * Z * Z).
Context `{Hashtable T} (get_thread_count : Z).

(** A turn of the inner loop, for the nonce [i + x]. *)
Definition visit (head : list Z) (st : T * list (Z * Z)) (nonce : Z) : T * list (Z * Z) :=
  let i := nonce - Z.rem nonce 8 in
  try_birthday (search_hash uptr unaligned frame head i) i st (Z.to_nat (Z.rem nonce 8)).

(** The nonces of [count] turns of the outer loop of the thread [t], from turn [q] on. *)
Definition turn (t : Z) (q : nat) : list Z :=
  map (fun x => 8 * (t + Z.of_nat q * get_thread_count) + Z.of_nat x) (seq 0 8).
Definition turns (t : Z) (q count : nat) : list Z := concat (map (turn t) (seq q count)).

(** The orders in which the threads may visit their nonces. *)
Definition thread_order (counts : nat -> nat) (order : list Z) : Prop :=
  merge (map (fun t => turns (Z.of_nat t) 0 (counts t)) (seq 0 (Z.to_nat get_thread_count))) order
  /\ forall t q, (q < counts t)%nat ->
       8 * (Z.of_nat t + Z.of_nat q * get_thread_count) < MAX_MOMENTUM_NONCE.
End Threads.

Section Machine.
Context (uptr unaligned : bool) (frame : Z -> context * Z * Z).

(** What a thread passes to [store], the hash computed once in eight turns in the code: the
    birthdays of its nonces with the nonces, but for birthdays that are zero. *)
Definition stores (head : list Z) (nonces : list Z) : list (Z * Z) :=
  flat_map (fun nonce =>
    let i := nonce - Z.rem nonce 8 in
    let x := Z.to_nat (Z.rem nonce 8) in
    let birthday := Z.shiftr (hash_word (search_hash uptr unaligned frame head i) x) 14 in
    if negb (birthday =? 0) then [(birthday, uint32 (i + Z.of_nat x))] else []) nonces.

(** [found[instance].reset()], and a thread for each list of nonces. *)
Definition start (head : list Z) (nonces : list (list Z)) (found : entries) : Race.machine :=
  Race.Machine (map (fun l => Race.Thread Race.comparing (stores head l) []) nonces) (Linux.reset found).

(** [momentum_search], given the nonces that each thread visits, to the end or until the search
    is cancelled, and the order of their steps; it waits for every thread, and returns nothing
    when the schedule leaves one unfinished. *)
Definition momentum_search (head : list Z) (nonces : list (list Z)) (schedule : list nat)
    (found : entries) : option (list (Z * Z)) :=
  let threads := Race.threads (Race.run schedule (start head nonces found)) in
  if forallb (fun th => (length (Race.todo th) =? 0)%nat) threads
  then Some (concat (map Race.results threads)) else None.
End Machine.

(** ** Proofs *)

#[export] Instance linux_laws :
  HashtableLaws entries
    (fun stored t => forall index e, t !! index = Some e -> e ∈ stored).
Proof.
  split.
  - intros t index e. change ((∅ : entries) !! index = Some e -> e ∈ []). by rewrite lookup_empty.
  - intros stored key val t Hok Hk. change (store key val t) with (Linux.store key val t).
    unfold Linux.store, entry.
    set (index := Z.rem key Linux.TABLE_SIZE).
    destruct (t !! index) as [[k' v']|] eqn:E; cbn [default from_option fst snd id].
    + destruct (Z.eqb_spec k' key) as [->|].
      * split; [|right; by eapply Hok]. intros i e He. right. by eapply Hok.
      * split; [|by left]. intros i e. rewrite lookup_insert_Some.
        intros [[_ <-]|[_ He]]; [by left|right; by eapply Hok].
    + destruct (Z.eqb_spec 0 key); [done|]. split; [|by left]. intros i e.
      rewrite lookup_insert_Some. intros [[_ <-]|[_ He]]; [by left|right; by eapply Hok].
Qed.

Lemma merge_Permutation {A} (ls : list (list A)) order :
  merge ls order -> Permutation order (concat ls).
Proof.
  induction 1 as [ls Hl|ls1 x l ls2 order _ IH].
  - induction Hl as [|l ls <- _ IH]; [done|]. exact IH.
  - rewrite concat_app in *. cbn [concat] in *. rewrite IH. apply Permutation_middle.
Qed.

(** *** The steps of a thread *)
Lemma race_run_step first schedule m :
  Race.run (first :: schedule) m = Race.run schedule (Race.step m first).
Proof. reflexivity. Qed.

(** The steps of a thread, by what it finds. *)
Section Steps.
Context (table : entries) (key val : Z) (rest found : list (Z * Z)).
Notation i := (Z.rem key Linux.TABLE_SIZE).
Notation thread pc := (Race.Thread pc ((key, val) :: rest) found).

Lemma compare_differs :
  ((entry table i).1 =? key) = false ->
  Race.thread_step (thread Race.comparing) table = (thread Race.writing_first, table).
Proof. intros H. unfold Race.thread_step. cbn [Race.todo Race.at_pc]. by rewrite H. Qed.
Lemma compare_equal :
  ((entry table i).1 =? key) = true ->
  Race.thread_step (thread Race.comparing) table = (thread Race.reading, table).
Proof. intros H. unfold Race.thread_step. cbn [Race.todo Race.at_pc]. by rewrite H. Qed.

(** Without interruption the steps are those of a store. *)
Lemma thread_store :
  exists n, Nat.iter n (fun '(th, t) => Race.thread_step th t) (thread Race.comparing, table) =
    let '(cur, table') := Linux.store key val table in
    (Race.Thread Race.comparing rest
       (found ++ if negb (cur =? not_found) then [(cur, val); (val, cur)] else []), table').
Proof.
  unfold Linux.store. cbv zeta. destruct ((entry table i).1 =? key) eqn:E.
  - exists 2%nat. cbn [Nat.iter nat_rect]. rewrite compare_equal by done.
    unfold Race.thread_step. cbn [Race.todo Race.at_pc Race.results].
    destruct (_ =? not_found); cbn [negb]; [by rewrite app_nil_r|done].
  - exists 3%nat. cbn [Nat.iter nat_rect]. rewrite compare_differs by done.
    cbn [Race.thread_step Race.todo Race.at_pc Race.results]. cbn [negb Z.eqb not_found Pos.eqb].
    rewrite app_nil_r. unfold Race.write_second, Race.write_first, entry.
    rewrite lookup_insert_eq. cbn [default from_option id fst snd]. by rewrite insert_insert_eq.
Qed.
End Steps.

Lemma lone_steps n th table :
  Race.run (replicate n 0%nat) (Race.Machine [th] table) =
  let '(th', table') := Nat.iter n (fun '(th, t) => Race.thread_step th t) (th, table) in
  Race.Machine [th'] table'.
Proof.
  revert th table. induction n as [|n IH]; intros th table; [done|].
  change (replicate (S n) 0%nat) with (0%nat :: replicate n 0%nat). rewrite race_run_step.
  rewrite Nat.iter_succ_r. cbn [Race.step Race.threads Race.memory lookup list_lookup].
  destruct (Race.thread_step th table) as [th' table']. apply IH.
Qed.

(** Lists without a value in common. *)
Lemma NoDup_concat_elem {A} (ls : list (list A)) l : base.NoDup (concat ls) -> l ∈ ls -> base.NoDup l.
Proof.
  induction ls as [|l' ls IH]; cbn [concat]; [by intros _ ?%elem_of_nil|].
  intros (H1 & _ & H2)%list.NoDup_app [->|Hl]%elem_of_cons; [done|by apply IH].
Qed.
Lemma NoDup_concat_inj {A} (ls : list (list A)) t u l l' v :
  base.NoDup (concat ls) -> ls !! t = Some l -> ls !! u = Some l' -> v ∈ l -> v ∈ l' -> t = u.
Proof.
  assert (Hin : forall ls k (l : list A), ls !! k = Some l -> forall v, v ∈ l -> v ∈ concat ls).
  { intros ls' k l'' Hk w Hw. apply list_elem_of_In, in_concat. exists l''.
    split; apply list_elem_of_In; [by eapply list_elem_of_lookup_2|done]. }
  revert t u. induction ls as [|l0 ls IH]; intros t u; [done|]. cbn [concat].
  intros (_ & Hd & Hn)%list.NoDup_app. destruct t as [|t], u as [|u]; cbn [lookup list_lookup]; [done| | |].
  - intros [= ->] Hu Hv Hv'. destruct (Hd v Hv). by eapply Hin.
  - intros Ht [= ->] Hv Hv'. destruct (Hd v Hv'). by eapply Hin.
  - intros Ht Hu Hv Hv'. f_equal. by apply IH.
Qed.

(** *** What the threads leave in the table
    For pairs that are stored under a function [bd] of their value, which has [ok]. *)
Section Invariant.
Context (bd : Z -> Z) (ok : Z -> Prop).
Implicit Types (m : Race.machine) (th uh : Race.thread).
Notation slot key := (Z.rem key Linux.TABLE_SIZE).

Definition same_bd (a b : Z) : Prop := ok a /\ ok b /\ a <> b /\ bd a = bd b.

(** A value that was stored, and is in no thread's list any more. *)
Definition stored m (key val : Z) : Prop :=
  bd val = key /\ ok val /\
  forall t th, Race.threads m !! t = Some th -> val ∉ map snd (Race.todo th).

(** An entry is a pair that was stored, or one that a thread is about to complete; what a thread is
    about to read was stored. Threads in the middle of a store are at different entries. *)
Record race_ok m : Prop := {
  ok_keys t th key val : Race.threads m !! t = Some th -> (key, val) ∈ Race.todo th ->
    key <> 0 /\ bd val = key /\ ok val;
  ok_nodup t th : Race.threads m !! t = Some th -> base.NoDup (map snd (Race.todo th));
  ok_disjoint t u th uh v : Race.threads m !! t = Some th -> Race.threads m !! u = Some uh ->
    v ∈ map snd (Race.todo th) -> v ∈ map snd (Race.todo uh) -> t = u;
  ok_inside t u th uh i : Race.threads m !! t = Some th -> Race.threads m !! u = Some uh ->
    Race.inside th = Some i -> Race.inside uh = Some i -> t = u;
  ok_entry i key val : Race.memory m !! i = Some (key, val) ->
    stored m key val \/
    exists t th v rest, Race.threads m !! t = Some th /\ Race.at_pc th = Race.writing_second /\
      Race.todo th = (key, v) :: rest /\ slot key = i;
  ok_reading t th key v rest : Race.threads m !! t = Some th -> Race.at_pc th = Race.reading ->
    Race.todo th = (key, v) :: rest ->
    exists val, Race.memory m !! slot key = Some (key, val) /\ stored m key val;
  ok_writing t th key v rest : Race.threads m !! t = Some th -> Race.at_pc th = Race.writing_second ->
    Race.todo th = (key, v) :: rest -> exists val, Race.memory m !! slot key = Some (key, val);
  ok_results t th a b : Race.threads m !! t = Some th -> (a, b) ∈ Race.results th -> same_bd a b
}.

Lemma inside_some th key v rest :
  Race.todo th = (key, v) :: rest -> Race.at_pc th <> Race.comparing ->
  Race.inside th = Some (slot key).
Proof. unfold Race.inside. intros ->. by destruct (Race.at_pc th). Qed.

(** What all steps have in common: a thread changes at most the entry of its key, where no other
    thread is, and its list gets no longer. *)
Section Step.
Context m (t : nat) th th' (key val : Z) (rest : list (Z * Z)) (memory' : entries).
Context (Hok : race_ok m) (Ht : Race.threads m !! t = Some th) (Htodo : Race.todo th = (key, val) :: rest).
Context (Halone : forall u uh, u <> t -> Race.threads m !! u = Some uh -> Race.inside uh <> Some (slot key)).
Context (Htodo' : Race.todo th' = (key, val) :: rest \/ Race.todo th' = rest /\ Race.at_pc th' = Race.comparing).
Context (Hmem : forall i, i <> slot key -> memory' !! i = Race.memory m !! i).
Notation m' := (Race.Machine (<[t := th']> (Race.threads m)) memory').

Lemma after_step u uh :
  Race.threads m' !! u = Some uh -> u = t /\ uh = th' \/ u <> t /\ Race.threads m !! u = Some uh.
Proof. cbn [Race.threads]. intros [(-> & -> & _)|[??]]%list_lookup_insert_Some; [by left|by right]. Qed.

Lemma todo_shorter p : p ∈ Race.todo th' -> p ∈ Race.todo th.
Proof. rewrite Htodo. destruct Htodo' as [->|[-> _]]; [done|]. intros. by right. Qed.
Lemma values_shorter v : v ∈ map snd (Race.todo th') -> v ∈ map snd (Race.todo th).
Proof. rewrite Htodo. destruct Htodo' as [->|[-> _]]; [done|]. cbn [map]. intros. by right. Qed.

Lemma stored_after key' val' : stored m key' val' -> stored m' key' val'.
Proof.
  intros (? & ? & Hn). split; [done|]. split; [done|]. intros u uh [[-> ->]|[_ Hu]]%after_step.
  - intros Hv%values_shorter. by apply (Hn t th).
  - by apply (Hn u).
Qed.

Lemma step_keeps :
  (forall a b, (a, b) ∈ Race.results th' -> (a, b) ∈ Race.results th \/ same_bd a b) ->
  (forall key' val', memory' !! slot key = Some (key', val') -> stored m' key' val' \/
     Race.at_pc th' = Race.writing_second /\ Race.todo th' = (key, val) :: rest /\ key' = key) ->
  (Race.at_pc th' = Race.reading -> exists v, memory' !! slot key = Some (key, v) /\ stored m' key v) ->
  (Race.at_pc th' = Race.writing_second -> exists v, memory' !! slot key = Some (key, v)) ->
  race_ok m'.
Proof.
  intros Hres Hentry Hread Hwrite.
  assert (Hin : forall i, Race.inside th' = Some i -> i = slot key).
  { unfold Race.inside. intros i. destruct Htodo' as [E|[E E']]; [|by rewrite E'].
    rewrite E. by destruct (Race.at_pc th'); intros [= <-]. }
  assert (Hother : forall u uh key' v' rest', u <> t -> Race.threads m !! u = Some uh ->
    Race.todo uh = (key', v') :: rest' -> Race.at_pc uh <> Race.comparing -> slot key' <> slot key).
  { intros u uh key' v' rest' Hu Hl Hd Hpc E. apply (Halone u uh Hu Hl).
    rewrite <- E. by eapply inside_some. }
  split.
  - intros u uh k v [[-> ->]|[_ Hu]]%after_step Hk; [by eapply ok_keys, todo_shorter|by eapply ok_keys].
  - intros u uh [[-> ->]|[_ Hu]]%after_step; [|by eapply ok_nodup].
    pose proof (ok_nodup m Hok t th Ht) as Hn. rewrite Htodo in Hn. destruct Htodo' as [->|[-> _]]; [done|].
    by apply list.NoDup_cons in Hn as [_ Hn].
  - intros u1 u2 h1 h2 v [[-> ->]|[H1 L1]]%after_step [[-> ->]|[H2 L2]]%after_step V1 V2; [done| | |].
    + by eapply ok_disjoint; [done|exact Ht|exact L2|apply values_shorter|].
    + by eapply ok_disjoint; [done|exact L1|exact Ht| |apply values_shorter].
    + by eapply ok_disjoint.
  - intros u1 u2 h1 h2 i [[-> ->]|[H1 L1]]%after_step [[-> ->]|[H2 L2]]%after_step V1 V2; [done| | |].
    + apply Hin in V1 as ->. by destruct (Halone u2 h2 H2 L2).
    + apply Hin in V2 as ->. by destruct (Halone u1 h1 H1 L1).
    + by eapply ok_inside.
  - intros i k v Hi. cbn [Race.memory] in Hi. destruct (decide (i = slot key)) as [->|Hne].
    + destruct (Hentry k v Hi) as [?|(Hpc & Hd & ->)]; [by left|]. right. exists t, th', val, rest.
      split; [|done]. cbn [Race.threads]. apply list_lookup_insert_eq. by eapply lookup_lt_Some.
    + rewrite Hmem in Hi by done.
      destruct (ok_entry m Hok i k v Hi) as [?|(u & uh & v' & rest' & L & Hpc & Hd & Hs)];
        [left; by apply stored_after|]. right. exists u, uh, v', rest'. split; [|done].
      destruct (decide (u = t)) as [->|Hu].
      * rewrite Ht in L. injection L as <-. rewrite Htodo in Hd. injection Hd as -> _ _. done.
      * cbn [Race.threads]. by rewrite list_lookup_insert_ne.
  - intros u uh k v rest' [[-> ->]|[Hu L]]%after_step Hpc Hd; cbn [Race.memory].
    + destruct Htodo' as [E|[_ E]]; [|congruence]. rewrite E in Hd. injection Hd as <- _ _. by apply Hread.
    + rewrite Hmem by (eapply Hother; [done|done|done|by rewrite Hpc]).
      destruct (ok_reading m Hok u uh k v rest' L Hpc Hd) as (w & ? & ?). exists w.
      split; [done|]. by apply stored_after.
  - intros u uh k v rest' [[-> ->]|[Hu L]]%after_step Hpc Hd; cbn [Race.memory].
    + destruct Htodo' as [E|[_ E]]; [|congruence]. rewrite E in Hd. injection Hd as <- _ _. by apply Hwrite.
    + rewrite Hmem by (eapply Hother; [done|done|done|by rewrite Hpc]). by eapply ok_writing.
  - intros u uh a b [[-> ->]|[_ L]]%after_step Hab; [|by eapply ok_results].
    destruct (Hres a b Hab); [by eapply ok_results|done].
Qed.
End Step.

Lemma alone_after_inside m t th i u uh :
  race_ok m -> Race.threads m !! t = Some th -> Race.inside th = Some i ->
  u <> t -> Race.threads m !! u = Some uh -> Race.inside uh <> Some i.
Proof. intros Hok Ht Hi Hu Huh E. apply Hu. by eapply ok_inside. Qed.

Lemma alone_undisturbed m t th key val rest u uh :
  Race.threads m !! t = Some th -> Race.at_pc th = Race.comparing -> Race.todo th = (key, val) :: rest ->
  Race.undisturbed_step m t = true -> Race.threads m !! u = Some uh -> Race.inside uh <> Some (slot key).
Proof.
  intros Ht Hpc Hd H Hu. unfold Race.undisturbed_step in H. rewrite Ht in H. destruct th as [pc todo ?].
  cbn in Hpc, Hd. subst pc todo. rewrite forallb_forall in H.
  eapply bool_decide_eq_true_1, H. by apply list_elem_of_In, list_elem_of_lookup_2 with u.
Qed.

(** A value of the list that is dropped is stored, if its own entry holds it. *)
Lemma stored_dropped m t th th' key val rest memory' :
  race_ok m -> Race.threads m !! t = Some th -> Race.todo th = (key, val) :: rest -> Race.todo th' = rest ->
  stored (Race.Machine (<[t := th']> (Race.threads m)) memory') key val.
Proof.
  intros Hok Ht Hd Hd'. destruct (ok_keys m Hok t th key val Ht) as (_ & ? & ?); [rewrite Hd; by left|].
  split; [done|]. split; [done|]. cbn [Race.threads].
  intros u uh [(<- & <- & _)|[Hu L]]%list_lookup_insert_Some Hv.
  - pose proof (ok_nodup m Hok t th Ht) as Hn. rewrite Hd in Hn. rewrite Hd' in Hv.
    by apply list.NoDup_cons in Hn as [Hn _].
  - apply Hu. eapply (ok_disjoint m Hok t u th uh val Ht L); [|done]. rewrite Hd. by left.
Qed.

Lemma entry_lookup (tbl : entries) i key : key <> 0 -> (entry tbl i).1 = key ->
  tbl !! i = Some (key, (entry tbl i).2).
Proof. unfold entry. destruct (tbl !! i) as [[]|]; cbn; [by intros _ ->|by intros Hk <-]. Qed.

Lemma race_step_ok m t : race_ok m -> Race.undisturbed_step m t = true -> race_ok (Race.step m t).
Proof.
  intros Hok Hund. unfold Race.step. destruct (Race.threads m !! t) as [th|] eqn:Ht; [|done].
  unfold Race.thread_step. destruct (Race.todo th) as [|[key val] rest] eqn:Hd.
  { rewrite list_insert_id by done. by destruct m. }
  destruct (ok_keys m Hok t th key val Ht) as (Hk & _ & _); [rewrite Hd; by left|].
  assert (Halone : forall u uh, u <> t -> Race.threads m !! u = Some uh -> Race.inside uh <> Some (slot key)).
  { intros u uh Hu Hl. destruct (Race.at_pc th) eqn:Hpc;
      [exact (alone_undisturbed m t th key val rest u uh Ht Hpc Hd Hund Hl)| ..];
      apply (alone_after_inside m t th (slot key) u uh Hok Ht); try done;
      apply (inside_some th key val rest Hd); by rewrite Hpc. }
  destruct (Race.at_pc th) eqn:Hpc.
  - assert (Hentry : forall th' key' val', Race.todo th' = (key, val) :: rest ->
      Race.memory m !! slot key = Some (key', val') ->
      stored (Race.Machine (<[t := th']> (Race.threads m)) (Race.memory m)) key' val').
    { intros th' key' val' Hd' Hl.
      destruct (ok_entry m Hok _ _ _ Hl) as [Hs|(u & uh & v & r & L & Hp & D & S)].
      - eapply stored_after; try done. by left.
      - destruct (decide (u = t)) as [->|Hu]; [congruence|].
        destruct (Halone u uh Hu L). rewrite <- S. eapply inside_some; [done|by rewrite Hp]. }
    destruct (Z.eqb_spec (entry (Race.memory m) (slot key)).1 key) as [E|E].
    + eapply step_keeps; try done; cbn [Race.todo Race.at_pc Race.results]; [by left|by left| |].
      * intros k v Hl. left. by apply Hentry.
      * intros _. eexists. split; [by apply entry_lookup|]. apply Hentry; [done|by apply entry_lookup].
    + eapply step_keeps; try done; cbn [Race.todo Race.at_pc Race.results]; [by left|by left|].
      intros k v Hl. left. by apply Hentry.
  - destruct (ok_reading m Hok t th key val rest Ht Hpc Hd) as (cur & Hl & Hs).
    eapply step_keeps; try done; cbn [Race.todo Race.at_pc Race.results]; [by right| |].
    + intros a b. unfold entry. rewrite Hl. cbn [default from_option id fst snd].
      destruct (negb (cur =? not_found)); [|by left]. intros [?|Hab]%elem_of_app; [by left|]. right.
      destruct Hs as (<- & Hcur & Hn). destruct (ok_keys m Hok t th (bd cur) val Ht) as (_ & E & Hv).
      { rewrite Hd. by left. }
      assert (cur <> val) by (intros ->; apply (Hn t th Ht); rewrite Hd; by left).
      unfold same_bd. apply elem_of_cons in Hab as [[= -> ->]|Hab]; [done|].
      apply list_elem_of_singleton in Hab as [= -> ->]. by split_and!.
    + intros k v Hl'. rewrite Hl in Hl'. injection Hl' as <- <-. left.
      eapply stored_after; try done. by right.
  - eapply step_keeps; try done; cbn [Race.todo Race.at_pc Race.results]; [by left| |by left| |].
    + intros i Hi. unfold Race.write_first. by rewrite lookup_insert_ne.
    + intros k v. unfold Race.write_first. rewrite lookup_insert_eq. intros [= <- _]. by right.
    + intros _. unfold Race.write_first. rewrite lookup_insert_eq. by eexists.
  - destruct (ok_writing m Hok t th key val rest Ht Hpc Hd) as (cur & Hl).
    eapply step_keeps; try done; cbn [Race.todo Race.at_pc Race.results]; [by right| |by left|].
    + intros i Hi. unfold Race.write_second. by rewrite lookup_insert_ne.
    + intros k v. unfold Race.write_second, entry. rewrite lookup_insert_eq, Hl.
      cbn [default from_option id fst]. intros [= <- <-]. left. by eapply stored_dropped.
Qed.

Lemma race_run_ok schedule m : race_ok m -> Race.undisturbed schedule m = true -> race_ok (Race.run schedule m).
Proof.
  revert m. induction schedule as [|t schedule IH]; intros m Hok H; [done|]. cbn [Race.undisturbed] in H.
  apply andb_prop in H as [H1 H2]. apply (IH (Race.step m t)); [by apply race_step_ok|done].
Qed.
End Invariant.

(** Every step of a thread that is not done brings it nearer to its end. *)
Definition steps_left (th : Race.thread) : nat :=
  match Race.todo th, Race.at_pc th with
  | [], _ => 0
  | l, Race.comparing => 3 * length l
  | l, Race.writing_first => 3 * length l - 1
  | l, _ => 3 * length l - 2
  end%nat.

Lemma thread_step_left th table :
  (steps_left (Race.thread_step th table).1 <= pred (steps_left th))%nat.
Proof.
  unfold Race.thread_step, steps_left. destruct th as [pc [|[key val] rest] res]; cbn [Race.todo Race.at_pc].
  { cbn. lia. }
  destruct pc; cbn [fst Race.todo Race.at_pc length].
  - destruct (_ =? _); cbn [fst Race.todo Race.at_pc length]; lia.
  - destruct rest; cbn [length]; lia.
  - lia.
  - destruct rest; cbn [length]; lia.
Qed.

Lemma run_left schedule m t th :
  Race.threads m !! t = Some th ->
  exists th', Race.threads (Race.run schedule m) !! t = Some th' /\
    (steps_left th' <= steps_left th - count_occ Nat.eq_dec schedule t)%nat.
Proof.
  revert m th. induction schedule as [|u schedule IH]; intros m th Ht.
  { exists th. split; [done|]. cbn. lia. }
  change (Race.run (u :: schedule) m) with (Race.run schedule (Race.step m u)).
  assert (exists th1, Race.threads (Race.step m u) !! t = Some th1 /\
    (steps_left th1 <= steps_left th - if Nat.eq_dec u t then 1 else 0)%nat) as (th1 & H1 & Hl).
  { unfold Race.step. destruct (Nat.eq_dec u t) as [->|Hne].
    - rewrite Ht. pose proof (thread_step_left th (Race.memory m)) as Hs.
      destruct (Race.thread_step th (Race.memory m)) as [th1 table]. exists th1. cbn [Race.threads fst] in *.
      split; [|lia]. apply list_lookup_insert_eq. by eapply lookup_lt_Some.
    - exists th. split; [|lia]. destruct (Race.threads m !! u) as [uh|]; [|done].
      destruct (Race.thread_step uh (Race.memory m)). cbn [Race.threads]. by rewrite list_lookup_insert_ne. }
  destruct (IH _ th1 H1) as (th' & H' & Hl'). exists th'. split; [done|]. cbn [count_occ].
  destruct (Nat.eq_dec u t); lia.
Qed.

Lemma length_run schedule m : length (Race.threads (Race.run schedule m)) = length (Race.threads m).
Proof.
  revert m. induction schedule as [|t schedule IH]; intros m; [done|].
  change (Race.run (t :: schedule) m) with (Race.run schedule (Race.step m t)). rewrite IH.
  unfold Race.step. destruct (Race.threads m !! t) as [th|]; [|done].
  destruct (Race.thread_step th (Race.memory m)). cbn [Race.threads]. by rewrite length_insert.
Qed.

(** *** The digests of the search are SHA-512 *)
#[local] Opaque FIPS.SHA512.

Section Hashing.
Context (uptr unaligned : bool) (frame : Z -> context * Z * Z).
(** What is on the stack is a context with a buffer of its size. *)
Context (Hframe : forall i, length (buf (frame i).1.1) = 128%nat).
Context (head : list Z) (Hhead : is_bytes head) (Hlen : length head = 32%nat).

Lemma search_hash_digest i :
  search_hash uptr unaligned frame head i = FIPS.SHA512 (sph_enc32le i ++ head) 0 0.
Proof.
  unfold search_hash. specialize (Hframe i). destruct (frame i) as [[sc a] a']. cbn in Hframe.
  pose proof (stream_correct (sha384_config uptr unaligned) sha3_round FIPS.block eq_refl
    sha3_round_block H512 8 (buf sc) [(a, sph_enc32le i); (a', head)] 0 0 Hframe) as Hs.
  cbn [map snd concat updates fold_left fst] in Hs. rewrite app_nil_r in Hs.
  destruct Hs as (b & _ & _ & Hs); [|lia|rewrite length_app, Hlen; cbn; lia|].
  - apply Forall_app. split; [|done]. unfold sph_enc32le. repeat constructor; apply byte_range.
  - cbn zeta. unfold sph_sha512_close, sph_sha512_init, sph_sha512, HASH_close.
    destruct (addbits_and_close _ _ _ _ _ _) as [c dst]. cbn [snd] in *. rewrite Hs.
    apply (sha2big_digests uptr unaligned). lia.
Qed.

(** The birthday of a nonce. *)
Definition birthday (nonce : Z) : Z :=
  Z.shiftr (hash_word (FIPS.SHA512 (sph_enc32le (nonce - Z.rem nonce 8) ++ head) 0 0)
    (Z.to_nat (Z.rem nonce 8))) 14.

Lemma getBirthdayHash_birthday SHA512 a :
  (forall m, is_bytes m -> SHA512 m = FIPS.SHA512 m 0 0) ->
  getBirthdayHash SHA512 head a = birthday a.
Proof.
  intros HS. unfold getBirthdayHash, birthday, BIRTHDAYS_PER_HASH. rewrite HS; [done|].
  apply Forall_app. split; [|done]. unfold sph_enc32le. repeat constructor; apply byte_range.
Qed.

Context `{Hashtable T}.
Implicit Types st : T * list (Z * Z).

(** A visit, by the birthday of its nonce. *)
Lemma visit_eq st nonce :
  0 <= nonce < MAX_MOMENTUM_NONCE ->
  visit uptr unaligned frame head st nonce =
  (if negb (birthday nonce =? 0) then
     let '(cur, found) := store (birthday nonce) nonce st.1 in
     if negb (cur =? not_found) then (found, st.2 ++ [(cur, nonce); (nonce, cur)])
     else (found, st.2)
   else st).
Proof.
  intros Hn. unfold MAX_MOMENTUM_NONCE in Hn. unfold visit, try_birthday.
  rewrite search_hash_digest. fold (birthday nonce).
  replace (uint32 _) with nonce; [done|]. pose proof (Z.rem_bound_pos nonce 8 ltac:(lia) ltac:(lia)).
  unfold uint32. rewrite Z.mod_small by lia. lia.
Qed.

Context (get_thread_count : Z) (Hthreads : 0 < get_thread_count <= 32).
Notation turn := (turn get_thread_count).
Notation turns := (turns get_thread_count).

(** A turn of the outer loop visits eight nonces. *)
Lemma turn_visits t q st :
  0 <= t ->
  let i := 8 * (t + Z.of_nat q * get_thread_count) in
  fold_left (try_birthday (search_hash uptr unaligned frame head i) i) (seq 0 8) st =
  fold_left (visit uptr unaligned frame head) (turn t q) st.
Proof.
  intros Ht i. unfold Momentum.turn. fold i.
  assert (E : forall x s, In x (seq 0 8) ->
    try_birthday (search_hash uptr unaligned frame head i) i s x =
    visit uptr unaligned frame head s (i + Z.of_nat x)).
  { intros x s Hx. apply in_seq in Hx. unfold visit.
    replace (Z.rem (i + Z.of_nat x) 8) with (Z.of_nat x).
    - by rewrite Nat2Z.id, Z.add_simpl_r.
    - unfold i. rewrite Z.rem_mod_nonneg by nia. rewrite Z.add_comm, Z.mul_comm, Z.mod_add by lia.
      by rewrite Z.mod_small by lia. }
  revert st E. generalize (seq 0 8) as l. intros l. induction l as [|x l IH]; intros st E; [done|].
  cbn [map fold_left]. rewrite E by by left. apply IH. intros y s Hy. apply E. by right.
Qed.

(** The outer loop makes turns until the nonces end or the search is cancelled. *)
Lemma search_loop_turns cancel_search t fuel q st :
  0 <= t < get_thread_count ->
  let i q := 8 * (t + Z.of_nat q * get_thread_count) in
  i q < MAX_MOMENTUM_NONCE + 8 * get_thread_count ->
  MAX_MOMENTUM_NONCE <= i q + 8 * get_thread_count * Z.of_nat fuel ->
  exists count,
    search_loop uptr unaligned frame get_thread_count cancel_search fuel head (i q) st =
      Some (fold_left (visit uptr unaligned frame head) (turns t q count) st) /\
    (forall q', (q <= q' < q + count)%nat -> i q' < MAX_MOMENTUM_NONCE) /\
    ((forall j, cancel_search j = false) -> MAX_MOMENTUM_NONCE <= i (q + count)%nat).
Proof.
  intros Ht i. revert q st. induction fuel as [|fuel IH]; intros q st Hi Hf; cbn [search_loop].
  - destruct (Z.ltb_spec (i q) MAX_MOMENTUM_NONCE); [lia|]. rewrite andb_false_r.
    exists 0%nat. rewrite Nat.add_0_r. split; [done|split; [lia|done]].
  - destruct (negb (cancel_search (i q)) && (i q <? MAX_MOMENTUM_NONCE)) eqn:E.
    + apply andb_true_iff in E as [_ E%Z.ltb_lt].
      assert (Ei : uint32 (i q + 8 * get_thread_count) = i (S q)).
      { unfold uint32, MAX_MOMENTUM_NONCE in *. rewrite Z.mod_small by (unfold i in *; nia).
        unfold i. lia. }
      pose proof (turn_visits t q st ltac:(lia)) as Ev. cbv zeta in Ev. fold (i q) in Ev.
      rewrite Ei, Ev.
      destruct (IH (S q) (fold_left (visit uptr unaligned frame head) (turn t q) st))
        as (count & Hs & Hr & Hc); [unfold i in *; lia|unfold i in *; lia|].
      exists (S count). rewrite Hs. unfold Momentum.turns. cbn [seq map concat].
      rewrite fold_left_app. split; [done|]. split.
      * intros q' Hq'. destruct (Nat.eq_dec q' q) as [->|]; [done|]. apply Hr. lia.
      * intros Hn. rewrite <- Nat.add_succ_comm. by apply Hc.
    + exists 0%nat. rewrite Nat.add_0_r. split; [done|]. split; [lia|].
      intros Hn. rewrite Hn in E. cbn in E. by apply Z.ltb_ge.
Qed.

Lemma search_turns cancel_search t (found : T) :
  0 <= t < get_thread_count ->
  let i q := 8 * (t + Z.of_nat q * get_thread_count) in
  exists count,
    search uptr unaligned frame get_thread_count cancel_search t found head =
      Some (fold_left (visit uptr unaligned frame head) (turns t 0 count) (found, [])) /\
    (forall q, (q < count)%nat -> i q < MAX_MOMENTUM_NONCE) /\
    ((forall j, cancel_search j = false) -> MAX_MOMENTUM_NONCE <= i count).
Proof.
  intros Ht i. unfold search.
  replace (uint32 (t * 8)) with (8 * (t + Z.of_nat 0 * get_thread_count))
    by (unfold uint32; rewrite Z.mod_small; lia).
  destruct (search_loop_turns cancel_search t (search_fuel get_thread_count) 0 (found, []) Ht)
    as (count & Hs & Hr & Hc).
  - unfold MAX_MOMENTUM_NONCE. lia.
  - unfold search_fuel. pose proof (Z.div_mod MAX_MOMENTUM_NONCE (8 * get_thread_count) ltac:(lia)).
    pose proof (Z.mod_pos_bound MAX_MOMENTUM_NONCE (8 * get_thread_count) ltac:(lia)).
    assert (0 <= MAX_MOMENTUM_NONCE / (8 * get_thread_count))
      by (apply Z.div_pos; [unfold MAX_MOMENTUM_NONCE|]; lia).
    rewrite Nat2Z.inj_succ, Z2Nat.id by lia. nia.
  - exists count. split; [exact Hs|]. split; [|exact Hc]. intros q Hq. apply Hr. lia.
Qed.

(** *** Every nonce is visited once *)
Lemma turns_nonce t q count x :
  In x (turns t q count) <->
  exists q' y, (q <= q' < q + count)%nat /\ 0 <= y < 8 /\
    x = 8 * (t + Z.of_nat q' * get_thread_count) + y.
Proof.
  unfold Momentum.turns. rewrite in_concat. split.
  - intros (l & Hl & Hx). apply in_map_iff in Hl as (q' & <- & Hq'). apply in_seq in Hq'.
    unfold Momentum.turn in Hx. apply in_map_iff in Hx as (y & <- & Hy). apply in_seq in Hy.
    exists q', (Z.of_nat y). split; [lia|]. split; [lia|done].
  - intros (q' & y & Hq & Hy & ->). exists (turn t q'). split; [apply in_map, in_seq; lia|].
    unfold Momentum.turn. apply in_map_iff. exists (Z.to_nat y). split; [lia|apply in_seq; lia].
Qed.

Lemma turn_digits t t' q q' y y' :
  0 <= t < get_thread_count -> 0 <= t' < get_thread_count -> 0 <= y < 8 -> 0 <= y' < 8 ->
  8 * (t + Z.of_nat q * get_thread_count) + y = 8 * (t' + Z.of_nat q' * get_thread_count) + y' ->
  t = t' /\ q = q' /\ y = y'.
Proof.
  intros Ht Ht' Hy Hy' E. assert (y = y') by lia.
  assert (E' : t + Z.of_nat q * get_thread_count = t' + Z.of_nat q' * get_thread_count) by lia.
  assert (Z.of_nat q = Z.of_nat q') by nia. split; [nia|]. split; lia.
Qed.

Lemma turns_NoDup t q count :
  0 <= t < get_thread_count -> base.NoDup (turns t q count).
Proof.
  intros Ht. revert q. induction count as [|count IH]; intros q; [constructor|].
  unfold Momentum.turns. cbn [seq map concat]. apply list.NoDup_app. split; [|split; [|apply IH]].
  - unfold Momentum.turn. apply (list.NoDup_fmap_2_strong _ (seq 0 8)); [|apply list.NoDup_seq].
    intros a b _ _ ?. lia.
  - intros x Hx Hx'. unfold Momentum.turn in Hx. apply list_elem_of_fmap in Hx as (y & -> & Hy).
    apply list_elem_of_In, turns_nonce in Hx' as (q' & y' & Hq & Hy' & E).
    apply list_elem_of_In, in_seq in Hy.
    destruct (turn_digits t t q q' (Z.of_nat y) y' Ht Ht ltac:(lia) Hy' E) as (_ & -> & _). lia.
Qed.

Lemma concat_NoDup {A B} (f : A -> list B) l :
  base.NoDup l -> (forall t, t ∈ l -> base.NoDup (f t)) ->
  (forall t t' x, t ∈ l -> t' ∈ l -> x ∈ f t -> x ∈ f t' -> t = t') ->
  base.NoDup (concat (map f l)).
Proof.
  induction 1 as [|t l Ht _ IH]; intros Hf Hd; [constructor|]. cbn [map concat].
  apply list.NoDup_app. split; [apply Hf; by left|]. split.
  - intros x Hx Hx'. apply list_elem_of_In, in_concat in Hx' as (l' & Hl' & Hx').
    apply in_map_iff in Hl' as (t' & <- & Ht'). apply list_elem_of_In in Ht', Hx'.
    destruct Ht. rewrite (Hd t t' x); [done|by left|by right|done|done].
  - apply IH; [intros t' Ht'; apply Hf; by right|].
    intros t1 t2 x H1 H2. apply Hd; by right.
Qed.

Lemma thread_order_ok counts order :
  thread_order get_thread_count counts order ->
  base.NoDup order /\ forall x, x ∈ order -> 0 <= x < MAX_MOMENTUM_NONCE.
Proof.
  intros [Hm Hc]. apply merge_Permutation in Hm. split.
  - rewrite Hm. apply concat_NoDup; [apply list.NoDup_seq| |].
    + intros t Ht. apply list_elem_of_In, in_seq in Ht. apply turns_NoDup. lia.
    + intros t t' x Ht Ht' Hx Hx'. apply list_elem_of_In, in_seq in Ht, Ht'.
      apply list_elem_of_In, turns_nonce in Hx as (q & y & _ & Hy & ->).
      apply list_elem_of_In, turns_nonce in Hx' as (q' & y' & _ & Hy' & E).
      apply turn_digits in E as (E & _); lia.
  - intros x. rewrite Hm. intros Hx. apply list_elem_of_In, in_concat in Hx as (l & Hl & Hx).
    apply in_map_iff in Hl as (t & <- & Ht). apply in_seq in Ht.
    apply turns_nonce in Hx as (q & y & Hq & Hy & ->). specialize (Hc t q ltac:(lia)).
    unfold MAX_MOMENTUM_NONCE in *. nia.
Qed.

(** *** What is found *)
Section Found.
Context {table_ok : list (Z * Z) -> T -> Prop} `{!HashtableLaws T table_ok}.

(** The state after the nonces in [visited]. *)
Definition found_ok (visited : list Z) st : Prop :=
  exists stored, table_ok stored st.1 /\
    (forall key nonce, (key, nonce) ∈ stored -> birthday nonce = key /\ nonce ∈ visited) /\
    (forall a b, (a, b) ∈ st.2 -> a ∈ visited /\ b ∈ visited /\ a <> b /\ birthday a = birthday b).

Lemma visit_found visited st nonce :
  found_ok visited st -> nonce ∉ visited -> 0 <= nonce < MAX_MOMENTUM_NONCE ->
  found_ok (nonce :: visited) (visit uptr unaligned frame head st nonce).
Proof.
  intros (stored & Ht & Hs & Hr) Hn Hx. rewrite visit_eq by done.
  assert (Hr' : forall a b, (a, b) ∈ st.2 ->
    a ∈ nonce :: visited /\ b ∈ nonce :: visited /\ a <> b /\ birthday a = birthday b).
  { intros a b Hab. destruct (Hr a b Hab) as (? & ? & ? & ?). split_and!; try done; by right. }
  assert (Hs' : forall key nonce', (key, nonce') ∈ stored ->
    birthday nonce' = key /\ nonce' ∈ nonce :: visited).
  { intros key v Hv. destruct (Hs key v Hv). split; [done|by right]. }
  destruct (Z.eqb_spec (birthday nonce) 0) as [Hz|Hz]; cbn [negb]; [by exists stored|].
  pose proof (store_ok stored (birthday nonce) nonce st.1 Ht Hz) as Hst.
  destruct (store (birthday nonce) nonce st.1) as [cur t']. destruct Hst as [Ht' Hcur].
  exists ((birthday nonce, nonce) :: stored).
  assert (Hs2 : forall key nonce', (key, nonce') ∈ (birthday nonce, nonce) :: stored ->
    birthday nonce' = key /\ nonce' ∈ nonce :: visited).
  { intros key v [[= -> ->]|Hv]%elem_of_cons; [split; [done|by left]|by apply Hs']. }
  destruct (Z.eqb_spec cur not_found) as [->|Hne]; cbn [negb fst snd]; [done|].
  destruct Hcur as [|Hcur]; [done|]. destruct (Hs _ _ Hcur) as [Hb Hv].
  split; [done|]. split; [done|]. intros a b Hab.
  apply elem_of_app in Hab as [Hab|Hab]; [by apply Hr'|].
  assert (cur <> nonce) by (intros ->; done).
  apply elem_of_cons in Hab as [[= -> ->]|Hab];
    [|apply list_elem_of_singleton in Hab; injection Hab as -> ->].
  - split_and!; [by right|by left|done|done].
  - split_and!; [by left|by right|done|done].
Qed.

Lemma momentum_found order visited st :
  base.NoDup (order ++ visited) -> (forall x, x ∈ order -> 0 <= x < MAX_MOMENTUM_NONCE) ->
  found_ok visited st ->
  found_ok (rev order ++ visited) (fold_left (visit uptr unaligned frame head) order st).
Proof.
  revert visited st. induction order as [|x order IH]; intros visited st Hn Hx Hf; [done|].
  cbn [fold_left rev]. rewrite <- app_assoc. cbn [app] in *.
  apply list.NoDup_cons in Hn as [Hnx Hn]. apply IH.
  - apply NoDup_Permutation_proper with (x :: order ++ visited); [by rewrite Permutation_middle|].
    by apply list.NoDup_cons.
  - intros y Hy. apply Hx. by right.
  - apply visit_found; [done| |apply Hx; by left]. intros Hv. apply Hnx, elem_of_app. by right.
Qed.

Lemma search_found order t0 :
  base.NoDup order -> (forall x, x ∈ order -> 0 <= x < MAX_MOMENTUM_NONCE) ->
  found_ok (rev order) (fold_left (visit uptr unaligned frame head) order (reset t0, [])).
Proof.
  intros Hn Hx. rewrite <- (app_nil_r (rev order)). apply momentum_found; [by rewrite app_nil_r|done|].
  exists []. split; [apply reset_ok|]. split; intros ? ? Hin; by apply elem_of_nil in Hin.
Qed.

End Found.

(** Two nonces with the same birthday pass [momentum_verify], if neither is zero. *)
Lemma pair_verifies SHA512 a b :
  (forall m, is_bytes m -> SHA512 m = FIPS.SHA512 m 0 0) ->
  0 <= a < MAX_MOMENTUM_NONCE -> 0 <= b < MAX_MOMENTUM_NONCE -> a <> b -> birthday a = birthday b ->
  momentum_verify SHA512 head a b = negb (a =? 0) && negb (b =? 0).
Proof.
  intros HS Ha Hb Hne E. unfold momentum_verify.
  rewrite !getBirthdayHash_birthday, E, Z.eqb_refl by done.
  destruct (Z.eqb_spec a b); [done|]. destruct (a =? 0), (b =? 0); try done.
  destruct (Z.ltb_spec MAX_MOMENTUM_NONCE a); [lia|].
  destruct (Z.ltb_spec MAX_MOMENTUM_NONCE b); [lia|done].
Qed.

(** *** The threads on one table *)

(** A thread stores the nonces it visits whose birthday is not zero. *)
Lemma stores_birthdays nonces :
  (forall x, x ∈ nonces -> 0 <= x < MAX_MOMENTUM_NONCE) ->
  stores uptr unaligned frame head nonces =
  flat_map (fun x => if birthday x =? 0 then [] else [(birthday x, x)]) nonces.
Proof.
  induction nonces as [|x nonces IH]; intros Hx; [done|]. cbn [stores flat_map].
  fold (stores uptr unaligned frame head nonces). rewrite IH by (intros y Hy; apply Hx; by right).
  f_equal. specialize (Hx x ltac:(by left)). unfold MAX_MOMENTUM_NONCE in Hx.
  rewrite search_hash_digest. fold (birthday x).
  replace (uint32 _) with x; [by destruct (birthday x =? 0)|].
  pose proof (Z.rem_bound_pos x 8 ltac:(lia) ltac:(lia)). unfold uint32. rewrite Z.mod_small; lia.
Qed.

Lemma elem_of_stores nonces key val :
  (forall x, x ∈ nonces -> 0 <= x < MAX_MOMENTUM_NONCE) ->
  (key, val) ∈ stores uptr unaligned frame head nonces ->
  val ∈ nonces /\ birthday val = key /\ key <> 0.
Proof.
  intros Hx. rewrite stores_birthdays by done. clear Hx. induction nonces as [|x nonces IH]; cbn [flat_map].
  - by intros ?%elem_of_nil.
  - intros [Hin|Hin]%elem_of_app.
    + destruct (Z.eqb_spec (birthday x) 0); [by apply elem_of_nil in Hin|].
      apply list_elem_of_singleton in Hin as [= -> ->]. split; [by left|done].
    + apply IH in Hin as (? & ? & ?). split; [by right|done].
Qed.

Lemma stores_sublist nonces :
  (forall x, x ∈ nonces -> 0 <= x < MAX_MOMENTUM_NONCE) ->
  sublist (map snd (stores uptr unaligned frame head nonces)) nonces.
Proof.
  intros Hx. rewrite stores_birthdays by done. clear Hx.
  induction nonces as [|x nonces IH]; cbn [flat_map]; [done|]. rewrite map_app.
  destruct (birthday x =? 0); cbn [map app snd]; [by apply sublist_cons|by apply sublist_skip].
Qed.

(** A run starts with an empty table and lists that have no nonce in common. *)
Lemma start_ok nonces found :
  base.NoDup (concat nonces) -> (forall x, x ∈ concat nonces -> 0 <= x < MAX_MOMENTUM_NONCE) ->
  race_ok birthday (fun x => 0 <= x < MAX_MOMENTUM_NONCE) (start uptr unaligned frame head nonces found).
Proof.
  intros Hn Hx.
  assert (Hth : forall t th, Race.threads (start uptr unaligned frame head nonces found) !! t = Some th ->
    exists l, nonces !! t = Some l /\
      th = Race.Thread Race.comparing (stores uptr unaligned frame head l) [] /\ forall x, x ∈ l -> x ∈ concat nonces).
  { intros t th Ht. cbn [start Race.threads] in Ht. rewrite list_lookup_fmap in Ht.
    destruct (nonces !! t) as [l|] eqn:E; [|done]. injection Ht as <-. exists l. split; [done|].
    split; [done|]. intros x Hl. apply list_elem_of_In, in_concat. exists l.
    split; apply list_elem_of_In; [by eapply list_elem_of_lookup_2|done]. }
  split; try (intros; match goal with H : Race.threads _ !! _ = Some _ |- _ =>
    apply Hth in H as (? & ? & -> & ?) end; done).
  - intros t th key val (l & Hl & -> & Hin)%Hth Hk. apply elem_of_stores in Hk as (Hv & E & Hz).
    + split; [done|]. split; [done|]. by apply Hx, Hin.
    + intros x Hxl. by apply Hx, Hin.
  - intros t th (l & Hl & -> & Hin)%Hth. cbn [Race.todo].
    eapply sublist_NoDup; [|apply stores_sublist; intros x Hxl; by apply Hx, Hin].
    apply (NoDup_concat_elem _ _ Hn). by eapply list_elem_of_lookup_2.
  - intros t u th uh v (l & Hl & -> & Hin)%Hth (l' & Hl' & -> & Hin')%Hth Hv Hv'. cbn [Race.todo] in *.
    eapply elem_of_sublist in Hv; [|apply stores_sublist; intros x Hxl; by apply Hx, Hin].
    eapply elem_of_sublist in Hv'; [|apply stores_sublist; intros x Hxl; by apply Hx, Hin'].
    by eapply NoDup_concat_inj.
  - intros i k v. cbn [start Race.memory]. unfold Linux.reset. by rewrite lookup_empty.
  - intros t th a b (l & Hl & -> & Hin)%Hth Hab. by apply elem_of_nil in Hab.
Qed.

(** The search returns when every thread was given three steps for each of its nonces. *)
Lemma search_returns nonces schedule found :
  (forall t l, nonces !! t = Some l -> (3 * length l <= count_occ Nat.eq_dec schedule t)%nat) ->
  (forall x, x ∈ concat nonces -> 0 <= x < MAX_MOMENTUM_NONCE) ->
  momentum_search uptr unaligned frame head nonces schedule found =
  Some (concat (map Race.results (Race.threads
    (Race.run schedule (start uptr unaligned frame head nonces found))))).
Proof.
  intros Hs Hx. unfold momentum_search. set (m := start _ _ _ _ _ _).
  replace (forallb _ _) with true; [done|]. symmetry. apply forallb_forall.
  intros th Hth%list_elem_of_In. apply list_elem_of_lookup_1 in Hth as [t Ht].
  assert (Hlt : (t < length (Race.threads m))%nat)
    by (rewrite <- (length_run schedule); by eapply lookup_lt_Some).
  apply lookup_lt_is_Some in Hlt as [th0 Ht0].
  destruct (run_left schedule m t th0 Ht0) as (th' & E & Hl). rewrite Ht in E. injection E as <-.
  cbn [m start Race.threads] in Ht0. rewrite list_lookup_fmap in Ht0.
  destruct (nonces !! t) as [l|] eqn:El; [|done]. injection Ht0 as <-.
  specialize (Hs t l El). unfold steps_left in Hl at 2. cbn [Race.todo Race.at_pc] in Hl.
  assert (length (stores uptr unaligned frame head l) <= length l)%nat.
  { rewrite <- (length_map snd). apply sublist_length, stores_sublist. intros x Hxl. apply Hx.
    apply list_elem_of_In, in_concat. exists l. split; apply list_elem_of_In; [by eapply list_elem_of_lookup_2|done]. }
  assert (steps_left th = 0)%nat.
  { destruct (stores uptr unaligned frame head l); cbn [length] in *; lia. }
  unfold steps_left in *. destruct (Race.todo th); [done|]. cbn [length] in *. destruct (Race.at_pc th); lia.
Qed.

(** What has been found at any time. *)
Lemma results_verify SHA512 nonces schedule found :
  (forall m, is_bytes m -> SHA512 m = FIPS.SHA512 m 0 0) ->
  base.NoDup (concat nonces) -> (forall x, x ∈ concat nonces -> 0 <= x < MAX_MOMENTUM_NONCE) ->
  Race.undisturbed schedule (start uptr unaligned frame head nonces found) = true ->
  Forall (fun ab => momentum_verify SHA512 head ab.1 ab.2 = negb (ab.1 =? 0) && negb (ab.2 =? 0))
    (concat (map Race.results (Race.threads
       (Race.run schedule (start uptr unaligned frame head nonces found))))).
Proof.
  intros HS Hn Hx Hu. pose proof (race_run_ok _ _ schedule _ (start_ok nonces found Hn Hx) Hu) as Hok.
  apply list.Forall_forall. intros [a b] Hab. apply list_elem_of_In, in_concat in Hab as (l & Hl & Hab).
  apply in_map_iff in Hl as (th & <- & Hth). apply list_elem_of_In, list_elem_of_lookup_1 in Hth as [t Ht].
  apply list_elem_of_In in Hab. destruct (ok_results _ _ _ Hok t th a b Ht Hab) as (Ha & Hb & Hne & E).
  by apply pair_verifies.
Qed.

(** C35: What the search finds verifies. Let every thread visit nonces of its own (as
    [threads_divide] says they do), and let their steps on the table, which are single reads and
    writes of a word, go in any order in which no thread compares an entry that another one has
    compared and not yet finished with. Then [momentum_search] returns, once every thread had three
    steps for each nonce, and every pair of nonces it returns passes [momentum_verify], except that
    a pair with the nonce zero is found as well, and never verifies. OpenSSL is to compute SHA-512,
    as the functions of sphlib do; the table is the one other than on Windows. Without the
    condition on the order it fails ([race_reports_false_pair]), and with the table on Windows too
    ([win32_breaks_contract]). *)
Theorem momentum_sound SHA512 nonces schedule found :
  (forall m, is_bytes m -> SHA512 m = FIPS.SHA512 m 0 0) ->
  base.NoDup (concat nonces) -> (forall x, x ∈ concat nonces -> 0 <= x < MAX_MOMENTUM_NONCE) ->
  (forall t l, nonces !! t = Some l -> (3 * length l <= count_occ Nat.eq_dec schedule t)%nat) ->
  Race.undisturbed schedule (start uptr unaligned frame head nonces found) = true ->
  exists pairs, momentum_search uptr unaligned frame head nonces schedule found = Some pairs /\
    Forall (fun ab => momentum_verify SHA512 head ab.1 ab.2 = negb (ab.1 =? 0) && negb (ab.2 =? 0)) pairs.
Proof.
  intros HS Hn Hx Hs Hu. rewrite search_returns by done. eexists. split; [done|].
  by apply (results_verify SHA512 nonces schedule found).
Qed.
(** C36: The threads divide the nonces. The search of a thread ends within its fuel,
    whatever the table and whenever it is cancelled, and is a run of the visits of its own
    turns. In whatever order the threads go, no nonce is visited twice and all are below the
    maximum; if no search is cancelled, every nonce below the maximum is visited. *)
Theorem threads_divide cancel_search :
  (forall t (found : T), 0 <= t < get_thread_count ->
    exists count,
      search uptr unaligned frame get_thread_count cancel_search t found head =
        Some (fold_left (visit uptr unaligned frame head) (turns t 0 count) (found, [])) /\
      (forall q, (q < count)%nat ->
         8 * (t + Z.of_nat q * get_thread_count) < MAX_MOMENTUM_NONCE) /\
      ((forall j, cancel_search j = false) ->
         MAX_MOMENTUM_NONCE <= 8 * (t + Z.of_nat count * get_thread_count))) /\
  (forall counts order, thread_order get_thread_count counts order ->
    base.NoDup order /\ (forall x, x ∈ order -> 0 <= x < MAX_MOMENTUM_NONCE) /\
    ((forall t, (Z.of_nat t < get_thread_count) ->
        MAX_MOMENTUM_NONCE <= 8 * (Z.of_nat t + Z.of_nat (counts t) * get_thread_count)) ->
     forall x, 0 <= x < MAX_MOMENTUM_NONCE -> x ∈ order)).
Proof.
  split; [intros t found Ht; by apply search_turns|].
  intros counts order Ho. destruct (thread_order_ok counts order Ho) as [Hn Hx].
  split; [done|]. split; [done|]. intros Hall x Hb.
  destruct Ho as [Hm%merge_Permutation _]. rewrite Hm. apply list_elem_of_In, in_concat.
  set (t := Z.to_nat ((x / 8) mod get_thread_count)).
  pose proof (Z.mod_pos_bound (x / 8) get_thread_count ltac:(lia)) as Ht.
  exists (turns (Z.of_nat t) 0 (counts t)). split.
  - apply in_map_iff. exists t. split; [done|]. apply in_seq. lia.
  - apply turns_nonce. exists (Z.to_nat (x / 8 / get_thread_count)), (x mod 8).
    pose proof (Z.div_mod x 8 ltac:(lia)) as E1. pose proof (Z.mod_pos_bound x 8 ltac:(lia)) as E2.
    pose proof (Z.div_mod (x / 8) get_thread_count ltac:(lia)) as E3.
    assert (0 <= x / 8 / get_thread_count) by (apply Z.div_pos; [apply Z.div_pos|]; lia).
    specialize (Hall t ltac:(lia)). unfold t in *. rewrite Z2Nat.id in Hall by lia.
    rewrite !Z2Nat.id by lia. split; [|split; [lia|lia]]. split; [lia|].
    apply Nat2Z.inj_lt. rewrite Z2Nat.id by lia. nia.
Qed.
End Hashing.

(** *** What is not missed, with the table of [Linux] *)
#[local] Opaque birthday.

Section Complete.
Context (uptr unaligned : bool) (frame : Z -> context * Z * Z).
Context (Hframe : forall i, length (buf (frame i).1.1) = 128%nat).
Context (head : list Z) (Hhead : is_bytes head) (Hlen : length head = 32%nat).
Notation visit := (visit uptr unaligned frame head).
Notation birthday := (birthday head).
Notation slot n := (Z.rem (birthday n) Linux.TABLE_SIZE).
Implicit Types st : entries * list (Z * Z).

(** [visit_eq] on this table. *)
Lemma linux_visit st nonce :
  0 <= nonce < MAX_MOMENTUM_NONCE ->
  visit st nonce =
  (if birthday nonce =? 0 then st
   else if (entry st.1 (slot nonce)).1 =? birthday nonce then
     let cur := (entry st.1 (slot nonce)).2 in
     if cur =? not_found then st else (st.1, st.2 ++ [(cur, nonce); (nonce, cur)])
   else (<[slot nonce := (birthday nonce, nonce)]> st.1, st.2)).
Proof.
  intros Hn. rewrite visit_eq by done. change (@store entries Linux.hashtable) with Linux.store.
  unfold Linux.store. destruct (birthday nonce =? 0), st as [t l]; [done|]. cbn [negb fst snd].
  destruct (_ =? birthday nonce); [|done]. by destruct (_ =? not_found).
Qed.

Lemma visits_append order st p :
  (forall x, x ∈ order -> 0 <= x < MAX_MOMENTUM_NONCE) ->
  p ∈ st.2 -> p ∈ (fold_left visit order st).2.
Proof.
  revert st. induction order as [|x order IH]; intros st Hx Hp; [done|]. cbn [fold_left].
  apply IH; [intros y Hy; apply Hx; by right|]. rewrite linux_visit by (apply Hx; by left).
  destruct (birthday x =? 0); [done|]. destruct (_ =? birthday x); [|done]. cbv zeta.
  destruct (_ =? not_found); [done|]. cbn [snd]. apply elem_of_app. by left.
Qed.

(** A birthday stays in its slot until another one takes it. *)
Lemma visits_keep a v order st :
  (forall x, x ∈ order -> 0 <= x < MAX_MOMENTUM_NONCE) ->
  (forall x, x ∈ order -> slot x = slot a -> birthday x <> 0 -> birthday x = birthday a) ->
  st.1 !! slot a = Some (birthday a, v) ->
  (fold_left visit order st).1 !! slot a = Some (birthday a, v).
Proof.
  revert st. induction order as [|x order IH]; intros st Hx Hs Hv; [done|]. cbn [fold_left].
  apply IH; [intros y Hy; apply Hx; by right|intros y Hy; apply Hs; by right|].
  rewrite linux_visit by (apply Hx; by left).
  destruct (Z.eqb_spec (birthday x) 0) as [|Hz]; [done|].
  destruct (Z.eqb_spec (entry st.1 (slot x)).1 (birthday x)) as [|Hne]; [cbv zeta; by destruct (_ =? not_found)|].
  cbn [fst]. destruct (decide (slot x = slot a)) as [E|E]; [|by rewrite lookup_insert_ne].
  destruct Hne. rewrite E. unfold entry. rewrite Hv. cbn. symmetry. apply Hs; [by left|done|done].
Qed.

(** A thread alone finds what its visits find, one after the other. *)
Lemma lone_thread_run l table res :
  (forall x, x ∈ l -> 0 <= x < MAX_MOMENTUM_NONCE) ->
  exists k, Race.run (replicate k 0%nat)
      (Race.Machine [Race.Thread Race.comparing (stores uptr unaligned frame head l) res] table) =
    let '(table', res') := fold_left visit l (table, res) in
    Race.Machine [Race.Thread Race.comparing [] res'] table'.
Proof.
  revert table res. induction l as [|x l IH]; intros table res Hx; [by exists 0%nat|].
  rewrite (stores_birthdays uptr unaligned frame Hframe head Hhead Hlen) by done. cbn [fold_left flat_map].
  rewrite <- (stores_birthdays uptr unaligned frame Hframe head Hhead Hlen) by (intros y Hy; apply Hx; by right).
  rewrite (visit_eq uptr unaligned frame Hframe head Hhead Hlen) by (apply Hx; by left). cbn [fst snd].
  assert (Hl : forall y, y ∈ l -> 0 <= y < MAX_MOMENTUM_NONCE) by (intros y Hy; apply Hx; by right).
  destruct (birthday x =? 0); cbn [negb app]; [by apply IH|].
  destruct (thread_store table (birthday x) x (stores uptr unaligned frame head l) res) as [n E].
  change (@store entries Linux.hashtable) with Linux.store.
  destruct (Linux.store (birthday x) x table) as [cur table'].
  destruct (IH table' (res ++ if negb (cur =? not_found) then [(cur, x); (x, cur)] else []) Hl) as [k Ek].
  exists (n + k)%nat. rewrite replicate_add. unfold Race.run. rewrite fold_left_app.
  change (fold_left Race.step (replicate n 0%nat) ?m) with (Race.run (replicate n 0%nat) m).
  rewrite lone_steps, E. unfold Race.run in Ek. rewrite Ek.
  destruct (cur =? not_found); cbn [negb]; [by rewrite app_nil_r|done].
Qed.
Lemma lone_thread l found :
  (forall x, x ∈ l -> 0 <= x < MAX_MOMENTUM_NONCE) ->
  exists k, momentum_search uptr unaligned frame head [l] (replicate k 0%nat) found =
    Some (fold_left visit l (reset found, [])).2.
Proof.
  intros Hx. destruct (lone_thread_run l (reset found) [] Hx) as [k E]. exists k.
  unfold momentum_search, start. cbn [map]. change (Linux.reset found) with (reset found). rewrite E.
  destruct (fold_left _ _ _) as [table' res']. cbn. by rewrite app_nil_r.
Qed.

(** A collision is found unless its slot was taken, when stores are not interrupted. If two
    nonces of an order have the same birthday, which is not zero, and no nonce visited between
    them has another birthday with the same index in the table, then the later one is found
    together with a nonce of this birthday, in both orders. *)
Theorem momentum_complete l1 a l2 b l3 (t0 : entries) :
  let order := l1 ++ a :: l2 ++ b :: l3 in
  base.NoDup order -> (forall x, x ∈ order -> 0 <= x < MAX_MOMENTUM_NONCE) ->
  birthday a = birthday b -> birthday a <> 0 ->
  (forall x, x ∈ l2 -> slot x = slot a -> birthday x <> 0 -> birthday x = birthday a) ->
  exists cur, cur ∈ l1 ++ a :: l2 /\ birthday cur = birthday a /\
    (cur, b) ∈ (fold_left visit order (reset t0, [])).2 /\
    (b, cur) ∈ (fold_left visit order (reset t0, [])).2.
Proof.
  intros order Hn Hx E Hz Hl2.
  assert (Hm : (forall x, x ∈ l1 -> x ∈ order) /\ a ∈ order /\ (forall x, x ∈ l2 -> x ∈ order) /\
    b ∈ order /\ (forall x, x ∈ l3 -> x ∈ order)) by (unfold order; clear; set_solver).
  destruct Hm as (Hm1 & Hma & Hm2 & Hmb & Hm3).
  set (before := l1 ++ a :: l2).
  assert (Eo : order = before ++ b :: l3) by (unfold order, before; by rewrite <- app_assoc).
  assert (Hin : forall x, x ∈ before -> x ∈ order)
    by (intros x Hb; rewrite Eo; apply elem_of_app; by left).
  assert (Hslot : exists v,
    (fold_left visit before (reset t0, [])).1 !! slot a = Some (birthday a, v)).
  { unfold before. rewrite fold_left_app. cbn [fold_left]. set (st := fold_left visit l1 _).
    assert (exists v, (visit st a).1 !! slot a = Some (birthday a, v)) as [v Hv].
    { rewrite linux_visit by (by apply Hx).
      destruct (Z.eqb_spec (birthday a) 0); [done|].
      unfold entry. destruct (st.1 !! slot a) as [[k v]|] eqn:Es; cbn [default from_option id fst snd].
      - destruct (Z.eqb_spec k (birthday a)) as [->|].
        + exists v. cbv zeta. by destruct (_ =? not_found).
        + exists a. cbn [fst]. by rewrite lookup_insert_eq.
      - destruct (Z.eqb_spec 0 (birthday a)); [congruence|].
        exists a. cbn [fst]. by rewrite lookup_insert_eq. }
    exists v. apply visits_keep; [|done|done]. intros x Hxl. by apply Hx, Hm2. }
  destruct Hslot as [v Hv].
  assert (Hn' : base.NoDup before) by (rewrite Eo in Hn; by apply list.NoDup_app in Hn as [? _]).
  destruct (search_found uptr unaligned frame Hframe head Hhead Hlen before t0 Hn'
    (fun x Hb => Hx x (Hin x Hb))) as (stored & Ht & Hs & _).
  destruct (Hs (birthday a) v (Ht _ _ Hv)) as [Hbv Hvb].
  apply list_elem_of_In, in_rev, list_elem_of_In in Hvb.
  pose proof (Hx v (Hin v Hvb)) as Hvr. unfold MAX_MOMENTUM_NONCE in Hvr.
  exists v. split; [done|]. split; [done|].
  assert (Hb : forall p, p ∈ [(v, b); (b, v)] -> p ∈ (fold_left visit order (reset t0, [])).2).
  { intros p Hp. rewrite Eo, fold_left_app. cbn [fold_left]. apply visits_append.
    - intros x Hx3. by apply Hx, Hm3.
    - rewrite linux_visit by (by apply Hx). rewrite <- E. unfold entry.
      rewrite Hv. cbn [default from_option id fst snd]. rewrite Z.eqb_refl.
      destruct (Z.eqb_spec (birthday a) 0); [done|].
      destruct (Z.eqb_spec v not_found) as [->|]; [unfold not_found in Hvr; lia|].
      cbn [snd]. apply elem_of_app. by right. }
  split; apply Hb; [by left|by right; left].
Qed.
End Complete.

(** *** The table on Windows *)

(** The table on Windows does not keep the contract, whatever it is taken to mean for
    a table to hold what was stored: [reset] leaves the second table as it is, and a search
    finds nonces there that were stored by the search for another block. *)
Theorem win32_breaks_contract table_ok : ~ HashtableLaws Win32.hashtable table_ok.
Proof.
  intros [Hr Hs]. set (k := Win32.TABLE_SIZE + 1).
  set (old := Win32.Hashtable_ ∅ {[1 := (k, 7)]}).
  pose proof (Hs [] 1 5 _ (Hr old) ltac:(done)) as H1.
  change (@store _ _ 1 5 (reset old))
    with (not_found, Win32.Hashtable_ {[1 := (1, 5)]} {[1 := (k, 7)]}) in H1.
  destruct H1 as [H1 _]. pose proof (Hs _ k 6 _ H1 ltac:(done)) as H2.
  change (@store _ _ k 6 _) with (7, Win32.Hashtable_ {[1 := (1, 5)]} {[1 := (k, 7)]}) in H2.
  destruct H2 as [_ [H2|H2]]; [done|]. by apply list_elem_of_singleton in H2.
Qed.

(** *** Stores that are interrupted *)
(** A store that is interrupted gives wrong pairs. A thread that runs a store without
    interruption does what [store] says. But when a second thread has written the key of an
    entry and not yet the value, the first reads the old value under the new key: whatever
    the keys are, if they share an index, it reports a pair whose nonces have different
    birthdays. *)
Theorem race_reports_false_pair key key' v1 v2 v3 :
  key <> 0 -> key <> key' -> Z.rem key Linux.TABLE_SIZE = Z.rem key' Linux.TABLE_SIZE ->
  v1 <> not_found ->
  (forall table key val rest found,
    exists n, Nat.iter n (fun '(th, t) => Race.thread_step th t)
      (Race.Thread Race.comparing ((key, val) :: rest) found, table) =
      let '(cur, table') := Linux.store key val table in
      (Race.Thread Race.comparing rest
         (found ++ if negb (cur =? not_found) then [(cur, val); (val, cur)] else []), table')) /\
  exists schedule, let m := Race.run schedule
      (Race.Machine [Race.Thread Race.comparing [(key, v1); (key', v3)] [];
                     Race.Thread Race.comparing [(key', v2)] []] ∅) in
    exists th, Race.threads m !! 0%nat = Some th /\ (v1, v3) ∈ Race.results th.
Proof.
  intros Hk Hne Hi Hv. split; [intros; apply thread_store|].
  exists [0; 0; 0; 1; 1; 0; 0]%nat. cbv zeta.
  rewrite race_run_step. cbn [Race.step Race.threads Race.memory list_lookup lookup]. rewrite compare_differs.
  2:{ unfold entry. rewrite lookup_empty. apply Z.eqb_neq. by intros <-. }
  do 2 (rewrite race_run_step; cbn [Race.step Race.threads Race.memory Race.thread_step Race.todo
    Race.at_pc Race.results list_lookup lookup insert list_insert]).
  rewrite race_run_step. cbn [Race.step Race.threads Race.memory list_lookup lookup insert list_insert].
  rewrite compare_differs.
  2:{ unfold Race.write_second, Race.write_first, entry. rewrite <- Hi, !lookup_insert_eq.
      by apply Z.eqb_neq. }
  rewrite race_run_step. cbn [Race.step Race.threads Race.memory Race.thread_step Race.todo
    Race.at_pc Race.results list_lookup lookup insert list_insert].
  rewrite race_run_step. cbn [Race.step Race.threads Race.memory list_lookup lookup insert list_insert].
  rewrite compare_equal.
  2:{ unfold Race.write_first at 1, entry. rewrite lookup_insert_eq. apply Z.eqb_refl. }
  rewrite race_run_step. cbn [Race.step Race.threads Race.memory Race.thread_step Race.todo
    Race.at_pc Race.results Race.run fold_left list_lookup lookup insert list_insert].
  eexists. split; [reflexivity|]. cbn [Race.results].
  unfold Race.write_second, Race.write_first, entry. rewrite <- Hi, !lookup_insert_eq.
  cbn [default from_option id fst snd]. destruct (Z.eqb_spec v1 not_found); [done|]. by left.
Qed.

(** ** A search for the block whose hash is zero
    Its nonces 5160211 and 63789678 have the same birthday. *)
Definition zero_head : list Z := replicate 32 0.
Definition some_frame (i : Z) : context * Z * Z := (Context_ (replicate 128 i) [] 7, 3, i).

Lemma some_frame_ok i : length (buf (some_frame i).1.1) = 128%nat.
Proof. apply length_replicate. Qed.
Lemma zero_head_ok : is_bytes zero_head.
Proof. unfold zero_head. apply list.Forall_replicate. lia. Qed.

Definition same_birthday : list Z := [5160211; 63789678].
Lemma same_birthday_ok :
  base.NoDup same_birthday /\ forall x, x ∈ same_birthday -> 0 <= x < MAX_MOMENTUM_NONCE.
Proof.
  split; [apply (bool_decide_unpack _); reflexivity|]. intros x Hx. unfold same_birthday in Hx.
  apply list_elem_of_In in Hx. cbn in Hx. unfold MAX_MOMENTUM_NONCE. lia.
Qed.

(** One thread finds the first nonce, another one the second. *)
Lemma momentum_sound_witness :
  exists pairs,
    momentum_search true false some_frame zero_head [[5160211]; [63789678]] [0; 0; 0; 1; 1; 1]%nat ∅ = Some pairs /\
    Forall (fun ab => momentum_verify (fun m => FIPS.SHA512 m 0 0) zero_head ab.1 ab.2
                      = negb (ab.1 =? 0) && negb (ab.2 =? 0)) pairs.
Proof.
  apply (momentum_sound true false some_frame some_frame_ok zero_head zero_head_ok eq_refl
    (fun m => FIPS.SHA512 m 0 0) [[5160211]; [63789678]] [0; 0; 0; 1; 1; 1]%nat ∅ (fun m _ => eq_refl)
    (proj1 same_birthday_ok) (proj2 same_birthday_ok)).
  - intros t l. do 2 (destruct t as [|t]; [intros [= <-]; cbn; lia|]). done.
  - vm_compute. reflexivity.
Defined.

Lemma momentum_complete_witness :
  exists cur, cur ∈ [5160211] /\ birthday zero_head cur = birthday zero_head 5160211 /\
    (cur, 63789678) ∈ (fold_left (visit true false some_frame zero_head) same_birthday (∅ : entries, [])).2 /\
    (63789678, cur) ∈ (fold_left (visit true false some_frame zero_head) same_birthday (∅ : entries, [])).2.
Proof.
  refine (momentum_complete true false some_frame some_frame_ok zero_head zero_head_ok eq_refl
    [] 5160211 [] 63789678 [] ∅ (proj1 same_birthday_ok) (proj2 same_birthday_ok) _ _ _).
  - vm_compute. reflexivity.
  - vm_compute. discriminate.
  - intros x Hx. destruct (proj1 (elem_of_nil x) Hx).
Defined.

Lemma threads_divide_witness :
  exists count,
    search true false some_frame 2 (fun i => 16 <=? i) 1 (∅ : entries) zero_head =
      Some (fold_left (visit true false some_frame zero_head) (turns 2 1 0 count) (∅, [])).
Proof.
  destruct (proj1 (@threads_divide true false some_frame zero_head eq_refl entries _
    2 ltac:(lia) (fun i => 16 <=? i)) 1 ∅ ltac:(lia)) as (count & H & _).
  exists count. exact H.
Defined.

Lemma race_reports_false_pair_witness :
  exists schedule, let m := Race.run schedule
      (Race.Machine [Race.Thread Race.comparing [(5, 1); (Linux.TABLE_SIZE + 5, 3)] [];
                     Race.Thread Race.comparing [(Linux.TABLE_SIZE + 5, 2)] []] ∅) in
    exists th, Race.threads m !! 0%nat = Some th /\ (1, 3) ∈ Race.results th.
Proof.
  apply (race_reports_false_pair 5 (Linux.TABLE_SIZE + 5) 1 2 3); [done|done|reflexivity|done].
Defined.
