(* ===== verification/WorkMessage.v ===== *)
(** The data that the mining pool and its miners exchange: [bitcoin::work] of
    [bitcoin.hpp], [user_database.hpp], [work_message.hpp], and the [Hash] that
    [server.cpp] and [miner.cpp] both define. *)
From stdpp Require Export gmap strings.
From Stdlib Require Export SpecFloat.
From S2P Require Import Prelude SphTypes.
From S2P Require Export Errors.

Definition COIN : Z := 100000000.

(** [bitcoin::work]: 88 bytes in memory, without padding. *)
Record work := Work {
  version : Z;
  prev : list Z;
  merk : list Z;
  time : Z;
  bits : Z;
  nonce : Z;
  birthday_a : Z;
  birthday_b : Z
}.

(** [(char* )&header], on a little-endian machine. *)
Definition work_bytes (w : work) : list Z :=
  sph_enc32le (version w) ++ prev w ++ merk w ++ sph_enc32le (time w) ++
  sph_enc32le (bits w) ++ sph_enc32le (nonce w) ++
  sph_enc32le (birthday_a w) ++ sph_enc32le (birthday_b w).

Definition with_nonce (n : Z) (w : work) : work :=
  Work (version w) (prev w) (merk w) (time w) (bits w) n (birthday_a w) (birthday_b w).
Definition with_birthdays (a b : Z) (w : work) : work :=
  Work (version w) (prev w) (merk w) (time w) (bits w) (nonce w) a b.

Record user_record := User {
  valid : Z;
  invalid : Z;
  user_earned : Z;
  user_paid : Z
}.
Definition new_user : user_record := User 0 0 0 0.
Definition get_balance (u : user_record) : Z := int64 (user_earned u - user_paid u).

(** The fields [mature_balance] and [user] of a message are those of the source; they are
    prefixed as the server has members of these names. *)
Record work_message := Message {
  type : Z;
  header : work;
  msg_user : user_record;
  msg_mature_balance : Z;
  pool_shares : Z;
  pool_earned : Z;
  pool_spm : spec_float;
  pool_fee : spec_float;
  ptsaddr : string
}.
Definition with_header (h : work) (m : work_message) : work_message :=
  Message (type m) h (msg_user m) (msg_mature_balance m) (pool_shares m) (pool_earned m)
    (pool_spm m) (pool_fee m) (ptsaddr m).

Inductive work_types := SET_WORK | INVALID | STALE | OK.

(** Of fc: the hashes, and the serialization of a message. *)
Class FcMining := {
  sha256 : list Z -> list Z;
  city_hash64 : list Z -> Z;
  pack : work_message -> list Z;
  unpack : list Z -> result work_message
}.

Section Hashing.
Context `{FcMining}.

Definition Hash (b : list Z) : list Z :=
  let round1 := sha256 b in
  let round2 := sha256 round1 in
  round2.

(** [data = fc::raw::pack( msg ); data.resize( 192 )]: cut, or filled up with zeros. *)
Definition packet (msg : work_message) : list Z := resize 192 0 (pack msg).
End Hashing.

(** ** Floating point: conversions of integers, and of [double] to [float] *)
Definition double_of (n : Z) : spec_float := binary_normalize 53 1024 n 0 false.
Definition float_of (x : spec_float) : spec_float :=
  match x with
  | S754_finite s m e => binary_round 24 128 s m e
  | _ => x
  end.
Definition double_div : spec_float -> spec_float -> spec_float := SFdiv 53 1024.

(** ** Proofs *)
Lemma length_work_bytes w :
  length (prev w) = 32%nat -> length (merk w) = 32%nat -> length (work_bytes w) = 88%nat.
Proof. intros Hp Hm. unfold work_bytes. rewrite !length_app, Hp, Hm. reflexivity. Qed.

(** The part that is searched for: everything before the birthdays. *)
Lemma work_bytes_head a b w :
  length (prev w) = 32%nat -> length (merk w) = 32%nat ->
  take 80 (work_bytes (with_birthdays a b w)) = take 80 (work_bytes w).
Proof.
  intros Hp Hm. unfold work_bytes, with_birthdays. cbn [version prev merk time bits nonce
    birthday_a birthday_b].
  set (l := sph_enc32le (version w) ++ prev w ++ merk w ++ sph_enc32le (time w) ++
    sph_enc32le (bits w) ++ sph_enc32le (nonce w)).
  assert (Hl : length l = 80%nat) by (unfold l; rewrite !length_app, Hp, Hm; reflexivity).
  assert (E : forall t, sph_enc32le (version w) ++ prev w ++ merk w ++ sph_enc32le (time w) ++
    sph_enc32le (bits w) ++ sph_enc32le (nonce w) ++ t = l ++ t)
    by (intros t; unfold l; by rewrite <- !app_assoc).
  by rewrite !E, !take_app_le by lia.
Qed.
