(* ===== verification/PoolServer.v ===== *)
(** The mining pool: [server.cpp].

    Three things run: for every miner a fiber of the main thread in [process_connection],
    tasks posted to the main thread, and the thread that polls bitcoind. A fiber gives way to
    others only where it waits, so the steps between two waits are the operations here, and a
    run of the server is a sequence of [event]s; what bitcoind and the network answer is part
    of the event. The state after [verify_share] is a point of its own, as the thread that
    polls can change [server_ok] there. [shares_accounted] says where every share goes,
    [header_counts_once] that none counts twice, [work_ranges_disjoint] which work the
    miners get, and [erased_connection_is_used] is a fault of [update_work].

    Sockets, logging, the doubles of the configuration and the target that is computed but
    not used are left out. *)
From S2P Require Import Prelude Errors WorkMessage.
From S2P Require Import SphTypes MdHelper Sha2Big Totals Momentum.
Open Scope Z_scope.

Definition endpoint : Set := Z.

(** Where a fiber waits: for a packet, for bitcoind to take a block, or for its own message
    to be written; [Verified] is the state after [verify_share]. *)
Inductive pc :=
| Starting
| Reading
| Submitting (msg : work_message)
| Verified (msg : work_message) (valid : bool)
| Writing.
(** A run of [process_connection], with its copy of [con.user]. *)
Record fiber := Fiber { at_pc : pc; con_user : user_record }.

(** The globals, the members of [server] and the nonces that were given out. [connections]
    holds the users of the connections; behind it stand the fibers, the calls of
    [update_work] and the sends posted by them, which hold an iterator into [connections]
    ([None] once its entry was erased), and the messages that were sent. *)
Record server := Server {
  user_database : gmap string user_record;
  connections : gmap endpoint user_record;
  recent_shares : gset Z;
  current_work : work;
  wallet_balance : Z;
  mature_balance : Z;
  server_ok : bool;
  total_paid : Z;
  total_earned : Z;
  all_shares : Z;
  stale : Z;
  total_invalid : Z;
  last_window_start : Z;
  last_window_start_shares : Z;
  share_per_min : spec_float;
  next_nonce : Z;
  fibers : gmap endpoint fiber;
  updates : list work;
  notices : list (option endpoint);
  sent : list (endpoint * work_message)
}.

Definition with_user_database (x : gmap string user_record) (s : server) : server :=
  Server x (connections s) (recent_shares s) (current_work s) (wallet_balance s)
    (mature_balance s) (server_ok s) (total_paid s) (total_earned s) (all_shares s) (stale s)
    (total_invalid s) (last_window_start s) (last_window_start_shares s) (share_per_min s)
    (next_nonce s) (fibers s) (updates s) (notices s) (sent s).
Definition with_connections (x : gmap endpoint user_record) (s : server) : server :=
  Server (user_database s) x (recent_shares s) (current_work s) (wallet_balance s)
    (mature_balance s) (server_ok s) (total_paid s) (total_earned s) (all_shares s) (stale s)
    (total_invalid s) (last_window_start s) (last_window_start_shares s) (share_per_min s)
    (next_nonce s) (fibers s) (updates s) (notices s) (sent s).
Definition with_recent_shares (x : gset Z) (s : server) : server :=
  Server (user_database s) (connections s) x (current_work s) (wallet_balance s)
    (mature_balance s) (server_ok s) (total_paid s) (total_earned s) (all_shares s) (stale s)
    (total_invalid s) (last_window_start s) (last_window_start_shares s) (share_per_min s)
    (next_nonce s) (fibers s) (updates s) (notices s) (sent s).
Definition with_current_work (x : work) (s : server) : server :=
  Server (user_database s) (connections s) (recent_shares s) x (wallet_balance s)
    (mature_balance s) (server_ok s) (total_paid s) (total_earned s) (all_shares s) (stale s)
    (total_invalid s) (last_window_start s) (last_window_start_shares s) (share_per_min s)
    (next_nonce s) (fibers s) (updates s) (notices s) (sent s).
Definition with_wallet_balance (x : Z) (s : server) : server :=
  Server (user_database s) (connections s) (recent_shares s) (current_work s) x
    (mature_balance s) (server_ok s) (total_paid s) (total_earned s) (all_shares s) (stale s)
    (total_invalid s) (last_window_start s) (last_window_start_shares s) (share_per_min s)
    (next_nonce s) (fibers s) (updates s) (notices s) (sent s).
Definition with_mature_balance (x : Z) (s : server) : server :=
  Server (user_database s) (connections s) (recent_shares s) (current_work s) (wallet_balance s)
    x (server_ok s) (total_paid s) (total_earned s) (all_shares s) (stale s) (total_invalid s)
    (last_window_start s) (last_window_start_shares s) (share_per_min s) (next_nonce s)
    (fibers s) (updates s) (notices s) (sent s).
Definition with_server_ok (x : bool) (s : server) : server :=
  Server (user_database s) (connections s) (recent_shares s) (current_work s) (wallet_balance s)
    (mature_balance s) x (total_paid s) (total_earned s) (all_shares s) (stale s)
    (total_invalid s) (last_window_start s) (last_window_start_shares s) (share_per_min s)
    (next_nonce s) (fibers s) (updates s) (notices s) (sent s).
Definition with_total_paid (x : Z) (s : server) : server :=
  Server (user_database s) (connections s) (recent_shares s) (current_work s) (wallet_balance s)
    (mature_balance s) (server_ok s) x (total_earned s) (all_shares s) (stale s)
    (total_invalid s) (last_window_start s) (last_window_start_shares s) (share_per_min s)
    (next_nonce s) (fibers s) (updates s) (notices s) (sent s).
Definition with_total_earned (x : Z) (s : server) : server :=
  Server (user_database s) (connections s) (recent_shares s) (current_work s) (wallet_balance s)
    (mature_balance s) (server_ok s) (total_paid s) x (all_shares s) (stale s) (total_invalid s)
    (last_window_start s) (last_window_start_shares s) (share_per_min s) (next_nonce s)
    (fibers s) (updates s) (notices s) (sent s).
Definition with_all_shares (x : Z) (s : server) : server :=
  Server (user_database s) (connections s) (recent_shares s) (current_work s) (wallet_balance s)
    (mature_balance s) (server_ok s) (total_paid s) (total_earned s) x (stale s)
    (total_invalid s) (last_window_start s) (last_window_start_shares s) (share_per_min s)
    (next_nonce s) (fibers s) (updates s) (notices s) (sent s).
Definition with_stale (x : Z) (s : server) : server :=
  Server (user_database s) (connections s) (recent_shares s) (current_work s) (wallet_balance s)
    (mature_balance s) (server_ok s) (total_paid s) (total_earned s) (all_shares s) x
    (total_invalid s) (last_window_start s) (last_window_start_shares s) (share_per_min s)
    (next_nonce s) (fibers s) (updates s) (notices s) (sent s).
Definition with_total_invalid (x : Z) (s : server) : server :=
  Server (user_database s) (connections s) (recent_shares s) (current_work s) (wallet_balance s)
    (mature_balance s) (server_ok s) (total_paid s) (total_earned s) (all_shares s) (stale s) x
    (last_window_start s) (last_window_start_shares s) (share_per_min s) (next_nonce s)
    (fibers s) (updates s) (notices s) (sent s).
Definition with_last_window_start (x : Z) (s : server) : server :=
  Server (user_database s) (connections s) (recent_shares s) (current_work s) (wallet_balance s)
    (mature_balance s) (server_ok s) (total_paid s) (total_earned s) (all_shares s) (stale s)
    (total_invalid s) x (last_window_start_shares s) (share_per_min s) (next_nonce s) (fibers s)
    (updates s) (notices s) (sent s).
Definition with_last_window_start_shares (x : Z) (s : server) : server :=
  Server (user_database s) (connections s) (recent_shares s) (current_work s) (wallet_balance s)
    (mature_balance s) (server_ok s) (total_paid s) (total_earned s) (all_shares s) (stale s)
    (total_invalid s) (last_window_start s) x (share_per_min s) (next_nonce s) (fibers s)
    (updates s) (notices s) (sent s).
Definition with_share_per_min (x : spec_float) (s : server) : server :=
  Server (user_database s) (connections s) (recent_shares s) (current_work s) (wallet_balance s)
    (mature_balance s) (server_ok s) (total_paid s) (total_earned s) (all_shares s) (stale s)
    (total_invalid s) (last_window_start s) (last_window_start_shares s) x (next_nonce s)
    (fibers s) (updates s) (notices s) (sent s).
Definition with_next_nonce (x : Z) (s : server) : server :=
  Server (user_database s) (connections s) (recent_shares s) (current_work s) (wallet_balance s)
    (mature_balance s) (server_ok s) (total_paid s) (total_earned s) (all_shares s) (stale s)
    (total_invalid s) (last_window_start s) (last_window_start_shares s) (share_per_min s) x
    (fibers s) (updates s) (notices s) (sent s).
Definition with_fibers (x : gmap endpoint fiber) (s : server) : server :=
  Server (user_database s) (connections s) (recent_shares s) (current_work s) (wallet_balance s)
    (mature_balance s) (server_ok s) (total_paid s) (total_earned s) (all_shares s) (stale s)
    (total_invalid s) (last_window_start s) (last_window_start_shares s) (share_per_min s)
    (next_nonce s) x (updates s) (notices s) (sent s).
Definition with_updates (x : list work) (s : server) : server :=
  Server (user_database s) (connections s) (recent_shares s) (current_work s) (wallet_balance s)
    (mature_balance s) (server_ok s) (total_paid s) (total_earned s) (all_shares s) (stale s)
    (total_invalid s) (last_window_start s) (last_window_start_shares s) (share_per_min s)
    (next_nonce s) (fibers s) x (notices s) (sent s).
Definition with_notices (x : list (option endpoint)) (s : server) : server :=
  Server (user_database s) (connections s) (recent_shares s) (current_work s) (wallet_balance s)
    (mature_balance s) (server_ok s) (total_paid s) (total_earned s) (all_shares s) (stale s)
    (total_invalid s) (last_window_start s) (last_window_start_shares s) (share_per_min s)
    (next_nonce s) (fibers s) (updates s) x (sent s).
Definition with_sent (x : list (endpoint * work_message)) (s : server) : server :=
  Server (user_database s) (connections s) (recent_shares s) (current_work s) (wallet_balance s)
    (mature_balance s) (server_ok s) (total_paid s) (total_earned s) (all_shares s) (stale s)
    (total_invalid s) (last_window_start s) (last_window_start_shares s) (share_per_min s)
    (next_nonce s) (fibers s) (updates s) (notices s) x.

Definition get_reward (block_num : Z) : Z :=
  let week := int32 (Z.quot block_num 2016) in
  let init_reward := uint64 (50 * COIN) in
  Nat.iter (Z.to_nat week)
    (fun init_reward => Z.quot (uint64 (init_reward * 95)) 100) init_reward.

Section Server.
Context `{FcMining} (SHA512 : list Z -> list Z).
Notation run := (run server).
Definition get : run server := reads Ok.

(** ** Operations *)

(** The part of [print_stats] before the output; [now] in microseconds. *)
Definition print_stats (now : Z) : run unit := modify (fun s =>
  let elapsed := now - last_window_start s in
  if 60000000 <? elapsed then
    let found_shares := all_shares s in
    let delta := uint64 (found_shares - last_window_start_shares s) in
    let s := with_share_per_min
               (double_div (double_of delta) (double_div (double_of elapsed) (double_of 60000000))) s in
    with_last_window_start now (with_last_window_start_shares found_shares s)
  else s).

Definition load_database (now : Z) : run unit :=
  let! s := get in
  let! _ := run_each (fun r => modify (fun s =>
    let s := with_total_paid (uint64 (total_paid s + user_paid r)) s in
    with_total_earned (uint64 (total_earned s + user_earned r)) s))
    (map snd (map_to_list (user_database s))) in
  print_stats now.

(** [pay], after bitcoind answered [trx_id] to [sendtoaddress]; every exception is caught. *)
Definition pay (key : string) (amount : Z) (trx_id : result string) : run unit :=
  match trx_id with
  | Throw _ => ret tt
  | Ok _ =>
      let! _ := modify (fun s => with_total_paid (uint64 (total_paid s + amount)) s) in
      let! s := get in
      let user := default new_user (user_database s !! key) in
      let user := User (valid user) (invalid user) (user_earned user)
                    (int64 (user_paid user + amount)) in
      modify (with_user_database (<[key := user]> (user_database s)))
  end.

Definition get_next_nonce : run Z :=
  let! _ := modify (fun s => with_next_nonce (uint64 (next_nonce s + 2 ^ 12)) s) in
  let! s := get in
  ret (next_nonce s).

Definition send_work (ep : endpoint) (user : user_record) (latest : work) : run unit :=
  let! n := get_next_nonce in
  modify (fun s =>
    let msg := Message 0 (with_nonce (uint32 n) latest) user (mature_balance s) (all_shares s)
                 (wallet_balance s) (float_of (share_per_min s)) (double_of 0) "" in
    with_sent (sent s ++ [(ep, msg)]) s).

Definition increment_share_count (key : string) (is_valid : bool) : run unit :=
  let! s := get in
  if negb (server_ok s) then ret tt
  else
    let user := default new_user (user_database s !! key) in
    if is_valid then
      let user := User (uint64 (valid user + 1)) (invalid user) (user_earned user) (user_paid user) in
      modify (with_user_database (<[key := user]> (user_database s)))
    else
      let user := User (valid user) (uint64 (invalid user + 1)) (user_earned user) (user_paid user) in
      let! _ := modify (fun s => with_total_invalid (uint64 (total_invalid s + 1)) s) in
      modify (with_user_database (<[key := user]> (user_database s))).

(** [verify_share] up to the call of [submit_work], which waits. *)
Inductive verdict := share_refused | share_accepted | share_to_submit.
Definition verify_share (header : work) : run verdict :=
  let! s := get in
  if negb (bool_decide (prev header = prev (current_work s))) then
    let! _ := modify (fun s => with_stale (uint64 (stale s + 1)) s) in
    ret share_refused
  else
    let result := rev (Hash (work_bytes header)) in
    if nth 0 result 0 <? 0x3f then
      let mid := Hash (take 80 (work_bytes header)) in
      if momentum_verify SHA512 mid (birthday_a header) (birthday_b header) then
        let! _ := modify (fun s => with_all_shares (uint64 (all_shares s + 1)) s) in
        if (nth 0 result 0 =? 0x00) && (nth 1 result 0 =? 0x00) then ret share_to_submit
        else ret share_accepted
      else ret share_refused
    else ret share_refused.

(** [update_work], on the main thread: the sends are posted. *)
Definition update_work (latest : work) : run unit :=
  modify (fun s =>
    let s := with_current_work latest (with_recent_shares ∅ s) in
    with_notices (notices s ++ map (fun con => Some con.1) (map_to_list (connections s))) s).

(** One turn of the loop of [bitcoind_thread]: what bitcoind answers, or throws. *)
Record bitcoind := Bitcoind {
  connect : result unit;
  getwork : result work;
  getbalance : result Z;
  getbalance_mature : result Z
}.
Definition bitcoind_turn (now : Z) (client : bitcoind) : run unit := fun s =>
  let attempt :=
    let! _ := print_stats now in
    let! _ := reads (fun _ => connect client) in
    let! latest_work := reads (fun _ => getwork client) in
    let! _ := modify (with_server_ok true) in
    let! s := get in
    if negb (bool_decide (prev latest_work = prev (current_work s))) then
      let! balance := reads (fun _ => getbalance client) in
      let! _ := modify (with_wallet_balance balance) in
      let! balance := reads (fun _ => getbalance_mature client) in
      let! _ := modify (with_mature_balance balance) in
      modify (fun s => with_updates (updates s ++ [latest_work]) s)
    else ret tt in
  match attempt s with
  | (Throw _, s) => (Ok tt, with_server_ok false s)
  | r => r
  end.

(** ** The fibers *)
Definition set_fiber (ep : endpoint) (f : fiber) : run unit :=
  modify (fun s => with_fibers (<[ep := f]> (fibers s)) s).

(** The handler of [process_connection]: iterators to the entry dangle from now on. *)
Definition drop_connection (ep : endpoint) : run unit := modify (fun s =>
  let s := with_connections (delete ep (connections s)) s in
  let s := with_notices
    (map (fun n => if bool_decide (n = Some ep) then None else n) (notices s)) s in
  with_fibers (delete ep (fibers s)) s).

Definition accept_connection (ep : endpoint) : run unit :=
  let! s := get in
  let! _ := modify (with_connections
    (<[ep := default new_user (connections s !! ep)]> (connections s))) in
  set_fiber ep (Fiber Starting new_user).

(** The beginning of [process_connection( connections[...] )]. *)
Definition start_connection (ep : endpoint) : run unit :=
  let! s := get in
  let user := default new_user (connections s !! ep) in
  let! _ := modify (with_connections (<[ep := user]> (connections s))) in
  let! _ := send_work ep user (current_work s) in
  set_fiber ep (Fiber Writing user).

(** A packet was read. *)
Definition process_packet (ep : endpoint) (user : user_record) (data : list Z) : run unit :=
  match unpack data with
  | Throw _ => drop_connection ep
  | Ok msg =>
      let! s := get in
      let h := city_hash64 (work_bytes (header msg)) in
      if bool_decide (h ∈ recent_shares s) then ret tt
      else
        let! _ := modify (with_recent_shares ({[h]} ∪ recent_shares s)) in
        if server_ok s then
          let! v := verify_share (header msg) in
          set_fiber ep (Fiber (match v with
            | share_refused => Verified msg false
            | share_accepted => Verified msg true
            | share_to_submit => Submitting msg
            end) user)
        else set_fiber ep (Fiber (Verified msg false) user)
  end.

(** [submit_work] returned, or threw: everything a task throws is an [fc::exception] to the
    fiber that waits for it. *)
Definition work_submitted (ep : endpoint) (user : user_record) (msg : work_message)
    (r : result unit) : run unit :=
  match r with
  | Ok _ => set_fiber ep (Fiber (Verified msg true) user)
  | Throw _ => drop_connection ep
  end.

(** The rest of the turn of the loop. *)
Definition count_share (ep : endpoint) (user : user_record) (msg : work_message)
    (is_valid : bool) : run unit :=
  let! _ := increment_share_count (ptsaddr msg) is_valid in
  let! s := get in
  let user := default user (user_database s !! ptsaddr msg) in
  let! _ := send_work ep user (current_work s) in
  set_fiber ep (Fiber Writing user).

(** A posted send: [send_work( itr->second, current_work )]. *)
Definition notify (itr : option endpoint) : run unit :=
  let! s := get in
  match itr with
  | None => raise undefined_behaviour
  | Some ep =>
      match connections s !! ep with
      | None => raise undefined_behaviour
      | Some user => send_work ep user (current_work s)
      end
  end.

(** ** Runs *)
Inductive event :=
| accepted (ep : endpoint)
| started (ep : endpoint)
| received (ep : endpoint) (data : list Z)
| submitted (ep : endpoint) (r : result unit)
| counted (ep : endpoint)
| written (ep : endpoint)
| failed (ep : endpoint)
| polled (now : Z) (client : bitcoind)
| updated (i : nat)
| notified (i : nat).

(** What an event does; [None] if it cannot happen. *)
Definition handle (e : event) (s : server) : option (run unit) :=
  match e with
  | accepted ep => match fibers s !! ep with None => Some (accept_connection ep) | _ => None end
  | started ep =>
      match fibers s !! ep with Some (Fiber Starting _) => Some (start_connection ep) | _ => None end
  | received ep data =>
      match fibers s !! ep with
      | Some (Fiber Reading user) => Some (process_packet ep user data)
      | _ => None
      end
  | submitted ep r =>
      match fibers s !! ep with
      | Some (Fiber (Submitting msg) user) => Some (work_submitted ep user msg r)
      | _ => None
      end
  | counted ep =>
      match fibers s !! ep with
      | Some (Fiber (Verified msg v) user) => Some (count_share ep user msg v)
      | _ => None
      end
  | written ep =>
      match fibers s !! ep with
      | Some (Fiber Writing user) => Some (set_fiber ep (Fiber Reading user))
      | _ => None
      end
  | failed ep =>
      match fibers s !! ep with
      | Some (Fiber (Reading | Writing) _) => Some (drop_connection ep)
      | _ => None
      end
  | polled now client => Some (bitcoind_turn now client)
  | updated i =>
      match updates s !! i with
      | Some latest =>
          Some (let! _ := modify (with_updates (delete i (updates s))) in update_work latest)
      | None => None
      end
  | notified i =>
      match notices s !! i with
      | Some itr => Some (let! _ := modify (with_notices (delete i (notices s))) in notify itr)
      | None => None
      end
  end.

(** A run of the server; it ends when its behaviour is undefined. *)
Inductive steps : server -> list event -> server -> Prop :=
| steps_nil s : steps s [] s
| steps_cons s e op s1 trace s2 :
    handle e s = Some op -> op s = (Ok tt, s1) -> steps s1 trace s2 -> steps s (e :: trace) s2.

(** The same as a function. *)
Fixpoint exec (trace : list event) (s : server) : option server :=
  match trace with
  | [] => Some s
  | e :: trace =>
      match handle e s with
      | Some op => match op s with (Ok tt, s1) => exec trace s1 | _ => None end
      | None => None
      end
  end.
End Server.

(** ** Proofs *)
Section Proofs.
Context `{FcMining} (SHA512 : list Z -> list Z).
Notation steps := (steps SHA512).
Notation handle := (handle SHA512).

Lemma exec_steps trace s s' : exec SHA512 trace s = Some s' -> steps s trace s'.
Proof.
  revert s. induction trace as [|e trace IH]; intros s Hx; cbn in Hx.
  - injection Hx as ->. constructor.
  - destruct (handle e s) as [op|] eqn:Eh; [|done].
    destruct (op s) as [[[]|] s1] eqn:Eo; [|done]. econstructor; eauto.
Qed.

(** What an operation can change. [books] is what shares are counted in, [queues] what the
    messages are made of. *)
Definition books s := (user_database s, all_shares s, total_invalid s, fibers s).
Definition queues s := (connections s, recent_shares s, current_work s, notices s).
Definition nonces s := (next_nonce s, sent s).

Lemma send_work_eq ep user latest s :
  exists msg, nonce (header msg) = uint32 (uint64 (next_nonce s + 2 ^ 12)) /\
  (type msg, msg_user msg, pool_shares msg) = (0, user, all_shares s) /\
  send_work ep user latest s =
    (Ok tt, with_sent (sent s ++ [(ep, msg)]) (with_next_nonce (uint64 (next_nonce s + 2 ^ 12)) s)).
Proof. eexists. split; [|split]; [| |reflexivity]; reflexivity. Qed.

Lemma print_stats_frame now s :
  exists s', print_stats now s = (Ok tt, s') /\ books s' = books s /\ queues s' = queues s /\
    nonces s' = nonces s /\ updates s' = updates s.
Proof. unfold print_stats, modify. cbn zeta. destruct (_ <? _); by eexists. Qed.

Lemma bitcoind_turn_frame now client s :
  exists s', bitcoind_turn now client s = (Ok tt, s') /\ books s' = books s /\
    queues s' = queues s /\ nonces s' = nonces s.
Proof.
  unfold bitcoind_turn.
  destruct (print_stats_frame now s) as (s1 & E1 & Hb & Hq & Hn & _).
  rewrite (run_step _ _ _ _ _ E1), run_reads. rewrite <- Hb, <- Hq, <- Hn.
  destruct (connect client) as [?|]; [|by eexists]. rewrite run_reads.
  destruct (getwork client) as [latest|]; [|by eexists]. rewrite run_modify.
  unfold get. rewrite run_reads. destruct (negb _); [|by eexists].
  rewrite run_reads. destruct (getbalance client) as [?|]; [|by eexists].
  rewrite run_modify, run_reads. destruct (getbalance_mature client) as [?|]; [|by eexists].
  rewrite run_modify. by eexists.
Qed.

(** *** Where shares go *)
Definition credit s : Z := total (fun _ u => valid u) (user_database s).
Definition refusals s : Z := total (fun _ u => invalid u) (user_database s).
Definition in_flight (f : fiber) : Z :=
  match at_pc f with Submitting _ | Verified _ true => 1 | _ => 0 end.
Definition open_shares s : Z := total (fun _ => in_flight) (fibers s).

(** Shares that are in [all_shares] and that no user is credited with: the block could not be
    submitted, or bitcoind stopped answering in the meantime. *)
Definition lost (s : server) (e : event) : Z :=
  match e with
  | submitted _ (Throw _) => 1
  | counted ep =>
      match fibers s !! ep with
      | Some (Fiber (Verified _ true) _) => if server_ok s then 0 else 1
      | _ => 0
      end
  | _ => 0
  end.
Fixpoint lost_shares (trace : list event) (s : server) : Z :=
  match trace with
  | [] => 0
  | e :: trace =>
      lost s e + match handle e s with Some op => lost_shares trace (op s).2 | None => 0 end
  end.

(** What an event that loses [n] shares keeps. *)
Definition accounts (n : Z) s s' : Prop :=
  credit s' + open_shares s' + n + all_shares s == credit s + open_shares s + all_shares s' /\
  refusals s' - total_invalid s' == refusals s - total_invalid s.

Lemma books_accounts s s' : books s' = books s -> accounts 0 s s'.
Proof.
  unfold books, accounts, credit, refusals, open_shares. intros [= -> -> -> ->].
  split; apply eqm_refl_eq; lia.
Qed.

(** Only the fiber [ep] changes, and with it [d] shares. *)
Lemma fiber_accounts ep s s' f' :
  books s' = (user_database s, all_shares s, total_invalid s, <[ep := f']> (fibers s)) ->
  accounts (at_key (fun _ => in_flight) (fibers s) ep - in_flight f') s s'.
Proof.
  unfold books, accounts, credit, refusals, open_shares. intros [= -> -> -> ->].
  rewrite total_insert. split; apply eqm_refl_eq; lia.
Qed.

Lemma drop_accounts ep s s' :
  books s' = (user_database s, all_shares s, total_invalid s, delete ep (fibers s)) ->
  accounts (at_key (fun _ => in_flight) (fibers s) ep) s s'.
Proof.
  unfold books, accounts, credit, refusals, open_shares. intros [= -> -> -> ->].
  rewrite total_delete. split; apply eqm_refl_eq; lia.
Qed.

Lemma accounts_trans n m s1 s2 s3 : accounts n s1 s2 -> accounts m s2 s3 -> accounts (n + m) s1 s3.
Proof.
  unfold accounts. intros [H1 H2] [H3 H4]. split; [|by rewrite H4].
  set (c := credit s2 + open_shares s2 + all_shares s2).
  enough (E : forall x y, x + c == y + c -> x == y) by (apply E; unfold c; clear E;
  transitivity ((credit s2 + open_shares s2 + n + all_shares s1) +
    (credit s3 + open_shares s3 + m + all_shares s2));
    [|rewrite H1, H3]; apply eqm_refl_eq; lia).
  intros x y E. rewrite <- (Z.add_simpl_r x c), E. apply eqm_refl_eq. lia.
Qed.

Lemma increment_share_count_eq key v s :
  exists s', increment_share_count key v s = (Ok tt, s') /\
    queues s' = queues s /\ nonces s' = nonces s /\
    (all_shares s', fibers s', server_ok s') = (all_shares s, fibers s, server_ok s) /\
    credit s' == credit s + (if server_ok s && v then 1 else 0) /\
    refusals s' - total_invalid s' == refusals s - total_invalid s.
Proof.
  unfold increment_share_count, get. rewrite run_reads. unfold credit, refusals.
  destruct (server_ok s) eqn:Es; cbn [negb andb].
  2:{ exists s. rewrite Es. do 3 (split; [reflexivity|]). split; [reflexivity|].
      split; apply eqm_refl_eq; lia. }
  set (u := default new_user (user_database s !! key)).
  assert (Eu : forall g, g new_user = 0 -> at_key (fun _ => g) (user_database s) key = g u)
    by (intros g Hg; unfold at_key, u; by destruct (user_database s !! key)).
  destruct v; [unfold modify|rewrite run_modify; unfold modify]; cbn beta iota zeta; eexists;
    (do 3 (split; [reflexivity|])); (split; [by cbn; rewrite Es|]); cbn [user_database total_invalid
      with_user_database with_total_invalid]; rewrite !total_insert, !Eu by done; cbn [valid invalid].
  - rewrite uint64_eqm. split; apply eqm_refl_eq; lia.
  - rewrite !uint64_eqm. split; apply eqm_refl_eq; lia.
Qed.

Lemma verify_share_eq hd s :
  exists v s', verify_share SHA512 hd s = (Ok v, s') /\
    queues s' = queues s /\ nonces s' = nonces s /\
    (user_database s', total_invalid s', fibers s', server_ok s') =
      (user_database s, total_invalid s, fibers s, server_ok s) /\
    all_shares s' == all_shares s + (match v with share_refused => 0 | _ => 1 end).
Proof.
  unfold verify_share, get. rewrite run_reads. destruct (negb (bool_decide _)).
  { rewrite run_modify. exists share_refused. eexists. do 4 (split; [reflexivity|]).
    apply eqm_refl_eq. cbn. lia. }
  cbv zeta. set (r := rev _). destruct (_ <? 0x3f).
  2:{ exists share_refused. eexists. do 4 (split; [reflexivity|]). apply eqm_refl_eq. lia. }
  destruct (momentum_verify _ _ _ _).
  2:{ exists share_refused. eexists. do 4 (split; [reflexivity|]). apply eqm_refl_eq. lia. }
  rewrite run_modify. destruct (_ && _); do 2 eexists; do 4 (split; [reflexivity|]); cbn;
    by rewrite uint64_eqm.
Qed.

Lemma set_fiber_eq ep f s : set_fiber ep f s = (Ok tt, with_fibers (<[ep := f]> (fibers s)) s).
Proof. reflexivity. Qed.
Lemma drop_connection_eq ep s :
  exists s', drop_connection ep s = (Ok tt, s') /\
    books s' = (user_database s, all_shares s, total_invalid s, delete ep (fibers s)) /\
    nonces s' = nonces s /\ recent_shares s' = recent_shares s.
Proof. eexists. split; [reflexivity|]. done. Qed.

(** The messages that are sent start at the nonces that [get_next_nonce] counts up to. *)
Definition start_nonce (m : endpoint * work_message) : Z := nonce (header m.2).
Definition counted_from (n : Z) (k : nat) : Z := uint64 (n + 2 ^ 12 * Z.of_nat k).
Definition sends s s' : Prop := exists new,
  nonces s' = (counted_from (next_nonce s) (length new), sent s ++ new) /\
  map start_nonce new =
    map (fun k => uint32 (counted_from (next_nonce s) (S k))) (seq 0 (length new)).

(** What an event that loses [n] shares does to the accounts, the shares seen and the
    messages. *)
Definition effect (n : Z) s s' : Prop :=
  accounts n s s' /\ recent_shares s ⊆ recent_shares s' /\
  (0 <= next_nonce s < 2 ^ 64 -> sends s s').

Lemma sends_none s s' : nonces s' = nonces s -> 0 <= next_nonce s < 2 ^ 64 -> sends s s'.
Proof.
  intros E Hn. exists []. rewrite E, app_nil_r. split; [|done]. unfold nonces, counted_from, uint64.
  cbn. rewrite Z.add_0_r, Z.mod_small by done. done.
Qed.

Lemma counted_from_add n i k : counted_from (counted_from n i) k = counted_from n (i + k).
Proof. unfold counted_from, uint64. rewrite Zplus_mod_idemp_l. f_equal. lia. Qed.

Lemma sends_trans s1 s2 s3 : sends s1 s2 -> sends s2 s3 -> sends s1 s3.
Proof.
  intros (l1 & H1 & E1) (l2 & H2 & E2). injection H1 as Hn1 Hs1. exists (l1 ++ l2).
  rewrite Hn1, Hs1, counted_from_add in H2. rewrite Hn1 in E2. split.
  - by rewrite H2, length_app, app_assoc.
  - rewrite map_app, E1, E2, length_app, seq_app, map_app. f_equal.
    rewrite (Nat.add_comm 0), <- fmap_add_seq, <- list_fmap_compose.
    apply list_fmap_ext. intros _ k _. cbn. rewrite counted_from_add. do 2 f_equal. lia.
Qed.

Lemma effect_trans n m s1 s2 s3 : effect n s1 s2 -> effect m s2 s3 -> effect (n + m) s1 s3.
Proof.
  intros (A1 & R1 & S1) (A2 & R2 & S2). split; [by eapply accounts_trans|].
  split; [set_solver|]. intros Hn. specialize (S1 Hn). eapply sends_trans; [done|]. apply S2.
  destruct S1 as (l & [= -> _] & _). apply Z.mod_pos_bound. done.
Qed.

Lemma effect_same s s' :
  books s' = books s -> recent_shares s' = recent_shares s -> nonces s' = nonces s -> effect 0 s s'.
Proof.
  intros Hb Hr Hn. split; [by apply books_accounts|]. split; [by rewrite Hr|]. by apply sends_none.
Qed.

Lemma effect_fiber ep f s :
  effect (at_key (fun _ => in_flight) (fibers s) ep - in_flight f) s
    (with_fibers (<[ep := f]> (fibers s)) s).
Proof. split; [by apply (fiber_accounts ep)|]. split; [done|]. by apply sends_none. Qed.

Lemma effect_send_work ep user latest s :
  exists s', send_work ep user latest s = (Ok tt, s') /\ effect 0 s s' /\
    (fibers s', connections s') = (fibers s, connections s).
Proof.
  destruct (send_work_eq ep user latest s) as (msg & Hn & _ & ->). eexists. split; [reflexivity|].
  split; [|done]. split; [by apply books_accounts|]. split; [done|]. intros _. exists [(ep, msg)].
  split; [done|]. cbn [map seq length]. unfold start_nonce. cbn [snd]. by rewrite Hn.
Qed.

(** The operations that a fiber is in for. *)
Lemma effect_fiber_at ep p u f s :
  fibers s !! ep = Some (Fiber p u) ->
  effect (in_flight (Fiber p u) - in_flight f) s (with_fibers (<[ep := f]> (fibers s)) s).
Proof. intros E. pose proof (effect_fiber ep f s) as He. unfold at_key in He. by rewrite E in He. Qed.

Lemma effect_drop ep s s' :
  drop_connection ep s = (Ok tt, s') -> effect (at_key (fun _ => in_flight) (fibers s) ep) s s'.
Proof.
  destruct (drop_connection_eq ep s) as (s1 & -> & Hb & Hn & Hr). intros [= <-].
  split; [by apply drop_accounts|]. split; [by rewrite Hr|by apply sends_none].
Qed.

Lemma effect_start ep u s s' :
  fibers s !! ep = Some (Fiber Starting u) ->
  start_connection ep s = (Ok tt, s') -> effect 0 s s'.
Proof.
  intros Ef. unfold start_connection, get. rewrite run_reads, run_modify.
  set (s0 := with_connections _ s).
  destruct (effect_send_work ep (default new_user (connections s !! ep)) (current_work s) s0)
    as (s1 & Es & He & [= Hf _]). rewrite (run_step _ _ _ _ _ Es), set_fiber_eq. intros [= <-].
  eapply (effect_trans 0 0 s s0); [by apply effect_same|]. eapply (effect_trans 0 0); [done|].
  by apply (effect_fiber_at ep Starting u); rewrite Hf.
Qed.

Lemma effect_process_packet ep u data s s' :
  fibers s !! ep = Some (Fiber Reading u) ->
  process_packet SHA512 ep u data s = (Ok tt, s') -> effect 0 s s'.
Proof.
  intros Ef. unfold process_packet. destruct (unpack data) as [msg|].
  2:{ intros Hd%effect_drop. unfold at_key in Hd. by rewrite Ef in Hd. }
  unfold get. rewrite run_reads. cbv zeta. destruct (bool_decide _); [intros [= <-]; by apply effect_same|].
  rewrite run_modify. set (s0 := with_recent_shares _ s).
  assert (H0 : effect 0 s s0).
  { split; [by apply books_accounts|]. split; [cbn; set_solver|by apply sends_none]. }
  destruct (server_ok s).
  2:{ rewrite set_fiber_eq. intros [= <-]. eapply (effect_trans 0 0); [exact H0|].
      exact (effect_fiber_at ep Reading u _ s0 Ef). }
  destruct (verify_share_eq (header msg) s0) as (v & s1 & Ev & [= _ Hr _ _] & Hn & [= Hu Hi Hf _] & Ha).
  rewrite (run_step _ _ _ _ _ Ev), set_fiber_eq. intros [= <-].
  eapply (effect_trans 0 0); [exact H0|]. split; [|split; [cbn; by rewrite Hr|by apply sends_none]].
  unfold accounts, credit, refusals, open_shares. cbn. rewrite Hu, Hi, Hf, total_insert, Ha.
  unfold at_key. cbn. rewrite Ef. split; [|reflexivity]. destruct v; apply eqm_refl_eq; cbn; lia.
Qed.

Lemma effect_count_share ep u msg v s s' :
  fibers s !! ep = Some (Fiber (Verified msg v) u) ->
  count_share ep u msg v s = (Ok tt, s') -> effect (lost s (counted ep)) s s'.
Proof.
  intros Ef. unfold count_share.
  destruct (increment_share_count_eq (ptsaddr msg) v s)
    as (s1 & Ei & [= _ Hr _ _] & Hn & [= Ha Hf Ho] & Hc & Hi).
  rewrite (run_step _ _ _ _ _ Ei). unfold get. rewrite run_reads. cbv zeta.
  set (user := default u _).
  destruct (effect_send_work ep user (current_work s1) s1) as (s2 & Es & He & [= Hf2 _]).
  rewrite (run_step _ _ _ _ _ Es), set_fiber_eq. intros [= <-].
  pose proof (effect_fiber_at ep (Verified msg v) u (Fiber Writing user) s2) as H3.
  rewrite Hf2, Hf in H3 at 1. specialize (H3 Ef). unfold lost. rewrite Ef.
  set (n := if server_ok s && v then -1 else 0).
  assert (H1 : effect n s s1).
  { split; [|split; [by rewrite Hr|by apply sends_none]]. split; [|done].
    unfold open_shares. rewrite Hc, Ha, Hf. unfold n.
    destruct (server_ok s), v; apply eqm_refl_eq; cbn; lia. }
  pose proof (effect_trans _ _ _ _ _ H1 (effect_trans _ _ _ _ _ He H3)) as He'.
  unfold n in He'. destruct (server_ok s), v; exact He'.
Qed.

Lemma event_effect e s op s' :
  handle e s = Some op -> op s = (Ok tt, s') ->
  match e with
  | updated _ => accounts 0 s s' /\ (0 <= next_nonce s < 2 ^ 64 -> sends s s')
  | _ => effect (lost s e) s s'
  end.
Proof.
  destruct e as [ep|ep|ep data|ep r|ep|ep|ep|now client|i|i]; cbn [PoolServer.handle].
  - destruct (fibers s !! ep) eqn:Ef; [done|]. intros [= <-] [= <-].
    pose proof (effect_fiber ep (Fiber Starting new_user) s) as H1. unfold at_key in H1.
    rewrite Ef in H1. eapply (effect_trans 0 0); [exact H1|by apply effect_same].
  - destruct (fibers s !! ep) as [[[] u]|] eqn:Ef; intros [= <-] Hop; by eapply effect_start.
  - destruct (fibers s !! ep) as [[[] u]|] eqn:Ef; intros [= <-] Hop; by eapply effect_process_packet.
  - destruct (fibers s !! ep) as [[[] u]|] eqn:Ef; intros [= <-] Hop. destruct r; cbn in Hop.
    + rewrite set_fiber_eq in Hop. injection Hop as <-. by eapply (effect_fiber_at ep (Submitting msg) u).
    + apply effect_drop in Hop. unfold at_key in Hop. by rewrite Ef in Hop.
  - destruct (fibers s !! ep) as [[[] u]|] eqn:Ef; intros [= <-] Hop; by eapply effect_count_share.
  - destruct (fibers s !! ep) as [[[] u]|] eqn:Ef; intros [= <-] [= <-].
    by eapply (effect_fiber_at ep Writing u).
  - destruct (fibers s !! ep) as [[[] u]|] eqn:Ef; intros [= <-] Hop;
      apply effect_drop in Hop; unfold at_key in Hop; by rewrite Ef in Hop.
  - intros [= <-] Hop. destruct (bitcoind_turn_frame now client s) as (s1 & E1 & Hb & [= _ Hr _ _] & Hn).
    rewrite E1 in Hop. injection Hop as <-. by apply effect_same.
  - destruct (updates s !! i); intros [= <-] [= <-]. split; [by apply books_accounts|by apply sends_none].
  - destruct (notices s !! i) as [itr|]; intros [= <-]. rewrite run_modify.
    unfold notify, get. rewrite run_reads. cbn [connections with_notices current_work].
    destruct itr as [ep|]; [|done]. destruct (connections s !! ep) as [user|]; [|done].
    set (s0 := with_notices _ s). destruct (effect_send_work ep user (current_work s) s0) as (s1 & -> & He & _).
    intros [= <-]. eapply (effect_trans 0 0 s s0); [by apply effect_same|done].
Qed.

Lemma lost_nonneg trace s : 0 <= lost_shares trace s.
Proof.
  revert s. induction trace as [|e trace IH]; intros s; [done|]. cbn [lost_shares].
  assert (0 <= lost s e).
  { destruct e; cbn; try lia; [by destruct r|].
    destruct (fibers s !! ep) as [[[| | |? []|] ?]|]; try lia. by destruct (server_ok s). }
  destruct (handle e s); [specialize (IH (r s).2)|]; lia.
Qed.

Lemma steps_accounts s trace s' : steps s trace s' -> accounts (lost_shares trace s) s s'.
Proof.
  induction 1 as [s|s e op s1 trace s2 Hh Hop _ IH]; [by apply books_accounts|].
  cbn [lost_shares]. rewrite Hh, Hop. eapply accounts_trans; [|exact IH].
  pose proof (event_effect _ _ _ _ Hh Hop) as He. destruct e; by destruct He.
Qed.

Lemma steps_sends s trace s' :
  steps s trace s' -> 0 <= next_nonce s < 2 ^ 64 -> sends s s'.
Proof.
  induction 1 as [s|s e op s1 trace s2 Hh Hop _ IH]; intros Hn; [by apply sends_none|].
  assert (H1 : sends s s1).
  { pose proof (event_effect _ _ _ _ Hh Hop) as He. destruct e; destruct He; by intuition. }
  eapply sends_trans; [exact H1|]. apply IH. destruct H1 as (l & [= -> _] & _).
  by apply Z.mod_pos_bound.
Qed.

Definition is_update (e : event) : bool := match e with updated _ => true | _ => false end.
Lemma steps_recent s trace s' :
  steps s trace s' -> forallb (fun e => negb (is_update e)) trace = true ->
  recent_shares s ⊆ recent_shares s'.
Proof.
  induction 1 as [s|s e op s1 trace s2 Hh Hop _ IH]; [done|]. cbn [forallb].
  intros [He Ht]%andb_prop. transitivity (recent_shares s1); [|by apply IH].
  pose proof (event_effect _ _ _ _ Hh Hop) as Heff. destruct e; destruct Heff as (_ & Hr);
    try done; by destruct Hr.
Qed.

Lemma received_recent ep data msg s op s' :
  handle (received ep data) s = Some op -> unpack data = Ok msg -> op s = (Ok tt, s') ->
  city_hash64 (work_bytes (header msg)) ∈ recent_shares s'.
Proof.
  cbn [PoolServer.handle]. destruct (fibers s !! ep) as [[[] u]|]; intros [= <-] Hm.
  unfold process_packet. rewrite Hm. unfold get. rewrite run_reads. cbv zeta.
  destruct (bool_decide_reflect (city_hash64 (work_bytes (header msg)) ∈ recent_shares s)) as [Hin|];
    [by intros [= <-]|]. rewrite run_modify. set (s0 := with_recent_shares _ s).
  destruct (server_ok s).
  - destruct (verify_share_eq (header msg) s0) as (v & s1 & Ev & [= _ Hr _ _] & _).
    rewrite (run_step _ _ _ _ _ Ev), set_fiber_eq. intros [= <-]. cbn. rewrite Hr. cbn. set_solver.
  - rewrite set_fiber_eq. intros [= <-]. cbn. set_solver.
Qed.

(** C33: No share gets lost in the books, short of the losses that are counted. In any run
    of the server, with connections, packets, answers of bitcoind and exceptions in any order,
    the valid shares that users are credited with, and those whose fiber is still waiting,
    grow by as much as [all_shares], less the shares whose block could not be submitted or for
    which bitcoind stopped answering before they were counted; [total_invalid] grows as the
    invalid shares of the users do (modulo [2^64]). *)
Theorem shares_accounted s trace s' :
  steps s trace s' ->
  (credit s' - credit s) + (open_shares s' - open_shares s) + lost_shares trace s
    == all_shares s' - all_shares s /\
  0 <= lost_shares trace s /\
  refusals s' - refusals s == total_invalid s' - total_invalid s.
Proof.
  intros Hs. destruct (steps_accounts _ _ _ Hs) as [H1 H2]. split; [|split; [apply lost_nonneg|]].
  - transitivity (credit s' + open_shares s' + lost_shares trace s + all_shares s
      - (credit s + open_shares s + all_shares s)); [apply eqm_refl_eq; lia|].
    rewrite H1. apply eqm_refl_eq. lia.
  - transitivity (refusals s' - total_invalid s' + total_invalid s' - refusals s);
      [apply eqm_refl_eq; lia|]. rewrite H2. apply eqm_refl_eq. lia.
Qed.

(** A header counts once. After a packet with a header was received, and as long as
    the work does not change, another packet with this header changes nothing at all, whoever
    sends it and whatever else it says, and whatever happens in between. *)
Theorem header_counts_once s ep data msg trace s' ep' user data' msg' :
  steps s (received ep data :: trace) s' ->
  forallb (fun e => negb (is_update e)) trace = true ->
  unpack data = Ok msg -> unpack data' = Ok msg' -> header msg' = header msg ->
  fibers s' !! ep' = Some (Fiber Reading user) ->
  steps s' [received ep' data'] s'.
Proof.
  intros Hs Ht Hm Hm' Eh Hf. inversion Hs as [|? ? op s1 ? ? Hh Hop Hs1]; subst.
  pose proof (received_recent _ _ _ _ _ _ Hh Hm Hop) as Hin.
  pose proof (steps_recent _ _ _ Hs1 Ht _ Hin) as Hin'.
  eapply steps_cons; [| |constructor]; [cbn [PoolServer.handle]; by rewrite Hf|].
  unfold process_packet. rewrite Hm'. unfold get. rewrite run_reads. cbv zeta.
  rewrite Eh, bool_decide_eq_true_2 by done. reflexivity.
Qed.

(** [get_next_nonce] steps by [2^12], a header has room for [2^32]. *)
Lemma start_nonce_at s trace s' i m :
  steps s trace s' -> nonces s = (0, []) -> sent s' !! i = Some m ->
  start_nonce m = 2 ^ 12 * ((Z.of_nat i + 1) mod 2 ^ 20).
Proof.
  intros Hs [= Hn Hl] Hm. destruct (steps_sends _ _ _ Hs) as (new & [= _ E] & Hmap); [lia|].
  rewrite E, Hl in Hm. cbn [app] in Hm. rewrite Hn in Hmap.
  assert (Hi : map start_nonce new !! i = Some (start_nonce m))
    by (rewrite list_lookup_fmap, Hm; done).
  rewrite Hmap, list_lookup_fmap, lookup_seq_lt in Hi by (by eapply lookup_lt_Some).
  cbn in Hi. injection Hi as <-. unfold counted_from, uint64, uint32.
  rewrite Z.mod_mod_divide by (by exists (2 ^ 32)). change (2 ^ 32) with (2 ^ 12 * 2 ^ 20).
  rewrite Z.add_0_l, Zmult_mod_distr_l. do 2 f_equal. lia.
Qed.

(** The miners get disjoint ranges of nonces, for a while. Since the server started,
    the messages sent number [i] and [j] lead their miners to the same nonce, each within the
    next [4096] rounds of its search, only if [i = j] modulo [2^20]; in particular the first
    [2^20] messages give work that does not overlap, and after them it repeats. *)
Theorem work_ranges_disjoint s trace s' i j mi mj a b :
  steps s trace s' -> nonces s = (0, []) ->
  sent s' !! i = Some mi -> sent s' !! j = Some mj ->
  0 <= a < 2 ^ 12 -> 0 <= b < 2 ^ 12 ->
  uint32 (start_nonce mi + a) = uint32 (start_nonce mj + b) <->
  a = b /\ Z.of_nat i mod 2 ^ 20 = Z.of_nat j mod 2 ^ 20.
Proof.
  intros Hs Hn Hi Hj Ha Hb.
  rewrite (start_nonce_at _ _ _ _ _ Hs Hn Hi), (start_nonce_at _ _ _ _ _ Hs Hn Hj).
  pose proof (Z.mod_pos_bound (Z.of_nat i + 1) (2 ^ 20) ltac:(done)).
  pose proof (Z.mod_pos_bound (Z.of_nat j + 1) (2 ^ 20) ltac:(done)).
  unfold uint32. rewrite !(Z.mod_small _ (2 ^ 32)) by lia. split.
  - intros E. assert ((Z.of_nat i + 1) mod 2 ^ 20 = (Z.of_nat j + 1) mod 2 ^ 20) by lia.
    split; [lia|]. rewrite <- (Z.add_simpl_r (Z.of_nat i) 1), <- (Z.add_simpl_r (Z.of_nat j) 1).
    by rewrite Zminus_mod, H2, <- Zminus_mod.
  - intros [-> E]. by rewrite (Zplus_mod (Z.of_nat i)), E, <- Zplus_mod.
Qed.

(** The server uses connections that are gone. [update_work] posts a send for every
    connection, with an iterator into [connections]; when the connection fails before its
    send is run, the entry is erased, and the send reads it through the dangling iterator. *)
Theorem erased_connection_is_used s i latest ep con p u :
  updates s !! i = Some latest -> connections s !! ep = Some con ->
  fibers s !! ep = Some (Fiber p u) -> p = Reading \/ p = Writing ->
  exists s1 j op, steps s [updated i; failed ep] s1 /\
    handle (notified j) s1 = Some op /\ (op s1).1 = Throw undefined_behaviour.
Proof.
  intros Hu Hc Hf Hp.
  apply elem_of_map_to_list, list_elem_of_lookup_1 in Hc as [k Hk].
  set (dead := fun n : option endpoint => if bool_decide (n = Some ep) then None else n).
  set (posted := notices s ++ map (fun con => Some con.1) (map_to_list (connections s))).
  assert (Hd : (map dead posted) !! (length (notices s) + k)%nat = Some None).
  { rewrite list_lookup_fmap. unfold posted. rewrite lookup_app_r by lia.
    rewrite Nat.add_comm, Nat.add_sub, list_lookup_fmap, Hk. unfold dead. cbn.
    by rewrite bool_decide_eq_true_2. }
  assert (Hh : match p with Reading | Writing => Some (drop_connection ep) | _ => None end =
    Some (drop_connection ep)) by by destruct Hp as [-> | ->].
  do 3 eexists. split; [|split].
  - eapply steps_cons; [cbn [PoolServer.handle]; by rewrite Hu|reflexivity|].
    eapply steps_cons; [cbn; rewrite Hf; exact Hh|reflexivity|constructor].
  - cbn [PoolServer.handle]. cbn. fold dead posted. by rewrite Hd.
  - reflexivity.
Qed.
End Proofs.

(** The reward falls by a twentieth every 2016 blocks, and rounding takes away less than 20
    in all. *)
Lemma get_reward_bounds block_num :
  0 <= block_num < 2016 * 2 ^ 31 ->
  let week := block_num / 2016 in
  100 ^ week * get_reward block_num <= 50 * COIN * 95 ^ week /\
  50 * COIN * 95 ^ week <= 100 ^ week * (get_reward block_num + 20).
Proof.
  intros Hb week. unfold get_reward. rewrite Z.quot_div_nonneg by lia. fold week.
  assert (Hw : 0 <= week < 2 ^ 31).
  { unfold week. split; [apply Z.div_pos; lia|apply Z.div_lt_upper_bound; lia]. }
  replace (int32 week) with week
    by (unfold int32; rewrite Z.mod_small by lia; lia).
  set (next := fun r => Z.quot (uint64 (r * 95)) 100).
  assert (Hn : forall r, 0 <= r <= 50 * COIN -> next r = r * 95 / 100).
  { intros r Hr. unfold next, uint64, COIN in *. rewrite Z.mod_small by lia.
    apply Z.quot_div_nonneg; lia. }
  assert (Hi : forall n r, r = Nat.iter n next (uint64 (50 * COIN)) -> 0 <= r <= 50 * COIN /\
    100 ^ Z.of_nat n * r <= 50 * COIN * 95 ^ Z.of_nat n <= 100 ^ Z.of_nat n * (r + 20)).
  { induction n as [|n IH]; intros r' E; [subst r'; vm_compute; repeat split; discriminate|].
    change (r' = next (Nat.iter n next (uint64 (50 * COIN)))) in E.
    destruct (IH _ eq_refl) as [Hr IH']. rewrite Hn in E by done.
    set (r := Nat.iter n next _) in *.
    pose proof (Z.div_mod (r * 95) 100 ltac:(lia)).
    pose proof (Z.mod_pos_bound (r * 95) 100 ltac:(lia)). rewrite <- E in *. split; [lia|].
    rewrite Nat2Z.inj_succ, !Z.pow_succ_r by lia.
    assert (0 < 100 ^ Z.of_nat n) by (apply Z.pow_pos_nonneg; lia). nia. }
  specialize (Hi (Z.to_nat week) _ eq_refl). rewrite Z2Nat.id in Hi by lia. apply Hi.
Qed.

(** ** A small pool
    Its hash is constant, so that every share is worth a block; a packet is the nonce of the
    message it stands for. *)
Section Story.
Definition some_work (n : Z) : work := Work 2 (replicate 32 0) (replicate 32 1) 3 4 n 5160211 63789678.
Definition share_of (n : Z) : work_message :=
  Message 0 (some_work n) new_user 0 0 0 (double_of 0) (double_of 0) "alice".
#[local] Instance some_fc : FcMining := {
  sha256 _ := zero_head;
  city_hash64 b := sph_dec32le (drop 76 b);
  pack m := [nonce (header m)];
  unpack data := match data with n :: _ => Ok (share_of n) | [] => Throw unpack_error end
}.
Notation some_SHA512 := (fun m => FIPS.SHA512 m 0 0).

(** The server before its first answer from bitcoind: [current_work] is not initialised. *)
Definition first_server : server :=
  Server ∅ ∅ ∅ (Work 0 (replicate 32 7) (replicate 32 7) 0 0 0 0 0) 0 0 false 0 0 0 0 0 0 0
    (double_of 0) 0 ∅ [] [] [].
Definition after (trace : list event) : server :=
  default first_server (exec some_SHA512 trace first_server).

Definition opening : list event := [accepted 1; started 1; written 1;
  polled 70000000 (Bitcoind (Ok tt) (Ok (some_work 0)) (Ok 5) (Ok 4)); updated 0; notified 0].
(** A share whose block cannot be submitted closes the connection; another one counts. *)
Definition two_shares : list event := opening ++ [received 1 [9]; submitted 1 (Throw assert_exception);
  accepted 1; started 1; written 1; received 1 [8]; submitted 1 (Ok tt); counted 1; written 1].

Lemma shares_accounted_witness :
  (credit (after two_shares) - credit first_server)
    + (open_shares (after two_shares) - open_shares first_server)
    + lost_shares some_SHA512 two_shares first_server
    == all_shares (after two_shares) - all_shares first_server /\
  (credit (after two_shares), lost_shares some_SHA512 two_shares first_server,
    all_shares (after two_shares)) = (1, 1, 2).
Proof.
  split; [|vm_compute; reflexivity].
  refine (proj1 (shares_accounted some_SHA512 first_server two_shares _ _)).
  apply exec_steps. vm_compute. reflexivity.
Defined.

Lemma header_counts_once_witness :
  let s := after (opening ++ [received 1 [9]; submitted 1 (Ok tt); counted 1; written 1]) in
  steps some_SHA512 s [received 1 [9]] s.
Proof.
  refine (header_counts_once some_SHA512 (after opening) 1 [9] (share_of 9)
    [submitted 1 (Ok tt); counted 1; written 1] _ 1 (User 1 0 0 0) [9] (share_of 9)
    _ _ eq_refl eq_refl eq_refl _).
  - apply exec_steps. vm_compute. reflexivity.
  - reflexivity.
  - vm_compute. reflexivity.
Defined.

Lemma work_ranges_disjoint_witness :
  let m i := default (0, share_of 0) (sent (after two_shares) !! i) in
  uint32 (start_nonce (m 0%nat) + 5) = uint32 (start_nonce (m 2%nat) + 5) <->
  5 = 5 /\ 0 mod 2 ^ 20 = 2 mod 2 ^ 20.
Proof.
  intros m. refine (work_ranges_disjoint some_SHA512 first_server two_shares (after two_shares)
    0 2 (m 0%nat) (m 2%nat) 5 5 _ eq_refl _ _ _ _).
  - apply exec_steps. vm_compute. reflexivity.
  - vm_compute. reflexivity.
  - vm_compute. reflexivity.
  - lia.
  - lia.
Defined.

Lemma erased_connection_is_used_witness :
  let s := after (take 4 opening) in
  exists s1 j op, steps some_SHA512 s [updated 0; failed 1] s1 /\
    handle some_SHA512 (notified j) s1 = Some op /\ (op s1).1 = Throw undefined_behaviour.
Proof.
  intros s. refine (erased_connection_is_used some_SHA512 s 0 (some_work 0) 1 new_user Reading new_user
    _ _ _ (or_introl eq_refl)); vm_compute; reflexivity.
Defined.
End Story.
