(* ===== verification/Miner.v ===== *)
(** The miner's side of the pool, [start_work] of [miner.cpp], and the two sides together:
    what becomes of a share that a miner sends to the server of [PoolServer]. A turn of the miner
    is given the nonces of its threads and the schedule of their steps ([work_run]). *)
From S2P Require Import Prelude SphTypes Errors WorkMessage.
From S2P Require Import MdHelper Sha2Big Totals Momentum PoolServer.
Open Scope Z_scope.

Section Miner.
Context `{FcMining} (uptr unaligned : bool) (frame : Z -> context * Z * Z).

(** The message that is searched for, the global [total_hashes], and the messages whose
    packets were written to the socket. *)
Record miner := MkMiner { msg : work_message; total_hashes : Z; shares : list work_message }.

(** The inner loop over the pairs, until a share is found. *)
Fixpoint try_pairs (pairs : list (Z * Z)) (m : work_message) : work_message * option work_message :=
  match pairs with
  | [] => (m, None)
  | (first, second) :: pairs =>
      let m := with_header (with_birthdays first second (header m)) m in
      let result := rev (Hash (work_bytes (header m))) in
      if nth 0 result 0 <? 0x03 then (m, Some m) else try_pairs pairs m
  end.

(** What a turn of the outer loop meets: the nonces that each thread of the search visits (to the
    end, or until the search is cancelled), the order of their steps on the table, and the table
    that was left by the search before. *)
Record work_run := WorkRun { nonces_of : list (list Z); schedule : list nat; table_before : entries }.

(** [fc::sha256::hash] of the header without its birthdays. *)
Definition mid_hash (m : work_message) : list Z := Hash (take 80 (work_bytes (header m))).

(** A turn; when the search does not return, neither does the turn. *)
Definition work_turn (st : miner) (turn : work_run) : option miner :=
  match momentum_search uptr unaligned frame (mid_hash (msg st)) (nonces_of turn) (schedule turn)
          (table_before turn) with
  | None => None
  | Some pairs =>
      let total := uint64 (total_hashes st + Z.of_nat (length pairs)) in
      let '(m, share) := try_pairs pairs (msg st) in
      let m' := with_header (with_nonce (uint32 (nonce (header m) + 1)) (header m)) m in
      Some (MkMiner m' total (shares st ++ option_list share))
  end.

(** [start_work], with its turns until it is cancelled. *)
Fixpoint start_work (turns : list work_run) (st : miner) : miner :=
  match turns with
  | [] => st
  | turn :: turns =>
      match work_turn st turn with
      | Some st => start_work turns st
      | None => st
      end
  end.

(** In every turn, threads that visit nonces of their own and do not disturb each other. *)
Fixpoint undisturbed_turns (turns : list work_run) (st : miner) : Prop :=
  match turns with
  | [] => True
  | turn :: turns =>
      base.NoDup (concat (nonces_of turn)) /\
      (forall x, x ∈ concat (nonces_of turn) -> 0 <= x < MAX_MOMENTUM_NONCE) /\
      Race.undisturbed (schedule turn)
        (start uptr unaligned frame (mid_hash (msg st)) (nonces_of turn) (table_before turn)) = true /\
      match work_turn st turn with
      | Some st => undisturbed_turns turns st
      | None => True
      end
  end.
End Miner.

(** ** Proofs *)

(** What is used of fc: a hash has 32 bytes. *)
Class FcMiningLaws `{FcMining} : Prop := {
  sha256_length b : length (sha256 b) = 32%nat;
  sha256_bytes b : is_bytes (sha256 b)
}.

(** The same work, but for the nonce and the birthdays. *)
Definition same_work (h h' : work) : Prop :=
  with_nonce 0 (with_birthdays 0 0 h) = with_nonce 0 (with_birthdays 0 0 h').

Lemma same_work_prev h h' : same_work h h' -> prev h = prev h' /\ merk h = merk h'.
Proof. destruct h, h'. by intros [= _ -> -> _ _]. Qed.

Section Proofs.
Context `{FcMiningLaws} (uptr unaligned : bool) (frame : Z -> context * Z * Z).
Context (Hframe : forall i, length (buf (frame i).1.1) = 128%nat).
Context (SHA512 : list Z -> list Z) (HSHA : forall m, is_bytes m -> SHA512 m = FIPS.SHA512 m 0 0).
Notation try_pairs := (@try_pairs _).
Notation start_work := (start_work uptr unaligned frame).

(** A share has the birthdays of a pair, and the leading byte that the miner asks for. *)
Definition is_share (pairs : list (Z * Z)) (m0 m : work_message) : Prop :=
  exists a b, (a, b) ∈ pairs /\ m = with_header (with_birthdays a b (header m0)) m0 /\
    nth 0 (rev (Hash (work_bytes (header m)))) 0 < 3.

Lemma try_pairs_spec pairs m0 m share :
  Miner.try_pairs pairs m0 = (m, share) ->
  (forall m', share = Some m' -> is_share pairs m0 m') /\
  exists a b, m = with_header (with_birthdays a b (header m0)) m0.
Proof.
  revert m0. induction pairs as [|[a b] pairs IH]; intros m0; cbn [Miner.try_pairs].
  - intros [= <- <-]. split; [done|]. exists (birthday_a (header m0)), (birthday_b (header m0)).
    by destruct m0 as [? []].
  - set (m1 := with_header _ m0). destruct (Z.ltb_spec (nth 0 (rev (Hash (work_bytes (header m1)))) 0) 3).
    + intros [= <- <-]. split; [|by exists a, b]. intros m' [= <-]. exists a, b.
      split; [by left|]. by split.
    + intros E. destruct (IH _ E) as [Hs (a' & b' & ->)].
      split; [|by exists a', b']. intros m' Hm. destruct (Hs _ Hm) as (a2 & b2 & Hp & -> & Hr).
      exists a2, b2. split; [by right|]. by split.
Qed.

(** A share that was found in the turn number [k], from a pair that verifies. *)
Definition found_share (m0 : work_message) (k : nat) (m : work_message) : Prop :=
  exists m1 pairs, same_work (header m1) (header m0) /\ ptsaddr m1 = ptsaddr m0 /\
    uint32 (nonce (header m1)) = uint32 (nonce (header m0) + Z.of_nat k) /\
    Forall (fun ab => momentum_verify SHA512 (mid_hash m1) ab.1 ab.2 =
      negb (ab.1 =? 0) && negb (ab.2 =? 0)) pairs /\
    is_share pairs m1 m.

Lemma turn_pairs m turn pairs :
  base.NoDup (concat (nonces_of turn)) ->
  (forall x, x ∈ concat (nonces_of turn) -> 0 <= x < MAX_MOMENTUM_NONCE) ->
  Race.undisturbed (schedule turn)
    (start uptr unaligned frame (mid_hash m) (nonces_of turn) (table_before turn)) = true ->
  momentum_search uptr unaligned frame (mid_hash m) (nonces_of turn) (schedule turn) (table_before turn)
    = Some pairs ->
  Forall (fun ab => momentum_verify SHA512 (mid_hash m) ab.1 ab.2 = negb (ab.1 =? 0) && negb (ab.2 =? 0)) pairs.
Proof.
  intros Hn Hx Hu. unfold momentum_search. destruct (forallb _ _); [|done]. intros [= <-].
  by apply (results_verify uptr unaligned frame Hframe _ (sha256_bytes _) (sha256_length _)).
Qed.

Lemma start_work_shares turns st m :
  undisturbed_turns uptr unaligned frame turns st -> m ∈ shares (start_work turns st) ->
  m ∈ shares st \/ exists k, (k < length turns)%nat /\ found_share (msg st) k m.
Proof.
  revert st. induction turns as [|turn turns IH]; intros st Hq; [by left|].
  cbn [Miner.start_work undisturbed_turns] in *. destruct Hq as (Hn & Hx & Hu & Hq).
  destruct (work_turn uptr unaligned frame st turn) as [st'|] eqn:E; [|by left]. intros Hm.
  apply IH in Hm; [|done]. unfold work_turn in E.
  destruct (momentum_search _ _ _ _ _ _ _) as [pairs|] eqn:Ep; [|done].
  pose proof (turn_pairs (msg st) turn pairs Hn Hx Hu Ep) as Hv.
  destruct (Miner.try_pairs _ (msg st)) as [m1 share] eqn:Et.
  destruct (try_pairs_spec _ _ _ _ Et) as [Hs (a & b & ->)].
  injection E as <-. cbn [shares msg] in *.
  destruct Hm as [[?|Hm]%elem_of_app|(k & Hk & m2 & ps & Hw & Hp & Hno & Hi)]; [by left| ..]; right.
  - exists 0%nat. split; [cbn; lia|]. exists (msg st), pairs. split; [done|]. split; [done|].
    split; [f_equal; lia|]. split; [done|]. apply Hs. destruct share; [|by apply elem_of_nil in Hm].
    by apply list_elem_of_singleton in Hm as ->.
  - exists (S k). split; [cbn; lia|]. exists m2, ps. split.
    + unfold same_work in *. rewrite Hw. by destruct (header (msg st)).
    + split; [done|]. split; [|done]. rewrite Hno. cbn. unfold uint32.
      rewrite Zplus_mod_idemp_l. f_equal. lia.
Qed.

(** The record of a user after a share. *)
Definition user_after (good : bool) (user : user_record) : user_record :=
  if good then User (uint64 (valid user + 1)) (invalid user) (user_earned user) (user_paid user)
  else User (valid user) (uint64 (invalid user + 1)) (user_earned user) (user_paid user).

(** The server counts a share that was verified. *)
Lemma share_counted s ep u m (good : bool) f :
  server_ok s = true ->
  exists s', steps SHA512 (with_fibers (<[ep := Fiber (Verified m good) u]> f) s) [counted ep] s' /\
    user_database s' = <[ptsaddr m :=
      user_after good (default new_user (user_database s !! ptsaddr m))]> (user_database s) /\
    (all_shares s', stale s') = (all_shares s, stale s).
Proof.
  intros Hok. set (s0 := with_fibers _ s).
  assert (exists s', count_share ep u m good s0 = (Ok tt, s') /\
    user_database s' = <[ptsaddr m :=
      user_after good (default new_user (user_database s !! ptsaddr m))]> (user_database s) /\
    (all_shares s', stale s') = (all_shares s, stale s)) as (s' & E & Hs').
  { unfold count_share, increment_share_count, get. rewrite run_assoc, run_reads. unfold s0.
    cbn [server_ok with_fibers]. rewrite Hok. cbn [negb]. cbv zeta.
    destruct good; [|rewrite run_assoc, run_modify]; rewrite run_modify, run_reads; eexists;
      (split; [reflexivity|]); done. }
  exists s'. split; [|exact Hs']. eapply steps_cons; [|exact E|constructor].
  cbn. by rewrite lookup_insert_eq.
Qed.

(** What it does when the packet of a share arrives. *)
Lemma share_received s ep u m (good : bool) :
  server_ok s = true -> unpack (packet m) = Ok m ->
  city_hash64 (work_bytes (header m)) ∉ recent_shares s ->
  prev (header m) = prev (current_work s) ->
  nth 0 (rev (Hash (work_bytes (header m)))) 0 < 3 ->
  momentum_verify SHA512 (Hash (take 80 (work_bytes (header m))))
    (birthday_a (header m)) (birthday_b (header m)) = good ->
  exists p s1, process_packet SHA512 ep u (packet m) s =
      (Ok tt, with_fibers (<[ep := Fiber p u]> (fibers s1)) s1) /\
    (p = Verified m good \/ p = Submitting m /\ good = true) /\
    (user_database s1, server_ok s1, stale s1) = (user_database s, true, stale s) /\
    all_shares s1 = if good then uint64 (all_shares s + 1) else all_shares s.
Proof.
  intros Hok Hu Hr Hp Hb Hg. unfold process_packet. rewrite Hu. unfold get. rewrite run_reads.
  cbv zeta. rewrite bool_decide_eq_false_2 by done. rewrite run_modify. set (s0 := with_recent_shares _ s).
  rewrite Hok. unfold verify_share, get. rewrite run_assoc, run_reads.
  cbn [current_work s0 with_recent_shares]. rewrite bool_decide_eq_true_2 by done. cbn [negb].
  cbv zeta. destruct (Z.ltb_spec (nth 0 (rev (Hash (work_bytes (header m)))) 0) 63); [|lia].
  rewrite Hg. destruct good.
  - rewrite run_assoc, run_modify. destruct (_ && _); do 2 eexists; (split; [reflexivity|]).
    + split; [by right|]. cbn. by rewrite Hok.
    + split; [by left|]. cbn. by rewrite Hok.
  - do 2 eexists. split; [reflexivity|]. split; [by left|]. cbn. by rewrite Hok.
Qed.

(** Both, with the block submitted in between if the share is worth one. *)
Lemma server_counts s ep u m (good : bool) :
  fibers s !! ep = Some (Fiber Reading u) -> server_ok s = true ->
  unpack (packet m) = Ok m -> city_hash64 (work_bytes (header m)) ∉ recent_shares s ->
  prev (header m) = prev (current_work s) ->
  nth 0 (rev (Hash (work_bytes (header m)))) 0 < 3 ->
  momentum_verify SHA512 (Hash (take 80 (work_bytes (header m))))
    (birthday_a (header m)) (birthday_b (header m)) = good ->
  exists submit s', (submit = [] \/ submit = [submitted ep (Ok tt)]) /\
    steps SHA512 s (received ep (packet m) :: submit ++ [counted ep]) s' /\
    user_database s' = <[ptsaddr m :=
      user_after good (default new_user (user_database s !! ptsaddr m))]> (user_database s) /\
    all_shares s' = (if good then uint64 (all_shares s + 1) else all_shares s) /\
    stale s' = stale s.
Proof.
  intros Hf Hok Hu Hr Hp Hb Hg.
  destruct (share_received s ep u m good Hok Hu Hr Hp Hb Hg) as (p & s1 & E & Hpc & [= Hd Ho Ht] & Ha).
  assert (Hh : handle SHA512 (received ep (packet m)) s =
    Some (process_packet SHA512 ep u (packet m))) by (cbn; by rewrite Hf).
  destruct Hpc as [-> | [-> ->]].
  - destruct (share_counted s1 ep u m good (fibers s1) Ho) as (s' & Hs & Hdb & [= Ha' Ht']).
    exists [], s'. split; [by left|]. split; [by eapply steps_cons|].
    by rewrite Hdb, Hd, Ha', Ha, Ht', Ht.
  - destruct (share_counted s1 ep u m true (<[ep := Fiber (Submitting m) u]> (fibers s1)) Ho)
      as (s' & Hs & Hdb & [= Ha' Ht']).
    exists [submitted ep (Ok tt)], s'. split; [by right|].
    split; [|by rewrite Hdb, Hd, Ha', Ha, Ht', Ht]. eapply steps_cons; [exact Hh|exact E|].
    eapply steps_cons; [cbn; by rewrite lookup_insert_eq|apply set_fiber_eq|exact Hs].
Qed.

(** C34: The shares that miners find count. Let a miner search for a work that the server
    sent, in any number of turns, each with threads that visit nonces of their own and take their
    steps on the table (the one other than on Windows) in any order in which none compares an entry
    that another one is in the middle of storing to. Every share that it writes to its socket is for
    the same work, with the nonce of its turn; when its packet, which unpacks to what was packed,
    reaches the server while its connection is read, the work is current up to its transactions,
    [server_ok] holds, bitcoind answers a block that is submitted, and no share with the hash of this header was seen since the work changed, the server counts
    exactly one share for the user: a valid one, unless one of the two nonces is zero, which the
    server refuses. (If the share is worth a block, this is after the block was submitted.) *)
Theorem shares_of_miners_count turns m0 total m :
  length (prev (header m0)) = 32%nat -> length (merk (header m0)) = 32%nat ->
  undisturbed_turns uptr unaligned frame turns (MkMiner m0 total []) ->
  m ∈ shares (start_work turns (MkMiner m0 total [])) ->
  same_work (header m) (header m0) /\ ptsaddr m = ptsaddr m0 /\
  (exists k, (k < length turns)%nat /\
    uint32 (nonce (header m)) = uint32 (nonce (header m0) + Z.of_nat k)) /\
  forall s ep u,
    fibers s !! ep = Some (Fiber Reading u) -> server_ok s = true ->
    prev (current_work s) = prev (header m0) ->
    unpack (packet m) = Ok m -> city_hash64 (work_bytes (header m)) ∉ recent_shares s ->
    let good := negb (birthday_a (header m) =? 0) && negb (birthday_b (header m) =? 0) in
    exists submit s', (submit = [] \/ submit = [submitted ep (Ok tt)]) /\
      steps SHA512 s (received ep (packet m) :: submit ++ [counted ep]) s' /\
      user_database s' = <[ptsaddr m :=
        user_after good (default new_user (user_database s !! ptsaddr m))]> (user_database s) /\
      all_shares s' = (if good then uint64 (all_shares s + 1) else all_shares s) /\
      stale s' = stale s.
Proof.
  intros Hlp Hlm Hturns Hm.
  destruct (start_work_shares _ _ _ Hturns Hm) as [Hm0|(k & Hk & m1 & pairs & Hw & Hp & Hn & Hv & Hs)];
    [by apply elem_of_nil in Hm0|]. cbn [msg] in *.
  destruct Hs as (a & b & Hab & -> & Hb).
  pose proof (same_work_prev _ _ Hw) as [Hprev Hmerk].
  assert (Hw' : same_work (with_birthdays a b (header m1)) (header m0))
    by (unfold same_work in *; rewrite <- Hw; by destruct (header m1)).
  cbn [header with_header ptsaddr with_birthdays nonce birthday_a birthday_b] in *.
  split; [done|]. split; [done|]. split.
  { by exists k. }
  intros s ep u Hf Hok Hcur Hu Hr. cbv zeta.
  apply (server_counts s ep u (with_header (with_birthdays a b (header m1)) m1)
    (negb (a =? 0) && negb (b =? 0)) Hf Hok Hu Hr); [|exact Hb|].
  { cbn [header with_header with_birthdays prev]. congruence. }
  cbn [header with_header birthday_a birthday_b with_birthdays].
  change (Work _ _ _ _ _ _ a b) with (with_birthdays a b (header m1)).
  rewrite work_bytes_head by congruence.
  rewrite list.Forall_forall in Hv. exact (Hv _ Hab).
Qed.
End Proofs.

(** ** A miner of the small pool *)
#[local] Existing Instance some_fc.
Lemma some_fc_laws : FcMiningLaws.
Proof. split; [done|]. intros b. exact zero_head_ok. Qed.

Lemma shares_of_miners_count_witness :
  let SHA512 := fun m => FIPS.SHA512 m 0 0 in
  let s := after opening in
  exists submit s', (submit = [] \/ submit = [submitted 1 (Ok tt)]) /\
    steps SHA512 s (received 1 (packet (share_of 8)) :: submit ++ [counted 1]) s' /\
    user_database s' = <["alice" := User 1 0 0 0]> (user_database s) /\
    all_shares s' = 1 /\ stale s' = 0.
Proof.
  intros SHA512 s. refine (proj2 (proj2 (proj2 (shares_of_miners_count (H0 := some_fc_laws)
    true false some_frame some_frame_ok SHA512 (fun _ _ => eq_refl)
    [WorkRun [[5160211]; [63789678]] [0; 0; 0; 1; 1; 1]%nat ∅] (share_of 8) 0 (share_of 8) eq_refl eq_refl _ _))) s 1 new_user _ _ _ _ _).
  - split; [exact (proj1 same_birthday_ok)|]. split; [exact (proj2 same_birthday_ok)|].
    split; [vm_compute; reflexivity|]. by destruct (work_turn _ _ _ _ _).
  - replace (shares _) with [share_of 8] by (vm_compute; reflexivity). by left.
  - vm_compute. reflexivity.
  - vm_compute. reflexivity.
  - vm_compute. reflexivity.
  - reflexivity.
  - apply (bool_decide_unpack _). vm_compute. exact I.
Defined.
