(* ===== verification/Base64.v ===== *)
(** Base 64 as in [base64.hpp], which encodes the password of the miner's server for
    bitcoind. Strings are lists of [unsigned char]; they are shorter than [2^31]. *)
From Stdlib Require Import String Ascii.
From S2P Require Import Prelude.
Open Scope Z_scope.

Definition chars_of (s : string) : list Z := map (fun c => Z.of_N (N_of_ascii c)) (list_ascii_of_string s).
Definition base64_chars : list Z :=
  chars_of "ABCDEFGHIJKLMNOPQRSTUVWXYZabcdefghijklmnopqrstuvwxyz0123456789+/".

(** [isalnum] of the C locale. *)
Definition isalnum (c : Z) : bool :=
  ((48 <=? c) && (c <=? 57)) || ((65 <=? c) && (c <=? 90)) || ((97 <=? c) && (c <=? 122)).
Definition is_base64 (c : Z) : bool := isalnum c || (c =? 95) || (c =? 45).

(** [base64_chars().find( c )], where it is assigned to an [unsigned char]: [npos] is 255. *)
Definition find (c : Z) : Z :=
  match list_find (eq c) base64_chars with Some (i, _) => Z.of_nat i | None => 255 end.

Definition char_at (i : Z) : Z := nth (Z.to_nat i) base64_chars 0.

Open Scope word_scope.

(** [char_array_4] from [char_array_3]. *)
Definition to_4 (a b c : Z) : list Z :=
  [ (a &. 0xfc) >>. 2;
    byte (((a &. 0x03) <<. 4) + ((b &. 0xf0) >>. 4));
    byte (((b &. 0x0f) <<. 2) + ((c &. 0xc0) >>. 6));
    c &. 0x3f ].

(** [char_array_3] from [char_array_4]. *)
Definition to_3 (a b c d : Z) : list Z :=
  [ byte ((a <<. 2) + ((b &. 0x30) >>. 4));
    byte (((b &. 0xf) <<. 4) + ((c &. 0x3c) >>. 2));
    byte (((c &. 0x3) <<. 6) + d) ].

(** The loop of [base64_encode]; at its end, [char_array_3] holds [i] bytes. *)
Fixpoint encode_loop (bytes char_array_3 ret : list Z) : list Z * list Z :=
  match bytes with
  | [] => (char_array_3, ret)
  | x :: bytes =>
      match char_array_3 ++ [x] with
      | [a; b; c] => encode_loop bytes [] (ret ++ map char_at (to_4 a b c))
      | char_array_3 => encode_loop bytes char_array_3 ret
      end
  end.
Definition base64_encode (bytes_to_encode : list Z) : list Z :=
  let '(char_array_3, ret) := encode_loop bytes_to_encode [] [] in
  let i := length char_array_3 in
  if (i =? 0)%nat then ret
  else
    let at_ j := nth j char_array_3 0 in
    let char_array_4 := to_4 (at_ 0%nat) (at_ 1%nat) (at_ 2%nat) in
    ret ++ map char_at (take (i + 1) char_array_4) ++ replicate (3 - i) 61.

(** The loop of [base64_decode], until the first character that is not accepted. *)
Fixpoint decode_loop (encoded_string char_array_4 ret : list Z) : list Z * list Z :=
  match encoded_string with
  | [] => (char_array_4, ret)
  | x :: rest =>
      if negb (x =? 61) && is_base64 x then
        match char_array_4 ++ [x] with
        | [a; b; c; d] => decode_loop rest [] (ret ++ to_3 (find a) (find b) (find c) (find d))
        | char_array_4 => decode_loop rest char_array_4 ret
        end
      else (char_array_4, ret)
  end.
Definition base64_decode (encoded_string : list Z) : list Z :=
  let '(char_array_4, ret) := decode_loop encoded_string [] [] in
  let i := length char_array_4 in
  if (i =? 0)%nat then ret
  else
    let at_ j := find (nth j char_array_4 0) in
    ret ++ take (i - 1) (to_3 (at_ 0%nat) (at_ 1%nat) (at_ 2%nat) (at_ 3%nat)).

(** ** Proofs *)
Lemma base64_chars_ok :
  forallb (fun i => (find (char_at i) =? i) && Bool.eqb (is_base64 (char_at i)) (i <? 62) &&
                    negb (char_at i =? 61))
    (map Z.of_nat (seq 0 64)) = true.
Proof. vm_compute. reflexivity. Qed.

Lemma char_at_ok i :
  0 <= i < 64 ->
  find (char_at i) = i /\ is_base64 (char_at i) = (i <? 62) /\ (char_at i =? 61) = false.
Proof.
  intros Hi. pose proof (proj1 (forallb_forall _ _) base64_chars_ok i) as H.
  assert (Hin : In i (map Z.of_nat (seq 0 64))).
  { apply in_map_iff. exists (Z.to_nat i). split; [lia|]. apply in_seq. lia. }
  specialize (H Hin). cbv beta in H.
  apply andb_prop in H as [[H1 H2]%andb_prop H3%negb_true_iff].
  apply Z.eqb_eq in H1. apply Bool.eqb_prop in H2. done.
Qed.

(** Bytes and the groups of six bits. *)
Definition all_bytes : list Z := map Z.of_nat (seq 0 256).
Lemma all_bytes_in x : 0 <= x < 256 -> In x all_bytes.
Proof. intros Hx. apply in_map_iff. exists (Z.to_nat x). split; [lia|]. apply in_seq. lia. Qed.

(** Two neighbouring bytes, as the first two and as the last two of a group. *)
Definition pair_ok (a b : Z) : bool :=
  match to_4 a b 0, to_4 0 a b with
  | [x; y; _; _], [_; _; z; w] =>
      let in6 v := (0 <=? v) && (v <? 64) in
      in6 x && in6 y && in6 z && in6 w &&
      (byte ((x <<. 2) + ((y &. 0x30) >>. 4)) =? a) && (byte (((z &. 0x3) <<. 6) + w) =? b) &&
      ((y &. 0xf) =? b >>. 4) && ((z &. 0x3c) >>. 2 =? (a &. 0xf)) &&
      (byte (((a >>. 4) <<. 4) + (a &. 0xf)) =? a)
  | _, _ => false
  end.
Lemma pairs_ok : forallb (fun a => forallb (pair_ok a) all_bytes) all_bytes = true.
Proof. vm_compute. reflexivity. Qed.

Lemma pair_ok_bytes a b : 0 <= a < 256 -> 0 <= b < 256 -> pair_ok a b = true.
Proof.
  intros Ha%all_bytes_in Hb%all_bytes_in.
  pose proof (proj1 (forallb_forall _ _) pairs_ok a Ha) as H. exact (proj1 (forallb_forall _ _) H b Hb).
Qed.

Definition in6 (v : Z) : Prop := 0 <= v < 64.

(** A group of four holds the group of three; a byte needs the characters that hold it. *)
Lemma group_ok a b c :
  0 <= a < 256 -> 0 <= b < 256 -> 0 <= c < 256 ->
  exists x y z w, to_4 a b c = [x; y; z; w] /\ in6 x /\ in6 y /\ in6 z /\ in6 w /\
    forall z' w', exists b' c', to_3 x y z' w' = [a; b'; c'] /\
      (z' = z -> b' = b) /\ (z' = z -> w' = w -> c' = c).
Proof.
  intros Ha Hb Hc. pose proof (pair_ok_bytes a b Ha Hb) as H1. pose proof (pair_ok_bytes b c Hb Hc) as H2.
  unfold pair_ok, to_4 in H1, H2. rewrite !andb_true_iff, !Z.eqb_eq, !Z.leb_le, !Z.ltb_lt in H1, H2.
  unfold to_4. do 4 eexists. split; [reflexivity|]. unfold in6.
  destruct H1 as [[[[[[[[H1x H1y] _] _] Ea] _] Ey] _] _].
  destruct H2 as [[[[[[[[_ _] H2z] H2w] _] Ec] _] Ez] Eb].
  do 4 (split; [done|]). intros z' w'. unfold to_3. rewrite Ea, Ey. do 2 eexists.
  split; [reflexivity|]. split.
  - intros ->. by rewrite Ez.
  - by intros -> ->.
Qed.

(** Both loops only append to [ret]. *)
Lemma encode_loop_ret bytes group ret :
  encode_loop bytes group ret = (let '(g, r) := encode_loop bytes group [] in (g, ret ++ r)).
Proof.
  revert group ret. induction bytes as [|x bytes IH]; intros group ret; cbn [encode_loop]; [by rewrite app_nil_r|].
  destruct (group ++ [x]) as [|a [|b [|c [|]]]]; try apply IH.
  rewrite IH, (IH [] ([] ++ _)). destruct (encode_loop bytes [] []). by rewrite app_assoc.
Qed.
Lemma decode_loop_ret str group ret :
  decode_loop str group ret = (let '(g, r) := decode_loop str group [] in (g, ret ++ r)).
Proof.
  revert group ret. induction str as [|x str IH]; intros group ret; cbn [decode_loop]; [by rewrite app_nil_r|].
  destruct (_ && _); [|by rewrite app_nil_r].
  destruct (group ++ [x]) as [|a [|b [|c [|d [|]]]]]; try apply IH.
  rewrite IH, (IH [] ([] ++ _)). destruct (decode_loop str [] []). by rewrite app_assoc.
Qed.

Lemma encode_group a b c m :
  base64_encode (a :: b :: c :: m) = map char_at (to_4 a b c) ++ base64_encode m.
Proof.
  unfold base64_encode. cbn [encode_loop app]. rewrite encode_loop_ret.
  destruct (encode_loop m [] []) as [g r]. destruct (length g =? 0)%nat; [done|]. by rewrite <- !app_assoc.
Qed.

Definition accepted (c : Z) : bool := negb (c =? 61) && is_base64 c.
Lemma decode_group a b c d str :
  forallb accepted [a; b; c; d] = true ->
  base64_decode (a :: b :: c :: d :: str) =
    to_3 (find a) (find b) (find c) (find d) ++ base64_decode str.
Proof.
  cbn [forallb]. rewrite !andb_true_iff. intros (Ha & Hb & Hc & Hd & _).
  unfold base64_decode. cbn [decode_loop]. fold (accepted a) (accepted b) (accepted c) (accepted d).
  rewrite Ha, Hb, Hc, Hd. cbn [app]. rewrite decode_loop_ret.
  destruct (decode_loop str [] []) as [g r]. destruct (length g =? 0)%nat; [done|]. by rewrite <- !app_assoc.
Qed.

(** The number of characters before the first one that is not accepted. *)
Fixpoint accepted_length (str : list Z) : nat :=
  match str with
  | c :: str => if accepted c then S (accepted_length str) else O
  | [] => O
  end.

Lemma three_ind (P : list Z -> Prop) :
  P [] -> (forall a, P [a]) -> (forall a b, P [a; b]) ->
  (forall a b c m, P m -> P (a :: b :: c :: m)) -> forall m, P m.
Proof.
  intros H0 H1 H2 H3. fix IH 1. intros [|a [|b [|c m]]]; [done|apply H1|apply H2|apply H3, IH].
Qed.

Lemma accepted_char x : in6 x -> accepted (char_at x) = (x <? 62).
Proof. intros Hx. unfold accepted. destruct (char_at_ok x Hx) as (_ & -> & ->). done. Qed.
Lemma find_char x : in6 x -> find (char_at x) = x.
Proof. intros Hx. by destruct (char_at_ok x Hx). Qed.

(** Decoding stops in the first group with a character that is not accepted. *)
Lemma decode_stops x y z str :
  in6 x -> in6 y -> in6 z -> accepted_length (map char_at [x; y; z] ++ str) = 3%nat \/
  (accepted_length (map char_at [x; y; z] ++ str) < 3)%nat ->
  exists z' w', base64_decode (map char_at [x; y; z] ++ str) =
    take (accepted_length (map char_at [x; y; z] ++ str) - 1) (to_3 x y z' w') /\
    (accepted_length (map char_at [x; y; z] ++ str) = 3%nat -> z' = z).
Proof.
  intros Hx Hy Hz. unfold base64_decode. cbn [map app decode_loop accepted_length].
  fold (accepted (char_at x)) (accepted (char_at y)) (accepted (char_at z)).
  destruct (accepted (char_at x)); [|intros _; by exists 0, 0].
  destruct (accepted (char_at y)); [|intros _; by exists 0, 0]. cbn [app].
  destruct (accepted (char_at z)).
  - destruct str as [|c str]; cbn [decode_loop accepted_length app].
    + intros _. cbn [length Nat.eqb nth]. rewrite !find_char by done. by exists z, (find 0).
    + fold (accepted c). destruct (accepted c); [lia|]. intros _. cbn [length Nat.eqb nth].
      rewrite !find_char by done. by exists z, (find 0).
  - intros _. cbn [length Nat.eqb nth]. rewrite !find_char by done. by exists (find 0), (find 0).
Qed.

Lemma accepted_length_group c1 c2 c3 c4 str :
  forallb accepted [c1; c2; c3; c4] = true ->
  accepted_length (c1 :: c2 :: c3 :: c4 :: str) = (4 + accepted_length str)%nat.
Proof.
  cbn [forallb accepted_length]. rewrite !andb_true_iff. by intros (-> & -> & -> & -> & _).
Qed.

Lemma decode_tail x y z str a b :
  in6 x -> in6 y -> in6 z -> (accepted_length (map char_at [x; y; z] ++ str) <= 3)%nat ->
  (forall z' w', exists b' c', to_3 x y z' w' = [a; b'; c'] /\ (z' = z -> b' = b)) ->
  base64_decode (map char_at [x; y; z] ++ str) =
    take (3 * accepted_length (map char_at [x; y; z] ++ str) / 4) [a; b].
Proof.
  intros Hx Hy Hz Hp Hg. destruct (decode_stops x y z str Hx Hy Hz) as (z' & w' & -> & Hz'); [lia|].
  destruct (Hg z' w') as (b' & c' & -> & Hb').
  destruct (accepted_length _) as [|[|[|[|]]]]; [done|done|done| |lia].
  cbn. by rewrite Hb' by by apply Hz'.
Qed.

(** A character or the padding. *)
Definition plain (c : Z) : bool := accepted c || (c =? 61).

Lemma decode_encode m :
  Forall (fun x => 0 <= x < 256) m ->
  base64_decode (base64_encode m) = take (3 * accepted_length (base64_encode m) / 4) m /\
  (forallb plain (base64_encode m) = true ->
   (length m <= 3 * accepted_length (base64_encode m) / 4)%nat).
Proof.
  induction m as [|a|a b|a b c m IH] using three_ind; intros Hm.
  - done.
  - apply Forall_cons_iff in Hm as [Ha _].
    destruct (group_ok a 0 0 Ha ltac:(lia) ltac:(lia)) as (x & y & z & w & E & Hx & Hy & _ & _ & Hg).
    destruct (Hg (find 0) (find 0)) as (b' & c' & E3 & _).
    assert (Es : base64_encode [a] = [char_at x; char_at y; 61; 61]).
    { unfold base64_encode. cbn [encode_loop app length Nat.eqb nth]. by rewrite E. }
    rewrite Es. unfold base64_decode. cbn [decode_loop accepted_length forallb].
    fold (accepted (char_at x)) (accepted (char_at y)) (accepted 61). unfold plain.
    change (accepted 61) with false.
    destruct (char_at_ok x Hx) as (Fx & _ & ->), (char_at_ok y Hy) as (Fy & _ & ->).
    destruct (accepted (char_at x)); [|done]. destruct (accepted (char_at y)); [|done].
    cbn [app length Nat.eqb nth]. rewrite Fx, Fy, E3. done.
  - apply Forall_cons_iff in Hm as [Ha [Hb _]%Forall_cons_iff].
    destruct (group_ok a b 0 Ha Hb ltac:(lia)) as (x & y & z & w & E & Hx & Hy & Hz & _ & Hg).
    assert (Es : base64_encode [a; b] = map char_at [x; y; z] ++ [61]).
    { unfold base64_encode. cbn [encode_loop app length Nat.eqb nth]. by rewrite E. }
    rewrite Es. split.
    + apply decode_tail; try done.
      * cbn [map app accepted_length]. change (accepted 61) with false.
        repeat (destruct (accepted (char_at _)); [|lia]). lia.
      * intros z' w'. destruct (Hg z' w') as (b' & c' & ? & ? & _). by exists b', c'.
    + cbn [map app forallb accepted_length]. unfold plain.
      rewrite (proj2 (proj2 (char_at_ok x Hx))), (proj2 (proj2 (char_at_ok y Hy))),
        (proj2 (proj2 (char_at_ok z Hz))), !orb_false_r.
      rewrite !andb_true_iff. intros (-> & -> & -> & _). done.
  - apply Forall_cons_iff in Hm as [Ha [Hb [Hc Hm]%Forall_cons_iff]%Forall_cons_iff].
    destruct (group_ok a b c Ha Hb Hc) as (x & y & z & w & E & Hx & Hy & Hz & Hw & Hg).
    destruct (IH Hm) as [IH1 IH2]. rewrite encode_group, E.
    change (map char_at [x; y; z; w] ++ base64_encode m)
      with (map char_at [x; y; z] ++ char_at w :: base64_encode m).
    destruct (forallb accepted (map char_at [x; y; z; w])) eqn:Eall.
    + cbn [map app]. rewrite (accepted_length_group (char_at x) (char_at y) (char_at z) (char_at w)) by done.
      replace (3 * (4 + accepted_length (base64_encode m)) / 4)%nat
        with (3 + 3 * accepted_length (base64_encode m) / 4)%nat
        by (rewrite (Nat.mul_add_distr_l 3 4), <- Nat.div_add_l by lia; f_equal; lia).
      split.
      * rewrite decode_group by done. rewrite !find_char by done.
        destruct (Hg z w) as (b' & c' & -> & Hb' & Hc'). rewrite Hb', Hc', IH1 by done. done.
      * cbn [forallb length]. rewrite !andb_true_iff. intros (_ & _ & _ & _ & Hp).
        specialize (IH2 Hp). lia.
    + assert (Hle : (accepted_length (map char_at [x; y; z] ++ char_at w :: base64_encode m) <= 3)%nat).
      { revert Eall. cbn [map app accepted_length forallb].
        repeat (destruct (accepted (char_at _)); cbn [andb]; [|lia]). done. }
      split.
      * rewrite (decode_tail x y z _ a b) by (try done; intros z' w'; destruct (Hg z' w')
          as (b' & c' & ? & ? & _); by exists b', c').
        revert Hle. clear. generalize (accepted_length (map char_at [x; y; z] ++ char_at w :: base64_encode m)).
        intros [|[|[|[|k]]]] Hk; try done. lia.
      * intros Hp. revert Eall Hp. cbn [map app forallb]. unfold plain.
        rewrite (proj2 (proj2 (char_at_ok x Hx))), (proj2 (proj2 (char_at_ok y Hy))),
          (proj2 (proj2 (char_at_ok z Hz))), (proj2 (proj2 (char_at_ok w Hw))), !orb_false_r.
        intros Eall Hp. exfalso. revert Eall Hp. rewrite andb_true_r. clear.
        destruct (accepted (char_at x)), (accepted (char_at y)), (accepted (char_at z)),
          (accepted (char_at w)); done.
Qed.

(** Decoding undoes encoding while there are only letters and numbers. If the encoded
    string has [p] accepted characters before the first other one, decoding it gives the
    first [3 * p / 4] bytes of what was encoded. If all of it is accepted, but for the
    padding, it gives everything. But the digits [+] and [/], which the encoding uses, are
    not accepted (the source accepts [_] and [-] instead), and end the decoding. *)
Theorem base64_roundtrip m :
  Forall (fun x => 0 <= x < 256) m ->
  let str := base64_encode m in
  base64_decode str = take (3 * accepted_length str / 4) m /\
  (forallb plain str = true -> base64_decode str = m) /\
  accepted 43 = false /\ accepted 47 = false.
Proof.
  intros Hm str. destruct (decode_encode m Hm) as [H1 H2]. split; [exact H1|].
  split; [|done]. intros Hp. unfold str. rewrite H1. apply take_ge. by apply H2.
Qed.

(** [user:password] comes back; a password of six [>] is lost. *)
Lemma base64_roundtrip_witness :
  base64_decode (base64_encode (chars_of "user:password")) = chars_of "user:password" /\
  base64_decode (base64_encode (chars_of "user:>>>>>>")) = chars_of "user:".
Proof.
  split.
  - refine (proj1 (proj2 (base64_roundtrip (chars_of "user:password") _)) eq_refl).
    apply (bool_decide_unpack _). vm_compute. exact I.
  - rewrite (proj1 (base64_roundtrip (chars_of "user:>>>>>>")
      ltac:(apply (bool_decide_unpack _); vm_compute; exact I))). reflexivity.
Defined.
