(* ===== verification/Asset.v ===== *)
(** [asset.hpp] and [asset.cpp]: amounts of an asset and prices between two assets.
    Amounts are [int64_t] with the wrap-around of two's complement; a price is a fixed
    point number in units of [1 / BTS_PRICE_PRECISION], held in 128 unsigned bits. The big
    integers of the fc library, on which prices are computed, are an interface. *)
From S2P Require Import Prelude Errors.

Record asset := Asset { amount : Z; asset_id : Z }.
Record price := Price { ratio : Z; base_asset_id : Z; quote_asset_id : Z }.

#[export] Instance asset_eq_dec : EqDecision asset.
Proof. solve_decision. Defined.
#[export] Instance price_eq_dec : EqDecision price.
Proof. solve_decision. Defined.

Definition BTS_BLOCKCHAIN_MAX_SHARES : Z := 1000 * 1000 * 1000 * 1000 * 1000.
Definition BTS_PRICE_PRECISION : Z := uint64 (BTS_BLOCKCHAIN_MAX_SHARES * 1000).

(** ** Arithmetic on amounts *)
Definition asset_plus_assign (a o : asset) : result asset :=
  let* _ := FC_ASSERT (asset_id a =? asset_id o) in
  let new := int64 (amount a + amount o) in
  let* _ := throw_if (new <? amount a) addition_overflow in
  Ok (Asset new (asset_id a)).

Definition asset_minus_assign (a o : asset) : result asset :=
  let* _ := FC_ASSERT (asset_id a =? asset_id o) in
  let new := int64 (amount a - amount o) in
  let* _ := throw_if (amount a <? new) addition_underthrow in
  Ok (Asset new (asset_id a)).

(** [operator * ( uint64_t )]: the result is built without the asset id. *)
Definition asset_times (a : asset) (constant : Z) : asset :=
  Asset (int64 (uint64 (amount a) * constant)) 0.

(** [operator / ( uint64_t )]: the amount is converted to unsigned first. *)
Definition asset_over (a : asset) (constant : Z) : result asset :=
  if constant =? 0 then Throw undefined_behaviour
  else Ok (Asset (int64 (uint64 (amount a) / constant)) (asset_id a)).

Definition asset_neg (a : asset) : asset := Asset (int64 (- amount a)) (asset_id a).

(** ** Comparisons *)
Definition asset_eq (l r : asset) : bool := amount l =? amount r.
Definition asset_lt (l r : asset) : bool := amount l <? amount r.
Definition asset_le (l r : asset) : bool := (asset_id l =? asset_id r) && (amount l <=? amount r).
Definition price_eq (l r : price) : bool := ratio l =? ratio r.
Definition price_ne (l r : price) : bool := ratio l =? ratio r.
Definition price_lt (l r : price) : bool := ratio l <? ratio r.

(** ** Prices *)

(** [fc::bigint]: the operations the code uses. *)
Class FcBigint := {
  bigint : Type;
  bi_of_share : Z -> bigint;
  bi_of_uint64 : Z -> bigint;
  bi_of_uint128 : Z -> bigint;
  bi_mul : bigint -> bigint -> bigint;
  bi_div : bigint -> bigint -> bigint;
  bi_log2 : bigint -> Z;
  bi_to_int64 : bigint -> Z;
  bi_to_uint128 : bigint -> Z
}.

Section Prices.
Context `{FcBigint}.

(** [price operator / ( const asset& a, const asset& b )]. *)
Definition asset_div (a b : asset) : result price :=
  let* _ := throw_if (asset_id a =? asset_id b) asset_divide_by_self in
  let '(l, r) := if asset_id a <? asset_id b then (b, a) else (a, b) in
  let* _ := throw_if (amount r =? 0) asset_divide_by_zero in
  let bl := bi_of_share (amount l) in
  let br := bi_of_share (amount r) in
  let res := bi_div (bi_mul bl (bi_of_uint64 BTS_PRICE_PRECISION)) br in
  Ok (Price (bi_to_uint128 res) (asset_id r) (asset_id l)).

(** [asset operator * ( const asset& a, const price& p )]. *)
Definition asset_mul_price (a : asset) (p : price) : result asset :=
  if asset_id a =? base_asset_id p then
    let amnt := bi_mul (bi_of_share (amount a)) (bi_of_uint128 (ratio p)) in
    let amnt := bi_div amnt (bi_of_uint64 BTS_PRICE_PRECISION) in
    let* _ := throw_if (128 <=? bi_log2 amnt) addition_overflow in
    Ok (Asset (bi_to_int64 amnt) (quote_asset_id p))
  else if asset_id a =? quote_asset_id p then
    let amt := bi_mul (bi_of_share (amount a)) (bi_of_uint64 BTS_PRICE_PRECISION) in
    let res := bi_div amt (bi_of_uint128 (ratio p)) in
    let* _ := throw_if (128 <=? bi_log2 res) addition_overflow in
    Ok (Asset (bi_to_int64 res) (base_asset_id p))
  else Throw asset_type_mismatch.
End Prices.

(** What the documentation of the big integers says: they are exact on the non-negative
    numbers that fit the types converted from and to. *)
Class FcBigintLaws `{FcBigint} := {
  bi_value : bigint -> Z;
  bi_value_share x : 0 <= x < 2 ^ 63 -> bi_value (bi_of_share x) = x;
  bi_value_uint64 x : 0 <= x < 2 ^ 64 -> bi_value (bi_of_uint64 x) = x;
  bi_value_uint128 x : 0 <= x < 2 ^ 128 -> bi_value (bi_of_uint128 x) = x;
  bi_value_mul x y : bi_value (bi_mul x y) = bi_value x * bi_value y;
  bi_value_div x y :
    0 <= bi_value x -> 0 < bi_value y -> bi_value (bi_div x y) = bi_value x / bi_value y;
  bi_log2_value x : 0 < bi_value x -> bi_log2 x = Z.log2 (bi_value x);
  bi_log2_zero x : bi_value x = 0 -> bi_log2 x < 128;
  bi_to_int64_value x : 0 <= bi_value x < 2 ^ 63 -> bi_to_int64 x = bi_value x;
  bi_to_uint128_value x : 0 <= bi_value x < 2 ^ 128 -> bi_to_uint128 x = bi_value x
}.

(** An implementation, with which statements are evaluated. *)
#[export] Instance Z_bigint : FcBigint := {
  bigint := Z;
  bi_of_share := id;
  bi_of_uint64 := id;
  bi_of_uint128 := id;
  bi_mul := Z.mul;
  bi_div := Z.div;
  bi_log2 := Z.log2;
  bi_to_int64 := int64;
  bi_to_uint128 x := x mod 2 ^ 128
}.

#[export] Instance Z_bigint_laws : FcBigintLaws.
Proof.
  refine {| bi_value := (id : @bigint Z_bigint -> Z) |}; simpl; unfold id; auto.
  - intros x ->. reflexivity.
  - intros. apply int64_id. unfold in_int64. lia.
  - intros. apply Z.mod_small. done.
Defined.

(** ** Proofs *)
Lemma price_precision : BTS_PRICE_PRECISION = 10 ^ 18.
Proof. reflexivity. Qed.

Definition wf_asset (a : asset) : Prop := in_int64 (amount a).

Section Amounts.
Context (a b : asset) (Ha : wf_asset a) (Hb : wf_asset b).

Lemma plus_assign_nonneg :
  asset_id a = asset_id b -> 0 <= amount b ->
  asset_plus_assign a b =
    if amount a + amount b <? 2 ^ 63 then Ok (Asset (amount a + amount b) (asset_id a))
    else Throw addition_overflow.
Proof.
  unfold wf_asset, in_int64 in *. intros E Hp. unfold asset_plus_assign, FC_ASSERT.
  rewrite E, Z.eqb_refl. simpl. unfold int64.
  destruct (Z.ltb_spec (amount a + amount b) (2 ^ 63)).
  - rewrite Z.mod_small by lia. destruct (Z.ltb_spec (amount a + amount b + 2 ^ 63 - 2 ^ 63)
      (amount a)); [lia|]. simpl. do 2 f_equal. lia.
  - replace (amount a + amount b + 2 ^ 63)
      with ((amount a + amount b - 2 ^ 63) + 1 * 2 ^ 64) by lia.
    rewrite Z.mod_add, Z.mod_small by lia.
    destruct (Z.ltb_spec (amount a + amount b - 2 ^ 63 - 2 ^ 63) (amount a)); [done|lia].
Qed.

Lemma minus_assign_nonneg :
  asset_id a = asset_id b -> 0 <= amount b ->
  asset_minus_assign a b =
    if - 2 ^ 63 <=? amount a - amount b then Ok (Asset (amount a - amount b) (asset_id a))
    else Throw addition_underthrow.
Proof.
  unfold wf_asset, in_int64 in *. intros E Hp. unfold asset_minus_assign, FC_ASSERT.
  rewrite E, Z.eqb_refl. simpl. unfold int64.
  destruct (Z.leb_spec (- 2 ^ 63) (amount a - amount b)).
  - rewrite Z.mod_small by lia. destruct (Z.ltb_spec (amount a)
      (amount a - amount b + 2 ^ 63 - 2 ^ 63)); [lia|]. simpl. do 2 f_equal. lia.
  - replace (amount a - amount b + 2 ^ 63)
      with ((amount a - amount b + 2 ^ 63 + 2 ^ 64) + (-1) * 2 ^ 64) by lia.
    rewrite Z.mod_add, Z.mod_small by lia.
    destruct (Z.ltb_spec (amount a) (amount a - amount b + 2 ^ 63 + 2 ^ 64 - 2 ^ 63));
      [done|lia].
Qed.

(** A negative addend is taken for an overflow, unless the sum leaves the range: then
    it wraps and is accepted. *)
Lemma plus_assign_neg :
  asset_id a = asset_id b -> amount b < 0 ->
  asset_plus_assign a b =
    if - 2 ^ 63 <=? amount a + amount b then Throw addition_overflow
    else Ok (Asset (amount a + amount b + 2 ^ 64) (asset_id a)).
Proof.
  unfold wf_asset, in_int64 in *. intros E Hp. unfold asset_plus_assign, FC_ASSERT.
  rewrite E, Z.eqb_refl. simpl. unfold int64.
  destruct (Z.leb_spec (- 2 ^ 63) (amount a + amount b)).
  - rewrite Z.mod_small by lia. destruct (Z.ltb_spec
      (amount a + amount b + 2 ^ 63 - 2 ^ 63) (amount a)); [done|lia].
  - replace (amount a + amount b + 2 ^ 63)
      with ((amount a + amount b + 2 ^ 63 + 2 ^ 64) + (-1) * 2 ^ 64) by lia.
    rewrite Z.mod_add, Z.mod_small by lia.
    destruct (Z.ltb_spec (amount a + amount b + 2 ^ 63 + 2 ^ 64 - 2 ^ 63) (amount a)); [lia|].
    simpl. do 2 f_equal. lia.
Qed.
End Amounts.

Section PriceLaws.
Context `{FcBigintLaws}.

Lemma asset_div_spec a b :
  asset_id a < asset_id b -> 0 < amount a < 2 ^ 63 -> 0 <= amount b < 2 ^ 63 ->
  asset_div b a = Ok (Price (amount b * 10 ^ 18 / amount a) (asset_id a) (asset_id b)).
Proof.
  intros Hid Ha Hb. unfold asset_div.
  destruct (Z.eqb_spec (asset_id b) (asset_id a)); [lia|].
  destruct (Z.ltb_spec (asset_id b) (asset_id a)); [lia|]. simpl.
  destruct (Z.eqb_spec (amount a) 0); [lia|]. simpl.
  assert (Ev : bi_value (bi_div (bi_mul (bi_of_share (amount b))
                  (bi_of_uint64 BTS_PRICE_PRECISION)) (bi_of_share (amount a)))
               = amount b * 10 ^ 18 / amount a).
  { rewrite bi_value_div; rewrite ?bi_value_mul; rewrite ?bi_value_share by lia;
      rewrite ?bi_value_uint64 by (rewrite price_precision; lia);
      rewrite ?price_precision; try lia. }
  rewrite bi_to_uint128_value; rewrite Ev; [done|]. split.
  - apply Z.div_pos; lia.
  - apply Z.div_lt_upper_bound; [lia|]. nia.
Qed.

(** From the base asset, rounded down. *)
Lemma mul_price_base a p :
  asset_id a = base_asset_id p -> 0 <= amount a < 2 ^ 63 -> 0 <= ratio p < 2 ^ 128 ->
  amount a * ratio p / 10 ^ 18 < 2 ^ 63 ->
  asset_mul_price a p = Ok (Asset (amount a * ratio p / 10 ^ 18) (quote_asset_id p)).
Proof.
  intros E Ha Hr Hres. unfold asset_mul_price. rewrite E, Z.eqb_refl.
  set (x := bi_div _ _).
  assert (Ev : bi_value x = amount a * ratio p / 10 ^ 18).
  { unfold x. rewrite bi_value_div; rewrite ?bi_value_mul; rewrite ?bi_value_share by lia;
      rewrite ?bi_value_uint64 by (rewrite price_precision; lia);
      rewrite ?bi_value_uint128 by lia; rewrite ?price_precision; try nia. }
  assert (0 <= bi_value x) by (rewrite Ev; apply Z.div_pos; nia).
  assert (Hlog : bi_log2 x < 128).
  { destruct (decide (bi_value x = 0)); [by apply bi_log2_zero|].
    rewrite bi_log2_value by lia. apply Z.log2_lt_pow2; lia. }
  destruct (Z.leb_spec 128 (bi_log2 x)); [lia|]. simpl.
  by rewrite bi_to_int64_value, Ev by lia.
Qed.

(** C32: Prices. Let [b] be in the asset with the greater id, [a] be positive, and both within
    what a record can hold. The price [b / a] is computed and applied to [a] without an
    exception, and buying at it with [a] gives [b] back, rounded down: never more, and less
    than [1 + a / 10^18] units less. (Applied to the quote [b] it can give more than [a].) *)
Theorem div_mul_bound a b :
  asset_id a < asset_id b -> 0 < amount a < 2 ^ 63 -> 0 <= amount b < 2 ^ 63 ->
  exists p q, asset_div b a = Ok p /\ asset_mul_price a p = Ok q /\
    asset_id q = asset_id b /\
    amount q <= amount b /\ amount b * 10 ^ 18 < (amount q + 1) * 10 ^ 18 + amount a.
Proof.
  intros Hid Ha Hb. eexists _, _. split; [by apply asset_div_spec|].
  set (r := amount b * 10 ^ 18 / amount a).
  pose proof (Z.div_mod (amount b * 10 ^ 18) (amount a) ltac:(lia)) as Ed.
  pose proof (Z.mod_pos_bound (amount b * 10 ^ 18) (amount a) ltac:(lia)) as Hm.
  fold r in Ed.
  assert (Hr : 0 <= r < 2 ^ 128).
  { split; [apply Z.div_pos; lia|]. apply Z.div_lt_upper_bound; [lia|]. nia. }
  pose proof (Z.div_mod (amount a * r) (10 ^ 18) ltac:(lia)) as Ed2.
  pose proof (Z.mod_pos_bound (amount a * r) (10 ^ 18) ltac:(lia)) as Hm2.
  assert (Hle : amount a * r / 10 ^ 18 <= amount b).
  { apply Z.div_le_upper_bound; [lia|]. lia. }
  split; [apply mul_price_base; cbn [base_asset_id ratio]; try done; lia|].
  cbn [asset_id amount quote_asset_id ratio]. split; [done|].
  fold r. split; [done|]. lia.
Qed.
End PriceLaws.

Lemma div_mul_bound_witness :
  exists p q, asset_div (Asset 1000 2) (Asset 7 1) = Ok p /\ asset_mul_price (Asset 7 1) p = Ok q /\
    amount q <= 1000.
Proof.
  destruct (div_mul_bound (Asset 7 1) (Asset 1000 2)) as (p & q & Hp & Hq & _ & Hle & _);
    [cbn; lia..|].
  exists p, q. split; [exact Hp|]. split; [exact Hq|exact Hle].
Defined.
