(* ===== verification/Records.v ===== *)
(** The records of the chain ([account_record], [asset_record], [balance_record],
    [proposal_record], [market_records], [withdraw_types], [config.hpp]) and their own
    operations. Addresses, public keys, hashes, ids and time stamps are integers; [0] is
    the default-constructed value. The contents of a [variant] that the chain does not
    look into are a string. *)
From Stdlib Require Sorting.Sorted.
From stdpp Require Export gmap strings.
From S2P Require Export Prelude Errors Asset.

(** ** [config.hpp] *)
Definition BTS_BLOCKCHAIN_NUM_DELEGATES : Z := 97.
Definition BTS_BLOCKCHAIN_BLOCK_INTERVAL_SEC : Z := 15.
Definition BTS_BLOCKCHAIN_MIN_NAME_SIZE : nat := 1.
Definition BTS_BLOCKCHAIN_MAX_NAME_SIZE : nat := 63.
Definition BTS_BLOCKCHAIN_MAX_SYMBOL_SIZE : nat := 5.
Definition BTS_BLOCKCHAIN_MIN_SYMBOL_SIZE : nat := 3.
Definition BTS_BLOCKCHAIN_PROPOSAL_VOTE_MESSAGE_MAX_SIZE : nat := 1024.
Definition BTS_BLOCKCHAIN_BLOCKS_PER_HOUR : Z := Z.quot (60 * 60) BTS_BLOCKCHAIN_BLOCK_INTERVAL_SEC.
Definition BTS_BLOCKCHAIN_BLOCKS_PER_DAY : Z := BTS_BLOCKCHAIN_BLOCKS_PER_HOUR * 24.
Definition BTS_BLOCKCHAIN_MAX_BLOCK_SIZE : Z :=
  Z.quot (24 * 1024 * 1024) BTS_BLOCKCHAIN_BLOCKS_PER_HOUR.
Definition BTS_BLOCKCHAIN_TARGET_BLOCK_SIZE : Z := Z.quot BTS_BLOCKCHAIN_MAX_BLOCK_SIZE 2.
Definition BTS_BLOCKCHAIN_BLOCK_REWARD : Z := BTS_BLOCKCHAIN_MAX_BLOCK_SIZE.
Definition BTS_BLOCKCHAIN_MIN_FEE : Z := 1000.
Definition BTS_BLOCKCHAIN_DELEGATE_REGISTRATION_FEE : Z := BTS_BLOCKCHAIN_BLOCK_REWARD * 100.
Definition BTS_BLOCKCHAIN_ASSET_REGISTRATION_FEE : Z := BTS_BLOCKCHAIN_BLOCK_REWARD * 100.

(** ** [fc::variant], as far as the chain reads it *)
Inductive variant :=
  | variant_null
  | variant_int (n : Z)
  | variant_ids (ids : list Z)
  | variant_hash (h : Z)
  | variant_other (s : string).

#[export] Instance variant_eq_dec : EqDecision variant.
Proof. solve_decision. Defined.

(** [v.as<asset_id_type>()], [v.as_int64()]: a bad cast throws. *)
Definition as_int (v : variant) : result Z :=
  match v with variant_int n => Ok n | _ => Throw bad_cast end.
Definition as_ids (v : variant) : result (list Z) :=
  match v with variant_ids l => Ok l | _ => Throw bad_cast end.
Definition as_hash (v : variant) : result Z :=
  match v with variant_hash h => Ok h | _ => Throw bad_cast end.

(** ** [std::map<time_point_sec, public_key_type>]: a sorted association list *)
Fixpoint history_insert (t k : Z) (h : list (Z * Z)) : list (Z * Z) :=
  match h with
  | [] => [(t, k)]
  | (t', k') :: h' =>
      if t <? t' then (t, k) :: h
      else if t =? t' then (t, k) :: h'
      else (t', k') :: history_insert t k h'
  end.

(** ** Accounts *)
Record delegate_stats := DelegateStats {
  votes_for_ : Z;
  votes_against_ : Z;
  blocks_produced : Z;
  blocks_missed : Z;
  next_secret_hash : Z;
  last_block_num_produced : Z;
  pay_balance : Z
}.

(** [delegate_stats()]: [last_block_num_produced] is [uint32_t(-1)]. *)
Definition delegate_stats_default : delegate_stats := DelegateStats 0 0 0 0 0 (2 ^ 32 - 1) 0.

Record account_meta_info := AccountMetaInfo { meta_type : Z; meta_data_ : list Z }.

Record account_record := AccountRecord {
  account_id : Z;
  account_name : string;
  account_public_data : variant;
  owner_key : Z;
  active_key_history : list (Z * Z);
  account_registration_date : Z;
  account_last_update : Z;
  delegate_info : option delegate_stats;
  meta_data : option account_meta_info
}.

#[export] Instance delegate_stats_eq_dec : EqDecision delegate_stats.
Proof. solve_decision. Defined.
#[export] Instance account_meta_info_eq_dec : EqDecision account_meta_info.
Proof. solve_decision. Defined.
#[export] Instance account_record_eq_dec : EqDecision account_record.
Proof. solve_decision. Defined.

(** Assignments to fields. *)
Definition with_owner_key (k : Z) (r : account_record) : account_record :=
  AccountRecord (account_id r) (account_name r) (account_public_data r) k
    (active_key_history r) (account_registration_date r) (account_last_update r)
    (delegate_info r) (meta_data r).
Definition with_public_data (v : variant) (r : account_record) : account_record :=
  AccountRecord (account_id r) (account_name r) v (owner_key r)
    (active_key_history r) (account_registration_date r) (account_last_update r)
    (delegate_info r) (meta_data r).
Definition with_last_update (t : Z) (r : account_record) : account_record :=
  AccountRecord (account_id r) (account_name r) (account_public_data r) (owner_key r)
    (active_key_history r) (account_registration_date r) t (delegate_info r) (meta_data r).
Definition with_history (h : list (Z * Z)) (r : account_record) : account_record :=
  AccountRecord (account_id r) (account_name r) (account_public_data r) (owner_key r)
    h (account_registration_date r) (account_last_update r) (delegate_info r) (meta_data r).
Definition with_delegate_info (d : option delegate_stats) (r : account_record) : account_record :=
  AccountRecord (account_id r) (account_name r) (account_public_data r) (owner_key r)
    (active_key_history r) (account_registration_date r) (account_last_update r) d (meta_data r).
Definition with_votes (vf va : Z) (d : delegate_stats) : delegate_stats :=
  DelegateStats vf va (blocks_produced d) (blocks_missed d) (next_secret_hash d)
    (last_block_num_produced d) (pay_balance d).
Definition with_pay_balance (p : Z) (d : delegate_stats) : delegate_stats :=
  DelegateStats (votes_for_ d) (votes_against_ d) (blocks_produced d) (blocks_missed d)
    (next_secret_hash d) (last_block_num_produced d) p.

Definition account_is_null (r : account_record) : bool := owner_key r =? 0.
Definition account_make_null (r : account_record) : account_record := with_owner_key 0 r.
Definition is_delegate (r : account_record) : bool :=
  match delegate_info r with Some _ => true | None => false end.

(** [FC_ASSERT( is_delegate() )], then [delegate_info->...]. *)
Definition stats (r : account_record) : result delegate_stats :=
  value_or_throw (delegate_info r) assert_exception.
Definition delegate_pay_balance (r : account_record) : result Z :=
  let* d := stats r in Ok (pay_balance d).
Definition net_votes (r : account_record) : result Z :=
  let* d := stats r in Ok (int64 (votes_for_ d - votes_against_ d)).
Definition votes_for (r : account_record) : result Z :=
  let* d := stats r in Ok (votes_for_ d).
Definition votes_against (r : account_record) : result Z :=
  let* d := stats r in Ok (votes_against_ d).
Definition adjust_votes_for (delta : Z) (r : account_record) : result account_record :=
  let* d := stats r in
  Ok (with_delegate_info (Some (with_votes (int64 (votes_for_ d + delta)) (votes_against_ d) d)) r).
Definition adjust_votes_against (delta : Z) (r : account_record) : result account_record :=
  let* d := stats r in
  Ok (with_delegate_info (Some (with_votes (votes_for_ d) (int64 (votes_against_ d + delta)) d)) r).

Definition active_key (r : account_record) : Z :=
  (List.last (active_key_history r) (0, 0)).2.
Definition is_retracted (r : account_record) : bool := active_key r =? 0.
Definition set_active_key (now new_key : Z) (r : account_record) : result account_record :=
  let* _ := FC_ASSERT (negb (now =? 0)) in
  Ok (with_history (history_insert now new_key (active_key_history r)) r).

(** ** Assets *)
Record asset_record := AssetRecord {
  asset_record_id : Z;
  symbol : string;
  asset_name : string;
  description : string;
  asset_public_data : variant;
  issuer_account_id : Z;
  precision : Z;
  registration_date : Z;
  last_update : Z;
  current_share_supply : Z;
  maximum_share_supply : Z;
  collected_fees : Z
}.

#[export] Instance asset_record_eq_dec : EqDecision asset_record.
Proof. solve_decision. Defined.

Definition market_issued_asset : Z := -2.

Definition with_issuer (i : Z) (r : asset_record) : asset_record :=
  AssetRecord (asset_record_id r) (symbol r) (asset_name r) (description r)
    (asset_public_data r) i (precision r) (registration_date r) (last_update r)
    (current_share_supply r) (maximum_share_supply r) (collected_fees r).
Definition with_supply (supply fees : Z) (r : asset_record) : asset_record :=
  AssetRecord (asset_record_id r) (symbol r) (asset_name r) (description r)
    (asset_public_data r) (issuer_account_id r) (precision r) (registration_date r)
    (last_update r) supply (maximum_share_supply r) fees.

Definition available_shares (r : asset_record) : Z :=
  int64 (maximum_share_supply r - current_share_supply r).
(** [can_issue( share_type )]. *)
Definition can_issue_amount (r : asset_record) (amount : Z) : bool :=
  if amount <=? 0 then false
  else
    let new_share_supply := int64 (current_share_supply r + amount) in
    (current_share_supply r <? new_share_supply) && (new_share_supply <? maximum_share_supply r).
(** [can_issue( asset )]. *)
Definition can_issue (r : asset_record) (a : asset) : bool :=
  if negb (asset_record_id r =? asset_id a) then false else can_issue_amount r (amount a).
Definition asset_is_null (r : asset_record) : bool := issuer_account_id r =? -1.
Definition is_market_issued (r : asset_record) : bool := issuer_account_id r =? market_issued_asset.
Definition asset_make_null (r : asset_record) : asset_record := with_issuer (-1) r.
Definition get_precision (r : asset_record) : Z := if precision r =? 0 then 1 else precision r.

(** ** Withdraw conditions: a type and packed data *)
Record withdraw_condition := WithdrawCondition {
  condition_asset_id : Z;
  condition_delegate_id : Z;
  condition_type : Z;
  condition_data : list Z
}.

Definition withdraw_null_type : Z := 0.
Definition withdraw_signature_type : Z := 1.
Definition withdraw_multi_sig_type : Z := 2.
Definition withdraw_password_type : Z := 3.
Definition withdraw_option_type : Z := 4.

(** [withdraw_condition()]. *)
Definition withdraw_condition_default : withdraw_condition :=
  WithdrawCondition 0 0 withdraw_null_type [].

(** [titan_memo]: what is encrypted for the receiver of a deposit, see [Transaction]. *)
Record titan_memo := TitanMemo { one_time_key : Z; encrypted_memo_data : list Z }.
Record withdraw_with_signature := WithSignature { owner : Z; memo : option titan_memo }.
Record withdraw_with_multi_sig := WithMultiSig { required : Z; owners : list Z }.
Record withdraw_with_password := WithPassword {
  payee : Z; payor : Z; timeout : Z; password_hash : Z }.
Record withdraw_option := WithdrawOption {
  optionor : Z; optionee : Z; date : Z; strike_price : price }.

#[export] Instance withdraw_condition_eq_dec : EqDecision withdraw_condition.
Proof. solve_decision. Defined.

(** ** Balances *)
Record balance_record := BalanceRecord {
  balance : Z;
  condition : withdraw_condition;
  balance_last_update : Z
}.

#[export] Instance balance_record_eq_dec : EqDecision balance_record.
Proof. solve_decision. Defined.

(** [balance_record( const withdraw_condition& )]. *)
Definition balance_record_of (c : withdraw_condition) : balance_record := BalanceRecord 0 c 0.
Definition get_balance (r : balance_record) : asset :=
  Asset (balance r) (condition_asset_id (condition r)).
Definition balance_is_null (r : balance_record) : bool := balance r =? 0.
Definition balance_make_null (r : balance_record) : balance_record :=
  BalanceRecord 0 (condition r) (balance_last_update r).

(** ** Proposals *)
Record proposal_record := ProposalRecord {
  proposal_id : Z;
  submitting_delegate_id : Z;
  submission_date : Z;
  subject : string;
  body : string;
  proposal_type : string;
  proposal_data : variant;
  ratified : bool
}.
Definition proposal_is_null (r : proposal_record) : bool := submitting_delegate_id r =? -1.
Definition proposal_make_null (r : proposal_record) : proposal_record :=
  ProposalRecord (proposal_id r) (-1) (submission_date r) (subject r) (body r)
    (proposal_type r) (proposal_data r) (ratified r).

(** [proposal_vote_id_type] is the pair of a proposal and a delegate. *)
Inductive vote_type := vote_no | vote_yes | vote_undefined.
Record proposal_vote := ProposalVote {
  vote_id : Z * Z;
  vote_timestamp : Z;
  vote_message : string;
  vote : vote_type
}.

#[export] Instance proposal_record_eq_dec : EqDecision proposal_record.
Proof. solve_decision. Defined.
#[export] Instance vote_type_eq_dec : EqDecision vote_type.
Proof. solve_decision. Defined.
#[export] Instance proposal_vote_eq_dec : EqDecision proposal_vote.
Proof. solve_decision. Defined.

Definition vote_is_null (v : proposal_vote) : bool := bool_decide (vote v = vote_undefined).
Definition vote_make_null (v : proposal_vote) : proposal_vote :=
  ProposalVote (vote_id v) (vote_timestamp v) (vote_message v) vote_undefined.

(** ** Market orders *)
Record market_index_key := MarketIndexKey { order_price : price; order_owner : Z }.
Record order_record := OrderRecord { order_balance : Z; order_delegate_id : Z }.
Record collateral_record := CollateralRecord {
  collateral_balance : Z; payoff_balance : Z; collateral_delegate_id : Z }.

#[export] Instance market_index_key_eq_dec : EqDecision market_index_key.
Proof. solve_decision. Defined.
#[export] Instance order_record_eq_dec : EqDecision order_record.
Proof. solve_decision. Defined.
#[export] Instance collateral_record_eq_dec : EqDecision collateral_record.
Proof. solve_decision. Defined.

(** [operator ==] and [operator <] of [market_index_key]: prices are compared by their
    ratio, so the two assets of the market do not take part. *)
Definition market_index_key_eq (a b : market_index_key) : bool :=
  price_eq (order_price a) (order_price b) && (order_owner a =? order_owner b).
Definition market_index_key_lt (a b : market_index_key) : bool :=
  if price_lt (order_price a) (order_price b) then true
  else if price_lt (order_price b) (order_price a) then false
  else order_owner a <? order_owner b.

Definition order_is_null (r : order_record) : bool := 0 =? order_balance r.
Definition collateral_is_null (r : collateral_record) : bool := 0 =? payoff_balance r.
Definition order_record_default : order_record := OrderRecord 0 0.
Definition collateral_record_default : collateral_record := CollateralRecord 0 0 0.

(** [map<market_index_key, ...>] stores the key first inserted and finds by the ratio and
    the owner, which is what the order distinguishes. *)
Definition index_of (k : market_index_key) : Z * Z := (ratio (order_price k), order_owner k).
Definition market_map (A : Type) : Type := gmap (Z * Z) (market_index_key * A).
Definition market_find {A} (k : market_index_key) (m : market_map A) : option A :=
  snd <$> m !! index_of k.
Definition market_store {A} (k : market_index_key) (r : A) (m : market_map A) : market_map A :=
  <[index_of k := (match m !! index_of k with Some (k', _) => k' | None => k end, r)]> m.

(** The records of such a map, without the keys. *)
Definition market_values {A} (m : market_map A) : gmap (Z * Z) A :=
  snd <$> (m : gmap (Z * Z) (market_index_key * A)).

(** ** Transactions *)
Record operation := Operation { op_type : Z; op_data : list Z }.
Record signed_transaction := SignedTransaction {
  expiration : option Z;
  trx_delegate_id : option Z;
  operations : list operation;
  signatures : list Z
}.
Definition signed_transaction_default : signed_transaction := SignedTransaction None None [] [].

#[export] Instance operation_eq_dec : EqDecision operation.
Proof. solve_decision. Defined.
#[export] Instance signed_transaction_eq_dec : EqDecision signed_transaction.
Proof. solve_decision. Defined.

(** Transactions in a block. *)
Record transaction_location := TransactionLocation { loc_block_num : Z; loc_trx_num : Z }.
(** [transaction_record]: a transaction and where it is; of the evaluation state that a
    record carries the chain reads the transaction only. *)
Record transaction_record := TransactionRecord {
  record_trx : signed_transaction; chain_location : transaction_location }.

#[export] Instance transaction_location_eq_dec : EqDecision transaction_location.
Proof. solve_decision. Defined.
#[export] Instance transaction_record_eq_dec : EqDecision transaction_record.
Proof. solve_decision. Defined.
Definition transaction_record_default : transaction_record :=
  TransactionRecord signed_transaction_default (TransactionLocation 0 0).

(** ** Proofs *)
Section History.
Implicit Types h : list (Z * Z).

(** The times of a history, strictly increasing. *)
Definition sorted_history h : Prop := Sorted.StronglySorted Z.lt (map fst h).

Lemma history_insert_times t k h x :
  In x (map fst (history_insert t k h)) <-> x = t \/ In x (map fst h).
Proof.
  induction h as [|[t' k'] h IH]; simpl; [naive_solver|].
  destruct (Z.ltb_spec t t'); simpl; [naive_solver|].
  destruct (Z.eqb_spec t t') as [->|]; simpl; [naive_solver|]. rewrite IH. naive_solver.
Qed.

Lemma history_insert_sorted t k h : sorted_history h -> sorted_history (history_insert t k h).
Proof.
  unfold sorted_history. induction h as [|[t' k'] h IH]; simpl; intros Hs.
  { repeat constructor. }
  apply Sorted.StronglySorted_inv in Hs as [Hs Hall]. rewrite List.Forall_forall in Hall.
  destruct (Z.ltb_spec t t'); simpl.
  - constructor; [by constructor; [|apply List.Forall_forall]|].
    apply List.Forall_forall. intros x [<-|Hx]; [done|]. specialize (Hall x Hx). lia.
  - destruct (Z.eqb_spec t t') as [->|]; simpl.
    + constructor; [done|]. by apply List.Forall_forall.
    + constructor; [by apply IH|]. apply List.Forall_forall. intros x.
      rewrite history_insert_times. intros [->|Hx]; [lia|]. by apply Hall.
Qed.

(** The newest time is last. *)
Lemma history_insert_last t k h :
  (forall x, In x (map fst h) -> x <= t) ->
  sorted_history h -> List.last (history_insert t k h) (0, 0) = (t, k).
Proof.
  unfold sorted_history. induction h as [|[t' k'] h IH]; simpl; intros Hle Hs; [done|].
  apply Sorted.StronglySorted_inv in Hs as [Hs Hall]. rewrite List.Forall_forall in Hall.
  destruct (Z.ltb_spec t t'); [specialize (Hle t'); lia|].
  destruct (Z.eqb_spec t t') as [->|].
  - destruct h as [|[t2 k2] h]; [done|]. exfalso. specialize (Hle t2). specialize (Hall t2).
    simpl in *. lia.
  - rewrite <- IH by auto. destruct (history_insert t k h) eqn:E; [|done].
    exfalso. destruct h as [|[t2 k2] h]; simpl in E; [done|]. repeat case_if; done.
Qed.
End History.

(** Keys are equal, and ordered, by their index. *)
Lemma market_index_key_eq_index a b : market_index_key_eq a b = bool_decide (index_of a = index_of b).
Proof.
  unfold market_index_key_eq, price_eq, index_of. destruct (Z.eqb_spec (ratio (order_price a)) (ratio (order_price b))),
    (Z.eqb_spec (order_owner a) (order_owner b)); simpl; symmetry;
    (apply bool_decide_eq_true + apply bool_decide_eq_false); congruence.
Qed.

Lemma market_find_store {A} k k' (r : A) m :
  market_find k (market_store k' r m) =
    if market_index_key_eq k' k then Some r else market_find k m.
Proof.
  rewrite market_index_key_eq_index. unfold market_find, market_store, market_map in *.
  destruct (bool_decide_reflect (index_of k' = index_of k)) as [->|].
  - by rewrite lookup_insert_eq.
  - by rewrite lookup_insert_ne.
Qed.
