(* ===== verification/ChainInterface.v ===== *)
(** [chain_interface]: what the evaluation of a transaction asks of the state of the chain,
    as a type class; [chain_database] and [pending_chain_state] are its instances. Then the
    functions [chain_interface.cpp] defines on top of it, and the laws ([ChainView]) that
    relate the look-ups of an instance to finite maps. *)
From S2P Require Export Records.

(** ** The cryptography and the serialization of the fc library, and the addresses computed
    with them *)
Class Fc := {
  address_of_condition : withdraw_condition -> Z;
  address_of_key : Z -> Z;
  address_of_pts : Z -> bool -> Z -> Z;
  ripemd160_hash : list Z -> Z;
  recover_key : Z -> Z -> option Z;
  pack_with_signature : withdraw_with_signature -> list Z;
  unpack_with_signature : list Z -> option withdraw_with_signature;
  unpack_with_multi_sig : list Z -> option withdraw_with_multi_sig;
  unpack_with_password : list Z -> option withdraw_with_password;
  unpack_option : list Z -> option withdraw_option
}.

(** [signed_transaction::id], [digest], [data_size]: hashes and sizes of the packed
    transaction. *)
Class FcTransaction := {
  trx_id : signed_transaction -> Z;
  trx_digest : signed_transaction -> Z -> Z;
  data_size : signed_transaction -> Z
}.

(** [withdraw_condition::get_address], [balance_record::id]. *)
Definition get_address `{Fc} (c : withdraw_condition) : Z := address_of_condition c.
Definition balance_id `{Fc} (r : balance_record) : Z := get_address (condition r).

(** [withdraw_condition( const WithdrawType&, ... )] for a signature, and [as<...>()]: the
    type is asserted, then the data are unpacked. *)
Definition condition_with_signature `{Fc} (s : withdraw_with_signature) (asset delegate : Z) :=
  WithdrawCondition asset delegate withdraw_signature_type (pack_with_signature s).
Definition as_type {A} (type : Z) (unpack : list Z -> option A) (c : withdraw_condition) : result A :=
  let* _ := FC_ASSERT (condition_type c =? type) in
  value_or_throw (unpack (condition_data c)) unpack_error.

(** [balance_record::owner]. *)
Definition balance_owner `{Fc} (r : balance_record) : result Z :=
  if condition_type (condition r) =? withdraw_signature_type then
    let* s := as_type withdraw_signature_type unpack_with_signature (condition r) in Ok (owner s)
  else Ok 0.

(** ** [chain_property_enum] *)
Definition last_asset_id_prop : Z := 0.
Definition last_account_id_prop : Z := 1.
Definition last_proposal_id_prop : Z := 2.
Definition last_random_seed_id_prop : Z := 3.
Definition active_delegate_list_id_prop : Z := 4.
Definition chain_id_prop : Z := 5.
Definition confirmation_requirement_prop : Z := 6.
Definition database_version_prop : Z := 7.

Class ChainInterface (S : Type) := {
  get_current_random_seed : S -> result Z;
  now : S -> result Z;
  get_fee_rate : S -> result Z;
  get_delegate_pay_rate : S -> result Z;
  get_property : S -> Z -> result variant;
  set_property : S -> Z -> variant -> S;
  get_bid_record : S -> market_index_key -> option order_record;
  get_ask_record : S -> market_index_key -> option order_record;
  get_short_record : S -> market_index_key -> result (option order_record);
  get_collateral_record : S -> market_index_key -> result (option collateral_record);
  store_bid_record : S -> market_index_key -> order_record -> S;
  store_ask_record : S -> market_index_key -> order_record -> S;
  store_short_record : S -> market_index_key -> order_record -> S;
  store_collateral_record : S -> market_index_key -> collateral_record -> S;
  get_asset_record : S -> Z -> option asset_record;
  get_balance_record : S -> Z -> option balance_record;
  get_account_record : S -> Z -> option account_record;
  get_account_record_by_owner : S -> Z -> result (option account_record);
  get_transaction : S -> Z -> result (option transaction_record);
  store_transaction : S -> Z -> transaction_record -> S;
  get_asset_record_by_symbol : S -> string -> option asset_record;
  get_account_record_by_name : S -> string -> option account_record;
  store_proposal_record : S -> proposal_record -> S;
  get_proposal_record : S -> Z -> option proposal_record;
  store_proposal_vote : S -> proposal_vote -> S;
  get_proposal_vote : S -> Z * Z -> option proposal_vote;
  store_asset_record : S -> asset_record -> S;
  store_balance_record : S -> balance_record -> S;
  store_account_record : S -> account_record -> S
}.

(** ** Names and symbols *)
Definition chars (s : string) : list Z := map (fun c => Z.of_nat (Ascii.nat_of_ascii c)) (String.list_ascii_of_string s).
Definition name_first_char (c : Z) : bool := (97 <=? c) && (c <=? 122).
Definition name_char (c : Z) : bool :=
  (97 <=? c) && (c <=? 122) || (48 <=? c) && (c <=? 57) || (c =? 45) || (c =? 46).
Definition is_valid_account_name (str : string) : bool :=
  let cs := chars str in
  if (length cs <? BTS_BLOCKCHAIN_MIN_NAME_SIZE)%nat then false
  else if (BTS_BLOCKCHAIN_MAX_NAME_SIZE <? length cs)%nat then false
  else if negb (name_first_char (nth 0 cs 0)) then false
  else forallb name_char cs.

(** [std::isupper] and [std::isalnum] of the C locale. *)
Definition isupper (c : Z) : bool := (65 <=? c) && (c <=? 90).
Definition isalnum (c : Z) : bool :=
  (48 <=? c) && (c <=? 57) || (65 <=? c) && (c <=? 90) || (97 <=? c) && (c <=? 122).
Definition is_valid_symbol_name (name : string) : bool :=
  let cs := chars name in
  if (BTS_BLOCKCHAIN_MAX_SYMBOL_SIZE <? length cs)%nat then false
  else if (length cs <? BTS_BLOCKCHAIN_MIN_SYMBOL_SIZE)%nat then false
  else forallb (fun c => negb (negb (isalnum c) || negb (isupper c))) cs.

(** ** Ids, fees and delegates *)
Section Derived.
Context {S : Type} `{ChainInterface S}.

Definition get_delegate_registration_fee (s : S) : result Z :=
  let* rate := get_fee_rate s in
  Ok (Z.quot (int64 (rate * BTS_BLOCKCHAIN_DELEGATE_REGISTRATION_FEE)) 1000).
Definition get_asset_registration_fee (s : S) : result Z :=
  let* rate := get_fee_rate s in
  Ok (Z.quot (int64 (rate * BTS_BLOCKCHAIN_ASSET_REGISTRATION_FEE)) 1000).

Definition last_asset_id (s : S) : result Z :=
  let* v := get_property s last_asset_id_prop in as_int v.
Definition new_asset_id (s : S) : result (Z * S) :=
  let* last := last_asset_id s in
  let next_id := int32 (last + 1) in
  Ok (next_id, set_property s last_asset_id_prop (variant_int next_id)).
Definition last_account_id (s : S) : result Z :=
  let* v := get_property s last_account_id_prop in as_int v.
Definition new_account_id (s : S) : result (Z * S) :=
  let* last := last_account_id s in
  let next_id := int32 (last + 1) in
  Ok (next_id, set_property s last_account_id_prop (variant_int next_id)).
Definition last_proposal_id (s : S) : result Z :=
  let* v := get_property s last_proposal_id_prop in as_int v.
Definition new_proposal_id (s : S) : result (Z * S) :=
  let* last := last_proposal_id s in
  let next_id := int32 (last + 1) in
  Ok (next_id, set_property s last_proposal_id_prop (variant_int next_id)).

Definition get_active_delegates (s : S) : result (list Z) :=
  let* v := get_property s active_delegate_list_id_prop in as_ids v.
Definition set_active_delegates (s : S) (ids : list Z) : S :=
  set_property s active_delegate_list_id_prop (variant_ids ids).
Definition is_active_delegate (s : S) (id : Z) : result bool :=
  let* active := get_active_delegates s in Ok (existsb (Z.eqb id) active).
Definition get_required_confirmations (s : S) : result Z :=
  let* v := get_property s confirmation_requirement_prop in as_int v.
End Derived.

(** ** What a chain state contains
    The part of a state that the conservation of shares is about: its assets, balances,
    accounts and market orders, and the properties that hold the last ids, as finite maps. *)
Record ledger := Ledger {
  l_assets : gmap Z asset_record;
  l_balances : gmap Z balance_record;
  l_accounts : gmap Z account_record;
  l_bids : gmap (Z * Z) order_record;
  l_asks : gmap (Z * Z) order_record;
  l_props : gmap Z variant
}.
Definition ledger_empty : ledger := Ledger ∅ ∅ ∅ ∅ ∅ ∅.

(** Storing a record: a database removes a null record, an overlay keeps it, since it hides
    the record below. *)
Definition put {K A} `{Countable K} (overlay : bool) (null : A -> bool) (k : K) (r : A)
    (m : gmap K A) : gmap K A :=
  if overlay || negb (null r) then <[k := r]> m else delete k m.

Section Puts.
Context `{Fc} (overlay : bool).

Definition put_asset (r : asset_record) (l : ledger) : ledger :=
  Ledger (put overlay asset_is_null (asset_record_id r) r (l_assets l)) (l_balances l)
    (l_accounts l) (l_bids l) (l_asks l) (l_props l).
Definition put_balance (r : balance_record) (l : ledger) : ledger :=
  Ledger (l_assets l) (put overlay balance_is_null (balance_id r) r (l_balances l))
    (l_accounts l) (l_bids l) (l_asks l) (l_props l).
Definition put_account (r : account_record) (l : ledger) : ledger :=
  Ledger (l_assets l) (l_balances l)
    (put overlay account_is_null (account_id r) r (l_accounts l)) (l_bids l) (l_asks l)
    (l_props l).
Definition put_bid (k : market_index_key) (r : order_record) (l : ledger) : ledger :=
  Ledger (l_assets l) (l_balances l) (l_accounts l)
    (put overlay order_is_null (index_of k) r (l_bids l)) (l_asks l) (l_props l).
Definition put_ask (k : market_index_key) (r : order_record) (l : ledger) : ledger :=
  Ledger (l_assets l) (l_balances l) (l_accounts l) (l_bids l)
    (put overlay order_is_null (index_of k) r (l_asks l)) (l_props l).
Definition put_prop (id : Z) (v : variant) (l : ledger) : ledger :=
  Ledger (l_assets l) (l_balances l) (l_accounts l) (l_bids l) (l_asks l)
    (put overlay (fun v => bool_decide (v = variant_null)) id v (l_props l)).
End Puts.

(** The look-ups of an instance read its ledger. *)
Class ChainView (S : Type) `{ChainInterface S} := {
  ledger_of : S -> ledger;
  view_asset s id : get_asset_record s id = l_assets (ledger_of s) !! id;
  view_balance s id : get_balance_record s id = l_balances (ledger_of s) !! id;
  view_account s id : get_account_record s id = l_accounts (ledger_of s) !! id;
  view_bid s k : get_bid_record s k = l_bids (ledger_of s) !! index_of k;
  view_ask s k : get_ask_record s k = l_asks (ledger_of s) !! index_of k;
  view_property s id v :
    v <> variant_null -> get_property s id = Ok v <-> l_props (ledger_of s) !! id = Some v
}.

(** The stores of an instance change its ledger by one record, or not at all. *)
Class ChainStores (S : Type) `{Fc} `{ChainView S} := {
  overlay : bool;
  ledger_set_property s id v : ledger_of (set_property s id v) = put_prop overlay id v (ledger_of s);
  ledger_store_short s k r : ledger_of (store_short_record s k r) = ledger_of s;
  ledger_store_collateral s k r : ledger_of (store_collateral_record s k r) = ledger_of s;
  ledger_store_transaction s id t : ledger_of (store_transaction s id t) = ledger_of s;
  ledger_store_proposal s r : ledger_of (store_proposal_record s r) = ledger_of s;
  ledger_store_vote s r : ledger_of (store_proposal_vote s r) = ledger_of s;
  ledger_store_asset s r : ledger_of (store_asset_record s r) = put_asset overlay r (ledger_of s);
  ledger_store_balance s r :
    ledger_of (store_balance_record s r) = put_balance overlay r (ledger_of s);
  ledger_store_account s r :
    ledger_of (store_account_record s r) = put_account overlay r (ledger_of s);
  ledger_store_bid s k r : ledger_of (store_bid_record s k r) = put_bid overlay k r (ledger_of s);
  ledger_store_ask s k r : ledger_of (store_ask_record s k r) = put_ask overlay k r (ledger_of s)
}.

#[export] Hint Rewrite @ledger_set_property @ledger_store_short @ledger_store_collateral
  @ledger_store_transaction @ledger_store_proposal @ledger_store_vote @ledger_store_asset
  @ledger_store_balance @ledger_store_account @ledger_store_bid @ledger_store_ask : ledger.
#[export] Hint Rewrite @view_asset @view_balance @view_account @view_bid @view_ask : views.

Lemma put_lookup {K A} `{Countable K} ov (null : A -> bool) k r (m : gmap K A) k' :
  put ov null k r m !! k' =
    if decide (k = k') then (if ov || negb (null r) then Some r else None) else m !! k'.
Proof.
  unfold put. destruct (decide (k = k')) as [->|Hne].
  - destruct (ov || negb (null r)); [apply lookup_insert_eq|apply lookup_delete_eq].
  - destruct (ov || negb (null r)); [by apply lookup_insert_ne|by apply lookup_delete_ne].
Qed.
