(* ===== verification/Block.v ===== *)
(** The blocks of [block.hpp] and [block.cpp]: headers, their digests and signatures, the
    fee rate and the pay of delegates from one block to the next. *)
From S2P Require Export ChainInterface.

(** ** Headers and blocks *)
Record block_header := BlockHeader {
  previous : Z;
  block_num : Z;
  fee_rate : Z;
  delegate_pay_rate : Z;
  timestamp : Z;
  transaction_digest : Z;
  header_next_secret_hash : Z;
  previous_secret : Z
}.
(** [block_header()]. *)
Definition block_header_default : block_header := BlockHeader 0 0 0 0 0 0 0 0.

Record signed_block_header := SignedBlockHeader {
  signed_header :> block_header;
  delegate_signature : Z
}.
Definition signed_block_header_default : signed_block_header :=
  SignedBlockHeader block_header_default 0.

Record digest_block := DigestBlock {
  digest_header :> signed_block_header;
  user_transaction_ids : list Z
}.
Record full_block := FullBlock {
  full_header :> signed_block_header;
  user_transactions : list signed_transaction
}.

#[export] Instance block_header_eq_dec : EqDecision block_header.
Proof. solve_decision. Defined.
#[export] Instance signed_block_header_eq_dec : EqDecision signed_block_header.
Proof. solve_decision. Defined.
#[export] Instance digest_block_eq_dec : EqDecision digest_block.
Proof. solve_decision. Defined.
#[export] Instance full_block_eq_dec : EqDecision full_block.
Proof. solve_decision. Defined.

(** The hashes and the packed sizes of fc: [block_header::digest], [signed_block_header::id],
    [full_block::block_size], the hash of a list of ids in [calculate_transaction_digest],
    that of a secret, that of a secret and a seed, and SHA-256 of a seed and of a digest. *)
Class FcBlock := {
  block_digest : block_header -> Z;
  block_id : signed_block_header -> Z;
  block_size : full_block -> Z;
  hash_ids : list Z -> Z;
  hash_secret : Z -> Z;
  hash_seed : Z -> Z -> Z;
  sha256_of_seed : Z -> Z;
  sha256_of_digest : Z -> Z
}.

(** [fc::ecc::public_key( signature, digest )]: throws when no key can be recovered. *)
Definition public_key `{Fc} (signature digest : Z) : result Z :=
  value_or_throw (recover_key signature digest) assert_exception.

Section Blocks.
Context `{Fc} `{FcTransaction} `{FcBlock}.

Definition signee (b : signed_block_header) : result Z :=
  public_key (delegate_signature b) (block_digest b).
Definition validate_signee (b : signed_block_header) (expected_signee : Z) : result bool :=
  let* k := signee b in Ok (k =? expected_signee).

(** [full_block::operator digest_block]. *)
Definition digest_block_of (b : full_block) : digest_block :=
  DigestBlock b (map trx_id (user_transactions b)).

Definition calculate_transaction_digest (b : digest_block) : Z := hash_ids (user_transaction_ids b).
Definition validate_digest (b : digest_block) : bool :=
  calculate_transaction_digest b =? transaction_digest b.

(** The loop of [validate_unique] over the set of the ids seen. *)
Fixpoint unique_from (seen : gset Z) (ids : list Z) : bool :=
  match ids with
  | [] => true
  | id :: ids => if bool_decide (id ∈ seen) then false else unique_from ({[ id ]} ∪ seen) ids
  end.
Definition validate_unique (b : digest_block) : bool := unique_from ∅ (user_transaction_ids b).
End Blocks.

(** ** Fees and pay *)

(** [size_t] times [int64_t] is unsigned; the quotient by a positive constant as well. *)
Definition next_fee (current_fee size : Z) : Z :=
  let next_fee_base := uint64 (size * current_fee) / BTS_BLOCKCHAIN_TARGET_BLOCK_SIZE in
  let next_fee := uint64 (int64 ((BTS_BLOCKCHAIN_BLOCKS_PER_DAY - 1) * current_fee) + next_fee_base)
                  / BTS_BLOCKCHAIN_BLOCKS_PER_DAY in
  int64 (Z.max next_fee BTS_BLOCKCHAIN_MIN_FEE).

Definition next_delegate_pay (current_pay block_fees : Z) : Z :=
  int64 (uint64 (Z.quot (int64 (int64 ((BTS_BLOCKCHAIN_BLOCKS_PER_DAY - 1) * current_pay) + block_fees))
                   BTS_BLOCKCHAIN_BLOCKS_PER_DAY)).

(** ** Proofs *)
Lemma unique_from_NoDup seen ids :
  unique_from seen ids = true <-> NoDup ids /\ forall id, id ∈ ids -> id ∉ seen.
Proof.
  revert seen. induction ids as [|id ids IH]; intros seen; simpl.
  { split; [|done]. intros _. split; [constructor|]. intros id Hin. by apply elem_of_nil in Hin. }
  destruct (bool_decide_reflect (id ∈ seen)) as [Hin|Hnin].
  { split; [done|]. intros [_ Hall]. exfalso. by apply (Hall id); [left|]. }
  rewrite IH, list.NoDup_cons. split.
  - intros [Hnd Hall]. repeat split; [|done|].
    + intros Hi. specialize (Hall _ Hi). set_solver.
    + intros i Hi. apply elem_of_cons in Hi as [->|Hi]; [done|]. specialize (Hall _ Hi). set_solver.
  - intros [[Hid Hnd] Hall]. split; [done|]. intros i Hi. rewrite elem_of_union, elem_of_singleton.
    intros [->|Hs]; [done|]. by apply (Hall i); [right|].
Qed.

Lemma validate_unique_NoDup `{FcTransaction} b :
  validate_unique b = true <-> NoDup (user_transaction_ids b).
Proof.
  unfold validate_unique. rewrite unique_from_NoDup. split; [by intros []|].
  intros Hnd. split; [done|]. intros id _. apply not_elem_of_empty.
Qed.
