(* ===== verification/PendingState.v ===== *)
(** [pending_chain_state]: the changes of a transaction or a block on top of a previous
    state. A look-up falls through to the previous state where the pending state holds
    nothing; changes are applied to the previous state at the end, or dropped. The state
    below is any instance of the interface, so pending states stack. *)
From S2P Require Export ChainInterface.

Record pending_chain_state (P : Type) := PendingChainState {
  assets : gmap Z asset_record;
  accounts : gmap Z account_record;
  balances : gmap Z balance_record;
  account_id_index : gmap string Z;
  symbol_id_index : gmap string Z;
  transactions : gmap Z transaction_record;
  properties : gmap Z variant;
  proposals : gmap Z proposal_record;
  key_to_account : gmap Z Z;
  proposal_votes : gmap (Z * Z) proposal_vote;
  bids : market_map order_record;
  asks : market_map order_record;
  shorts : market_map order_record;
  collateral : market_map collateral_record;
  prev_state : option P
}.
Arguments PendingChainState {P}.
Arguments assets {P} _.
Arguments accounts {P} _.
Arguments balances {P} _.
Arguments account_id_index {P} _.
Arguments symbol_id_index {P} _.
Arguments transactions {P} _.
Arguments properties {P} _.
Arguments proposals {P} _.
Arguments key_to_account {P} _.
Arguments proposal_votes {P} _.
Arguments bids {P} _.
Arguments asks {P} _.
Arguments shorts {P} _.
Arguments collateral {P} _.
Arguments prev_state {P} _.

Section Pending.
Context {P : Type} `{Fc} `{ChainInterface P}.
Notation pending := (pending_chain_state P).
Implicit Types s : pending.

(** [pending_chain_state( prev_state )], [create], [set_prev_state]. *)
Definition create (prev : option P) : pending :=
  PendingChainState ∅ ∅ ∅ ∅ ∅ ∅ ∅ ∅ ∅ ∅ ∅ ∅ ∅ ∅ prev.
Definition set_prev_state {Q} (s : pending_chain_state Q) (prev : option P) : pending :=
  PendingChainState (assets s) (accounts s) (balances s) (account_id_index s)
    (symbol_id_index s) (transactions s) (properties s) (proposals s) (key_to_account s)
    (proposal_votes s) (bids s) (asks s) (shorts s) (collateral s) prev.

(** [if( prev_state ) return prev_state->f(); FC_ASSERT( false )]. *)
Definition from_prev {A} (s : pending) (f : P -> result A) : result A :=
  match prev_state s with Some p => f p | None => Throw assert_exception end.
(** [else if( prev_state ) return prev_state->f(); return optional()]. *)
Definition prev_or_none {A} (s : pending) (f : P -> option A) : option A :=
  match prev_state s with Some p => f p | None => None end.

Definition pending_get_current_random_seed s : result Z :=
  match prev_state s with Some p => get_current_random_seed p | None => Ok 0 end.
Definition pending_now s : result Z := from_prev s now.
Definition pending_get_fee_rate s : result Z := from_prev s get_fee_rate.
Definition pending_get_delegate_pay_rate s : result Z := from_prev s get_delegate_pay_rate.

Definition pending_get_property s (id : Z) : result variant :=
  match properties s !! id with
  | Some v => Ok v
  | None => match prev_state s with Some p => get_property p id | None => Ok variant_null end
  end.
Definition pending_set_property s (id : Z) (v : variant) : pending :=
  PendingChainState (assets s) (accounts s) (balances s) (account_id_index s)
    (symbol_id_index s) (transactions s) (<[id := v]> (properties s)) (proposals s)
    (key_to_account s) (proposal_votes s) (bids s) (asks s) (shorts s) (collateral s)
    (prev_state s).

(** [get_transaction] does not test the pointer to the previous state. *)
Definition pending_get_transaction s (id : Z) : result (option transaction_record) :=
  match transactions s !! id with
  | Some t => Ok (Some t)
  | None => let* p := deref (prev_state s) in get_transaction p id
  end.
Definition pending_store_transaction s (id : Z) (t : transaction_record) : pending :=
  PendingChainState (assets s) (accounts s) (balances s) (account_id_index s)
    (symbol_id_index s) (<[id := t]> (transactions s)) (properties s) (proposals s)
    (key_to_account s) (proposal_votes s) (bids s) (asks s) (shorts s) (collateral s)
    (prev_state s).

Definition pending_get_asset_record s (id : Z) : option asset_record :=
  match assets s !! id with
  | Some r => Some r
  | None => prev_or_none s (fun p => get_asset_record p id)
  end.
Definition pending_get_asset_record_by_symbol s (sym : string) : option asset_record :=
  match symbol_id_index s !! sym with
  | Some id => pending_get_asset_record s id
  | None => prev_or_none s (fun p => get_asset_record_by_symbol p sym)
  end.
(** The index of symbols is not updated. *)
Definition pending_store_asset_record s (r : asset_record) : pending :=
  PendingChainState (<[asset_record_id r := r]> (assets s)) (accounts s) (balances s)
    (account_id_index s) (symbol_id_index s) (transactions s) (properties s) (proposals s)
    (key_to_account s) (proposal_votes s) (bids s) (asks s) (shorts s) (collateral s)
    (prev_state s).

Definition pending_get_balance_record s (id : Z) : option balance_record :=
  match balances s !! id with
  | Some r => Some r
  | None => prev_or_none s (fun p => get_balance_record p id)
  end.
Definition pending_store_balance_record s (r : balance_record) : pending :=
  PendingChainState (assets s) (accounts s) (<[balance_id r := r]> (balances s))
    (account_id_index s) (symbol_id_index s) (transactions s) (properties s) (proposals s)
    (key_to_account s) (proposal_votes s) (bids s) (asks s) (shorts s) (collateral s)
    (prev_state s).

Definition pending_get_account_record s (id : Z) : option account_record :=
  match accounts s !! id with
  | Some r => Some r
  | None => prev_or_none s (fun p => get_account_record p id)
  end.
Definition pending_get_account_record_by_owner s (key : Z) : result (option account_record) :=
  match key_to_account s !! key with
  | Some id => Ok (pending_get_account_record s id)
  | None => from_prev s (fun p => get_account_record_by_owner p key)
  end.
Definition pending_get_account_record_by_name s (name : string) : option account_record :=
  match account_id_index s !! name with
  | Some id => pending_get_account_record s id
  | None => prev_or_none s (fun p => get_account_record_by_name p name)
  end.
Definition pending_store_account_record s (r : account_record) : pending :=
  let keys := foldl (fun m (item : Z * Z) => <[address_of_key item.2 := account_id r]> m)
                (key_to_account s) (active_key_history r) in
  PendingChainState (assets s) (<[account_id r := r]> (accounts s)) (balances s)
    (<[account_name r := account_id r]> (account_id_index s)) (symbol_id_index s)
    (transactions s) (properties s) (proposals s)
    (<[address_of_key (owner_key r) := account_id r]> keys)
    (proposal_votes s) (bids s) (asks s) (shorts s) (collateral s) (prev_state s).

Definition pending_get_proposal_record s (id : Z) : option proposal_record :=
  match proposals s !! id with
  | Some r => Some r
  | None => prev_or_none s (fun p => get_proposal_record p id)
  end.
Definition pending_store_proposal_record s (r : proposal_record) : pending :=
  PendingChainState (assets s) (accounts s) (balances s) (account_id_index s)
    (symbol_id_index s) (transactions s) (properties s) (<[proposal_id r := r]> (proposals s))
    (key_to_account s) (proposal_votes s) (bids s) (asks s) (shorts s) (collateral s)
    (prev_state s).
Definition pending_get_proposal_vote s (id : Z * Z) : option proposal_vote :=
  match proposal_votes s !! id with
  | Some r => Some r
  | None => prev_or_none s (fun p => get_proposal_vote p id)
  end.
Definition pending_store_proposal_vote s (r : proposal_vote) : pending :=
  PendingChainState (assets s) (accounts s) (balances s) (account_id_index s)
    (symbol_id_index s) (transactions s) (properties s) (proposals s)
    (key_to_account s) (<[vote_id r := r]> (proposal_votes s)) (bids s) (asks s) (shorts s)
    (collateral s) (prev_state s).

Definition pending_get_bid_record s (k : market_index_key) : option order_record :=
  match market_find k (bids s) with
  | Some r => Some r
  | None => prev_or_none s (fun p => get_bid_record p k)
  end.
Definition pending_get_ask_record s (k : market_index_key) : option order_record :=
  match market_find k (asks s) with
  | Some r => Some r
  | None => prev_or_none s (fun p => get_ask_record p k)
  end.
(** The tests of the two look-ups below are inverted: where the key is found the previous
    state is asked, where it is not the end iterator is dereferenced. *)
Definition pending_get_short_record s (k : market_index_key) : result (option order_record) :=
  match market_find k (shorts s) with
  | None => Throw undefined_behaviour
  | Some _ => match prev_state s with Some p => get_short_record p k | None => Ok None end
  end.
Definition pending_get_collateral_record s (k : market_index_key)
    : result (option collateral_record) :=
  match market_find k (collateral s) with
  | None => Throw undefined_behaviour
  | Some _ => match prev_state s with Some p => get_collateral_record p k | None => Ok None end
  end.
Definition pending_store_bid_record s (k : market_index_key) (r : order_record) : pending :=
  PendingChainState (assets s) (accounts s) (balances s) (account_id_index s)
    (symbol_id_index s) (transactions s) (properties s) (proposals s) (key_to_account s)
    (proposal_votes s) (market_store k r (bids s)) (asks s) (shorts s) (collateral s)
    (prev_state s).
Definition pending_store_ask_record s (k : market_index_key) (r : order_record) : pending :=
  PendingChainState (assets s) (accounts s) (balances s) (account_id_index s)
    (symbol_id_index s) (transactions s) (properties s) (proposals s) (key_to_account s)
    (proposal_votes s) (bids s) (market_store k r (asks s)) (shorts s) (collateral s)
    (prev_state s).
Definition pending_store_short_record s (k : market_index_key) (r : order_record) : pending :=
  PendingChainState (assets s) (accounts s) (balances s) (account_id_index s)
    (symbol_id_index s) (transactions s) (properties s) (proposals s) (key_to_account s)
    (proposal_votes s) (bids s) (asks s) (market_store k r (shorts s)) (collateral s)
    (prev_state s).
Definition pending_store_collateral_record s (k : market_index_key) (r : collateral_record)
    : pending :=
  PendingChainState (assets s) (accounts s) (balances s) (account_id_index s)
    (symbol_id_index s) (transactions s) (properties s) (proposals s) (key_to_account s)
    (proposal_votes s) (bids s) (asks s) (shorts s) (market_store k r (collateral s))
    (prev_state s).

#[export] Instance pending_interface : ChainInterface pending := {
  get_current_random_seed := pending_get_current_random_seed;
  now := pending_now;
  get_fee_rate := pending_get_fee_rate;
  get_delegate_pay_rate := pending_get_delegate_pay_rate;
  get_property := pending_get_property;
  set_property := pending_set_property;
  get_bid_record := pending_get_bid_record;
  get_ask_record := pending_get_ask_record;
  get_short_record := pending_get_short_record;
  get_collateral_record := pending_get_collateral_record;
  store_bid_record := pending_store_bid_record;
  store_ask_record := pending_store_ask_record;
  store_short_record := pending_store_short_record;
  store_collateral_record := pending_store_collateral_record;
  get_asset_record := pending_get_asset_record;
  get_balance_record := pending_get_balance_record;
  get_account_record := pending_get_account_record;
  get_account_record_by_owner := pending_get_account_record_by_owner;
  get_transaction := pending_get_transaction;
  store_transaction := pending_store_transaction;
  get_asset_record_by_symbol := pending_get_asset_record_by_symbol;
  get_account_record_by_name := pending_get_account_record_by_name;
  store_proposal_record := pending_store_proposal_record;
  get_proposal_record := pending_get_proposal_record;
  store_proposal_vote := pending_store_proposal_vote;
  get_proposal_vote := pending_get_proposal_vote;
  store_asset_record := pending_store_asset_record;
  store_balance_record := pending_store_balance_record;
  store_account_record := pending_store_account_record
}.

(** ** Applying the changes, and the state that undoes them *)
Definition apply_changes (s : pending) (p : P) : P :=
  let p := foldl (fun p kv => set_property p kv.1 kv.2) p (map_to_list (properties s)) in
  let p := foldl (fun p kv => store_asset_record p kv.2) p (map_to_list (assets s)) in
  let p := foldl (fun p kv => store_account_record p kv.2) p (map_to_list (accounts s)) in
  let p := foldl (fun p kv => store_balance_record p kv.2) p (map_to_list (balances s)) in
  let p := foldl (fun p kv => store_proposal_record p kv.2) p (map_to_list (proposals s)) in
  let p := foldl (fun p kv => store_proposal_vote p kv.2) p (map_to_list (proposal_votes s)) in
  let p := foldl (fun p kv => store_bid_record p kv.2.1 kv.2.2) p (map_to_list (bids s)) in
  let p := foldl (fun p kv => store_ask_record p kv.2.1 kv.2.2) p (map_to_list (asks s)) in
  let p := foldl (fun p kv => store_short_record p kv.2.1 kv.2.2) p (map_to_list (shorts s)) in
  let p := foldl (fun p kv => store_collateral_record p kv.2.1 kv.2.2) p
             (map_to_list (collateral s)) in
  foldl (fun p kv => store_transaction p kv.1 kv.2) p (map_to_list (transactions s)).

(** [get_undo_state]: [undo] is the state written to, [p] the previous state. *)
Definition get_undo_state (s undo : pending) : result pending :=
  let* p := value_or_throw (prev_state s) assert_exception in
  let* u := foldM (fun u (kv : Z * variant) =>
      let* v := get_property p kv.1 in Ok (pending_set_property u kv.1 v))
      undo (map_to_list (properties s)) in
  let u := foldl (fun u (kv : Z * asset_record) =>
      pending_store_asset_record u
        (match get_asset_record p kv.1 with Some r => r | None => asset_make_null kv.2 end))
      u (map_to_list (assets s)) in
  let u := foldl (fun u (kv : Z * account_record) =>
      pending_store_account_record u
        (match get_account_record p kv.1 with Some r => r | None => account_make_null kv.2 end))
      u (map_to_list (accounts s)) in
  let u := foldl (fun u (kv : Z * proposal_record) =>
      pending_store_proposal_record u
        (match get_proposal_record p kv.1 with Some r => r | None => proposal_make_null kv.2 end))
      u (map_to_list (proposals s)) in
  let u := foldl (fun u (kv : Z * Z * proposal_vote) =>
      pending_store_proposal_vote u
        (match get_proposal_vote p kv.1 with Some r => r | None => vote_make_null kv.2 end))
      u (map_to_list (proposal_votes s)) in
  let u := foldl (fun u (kv : Z * balance_record) =>
      pending_store_balance_record u
        (match get_balance_record p kv.1 with Some r => r | None => balance_make_null kv.2 end))
      u (map_to_list (balances s)) in
  let* u := foldM (fun u (kv : Z * transaction_record) =>
      let* t := get_transaction p kv.1 in
      Ok (pending_store_transaction u kv.1
            (match t with Some t => t | None => transaction_record_default end)))
      u (map_to_list (transactions s)) in
  let u := foldl (fun u (kv : Z * Z * (market_index_key * order_record)) =>
      pending_store_bid_record u kv.2.1
        (match get_bid_record p kv.2.1 with Some r => r | None => order_record_default end))
      u (map_to_list (bids s)) in
  let u := foldl (fun u (kv : Z * Z * (market_index_key * order_record)) =>
      pending_store_ask_record u kv.2.1
        (match get_ask_record p kv.2.1 with Some r => r | None => order_record_default end))
      u (map_to_list (asks s)) in
  let* u := foldM (fun u (kv : Z * Z * (market_index_key * order_record)) =>
      let* r := get_short_record p kv.2.1 in
      Ok (pending_store_short_record u kv.2.1
            (match r with Some r => r | None => order_record_default end)))
      u (map_to_list (shorts s)) in
  foldM (fun u (kv : Z * Z * (market_index_key * collateral_record)) =>
      let* r := get_collateral_record p kv.2.1 in
      Ok (pending_store_collateral_record u kv.2.1
            (match r with Some r => r | None => collateral_record_default end)))
      u (map_to_list (collateral s)).
End Pending.

(** ** A pending state is the finite map of its changes over that of the previous state *)
Section View.
Context {P : Type} `{Fc} `{ChainView P}.
Notation pending := (pending_chain_state P).

Definition prev_ledger (s : pending) : ledger :=
  match prev_state s with Some p => ledger_of p | None => ledger_empty end.

Definition pending_ledger (s : pending) : ledger :=
  let l := prev_ledger s in
  Ledger (assets s ∪ l_assets l) (balances s ∪ l_balances l) (accounts s ∪ l_accounts l)
    (market_values (bids s) ∪ l_bids l) (market_values (asks s) ∪ l_asks l) (properties s ∪ l_props l).

Lemma overlay_lookup {K A} `{Countable K} (m m' : gmap K A) k :
  (m ∪ m') !! k = match m !! k with Some r => Some r | None => m' !! k end.
Proof. rewrite lookup_union. by destruct (m !! k), (m' !! k). Qed.

Lemma prev_none {A} (s : pending) (f : P -> option A) (g : ledger -> option A) :
  (forall p, f p = g (ledger_of p)) -> g ledger_empty = None ->
  prev_or_none s f = g (prev_ledger s).
Proof. intros Hf Hg. unfold prev_or_none, prev_ledger. by destruct (prev_state s). Qed.

Lemma fmap_find {A} k (m : market_map A) :
  market_values m !! index_of k = market_find k m.
Proof. unfold market_values, market_find, market_map in *. by rewrite lookup_fmap. Qed.

#[export] Program Instance pending_view : ChainView pending := { ledger_of := pending_ledger }.
Next Obligation.
  intros s id. cbn. rewrite overlay_lookup. unfold pending_get_asset_record.
  destruct (assets s !! id); [done|]. apply (prev_none _ _ (fun l => l_assets l !! id)); [|done].
  intros. apply view_asset.
Qed.
Next Obligation.
  intros s id. cbn. rewrite overlay_lookup. unfold pending_get_balance_record.
  destruct (balances s !! id); [done|].
  apply (prev_none _ _ (fun l => l_balances l !! id)); [|done]. intros. apply view_balance.
Qed.
Next Obligation.
  intros s id. cbn. rewrite overlay_lookup. unfold pending_get_account_record.
  destruct (accounts s !! id); [done|].
  apply (prev_none _ _ (fun l => l_accounts l !! id)); [|done]. intros. apply view_account.
Qed.
Next Obligation.
  intros s k. cbn [ledger_of pending_ledger l_bids]. rewrite overlay_lookup, fmap_find. cbn.
  unfold pending_get_bid_record. destruct (market_find k (bids s)); [done|].
  apply (prev_none _ _ (fun l => l_bids l !! index_of k)); [|done]. intros. apply view_bid.
Qed.
Next Obligation.
  intros s k. cbn [ledger_of pending_ledger l_asks]. rewrite overlay_lookup, fmap_find. cbn.
  unfold pending_get_ask_record. destruct (market_find k (asks s)); [done|].
  apply (prev_none _ _ (fun l => l_asks l !! index_of k)); [|done]. intros. apply view_ask.
Qed.

Next Obligation.
  intros s id v Hv. cbn -[union]. rewrite overlay_lookup. unfold pending_get_property.
  destruct (properties s !! id); [split; congruence|]. unfold prev_ledger.
  destruct (prev_state s) as [p|]; [by apply view_property|]. cbn. rewrite lookup_empty.
  split; congruence.
Qed.

Lemma fmap_market_store {A} k (r : A) m :
  market_values (market_store k r m) = <[index_of k := r]> (market_values m).
Proof. unfold market_store, market_values, market_map in *. by rewrite fmap_insert. Qed.

#[export] Instance pending_stores : ChainStores pending.
Proof.
  refine {| overlay := true |}; try done;
    intros; unfold put_asset, put_balance, put_account, put_bid, put_ask, put_prop, put;
    cbn [ledger_of pending_view]; unfold pending_ledger, prev_ledger;
    cbn -[union insert market_store market_values];
    by rewrite ?fmap_market_store, insert_union_l.
Defined.
End View.
