(* ===== verification/ChainDatabase.v ===== *)
(** [chain_database]: the records of the confirmed chain, each level_map of the source a
    finite map, with the indexes by name, symbol, key and votes; the header of the head
    block; and the interface of the chain on them. A null record is removed. *)
From S2P Require Export Block.

(** [vote_del]: the entries of the index of delegates by votes. *)
Record vote_del := VoteDel { votes : Z; del_id : Z }.
#[export] Instance vote_del_eq_dec : EqDecision vote_del.
Proof. solve_decision. Defined.
#[export] Instance vote_del_countable : Countable vote_del.
Proof.
  refine (inj_countable' (fun v => (votes v, del_id v)) (fun p => VoteDel p.1 p.2) _).
  by intros [].
Defined.

(** [operator <]: most votes first, the lowest id on ties. *)
Definition vote_del_lt (a b : vote_del) : bool :=
  if votes b <? votes a then true
  else if votes a <? votes b then false
  else del_id a <? del_id b.

Record chain_database := ChainDatabase {
  property_db : gmap Z variant;
  proposal_db : gmap Z proposal_record;
  proposal_vote_db : gmap (Z * Z) proposal_vote;
  id_to_transaction_record_db : gmap Z transaction_record;
  asset_db : gmap Z asset_record;
  balance_db : gmap Z balance_record;
  account_db : gmap Z account_record;
  address_to_account_db : gmap Z Z;
  account_index_db : gmap string Z;
  symbol_index_db : gmap string Z;
  delegate_vote_index_db : gset vote_del;
  ask_db : market_map order_record;
  bid_db : market_map order_record;
  short_db : market_map order_record;
  collateral_db : market_map collateral_record;
  head_block_header : signed_block_header;
  wall_clock : Z
}.

(** [level_map::store] and [remove] on the market's maps. *)
Definition market_put {A} (null : A -> bool) (k : market_index_key) (r : A) (m : market_map A)
    : market_map A :=
  if null r then delete (index_of k) m else <[index_of k := (k, r)]> m.

(** [_head_block_header = h]. *)
Definition db_with_head (h : signed_block_header) (d : chain_database) : chain_database :=
  ChainDatabase (property_db d) (proposal_db d) (proposal_vote_db d)
    (id_to_transaction_record_db d) (asset_db d) (balance_db d) (account_db d)
    (address_to_account_db d) (account_index_db d) (symbol_index_db d)
    (delegate_vote_index_db d) (ask_db d) (bid_db d) (short_db d) (collateral_db d) h
    (wall_clock d).

(** The clock shows [t]. *)
Definition db_with_clock (t : Z) (d : chain_database) : chain_database :=
  ChainDatabase (property_db d) (proposal_db d) (proposal_vote_db d)
    (id_to_transaction_record_db d) (asset_db d) (balance_db d) (account_db d)
    (address_to_account_db d) (account_index_db d) (symbol_index_db d)
    (delegate_vote_index_db d) (ask_db d) (bid_db d) (short_db d) (collateral_db d)
    (head_block_header d) t.

Section Database.
Context `{Fc}.
Implicit Types d : chain_database.

(** [bts::blockchain::now()] before the first block. *)
Definition db_now d : Z :=
  if block_num (head_block_header d) =? 0 then wall_clock d else timestamp (head_block_header d).

Definition db_get_property d (id : Z) : result variant :=
  value_or_throw (property_db d !! id) key_not_found.
Definition db_get_current_random_seed d : result Z :=
  let* v := db_get_property d last_random_seed_id_prop in as_hash v.
Definition db_set_property d (id : Z) (v : variant) : chain_database :=
  let m := if bool_decide (v = variant_null) then delete id (property_db d)
           else <[id := v]> (property_db d) in
  ChainDatabase m (proposal_db d) (proposal_vote_db d) (id_to_transaction_record_db d)
    (asset_db d) (balance_db d) (account_db d) (address_to_account_db d) (account_index_db d)
    (symbol_index_db d) (delegate_vote_index_db d) (ask_db d) (bid_db d) (short_db d)
    (collateral_db d) (head_block_header d) (wall_clock d).

Definition db_get_asset_record d (id : Z) : option asset_record := asset_db d !! id.
Definition db_get_asset_record_by_symbol d (sym : string) : option asset_record :=
  match symbol_index_db d !! sym with Some id => db_get_asset_record d id | None => None end.
Definition db_store_asset_record d (r : asset_record) : chain_database :=
  let '(m, idx) :=
    if asset_is_null r
    then (delete (asset_record_id r) (asset_db d), delete (symbol r) (symbol_index_db d))
    else (<[asset_record_id r := r]> (asset_db d),
          <[symbol r := asset_record_id r]> (symbol_index_db d)) in
  ChainDatabase (property_db d) (proposal_db d) (proposal_vote_db d)
    (id_to_transaction_record_db d) m (balance_db d) (account_db d) (address_to_account_db d)
    (account_index_db d) idx (delegate_vote_index_db d) (ask_db d) (bid_db d) (short_db d)
    (collateral_db d) (head_block_header d) (wall_clock d).

Definition db_get_balance_record d (id : Z) : option balance_record := balance_db d !! id.
Definition db_store_balance_record d (r : balance_record) : chain_database :=
  let m := if balance_is_null r then delete (balance_id r) (balance_db d)
           else <[balance_id r := r]> (balance_db d) in
  ChainDatabase (property_db d) (proposal_db d) (proposal_vote_db d)
    (id_to_transaction_record_db d) (asset_db d) m (account_db d) (address_to_account_db d)
    (account_index_db d) (symbol_index_db d) (delegate_vote_index_db d) (ask_db d) (bid_db d)
    (short_db d) (collateral_db d) (head_block_header d) (wall_clock d).

Definition db_get_account_record d (id : Z) : option account_record := account_db d !! id.
Definition db_get_account_record_by_owner d (a : Z) : option account_record :=
  match address_to_account_db d !! a with Some id => db_get_account_record d id | None => None end.
Definition db_get_account_record_by_name d (name : string) : option account_record :=
  match account_index_db d !! name with Some id => db_get_account_record d id | None => None end.

(** The entry of a delegate in the index by votes. *)
Definition vote_entry (r : account_record) : gset vote_del :=
  match delegate_info r with
  | Some s => {[ VoteDel (int64 (votes_for_ s - votes_against_ s)) (account_id r) ]}
  | None => ∅
  end.

Definition with_accounts (acc : gmap Z account_record) (names : gmap string Z)
    (keys : gmap Z Z) (vi : gset vote_del) d : chain_database :=
  ChainDatabase (property_db d) (proposal_db d) (proposal_vote_db d)
    (id_to_transaction_record_db d) (asset_db d) (balance_db d) acc keys names
    (symbol_index_db d) vi (ask_db d) (bid_db d) (short_db d) (collateral_db d)
    (head_block_header d) (wall_clock d).

Definition db_store_account_record d (r : account_record) : chain_database :=
  let old := db_get_account_record d (account_id r) in
  if account_is_null r then
    match old with
    | Some o =>
        with_accounts (delete (account_id r) (account_db d))
          (delete (account_name r) (account_index_db d))
          (foldl (fun m (item : Z * Z) => delete (address_of_key item.2) m)
             (address_to_account_db d) (active_key_history o))
          (delegate_vote_index_db d ∖ vote_entry (AccountRecord (account_id r) (account_name o)
             (account_public_data o) (owner_key o) (active_key_history o)
             (account_registration_date o) (account_last_update o) (delegate_info o)
             (meta_data o))) d
    | None => d
    end
  else
    let vi := match old with
              | Some o => delegate_vote_index_db d ∖ vote_entry o
              | None => delegate_vote_index_db d
              end in
    with_accounts (<[account_id r := r]> (account_db d))
      (<[account_name r := account_id r]> (account_index_db d))
      (foldl (fun m (item : Z * Z) => <[address_of_key item.2 := account_id r]> m)
         (address_to_account_db d) (active_key_history r))
      (vi ∪ vote_entry r) d.

Definition db_get_transaction d (id : Z) : option transaction_record :=
  id_to_transaction_record_db d !! id.
Definition db_store_transaction d (id : Z) (t : transaction_record) : chain_database :=
  ChainDatabase (property_db d) (proposal_db d) (proposal_vote_db d)
    (<[id := t]> (id_to_transaction_record_db d)) (asset_db d) (balance_db d) (account_db d)
    (address_to_account_db d) (account_index_db d) (symbol_index_db d)
    (delegate_vote_index_db d) (ask_db d) (bid_db d) (short_db d) (collateral_db d)
    (head_block_header d) (wall_clock d).
Definition is_known_transaction d (id : Z) : bool :=
  bool_decide (is_Some (id_to_transaction_record_db d !! id)).

Definition db_store_proposal_record d (r : proposal_record) : chain_database :=
  let m := if proposal_is_null r then delete (proposal_id r) (proposal_db d)
           else <[proposal_id r := r]> (proposal_db d) in
  ChainDatabase (property_db d) m (proposal_vote_db d) (id_to_transaction_record_db d)
    (asset_db d) (balance_db d) (account_db d) (address_to_account_db d) (account_index_db d)
    (symbol_index_db d) (delegate_vote_index_db d) (ask_db d) (bid_db d) (short_db d)
    (collateral_db d) (head_block_header d) (wall_clock d).
Definition db_store_proposal_vote d (v : proposal_vote) : chain_database :=
  let m := if vote_is_null v then delete (vote_id v) (proposal_vote_db d)
           else <[vote_id v := v]> (proposal_vote_db d) in
  ChainDatabase (property_db d) (proposal_db d) m (id_to_transaction_record_db d)
    (asset_db d) (balance_db d) (account_db d) (address_to_account_db d) (account_index_db d)
    (symbol_index_db d) (delegate_vote_index_db d) (ask_db d) (bid_db d) (short_db d)
    (collateral_db d) (head_block_header d) (wall_clock d).

Definition with_markets (a b s : market_map order_record) (c : market_map collateral_record) d
    : chain_database :=
  ChainDatabase (property_db d) (proposal_db d) (proposal_vote_db d)
    (id_to_transaction_record_db d) (asset_db d) (balance_db d) (account_db d)
    (address_to_account_db d) (account_index_db d) (symbol_index_db d)
    (delegate_vote_index_db d) a b s c (head_block_header d) (wall_clock d).
Definition db_store_bid_record d k r : chain_database :=
  with_markets (ask_db d) (market_put order_is_null k r (bid_db d)) (short_db d)
    (collateral_db d) d.
Definition db_store_ask_record d k r : chain_database :=
  with_markets (market_put order_is_null k r (ask_db d)) (bid_db d) (short_db d)
    (collateral_db d) d.
Definition db_store_short_record d k r : chain_database :=
  with_markets (ask_db d) (bid_db d) (market_put order_is_null k r (short_db d))
    (collateral_db d) d.
Definition db_store_collateral_record d k r : chain_database :=
  with_markets (ask_db d) (bid_db d) (short_db d)
    (market_put collateral_is_null k r (collateral_db d)) d.

#[export] Instance database_interface : ChainInterface chain_database := {
  get_current_random_seed := db_get_current_random_seed;
  now d := Ok (db_now d);
  get_fee_rate d := Ok (fee_rate (head_block_header d));
  get_delegate_pay_rate d := Ok (delegate_pay_rate (head_block_header d));
  get_property := db_get_property;
  set_property := db_set_property;
  get_bid_record d k := market_find k (bid_db d);
  get_ask_record d k := market_find k (ask_db d);
  get_short_record d k := Ok (market_find k (short_db d));
  get_collateral_record d k := Ok (market_find k (collateral_db d));
  store_bid_record := db_store_bid_record;
  store_ask_record := db_store_ask_record;
  store_short_record := db_store_short_record;
  store_collateral_record := db_store_collateral_record;
  get_asset_record := db_get_asset_record;
  get_balance_record := db_get_balance_record;
  get_account_record := db_get_account_record;
  get_account_record_by_owner d a := Ok (db_get_account_record_by_owner d a);
  get_transaction d id := Ok (db_get_transaction d id);
  store_transaction := db_store_transaction;
  get_asset_record_by_symbol := db_get_asset_record_by_symbol;
  get_account_record_by_name := db_get_account_record_by_name;
  store_proposal_record := db_store_proposal_record;
  get_proposal_record d id := proposal_db d !! id;
  store_proposal_vote := db_store_proposal_vote;
  get_proposal_vote d id := proposal_vote_db d !! id;
  store_asset_record := db_store_asset_record;
  store_balance_record := db_store_balance_record;
  store_account_record := db_store_account_record
}.

(** ** The sanity check *)

(** [sanity_check]: the base asset's supply is what balances and delegates' pay hold, and
    so is the sum of all votes. Overflow apart, an addition that throws is a failed
    check. *)
Definition balance_total (d : chain_database) : result asset :=
  foldM (fun t (kv : Z * balance_record) =>
    let ind := get_balance kv.2 in
    if asset_id ind =? 0 then
      let* _ := FC_ASSERT (0 <=? amount ind) in asset_plus_assign t ind
    else Ok t) (Asset 0 0) (map_to_list (balance_db d)).
Definition sanity_check (d : chain_database) : result unit :=
  let* t := balance_total d in
  let* (t, v) := foldM (fun '(t, v) (kv : Z * account_record) =>
    match delegate_info kv.2 with
    | Some s =>
        let* t := asset_plus_assign t (Asset (pay_balance s) 0) in
        Ok (t, int64 (v + int64 (votes_for_ s + votes_against_ s)))
    | None => Ok (t, v)
    end) (t, 0) (map_to_list (account_db d)) in
  let* _ := FC_ASSERT (v =? amount t) in
  let* ar := value_or_throw (db_get_asset_record d 0) assert_exception in
  let* _ := FC_ASSERT (current_share_supply ar =? amount t) in
  FC_ASSERT (current_share_supply ar <=? maximum_share_supply ar).
End Database.

(** ** The ledger of the database *)
Section View.
Context `{Fc}.

Definition database_ledger (d : chain_database) : ledger :=
  Ledger (asset_db d) (balance_db d) (account_db d) (market_values (bid_db d))
    (market_values (ask_db d)) (property_db d).

Lemma values_find {A} k (m : market_map A) : market_find k m = market_values m !! index_of k.
Proof. unfold market_values, market_find, market_map in *. by rewrite lookup_fmap. Qed.

#[export] Instance database_view : ChainView chain_database.
Proof.
  refine {| ledger_of := database_ledger |}; try done; try (intros; apply values_find).
  intros d id v Hv. cbn. unfold db_get_property. destruct (property_db d !! id); cbn;
    split; congruence.
Defined.

Lemma values_put {A} (null : A -> bool) k r (m : market_map A) :
  market_values (market_put null k r m) = put false null (index_of k) r (market_values m).
Proof.
  unfold market_values, market_put, put, market_map in *. cbn.
  destruct (null r); cbn; [apply fmap_delete|apply fmap_insert].
Qed.

#[export] Instance database_stores : ChainStores chain_database.
Proof.
  refine {| overlay := false |}; intros d; intros; try done;
    unfold put_asset, put_balance, put_account, put_bid, put_ask, put_prop;
    cbn [ledger_of database_view database_interface store_asset_record store_balance_record
         store_account_record store_bid_record store_ask_record set_property].
  - unfold db_set_property, put, database_ledger. cbn.
    by destruct (bool_decide (v = variant_null)).
  - unfold db_store_asset_record, put, database_ledger. by destruct (asset_is_null r).
  - unfold db_store_balance_record, put, database_ledger. by destruct (balance_is_null r).
  - unfold db_store_account_record, put, database_ledger. cbn.
    destruct (account_is_null r); [|done]. cbn. unfold db_get_account_record.
    destruct (account_db d !! account_id r) eqn:E; [done|].
    by rewrite (delete_id (account_db d)).
  - unfold db_store_bid_record, with_markets, database_ledger.
    cbn -[market_values market_put put]. by rewrite values_put.
  - unfold db_store_ask_record, with_markets, database_ledger.
    cbn -[market_values market_put put]. by rewrite values_put.
Defined.
End View.
