(* ===== verification/EvalState.v ===== *)
(** [transaction_evaluation_state]: what the evaluation of a transaction tracks, and the
    functions the operations call on it: the balance of withdrawn and not yet deposited
    shares, the deposits required and provided, the votes moved, the fees. *)
From S2P Require Export Block.

Record vote_state := VoteState { net_for : Z; net_against : Z }.
#[export] Instance vote_state_eq_dec : EqDecision vote_state.
Proof. solve_decision. Defined.
Definition vote_state_default : vote_state := VoteState 0 0.

(** [asset()]. *)
Definition asset_default : asset := Asset 0 0.

Record transaction_evaluation_state (S : Type) := EvalState {
  trx : signed_transaction;
  signed_keys : gset Z;
  required_deposits : gmap Z asset;
  provided_deposits : gmap Z asset;
  deposits : gmap Z asset;
  withdraws : gmap Z asset;
  required_fees : asset;
  eval_balance : gmap Z Z;
  net_delegate_votes : gmap Z vote_state;
  current_state : S;
  eval_chain_id : Z
}.
Arguments EvalState {S}.
Arguments trx {S} _.
Arguments signed_keys {S} _.
Arguments required_deposits {S} _.
Arguments provided_deposits {S} _.
Arguments deposits {S} _.
Arguments withdraws {S} _.
Arguments required_fees {S} _.
Arguments eval_balance {S} _.
Arguments net_delegate_votes {S} _.
Arguments current_state {S} _.
Arguments eval_chain_id {S} _.

Section Eval.
Context {S : Type} `{Fc} `{FcTransaction} `{ChainInterface S}.
Notation eval_state := (transaction_evaluation_state S).
Implicit Types e : eval_state.

(** [transaction_evaluation_state( current_state, chain_id )]. *)
Definition eval_state_new (s : S) (chain_id : Z) : eval_state :=
  EvalState signed_transaction_default ∅ ∅ ∅ ∅ ∅ asset_default ∅ ∅ s chain_id.

(** Assignments to members. *)
Definition with_trx (t : signed_transaction) e : eval_state :=
  EvalState t (signed_keys e) (required_deposits e) (provided_deposits e) (deposits e)
    (withdraws e) (required_fees e) (eval_balance e) (net_delegate_votes e)
    (current_state e) (eval_chain_id e).
Definition with_signed_keys (k : gset Z) e : eval_state :=
  EvalState (trx e) k (required_deposits e) (provided_deposits e) (deposits e)
    (withdraws e) (required_fees e) (eval_balance e) (net_delegate_votes e)
    (current_state e) (eval_chain_id e).
Definition with_required_deposits (m : gmap Z asset) e : eval_state :=
  EvalState (trx e) (signed_keys e) m (provided_deposits e) (deposits e)
    (withdraws e) (required_fees e) (eval_balance e) (net_delegate_votes e)
    (current_state e) (eval_chain_id e).
Definition with_deposits (provided dep : gmap Z asset) (b : gmap Z Z) e : eval_state :=
  EvalState (trx e) (signed_keys e) (required_deposits e) provided dep
    (withdraws e) (required_fees e) b (net_delegate_votes e)
    (current_state e) (eval_chain_id e).
Definition with_withdraws (w : gmap Z asset) (b : gmap Z Z) e : eval_state :=
  EvalState (trx e) (signed_keys e) (required_deposits e) (provided_deposits e) (deposits e)
    w (required_fees e) b (net_delegate_votes e) (current_state e) (eval_chain_id e).
Definition with_required_fees (f : asset) e : eval_state :=
  EvalState (trx e) (signed_keys e) (required_deposits e) (provided_deposits e) (deposits e)
    (withdraws e) f (eval_balance e) (net_delegate_votes e) (current_state e) (eval_chain_id e).
Definition with_votes_map (m : gmap Z vote_state) e : eval_state :=
  EvalState (trx e) (signed_keys e) (required_deposits e) (provided_deposits e) (deposits e)
    (withdraws e) (required_fees e) (eval_balance e) m (current_state e) (eval_chain_id e).
Definition with_state (s : S) e : eval_state :=
  EvalState (trx e) (signed_keys e) (required_deposits e) (provided_deposits e) (deposits e)
    (withdraws e) (required_fees e) (eval_balance e) (net_delegate_votes e) s (eval_chain_id e).

(** [provided_deposits] and [required_fees] are not reset. *)
Definition reset e : eval_state :=
  EvalState (trx e) ∅ ∅ (provided_deposits e) ∅ ∅ (required_fees e) ∅ ∅
    (current_state e) (eval_chain_id e).

Definition check_signature e (a : Z) : bool := bool_decide (a ∈ signed_keys e).

(** [m[k] += a] on a map of assets that may lack the key. *)
Definition add_asset (m : gmap Z asset) (k : Z) (a : asset) : result (gmap Z asset) :=
  match m !! k with
  | None => Ok (<[k := a]> m)
  | Some b => let* c := asset_plus_assign b a in Ok (<[k := c]> m)
  end.

Definition add_required_deposit e (owner_key : Z) (amount : asset) : result eval_state :=
  let* delegate := value_or_throw (trx_delegate_id (trx e)) assert_exception in
  let id := get_address (condition_with_signature (WithSignature owner_key None)
                           (asset_id amount) delegate) in
  let* m := add_asset (required_deposits e) id amount in
  Ok (with_required_deposits m e).

Definition get_fees e (id : Z) : Z := default 0 (eval_balance e !! id).

Definition sub_balance e (balance_id : Z) (a : asset) : result eval_state :=
  let* provided := add_asset (provided_deposits e) balance_id a in
  let* dep := add_asset (deposits e) (asset_id a) a in
  let b := match eval_balance e !! asset_id a with
           | Some b => int64 (b - amount a)
           | None => int64 (- amount a)
           end in
  Ok (with_deposits provided dep (<[asset_id a := b]> (eval_balance e)) e).

Definition add_balance e (a : asset) : result eval_state :=
  let* w := add_asset (withdraws e) (asset_id a) a in
  let b := match eval_balance e !! asset_id a with
           | Some b => int64 (b + amount a)
           | None => amount a
           end in
  Ok (with_withdraws w (<[asset_id a := b]> (eval_balance e)) e).

Definition net_votes_of e (id : Z) : vote_state :=
  default vote_state_default (net_delegate_votes e !! id).
Definition add_vote e (delegate_id amount : Z) : eval_state :=
  let id := Z.abs delegate_id in
  let v := net_votes_of e id in
  if 0 <? delegate_id then
    with_votes_map (<[id := VoteState (int64 (net_for v + amount)) (net_against v)]>
                      (net_delegate_votes e)) e
  else if delegate_id <? 0 then
    with_votes_map (<[id := VoteState (net_for v) (int64 (net_against v + amount))]>
                      (net_delegate_votes e)) e
  else e.
Definition sub_vote e (delegate_id amount : Z) : eval_state :=
  let id := Z.abs delegate_id in
  let v := net_votes_of e id in
  if 0 <? delegate_id then
    with_votes_map (<[id := VoteState (int64 (net_for v - amount)) (net_against v)]>
                      (net_delegate_votes e)) e
  else if delegate_id <? 0 then
    with_votes_map (<[id := VoteState (net_for v) (int64 (net_against v - amount))]>
                      (net_delegate_votes e)) e
  else e.

Definition validate_asset e (a : asset) : result unit :=
  let* _ := value_or_throw (get_asset_record (current_state e) (asset_id a)) unknown_asset_id in
  Ok tt.

(** [required_fees += asset( fee, 0 )]. *)
Definition add_required_fee e (fee : Z) : result eval_state :=
  let* f := asset_plus_assign (required_fees e) (Asset fee 0) in
  Ok (with_required_fees f e).

(** [get_fee_rate() * trx.data_size() / 1000], computed on [uint64_t] since a size is. *)
Definition transaction_fee e : result Z :=
  let* rate := get_fee_rate (current_state e) in
  Ok (int64 (uint64 (rate * data_size (trx e)) / 1000)).

Definition validate_required_fee e : result unit :=
  let* required_fee := transaction_fee e in
  match eval_balance e !! 0 with
  | None => Throw insufficient_fee
  | Some fee => throw_if (fee <? required_fee) insufficient_fee
  end.

(** The fee of one asset; the loops run over hash maps, whose order the result does not
    depend on. *)
Definition collect_fee e (fee : Z * Z) : result eval_state :=
  let* _ := throw_if (fee.2 <? 0) negative_fee in
  if 0 <? fee.2 then
    let* _ := throw_if ((fee.1 =? 0) && (fee.2 <? amount (required_fees e))) insufficient_fee in
    let* r := value_or_throw (get_asset_record (current_state e) fee.1) unknown_asset_id in
    let r := with_supply (int64 (current_share_supply r - fee.2))
               (int64 (collected_fees r + fee.2)) r in
    Ok (with_state (store_asset_record (current_state e) r) e)
  else Ok e.

(** The end iterator is dereferenced when the deposit was not provided at all. *)
Definition check_required_deposit e (required : Z * asset) : result unit :=
  let* provided := deref (provided_deposits e !! required.1) in
  throw_if (asset_lt provided required.2) missing_deposit.

Definition post_evaluate e : result eval_state :=
  let* fee := transaction_fee e in
  let* e := add_required_fee e fee in
  let* e := foldM collect_fee e (map_to_list (eval_balance e)) in
  let* _ := foldM (fun _ => check_required_deposit e) tt (map_to_list (required_deposits e)) in
  Ok e.

Definition update_delegate_vote (max_votes : Z) e (v : Z * vote_state) : result eval_state :=
  let* r := value_or_throw (get_account_record (current_state e) v.1) assert_exception in
  let* r := adjust_votes_for (net_for v.2) r in
  let* r := adjust_votes_against (net_against v.2) r in
  let* vf := votes_for r in
  let* va := votes_against r in
  let* _ := throw_if ((max_votes <? vf) || (max_votes <? va)) delegate_vote_limit in
  Ok (with_state (store_account_record (current_state e) r) e).

Definition update_delegate_votes e : result eval_state :=
  let* asset_rec := deref (get_asset_record (current_state e) 0) in
  let max_votes := int64 (2 * Z.quot (current_share_supply asset_rec) BTS_BLOCKCHAIN_NUM_DELEGATES) in
  foldM (update_delegate_vote max_votes) e (map_to_list (net_delegate_votes e)).

(** The addresses a signature stands for: the key's, and those of its four PTS forms. *)
Definition key_addresses (key : Z) : gset Z :=
  {[ address_of_key key; address_of_pts key false 56; address_of_pts key true 56;
     address_of_pts key false 0; address_of_pts key true 0 ]}.
End Eval.
