(* ===== verification/Operations.v ===== *)
(** The operations of a transaction ([balance_operations], [asset_operations],
    [account_operations], [proposal_operations], [fire_operation], [market_operations]),
    the factory that dispatches on an operation's type, and the evaluation of a
    transaction. A handler that throws leaves no state. *)
From Stdlib Require Import Ascii.
From S2P Require Export EvalState.

(** ** The operations *)
Record deposit_operation := DepositOperation {
  deposit_amount : Z; deposit_condition : withdraw_condition }.
Record withdraw_operation := WithdrawOperation {
  withdraw_balance_id : Z; withdraw_amount : Z; claim_input_data : list Z }.
Record create_asset_operation := CreateAssetOperation {
  create_symbol : string; create_name : string; create_description : string;
  create_public_data : variant; create_issuer : Z; create_max_supply : Z; create_precision : Z }.
Record update_asset_operation := UpdateAssetOperation {
  update_asset_id : Z; update_name : string; update_description : string;
  update_public_data : variant; update_issuer : Z }.
Record issue_asset_operation := IssueAssetOperation { issue_amount : asset }.
Record register_account_operation := RegisterAccountOperation {
  register_name : string; register_public_data : variant; register_owner_key : Z;
  register_active_key : Z; register_is_delegate : bool;
  register_meta_data : option account_meta_info }.
Record update_account_operation := UpdateAccountOperation {
  update_account_id : Z; update_account_data : option variant;
  update_active_key : option Z; update_is_delegate : bool }.
Record withdraw_pay_operation := WithdrawPayOperation { pay_amount : Z; pay_account_id : Z }.
Record submit_proposal_operation := SubmitProposalOperation {
  submit_delegate_id : Z; submit_date : Z; submit_subject : string; submit_body : string;
  submit_type : string; submit_data : variant }.
Record vote_proposal_operation := VoteProposalOperation {
  vp_id : Z * Z; vp_timestamp : Z; vp_vote : vote_type; vp_message : string }.
Record bid_operation := BidOperation {
  bid_amount : Z; bid_index : market_index_key; bid_delegate_id : Z }.
Record ask_operation := AskOperation {
  ask_amount : Z; ask_index : market_index_key; ask_delegate_id : Z }.

(** [fire_delegate_operation] and what its data unpack to: two block headers, or a
    testimony. *)
Definition multiple_blocks_signed : Z := 0.
Definition invalid_testimony : Z := 1.
Record fire_delegate_operation := FireDelegateOperation {
  fire_reason : Z; fire_delegate_id : Z; fire_data : list Z }.
Record signed_delegate_testimony := SignedDelegateTestimony {
  testimony_transaction_id : Z; testimony_valid : bool; testimony_digest : Z;
  testimony_signature : Z }.

(** [fc::raw::unpack] of the operations. *)
Class FcOperations := {
  unpack_withdraw : list Z -> option withdraw_operation;
  unpack_deposit : list Z -> option deposit_operation;
  unpack_register_account : list Z -> option register_account_operation;
  unpack_update_account : list Z -> option update_account_operation;
  unpack_withdraw_pay : list Z -> option withdraw_pay_operation;
  unpack_create_asset : list Z -> option create_asset_operation;
  unpack_update_asset : list Z -> option update_asset_operation;
  unpack_issue_asset : list Z -> option issue_asset_operation;
  unpack_fire_delegate : list Z -> option fire_delegate_operation;
  unpack_submit_proposal : list Z -> option submit_proposal_operation;
  unpack_vote_proposal : list Z -> option vote_proposal_operation;
  unpack_bid : list Z -> option bid_operation;
  unpack_ask : list Z -> option ask_operation;
  unpack_block_proof : list Z -> option (signed_block_header * signed_block_header);
  unpack_testimony : list Z -> option signed_delegate_testimony
}.

(** [operation_type_enum]. *)
Definition withdraw_op_type : Z := 1.
Definition deposit_op_type : Z := 2.
Definition register_account_op_type : Z := 3.
Definition update_account_op_type : Z := 4.
Definition withdraw_pay_op_type : Z := 5.
Definition create_asset_op_type : Z := 6.
Definition update_asset_op_type : Z := 7.
Definition issue_asset_op_type : Z := 8.
Definition fire_delegate_op_type : Z := 9.
Definition submit_proposal_op_type : Z := 10.
Definition vote_proposal_op_type : Z := 11.
Definition bid_op_type : Z := 12.
Definition ask_op_type : Z := 13.

Definition is_power_of_ten (n : Z) : bool :=
  existsb (Z.eqb n)
    [0; 1; 10; 100; 1000; 10000; 100000; 1000000; 10000000; 100000000; 1000000000; 10000000000;
     100000000000; 1000000000000; 10000000000000; 100000000000000; 1000000000000000].

(** [get_parent_account_name]: what follows the first dot. *)
Fixpoint get_parent_account_name (child : string) : string :=
  match child with
  | String.EmptyString => String.EmptyString
  | String.String c rest =>
      if Ascii.eqb c "."%char then rest else get_parent_account_name rest
  end.

(** Seconds of [one_year]. *)
Definition one_year : Z := 60 * 60 * 24 * 365.

Section Handlers.
Context {S : Type} `{Fc} `{FcTransaction} `{FcBlock} `{FcOperations} `{ChainInterface S} `{FcBigint}.
Notation eval_state := (transaction_evaluation_state S).
Implicit Types e : eval_state.

(** ** Balances *)
Definition evaluate_deposit (op : deposit_operation) e : result eval_state :=
  let s := current_state e in
  let* _ := throw_if (deposit_amount op <=? 0) negative_deposit in
  let deposit_balance_id := get_address (deposit_condition op) in
  let* _ :=
    if condition_asset_id (deposit_condition op) =? 0 then
      let delegate_id := Z.abs (condition_delegate_id (deposit_condition op)) in
      let* r := value_or_throw (get_account_record s delegate_id) unknown_account_id in
      throw_if (negb (is_delegate r)) not_a_delegate
    else Ok tt in
  let cur := match get_balance_record s deposit_balance_id with
             | Some r => r
             | None => balance_record_of (deposit_condition op)
             end in
  let* t := now s in
  let cur := BalanceRecord (int64 (balance cur + deposit_amount op)) (condition cur) t in
  let c := condition cur in
  let* e := sub_balance e deposit_balance_id (Asset (deposit_amount op) (condition_asset_id c)) in
  let e := if condition_asset_id c =? 0
           then add_vote e (condition_delegate_id c) (deposit_amount op) else e in
  Ok (with_state (store_balance_record (current_state e) cur) e).

(** [valid_signatures += check_signature( sig )] over the owners. *)
Definition count_signatures e (owners : list Z) : Z :=
  foldl (fun n a => n + (if check_signature e a then 1 else 0)) 0 owners.

(** The [switch] on the condition's type: no [default]. *)
Definition check_condition e (op : withdraw_operation) (r : balance_record) : result eval_state :=
  let s := current_state e in
  let c := condition r in
  if condition_type c =? withdraw_signature_type then
    let* w := as_type withdraw_signature_type unpack_with_signature c in
    let* _ := throw_if (negb (check_signature e (owner w))) missing_signature in
    Ok e
  else if condition_type c =? withdraw_multi_sig_type then
    let* w := as_type withdraw_multi_sig_type unpack_with_multi_sig c in
    let* _ := throw_if (count_signatures e (owners w) <? required w) missing_signature in
    Ok e
  else if condition_type c =? withdraw_password_type then
    let* w := as_type withdraw_password_type unpack_with_password c in
    let* t := now s in
    if timeout w <? t then
      let* _ := throw_if (negb (check_signature e (payor w))) missing_signature in
      Ok e
    else
      let* _ := throw_if (negb (check_signature e (payee w))) missing_signature in
      let* _ := throw_if (length (claim_input_data op) <? 20)%nat invalid_claim_password in
      let* _ := throw_if (negb (password_hash w =? ripemd160_hash (claim_input_data op)))
                  invalid_claim_password in
      Ok e
  else if condition_type c =? withdraw_option_type then
    let* w := as_type withdraw_option_type unpack_option c in
    let* t := now s in
    if date w <? t then
      let* _ := throw_if (negb (check_signature e (optionor w))) missing_signature in
      Ok e
    else
      let* _ := throw_if (negb (check_signature e (optionee w))) missing_signature in
      let* pay := asset_mul_price (Asset (withdraw_amount op) (condition_asset_id c))
                    (strike_price w) in
      add_required_deposit e (optionee w) pay
  else if condition_type c =? withdraw_null_type then Throw invalid_withdraw_condition
  else Ok e.

Definition evaluate_withdraw (op : withdraw_operation) e : result eval_state :=
  let s := current_state e in
  let* _ := throw_if (withdraw_amount op <=? 0) negative_deposit in
  let* r := value_or_throw (get_balance_record s (withdraw_balance_id op)) unknown_balance_record in
  let* _ := throw_if (balance r <? withdraw_amount op) insufficient_funds in
  let* e := check_condition e op r in
  let* t := now s in
  let r := BalanceRecord (int64 (balance r - withdraw_amount op)) (condition r) t in
  let c := condition r in
  let* e := add_balance e (Asset (withdraw_amount op) (condition_asset_id c)) in
  let e := if condition_asset_id c =? 0
           then sub_vote e (condition_delegate_id c) (withdraw_amount op) else e in
  Ok (with_state (store_balance_record (current_state e) r) e).

(** ** Assets *)
Definition evaluate_create_asset (op : create_asset_operation) e : result eval_state :=
  let s := current_state e in
  let* _ := throw_if (negb (is_power_of_ten (create_precision op))) invalid_precision in
  let* _ := throw_if (negb (is_valid_symbol_name (create_symbol op))) invalid_asset_symbol in
  let* _ := throw_if (create_max_supply op <=? 0) invalid_asset_amount in
  let* _ := throw_if (bool_decide (is_Some (get_asset_record_by_symbol s (create_symbol op))))
              asset_symbol_in_use in
  let* _ :=
    if create_issuer op =? market_issued_asset then Ok tt
    else
      let* r := value_or_throw (get_account_record s (create_issuer op)) unknown_account_id in
      throw_if (negb (check_signature e (address_of_key (active_key r)))) missing_signature in
  let* fee := get_asset_registration_fee s in
  let* e := add_required_fee e fee in
  let* (id, s) := new_asset_id s in
  let* t := now s in
  let r := AssetRecord id (create_symbol op) (create_name op) (create_description op)
             (create_public_data op) (create_issuer op) (uint64 (create_precision op)) t 0 0
             (create_max_supply op) 0 in
  Ok (with_state (store_asset_record s r) e).

(** The account that issues an asset, whose signature the operations below need. *)
Definition signed_issuer e (id : Z) : result unit :=
  let* r := value_or_throw (get_account_record (current_state e) id) unknown_account_id in
  throw_if (negb (check_signature e (address_of_key (active_key r)))) missing_signature.

Definition evaluate_update_asset (op : update_asset_operation) e : result eval_state :=
  let s := current_state e in
  let* r := value_or_throw (get_asset_record s (update_asset_id op)) unknown_asset_id in
  let* _ := signed_issuer e (issuer_account_id r) in
  let* _ := if update_issuer op =? issuer_account_id r then Ok tt
            else signed_issuer e (update_issuer op) in
  let* t := now s in
  let r := AssetRecord (asset_record_id r) (symbol r) (asset_name r) (update_description op)
             (update_public_data op) (update_issuer op) (precision r) (registration_date r) t
             (current_share_supply r) (maximum_share_supply r) (collected_fees r) in
  Ok (with_state (store_asset_record s r) e).

Definition evaluate_issue_asset (op : issue_asset_operation) e : result eval_state :=
  let s := current_state e in
  let a := issue_amount op in
  let* _ := throw_if (amount a <=? 0) negative_issue in
  let* r := value_or_throw (get_asset_record s (asset_id a)) unknown_asset_id in
  let* _ := signed_issuer e (issuer_account_id r) in
  let* _ := throw_if (negb (can_issue r a)) over_issue in
  let r := with_supply (int64 (current_share_supply r + amount a)) (collected_fees r) r in
  let* e := add_balance e a in
  Ok (with_state (store_asset_record (current_state e) r) e).

(** ** Accounts *)
Definition check_parent_signature e (parent_name : string) : result unit :=
  if (String.length parent_name =? 0)%nat then Ok tt
  else
    let* r := value_or_throw (get_account_record_by_name (current_state e) parent_name)
                unknown_account_name in
    let* _ := throw_if (negb (check_signature e (address_of_key (active_key r))))
                missing_parent_account_signature in
    throw_if (is_retracted r) parent_account_retracted.

Definition evaluate_register_account (op : register_account_operation) e : result eval_state :=
  let s := current_state e in
  let* t := now s in
  let* _ := throw_if (negb (is_valid_account_name (register_name op))) invalid_account_name in
  let* _ :=
    match get_account_record_by_name s (register_name op) with
    | Some r => throw_if (account_last_update r + one_year <? t) account_already_registered
    | None => Ok tt
    end in
  let* _ := check_parent_signature e (get_parent_account_name (register_name op)) in
  let* same_key := get_account_record_by_owner s (address_of_key (register_active_key op)) in
  let* _ := throw_if (bool_decide (is_Some same_key)) account_key_in_use in
  let* (id, s) := new_account_id s in
  let r := AccountRecord id (register_name op) (register_public_data op) (register_owner_key op)
             [] t t None None in
  let* r := set_active_key t (register_active_key op) r in
  let* (e, r) :=
    if register_is_delegate op then
      let* fee := get_delegate_registration_fee s in
      let* e := add_required_fee e fee in
      Ok (e, with_delegate_info (Some delegate_stats_default) r)
    else Ok (e, r) in
  let r := AccountRecord (account_id r) (account_name r) (account_public_data r) (owner_key r)
             (active_key_history r) (account_registration_date r) (account_last_update r)
             (delegate_info r) (register_meta_data op) in
  Ok (with_state (store_account_record s r) e).

Definition evaluate_withdraw_pay (op : withdraw_pay_operation) e : result eval_state :=
  let s := current_state e in
  let* _ := throw_if (pay_amount op <=? 0) negative_withdraw in
  let id := Z.abs (pay_account_id op) in
  let* r := value_or_throw (get_account_record s id) unknown_account_id in
  let* _ := throw_if (is_retracted r) account_retracted in
  let* _ := throw_if (negb (is_delegate r)) not_a_delegate in
  let* _ := throw_if (negb (check_signature e (address_of_key (active_key r)))) missing_signature in
  let e := sub_vote e id (pay_amount op) in
  let* d := deref (delegate_info r) in
  let* _ := throw_if (pay_amount op <? pay_balance d) insufficient_funds in
  let d := with_pay_balance (int64 (pay_balance d - pay_amount op)) d in
  let e := with_state (store_account_record s (with_delegate_info (Some d) r)) e in
  add_balance e (Asset (pay_amount op) 0).

(** The loop over the parents of an account. Once a parent's signature is found nothing
    in the loop changes any more, so it does not end: a fuel of one more than the number
    of dots in the name passes all parents. *)
Fixpoint verify_parents (fuel : nat) e (parent_name : string) (parent : option account_record)
    : result unit :=
  match parent with
  | None => Ok tt
  | Some r =>
      match fuel with
      | O => Throw does_not_return
      | Datatypes.S fuel =>
          let* _ := throw_if (is_retracted r) parent_account_retracted in
          if check_signature e (address_of_key (owner_key r))
             || check_signature e (address_of_key (active_key r))
          then verify_parents fuel e parent_name parent
          else
            let parent_name := get_parent_account_name parent_name in
            verify_parents fuel e parent_name
              (get_account_record_by_name (current_state e) parent_name)
      end
  end.

Definition parent_fuel (name : string) : nat := Datatypes.S (Datatypes.S (String.length name)).

(** The signature of the account itself or of a parent. [verified] is set for a parent
    only inside the loop, which then does not end: when the loop ends, none has signed. *)
Definition check_own_signature e (r : account_record) (parent_name : string) : result unit :=
  let verified := check_signature e (address_of_key (active_key r)) in
  let verified := if verified then verified else check_signature e (address_of_key (owner_key r)) in
  let* _ :=
    if negb verified && negb (String.length parent_name =? 0)%nat then
      verify_parents (parent_fuel parent_name) e parent_name
        (get_account_record_by_name (current_state e) parent_name)
    else Ok tt in
  throw_if (negb verified) missing_signature.

Definition check_new_key_signature e (r : account_record) (parent_name : string) : result unit :=
  if (String.length parent_name =? 0)%nat then
    throw_if (negb (check_signature e (address_of_key (owner_key r)))) missing_signature
  else
    let* parent := value_or_throw (get_account_record_by_name (current_state e) parent_name)
                     unknown_parent_account_name in
    let* _ := verify_parents (parent_fuel parent_name) e parent_name (Some parent) in
    Throw missing_signature.

Definition evaluate_update_account (op : update_account_operation) e : result eval_state :=
  let s := current_state e in
  let* r := value_or_throw (get_account_record s (update_account_id op)) unknown_account_id in
  let* _ := throw_if (is_retracted r) account_retracted in
  let parent_name := get_parent_account_name (account_name r) in
  let* _ :=
    match update_active_key op with
    | Some k => if negb (k =? active_key r) then check_new_key_signature e r parent_name
                else check_own_signature e r parent_name
    | None => check_own_signature e r parent_name
    end in
  let r := match update_account_data op with Some v => with_public_data v r | None => r end in
  let* t := now s in
  let r := with_last_update t r in
  let* r :=
    match update_active_key op with
    | Some k =>
        let* r := set_active_key t k r in
        let* same_key := get_account_record_by_owner s (address_of_key k) in
        let* _ := throw_if (bool_decide (is_Some same_key)) account_key_in_use in
        Ok r
    | None => Ok r
    end in
  let* (e, r) :=
    if negb (is_delegate r) && update_is_delegate op then
      let* fee := get_delegate_registration_fee s in
      let* e := add_required_fee e fee in
      Ok (e, with_delegate_info (Some delegate_stats_default) r)
    else Ok (e, r) in
  Ok (with_state (store_account_record (current_state e) r) e).

(** ** Proposals *)
Definition evaluate_submit_proposal (op : submit_proposal_operation) e : result eval_state :=
  let s := current_state e in
  let* r := value_or_throw (get_account_record s (submit_delegate_id op)) unknown_account_id in
  let* _ := throw_if (negb (is_delegate r)) not_a_delegate in
  let* (id, s) := new_proposal_id s in
  let p := ProposalRecord id (submit_delegate_id op) (submit_date op) (submit_subject op)
             (submit_body op) (submit_type op) (submit_data op) false in
  let* _ := throw_if (negb (check_signature e (address_of_key (active_key r)))) missing_signature in
  Ok (with_state (store_proposal_record s p) e).

Definition evaluate_vote_proposal (op : vote_proposal_operation) e : result eval_state :=
  let s := current_state e in
  let* _ := throw_if (BTS_BLOCKCHAIN_PROPOSAL_VOTE_MESSAGE_MAX_SIZE
                        <? String.length (vp_message op))%nat invalid_vote_message_size in
  let delegate_id := (vp_id op).2 in
  let* r := value_or_throw (get_account_record s delegate_id) unknown_account_id in
  let* _ := throw_if (negb (is_delegate r)) not_a_delegate in
  let* active := is_active_delegate s delegate_id in
  let* _ := throw_if (negb active) not_an_active_delegate in
  let* _ := throw_if (negb (check_signature e (address_of_key (active_key r)))) missing_signature in
  let* _ := value_or_throw (get_proposal_record s (vp_id op).1) unknown_proposal_id in
  let v := ProposalVote (vp_id op) (vp_timestamp op) (vp_message op) (vp_vote op) in
  Ok (with_state (store_proposal_vote s v) e).

(** ** Firing a delegate *)
Definition fire (r : account_record) : result account_record :=
  let* vf := votes_for r in
  let* r := adjust_votes_against vf r in
  let* vf := votes_for r in
  adjust_votes_for (int64 (- vf)) r.

Definition evaluate_fire_delegate (op : fire_delegate_operation) e : result eval_state :=
  let s := current_state e in
  let* r := value_or_throw (get_account_record s (fire_delegate_id op)) unknown_account_id in
  let* _ := throw_if (negb (is_delegate r)) not_a_delegate in
  if fire_reason op =? multiple_blocks_signed then
    let* (b1, b2) := value_or_throw (unpack_block_proof (fire_data op)) unpack_error in
    let* _ := FC_ASSERT (negb (block_id b1 =? block_id b2)) in
    let* _ := FC_ASSERT (timestamp b1 =? timestamp b2) in
    let* k1 := signee b1 in
    let* k2 := signee b2 in
    let* _ := FC_ASSERT (k1 =? k2) in
    let* _ := FC_ASSERT (k1 =? active_key r) in
    let* r := fire r in
    Ok (with_state (store_account_record s r) e)
  else if fire_reason op =? invalid_testimony then
    let* t := value_or_throw (unpack_testimony (fire_data op)) unpack_error in
    let* k := public_key (testimony_signature t) (testimony_digest t) in
    let* _ := throw_if (negb (existsb (fun item : Z * Z => k =? item.2) (active_key_history r)))
                not_a_delegate_signature in
    let* trx_loc := get_transaction s (testimony_transaction_id t) in
    if negb (bool_decide (is_Some trx_loc)) && testimony_valid t then
      let* r := fire r in
      Ok (with_state (store_account_record s r) e)
    else Throw invalid_fire_operation
  else Ok e.

(** ** Market orders *)

(** [price()]: the ratio is zero, and prices are compared by their ratio. *)
Definition price_default : price := Price 0 0 0.

Definition bid_get_amount (op : bid_operation) : asset :=
  Asset (bid_amount op) (quote_asset_id (order_price (bid_index op))).
Definition ask_get_amount (op : ask_operation) : asset :=
  Asset (ask_amount op) (base_asset_id (order_price (ask_index op))).

(** What the two operations share: taking from or adding to an order. *)
Definition move_order_amount e (amt : Z) (delta : asset) (current : option order_record)
    : result (eval_state * order_record) :=
  if amt <? 0 then
    let* r := value_or_throw current unknown_market_order in
    let* _ := throw_if (order_balance r <? int64 (Z.abs amt)) insufficient_funds in
    let* e := add_balance e (asset_neg delta) in
    Ok (e, r)
  else
    let r := match current with Some r => r | None => order_record_default end in
    let* e := sub_balance e 0 delta in
    Ok (e, r).

Definition evaluate_bid (op : bid_operation) e : result eval_state :=
  let* _ := throw_if (price_eq (order_price (bid_index op)) price_default) zero_price in
  let* _ := throw_if (negb (check_signature e (order_owner (bid_index op)))) missing_signature in
  let delta := bid_get_amount op in
  let* _ := validate_asset e delta in
  let current := get_bid_record (current_state e) (bid_index op) in
  let* _ := throw_if (bid_amount op =? 0) zero_amount in
  let* (e, r) := move_order_amount e (bid_amount op) delta current in
  let e := if asset_id delta =? 0
           then sub_vote e (order_delegate_id r) (bid_amount op) else e in
  let r := OrderRecord (int64 (order_balance r + bid_amount op)) (bid_delegate_id op) in
  let e := if asset_id delta =? 0
           then add_vote e (order_delegate_id r) (bid_amount op) else e in
  Ok (with_state (store_bid_record (current_state e) (bid_index op) r) e).

Definition evaluate_ask (op : ask_operation) e : result eval_state :=
  let* _ := throw_if (price_eq (order_price (ask_index op)) price_default) zero_price in
  let* _ := throw_if (negb (check_signature e (order_owner (ask_index op)))) missing_signature in
  let delta := ask_get_amount op in
  let* _ := validate_asset e delta in
  let current := get_ask_record (current_state e) (ask_index op) in
  let* _ := throw_if (ask_amount op =? 0) zero_amount in
  let* (e, r) := move_order_amount e (ask_amount op) delta current in
  let e := if asset_id delta =? 0
           then sub_vote e (order_delegate_id r) (ask_amount op) else e in
  let r := OrderRecord (int64 (order_balance r + ask_amount op)) (ask_delegate_id op) in
  let e := if asset_id delta =? 0
           then add_vote e (order_delegate_id r) (ask_amount op) else e in
  Ok (with_state (store_ask_record (current_state e) (ask_index op) r) e).

(** ** The factory, and the evaluation of a transaction *)
Definition evaluate_as {A} (unpack : list Z -> option A)
    (evaluate : A -> eval_state -> result eval_state) (op : operation) e : result eval_state :=
  let* o := value_or_throw (unpack (op_data op)) unpack_error in evaluate o e.

(** The operations registered in [operations.cpp]; the market's short and cover operations
    are not. *)
Definition evaluate_operation (op : operation) e : result eval_state :=
  let t := op_type op in
  if t =? withdraw_op_type then evaluate_as unpack_withdraw evaluate_withdraw op e
  else if t =? deposit_op_type then evaluate_as unpack_deposit evaluate_deposit op e
  else if t =? create_asset_op_type then evaluate_as unpack_create_asset evaluate_create_asset op e
  else if t =? issue_asset_op_type then evaluate_as unpack_issue_asset evaluate_issue_asset op e
  else if t =? update_asset_op_type then evaluate_as unpack_update_asset evaluate_update_asset op e
  else if t =? register_account_op_type then
    evaluate_as unpack_register_account evaluate_register_account op e
  else if t =? withdraw_pay_op_type then evaluate_as unpack_withdraw_pay evaluate_withdraw_pay op e
  else if t =? update_account_op_type then
    evaluate_as unpack_update_account evaluate_update_account op e
  else if t =? fire_delegate_op_type then
    evaluate_as unpack_fire_delegate evaluate_fire_delegate op e
  else if t =? submit_proposal_op_type then
    evaluate_as unpack_submit_proposal evaluate_submit_proposal op e
  else if t =? vote_proposal_op_type then
    evaluate_as unpack_vote_proposal evaluate_vote_proposal op e
  else if t =? bid_op_type then evaluate_as unpack_bid evaluate_bid op e
  else if t =? ask_op_type then evaluate_as unpack_ask evaluate_ask op e
  else Throw unsupported_chain_operation.

(** The addresses of the keys that signed; a signature no key is recovered from throws. *)
Definition collect_signatures (digest : Z) (sigs : list Z) e : result eval_state :=
  foldM (fun e sig =>
    let* key := public_key sig digest in
    Ok (with_signed_keys (key_addresses key ∪ signed_keys e) e)) e sigs.

Definition evaluate (t : signed_transaction) e : result eval_state :=
  let e := reset e in
  let s := current_state e in
  let* _ :=
    match expiration t with
    | Some x => let* n := now s in throw_if (x <? n) expired_transaction
    | None => Ok tt
    end in
  let* known := get_transaction s (trx_id t) in
  let* _ := throw_if (bool_decide (is_Some known)) duplicate_transaction in
  let e := with_trx t e in
  let* e := collect_signatures (trx_digest t (eval_chain_id e)) (signatures t) e in
  let* e := foldM (fun e op => evaluate_operation op e) e (operations t) in
  let* e := post_evaluate e in
  let* _ := validate_required_fee e in
  update_delegate_votes e.
End Handlers.
