(* ===== verification/Schedule.v ===== *)
(** Delegates, as [chain_database.cpp] schedules and pays them: the order by votes, whose
    turn it is to sign, what a block changes in the records of delegates, the list of the
    next round and its shuffle, the random seed. *)
From stdpp Require Import sorting.
From S2P Require Import Prelude.
From S2P Require Export PendingState ChainDatabase.

(** ** The order by votes *)

(** An ordered database is read in the order of its keys. *)
Definition vote_del_le (a b : vote_del) : Prop := vote_del_lt b a = false.
#[export] Instance vote_del_le_dec a b : Decision (vote_del_le a b).
Proof. unfold vote_del_le. apply _. Defined.

Definition by_vote (d : chain_database) : list vote_del :=
  merge_sort vote_del_le (elements (delegate_vote_index_db d)).

Definition get_delegates_by_vote (d : chain_database) (first count : nat) : list Z :=
  map del_id (take count (drop first (by_vote d))).
Definition next_round_active_delegates (d : chain_database) : list Z :=
  get_delegates_by_vote d 0 (Z.to_nat BTS_BLOCKCHAIN_NUM_DELEGATES).

(** ** Assignments to the statistics of a delegate *)
Definition with_production (produced missed : Z) (d : delegate_stats) : delegate_stats :=
  DelegateStats (votes_for_ d) (votes_against_ d) produced missed (next_secret_hash d)
    (last_block_num_produced d) (pay_balance d).
Definition with_secret (hash num : Z) (d : delegate_stats) : delegate_stats :=
  DelegateStats (votes_for_ d) (votes_against_ d) (blocks_produced d) (blocks_missed d) hash num
    (pay_balance d).

Section Schedule.
Context `{Fc} `{FcBlock}.
Notation pending := (pending_chain_state chain_database).
Implicit Types (d : chain_database) (s : pending) (b : full_block).

(** [get_signing_delegate_id]. *)
Definition get_signing_delegate_id d (sec : Z) : result Z :=
  let* _ := FC_ASSERT (timestamp (head_block_header d) <=? sec + 3600) in
  let interval_number := Z.quot sec BTS_BLOCKCHAIN_BLOCK_INTERVAL_SEC in
  let delegate_pos := Z.rem interval_number BTS_BLOCKCHAIN_NUM_DELEGATES in
  let* sorted_delegates := get_active_delegates d in
  let* _ := FC_ASSERT (delegate_pos <? Z.of_nat (length sorted_delegates)) in
  Ok (nth (Z.to_nat delegate_pos) sorted_delegates 0).

Definition get_signing_delegate_key d (sec : Z) : result Z :=
  let* id := get_signing_delegate_id d sec in
  let* r := value_or_throw (get_account_record d id) assert_exception in
  Ok (active_key r).

(** ** The records of the delegates of a block *)

(** [delegate_rec->delegate_info->...] on two optionals that are not tested. *)
Definition delegate_record d s (sec : Z) : result (account_record * delegate_stats) :=
  let* id := get_signing_delegate_id d sec in
  let* r := deref (get_account_record s id) in
  let* info := deref (delegate_info r) in
  Ok (r, info).

(** The first part of [update_delegate_production_info]: the secret the delegate committed
    to in its previous block. *)
Definition check_secret d b s : result pending :=
  let* (r, info) := delegate_record d s (timestamp b) in
  let* _ :=
    if 0 <? blocks_produced info
    then FC_ASSERT (hash_secret (previous_secret b) =? next_secret_hash info)
    else Ok tt in
  Ok (store_account_record s
        (with_delegate_info (Some (with_secret (header_next_secret_hash b) (block_num b) info)) r)).

(** The [do ... while] loop: one turn per slot, up to that of the block. [slot] is the
    slot of the last turn. *)
Fixpoint production_loop (fuel : nat) d b (slot confirmations : Z) s : result (Z * pending) :=
  match fuel with
  | O => Throw does_not_return
  | S fuel =>
      let slot := slot + BTS_BLOCKCHAIN_BLOCK_INTERVAL_SEC in
      let* (r, info) := delegate_record d s slot in
      let '(info, confirmations) :=
        if negb (slot =? timestamp b)
        then (with_production (blocks_produced info) (uint32 (blocks_missed info + 1)) info,
              int64 (confirmations + 2))
        else (with_production (uint32 (blocks_produced info + 1)) (blocks_missed info) info,
              confirmations) in
      let s := store_account_record s (with_delegate_info (Some info) r) in
      if slot <? timestamp b then production_loop fuel d b slot confirmations s
      else Ok (confirmations, s)
  end.

(** The slots from [slot] to [t], at least one. *)
Definition slot_fuel (slot t : Z) : nat :=
  S (Z.to_nat ((t - slot) / BTS_BLOCKCHAIN_BLOCK_INTERVAL_SEC)).

Definition bound_confirmations (required_confirmations : Z) : Z :=
  let c := int64 (required_confirmations - 1) in
  let c := if c <? 1 then 1 else c in
  if BTS_BLOCKCHAIN_NUM_DELEGATES * 3 <? c then 3 * BTS_BLOCKCHAIN_NUM_DELEGATES else c.

Definition update_delegate_production_info d b s : result pending :=
  let* s := check_secret d b s in
  let headblock_timestamp :=
    if block_num (head_block_header d) =? 0
    then timestamp b - BTS_BLOCKCHAIN_BLOCK_INTERVAL_SEC
    else timestamp (head_block_header d) in
  let* v := get_property s confirmation_requirement_prop in
  let* required_confirmations := as_int v in
  let* (required_confirmations, s) :=
    production_loop (slot_fuel headblock_timestamp (timestamp b)) d b headblock_timestamp
      required_confirmations s in
  Ok (set_property s confirmation_requirement_prop
        (variant_int (bound_confirmations required_confirmations))).

(** ** Pay *)
Definition pay_delegate d (time_slot amount : Z) s : result pending :=
  let* id := get_signing_delegate_id d time_slot in
  let* r := value_or_throw (get_account_record s id) assert_exception in
  let* info := value_or_throw (delegate_info r) assert_exception in
  let info := with_pay_balance (int64 (pay_balance info + amount)) info in
  let info := with_votes (int64 (votes_for_ info + amount)) (votes_against_ info) info in
  let s := store_account_record s (with_delegate_info (Some info) r) in
  let* base := value_or_throw (get_asset_record s 0) assert_exception in
  Ok (store_asset_record s
        (with_supply (int64 (current_share_supply base + amount)) (collected_fees base) base)).

(** ** The next round *)

(** [std::swap( v[i], v[j] )]. *)
Definition swap (i j : nat) (l : list Z) : list Z := <[j := nth i l 0]> (<[i := nth j l 0]> l).

(** [_hash[x]] of a SHA-256 digest. *)
Definition hash_word (digest : Z) (x : nat) : Z :=
  (Z.shiftr digest (64 * Z.of_nat x) mod 2 ^ 64).

(** The inner loop, on the words from [x] on; the index it stops at, and the list. *)
Fixpoint shuffle_words (turns x i : nat) (digest : Z) (active_del : list Z) : nat * list Z :=
  match turns with
  | O => (i, active_del)
  | S turns =>
      if (i <? length active_del)%nat then
        shuffle_words turns (S x) (S i) digest
          (swap i (Z.to_nat (hash_word digest x mod Z.of_nat (length active_del))) active_del)
      else (i, active_del)
  end.
(** The outer loop, which steps over an index after every four. *)
Fixpoint shuffle (fuel i : nat) (rand_seed : Z) (active_del : list Z) : result (list Z) :=
  if (i <? length active_del)%nat then
    match fuel with
    | O => Throw does_not_return
    | S fuel =>
        let '(i, active_del) := shuffle_words 4 0 i rand_seed active_del in
        shuffle fuel (S i) (sha256_of_digest rand_seed) active_del
    end
  else Ok active_del.

Definition update_active_delegate_list d b s : result pending :=
  if Z.rem (block_num b) BTS_BLOCKCHAIN_NUM_DELEGATES =? 0 then
    let active_del := next_round_active_delegates d in
    let* seed := get_current_random_seed d in
    let* active_del := shuffle (length active_del) 0 (sha256_of_seed seed) active_del in
    Ok (set_property s active_delegate_list_id_prop (variant_ids active_del))
  else Ok s.

Definition update_random_seed (new_secret : Z) s : result pending :=
  let* current_seed := get_current_random_seed s in
  Ok (set_property s last_random_seed_id_prop (variant_hash (hash_seed new_secret current_seed))).
End Schedule.
