(* ===== verification/Chain.v ===== *)
(** The chain of blocks of [chain_database.cpp]: the tree of the blocks that were seen, what
    [chain_database_impl] keeps besides the records of [ChainDatabase], and the operations that
    extend the chain by a block, undo its last block, switch to another fork, queue
    transactions and generate a block. *)
From stdpp Require Import sorting.
From S2P Require Import Prelude.
From S2P Require Export Block Errors Schedule Operations.

(** * The tree of blocks: for every block that was seen, or that is the previous block of one that
    was seen, the blocks after it and whether it is linked to the genesis block, valid, and part
    of the chain. *)

(** [block_fork_data]. *)
Record block_fork_data := BlockForkData {
  next_blocks : gset Z;
  is_linked : bool;
  is_valid : option bool;
  is_included : bool;
  is_known : bool
}.
Definition block_fork_data_default : block_fork_data := BlockForkData ∅ false None false false.

#[export] Instance block_fork_data_eq_dec : EqDecision block_fork_data.
Proof. solve_decision. Defined.

Definition invalid (f : block_fork_data) : bool :=
  match is_valid f with Some v => negb v | None => false end.
Definition valid (f : block_fork_data) : bool :=
  match is_valid f with Some v => v | None => false end.
Definition can_link (f : block_fork_data) : bool := is_linked f && negb (invalid f).

(** Assignments to members. *)
Definition with_next (id : Z) (f : block_fork_data) : block_fork_data :=
  BlockForkData ({[ id ]} ∪ next_blocks f) (is_linked f) (is_valid f) (is_included f) (is_known f).
Definition with_linked (b : bool) (f : block_fork_data) : block_fork_data :=
  BlockForkData (next_blocks f) b (is_valid f) (is_included f) (is_known f).
Definition with_valid (b : bool) (f : block_fork_data) : block_fork_data :=
  BlockForkData (next_blocks f) (is_linked f) (Some b) (is_included f) (is_known f).
Definition with_included (b : bool) (f : block_fork_data) : block_fork_data :=
  BlockForkData (next_blocks f) (is_linked f) (is_valid f) b (is_known f).
Definition with_known (b : bool) (f : block_fork_data) : block_fork_data :=
  BlockForkData (next_blocks f) (is_linked f) (is_valid f) (is_included f) b.

(** [_fork_db]. *)
Notation fork_map := (gmap Z block_fork_data).

(** Whether a block is marked as part of the chain. *)
Definition included (m : fork_map) (id : Z) : bool :=
  match m !! id with Some f => is_included f | None => false end.

(** [level_map::fetch]: an absent key throws. *)
Definition fetch {A} (id : Z) (m : gmap Z A) : result A := value_or_throw (m !! id) key_not_found.

(** [level_map::store] on [_fork_db]. *)
Definition store_fork (id : Z) (f : block_fork_data) : run fork_map unit := modify (<[id := f]>).

(** ** Marking a block and all blocks after it *)

(** The body of the [while] loop: every record is changed by [f], the blocks after it are
    collected. *)
Definition mark_each (f : block_fork_data -> block_fork_data) (ids : list Z)
    : run fork_map (gset Z) :=
  run_fold (fun pending item =>
    let! record := reads (fetch item) in
    let pending := pending ∪ next_blocks record in
    let! _ := store_fork item (f record) in
    ret pending) ∅ ids.

Fixpoint recursive_mark (f : block_fork_data -> block_fork_data) (fuel : nat) (next_ids : gset Z)
    : run fork_map unit :=
  if bool_decide (next_ids = ∅) then ret tt
  else match fuel with
       | O => raise does_not_return
       | S fuel =>
           let! pending := mark_each f (elements next_ids) in recursive_mark f fuel pending
       end.

(** A chain of blocks of different ids has at most as many blocks as there are records. *)
Definition recursive_mark_as_linked (ids : gset Z) : run fork_map unit := fun m =>
  recursive_mark (with_linked true) (size m) ids m.
Definition recursive_mark_as_invalid (ids : gset Z) : run fork_map unit := fun m =>
  recursive_mark (with_valid false) (size m) ids m.

Definition mark_invalid (block_id : Z) : run fork_map unit :=
  let! fork_data := reads (fetch block_id) in
  let fork_data := with_valid false fork_data in
  let! _ := store_fork block_id fork_data in
  recursive_mark_as_invalid (next_blocks fork_data).

Definition mark_included (block_id : Z) (included : bool) : run fork_map unit :=
  let! fork_data := reads (fetch block_id) in
  let fork_data := with_included included fork_data in
  let fork_data := if included then with_valid true fork_data else fork_data in
  store_fork block_id fork_data.

(** ** Placing a block in the tree: the part of [store_and_index] on [_fork_db] *)
Definition index_previous (id prev : Z) : run fork_map block_fork_data :=
  let! prev_itr := reads (fun m : fork_map => Ok (m !! prev)) in
  let prev_fork_data :=
    match prev_itr with
    | Some f => with_next id f
    | None => with_linked (prev =? 0) (with_next id block_fork_data_default)
    end in
  let! _ := store_fork prev prev_fork_data in
  ret prev_fork_data.

(** [is_known] is set on the fresh record, which the record found replaces. *)
Definition index_current (id : Z) (prev_fork_data : block_fork_data)
    : run fork_map block_fork_data :=
  let current_fork := with_known true block_fork_data_default in
  let! cur_itr := reads (fun m : fork_map => Ok (m !! id)) in
  let! current_fork :=
    match cur_itr with
    | Some current_fork =>
        if negb (is_linked current_fork) && is_linked prev_fork_data then
          let current_fork := with_linked true current_fork in
          let! _ := recursive_mark_as_linked (next_blocks current_fork) in
          ret current_fork
        else ret current_fork
    | None => ret (with_linked (is_linked prev_fork_data) current_fork)
    end in
  let! _ := store_fork id current_fork in
  ret current_fork.

Definition index_fork (id prev : Z) : run fork_map block_fork_data :=
  let! prev_fork_data := index_previous id prev in index_current id prev_fork_data.

(** * The chain, and its operations *)

Notation block_state := (pending_chain_state chain_database).
(** The evaluation of a queued transaction is on a state above that of the queue. *)
Notation queued := (transaction_evaluation_state (pending_chain_state block_state)).

(** [block_record]. *)
Record block_record := BlockRecord {
  record_block :> digest_block; record_size : Z; random_seed : Z }.

(** [fee_index]: the highest fees first, the lowest id on ties. *)
Record fee_index := FeeIndex { fee_index_fees : Z; fee_index_trx : Z }.
#[export] Instance fee_index_eq_dec : EqDecision fee_index.
Proof. solve_decision. Defined.
Definition fee_index_eq (a b : fee_index) : bool :=
  (fee_index_fees a =? fee_index_fees b) && (fee_index_trx a =? fee_index_trx b).
Definition fee_index_lt (a b : fee_index) : bool :=
  if fee_index_fees a =? fee_index_fees b then fee_index_trx a <? fee_index_trx b
  else fee_index_fees b <? fee_index_fees a.

(** [std::map<fee_index, ...>]: a sorted association list; an equal key is replaced. *)
Fixpoint fee_store {A} (k : fee_index) (v : A) (l : list (fee_index * A)) : list (fee_index * A) :=
  match l with
  | [] => [(k, v)]
  | (k', v') :: l' =>
      if fee_index_lt k k' then (k, v) :: l
      else if fee_index_lt k' k then (k', v') :: fee_store k v l'
      else (k', v) :: l'
  end.

(** [chain_database_impl]. The pending state of the queue is a state above the database as
    it is now, see [queue_state]. *)
Record chain := Chain {
  db : chain_database;
  fork_number_db : gmap Z (list Z);
  fork_db : fork_map;
  undo_state_db : gmap Z block_state;
  block_num_to_id_db : gmap Z Z;
  block_id_to_block_record_db : gmap Z block_record;
  head_block_id : Z;
  pending_transaction_db : gmap Z signed_transaction;
  pending_fee_index : list (fee_index * queued);
  pending_trx_state : option block_state;
  chain_id : Z
}.

Definition with_db (d : chain_database) (c : chain) : chain :=
  Chain d (fork_number_db c) (fork_db c) (undo_state_db c) (block_num_to_id_db c)
    (block_id_to_block_record_db c) (head_block_id c) (pending_transaction_db c)
    (pending_fee_index c) (pending_trx_state c) (chain_id c).
Definition with_fork_number_db (m : gmap Z (list Z)) (c : chain) : chain :=
  Chain (db c) m (fork_db c) (undo_state_db c) (block_num_to_id_db c)
    (block_id_to_block_record_db c) (head_block_id c) (pending_transaction_db c)
    (pending_fee_index c) (pending_trx_state c) (chain_id c).
Definition with_fork_db (m : fork_map) (c : chain) : chain :=
  Chain (db c) (fork_number_db c) m (undo_state_db c) (block_num_to_id_db c)
    (block_id_to_block_record_db c) (head_block_id c) (pending_transaction_db c)
    (pending_fee_index c) (pending_trx_state c) (chain_id c).
Definition with_undo_state_db (m : gmap Z block_state) (c : chain) : chain :=
  Chain (db c) (fork_number_db c) (fork_db c) m (block_num_to_id_db c)
    (block_id_to_block_record_db c) (head_block_id c) (pending_transaction_db c)
    (pending_fee_index c) (pending_trx_state c) (chain_id c).
Definition with_block_num_to_id_db (m : gmap Z Z) (c : chain) : chain :=
  Chain (db c) (fork_number_db c) (fork_db c) (undo_state_db c) m
    (block_id_to_block_record_db c) (head_block_id c) (pending_transaction_db c)
    (pending_fee_index c) (pending_trx_state c) (chain_id c).
Definition with_block_record_db (m : gmap Z block_record) (c : chain) : chain :=
  Chain (db c) (fork_number_db c) (fork_db c) (undo_state_db c) (block_num_to_id_db c)
    m (head_block_id c) (pending_transaction_db c)
    (pending_fee_index c) (pending_trx_state c) (chain_id c).
Definition with_head_block_id (id : Z) (c : chain) : chain :=
  Chain (db c) (fork_number_db c) (fork_db c) (undo_state_db c) (block_num_to_id_db c)
    (block_id_to_block_record_db c) id (pending_transaction_db c)
    (pending_fee_index c) (pending_trx_state c) (chain_id c).
Definition with_head_block_header (h : signed_block_header) (c : chain) : chain :=
  with_db (db_with_head h (db c)) c.
Definition with_pending_transaction_db (m : gmap Z signed_transaction) (c : chain) : chain :=
  Chain (db c) (fork_number_db c) (fork_db c) (undo_state_db c) (block_num_to_id_db c)
    (block_id_to_block_record_db c) (head_block_id c) m
    (pending_fee_index c) (pending_trx_state c) (chain_id c).
Definition with_pending_fee_index (l : list (fee_index * queued)) (c : chain) : chain :=
  Chain (db c) (fork_number_db c) (fork_db c) (undo_state_db c) (block_num_to_id_db c)
    (block_id_to_block_record_db c) (head_block_id c) (pending_transaction_db c)
    l (pending_trx_state c) (chain_id c).
Definition with_pending_trx_state (s : option block_state) (c : chain) : chain :=
  Chain (db c) (fork_number_db c) (fork_db c) (undo_state_db c) (block_num_to_id_db c)
    (block_id_to_block_record_db c) (head_block_id c) (pending_transaction_db c)
    (pending_fee_index c) s (chain_id c).

(** The computations of the members of [chain_database_impl]. *)
Definition on_fork_db {A} (m : run fork_map A) : run chain A := on_part fork_db with_fork_db m.

(** A [level_map] is read in the order of its keys. *)
Definition key_le {A} (a b : Z * A) : Prop := a.1 <= b.1.
#[export] Instance key_le_dec {A} (a b : Z * A) : Decision (key_le a b).
Proof. unfold key_le. apply _. Defined.
Definition level_list {A} (m : gmap Z A) : list (Z * A) := merge_sort key_le (map_to_list m).

Section Chain.
Context `{FC : Fc} `{FT : FcTransaction} `{FBl : FcBlock} `{FO : FcOperations} `{FB : FcBigint}.
Implicit Types (c : chain) (b : full_block) (s : block_state).

(** ** Blocks that were stored *)

(** [*get_block_record( id )]: the optional is not tested. *)
Definition get_block_header c (id : Z) : result signed_block_header :=
  let* r := deref (block_id_to_block_record_db c !! id : option block_record) in
  Ok (digest_header r).

(** [get_block]: the transactions are those stored under the ids of the block. *)
Definition get_block c (id : Z) : result full_block :=
  let* r := fetch id (block_id_to_block_record_db c) : result block_record in
  let* trxs := foldM (fun trxs trx_id =>
      let* t := get_transaction (db c) trx_id in
      let* t := value_or_throw t unknown_transaction in
      Ok (trxs ++ [record_trx t])) [] (user_transaction_ids r) in
  Ok (FullBlock r trxs).

Definition fetch_blocks_at_number c (num : Z) : list Z := default [] (fork_number_db c !! num).
Definition get_block_fork_data c (id : Z) : option block_fork_data := fork_db c !! id.
Definition is_known_block c (id : Z) : bool :=
  match get_block_fork_data c id with Some f => is_known f | None => false end.
Definition is_included_block c (id : Z) : bool :=
  match get_block_fork_data c id with Some f => is_included f | None => false end.

Definition block_record_of c b : result block_record :=
  let* seed := get_current_random_seed (db c) in
  Ok (BlockRecord (digest_block_of b) (block_size b) seed).

(** [store_and_index]. *)
Definition store_and_index (id : Z) b : run chain block_fork_data :=
  let! r := reads (fun c => block_record_of c b) in
  let! _ := modify (fun c =>
    with_block_record_db (<[id := r]> (block_id_to_block_record_db c)) c) in
  let! _ := modify (fun c =>
    let parallel_blocks := fetch_blocks_at_number c (block_num b) in
    if bool_decide (id ∈ parallel_blocks) then c
    else with_fork_number_db (<[block_num b := parallel_blocks ++ [id]]> (fork_number_db c)) c) in
  on_fork_db (index_fork id (previous b)).

(** ** The queue of pending transactions *)

(** [_pending_trx_state]: made when there is none; its previous state is the database. *)
Definition queue_state c : block_state :=
  match pending_trx_state c with
  | Some s => set_prev_state s (Some (db c))
  | None => create (Some (db c))
  end.

(** [evaluate_transaction]: the changes go to the state of the queue. *)
Definition evaluate_transaction (t : signed_transaction) : run chain queued :=
  let! _ := modify (fun c => with_pending_trx_state (Some (queue_state c)) c) in
  let! e := reads (fun c => evaluate t (eval_state_new (create (Some (queue_state c))) (chain_id c))) in
  let! _ := modify (fun c =>
    with_pending_trx_state (Some (apply_changes (current_state e) (queue_state c))) c) in
  ret e.

(** What is stored for a transaction that evaluates. *)
Definition enqueue (id : Z) (t : signed_transaction) : run chain queued :=
  let! e := evaluate_transaction t in
  let! _ := modify (fun c =>
    with_pending_fee_index (fee_store (FeeIndex (get_fees e 0) id) e (pending_fee_index c)) c) in
  let! _ := modify (fun c =>
    with_pending_transaction_db (<[id := t]> (pending_transaction_db c)) c) in
  ret e.

Definition store_pending_transaction (t : signed_transaction) : run chain (option queued) :=
  let id := trx_id t in
  let! known := reads (fun c => Ok (bool_decide (is_Some (pending_transaction_db c !! id)))) in
  if known : bool then ret None
  else let! e := enqueue id t in ret (Some e).

Definition get_pending_transactions c : list queued := map snd (pending_fee_index c).

Definition remove_pending (ids : list Z) c : chain :=
  with_pending_transaction_db (foldl (fun m id => delete id m) (pending_transaction_db c) ids) c.

(** A transaction that is no longer valid is discarded. *)
Definition requeue (discard : list Z) (kv : Z * signed_transaction) : run chain (list Z) :=
  let id := trx_id kv.2 in
  try_catch (let! _ := enqueue id kv.2 in ret discard) (fun _ => ret (discard ++ [id])).

Definition clear_pending b : run chain unit :=
  let! _ := modify (remove_pending (map trx_id (user_transactions b))) in
  let! _ := modify (with_pending_fee_index []) in
  let! _ := modify (fun c => with_pending_trx_state (Some (create (Some (db c)))) c) in
  let! trxs := reads (fun c => Ok (level_list (pending_transaction_db c))) in
  let! trx_to_discard := run_fold requeue [] trxs in
  modify (remove_pending trx_to_discard).

(** ** Extending the chain *)

(** [verify_header], in the order of its tests. *)
Definition verify_header c b : result unit :=
  let h := head_block_header (db c) in
  let* _ := throw_if (negb (block_num b =? uint32 (block_num h + 1))) block_numbers_not_sequential in
  let* _ := throw_if (negb (previous b =? head_block_id c)) invalid_previous_block_id in
  let* _ := throw_if (negb (Z.rem (timestamp b) BTS_BLOCKCHAIN_BLOCK_INTERVAL_SEC =? 0))
              invalid_block_time in
  let* _ := throw_if (timestamp b <=? timestamp h) time_in_past in
  let* _ := FC_ASSERT (timestamp b <=? wall_clock (db c) + Z.quot BTS_BLOCKCHAIN_BLOCK_INTERVAL_SEC 2) in
  let* rate := get_fee_rate (db c) in
  let* _ := FC_ASSERT (fee_rate b =? next_fee rate (block_size b)) in
  let* _ := FC_ASSERT (validate_digest (digest_block_of b)) in
  let* _ := FC_ASSERT (validate_unique (digest_block_of b)) in
  let* _ := get_signing_delegate_id (db c) (timestamp b) in
  let* key := get_signing_delegate_key (db c) (timestamp b) in
  let* ok := validate_signee b key in
  FC_ASSERT ok.

(** [apply_transactions]: every transaction on the same pending state. *)
Fixpoint apply_transactions (chain_id num trx_num : Z) (trxs : list signed_transaction) s
    : result block_state :=
  match trxs with
  | [] => Ok s
  | t :: trxs =>
      let* e := evaluate t (eval_state_new s chain_id) in
      let s := store_transaction (current_state e) (trx_id t)
                 (TransactionRecord t (TransactionLocation num trx_num)) in
      apply_transactions chain_id num (uint32 (trx_num + 1)) trxs s
  end.

(** The changes a block makes: the pending state of [extend_chain]. *)
Definition block_changes c b : result block_state :=
  let* s := update_delegate_production_info (db c) b (create (Some (db c))) in
  let* s := apply_transactions (chain_id c) (block_num b) 0 (user_transactions b) s in
  let* s := pay_delegate (db c) (timestamp b) (delegate_pay_rate b) s in
  let* s := update_active_delegate_list (db c) b s in
  update_random_seed (previous_secret b) s.

Definition save_undo_state (id : Z) s : run chain unit :=
  let! u := reads (fun _ => get_undo_state s (create None)) in
  modify (fun c => with_undo_state_db (<[id := u]> (undo_state_db c)) c).

Definition update_head_block b : run chain unit :=
  let! _ := modify (with_head_block_header b) in
  let! _ := modify (with_head_block_id (block_id b)) in
  let! r := reads (fun c => block_record_of c b) in
  modify (fun c => with_block_record_db (<[block_id b := r]> (block_id_to_block_record_db c)) c).

(** The block between [try] and [catch] in [extend_chain]. *)
Definition apply_block b : run chain unit :=
  let id := block_id b in
  let! _ := reads (fun c => verify_header c b) in
  let! s := reads (fun c => block_changes c b) in
  let! _ := save_undo_state id s in
  let! _ := modify (fun c => with_db (apply_changes s (db c)) c) in
  let! _ := on_fork_db (mark_included id true) in
  let! _ := update_head_block b in
  let! _ := clear_pending b in
  modify (fun c => with_block_num_to_id_db (<[block_num b := id]> (block_num_to_id_db c)) c).

(** [extend_chain]: a block that throws is marked invalid, with all blocks after it. *)
Definition extend_chain b : run chain unit :=
  try_catch (apply_block b)
    (fun e => let! _ := on_fork_db (mark_invalid (block_id b)) in raise e).

(** ** Undoing the last block *)
Definition pop_block : run chain unit :=
  let! h := reads (fun c => Ok (head_block_header (db c))) in
  let! id := reads (fun c => Ok (head_block_id c)) in
  let! _ := reads (fun _ => FC_ASSERT (0 <? block_num h)) in
  let! _ := on_fork_db (mark_included id false) in
  let! _ := modify (fun c =>
    with_block_num_to_id_db (delete (block_num h) (block_num_to_id_db c)) c) in
  let! undo_state := reads (fun c => fetch id (undo_state_db c)) in
  let! _ := modify (fun c => with_db (apply_changes undo_state (db c)) c) in
  let! _ := modify (with_head_block_id (previous h)) in
  let! h := reads (fun c => get_block_header c (previous h)) in
  modify (with_head_block_header h).

(** ** Forks *)

(** The loop of [get_fork_history]: the ids after [next_id], up to one that is included. *)
Fixpoint fork_history_from (fuel : nat) c (next_id : Z) : result (list Z) :=
  match fuel with
  | O => Throw does_not_return
  | S fuel =>
      let* h := get_block_header c next_id in
      if previous h =? 0 then Ok [previous h]
      else
        let* prev_fork_data := fetch (previous h) (fork_db c) in
        let* _ := FC_ASSERT (is_linked prev_fork_data) in
        if is_included prev_fork_data then Ok [previous h]
        else
          let* rest := fork_history_from fuel c (previous h) in
          Ok (previous h :: rest)
  end.
(** Blocks of different ids are at most as many as there are records. *)
Definition get_fork_history c (id : Z) : result (list Z) :=
  let* l := fork_history_from (S (size (block_id_to_block_record_db c))) c id in Ok (id :: l).

(** [while( history.back() != _head_block_id ) pop_block()]. *)
Fixpoint pop_until (fuel : nat) (id : Z) : run chain unit :=
  let! head := reads (fun c => Ok (head_block_id c)) in
  if id =? head then ret tt
  else match fuel with
       | O => raise does_not_return
       | S fuel => let! _ := pop_block in pop_until fuel id
       end.

Definition switch_to_fork (id : Z) : run chain unit :=
  let! history := reads (fun c => get_fork_history c id) in
  let! fuel := reads (fun c => Ok (S (Z.to_nat (block_num (head_block_header (db c)))))) in
  let! _ := pop_until fuel (List.last history 0) in
  run_each (fun id => let! b := reads (fun c => get_block c id) in extend_chain b)
    (rev (removelast history)).

(** [push_block]. *)
Definition push_block b : run chain block_fork_data :=
  let id := block_id b in
  let! current_head_id := reads (fun c => Ok (head_block_id c)) in
  let! fork := store_and_index id b in
  let! head_num := reads (fun c => Ok (block_num (head_block_header (db c)))) in
  let new_fork_data := reads (fun c => value_or_throw (get_block_fork_data c id) assert_exception) in
  if previous b =? current_head_id then
    let! _ := extend_chain b in new_fork_data
  else if can_link fork && (head_num <? block_num b) then
    try_catch (let! _ := switch_to_fork id in new_fork_data)
      (fun _ => let! _ := switch_to_fork current_head_id in ret fork)
  else ret fork.

(** ** Generating a block *)

(** One turn of the loop: the transactions taken, their size, the state they leave and
    whether the loop goes on. *)
Record generation := Generation {
  taken : list signed_transaction; taken_size : Z; generation_state : block_state }.

Definition try_transaction (chain_id : Z) (t : signed_transaction) s : result (option block_state) :=
  match evaluate t (eval_state_new (create (Some s)) chain_id) with
  | Ok e => Ok (Some (apply_changes (current_state e) s))
  | Throw e => if is_fc_exception e then Ok None else Throw e
  end.

(** The fees added up in the loop are overwritten after it. A transaction that throws stays
    in the size. *)
Fixpoint take_transactions (chain_id : Z) (trxs : list signed_transaction) (g : generation)
    : result generation :=
  match trxs with
  | [] => Ok g
  | t :: trxs =>
      let size := uint64 (taken_size g + data_size t) in
      if BTS_BLOCKCHAIN_MAX_BLOCK_SIZE <? size then Ok g
      else
        let* evaluated := try_transaction chain_id t (generation_state g) in
        take_transactions chain_id trxs
          (match evaluated with
           | Some s => Generation (taken g ++ [t]) size s
           | None => Generation (taken g) size (generation_state g)
           end)
  end.

Definition generate_block c (time : Z) : result full_block :=
  let* g := take_transactions (chain_id c) (map trx (get_pending_transactions c))
              (Generation [] 0 (create (Some (db c)))) in
  let h := head_block_header (db c) in
  Ok (FullBlock
    (SignedBlockHeader
       (BlockHeader (head_block_id c) (uint32 (block_num h + 1))
          (next_fee (fee_rate h) (taken_size g))
          (next_delegate_pay (delegate_pay_rate h) BTS_BLOCKCHAIN_BLOCK_REWARD)
          time (hash_ids (map trx_id (taken g))) 0 0) 0)
    (taken g)).
End Chain.
