(* ===== verification/Conservation.v ===== *)
(** Conservation of shares: what an operation takes from the records of the chain is in the
    balance of the evaluation state, what it puts there comes from it, and what remains at
    the end leaves the supply as fees. For every asset the shares that exist (in balances, in
    delegates' pay, in market orders) less the supply of its record do not change, modulo
    the [2^64] of the arithmetic. *)
From S2P Require Import Prelude Errors Asset Records ChainInterface EvalState Operations.
From S2P Require Import Totals.

(** ** The shares that exist *)
Section Circulating.
(** The asset in which the orders at an index are; the code finds orders by their ratio and
    owner only. *)
Context (bid_asset ask_asset : Z * Z -> Z).

Definition balance_in (a : Z) (_ : Z) (r : balance_record) : Z :=
  if condition_asset_id (condition r) =? a then balance r else 0.
Definition pay_in (a : Z) (_ : Z) (r : account_record) : Z :=
  if a =? 0 then match delegate_info r with Some d => pay_balance d | None => 0 end else 0.
Definition order_in (order_asset : Z * Z -> Z) (a : Z) (k : Z * Z) (r : order_record) : Z :=
  if order_asset k =? a then order_balance r else 0.

Definition circulating (l : ledger) (a : Z) : Z :=
  total (balance_in a) (l_balances l) + total (pay_in a) (l_accounts l)
  + total (order_in bid_asset a) (l_bids l) + total (order_in ask_asset a) (l_asks l).
Definition supply (l : ledger) (a : Z) : Z :=
  match l_assets l !! a with Some r => current_share_supply r | None => 0 end.
Definition excess (l : ledger) (a : Z) : Z := circulating l a - supply l a.

(** Records are stored under their own ids. *)
Record keyed `{Fc} (l : ledger) : Prop := {
  keyed_assets id r : l_assets l !! id = Some r -> asset_record_id r = id;
  keyed_balances id r : l_balances l !! id = Some r -> balance_id r = id;
  keyed_accounts id r : l_accounts l !! id = Some r -> account_id r = id
}.

(** No record has an id above the last one given out, and [k] more ids can be given out
    before they wrap. *)
Definition ids_below {A} (m : gmap Z A) (prop : Z) (k : Z) (l : ledger) : Prop :=
  exists n, l_props l !! prop = Some (variant_int n) /\ - 2 ^ 31 <= n /\ n + k < 2 ^ 31 /\
    forall id r, m !! id = Some r -> id <= n.
Record wf `{Fc} (k : Z) (l : ledger) : Prop := {
  wf_keyed : keyed l;
  wf_assets : ids_below (l_assets l) last_asset_id_prop k l;
  wf_accounts : ids_below (l_accounts l) last_account_id_prop k l
}.
End Circulating.

(** ** How storing a record changes the excess *)
Section Excess.
Context `{Fc} (bid_asset ask_asset : Z * Z -> Z).
Notation excess := (excess bid_asset ask_asset).

Lemma excess_put_balance r l a :
  excess (put_balance true r l) a =
    excess l a - at_key (balance_in a) (l_balances l) (balance_id r) + balance_in a (balance_id r) r.
Proof. unfold excess, circulating, supply, put_balance, put. cbn. rewrite total_insert. lia. Qed.

Lemma excess_put_account r l a :
  excess (put_account true r l) a =
    excess l a - at_key (pay_in a) (l_accounts l) (account_id r) + pay_in a (account_id r) r.
Proof. unfold excess, circulating, supply, put_account, put. cbn. rewrite total_insert. lia. Qed.

Lemma excess_put_bid k r l a :
  excess (put_bid true k r l) a =
    excess l a - at_key (order_in bid_asset a) (l_bids l) (index_of k)
    + order_in bid_asset a (index_of k) r.
Proof. unfold excess, circulating, supply, put_bid, put. cbn. rewrite total_insert. lia. Qed.

Lemma excess_put_ask k r l a :
  excess (put_ask true k r l) a =
    excess l a - at_key (order_in ask_asset a) (l_asks l) (index_of k)
    + order_in ask_asset a (index_of k) r.
Proof. unfold excess, circulating, supply, put_ask, put. cbn. rewrite total_insert. lia. Qed.

Lemma excess_put_asset r l a :
  excess (put_asset true r l) a =
    excess l a + (if asset_record_id r =? a then supply l a - current_share_supply r else 0).
Proof.
  unfold excess, circulating, supply, put_asset, put. cbn.
  destruct (Z.eqb_spec (asset_record_id r) a) as [->|].
  - rewrite lookup_insert_eq. destruct (l_assets l !! a); lia.
  - rewrite lookup_insert_ne by done. lia.
Qed.

Lemma excess_put_prop id v l a : excess (put_prop true id v l) a = excess l a.
Proof. done. Qed.
End Excess.

(** ** Well-formedness is kept *)
Section Wf.
Context `{Fc}.

Lemma ids_below_mono {A} (m : gmap Z A) p k k' l : k' <= k -> ids_below m p k l -> ids_below m p k' l.
Proof. intros ? (n & ? & ? & ? & ?). exists n. repeat split; try done. lia. Qed.

Lemma wf_mono k k' l : k' <= k -> wf k l -> wf k' l.
Proof. intros ? [? ? ?]. split; [done|by eapply ids_below_mono..]. Qed.

Lemma wf_put_balance k r l : wf k l -> wf k (put_balance true r l).
Proof.
  intros [[Ka Kb Kc] Ha Hc]. split; [split|done|done]; cbn; auto. intros id r'. cbn.
  destruct (decide (balance_id r = id)) as [<-|Hne].
  - rewrite lookup_insert_eq. congruence.
  - rewrite lookup_insert_ne by done. apply Kb.
Qed.

Lemma wf_put_bid k key r l : wf k l -> wf k (put_bid true key r l).
Proof. intros [[Ka Kb Kc] Ha Hc]. split; [split|done|done]; done. Qed.
Lemma wf_put_ask k key r l : wf k l -> wf k (put_ask true key r l).
Proof. intros [[Ka Kb Kc] Ha Hc]. split; [split|done|done]; done. Qed.

Lemma ids_below_insert {A} (m : gmap Z A) p k l id r r0 :
  m !! id = Some r0 -> ids_below m p k l -> ids_below (<[id := r]> m) p k l.
Proof.
  intros Hid (n & Hn & ? & ? & Hall). exists n. repeat split; try done. intros id' r'.
  destruct (decide (id = id')) as [<-|Hne].
  - intros _. by apply (Hall id r0).
  - rewrite lookup_insert_ne by done. apply Hall.
Qed.

(** Updating a record that exists. *)
Lemma wf_put_account k r r0 l :
  l_accounts l !! account_id r = Some r0 -> wf k l -> wf k (put_account true r l).
Proof.
  intros Hr [[Ka Kb Kc] Ha Hc].
  split; [split|done|exact (ids_below_insert _ _ _ _ _ r r0 Hr Hc)]; cbn; auto.
  intros id r'. destruct (decide (account_id r = id)) as [<-|Hne].
  - rewrite lookup_insert_eq. congruence.
  - rewrite lookup_insert_ne by done. apply Kc.
Qed.

Lemma wf_put_asset k r r0 l :
  l_assets l !! asset_record_id r = Some r0 -> wf k l -> wf k (put_asset true r l).
Proof.
  intros Hr [[Ka Kb Kc] Ha Hc].
  split; [split|exact (ids_below_insert _ _ _ _ _ r r0 Hr Ha)|done]; cbn; auto.
  intros id r'. destruct (decide (asset_record_id r = id)) as [<-|Hne].
  - rewrite lookup_insert_eq. congruence.
  - rewrite lookup_insert_ne by done. apply Ka.
Qed.

(** Giving out the next id, and storing a record under it. *)
Lemma ids_below_new {A} (m : gmap Z A) p k l r n l' :
  ids_below m p (k + 1) l -> l_props l !! p = Some (variant_int n) ->
  l_props l' !! p = Some (variant_int (n + 1)) ->
  ids_below (<[n + 1 := r]> m) p k l'.
Proof.
  intros (n' & Hn' & ? & ? & Hall) Hn Hl'. rewrite Hn in Hn'. injection Hn' as <-.
  exists (n + 1). repeat split; [done|lia|lia|]. intros id r'.
  destruct (decide (n + 1 = id)) as [<-|]; [lia|]. rewrite lookup_insert_ne by done.
  intros Hid. specialize (Hall _ _ Hid). lia.
Qed.

Lemma ids_below_props {A} (m : gmap Z A) p k l l' :
  l_props l' !! p = l_props l !! p -> ids_below m p (k + 1) l -> ids_below m p k l'.
Proof.
  intros E (n & Hn & ? & ? & Hall). exists n. rewrite E. repeat split; try done. lia.
Qed.

Lemma wf_new_asset k r l n :
  wf (k + 1) l -> l_props l !! last_asset_id_prop = Some (variant_int n) ->
  asset_record_id r = n + 1 ->
  wf k (put_asset true r (put_prop true last_asset_id_prop (variant_int (n + 1)) l)).
Proof.
  intros [[Ka Kb Kc] Ha Hc] Hn Hr. split; [split| | ]; cbn; auto.
  - intros id r'. rewrite Hr. destruct (decide (n + 1 = id)) as [<-|].
    + rewrite lookup_insert_eq. congruence.
    + rewrite lookup_insert_ne by done. apply Ka.
  - rewrite Hr. eapply ids_below_new; [done|done|]. cbn. by rewrite lookup_insert_eq.
  - eapply ids_below_props; [|done]. cbn. by rewrite lookup_insert_ne.
Qed.

Lemma wf_new_account k r l n :
  wf (k + 1) l -> l_props l !! last_account_id_prop = Some (variant_int n) ->
  account_id r = n + 1 ->
  wf k (put_account true r (put_prop true last_account_id_prop (variant_int (n + 1)) l)).
Proof.
  intros [[Ka Kb Kc] Ha Hc] Hn Hr. split; [split| | ]; cbn; auto.
  - intros id r'. rewrite Hr. destruct (decide (n + 1 = id)) as [<-|].
    + rewrite lookup_insert_eq. congruence.
    + rewrite lookup_insert_ne by done. apply Kc.
  - eapply ids_below_props; [|done]. cbn. by rewrite lookup_insert_ne.
  - rewrite Hr. eapply ids_below_new; [done|done|]. cbn. by rewrite lookup_insert_eq.
Qed.

(** Other properties hold no id. *)
Lemma wf_put_prop k id v l :
  id <> last_asset_id_prop -> id <> last_account_id_prop -> wf k l -> wf k (put_prop true id v l).
Proof.
  intros H1 H2 [[Ka Kb Kc] (n & ? & ?) (n' & ? & ?)]. split; [by split| | ].
  - exists n. cbn. by rewrite lookup_insert_ne.
  - exists n'. cbn. by rewrite lookup_insert_ne.
Qed.
End Wf.

(** ** The flow through the evaluation state *)
Section Flow.
Context {S : Type} `{FC : Fc} `{FT : FcTransaction} `{FBl : FcBlock} `{FO : FcOperations} `{FB : FcBigint}.
Context `{CI : ChainInterface S} `{CV : !ChainView S} `{CS : !ChainStores S}.
Context (Hov : overlay = true).
Context (bid_asset ask_asset : Z * Z -> Z).
Notation eval_state := (transaction_evaluation_state S).
Notation excess := (excess bid_asset ask_asset).
Implicit Types e : eval_state.

Definition ledger_at e : ledger := ledger_of (current_state e).
Definition flow e (a : Z) : Z := excess (ledger_at e) a + get_fees e a.

(** [e'] differs from [e] neither in the chain's state nor in the balance. *)
Definition same_books e e' : Prop :=
  current_state e' = current_state e /\ eval_balance e' = eval_balance e.

Lemma same_books_refl e : same_books e e.
Proof. done. Qed.
Lemma same_books_trans e1 e2 e3 : same_books e1 e2 -> same_books e2 e3 -> same_books e1 e3.
Proof. intros [] []. split; congruence. Qed.
Lemma same_add_vote e d x : same_books e (add_vote e d x).
Proof. unfold add_vote. repeat case_if; done. Qed.
Lemma same_sub_vote e d x : same_books e (sub_vote e d x).
Proof. unfold sub_vote. repeat case_if; done. Qed.
Lemma same_required_fee e f e' : add_required_fee e f = Ok e' -> same_books e e'.
Proof. unfold add_required_fee. intros. by inv_ok. Qed.
Lemma same_required_deposit e o x e' : add_required_deposit e o x = Ok e' -> same_books e e'.
Proof. unfold add_required_deposit. intros. by inv_ok. Qed.
Lemma same_check_condition e op r e' : check_condition e op r = Ok e' -> same_books e e'.
Proof.
  unfold check_condition. intros. inv_run; try done. by eapply same_required_deposit.
Qed.
Lemma same_signatures d sigs e e' : collect_signatures d sigs e = Ok e' -> same_books e e'.
Proof.
  unfold collect_signatures. revert e. induction sigs as [|sg sigs IH]; simpl; intros e He.
  - by inv_ok.
  - inv_ok. apply IH in He. exact He.
Qed.

Lemma flow_same e e' a : same_books e e' -> flow e' a = flow e a.
Proof. intros [E1 E2]. unfold flow, ledger_at, get_fees. by rewrite E1, E2. Qed.

Lemma flow_with_state e s a : flow (with_state s e) a = excess (ledger_of s) a + get_fees e a.
Proof. done. Qed.

Lemma add_balance_books e x e' :
  add_balance e x = Ok e' ->
  current_state e' = current_state e /\
  forall a, get_fees e' a == get_fees e a + (if asset_id x =? a then amount x else 0).
Proof.
  unfold add_balance. intros. inv_ok. split; [done|]. intros a. unfold get_fees. cbn.
  destruct (Z.eqb_spec (asset_id x) a) as [->|].
  - rewrite lookup_insert_eq. cbn. destruct (eval_balance e !! a); cbn; eqm_lia.
  - rewrite lookup_insert_ne by done. eqm_lia.
Qed.

Lemma sub_balance_books e id x e' :
  sub_balance e id x = Ok e' ->
  current_state e' = current_state e /\
  forall a, get_fees e' a == get_fees e a - (if asset_id x =? a then amount x else 0).
Proof.
  unfold sub_balance. intros. inv_ok. split; [done|]. intros a. unfold get_fees. cbn.
  destruct (Z.eqb_spec (asset_id x) a) as [->|].
  - rewrite lookup_insert_eq. cbn. destruct (eval_balance e !! a); cbn; eqm_lia.
  - rewrite lookup_insert_ne by done. eqm_lia.
Qed.

(** What an operation must show: it keeps the ledger well-formed and the flow. *)
Definition conserves (k : Z) e e' : Prop :=
  wf k (ledger_at e') /\ forall a, flow e' a == flow e a.

Lemma conserves_same k e e' : same_books e e' -> wf k (ledger_at e) -> conserves k e e'.
Proof.
  intros Hs Hwf. split; [|intros a; by rewrite (flow_same _ _ _ Hs)].
  destruct Hs as [Es _]. unfold ledger_at. by rewrite Es.
Qed.

Lemma conserves_trans k e1 e2 e3 :
  conserves k e1 e2 -> (wf k (ledger_at e2) -> conserves k e2 e3) -> conserves k e1 e3.
Proof.
  intros [Hwf Hf] H2. destruct (H2 Hwf) as [Hwf3 Hf3]. split; [done|]. intros a.
  by rewrite Hf3.
Qed.

(** Storing a balance that grew by [d] after [d] left the balance of the evaluation. *)
Lemma store_balance_conserves k e e2 r d :
  wf k (ledger_at e) -> current_state e2 = current_state e ->
  match get_balance_record (current_state e) (balance_id r) with
  | Some r0 => condition r0 = condition r /\ balance r == balance r0 + d
  | None => balance r == d
  end ->
  (forall a, get_fees e2 a ==
     get_fees e a - (if condition_asset_id (condition r) =? a then d else 0)) ->
  conserves k e (with_state (store_balance_record (current_state e2) r) e2).
Proof.
  intros Hwf Es Hr Hfees. unfold conserves, ledger_at in *. cbn [current_state with_state].
  rewrite Es, ledger_store_balance, Hov. split; [by apply wf_put_balance|]. intros a.
  rewrite flow_with_state, ledger_store_balance, Hov, excess_put_balance, Hfees.
  unfold flow, ledger_at, at_key, balance_in. rewrite view_balance in Hr.
  destruct (l_balances _ !! balance_id r) as [r0|].
  - destruct Hr as [-> Hb]. destruct (_ =? a); [rewrite Hb|]; eqm_lia.
  - destruct (_ =? a); [rewrite Hr|]; eqm_lia.
Qed.

Lemma get_fees_same e e' a : same_books e e' -> get_fees e' a = get_fees e a.
Proof. intros [_ E]. unfold get_fees. by rewrite E. Qed.

(** The votes moved by an operation on the base asset do not touch the books. *)
Ltac same_votes Hs :=
  match goal with
  | |- context [if ?b then ?f ?e1 ?d ?x else ?e1] =>
      assert (Hs : same_books e1 (if b then f e1 d x else e1))
        by (case_if; [apply same_add_vote || apply same_sub_vote|done])
  end.

Lemma found_balance k e id r :
  wf k (ledger_at e) -> get_balance_record (current_state e) id = Some r -> balance_id r = id.
Proof. intros Hwf. rewrite view_balance. apply (keyed_balances _ (wf_keyed _ _ Hwf)). Qed.

Lemma deposit_conserves k op e e' :
  evaluate_deposit op e = Ok e' -> wf k (ledger_at e) -> conserves k e e'.
Proof.
  unfold evaluate_deposit. intros Hop Hwf.
  set (c0 := match get_balance_record _ _ with Some r => r | None => _ end) in *.
  inv_ok. cbn [condition] in *.
  match goal with H : sub_balance _ _ _ = Ok _ |- _ => apply sub_balance_books in H as [Es Hf] end.
  same_votes Hs.
  assert (Hid : balance_id c0 = get_address (deposit_condition op)).
  { unfold c0. destruct (get_balance_record _ _) eqn:E; [|done]. by eapply found_balance. }
  apply (store_balance_conserves _ _ _ _ (deposit_amount op)); [done| | |].
  - destruct Hs as [-> _]. done.
  - unfold balance_id in *. cbn [condition balance]. rewrite Hid.
    unfold c0. destruct (get_balance_record _ _); cbn; [split; [done|]|]; eqm_lia.
  - intros a. rewrite (get_fees_same _ _ _ Hs). apply Hf.
Qed.

Lemma withdraw_conserves k op e e' :
  evaluate_withdraw op e = Ok e' -> wf k (ledger_at e) -> conserves k e e'.
Proof.
  unfold evaluate_withdraw. intros Hop Hwf. inv_ok. cbn [condition] in *.
  match goal with
  | Hc : check_condition _ _ ?r = Ok _, Hg : get_balance_record _ _ = Some ?r |- _ =>
      pose proof (same_check_condition _ _ _ _ Hc) as Hs1;
      pose proof (found_balance _ _ _ _ Hwf Hg) as Hid; rename Hg into Hget
  end.
  match goal with H : add_balance _ _ = Ok _ |- _ => apply add_balance_books in H as [Es Hf] end.
  same_votes Hs.
  apply (store_balance_conserves _ _ _ _ (- withdraw_amount op)); [done| | |].
  - destruct Hs as [-> _], Hs1 as [<- _]. done.
  - unfold balance_id in *. cbn [condition balance]. rewrite Hid, Hget.
    split; [done|]. eqm_lia.
  - intros a. rewrite (get_fees_same _ _ _ Hs), Hf. cbn [amount asset_id condition].
    rewrite (get_fees_same _ _ _ Hs1). case_if; eqm_lia.
Qed.

(** ** Assets *)
Lemma found_asset k e id r :
  wf k (ledger_at e) -> get_asset_record (current_state e) id = Some r -> asset_record_id r = id.
Proof. intros Hwf. rewrite view_asset. apply (keyed_assets _ (wf_keyed _ _ Hwf)). Qed.

(** Storing a changed asset record whose supply grew by [d], which is in the balance. *)
Lemma store_asset_conserves k e e2 r r0 d :
  wf k (ledger_at e) -> current_state e2 = current_state e ->
  get_asset_record (current_state e) (asset_record_id r) = Some r0 ->
  current_share_supply r == current_share_supply r0 + d ->
  (forall a, get_fees e2 a == get_fees e a + (if asset_record_id r =? a then d else 0)) ->
  conserves k e (with_state (store_asset_record (current_state e2) r) e2).
Proof.
  intros Hwf Es Hr Hd Hfees. unfold conserves, ledger_at in *. cbn [current_state with_state].
  rewrite view_asset in Hr.
  rewrite Es, ledger_store_asset, Hov. split; [by eapply wf_put_asset|]. intros a.
  rewrite flow_with_state, ledger_store_asset, Hov, excess_put_asset, Hfees.
  unfold flow, ledger_at, supply. destruct (Z.eqb_spec (asset_record_id r) a) as [<-|].
  - rewrite Hr, Hd. eqm_lia.
  - eqm_lia.
Qed.

Lemma issue_conserves k op e e' :
  evaluate_issue_asset op e = Ok e' -> wf k (ledger_at e) -> conserves k e e'.
Proof.
  unfold evaluate_issue_asset. intros Hop Hwf. inv_ok.
  match goal with Hg : get_asset_record _ _ = Some ?r |- _ =>
      pose proof (found_asset _ _ _ _ Hwf Hg) as Hid; rename Hg into Hget end.
  match goal with H : add_balance _ _ = Ok _ |- _ => apply add_balance_books in H as [Es Hf] end.
  eapply (store_asset_conserves _ _ _ _ _ (amount (issue_amount op))); [done|done| | |];
    cbn [with_supply asset_record_id current_share_supply].
  - rewrite Hid. exact Hget.
  - eqm_lia.
  - intros a. rewrite Hid. apply Hf.
Qed.

Lemma update_asset_conserves k op e e' :
  evaluate_update_asset op e = Ok e' -> wf k (ledger_at e) -> conserves k e e'.
Proof.
  unfold evaluate_update_asset. intros Hop Hwf. inv_ok.
  match goal with Hg : get_asset_record _ _ = Some ?r |- _ =>
      pose proof (found_asset _ _ _ _ Hwf Hg) as Hid; rename Hg into Hget end.
  eapply (store_asset_conserves _ _ _ _ _ 0); [done|done| | |];
    cbn [asset_record_id current_share_supply].
  - rewrite Hid. exact Hget.
  - eqm_lia.
  - intros a. case_if; eqm_lia.
Qed.

(** A fresh id is above every record's. *)
Lemma new_id_fresh {A} (m : gmap Z A) p k l n :
  0 <= k -> ids_below m p (k + 1) l -> l_props l !! p = Some (variant_int n) ->
  int32 (n + 1) = n + 1 /\ m !! (n + 1) = None.
Proof.
  intros Hk (n' & Hn' & Hlo & Hhi & Hall) Hn. rewrite Hn in Hn'. injection Hn' as <-. split.
  - unfold int32. rewrite Z.mod_small; lia.
  - destruct (m !! (n + 1)) eqn:E; [|done]. specialize (Hall _ _ E). lia.
Qed.

Lemma new_asset_id_ok s id s' :
  new_asset_id s = Ok (id, s') ->
  exists n, l_props (ledger_of s) !! last_asset_id_prop = Some (variant_int n) /\
    id = int32 (n + 1) /\ s' = set_property s last_asset_id_prop (variant_int id).
Proof.
  unfold new_asset_id, last_asset_id. intros. inv_ok. destruct x0; try done. cbn in *. inv_ok.
  exists x. split; [|done]. by apply view_property.
Qed.

Lemma new_account_id_ok s id s' :
  new_account_id s = Ok (id, s') ->
  exists n, l_props (ledger_of s) !! last_account_id_prop = Some (variant_int n) /\
    id = int32 (n + 1) /\ s' = set_property s last_account_id_prop (variant_int id).
Proof.
  unfold new_account_id, last_account_id. intros. inv_ok. destruct x0; try done. cbn in *. inv_ok.
  exists x. split; [|done]. by apply view_property.
Qed.

Lemma create_asset_conserves k op e e' :
  0 <= k -> evaluate_create_asset op e = Ok e' -> wf (k + 1) (ledger_at e) -> conserves k e e'.
Proof.
  unfold evaluate_create_asset. intros Hk Hop Hwf. inv_ok.
  match goal with H : new_asset_id _ = Ok _ |- _ =>
    apply new_asset_id_ok in H as (n & Hn & -> & ->) end.
  match goal with H : add_required_fee _ _ = Ok _ |- _ => apply same_required_fee in H as Hs end.
  destruct (new_id_fresh _ _ _ _ n Hk (wf_assets _ _ Hwf) Hn) as [-> Hfresh].
  unfold conserves, ledger_at in *. cbn [current_state with_state].
  rewrite ledger_store_asset, ledger_set_property, Hov. split; [by apply wf_new_asset|].
  intros a. rewrite flow_with_state, ledger_store_asset, ledger_set_property, Hov.
  rewrite excess_put_asset, excess_put_prop, (get_fees_same _ _ _ Hs).
  unfold flow, ledger_at, supply. cbn [asset_record_id current_share_supply].
  destruct (Z.eqb_spec (n + 1) a) as [<-|]; [|eqm_lia]. cbn. rewrite Hfresh. eqm_lia.
Qed.

(** ** Accounts *)
Lemma found_account k e id r :
  wf k (ledger_at e) -> get_account_record (current_state e) id = Some r -> account_id r = id.
Proof. intros Hwf. rewrite view_account. apply (keyed_accounts _ (wf_keyed _ _ Hwf)). Qed.

Definition pay_of (r : account_record) : Z :=
  match delegate_info r with Some d => pay_balance d | None => 0 end.

(** Storing a changed account record whose pay grew by [d], which left the balance. *)
Lemma store_account_conserves k e e2 r r0 d :
  wf k (ledger_at e) -> current_state e2 = store_account_record (current_state e) r ->
  get_account_record (current_state e) (account_id r) = Some r0 ->
  pay_of r == pay_of r0 + d ->
  (forall a, get_fees e2 a == get_fees e a - (if 0 =? a then d else 0)) ->
  conserves k e e2.
Proof.
  intros Hwf Es Hr Hd Hfees. unfold conserves, ledger_at in *. rewrite view_account in Hr.
  rewrite Es, ledger_store_account, Hov. split; [by eapply wf_put_account|]. intros a.
  unfold flow, ledger_at. rewrite Es, ledger_store_account, Hov, excess_put_account, Hfees.
  unfold at_key, pay_in. rewrite Hr. fold (pay_of r) (pay_of r0). rewrite (Z.eqb_sym a).
  destruct (0 =? a); [rewrite Hd|]; eqm_lia.
Qed.

Lemma register_conserves k op e e' :
  0 <= k -> evaluate_register_account op e = Ok e' -> wf (k + 1) (ledger_at e) ->
  conserves k e e'.
Proof.
  unfold evaluate_register_account. intros Hk Hop Hwf. inv_ok.
  match goal with H : new_account_id _ = Ok _ |- _ =>
    apply new_account_id_ok in H as (n & Hn & -> & ->) end.
  destruct (new_id_fresh _ _ _ _ n Hk (wf_accounts _ _ Hwf) Hn) as [Hnw Hfresh].
  match goal with H : set_active_key _ _ _ = Ok ?r |- _ =>
    assert (Hr : account_id r = n + 1 /\ pay_of r = 0)
      by (unfold set_active_key in H; inv_ok; by rewrite Hnw) end.
  match goal with H : (if _ then _ else _) = Ok (?e2, ?r2) |- conserves _ _ (with_state (store_account_record _ ?r3) _) =>
    assert (Hs : same_books e e2 /\ account_id r3 = n + 1 /\ pay_of r3 = 0) end.
  { destruct Hr as [Hr Hp]. destruct (register_is_delegate op); inv_ok.
    - match goal with H : add_required_fee _ _ = Ok _ |- _ =>
        apply same_required_fee in H as Hs end. split_and!; [exact Hs|exact Hr|done].
    - split_and!; [done|exact Hr|exact Hp]. }
  destruct Hs as (Hs & Hid & Hpay).
  unfold conserves, ledger_at in *. cbn [current_state with_state].
  rewrite ledger_store_account, ledger_set_property, Hov, Hnw. split; [by apply wf_new_account|].
  intros a1. rewrite flow_with_state, ledger_store_account, ledger_set_property, Hov.
  rewrite excess_put_account, excess_put_prop, (get_fees_same _ _ _ Hs).
  unfold flow, ledger_at, at_key, pay_in. cbn [put_prop l_accounts].
  match goal with |- context [match delegate_info ?r3 with Some d => pay_balance d | None => 0 end] =>
    change (match delegate_info r3 with Some d => pay_balance d | None => 0 end)
      with (pay_of r3) end.
  rewrite Hid, Hfresh, Hpay. case_if; eqm_lia.
Qed.

Lemma withdraw_pay_conserves k op e e' :
  evaluate_withdraw_pay op e = Ok e' -> wf k (ledger_at e) -> conserves k e e'.
Proof.
  unfold evaluate_withdraw_pay. intros Hop Hwf. inv_ok.
  match goal with Hg : get_account_record _ _ = Some ?r, Hd : delegate_info ?r = Some ?d |- _ =>
    pose proof (found_account _ _ _ _ Hwf Hg) as Hid; rename Hg into Hget, Hd into Hdel,
      r into rec, d into st end.
  apply add_balance_books in Hop as [Es Hf].
  eapply (store_account_conserves _ _ _ _ rec (- pay_amount op)); [done|exact Es| | |].
  - cbn [account_id with_delegate_info]. rewrite Hid. exact Hget.
  - unfold pay_of. cbn [delegate_info with_delegate_info]. rewrite Hdel. cbn. eqm_lia.
  - intros a1. rewrite Hf. cbn [amount asset_id].
    change (get_fees (with_state ?s ?e2) a1) with (get_fees e2 a1).
    rewrite (get_fees_same _ _ _ (same_sub_vote e _ _)). case_if; eqm_lia.
Qed.

Lemma update_account_conserves k op e e' :
  evaluate_update_account op e = Ok e' -> wf k (ledger_at e) -> conserves k e e'.
Proof.
  unfold evaluate_update_account. intros Hop Hwf. inv_ok.
  match goal with Hg : get_account_record _ (update_account_id op) = Some ?r |- _ =>
    pose proof (found_account _ _ _ _ Hwf Hg) as Hid; rename Hg into Hget, r into rec end.
  set (r1 := match update_account_data op with Some _ => _ | None => _ end) in *.
  assert (Hr1 : account_id r1 = account_id rec /\ delegate_info r1 = delegate_info rec)
    by (unfold r1; destruct (update_account_data op); done).
  match goal with H : match update_active_key op with _ => _ end = Ok ?r |- _ =>
    assert (Hr2 : account_id r = account_id rec /\ delegate_info r = delegate_info rec)
      by (destruct (update_active_key op); unfold set_active_key in *; inv_ok; exact Hr1)
  end.
  match goal with |- conserves _ _ (with_state (store_account_record (current_state ?e2) ?r) _) =>
    assert (Hs : same_books e e2 /\ account_id r = account_id rec /\ pay_of r = pay_of rec) end.
  { destruct Hr1 as [F1 F2], Hr2 as [E1 E2]. unfold pay_of. rewrite <- E1, <- E2. clear E1 E2 F1 F2.
    match goal with H : (if _ then _ else _) = Ok _ |- _ => case_if_ok H end; inv_ok.
    - match goal with H : add_required_fee _ _ = Ok _ |- _ =>
        apply same_required_fee in H as Hs end. split_and!; [done|done|].
      match goal with H : negb (is_delegate ?r) && _ = true |- _ =>
        unfold is_delegate in H; by destruct (delegate_info r) end.
    - done. }
  destruct Hs as (Hs & Hi & Hp).
  eapply (store_account_conserves _ _ _ _ rec 0); [done| | | |].
  - cbn [current_state with_state]. by destruct Hs as [-> _].
  - rewrite Hi, Hid. exact Hget.
  - rewrite Hp. eqm_lia.
  - intros a1. change (get_fees (with_state ?s ?e2) a1) with (get_fees e2 a1).
    rewrite (get_fees_same _ _ _ Hs). case_if; eqm_lia.
Qed.

(** ** Proposals and firing *)
Lemma conserves_ledger k e e' :
  ledger_at e' = ledger_at e -> eval_balance e' = eval_balance e -> wf k (ledger_at e) ->
  conserves k e e'.
Proof.
  intros El Eb Hwf. split; [by rewrite El|]. intros a. unfold flow, get_fees. by rewrite El, Eb.
Qed.

Lemma submit_proposal_conserves k op e e' :
  evaluate_submit_proposal op e = Ok e' -> wf k (ledger_at e) -> conserves k e e'.
Proof.
  unfold evaluate_submit_proposal, new_proposal_id. intros Hop Hwf. inv_ok.
  unfold conserves, flow, ledger_at in *. cbn [current_state with_state].
  rewrite ledger_store_proposal, ledger_set_property, Hov.
  split; [by apply wf_put_prop|done].
Qed.

Lemma vote_proposal_conserves k op e e' :
  evaluate_vote_proposal op e = Ok e' -> wf k (ledger_at e) -> conserves k e e'.
Proof.
  unfold evaluate_vote_proposal. intros Hop Hwf. inv_ok. apply conserves_ledger; [|done|done].
  unfold ledger_at. cbn [current_state with_state]. apply ledger_store_vote.
Qed.

Lemma adjust_votes_same r r' f :
  adjust_votes_for f r = Ok r' \/ adjust_votes_against f r = Ok r' ->
  account_id r' = account_id r /\ pay_of r' = pay_of r.
Proof.
  unfold adjust_votes_for, adjust_votes_against, stats, pay_of.
  intros [H|H]; inv_ok;
    match goal with H : delegate_info _ = Some _ |- _ => by rewrite H end.
Qed.

(** Storing an account whose pay did not change. *)
Lemma store_votes_conserves k e r r0 :
  wf k (ledger_at e) -> get_account_record (current_state e) (account_id r0) = Some r0 ->
  account_id r = account_id r0 /\ pay_of r = pay_of r0 ->
  conserves k e (with_state (store_account_record (current_state e) r) e).
Proof.
  intros Hwf Hg [Hi Hp]. eapply (store_account_conserves _ _ _ _ r0 0); [done|done| | |].
  - by rewrite Hi.
  - rewrite Hp. eqm_lia.
  - intros a1. change (get_fees (with_state ?s ?e2) a1) with (get_fees e2 a1). case_if; eqm_lia.
Qed.

Lemma fire_same r r' : fire r = Ok r' -> account_id r' = account_id r /\ pay_of r' = pay_of r.
Proof.
  unfold fire. intros. inv_ok.
  match goal with H1 : adjust_votes_against _ r = Ok ?r1, H2 : adjust_votes_for _ ?r1 = Ok _ |- _ =>
    destruct (adjust_votes_same _ _ _ (or_intror H1)), (adjust_votes_same _ _ _ (or_introl H2))
  end. split; congruence.
Qed.

Lemma fire_conserves k op e e' :
  evaluate_fire_delegate op e = Ok e' -> wf k (ledger_at e) -> conserves k e e'.
Proof.
  unfold evaluate_fire_delegate. intros Hop Hwf.
  apply bind_ok in Hop as (r & Hr & Hop). cbv beta in Hop. inv_ok.
  pose proof (found_account _ _ _ _ Hwf Hr) as Hid. subst.
  inv_run; try (by apply conserves_same);
    (eapply store_votes_conserves; [done|rewrite Hid; exact Hr|by apply fire_same]).
Qed.

(** ** Market orders *)
Lemma move_order_books e amt delta current e' r :
  move_order_amount e amt delta current = Ok (e', r) -> amount delta = amt ->
  current_state e' = current_state e /\
  (forall a, get_fees e' a == get_fees e a - (if asset_id delta =? a then amt else 0)) /\
  r = match current with Some r => r | None => order_record_default end.
Proof.
  unfold move_order_amount. intros Hm Hd. case_if_ok Hm; inv_ok.
  - match goal with H : add_balance _ _ = Ok _ |- _ => apply add_balance_books in H as [Es Hf] end.
    split_and!; [done| |done]. intros a1. rewrite Hf. unfold asset_neg. cbn [asset_id amount].
    case_if; eqm_lia.
  - match goal with H : sub_balance _ _ _ = Ok _ |- _ => apply sub_balance_books in H as [Es Hf] end.
    by split_and!.
Qed.

(** Storing an order that grew by [d] after [d] left the balance, in the asset of its index. *)
Lemma store_bid_conserves k e e2 key r d :
  wf k (ledger_at e) -> current_state e2 = current_state e ->
  order_balance r ==
    match get_bid_record (current_state e) key with Some r0 => order_balance r0 | None => 0 end + d ->
  (forall a, get_fees e2 a == get_fees e a - (if bid_asset (index_of key) =? a then d else 0)) ->
  conserves k e (with_state (store_bid_record (current_state e2) key r) e2).
Proof.
  intros Hwf Es Hr Hfees. unfold conserves, ledger_at in *. cbn [current_state with_state].
  rewrite view_bid in Hr. rewrite Es, ledger_store_bid, Hov. split; [by apply wf_put_bid|].
  intros a. rewrite flow_with_state, ledger_store_bid, Hov, excess_put_bid, Hfees.
  unfold flow, ledger_at, at_key, order_in.
  destruct (_ =? a); [rewrite Hr|]; destruct (l_bids _ !! _); eqm_lia.
Qed.

Lemma store_ask_conserves k e e2 key r d :
  wf k (ledger_at e) -> current_state e2 = current_state e ->
  order_balance r ==
    match get_ask_record (current_state e) key with Some r0 => order_balance r0 | None => 0 end + d ->
  (forall a, get_fees e2 a == get_fees e a - (if ask_asset (index_of key) =? a then d else 0)) ->
  conserves k e (with_state (store_ask_record (current_state e2) key r) e2).
Proof.
  intros Hwf Es Hr Hfees. unfold conserves, ledger_at in *. cbn [current_state with_state].
  rewrite view_ask in Hr. rewrite Es, ledger_store_ask, Hov. split; [by apply wf_put_ask|].
  intros a. rewrite flow_with_state, ledger_store_ask, Hov, excess_put_ask, Hfees.
  unfold flow, ledger_at, at_key, order_in.
  destruct (_ =? a); [rewrite Hr|]; destruct (l_asks _ !! _); eqm_lia.
Qed.

Lemma order_default_balance (o : option order_record) :
  order_balance (match o with Some r => r | None => order_record_default end)
  = match o with Some r => order_balance r | None => 0 end.
Proof. by destruct o. Qed.

Lemma bid_conserves k op e e' :
  quote_asset_id (order_price (bid_index op)) = bid_asset (index_of (bid_index op)) ->
  evaluate_bid op e = Ok e' -> wf k (ledger_at e) -> conserves k e e'.
Proof.
  unfold evaluate_bid. intros Hasset Hop Hwf. inv_ok.
  match goal with H : move_order_amount _ _ _ _ = Ok _ |- _ =>
    apply move_order_books in H as (Es & Hf & ->); [|done] end.
  cbn [bid_get_amount asset_id] in *. rewrite Hasset in *.
  match goal with |- conserves _ _ (with_state (store_bid_record (current_state ?e2) _ _) _) =>
    assert (Hs : same_books t e2) end.
  { case_if; [|done]. eapply same_books_trans; [apply same_sub_vote|apply same_add_vote]. }
  apply (store_bid_conserves _ _ _ _ _ (bid_amount op)); [done| | |].
  - by destruct Hs as [-> _].
  - cbn [order_balance]. rewrite order_default_balance. eqm_lia.
  - intros a1. rewrite (get_fees_same _ _ _ Hs). apply Hf.
Qed.

Lemma ask_conserves k op e e' :
  base_asset_id (order_price (ask_index op)) = ask_asset (index_of (ask_index op)) ->
  evaluate_ask op e = Ok e' -> wf k (ledger_at e) -> conserves k e e'.
Proof.
  unfold evaluate_ask. intros Hasset Hop Hwf. inv_ok.
  match goal with H : move_order_amount _ _ _ _ = Ok _ |- _ =>
    apply move_order_books in H as (Es & Hf & ->); [|done] end.
  cbn [ask_get_amount asset_id] in *. rewrite Hasset in *.
  match goal with |- conserves _ _ (with_state (store_ask_record (current_state ?e2) _ _) _) =>
    assert (Hs : same_books t e2) end.
  { case_if; [|done]. eapply same_books_trans; [apply same_sub_vote|apply same_add_vote]. }
  apply (store_ask_conserves _ _ _ _ _ (ask_amount op)); [done| | |].
  - by destruct Hs as [-> _].
  - cbn [order_balance]. rewrite order_default_balance. eqm_lia.
  - intros a1. rewrite (get_fees_same _ _ _ Hs). apply Hf.
Qed.

(** ** Any operation *)

(** The market orders of an operation are in the asset of their index. *)
Definition orders_in_asset (op : operation) : Prop :=
  (forall o, op_type op = bid_op_type -> unpack_bid (op_data op) = Some o ->
     quote_asset_id (order_price (bid_index o)) = bid_asset (index_of (bid_index o))) /\
  (forall o, op_type op = ask_op_type -> unpack_ask (op_data op) = Some o ->
     base_asset_id (order_price (ask_index o)) = ask_asset (index_of (ask_index o))).

Lemma conserves_less k e e' : conserves (k + 1) e e' -> conserves k e e'.
Proof. intros [Hwf Hf]. split; [|done]. eapply wf_mono; [|done]. lia. Qed.

Lemma operation_conserves k op e e' :
  0 <= k -> orders_in_asset op -> evaluate_operation op e = Ok e' -> wf (k + 1) (ledger_at e) ->
  conserves k e e'.
Proof.
  intros Hk [Hbid Hask] Hop Hwf. unfold evaluate_operation, evaluate_as in Hop.
  repeat case_if_ok Hop; inv_ok;
    repeat match goal with H : (_ =? _) = true |- _ => apply Z.eqb_eq in H end;
    first
    [ by eapply create_asset_conserves
    | by eapply register_conserves
    | apply conserves_less;
      first [ by eapply withdraw_conserves | by eapply deposit_conserves
            | by eapply issue_conserves | by eapply update_asset_conserves
            | by eapply withdraw_pay_conserves | by eapply update_account_conserves
            | by eapply fire_conserves | by eapply submit_proposal_conserves
            | by eapply vote_proposal_conserves
            | eapply bid_conserves; [by eapply Hbid|done|done]
            | eapply ask_conserves; [by eapply Hask|done|done] ] ].
Qed.

Lemma operations_conserve ops k e e' :
  0 <= k -> Forall orders_in_asset ops ->
  foldM (fun e op => evaluate_operation op e) e ops = Ok e' ->
  wf (k + Z.of_nat (length ops)) (ledger_at e) -> conserves k e e'.
Proof.
  intros Hk. revert e. induction ops as [|op ops IH]; simpl; intros e Hall Hrun Hwf; inv_ok.
  - split; [|done]. by rewrite Z.add_0_r in Hwf.
  - apply Forall_cons_iff in Hall as [Hop Hall].
    match goal with H : evaluate_operation op e = Ok ?e1 |- _ =>
      assert (H1 : conserves (k + Z.of_nat (length ops)) e e1) end.
    { eapply operation_conserves; [lia|done|done|].
      eapply wf_mono; [|exact Hwf]. lia. }
    destruct H1 as [Hwf1 Hf1]. destruct (IH _ Hall Hrun Hwf1) as [Hwf2 Hf2].
    split; [done|]. intros a1. by rewrite Hf2.
Qed.

(** ** Fees leave the supply *)
Definition fees_in (l : list (Z * Z)) (a : Z) : Z :=
  foldr (fun kv acc => (if kv.1 =? a then kv.2 else 0) + acc) 0 l.

Lemma fees_in_cons kv l a : fees_in (kv :: l) a = (if kv.1 =? a then kv.2 else 0) + fees_in l a.
Proof. done. Qed.

Lemma fees_in_perm l l' a : Permutation l l' -> fees_in l a = fees_in l' a.
Proof. induction 1; simpl; lia. Qed.

Lemma fees_in_map (m : gmap Z Z) a : fees_in (map_to_list m) a = default 0 (m !! a).
Proof.
  induction m as [|k f m Hk IH] using map_ind; [done|].
  rewrite (fees_in_perm _ _ _ (map_to_list_insert _ _ _ Hk)), fees_in_cons, IH. cbn [fst snd].
  destruct (Z.eqb_spec k a) as [->|].
  - rewrite lookup_insert_eq, Hk. cbn. lia.
  - rewrite lookup_insert_ne by done. lia.
Qed.

Lemma collect_fee_books k e fee e' :
  collect_fee e fee = Ok e' -> wf k (ledger_at e) ->
  wf k (ledger_at e') /\ eval_balance e' = eval_balance e /\
  required_fees e' = required_fees e /\
  forall a, excess (ledger_at e') a == excess (ledger_at e) a + (if fee.1 =? a then fee.2 else 0).
Proof.
  unfold collect_fee. intros Hc Hwf. inv_ok. case_if_ok Hc; inv_ok.
  - match goal with Hg : get_asset_record _ _ = Some ?r |- _ =>
      pose proof (found_asset _ _ _ _ Hwf Hg) as Hid; rename Hg into Hget, r into rec end.
    rewrite view_asset in Hget. unfold ledger_at. cbn [current_state with_state].
    rewrite ledger_store_asset, Hov. split_and!; [|done|done|].
    + eapply wf_put_asset; [|exact Hwf]. cbn [asset_record_id with_supply]. rewrite Hid. exact Hget.
    + intros a1. rewrite excess_put_asset. cbn [asset_record_id current_share_supply with_supply].
      rewrite Hid. unfold supply. destruct (Z.eqb_spec fee.1 a1) as [<-|]; [|eqm_lia].
      rewrite Hget. eqm_lia.
  - split_and!; [done..|]. intros a1.
    repeat match goal with H : (_ <? _) = false |- _ => apply Z.ltb_ge in H end.
    case_if; eqm_lia.
Qed.

Lemma collect_fees_books k l e e' :
  foldM collect_fee e l = Ok e' -> wf k (ledger_at e) ->
  wf k (ledger_at e') /\
  forall a, excess (ledger_at e') a == excess (ledger_at e) a + fees_in l a.
Proof.
  revert e. induction l as [|fee l IH]; simpl; intros e Hc Hwf; inv_ok.
  - split; [done|]. intros a1. eqm_lia.
  - match goal with H : collect_fee _ _ = Ok _ |- _ =>
      destruct (collect_fee_books _ _ _ _ H Hwf) as (Hwf1 & _ & _ & Hx) end.
    destruct (IH _ Hc Hwf1) as [Hwf2 Hx2]. split; [done|]. intros a1. rewrite Hx2, Hx. eqm_lia.
Qed.

(** After the fees are collected the excess is what flowed. *)
Lemma post_evaluate_conserves k e e' :
  post_evaluate e = Ok e' -> wf k (ledger_at e) ->
  wf k (ledger_at e') /\ forall a, excess (ledger_at e') a == flow e a.
Proof.
  unfold post_evaluate. intros Hp Hwf. inv_ok.
  match goal with H : add_required_fee _ _ = Ok _ |- _ =>
    apply same_required_fee in H as Hs; destruct Hs as [Es Eb] end.
  match goal with H : foldM collect_fee _ _ = Ok _ |- _ =>
    destruct (collect_fees_books k _ _ _ H) as [Hwf2 Hx] end.
  { unfold ledger_at. by rewrite Es. }
  split; [done|]. intros a1. rewrite Hx, fees_in_map, Eb. unfold flow, ledger_at. by rewrite Es.
Qed.

Lemma delegate_votes_books k mx l e e' :
  foldM (update_delegate_vote mx) e l = Ok e' -> wf k (ledger_at e) ->
  wf k (ledger_at e') /\ forall a, excess (ledger_at e') a == excess (ledger_at e) a.
Proof.
  revert e. induction l as [|v l IH]; simpl; intros e Hl Hwf; inv_ok; [done|].
  match goal with H : update_delegate_vote _ _ _ = Ok ?e1 |- _ =>
    assert (Hc : conserves k e e1 /\ eval_balance e1 = eval_balance e) end.
  { unfold update_delegate_vote in *. inv_ok. split; [|done].
    match goal with Hg : get_account_record _ _ = Some ?r, H1 : adjust_votes_for _ ?r = Ok ?r1,
        H2 : adjust_votes_against _ ?r1 = Ok _ |- _ =>
      eapply (store_votes_conserves _ _ _ r); [done|by rewrite (found_account _ _ _ _ Hwf Hg)|];
      destruct (adjust_votes_same _ _ _ (or_introl H1)), (adjust_votes_same _ _ _ (or_intror H2))
    end. split; congruence. }
  destruct Hc as [[Hwf1 Hf] Eb]. destruct (IH _ Hl Hwf1) as [Hwf2 Hx]. split; [done|].
  intros a1. rewrite Hx. specialize (Hf a1). unfold flow, get_fees in Hf. rewrite Eb in Hf.
  transitivity (excess (ledger_at x) a1 + default 0 (eval_balance e !! a1)
                - default 0 (eval_balance e !! a1)); [eqm_lia|]. rewrite Hf. eqm_lia.
Qed.

(** ** A transaction *)
Lemma evaluate_excess k t e e' :
  0 <= k -> Forall orders_in_asset (operations t) ->
  evaluate t e = Ok e' -> wf (k + Z.of_nat (length (operations t))) (ledger_at e) ->
  wf k (ledger_at e') /\ forall a, excess (ledger_at e') a == excess (ledger_at e) a.
Proof.
  unfold evaluate. intros Hk Hall He Hwf. inv_ok.
  match goal with H : collect_signatures _ _ _ = Ok _ |- _ =>
    apply same_signatures in H as [Es Eb] end.
  match goal with H : foldM (fun e op => _) ?e1 _ = Ok _ |- _ =>
    destruct (operations_conserve _ k _ _ Hk Hall H) as [Hwf1 Hf1] end.
  { unfold ledger_at. rewrite Es. exact Hwf. }
  match goal with H : post_evaluate _ = Ok _ |- _ =>
    destruct (post_evaluate_conserves k _ _ H Hwf1) as [Hwf2 Hx2] end.
  unfold update_delegate_votes in He. inv_ok.
  destruct (delegate_votes_books k _ _ _ _ He Hwf2) as [Hwf3 Hx3].
  split; [done|]. intros a1. rewrite Hx3, Hx2, Hf1. unfold flow, get_fees, ledger_at.
  rewrite Es, Eb. cbn. rewrite lookup_empty. cbn. eqm_lia.
Qed.
End Flow.
