(* ===== verification/Closure.v ===== *)
(** What holds of a state and is kept by every store of records is kept by every
    operation and by the evaluation of a transaction: an operation changes the state only
    through the stores. *)
From S2P Require Import Prelude Errors Asset Records ChainInterface PendingState ChainDatabase.
From S2P Require Import EvalState Operations Conservation.

(** Kept by every store of accounts whose owner key, and of assets whose issuer, is among
    the given ones, as are those of the records found; and by every store of a balance that
    withdrawing from or depositing to one of the given ids makes. *)
Record store_closed {S} `{ChainInterface S} `{Fc} (Owner Issuer Withdrawn Deposited : Z -> Prop)
    (Stored : S -> balance_record -> Prop) (I : S -> Prop) : Prop := {
  found_asset s id r : I s -> get_asset_record s id = Some r -> Issuer (issuer_account_id r);
  found_account s id r : I s -> get_account_record s id = Some r -> Owner (owner_key r);
  closed_property s id v : I s -> I (set_property s id v);
  closed_bid s k r : I s -> I (store_bid_record s k r);
  closed_ask s k r : I s -> I (store_ask_record s k r);
  closed_proposal s r : I s -> I (store_proposal_record s r);
  closed_vote s v : I s -> I (store_proposal_vote s v);
  closed_asset s r : Issuer (issuer_account_id r) -> I s -> I (store_asset_record s r);
  stored_withdraw s id r x t :
    I s -> Withdrawn id \/ Deposited id -> get_balance_record s id = Some r -> Stored s (BalanceRecord x (condition r) t);
  stored_deposit s cond x t :
    I s -> Deposited (get_address cond) -> get_balance_record s (get_address cond) = None ->
    Stored s (BalanceRecord x cond t);
  closed_balance s r : Stored s r -> I s -> I (store_balance_record s r);
  closed_account s r : Owner (owner_key r) -> I s -> I (store_account_record s r)
}.

Section Closure.
Context {S : Type} `{FC : Fc} `{FT : FcTransaction} `{FBl : FcBlock} `{FO : FcOperations} `{FB : FcBigint}.
Context `{CI : ChainInterface S} (Owner Issuer Withdrawn Deposited : Z -> Prop) (Stored : S -> balance_record -> Prop).
Context (I : S -> Prop) (HI : store_closed Owner Issuer Withdrawn Deposited Stored I).
Notation eval_state := (transaction_evaluation_state S).
Implicit Types e : eval_state.

(** The accounts and the assets an operation makes are of such owners and issuers, and the
    balances it changes under such ids. *)
Definition owners_in (op : operation) : Prop :=
  (forall o, op_type op = register_account_op_type ->
     unpack_register_account (op_data op) = Some o -> Owner (register_owner_key o)) /\
  (forall o, op_type op = create_asset_op_type ->
     unpack_create_asset (op_data op) = Some o -> Issuer (create_issuer o)) /\
  (forall o, op_type op = update_asset_op_type ->
     unpack_update_asset (op_data op) = Some o -> Issuer (update_issuer o)) /\
  (forall o, op_type op = withdraw_op_type ->
     unpack_withdraw (op_data op) = Some o -> Withdrawn (withdraw_balance_id o)) /\
  (forall o, op_type op = deposit_op_type ->
     unpack_deposit (op_data op) = Some o -> Deposited (get_address (deposit_condition o))).

Lemma owner_set_active_key t k r r' : set_active_key t k r = Ok r' -> owner_key r' = owner_key r.
Proof. unfold set_active_key. intros. by inv_ok. Qed.
Lemma owner_adjust_for d r r' : adjust_votes_for d r = Ok r' -> owner_key r' = owner_key r.
Proof. unfold adjust_votes_for. intros. by inv_ok. Qed.
Lemma owner_adjust_against d r r' : adjust_votes_against d r = Ok r' -> owner_key r' = owner_key r.
Proof. unfold adjust_votes_against. intros. by inv_ok. Qed.
Lemma owner_fire r r' : fire r = Ok r' -> owner_key r' = owner_key r.
Proof.
  unfold fire. intros. inv_ok.
  erewrite owner_adjust_for by done. by eapply owner_adjust_against.
Qed.

Lemma state_add_balance e x e' : add_balance e x = Ok e' -> current_state e' = current_state e.
Proof. unfold add_balance. intros. by inv_ok. Qed.
Lemma state_sub_balance e id x e' : sub_balance e id x = Ok e' -> current_state e' = current_state e.
Proof. unfold sub_balance. intros. by inv_ok. Qed.
Lemma state_required_fee e f e' : add_required_fee e f = Ok e' -> current_state e' = current_state e.
Proof. intros H. by apply same_required_fee in H as []. Qed.
Lemma state_check_condition e op r e' :
  check_condition e op r = Ok e' -> current_state e' = current_state e.
Proof. intros H. by apply same_check_condition in H as []. Qed.
Lemma state_move_order e amt delta cur e' r :
  move_order_amount e amt delta cur = Ok (e', r) -> current_state e' = current_state e.
Proof.
  unfold move_order_amount. intros. inv_run;
    [by eapply state_add_balance|by eapply state_sub_balance..].
Qed.
Lemma state_add_vote e d x : current_state (add_vote e d x) = current_state e.
Proof. by destruct (same_add_vote e d x). Qed.
Lemma state_sub_vote e d x : current_state (sub_vote e d x) = current_state e.
Proof. by destruct (same_sub_vote e d x). Qed.
Lemma new_asset_closed s id s' : new_asset_id s = Ok (id, s') -> I s -> I s'.
Proof. unfold new_asset_id. intros. inv_ok. by apply (closed_property _ _ _ _ _ I HI). Qed.
Lemma new_account_closed s id s' : new_account_id s = Ok (id, s') -> I s -> I s'.
Proof. unfold new_account_id. intros. inv_ok. by apply (closed_property _ _ _ _ _ I HI). Qed.
Lemma new_proposal_closed s id s' : new_proposal_id s = Ok (id, s') -> I s -> I s'.
Proof. unfold new_proposal_id. intros. inv_ok. by apply (closed_property _ _ _ _ _ I HI). Qed.

(** From the last store of a handler back to the state it was given. *)
Ltac closure_chain :=
  cbn [current_state with_state];
  repeat first
    [ assumption
    | match goal with
      | |- I (set_property _ _ _) => apply (closed_property _ _ _ _ _ I HI)
      | |- I (store_bid_record _ _ _) => apply (closed_bid _ _ _ _ _ I HI)
      | |- I (store_ask_record _ _ _) => apply (closed_ask _ _ _ _ _ I HI)
      | |- I (store_proposal_record _ _) => apply (closed_proposal _ _ _ _ _ I HI)
      | |- I (store_proposal_vote _ _) => apply (closed_vote _ _ _ _ _ I HI)
      | |- I (store_asset_record _ _) => apply (closed_asset _ _ _ _ _ I HI)
      | |- I (store_account_record _ _) => apply (closed_account _ _ _ _ _ I HI)
      | |- I (current_state (if _ then _ else _)) => case_match
      | |- I (current_state (add_vote _ _ _)) => rewrite state_add_vote
      | |- I (current_state (sub_vote _ _ _)) => rewrite state_sub_vote
      | H : add_balance _ _ = Ok ?e |- I (current_state ?e) => rewrite (state_add_balance _ _ _ H)
      | H : sub_balance _ _ _ = Ok ?e |- I (current_state ?e) => rewrite (state_sub_balance _ _ _ _ H)
      | H : add_required_fee _ _ = Ok ?e |- I (current_state ?e) => rewrite (state_required_fee _ _ _ H)
      | H : check_condition _ _ _ = Ok ?e |- I (current_state ?e) =>
          rewrite (state_check_condition _ _ _ _ H)
      | H : move_order_amount _ _ _ _ = Ok (?e, _) |- I (current_state ?e) =>
          rewrite (state_move_order _ _ _ _ _ _ H)
      | H : new_asset_id _ = Ok (_, ?s) |- I ?s => apply (new_asset_closed _ _ _ H)
      | H : new_account_id _ = Ok (_, ?s) |- I ?s => apply (new_account_closed _ _ _ H)
      | H : new_proposal_id _ = Ok (_, ?s) |- I ?s => apply (new_proposal_closed _ _ _ H)
      end
    | progress cbn [current_state with_state owner_key issuer_account_id with_delegate_info
        with_last_update with_public_data with_supply] in *
    | match goal with
      | H : Ok _ = Ok _ |- _ => apply Ok_inj in H; subst
      | |- Owner (owner_key (match ?o with _ => _ end)) => destruct o
      | H : set_active_key _ _ _ = Ok ?r |- Owner (owner_key ?r) => rewrite (owner_set_active_key _ _ _ _ H)
      | H : adjust_votes_for _ _ = Ok ?r |- Owner (owner_key ?r) => rewrite (owner_adjust_for _ _ _ H)
      | H : adjust_votes_against _ _ = Ok ?r |- Owner (owner_key ?r) => rewrite (owner_adjust_against _ _ _ H)
      | H : fire _ = Ok ?r |- Owner (owner_key ?r) => rewrite (owner_fire _ _ H)
      | H : get_account_record _ _ = Some ?r |- Owner (owner_key ?r) =>
          eapply (found_account _ _ _ _ _ I HI); [|exact H]
      | H : get_asset_record _ _ = Some ?r |- Issuer (issuer_account_id ?r) =>
          eapply (found_asset _ _ _ _ _ I HI); [|exact H]
      end
    | solve [eauto] ].

(** The state a handler stores the balance into is that it was given. *)
Lemma withdraw_closed op e e' :
  Withdrawn (withdraw_balance_id op) -> evaluate_withdraw op e = Ok e' ->
  I (current_state e) -> I (current_state e').
Proof.
  unfold evaluate_withdraw. intros HT Hop Hs. apply bind_ok in Hop as (? & _ & Hop).
  apply bind_ok in Hop as (r & Hr & Hop). apply value_or_throw_ok in Hr.
  apply bind_ok in Hop as (? & _ & Hop). apply bind_ok in Hop as (e1 & Hc & Hop).
  apply bind_ok in Hop as (t & _ & Hop). apply bind_ok in Hop as (e2 & Ha & Hop).
  apply Ok_inj in Hop as <-. cbn [current_state with_state].
  match goal with |- I (store_balance_record ?s _) => replace s with (current_state e) end.
  - apply (closed_balance _ _ _ _ _ I HI); [|done]. eapply (stored_withdraw _ _ _ _ _ I HI); eauto.
  - cbn [condition]. destruct (_ =? 0); rewrite ?state_sub_vote, (state_add_balance _ _ _ Ha);
      symmetry; by eapply state_check_condition.
Qed.
Lemma deposit_closed op e e' :
  Deposited (get_address (deposit_condition op)) -> evaluate_deposit op e = Ok e' ->
  I (current_state e) -> I (current_state e').
Proof.
  unfold evaluate_deposit. intros HT Hop Hs. apply bind_ok in Hop as (? & _ & Hop).
  apply bind_ok in Hop as (? & _ & Hop). apply bind_ok in Hop as (t & _ & Hop).
  apply bind_ok in Hop as (e1 & Ha & Hop). apply Ok_inj in Hop as <-. cbn [current_state with_state].
  match goal with |- I (store_balance_record ?s _) => replace s with (current_state e) end.
  - apply (closed_balance _ _ _ _ _ I HI); [|done].
    destruct (get_balance_record (current_state e) (get_address (deposit_condition op))) eqn:E.
    + eapply (stored_withdraw _ _ _ _ _ I HI); eauto.
    + by apply (stored_deposit _ _ _ _ _ I HI).
  - cbn [condition]. destruct (_ =? 0); rewrite ?state_add_vote; by rewrite (state_sub_balance _ _ _ _ Ha).
Qed.

Lemma operation_closed op e e' :
  owners_in op -> evaluate_operation op e = Ok e' -> I (current_state e) -> I (current_state e').
Proof.
  unfold evaluate_operation, evaluate_as. intros (Hreg & Hcre & Hupd & Hwit & Hdep) Hop Hs.
  repeat case_if_ok Hop; apply bind_ok in Hop as (o & Ho & Hop) || discriminate;
    apply value_or_throw_ok in Ho;
    repeat match goal with H : (_ =? _) = true |- _ => apply Z.eqb_eq in H end;
    try match goal with E : op_type op = _ |- _ =>
      first [pose proof (Hreg _ E Ho)|pose proof (Hcre _ E Ho)|pose proof (Hupd _ E Ho)
            |pose proof (Hwit _ E Ho)|pose proof (Hdep _ E Ho)] end;
    try first [by eapply withdraw_closed|by eapply deposit_closed];
    unfold evaluate_create_asset, evaluate_issue_asset,
      evaluate_update_asset, evaluate_register_account, evaluate_withdraw_pay,
      evaluate_update_account, evaluate_fire_delegate, evaluate_submit_proposal,
      evaluate_vote_proposal, evaluate_bid, evaluate_ask in Hop;
    inv_run; closure_chain.
Qed.

Lemma foldM_closed {A} (P : A -> Prop) (f : eval_state -> A -> result eval_state) l e e' :
  (forall e a e', P a -> f e a = Ok e' -> I (current_state e) -> I (current_state e')) ->
  Forall P l -> foldM f e l = Ok e' -> I (current_state e) -> I (current_state e').
Proof.
  intros Hf. revert e. induction l as [|a l IH]; simpl; intros e HP Hrun Hs; inv_ok; [done|].
  apply Forall_cons_iff in HP as [Ha HP]. eapply IH; [done|done|]. by eapply Hf.
Qed.
Lemma Forall_true {A} (l : list A) : Forall (fun _ => True) l.
Proof. by apply List.Forall_forall. Qed.

Lemma collect_fee_closed e fee e' :
  collect_fee e fee = Ok e' -> I (current_state e) -> I (current_state e').
Proof. unfold collect_fee. intros Hrun Hs. inv_run; closure_chain. Qed.

Lemma update_vote_closed mx e v e' :
  update_delegate_vote mx e v = Ok e' -> I (current_state e) -> I (current_state e').
Proof. unfold update_delegate_vote. intros Hrun Hs. inv_run; closure_chain. Qed.

Lemma evaluate_closed t e e' :
  Forall owners_in (operations t) -> evaluate t e = Ok e' ->
  I (current_state e) -> I (current_state e').
Proof.
  unfold evaluate, post_evaluate, update_delegate_votes. intros Hops Hrun Hs. inv_ok.
  eapply (foldM_closed _ (update_delegate_vote _)); [|apply Forall_true|done|].
  { intros e1 a e2 _. apply update_vote_closed. }
  eapply (foldM_closed _ collect_fee); [|apply Forall_true|done|].
  { intros e1 a e2 _. apply collect_fee_closed. }
  closure_chain. eapply foldM_closed; [|exact Hops|done|].
  - intros e1 op e2. apply operation_closed.
  - match goal with H : collect_signatures _ _ _ = Ok _ |- _ =>
      apply same_signatures in H as [Es _]; rewrite Es end. exact Hs.
Qed.
End Closure.
