(* ===== verification/Concrete.v ===== *)
(** A concrete chain on which statements are evaluated: stand-ins for the hashes and the
    serialization of the fc library, and a database with three accounts, two assets and
    some balances. Nothing else in the development depends on them; the theorems hold for
    any implementation of the interfaces. *)
From Stdlib Require Import Ascii.
From S2P Require Import Prelude Errors Asset Records ChainInterface PendingState ChainDatabase.
From S2P Require Import EvalState Operations Conservation.

(** ** Stand-ins for the fc library *)
Definition mix (l : list Z) : Z := foldl (fun h x => (h * 1000003 + x + 17) mod 2 ^ 61) 5381 l.

Definition concrete_fc : Fc := {|
  address_of_condition c :=
    mix (condition_asset_id c :: condition_delegate_id c :: condition_type c :: condition_data c);
  address_of_key k := 1000 + k;
  address_of_pts k compressed version := 100000 * (1 + version) + 10 * k + (if compressed then 1 else 0);
  ripemd160_hash := mix;
  recover_key sig _ := if 0 <? sig then Some sig else None;
  pack_with_signature w :=
    owner w :: match memo w with Some m => one_time_key m :: encrypted_memo_data m | None => [] end;
  unpack_with_signature d :=
    match d with
    | [o] => Some (WithSignature o None)
    | o :: k :: data => Some (WithSignature o (Some (TitanMemo k data)))
    | _ => None
    end;
  unpack_with_multi_sig d := match d with n :: l => Some (WithMultiSig n l) | _ => None end;
  unpack_with_password d :=
    match d with [a; b; t; h] => Some (WithPassword a b t h) | _ => None end;
  unpack_option d :=
    match d with [a; b; t; r; x; y] => Some (WithdrawOption a b t (Price r x y)) | _ => None end
|}.

(** A hash without collisions. *)
Definition code {A} `{Countable A} (a : A) : Z := Z.pos (encode a).
Lemma code_inj {A} `{Countable A} (a b : A) : code a = code b -> a = b.
Proof. unfold code. intros E. apply (inj encode). congruence. Qed.

Definition concrete_transaction : FcTransaction := {|
  trx_id t := code (map (fun op => (op_type op, op_data op)) (operations t));
  trx_digest t chain := chain + mix (map (fun op => mix (op_type op :: op_data op)) (operations t));
  data_size t := 100
|}.

Definition header_fields (b : block_header) : list Z :=
  [ previous b; block_num b; fee_rate b; delegate_pay_rate b; timestamp b;
    transaction_digest b; header_next_secret_hash b; previous_secret b ].
Definition concrete_block : FcBlock := {|
  block_digest b := mix (header_fields b);
  block_id b := mix (header_fields b ++ [delegate_signature b]);
  block_size b := 200 + 100 * Z.of_nat (length (user_transactions b));
  hash_ids := code;
  hash_secret s := mix [s];
  hash_seed secret seed := mix [secret; seed];
  sha256_of_seed s := mix [s; 1] * 2 ^ 128 + mix [s; 2];
  sha256_of_digest d := mix [d; 3] * 2 ^ 192 + mix [d; 4] * 2 ^ 64
|}.

Definition string_of_chars (l : list Z) : string :=
  String.string_of_list_ascii (map (fun z => ascii_of_nat (Z.to_nat z)) l).

Definition concrete_operations : FcOperations := {|
  unpack_withdraw d := match d with id :: a :: data => Some (WithdrawOperation id a data) | _ => None end;
  unpack_deposit d :=
    match d with
    | a :: x :: del :: ty :: data => Some (DepositOperation a (WithdrawCondition x del ty data))
    | _ => None
    end;
  unpack_register_account d :=
    match d with
    | o :: k :: del :: name =>
        Some (RegisterAccountOperation (string_of_chars name) variant_null o k (del =? 1) None)
    | _ => None
    end;
  unpack_update_account d :=
    match d with
    | [id; k; del] =>
        Some (UpdateAccountOperation id None (if k =? 0 then None else Some k) (del =? 1))
    | _ => None
    end;
  unpack_withdraw_pay d := match d with [a; id] => Some (WithdrawPayOperation a id) | _ => None end;
  unpack_create_asset d :=
    match d with
    | issuer :: mx :: p :: sym =>
        Some (CreateAssetOperation (string_of_chars sym) "" "" variant_null issuer mx p)
    | _ => None
    end;
  unpack_update_asset d :=
    match d with [id; i] => Some (UpdateAssetOperation id "" "" variant_null i) | _ => None end;
  unpack_issue_asset d := match d with [a; id] => Some (IssueAssetOperation (Asset a id)) | _ => None end;
  unpack_fire_delegate d :=
    match d with r :: id :: data => Some (FireDelegateOperation r id data) | _ => None end;
  unpack_submit_proposal d :=
    match d with
    | [id; t] => Some (SubmitProposalOperation id t "" "" "" variant_null)
    | _ => None
    end;
  unpack_vote_proposal d :=
    match d with [p; del; t] => Some (VoteProposalOperation (p, del) t vote_yes "") | _ => None end;
  unpack_bid d :=
    match d with
    | [a; r; x; y; o; del] => Some (BidOperation a (MarketIndexKey (Price r x y) o) del)
    | _ => None
    end;
  unpack_ask d :=
    match d with
    | [a; r; x; y; o; del] => Some (AskOperation a (MarketIndexKey (Price r x y) o) del)
    | _ => None
    end;
  unpack_block_proof d :=
    match d with
    | [i1; d1; t1; s1; i2; d2; t2; s2] =>
        Some (SignedBlockHeader (BlockHeader i1 0 0 0 t1 d1 0 0) s1,
              SignedBlockHeader (BlockHeader i2 0 0 0 t2 d2 0 0) s2)
    | _ => None
    end;
  unpack_testimony d :=
    match d with [i; v; g; s] => Some (SignedDelegateTestimony i (v =? 1) g s) | _ => None end
|}.

#[local] Existing Instance concrete_fc.
#[local] Existing Instance concrete_transaction.
#[local] Existing Instance concrete_block.
#[local] Existing Instance concrete_operations.

(** ** A database *)

(** The keys of the accounts; an address is a key plus 1000. *)
Definition alice_key : Z := 11.
Definition bob_key : Z := 22.
Definition carol_key : Z := 33.

Definition shares : asset_record :=
  AssetRecord 0 "XTS" "" "" variant_null (-3) 1000000 1 1 1000000 2000000 0.
Definition gold : asset_record :=
  AssetRecord 1 "GLD" "" "" variant_null 2 100 1 1 300 1000 0.

Definition alice : account_record :=
  AccountRecord 1 "alice" variant_null alice_key [(1, alice_key)] 1 1
    (Some (DelegateStats 0 0 0 0 0 0 600)) None.
Definition bob : account_record :=
  AccountRecord 2 "bob" variant_null bob_key [(1, bob_key)] 1 1 None None.
Definition carol : account_record :=
  AccountRecord 3 "carol.bob" variant_null carol_key [(1, carol_key)] 1 1 None None.

(** Shares of bob's that vote for alice; gold of bob's; shares under a condition of a type
    that [withdraw] does not know. *)
Definition bob_condition : withdraw_condition := WithdrawCondition 0 1 withdraw_signature_type [1000 + bob_key].
Definition gold_condition : withdraw_condition := WithdrawCondition 1 0 withdraw_signature_type [1000 + bob_key].
Definition open_condition : withdraw_condition := WithdrawCondition 0 1 9 [].
Definition bob_balance : balance_record := BalanceRecord 900000 bob_condition 1.
Definition gold_balance : balance_record := BalanceRecord 300 gold_condition 1.
Definition open_balance : balance_record := BalanceRecord 99400 open_condition 1.

Definition concrete_head : signed_block_header :=
  SignedBlockHeader (BlockHeader 1 5 1000 0 1005 0 0 0) 0.
Definition empty_database : chain_database :=
  ChainDatabase ∅ ∅ ∅ ∅ ∅ ∅ ∅ ∅ ∅ ∅ ∅ ∅ ∅ ∅ ∅ concrete_head 1000.

Definition genesis : chain_database :=
  let d := set_property empty_database last_asset_id_prop (variant_int 1) in
  let d := set_property d last_account_id_prop (variant_int 3) in
  let d := set_property d last_proposal_id_prop (variant_int 0) in
  let d := set_property d active_delegate_list_id_prop (variant_ids [1]) in
  let d := foldl store_asset_record d [shares; gold] in
  let d := foldl store_account_record d [alice; bob; carol] in
  foldl store_balance_record d [bob_balance; gold_balance; open_balance].

Definition pending : pending_chain_state chain_database := create (Some genesis).
Definition fresh : transaction_evaluation_state (pending_chain_state chain_database) :=
  eval_state_new pending 7.
Definition signed_by (keys : list Z) : transaction_evaluation_state (pending_chain_state chain_database) :=
  with_signed_keys (list_to_set (map address_of_key keys)) fresh.

(** Bob pays 500 of his 900000 shares into a new balance, which votes against alice, issues
    ten pieces of gold to himself, and leaves 100 shares as the fee. *)
Definition payment : signed_transaction :=
  SignedTransaction (Some 2000) (Some 1)
    [ Operation withdraw_op_type [balance_id bob_balance; 600];
      Operation deposit_op_type [500; 0; -1; withdraw_signature_type; 1077];
      Operation issue_asset_op_type [10; 1];
      Operation deposit_op_type [10; 1; 0; withdraw_signature_type; 1000 + bob_key] ]
    [bob_key].
Definition paid := evaluate payment fresh.
Definition paid_state : transaction_evaluation_state (pending_chain_state chain_database) :=
  match paid with Ok e => e | Throw _ => fresh end.

(** [wf] as a computation. *)
Definition keyed_b (l : ledger) : bool :=
  forallb (fun kv => asset_record_id kv.2 =? kv.1) (map_to_list (l_assets l)) &&
  forallb (fun kv => balance_id kv.2 =? kv.1) (map_to_list (l_balances l)) &&
  forallb (fun kv => account_id kv.2 =? kv.1) (map_to_list (l_accounts l)).
Definition ids_below_b {A} (m : gmap Z A) (prop k : Z) (l : ledger) : bool :=
  match l_props l !! prop with
  | Some (variant_int n) =>
      (- 2 ^ 31 <=? n) && (n + k <? 2 ^ 31) && forallb (fun kv => kv.1 <=? n) (map_to_list m)
  | _ => false
  end.
Definition wf_b (k : Z) (l : ledger) : bool :=
  keyed_b l && ids_below_b (l_assets l) last_asset_id_prop k l
  && ids_below_b (l_accounts l) last_account_id_prop k l.

Lemma forallb_map {A} (f : Z * A -> bool) (m : gmap Z A) :
  forallb f (map_to_list m) = true -> forall id r, m !! id = Some r -> f (id, r) = true.
Proof.
  intros Hf id r Hr. rewrite forallb_forall in Hf. apply Hf, list_elem_of_In.
  by apply elem_of_map_to_list.
Qed.

Lemma keyed_b_ok l : keyed_b l = true -> keyed l.
Proof.
  unfold keyed_b. rewrite !andb_true_iff. intros [[Ha Hb] Hc].
  split; intros id r Hr;
    [pose proof (forallb_map _ _ Ha id r Hr)|pose proof (forallb_map _ _ Hb id r Hr)
    |pose proof (forallb_map _ _ Hc id r Hr)]; by apply Z.eqb_eq.
Qed.

Lemma ids_below_b_ok {A} (m : gmap Z A) p k l : ids_below_b m p k l = true -> ids_below m p k l.
Proof.
  unfold ids_below_b. destruct (l_props l !! p) as [[]|] eqn:E; try done.
  rewrite !andb_true_iff. intros [[H1 H2] H3]. exists n. repeat split; [done|lia|lia|].
  intros id r Hr. pose proof (forallb_map _ _ H3 id r Hr). cbn in *. lia.
Qed.

Lemma wf_b_ok k l : wf_b k l = true -> wf k l.
Proof.
  unfold wf_b. rewrite !andb_true_iff. intros [[H1 H2] H3].
  split; [by apply keyed_b_ok|by apply ids_below_b_ok..].
Qed.
