(* ===== verification/Evaluate.v ===== *)
(** The evaluation of a transaction as a whole: which transactions are admitted, whose
    signatures an operation sees, what the fees and deposits are at the end, and that
    shares are conserved. *)
From S2P Require Import Prelude Errors Asset Records ChainInterface PendingState ChainDatabase.
From S2P Require Import EvalState Operations Totals Conservation Concrete.

(** ** What the operations leave alone *)
Section Frame.
Context {S : Type} `{FC : Fc} `{FT : FcTransaction} `{FBl : FcBlock} `{FO : FcOperations} `{FB : FcBigint}.
Context `{CI : ChainInterface S}.
Notation eval_state := (transaction_evaluation_state S).
Implicit Types e : eval_state.

(** The transaction, the addresses that signed and the chain are those of [e]. *)
Definition same_trx e e' : Prop :=
  trx e' = trx e /\ signed_keys e' = signed_keys e /\ eval_chain_id e' = eval_chain_id e.

Lemma same_trx_refl e : same_trx e e.
Proof. done. Qed.
Lemma same_trx_trans e1 e2 e3 : same_trx e1 e2 -> same_trx e2 e3 -> same_trx e1 e3.
Proof. intros (?&?&?) (?&?&?). repeat split; congruence. Qed.
Lemma trx_add_balance e x e' : add_balance e x = Ok e' -> same_trx e e'.
Proof. unfold add_balance. intros. by inv_ok. Qed.
Lemma trx_sub_balance e id x e' : sub_balance e id x = Ok e' -> same_trx e e'.
Proof. unfold sub_balance. intros. by inv_ok. Qed.
Lemma trx_required_fee e f e' : add_required_fee e f = Ok e' -> same_trx e e'.
Proof. unfold add_required_fee. intros. by inv_ok. Qed.
Lemma trx_required_deposit e o x e' : add_required_deposit e o x = Ok e' -> same_trx e e'.
Proof. unfold add_required_deposit. intros. by inv_ok. Qed.
Lemma trx_add_vote e d x : same_trx e (add_vote e d x).
Proof. unfold add_vote. repeat case_if; done. Qed.
Lemma trx_sub_vote e d x : same_trx e (sub_vote e d x).
Proof. unfold sub_vote. repeat case_if; done. Qed.
Lemma trx_check_condition e op r e' : check_condition e op r = Ok e' -> same_trx e e'.
Proof. unfold check_condition. intros. inv_run; try done. by eapply trx_required_deposit. Qed.
Lemma trx_move_order e amt delta cur e' r :
  move_order_amount e amt delta cur = Ok (e', r) -> same_trx e e'.
Proof.
  unfold move_order_amount. intros. inv_run; [by eapply trx_add_balance|by eapply trx_sub_balance..].
Qed.
End Frame.

#[export] Hint Resolve trx_add_balance trx_sub_balance
  trx_required_fee trx_required_deposit trx_check_condition trx_move_order : frame.

(** Chains the steps of a handler from the last one back. *)
Ltac frame_chain :=
  repeat match goal with
  | |- same_trx ?e ?e => apply same_trx_refl
  | |- same_trx ?e (with_state _ ?e2) => change (same_trx e e2)
  | |- same_trx _ (if _ then _ else _) => case_match
  | |- same_trx _ (match _ with Some _ => _ | None => _ end) => case_match
  | |- same_trx ?e (add_vote ?e2 _ _) => apply (same_trx_trans e e2); [|apply trx_add_vote]
  | |- same_trx ?e (sub_vote ?e2 _ _) => apply (same_trx_trans e e2); [|apply trx_sub_vote]
  | H : ?f = Ok ?e' |- same_trx ?e ?e' => eapply same_trx_trans; [|by eauto with frame]
  | H : ?f = Ok (?e', _) |- same_trx ?e ?e' => eapply same_trx_trans; [|by eauto with frame]
  end.

Section Operations.
Context {S : Type} `{FC : Fc} `{FT : FcTransaction} `{FBl : FcBlock} `{FO : FcOperations} `{FB : FcBigint}.
Context `{CI : ChainInterface S}.
Notation eval_state := (transaction_evaluation_state S).
Implicit Types e : eval_state.

Lemma trx_operation op e e' : evaluate_operation op e = Ok e' -> same_trx e e'.
Proof.
  unfold evaluate_operation, evaluate_as. intros Hop.
  repeat case_if_ok Hop; apply bind_ok in Hop as (o & _ & Hop) || discriminate;
    unfold evaluate_withdraw, evaluate_deposit, evaluate_create_asset, evaluate_issue_asset,
      evaluate_update_asset, evaluate_register_account, evaluate_withdraw_pay,
      evaluate_update_account, evaluate_fire_delegate, evaluate_submit_proposal,
      evaluate_vote_proposal, evaluate_bid, evaluate_ask in Hop;
    inv_run; frame_chain.
Qed.

Lemma trx_operations ops e e' :
  foldM (fun e op => evaluate_operation op e) e ops = Ok e' -> same_trx e e'.
Proof.
  revert e. induction ops as [|op ops IH]; simpl; intros e Hrun; inv_ok; [done|].
  eapply same_trx_trans; [by eapply trx_operation|by apply IH].
Qed.

(** The end of the evaluation changes the state of the chain and nothing else. *)
Lemma foldM_state {A} (f : eval_state -> A -> result eval_state) l e e' :
  (forall e a e', f e a = Ok e' -> e' = with_state (current_state e') e) ->
  foldM f e l = Ok e' -> e' = with_state (current_state e') e.
Proof.
  intros Hf. revert e. induction l as [|a l IH]; simpl; intros e Hrun; inv_ok; [by destruct e'|].
  match goal with H : f _ _ = Ok _ |- _ => apply Hf in H as E end.
  apply IH in Hrun. by rewrite Hrun, E.
Qed.

Lemma collect_fee_state e fee e' :
  collect_fee e fee = Ok e' -> e' = with_state (current_state e') e.
Proof. unfold collect_fee. intros. inv_run; [done|by destruct e']. Qed.

Lemma vote_state_only mx e v e' :
  update_delegate_vote mx e v = Ok e' -> e' = with_state (current_state e') e.
Proof. unfold update_delegate_vote. intros. inv_run. done. Qed.

Lemma votes_state_only e e' :
  update_delegate_votes e = Ok e' -> e' = with_state (current_state e') e.
Proof.
  unfold update_delegate_votes. intros. inv_ok. eapply foldM_state; [|done].
  intros. by eapply vote_state_only.
Qed.

Lemma post_evaluate_state e e' :
  post_evaluate e = Ok e' ->
  exists fee e1, transaction_fee e = Ok fee /\ add_required_fee e fee = Ok e1 /\
    e' = with_state (current_state e') e1.
Proof.
  unfold post_evaluate. intros. inv_ok. do 2 eexists. split; [done|]. split; [done|].
  eapply foldM_state; [|done]. intros. by eapply collect_fee_state.
Qed.

Lemma trx_post e e' : post_evaluate e = Ok e' -> same_trx e e'.
Proof.
  intros H. apply post_evaluate_state in H as (fee & e1 & _ & H1 & ->).
  change (same_trx e e1). by eapply trx_required_fee.
Qed.

(** The keys recovered from the signatures give the addresses that signed. *)
Lemma collect_signatures_keys d sigs e e' :
  collect_signatures d sigs e = Ok e' ->
  exists keys, Forall2 (fun sg k => recover_key sg d = Some k) sigs keys /\
    (forall a, a ∈ signed_keys e' <->
       a ∈ signed_keys e \/ exists k, In k keys /\ a ∈ key_addresses k) /\
    e' = with_signed_keys (signed_keys e') e.
Proof.
  unfold collect_signatures, public_key. revert e.
  induction sigs as [|sg sigs IH]; simpl; intros e Hrun; inv_ok.
  - exists []. split; [constructor|]. split; [|by destruct e'].
    intros a. split; [by left|]. by intros [|(k & [] & _)].
  - apply IH in Hrun as (keys & Hk & Hs & ->).
    match goal with H : recover_key _ _ = Some ?k |- _ => exists (k :: keys) end.
    split; [by constructor|]. split; [|done]. intros a. cbn [with_signed_keys signed_keys] in *.
    rewrite Hs, elem_of_union. split.
    + intros [[]|(k & ? & ?)]; [right; eexists; split; [by left|done]|by left|].
      right. exists k. split; [by right|done].
    + intros [|(k & [->|] & ?)]; [by left; right|by left; left|]. right. by exists k.
Qed.

(** After the tests and the signatures, nothing changes what [same_trx] reads. *)
Lemma evaluate_frame t e e' :
  evaluate t e = Ok e' ->
  (let* _ :=
     match expiration t with
     | Some x => let* n := now (current_state e) in throw_if (x <? n) expired_transaction
     | None => Ok tt
     end in
   let* known := get_transaction (current_state e) (trx_id t) in
   throw_if (bool_decide (is_Some known)) duplicate_transaction) = Ok tt /\
  exists e1,
    collect_signatures (trx_digest t (eval_chain_id e)) (signatures t) (with_trx t (reset e)) = Ok e1 /\
    same_trx e1 e'.
Proof.
  unfold evaluate. intros Hrun. apply bind_ok in Hrun as ([] & Hexp & Hrun).
  apply bind_ok in Hrun as (known & Hknown & Hrun). apply bind_ok in Hrun as ([] & Hdup & Hrun).
  apply bind_ok in Hrun as (e1 & Hsig & Hrun). apply bind_ok in Hrun as (e2 & Hops & Hrun).
  apply bind_ok in Hrun as (e3 & Hpost & Hrun). apply bind_ok in Hrun as (u'' & _ & Hrun).
  cbn [reset current_state] in *. rewrite Hexp. cbn [bind]. rewrite Hknown. cbn [bind].
  split; [done|]. exists e1. split; [done|].
  eapply same_trx_trans; [by eapply trx_operations|].
  eapply same_trx_trans; [by eapply trx_post|]. by rewrite (votes_state_only _ _ Hrun).
Qed.

(** A transaction that evaluates was not known. *)
Lemma evaluated_unknown t e e' :
  evaluate t e = Ok e' -> get_transaction (current_state e) (trx_id t) = Ok None.
Proof.
  intros Hrun. destruct (evaluate_frame t e e' Hrun) as (Htests & _).
  apply bind_ok in Htests as ([] & _ & Hdup). apply bind_ok in Hdup as (known & Hknown & Hdup).
  apply throw_if_ok, bool_decide_eq_false in Hdup. rewrite Hknown. f_equal.
  destruct known; [|done]. destruct Hdup. by eexists.
Qed.

(** C16: Admission. A transaction that evaluates has not expired, is not known to the
    chain, each of its signatures is a signature of its digest for this chain by some key,
    and the operations see exactly the five addresses of each of these keys as having
    signed: those of an earlier transaction are dropped, and no operation adds one. *)
Theorem evaluate_admission t e e' :
  evaluate t e = Ok e' ->
  (forall x n, expiration t = Some x -> now (current_state e) = Ok n -> n <= x) /\
  get_transaction (current_state e) (trx_id t) = Ok None /\
  trx e' = t /\
  exists keys,
    Forall2 (fun sg k => recover_key sg (trx_digest t (eval_chain_id e)) = Some k)
      (signatures t) keys /\
    forall a, check_signature e' a = true <-> exists k, In k keys /\ a ∈ key_addresses k.
Proof.
  intros Hrun. destruct (evaluate_frame t e e' Hrun) as (Htests & e1 & Hsig & (Et & Ek & _)).
  apply bind_ok in Htests as ([] & Hexp & _).
  apply collect_signatures_keys in Hsig as (keys & Hk & Hs & E1).
  split; [|split; [|split]].
  - intros x n Hx Hn. rewrite Hx in Hexp. rewrite Hn in Hexp.
    cbn in Hexp. apply throw_if_ok in Hexp. lia.
  - exact (evaluated_unknown t e e' Hrun).
  - rewrite Et, E1. done.
  - exists keys. split; [done|]. intros a. unfold check_signature.
    rewrite bool_decide_eq_true, Ek, Hs. cbn. set_solver.
Qed.
End Operations.

(** ** Fees and deposits *)
Section Fees.
Context {P : Type} `{FC : Fc} `{FT : FcTransaction} `{FBl : FcBlock} `{FO : FcOperations} `{FB : FcBigint}.
Context `{CI : ChainInterface P}.
Notation eval_state := (transaction_evaluation_state (pending_chain_state P)).
Implicit Types e : eval_state.

(** The previous state of the pending state, which sets the fee rate, stays. *)
Lemma collect_fees_prev l e e' :
  foldM collect_fee e l = Ok e' -> prev_state (current_state e') = prev_state (current_state e).
Proof.
  revert e. induction l as [|f l IH]; simpl; intros e Hrun; inv_ok; [done|].
  rewrite (IH _ Hrun). clear IH Hrun. unfold collect_fee in *. by inv_run.
Qed.

Lemma update_votes_prev mx l e e' :
  foldM (update_delegate_vote mx) e l = Ok e' ->
  prev_state (current_state e') = prev_state (current_state e).
Proof.
  revert e. induction l as [|f l IH]; simpl; intros e Hrun; inv_ok; [done|].
  rewrite (IH _ Hrun). clear IH Hrun. unfold update_delegate_vote in *. by inv_run.
Qed.

Lemma transaction_fee_prev e e' :
  prev_state (current_state e') = prev_state (current_state e) -> trx e' = trx e ->
  transaction_fee e' = transaction_fee e.
Proof.
  intros Ep Et. unfold transaction_fee. cbn. unfold pending_get_fee_rate, from_prev.
  by rewrite Ep, Et.
Qed.

(** What the loop over the fees has checked. *)
Lemma collect_fees_checked l e e' :
  foldM collect_fee e l = Ok e' ->
  forall a x, In (a, x) l -> 0 <= x /\ (a = 0 -> 0 < x -> amount (required_fees e) <= x).
Proof.
  revert e. induction l as [|[b y] l IH]; simpl; intros e Hrun a x Hin; [done|].
  apply bind_ok in Hrun as (e1 & H1 & Hrun).
  assert (Ef : required_fees e1 = required_fees e) by (by rewrite (collect_fee_state _ _ _ H1)).
  destruct Hin as [[= -> ->]|Hin].
  - unfold collect_fee in H1. cbn [fst snd] in H1.
    apply bind_ok in H1 as (u & Hneg & H1). apply throw_if_ok in Hneg. split; [lia|].
    intros -> Hpos. destruct (0 <? x) eqn:E; [|lia]. cbn in H1.
    destruct (x <? amount (required_fees e)) eqn:E'; [done|lia].
  - rewrite <- Ef. by apply (IH e1 Hrun a x Hin).
Qed.

Lemma required_deposits_checked l e u :
  foldM (fun _ => check_required_deposit e) tt l = Ok u ->
  forall id a, In (id, a) l ->
    exists p, provided_deposits e !! id = Some p /\ amount a <= amount p.
Proof.
  assert (Hall : forall l u0, foldM (fun _ => check_required_deposit e) u0 l = Ok u ->
    forall id a, In (id, a) l ->
      exists p, provided_deposits e !! id = Some p /\ amount a <= amount p); [|by apply Hall].
  clear l. induction l as [|[id' a'] l IH]; simpl; intros u0 Hrun id a Hin; [done|].
  apply bind_ok in Hrun as (u1 & H1 & Hrun). destruct Hin as [[= -> ->]|Hin].
  - unfold check_required_deposit in H1. inv_ok. eexists. split; [done|].
    unfold asset_lt in *. cbn [snd] in *. lia.
  - by eapply IH.
Qed.

(** C17: Fees and deposits of a transaction that evaluates. No asset was deposited in
    excess of what was withdrawn or issued; what is left of the base asset covers the fee
    for the size of the transaction and, when any is left, the registration fees of its
    operations too; every deposit that the exercise of an option requires was provided. *)
Theorem evaluate_fees t e e' :
  evaluate t e = Ok e' ->
  (forall a, 0 <= get_fees e' a) /\
  (exists fee, transaction_fee e' = Ok fee /\ fee <= get_fees e' 0) /\
  (0 < get_fees e' 0 -> amount (required_fees e') <= get_fees e' 0) /\
  (forall id a, required_deposits e' !! id = Some a ->
     exists p, provided_deposits e' !! id = Some p /\ amount a <= amount p).
Proof.
  unfold evaluate. intros Hrun. apply bind_ok in Hrun as (u & _ & Hrun).
  apply bind_ok in Hrun as (known & _ & Hrun). apply bind_ok in Hrun as (u' & _ & Hrun).
  apply bind_ok in Hrun as (e1 & _ & Hrun). apply bind_ok in Hrun as (e2 & _ & Hrun).
  apply bind_ok in Hrun as (e3 & Hpost & Hrun). apply bind_ok in Hrun as (u'' & Hreq & Hrun).
  pose proof (votes_state_only _ _ Hrun) as E'.
  assert (Ep : prev_state (current_state e') = prev_state (current_state e3)).
  { unfold update_delegate_votes in Hrun. inv_ok. by eapply update_votes_prev. }
  assert (Efee : transaction_fee e' = transaction_fee e3)
    by (apply transaction_fee_prev; [done|by rewrite E']).
  assert (Ebal : forall a, get_fees e' a = get_fees e3 a) by (intros; by rewrite E').
  unfold post_evaluate in Hpost. apply bind_ok in Hpost as (fee & _ & Hpost).
  apply bind_ok in Hpost as (e4 & _ & Hpost). apply bind_ok in Hpost as (e5 & Hfees & Hpost).
  apply bind_ok in Hpost as (u3 & Hdep & Hpost). inv_ok.
  assert (E3 : e3 = with_state (current_state e3) e4).
  { eapply foldM_state; [|done]. intros. by eapply collect_fee_state. }
  pose proof (collect_fees_checked _ _ _ Hfees) as Hc.
  assert (Hin : forall a x, eval_balance e3 !! a = Some x ->
    0 <= x /\ (a = 0 -> 0 < x -> amount (required_fees e4) <= x)).
  { intros a x Hx. apply Hc, list_elem_of_In, elem_of_map_to_list. by rewrite E3 in Hx. }
  split; [|split; [|split]].
  - intros a. rewrite Ebal. unfold get_fees. destruct (eval_balance e3 !! a) eqn:Ea; [|done].
    by apply (Hin a).
  - rewrite Efee, Ebal. unfold validate_required_fee in Hreq.
    apply bind_ok in Hreq as (f & Hf & Hreq). exists f. split; [done|].
    unfold get_fees. destruct (eval_balance e3 !! 0); [|done]. inv_ok. cbn. lia.
  - rewrite Ebal. unfold get_fees. destruct (eval_balance e3 !! 0) eqn:E0; [|done]. cbn.
    replace (required_fees e') with (required_fees e4) by (rewrite E', E3; done).
    intros. by apply (Hin 0).
  - intros id a Ha. replace (provided_deposits e') with (provided_deposits e3) by (by rewrite E').
    eapply required_deposits_checked; [done|]. apply list_elem_of_In, elem_of_map_to_list.
    rewrite E' in Ha. exact Ha.
Qed.
End Fees.

(** ** Conservation *)
Lemma eqm_in_int64 x y : x == y -> in_int64 x -> in_int64 y -> x = y.
Proof.
  unfold eqm, in_int64. intros E Hx Hy.
  pose proof (Z.div_mod x (2 ^ 64)). pose proof (Z.div_mod y (2 ^ 64)). lia.
Qed.

Section Conserves.
Context {P : Type} `{FC : Fc} `{FT : FcTransaction} `{FBl : FcBlock} `{FO : FcOperations} `{FB : FcBigint}.
Context `{CI : ChainInterface P} `{CV : !ChainView P}.
Notation eval_state := (transaction_evaluation_state (pending_chain_state P)).
Context (bid_asset ask_asset : Z * Z -> Z).
Notation excess := (excess bid_asset ask_asset).

(** C7: Shares are conserved by a transaction. The shares of an asset in balances, in
    delegates' pay and in market orders, less the supply of its record, are what they were
    before, for every asset: issued shares enter the supply, and fees leave it. The
    equation is modulo [2^64], and exact when both sides are amounts. Records stay under
    their own ids, and no id is given out twice. The hypothesis on the orders is that
    those at one index of the market (a ratio and an owner) are in one asset, which the
    code does not check. *)
Theorem evaluate_conserves k t (e e' : eval_state) :
  0 <= k -> Forall (orders_in_asset bid_asset ask_asset) (operations t) ->
  wf (k + Z.of_nat (length (operations t))) (ledger_at e) ->
  evaluate t e = Ok e' ->
  wf k (ledger_at e') /\
  forall a,
    excess (ledger_at e') a == excess (ledger_at e) a /\
    (in_int64 (excess (ledger_at e') a) -> in_int64 (excess (ledger_at e) a) ->
     excess (ledger_at e') a = excess (ledger_at e) a).
Proof.
  intros Hk Ho Hwf He.
  destruct (evaluate_excess (CS := pending_stores) eq_refl bid_asset ask_asset k t e e' Hk Ho He Hwf) as [Hwf' Hx].
  split; [done|]. intros a. split; [done|]. intros H1 H2.
  by apply eqm_in_int64.
Qed.
End Conserves.

(** ** Witnesses *)
#[local] Existing Instance concrete_fc.
#[local] Existing Instance concrete_transaction.
#[local] Existing Instance concrete_block.
#[local] Existing Instance concrete_operations.

Lemma payment_paid : evaluate payment fresh = Ok paid_state.
Proof. vm_compute. reflexivity. Qed.

Lemma evaluate_admission_witness :
  trx paid_state = payment /\ check_signature paid_state (1000 + bob_key) = true.
Proof.
  destruct (evaluate_admission payment fresh paid_state payment_paid)
    as (_ & _ & Ht & keys & Hk & Hs).
  split; [exact Ht|]. apply Hs. inversion Hk as [|sg k ? ? Hr]; subst.
  exists k. split; [by left|]. injection Hr as <-. vm_compute. reflexivity.
Defined.

Lemma evaluate_fees_witness : get_fees paid_state 0 = 100 /\ 0 <= get_fees paid_state 1.
Proof.
  split; [vm_compute; reflexivity|].
  exact (proj1 (evaluate_fees payment fresh paid_state payment_paid) 1).
Defined.

Lemma evaluate_conserves_witness :
  excess (fun _ => 0) (fun _ => 0) (ledger_at paid_state) 0 ==
    excess (fun _ => 0) (fun _ => 0) (ledger_at fresh) 0 /\
  excess (fun _ => 0) (fun _ => 0) (ledger_at paid_state) 1 ==
    excess (fun _ => 0) (fun _ => 0) (ledger_at fresh) 1.
Proof.
  assert (H0 : 0 <= 1) by lia.
  assert (Ho : Forall (orders_in_asset (fun _ => 0) (fun _ => 0)) (operations payment)).
  { repeat constructor; intros o Ht; discriminate Ht. }
  assert (Hwf : wf (1 + Z.of_nat (length (operations payment))) (ledger_at fresh)).
  { apply wf_b_ok. vm_compute. reflexivity. }
  destruct (evaluate_conserves (fun _ => 0) (fun _ => 0) 1 payment fresh paid_state H0 Ho Hwf
              payment_paid) as [_ Hx].
  split; [exact (proj1 (Hx 0))|exact (proj1 (Hx 1))].
Defined.
