(* ===== verification/Spending.v ===== *)
(** Who may spend: the conditions of a balance and the operation [withdraw] that checks
    them, the deposits, and the operation that pays a delegate. *)
From S2P Require Import Prelude Errors Asset Records ChainInterface PendingState ChainDatabase.
From S2P Require Import EvalState Operations Conservation Concrete.

Section Withdraw.
Context {S : Type} `{FC : Fc} `{FT : FcTransaction} `{FBl : FcBlock} `{FB : FcBigint} `{CI : ChainInterface S}.
Notation eval_state := (transaction_evaluation_state S).
Implicit Types e : eval_state.

(** How many of the owners have signed. *)
Definition signers e (l : list Z) : nat := length (filter (fun a => a ∈ signed_keys e) l).

(** What each condition asks of a withdrawal, and the evaluation state after it. *)
Inductive may_withdraw e (op : withdraw_operation) (c : withdraw_condition) : eval_state -> Prop :=
  | by_signature w :
      condition_type c = withdraw_signature_type ->
      unpack_with_signature (condition_data c) = Some w ->
      owner w ∈ signed_keys e -> may_withdraw e op c e
  | by_multi_sig w :
      condition_type c = withdraw_multi_sig_type ->
      unpack_with_multi_sig (condition_data c) = Some w ->
      required w <= Z.of_nat (signers e (owners w)) -> may_withdraw e op c e
  | by_payor w t :
      condition_type c = withdraw_password_type ->
      unpack_with_password (condition_data c) = Some w ->
      now (current_state e) = Ok t -> timeout w < t ->
      payor w ∈ signed_keys e -> may_withdraw e op c e
  | by_payee w t :
      condition_type c = withdraw_password_type ->
      unpack_with_password (condition_data c) = Some w ->
      now (current_state e) = Ok t -> t <= timeout w ->
      payee w ∈ signed_keys e -> (20 <= length (claim_input_data op))%nat ->
      password_hash w = ripemd160_hash (claim_input_data op) -> may_withdraw e op c e
  | by_optionor w t :
      condition_type c = withdraw_option_type ->
      unpack_option (condition_data c) = Some w ->
      now (current_state e) = Ok t -> date w < t ->
      optionor w ∈ signed_keys e -> may_withdraw e op c e
  | by_optionee w t pay e' :
      condition_type c = withdraw_option_type ->
      unpack_option (condition_data c) = Some w ->
      now (current_state e) = Ok t -> t <= date w ->
      optionee w ∈ signed_keys e ->
      asset_mul_price (Asset (withdraw_amount op) (condition_asset_id c)) (strike_price w) = Ok pay ->
      add_required_deposit e (optionee w) pay = Ok e' -> may_withdraw e op c e'
  | by_anyone :
      ~ (withdraw_null_type <= condition_type c <= withdraw_option_type) -> may_withdraw e op c e.

Lemma check_signature_true e a : check_signature e a = true <-> a ∈ signed_keys e.
Proof. apply bool_decide_eq_true. Qed.
Lemma check_signature_not e a : negb (check_signature e a) = false <-> a ∈ signed_keys e.
Proof. rewrite negb_false_iff. apply check_signature_true. Qed.

Lemma count_signatures_signers e l : count_signatures e l = Z.of_nat (signers e l).
Proof.
  unfold count_signatures, signers.
  assert (Hg : forall n, foldl (fun n a => n + (if check_signature e a then 1 else 0)) n l =
    n + Z.of_nat (length (filter (fun a => a ∈ signed_keys e) l))); [|apply Hg].
  induction l as [|a l IH]; intros n; cbn [foldl]; [simpl; lia|].
  rewrite IH. unfold check_signature. rewrite filter_cons.
  destruct (decide (a ∈ signed_keys e)) as [i|i].
  - rewrite (bool_decide_eq_true_2 _ i). simpl length. lia.
  - rewrite (bool_decide_eq_false_2 _ i). lia.
Qed.

Lemma as_type_ok {A} ty (unpack : list Z -> option A) c w :
  as_type ty unpack c = Ok w <-> condition_type c = ty /\ unpack (condition_data c) = Some w.
Proof.
  unfold as_type. rewrite bind_ok. split.
  - intros ([] & H1 & H2). apply FC_ASSERT_ok, Z.eqb_eq in H1. by apply value_or_throw_ok in H2.
  - intros [H1 H2]. exists tt. rewrite FC_ASSERT_ok, Z.eqb_eq. by rewrite value_or_throw_ok.
Qed.

Lemma check_condition_sound e op r e' :
  check_condition e op r = Ok e' -> may_withdraw e op (condition r) e'.
Proof.
  unfold check_condition. intros Hc.
  repeat case_if_ok Hc;
    repeat match goal with H : (_ =? _) = true |- _ => apply Z.eqb_eq in H end;
    try (apply bind_ok in Hc as (w & Hw & Hc); apply as_type_ok in Hw as [Hty Hw]); inv_run;
    repeat match goal with H : negb (check_signature _ _) = false |- _ =>
      apply check_signature_not in H end; try done.
  - by eapply by_signature.
  - eapply by_multi_sig; [done|done|]. rewrite <- count_signatures_signers. lia.
  - eapply by_payor; try done. lia.
  - eapply by_payee; try done; [lia| |].
    + by apply Nat.ltb_ge.
    + apply Z.eqb_eq. by apply negb_false_iff.
  - eapply by_optionor; try done. lia.
  - eapply by_optionee; try done. lia.
  - apply by_anyone. unfold withdraw_null_type, withdraw_signature_type, withdraw_multi_sig_type,
      withdraw_password_type, withdraw_option_type in *. lia.
Qed.

Lemma check_condition_complete e op r e' :
  may_withdraw e op (condition r) e' -> check_condition e op r = Ok e'.
Proof.
  intros H. unfold check_condition.
  destruct H as [w Hty Hw Hs|w Hty Hw Hs|w t Hty Hw Hn Ht Hs|w t Hty Hw Hn Ht Hs Hl Hh
    |w t Hty Hw Hn Ht Hs|w t pay e' Hty Hw Hn Ht Hs Hp Hr|Hty];
    [rewrite Hty; cbn -[Nat.ltb];
     rewrite (proj2 (as_type_ok _ _ _ _) (conj Hty Hw)); cbn [bind]; rewrite ?Hn; cbn [bind]..|].
  - by rewrite (proj2 (check_signature_not _ _) Hs).
  - rewrite count_signatures_signers. by rewrite (proj2 (Z.ltb_ge _ _)) by lia.
  - rewrite (proj2 (Z.ltb_lt _ _)) by lia. by rewrite (proj2 (check_signature_not _ _) Hs).
  - rewrite (proj2 (Z.ltb_ge _ _)) by lia. rewrite (proj2 (check_signature_not _ _) Hs).
    cbn [throw_if bind]. rewrite (proj2 (Nat.ltb_ge _ _)) by done. cbn [throw_if bind].
    by rewrite Hh, Z.eqb_refl.
  - rewrite (proj2 (Z.ltb_lt _ _)) by lia. by rewrite (proj2 (check_signature_not _ _) Hs).
  - rewrite (proj2 (Z.ltb_ge _ _)) by lia. rewrite (proj2 (check_signature_not _ _) Hs). cbn.
    by rewrite Hp.
  - unfold withdraw_null_type, withdraw_signature_type, withdraw_multi_sig_type,
      withdraw_password_type, withdraw_option_type in *.
    repeat match goal with |- context [condition_type (condition r) =? ?k] =>
      rewrite (proj2 (Z.eqb_neq (condition_type (condition r)) k)) by lia end. done.
Qed.

Lemma check_condition_frame e op r e' :
  check_condition e op r = Ok e' ->
  current_state e' = current_state e /\ eval_balance e' = eval_balance e /\
  withdraws e' = withdraws e.
Proof.
  unfold check_condition, add_required_deposit. intros. inv_run; done.
Qed.

Lemma add_balance_credit e x e' :
  add_balance e x = Ok e' ->
  get_fees e' (asset_id x) =
    (match eval_balance e !! asset_id x with
     | Some b => int64 (b + amount x) | None => amount x end) /\
  (forall a, a <> asset_id x -> get_fees e' a = get_fees e a) /\
  current_state e' = current_state e.
Proof.
  unfold add_balance, get_fees. intros. inv_ok. cbn. rewrite lookup_insert_eq.
  split; [done|]. split; [|done]. intros a Ha. by rewrite lookup_insert_ne.
Qed.

Lemma get_fees_votes (b : bool) f d x e a :
  (f = add_vote \/ f = sub_vote) ->
  get_fees (if b then f e d x else e) a = get_fees e a.
Proof.
  intros [->| ->]; destruct b; try done; unfold add_vote, sub_vote, get_fees;
    by repeat case_if.
Qed.
Lemma state_votes (b : bool) f d x e :
  (f = add_vote \/ f = sub_vote) ->
  current_state (if b then f e d x else e) = current_state e.
Proof.
  intros [->| ->]; destruct b; try done; unfold add_vote, sub_vote; by repeat case_if.
Qed.

(** C8: [withdraw_operation::evaluate]. A withdrawal succeeds only from a balance the
    chain knows, of a positive amount that the balance holds, and if the condition of the
    balance is met, where its type is one that the code knows: the owner's signature; enough of
    several; before the time-out the payee's and the password, after it the payor's; until its
    date an option is exercised by the optionee, who owes the strike price as a deposit, after
    it the optionor takes the balance back. For a type that the code does not know it asks for
    nothing ([by_anyone], see [withdraw_unknown_type]). The balance then holds exactly the
    amount less, under the same condition, and the amount, in the asset of the condition, is
    what the transaction may deposit or leave as a fee. *)
Theorem withdraw_spec op e e' :
  (forall id r, get_balance_record (current_state e) id = Some r -> in_int64 (balance r)) ->
  evaluate_withdraw op e = Ok e' ->
  exists r t e1,
    get_balance_record (current_state e) (withdraw_balance_id op) = Some r /\
    0 < withdraw_amount op <= balance r /\
    may_withdraw e op (condition r) e1 /\
    now (current_state e) = Ok t /\
    current_state e' = store_balance_record (current_state e)
      (BalanceRecord (balance r - withdraw_amount op) (condition r) t) /\
    (get_fees e' (condition_asset_id (condition r)) ==
       get_fees e (condition_asset_id (condition r)) + withdraw_amount op) /\
    (forall a, a <> condition_asset_id (condition r) -> get_fees e' a = get_fees e a).
Proof.
  intros Hwf Hop. unfold evaluate_withdraw in Hop.
  apply bind_ok in Hop as (u & Hpos & Hop). apply throw_if_ok in Hpos.
  apply bind_ok in Hop as (r & Hr & Hop). apply value_or_throw_ok in Hr.
  apply bind_ok in Hop as (u' & Hbal & Hop). apply throw_if_ok in Hbal.
  apply bind_ok in Hop as (e1 & Hc & Hop). rewrite bind_ok in Hop.
  destruct Hop as (t & Ht & Hop). apply bind_ok in Hop as (e2 & Hadd & Hop).
  apply Ok_inj in Hop. cbn [condition] in *. exists r, t, e1.
  pose proof (check_condition_frame _ _ _ _ Hc) as (Es & Eb & _).
  apply add_balance_credit in Hadd as (Hf & Hfo & Es2). cbn [asset_id amount] in *.
  assert (Hi : in_int64 (balance r - withdraw_amount op)).
  { pose proof (Hwf _ _ Hr) as Hi. unfold in_int64 in *. lia. }
  split; [done|]. split; [lia|]. split; [by apply check_condition_sound|]. split; [done|].
  subst e'. unfold get_fees at 1 3. cbn [with_state current_state eval_balance].
  fold (get_fees (S := S)). split; [|split].
  - rewrite state_votes, Es2, Es, (int64_id _ Hi) by eauto. done.
  - change (get_fees (if condition_asset_id (condition r) =? 0
        then sub_vote e2 (condition_delegate_id (condition r)) (withdraw_amount op) else e2)
        (condition_asset_id (condition r)) ==
      get_fees e (condition_asset_id (condition r)) + withdraw_amount op).
    rewrite get_fees_votes, Hf, Eb by eauto. unfold get_fees.
    destruct (eval_balance e !! _); cbn; eqm_lia.
  - intros a Ha. transitivity (get_fees e2 a); [by apply get_fees_votes; eauto|].
    rewrite Hfo by done. unfold get_fees. by rewrite Eb.
Qed.

(** A balance under a condition of an unknown type is anybody's: the [switch] of
    [withdraw_operation::evaluate] has no [default], so the withdrawal of any amount the
    balance holds succeeds whoever has signed, and when nobody has. *)
Theorem withdraw_unknown_type op e r t :
  get_balance_record (current_state e) (withdraw_balance_id op) = Some r ->
  withdraw_option_type < condition_type (condition r) ->
  0 < withdraw_amount op <= balance r ->
  now (current_state e) = Ok t ->
  withdraws e !! condition_asset_id (condition r) = None ->
  exists e', evaluate_withdraw op e = Ok e'.
Proof.
  intros Hr Hty [Hpos Hbal] Ht Hw. unfold evaluate_withdraw.
  rewrite (proj2 (Z.leb_gt _ _)) by lia. cbn. rewrite Hr. cbn.
  rewrite (proj2 (Z.ltb_ge _ _)) by lia. cbn.
  rewrite (check_condition_complete e op r e) by (apply by_anyone; lia). cbn. rewrite Ht. cbn.
  unfold add_balance, add_asset. cbn [asset_id]. rewrite Hw. cbn. by eexists.
Qed.

(** ** The pay of a delegate *)

(** [withdraw_pay_operation::evaluate] tests the pay the wrong way round. For a
    delegate that is not retracted and has signed, taking less than the pay it has earned
    is refused for insufficient funds; taking all of it or more succeeds, credits the
    whole amount and leaves the pay balance at zero or below. *)
Theorem withdraw_pay_inverted op e r d :
  get_account_record (current_state e) (Z.abs (pay_account_id op)) = Some r ->
  is_retracted r = false -> delegate_info r = Some d ->
  check_signature e (address_of_key (active_key r)) = true ->
  in_int64 (pay_balance d - pay_amount op) -> 0 < pay_amount op ->
  withdraws e !! 0 = None ->
  (pay_amount op < pay_balance d -> evaluate_withdraw_pay op e = Throw insufficient_funds) /\
  (pay_balance d <= pay_amount op -> exists e',
     evaluate_withdraw_pay op e = Ok e' /\
     get_fees e' 0 == get_fees e 0 + pay_amount op /\
     current_state e' = store_account_record (current_state e) (with_delegate_info
       (Some (with_pay_balance (pay_balance d - pay_amount op) d)) r) /\
     pay_balance d - pay_amount op <= 0).
Proof.
  intros Hr Hret Hd Hs Hi Hpos Hw. unfold evaluate_withdraw_pay, is_delegate.
  rewrite (proj2 (Z.leb_gt _ _)) by lia. cbn. rewrite Hr. cbn. rewrite Hret, Hd. cbn.
  rewrite Hs. cbn. split.
  - intros Hlt. by rewrite (proj2 (Z.ltb_lt _ _)).
  - intros Hle. rewrite (proj2 (Z.ltb_ge _ _)) by lia. cbn. rewrite (int64_id _ Hi).
    set (e1 := sub_vote e _ _).
    assert (E1 : withdraws e1 = withdraws e /\ eval_balance e1 = eval_balance e)
      by (unfold e1, sub_vote; by repeat case_if).
    destruct E1 as [E1 E2]. unfold add_balance, add_asset. cbn [asset_id with_state withdraws].
    rewrite E1, Hw. cbn. eexists. split; [done|]. split; [|split; [done|lia]].
    unfold get_fees. cbn. rewrite lookup_insert_eq, E2. cbn.
    destruct (eval_balance e !! 0); cbn; eqm_lia.
Qed.
End Withdraw.

(** ** Witnesses *)
#[local] Existing Instance concrete_fc.
#[local] Existing Instance concrete_transaction.
#[local] Existing Instance concrete_block.

Lemma withdraw_spec_witness :
  let op := WithdrawOperation (balance_id gold_balance) 40 [] in
  exists e' r, evaluate_withdraw op (signed_by [bob_key]) = Ok e' /\
    get_balance_record pending (balance_id gold_balance) = Some r /\ 0 < 40 <= balance r.
Proof.
  intros op.
  assert (Hwf : forall id r, get_balance_record (current_state (signed_by [bob_key])) id = Some r ->
    in_int64 (balance r)).
  { assert (Hall : forallb (fun kv => (- 2 ^ 63 <=? balance kv.2) && (balance kv.2 <? 2 ^ 63))
      (map_to_list (l_balances (ledger_of pending))) = true) by (vm_compute; reflexivity).
    intros id r Hr. rewrite view_balance in Hr.
    pose proof (forallb_map _ _ Hall id r Hr) as Hb. cbn in Hb. unfold in_int64. lia. }
  destruct (evaluate_withdraw op (signed_by [bob_key])) as [e'|] eqn:E;
    [|vm_compute in E; discriminate E].
  destruct (withdraw_spec op (signed_by [bob_key]) e' Hwf E) as (r & t & e1 & Hr & Hb & _).
  exists e', r. split; [reflexivity|]. split; [exact Hr|exact Hb].
Defined.

Lemma withdraw_unknown_type_witness :
  exists e', evaluate_withdraw (WithdrawOperation (balance_id open_balance) 500 []) fresh = Ok e'.
Proof.
  eapply (withdraw_unknown_type _ fresh open_balance 1005);
    [vm_compute; reflexivity|vm_compute; reflexivity|vm_compute; split; congruence
    |vm_compute; reflexivity|reflexivity].
Defined.

Lemma withdraw_pay_inverted_witness :
  evaluate_withdraw_pay (WithdrawPayOperation 100 1) (signed_by [alice_key]) =
    Throw insufficient_funds /\
  exists e', evaluate_withdraw_pay (WithdrawPayOperation 5000 1) (signed_by [alice_key]) = Ok e'.
Proof.
  split.
  - eapply (withdraw_pay_inverted (WithdrawPayOperation 100 1) (signed_by [alice_key]) alice
      (DelegateStats 0 0 0 0 0 0 600)); try (vm_compute; reflexivity).
    vm_compute. split; congruence.
  - edestruct (withdraw_pay_inverted (WithdrawPayOperation 5000 1) (signed_by [alice_key]) alice
      (DelegateStats 0 0 0 0 0 0 600)) as [_ H]; try (vm_compute; reflexivity).
    + vm_compute. split; congruence.
    + destruct H as (e' & He & _); [vm_compute; congruence|]. exists e'. exact He.
Defined.
