(* ===== verification/Accounts.v ===== *)
(** The registration of an account and the update of one by a parent: the search for a
    parent's signature along the dots of a name. *)
From Stdlib Require Import Ascii.
From S2P Require Import Prelude Errors Asset Records ChainInterface PendingState ChainDatabase.
From S2P Require Import EvalState Operations Conservation Concrete.

(** ** Parent names *)
Lemma parent_length s :
  (0 < String.length s)%nat -> (String.length (get_parent_account_name s) < String.length s)%nat.
Proof.
  induction s as [|c s IH]; simpl; [lia|]. intros _. destruct (Ascii.eqb c "."); [lia|].
  destruct s as [|c' s]; [simpl; lia|]. assert (0 < String.length (String.String c' s))%nat by (simpl; lia).
  specialize (IH H). lia.
Qed.

Section Parents.
Context {S : Type} `{FC : Fc} `{FT : FcTransaction} `{FBl : FcBlock} `{FB : FcBigint} `{CI : ChainInterface S}.
Notation eval_state := (transaction_evaluation_state S).
Implicit Types e : eval_state.

(** Some key of the account has signed. *)
Definition key_signed e (r : account_record) : bool :=
  check_signature e (address_of_key (owner_key r))
  || check_signature e (address_of_key (active_key r)).

(** The parents of a name, in the order of the search. *)
Fixpoint ancestors (fuel : nat) (s : S) (name : string) (r : option account_record)
    : list account_record :=
  match fuel, r with
  | Datatypes.S fuel, Some a =>
      let name := get_parent_account_name name in
      a :: ancestors fuel s name (get_account_record_by_name s name)
  | _, _ => []
  end.

(** More fuel than [parent_fuel] changes nothing: either the search has ended, or it
    never does. *)
Lemma verify_parents_enough e name r fuel :
  get_account_record_by_name (current_state e) "" = None ->
  (Datatypes.S (String.length name) < fuel)%nat ->
  verify_parents fuel e name r =
    match find (fun a => is_retracted a || key_signed e a)
            (ancestors (Datatypes.S (Datatypes.S (String.length name))) (current_state e) name r) with
    | Some a => Throw (if is_retracted a then parent_account_retracted else does_not_return)
    | None => Ok tt
    end.
Proof.
  intros Hempty. revert name r.
  assert (Hloop : forall fuel name a, is_retracted a = false -> key_signed e a = true ->
    verify_parents fuel e name (Some a) = Throw does_not_return).
  { intros f name a Ha Hk. induction f as [|f IHf]; [done|]. simpl. rewrite Ha. simpl.
    unfold key_signed in Hk. rewrite Hk. exact IHf. }
  assert (Hgen : forall n fuel name r, (String.length name <= n)%nat -> (Datatypes.S n < fuel)%nat ->
    forall m, (Datatypes.S (String.length name) < m)%nat ->
    verify_parents fuel e name r =
      match find (fun a => is_retracted a || key_signed e a)
              (ancestors m (current_state e) name r) with
      | Some a => Throw (if is_retracted a then parent_account_retracted else does_not_return)
      | None => Ok tt
      end).
  { induction n as [n IHn] using lt_wf_ind. intros f name r Hn Hf m Hm.
    destruct f as [|f]; [lia|]. destruct m as [|m]; [lia|].
    destruct r as [a|]; [|done]. cbn [ancestors find].
    destruct (is_retracted a) eqn:Er; [simpl; by rewrite Er|].
    destruct (key_signed e a) eqn:Ek.
    { rewrite Hloop by done. cbn [orb]. by rewrite Er. }
    cbn [orb verify_parents]. rewrite Er. cbn [throw_if bind].
    unfold key_signed in Ek. rewrite Ek.
    destruct (String.length name) as [|l] eqn:El.
    - destruct name; [|done]. simpl. rewrite Hempty. destruct f, m; try lia. done.
    - assert (Hp : (String.length (get_parent_account_name name) < String.length name)%nat)
        by (apply parent_length; lia).
      apply (IHn (String.length (get_parent_account_name name))); lia. }
  intros name r Hf. apply (Hgen (String.length name)); lia.
Qed.

(** The search for a parent's signature. It passes the parents of a name in turn,
    and ends at a retracted one with an exception or at the first name that no account
    has; it does not return at all when a key of some parent before that has signed, since
    nothing in the loop then changes. [parent_fuel] passes every parent, so it stands for
    any larger fuel; a name has no more parents than characters. That no account has the
    empty name is what registration ensures. *)
Theorem verify_parents_spec e name r fuel :
  get_account_record_by_name (current_state e) "" = None ->
  (parent_fuel name <= fuel)%nat ->
  verify_parents fuel e name r = verify_parents (parent_fuel name) e name r /\
  (verify_parents fuel e name r = Throw does_not_return <->
   exists a, find (fun a => is_retracted a || key_signed e a)
       (ancestors (parent_fuel name) (current_state e) name r) = Some a /\
     is_retracted a = false).
Proof.
  unfold parent_fuel. intros Hempty Hf. rewrite !verify_parents_enough by (done || lia).
  split; [done|]. destruct (find _ _) as [a|].
  - destruct (is_retracted a) eqn:Ea; split; try done.
    + intros (a' & [= <-] & ?). congruence.
    + intros _. by exists a.
  - split; [done|]. by intros (a & ? & _).
Qed.

Lemma verify_parents_stuck e fuel name a :
  is_retracted a = false -> key_signed e a = true ->
  verify_parents fuel e name (Some a) = Throw does_not_return.
Proof.
  intros Ha Hk. induction fuel as [|f IHf]; [done|]. simpl. rewrite Ha. simpl.
  unfold key_signed in Hk. rewrite Hk. exact IHf.
Qed.

(** A parent cannot update the account of a child: when the parent has signed and
    the child has not, [update_account_operation::evaluate] does not return, whether the
    active key is to change or not. *)
Theorem update_account_by_parent op e r a :
  get_account_record (current_state e) (update_account_id op) = Some r ->
  is_retracted r = false ->
  (0 < String.length (get_parent_account_name (account_name r)))%nat ->
  get_account_record_by_name (current_state e) (get_parent_account_name (account_name r)) = Some a ->
  is_retracted a = false -> key_signed e a = true -> key_signed e r = false ->
  evaluate_update_account op e = Throw does_not_return.
Proof.
  intros Hr Hret Hlen Ha Hra Hka Hkr. unfold evaluate_update_account. rewrite Hr. cbn.
  rewrite Hret. cbn. apply orb_false_iff in Hkr as [Ho Hk].
  assert (Hl : (String.length (get_parent_account_name (account_name r)) =? 0)%nat = false)
    by (apply Nat.eqb_neq; lia).
  assert (Hown : check_own_signature e r (get_parent_account_name (account_name r)) =
    Throw does_not_return).
  { unfold check_own_signature. rewrite Hk, Ho, Hl, Ha. cbn [negb andb].
    by rewrite verify_parents_stuck. }
  assert (Hnew : check_new_key_signature e r (get_parent_account_name (account_name r)) =
    Throw does_not_return).
  { unfold check_new_key_signature. rewrite Hl, Ha. cbn [value_or_throw bind].
    by rewrite verify_parents_stuck. }
  destruct (update_active_key op) as [k|]; [destruct (negb (k =? active_key r))|];
    by rewrite ?Hown, ?Hnew.
Qed.

Lemma check_own_ok e r name u : check_own_signature e r name = Ok u -> key_signed e r = true.
Proof.
  unfold check_own_signature, key_signed. intros H. inv_ok.
  destruct (check_signature e (address_of_key (active_key r))); [by rewrite orb_true_r|].
  rewrite orb_false_r. by apply negb_false_iff.
Qed.

Lemma check_new_ok e r name u :
  check_new_key_signature e r name = Ok u ->
  name = ""%string /\ check_signature e (address_of_key (owner_key r)) = true.
Proof.
  unfold check_new_key_signature. intros H. case_if_ok H; inv_ok.
  split; [|by apply negb_false_iff]. destruct name; [done|]. by apply Nat.eqb_eq in Heqb.
Qed.

Lemma update_checks_ok op e r name u :
  match update_active_key op with
  | Some k => if negb (k =? active_key r) then check_new_key_signature e r name
              else check_own_signature e r name
  | None => check_own_signature e r name
  end = Ok u ->
  key_signed e r = true /\
  (forall k, update_active_key op = Some k -> k <> active_key r ->
     name = ""%string /\ check_signature e (address_of_key (owner_key r)) = true).
Proof.
  intros H. destruct (update_active_key op) as [k|].
  - destruct (Z.eqb_spec k (active_key r)) as [Ek|Hne]; cbn [negb] in H.
    + apply check_own_ok in H. split; [done|]. intros k' [= <-] Hne. by destruct Hne.
    + apply check_new_ok in H as [Hn Ho]. split; [unfold key_signed; by rewrite Ho|].
      by intros k' [= <-].
  - apply check_own_ok in H. by split.
Qed.

(** What an update keeps of a record. *)
Definition same_account (r r' : account_record) : Prop :=
  account_id r' = account_id r /\ account_name r' = account_name r /\
  owner_key r' = owner_key r /\
  (forall d, delegate_info r = Some d -> delegate_info r' = Some d).
Lemma same_account_trans r1 r2 r3 : same_account r1 r2 -> same_account r2 r3 -> same_account r1 r3.
Proof. intros (?&?&?&?) (?&?&?&?). repeat split; try congruence. auto. Qed.

Lemma new_key_stored op s t r r' :
  match update_active_key op with
  | Some k =>
      let* r := set_active_key t k r in
      let* same_key := get_account_record_by_owner s (address_of_key k) in
      let* _ := throw_if (bool_decide (is_Some same_key)) account_key_in_use in
      Ok r
  | None => Ok r
  end = Ok r' ->
  same_account r r' /\
  (forall k, update_active_key op = Some k ->
     get_account_record_by_owner s (address_of_key k) = Ok None /\
     (Forall (fun item : Z * Z => item.1 <= t) (active_key_history r) ->
      sorted_history (active_key_history r) -> active_key r' = k)).
Proof.
  intros H. destruct (update_active_key op) as [k|]; unfold set_active_key in H; inv_ok.
  - split; [done|]. intros k' [= <-].
    match goal with H : bool_decide _ = false |- _ => apply bool_decide_eq_false in H as Hno end.
    split; [destruct x0; [destruct Hno; by eexists|done]|]. intros Hle Hs. unfold active_key. cbn.
    rewrite history_insert_last; [done| |done]. intros x Hx.
    apply in_map_iff in Hx as (item & <- & Hin). rewrite List.Forall_forall in Hle. by apply Hle.
  - by split.
Qed.

Lemma delegate_stored op e r e' r' :
  (if negb (is_delegate r) && update_is_delegate op then
     let* fee := get_delegate_registration_fee (current_state e) in
     let* e := add_required_fee e fee in
     Ok (e, with_delegate_info (Some delegate_stats_default) r)
   else Ok (e, r)) = Ok (e', r') ->
  same_account r r' /\ active_key_history r' = active_key_history r /\
  current_state e' = current_state e.
Proof.
  intros H. case_if_ok H; inv_ok; [|done].
  split; [|split; [done|by unfold add_required_fee in *; inv_ok]].
  repeat split. intros d Hd. unfold is_delegate in *. by rewrite Hd in *.
Qed.

(** C22: What an update that succeeds has shown. The account exists and is not
    retracted, and its own active or owner key has signed; a new active key needs the
    owner's signature, belongs to no account yet, and is given only to an account whose
    name has no parent. The source means to admit the signature of a parent account as well, as
    its comment and its message say, but the loop that looks for it does not end when it finds
    one ([update_account_by_parent]), so no such update succeeds. The record stored keeps the
    id, the name, the owner's key and, of a delegate, the votes and the pay; its active key is
    the new one if the clock has not gone back. *)
Theorem update_account_spec op e e' :
  evaluate_update_account op e = Ok e' ->
  exists r r' t,
    get_account_record (current_state e) (update_account_id op) = Some r /\
    is_retracted r = false /\ key_signed e r = true /\
    (forall k, update_active_key op = Some k -> k <> active_key r ->
       get_parent_account_name (account_name r) = ""%string /\
       check_signature e (address_of_key (owner_key r)) = true) /\
    (forall k, update_active_key op = Some k ->
       get_account_record_by_owner (current_state e) (address_of_key k) = Ok None /\
       (Forall (fun item : Z * Z => item.1 <= t) (active_key_history r) ->
        sorted_history (active_key_history r) -> active_key r' = k)) /\
    now (current_state e) = Ok t /\
    current_state e' = store_account_record (current_state e) r' /\
    account_id r' = account_id r /\ account_name r' = account_name r /\
    owner_key r' = owner_key r /\
    (forall d, delegate_info r = Some d -> delegate_info r' = Some d).
Proof.
  unfold evaluate_update_account. intros Hop.
  apply bind_ok in Hop as (r & Hr & Hop). apply value_or_throw_ok in Hr.
  apply bind_ok in Hop as (u & Hret & Hop). apply throw_if_ok in Hret.
  apply bind_ok in Hop as (u' & Hsig & Hop). apply update_checks_ok in Hsig as [Hsig Hnew].
  set (r1 := match update_account_data op with Some _ => _ | None => _ end) in *.
  assert (Hr1 : same_account r r1) by (unfold r1; by destruct (update_account_data op)).
  assert (Hh : active_key_history r1 = active_key_history r)
    by (unfold r1; by destruct (update_account_data op)).
  clearbody r1. apply bind_ok in Hop as (t & Ht & Hop).
  apply bind_ok in Hop as (r2 & Hkey & Hop).
  apply bind_ok in Hop as ([e1 r3] & Hdel & Hop). apply Ok_inj in Hop.
  apply new_key_stored in Hkey as [Hr2 Hk2]. cbn [with_last_update active_key_history] in Hk2.
  rewrite Hh in Hk2. change (same_account r1 r2) in Hr2.
  destruct (delegate_stored _ _ _ _ _ Hdel) as (Hr3 & Hh3 & Es).
  pose proof (same_account_trans _ _ _ Hr1 (same_account_trans _ _ _ Hr2 Hr3)) as (?&?&?&?).
  exists r, r3, t. subst e'. cbn [with_state current_state]. rewrite Es.
  repeat split; try done; try (by eapply Hnew); try (by apply Hk2).
  intros. unfold active_key. rewrite Hh3. by eapply Hk2.
Qed.
End Parents.

(** ** Registration *)
Section Register.
Context {P : Type} `{FC : Fc} `{FT : FcTransaction} `{FBl : FcBlock} `{FB : FcBigint} `{CI : ChainInterface P}.
Implicit Types e : transaction_evaluation_state (pending_chain_state P).

(** [register_account_operation::evaluate] tests the age of a registration the
    wrong way round. A name that an account holds and has updated within the last year can
    be registered again, by anyone with a key of no account: the new account takes over
    the name, under the next id and with its own owner key. After a year without an update
    it can not. *)
Theorem register_name_again op e r n t :
  now (current_state e) = Ok t -> t <> 0 ->
  is_valid_account_name (register_name op) = true ->
  get_account_record_by_name (current_state e) (register_name op) = Some r ->
  get_parent_account_name (register_name op) = ""%string ->
  get_account_record_by_owner (current_state e) (address_of_key (register_active_key op)) = Ok None ->
  get_property (current_state e) last_account_id_prop = Ok (variant_int n) ->
  - 2 ^ 31 <= n < 2 ^ 31 - 1 ->
  register_is_delegate op = false ->
  (t <= account_last_update r + one_year ->
     exists e' r', evaluate_register_account op e = Ok e' /\
       get_account_record_by_name (current_state e') (register_name op) = Some r' /\
       account_id r' = n + 1 /\ owner_key r' = register_owner_key op /\
       active_key r' = register_active_key op) /\
  (account_last_update r + one_year < t ->
     evaluate_register_account op e = Throw account_already_registered).
Proof.
  intros Ht Ht0 Hv Hr Hp Hk Hn Hi Hd. unfold evaluate_register_account.
  rewrite Ht. cbn [bind]. rewrite Hv. cbn [negb throw_if bind]. rewrite Hr. split.
  - intros Hyear. rewrite (proj2 (Z.ltb_ge _ _)) by lia. cbn [throw_if bind].
    rewrite Hp. cbn [check_parent_signature String.length Nat.eqb bind]. rewrite Hk. cbn [bind].
    rewrite bool_decide_eq_false_2 by (intros [? [=]]). cbn [throw_if bind].
    unfold new_account_id, last_account_id. rewrite Hn. cbn [as_int bind].
    unfold set_active_key. rewrite (proj2 (Z.eqb_neq _ _) Ht0). rewrite Hd. cbn.
    eexists _, _. split; [done|]. cbn. unfold pending_get_account_record_by_name,
      pending_get_account_record. cbn. rewrite !lookup_insert_eq. cbn.
    assert (Ei : int32 (n + 1) = n + 1) by (unfold int32; rewrite Z.mod_small; lia).
    by rewrite Ei.
  - intros Hyear. by rewrite (proj2 (Z.ltb_lt _ _)).
Qed.
End Register.

(** ** Witnesses *)
#[local] Existing Instance concrete_fc.
#[local] Existing Instance concrete_transaction.
#[local] Existing Instance concrete_block.

Lemma verify_parents_spec_witness :
  verify_parents (parent_fuel "bob") (signed_by [bob_key]) "bob" (Some bob) = Throw does_not_return /\
  verify_parents 50 (signed_by []) "bob" (Some bob) = Ok tt.
Proof.
  assert (Hn : forall keys,
    get_account_record_by_name (current_state (signed_by keys)) "" = None)
    by (intros; vm_compute; reflexivity).
  assert (Hf : (parent_fuel "bob" <= 50)%nat) by (vm_compute; lia).
  split.
  - apply (proj2 (verify_parents_spec (signed_by [bob_key]) "bob" (Some bob) (parent_fuel "bob")
      (Hn _) (le_n _))). exists bob. split; vm_compute; reflexivity.
  - rewrite (proj1 (verify_parents_spec (signed_by []) "bob" (Some bob) 50 (Hn _) Hf)).
    vm_compute. reflexivity.
Defined.

Lemma update_account_by_parent_witness :
  evaluate_update_account (UpdateAccountOperation 3 None (Some 44) false) (signed_by [bob_key]) =
    Throw does_not_return.
Proof.
  apply (update_account_by_parent (UpdateAccountOperation 3 None (Some 44) false)
    (signed_by [bob_key]) carol bob); vm_compute; reflexivity || lia.
Defined.

Lemma update_account_spec_witness :
  exists e' r', evaluate_update_account (UpdateAccountOperation 2 None (Some 44) false)
      (signed_by [bob_key]) = Ok e' /\
    current_state e' = store_account_record pending r' /\ account_name r' = "bob"%string.
Proof.
  set (op := UpdateAccountOperation 2 None (Some 44) false).
  destruct (evaluate_update_account op (signed_by [bob_key])) as [e'|] eqn:E;
    [|vm_compute in E; discriminate E].
  destruct (update_account_spec op (signed_by [bob_key]) e' E)
    as (r & r' & t & Hr & _ & _ & _ & _ & _ & Hs & _ & Hn & _).
  exists e', r'. split; [reflexivity|]. split; [exact Hs|].
  rewrite Hn. vm_compute in Hr. injection Hr as <-. reflexivity.
Defined.

Lemma register_name_again_witness :
  exists e' r', evaluate_register_account
      (RegisterAccountOperation "bob" variant_null 77 78 false None) (signed_by [78]) = Ok e' /\
    get_account_record_by_name (current_state e') "bob" = Some r' /\ owner_key r' = 77.
Proof.
  edestruct (register_name_again (RegisterAccountOperation "bob" variant_null 77 78 false None)
    (signed_by [78]) bob 3 1005) as [H _]; try (vm_compute; reflexivity); [lia|lia|].
  destruct H as (e' & r' & He & Hr & _ & Ho & _); [vm_compute; congruence|].
  exists e', r'. split; [exact He|]. split; [exact Hr|exact Ho].
Defined.
