(* ===== verification/Trading.v ===== *)
(** Assets and orders: the issue of shares within the maximum, the symbols of assets created
    in one block, and the orders of the market that the code finds by ratio and owner. *)
From S2P Require Import Prelude Errors Asset Records ChainInterface PendingState ChainDatabase.
From S2P Require Import EvalState Operations Conservation Concrete Spending.

Section Issue.
Context {S : Type} `{FC : Fc} `{CI : ChainInterface S}.
Implicit Types e : transaction_evaluation_state S.

Lemma can_issue_amount_ok r x :
  in_int64 (current_share_supply r) -> in_int64 x -> can_issue_amount r x = true ->
  0 < x /\ current_share_supply r + x < maximum_share_supply r /\
  in_int64 (current_share_supply r + x).
Proof.
  unfold can_issue_amount. intros Hs Hx H. destruct (Z.leb_spec x 0); [done|].
  apply andb_true_iff in H as [H1 H2]. apply Z.ltb_lt in H1, H2.
  destruct (decide (in_int64 (current_share_supply r + x))) as [Hi|Hi].
  - rewrite (int64_id _ Hi) in H2. auto.
  - exfalso. revert H1. unfold in_int64, int64 in *.
    replace (current_share_supply r + x + 2 ^ 63)
      with (current_share_supply r + x - 2 ^ 63 + 1 * 2 ^ 64) by lia.
    rewrite Z.mod_add, Z.mod_small by lia. lia.
Qed.

(** [issue_asset_operation::evaluate]. Only the issuer of an asset, whose active
    key has signed, issues shares of it; a positive amount is added to the supply without
    wrapping around, the supply stays below the maximum, and exactly the amount becomes
    available to the deposits of the transaction. *)
Theorem issue_asset_spec op e e' :
  in_int64 (amount (issue_amount op)) ->
  (forall id r, get_asset_record (current_state e) id = Some r -> in_int64 (current_share_supply r)) ->
  evaluate_issue_asset op e = Ok e' ->
  let a := issue_amount op in
  exists r issuer,
    get_asset_record (current_state e) (asset_id a) = Some r /\ asset_record_id r = asset_id a /\
    get_account_record (current_state e) (issuer_account_id r) = Some issuer /\
    check_signature e (address_of_key (active_key issuer)) = true /\
    0 < amount a /\ current_share_supply r + amount a < maximum_share_supply r /\
    current_state e' = store_asset_record (current_state e)
      (with_supply (current_share_supply r + amount a) (collected_fees r) r) /\
    get_fees e' (asset_id a) == get_fees e (asset_id a) + amount a /\
    (forall b, b <> asset_id a -> get_fees e' b = get_fees e b).
Proof.
  intros Ha Hwf Hop a. unfold evaluate_issue_asset in Hop. fold a in Hop, Ha.
  apply bind_ok in Hop as (u & _ & Hop). apply bind_ok in Hop as (r & Hr & Hop).
  apply value_or_throw_ok in Hr. apply bind_ok in Hop as (u' & Hs & Hop).
  apply bind_ok in Hop as (u2 & Hc & Hop). apply throw_if_ok, negb_false_iff in Hc.
  apply bind_ok in Hop as (e1 & Hadd & Hop). apply Ok_inj in Hop.
  unfold signed_issuer in Hs. apply bind_ok in Hs as (i & Hi & Hs).
  apply value_or_throw_ok in Hi. apply throw_if_ok, negb_false_iff in Hs.
  unfold can_issue in Hc. destruct (Z.eqb_spec (asset_record_id r) (asset_id a)); [|done].
  apply can_issue_amount_ok in Hc as (Hp & Hm & Hi64); [|by eapply Hwf|done].
  apply add_balance_credit in Hadd as (Hf & Hfo & Es).
  exists r, i. subst e'. cbn [with_state current_state]. rewrite Es, (int64_id _ Hi64).
  repeat (split; [done|]). split.
  - change (get_fees e1 (asset_id a) == get_fees e (asset_id a) + amount a). rewrite Hf.
    unfold get_fees. destruct (eval_balance e !! asset_id a); cbn; eqm_lia.
  - intros b Hb. exact (Hfo b Hb).
Qed.
End Issue.

Section Market.
Context {P : Type} `{FC : Fc} `{FT : FcTransaction} `{FBl : FcBlock} `{FB : FcBigint}.
Context `{CI : ChainInterface P} `{CV : !ChainView P}.
Implicit Types e : transaction_evaluation_state (pending_chain_state P).

(** The symbols of assets created in a block are not compared with each other. After
    [create_asset_operation::evaluate] has created an asset, the pending state still finds
    no asset of that symbol, so the test for a symbol in use passes for the next one. *)
Theorem create_asset_unseen op e e' :
  symbol_id_index (current_state e) = ∅ ->
  evaluate_create_asset op e = Ok e' ->
  get_asset_record_by_symbol (current_state e') (create_symbol op) = None /\
  exists id r, get_asset_record (current_state e') id = Some r /\
    symbol r = create_symbol op /\ current_share_supply r = 0 /\
    maximum_share_supply r = create_max_supply op.
Proof.
  intros Hidx Hop. unfold evaluate_create_asset in Hop.
  apply bind_ok in Hop as (u1 & _ & Hop). apply bind_ok in Hop as (u2 & _ & Hop).
  apply bind_ok in Hop as (u3 & _ & Hop). apply bind_ok in Hop as (u4 & Hsym & Hop).
  apply throw_if_ok, bool_decide_eq_false in Hsym. apply bind_ok in Hop as (u5 & _ & Hop).
  apply bind_ok in Hop as (fee & _ & Hop). apply bind_ok in Hop as (e1 & _ & Hop).
  apply bind_ok in Hop as ([id s] & Hid & Hop). apply bind_ok in Hop as (t & _ & Hop).
  apply Ok_inj in Hop. subst e'. cbn [with_state current_state].
  unfold new_asset_id in Hid. apply bind_ok in Hid as (last & _ & Hid). injection Hid as _ <-.
  split.
  - revert Hsym. cbn. unfold pending_get_asset_record_by_symbol. cbn. rewrite Hidx, lookup_empty.
    unfold prev_or_none. cbn. destruct (prev_state (current_state e)); [|done].
    destruct (get_asset_record_by_symbol p (create_symbol op)); [|done]. intros []. by eexists.
  - eexists _, _. cbn. unfold pending_get_asset_record. cbn. rewrite lookup_insert_eq. done.
Qed.

Lemma bid_found k k' r (s : pending_chain_state P) :
  index_of k = index_of k' -> get_bid_record (store_bid_record s k' r) k = Some r.
Proof.
  intros E. rewrite view_bid, (ledger_store_bid (ChainStores := pending_stores)). cbn.
  rewrite E. apply lookup_insert_eq.
Qed.

(** An order is found by the ratio of its price and its owner, not by its market:
    [market_index_key] does not compare the assets. The shares of a bid in one asset can be
    taken back in any other asset, by naming it as the quote of a price of the same
    ratio; the bid is less by the amount, and the transaction may deposit the amount in the
    other asset. *)
Theorem bid_taken_in_other_asset op e k r q :
  get_bid_record (current_state e) k = Some r ->
  ratio (order_price (bid_index op)) = ratio (order_price k) ->
  order_owner (bid_index op) = order_owner k ->
  ratio (order_price k) <> 0 -> order_owner k ∈ signed_keys e ->
  quote_asset_id (order_price (bid_index op)) = q -> q <> quote_asset_id (order_price k) ->
  is_Some (get_asset_record (current_state e) q) ->
  - 2 ^ 63 < bid_amount op < 0 -> - bid_amount op <= order_balance r < 2 ^ 63 ->
  withdraws e !! q = None ->
  exists e' r', evaluate_bid op e = Ok e' /\
    get_fees e' q == get_fees e q - bid_amount op /\
    get_bid_record (current_state e') k = Some r' /\
    order_balance r' = order_balance r + bid_amount op.
Proof.
  intros Hk Hratio Howner Hr0 Hsig Hq _ [ar Har] Hneg Hbal Hw.
  assert (Hidx : index_of (bid_index op) = index_of k) by (unfold index_of; by rewrite Hratio, Howner).
  assert (Hk' : get_bid_record (current_state e) (bid_index op) = Some r)
    by (rewrite view_bid, Hidx, <- view_bid; exact Hk).
  unfold evaluate_bid, price_eq, price_default, validate_asset, bid_get_amount. rewrite Hk'.
  cbn [asset_id amount ratio]. rewrite Hq, Hratio, Howner, Har.
  rewrite (proj2 (Z.eqb_neq _ _) Hr0). cbn [throw_if bind value_or_throw].
  rewrite (proj2 (check_signature_not _ _) Hsig). cbn [throw_if bind].
  rewrite (proj2 (Z.eqb_neq (bid_amount op) 0)) by lia. cbn [throw_if bind].
  unfold move_order_amount. rewrite (proj2 (Z.ltb_lt _ _)) by lia. cbn [value_or_throw bind].
  rewrite !int64_id by (unfold in_int64; lia).
  rewrite (proj2 (Z.ltb_ge _ _)) by lia. cbn [throw_if bind].
  destruct (add_balance e _) as [e1|x] eqn:Hadd;
    [|unfold add_balance, add_asset, asset_neg in Hadd; cbn [asset_id] in Hadd;
      by rewrite Hw in Hadd].
  apply add_balance_credit in Hadd as (Hf & _ & Es). cbn [asset_neg asset_id amount] in Hf.
  cbn [bind]. eexists _, _. split; [done|]. cbn [with_state current_state].
  split; [|split; [by apply bid_found|cbn; rewrite int64_id; unfold in_int64; lia]].
  match goal with |- get_fees (with_state _ ?e2) q == _ =>
    change (get_fees e2 q == get_fees e q - bid_amount op) end.
  rewrite !get_fees_votes, Hf, int64_id by (eauto || (unfold in_int64; lia)).
  unfold get_fees. destruct (eval_balance e !! q); cbn; eqm_lia.
Qed.
End Market.

(** ** Witnesses *)
#[local] Existing Instance concrete_fc.
#[local] Existing Instance concrete_transaction.
#[local] Existing Instance concrete_block.

Lemma issue_asset_spec_witness :
  exists e' r, evaluate_issue_asset (IssueAssetOperation (Asset 50 1)) (signed_by [bob_key]) = Ok e' /\
    get_asset_record pending 1 = Some r /\ current_share_supply r + 50 < maximum_share_supply r.
Proof.
  set (op := IssueAssetOperation (Asset 50 1)).
  assert (Ha : in_int64 (amount (issue_amount op))) by (vm_compute; split; congruence).
  assert (Hwf : forall id r, get_asset_record (current_state (signed_by [bob_key])) id = Some r ->
    in_int64 (current_share_supply r)).
  { assert (Hall : forallb (fun kv => (- 2 ^ 63 <=? current_share_supply kv.2)
        && (current_share_supply kv.2 <? 2 ^ 63))
      (map_to_list (l_assets (ledger_of pending))) = true) by (vm_compute; reflexivity).
    intros id r Hr. rewrite view_asset in Hr.
    pose proof (forallb_map _ _ Hall id r Hr) as Hb. cbn in Hb. unfold in_int64. lia. }
  destruct (evaluate_issue_asset op (signed_by [bob_key])) as [e'|] eqn:E;
    [|vm_compute in E; discriminate E].
  destruct (issue_asset_spec op (signed_by [bob_key]) e' Ha Hwf E)
    as (r & i & Hr & _ & _ & _ & _ & Hm & _).
  exists e', r. split; [reflexivity|]. split; [exact Hr|exact Hm].
Defined.

(** Bob creates the asset [SLV] twice in one transaction. *)
Definition silver : create_asset_operation :=
  CreateAssetOperation "SLV" "" "" variant_null 2 1000 100.
Lemma create_asset_unseen_witness :
  exists e1 e2, evaluate_create_asset silver (signed_by [bob_key]) = Ok e1 /\
    get_asset_record_by_symbol (current_state e1) "SLV" = None /\
    evaluate_create_asset silver e1 = Ok e2 /\
    (symbol <$> get_asset_record (current_state e2) 2) = Some "SLV"%string /\
    (symbol <$> get_asset_record (current_state e2) 3) = Some "SLV"%string.
Proof.
  destruct (evaluate_create_asset silver (signed_by [bob_key])) as [e1|] eqn:E1;
    [|vm_compute in E1; discriminate E1].
  pose proof (create_asset_unseen silver (signed_by [bob_key]) e1 eq_refl E1) as [Hn _].
  vm_compute in E1. apply Ok_inj in E1. exists e1.
  destruct (evaluate_create_asset silver e1) as [e2|] eqn:E2; [|subst e1; vm_compute in E2; discriminate E2].
  exists e2. split; [reflexivity|]. split; [exact Hn|]. split; [reflexivity|].
  subst e1. vm_compute in E2. apply Ok_inj in E2. subst e2. split; vm_compute; reflexivity.
Defined.

(** A bid of 500 shares is taken back as 500 pieces of gold. *)
Definition share_bid : market_index_key := MarketIndexKey (Price 7 2 0) (1000 + bob_key).
Definition bidding : transaction_evaluation_state (pending_chain_state chain_database) :=
  with_state (store_bid_record pending share_bid (OrderRecord 500 1)) (signed_by [bob_key]).
Lemma bid_taken_in_other_asset_witness :
  exists e' r',
    evaluate_bid (BidOperation (-500) (MarketIndexKey (Price 7 0 1) (1000 + bob_key)) 1) bidding = Ok e' /\
    get_fees e' 1 == get_fees bidding 1 - -500 /\
    get_bid_record (current_state e') share_bid = Some r' /\ order_balance r' = 500 + -500.
Proof.
  eapply (bid_taken_in_other_asset (BidOperation (-500) (MarketIndexKey (Price 7 0 1) (1000 + bob_key)) 1)
    bidding share_bid (OrderRecord 500 1) 1);
    try (vm_compute; reflexivity); try (vm_compute; split; congruence); try discriminate.
  - vm_compute. by eexists.
Defined.
