(* ===== verification/Undo.v ===== *)
(** Applying the changes of a pending state to the state below it, and undoing them: what
    the chain does when a block is pushed and when it is popped again on a switch of forks. *)
From S2P Require Import Prelude Errors Asset Records ChainInterface PendingState ChainDatabase.
From S2P Require Import EvalState Operations Conservation Concrete.

(** ** Finite maps under a sequence of stores *)
Section Puts.
Context {K : Type} `{Countable K} {A : Type} (null : A -> bool).

(** The records that are not null. *)
Definition live (m : gmap K A) : gmap K A := omap (fun r => if null r then None else Some r) m.

(** What a change is reverted to: the record below, or a null one. *)
Definition revert {V} (nullify : V -> A) (m : gmap K V) (below : gmap K A) : gmap K A :=
  map_imap (fun k v => Some (default (nullify v) (below !! k))) m.

Lemma fold_put {V} ov (f : K * V -> K) (g : K * V -> A) (m : gmap K V) b :
  (forall k v, m !! k = Some v -> f (k, v) = k) ->
  forall i, foldl (fun b kv => put ov null (f kv) (g kv) b) b (map_to_list m) !! i =
    match m !! i with
    | Some v => if ov || negb (null (g (i, v))) then Some (g (i, v)) else None
    | None => b !! i
    end.
Proof.
  intros Hf i. rewrite <- (list_to_map_to_list m) at 2.
  assert (Hk : Forall (fun kv => f kv = kv.1) (map_to_list m)).
  { apply List.Forall_forall. intros [k v] Hin.
    by apply list_elem_of_In, elem_of_map_to_list, Hf in Hin. }
  pose proof (NoDup_fst_map_to_list m) as Hnd. revert b Hk Hnd.
  induction (map_to_list m) as [|[k v] l IH]; intros b Hk Hnd; [done|].
  apply Forall_cons_iff in Hk as [Hk Hl]. cbn in Hnd.
  inversion_clear Hnd as [|? ? Hnew Hnd'].
  cbn [foldl list_to_map foldr]. rewrite (IH _ Hl Hnd'). cbn in Hk. rewrite Hk.
  destruct (decide (k = i)) as [->|Hne].
  - rewrite (not_elem_of_list_to_map_1 l i Hnew), put_lookup. cbn.
    rewrite lookup_insert_eq. by destruct (decide (i = i)).
  - rewrite put_lookup. cbn. rewrite lookup_insert_ne by done. by destruct (decide (k = i)).
Qed.

Lemma live_lookup m i r : live m !! i = Some r <-> m !! i = Some r /\ null r = false.
Proof.
  unfold live. rewrite lookup_omap. destruct (m !! i) as [r'|]; cbn; [|naive_solver].
  destruct (null r') eqn:E; split; try naive_solver. intros [[= ->] ?]. congruence.
Qed.

(** Storing into a map without null records. *)
Lemma fold_put_live {V} (f : K * V -> K) (g : K * V -> A) (m : gmap K V) b :
  (forall k v, m !! k = Some v -> f (k, v) = k) -> live b = b ->
  foldl (fun b kv => put false null (f kv) (g kv) b) b (map_to_list m) =
    live (map_imap (fun k v => Some (g (k, v))) m ∪ b).
Proof.
  intros Hf Hb. apply map_eq. intros i. rewrite fold_put by done. cbn.
  unfold live. rewrite lookup_omap, lookup_union, map_lookup_imap.
  destruct (m !! i) as [v|]; cbn.
  - destruct (b !! i); cbn; by destruct (null (g (i, v))).
  - rewrite <- Hb at 1. unfold live. rewrite lookup_omap. by destruct (b !! i).
Qed.

(** Reverting the changes gives back what was below. *)
Lemma revert_live {V} (nullify : V -> A) (m : gmap K V) (h : V -> A) b :
  (forall v, null (nullify v) = true) -> live b = b ->
  live (revert nullify m b ∪ live ((h <$> m) ∪ b)) = b.
Proof.
  intros Hn Hb. apply map_eq. intros i. rewrite <- Hb at 3.
  unfold live, revert. rewrite !lookup_omap, !lookup_union, !lookup_omap, !lookup_union,
    !map_lookup_imap, !lookup_fmap.
  destruct (m !! i) as [v|]; cbn.
  - destruct (b !! i) as [r|]; cbn.
    + destruct (null (h v)); cbn; by destruct (null r).
    + destruct (null (h v)); cbn; by rewrite Hn.
  - destruct (b !! i) as [r|]; cbn; [|done]. destruct (null r) eqn:E; cbn; [done|by rewrite E].
Qed.

Lemma fold_revert {V} (f : K * V -> K) (g : K * V -> A) nullify (m : gmap K V) below :
  (forall k v, m !! k = Some v -> f (k, v) = k /\ g (k, v) = default (nullify v) (below !! k)) ->
  foldl (fun b kv => put true null (f kv) (g kv) b) ∅ (map_to_list m) = revert nullify m below.
Proof.
  intros Hm. apply map_eq. intros i. unfold revert.
  rewrite fold_put, map_lookup_imap by (intros k v Hv; by apply Hm).
  destruct (m !! i) as [v|] eqn:E; cbn; [|by rewrite lookup_empty].
  by rewrite (proj2 (Hm _ _ E)).
Qed.

Lemma live_live m : live (live m) = live m.
Proof.
  apply map_eq. intros i. unfold live. rewrite !lookup_omap. destruct (m !! i) as [r|]; [|done].
  cbn. destruct (null r) eqn:E; cbn; [done|by rewrite E].
Qed.

Lemma live_id m : (forall k r, m !! k = Some r -> null r = false) -> live m = m.
Proof.
  intros Hm. apply map_eq. intros i. unfold live. rewrite lookup_omap.
  destruct (m !! i) as [r|] eqn:E; cbn; [|done]. by rewrite (Hm i r E).
Qed.
End Puts.

(** The ledger without null records. *)
Definition variant_is_null (v : variant) : bool := bool_decide (v = variant_null).
Definition live_ledger (l : ledger) : ledger :=
  Ledger (live asset_is_null (l_assets l)) (live balance_is_null (l_balances l))
    (live account_is_null (l_accounts l)) (live order_is_null (l_bids l))
    (live order_is_null (l_asks l)) (live variant_is_null (l_props l)).

Lemma foldl_keeps {A B X} (proj : A -> X) (f : A -> B -> A) l a :
  (forall a b, proj (f a b) = proj a) -> proj (foldl f a l) = proj a.
Proof. intros Hf. revert a. induction l as [|b l IH]; intros a; [done|]. simpl. by rewrite IH. Qed.
Lemma foldM_keeps {A B X} (proj : A -> X) (f : A -> B -> result A) l a a' :
  (forall a b a', f a b = Ok a' -> proj a' = proj a) -> foldM f a l = Ok a' -> proj a' = proj a.
Proof.
  intros Hf. revert a. induction l as [|b l IH]; simpl; intros a Hrun; inv_ok; [done|].
  rewrite (IH _ Hrun). by eapply Hf.
Qed.
Lemma foldl_inv {A B} (I : A -> Prop) (f : A -> B -> A) l a :
  (forall a b, I a -> I (f a b)) -> I a -> I (foldl f a l).
Proof. intros Hf. revert a. induction l as [|b l IH]; intros a Ha; [done|]. apply IH. by apply Hf. Qed.
Lemma foldM_inv {A B} (I : A -> Prop) (f : A -> B -> result A) l a a' :
  (forall a b a', I a -> f a b = Ok a' -> I a') -> I a -> foldM f a l = Ok a' -> I a'.
Proof.
  intros Hf. revert a. induction l as [|b l IH]; simpl; intros a Ha Hrun; inv_ok; [done|].
  eapply IH; [|done]. by eapply Hf.
Qed.

(** A loop that throws only when it reads. *)
Lemma foldM_foldl {A B C} (h : B -> result C) (g : A -> B -> C -> A) (d : C) l a a' :
  foldM (fun a b => let* c := h b in Ok (g a b c)) a l = Ok a' ->
  a' = foldl (fun a b => g a b (match h b with Ok c => c | Throw _ => d end)) a l /\
  (forall b, In b l -> exists c, h b = Ok c).
Proof.
  revert a. induction l as [|b l IH]; simpl; intros a Hrun; [by inv_ok|].
  apply bind_ok in Hrun as (a1 & H1 & Hrun). apply bind_ok in H1 as (c & Hc & H1). inv_ok.
  destruct (IH _ Hrun) as [-> Hall]. rewrite Hc. split; [done|].
  intros b' [<-|Hin]; [by exists c|by apply Hall].
Qed.

(** ** The ledger under a sequence of stores *)
Section Folds.
Context {S : Type} `{FC : Fc} `{CI : ChainInterface S} `{CV : !ChainView S} `{CS : !ChainStores S}.
Context {B : Type}.
Implicit Types s : S.

Ltac by_fold l s :=
  revert s; induction l as [|b l IH]; intros s; simpl; [by destruct (ledger_of s)|];
  rewrite IH; cbv zeta; rewrite ?ledger_set_property, ?ledger_store_asset,
    ?ledger_store_balance, ?ledger_store_account, ?ledger_store_bid, ?ledger_store_ask;
  reflexivity.

Lemma fold_props (f : B -> Z) (g : B -> variant) l s :
  ledger_of (foldl (fun s b => set_property s (f b) (g b)) s l) =
    let L := ledger_of s in
    Ledger (l_assets L) (l_balances L) (l_accounts L) (l_bids L) (l_asks L)
      (foldl (fun m b => put overlay variant_is_null (f b) (g b) m) (l_props L) l).
Proof. by_fold l s. Qed.
Lemma fold_assets (g : B -> asset_record) l s :
  ledger_of (foldl (fun s b => store_asset_record s (g b)) s l) =
    let L := ledger_of s in
    Ledger (foldl (fun m b => put overlay asset_is_null (asset_record_id (g b)) (g b) m)
      (l_assets L) l) (l_balances L) (l_accounts L) (l_bids L) (l_asks L) (l_props L).
Proof. by_fold l s. Qed.
Lemma fold_balances (g : B -> balance_record) l s :
  ledger_of (foldl (fun s b => store_balance_record s (g b)) s l) =
    let L := ledger_of s in
    Ledger (l_assets L) (foldl (fun m b => put overlay balance_is_null (balance_id (g b)) (g b) m)
      (l_balances L) l) (l_accounts L) (l_bids L) (l_asks L) (l_props L).
Proof. by_fold l s. Qed.
Lemma fold_accounts (g : B -> account_record) l s :
  ledger_of (foldl (fun s b => store_account_record s (g b)) s l) =
    let L := ledger_of s in
    Ledger (l_assets L) (l_balances L)
      (foldl (fun m b => put overlay account_is_null (account_id (g b)) (g b) m) (l_accounts L) l)
      (l_bids L) (l_asks L) (l_props L).
Proof. by_fold l s. Qed.
Lemma fold_bids (f : B -> market_index_key) (g : B -> order_record) l s :
  ledger_of (foldl (fun s b => store_bid_record s (f b) (g b)) s l) =
    let L := ledger_of s in
    Ledger (l_assets L) (l_balances L) (l_accounts L)
      (foldl (fun m b => put overlay order_is_null (index_of (f b)) (g b) m) (l_bids L) l)
      (l_asks L) (l_props L).
Proof. by_fold l s. Qed.
Lemma fold_asks (f : B -> market_index_key) (g : B -> order_record) l s :
  ledger_of (foldl (fun s b => store_ask_record s (f b) (g b)) s l) =
    let L := ledger_of s in
    Ledger (l_assets L) (l_balances L) (l_accounts L) (l_bids L)
      (foldl (fun m b => put overlay order_is_null (index_of (f b)) (g b) m) (l_asks L) l)
      (l_props L).
Proof. by_fold l s. Qed.
End Folds.

(** ** Applying the changes *)
Section Apply.
Context {P : Type} `{FC : Fc} `{CI : ChainInterface P} `{CV : !ChainView P} `{CS : !ChainStores P}.
Context (Hov : overlay = false).
Notation pending := (pending_chain_state P).
Implicit Types (s u : pending) (p : P).

(** Records are stored under their own ids, which every store ensures. *)
Record own_keys s : Prop := {
  own_assets i r : assets s !! i = Some r -> asset_record_id r = i;
  own_balances i r : balances s !! i = Some r -> balance_id r = i;
  own_accounts i r : accounts s !! i = Some r -> account_id r = i;
  own_bids i kr : bids s !! i = Some kr -> index_of kr.1 = i;
  own_asks i kr : asks s !! i = Some kr -> index_of kr.1 = i
}.

Lemma own_keys_create prev : own_keys (create prev).
Proof. split; intros i r Hr; cbn in Hr; unfold market_map in Hr; by rewrite lookup_empty in Hr. Qed.

Lemma own_insert {K A} `{Countable K} (key : A -> K) (m : gmap K A) r :
  (forall i r, m !! i = Some r -> key r = i) ->
  forall i r', <[key r := r]> m !! i = Some r' -> key r' = i.
Proof.
  intros Hm i r'. destruct (decide (key r = i)) as [<-|Hne].
  - rewrite lookup_insert_eq. congruence.
  - rewrite lookup_insert_ne by done. apply Hm.
Qed.

Lemma own_market {A} k (r : A) (m : market_map A) :
  (forall i kr, m !! i = Some kr -> index_of kr.1 = i) ->
  forall i kr, market_store k r m !! i = Some kr -> index_of kr.1 = i.
Proof.
  intros Hm i kr. unfold market_store, market_map in *.
  destruct (decide (index_of k = i)) as [<-|Hne].
  - rewrite lookup_insert_eq. intros [= <-]. cbn.
    destruct (m !! index_of k) as [[k' r']|] eqn:E; [by apply (Hm _ _ E)|done].
  - rewrite lookup_insert_ne by done. apply Hm.
Qed.

Lemma own_store_asset s r : own_keys s -> own_keys (pending_store_asset_record s r).
Proof. intros []. split; auto. cbn. by apply (own_insert asset_record_id). Qed.
Lemma own_store_balance s r : own_keys s -> own_keys (pending_store_balance_record s r).
Proof. intros []. split; auto. cbn. by apply (own_insert balance_id). Qed.
Lemma own_store_account s r : own_keys s -> own_keys (pending_store_account_record s r).
Proof. intros []. split; auto. cbn. by apply (own_insert account_id). Qed.
Lemma own_store_bid s k r : own_keys s -> own_keys (pending_store_bid_record s k r).
Proof. intros []. split; auto. cbn. by apply own_market. Qed.
Lemma own_store_ask s k r : own_keys s -> own_keys (pending_store_ask_record s k r).
Proof. intros []. split; auto. cbn. by apply own_market. Qed.

(** The changes of a pending state, apart from the state below. *)
Definition changes s : ledger :=
  Ledger (assets s) (balances s) (accounts s) (market_values (bids s)) (market_values (asks s))
    (properties s).
Definition over (c l : ledger) : ledger :=
  Ledger (l_assets c ∪ l_assets l) (l_balances c ∪ l_balances l) (l_accounts c ∪ l_accounts l)
    (l_bids c ∪ l_bids l) (l_asks c ∪ l_asks l) (l_props c ∪ l_props l).

Lemma pending_over s p : prev_state s = Some p -> ledger_of s = over (changes s) (ledger_of p).
Proof. intros E. cbn. unfold pending_ledger, prev_ledger. by rewrite E. Qed.
Lemma pending_alone s : prev_state s = None -> ledger_of s = changes s.
Proof.
  intros E. cbn. unfold pending_ledger, prev_ledger, changes. rewrite E. cbn.
  by rewrite !map_union_empty.
Qed.

Lemma imap_values {A} (m : gmap (Z * Z) (market_index_key * A)) :
  map_imap (fun _ kr => Some kr.2) m = market_values m.
Proof.
  unfold market_values, market_map in *. apply map_eq. intros i.
  rewrite map_lookup_imap, lookup_fmap. by destruct (m !! i).
Qed.
Lemma imap_id {A} (m : gmap Z A) : map_imap (fun _ r => Some r) m = m.
Proof. apply map_eq. intros i. rewrite map_lookup_imap. by destruct (m !! i). Qed.

Lemma fold_same {B} (f : P -> B -> P) l p :
  (forall p b, ledger_of (f p b) = ledger_of p) -> ledger_of (foldl f p l) = ledger_of p.
Proof. apply foldl_keeps. Qed.

(** Applying the changes to any state gives what a pending state over it shows. *)
Lemma apply_over s p :
  own_keys s -> live_ledger (ledger_of p) = ledger_of p ->
  ledger_of (apply_changes s p) = live_ledger (over (changes s) (ledger_of p)).
Proof.
  intros [Ha Hb Hc Hd He] Hl.
  pose proof (f_equal l_assets Hl) as La. pose proof (f_equal l_balances Hl) as Lb.
  pose proof (f_equal l_accounts Hl) as Lc. pose proof (f_equal l_bids Hl) as Ld.
  pose proof (f_equal l_asks Hl) as Le. pose proof (f_equal l_props Hl) as Lf.
  cbn [live_ledger l_assets l_balances l_accounts l_bids l_asks l_props] in La, Lb, Lc, Ld, Le, Lf.
  unfold apply_changes.
  rewrite (fold_same (fun p kv => store_transaction p kv.1 kv.2)) by (intros; apply ledger_store_transaction).
  rewrite (fold_same (fun p kv => store_collateral_record p kv.2.1 kv.2.2))
    by (intros; apply ledger_store_collateral).
  rewrite (fold_same (fun p kv => store_short_record p kv.2.1 kv.2.2))
    by (intros; apply ledger_store_short).
  rewrite (fold_asks (fun kv => kv.2.1) (fun kv => kv.2.2)),
    (fold_bids (fun kv => kv.2.1) (fun kv => kv.2.2)).
  rewrite (fold_same (fun p kv => store_proposal_vote p kv.2)) by (intros; apply ledger_store_vote).
  rewrite (fold_same (fun p kv => store_proposal_record p kv.2))
    by (intros; apply ledger_store_proposal).
  rewrite (fold_balances (fun kv => kv.2)), (fold_accounts (fun kv => kv.2)),
    (fold_assets (fun kv => kv.2)), (fold_props (fun kv => kv.1) (fun kv => kv.2)), Hov.
  unfold live_ledger, over, changes. cbn [l_assets l_balances l_accounts l_bids l_asks l_props].
  unfold market_map in *.
  rewrite (fold_put_live _ (fun kv => index_of kv.2.1) (fun kv => kv.2.2) (bids s) _ Hd Ld),
    (fold_put_live _ (fun kv => index_of kv.2.1) (fun kv => kv.2.2) (asks s) _ He Le).
  rewrite !fold_put_live by (done || auto).
  cbn [snd]. by rewrite !imap_id, !imap_values.
Qed.

Lemma commits_property s p id v :
  prev_state s = Some p -> own_keys s -> live_ledger (ledger_of p) = ledger_of p ->
  v <> variant_null -> get_property (apply_changes s p) id = Ok v <-> get_property s id = Ok v.
Proof.
  intros Hp Hk Hl Hv. pose proof (apply_over s p Hk Hl) as E. rewrite <- (pending_over s p Hp) in E.
  rewrite !view_property by done. rewrite E. cbn [live_ledger l_props]. rewrite live_lookup.
  unfold variant_is_null. rewrite bool_decide_eq_false. naive_solver.
Qed.

(** C15: [apply_changes] commits what a pending state shows. Looked up in the state
    below after the changes were applied to it, every asset, balance, account, bid, ask
    and property is the one the pending state showed before, except that a null record,
    which in a pending state hides what is below, is gone. *)
Theorem apply_changes_commits s p :
  prev_state s = Some p -> own_keys s -> live_ledger (ledger_of p) = ledger_of p ->
  let p' := apply_changes s p in
  (forall id r, get_asset_record p' id = Some r <->
     get_asset_record s id = Some r /\ asset_is_null r = false) /\
  (forall id r, get_balance_record p' id = Some r <->
     get_balance_record s id = Some r /\ balance_is_null r = false) /\
  (forall id r, get_account_record p' id = Some r <->
     get_account_record s id = Some r /\ account_is_null r = false) /\
  (forall k r, get_bid_record p' k = Some r <->
     get_bid_record s k = Some r /\ order_is_null r = false) /\
  (forall k r, get_ask_record p' k = Some r <->
     get_ask_record s k = Some r /\ order_is_null r = false) /\
  (forall id v, v <> variant_null -> get_property p' id = Ok v <-> get_property s id = Ok v).
Proof.
  intros Hp Hk Hl p'. pose proof (apply_over s p Hk Hl) as E. fold p' in E.
  rewrite <- (pending_over s p Hp) in E.
  split_and!; intros; [..|by apply commits_property];
    rewrite ?view_asset, ?view_balance, ?view_account, ?view_bid, ?view_ask by done;
    rewrite E; cbn [live_ledger l_assets l_balances l_accounts l_bids l_asks l_props];
    by rewrite live_lookup.
Qed.

(** ** The state that undoes a pending state *)

(** The value that [get_undo_state] stores for a property. *)
Definition old_property p (k : Z) : variant :=
  match get_property p k with Ok v => v | Throw _ => variant_null end.

Definition old_transaction p (k : Z) : transaction_record :=
  match get_transaction p k with Ok (Some t) => t | _ => transaction_record_default end.

(** [get_undo_state] without its exceptions. *)
Definition undo_of s p u : pending :=
  let u := foldl (fun u (kv : Z * variant) =>
      set_property u kv.1 (old_property p kv.1)) u (map_to_list (properties s)) in
  let u := foldl (fun u (kv : Z * asset_record) => store_asset_record u
      (match get_asset_record p kv.1 with Some r => r | None => asset_make_null kv.2 end))
      u (map_to_list (assets s)) in
  let u := foldl (fun u (kv : Z * account_record) => store_account_record u
      (match get_account_record p kv.1 with Some r => r | None => account_make_null kv.2 end))
      u (map_to_list (accounts s)) in
  let u := foldl (fun u (kv : Z * proposal_record) => store_proposal_record u
      (match get_proposal_record p kv.1 with Some r => r | None => proposal_make_null kv.2 end))
      u (map_to_list (proposals s)) in
  let u := foldl (fun u (kv : Z * Z * proposal_vote) => store_proposal_vote u
      (match get_proposal_vote p kv.1 with Some r => r | None => vote_make_null kv.2 end))
      u (map_to_list (proposal_votes s)) in
  let u := foldl (fun u (kv : Z * balance_record) => store_balance_record u
      (match get_balance_record p kv.1 with Some r => r | None => balance_make_null kv.2 end))
      u (map_to_list (balances s)) in
  let u := foldl (fun u (kv : Z * transaction_record) =>
      store_transaction u kv.1 (old_transaction p kv.1)) u
      (map_to_list (transactions s)) in
  let u := foldl (fun u (kv : Z * Z * (market_index_key * order_record)) =>
      store_bid_record u kv.2.1
        (match get_bid_record p kv.2.1 with Some r => r | None => order_record_default end))
      u (map_to_list (bids s)) in
  foldl (fun u (kv : Z * Z * (market_index_key * order_record)) =>
      store_ask_record u kv.2.1
        (match get_ask_record p kv.2.1 with Some r => r | None => order_record_default end))
      u (map_to_list (asks s)).

Lemma foldl_ext_same {A B} (f g : A -> B -> A) l a :
  (forall a b, f a b = g a b) -> foldl f a l = foldl g a l.
Proof. intros Hf. revert a. induction l as [|b l IH]; intros a; [done|]. simpl. by rewrite Hf. Qed.

(** The orders sold short and the collateral apart, the undo state is [undo_of]. *)
Lemma get_undo_state_of s p u u' :
  prev_state s = Some p -> get_undo_state s u = Ok u' ->
  changes u' = changes (undo_of s p u) /\ transactions u' = transactions (undo_of s p u) /\
  (own_keys (undo_of s p u) -> own_keys u') /\
  (forall kv, In kv (map_to_list (properties s)) -> exists v, get_property p kv.1 = Ok v).
Proof.
  intros Hp Hu. unfold get_undo_state in Hu. rewrite Hp in Hu. cbn [value_or_throw bind] in Hu.
  apply bind_ok in Hu as (u1 & H1 & Hu). apply bind_ok in Hu as (u2 & H2 & Hu).
  apply bind_ok in Hu as (u3 & H3 & Hu).
  apply (foldM_foldl _ (fun u kv v => pending_set_property u kv.1 v) variant_null) in H1 as [-> Hprops].
  apply (foldM_foldl _ (fun u (kv : Z * transaction_record) t => pending_store_transaction u kv.1
            (match t with Some t => t | None => transaction_record_default end)) None) in H2 as [-> _].
  rewrite (foldl_ext_same
    (fun u (kv : Z * transaction_record) => pending_store_transaction u kv.1
      (match (match get_transaction p kv.1 with Ok c => c | Throw _ => None end) with
       | Some t => t | None => transaction_record_default end))
    (fun u kv => pending_store_transaction u kv.1 (old_transaction p kv.1))) in H3
    by (intros; unfold old_transaction; by destruct (get_transaction p _) as [[]|]).
  change (foldM (fun u (kv : Z * Z * (market_index_key * order_record)) =>
      let* r := get_short_record p kv.2.1 in
      Ok (pending_store_short_record u kv.2.1
            (match r with Some r => r | None => order_record_default end)))
      (undo_of s p u) (map_to_list (shorts s)) = Ok u3) in H3.
  set (J := fun v : pending => changes v = changes (undo_of s p u) /\
    transactions v = transactions (undo_of s p u) /\ (own_keys (undo_of s p u) -> own_keys v)).
  assert (H4 : J u'); [|destruct H4 as (? & ? & ?); auto].
  eapply (foldM_inv J); [|eapply (foldM_inv J); [| |exact H3]; [|done]|exact Hu].
  - intros v kv v' (F1 & F2 & F3) Hs. inv_ok. split; [done|]. split; [done|].
    intros Ho. by destruct (F3 Ho).
  - intros v kv v' (F1 & F2 & F3) Hs. inv_ok. split; [done|]. split; [done|].
    intros Ho. by destruct (F3 Ho).
Qed.

Lemma undo_own s p u : own_keys u -> own_keys (undo_of s p u).
Proof.
  intros Ho. unfold undo_of.
  repeat (apply foldl_inv; [intros;
    first [by apply own_store_ask|by apply own_store_bid|by apply own_store_balance
      |by apply own_store_account|by apply own_store_asset
      |match goal with H : own_keys _ |- _ => by destruct H end]|]).
  done.
Qed.

Lemma undo_prev s p u : prev_state (undo_of s p u) = prev_state u.
Proof. unfold undo_of. repeat (rewrite (foldl_keeps prev_state); [|done]). done. Qed.

Lemma undo_changes s p :
  own_keys s -> keyed (ledger_of p) -> live_ledger (ledger_of p) = ledger_of p ->
  (forall kv, In kv (map_to_list (properties s)) -> exists v, get_property p kv.1 = Ok v) ->
  changes (undo_of s p (create None)) =
    let L := ledger_of p in
    Ledger (revert asset_make_null (assets s) (l_assets L))
      (revert balance_make_null (balances s) (l_balances L))
      (revert account_make_null (accounts s) (l_accounts L))
      (revert (fun _ => order_record_default) (bids s) (l_bids L))
      (revert (fun _ => order_record_default) (asks s) (l_asks L))
      (revert (fun _ => variant_null) (properties s) (l_props L)).
Proof.
  intros Ho Hk Hl Hprops.
  assert (Hp : forall k, is_Some (properties s !! k) ->
    old_property p k = default variant_null (l_props (ledger_of p) !! k)).
  { intros k [v Hv]. apply elem_of_map_to_list, list_elem_of_In, Hprops in Hv as [v' Hv'].
    cbn in Hv'. unfold old_property. rewrite Hv'. pose proof (f_equal l_props Hl) as Lf. cbn in Lf.
    destruct (l_props (ledger_of p) !! k) as [w|] eqn:Ew.
    - rewrite <- Lf in Ew. apply live_lookup in Ew as [Ew Hw].
      apply bool_decide_eq_false in Hw. apply (view_property p k w Hw) in Ew.
      cbn. congruence.
    - cbn. destruct (decide (v' = variant_null)) as [->|Hne]; [done|].
      apply (view_property p k v' Hne) in Hv'. congruence. }
  destruct Ho as [Ha Hb Hc Hd He]. destruct Hk as [Ka Kb Kc].
  rewrite <- pending_alone by (by rewrite undo_prev). unfold undo_of.
  rewrite (fold_asks (CS := pending_stores) (fun kv => kv.2.1) (fun kv =>
    match get_ask_record p kv.2.1 with Some r => r | None => order_record_default end)).
  rewrite (fold_bids (CS := pending_stores) (fun kv => kv.2.1) (fun kv =>
    match get_bid_record p kv.2.1 with Some r => r | None => order_record_default end)).
  rewrite (foldl_keeps (ledger_of (ChainView := pending_view)) (fun u kv =>
    store_transaction u kv.1 (old_transaction p kv.1))) by done.
  rewrite (fold_balances (CS := pending_stores) (fun kv =>
    match get_balance_record p kv.1 with Some r => r | None => balance_make_null kv.2 end)).
  rewrite (foldl_keeps (ledger_of (ChainView := pending_view)) (fun u kv =>
    store_proposal_vote u
      (match get_proposal_vote p kv.1 with Some r => r | None => vote_make_null kv.2 end))) by done.
  rewrite (foldl_keeps (ledger_of (ChainView := pending_view)) (fun u kv =>
    store_proposal_record u
      (match get_proposal_record p kv.1 with Some r => r | None => proposal_make_null kv.2 end)))
    by done.
  rewrite (fold_accounts (CS := pending_stores) (fun kv =>
    match get_account_record p kv.1 with Some r => r | None => account_make_null kv.2 end)).
  rewrite (fold_assets (CS := pending_stores) (fun kv =>
    match get_asset_record p kv.1 with Some r => r | None => asset_make_null kv.2 end)).
  rewrite (fold_props (CS := pending_stores) (fun kv => kv.1) (fun kv => old_property p kv.1)).
  rewrite pending_alone by done.
  cbn [l_assets l_balances l_accounts l_bids l_asks l_props changes create assets balances
       accounts bids asks properties overlay pending_stores].
  unfold market_values, market_map in *. rewrite fmap_empty.
  f_equal; apply fold_revert; intros k v Hv; cbn [fst snd].
  - rewrite view_asset. destruct (l_assets _ !! k) eqn:E; [by rewrite (Ka _ _ E)|].
    by rewrite <- (Ha _ _ Hv).
  - rewrite view_balance. destruct (l_balances _ !! k) eqn:E; [by rewrite (Kb _ _ E)|].
    by rewrite <- (Hb _ _ Hv).
  - rewrite view_account. destruct (l_accounts _ !! k) eqn:E; [by rewrite (Kc _ _ E)|].
    by rewrite <- (Hc _ _ Hv).
  - rewrite view_bid, (Hd _ _ Hv). by destruct (l_bids _ !! k).
  - rewrite view_ask, (He _ _ Hv). by destruct (l_asks _ !! k).
  - split; [done|]. apply Hp. by eexists.
Qed.

Lemma live_live_ledger l : live_ledger (live_ledger l) = live_ledger l.
Proof.
  unfold live_ledger. cbn [l_assets l_balances l_accounts l_bids l_asks l_props].
  by rewrite !live_live.
Qed.

(** What the undo state changes back. *)
Lemma undo_over s p u :
  prev_state s = Some p -> own_keys s -> keyed (ledger_of p) ->
  live_ledger (ledger_of p) = ledger_of p ->
  get_undo_state s (create None) = Ok u ->
  own_keys u /\ live_ledger (over (changes u) (live_ledger (ledger_of s))) = ledger_of p.
Proof.
  intros Hp Ho Hk Hl Hu.
  destruct (get_undo_state_of s p (create None) u Hp Hu) as (Ec & _ & Hown & Hprops).
  split; [apply Hown, undo_own, own_keys_create|].
  rewrite (pending_over s p Hp), Ec, (undo_changes s p Ho Hk Hl Hprops).
  etransitivity; [|exact Hl]. unfold live_ledger, over, changes.
  pose proof (f_equal l_assets Hl) as La. pose proof (f_equal l_balances Hl) as Lb.
  pose proof (f_equal l_accounts Hl) as Lc. pose proof (f_equal l_bids Hl) as Ld.
  pose proof (f_equal l_asks Hl) as Le. pose proof (f_equal l_props Hl) as Lf.
  cbn [live_ledger l_assets l_balances l_accounts l_bids l_asks l_props]
    in La, Lb, Lc, Ld, Le, Lf |- *.
  rewrite La, Lb, Lc, Ld, Le, Lf. unfold market_values, market_map in *.
  f_equal;
    lazymatch goal with
    | |- live ?null (revert ?f ?m ?b ∪ live _ ((_ <$> _) ∪ _)) = _ => by rewrite revert_live
    | |- live ?null (revert ?f ?m ?b ∪ _) = _ =>
        rewrite <- (map_fmap_id m) at 2; by apply (revert_live null f m id b)
    end.
Qed.

(** C14: Undoing a block. The undo state taken before the changes of a pending state
    are applied, applied itself after them, gives back every asset, balance, account, bid,
    ask and property of the chain: what was changed is as before, what was created is gone,
    and what was removed is there again. *)
Theorem undo_restores s p u :
  prev_state s = Some p -> own_keys s -> keyed (ledger_of p) ->
  live_ledger (ledger_of p) = ledger_of p ->
  get_undo_state s (create None) = Ok u ->
  ledger_of (apply_changes u (apply_changes s p)) = ledger_of p.
Proof.
  intros Hp Ho Hk Hl Hu. destruct (undo_over s p u Hp Ho Hk Hl Hu) as [Hou Hr].
  pose proof (apply_over s p Ho Hl) as E. rewrite <- (pending_over s p Hp) in E.
  rewrite (apply_over u); [|done|by rewrite E, live_live_ledger]. by rewrite E.
Qed.
End Apply.

(** ** The transactions of a popped block *)
Section Popped.
Context `{FC : Fc} `{FT : FcTransaction} `{FBl : FcBlock} `{FO : FcOperations} `{FB : FcBigint}.
Notation pending := (pending_chain_state chain_database).
Implicit Types (s u : pending) (d : chain_database).

Lemma fold_transactions (f : Z * transaction_record -> transaction_record) l u id :
  In id (map fst l) \/ is_Some (transactions u !! id) ->
  is_Some (transactions
    (foldl (fun u kv => store_transaction u kv.1 (f kv)) u l) !! id).
Proof.
  revert u. induction l as [|[k t] l IH]; simpl; intros u Hin; [by destruct Hin|].
  apply IH. destruct Hin as [[->|Hin]|Hu]; [right|by left|right]; cbn.
  - rewrite lookup_insert_eq. by eexists.
  - destruct (decide (k = id)) as [->|Hne]; [rewrite lookup_insert_eq; by eexists|].
    by rewrite lookup_insert_ne.
Qed.

Lemma fold_db_transactions l d id :
  In id (map fst l) ->
  is_known_transaction (foldl (fun d kv => store_transaction d kv.1 kv.2) d l) id = true.
Proof.
  intros Hin. unfold is_known_transaction. apply bool_decide_eq_true_2.
  assert (Hg : forall d, In id (map fst l) \/ is_Some (id_to_transaction_record_db d !! id) ->
    is_Some (id_to_transaction_record_db
      (foldl (fun d kv => store_transaction d kv.1 kv.2) d l) !! id)); [|by apply Hg; left].
  clear d Hin. induction l as [|[k t] l IH]; simpl; intros d Hin; [by destruct Hin|].
  apply IH. destruct Hin as [[->|Hin]|Hu]; [right|by left|right]; cbn.
  - rewrite lookup_insert_eq. by eexists.
  - destruct (decide (k = id)) as [->|Hne]; [rewrite lookup_insert_eq; by eexists|].
    by rewrite lookup_insert_ne.
Qed.

Lemma in_keys {A} (m : gmap Z A) id : is_Some (m !! id) -> In id (map fst (map_to_list m)).
Proof.
  intros [r Hr]. apply in_map_iff. exists (id, r). split; [done|].
  by apply list_elem_of_In, elem_of_map_to_list.
Qed.

(** A transaction of a popped block stays known. For a transaction the chain did
    not know, [get_undo_state] stores an empty [transaction_record], which the database has
    no way to take for an absent one: after the block is undone [is_known_transaction]
    still holds, and the transaction is refused as a duplicate on any later block. *)
Theorem popped_transaction_known d s u id :
  prev_state s = Some d -> is_Some (transactions s !! id) ->
  get_undo_state s (create None) = Ok u ->
  let d' := apply_changes u (apply_changes s d) in
  is_known_transaction d' id = true /\
  forall t chain, trx_id t = id -> expiration t = None ->
    evaluate t (eval_state_new (create (Some d')) chain) = Throw duplicate_transaction.
Proof.
  intros Hp Hs Hu d'.
  assert (Hknown : is_known_transaction d' id = true).
  { apply fold_db_transactions, in_keys.
    destruct (get_undo_state_of s d (create None) u Hp Hu) as (_ & -> & _).
    unfold undo_of. do 2 (rewrite (foldl_keeps transactions) by done).
    apply fold_transactions. left. by apply in_keys. }
  split; [done|]. intros t chain Ht Hx. unfold evaluate. rewrite Hx, Ht. cbn [bind].
  apply bool_decide_eq_true in Hknown as [r Hr].
  cbn. unfold pending_get_transaction. cbn. rewrite lookup_empty.
  unfold db_get_transaction. by rewrite Hr.
Qed.
End Popped.

(** ** Witnesses *)
#[local] Existing Instance concrete_fc.
#[local] Existing Instance concrete_transaction.
#[local] Existing Instance concrete_block.
#[local] Existing Instance concrete_operations.

(** The block with the payment, its location stored, over the genesis. *)
Definition block : pending_chain_state chain_database :=
  store_transaction (current_state paid_state) (trx_id payment)
    (TransactionRecord payment (TransactionLocation 6 0)).
Definition block_undo : pending_chain_state chain_database :=
  match get_undo_state block (create None) with Ok u => u | Throw _ => create None end.

Definition own_keys_b (s : pending_chain_state chain_database) : bool :=
  forallb (fun kv => asset_record_id kv.2 =? kv.1) (map_to_list (assets s)) &&
  forallb (fun kv => balance_id kv.2 =? kv.1) (map_to_list (balances s)) &&
  forallb (fun kv => account_id kv.2 =? kv.1) (map_to_list (accounts s)).

Lemma own_keys_b_ok s : own_keys_b s = true -> bids s = ∅ -> asks s = ∅ -> own_keys s.
Proof.
  unfold own_keys_b. rewrite !andb_true_iff. intros [[Ha Hb] Hc] Hd He.
  split; intros i r Hr;
    [pose proof (forallb_map _ _ Ha i r Hr); by apply Z.eqb_eq
    |pose proof (forallb_map _ _ Hb i r Hr); by apply Z.eqb_eq
    |pose proof (forallb_map _ _ Hc i r Hr); by apply Z.eqb_eq
    |rewrite Hd in Hr; unfold market_map in Hr; by rewrite lookup_empty in Hr
    |rewrite He in Hr; unfold market_map in Hr; by rewrite lookup_empty in Hr].
Qed.

Lemma block_prev : prev_state block = Some genesis.
Proof. vm_compute. reflexivity. Qed.
Lemma block_own : own_keys block.
Proof. apply own_keys_b_ok; vm_compute; reflexivity. Qed.
Lemma genesis_live : live_ledger (ledger_of genesis) = ledger_of genesis.
Proof. vm_compute. reflexivity. Qed.
Lemma genesis_keyed : keyed (ledger_of genesis).
Proof. apply keyed_b_ok. vm_compute. reflexivity. Qed.
Lemma block_undone : get_undo_state block (create None) = Ok block_undo.
Proof. vm_compute. reflexivity. Qed.

Lemma apply_changes_commits_witness :
  exists r, get_balance_record (apply_changes block genesis) (balance_id bob_balance) = Some r /\
    balance r = 899400.
Proof.
  destruct (apply_changes_commits (CS := database_stores) eq_refl block genesis block_prev block_own genesis_live)
    as (_ & Hb & _).
  destruct (get_balance_record block (balance_id bob_balance)) as [r|] eqn:E;
    [|vm_compute in E; discriminate E].
  exists r. split; [|vm_compute in E; injection E as <-; reflexivity].
  apply Hb. split; [exact E|]. vm_compute in E. injection E as <-. reflexivity.
Defined.

Lemma undo_restores_witness :
  ledger_of (apply_changes block_undo (apply_changes block genesis)) = ledger_of genesis /\
  get_balance_record (apply_changes block genesis) (balance_id bob_balance) <>
    get_balance_record genesis (balance_id bob_balance).
Proof.
  split; [|vm_compute; discriminate].
  exact (undo_restores (CS := database_stores) eq_refl block genesis block_undo block_prev block_own genesis_keyed
           genesis_live block_undone).
Defined.

Lemma popped_transaction_known_witness :
  is_known_transaction genesis (trx_id payment) = false /\
  is_known_transaction (apply_changes block_undo (apply_changes block genesis)) (trx_id payment) = true.
Proof.
  split; [vm_compute; reflexivity|].
  assert (Ht : is_Some (transactions block !! trx_id payment)) by (vm_compute; by eexists).
  exact (proj1 (popped_transaction_known genesis block block_undo (trx_id payment) block_prev Ht
                  block_undone)).
Defined.
