(* ===== verification/ForkTree.v ===== *)
(** The tree of blocks is kept well: a block is marked linked exactly when it descends from
    the genesis block, and the loops that mark blocks end and mark exactly the blocks that
    come after. *)
From stdpp Require Import relations.
From S2P Require Import Prelude Chain.

Implicit Types (m : fork_map) (f : block_fork_data -> block_fork_data) (ids : gset Z).

(** ** Blocks after blocks *)
Definition child m (x y : Z) : Prop := exists r, m !! x = Some r /\ y ∈ next_blocks r.
Definition after m ids (x : Z) : Prop := exists i, i ∈ ids /\ rtc (child m) i x.

(** Every block that comes after another has a record. *)
Definition closed m : Prop := forall x y, child m x y -> is_Some (m !! y).
Definition acyclic m : Prop := forall x, ~ tc (child m) x x.

(** Two trees with the same edges. *)
Definition same_children m m' : Prop :=
  forall x, next_blocks <$> m' !! x = next_blocks <$> m !! x.

Lemma same_child m m' x y : same_children m m' -> child m' x y <-> child m x y.
Proof.
  intros Hs. unfold child. specialize (Hs x). split; intros (r & Hr & Hy); rewrite Hr in Hs;
    cbn in Hs.
  - destruct (m !! x) as [r'|]; [|done]. exists r'. split; [done|]. cbn in Hs. congruence.
  - destruct (m' !! x) as [r'|]; [|done]. exists r'. split; [done|]. cbn in Hs. congruence.
Qed.

Lemma rtc_equiv {A} (R R' : A -> A -> Prop) x y :
  (forall x y, R x y <-> R' x y) -> rtc R x y <-> rtc R' x y.
Proof. intros HR. split; apply rtc_subrel; intros ??; apply HR. Qed.

Lemma same_some m m' x : same_children m m' -> is_Some (m' !! x) <-> is_Some (m !! x).
Proof. intros Hs. specialize (Hs x). by rewrite <- !(fmap_is_Some next_blocks), Hs. Qed.

Lemma same_closed m m' : same_children m m' -> closed m -> closed m'.
Proof.
  intros Hs Hc x y Hxy. apply (same_some m m' y Hs). eapply Hc. by apply (same_child m m' x y Hs).
Qed.

(** ** Paths are no longer than the tree is large *)
Fixpoint path m (x : Z) (l : list Z) : Prop :=
  match l with [] => True | y :: l => child m x y /\ path m y l end.

Lemma path_tc m x l y : path m x l -> y ∈ l -> tc (child m) x y.
Proof.
  revert x. induction l as [|z l IH]; simpl; intros x Hp Hy; [by apply elem_of_nil in Hy|].
  destruct Hp as [Hxz Hp]. apply elem_of_cons in Hy as [->|Hy]; [by constructor|].
  eapply tc_l; [done|]. by apply IH.
Qed.

Lemma path_NoDup m x l : acyclic m -> path m x l -> base.NoDup (x :: l).
Proof.
  intros Ha. revert x. induction l as [|z l IH]; intros x Hp.
  - apply list.NoDup_cons. split; [by apply not_elem_of_nil|constructor].
  - apply list.NoDup_cons. split.
    + intros Hx. by eapply Ha, path_tc.
    + destruct Hp as [_ Hp]. by apply IH.
Qed.

Lemma path_some m x l y :
  closed m -> is_Some (m !! x) -> path m x l -> y ∈ x :: l -> is_Some (m !! y).
Proof.
  intros Hc. revert x. induction l as [|z l IH]; intros x Hx Hp Hy;
    apply elem_of_cons in Hy as [->|Hy]; try done.
  - by apply elem_of_nil in Hy.
  - destruct Hp as [Hxz Hp]. apply (IH z); [by eapply Hc|done|done].
Qed.

Lemma path_length m x l :
  acyclic m -> closed m -> is_Some (m !! x) -> path m x l -> (length (x :: l) <= size m)%nat.
Proof.
  intros Ha Hc Hx Hp. pose proof (path_NoDup m x l Ha Hp) as Hnd.
  rewrite <- (size_dom m), <- (size_list_to_set (C := gset Z) (x :: l)) by done.
  apply subseteq_size. intros y Hy. apply elem_of_list_to_set in Hy. apply elem_of_dom.
  by eapply path_some.
Qed.

(** ** What the loops mark *)
Section Mark.
Context f (f_next : forall r, next_blocks (f r) = next_blocks r) (f_twice : forall r, f (f r) = f r).

Lemma mark_fold l m seen :
  base.NoDup l -> (forall x, x ∈ l -> is_Some (m !! x)) ->
  exists seen' m',
    run_fold (fun pending item =>
      let! record := reads (fetch item) in
      let pending := pending ∪ next_blocks record in
      let! _ := store_fork item (f record) in
      ret pending) seen l m = (Ok seen', m') /\
    (forall x, m' !! x = if decide (x ∈ l) then f <$> m !! x else m !! x) /\
    (forall y, y ∈ seen' <-> y ∈ seen \/ exists x, x ∈ l /\ child m x y).
Proof.
  revert m seen. induction l as [|i l IH]; intros m seen Hnd Hsome.
  { exists seen, m. split; [done|]. split; [intros x; destruct (decide _) as [Hx|]; [|done];
      by apply elem_of_nil in Hx|]. intros y. split; [by left|]. intros [?|(x & Hx & _)]; [done|].
    by apply elem_of_nil in Hx. }
  apply list.NoDup_cons in Hnd as [Hi Hnd].
  destruct (Hsome i (list_elem_of_here _ _)) as [r Hr].
  destruct (IH (<[i := f r]> m) (seen ∪ next_blocks r) Hnd) as (seen' & m' & Hrun & Hm & Hs).
  { intros x Hx. assert (x <> i) by congruence. rewrite lookup_insert_ne by done.
    apply Hsome. by right. }
  exists seen', m'. split; [|split].
  - cbn [run_fold]. unfold run_bind, reads, fetch, store_fork, modify, ret in *. rewrite Hr.
    cbn [value_or_throw]. exact Hrun.
  - intros x. rewrite Hm. destruct (decide (x = i)) as [->|Hne].
    + destruct (decide (i ∈ l)); [done|]. rewrite lookup_insert_eq, Hr.
      rewrite decide_True by by left. done.
    + rewrite lookup_insert_ne by done. destruct (decide (x ∈ l)) as [Hx|Hx].
      * rewrite decide_True; [done|by right].
      * rewrite decide_False; [done|]. intros Hin. by apply elem_of_cons in Hin as [?|?].
  - intros y. rewrite Hs, elem_of_union. split.
    + intros [[?|Hy]|(x & Hx & Hc)]; [by left|right; exists i; split; [by left|by exists r]|].
      right. exists x. split; [by right|]. destruct Hc as (r' & Hr' & Hy).
      rewrite lookup_insert_ne in Hr' by congruence. by exists r'.
    + intros [?|(x & Hx & r' & Hr' & Hy)]; [by left; left|].
      apply elem_of_cons in Hx as [->|Hx]; [left; right; congruence|].
      right. exists x. split; [done|]. exists r'. rewrite lookup_insert_ne by congruence. done.
Qed.

Lemma mark_each_spec ids m :
  (forall x, x ∈ ids -> is_Some (m !! x)) ->
  exists pending m', mark_each f (elements ids) m = (Ok pending, m') /\
    (forall x, m' !! x = if decide (x ∈ ids) then f <$> m !! x else m !! x) /\
    (forall y, y ∈ pending <-> exists x, x ∈ ids /\ child m x y).
Proof.
  intros Hsome. destruct (mark_fold (elements ids) m ∅) as (p & m' & Hrun & Hm & Hp).
  { apply NoDup_elements. }
  { intros x Hx. apply Hsome. by apply elem_of_elements. }
  exists p, m'. split; [done|]. split.
  - intros x. rewrite Hm. destruct (decide (x ∈ ids)) as [Hx|Hx].
    + rewrite decide_True; [done|by apply elem_of_elements].
    + rewrite decide_False; [done|by rewrite elem_of_elements].
  - intros y. rewrite Hp. split.
    + intros [Hy|(x & Hx & Hc)]; [by apply elem_of_empty in Hy|]. exists x.
      split; [by apply elem_of_elements|done].
    + intros (x & Hx & Hc). right. exists x. split; [by apply elem_of_elements|done].
Qed.

Lemma marked_same ids m m' :
  (forall x, m' !! x = if decide (x ∈ ids) then f <$> m !! x else m !! x) -> same_children m m'.
Proof.
  intros Hm x. rewrite Hm. destruct (decide (x ∈ ids)); [|done].
  destruct (m !! x); cbn; [|done]. by rewrite f_next.
Qed.

(** The marked records and no others change; a path bounds the turns of the loop. *)
Lemma recursive_mark_loop n m ids :
  closed m -> (forall x, x ∈ ids -> is_Some (m !! x)) ->
  (forall x l, x ∈ ids -> path m x l -> (length (x :: l) <= n)%nat) ->
  exists m', recursive_mark f n ids m = (Ok tt, m') /\
    (forall x, m' !! x = m !! x \/ (after m ids x /\ m' !! x = f <$> m !! x)) /\
    (forall x, after m ids x -> m' !! x = f <$> m !! x).
Proof.
  revert m ids. induction n as [|n IH]; intros m ids Hc Hsome Hlen; cbn [recursive_mark];
    destruct (bool_decide_reflect (ids = ∅)) as [->|Hne].
  1, 3: exists m; split; [done|]; split; [by left|];
    intros x (i & Hi & _); by apply elem_of_empty in Hi.
  { exfalso. apply set_choose_L in Hne as [x Hx]. specialize (Hlen x [] Hx I). cbn in Hlen. lia. }
  destruct (mark_each_spec ids m Hsome) as (p & m1 & Hrun & Hm1 & Hp).
  pose proof (marked_same ids m m1 Hm1) as Hsame.
  destruct (IH m1 p) as (m' & Hrun' & Hor & Hin).
  { by eapply same_closed. }
  { intros y Hy. apply Hp in Hy as (x & _ & Hxy). apply (same_some m m1 y Hsame). by eapply Hc. }
  { intros y l Hy Hl. apply Hp in Hy as (x & Hx & Hxy). cut (length (x :: y :: l) <= S n)%nat; [cbn; lia|].
    apply Hlen; [done|]. split; [done|]. clear -Hl Hsame. revert y Hl.
    induction l as [|z l IHl]; simpl; intros y Hl; [done|]. destruct Hl as [Hyz Hl].
    split; [by apply (same_child m m1 y z Hsame)|by apply IHl]. }
  assert (Hafter : forall x, after m ids x <-> x ∈ ids \/ after m1 p x).
  { intros x. unfold after. setoid_rewrite (rtc_equiv (child m1) (child m) _ x
      (fun a b => same_child m m1 a b Hsame)). split.
    - intros (i & Hi & Hr). apply rtc_inv in Hr as [->|(j & Hij & Hr)]; [by left|].
      right. exists j. split; [apply Hp; by exists i|done].
    - intros [Hx|(j & Hj & Hr)]; [by exists x; split|]. apply Hp in Hj as (i & Hi & Hij).
      exists i. split; [done|]. by eapply rtc_l. }
  exists m'. split; [unfold run_bind; by rewrite Hrun|].
  assert (Hf : forall o : option block_fork_data, f <$> (f <$> o) = f <$> o) by (intros [r|]; cbn; [by rewrite f_twice|done]).
  split.
  - intros x. destruct (decide (x ∈ ids)) as [Hx|Hx].
    + right. split; [by apply Hafter; left|].
      destruct (Hor x) as [->|[_ ->]]; rewrite Hm1, decide_True by done; [done|by rewrite Hf].
    + destruct (Hor x) as [->|[Hx' ->]]; rewrite Hm1, decide_False by done; [by left|].
      right. split; [by apply Hafter; right|done].
  - intros x Hx. apply Hafter in Hx as [Hx|Hx].
    + destruct (Hor x) as [->|[_ ->]]; rewrite Hm1, decide_True by done; [done|by rewrite Hf].
    + rewrite (Hin x Hx), Hm1. destruct (decide (x ∈ ids)); [by rewrite Hf|done].
Qed.

Lemma recursive_mark_spec m ids :
  closed m -> acyclic m -> (forall x, x ∈ ids -> is_Some (m !! x)) ->
  exists m', recursive_mark f (size m) ids m = (Ok tt, m') /\
    (forall x, after m ids x -> m' !! x = f <$> m !! x) /\
    (forall x, m' !! x = m !! x \/ (after m ids x /\ m' !! x = f <$> m !! x)) /\
    same_children m m'.
Proof.
  intros Hc Ha Hsome. destruct (recursive_mark_loop (size m) m ids) as (m' & Hrun & Hor & Hin);
    [done|done|intros x l Hx Hp; apply path_length; auto|].
  exists m'. repeat (split; [done|]). intros x.
  destruct (Hor x) as [->|[_ ->]]; [done|]. destruct (m !! x); cbn; [by rewrite f_next|done].
Qed.
End Mark.

(** ** The tree *)
Section Tree.
(** The previous block of a block, which its id determines, and an order of the ids in which
    a block comes before the ones after it; both stand for the hash being one-way. *)
Context (parent rank : Z -> Z).

Record tree_ok m : Prop := {
  tree_closed : closed m;
  tree_parent x y : child m x y -> x = parent y;
  tree_rank x y : child m x y -> rank x < rank y;
  tree_linked x r : m !! x = Some r -> is_linked r = true <-> rtc (child m) 0 x
}.

Lemma rank_tc m x y :
  (forall x y, child m x y -> rank x < rank y) -> tc (child m) x y -> rank x < rank y.
Proof.
  intros Hr. induction 1 as [x y Hxy|x y z Hxy _ IH]; [by apply Hr|]. apply Hr in Hxy. lia.
Qed.

Lemma ranked_acyclic m : (forall x y, child m x y -> rank x < rank y) -> acyclic m.
Proof. intros Hr x Hx. apply (rank_tc m x x Hr) in Hx. lia. Qed.

(** Storing a record that has the same blocks after it. *)
Lemma same_tree m m' :
  same_children m m' ->
  (forall x r r', m !! x = Some r -> m' !! x = Some r' -> is_linked r' = is_linked r) ->
  tree_ok m -> tree_ok m'.
Proof.
  intros Hs Hl [Hc Hp Hr Hk].
  assert (Hch : forall x y, child m' x y <-> child m x y) by (intros; by apply same_child).
  split.
  - by eapply same_closed.
  - intros x y Hxy. apply Hp. by apply Hch.
  - intros x y Hxy. apply Hr. by apply Hch.
  - intros x r' Hx. destruct (proj1 (same_some m m' x Hs) ltac:(by eexists)) as [r Hr'].
    rewrite (Hl x r r' Hr' Hx), (rtc_equiv (child m') (child m) 0 x Hch). by apply Hk.
Qed.

(** A block and the edge to it from its previous block. *)
Definition with_edge (prev id : Z) (R : Z -> Z -> Prop) (x y : Z) : Prop :=
  R x y \/ (x = prev /\ y = id).

Lemma rtc_edge (R : Z -> Z -> Prop) prev id x :
  (forall a b, with_edge prev id R a b -> rank a < rank b) ->
  rtc (with_edge prev id R) 0 x <-> rtc R 0 x \/ (rtc R 0 prev /\ rtc R id x).
Proof.
  intros Hrank. split.
  - revert x. apply (rtc_ind_r (fun x => rtc R 0 x \/ rtc R 0 prev /\ rtc R id x));
      [by left; constructor|]. intros y x _ Hxy IH.
    destruct Hxy as [Hxy|[-> ->]].
    + destruct IH as [IH|[IH1 IH2]]; [left|right; split; [done|]]; by eapply rtc_r.
    + destruct IH as [IH|[IH1 IH2]]; [right; split; [done|constructor]|].
      exfalso. assert (Hge : rank id <= rank prev).
      { assert (HR : forall a b, R a b -> rank a < rank b) by (intros; by apply Hrank; left).
        clear -IH2 HR. induction IH2 as [|a b c Hab _ IH]; [lia|]. apply HR in Hab. lia. }
      pose proof (Hrank prev id (or_intror (conj eq_refl eq_refl))). lia.
  - intros [H|[H1 H2]].
    + eapply rtc_subrel; [|done]. by left.
    + etransitivity; [eapply rtc_subrel; [|exact H1]; by left|].
      eapply rtc_l; [by right|]. eapply rtc_subrel; [|exact H2]. by left.
Qed.

(** What is included. *)
Lemma included_insert i (r : block_fork_data) m x :
  included (<[i := r]> m) x = if decide (x = i) then is_included r else included m x.
Proof.
  unfold included. destruct (decide (x = i)) as [->|Hx]; [by rewrite lookup_insert_eq|].
  by rewrite lookup_insert_ne.
Qed.
Lemma marked_included f m m' x :
  (forall r, is_included (f r) = is_included r) ->
  (forall x, m' !! x = m !! x \/ m' !! x = f <$> m !! x) -> included m' x = included m x.
Proof.
  intros Hf Hm. unfold included. destruct (Hm x) as [->| ->]; [done|].
  destruct (m !! x); [by cbn; rewrite Hf|done].
Qed.

Lemma index_previous_spec id prev m :
  exists p m1, index_previous id prev m = (Ok p, m1) /\
    m1 = <[prev := p]> m /\
    (forall x y, child m1 x y <-> with_edge prev id (child m) x y) /\
    is_linked p = match m !! prev with Some r => is_linked r | None => prev =? 0 end /\
    is_included p = included m prev.
Proof.
  unfold index_previous, run_bind, reads, store_fork, modify, ret.
  eexists _, _. split; [reflexivity|]. split; [done|]. split.
  - intros x y. unfold child, with_edge. destruct (decide (x = prev)) as [->|Hne].
    + setoid_rewrite lookup_insert_eq. destruct (m !! prev) as [r|]; cbn.
      * split.
        -- intros (r' & [= <-] & Hy). cbn in Hy. apply elem_of_union in Hy as [Hy|Hy].
           ++ apply elem_of_singleton in Hy. by right.
           ++ left. by exists r.
        -- intros [(r' & [= <-] & Hy)|[_ ->]]; eexists; split; try done; set_solver.
      * split.
        -- intros (r' & [= <-] & Hy). cbn in Hy. right. set_solver.
        -- intros [(r' & [=] & Hy)|[_ ->]]; eexists; split; try done; set_solver.
    + setoid_rewrite lookup_insert_ne; [|done]. naive_solver.
  - unfold included. by destruct (m !! prev).
Qed.

Lemma rtc_no_child (R : Z -> Z -> Prop) x y : (forall z, ~ R x z) -> rtc R x y -> y = x.
Proof. intros Hn H. apply rtc_inv in H as [->|(z & Hz & _)]; [done|]. by apply Hn in Hz. Qed.

Context (id prev : Z) (Hparent : parent id = prev) (Hrank : rank prev < rank id) (Hid : id <> 0).

Lemma not_child_of_absent m x y : closed m -> m !! y = None -> ~ child m x y.
Proof. intros Hc Hy Hxy. apply Hc in Hxy as [r Hr]. congruence. Qed.

Lemma edge_rank m :
  (forall x y, child m x y -> rank x < rank y) ->
  forall x y, with_edge prev id (child m) x y -> rank x < rank y.
Proof. intros Hr x y [Hxy|[-> ->]]; [by apply Hr|done]. Qed.

(** The flag of the previous block, which may have been absent. *)
Lemma prev_linked m p :
  tree_ok m ->
  is_linked p = match m !! prev with Some r => is_linked r | None => prev =? 0 end ->
  is_linked p = true <-> rtc (child m) 0 prev.
Proof.
  intros [Hc Hp Hr Hk] ->. destruct (m !! prev) as [q|] eqn:Eq; [by apply Hk|]. split.
  - intros ->%Z.eqb_eq. constructor.
  - intros Hreach. apply rtc_inv_r in Hreach as [<-|(z & _ & Hz)]; [done|].
    by apply (not_child_of_absent m z prev) in Hz.
Qed.

Lemma closed_edge m p r :
  closed m -> m !! id = Some r ->
  (forall x y, child (<[prev := p]> m) x y <-> with_edge prev id (child m) x y) ->
  closed (<[prev := p]> m).
Proof.
  intros Hc Hr Hch x y Hxy. destruct (decide (y = prev)) as [->|Hy].
  { rewrite lookup_insert_eq. by eexists. }
  rewrite lookup_insert_ne by done.
  apply Hch in Hxy as [Hxy|[_ ->]]; [by eapply Hc|by eexists].
Qed.

(** A record without blocks after it adds none; one with the same blocks changes none. *)
Lemma child_fresh m i r x y :
  m !! i = None -> next_blocks r = ∅ -> child (<[i := r]> m) x y <-> child m x y.
Proof.
  intros Hnew Hnext. unfold child. destruct (decide (x = i)) as [->|Hx].
  - rewrite lookup_insert_eq, Hnew. split.
    + intros (r' & [= <-] & Hy). rewrite Hnext in Hy. by apply elem_of_empty in Hy.
    + by intros (r' & [=] & _).
  - by rewrite lookup_insert_ne.
Qed.

Lemma same_children_insert m m2 i r r' :
  same_children m m2 -> m !! i = Some r -> next_blocks r' = next_blocks r ->
  same_children m (<[i := r']> m2).
Proof.
  intros Hs Hr E x. destruct (decide (x = i)) as [->|Hx].
  - rewrite lookup_insert_eq, Hr. cbn. by rewrite E.
  - rewrite lookup_insert_ne by done. apply Hs.
Qed.

(** The tree with a new record for a new block. *)
Lemma insert_new_ok m p r :
  tree_ok m -> m !! id = None -> next_blocks r = ∅ -> is_linked r = is_linked p ->
  is_linked p = match m !! prev with Some r => is_linked r | None => prev =? 0 end ->
  (forall x y, child (<[prev := p]> m) x y <-> with_edge prev id (child m) x y) ->
  tree_ok (<[id := r]> (<[prev := p]> m)).
Proof.
  intros Ht Hnew Hnext Hl Hlp Hch. pose proof (prev_linked m p Ht Hlp) as Hprev.
  destruct Ht as [Hc Hp Hr Hk]. pose proof (edge_rank m Hr) as Hedge.
  assert (Hne : prev <> id) by (intros ->; lia).
  assert (Hch' : forall x y, child (<[id := r]> (<[prev := p]> m)) x y <->
    with_edge prev id (child m) x y).
  { intros x y. rewrite <- Hch. apply child_fresh; [|done]. by rewrite lookup_insert_ne. }
  assert (Hno : forall z, ~ child m id z) by (intros z (q & Hq & _); congruence).
  assert (Hin : ~ rtc (child m) 0 id).
  { intros H. apply rtc_inv_r in H as [<-|(z & _ & Hz)]; [done|].
    by apply (not_child_of_absent m z id) in Hz. }
  split.
  - intros x y Hxy. apply Hch' in Hxy as [Hxy|[-> ->]]; [|rewrite lookup_insert_eq; by eexists].
    destruct (Hc x y Hxy) as [q Hq].
    destruct (decide (y = id)) as [->|]; [rewrite lookup_insert_eq; by eexists|].
    rewrite lookup_insert_ne by done.
    destruct (decide (y = prev)) as [->|]; [rewrite lookup_insert_eq; by eexists|].
    rewrite lookup_insert_ne by done. by eexists.
  - intros x y Hxy. apply Hch' in Hxy as [Hxy|[-> ->]]; [by apply Hp|done].
  - intros x y Hxy. apply Hedge. by apply Hch'.
  - intros x r' Hx. rewrite (rtc_equiv _ _ 0 x Hch'), (rtc_edge _ prev id x Hedge).
    destruct (decide (x = id)) as [->|Hxi].
    + rewrite lookup_insert_eq in Hx. injection Hx as <-. rewrite Hl, Hprev. split.
      * intros H. right. split; [done|constructor].
      * intros [H|[H _]]; [by apply Hin in H|done].
    + rewrite lookup_insert_ne in Hx by done.
      assert (Hx' : ~ rtc (child m) id x) by (intros H; by apply (rtc_no_child _ _ _ Hno) in H).
      destruct (decide (x = prev)) as [->|Hxp].
      * rewrite lookup_insert_eq in Hx. injection Hx as <-. rewrite Hprev. tauto.
      * rewrite lookup_insert_ne in Hx by done. rewrite (Hk x r' Hx). tauto.
Qed.

(** The tree with a new edge to a block that was there, as its previous block. *)
Lemma insert_edge_ok m p r :
  tree_ok m -> m !! id = Some r -> (rtc (child m) 0 prev -> rtc (child m) 0 id) ->
  is_linked p = match m !! prev with Some r => is_linked r | None => prev =? 0 end ->
  (forall x y, child (<[prev := p]> m) x y <-> with_edge prev id (child m) x y) ->
  tree_ok (<[prev := p]> m).
Proof.
  intros Ht Hr Himp Hlp Hch. pose proof (prev_linked m p Ht Hlp) as Hprev.
  destruct Ht as [Hc Hp Hrk Hk]. split.
  - by eapply closed_edge.
  - intros x y Hxy. apply Hch in Hxy as [Hxy|[-> ->]]; [by apply Hp|done].
  - intros x y Hxy. apply Hch in Hxy as [Hxy|[-> ->]]; [by apply Hrk|done].
  - intros x r' Hx. rewrite (rtc_equiv _ _ 0 x Hch), (rtc_edge _ prev id x (edge_rank m Hrk)).
    assert (Hx' : is_linked r' = true <-> rtc (child m) 0 x).
    { destruct (decide (x = prev)) as [->|Hxp].
      - rewrite lookup_insert_eq in Hx. by injection Hx as <-.
      - rewrite lookup_insert_ne in Hx by done. by apply Hk. }
    rewrite Hx'. split; [by left|]. intros [H|[H1 H2]]; [done|]. etransitivity; [by apply Himp|done].
Qed.

(** The same, when the new edge links a block and all blocks after it. *)
Lemma link_edge_ok m p r m2 :
  tree_ok m -> m !! id = Some r -> is_linked p = true ->
  is_linked p = match m !! prev with Some r => is_linked r | None => prev =? 0 end ->
  (forall x y, child (<[prev := p]> m) x y <-> with_edge prev id (child m) x y) ->
  (forall x, after (<[prev := p]> m) (next_blocks r) x ->
     m2 !! x = with_linked true <$> <[prev := p]> m !! x) ->
  (forall x, m2 !! x = <[prev := p]> m !! x \/
     (after (<[prev := p]> m) (next_blocks r) x /\ m2 !! x = with_linked true <$> <[prev := p]> m !! x)) ->
  same_children (<[prev := p]> m) m2 ->
  tree_ok (<[id := with_linked true r]> m2).
Proof.
  intros Ht Hr Hlink Hlp Hch Hin Hor Hsame. pose proof (prev_linked m p Ht Hlp) as Hprev.
  apply Hprev in Hlink as Hreach. destruct Ht as [Hc Hp Hrk Hk].
  assert (Hne : prev <> id) by (intros ->; lia).
  assert (Hs' : same_children (<[prev := p]> m) (<[id := with_linked true r]> m2)).
  { apply (same_children_insert _ _ _ r); [done| |done]. by rewrite lookup_insert_ne. }
  assert (Hch' : forall x y, child (<[id := with_linked true r]> m2) x y <->
    with_edge prev id (child m) x y).
  { intros x y. by rewrite (same_child _ _ x y Hs'), Hch. }
  assert (Hid0 : rtc (child (<[prev := p]> m)) 0 id).
  { apply (rtc_r 0 prev id); [|apply Hch; by right]. eapply rtc_subrel; [|exact Hreach].
    intros a b Hab. apply Hch. by left. }
  split.
  - eapply same_closed; [exact Hs'|]. by eapply closed_edge.
  - intros x y Hxy. apply Hch' in Hxy as [Hxy|[-> ->]]; [by apply Hp|done].
  - intros x y Hxy. apply Hch' in Hxy as [Hxy|[-> ->]]; [by apply Hrk|done].
  - intros x r' Hx. rewrite (rtc_equiv _ _ 0 x (fun a b => same_child _ _ a b Hs')).
    destruct (decide (x = id)) as [->|Hxi].
    { rewrite lookup_insert_eq in Hx. injection Hx as <-. by split. }
    rewrite lookup_insert_ne in Hx by done. split.
    + intros Hl. destruct (Hor x) as [E|[(i & Hi & Hix) _]].
      * rewrite E in Hx. apply (rtc_equiv _ _ 0 x Hch), (rtc_edge _ prev id x (edge_rank m Hrk)).
        left. destruct (decide (x = prev)) as [->|Hxp]; [done|].
        rewrite lookup_insert_ne in Hx by done. by apply (Hk x r').
      * etransitivity; [exact Hid0|]. eapply rtc_l; [|exact Hix]. exists r.
        by rewrite lookup_insert_ne.
    + intros H. apply (rtc_equiv _ _ 0 x Hch), (rtc_edge _ prev id x (edge_rank m Hrk)) in H.
      assert (Hlinked : forall q, <[prev := p]> m !! x = Some q -> rtc (child m) 0 x ->
        is_linked q = true).
      { intros q Hq Hx0. destruct (decide (x = prev)) as [->|Hxp].
        - rewrite lookup_insert_eq in Hq. by injection Hq as <-.
        - rewrite lookup_insert_ne in Hq by done. by apply (Hk x q). }
      destruct H as [H|[_ H]].
      * destruct (Hor x) as [E|[_ E]]; rewrite E in Hx; [by apply (Hlinked r')|].
        destruct (<[prev := p]> m !! x); [|done]. by injection Hx as <-.
      * apply rtc_inv in H as [<-|(j & (r1 & Hr1 & Hj) & Hjx)]; [done|].
        assert (Hafter : after (<[prev := p]> m) (next_blocks r) x).
        { exists j. split; [congruence|]. eapply rtc_subrel; [|exact Hjx].
          intros a b Hab. apply Hch. by left. }
        rewrite (Hin x Hafter) in Hx. destruct (<[prev := p]> m !! x); [|done].
        by injection Hx as <-.
Qed.

(** The tree after a block was placed in it. *)
Lemma index_fork_ok m :
  tree_ok m ->
  exists r m', index_fork id prev m = (Ok r, m') /\ tree_ok m' /\ m' !! id = Some r /\
    (forall x y, child m' x y <-> with_edge prev id (child m) x y) /\
    (forall x, is_Some (m !! x) -> is_Some (m' !! x)) /\
    (forall x, included m' x = included m x).
Proof.
  intros Ht. destruct (index_previous_spec id prev m) as (p & m1 & Hrun & -> & Hch & Hlp & Hip).
  assert (Hne : prev <> id) by (intros ->; lia).
  cut (exists r m', index_current id p (<[prev := p]> m) = (Ok r, m') /\ tree_ok m' /\
    m' !! id = Some r /\ (forall x y, child m' x y <-> child (<[prev := p]> m) x y) /\
    (forall x, is_Some (<[prev := p]> m !! x) -> is_Some (m' !! x)) /\
    (forall x, included m' x = included (<[prev := p]> m) x)).
  { intros (r & m' & Hrun' & Ht' & Hr & Hch' & Hdom & Hinc). exists r, m'. split_and!; [|done|done| | |].
    - unfold index_fork, run_bind. by rewrite Hrun.
    - intros x y. by rewrite Hch'.
    - intros x Hx. apply Hdom, lookup_insert_is_Some. destruct (decide (prev = x)); auto.
    - intros x. rewrite Hinc, included_insert. by destruct (decide (x = prev)) as [->|]. }
  assert (Hins : forall (mm : fork_map) q x, is_Some (mm !! x) -> is_Some (<[id := q]> mm !! x)).
  { intros mm q x Hx. apply lookup_insert_is_Some. destruct (decide (id = x)); auto. }
  assert (Hid1 : <[prev := p]> m !! id = m !! id) by (by rewrite lookup_insert_ne).
  unfold index_current, run_bind, reads, store_fork, modify, ret.
  rewrite Hid1. destruct (m !! id) as [r|] eqn:Er.
  - destruct (negb (is_linked r) && is_linked p) eqn:Eb.
    + apply andb_true_iff in Eb as [_ Hlink].
      destruct (recursive_mark_spec (with_linked true) (fun _ => eq_refl) (fun _ => eq_refl)
        (<[prev := p]> m) (next_blocks r)) as (m2 & Hrun2 & Hin & Hor & Hsame).
      * eapply closed_edge; try done. apply Ht.
      * apply ranked_acyclic. intros x y Hxy. apply Hch in Hxy.
        by apply (edge_rank m (tree_rank m Ht)).
      * intros x Hx. eapply closed_edge; try done; [apply Ht|]. by exists r.
      * unfold recursive_mark_as_linked. cbn [next_blocks with_linked] in *.
        rewrite Hrun2. eexists _, _. split; [reflexivity|].
        split; [by eapply link_edge_ok|]. split; [by rewrite lookup_insert_eq|]. split.
        -- intros x y. apply same_child. by apply (same_children_insert _ _ _ r).
        -- split; [intros x Hx; by apply Hins, (same_some _ _ x Hsame)|]. intros x.
           rewrite included_insert. cbn [is_included with_linked].
           destruct (decide (x = id)) as [->|]; [by unfold included; rewrite Hid1|].
           by apply (marked_included (with_linked true) (<[prev := p]> m)); [|intros y; destruct (Hor y) as [|[_ ?]]; auto].
    + eexists r, (<[prev := p]> m).
      assert (Em : <[id := r]> (<[prev := p]> m) = <[prev := p]> m) by (by apply insert_id).
      split; [by rewrite Em|]. split; [|by repeat split].
      eapply insert_edge_ok; try done. intros Hreach.
      apply andb_false_iff in Eb as [Eb|Eb].
      * apply (tree_linked m Ht id r Er). by destruct (is_linked r).
      * apply (prev_linked m p Ht Hlp) in Hreach. congruence.
  - eexists _, _. split; [reflexivity|]. split; [by eapply insert_new_ok|].
    split; [by rewrite lookup_insert_eq|]. split; [|split; [intros x; apply Hins|]].
    + intros x y. by apply child_fresh.
    + intros x. rewrite included_insert. cbn [is_included with_linked with_known block_fork_data_default].
      destruct (decide (x = id)) as [->|]; [|done]. unfold included. by rewrite Hid1.
Qed.
End Tree.

(** ** Blocks in any order *)
Definition index_forks (blocks : list (Z * Z)) : run fork_map unit :=
  run_each (fun b => let! _ := index_fork b.1 b.2 in ret tt) blocks.

Lemma index_forks_ok parent rank blocks m :
  (forall id prev, (id, prev) ∈ blocks -> parent id = prev /\ rank prev < rank id /\ id <> 0) ->
  tree_ok parent rank m ->
  exists m', index_forks blocks m = (Ok tt, m') /\ tree_ok parent rank m' /\
    (forall x y, child m' x y <-> child m x y \/ (y, x) ∈ blocks) /\
    (forall id prev, (id, prev) ∈ blocks -> is_Some (m' !! id)) /\
    (forall x, is_Some (m !! x) -> is_Some (m' !! x)).
Proof.
  revert m. induction blocks as [|[id prev] blocks IH]; intros m Hb Ht.
  { exists m. split; [done|]. split; [done|]. split; [set_solver|]. split; [set_solver|done]. }
  destruct (Hb id prev ltac:(by left)) as (Hp & Hr & Hid).
  destruct (index_fork_ok parent rank id prev Hp Hr Hid m Ht) as (r & m1 & Hrun & Ht1 & Hm1 & Hch1 & Hd1 & _).
  destruct (IH m1) as (m' & Hrun' & Ht' & Hch' & Hs' & Hd'); [|done|].
  { intros i q Hin. apply Hb. by right. }
  exists m'. split; [|split; [done|split; [|split]]].
  - unfold index_forks. cbn [run_each]. rewrite run_assoc. cbn [fst snd].
    by rewrite (run_step _ _ m _ m1 Hrun).
  - intros x y. rewrite Hch', Hch1, elem_of_cons. unfold with_edge. naive_solver.
  - intros i q Hin. apply elem_of_cons in Hin as [[= -> ->]|Hin]; [|by eapply Hs'].
    apply Hd'. by eexists.
  - intros x Hx. apply Hd', Hd1, Hx.
Qed.

(** C29: The tree of blocks marks a block linked exactly when it descends from the
    genesis block. However blocks arrive, in any order and more than once: when they are
    placed in a tree that has only the genesis block, no call fails, the loop that marks the
    blocks after one that provides a missing link ends, and a block is linked if and only if
    the blocks that arrived lead from the genesis to it. The hypotheses say that an id
    determines the previous block and that no block comes before itself, as hashes do. *)
Theorem index_forks_linked parent rank blocks g :
  (forall id prev, (id, prev) ∈ blocks -> parent id = prev /\ rank prev < rank id /\ id <> 0) ->
  is_linked g = true -> next_blocks g = ∅ ->
  exists m, index_forks blocks {[ 0 := g ]} = (Ok tt, m) /\
    forall id prev, (id, prev) ∈ blocks ->
      exists r, m !! id = Some r /\ (is_linked r = true <-> rtc (fun x y => (y, x) ∈ blocks) 0 id).
Proof.
  intros Hb Hg Hn. assert (Hno : forall x y, ~ child {[ 0 := g ]} x y).
  { intros x y (r & Hr & Hy). apply lookup_singleton_Some in Hr as [_ <-]. rewrite Hn in Hy.
    by apply elem_of_empty in Hy. }
  destruct (index_forks_ok parent rank blocks {[ 0 := g ]} Hb) as (m & Hrun & Ht & Hch & Hs & _).
  { split; [intros x y Hxy; by apply Hno in Hxy..|].
    intros x r Hr. apply lookup_singleton_Some in Hr as [<- <-]. by split. }
  exists m. split; [done|]. intros id prev Hin. destruct (Hs id prev Hin) as [r Hr].
  exists r. split; [done|]. rewrite (tree_linked _ _ m Ht id r Hr). apply rtc_equiv.
  intros x y. rewrite Hch. split; [|by right]. intros [H|H]; [by apply Hno in H|done].
Qed.

(** ** Marking a block of the tree *)
Section Marks.
Context (parent rank : Z -> Z).
Notation tree_ok := (tree_ok parent rank).

Lemma mark_included_tree id included m r :
  tree_ok m -> m !! id = Some r ->
  exists m', mark_included id included m = (Ok tt, m') /\ tree_ok m' /\
    forall x, m' !! x = if decide (x = id)
      then Some (let r := with_included included r in if included then with_valid true r else r)
      else m !! x.
Proof.
  intros Ht Hr. unfold mark_included, run_bind, reads, fetch, store_fork, modify.
  rewrite Hr. cbn [value_or_throw]. eexists. split; [reflexivity|].
  set (r' := if included then _ else _).
  assert (Hn : next_blocks r' = next_blocks r) by (by unfold r'; destruct included).
  assert (Hl : is_linked r' = is_linked r) by (by unfold r'; destruct included).
  split.
  - apply (same_tree parent rank m); [| |done].
    + intros x. destruct (decide (x = id)) as [->|Hx].
      * rewrite lookup_insert_eq, Hr. cbn. by rewrite Hn.
      * by rewrite lookup_insert_ne.
    + intros x q q' Hq Hq'. destruct (decide (x = id)) as [->|Hx].
      * rewrite lookup_insert_eq in Hq'. injection Hq' as <-. congruence.
      * rewrite lookup_insert_ne in Hq' by done. congruence.
  - intros x. destruct (decide (x = id)) as [->|Hx].
    + by rewrite lookup_insert_eq.
    + by rewrite lookup_insert_ne.
Qed.

(** [mark_invalid] ends, and marks the block and all blocks after it invalid and no others. *)
Lemma mark_invalid_ok id m r :
  tree_ok m -> m !! id = Some r ->
  exists m', mark_invalid id m = (Ok tt, m') /\ tree_ok m' /\ same_children m m' /\
    (forall x q, rtc (child m) id x -> m !! x = Some q -> m' !! x = Some (with_valid false q)) /\
    (forall x, ~ rtc (child m) id x -> m' !! x = m !! x) /\
    (forall x, included m' x = included m x).
Proof.
  intros Ht Hr. pose proof Ht as [Hc _ Hrk _].
  set (m1 := <[id := with_valid false r]> m).
  assert (Hs1 : same_children m m1).
  { intros x. unfold m1. destruct (decide (x = id)) as [->|Hx].
    - by rewrite lookup_insert_eq, Hr.
    - by rewrite lookup_insert_ne. }
  assert (Hch1 : forall x y, child m1 x y <-> child m x y) by (intros; by apply same_child).
  destruct (recursive_mark_spec (with_valid false) (fun _ => eq_refl) (fun _ => eq_refl)
    m1 (next_blocks r)) as (m' & Hrun & Hin & Hor & Hsame).
  { by eapply same_closed. }
  { eapply ranked_acyclic. intros x y Hxy. by apply Hrk, Hch1. }
  { intros x Hx. apply (same_some m m1 x Hs1). eapply Hc. by exists r. }
  assert (Hafter : forall x, rtc (child m) id x <-> x = id \/ after m1 (next_blocks r) x).
  { intros x. unfold after. setoid_rewrite (rtc_equiv (child m1) (child m) _ x Hch1). split.
    - intros H. apply rtc_inv in H as [->|(j & (r1 & Hr1 & Hj) & H)]; [by left|].
      right. exists j. split; [congruence|done].
    - intros [->|(j & Hj & H)]; [constructor|]. eapply rtc_l; [|done]. by exists r. }
  assert (Hid : ~ after m1 (next_blocks r) id).
  { intros (j & Hj & H). apply (ranked_acyclic rank m Hrk id).
    eapply tc_rtc_r; [constructor; by exists r|]. by apply (rtc_equiv (child m1) (child m) _ _ Hch1). }
  exists m'. split_and!.
  - unfold mark_invalid, run_bind, reads, fetch, store_fork, modify. rewrite Hr. exact Hrun.
  - apply (same_tree parent rank m).
    + intros x. rewrite (Hsame x). apply Hs1.
    + intros x q q' Hq Hq'. assert (Hq1 : exists q1, m1 !! x = Some q1 /\ is_linked q1 = is_linked q).
      { unfold m1. destruct (decide (x = id)) as [->|Hx].
        - rewrite lookup_insert_eq. eexists. split; [done|]. cbn. congruence.
        - rewrite lookup_insert_ne by done. by exists q. }
      destruct Hq1 as (q1 & Hq1 & <-).
      destruct (Hor x) as [E|[_ E]]; rewrite E, Hq1 in Hq'; injection Hq' as <-; done.
    + done.
  - intros x. by rewrite (Hsame x), (Hs1 x).
  - intros x q Hx Hq. apply Hafter in Hx as [->|Hx].
    + destruct (Hor id) as [->|[Hx _]]; [|by apply Hid in Hx].
      unfold m1. rewrite lookup_insert_eq. congruence.
    + rewrite (Hin x Hx). unfold m1. destruct (decide (x = id)) as [->|Hxi].
      * by apply Hid in Hx.
      * by rewrite lookup_insert_ne, Hq.
  - intros x Hx. rewrite Hafter in Hx. destruct (Hor x) as [->|[Hx' _]]; [|tauto].
    unfold m1. rewrite lookup_insert_ne; [done|]. intros ->. tauto.
  - intros x. rewrite (marked_included (with_valid false) m1); [|done|intros y; destruct (Hor y) as [|[_ ?]]; auto].
    unfold m1. rewrite included_insert. destruct (decide (x = id)) as [->|]; [|done].
    unfold included. by rewrite Hr.
Qed.
End Marks.

(** Invalidity is not inherited: a block that is new is linked to an invalid block
    as if it were valid, and can be switched to. [mark_invalid] marks only the blocks that
    are there when it runs. *)
Theorem invalid_parent_can_link id prev m p :
  prev <> id -> m !! prev = Some p -> is_linked p = true -> invalid p = true -> m !! id = None ->
  exists r m', index_fork id prev m = (Ok r, m') /\ can_link r = true.
Proof.
  intros Hne Hp Hl Hi Hid.
  unfold index_fork, index_previous, index_current, run_bind, reads, store_fork, modify, ret.
  rewrite Hp, lookup_insert_ne, Hid by done. eexists _, _. split; [reflexivity|]. cbn. by rewrite Hl.
Qed.

(** A block whose successor arrived first is never known: [is_known] is set on a
    fresh record, which the one made for the successor then replaces. *)
Theorem known_is_lost id prev next m :
  next <> id -> prev <> id -> m !! id = None -> m !! next = None ->
  exists r m1, index_fork next id m = (Ok r, m1) /\ is_known r = true /\
    forall r2 m2, index_fork id prev m1 = (Ok r2, m2) ->
      is_known r2 = false /\ m2 !! id = Some r2.
Proof.
  intros Hn Hp Hid Hnext.
  unfold index_fork, index_previous, index_current, store_fork.
  eexists _, _. split; [|split].
  - unfold run_bind, reads, modify, ret. rewrite Hid.
    rewrite lookup_insert_ne, Hnext by done. reflexivity.
  - done.
  - intros r2 m2 H2. inv_st. set (cur := with_linked (id =? 0) (with_next next block_fork_data_default)) in *.
    match goal with H : Ok _ = Ok ?o |- _ =>
      rewrite !lookup_insert_ne, lookup_insert_eq in H by done; injection H as <- end.
    match goal with H : (if ?b then _ else _) _ = _ |- _ => destruct b end; inv_st;
      (split; [done|by rewrite lookup_insert_eq]).
Qed.
