(* ===== verification/BlockEffects.v ===== *)
(** What a block changes: the pending state of [extend_chain] is kept well-formed by each of
    its steps, and the steps conserve shares. *)
From S2P Require Import Prelude Totals Conservation Closure Undo Evaluate Chain.

(** ** Every step is made of stores *)
Section Steps.
Context `{FC : Fc} `{FT : FcTransaction} `{FBl : FcBlock} `{FO : FcOperations} `{FB : FcBigint}.
Context (Owner Issuer Withdrawn Deposited : Z -> Prop) (Stored : block_state -> balance_record -> Prop).
Context (I : block_state -> Prop) (HI : store_closed Owner Issuer Withdrawn Deposited Stored I).
Implicit Types (d : chain_database) (s : block_state) (b : full_block) (c : chain).

Lemma delegate_record_ok d s sec r info :
  delegate_record d s sec = Ok (r, info) ->
  exists id, get_signing_delegate_id d sec = Ok id /\ get_account_record s id = Some r /\
    delegate_info r = Some info.
Proof.
  unfold delegate_record. intros Hr. inv_ok. eauto.
Qed.

Lemma check_secret_closed d b s s' : check_secret d b s = Ok s' -> I s -> I s'.
Proof.
  unfold check_secret. intros Hs HIs. apply bind_ok in Hs as ([r info] & Hr & Hs).
  apply delegate_record_ok in Hr as (id & _ & Hr & _). inv_ok.
  apply (closed_account _ _ _ _ _ I HI); [|done]. exact (found_account _ _ _ _ _ I HI s id r HIs Hr).
Qed.

Lemma production_loop_closed fuel d b slot conf s conf' s' :
  production_loop fuel d b slot conf s = Ok (conf', s') -> I s -> I s'.
Proof.
  revert slot conf s. induction fuel as [|fuel IH]; cbn [production_loop]; intros slot conf s Hs HIs;
    [done|].
  apply bind_ok in Hs as ([r info] & Hr & Hs). apply delegate_record_ok in Hr as (id & _ & Hr & _).
  assert (Ho : forall o, Owner (owner_key (with_delegate_info o r)))
    by (intros o; exact (found_account _ _ _ _ _ I HI s id r HIs Hr)).
  destruct (negb _); destruct (_ <? _);
    first [eapply IH; [exact Hs|]|apply Ok_inj in Hs; injection Hs as <- <-];
    by apply (closed_account _ _ _ _ _ I HI).
Qed.

Lemma production_closed d b s s' : update_delegate_production_info d b s = Ok s' -> I s -> I s'.
Proof.
  unfold update_delegate_production_info. intros Hs HIs. inv_ok.
  apply (closed_property _ _ _ _ _ I HI). eapply production_loop_closed; [done|].
  by eapply check_secret_closed.
Qed.

Lemma apply_transactions_closed chain_id num n trxs s s' :
  (forall s t loc, In t trxs -> I s -> I (store_transaction s (trx_id t) (TransactionRecord t loc))) ->
  Forall (fun t => Forall (owners_in Owner Issuer Withdrawn Deposited) (operations t)) trxs ->
  apply_transactions chain_id num n trxs s = Ok s' -> I s -> I s'.
Proof.
  intros Hst. revert n s. induction trxs as [|t trxs IH]; cbn [apply_transactions]; intros n s Hall Hs HIs;
    inv_ok; [done|]. apply Forall_cons_iff in Hall as [Ht Hall].
  eapply IH; [|done|done|]; [intros; apply Hst; [by right|done]|]. apply Hst; [by left|].
  by eapply (evaluate_closed Owner Issuer Withdrawn Deposited Stored I HI).
Qed.

Lemma pay_delegate_closed d time amt s s' : pay_delegate d time amt s = Ok s' -> I s -> I s'.
Proof.
  unfold pay_delegate. intros Hs HIs. inv_ok.
  assert (HI' : forall r o, get_account_record s x = Some r ->
    I (store_account_record s (with_delegate_info o r))).
  { intros r o Hr. apply (closed_account _ _ _ _ _ I HI); [|done].
    exact (found_account _ _ _ _ _ I HI s x r HIs Hr). }
  apply (closed_asset _ _ _ _ _ I HI); [|by apply HI'].
  match goal with H : get_asset_record _ 0 = Some ?r |- _ =>
    change (Issuer (issuer_account_id r)); eapply (found_asset _ _ _ _ _ I HI); [|exact H] end.
  by apply HI'.
Qed.

Lemma active_list_closed d b s s' : update_active_delegate_list d b s = Ok s' -> I s -> I s'.
Proof.
  unfold update_active_delegate_list. intros Hs HIs. inv_run; [|done].
  by apply (closed_property _ _ _ _ _ I HI).
Qed.

Lemma random_seed_closed secret s s' : update_random_seed secret s = Ok s' -> I s -> I s'.
Proof.
  unfold update_random_seed. intros Hs HIs. inv_ok. by apply (closed_property _ _ _ _ _ I HI).
Qed.

Definition owners_of (b : full_block) : Prop :=
  Forall (fun t => Forall (owners_in Owner Issuer Withdrawn Deposited) (operations t)) (user_transactions b).

Lemma block_changes_closed c b s :
  (forall s t loc, In t (user_transactions b) -> I s ->
     I (store_transaction s (trx_id t) (TransactionRecord t loc))) ->
  owners_of b -> block_changes c b = Ok s -> I (create (Some (db c))) -> I s.
Proof.
  unfold block_changes. intros Hst Hb Hs HI0. inv_ok.
  eapply random_seed_closed; [done|]. eapply active_list_closed; [done|].
  eapply pay_delegate_closed; [done|]. eapply apply_transactions_closed; [exact Hst|exact Hb|done|].
  by eapply production_closed.
Qed.
End Steps.

(** ** The pending state of a block is over the database, with every record under its id *)
Section Own.
Context `{FC : Fc} `{FT : FcTransaction} `{FBl : FcBlock} `{FO : FcOperations} `{FB : FcBigint}.

Definition over_state (d : chain_database) (s : block_state) : Prop :=
  prev_state s = Some d /\ own_keys s.

Definition anyone : Z -> Prop := fun _ => True.
Definition any_balance {S} : S -> balance_record -> Prop := fun _ _ => True.

Lemma over_state_closed d : store_closed anyone anyone anyone anyone any_balance (over_state d).
Proof.
  unfold over_state. split; try done; intros s; intros;
    repeat match goal with H : _ /\ _ |- _ => destruct H end; split; try done.
  all: first [by apply own_store_bid|by apply own_store_ask|by apply own_store_asset
             |by apply own_store_balance|by apply own_store_account
             |match goal with H : own_keys _ |- _ => by destruct H end].
Qed.

Lemma owners_anyone b : owners_of anyone anyone anyone anyone b.
Proof.
  apply List.Forall_forall. intros t _. apply List.Forall_forall. intros op _. done.
Qed.

Lemma block_changes_over c b s : block_changes c b = Ok s -> over_state (db c) s.
Proof.
  intros Hs. eapply block_changes_closed; [apply over_state_closed| |apply owners_anyone|exact Hs|].
  { intros s0 t loc _ [Hp Ho]. split; [done|]. by destruct Ho. }
  split; [done|apply own_keys_create].
Qed.
End Own.

(** ** The steps of a block conserve shares *)
Section Balanced.
Context `{FC : Fc} `{FT : FcTransaction} `{FBl : FcBlock} `{FO : FcOperations} `{FB : FcBigint}.
Context (bid_asset ask_asset : Z * Z -> Z).
Notation excess := (excess bid_asset ask_asset).
Implicit Types (d : chain_database) (s : block_state) (b : full_block) (c : chain) (l : ledger).

(** [l'] is well-formed and holds as many shares, beyond the supply, as [l]. *)
Definition balanced k l l' : Prop := wf k l' /\ forall a, excess l' a == excess l a.

Lemma balanced_refl k l : wf k l -> balanced k l l.
Proof. by split. Qed.
Lemma balanced_trans k l1 l2 l3 : balanced k l1 l2 -> balanced k l2 l3 -> balanced k l1 l3.
Proof. intros [_ H1] [Hwf H2]. split; [done|]. intros a. by rewrite H2. Qed.

Lemma same_pay_balanced k l id r info info' :
  wf k l -> l_accounts l !! id = Some r -> delegate_info r = Some info ->
  pay_balance info' = pay_balance info ->
  balanced k l (put_account true (with_delegate_info (Some info') r) l).
Proof.
  intros Hwf Hr Hi Hp. pose proof (keyed_accounts l (wf_keyed k l Hwf) id r Hr) as Hid.
  split.
  - eapply wf_put_account; [|done]. cbn. by rewrite Hid.
  - intros a. rewrite excess_put_account. cbn [account_id with_delegate_info]. rewrite Hid.
    unfold at_key, pay_in. rewrite Hr, Hi. cbn. rewrite Hp. destruct (_ =? _); eqm_lia.
Qed.

Lemma store_same_pay k s id r info info' :
  wf k (ledger_of s) -> get_account_record s id = Some r -> delegate_info r = Some info ->
  pay_balance info' = pay_balance info ->
  balanced k (ledger_of s) (ledger_of (store_account_record s (with_delegate_info (Some info') r))).
Proof.
  intros Hwf Hr Hi Hp. rewrite (ledger_store_account (ChainStores := pending_stores)).
  rewrite view_account in Hr. by eapply same_pay_balanced.
Qed.

Lemma store_property_balanced k s id v :
  id <> last_asset_id_prop -> id <> last_account_id_prop -> wf k (ledger_of s) ->
  balanced k (ledger_of s) (ledger_of (set_property s id v)).
Proof.
  intros H1 H2 Hwf. rewrite (ledger_set_property (ChainStores := pending_stores)).
  split; [by apply wf_put_prop|]. intros a. by rewrite excess_put_prop.
Qed.

Lemma check_secret_balanced k d b s s' :
  check_secret d b s = Ok s' -> wf k (ledger_of s) -> balanced k (ledger_of s) (ledger_of s').
Proof.
  unfold check_secret. intros Hs Hwf. apply bind_ok in Hs as ([r info] & Hr & Hs).
  apply delegate_record_ok in Hr as (id & _ & Hr & Hi). inv_ok. by eapply store_same_pay.
Qed.

Lemma production_loop_balanced k fuel d b slot conf s conf' s' :
  production_loop fuel d b slot conf s = Ok (conf', s') -> wf k (ledger_of s) ->
  balanced k (ledger_of s) (ledger_of s').
Proof.
  revert slot conf s. induction fuel as [|fuel IH]; cbn [production_loop]; intros slot conf s Hs Hwf;
    [done|].
  apply bind_ok in Hs as ([r info] & Hr & Hs). apply delegate_record_ok in Hr as (id & _ & Hr & Hi).
  assert (Hb : forall p m, balanced k (ledger_of s)
    (ledger_of (store_account_record s (with_delegate_info (Some (with_production p m info)) r))))
    by (intros; by eapply store_same_pay).
  destruct (negb _); destruct (_ <? _);
    first [eapply balanced_trans; [apply Hb|]; eapply IH; [exact Hs|]; apply Hb
          |apply Ok_inj in Hs; injection Hs as <- <-; apply Hb].
Qed.

Lemma production_balanced k d b s s' :
  update_delegate_production_info d b s = Ok s' -> wf k (ledger_of s) ->
  balanced k (ledger_of s) (ledger_of s').
Proof.
  unfold update_delegate_production_info. intros Hs Hwf. inv_ok.
  match goal with H : check_secret _ _ _ = Ok _ |- _ =>
    apply (check_secret_balanced k) in H as Hb1; [|done] end.
  eapply balanced_trans; [exact Hb1|].
  match goal with H : production_loop _ _ _ _ _ _ = Ok _ |- _ =>
    apply (production_loop_balanced k) in H as Hb2; [|apply Hb1] end.
  eapply balanced_trans; [exact Hb2|]. apply store_property_balanced; [done|done|apply Hb2].
Qed.

Lemma transactions_balanced k chain_id num n trxs s s' :
  0 <= k ->
  Forall (fun t => Forall (orders_in_asset bid_asset ask_asset) (operations t)) trxs ->
  apply_transactions chain_id num n trxs s = Ok s' ->
  wf (k + foldr (fun t n => Z.of_nat (length (operations t)) + n) 0 trxs) (ledger_of s) ->
  balanced k (ledger_of s) (ledger_of s').
Proof.
  intros Hk. revert n s. induction trxs as [|t trxs IH]; cbn [apply_transactions foldr];
    intros n s Hall Hs Hwf; inv_ok.
  { apply balanced_refl. by rewrite Z.add_0_r in Hwf. }
  apply Forall_cons_iff in Hall as [Ht Hall]. set (m := foldr _ 0 trxs) in *.
  assert (Hm : 0 <= m) by (unfold m; clear; induction trxs; simpl; lia).
  destruct (evaluate_excess (CS := pending_stores) eq_refl bid_asset ask_asset (k + m) t
    (eval_state_new s chain_id) x ltac:(lia) Ht) as [Hwf1 Hx1]; [done| |].
  { eapply wf_mono; [|exact Hwf]. lia. }
  specialize (IH _ _ Hall Hs). rewrite (ledger_store_transaction (ChainStores := pending_stores)) in IH.
  destruct (IH Hwf1) as [Hwf2 Hx2]. split; [done|]. intros a. rewrite Hx2. apply Hx1.
Qed.

Lemma pay_delegate_balanced k d time amt s s' :
  pay_delegate d time amt s = Ok s' -> wf k (ledger_of s) ->
  balanced k (ledger_of s) (ledger_of s').
Proof.
  unfold pay_delegate. intros Hs Hwf.
  apply bind_ok in Hs as (id & _ & Hs). apply bind_ok in Hs as (rec & Hr & Hs).
  apply bind_ok in Hs as (info & Hi & Hs). apply bind_ok in Hs as (base & Hbase & Hs).
  inv_ok.
  rewrite view_asset in Hbase.
  rewrite (ledger_store_asset (ChainStores := pending_stores)).
  rewrite (ledger_store_account (ChainStores := pending_stores)) in Hbase |- *.
  rewrite view_account in Hr. cbn [overlay pending_stores] in *. set (l := ledger_of s) in *.
  pose proof (keyed_accounts l (wf_keyed k l Hwf) _ rec Hr) as Hid.
  set (rec' := with_delegate_info _ rec) in *.
  assert (Hwf1 : wf k (put_account true rec' l)).
  { eapply wf_put_account; [|done]. cbn. by rewrite Hid. }
  pose proof (keyed_assets _ (wf_keyed k _ Hwf1) 0 base Hbase) as Hid0.
  split.
  - eapply wf_put_asset; [|done]. cbn [asset_record_id with_supply]. by rewrite Hid0.
  - intros a. rewrite excess_put_asset, excess_put_account.
    cbn [asset_record_id with_supply account_id rec' with_delegate_info current_share_supply].
    rewrite Hid, Hid0. unfold supply, at_key, pay_in. rewrite Hr, Hi.
    cbn [delegate_info rec' with_delegate_info pay_balance with_votes with_pay_balance].
    destruct (Z.eqb_spec 0 a) as [<-|Hne].
    + rewrite Hbase. cbn [Z.eqb]. eqm_lia.
    + destruct (Z.eqb_spec a 0); [congruence|]. eqm_lia.
Qed.

Lemma active_list_balanced k d b s s' :
  update_active_delegate_list d b s = Ok s' -> wf k (ledger_of s) ->
  balanced k (ledger_of s) (ledger_of s').
Proof.
  unfold update_active_delegate_list. intros Hs Hwf. inv_run; [|by apply balanced_refl].
  by apply store_property_balanced.
Qed.

Lemma random_seed_balanced k secret s s' :
  update_random_seed secret s = Ok s' -> wf k (ledger_of s) ->
  balanced k (ledger_of s) (ledger_of s').
Proof.
  unfold update_random_seed. intros Hs Hwf. inv_ok. by apply store_property_balanced.
Qed.

(** The operations of a block, each of which gives out at most one id. *)
Definition block_operations b : Z :=
  foldr (fun t n => Z.of_nat (length (operations t)) + n) 0 (user_transactions b).
Definition orders_of_block b : Prop :=
  Forall (fun t => Forall (orders_in_asset bid_asset ask_asset) (operations t)) (user_transactions b).

Lemma create_ledger d : ledger_of (create (Some d) : block_state) = ledger_of d.
Proof.
  cbn. unfold pending_ledger, prev_ledger. cbn. unfold market_values, market_map.
  by rewrite !fmap_empty, !map_empty_union.
Qed.

(** Transactions move shares, issue them into the supply or leave fees that leave it, and the
    pay of the delegate enters the supply. *)
Lemma block_conserves k c b s :
  0 <= k -> orders_of_block b -> wf (k + block_operations b) (ledger_of (db c)) ->
  block_changes c b = Ok s ->
  wf k (ledger_of s) /\ forall a, excess (ledger_of s) a == excess (ledger_of (db c)) a.
Proof.
  unfold block_changes. intros Hk Ho Hwf Hs. inv_ok.
  rewrite <- create_ledger in Hwf |- *. fold (balanced k (ledger_of (create (Some (db c)))) (ledger_of s)).
  assert (Hops : 0 <= block_operations b).
  { unfold block_operations. clear. induction (user_transactions b); simpl; lia. }
  match goal with H : update_delegate_production_info _ _ _ = Ok _ |- _ =>
    apply (production_balanced (k + block_operations b)) in H as [W1 E1]; [|done] end.
  match goal with H : apply_transactions _ _ _ _ _ = Ok _ |- _ =>
    apply (transactions_balanced k) in H as Hb2; [|done..] end.
  match goal with H : pay_delegate _ _ _ _ = Ok _ |- _ =>
    apply (pay_delegate_balanced k) in H as Hb3; [|apply Hb2] end.
  match goal with H : update_active_delegate_list _ _ _ = Ok _ |- _ =>
    apply (active_list_balanced k) in H as Hb4; [|apply Hb3] end.
  match goal with H : update_random_seed _ _ = Ok _ |- _ =>
    apply (random_seed_balanced k) in H as Hb5; [|apply Hb4] end.
  eapply balanced_trans; [|exact Hb5]. eapply balanced_trans; [|exact Hb4].
  eapply balanced_trans; [|exact Hb3]. destruct Hb2 as [W2 E2]. split; [done|].
  intros a. by rewrite E2.
Qed.
End Balanced.
