(* ===== verification/History.v ===== *)
(** The ledger of the chain is the one that the blocks of the official chain build from the
    genesis, whatever forks were tried and left: pushing a block keeps this, through every
    block extended, every block undone and every exception. *)
From stdpp Require Import relations.
From S2P Require Import Prelude Conservation Closure Undo BlockEffects ForkTree Chain.

Section History.
Context `{FC : Fc} `{FT : FcTransaction} `{FBl : FcBlock} `{FO : FcOperations} `{FB : FcBigint}.

(** The headers that occur, among which there is no collision of ids, and an order of ids in
    which a block comes after its previous one. *)
Context (U : signed_block_header -> Prop) (parent rank : Z -> Z).
Record ids_ok : Prop := {
  ids_injective (h h' : signed_block_header) : U h -> U h' -> block_id h = block_id h' -> h = h';
  ids_parent (h : signed_block_header) : U h -> parent (block_id h) = previous h;
  ids_rank (h : signed_block_header) : U h -> rank (previous h) < rank (block_id h);
  ids_nonzero (h : signed_block_header) : U h -> block_id h <> 0
}.
Context (HU : ids_ok).

Implicit Types (c : chain) (b : full_block) (s u : block_state) (L G : ledger).
Notation tree_ok := (tree_ok parent rank).

(** ** Building a ledger from blocks *)

(** [history G undo bs id h L]: the blocks [bs], the last one first, build [L] from [G], each
    one verified and applied on a chain with the ledger before it; [id] and [h] are the id
    and the header of the last block, and applying the undo state stored for it to [L] gives
    the ledger before it. *)
Inductive history G (undo : gmap Z block_state) : list full_block -> Z -> signed_block_header -> ledger -> Prop :=
  | history_genesis (h : signed_block_header) : block_num h = 0 -> history G undo [] 0 h G
  | history_block bs c b s u :
      history G undo bs (head_block_id c) (head_block_header (db c)) (ledger_of (db c)) ->
      U b -> verify_header c b = Ok tt -> block_changes c b = Ok s ->
      undo !! block_id b = Some u -> own_keys u ->
      live_ledger (over (changes u) (live_ledger (ledger_of s))) = ledger_of (db c) ->
      history G undo (b :: bs) (block_id b) b (live_ledger (ledger_of s)).

(** Records under their own ids, none null. *)
Definition ledger_ok L : Prop := keyed L /\ live_ledger L = L.

(** The index by numbers lists these blocks, unless there are so many that numbers repeat;
    with the genesis they are the blocks marked as included. All of them are stored. *)
Definition indexed (bs : list full_block) (nums : gmap Z Z) (m : fork_map)
    (records : gmap Z block_record) : Prop :=
  (Z.of_nat (length bs) < 2 ^ 32 -> forall num id,
    nums !! num = Some id <-> exists b, b ∈ bs /\ block_num b = num /\ block_id b = id) /\
  (forall id, included m id = true <-> id = 0 \/ exists b, b ∈ bs /\ block_id b = id) /\
  forall b, b ∈ bs -> is_Some (records !! block_id b).

Record chain_ok G c : Prop := {
  ok_tree : tree_ok (fork_db c);
  ok_records id (r : block_record) : block_id_to_block_record_db c !! id = Some r ->
    block_id r = id /\ U r /\ is_Some (fork_db c !! id);
  ok_history : exists bs, history G (undo_state_db c) bs (head_block_id c)
    (head_block_header (db c)) (ledger_of (db c)) /\
    indexed bs (block_num_to_id_db c) (fork_db c) (block_id_to_block_record_db c)
}.

(** What [chain_ok] reads. *)
Definition same_core c c' : Prop :=
  db c' = db c /\ fork_db c' = fork_db c /\ undo_state_db c' = undo_state_db c /\
  block_id_to_block_record_db c' = block_id_to_block_record_db c /\ head_block_id c' = head_block_id c /\
  block_num_to_id_db c' = block_num_to_id_db c.

Lemma same_core_ok G c c' : same_core c c' -> chain_ok G c -> chain_ok G c'.
Proof.
  intros (E1 & E2 & E3 & E4 & E5 & E6) [Ht Hr Hh].
  split; rewrite ?E1, ?E2, ?E3, ?E4, ?E5, ?E6; done.
Qed.

(** ** Ledgers that are kept well *)
Lemma keyed_live L : keyed L -> keyed (live_ledger L).
Proof.
  intros [Ka Kb Kc]. split; intros id r Hr; cbn in Hr; apply live_lookup in Hr as [Hr _]; eauto.
Qed.

Lemma keyed_over s L : own_keys s -> keyed L -> keyed (over (changes s) L).
Proof.
  intros [Oa Ob Oc _ _] [Ka Kb Kc]. split; intros id r Hr; cbn in Hr;
    apply lookup_union_Some_raw in Hr as [Hr|[_ Hr]]; eauto.
Qed.

Lemma verify_header_previous c b : verify_header c b = Ok tt -> previous b = head_block_id c.
Proof.
  unfold verify_header. intros H. inv_ok.
  repeat match goal with H : negb (_ =? _) = false |- _ =>
    apply negb_false_iff, Z.eqb_eq in H end. done.
Qed.

Lemma verify_header_num c b :
  verify_header c b = Ok tt -> block_num b = uint32 (block_num (head_block_header (db c)) + 1).
Proof.
  unfold verify_header. intros H. inv_ok.
  repeat match goal with H : negb (_ =? _) = false |- _ =>
    apply negb_false_iff, Z.eqb_eq in H end. done.
Qed.

(** The ledger after a block. *)
Lemma block_ledger c b s :
  block_changes c b = Ok s -> live_ledger (ledger_of (db c)) = ledger_of (db c) ->
  ledger_of (apply_changes s (db c)) = live_ledger (ledger_of s).
Proof.
  intros Hs Hl. destruct (block_changes_over c b s Hs) as [Hp Ho].
  rewrite (apply_over (CS := database_stores) eq_refl s (db c) Ho Hl).
  by rewrite (pending_over s (db c) Hp).
Qed.

Lemma block_ledger_ok c b s :
  block_changes c b = Ok s -> ledger_ok (ledger_of (db c)) -> ledger_ok (live_ledger (ledger_of s)).
Proof.
  intros Hs [Hk Hl]. destruct (block_changes_over c b s Hs) as [Hp Ho].
  split; [|apply live_live_ledger]. apply keyed_live. rewrite (pending_over s (db c) Hp).
  by apply keyed_over.
Qed.

Lemma history_ledger_ok G undo bs id h L :
  ledger_ok G -> history G undo bs id h L -> ledger_ok L.
Proof. intros HG Hh. induction Hh; [done|]. by eapply block_ledger_ok. Qed.

(** ** Storing an undo state for a new block does not touch the history *)
(** *** The index of the official chain *)
Lemma history_num G undo bs id h L :
  history G undo bs id h L -> block_num h = uint32 (Z.of_nat (length bs)).
Proof.
  induction 1 as [h Hh|bs c b s u _ IH _ Hv _ _ _ _]; [done|].
  rewrite (verify_header_num c b Hv), IH. cbn [length]. unfold uint32.
  rewrite Zplus_mod_idemp_l. f_equal. lia.
Qed.
Lemma history_nums G undo bs id h L b :
  history G undo bs id h L -> Z.of_nat (length bs) < 2 ^ 32 -> b ∈ bs ->
  1 <= block_num b <= Z.of_nat (length bs).
Proof.
  intros Hh. revert b. induction Hh as [h Hh|bs c b0 s u Hh IH Hb Hv Hs Hu Ho Hl]; intros b Hlen Hin;
    [by apply elem_of_nil in Hin|].
  pose proof (history_num _ _ _ _ _ _ (history_block _ _ bs c b0 s u Hh Hb Hv Hs Hu Ho Hl)) as Hn.
  cbn [length] in *. unfold uint32 in Hn. rewrite Z.mod_small in Hn by lia.
  apply elem_of_cons in Hin as [->|Hin]; [lia|]. specialize (IH b ltac:(lia) Hin). lia.
Qed.
Lemma history_ids G undo bs id h L b :
  history G undo bs id h L -> b ∈ bs -> rank (block_id b) <= rank id /\ U b.
Proof.
  intros Hh. revert b. induction Hh as [h Hh|bs c b0 s u Hh IH Hb Hv Hs Hu Ho Hl]; intros b Hin;
    [by apply elem_of_nil in Hin|].
  apply elem_of_cons in Hin as [->|Hin]; [by split; [lia|]|]. destruct (IH b Hin) as [Hrk HUb].
  pose proof (ids_rank HU _ Hb) as Hr0. rewrite (verify_header_previous c b0 Hv) in Hr0. split; [lia|done].
Qed.
Lemma history_fresh G undo bs c b L :
  history G undo bs (head_block_id c) (head_block_header (db c)) L -> U b -> verify_header c b = Ok tt ->
  forall b', b' ∈ bs -> block_id b' <> block_id b.
Proof.
  intros Hh Hb Hv b' Hin E. destruct (history_ids _ _ _ _ _ _ b' Hh Hin) as [Hrk _].
  pose proof (ids_rank HU _ Hb) as Hr0. rewrite (verify_header_previous c b Hv) in Hr0.
  rewrite E in Hrk. lia.
Qed.

Lemma indexed_extend G undo bs c b L nums m m' records r :
  history G undo bs (head_block_id c) (head_block_header (db c)) L -> U b -> verify_header c b = Ok tt ->
  indexed bs nums m records -> (forall x, included m' x = (bool_decide (x = block_id b) || included m x)) ->
  indexed (b :: bs) (<[block_num b := block_id b]> nums) m' (<[block_id b := r]> records).
Proof.
  intros Hh Hb Hv (Hn & Hi & Hr) Hm. split; [|split].
  - intros Hlen num id. cbn [length] in Hlen. specialize (Hn ltac:(lia)). setoid_rewrite elem_of_cons.
    assert (Eb : block_num b = Z.of_nat (length bs) + 1).
    { rewrite (verify_header_num c b Hv), (history_num _ _ _ _ _ _ Hh). unfold uint32.
      rewrite Zplus_mod_idemp_l, Z.mod_small; lia. }
    rewrite lookup_insert_Some, Hn. split.
    + intros [[<- <-]|[Hne (b' & Hin & E1 & E2)]]; [by exists b; auto|]. exists b'. auto.
    + intros (b' & [->|Hin] & <- & <-); [by left|]. right. split; [|by eauto].
      pose proof (history_nums _ _ _ _ _ _ b' Hh ltac:(lia) Hin). lia.
  - intros id. rewrite Hm, orb_true_iff, bool_decide_eq_true, Hi. setoid_rewrite elem_of_cons. split.
    + intros [->|[->|(b' & Hin & E)]]; [by eauto 6|by left|by eauto 6].
    + intros [->|(b' & [->|Hin] & <-)]; [by auto|by left|by eauto 6].
  - intros b' [->|Hin]%elem_of_cons; apply lookup_insert_is_Some; [by left|].
    destruct (decide (block_id b = block_id b')); auto.
Qed.
Lemma indexed_pop G undo bs c b L nums m m' records :
  history G undo bs (head_block_id c) (head_block_header (db c)) L -> U b -> verify_header c b = Ok tt ->
  0 < block_num b ->
  indexed (b :: bs) nums m records ->
  (forall x, included m' x = (negb (bool_decide (x = block_id b)) && included m x)) ->
  indexed bs (delete (block_num b) nums) m' records.
Proof.
  intros Hh Hb Hv H0 (Hn & Hi & Hr) Hm. split; [|split; [|intros b' Hin; apply Hr; by right]].
  - intros Hlen num id. rewrite lookup_delete_Some.
    assert (Eb : block_num b = Z.of_nat (length bs) + 1).
    { rewrite (verify_header_num c b Hv), (history_num _ _ _ _ _ _ Hh) in *. unfold uint32 in *.
      rewrite Zplus_mod_idemp_l in *.
      destruct (Z.eq_dec (Z.of_nat (length bs) + 1) (2 ^ 32)) as [E|E]; [by rewrite E in H0|].
      rewrite Z.mod_small; lia. }
    pose proof (verify_header_num c b Hv) as Hw. cbn [length] in Hn.
    assert (Hlt : Z.of_nat (length bs) + 1 < 2 ^ 32).
    { rewrite Eb in Hw. unfold uint32 in Hw. pose proof (Z.mod_pos_bound
        (block_num (head_block_header (db c)) + 1) (2 ^ 32) ltac:(lia)). lia. }
    rewrite Hn by lia. setoid_rewrite elem_of_cons. split.
    + intros [Hne (b' & [->|Hin] & <- & <-)]; [done|by eauto].
    + intros (b' & Hin & <- & <-). pose proof (history_nums _ _ _ _ _ _ b' Hh ltac:(lia) Hin).
      split; [lia|by eauto].
  - intros id. rewrite Hm, andb_true_iff, negb_true_iff, bool_decide_eq_false, Hi.
    setoid_rewrite elem_of_cons. split.
    + intros [Hne [->|(b' & [->|Hin] & <-)]]; [by left|done|by eauto].
    + intros [->|(b' & Hin & <-)].
      * split; [|by left]. intros E. by apply (ids_nonzero HU b Hb).
      * split; [by eapply history_fresh|by eauto].
Qed.

Lemma history_insert G undo bs id h L id' u :
  history G undo bs id h L -> rank id < rank id' -> history G (<[id' := u]> undo) bs id h L.
Proof.
  intros Hh. induction Hh as [|bs c b s u' Hh IH Hb Hv Hs Hu Ho Hl]; intros Hr; [by constructor|].
  pose proof (ids_rank HU b Hb) as Hrb. rewrite (verify_header_previous c b Hv) in Hrb.
  econstructor; try done.
  - apply IH. lia.
  - rewrite lookup_insert_ne; [done|]. intros ->. lia.
Qed.

(** A block applied and its undo state. *)
Lemma history_extend G c b s u bs :
  ledger_ok G ->
  history G (undo_state_db c) bs (head_block_id c) (head_block_header (db c)) (ledger_of (db c)) ->
  U b -> verify_header c b = Ok tt -> block_changes c b = Ok s ->
  get_undo_state s (create None) = Ok u ->
  history G (<[block_id b := u]> (undo_state_db c)) (b :: bs) (block_id b) b
    (ledger_of (apply_changes s (db c))).
Proof.
  intros HG Hh Hb Hv Hs Hu. pose proof (history_ledger_ok _ _ _ _ _ _ HG Hh) as [Hk Hl].
  destruct (block_changes_over c b s Hs) as [Hp Ho]. rewrite (block_ledger c b s Hs Hl).
  pose proof (ids_rank HU b Hb) as Hr. rewrite (verify_header_previous c b Hv) in Hr.
  destruct (undo_over s (db c) u Hp Ho Hk Hl Hu) as [Hou Hr2].
  apply (history_block G _ bs c b s u); try done.
  - by apply history_insert.
  - by rewrite lookup_insert_eq.
Qed.

(** ** The queue does not touch the chain *)
Definition quiet {A} (m : run chain A) : Prop := forall c r c', m c = (r, c') -> same_core c c'.
Definition calm {A} (m : run chain A) : Prop :=
  quiet m /\ forall c e c', m c = (Throw e, c') -> is_fc_exception e = false.

Lemma same_core_refl c : same_core c c.
Proof. by repeat split. Qed.
Lemma same_core_trans c1 c2 c3 : same_core c1 c2 -> same_core c2 c3 -> same_core c1 c3.
Proof. intros (?&?&?&?&?&?) (?&?&?&?&?&?). repeat split; congruence. Qed.

Lemma quiet_bind {A B} (m : run chain A) (f : A -> run chain B) :
  quiet m -> (forall a, quiet (f a)) -> quiet (run_bind m f).
Proof.
  intros Hm Hf c r c'. unfold run_bind. destruct (m c) as [[a|e] c1] eqn:E; intros H.
  - eapply same_core_trans; [by eapply Hm|by eapply Hf].
  - injection H as <- <-. by eapply Hm.
Qed.
Lemma quiet_ret {A} (a : A) : quiet (ret a).
Proof. intros c r c' H. injection H as <- <-. apply same_core_refl. Qed.
Lemma quiet_reads {A} (f : chain -> result A) : quiet (reads f).
Proof. intros c r c' H. injection H as <- <-. apply same_core_refl. Qed.
Lemma quiet_modify f : (forall c, same_core c (f c)) -> quiet (modify f).
Proof. intros Hf c r c' H. injection H as <- <-. apply Hf. Qed.

Lemma calm_bind {A B} (m : run chain A) (f : A -> run chain B) :
  calm m -> (forall a, calm (f a)) -> calm (run_bind m f).
Proof.
  intros [Qm Em] Hf. split; [apply quiet_bind; [done|intros a; apply Hf]|].
  intros c e c'. unfold run_bind. destruct (m c) as [[a|e1] c1] eqn:E; intros H.
  - by eapply Hf.
  - injection H as <- <-. by eapply Em.
Qed.
Lemma calm_ret {A} (a : A) : calm (ret a).
Proof. split; [apply quiet_ret|]. intros c e c' [=]. Qed.
Lemma calm_modify f : (forall c, same_core c (f c)) -> calm (modify f).
Proof. intros Hf. split; [by apply quiet_modify|]. intros c e c' [=]. Qed.
Lemma calm_reads_ok {A} (f : chain -> A) : calm (reads (fun c => Ok (f c))).
Proof. split; [apply quiet_reads|]. intros c e c' [=]. Qed.
Lemma calm_fold {A B} (f : A -> B -> run chain A) a l :
  (forall a x, calm (f a x)) -> calm (run_fold f a l).
Proof.
  intros Hf. revert a. induction l as [|x l IH]; intros a; [apply calm_ret|].
  apply calm_bind; [apply Hf|apply IH].
Qed.
Lemma calm_try {A} (m : run chain A) h : quiet m -> (forall e, calm (h e)) -> calm (try_catch m h).
Proof.
  intros Hm Hh. split.
  - intros c r c'. unfold try_catch. destruct (m c) as [[a|e] c1] eqn:E; intros H.
    + injection H as <- <-. by eapply Hm.
    + destruct (is_fc_exception e).
      * eapply same_core_trans; [by eapply Hm|by eapply Hh].
      * injection H as <- <-. by eapply Hm.
  - intros c e c'. unfold try_catch. destruct (m c) as [[a|e1] c1] eqn:E; intros H; [by inversion H|].
    destruct (is_fc_exception e1) eqn:E1; [by eapply Hh|]. by injection H as <- <-.
Qed.

Lemma quiet_enqueue id t : quiet (enqueue id t).
Proof.
  unfold enqueue, evaluate_transaction.
  repeat first [apply quiet_bind; [|intros ?]|apply quiet_reads|apply quiet_ret
               |apply quiet_modify; intros ?; by repeat split].
Qed.

Lemma quiet_store_pending t : quiet (store_pending_transaction t).
Proof.
  unfold store_pending_transaction. apply quiet_bind; [apply quiet_reads|]. intros [|].
  - apply quiet_ret.
  - apply quiet_bind; [apply quiet_enqueue|intros ?; apply quiet_ret].
Qed.

Lemma calm_clear_pending b : calm (clear_pending b).
Proof.
  unfold clear_pending, requeue.
  repeat first [apply calm_bind; [|intros ?]|apply calm_reads_ok|apply calm_fold; intros ? ?
               |apply calm_modify; intros ?; by repeat split].
  apply calm_try; [|intros ?; apply calm_ret].
  apply quiet_bind; [apply quiet_enqueue|intros ?; apply quiet_ret].
Qed.

(** ** Extending the chain *)

Lemma included_mark id i r m m' :
  (forall x, m' !! x = if decide (x = id)
     then Some (let r := with_included i r in if i then with_valid true r else r) else m !! x) ->
  forall x, included m' x = if decide (x = id) then i else included m x.
Proof. intros Hm x. unfold included. rewrite Hm. destruct (decide (x = id)); [by destruct i|done]. Qed.
Lemma indexed_same bs nums m m' records records' :
  (forall x, included m' x = included m x) -> (forall x, is_Some (records !! x) -> is_Some (records' !! x)) ->
  indexed bs nums m records -> indexed bs nums m' records'.
Proof.
  intros Hm Hs (Hn & Hi & Hr). split; [done|]. split; [|by auto]. intros id. by rewrite Hm.
Qed.

Lemma on_fork_db_run {A} (m : run fork_map A) c r m' :
  m (fork_db c) = (r, m') -> on_fork_db m c = (r, with_fork_db m' c).
Proof. intros H. unfold on_fork_db, on_part. by rewrite H. Qed.

(** The seed was just set. *)
Lemma block_seed c b s :
  block_changes c b = Ok s -> live_ledger (ledger_of (db c)) = ledger_of (db c) ->
  exists h, get_current_random_seed (apply_changes s (db c)) = Ok h.
Proof.
  intros Hs Hl. destruct (block_changes_over c b s Hs) as [Hp Ho].
  unfold block_changes in Hs. inv_ok.
  match goal with H : update_random_seed _ _ = Ok _ |- _ =>
    unfold update_random_seed in H; inv_ok end.
  match type of Ho with own_keys (set_property _ _ (variant_hash ?h)) => exists h;
    pose proof (proj2 (commits_property (CS := database_stores) eq_refl _ _ last_random_seed_id_prop
      (variant_hash h) Hp Ho Hl ltac:(discriminate))) as Hprop end.
  cbn [get_current_random_seed database_interface]. unfold db_get_current_random_seed.
  change db_get_property with (get_property (S := chain_database)).
  rewrite Hprop; [done|]. cbn. unfold pending_get_property. cbn. by rewrite lookup_insert_eq.
Qed.

Lemma apply_block_ok G c b r c' :
  ledger_ok G -> chain_ok G c -> U b -> is_Some (fork_db c !! block_id b) ->
  apply_block b c = (r, c') -> returned r ->
  chain_ok G c' /\ is_Some (fork_db c' !! block_id b).
Proof.
  intros HG Hc Hb Hf. pose proof Hc as [Ht Hr (bs & Hh & Hx)]. unfold apply_block.
  rewrite run_reads. destruct (verify_header c b) as [[]|e] eqn:Ev;
    [|intros H _; by injection H as <- <-].
  rewrite run_reads. destruct (block_changes c b) as [s|e] eqn:Es;
    [|intros H _; by injection H as <- <-].
  unfold save_undo_state. rewrite run_assoc, run_reads.
  destruct (get_undo_state s (create None)) as [u|e] eqn:Eu; [|intros H _; by injection H as <- <-].
  rewrite !run_modify. cbn [db with_undo_state_db].
  pose proof (history_extend G c b s u bs HG Hh Hb Ev Es Eu) as Hh'.
  pose proof (history_ledger_ok _ _ _ _ _ _ HG Hh) as [_ Hl].
  destruct Hf as [f Hf]. destruct (mark_included_tree parent rank _ true _ f Ht Hf)
    as (m' & Hm & Ht' & Hm').
  match goal with |- run_bind _ _ ?c1 = _ -> _ =>
    rewrite (run_step _ _ c1 _ _ (on_fork_db_run _ c1 (Ok tt) m' Hm)) end.
  unfold update_head_block. rewrite !run_assoc, !run_modify, run_assoc, run_modify.
  destruct (block_seed c b s Es Hl) as [seed Hseed].
  rewrite run_assoc, run_reads. unfold block_record_of.
  match goal with |- context [get_current_random_seed ?d] =>
    change (get_current_random_seed d) with (get_current_random_seed (apply_changes s (db c))) end.
  rewrite Hseed. cbn [bind]. rewrite run_modify.
  match goal with |- run_bind _ _ ?c1 = _ -> _ => set (c1' := c1) end.
  set (c2' := with_block_num_to_id_db (<[block_num b := block_id b]> (block_num_to_id_db c1')) c1').
  assert (Hc2 : chain_ok G c2' /\ is_Some (fork_db c2' !! block_id b)).
  { split; [|unfold c2', c1'; cbn; rewrite Hm', decide_True by done; by eexists]. split.
    - exact Ht'.
    - intros id q. unfold c2', c1'. cbn. destruct (decide (block_id b = id)) as [<-|Hne].
      + rewrite lookup_insert_eq. intros [= <-]. split; [done|]. split; [done|].
        rewrite Hm', decide_True by done. by eexists.
      + rewrite lookup_insert_ne by done. intros Hq. destruct (Hr id q Hq) as (Hi & HUq & [g Hg]).
        split; [done|]. split; [done|]. rewrite Hm', decide_False by done. by eexists.
    - exists (b :: bs). split; [exact Hh'|]. eapply indexed_extend; [done..|].
      intros x. rewrite (included_mark _ true f _ _ Hm'). by repeat case_match; case_bool_decide. }
  destruct (calm_clear_pending b) as [Hq Hcalm].
  unfold run_bind. destruct (clear_pending b c1') as [[[]|e] c2] eqn:Ec; intros H Hret.
  - unfold modify in H. injection H as <- <-.
    assert (Hsame : same_core c2' (with_block_num_to_id_db
      (<[block_num b := block_id b]> (block_num_to_id_db c2)) c2)).
    { destruct (Hq _ _ _ Ec) as (? & ? & ? & ? & ? & En). repeat split; try done. unfold c2'. cbn. by rewrite En. }
    split; [eapply same_core_ok; [exact Hsame|apply Hc2]|]. destruct Hsame as (_ & -> & _). apply Hc2.
  - injection H as <- <-. apply Hcalm in Ec. unfold returned in Hret. congruence.
Qed.

Lemma extend_chain_ok G c b r c' :
  ledger_ok G -> chain_ok G c -> U b -> is_Some (fork_db c !! block_id b) ->
  extend_chain b c = (r, c') -> returned r -> chain_ok G c'.
Proof.
  intros HG Hc Hb Hf. unfold extend_chain, try_catch.
  destruct (apply_block b c) as [[[]|e] c1] eqn:Ea.
  - intros H _. injection H as <- <-. by eapply apply_block_ok.
  - destruct (is_fc_exception e) eqn:Ee.
    + intros H Hret. destruct (apply_block_ok G c b (Throw e) c1) as [Hc1 [f Hf1]]; [done..|].
      destruct Hc1 as [Ht Hr (bs & Hh & Hx)].
      destruct (mark_invalid_ok parent rank (block_id b) _ f Ht Hf1) as (m' & Hm & Ht' & Hs & _ & _ & Hinc).
      rewrite (run_step _ _ _ _ _ (on_fork_db_run _ _ (Ok tt) m' Hm)) in H. injection H as <- <-.
      split; [exact Ht'| |exists bs; split; [exact Hh|by eapply indexed_same; [| |exact Hx]]].
      intros id q Hq. destruct (Hr id q Hq) as (Hi & HUq & Hfq). repeat split; [done|done|].
      by apply (same_some _ _ id Hs).
    + intros H Hret. injection H as <- <-. unfold returned in Hret. congruence.
Qed.

(** C27: A block that is refused changes nothing but the tree. When the header does not
    verify or a transaction or another part of the block throws, [extend_chain] throws the
    same exception, and the chain is as before except that the block and exactly the blocks
    after it are marked invalid: the loop that marks them ends. *)
Theorem extend_chain_refused c b e f :
  tree_ok (fork_db c) -> fork_db c !! block_id b = Some f -> is_fc_exception e = true ->
  verify_header c b = Throw e \/ (verify_header c b = Ok tt /\ block_changes c b = Throw e) ->
  exists m', extend_chain b c = (Throw e, with_fork_db m' c) /\ tree_ok m' /\
    (forall x q, rtc (child (fork_db c)) (block_id b) x -> fork_db c !! x = Some q ->
       m' !! x = Some (with_valid false q)) /\
    (forall x, ~ rtc (child (fork_db c)) (block_id b) x -> m' !! x = fork_db c !! x).
Proof.
  intros Ht Hf He Hthrow.
  assert (Ha : apply_block b c = (Throw e, c)).
  { unfold apply_block. rewrite run_reads. destruct Hthrow as [->|[-> Hs]]; [done|].
    rewrite run_reads. by rewrite Hs. }
  destruct (mark_invalid_ok parent rank (block_id b) _ f Ht Hf) as (m' & Hm & Ht' & _ & Hin & Hout & _).
  exists m'. split; [|done]. unfold extend_chain, try_catch. rewrite Ha, He.
  by rewrite (run_step _ _ _ _ _ (on_fork_db_run _ _ (Ok tt) m' Hm)).
Qed.

(** ** Undoing the last block *)
Lemma mark_included_records id included c r (m' : fork_map) :
  (forall x (q : block_record), block_id_to_block_record_db c !! x = Some q ->
     block_id q = x /\ U q /\ is_Some (fork_db c !! x)) ->
  fork_db c !! id = Some r ->
  (forall x, m' !! x = if decide (x = id)
     then Some (let r := with_included included r in if included then with_valid true r else r)
     else fork_db c !! x) ->
  forall x (q : block_record), block_id_to_block_record_db c !! x = Some q ->
    block_id q = x /\ U q /\ is_Some (m' !! x).
Proof.
  intros Hr Hf Hm x q Hq. destruct (Hr x q Hq) as (Hi & HUq & Hx). repeat split; [done|done|].
  rewrite Hm. destruct (decide (x = id)); [by eexists|done].
Qed.

(** The header of the last block is known by its id. *)
Lemma history_header G undo bs id h L (q : signed_block_header) :
  history G undo bs id h L -> U q -> block_id q = id -> q = h.
Proof.
  intros Hh Hq E. destruct Hh as [h Hh0|bs c b s u Hh Hb].
  - by apply (ids_nonzero HU q Hq) in E.
  - by apply (ids_injective HU).
Qed.

Lemma pop_block_ok G c r c' :
  ledger_ok G -> chain_ok G c -> pop_block c = (r, c') -> returned r -> chain_ok G c'.
Proof.
  intros HG Hc. pose proof Hc as [Ht Hr (bs & Hh & Hx)]. unfold pop_block.
  rewrite !run_reads. destruct (FC_ASSERT _) as [[]|e] eqn:Ea;
    [|intros H _; by injection H as <- <-].
  apply FC_ASSERT_ok, Z.ltb_lt in Ea.
  remember (head_block_id c) as id eqn:Eid. remember (head_block_header (db c)) as h eqn:Eh.
  remember (ledger_of (db c)) as L eqn:EL. destruct Hh as [h Hh0|bs c0 b s u Hh Hb Hv Hs Hu Hou Hrest];
    [lia|].
  destruct (fork_db c !! block_id b) as [f|] eqn:Ef.
  2: { unfold run_bind, on_fork_db, on_part, mark_included, run_bind, reads, fetch.
       rewrite Ef. cbn. intros H _. injection H as <- <-. by destruct c. }
  destruct (mark_included_tree parent rank _ false _ f Ht Ef) as (m' & Hm & Ht' & Hm').
  rewrite (run_step _ _ c _ _ (on_fork_db_run _ c (Ok tt) m' Hm)).
  rewrite run_modify, run_reads. cbn [undo_state_db with_block_num_to_id_db with_fork_db].
  unfold fetch. rewrite Hu. cbn [value_or_throw]. rewrite !run_modify, run_reads.
  unfold get_block_header, deref. cbn [block_id_to_block_record_db with_head_block_id with_db
    with_block_num_to_id_db with_fork_db].
  destruct (block_id_to_block_record_db c !! previous b) as [q|] eqn:Eq; cbn [value_or_throw bind].
  2: { intros H Hret. by injection H as <- <-. }
  intros H _. unfold modify in H. injection H as <- <-.
  pose proof (verify_header_previous c0 b Hv) as Hprev.
  destruct (Hr _ _ Eq) as (Hq & HUq & _).
  split.
  - exact Ht'.
  - exact (mark_included_records _ _ _ f m' Hr Ef Hm').
  - exists bs. split; [|eapply indexed_pop; [done..|]; intros x; rewrite (included_mark _ false f _ _ Hm'); by repeat case_match; case_bool_decide]. cbn [head_block_id with_head_block_header with_db with_head_block_id undo_state_db
      with_block_num_to_id_db with_fork_db db head_block_header db_with_head].
    change (ledger_of (db_with_head ?h ?d)) with (ledger_of d).
    rewrite (apply_over (CS := database_stores) eq_refl u (db c) Hou).
    2: { rewrite <- EL. apply live_live_ledger. }
    rewrite <- EL, Hrest, Hprev. rewrite Hprev in Hq.
    replace (digest_header q : signed_block_header) with (head_block_header (db c0)); [done|].
    symmetry. by eapply history_header.
Qed.

Lemma pop_until_ok G n id c r c' :
  ledger_ok G -> chain_ok G c -> pop_until n id c = (r, c') -> returned r -> chain_ok G c'.
Proof.
  intros HG. revert c. induction n as [|n IH]; intros c Hc; cbn [pop_until]; rewrite run_reads;
    destruct (id =? head_block_id c); intros H Hret; try by injection H as <- <-.
  unfold run_bind in H. destruct (pop_block c) as [[[]|e] c1] eqn:Ep.
  - eapply IH; [|exact H|done]. by eapply pop_block_ok.
  - injection H as <- <-. by eapply pop_block_ok.
Qed.

(** ** Switching forks *)
Lemma get_block_ok G c id b :
  chain_ok G c -> get_block c id = Ok b ->
  block_id b = id /\ U b /\ is_Some (fork_db c !! block_id b).
Proof.
  intros [_ Hr _] Hb. unfold get_block, fetch in Hb. inv_ok.
  match goal with H : block_id_to_block_record_db c !! _ = Some _ |- _ =>
    destruct (Hr _ _ H) as (Hi & HUq & Hf) end.
  cbn [full_header]. by rewrite Hi.
Qed.

Lemma extend_each_ok G ids c r c' :
  ledger_ok G -> chain_ok G c ->
  run_each (fun id => let! b := reads (fun c => get_block c id) in extend_chain b) ids c = (r, c') ->
  returned r -> chain_ok G c'.
Proof.
  intros HG. revert c. induction ids as [|id ids IH]; intros c Hc; cbn [run_each].
  { intros H _. by injection H as <- <-. }
  rewrite run_assoc, run_reads. destruct (get_block c id) as [b|e] eqn:Eb.
  2: { intros H _. by injection H as <- <-. }
  destruct (get_block_ok G c id b Hc Eb) as (_ & Hb & Hf).
  unfold run_bind. destruct (extend_chain b c) as [[[]|e] c1] eqn:Ee; intros H Hret.
  - eapply IH; [|exact H|done]. by eapply extend_chain_ok.
  - injection H as <- <-. by eapply extend_chain_ok.
Qed.

Lemma switch_to_fork_ok G id c r c' :
  ledger_ok G -> chain_ok G c -> switch_to_fork id c = (r, c') -> returned r -> chain_ok G c'.
Proof.
  intros HG Hc. unfold switch_to_fork. rewrite run_reads.
  destruct (get_fork_history c id) as [l|e]; [|intros H _; by injection H as <- <-].
  rewrite run_reads. unfold run_bind. destruct (pop_until _ _ c) as [[[]|e] c1] eqn:Ep; intros H Hret.
  - eapply extend_each_ok; [done| |exact H|done]. by eapply pop_until_ok.
  - injection H as <- <-. by eapply pop_until_ok.
Qed.

(** ** Pushing a block *)
Lemma store_and_index_ok G c b r c' :
  chain_ok G c -> U b -> store_and_index (block_id b) b c = (r, c') ->
  chain_ok G c' /\ (forall f, r = Ok f -> is_Some (fork_db c' !! block_id b)).
Proof.
  intros Hc Hb. pose proof Hc as [Ht Hr (bs & Hh & Hx)]. unfold store_and_index. rewrite run_reads. unfold block_record_of.
  destruct (get_current_random_seed (db c)) as [seed|e]; cbn [bind];
    [|intros H; by injection H as <- <-].
  rewrite !run_modify. set (c1 := if bool_decide _ then _ else _).
  assert (E : same_core (with_block_record_db (<[block_id b := BlockRecord (digest_block_of b)
    (block_size b) seed]> (block_id_to_block_record_db c)) c) c1)
    by (unfold c1; case_match; by repeat split).
  destruct E as (E1 & E2 & E3 & E4 & E5 & E6).
  destruct (index_fork_ok parent rank (block_id b) (previous b)
    (ids_parent HU b Hb) (ids_rank HU b Hb) (ids_nonzero HU b Hb) (fork_db c1)) as
    (f & m' & Hrun & Ht' & Hf & _ & Hdom & Hinc).
  { rewrite E2. exact Ht. }
  rewrite (on_fork_db_run _ _ _ _ Hrun). intros H. injection H as <- <-. split.
  - split; cbn [fork_db block_id_to_block_record_db undo_state_db db head_block_id block_num_to_id_db with_fork_db];
      rewrite ?E1, ?E3, ?E4, ?E5, ?E6; [exact Ht'| |exists bs; split; [exact Hh|]].
    2: { eapply indexed_same; [exact Hinc| |by rewrite E2]. intros x Hx'. cbn.
         apply lookup_insert_is_Some. destruct (decide (block_id b = x)); auto. }
    intros id q. cbn. destruct (decide (block_id b = id)) as [<-|Hne].
    + rewrite lookup_insert_eq. intros [= <-]. split; [done|]. split; [done|by eexists].
    + rewrite lookup_insert_ne by done. intros Hq. destruct (Hr id q Hq) as (Hi & HUq & Hfq).
      split; [done|]. split; [done|]. apply Hdom. rewrite E2. exact Hfq.
  - intros _ _. cbn. by eexists.
Qed.

(** The block may extend the chain, be refused, make the chain undo blocks and follow a fork,
    or fail to, half way, and be reverted. *)
Lemma push_block_ok G c b r c' :
  ledger_ok G -> chain_ok G c -> U b -> push_block b c = (r, c') -> returned r -> chain_ok G c'.
Proof.
  intros HG Hc Hb. unfold push_block. rewrite run_reads.
  unfold run_bind at 1. destruct (store_and_index (block_id b) b c) as [[f|e] c1] eqn:Es.
  2: { intros H _. injection H as <- <-. eapply proj1, store_and_index_ok; [exact Hc|exact Hb|exact Es]. }
  destruct (store_and_index_ok G c b _ c1 Hc Hb Es) as [Hc1 Hf1]. specialize (Hf1 f eq_refl).
  rewrite run_reads. destruct (previous b =? head_block_id c).
  { unfold run_bind. destruct (extend_chain b c1) as [[[]|e] c2] eqn:Ee; intros H Hret.
    - injection H as <- <-. by eapply extend_chain_ok.
    - injection H as <- <-. by eapply extend_chain_ok. }
  destruct (can_link f && _); [|intros H _; by injection H as <- <-].
  unfold try_catch, run_bind at 1.
  destruct (switch_to_fork (block_id b) c1) as [[[]|e] c2] eqn:Ew.
  - assert (Hc2 : chain_ok G c2) by (by eapply switch_to_fork_ok).
    unfold reads. destruct (value_or_throw _ _) as [f2|e]; [intros H _; by injection H as <- <-|].
    destruct (is_fc_exception e) eqn:Ee; [|intros H _; by injection H as <- <-].
    unfold run_bind. destruct (switch_to_fork (head_block_id c) c2) as [[[]|e2] c3] eqn:Ew2;
      intros H Hret; injection H as <- <-; by eapply switch_to_fork_ok.
  - destruct (is_fc_exception e) eqn:Ee.
    + assert (Hc2 : chain_ok G c2) by (by eapply switch_to_fork_ok).
      unfold run_bind. destruct (switch_to_fork (head_block_id c) c2) as [[[]|e2] c3] eqn:Ew2;
        intros H Hret; injection H as <- <-; by eapply switch_to_fork_ok.
    + intros H Hret. injection H as <- <-. unfold returned in Hret. congruence.
Qed.
End History.
