(* ===== verification/Supply.v ===== *)
(** The supply over the life of a chain: whatever is pushed, what accounts hold less the
    supply stays as it was at the genesis. *)
From stdpp Require Import relations.
From S2P Require Import Prelude Conservation Closure Undo BlockEffects ForkTree History Chain.
From S2P Require Import Totals.

(** ** Removing null records *)
Section Live.
Context {K : Type} `{Countable K} {A : Type} (null : A -> bool).

Lemma live_insert (m : gmap K A) k r :
  m !! k = None -> live null (<[k := r]> m) = if null r then live null m else <[k := r]> (live null m).
Proof.
  intros Hk. apply map_eq. intros i. unfold live. rewrite lookup_omap.
  destruct (decide (k = i)) as [<-|Hne].
  - rewrite lookup_insert_eq. cbn. destruct (null r).
    + by rewrite lookup_omap, Hk.
    + by rewrite lookup_insert_eq.
  - rewrite lookup_insert_ne by done. destruct (null r).
    + by rewrite lookup_omap.
    + by rewrite lookup_insert_ne, lookup_omap.
Qed.

(** Null records that add nothing to a sum. *)
Lemma total_live (f : K -> A -> Z) (m : gmap K A) :
  (forall k r, m !! k = Some r -> null r = true -> f k r = 0) -> total f (live null m) = total f m.
Proof.
  induction m as [|k r m Hk IH] using map_ind; intros Hf.
  - unfold live. by rewrite omap_empty.
  - rewrite (live_insert m k r Hk), total_insert_fresh by done.
    assert (Hm : total f (live null m) = total f m).
    { apply IH. intros i q Hi. apply Hf. rewrite lookup_insert_ne; [done|congruence]. }
    destruct (null r) eqn:E.
    + rewrite Hm, (Hf k r (lookup_insert_eq _ _ _) E). lia.
    + rewrite total_insert_fresh; [lia|]. unfold live. by rewrite lookup_omap, Hk.
Qed.
End Live.

(** ** The chain conserves shares *)
Section Supply.
Context `{FC : Fc} `{FT : FcTransaction} `{FBl : FcBlock} `{FO : FcOperations} `{FB : FcBigint}.
Context (bid_asset ask_asset : Z * Z -> Z).
Notation excess := (excess bid_asset ask_asset).
Implicit Types (c : chain) (b : full_block) (s : block_state) (l G L : ledger).

(** Accounts have an owner and assets an issuer: a record without one is null. *)
Definition owned (k : Z) : Prop := k <> 0.
Definition issued (i : Z) : Prop := i <> -1.
Definition no_nulls l : Prop :=
  (forall id r, l_accounts l !! id = Some r -> owned (owner_key r)) /\
  (forall id r, l_assets l !! id = Some r -> issued (issuer_account_id r)).

Lemma no_nulls_closed : store_closed owned issued anyone anyone any_balance (fun s : block_state => no_nulls (ledger_of s)).
Proof.
  split; try done; cbv beta.
  - intros s id r [_ Ha] Hr. rewrite view_asset in Hr. by eapply Ha.
  - intros s id r [Hc _] Hr. rewrite view_account in Hr. by eapply Hc.
  - intros s r Hi [Hc Ha]. rewrite (ledger_store_asset (ChainStores := pending_stores)).
    split; [done|]. intros id q. cbn. destruct (decide (asset_record_id r = id)) as [<-|].
    + rewrite lookup_insert_eq. by intros [= <-].
    + rewrite lookup_insert_ne by done. apply Ha.
  - intros s r Hi [Hc Ha]. rewrite (ledger_store_account (ChainStores := pending_stores)).
    split; [|done]. intros id q. cbn. destruct (decide (account_id r = id)) as [<-|].
    + rewrite lookup_insert_eq. by intros [= <-].
    + rewrite lookup_insert_ne by done. apply Hc.
Qed.

Lemma live_no_nulls l : live_ledger l = l -> no_nulls l.
Proof.
  intros <-. split; intros id r Hr; cbn in Hr; apply live_lookup in Hr as [_ Hr].
  - unfold owned. unfold account_is_null in Hr. lia.
  - unfold issued. unfold asset_is_null in Hr. lia.
Qed.

Lemma no_nulls_live l :
  no_nulls l -> l_accounts (live_ledger l) = l_accounts l /\ l_assets (live_ledger l) = l_assets l.
Proof.
  intros [Hc Ha]. split; apply map_eq; intros i; cbn; unfold live; rewrite lookup_omap.
  - destruct (l_accounts l !! i) as [r|] eqn:E; [|done]. cbn. specialize (Hc i r E).
    unfold owned in Hc. unfold account_is_null. by destruct (Z.eqb_spec (owner_key r) 0).
  - destruct (l_assets l !! i) as [r|] eqn:E; [|done]. cbn. specialize (Ha i r E).
    unfold issued in Ha. unfold asset_is_null. by destruct (Z.eqb_spec (issuer_account_id r) (-1)).
Qed.

Lemma excess_live l a : no_nulls l -> excess (live_ledger l) a = excess l a.
Proof.
  intros Hn. destruct (no_nulls_live l Hn) as [Ec Ea].
  unfold excess, circulating, supply. rewrite Ec, Ea. unfold live_ledger.
  cbn [l_balances l_bids l_asks].
  rewrite !total_live; try done; intros k r _ Hr;
    unfold order_in, balance_in, order_is_null, balance_is_null in *; case_match; lia.
Qed.

Lemma wf_live k l : no_nulls l -> wf k l -> wf k (live_ledger l).
Proof.
  intros Hn [Hk (n & Hp & ? & ? & Hb) (n' & Hp' & ? & ? & Hb')].
  destruct (no_nulls_live l Hn) as [Ec Ea].
  assert (Hv : forall p v, l_props l !! p = Some (variant_int v) ->
    l_props (live_ledger l) !! p = Some (variant_int v)).
  { intros p v Hv. cbn. by apply live_lookup. }
  split; [by apply keyed_live| |].
  - exists n. rewrite Ea. repeat split; auto.
  - exists n'. rewrite Ec. repeat split; auto.
Qed.

(** The conditions on the blocks of a chain: market orders at one index are in one asset,
    and no account without an owner key and no asset without an issuer is made, which would
    vanish when the block is applied. *)
Definition fair_block b : Prop :=
  orders_of_block bid_asset ask_asset b /\ owners_of owned issued anyone anyone b.

Definition chain_operations (bs : list full_block) : Z :=
  foldr (fun b n => block_operations b + n) 0 bs.

Lemma block_operations_nonneg b : 0 <= block_operations b.
Proof. unfold block_operations. induction (user_transactions b); simpl; lia. Qed.

Lemma chain_operations_nonneg bs : 0 <= chain_operations bs.
Proof.
  unfold chain_operations. induction bs as [|b bs IH]; simpl; [lia|].
  pose proof (block_operations_nonneg b). lia.
Qed.

Context (U : signed_block_header -> Prop).

(** The ledger that a list of blocks builds from the genesis. *)
Lemma history_conserves G undo bs id h L k :
  ledger_ok G -> history U G undo bs id h L ->
  0 <= k -> wf (k + chain_operations bs) G -> Forall fair_block bs ->
  wf k L /\ forall a, excess L a == excess G a.
Proof.
  intros HG Hh. revert k. induction Hh as [|bs c b s u Hh IH Hb Hv Hs Hu Ho Hl]; intros k Hk Hwf Hall.
  { split; [by rewrite Z.add_0_r in Hwf|done]. }
  apply Forall_cons_iff in Hall as [[Hord Hown] Hall].
  pose proof (block_operations_nonneg b). cbn [chain_operations foldr] in Hwf.
  fold (chain_operations bs) in Hwf.
  destruct (IH (k + block_operations b)) as [Hwf1 Hx1]; [lia| |done|].
  { eapply wf_mono; [|exact Hwf]. lia. }
  destruct (block_conserves bid_asset ask_asset k c b s Hk Hord Hwf1 Hs) as [Hwf2 Hx2].
  pose proof (history_ledger_ok _ _ _ _ _ _ _ HG Hh) as [_ Hlive].
  assert (Hn : no_nulls (ledger_of s)).
  { apply (block_changes_closed owned issued anyone anyone any_balance (fun s => no_nulls (ledger_of s)) no_nulls_closed c b s); [done|exact Hown|exact Hs|].
    rewrite create_ledger. by apply live_no_nulls. }
  split; [by apply wf_live|]. intros a. rewrite excess_live by done. by rewrite Hx2.
Qed.

(** ** Reachable chains *)
Context (parent rank : Z -> Z) (HU : ids_ok U parent rank).

(** What happens to a chain: a block is pushed, a transaction is queued, the clock goes on.
    A call may throw, but not crash. *)
Inductive chain_step : chain -> chain -> Prop :=
  | step_push b c r c' : U b -> push_block b c = (r, c') -> returned r -> chain_step c c'
  | step_queue t c r c' :
      store_pending_transaction t c = (r, c') -> returned r -> chain_step c c'
  | step_clock c t : chain_step c (with_db (db_with_clock t (db c)) c).
Definition reachable : chain -> chain -> Prop := rtc chain_step.

Lemma step_ok G c c' : ledger_ok G -> chain_step c c' -> chain_ok U parent rank G c ->
  chain_ok U parent rank G c'.
Proof.
  intros HG Hs Hc. destruct Hs as [b c r c' Hb Hp Hr|t c r c' Hq _|c t].
  - by eapply (push_block_ok U parent rank HU).
  - eapply same_core_ok; [|exact Hc]. revert Hq. apply quiet_store_pending.
  - destruct Hc as [Ht Hrec Hh]. by split.
Qed.

Lemma reachable_ok G c c' :
  ledger_ok G -> reachable c c' -> chain_ok U parent rank G c -> chain_ok U parent rank G c'.
Proof. intros HG Hr. induction Hr as [|c1 c2 c3 Hs _ IH]; intros Hc; [done|]. apply IH. by eapply step_ok. Qed.

Lemma history_fair G undo bs id h L :
  (forall b, U b -> validate_digest (digest_block_of b) = true -> fair_block b) ->
  history U G undo bs id h L -> Forall fair_block bs.
Proof.
  intros Hf Hh. induction Hh as [|bs c b s u Hh IH Hb Hv Hs Hu Ho Hl]; constructor; [|done].
  apply Hf; [done|]. unfold verify_header in Hv. inv_ok. done.
Qed.

(** The ledger of a reachable chain is built by a list of blocks, which conserve shares. *)
Lemma reachable_conserves G c c' :
  ledger_ok G -> chain_ok U parent rank G c -> reachable c c' ->
  (forall b, U b -> validate_digest (digest_block_of b) = true -> fair_block b) ->
  exists bs,
    history U G (undo_state_db c') bs (head_block_id c') (head_block_header (db c'))
      (ledger_of (db c')) /\
    forall k, 0 <= k -> wf (k + chain_operations bs) G ->
      wf k (ledger_of (db c')) /\ forall a, excess (ledger_of (db c')) a == excess G a.
Proof.
  intros HG Hc Hr Hf. destruct (reachable_ok G c c' HG Hr Hc) as [_ _ (bs & Hh & _)].
  exists bs. split; [done|]. intros k Hk Hwf. eapply history_conserves; try done.
  by eapply history_fair.
Qed.
End Supply.
