(* ===== verification/Delegates.v ===== *)
(** The scheduling of delegates: whom the order by votes puts first, that the shuffle of the
    next round only reorders, and what the slots between two blocks leave in the records of
    the delegates. *)
From stdpp Require Import sorting.
From S2P Require Import Prelude Conservation BlockEffects Chain.

(** ** The order by votes *)
Lemma vote_del_lt_irrefl a : vote_del_lt a a = false.
Proof. unfold vote_del_lt. by rewrite !Z.ltb_irrefl. Qed.

Lemma vote_del_lt_trans a b c : vote_del_lt a b = true -> vote_del_lt b c = true -> vote_del_lt a c = true.
Proof.
  unfold vote_del_lt. intros Hab Hbc.
  destruct (Z.ltb_spec (votes b) (votes a)), (Z.ltb_spec (votes c) (votes b)),
    (Z.ltb_spec (votes a) (votes b)), (Z.ltb_spec (votes b) (votes c)),
    (Z.ltb_spec (votes c) (votes a)), (Z.ltb_spec (votes a) (votes c)); lia || done.
Qed.

Lemma vote_del_lt_total a b : vote_del_lt a b = false -> vote_del_lt b a = false -> a = b.
Proof.
  unfold vote_del_lt. intros Hab Hba. destruct a as [va ia], b as [vb ib]. cbn in *.
  destruct (Z.ltb_spec vb va), (Z.ltb_spec va vb); try discriminate; f_equal; lia.
Qed.

#[export] Instance vote_del_le_total : Total vote_del_le.
Proof.
  intros a b. unfold vote_del_le. destruct (vote_del_lt b a) eqn:E; [right|by left].
  destruct (vote_del_lt a b) eqn:E'; [|done].
  pose proof (vote_del_lt_trans a b a E' E) as H. by rewrite vote_del_lt_irrefl in H.
Qed.
#[export] Instance vote_del_le_trans : Transitive vote_del_le.
Proof.
  intros a b c Hab Hbc. unfold vote_del_le in *. destruct (vote_del_lt c a) eqn:E; [|done].
  destruct (vote_del_lt a b) eqn:Eab.
  - pose proof (vote_del_lt_trans c a b E Eab). congruence.
  - pose proof (vote_del_lt_total a b Eab Hab) as ->. congruence.
Qed.

Lemma by_vote_elements d : by_vote d ≡ₚ elements (delegate_vote_index_db d).
Proof. apply merge_sort_Permutation. Qed.

Lemma by_vote_NoDup d : base.NoDup (by_vote d).
Proof. rewrite by_vote_elements. apply NoDup_elements. Qed.

Lemma sorted_split {A} (R : A -> A -> Prop) `{!Transitive R} l1 l2 x y :
  StronglySorted R (l1 ++ l2) -> x ∈ l1 -> y ∈ l2 -> R x y.
Proof.
  induction l1 as [|z l1 IH]; cbn; intros Hs Hx Hy; [by apply elem_of_nil in Hx|].
  apply StronglySorted_inv in Hs as [Hs Hz]. apply elem_of_cons in Hx as [->|Hx]; [|by apply IH].
  rewrite List.Forall_forall in Hz. apply Hz, in_or_app. right. by apply list_elem_of_In.
Qed.

(** The delegates of the next round are the first 97 of the index by votes: each has
    more net votes than every delegate left out, or as many and a lower id, none is listed
    twice, and if there are fewer than 97 all are listed. *)
Theorem next_round_top d :
  exists chosen,
    next_round_active_delegates d = map del_id chosen /\ base.NoDup chosen /\
    chosen ⊆ elements (delegate_vote_index_db d) /\
    length chosen = Nat.min (Z.to_nat BTS_BLOCKCHAIN_NUM_DELEGATES) (size (delegate_vote_index_db d)) /\
    forall v w, v ∈ chosen -> w ∈ delegate_vote_index_db d -> w ∉ chosen -> vote_del_lt v w = true.
Proof.
  set (n := Z.to_nat BTS_BLOCKCHAIN_NUM_DELEGATES).
  exists (take n (by_vote d)). unfold next_round_active_delegates, get_delegates_by_vote. fold n.
  pose proof (by_vote_NoDup d) as Hnd. rewrite <- (take_drop n (by_vote d)) in Hnd.
  apply list.NoDup_app in Hnd as (Hnd1 & Hdis & _). split_and!.
  - by rewrite drop_0.
  - done.
  - intros v Hv. rewrite <- by_vote_elements. apply elem_of_take in Hv as (i & Hi & _).
    by eapply list_elem_of_lookup_2.
  - rewrite length_take, by_vote_elements. done.
  - intros v w Hv Hw Hnw. apply elem_of_elements in Hw. rewrite <- by_vote_elements in Hw.
    rewrite <- (take_drop n (by_vote d)) in Hw. apply elem_of_app in Hw as [Hw|Hw]; [done|].
    assert (Hle : vote_del_le v w).
    { eapply (sorted_split vote_del_le (take n (by_vote d)) (drop n (by_vote d))); try done.
      rewrite take_drop. apply StronglySorted_merge_sort; apply _. }
    destruct (vote_del_lt v w) eqn:E; [done|]. unfold vote_del_le in Hle.
    pose proof (vote_del_lt_total v w E Hle) as ->. by apply Hdis in Hv.
Qed.

(** ** The shuffle *)
Lemma swap_length i j l : length (swap i j l) = length l.
Proof. unfold swap. by rewrite !length_insert. Qed.

Lemma swap_Permutation i j l : (i < length l)%nat -> (j < length l)%nat -> swap i j l ≡ₚ l.
Proof.
  intros Hi Hj. unfold swap.
  assert (Hl : forall n, (n < length l)%nat -> l !! n = Some (nth n l 0))
    by (intros n Hn; rewrite nth_lookup; by destruct (lookup_lt_is_Some_2 l n Hn) as [x ->]).
  destruct (decide (i = j)) as [->|Hne].
  - by rewrite list_insert_insert_eq, list_insert_id by auto.
  - apply Permutation_insert_swap; auto.
Qed.

Lemma shuffle_words_spec turns x i digest l i' l' :
  shuffle_words turns x i digest l = (i', l') ->
  l' ≡ₚ l /\ (i <= i')%nat /\ (i' <= Nat.max i (length l))%nat.
Proof.
  revert x i l. induction turns as [|turns IH]; cbn [shuffle_words]; intros x i l H.
  { injection H as <- <-. split_and!; [done|lia..]. }
  destruct (Nat.ltb_spec i (length l)) as [Hi|Hi].
  2: { injection H as <- <-. split_and!; [done|lia..]. }
  assert (Hj : (Z.to_nat (hash_word digest x mod Z.of_nat (length l)) < length l)%nat).
  { pose proof (Z.mod_pos_bound (hash_word digest x) (Z.of_nat (length l)) ltac:(lia)). lia. }
  apply IH in H as (Hp & Hle & Hmax). rewrite swap_length in Hmax. split; [|lia].
  etransitivity; [exact Hp|]. by apply swap_Permutation.
Qed.

Section Shuffle.
Context `{Fc} `{FcBlock}.
Implicit Types (d : chain_database) (b : full_block) (s : block_state).

Lemma shuffle_spec fuel i seed l :
  (length l <= fuel + i)%nat -> exists l', shuffle fuel i seed l = Ok l' /\ l' ≡ₚ l.
Proof.
  revert i seed l. induction fuel as [|fuel IH]; intros i seed l Hf; cbn [shuffle].
  - destruct (Nat.ltb_spec i (length l)); [lia|]. by exists l.
  - destruct (Nat.ltb_spec i (length l)) as [Hi|Hi]; [|by exists l].
    destruct (shuffle_words 4 0 i seed l) as [i' l'] eqn:E.
    apply shuffle_words_spec in E as (Hp & Hle & _). pose proof (Permutation_length Hp) as Hl.
    destruct (IH (S i') (sha256_of_digest seed) l') as (l2 & H2 & Hp2); [lia|].
    exists l2. split; [done|]. by rewrite Hp2.
Qed.

(** The shuffle of the delegates of the next round ends, and only reorders them:
    whatever the seed, every delegate of the round signs as often as before. *)
Theorem active_list_shuffled d b s s' :
  update_active_delegate_list d b s = Ok s' ->
  Z.rem (block_num b) BTS_BLOCKCHAIN_NUM_DELEGATES = 0 ->
  exists ids, get_active_delegates s' = Ok ids /\ ids ≡ₚ next_round_active_delegates d.
Proof.
  unfold update_active_delegate_list. intros Hs Hn. rewrite Hn in Hs. cbn [Z.eqb] in Hs. inv_ok.
  destruct (shuffle_spec (length (next_round_active_delegates d)) 0 (sha256_of_seed x)
    (next_round_active_delegates d) ltac:(lia)) as (l & Hl & Hp).
  rewrite Hl in *. match goal with H : Ok _ = Ok _ |- _ => apply Ok_inj in H as <- end.
  exists l. split; [|done]. unfold get_active_delegates. cbn. unfold pending_get_property. cbn.
  by rewrite lookup_insert_eq.
Qed.
End Shuffle.

(** ** The slots between two blocks *)
Section Production.
Context `{FC : Fc} `{FBl : FcBlock}.
Implicit Types (d : chain_database) (b : full_block) (s : block_state).

(** The times of the [n] slots after [slot]. *)
Fixpoint slots (slot : Z) (n : nat) : list Z :=
  match n with
  | O => []
  | S n => let slot := slot + BTS_BLOCKCHAIN_BLOCK_INTERVAL_SEC in slot :: slots slot n
  end.
(** How many of the slots are an account's turn. *)
Definition is_turn d (id slot : Z) : bool :=
  match get_signing_delegate_id d slot with Ok i => i =? id | Throw _ => false end.
Definition turns d (id : Z) (l : list Z) : Z := Z.of_nat (length (List.filter (is_turn d id) l)).

Lemma turns_cons d id t l : turns d id (t :: l) = (if is_turn d id t then 1 else 0) + turns d id l.
Proof. unfold turns. cbn [List.filter]. destruct (is_turn d id t); cbn [length]; lia. Qed.

Lemma is_turn_ok d id slot i : get_signing_delegate_id d slot = Ok i -> is_turn d id slot = (i =? id).
Proof. unfold is_turn. by intros ->. Qed.

(** The record of an account after [p] more blocks produced and [m] more missed. *)
Definition credited (p m : Z) (r r' : account_record) : Prop :=
  match delegate_info r with
  | Some i => exists bp bm, r' = with_delegate_info (Some (with_production bp bm i)) r /\
      bp mod 2 ^ 32 = (blocks_produced i + p) mod 2 ^ 32 /\
      bm mod 2 ^ 32 = (blocks_missed i + m) mod 2 ^ 32
  | None => r' = r
  end.

Lemma credited_refl r : credited 0 0 r r.
Proof.
  unfold credited. destruct r as [? ? ? ? ? ? ? [i|] ?]; cbn; [|done].
  exists (blocks_produced i), (blocks_missed i). rewrite !Z.add_0_r. split; [|done].
  by destruct i.
Qed.

Lemma uint32_mod x : uint32 x mod 2 ^ 32 = x mod 2 ^ 32.
Proof. unfold uint32. by rewrite Z.mod_mod by lia. Qed.

Lemma credited_trans p m p' m' r1 r2 r3 :
  credited p m r1 r2 -> credited p' m' r2 r3 -> credited (p + p') (m + m') r1 r3.
Proof.
  unfold credited. destruct (delegate_info r1) as [i|] eqn:E.
  - intros (bp & bm & -> & Hp & Hm). cbn. intros (bp' & bm' & -> & Hp' & Hm').
    exists bp', bm'. split; [done|]. rewrite Hp', Hm', <- Zplus_mod_idemp_l, Hp, Zplus_mod_idemp_l.
    rewrite <- (Zplus_mod_idemp_l bm), Hm, Zplus_mod_idemp_l. split; f_equal; lia.
  - intros ->. by rewrite E.
Qed.

Lemma stored_account s r id' :
  get_account_record (pending_store_account_record s r) id' =
    if decide (account_id r = id') then Some r else get_account_record s id'.
Proof.
  change (pending_store_account_record s r) with (store_account_record s r).
  rewrite !view_account, (ledger_store_account (ChainStores := pending_stores)).
  unfold put_account. cbn [l_accounts]. by rewrite put_lookup.
Qed.

(** What one slot does to the record of an account. *)
Definition keyed_accounts_of s : Prop :=
  forall (id : Z) (r : account_record), get_account_record s id = Some r -> account_id r = id.

Lemma production_loop_spec n fuel d b slot conf s conf' s' :
  timestamp b = slot + BTS_BLOCKCHAIN_BLOCK_INTERVAL_SEC * Z.of_nat (S n) -> (n < fuel)%nat ->
  keyed_accounts_of s ->
  production_loop fuel d b slot conf s = Ok (conf', s') ->
  conf' == conf + 2 * Z.of_nat n /\ keyed_accounts_of s' /\
  forall id r, get_account_record s id = Some r ->
    exists r', get_account_record s' id = Some r' /\
      credited (turns d id [timestamp b]) (turns d id (slots slot n)) r r'.
Proof.
  revert fuel slot conf s. induction n as [|n IH]; intros fuel slot conf s Ht Hf Hk Hs;
    (destruct fuel as [|fuel]; [lia|]);
    cbn [production_loop store_account_record pending_interface] in Hs;
    apply bind_ok in Hs as ([r0 i0] & Hr0 & Hs);
    apply delegate_record_ok in Hr0 as (id0 & Hid0 & Hr0 & Hi0);
    pose proof (Hk id0 r0 Hr0) as Haid.
  - replace (slot + BTS_BLOCKCHAIN_BLOCK_INTERVAL_SEC) with (timestamp b) in * by lia.
    rewrite Z.eqb_refl, Z.ltb_irrefl in Hs. cbn [negb] in Hs. apply Ok_inj in Hs.
    injection Hs as <- <-. split; [by rewrite Z.add_0_r|]. set (r1 := with_delegate_info _ r0).
    assert (E1 : account_id r1 = id0) by done. split.
    + intros id r. rewrite stored_account. rewrite E1. destruct (decide (id0 = id)) as [<-|].
      * by intros [= <-].
      * apply Hk.
    + intros id r Hr. rewrite stored_account. rewrite E1.
      rewrite turns_cons, (is_turn_ok _ id _ _ Hid0).
      change (turns d id []) with 0. change (turns d id (slots slot 0)) with 0.
      destruct (decide (id0 = id)) as [<-|Hne].
      * assert (r = r0) as -> by congruence. exists r1. split; [done|]. rewrite Z.eqb_refl.
        unfold credited. rewrite Hi0. do 2 eexists. split; [reflexivity|].
        rewrite uint32_mod, !Z.add_0_r. done.
      * exists r. split; [done|]. destruct (Z.eqb_spec id0 id); [done|]. apply credited_refl.
  - set (slot1 := slot + BTS_BLOCKCHAIN_BLOCK_INTERVAL_SEC) in *.
    assert (Hlt : slot1 < timestamp b) by (unfold slot1, BTS_BLOCKCHAIN_BLOCK_INTERVAL_SEC in *; lia).
    destruct (Z.eqb_spec slot1 (timestamp b)); [lia|]. cbn [negb] in Hs.
    destruct (Z.ltb_spec slot1 (timestamp b)); [|lia]. set (r1 := with_delegate_info _ r0) in *.
    assert (E1 : account_id r1 = id0) by done.
    apply IH in Hs as (Hc & Hk' & Hall).
    2: { unfold slot1, BTS_BLOCKCHAIN_BLOCK_INTERVAL_SEC in *. lia. }
    2: { lia. }
    2: { intros id r. rewrite stored_account. rewrite E1.
         destruct (decide (id0 = id)) as [<-|]; [by intros [= <-]|apply Hk]. }
    split; [|split; [done|]].
    + rewrite Hc. unfold eqm. rewrite <- Zplus_mod_idemp_l, int64_mod, Zplus_mod_idemp_l. f_equal. lia.
    + intros id r Hr. cbn [slots]. fold slot1. rewrite (turns_cons d id slot1), (is_turn_ok _ id _ _ Hid0).
      destruct (Z.eqb_spec id0 id) as [<-|Hne].
      * assert (r = r0) as -> by congruence.
        destruct (Hall id0 r1) as (r' & Hr' & Hcr).
        { rewrite stored_account. rewrite E1. by rewrite decide_True. }
        exists r'. split; [done|]. rewrite <- (Z.add_0_l (turns d id0 [timestamp b])).
        eapply credited_trans; [|exact Hcr]. unfold credited. rewrite Hi0.
        do 2 eexists. split; [reflexivity|]. by rewrite uint32_mod, !Z.add_0_r.
      * destruct (Hall id r) as (r' & Hr' & Hcr).
        { rewrite stored_account. rewrite E1. by rewrite decide_False. }
        exists r'. split; [done|]. by rewrite Z.add_0_l.
Qed.

(** The slot the loop starts after. *)
Definition first_slot d b : Z :=
  if block_num (head_block_header d) =? 0
  then timestamp b - BTS_BLOCKCHAIN_BLOCK_INTERVAL_SEC
  else timestamp (head_block_header d).

Lemma bound_confirmations_range c : 1 <= bound_confirmations c <= 3 * BTS_BLOCKCHAIN_NUM_DELEGATES.
Proof.
  unfold bound_confirmations. set (x := int64 (c - 1)). clearbody x.
  change (BTS_BLOCKCHAIN_NUM_DELEGATES * 3) with 291.
  change (3 * BTS_BLOCKCHAIN_NUM_DELEGATES) with 291.
  destruct (Z.ltb_spec x 1).
  - destruct (Z.ltb_spec 291 1); lia.
  - destruct (Z.ltb_spec 291 x); lia.
Qed.

Lemma bound_confirmations_exact c x :
  c == x -> - 2 ^ 63 < x < 2 ^ 63 -> bound_confirmations c = Z.max 1 (Z.min 291 (x - 1)).
Proof.
  intros E Hx. unfold bound_confirmations.
  assert (Ei : int64 (c - 1) = x - 1).
  { unfold int64. replace (c - 1 + 2 ^ 63) with (c + (2 ^ 63 - 1)) by lia.
    rewrite <- Zplus_mod_idemp_l, E, Zplus_mod_idemp_l, Z.mod_small by lia. lia. }
  rewrite Ei. change (BTS_BLOCKCHAIN_NUM_DELEGATES * 3) with 291.
  change (3 * BTS_BLOCKCHAIN_NUM_DELEGATES) with 291.
  destruct (Z.ltb_spec (x - 1) 1).
  - destruct (Z.ltb_spec 291 1); lia.
  - destruct (Z.ltb_spec 291 (x - 1)); lia.
Qed.

(** C30: What a block records about the delegates. With [n] slots missed between the head
    block and the block: the delegate whose turn it is must open the commitment of its last
    block, and is credited one block and its new commitment; every delegate is debited a
    missed block for each of the missed slots that was its turn (counts wrap at [2^32]); no
    other field of an account changes. The confirmations that are required rise by two for
    each missed slot and fall by one for the block, within 1 and three times the number of
    delegates, as [chain_database.cpp] bounds them; the comment in [chain_interface.hpp] says
    0 and twice their number. *)
Theorem production_info_spec n d b s s' :
  timestamp b = first_slot d b + BTS_BLOCKCHAIN_BLOCK_INTERVAL_SEC * Z.of_nat (S n) ->
  keyed_accounts_of s -> update_delegate_production_info d b s = Ok s' ->
  exists signer r0 i0 v c c',
    get_signing_delegate_id d (timestamp b) = Ok signer /\
    get_account_record s signer = Some r0 /\ delegate_info r0 = Some i0 /\
    (0 < blocks_produced i0 -> hash_secret (previous_secret b) = next_secret_hash i0) /\
    (forall id r, get_account_record s id = Some r ->
       exists r', get_account_record s' id = Some r' /\
         credited (turns d id [timestamp b]) (turns d id (slots (first_slot d b) n))
           (if id =? signer then
              with_delegate_info (Some (with_secret (header_next_secret_hash b) (block_num b) i0)) r
            else r) r') /\
    get_property s confirmation_requirement_prop = Ok v /\ as_int v = Ok c /\
    get_property s' confirmation_requirement_prop = Ok (variant_int c') /\
    1 <= c' <= 3 * BTS_BLOCKCHAIN_NUM_DELEGATES /\
    (- 2 ^ 63 < c + 2 * Z.of_nat n < 2 ^ 63 -> c' = Z.max 1 (Z.min 291 (c + 2 * Z.of_nat n - 1))).
Proof.
  intros Ht Hk Hs. unfold update_delegate_production_info in Hs.
  apply bind_ok in Hs as (s1 & H1 & Hs). unfold check_secret in H1.
  apply bind_ok in H1 as ([r0 i0] & Hr0 & H1).
  apply delegate_record_ok in Hr0 as (signer & Hid & Hr0 & Hi0).
  apply bind_ok in H1 as ([] & Hsec & H1). cbn [store_account_record pending_interface] in H1.
  set (r1 := with_delegate_info _ r0) in H1. apply Ok_inj in H1 as <-.
  apply bind_ok in Hs as (v & Hv & Hs). apply bind_ok in Hs as (c & Hc & Hs).
  apply bind_ok in Hs as ([c1 s2] & Hl & Hs). apply Ok_inj in Hs as <-.
  fold (first_slot d b) in Hl. pose proof (Hk signer r0 Hr0) as Hsid.
  assert (E1 : account_id r1 = signer) by done.
  apply (production_loop_spec n) in Hl as (Hc1 & _ & Hall).
  2: done.
  2: { unfold slot_fuel. rewrite Ht. replace (_ - _) with (BTS_BLOCKCHAIN_BLOCK_INTERVAL_SEC * Z.of_nat (S n)) by lia.
       rewrite Z.mul_comm, Z.div_mul by done. lia. }
  2: { intros id r. rewrite stored_account, E1. destruct (decide (signer = id)) as [<-|];
         [by intros [= <-]|apply Hk]. }
  exists signer, r0, i0, v, c, (bound_confirmations c1). split_and!; try done.
  - intros Hp. apply Z.ltb_lt in Hp. rewrite Hp in Hsec. by apply FC_ASSERT_ok, Z.eqb_eq in Hsec.
  - intros id r Hr. cbn [get_account_record pending_interface set_property].
    destruct (Hall id (if id =? signer then r1 else r)) as (r' & Hr' & Hcr).
    { rewrite stored_account, E1. destruct (Z.eqb_spec id signer) as [->|].
      - by rewrite decide_True.
      - by rewrite decide_False. }
    exists r'. split; [exact Hr'|]. destruct (Z.eqb_spec id signer) as [->|]; [|done].
    by assert (r = r0) as -> by congruence.
  - cbn. unfold pending_get_property. cbn. by rewrite lookup_insert_eq.
  - apply bound_confirmations_range.
  - apply bound_confirmations_range.
  - intros Hr. by apply bound_confirmations_exact.
Qed.

Lemma production_loop_ends fuel d b slot conf s :
  timestamp b < slot + BTS_BLOCKCHAIN_BLOCK_INTERVAL_SEC * Z.of_nat fuel + 1 -> (0 < fuel)%nat ->
  (forall s sec, delegate_record d s sec <> Throw does_not_return) ->
  production_loop fuel d b slot conf s <> Throw does_not_return.
Proof.
  revert slot conf s. induction fuel as [|fuel IH]; intros slot conf s Ht Hf Hd; [lia|].
  cbn [production_loop]. destruct (delegate_record _ _ _) as [[r i]|e] eqn:E; cbn [bind].
  2: { intros [= ->]. by apply Hd in E. }
  destruct (negb _);
    (destruct (Z.ltb_spec (slot + BTS_BLOCKCHAIN_BLOCK_INTERVAL_SEC) (timestamp b)); [|done]);
    (apply IH; [lia| |done]); destruct fuel; lia.
Qed.

(** The loop over the slots between two blocks ends, whatever the time stamps: its
    fuel is never used up. *)
Theorem production_info_ends d b s :
  update_delegate_production_info d b s <> Throw does_not_return.
Proof.
  assert (Hget : forall sec, get_signing_delegate_id d sec <> Throw does_not_return).
  { intros sec. unfold get_signing_delegate_id, get_active_delegates. cbn [get_property database_interface].
    unfold db_get_property. destruct (timestamp _ <=? _); [|discriminate].
    destruct (property_db d !! active_delegate_list_id_prop) as [[]|]; try discriminate.
    cbn [as_ids value_or_throw bind FC_ASSERT throw_if negb].
    match goal with |- context [FC_ASSERT ?b] => destruct b end; discriminate. }
  assert (Hrec : forall s sec, delegate_record d s sec <> Throw does_not_return).
  { intros s0 sec. unfold delegate_record, deref, value_or_throw.
    destruct (get_signing_delegate_id d sec) eqn:E; cbn [bind]; [|intros [= ->]; by apply Hget in E].
    destruct (get_account_record s0 a) as [r|]; cbn [bind]; [|discriminate].
    destruct (delegate_info r); discriminate. }
  unfold update_delegate_production_info, check_secret.
  destruct (delegate_record d s (timestamp b)) as [[r i]|e] eqn:E; cbn [bind].
  2: { intros [= ->]. by apply Hrec in E. }
  destruct (if 0 <? blocks_produced i then _ else _) as [u|e] eqn:E1; cbn [bind].
  2: { destruct (0 <? _); unfold FC_ASSERT, throw_if in E1; [case_match|]; congruence. }
  set (s1 := store_account_record _ _).
  destruct (get_property s1 _) as [v|e] eqn:E2; cbn [bind].
  2: { revert E2. cbn. unfold pending_get_property. cbn. unfold db_get_property, value_or_throw.
       repeat case_match; intros; congruence. }
  destruct (as_int v) as [c|e] eqn:E3; cbn [bind].
  2: { unfold as_int in E3. case_match; congruence. }
  destruct (production_loop _ _ _ _ _ _) as [[c1 s2]|e] eqn:E4; cbn [bind]; [done|].
  intros [= ->]. revert E4. apply production_loop_ends; [|unfold slot_fuel; lia|done].
  unfold slot_fuel. set (slot := if _ =? 0 then _ else _).
  pose proof (Z.div_mod (timestamp b - slot) BTS_BLOCKCHAIN_BLOCK_INTERVAL_SEC ltac:(done)).
  pose proof (Z.mod_pos_bound (timestamp b - slot) BTS_BLOCKCHAIN_BLOCK_INTERVAL_SEC ltac:(done)).
  unfold BTS_BLOCKCHAIN_BLOCK_INTERVAL_SEC in *. lia.
Qed.
End Production.
