(* ===== verification/Header.v ===== *)
(** The verification of a block's header, and the rates of fees and pay that a header
    carries from one block to the next. *)
From S2P Require Import Prelude Conservation Evaluate BlockEffects Chain.

(** ** What [verify_header] checks *)
Section Verify.
Context `{FC : Fc} `{FT : FcTransaction} `{FBl : FcBlock} `{FO : FcOperations} `{FB : FcBigint}.
Implicit Types (c : chain) (b : full_block).

(** The conditions on a block that follows the head block of [c]. *)
Record header_ok c b : Prop := {
  next_number : block_num b = uint32 (block_num (head_block_header (db c)) + 1);
  next_previous : previous b = head_block_id c;
  on_interval : Z.rem (timestamp b) BTS_BLOCKCHAIN_BLOCK_INTERVAL_SEC = 0;
  after_head : timestamp (head_block_header (db c)) < timestamp b;
  not_early : timestamp b <= wall_clock (db c) + Z.quot BTS_BLOCKCHAIN_BLOCK_INTERVAL_SEC 2;
  fee_follows : fee_rate b = next_fee (fee_rate (head_block_header (db c))) (block_size b);
  digest_matches : transaction_digest b = hash_ids (map trx_id (user_transactions b));
  unique_ids : base.NoDup (map trx_id (user_transactions b));
  signed_by_delegate : exists id r,
    get_signing_delegate_id (db c) (timestamp b) = Ok id /\ get_account_record (db c) id = Some r /\
    recover_key (delegate_signature b) (block_digest b) = Some (active_key r)
}.

Lemma verify_header_inv c b : verify_header c b = Ok tt -> header_ok c b.
Proof.
  unfold verify_header.
  intros H. inv_ok.
  repeat match goal with
  | H : negb _ = false |- _ => apply negb_false_iff in H
  | H : (_ =? _) = true |- _ => apply Z.eqb_eq in H
  | H : (_ <=? _) = true |- _ => apply Z.leb_le in H
  | H : (_ <=? _) = false |- _ => apply Z.leb_gt in H
  end.
  match goal with H : get_fee_rate _ = Ok _ |- _ => apply Ok_inj in H; subst end.
  match goal with H : validate_digest _ = true |- _ => apply Z.eqb_eq in H; cbn in H end.
  match goal with H : validate_unique _ = true |- _ => apply validate_unique_NoDup in H; cbn in H end.
  match goal with H : get_signing_delegate_key _ _ = Ok _ |- _ =>
    unfold get_signing_delegate_key in H; inv_ok end.
  match goal with H : validate_signee _ _ = Ok _ |- _ =>
    unfold validate_signee, signee, public_key in H; inv_ok end.
  split; try done. do 2 eexists. split; [done|]. split; [done|].
  match goal with H : (_ =? _) = true |- _ => apply Z.eqb_eq in H as <- end. done.
Qed.

Lemma verify_header_ok c b : header_ok c b -> verify_header c b = Ok tt.
Proof.
  unfold verify_header.
  intros [H1 H2 H3 H4 H5 H6 H7 H8 (id & r & H9 & H10 & H11)].
  rewrite H1, H2, H3, !Z.eqb_refl. cbn [negb throw_if bind Z.eqb].
  destruct (Z.leb_spec (timestamp b) (timestamp (head_block_header (db c)))); [lia|]. cbn [throw_if bind].
  destruct (Z.leb_spec (timestamp b) (wall_clock (db c) + Z.quot BTS_BLOCKCHAIN_BLOCK_INTERVAL_SEC 2)); [|lia].
  cbn [FC_ASSERT throw_if bind negb get_fee_rate database_interface]. rewrite H6, Z.eqb_refl.
  cbn [FC_ASSERT throw_if bind negb].
  assert (Hd : validate_digest (digest_block_of b) = true).
  { unfold validate_digest, calculate_transaction_digest. cbn. rewrite H7. apply Z.eqb_refl. }
  assert (Hu : validate_unique (digest_block_of b) = true) by (by apply validate_unique_NoDup).
  rewrite Hd, Hu. cbn [FC_ASSERT throw_if bind negb]. unfold get_signing_delegate_key.
  rewrite H9. cbn [bind]. rewrite H10. cbn [value_or_throw bind].
  unfold validate_signee, signee, public_key. rewrite H11. cbn [value_or_throw bind].
  by rewrite Z.eqb_refl.
Qed.

(** C24: [verify_header] accepts exactly the blocks that follow the head block: the next
    number, its id as the previous one, a later slot that is not in the future, the fee rate
    that follows from the size, a digest of its transactions, no transaction twice, and the
    signature of the delegate whose turn the slot is. *)
Theorem verify_header_spec c b : verify_header c b = Ok tt <-> header_ok c b.
Proof. split; [apply verify_header_inv|apply verify_header_ok]. Qed.

(** ** The pay of the delegate is what the block says *)

(** The block with another rate of pay, and a signature for it. *)
Definition with_pay_rate (p signature : Z) (b : full_block) : full_block :=
  FullBlock
    (SignedBlockHeader
       (BlockHeader (previous b) (block_num b) (fee_rate b) p (timestamp b) (transaction_digest b)
          (header_next_secret_hash b) (previous_secret b)) signature)
    (user_transactions b).

(** No check bounds the pay of a delegate. A block that verifies still verifies with
    any other [delegate_pay_rate] that the same delegate signs, and whatever the rate is, it
    is paid: it is added to the delegate's pay and to the supply. [next_delegate_pay] is used
    by the delegate that makes a block only. *)
Theorem pay_is_unchecked c b p signature :
  verify_header c b = Ok tt -> block_size (with_pay_rate p signature b) = block_size b ->
  signee (with_pay_rate p signature b) = signee b ->
  verify_header c (with_pay_rate p signature b) = Ok tt /\
  forall s s' a, get_asset_record s 0 = Some a -> asset_record_id a = 0 ->
    pay_delegate (db c) (timestamp b) (delegate_pay_rate (with_pay_rate p signature b)) s = Ok s' ->
    exists a', get_asset_record s' 0 = Some a' /\
      current_share_supply a' = int64 (current_share_supply a + p).
Proof.
  intros Hv Hsize Hsig. split.
  - apply verify_header_inv in Hv as [H1 H2 H3 H4 H5 H6 H7 H8 (id & r & H9 & H10 & H11)].
    apply verify_header_ok. split; try done; [by rewrite Hsize|]. exists id, r.
    split; [done|]. split; [done|]. unfold signee, public_key in Hsig. rewrite H11 in Hsig.
    cbn [value_or_throw] in Hsig. by apply value_or_throw_ok in Hsig.
  - intros s s' a Ha Hid Hs. unfold pay_delegate in Hs.
    apply bind_ok in Hs as (id & _ & Hs). apply bind_ok in Hs as (r & _ & Hs).
    apply bind_ok in Hs as (info & _ & Hs). apply bind_ok in Hs as (base & Hbase & Hs).
    apply value_or_throw_ok in Hbase. apply Ok_inj in Hs as <-.
    rewrite view_asset, (ledger_store_account (ChainStores := pending_stores)) in Hbase.
    rewrite view_asset in Ha. cbn [l_assets put_account] in Hbase.
    assert (base = a) as -> by congruence.
    rewrite view_asset, (ledger_store_asset (ChainStores := pending_stores)).
    unfold put_asset. cbn [l_assets]. rewrite put_lookup. cbn [asset_record_id with_supply]. rewrite Hid.
    eexists. by rewrite decide_True.
Qed.
End Verify.

(** ** The fee rate *)


(** The products stay far from the ends of 64 bits. *)
Lemma next_fee_exact rate size :
  0 <= rate < 2 ^ 40 -> 0 <= size <= 2 ^ 18 ->
  next_fee rate size =
    Z.max ((5759 * rate + size * rate / BTS_BLOCKCHAIN_TARGET_BLOCK_SIZE) / 5760) BTS_BLOCKCHAIN_MIN_FEE.
Proof.
  intros Hr Hs. unfold next_fee.
  change BTS_BLOCKCHAIN_TARGET_BLOCK_SIZE with 52428 in *.
  change BTS_BLOCKCHAIN_BLOCKS_PER_DAY with 5760 in *. change BTS_BLOCKCHAIN_MIN_FEE with 1000 in *.
  assert (Hsr : 0 <= size * rate <= 2 ^ 18 * rate) by nia.
  assert (Hd : 0 <= size * rate / 52428 <= 6 * rate).
  { split; [apply Z.div_pos; lia|]. apply Z.div_le_upper_bound; lia. }
  unfold uint64 at 2. rewrite (Z.mod_small (size * rate)) by lia.
  rewrite (int64_id ((5760 - 1) * rate)) by (unfold in_int64; lia). unfold uint64.
  rewrite Z.mod_small by lia. change (5760 - 1) with 5759. apply int64_id. unfold in_int64.
  pose proof (Z.div_le_upper_bound (5759 * rate + size * rate / 52428) 5760 (2 * rate) ltac:(lia) ltac:(lia)).
  assert (0 <= (5759 * rate + size * rate / 52428) / 5760) by (apply Z.div_pos; lia). lia.
Qed.

(** At the least rate, with blocks of up to twice the maximal size. *)
Lemma next_fee_least rate size :
  0 <= rate <= BTS_BLOCKCHAIN_MIN_FEE -> 0 <= size <= 2 * BTS_BLOCKCHAIN_MAX_BLOCK_SIZE ->
  next_fee rate size = BTS_BLOCKCHAIN_MIN_FEE.
Proof.
  change BTS_BLOCKCHAIN_MAX_BLOCK_SIZE with 104857. change BTS_BLOCKCHAIN_MIN_FEE with 1000.
  intros Hr Hs. rewrite next_fee_exact by lia. change BTS_BLOCKCHAIN_MIN_FEE with 1000.
  change BTS_BLOCKCHAIN_TARGET_BLOCK_SIZE with 52428. apply Z.max_r.
  assert (size * rate <= 209714 * 1000) by nia.
  assert (size * rate / 52428 <= 4001) by (apply Z.lt_succ_r, Z.div_lt_upper_bound; lia).
  apply Z.lt_succ_r, Z.div_lt_upper_bound; lia.
Qed.

(** The fee rate does not follow the size of blocks. From a rate below 5760 it never
    rises, however full the blocks are (the rounding takes away what a full block adds), and
    at the least rate, which is the one after the genesis, it stays. It is never below the
    least rate. *)
Theorem fee_rate_stuck rate size :
  0 <= rate -> 0 <= size <= BTS_BLOCKCHAIN_MAX_BLOCK_SIZE ->
  (rate < 2 ^ 40 -> BTS_BLOCKCHAIN_MIN_FEE <= next_fee rate size) /\
  (BTS_BLOCKCHAIN_MIN_FEE <= rate < BTS_BLOCKCHAIN_BLOCKS_PER_DAY -> next_fee rate size <= rate) /\
  (rate <= BTS_BLOCKCHAIN_MIN_FEE -> next_fee rate size = BTS_BLOCKCHAIN_MIN_FEE).
Proof.
  change BTS_BLOCKCHAIN_MAX_BLOCK_SIZE with 104857. intros Hr Hs. split; [|split].
  - intros Hr2. rewrite next_fee_exact by lia. lia.
  - change BTS_BLOCKCHAIN_BLOCKS_PER_DAY with 5760. change BTS_BLOCKCHAIN_MIN_FEE with 1000. intros Hr2.
    rewrite next_fee_exact by lia. change BTS_BLOCKCHAIN_MIN_FEE with 1000.
    change BTS_BLOCKCHAIN_TARGET_BLOCK_SIZE with 52428. apply Z.max_lub; [|lia].
    assert (Hd : size * rate / 52428 <= 2 * rate) by (apply Z.lt_succ_r, Z.div_lt_upper_bound; nia).
    apply Z.lt_succ_r, Z.div_lt_upper_bound; lia.
  - intros Hr2. apply next_fee_least; [lia|].
    change (2 * BTS_BLOCKCHAIN_MAX_BLOCK_SIZE) with 209714. lia.
Qed.
