(* ===== verification/Queue.v ===== *)
(** The queue of pending transactions, which is kept sorted by fees and without duplicates by
    everything that happens to the chain, and the blocks generated from it, which verify. *)
From stdpp Require Import sorting.
From S2P Require Import Prelude Conservation Evaluate BlockEffects Supply Header Chain.

(** ** Computations that keep a property of the chain, throwing or not *)
Definition keeps {S A} (I : S -> Prop) (m : run S A) : Prop :=
  forall s r s', m s = (r, s') -> returned r -> I s -> I s'.

Section Keeps.
Context {S : Type} (I : S -> Prop).

Lemma keeps_ret {A} (a : A) : keeps I (ret a).
Proof. intros s r s' H _. by injection H as <- <-. Qed.
Lemma keeps_raise {A} e : keeps I (raise e : run S A).
Proof. intros s r s' H _. by injection H as <- <-. Qed.
Lemma keeps_reads {A} (f : S -> result A) : keeps I (reads f).
Proof. intros s r s' H _. by injection H as <- <-. Qed.
Lemma keeps_modify f : (forall s, I s -> I (f s)) -> keeps I (modify f).
Proof. intros Hf s r s' H _ Hs. injection H as <- <-. by apply Hf. Qed.
Lemma keeps_bind {A B} (m : run S A) (f : A -> run S B) :
  keeps I m -> (forall a, keeps I (f a)) -> keeps I (run_bind m f).
Proof.
  intros Hm Hf s r s'. unfold run_bind. destruct (m s) as [[a|e] s1] eqn:E; intros H Hr Hs.
  - eapply Hf; [exact H|done|]. by eapply Hm.
  - injection H as <- <-. by eapply Hm.
Qed.
Lemma keeps_try {A} (m : run S A) h :
  keeps I m -> (forall e, keeps I (h e)) -> keeps I (try_catch m h).
Proof.
  intros Hm Hh s r s'. unfold try_catch. destruct (m s) as [[a|e] s1] eqn:E; intros H Hr Hs.
  - injection H as <- <-. by eapply Hm.
  - destruct (is_fc_exception e) eqn:Ee; [eapply Hh; [exact H|done|]; by eapply Hm|].
    injection H as <- <-. unfold returned in Hr. congruence.
Qed.
Lemma keeps_each {B} (f : B -> run S unit) l : (forall b, keeps I (f b)) -> keeps I (run_each f l).
Proof.
  intros Hf. induction l as [|b l IH]; [apply keeps_ret|]. by apply keeps_bind; [|intros []].
Qed.
Lemma keeps_part {T A} (get : S -> T) put (m : run T A) :
  (forall t s, I s -> I (put t s)) -> keeps I (on_part get put m).
Proof.
  intros Hp s r s'. unfold on_part. destruct (m (get s)) as [r1 t]. intros H _ Hs.
  injection H as <- <-. by apply Hp.
Qed.
End Keeps.

(** ** The order of the queue *)
Lemma fee_index_lt_trans a b c : fee_index_lt a b = true -> fee_index_lt b c = true -> fee_index_lt a c = true.
Proof.
  unfold fee_index_lt. intros H1 H2.
  destruct (Z.eqb_spec (fee_index_fees a) (fee_index_fees b)),
    (Z.eqb_spec (fee_index_fees b) (fee_index_fees c)),
    (Z.eqb_spec (fee_index_fees a) (fee_index_fees c)); lia.
Qed.

(** Neither is less: the ids are the same. *)
Lemma fee_index_lt_neither a b :
  fee_index_lt a b = false -> fee_index_lt b a = false -> fee_index_trx a = fee_index_trx b.
Proof.
  unfold fee_index_lt. intros H1 H2.
  destruct (Z.eqb_spec (fee_index_fees a) (fee_index_fees b)),
    (Z.eqb_spec (fee_index_fees b) (fee_index_fees a)); lia.
Qed.

Section FeeStore.
Context {A : Type}.
Implicit Types (l : list (fee_index * A)).

Definition fee_sorted l : Prop :=
  StronglySorted (fun p q => fee_index_lt p.1 q.1 = true) l.
Definition queued_ids l : list Z := map (fun p => fee_index_trx p.1) l.

(** A new key goes to its place. *)
Lemma fee_store_new k v l :
  fee_index_trx k ∉ queued_ids l -> fee_store k v l ≡ₚ (k, v) :: l.
Proof.
  induction l as [|[k' v'] l IH]; intros Hk; [done|]. cbn [fee_store].
  cbn in Hk. apply not_elem_of_cons in Hk as [Hne Hk].
  destruct (fee_index_lt k k') eqn:E1; [done|]. destruct (fee_index_lt k' k) eqn:E2.
  - rewrite IH by done. apply Permutation_swap.
  - by pose proof (fee_index_lt_neither k k' E1 E2).
Qed.

Lemma fee_store_sorted k v l :
  fee_index_trx k ∉ queued_ids l -> fee_sorted l -> fee_sorted (fee_store k v l).
Proof.
  unfold fee_sorted. induction l as [|[k' v'] l IH]; intros Hk Hs; [by repeat constructor|].
  cbn [fee_store]. cbn in Hk. apply not_elem_of_cons in Hk as [Hne Hk].
  apply StronglySorted_inv in Hs as [Hs Hall].
  destruct (fee_index_lt k k') eqn:E1; [|destruct (fee_index_lt k' k) eqn:E2].
  - constructor; [by constructor|]. constructor; [done|]. eapply List.Forall_impl; [|exact Hall].
    intros [k2 v2] H2. cbn in *. by eapply fee_index_lt_trans.
  - constructor; [by apply IH|]. rewrite fee_store_new by done. by constructor.
  - by pose proof (fee_index_lt_neither k k' E1 E2).
Qed.
End FeeStore.

Section Queue.
Context `{FC : Fc} `{FT : FcTransaction} `{FBl : FcBlock} `{FO : FcOperations} `{FB : FcBigint}.
Implicit Types (c : chain) (b : full_block) (t : signed_transaction).

(** The queue: sorted by fees, each transaction once, under the fees its evaluation left and
    its id, and stored under its id. *)
Record queue_ok c : Prop := {
  queue_sorted : fee_sorted (pending_fee_index c);
  queue_once : base.NoDup (queued_ids (pending_fee_index c));
  queue_entry k e : (k, e) ∈ pending_fee_index c ->
    k = FeeIndex (get_fees e 0) (trx_id (trx e)) /\
    pending_transaction_db c !! fee_index_trx k = Some (trx e);
  queue_stored id t : pending_transaction_db c !! id = Some t -> trx_id t = id
}.
(** And nothing that is stored is missing. *)
Definition queue_full c : Prop :=
  queue_ok c /\
  forall id, is_Some (pending_transaction_db c !! id) -> id ∈ queued_ids (pending_fee_index c).

(** What [queue_full] reads. *)
Definition same_queue c c' : Prop :=
  pending_fee_index c' = pending_fee_index c /\ pending_transaction_db c' = pending_transaction_db c.
Lemma same_queue_ok c c' : same_queue c c' -> queue_ok c -> queue_ok c'.
Proof. intros [E1 E2] [H1 H2 H3 H4]. split; rewrite ?E1, ?E2; done. Qed.
Lemma same_queue_full c c' : same_queue c c' -> queue_full c -> queue_full c'.
Proof. intros Hs [Hq Hf]. split; [by eapply same_queue_ok|]. destruct Hs as [-> ->]. done. Qed.

(** What is queued for a transaction is its evaluation. *)
Lemma evaluate_keeps_trx t (e e' : queued) : evaluate t e = Ok e' -> trx e' = t.
Proof.
  intros He. apply evaluate_frame in He as (_ & e1 & Hs & (-> & _)).
  by apply collect_signatures_keys in Hs as (? & _ & _ & ->).
Qed.

Lemma enqueue_ok id t c r c' :
  enqueue id t c = (r, c') -> trx_id t = id -> queue_ok c ->
  id ∉ queued_ids (pending_fee_index c) ->
  queue_ok c' /\
  match r with
  | Ok _ => queued_ids (pending_fee_index c') ≡ₚ id :: queued_ids (pending_fee_index c) /\
            pending_transaction_db c' = <[id := t]> (pending_transaction_db c)
  | Throw _ => pending_fee_index c' = pending_fee_index c /\
               pending_transaction_db c' = pending_transaction_db c
  end.
Proof.
  intros Hrun Hid Hq Hnew. unfold enqueue, evaluate_transaction in Hrun.
  rewrite !run_assoc, run_modify, run_assoc, run_reads in Hrun.
  destruct (evaluate t _) as [e|e] eqn:He.
  2: { injection Hrun as <- <-. split; [by apply (same_queue_ok c)|done]. }
  apply evaluate_keeps_trx in He.
  cbv [run_bind modify ret] in Hrun. injection Hrun as <- <-. destruct Hq as [Hs Ho Hent Hst].
  cbn [pending_fee_index pending_transaction_db with_pending_transaction_db with_pending_fee_index
    with_pending_trx_state].
  pose proof (fee_store_new (FeeIndex (get_fees e 0) id) e (pending_fee_index c) Hnew) as Hperm.
  assert (Hids : queued_ids (fee_store (FeeIndex (get_fees e 0) id) e (pending_fee_index c)) ≡ₚ
    id :: queued_ids (pending_fee_index c)).
  { unfold queued_ids. by rewrite Hperm. }
  split; [|done]. split; cbn [pending_fee_index pending_transaction_db with_pending_transaction_db
    with_pending_fee_index with_pending_trx_state].
  - by apply fee_store_sorted.
  - rewrite Hids. by constructor.
  - intros k e'. rewrite Hperm, elem_of_cons. intros [[= -> ->]|Hin].
    + by rewrite He, Hid, lookup_insert_eq.
    + destruct (Hent k e' Hin) as [Hk Hdb]. split; [done|]. rewrite lookup_insert_ne; [done|].
      intros ->. apply Hnew, list_elem_of_fmap. by exists (k, e').
  - intros i t'. rewrite lookup_insert_Some. intros [[<- <-]|[_ Hi]]; auto.
Qed.

(** A queued transaction is stored. *)
Lemma queued_stored c id :
  queue_ok c -> id ∈ queued_ids (pending_fee_index c) -> is_Some (pending_transaction_db c !! id).
Proof.
  intros Hq Hin. unfold queued_ids in Hin. apply list_elem_of_fmap in Hin as ([k e] & -> & Hin).
  apply (queue_entry c Hq) in Hin as [_ Hdb]. by exists (trx e).
Qed.

Lemma store_pending_ok t : keeps queue_full (store_pending_transaction t).
Proof.
  intros c r c' Hrun _ [Hq Hfull]. unfold store_pending_transaction in Hrun. rewrite run_reads in Hrun.
  destruct (bool_decide _) eqn:Ek; [by injection Hrun as <- <-|]. apply bool_decide_eq_false in Ek.
  assert (Hnew : trx_id t ∉ queued_ids (pending_fee_index c)).
  { intros Hin. by apply Ek, queued_stored. }
  unfold run_bind in Hrun. destruct (enqueue _ t c) as [[e|e] c1] eqn:Ee; injection Hrun as <- <-;
    destruct (enqueue_ok _ t c _ _ Ee eq_refl Hq Hnew) as (Hq1 & E1 & E2); (split; [done|]).
  - intros id. rewrite E1, E2, elem_of_cons. destruct (decide (id = trx_id t)); [by left|].
    rewrite lookup_insert_ne by done. auto.
  - by rewrite E1, E2.
Qed.

(** ** The queue after a block *)
(** Going through the transactions that were stored: those of [rest] are still to come. *)
Record requeuing (discard : list Z) (rest : list (Z * signed_transaction)) c : Prop := {
  requeue_ok : queue_ok c;
  requeue_rest kv : kv ∈ rest -> pending_transaction_db c !! kv.1 = Some kv.2;
  requeue_once : base.NoDup (map fst rest);
  requeue_fresh id : id ∈ queued_ids (pending_fee_index c) -> id ∉ map fst rest /\ id ∉ discard;
  requeue_apart id : id ∈ discard -> id ∉ map fst rest;
  requeue_all id : is_Some (pending_transaction_db c !! id) ->
    id ∈ queued_ids (pending_fee_index c) \/ id ∈ map fst rest \/ id ∈ discard
}.

Lemma requeue_step discard kv rest c d c' :
  requeue discard kv c = (Ok d, c') -> requeuing discard (kv :: rest) c -> requeuing d rest c'.
Proof.
  intros Hrun [Hq Hrest Hnd Hfr Hap Hall]. destruct kv as [id t].
  pose proof (Hrest (id, t) ltac:(by left)) as Hid. pose proof (queue_stored c Hq id t Hid) as Et.
  cbn [map fst snd] in *. apply list.NoDup_cons in Hnd as [Hnin Hnd].
  assert (Hnew : id ∉ queued_ids (pending_fee_index c)) by set_solver.
  unfold requeue, try_catch, run_bind in Hrun. cbn [snd] in Hrun. rewrite Et in Hrun.
  destruct (enqueue id t c) as [[e|e] c1] eqn:Ee;
    destruct (enqueue_ok id t c _ _ Ee Et Hq Hnew) as (Hq1 & E1 & E2).
  - injection Hrun as <- <-. split; [done| |done| |set_solver|].
    + intros kv Hkv. rewrite E2, lookup_insert_ne; [apply Hrest; by right|].
      intros ->. apply Hnin, list_elem_of_fmap. by exists kv.
    + intros i. rewrite E1. set_solver.
    + intros i. rewrite E1, E2, elem_of_cons. destruct (decide (i = id)) as [->|]; [tauto|].
      rewrite lookup_insert_ne by done. intros Hi. specialize (Hall i Hi). set_solver.
  - destruct (is_fc_exception e); [|discriminate]. injection Hrun as <- <-. split; [done| |done| |set_solver|].
    + intros kv Hkv. rewrite E2. apply Hrest. by right.
    + intros i. rewrite E1. set_solver.
    + intros i. rewrite E1, E2. intros Hi. specialize (Hall i Hi). set_solver.
Qed.

(** The loop catches what [fc] throws. *)
Lemma requeue_returned discard kv c e c' :
  requeue discard kv c = (Throw e, c') -> is_fc_exception e = false.
Proof.
  unfold requeue, try_catch. destruct (run_bind _ _ c) as [[d|e1] c1]; [done|].
  destruct (is_fc_exception e1) eqn:E; [done|]. intros H. by injection H as -> _.
Qed.

Lemma requeue_loop rest discard c r c' :
  run_fold requeue discard rest c = (r, c') -> returned r -> requeuing discard rest c ->
  exists d, r = Ok d /\ requeuing d [] c'.
Proof.
  revert discard c. induction rest as [|kv rest IH]; cbn [run_fold]; intros discard c Hrun Hr Hc.
  - injection Hrun as <- <-. by exists discard.
  - unfold run_bind at 1 in Hrun. destruct (requeue discard kv c) as [[d|e] c1] eqn:Es.
    + eapply IH; [exact Hrun|done|]. by eapply requeue_step.
    + injection Hrun as <- <-. apply requeue_returned in Es. unfold returned in Hr. congruence.
Qed.

Lemma foldl_delete_lookup {A} (ids : list Z) (m : gmap Z A) k :
  foldl (fun m id => delete id m) m ids !! k = if decide (k ∈ ids) then None else m !! k.
Proof.
  revert m. induction ids as [|i ids IH]; intros m; [done|]. cbn [foldl]. rewrite IH.
  destruct (decide (k ∈ ids)), (decide (k ∈ i :: ids)); try set_solver.
  - assert (k = i) as -> by set_solver. apply lookup_delete_eq.
  - apply lookup_delete_ne. set_solver.
Qed.

(** The queue emptied, the loop starts. *)
Lemma requeue_start c :
  (forall id t, pending_transaction_db c !! id = Some t -> trx_id t = id) ->
  pending_fee_index c = [] -> requeuing [] (level_list (pending_transaction_db c)) c.
Proof.
  intros Hst E. assert (Hperm : level_list (pending_transaction_db c) ≡ₚ
    map_to_list (pending_transaction_db c)) by apply merge_sort_Permutation.
  split; rewrite ?E; try set_solver.
  - split; rewrite ?E; [constructor|constructor|set_solver|done].
  - intros kv. rewrite Hperm. destruct kv. apply elem_of_map_to_list.
  - rewrite Hperm. apply NoDup_fst_map_to_list.
  - intros id [t Ht]. right; left. apply list_elem_of_fmap. exists (id, t). split; [done|].
    rewrite Hperm. by apply elem_of_map_to_list.
Qed.

Lemma clear_pending_ok b : keeps queue_full (clear_pending b).
Proof.
  intros c r c' Hrun Hr [Hq _]. unfold clear_pending in Hrun. rewrite !run_modify, run_reads in Hrun.
  unfold run_bind in Hrun at 1.
  match type of Hrun with context [run_fold _ [] ?l ?c1] => set (c1' := c1) in * end.
  assert (Hc1 : requeuing [] (level_list (pending_transaction_db c1')) c1').
  { apply requeue_start; [|done]. intros id t. cbn. rewrite foldl_delete_lookup.
    destruct (decide _); [done|]. apply Hq. }
  destruct (run_fold requeue [] _ c1') as [[d|e] c2] eqn:Ef; injection Hrun as <- <-;
    destruct (requeue_loop _ _ _ _ _ Ef Hr Hc1) as (d' & [=] & [Hq2 _ _ Hfr _ Hall]); subst d'.
  destruct Hq2 as [Hs Ho Hent Hst]. split; [split; cbn; [done|done| |]|].
  - intros k e Hin. destruct (Hent k e Hin) as [Hk Hdb]. split; [done|].
    rewrite foldl_delete_lookup, decide_False; [done|].
    apply (Hfr (fee_index_trx k)). apply list_elem_of_fmap. by exists (k, e).
  - intros id t. rewrite foldl_delete_lookup. destruct (decide _); [done|]. apply Hst.
  - intros id. cbn. rewrite foldl_delete_lookup. destruct (decide _); [by intros [? [=]]|].
    intros Hi. destruct (Hall id Hi) as [|[Hnil|]]; [done|by apply elem_of_nil in Hnil|done].
Qed.

(** ** Every operation of the chain *)
Ltac keeps_queue :=
  repeat first
    [ apply clear_pending_ok
    | apply keeps_ret | apply keeps_raise | apply keeps_reads
    | apply keeps_bind; [|intros ?] | apply keeps_try; [|intros ?] | apply keeps_each; intros ?
    | apply keeps_part; intros ? ?; apply same_queue_full; by split
    | apply keeps_modify; intros ?; apply same_queue_full; by split ].

Lemma pop_until_queue fuel id : keeps queue_full (pop_until fuel id).
Proof.
  induction fuel as [|fuel IH]; cbn [pop_until]; apply keeps_bind; try apply keeps_reads;
    intros head; destruct (id =? head); keeps_queue; apply IH.
Qed.

Lemma store_and_index_queue id b : keeps queue_full (store_and_index id b).
Proof.
  unfold store_and_index, on_fork_db. keeps_queue.
  apply keeps_modify. intros c. case_match; [done|]. apply same_queue_full; by split.
Qed.

Lemma push_block_queue b : keeps queue_full (push_block b).
Proof.
  unfold push_block. apply keeps_bind; [apply keeps_reads|intros id].
  apply keeps_bind; [apply store_and_index_queue|intros f]. apply keeps_bind; [apply keeps_reads|intros n].
  destruct (previous b =? id); [|destruct (can_link f && (n <? block_num b))]; keeps_queue;
    apply pop_until_queue.
Qed.

Lemma reachable_queue (U : signed_block_header -> Prop) c c' :
  reachable U c c' -> queue_full c -> queue_full c'.
Proof.
  intros Hr. induction Hr as [|c1 c2 c3 Hs _ IH]; [done|]. intros Hc. apply IH.
  destruct Hs as [b c1 r c2 _ Hp Hret|t c1 r c2 Hq Hret|c1 t].
  - by eapply push_block_queue.
  - by eapply store_pending_ok.
  - revert Hc. apply same_queue_full. by split.
Qed.
End Queue.

(** * Blocks that a delegate generates from the queue: generation never fails, the block is
    within the maximal size, and the chain accepts its header once the delegate signed it. *)

Section Generate.
Context `{FC : Fc} `{FT : FcTransaction} `{FBl : FcBlock} `{FO : FcOperations} `{FB : FcBigint}.
Implicit Types (c : chain) (b : full_block).

(** The loop ends with some of the transactions, in their order, whose size is bounded. What
    a transaction throws is caught. *)
Lemma take_transactions_spec chain_id trxs g r :
  take_transactions chain_id trxs g = r -> returned r ->
  0 <= taken_size g <= BTS_BLOCKCHAIN_MAX_BLOCK_SIZE ->
  exists g' some, r = Ok g' /\ 0 <= taken_size g' <= BTS_BLOCKCHAIN_MAX_BLOCK_SIZE /\
    taken g' = taken g ++ some /\ some `sublist_of` trxs.
Proof.
  revert g. induction trxs as [|t trxs IH]; cbn [take_transactions]; intros g Hg Hr Hsize.
  { exists g, []. by rewrite app_nil_r. }
  destruct (Z.ltb_spec BTS_BLOCKCHAIN_MAX_BLOCK_SIZE (uint64 (taken_size g + data_size t))) as [|Hle].
  { exists g, []. rewrite app_nil_r. repeat split; try done; [lia|lia|apply sublist_nil_l]. }
  assert (Hpos : 0 <= uint64 (taken_size g + data_size t)) by (apply Z.mod_pos_bound; lia).
  unfold try_transaction in Hg. destruct (evaluate t _) as [e|e].
  - cbn [bind] in Hg. destruct (IH _ Hg Hr) as (g' & some & Hg' & Hs & Ht & Hsub); [done|].
    exists g', (t :: some). repeat split; try done; [lia|lia| |by apply sublist_skip].
    rewrite Ht. cbn [taken]. by rewrite <- app_assoc.
  - destruct (is_fc_exception e) eqn:Ee; cbn [bind] in Hg.
    + destruct (IH _ Hg Hr) as (g' & some & Hg' & Hs & Ht & Hsub); [done|].
      exists g', some. repeat split; try done; [lia|lia|by apply sublist_cons].
    + subst r. unfold returned in Hr. congruence.
Qed.

(** The queue holds a transaction once. *)
Lemma pending_ids c :
  queue_ok c -> map trx_id (map trx (get_pending_transactions c)) = queued_ids (pending_fee_index c).
Proof.
  intros Hq. unfold get_pending_transactions, queued_ids. rewrite !map_map.
  apply map_ext_in. intros [k e] Hin. apply list_elem_of_In in Hin.
  by destruct (queue_entry c Hq k e Hin) as [-> _].
Qed.

(** What the wallet of the delegate adds to the block: its two secrets and its signature. *)
Definition sealed (secret_hash secret signature : Z) b : full_block :=
  FullBlock
    (SignedBlockHeader
       (BlockHeader (previous b) (block_num b) (fee_rate b) (delegate_pay_rate b) (timestamp b)
          (transaction_digest b) secret_hash secret) signature)
    (user_transactions b).

Lemma generate_returns c t r : generate_block c t = r -> returned r -> exists b, r = Ok b.
Proof.
  intros Hg Hr. unfold generate_block in Hg.
  destruct (take_transactions _ _ _) as [g|e] eqn:Etake; cbn [bind] in Hg; subst r; [by eexists|].
  by destruct (take_transactions_spec _ _ _ _ Etake Hr) as (? & ? & [=] & _).
Qed.
(** What was generated, once it is sealed. *)
Lemma generated_verifies c t b id a secret_hash secret signature :
  queue_ok c -> generate_block c t = Ok b ->
  get_signing_delegate_id (db c) t = Ok id -> get_account_record (db c) id = Some a ->
  Z.rem t BTS_BLOCKCHAIN_BLOCK_INTERVAL_SEC = 0 ->
  timestamp (head_block_header (db c)) < t <=
    wall_clock (db c) + Z.quot BTS_BLOCKCHAIN_BLOCK_INTERVAL_SEC 2 ->
  0 <= fee_rate (head_block_header (db c)) <= BTS_BLOCKCHAIN_MIN_FEE ->
  let b' := sealed secret_hash secret signature b in
  recover_key signature (block_digest b') = Some (active_key a) ->
  0 <= block_size b' <= 2 * BTS_BLOCKCHAIN_MAX_BLOCK_SIZE ->
  verify_header c b' = Ok tt.
Proof.
  intros Hq Hg Hid Ha Ht Hlate Hfee b' Hsig Hsize. unfold generate_block in Hg.
  apply bind_ok in Hg as (g & Etake & [= <-]).
  destruct (take_transactions_spec _ _ _ _ Etake I) as (g' & some & [= <-] & Hg & Htaken & Hsub); [done|].
  apply verify_header_ok. split; try done.
  - apply Hlate.
  - apply Hlate.
  - transitivity BTS_BLOCKCHAIN_MIN_FEE; [|symmetry; by apply next_fee_least].
    apply next_fee_least; [done|]. change BTS_BLOCKCHAIN_MAX_BLOCK_SIZE with 104857 in *. lia.
  - cbn. rewrite Htaken. cbn [taken app]. apply (sublist_NoDup _ (queued_ids (pending_fee_index c))).
    + apply (queue_once c Hq).
    + rewrite <- (pending_ids c Hq). exact (fmap_sublist trx_id _ _ Hsub).
  - by exists id, a.
Qed.

(** A delegate can always make the next block. Generating a block never fails,
    whatever is queued (short of a crash of an evaluation), and the header of the block,
    sealed by the delegate whose turn it is, verifies: for a slot after the head block that
    is not in the future, while the fee rate is the least one, which [next_fee] never
    leaves. *)
Theorem generated_block_verifies c t r id a :
  queue_ok c -> generate_block c t = r -> returned r ->
  get_signing_delegate_id (db c) t = Ok id -> get_account_record (db c) id = Some a ->
  Z.rem t BTS_BLOCKCHAIN_BLOCK_INTERVAL_SEC = 0 ->
  timestamp (head_block_header (db c)) < t <=
    wall_clock (db c) + Z.quot BTS_BLOCKCHAIN_BLOCK_INTERVAL_SEC 2 ->
  0 <= fee_rate (head_block_header (db c)) <= BTS_BLOCKCHAIN_MIN_FEE ->
  exists b, r = Ok b /\
    forall secret_hash secret signature,
      let b' := sealed secret_hash secret signature b in
      recover_key signature (block_digest b') = Some (active_key a) ->
      0 <= block_size b' <= 2 * BTS_BLOCKCHAIN_MAX_BLOCK_SIZE ->
      verify_header c b' = Ok tt.
Proof.
  intros Hq Hg Hr Hid Ha Ht Hlate Hfee.
  destruct (generate_returns c t r Hg Hr) as [b ->]. exists b. split; [done|]. intros h s sg. by eapply generated_verifies.
Qed.
End Generate.
