(* ===== verification/Genesis.v ===== *)
(** The genesis: the state that [initialize_genesis] of [chain_database.cpp] stores, from
    which every chain starts. *)
From S2P Require Import Prelude.
From S2P Require Export Chain.

Definition BTS_BLOCKCHAIN_INITIAL_SHARES : Z := Z.quot BTS_BLOCKCHAIN_MAX_SHARES 100.
Definition BTS_BLOCKCHAIN_SYMBOL : string := "XTS".
Definition BTS_BLOCKCHAIN_NAME : string := "BitShares XTS".
Definition BTS_BLOCKCHAIN_DESCRIPTION : string := "Stake in future BitShares X chains".
Definition BTS_BLOCKCHAIN_PRECISION : Z := 1000000.

(** [name_config]. *)
Record name_config := NameConfig {
  config_name : string; config_is_delegate : bool; config_owner : Z }.

(** [genesis_block_config]. A balance is the [pts_address] of its owner and what the code
    reads of the [double]: [int64_t(item.second/1000)]. *)
Record genesis_block_config := GenesisBlockConfig {
  config_supply : Z;
  config_precision : Z;
  config_timestamp : Z;
  config_base_symbol : string;
  config_base_name : string;
  config_base_description : string;
  config_balances : list (Z * Z);
  config_names : list name_config
}.

(** What the genesis uses of fc: the hash of the configuration, the hash that makes an
    address of a [pts_address], and integers of 128 bits. *)
Class FcGenesis := {
  hash_config : genesis_block_config -> Z;
  address_of_pts_address : Z -> Z;
  u128 : Type;
  u128_of_int64 : Z -> u128;
  u128_add : u128 -> u128 -> u128;
  u128_mul : u128 -> u128 -> u128;
  u128_div : u128 -> u128 -> result u128;
  u128_gt : u128 -> u128 -> bool;
  low_bits : u128 -> Z
}.

(** Assignments to members. *)
Definition with_dates (t : Z) (r : account_record) : account_record :=
  AccountRecord (account_id r) (account_name r) (account_public_data r) (owner_key r)
    (active_key_history r) t t (delegate_info r) (meta_data r).
Definition with_chain_id (id : Z) (c : chain) : chain :=
  Chain (db c) (fork_number_db c) (fork_db c) (undo_state_db c) (block_num_to_id_db c)
    (block_id_to_block_record_db c) (head_block_id c) (pending_transaction_db c)
    (pending_fee_index c) (pending_trx_state c) id.

(** A chain whose databases were just made, when the clock shows [clock]. *)
Definition new_header : signed_block_header :=
  SignedBlockHeader (BlockHeader 0 0 0 0 0 0 0 0) 0.
Definition new_database (clock : Z) : chain_database :=
  ChainDatabase ∅ ∅ ∅ ∅ ∅ ∅ ∅ ∅ ∅ ∅ ∅ ∅ ∅ ∅ ∅ new_header clock.
Definition new_chain (clock : Z) : chain :=
  Chain (new_database clock) ∅ ∅ ∅ ∅ ∅ 0 ∅ [] None 0.

Section Genesis.
Context `{FC : Fc} `{FG : FcGenesis}.
Implicit Types (d : chain_database) (c : chain) (cfg : genesis_block_config).

(** ** Accounts *)

(** The account without keys. *)
Definition god : account_record := AccountRecord 0 "god" variant_null 0 [] 0 0 None None.

(** The body of the loop over the names. *)
Definition genesis_account (clock time id : Z) (n : name_config) : result account_record :=
  let* rec := set_active_key clock (config_owner n)
    (AccountRecord id (config_name n) variant_null (config_owner n) [] 0 0 None None) in
  let rec := with_dates time rec in
  Ok (if config_is_delegate n then with_delegate_info (Some delegate_stats_default) rec else rec).

(** The loop: the ids of the delegates and the accounts stored, from [id] on. *)
Fixpoint store_names (clock time id : Z) (names : list name_config) (delegate_ids : list Z) d
    : result (list Z * chain_database) :=
  match names with
  | [] => Ok (delegate_ids, d)
  | n :: names =>
      let* rec := genesis_account clock time id n in
      let delegate_ids := if config_is_delegate n then delegate_ids ++ [id] else delegate_ids in
      store_names clock time (id + 1) names delegate_ids (store_account_record d rec)
  end.

(** ** Balances *)

(** [amount] shares for [owner], which vote for the delegate. *)
Definition store_initial_balance (time owner amount delegate_id : Z) d : chain_database :=
  let initial_balance := BalanceRecord amount
    (condition_with_signature (WithSignature owner None) 0 delegate_id) 0 in
  let amount :=
    match get_balance_record d (balance_id initial_balance) with
    | Some cur => int64 (amount + balance cur)
    | None => amount
    end in
  store_balance_record d (BalanceRecord amount (condition initial_balance) time).

Definition store_initial_votes (time amount delegate_id : Z) d : result chain_database :=
  let* da := fetch delegate_id (account_db d) in
  let* info := deref (delegate_info da) in
  let info := with_votes (int64 (votes_for_ info + amount)) (votes_against_ info) info in
  Ok (store_account_record d (with_dates time (with_delegate_info (Some info) da))).

Definition store_initial (time owner amount delegate_id : Z) d : result chain_database :=
  store_initial_votes time amount delegate_id
    (store_initial_balance time owner (int64 amount) delegate_id d).

(** The body of the loop over the balances: a large balance is spread over all delegates. *)
Definition genesis_balance (time : Z) (total_unscaled : u128) (delegate_ids : list Z)
    (n : Z) (item : Z * Z) d : result chain_database :=
  let owner := address_of_pts_address item.1 in
  let initial := u128_mul (u128_of_int64 item.2) (u128_of_int64 BTS_BLOCKCHAIN_INITIAL_SHARES) in
  let* initial := u128_div initial total_unscaled in
  if u128_gt initial (u128_of_int64 (Z.quot BTS_BLOCKCHAIN_INITIAL_SHARES 1000)) then
    let* initial := u128_div initial (u128_of_int64 (Z.of_nat (length delegate_ids))) in
    foldM (fun d id => store_initial time owner (low_bits initial) id d) d delegate_ids
  else
    store_initial time owner (low_bits initial) (n mod Z.of_nat (length delegate_ids) + 1) d.

Fixpoint store_balances (time : Z) (total_unscaled : u128) (delegate_ids : list Z) (n : Z)
    (items : list (Z * Z)) d : result chain_database :=
  match items with
  | [] => Ok d
  | item :: items =>
      let n := n + 1 in
      let* d := genesis_balance time total_unscaled delegate_ids n item d in
      store_balances time total_unscaled delegate_ids n items d
  end.

(** ** The base asset *)
Definition balances_total d : result asset :=
  foldM (fun t (kv : Z * balance_record) =>
    let ind := get_balance kv.2 in
    let* _ := FC_ASSERT (0 <=? amount ind) in asset_plus_assign t ind)
    (Asset 0 0) (level_list (balance_db d)).

Definition base_asset (time amount : Z) : asset_record :=
  AssetRecord 0 BTS_BLOCKCHAIN_SYMBOL BTS_BLOCKCHAIN_NAME BTS_BLOCKCHAIN_DESCRIPTION variant_null
    (account_id god) BTS_BLOCKCHAIN_PRECISION time 0 amount BTS_BLOCKCHAIN_MAX_SHARES 0.

(** ** The whole *)
Definition genesis_fork : block_fork_data := BlockForkData ∅ true (Some true) true true.

Definition genesis_properties cfg d : chain_database :=
  let d := set_property d active_delegate_list_id_prop (variant_ids (next_round_active_delegates d)) in
  let d := set_property d last_asset_id_prop (variant_int 0) in
  let d := set_property d last_proposal_id_prop (variant_int 0) in
  let d := set_property d last_account_id_prop (variant_int (Z.of_nat (length (config_names cfg)))) in
  let d := set_property d last_random_seed_id_prop (variant_hash 0) in
  set_property d confirmation_requirement_prop (variant_int (BTS_BLOCKCHAIN_NUM_DELEGATES * 2)).

(** What is stored in the database, up to the last check. *)
Definition genesis_database cfg d : result chain_database :=
  let d := set_property d chain_id_prop (variant_hash (hash_config cfg)) in
  let total_unscaled := foldl (fun t (item : Z * Z) => u128_add t (u128_of_int64 item.2))
    (u128_of_int64 0) (config_balances cfg) in
  let* _ := FC_ASSERT (BTS_BLOCKCHAIN_NUM_DELEGATES <=?
    Z.of_nat (length (List.filter config_is_delegate (config_names cfg)))) in
  let d := store_account_record d god in
  let time := config_timestamp cfg in
  let* (delegate_ids, d) := store_names (wall_clock d) time 1 (config_names cfg) [] d in
  let* d := store_balances time total_unscaled delegate_ids 0 (config_balances cfg) d in
  let* total := balances_total d in
  let d := store_asset_record d (base_asset time (amount total)) in
  Ok (genesis_properties cfg d).

Definition initialize_genesis cfg c : result chain :=
  if negb (chain_id c =? 0) then let* _ := sanity_check (db c) in Ok c
  else
    let* d := genesis_database cfg (db c) in
    let* _ := sanity_check d in
    Ok (with_chain_id (hash_config cfg) (with_fork_db (<[0 := genesis_fork]> (fork_db c)) (with_db d c))).
End Genesis.
