(* ===== verification/Origin.v ===== *)
(** From the genesis on: the genesis is well-formed, and with it every chain that grows from
    it; the ledger is the one that the blocks of the chain build, and the supply of every
    asset is what circulates of it. *)
From stdpp Require Import relations sorting.
From S2P Require Import Prelude Totals Conservation Undo BlockEffects ForkTree History Supply.
From S2P Require Import Queue Genesis Totals.

(** ** Sums *)
Section Sums.
Context {K A : Type} `{Countable K} (f : K -> A -> Z).

Definition list_total (l : list (K * A)) : Z := foldr (fun kv acc => f kv.1 kv.2 + acc) 0 l.

Lemma list_total_perm l l' : l ≡ₚ l' -> list_total l = list_total l'.
Proof. unfold list_total. induction 1; cbn [foldr]; lia. Qed.

Lemma total_list (m : gmap K A) : total f m = list_total (map_to_list m).
Proof.
  induction m as [|k r m Hk IH] using map_ind.
  - by rewrite total_empty, map_to_list_empty.
  - rewrite total_insert_fresh by done. rewrite (list_total_perm _ ((k, r) :: map_to_list m)).
    + rewrite IH. done.
    + by apply map_to_list_insert.
Qed.

Lemma total_zero (m : gmap K A) : (forall k r, m !! k = Some r -> f k r = 0) -> total f m = 0.
Proof.
  intros Hf. rewrite total_list. assert (Hl : forall kv, kv ∈ map_to_list m -> f kv.1 kv.2 = 0).
  { intros [k r] Hin. apply Hf. by apply elem_of_map_to_list. }
  induction (map_to_list m) as [|kv l IH]; [done|]. cbn. rewrite (Hl kv) by (by left).
  apply IH. intros kv' Hin. apply Hl. by right.
Qed.
End Sums.

Section Origin.
Context `{FC : Fc} `{FT : FcTransaction} `{FBl : FcBlock} `{FO : FcOperations} `{FB : FcBigint}.
Context `{FG : FcGenesis}.
Implicit Types (d : chain_database) (c : chain) (L : ledger) (cfg : genesis_block_config).

(** ** The ledger while the genesis is built *)

(** The accounts are among the first [n], without pay; the balances hold the base asset. *)
Record starting (n : Z) L : Prop := {
  starting_accounts id r : l_accounts L !! id = Some r ->
    account_id r = id /\ account_is_null r = false /\ 1 <= id <= n /\
    (forall i, delegate_info r = Some i -> pay_balance i = 0);
  starting_balances id r : l_balances L !! id = Some r ->
    balance_id r = id /\ balance_is_null r = false /\ condition_asset_id (condition r) = 0;
  starting_props id v : l_props L !! id = Some v -> variant_is_null v = false;
  starting_rest : l_assets L = ∅ /\ l_bids L = ∅ /\ l_asks L = ∅
}.

Lemma put_forall {K A} `{Countable K} (P : K -> A -> Prop) (null : A -> bool) k r (m : gmap K A) :
  (forall i q, m !! i = Some q -> P i q) -> (null r = false -> P k r) ->
  forall i q, put false null k r m !! i = Some q -> P i q.
Proof.
  intros Hm Hr i q. rewrite put_lookup. destruct (decide (k = i)) as [<-|]; [|by apply Hm].
  cbn. destruct (null r) eqn:E; cbn; [done|]. intros [= <-]. by apply Hr.
Qed.

(** The same of a database, which has no block yet. *)
Definition starting_db n d : Prop := starting n (ledger_of d) /\ head_block_header d = new_header.

Lemma head_store_account d r :
  head_block_header (store_account_record d r) = head_block_header d.
Proof.
  cbn. unfold db_store_account_record. destruct (account_is_null r); [|done].
  by destruct (db_get_account_record d _).
Qed.

Lemma starting_store_account n d r :
  starting_db n d ->
  (account_is_null r = false -> 1 <= account_id r <= n /\
    forall i, delegate_info r = Some i -> pay_balance i = 0) ->
  starting_db n (store_account_record d r).
Proof.
  intros [[Ha Hb Hp Hr] Hh] Hnew. split; [|by rewrite head_store_account]. rewrite (ledger_store_account (ChainStores := database_stores)).
  split; [|done..]. apply put_forall; [exact Ha|]. intros E. split; [done|]. split; [done|]. auto.
Qed.

Lemma starting_store_balance n d r :
  starting_db n d -> condition_asset_id (condition r) = 0 ->
  starting_db n (store_balance_record d r).
Proof.
  intros [[Ha Hb Hp Hr] Hh] Hnew. split; [|done]. rewrite (ledger_store_balance (ChainStores := database_stores)).
  split; [done| |done..]. apply put_forall; [exact Hb|]. intros E. done.
Qed.

Lemma starting_set_property n d p v :
  starting_db n d -> starting_db n (set_property d p v).
Proof.
  intros [[Ha Hb Hp Hr] Hh]. split; [|done]. rewrite (ledger_set_property (ChainStores := database_stores)).
  split; [done|done| |done]. apply put_forall; [exact Hp|]. done.
Qed.

Lemma starting_new n clock : starting_db n (new_database clock).
Proof. split; [by split|done]. Qed.

Lemma starting_names n clock time id names ids d ids' d' :
  store_names clock time id names ids d = Ok (ids', d') ->
  1 <= id -> id - 1 + Z.of_nat (length names) <= n ->
  starting_db n d -> starting_db n d'.
Proof.
  revert id ids d. induction names as [|a names IH]; cbn [store_names length]; intros id ids d Hs Hid Hn Hd.
  { apply Ok_inj in Hs. by injection Hs as <- <-. }
  apply bind_ok in Hs as (rec & Hrec & Hs). eapply IH; [exact Hs|lia|lia|].
  unfold genesis_account, set_active_key in Hrec. inv_ok. apply starting_store_account; [done|].
  intros _. split; destruct (config_is_delegate a); cbn; try lia; intros i [= <-]; done.
Qed.

Lemma starting_initial n time owner amount id d d' :
  store_initial time owner amount id d = Ok d' -> starting_db n d -> starting_db n d'.
Proof.
  unfold store_initial, store_initial_votes. intros Hs Hd.
  apply bind_ok in Hs as (da & Hda & Hs). apply bind_ok in Hs as (info & Hi & Hs). inv_ok.
  set (d1 := store_initial_balance time owner (int64 amount) id d) in *.
  assert (Hd1 : starting_db n d1) by (by apply starting_store_balance).
  unfold fetch in Hda. inv_ok. unfold deref in Hi. inv_ok.
  match goal with H : account_db d1 !! _ = Some da |- _ =>
    destruct (starting_accounts n _ (proj1 Hd1) _ _ H) as (Hid & _ & Hr & Hpay) end.
  apply starting_store_account; [done|]. intros _. cbn. rewrite Hid. split; [done|].
  intros i [= <-]. cbn. by apply Hpay.
Qed.

Lemma starting_balance n time total ids k item d d' :
  genesis_balance time total ids k item d = Ok d' -> starting_db n d -> starting_db n d'.
Proof.
  unfold genesis_balance. intros Hs Hd. apply bind_ok in Hs as (initial & _ & Hs).
  destruct (u128_gt _ _); [|by eapply starting_initial].
  apply bind_ok in Hs as (share & _ & Hs). revert Hs.
  apply (foldM_inv (fun d => starting_db n d)); [|done].
  intros d1 id d2 Hd1 H. by eapply starting_initial.
Qed.

Lemma starting_balances_all n time total ids k items d d' :
  store_balances time total ids k items d = Ok d' -> starting_db n d -> starting_db n d'.
Proof.
  revert k d. induction items as [|item items IH]; cbn [store_balances]; intros k d Hs Hd; inv_ok; [done|].
  eapply IH; [done|]. by eapply starting_balance.
Qed.

(** ** The ledger of the genesis *)

(** The accounts do not change while the total is taken and the rest is stored. *)
Lemma balances_total_is d t :
  balances_total d = Ok t -> asset_id t = 0 /\ amount t == total (balance_in 0) (balance_db d).
Proof.
  unfold balances_total. intros Ht. rewrite total_list.
  rewrite <- (list_total_perm _ _ _ (merge_sort_Permutation key_le (map_to_list (balance_db d)))).
  fold (level_list (balance_db d)). revert Ht.
  cut (forall a, asset_id a = 0 -> foldM (fun t (kv : Z * balance_record) =>
    let ind := get_balance kv.2 in
    let* _ := FC_ASSERT (0 <=? amount ind) in asset_plus_assign t ind) a (level_list (balance_db d)) = Ok t ->
    asset_id t = 0 /\ amount t == amount a + list_total (balance_in 0) (level_list (balance_db d))).
  { intros H Ht. destruct (H (Asset 0 0) eq_refl Ht) as [Hid Ha]. split; [done|]. rewrite Ha. cbn [amount]. by rewrite Z.add_0_l. }
  induction (level_list (balance_db d)) as [|[k r] l IH]; cbn [foldM]; intros a Ha Ht.
  { apply Ok_inj in Ht as <-. split; [done|]. cbn. by rewrite Z.add_0_r. }
  apply bind_ok in Ht as (a' & Hstep & Ht). inv_ok.
  unfold asset_plus_assign in Hstep. inv_ok.
  destruct (IH (Asset _ (asset_id a)) Ha Ht) as [Hid Ham]. split; [done|]. rewrite Ham. cbn [amount].
  assert (E : balance_in 0 k r = balance r).
  { unfold balance_in. match goal with H : (asset_id a =? _) = true |- _ =>
      apply Z.eqb_eq in H; cbn in H; rewrite <- H, Ha end. done. }
  cbn [list_total foldr fst snd]. rewrite E. cbn. fold (list_total (balance_in 0) l). eqm_lia.
Qed.

Section Built.
Context (cfg : genesis_block_config) (clock : Z).
Notation n := (Z.of_nat (length (config_names cfg))).

(** What [genesis_database] stores, before the base asset and the properties. *)
Lemma genesis_database_built d' :
  genesis_database cfg (new_database clock) = Ok d' ->
  exists d t, starting_db n d /\ balances_total d = Ok t /\
    d' = genesis_properties cfg (store_asset_record d (base_asset (config_timestamp cfg) (amount t))).
Proof.
  unfold genesis_database. intros Hd. apply bind_ok in Hd as (u & _ & Hd).
  apply bind_ok in Hd as ([ids d1] & Hnames & Hd). apply bind_ok in Hd as (d2 & Hbal & Hd).
  apply bind_ok in Hd as (t & Ht & Hd). apply Ok_inj in Hd as <-.
  exists d2, t. split; [|done]. eapply starting_balances_all; [exact Hbal|].
  eapply starting_names; [exact Hnames|lia|lia|].
  apply starting_store_account; [|done]. apply starting_set_property, starting_new.
Qed.

(** The ledger of the genesis, from that before. *)
Definition genesis_ledger L (a : asset_record) (ids : variant) : ledger :=
  Ledger {[ 0 := a ]} (l_balances L) (l_accounts L) ∅ ∅
    (<[confirmation_requirement_prop := variant_int (BTS_BLOCKCHAIN_NUM_DELEGATES * 2)]>
    (<[last_random_seed_id_prop := variant_hash 0]>
    (<[last_account_id_prop := variant_int n]>
    (<[last_proposal_id_prop := variant_int 0]>
    (<[last_asset_id_prop := variant_int 0]>
    (<[active_delegate_list_id_prop := ids]> (l_props L))))))).

Lemma genesis_ledger_is d t :
  starting n (ledger_of d) ->
  exists ids, ledger_of (genesis_properties cfg (store_asset_record d (base_asset (config_timestamp cfg) t))) =
    genesis_ledger (ledger_of d) (base_asset (config_timestamp cfg) t) (variant_ids ids).
Proof.
  intros [_ _ _ (Ea & Eb & Ek)]. unfold genesis_properties.
  rewrite !(ledger_set_property (ChainStores := database_stores)).
  rewrite (ledger_store_asset (ChainStores := database_stores)).
  eexists. unfold genesis_ledger, put_prop, put_asset. cbn [overlay database_stores l_assets l_balances
    l_accounts l_bids l_asks l_props]. rewrite Ea, Eb, Ek. reflexivity.
Qed.

Lemma genesis_ledger_ok L t ids :
  starting n L -> let G := genesis_ledger L (base_asset (config_timestamp cfg) t) (variant_ids ids) in
  ledger_ok G /\ (forall k, n + k < 2 ^ 31 -> 0 <= k -> wf k G) /\ l_accounts G !! 0 = None.
Proof.
  intros [Ha Hb Hp Hr]. cbn. split; [split|split].
  - split; cbn; intros id r Hid.
    + by apply lookup_singleton_Some in Hid as [<- <-].
    + by apply Hb.
    + by apply Ha.
  - unfold live_ledger, genesis_ledger. cbn [l_assets l_balances l_accounts l_bids l_asks l_props].
    f_equal; apply live_id; intros k r Hk.
    + by apply Hb in Hk as (_ & ? & _).
    + by apply Ha in Hk as (_ & ? & _).
    + repeat (apply lookup_insert_Some in Hk as [[_ <-]|[_ Hk]]; [done|]). by eapply Hp.
  - intros k Hk Hk0. split.
    + split; cbn; intros id r Hid.
      * by apply lookup_singleton_Some in Hid as [<- <-].
      * by apply Hb.
      * by apply Ha.
    + exists 0. repeat split; [cbn; rewrite !lookup_insert_ne by done; apply lookup_insert_eq|lia|lia|]. intros id r Hid.
      cbn in Hid. by apply lookup_singleton_Some in Hid as [<- _].
    + exists n. repeat split; [cbn; rewrite !lookup_insert_ne by done; apply lookup_insert_eq|lia|lia|]. intros id r Hid.
      cbn in Hid. by apply Ha in Hid as (_ & _ & [_ ?] & _).
  - cbn. destruct (l_accounts L !! 0) as [r|] eqn:E; [|done]. apply Ha in E. lia.
Qed.

(** ** The excess of the genesis *)
Lemma genesis_excess bid_asset ask_asset d t ids :
  starting n (ledger_of d) -> balances_total d = Ok t ->
  forall a, excess bid_asset ask_asset (genesis_ledger (ledger_of d) (base_asset (config_timestamp cfg) (amount t)) ids) a == 0.
Proof.
  intros [Ha Hb _ _] Ht a. apply balances_total_is in Ht as [_ Ht].
  unfold excess, circulating, supply, genesis_ledger.
  cbn [l_assets l_balances l_accounts l_bids l_asks]. rewrite !total_empty.
  rewrite (total_zero (pay_in a) (l_accounts (ledger_of d))).
  2: { intros k r Hk. unfold pay_in. destruct (a =? 0); [|done].
       destruct (delegate_info r) as [i|] eqn:Ei; [|done]. apply Ha in Hk as (_ & _ & _ & Hpay). auto. }
  destruct (decide (a = 0)) as [->|Hne].
  - rewrite lookup_singleton_eq. cbn [current_share_supply base_asset].
    change (l_balances (ledger_of d)) with (balance_db d). rewrite Ht. apply eqm_refl_eq. lia.
  - rewrite lookup_singleton_ne by done. rewrite total_zero; [done|].
    intros k r Hk. apply Hb in Hk as (_ & _ & E). unfold balance_in. rewrite E.
    by destruct (Z.eqb_spec 0 a).
Qed.

(** The chain after the genesis. *)
Lemma initialized c :
  initialize_genesis cfg (new_chain clock) = Ok c ->
  exists d, genesis_database cfg (new_database clock) = Ok d /\
    c = with_chain_id (hash_config cfg) (with_fork_db {[ 0 := genesis_fork ]} (with_db d (new_chain clock))).
Proof.
  unfold initialize_genesis. cbn [chain_id new_chain Z.eqb negb]. intros Hc.
  apply bind_ok in Hc as (d & Hd & Hc). apply bind_ok in Hc as (u & _ & Hc). apply Ok_inj in Hc as <-.
  by exists d.
Qed.

Lemma genesis_tree parent rank : tree_ok parent rank {[ 0 := genesis_fork ]}.
Proof.
  assert (Hno : forall x y, ~ child {[ 0 := genesis_fork ]} x y).
  { intros x y (r & Hr & Hy). apply lookup_singleton_Some in Hr as [_ <-]. set_solver. }
  split.
  - intros x y Hxy. by apply Hno in Hxy.
  - intros x y Hxy. by apply Hno in Hxy.
  - intros x y Hxy. by apply Hno in Hxy.
  - intros x r Hr. apply lookup_singleton_Some in Hr as [<- <-]. by split.
Qed.

Lemma genesis_facts c :
  initialize_genesis cfg (new_chain clock) = Ok c ->
  let G := ledger_of (db c) in
  ledger_ok G /\ (forall k, n + k < 2 ^ 31 -> 0 <= k -> wf k G) /\ l_accounts G !! 0 = None /\
  (forall bid_asset ask_asset a, excess bid_asset ask_asset G a == 0) /\ head_block_header (db c) = new_header.
Proof.
  intros Hc. apply initialized in Hc as (d & Hd & ->).
  pose proof (genesis_database_built d Hd) as (d0 & t & [Hst Hh] & Ht & Ed).
  destruct (genesis_ledger_is d0 (amount t) Hst) as (ids & EG). rewrite <- Ed in EG.
  destruct (genesis_ledger_ok _ (amount t) ids Hst) as (Hok & Hwf & Hgod).
  cbn zeta. cbn [db with_chain_id with_fork_db with_db]. rewrite EG.
  repeat (split; [done|]). split; [intros; by apply genesis_excess|]. rewrite Ed. exact Hh.
Qed.

Context (U : signed_block_header -> Prop) (parent rank : Z -> Z).

Lemma genesis_chain_ok c :
  initialize_genesis cfg (new_chain clock) = Ok c -> chain_ok U parent rank (ledger_of (db c)) c.
Proof.
  intros Hc. apply genesis_facts in Hc as Hf. destruct Hf as (_ & _ & _ & _ & Hh).
  apply initialized in Hc as (d & _ & ->).
  split; cbn [fork_db block_id_to_block_record_db head_block_id undo_state_db db with_chain_id
    with_fork_db with_db new_chain]; [apply genesis_tree| |].
  - intros id r Hr. by apply lookup_empty_Some in Hr.
  - exists []. split; [apply history_genesis; cbn in Hh; by rewrite Hh|].
    split; [|split; [|by intros b ?%elem_of_nil]].
    + intros _ num id. split; [intros Hid; cbn in Hid; by rewrite lookup_empty in Hid|].
      by intros (b & ?%elem_of_nil & _).
    + intros id. unfold included. destruct (decide (id = 0)) as [->|Hne].
      * rewrite lookup_singleton_eq. by split; [left|].
      * rewrite lookup_singleton_ne by done. split; [done|].
        by intros [->|(b & ?%elem_of_nil & _)].
Qed.

Lemma genesis_queue c : initialize_genesis cfg (new_chain clock) = Ok c -> queue_full c.
Proof.
  intros Hc. apply initialized in Hc as (d & _ & ->). split; [split|]; cbn.
  - constructor.
  - constructor.
  - intros k e Hin. by apply elem_of_nil in Hin.
  - intros id q Hq. by apply lookup_empty_Some in Hq.
  - intros id [q Hq]. by apply lookup_empty_Some in Hq.
Qed.


(** ** Every chain that grows from it *)
Context (HU : ids_ok U parent rank).

(** C2: Forks leave no trace. Start from a genesis, push blocks in any order, on any
    fork, valid or not, queue transactions, let time pass: the ledger of the chain, that is
    all assets, balances, accounts, orders and properties, is then the one that the blocks of
    its official chain build from the ledger of the genesis, each verified against the
    state that the blocks before it left; and the undo state of each restores that state.
    These blocks and the genesis are the ones marked as included, and the index by numbers
    lists them. The tree of blocks is well-formed. *)
Theorem forks_leave_no_trace c c' :
  initialize_genesis cfg (new_chain clock) = Ok c -> reachable U c c' ->
  tree_ok parent rank (fork_db c') /\
  exists bs, history U (ledger_of (db c)) (undo_state_db c') bs (head_block_id c')
    (head_block_header (db c')) (ledger_of (db c')) /\
    indexed bs (block_num_to_id_db c') (fork_db c') (block_id_to_block_record_db c').
Proof.
  intros Hc Hr. pose proof (genesis_chain_ok c Hc) as Hok.
  apply genesis_facts in Hc as (HG & _).
  destruct (reachable_ok U parent rank HU _ c c' HG Hr Hok) as [Ht _ Hh]. by split.
Qed.

(** C28: The queue of pending transactions. In every state that a chain reaches from
    its genesis, by pushing blocks and queueing transactions, the queue is sorted by falling fees and then by
    ids, holds exactly the transactions stored as pending, each once, and each under the
    fees that its evaluation left. *)
Theorem queue_invariant c c' :
  initialize_genesis cfg (new_chain clock) = Ok c -> reachable U c c' -> queue_full c'.
Proof. intros Hc Hr. apply (reachable_queue U c c' Hr). by apply genesis_queue. Qed.

(** C1: The supply is what circulates. In every state that a chain reaches from its
    genesis, whatever blocks were pushed, undone and refused, the balances, the pay of
    delegates and the market orders hold, of every asset, exactly the shares that its record
    gives as the supply, modulo [2^64]: no operation, block or fork makes or loses shares.
    The conditions, which the code does not enforce: blocks keep the orders of one index of the
    market in one asset ([bid_taken_in_other_asset] shows what happens otherwise) and do not
    make accounts or assets that are null ([fair_block]); the genesis and the blocks have fewer than [2^31]
    accounts and operations in all; different blocks have different ids ([ids_ok]). *)
Theorem supply_is_circulating bid_asset ask_asset c c' :
  initialize_genesis cfg (new_chain clock) = Ok c -> reachable U c c' ->
  (forall b : full_block, U b -> validate_digest (digest_block_of b) = true -> fair_block bid_asset ask_asset b) ->
  exists bs,
    history U (ledger_of (db c)) (undo_state_db c') bs (head_block_id c')
      (head_block_header (db c')) (ledger_of (db c')) /\
    (n + chain_operations bs < 2 ^ 31 ->
     forall a, circulating bid_asset ask_asset (ledger_of (db c')) a == supply (ledger_of (db c')) a).
Proof.
  intros Hc Hr Hf. pose proof (genesis_chain_ok c Hc) as Hok.
  apply genesis_facts in Hc as (HG & Hwf & _ & Hx & _).
  destruct (reachable_conserves bid_asset ask_asset U parent rank HU _ c c' HG Hok Hr Hf) as (bs & Hh & Hcons).
  exists bs. split; [done|]. intros Hn a.
  destruct (Hcons 0) as [_ Hx']; [done|apply Hwf; [lia|]; apply chain_operations_nonneg|].
  specialize (Hx' a). rewrite Hx in Hx'. unfold excess in Hx'.
  rewrite <- (Z.sub_add (supply (ledger_of (db c')) a) (circulating _ _ _ a)), Hx'. by rewrite Z.add_0_l.
Qed.
End Built.
End Origin.
