(* ===== verification/Switching.v ===== *)
(** Switching to another fork: the path of blocks to it is found, its loops end, and after a
    block was pushed the head is that block or the one before. *)
From stdpp Require Import relations.
From S2P Require Import Prelude Conservation Undo BlockEffects ForkTree History Chain.

Section Switching.
Context `{FC : Fc} `{FT : FcTransaction} `{FBl : FcBlock} `{FO : FcOperations} `{FB : FcBigint}.
Context (U : signed_block_header -> Prop) (parent rank : Z -> Z) (HU : ids_ok U parent rank).
Context (G : ledger) (HG : ledger_ok G).
Implicit Types (c : chain) (b : full_block).
Notation chain_ok := (chain_ok U parent rank G).

(** ** The path to a fork *)

(** The ids after [id], each the one before the last: all are linked, and the path ends at
    the first that is in the chain. *)
Inductive fork_path c : Z -> list Z -> Prop :=
  | path_genesis id : parent id = 0 -> fork_path c id [0]
  | path_included id f : fork_db c !! parent id = Some f -> is_linked f = true ->
      is_included f = true -> fork_path c id [parent id]
  | path_step id f l : fork_db c !! parent id = Some f -> is_linked f = true ->
      is_included f = false -> fork_path c (parent id) l -> fork_path c id (parent id :: l).

Lemma fork_history_path n c id l :
  chain_ok c -> fork_history_from n c id = Ok l -> fork_path c id l.
Proof.
  intros Hc. revert id l. induction n as [|n IH]; cbn [fork_history_from]; intros id l Hl; [done|].
  apply bind_ok in Hl as (h & Hh & Hl). unfold get_block_header, deref in Hh. inv_ok.
  match goal with H : block_id_to_block_record_db c !! id = Some ?r |- _ =>
    destruct (ok_records _ _ _ _ _ Hc _ _ H) as (Hid & Hr & _);
    pose proof (ids_parent _ _ _ HU _ Hr) as Hp end.
  rewrite Hid in Hp. rewrite <- Hp in Hl. destruct (Z.eqb_spec (parent id) 0) as [E|E].
  { apply Ok_inj in Hl as <-. rewrite E. by constructor. }
  apply bind_ok in Hl as (f & Hf & Hl). apply bind_ok in Hl as ([] & Hk & Hl).
  unfold fetch in Hf. apply value_or_throw_ok in Hf. apply FC_ASSERT_ok in Hk.
  destruct (is_included f) eqn:Ei.
  - apply Ok_inj in Hl as <-. by eapply path_included.
  - apply bind_ok in Hl as (rest & Hrest & Hl). apply Ok_inj in Hl as <-.
    eapply path_step; try done. by apply IH.
Qed.

(** The records of blocks that come no later than [id]. *)
Definition earlier c (id : Z) : nat :=
  size (filter (fun kv : Z * block_record => rank kv.1 <= rank id) (block_id_to_block_record_db c)).

Lemma earlier_previous c id (r : block_record) :
  block_id_to_block_record_db c !! id = Some r -> rank (parent id) < rank id ->
  (earlier c (parent id) < earlier c id)%nat.
Proof.
  intros Hr Hlt. unfold earlier. apply map_subset_size. split.
  - apply map_subseteq_spec. intros k q. rewrite !map_lookup_filter_Some. intros [? ?]. cbn in *.
    split; [done|lia].
  - intros Hsub. apply map_subseteq_spec with (i := id) (x := r) in Hsub.
    + apply map_lookup_filter_Some in Hsub as [_ Hle]. cbn in Hle. lia.
    + apply map_lookup_filter_Some. split; [done|]. cbn. lia.
Qed.

Lemma fork_history_ends n c id :
  chain_ok c -> (earlier c id < n)%nat -> fork_history_from n c id <> Throw does_not_return.
Proof.
  intros Hc. revert id. induction n as [|n IH]; intros id Hn; [lia|]. cbn [fork_history_from].
  unfold get_block_header, deref. destruct (block_id_to_block_record_db c !! id) as [r|] eqn:E; [|done].
  cbn [value_or_throw bind]. destruct (ok_records _ _ _ _ _ Hc _ _ E) as (Hid & Hr & _).
  pose proof (ids_parent _ _ _ HU _ Hr) as Hp. pose proof (ids_rank _ _ _ HU _ Hr) as Hrk.
  rewrite Hid in Hp, Hrk.
  replace (previous (digest_header r)) with (parent id) by done. rewrite <- Hp in Hrk.
  destruct (parent id =? 0); [done|]. unfold fetch.
  destruct (fork_db c !! parent id) as [f|]; [|done]. cbn [value_or_throw bind].
  unfold FC_ASSERT, throw_if. destruct (is_linked f); [|done]. cbn [negb bind].
  destruct (is_included f); [done|].
  pose proof (earlier_previous c id r E Hrk) as Hless.
  specialize (IH (parent id) ltac:(lia)).
  destruct (fork_history_from n c (parent id)) as [l|e]; cbn [bind]; [done|congruence].
Qed.

Lemma get_fork_history_ends c id : chain_ok c -> get_fork_history c id <> Throw does_not_return.
Proof.
  intros Hc. unfold get_fork_history.
  assert (Hn : (earlier c id < S (size (block_id_to_block_record_db c)))%nat).
  { apply Nat.lt_succ_r. unfold earlier. apply map_subseteq_size, map_filter_subseteq. }
  pose proof (fork_history_ends _ c id Hc Hn).
  destruct (fork_history_from _ c id); cbn [bind]; [done|congruence].
Qed.

(** ** Undoing blocks *)

(** Every block counts one up, in 32 bits. *)
Lemma history_numbers undo bs id (h : signed_block_header) L :
  history U G undo bs id h L -> 0 <= block_num h < 2 ^ 32.
Proof.
  intros Hh. destruct Hh as [h Hh|bs c b s u Hh Hb Hv]; [lia|].
  rewrite (verify_header_num c b Hv). unfold uint32. apply Z.mod_pos_bound. lia.
Qed.

(** The block before the head, when there is a record of it. *)
Lemma pop_block_num c c' :
  chain_ok c -> pop_block c = (Ok tt, c') ->
  block_num (head_block_header (db c)) = block_num (head_block_header (db c')) + 1.
Proof.
  intros Hc Hp. pose proof Hc as [_ Hr (bs & Hh & _)]. unfold pop_block in Hp. inv_st.
  repeat match goal with H : Ok _ = Ok _ |- _ => apply Ok_inj in H; subst end.
  match goal with H : FC_ASSERT _ = Ok _ |- _ => apply FC_ASSERT_ok, Z.ltb_lt in H as Hpos end.
  unfold get_block_header, deref in *. inv_ok.
  match goal with H : on_fork_db _ c = _ |- _ => apply on_part_ok in H as (m & _ & ->) end.
  cbn [block_id_to_block_record_db with_head_block_id with_db with_block_num_to_id_db with_fork_db] in *.
  match goal with H : block_id_to_block_record_db c !! _ = Some ?q |- _ =>
    destruct (Hr _ _ H) as (Hq & HUq & _) end.
  cbn [db with_head_block_header with_db with_head_block_id head_block_header db_with_head].
  inversion Hh as [h Hh0 Ei|? c0 b s u Hh1 Hb1 Hv1 Hs1 Hu1 Ho1 Hl1 E1 E2 E3 E4]; subst; [lia|].
  rewrite <- E3 in Hq, Hpos. rewrite (verify_header_previous c0 b Hv1) in Hq.
  rewrite (history_header U parent rank HU _ _ _ _ _ _ _ Hh1 HUq Hq).
  pose proof (history_numbers _ _ _ _ _ Hh1). rewrite (verify_header_num c0 b Hv1) in Hpos |- *.
  unfold uint32 in *. destruct (decide (block_num (head_block_header (db c0)) + 1 = 2 ^ 32)) as [E|E].
  - rewrite E in Hpos. by rewrite Z.mod_same in Hpos.
  - apply Z.mod_small. lia.
Qed.

Lemma pop_until_ends n id c r c' :
  chain_ok c -> (Z.to_nat (block_num (head_block_header (db c))) < n)%nat ->
  pop_until n id c = (r, c') -> r <> Throw does_not_return.
Proof.
  revert c. induction n as [|n IH]; intros c Hc Hn; [lia|]. cbn [pop_until]. rewrite run_reads.
  destruct (id =? head_block_id c); [intros H; by injection H as <- <-|].
  unfold run_bind. destruct (pop_block c) as [[[]|e] c1] eqn:Ep; intros H.
  - pose proof (pop_block_num c c1 Hc Ep) as Hnum.
    assert (Hc1 : chain_ok c1) by (by eapply pop_block_ok).
    pose proof Hc1 as [_ _ (bs & Hh & _)]. pose proof (history_numbers _ _ _ _ _ Hh).
    eapply IH; [exact Hc1|lia|exact H].
  - injection H as <- <-. intros [= ->]. revert Ep. unfold pop_block, fetch, get_block_header, deref.
    rewrite !run_reads. unfold FC_ASSERT, throw_if. destruct (negb _); [done|].
    unfold run_bind at 1. unfold on_fork_db, on_part, mark_included. rewrite run_reads. unfold fetch.
    destruct (fork_db c !! _); cbn [value_or_throw]; [|done]. cbv [store_fork modify run_bind reads].
    destruct (_ !! head_block_id c); cbn [value_or_throw]; [|done].
    destruct (_ !! previous _); cbn [value_or_throw bind]; done.
Qed.

(** C39: Switching finds its way. On a chain that its blocks build, [get_fork_history]
    does not loop for ever, and what it returns is the path from the block back to the
    chain: the id, then for each the previous one, all linked, up to the first that is
    included or to the genesis. The loop that undoes blocks down to it ends as well, as
    blocks count up, in 32 bits. *)
Theorem get_fork_history_spec c id :
  chain_ok c ->
  get_fork_history c id <> Throw does_not_return /\
  (forall l, get_fork_history c id = Ok l -> exists l', l = id :: l' /\ fork_path c id l') /\
  (forall n target r c', (Z.to_nat (block_num (head_block_header (db c))) < n)%nat ->
     pop_until n target c = (r, c') -> r <> Throw does_not_return).
Proof.
  intros Hc. split; [by apply get_fork_history_ends|]. split.
  - intros l Hl. unfold get_fork_history in Hl. apply bind_ok in Hl as (l' & Hl' & Hl).
    apply Ok_inj in Hl as <-. exists l'. split; [done|]. by eapply fork_history_path.
  - intros n target r c' Hn. by apply pop_until_ends.
Qed.

(** ** The head *)
Lemma extend_chain_head b c c' : extend_chain b c = (Ok tt, c') -> head_block_id c' = block_id b.
Proof.
  unfold extend_chain. intros H. apply try_rethrow_ok in H.
  unfold apply_block, save_undo_state, update_head_block in H. inv_st.
  match goal with H : clear_pending b ?c1 = _ |- _ =>
    apply (proj1 (calm_clear_pending b)) in H as (_ & _ & _ & _ & E & _) end.
  cbn [head_block_id with_block_num_to_id_db]. by rewrite E.
Qed.

Lemma pop_until_head n id c c' : pop_until n id c = (Ok tt, c') -> head_block_id c' = id.
Proof.
  revert c. induction n as [|n IH]; intros c; cbn [pop_until]; rewrite run_reads;
    destruct (Z.eqb_spec id (head_block_id c)) as [->|]; intros H; try (by injection H as <-).
  - done.
  - apply run_bind_ok in H as ([] & c1 & _ & H). by eapply IH.
Qed.

Notation extend_each := (run_each (fun id => let! b := reads (fun c => get_block c id) in extend_chain b)).

Lemma extend_each_head ids id c c' :
  chain_ok c -> extend_each (ids ++ [id]) c = (Ok tt, c') -> head_block_id c' = id.
Proof.
  revert c. induction ids as [|i ids IH]; intros c Hc; cbn [app run_each]; intros H;
    apply run_bind_ok in H as ([] & c1 & Hi & H).
  - injection H as <-. inv_st.
    match goal with H : get_block c id = _ |- _ =>
      destruct (get_block_ok U parent rank G c id _ Hc H) as (<- & _) end.
    by eapply extend_chain_head.
  - eapply IH; [|exact H]. apply (extend_each_ok U parent rank HU G [i] c (Ok tt) c1 HG Hc); [|exact I].
    cbn [run_each]. unfold run_bind at 1. by rewrite Hi.
Qed.

Lemma fork_history_some n c id l : fork_history_from n c id = Ok l -> l <> [].
Proof.
  destruct n; cbn [fork_history_from]; [done|]. intros H. inv_run; try done.
Qed.

Lemma switch_to_fork_head id c c' :
  chain_ok c -> switch_to_fork id c = (Ok tt, c') -> head_block_id c' = id.
Proof.
  intros Hc. unfold switch_to_fork. intros H.
  apply run_bind_ok in H as (l & c1 & Hl & H). apply reads_ok in Hl as [Hl ->].
  apply run_bind_ok in H as (n & c1 & Hn & H). apply reads_ok in Hn as [_ ->].
  apply run_bind_ok in H as ([] & c1 & Hp & H).
  unfold get_fork_history in Hl. apply bind_ok in Hl as (l' & Hl' & Hl). apply Ok_inj in Hl as <-.
  apply fork_history_some in Hl'. destruct l' as [|x l']; [done|].
  change (removelast (id :: x :: l')) with (id :: removelast (x :: l')) in H. cbn [rev] in H.
  eapply extend_each_head; [|exact H]. by eapply pop_until_ok.
Qed.

(** C25: When [push_block] returns, the head of the chain is the block that was pushed or the one that was
    the head before, and nothing in between: when the switch to a longer fork fails half way
    and the chain could go back, it went back all the way. It is this block if it follows the
    head. When going back throws as well, so does [push_block], and nothing is said of the head. *)
Theorem push_block_head c b f c' :
  chain_ok c -> U b -> push_block b c = (Ok f, c') ->
  (head_block_id c' = block_id b \/ head_block_id c' = head_block_id c) /\
  (previous b = head_block_id c -> head_block_id c' = block_id b).
Proof.
  intros Hc Hb Hp. unfold push_block in Hp. rewrite run_reads in Hp.
  apply run_bind_ok in Hp as (f1 & c1 & Hs & Hp).
  pose proof (store_and_index_ok U parent rank HU G c b _ c1 Hc Hb Hs) as [Hc1 _].
  assert (Hh1 : head_block_id c1 = head_block_id c).
  { unfold store_and_index in Hs. inv_st.
    match goal with H : on_fork_db _ _ = _ |- _ => apply on_part_ok in H as (m & _ & ->) end.
    cbn. by case_match. }
  rewrite run_reads in Hp. destruct (Z.eqb_spec (previous b) (head_block_id c)) as [E|E].
  { apply run_bind_ok in Hp as ([] & c2 & He & Hp). apply reads_ok in Hp as [_ ->].
    apply extend_chain_head in He. split; auto. }
  split; [|done]. destruct (can_link f1 && _); [|injection Hp as <- <-; by right].
  apply try_catch_ok in Hp as [Hp|(e & c2 & Hthrow & He & Hp)].
  - apply run_bind_ok in Hp as ([] & c2 & Hw & Hp). apply reads_ok in Hp as [_ ->].
    left. by eapply switch_to_fork_head.
  - apply run_bind_ok in Hp as ([] & c3 & Hw & Hp). injection Hp as _ <-. right.
    eapply switch_to_fork_head; [|exact Hw].
    unfold run_bind in Hthrow. destruct (switch_to_fork (block_id b) c1) as [[[]|e1] c4] eqn:Ew.
    + injection Hthrow as _ <-. by eapply switch_to_fork_ok.
    + injection Hthrow as -> <-. by eapply switch_to_fork_ok.
Qed.

(** The first block cannot be undone. The block before it is the genesis, whose id is
    zero and which has no record, and the optional is dereferenced without a test: a switch
    to a fork that leaves out the first block is undefined behaviour. *)
Theorem pop_first_block c f :
  chain_ok c -> previous (head_block_header (db c)) = 0 ->
  0 < block_num (head_block_header (db c)) -> fork_db c !! head_block_id c = Some f ->
  exists c', pop_block c = (Throw undefined_behaviour, c').
Proof.
  intros Hc Hp Hn Hf. pose proof Hc as [_ Hr (bs & Hh & _)]. unfold pop_block. rewrite !run_reads.
  destruct (FC_ASSERT _) as [[]|e] eqn:Ea.
  2: { unfold FC_ASSERT, throw_if in Ea. destruct (Z.ltb_spec 0 (block_num (head_block_header (db c)))); [done|lia]. }
  unfold on_fork_db, on_part, mark_included.
  cbv [run_bind reads store_fork modify fetch]. rewrite Hf. cbn [value_or_throw].
  assert (Hu : is_Some (undo_state_db c !! head_block_id c)).
  { remember (head_block_header (db c)) as h eqn:Eh.
    destruct Hh as [h Hh0|]; [lia|]. by eexists. }
  destruct Hu as [u Hu]. cbn [undo_state_db with_block_num_to_id_db with_fork_db]. rewrite Hu.
  cbn [value_or_throw]. unfold get_block_header, deref.
  cbn [block_id_to_block_record_db with_head_block_id with_db with_block_num_to_id_db with_fork_db].
  rewrite Hp. destruct (block_id_to_block_record_db c !! 0) as [q|] eqn:Eq.
  { destruct (Hr 0 q Eq) as (Hq & HUq & _). by apply (ids_nonzero _ _ _ HU q HUq) in Hq. }
  by eexists.
Qed.
End Switching.

(** ** The transactions of a fork *)
Section ForkTransactions.
Context `{FC : Fc} `{FT : FcTransaction} `{FBl : FcBlock} `{FO : FcOperations} `{FB : FcBigint}.
Implicit Types (c : chain) (b : full_block) (d : chain_database).

Lemma get_block_unknown d ids acc id :
  id ∈ ids -> get_transaction d id = Ok None ->
  foldM (fun trxs trx_id =>
    let* t := get_transaction d trx_id in
    let* t := value_or_throw t unknown_transaction in
    Ok (trxs ++ [record_trx t])) acc ids = Throw unknown_transaction.
Proof.
  intros Hin Hid. revert acc. induction ids as [|i ids IH]; intros acc; [by apply elem_of_nil in Hin|].
  cbn [foldM]. apply elem_of_cons in Hin as [->|Hin]; [by rewrite Hid|].
  change (get_transaction d i) with (Ok (db_get_transaction d i)).
  destruct (db_get_transaction d i); cbn [bind value_or_throw]; [by apply IH|done].
Qed.

(** The transactions of a fork are not stored. Of a block that arrives on a fork, only
    the header and the ids of its transactions are kept; when a longer block makes the chain
    switch to the fork, [get_block] looks the transactions up among those that were applied,
    and throws for every block with a transaction that the chain does not have as well. *)
Theorem fork_transactions_lost c b f c' t :
  push_block b c = (Ok f, c') -> previous b <> head_block_id c ->
  block_num b <= block_num (head_block_header (db c)) ->
  t ∈ user_transactions b -> get_transaction (db c) (trx_id t) = Ok None ->
  get_block c' (block_id b) = Throw unknown_transaction.
Proof.
  intros Hp Hprev Hnum Ht Hun. unfold push_block in Hp. rewrite run_reads in Hp.
  apply run_bind_ok in Hp as (f1 & c1 & Hs & Hp). rewrite run_reads in Hp.
  assert (H1 : db c1 = db c /\ exists r : block_record,
    block_id_to_block_record_db c1 !! block_id b = Some r /\
    user_transaction_ids r = map trx_id (user_transactions b)).
  { unfold store_and_index in Hs. inv_st.
    match goal with H : on_fork_db _ _ = _ |- _ => apply on_part_ok in H as (m & _ & ->) end.
    match goal with H : block_record_of c b = Ok _ |- _ => unfold block_record_of in H; inv_ok end.
    destruct (bool_decide _); (split; [reflexivity|]); cbn; rewrite lookup_insert_eq; by eexists. }
  destruct H1 as (E & r & Hr & Hids).
  destruct (Z.eqb_spec (previous b) (head_block_id c)); [done|].
  replace (block_num (head_block_header (db c1)) <? block_num b) with false in Hp
    by (symmetry; rewrite E; lia).
  rewrite andb_false_r in Hp. injection Hp as _ <-.
  unfold get_block, fetch. rewrite Hr. cbn [value_or_throw bind]. rewrite Hids, E.
  rewrite (get_block_unknown _ _ _ (trx_id t)); [done| |done].
  apply list_elem_of_fmap. by exists t.
Qed.
End ForkTransactions.
