(* ===== verification/Story.v ===== *)
(** A story of a concrete chain, on which the theorems about chains are applied: a genesis
    with 97 delegates and two balances, a first block, a payment that is queued and paid by
    the second block, and a fork from the first block which becomes longer, so that the
    payment is undone. *)
From stdpp Require Import relations.
From S2P Require Import Prelude Conservation Closure Concrete Undo BlockEffects ForkTree History Supply.
From S2P Require Import Delegates Header Queue Genesis Origin Switching.
#[local] Existing Instance concrete_fc.
#[local] Existing Instance concrete_transaction.
#[local] Existing Instance concrete_block.
#[local] Existing Instance concrete_operations.

(** ** The genesis *)
Definition concrete_genesis : FcGenesis := {|
  hash_config cfg := 7;
  address_of_pts_address p := 1000 + p;
  u128 := Z;
  u128_of_int64 x := x mod 2 ^ 128;
  u128_add x y := (x + y) mod 2 ^ 128;
  u128_mul x y := (x * y) mod 2 ^ 128;
  u128_div x y := if y =? 0 then Throw undefined_behaviour else Ok (x / y);
  u128_gt x y := y <? x;
  low_bits x := x mod 2 ^ 64
|}.
#[local] Existing Instance concrete_genesis.

Definition delegates : list name_config :=
  map (fun i => NameConfig (string_of_chars [97 + i / 26; 97 + i mod 26]) true (100 + i))
    (map Z.of_nat (seq 0 97)).
Definition config : genesis_block_config :=
  GenesisBlockConfig 0 1000000 15 "XTS" "" "" [(1, 999999); (2, 1)] delegates.

Definition is_ok {A} (r : result A) : bool := match r with Ok _ => true | Throw _ => false end.
Definition value_or {A} (a : A) (r : result A) : A := match r with Ok a => a | Throw _ => a end.
Lemma is_ok_value {A} (a : A) (r : result A) : is_ok r = true -> r = Ok (value_or a r).
Proof. by destruct r. Qed.
Lemma is_ok_run {A S} (a : A) (p : result A * S) : is_ok p.1 = true -> p = (Ok (value_or a p.1), p.2).
Proof. by destruct p as [[]]. Qed.

Definition c0 : chain :=
  Eval vm_compute in value_or (new_chain 3000) (initialize_genesis config (new_chain 3000)).

(** ** Blocks *)

(** The next block, by the delegate whose turn it is. *)
Definition made (c : chain) (t : Z) : full_block :=
  match generate_block c t, get_signing_delegate_key (db c) t with
  | Ok b, Ok k => sealed 0 0 k b
  | _, _ => FullBlock new_header []
  end.
(** The chain after an operation. *)
Notation after m c := (snd (m c)).

Definition a1 : full_block := Eval vm_compute in made c0 1500.
Definition c1 : chain := after (push_block a1) c0.

(** The second balance, and a payment from it. *)
Definition saving : withdraw_condition := condition_with_signature (WithSignature 1002 None) 0 3.
Definition spend : signed_transaction :=
  SignedTransaction None None
    [ Operation withdraw_op_type [get_address saving; 5000];
      Operation deposit_op_type [4900; 0; 4; withdraw_signature_type; 1077] ] [2].
Definition c2 : chain := after (store_pending_transaction spend) c1.
Definition a2 : full_block := Eval vm_compute in made c2 1515.
Definition c3 : chain := after (push_block a2) c2.

(** The fork. *)
Definition b2 : full_block := Eval vm_compute in made c1 1530.
Definition c4 : chain := after (push_block b2) c3.
Definition b3 : full_block := Eval vm_compute in made (after (push_block b2) c1) 1545.
Definition c5 : chain := after (push_block b3) c4.

(** ** The headers of the story *)
Definition headers : list signed_block_header := map full_header [a1; a2; b2; b3].
Definition told (h : signed_block_header) : Prop := h ∈ headers.
Definition parent_of (id : Z) : Z :=
  match List.find (fun h : signed_block_header => block_id h =? id) headers with
  | Some h => previous h
  | None => 0
  end.
(** The numbers of the blocks. *)
Definition rank_of (id : Z) : Z :=
  match List.find (fun h : signed_block_header => block_id h =? id) headers with
  | Some h => block_num h
  | None => 0
  end.

Lemma told_cases (P : signed_block_header -> Prop) :
  P a1 -> P a2 -> P b2 -> P b3 -> forall h, told h -> P h.
Proof.
  intros H1 H2 H3 H4 h Hh. unfold told, headers in Hh. cbn [map] in Hh.
  rewrite !elem_of_cons, elem_of_nil in Hh. destruct Hh as [->|[->|[->|[->|[]]]]]; done.
Qed.

Lemma story_ids : ids_ok told parent_of rank_of.
Proof.
  assert (Hinj : forall h, told h -> forall h', told h' -> block_id h = block_id h' -> h = h').
  { apply (told_cases (fun h => forall h', told h' -> block_id h = block_id h' -> h = h'));
      match goal with |- forall h', told h' -> block_id ?a = _ -> _ =>
        apply (told_cases (fun h' => block_id a = block_id h' -> a = h')) end;
      intros E; try reflexivity; exfalso; vm_compute in E; discriminate E. }
  split; [intros h h' Hh Hh'; by apply Hinj| | |].
  - apply (told_cases (fun h => parent_of (block_id h) = previous h)); vm_compute; reflexivity.
  - apply (told_cases (fun h => rank_of (previous h) < rank_of (block_id h))); vm_compute; reflexivity.
  - apply (told_cases (fun h => block_id h <> 0)); vm_compute; discriminate.
Qed.

Lemma story_starts : initialize_genesis config (new_chain 3000) = Ok c0.
Proof. vm_cast_no_check (eq_refl (Ok c0)). Qed.

(** An operation that does not crash. *)
Definition fine {A} (p : result A * chain) : bool :=
  match p.1 with Ok _ => true | Throw e => is_fc_exception e end.
Lemma fine_returned {A} (p : result A * chain) : fine p = true -> returned p.1.
Proof. unfold fine, returned. by destruct p as [[]]. Qed.

Lemma push_step (b : full_block) c : told b -> fine (push_block b c) = true -> chain_step told c (after (push_block b) c).
Proof.
  intros Hb Hf. apply (step_push _ b c (push_block b c).1); [done|apply surjective_pairing|].
  by apply fine_returned.
Qed.
Lemma queue_step t c :
  fine (store_pending_transaction t c) = true -> chain_step told c (after (store_pending_transaction t) c).
Proof.
  intros Hf. apply (step_queue _ t c (store_pending_transaction t c).1); [apply surjective_pairing|].
  by apply fine_returned.
Qed.

Lemma told_nth n (b : full_block) : headers !! n = Some (full_header b) -> told b.
Proof. apply list_elem_of_lookup_2. Qed.

Lemma reached_queue : reachable told c0 c2.
Proof.
  unfold c2, c1.
  eapply rtc_l; [apply (push_step a1); [exact (told_nth 0 a1 eq_refl)|vm_compute; reflexivity]|].
  eapply rtc_l; [apply (queue_step spend); vm_compute; reflexivity|]. apply rtc_refl.
Qed.
Lemma reached : reachable told c0 c5.
Proof.
  etransitivity; [exact reached_queue|]. unfold c5, c4, c3.
  eapply rtc_l; [apply (push_step a2); [exact (told_nth 1 a2 eq_refl)|vm_compute; reflexivity]|].
  eapply rtc_l; [apply (push_step b2); [exact (told_nth 2 b2 eq_refl)|vm_compute; reflexivity]|].
  eapply rtc_l; [apply (push_step b3); [exact (told_nth 3 b3 eq_refl)|vm_compute; reflexivity]|].
  apply rtc_refl.
Qed.

(** ** The blocks of the story are fair *)
Lemma digest_ids (b : full_block) ids :
  validate_digest (digest_block_of b) = true -> transaction_digest b = code ids ->
  map trx_id (user_transactions b) = ids.
Proof.
  intros Hv Hd. apply Z.eqb_eq in Hv. cbn in Hv. rewrite Hd in Hv. symmetry in Hv.
  by apply code_inj in Hv.
Qed.

Lemma operations_of (t u : signed_transaction) : trx_id t = trx_id u -> operations t = operations u.
Proof.
  intros E. apply code_inj in E. revert E. generalize (operations u). induction (operations t) as [|o l IH].
  - by intros [].
  - intros [|o' l']; [done|]. cbn [map]. intros E. destruct o, o'. injection E as -> -> E.
    f_equal. by apply IH.
Qed.

Definition no_asset : Z * Z -> Z := fun _ => 0.

Lemma spend_fair :
  Forall (orders_in_asset no_asset no_asset) (operations spend) /\
  Forall (owners_in owned issued anyone anyone) (operations spend).
Proof. split; repeat constructor; intros o Ht; discriminate Ht. Qed.

Lemma empty_fair (b : full_block) : map trx_id (user_transactions b) = [] -> fair_block no_asset no_asset b.
Proof.
  intros E. unfold fair_block, orders_of_block, owners_of.
  destruct (user_transactions b); [by split; constructor|discriminate E].
Qed.

Lemma spend_block_fair (b : full_block) :
  map trx_id (user_transactions b) = [trx_id spend] -> fair_block no_asset no_asset b.
Proof.
  intros E. unfold fair_block, orders_of_block, owners_of.
  destruct (user_transactions b) as [|t [|]]; try discriminate E.
  apply (f_equal (hd 0)) in E. apply (operations_of t spend) in E. destruct spend_fair.
  split; (constructor; [by rewrite E|constructor]).
Qed.

Lemma told_fair (b : full_block) :
  told b -> validate_digest (digest_block_of b) = true -> fair_block no_asset no_asset b.
Proof.
  intros Hb Hv. remember (full_header b) as h eqn:Eh. revert Eh. revert h Hb.
  assert (He : transaction_digest b = code (@nil Z) -> fair_block no_asset no_asset b).
  { intros E. by apply empty_fair, (digest_ids b []). }
  apply (told_cases (fun h => h = full_header b -> fair_block no_asset no_asset b)); intros E.
  - apply He. rewrite <- E. vm_compute. reflexivity.
  - apply spend_block_fair, digest_ids; [done|]. rewrite <- E. vm_compute. reflexivity.
  - apply He. rewrite <- E. vm_compute. reflexivity.
  - apply He. rewrite <- E. vm_compute. reflexivity.
Qed.


Lemma forks_leave_no_trace_witness :
  tree_ok parent_of rank_of (fork_db c5) /\
  exists bs, history told (ledger_of (db c0)) (undo_state_db c5) bs (head_block_id c5)
    (head_block_header (db c5)) (ledger_of (db c5)) /\
    indexed bs (block_num_to_id_db c5) (fork_db c5) (block_id_to_block_record_db c5).
Proof.
  exact (forks_leave_no_trace config 3000 told parent_of rank_of story_ids c0 c5 story_starts reached).
Defined.

Lemma supply_is_circulating_witness :
  exists bs,
    history told (ledger_of (db c0)) (undo_state_db c5) bs (head_block_id c5)
      (head_block_header (db c5)) (ledger_of (db c5)) /\
    (97 + chain_operations bs < 2 ^ 31 ->
     circulating no_asset no_asset (ledger_of (db c5)) 0 == supply (ledger_of (db c5)) 0).
Proof.
  destruct (supply_is_circulating config 3000 told parent_of rank_of story_ids no_asset no_asset c0 c5
    story_starts reached told_fair) as (bs & Hh & Hx).
  exists bs. split; [exact Hh|]. intros Hn. exact (Hx Hn 0).
Defined.

Lemma queue_invariant_witness : queue_full c2.
Proof. exact (queue_invariant config 3000 told c0 c2 story_starts reached_queue). Defined.

(** What is known of the chain at the end. *)
Lemma story_chain_ok c :
  reachable told c0 c -> chain_ok told parent_of rank_of (ledger_of (db c0)) c.
Proof.
  intros Hr. apply (reachable_ok told parent_of rank_of story_ids _ c0 c); [|exact Hr|].
  - by apply (genesis_facts config 3000 c0 story_starts).
  - exact (genesis_chain_ok config 3000 told parent_of rank_of c0 story_starts).
Qed.
Lemma story_ledger_ok : ledger_ok (ledger_of (db c0)).
Proof. by apply (genesis_facts config 3000 c0 story_starts). Qed.

Lemma same_tail {A} (x y : A) l l' : x :: l = y :: l' -> l = l'.
Proof. congruence. Qed.

Lemma get_fork_history_spec_witness :
  get_fork_history c5 (block_id a2) = Ok [block_id a2; block_id a1] /\
  fork_path parent_of c5 (block_id a2) [block_id a1].
Proof.
  destruct (get_fork_history_spec told parent_of rank_of story_ids _ story_ledger_ok c5 (block_id a2)
    (story_chain_ok c5 reached)) as (_ & Hpath & _).
  assert (E : get_fork_history c5 (block_id a2) = Ok [block_id a2; block_id a1])
    by (vm_compute; reflexivity).
  split; [exact E|]. destruct (Hpath _ E) as (l' & El & Hl). apply same_tail in El as ->. exact Hl.
Defined.

(** Pushing [b3] makes the chain switch to the fork. *)
Lemma reached_fork : reachable told c0 c4.
Proof.
  etransitivity; [exact reached_queue|]. unfold c4, c3.
  eapply rtc_l; [apply (push_step a2); [exact (told_nth 1 a2 eq_refl)|vm_compute; reflexivity]|].
  eapply rtc_l; [apply (push_step b2); [exact (told_nth 2 b2 eq_refl)|vm_compute; reflexivity]|].
  apply rtc_refl.
Qed.
Lemma push_block_head_witness :
  exists f c', push_block b3 c4 = (Ok f, c') /\
    (head_block_id c' = block_id b3 \/ head_block_id c' = head_block_id c4) /\
    head_block_id c' <> head_block_id c4.
Proof.
  assert (E : is_ok (push_block b3 c4).1 = true) by (vm_compute; reflexivity).
  apply (is_ok_run block_fork_data_default) in E.
  eexists _, (push_block b3 c4).2. split; [exact E|]. split.
  - apply (push_block_head told parent_of rank_of story_ids _ story_ledger_ok c4 b3 _ _
      (story_chain_ok c4 reached_fork) (told_nth 3 b3 eq_refl) E).
  - vm_compute. discriminate.
Defined.

Lemma child_b (m : fork_map) x y :
  match m !! x with Some r => bool_decide (y ∈ next_blocks r) | None => false end = true -> child m x y.
Proof.
  unfold child. destruct (m !! x) as [r|]; [|done]. intros H. apply bool_decide_eq_true in H.
  by exists r.
Qed.

Lemma found {A} (o : option A) : (if o then true else false) = true -> exists a, o = Some a.
Proof. destruct o as [a|]; [by exists a|done]. Qed.

(** A block that is pushed again is refused. *)
Lemma extend_chain_refused_witness :
  exists m', extend_chain a1 c5 = (Throw block_numbers_not_sequential, with_fork_db m' c5) /\
    (m' !! block_id b3 ≫= is_valid) = Some false.
Proof.
  assert (Ef : (if fork_db c5 !! block_id a1 then true else false) = true) by (vm_compute; reflexivity).
  assert (Eq : (if fork_db c5 !! block_id b3 then true else false) = true) by (vm_compute; reflexivity).
  apply found in Ef as [f Ef]. apply found in Eq as [q Eq].
  destruct (extend_chain_refused parent_of rank_of c5 a1 block_numbers_not_sequential f
    (ok_tree _ _ _ _ _ (story_chain_ok c5 reached)) Ef eq_refl) as (m' & Hm & _ & Hin & _).
  { left. vm_compute. reflexivity. }
  exists m'. split; [exact Hm|].
  rewrite (Hin (block_id b3) q); [reflexivity| |exact Eq].
  apply (rtc_l _ _ (block_id b2)); [apply child_b; vm_compute; reflexivity|].
  apply (rtc_once (R := child (fork_db c5))). apply child_b. vm_compute. reflexivity.
Defined.

Lemma index_forks_linked_witness :
  exists m, index_forks [(3, 2); (1, 0); (2, 1)] {[ 0 := genesis_fork ]} = (Ok tt, m) /\
    exists r, m !! 3 = Some r /\ is_linked r = true.
Proof.
  destruct (index_forks_linked (fun i => i - 1) (fun i => i) [(3, 2); (1, 0); (2, 1)] genesis_fork)
    as (m & Hm & Hl).
  - intros id prev Hin. rewrite !elem_of_cons, elem_of_nil in Hin.
    destruct Hin as [[= -> ->]|[[= -> ->]|[[= -> ->]|[]]]]; lia.
  - reflexivity.
  - reflexivity.
  - exists m. split; [exact Hm|].
    destruct (Hl 3 2) as (r & Hr & Hlink); [set_solver|]. exists r. split; [exact Hr|].
    apply Hlink. apply (rtc_l _ _ 1); [set_solver|]. apply (rtc_l _ _ 2); [set_solver|].
    apply (rtc_l _ _ 3); [set_solver|]. apply rtc_refl.
Defined.

(** A fork with a payment. *)
Lemma fork_transactions_lost_witness :
  exists c', get_block c' (block_id a2) = Throw unknown_transaction.
Proof.
  set (c := after (push_block b2) c1).
  assert (E : is_ok (push_block a2 c).1 = true) by (vm_compute; reflexivity).
  apply (is_ok_run block_fork_data_default) in E.
  exists (push_block a2 c).2. apply (fork_transactions_lost c a2 _ _ spend E).
  - vm_compute. discriminate.
  - vm_compute. discriminate.
  - vm_compute. left.
  - vm_compute. reflexivity.
Defined.

(** The delegate whose turn it is makes the second block. *)
Definition unsealed : full_block := Eval vm_compute in value_or a1 (generate_block c2 1515).
Lemma generated_block_verifies_witness : verify_header c2 (sealed 0 0 104 unsealed) = Ok tt.
Proof.
  assert (Ha : (if get_account_record (db c2) 5 then true else false) = true) by (vm_compute; reflexivity).
  apply found in Ha as [a Ha].
  assert (Hk : (active_key <$> get_account_record (db c2) 5) = Some 104) by (vm_compute; reflexivity).
  destruct (generated_block_verifies c2 1515 (Ok unsealed) 5 a) as (b & Hb & Hv).
  - apply (reachable_queue told c0 c2 reached_queue), (genesis_queue config 3000 c0 story_starts).
  - vm_compute. reflexivity.
  - exact I.
  - vm_compute. reflexivity.
  - exact Ha.
  - vm_compute. reflexivity.
  - split; vm_compute; [reflexivity|discriminate].
  - split; vm_compute; discriminate.
  - apply Ok_inj in Hb as <-. apply (Hv 0 0 104).
    + rewrite Ha in Hk. exact (eq_sym Hk).
    + split; vm_compute; discriminate.
Defined.

(** The block of the fork is made after a slot was missed. *)
Lemma c1_reached : reachable told c0 c1.
Proof.
  unfold c1.
  eapply rtc_l; [apply (push_step a1); [exact (told_nth 0 a1 eq_refl)|vm_compute; reflexivity]|].
  apply rtc_refl.
Qed.
Lemma c1_keyed : keyed_accounts_of (create (Some (db c1)) : block_state).
Proof.
  destruct (story_chain_ok c1 c1_reached) as [_ _ (bs & Hh & _)].
  destruct (history_ledger_ok _ _ _ _ _ _ _ story_ledger_ok Hh) as [Hk _].
  intros id r Hr. rewrite view_account, create_ledger in Hr. by apply (keyed_accounts _ Hk).
Qed.
Lemma production_info_spec_witness :
  exists c', 1 <= c' <= 3 * BTS_BLOCKCHAIN_NUM_DELEGATES /\
    match update_delegate_production_info (db c1) b2 (create (Some (db c1))) with
    | Ok s => get_property s confirmation_requirement_prop = Ok (variant_int c')
    | Throw _ => False
    end.
Proof.
  assert (Hr : is_ok (update_delegate_production_info (db c1) b2 (create (Some (db c1)))) = true)
    by (vm_compute; reflexivity).
  apply (is_ok_value (create None)) in Hr.
  assert (Ht : timestamp b2 = first_slot (db c1) b2 + BTS_BLOCKCHAIN_BLOCK_INTERVAL_SEC * Z.of_nat 2)
    by (vm_compute; reflexivity).
  destruct (production_info_spec 1 (db c1) b2 (create (Some (db c1))) _ Ht c1_keyed Hr)
    as (signer & r0 & i0 & v & c & c' & _ & _ & _ & _ & _ & _ & _ & Hp & Hc & _).
  exists c'. split; [exact Hc|]. rewrite Hr. exact Hp.
Defined.

(** A block that starts a round. *)
Definition round_block : full_block :=
  FullBlock (SignedBlockHeader (BlockHeader 0 97 0 0 0 0 0 0) 0) [].
Lemma active_list_shuffled_witness :
  exists ids, length ids = 97%nat /\ ids ≡ₚ next_round_active_delegates (db c1).
Proof.
  assert (Hr : is_ok (update_active_delegate_list (db c1) round_block (create (Some (db c1)))) = true)
    by (vm_compute; reflexivity).
  apply (is_ok_value (create None)) in Hr.
  destruct (active_list_shuffled (db c1) round_block (create (Some (db c1))) _ Hr eq_refl)
    as (ids & _ & Hids).
  exists ids. split; [|exact Hids]. rewrite Hids. vm_compute. reflexivity.
Defined.

Lemma fee_rate_stuck_witness :
  next_fee 1000 BTS_BLOCKCHAIN_MAX_BLOCK_SIZE = BTS_BLOCKCHAIN_MIN_FEE /\
  next_fee 5000 BTS_BLOCKCHAIN_MAX_BLOCK_SIZE <= 5000.
Proof.
  assert (H : 0 <= BTS_BLOCKCHAIN_MAX_BLOCK_SIZE <= BTS_BLOCKCHAIN_MAX_BLOCK_SIZE)
    by (split; vm_compute; discriminate).
  split.
  - apply (fee_rate_stuck 1000 BTS_BLOCKCHAIN_MAX_BLOCK_SIZE); [lia|exact H|].
    vm_compute. discriminate.
  - apply (fee_rate_stuck 5000 BTS_BLOCKCHAIN_MAX_BLOCK_SIZE); [lia|exact H|].
    split; vm_compute; [discriminate|reflexivity].
Defined.
