(* ===== verification/NetMessages.v ===== *)
(** The messages that nodes exchange: [core_messages.hpp], [message.hpp] and the messages of
    [client/messages.hpp], as values after [message::as<T>()].

    A message that cannot be unpacked throws before anything is done with it, and is not
    represented. The user agent, the user data and the texts that say why a connection ends
    are only displayed, and are left out. *)
From stdpp Require Export gmap strings.
From S2P Require Import Prelude.
From S2P Require Export Errors Block.

Definition BTS_NET_PROTOCOL_VERSION : Z := 101.

(** [fc::ip::endpoint]. *)
Record endpoint := Endpoint { get_address : Z; get_port : Z }.
#[export] Instance endpoint_eq_dec : EqDecision endpoint.
Proof. solve_decision. Defined.
#[export] Instance endpoint_countable : Countable endpoint.
Proof.
  refine (inj_countable' (fun e => (get_address e, get_port e)) (fun p => Endpoint p.1 p.2) _).
  by intros [].
Defined.

(** Hashes are integers, and [0] is the one that is all zeros. *)
Record item_id := ItemId { item_type : Z; item_hash : Z }.
#[export] Instance item_id_eq_dec : EqDecision item_id.
Proof. solve_decision. Defined.
#[export] Instance item_id_countable : Countable item_id.
Proof.
  refine (inj_countable' (fun i => (item_type i, item_hash i)) (fun p => ItemId p.1 p.2) _).
  by intros [].
Defined.

(** [bts::client::message_type_enum], which is not what [core_message_type_enum] says. *)
Definition trx_message_type : Z := 1000.
Definition block_message_type : Z := 1001.

(** [core_message_type_enum]. *)
Module core_message_type_enum.
Definition block_message_type : Z := 1000.
Definition trx_message_type : Z := 1001.
Definition item_ids_inventory_message_type : Z := 5001.
Definition blockchain_item_ids_inventory_message_type : Z := 5002.
Definition fetch_blockchain_item_ids_message_type : Z := 5003.
Definition fetch_items_message_type : Z := 5004.
Definition item_not_available_message_type : Z := 5005.
Definition hello_message_type : Z := 5006.
Definition hello_reply_message_type : Z := 5007.
Definition connection_rejected_message_type : Z := 5008.
Definition address_request_message_type : Z := 5009.
Definition address_message_type : Z := 5010.
Definition closing_connection_message_type : Z := 5011.
End core_message_type_enum.

Record hello_message := Hello {
  hello_protocol_version : Z;
  hello_inbound_address : Z;
  hello_inbound_port : Z;
  hello_outbound_port : Z;
  hello_node_id : Z;
  hello_chain_id : Z
}.
Record hello_reply_message := HelloReply {
  reply_protocol_version : Z;
  reply_remote_endpoint : endpoint;
  reply_node_id : Z;
  reply_chain_id : Z
}.
Record address_info := AddressInfo { address_endpoint : endpoint; address_last_seen_time : Z }.
Record blockchain_item_ids_inventory_message := BlockchainItemIdsInventory {
  total_remaining_item_count : Z;
  inventory_item_type : Z;
  item_hashes_available : list Z
}.
(** [client::block_message]: the id travels next to the block. *)
Record block_message := BlockMessage { message_block : full_block; message_block_id : Z }.

Inductive message :=
| hello (m : hello_message)
| hello_reply (m : hello_reply_message)
| connection_rejected (remote_endpoint : endpoint)
| address_request
| address (addresses : list address_info)
| fetch_blockchain_item_ids (type : Z) (blockchain_synopsis : list Z)
| blockchain_item_ids_inventory (m : blockchain_item_ids_inventory_message)
| fetch_items (type : Z) (items_to_fetch : list Z)
| item_not_available (requested_item : item_id)
| item_ids_inventory (type : Z) (item_hashes_available : list Z)
| closing_connection (closing_due_to_error : bool)
| block (m : block_message)
| trx (t : signed_transaction)
| other (type : Z) (data : list Z).

(** The static member [type] of each of them. *)
Definition msg_type (m : message) : Z :=
  match m with
  | hello _ => core_message_type_enum.hello_message_type
  | hello_reply _ => core_message_type_enum.hello_reply_message_type
  | connection_rejected _ => core_message_type_enum.connection_rejected_message_type
  | address_request => core_message_type_enum.address_request_message_type
  | address _ => core_message_type_enum.address_message_type
  | fetch_blockchain_item_ids _ _ => core_message_type_enum.fetch_blockchain_item_ids_message_type
  | blockchain_item_ids_inventory _ =>
      core_message_type_enum.blockchain_item_ids_inventory_message_type
  | fetch_items _ _ => core_message_type_enum.fetch_items_message_type
  | item_not_available _ => core_message_type_enum.item_not_available_message_type
  | item_ids_inventory _ _ => core_message_type_enum.item_ids_inventory_message_type
  | closing_connection _ => core_message_type_enum.closing_connection_message_type
  | block _ => block_message_type
  | trx _ => trx_message_type
  | other type _ => type
  end.

(** [message::id]: the hash of the packed data. *)
Class FcNet := { message_id : message -> Z }.
