(* ===== verification/Framing.v ===== *)
(** How messages travel: [message_oriented_connection.cpp] pads each message to blocks of 16
    bytes, [stcp_socket.cpp] encrypts the blocks. [connection_delivers] shows that the other
    side reads the messages that were sent, however TCP splits the stream.

    The cipher is that of fc, which is taken to decode what it encoded wherever the calls are cut
    (a comment in [writesome] says that it failed at every 4096 bytes), and so are the loops of [read] and [write] around [readsome]
    and [writesome], which go on until everything was read or written. The key exchange, the
    mutex around [write], and the times of the last messages are left out. *)
From S2P Require Import Prelude SphTypes.
Open Scope Z_scope.

(** ** Messages in blocks *)
Definition MAX_MESSAGE_SIZE : Z := 524288.

(** [message] with its header; [data] has [size] bytes. *)
Record wire_message := WireMessage { size : Z; wire_type : Z; data : list Z }.
Definition header_bytes (m : wire_message) : list Z :=
  sph_enc32le (size m) ++ sph_enc32le (wire_type m).

(** [message_oriented_connection_impl::send_message]: what it writes. The memory behind the
    message in the buffer is not initialised: it is [padding]. *)
Definition size_with_padding (m : wire_message) : Z := 16 * ((8 + size m + 15) / 16).
Definition send_message (padding : list Z) (m : wire_message) : list Z :=
  take (Z.to_nat (size_with_padding m)) (header_bytes m ++ data m ++ padding).

Definition BUFFER_SIZE : Z := 16.
Definition LEFTOVER : Z := BUFFER_SIZE - 8.
Definition remaining_bytes_with_padding (size : Z) : Z :=
  uint32 (16 * (uint32 (uint32 (size - LEFTOVER) + 15) / 16)).

Section Reading.
(** A build with assertions; the socket: [sock_read] gives a number of bytes, or fails at the
    end. *)
Context (asserts : bool).
Context {source : Type} (sock_read : nat -> source -> option (list Z * source)).

(** One turn of [read_loop], nothing when it ends: when the socket fails, or the assertion that the
    size is at most [MAX_MESSAGE_SIZE]. *)
Definition read_message (sock : source) : option (wire_message * source) :=
  match sock_read (Z.to_nat BUFFER_SIZE) sock with
  | None => None
  | Some (buffer, sock) =>
      let size := sph_dec32le (take 4 buffer) in
      let msg_type := sph_dec32le (take 4 (drop 4 buffer)) in
      let remaining := Z.to_nat (remaining_bytes_with_padding size) in
      let message data := WireMessage size msg_type (resize (Z.to_nat size) 0 data) in
      if asserts && (MAX_MESSAGE_SIZE <? size) then None
      else if (remaining =? 0)%nat then Some (message (drop 8 buffer), sock)
      else
        match sock_read remaining sock with
        | None => None
        | Some (rest, sock) => Some (message (drop 8 buffer ++ rest), sock)
        end
  end.

(** [read_loop], for a number of turns or until the socket fails. *)
Fixpoint read_loop (turns : nat) (sock : source) : list wire_message * source :=
  match turns with
  | O => ([], sock)
  | S turns =>
      match read_message sock with
      | None => ([], sock)
      | Some (m, sock) => let '(ms, sock) := read_loop turns sock in (m :: ms, sock)
      end
  end.
End Reading.

(** ** The socket *)
Class FcAes := {
  aes_state : Type;
  aes_encode : aes_state -> list Z -> aes_state * list Z;
  aes_decode : aes_state -> list Z -> aes_state * list Z
}.

Section Socket.
Context `{FcAes}.

(** [writesome]: the length that was taken, and what goes to TCP. *)
Definition writesome (aes : aes_state) (buffer : list Z) : nat * aes_state * list Z :=
  let len := Nat.min 4096 (length buffer) in
  let '(aes, crypt_buf) := aes_encode aes (take len buffer) in
  (len, aes, crypt_buf).
Fixpoint write_loop (fuel : nat) (aes : aes_state) (buffer : list Z) : aes_state * list Z :=
  match fuel, buffer with
  | S fuel, _ :: _ =>
      let '(len, aes, sent) := writesome aes buffer in
      let '(aes, rest) := write_loop fuel aes (drop len buffer) in
      (aes, sent ++ rest)
  | _, _ => (aes, [])
  end.
Definition write (aes : aes_state) (buffer : list Z) : aes_state * list Z :=
  write_loop (length buffer) aes buffer.

(** What was encrypted and has not been read: the state of the cipher, the bytes, and how
    many of them have arrived at each turn of the reads to come. *)
Record inbox := Inbox { recv_aes : aes_state; tcp : list Z; arrivals : list (list nat) }.

(** [readsome]: [arrived] bytes are ready; the rest of a block is waited for. *)
Definition readsome (arrived : nat) (len : nat) (aes : aes_state) (tcp : list Z)
    : aes_state * list Z * list Z :=
  let len := Nat.min 4096 len in
  let s := Nat.min arrived len in
  let s := if (s mod 16 =? 0)%nat then s else (s + (16 - s mod 16))%nat in
  let '(aes, buffer) := aes_decode aes (take s tcp) in
  (aes, buffer, drop s tcp).
Fixpoint readsome_loop (arrived : list nat) (len : nat) (aes : aes_state) (tcp : list Z)
    : option (aes_state * list Z * list Z) :=
  match len, arrived with
  | O, _ => Some (aes, [], tcp)
  | S _, [] => None
  | S _, a :: arrived =>
      let '(aes, buffer, tcp) := readsome a len aes tcp in
      match readsome_loop arrived (len - length buffer) aes tcp with
      | None => None
      | Some (aes, rest, tcp) => Some (aes, buffer ++ rest, tcp)
      end
  end.
Definition stcp_read (len : nat) (sock : inbox) : option (list Z * inbox) :=
  match arrivals sock with
  | [] => None
  | arrived :: arrivals =>
      match readsome_loop arrived len (recv_aes sock) (tcp sock) with
      | None => None
      | Some (aes, buffer, tcp) => Some (buffer, Inbox aes tcp arrivals)
      end
  end.

(** Sending one message after the other. *)
Fixpoint send_messages (aes : aes_state) (ms : list (list Z * wire_message)) : aes_state * list Z :=
  match ms with
  | [] => (aes, [])
  | (padding, m) :: ms =>
      let '(aes, sent) := write aes (send_message padding m) in
      let '(aes, rest) := send_messages aes ms in
      (aes, sent ++ rest)
  end.
End Socket.

(** ** Proofs *)

(** What is sent: [message.hpp] says that the size is capped at [MAX_MESSAGE_SIZE]. *)
Record well_formed (m : wire_message) : Prop := {
  wf_size : 0 <= size m <= MAX_MESSAGE_SIZE;
  wf_type : 0 <= wire_type m < 2 ^ 32;
  wf_data : length (data m) = Z.to_nat (size m)
}.

Lemma header_length m : length (header_bytes m) = 8%nat.
Proof. unfold header_bytes. by rewrite length_app. Qed.

Lemma remaining_eq m : well_formed m ->
  Z.to_nat (size_with_padding m) = (16 + Z.to_nat (remaining_bytes_with_padding (size m)))%nat /\
  (Z.to_nat (remaining_bytes_with_padding (size m)) mod 16 = 0)%nat.
Proof.
  intros [Hs _ _]. unfold MAX_MESSAGE_SIZE in Hs. unfold remaining_bytes_with_padding, size_with_padding, LEFTOVER, BUFFER_SIZE.
  assert (E : uint32 (uint32 (size m - (16 - 8)) + 15) = size m + 7).
  { unfold uint32. rewrite Zplus_mod_idemp_l, Z.mod_small; lia. }
  rewrite E. replace (8 + size m + 15) with (size m + 7 + 1 * 16) by lia.
  rewrite Z.div_add by done. pose proof (Z.mul_div_le (size m + 7) 16 ltac:(done)).
  pose proof (Z.div_pos (size m + 7) 16 ltac:(lia) ltac:(done)) as Hp.
  unfold uint32. rewrite Z.mod_small by lia. split; [lia|].
  rewrite Z2Nat.inj_mul, Nat.mul_comm by lia. by apply Nat.Div0.mod_mul.
Qed.

Lemma send_message_length padding m : well_formed m -> (15 <= length padding)%nat ->
  length (send_message padding m) = Z.to_nat (size_with_padding m).
Proof.
  intros Hm Hp. unfold send_message. rewrite length_take, !length_app, header_length, (wf_data _ Hm).
  pose proof (wf_size _ Hm). unfold size_with_padding.
  pose proof (Z.mul_div_le (8 + size m + 15) 16 ltac:(done)). lia.
Qed.

Section Reading_proofs.
Context (asserts : bool) {source : Type} (sock_read : nat -> source -> option (list Z * source)).
(** [holds n sock stream]: at least [n] reads, of whole blocks, give what is in [stream]. *)
Context (holds : nat -> source -> list Z -> Prop).
Hypothesis holds_less : forall n sock stream, holds (S n) sock stream -> holds n sock stream.
Hypothesis holds_read : forall n sock a b,
  holds (S n) sock (a ++ b) -> (length a mod 16 = 0)%nat ->
  exists sock', sock_read (length a) sock = Some (a, sock') /\ holds n sock' b.

Lemma read_message_sent n sock padding m rest :
  well_formed m -> (15 <= length padding)%nat ->
  holds (S (S n)) sock (send_message padding m ++ rest) ->
  exists sock', read_message asserts sock_read sock = Some (m, sock') /\ holds n sock' rest.
Proof.
  intros Hm Hp Hh. pose proof (send_message_length padding m Hm Hp) as Hl.
  destruct (remaining_eq m Hm) as [Er E16]. rewrite Er in Hl.
  assert (Hroom : (8 + Z.to_nat (size m) <= Z.to_nat (size_with_padding m))%nat).
  { pose proof (wf_size _ Hm). unfold size_with_padding.
    pose proof (Z.mod_pos_bound (8 + size m + 15) 16 ltac:(done)).
    pose proof (Z.div_mod (8 + size m + 15) 16 ltac:(done)). lia. }
  set (sent := send_message padding m) in *. set (remaining := Z.to_nat _) in *.
  rewrite <- (take_drop 16 sent), <- app_assoc in Hh.
  assert (Hb : length (take 16 sent) = 16%nat) by (rewrite length_take; lia).
  apply holds_read in Hh as (s1 & E1 & Hh1); [|by rewrite Hb].
  assert (Hhead : take 8 sent = header_bytes m).
  { unfold sent, send_message. rewrite take_take.
    replace (Nat.min 8 _) with (length (header_bytes m)) by (rewrite header_length; lia).
    by rewrite take_app_length. }
  assert (Hdata : take (Z.to_nat (size m)) (drop 8 sent) = data m).
  { unfold sent, send_message. rewrite <- (wf_data _ Hm), skipn_firstn_comm, take_take.
    rewrite drop_app_length' by (by rewrite header_length).
    replace (Nat.min _ _) with (length (data m)) by (rewrite (wf_data _ Hm); lia).
    by rewrite take_app_length. }
  assert (Hlong : (Z.to_nat (size m) <= length (drop 8 sent))%nat).
  { rewrite <- (wf_data _ Hm), <- Hdata, length_take. lia. }
  assert (Eh : take 4 (take 16 sent) = sph_enc32le (size m) /\
    take 4 (drop 4 (take 16 sent)) = sph_enc32le (wire_type m)).
  { rewrite take_take, skipn_firstn_comm, take_take. cbn [Nat.min Nat.sub].
    rewrite <- (take_drop 8 sent), Hhead. split; reflexivity. }
  unfold read_message. change (Z.to_nat BUFFER_SIZE) with 16%nat. rewrite Hb in E1. rewrite E1.
  destruct Eh as [-> ->]. pose proof (wf_size _ Hm) as Hcap.
  rewrite !dec_enc32le by (destruct Hm; unfold MAX_MESSAGE_SIZE in *; lia). fold remaining.
  replace (asserts && _) with false
    by (destruct (Z.ltb_spec MAX_MESSAGE_SIZE (size m)); [lia|symmetry; apply andb_false_r]).
  assert (Efin : drop 8 (take 16 sent) ++ drop 16 sent = drop 8 sent)
    by (rewrite <- (take_drop 16 sent) at 3; by rewrite drop_app_le by lia).
  destruct (Nat.eqb_spec remaining 0) as [E0|Hne].
  - assert (Ed : drop 16 sent = []) by (apply drop_ge; lia).
    rewrite Ed, app_nil_r in Efin. rewrite Ed in Hh1. exists s1.
    rewrite Efin, resize_le, Hdata by done. destruct m. split; [done|]. by apply holds_less.
  - assert (Hd : length (drop 16 sent) = remaining) by (rewrite length_drop; lia).
    apply holds_read in Hh1 as (s2 & E2 & Hh2); [|by rewrite Hd]. rewrite Hd in E2. rewrite E2.
    exists s2. rewrite Efin, resize_le, Hdata by done. by destruct m.
Qed.

Lemma read_loop_sent n sock ms rest :
  Forall (fun pm => (15 <= length pm.1)%nat /\ well_formed pm.2) ms ->
  holds (2 * length ms + n) sock (concat (map (fun pm => send_message pm.1 pm.2) ms) ++ rest) ->
  exists sock', read_loop asserts sock_read (length ms) sock = (map snd ms, sock') /\ holds n sock' rest.
Proof.
  intros Hms. revert sock. induction Hms as [|[padding m] ms [Hp Hm] _ IH]; intros sock Hh.
  { by exists sock. }
  cbn [map concat length fst snd] in Hh. rewrite <- app_assoc in Hh.
  replace (2 * S (length ms) + n)%nat with (S (S (2 * length ms + n))) in Hh by lia.
  apply read_message_sent in Hh as (s1 & E1 & Hh1); [|done|done].
  destruct (IH s1 Hh1) as (s2 & E2 & Hh2). exists s2. cbn [length read_loop]. by rewrite E1, E2.
Qed.
End Reading_proofs.

(** *** Through the cipher
    The cipher works block by block, and the other side, started with the same key, undoes
    it: [in_step] relates the two sides. *)
Notation blocks a := (length a mod 16 = 0)%nat.
Lemma blocks_drop {A} k (a : list A) : (k mod 16 = 0)%nat -> blocks a -> blocks (drop k a).
Proof.
  rewrite length_drop. intros [c ->]%Nat.Div0.mod_divides [d ->]%Nat.Div0.mod_divides.
  rewrite <- Nat.mul_sub_distr_l, Nat.mul_comm. apply Nat.Div0.mod_mul.
Qed.

Class FcAesLaws `{FcAes} := {
  in_step : aes_state -> aes_state -> Prop;
  encode_nil s : aes_encode s [] = (s, []);
  encode_length s a : blocks a -> length (aes_encode s a).2 = length a;
  encode_app s a b : blocks a -> blocks b -> aes_encode s (a ++ b) =
    let '(s, x) := aes_encode s a in let '(s, y) := aes_encode s b in (s, x ++ y);
  decode_encode s r a : in_step s r -> blocks a ->
    exists r', aes_decode r (aes_encode s a).2 = (r', a) /\ in_step (aes_encode s a).1 r'
}.

Section Socket_proofs.
Context `{FcAesLaws}.

(** Reading up to [k] leaves what was encrypted after it. *)
Lemma encode_split s (k : nat) a :
  (k mod 16 = 0)%nat -> blocks a -> (k <= length a)%nat ->
  take k (aes_encode s a).2 = (aes_encode s (take k a)).2 /\
  drop k (aes_encode s a).2 = (aes_encode (aes_encode s (take k a)).1 (drop k a)).2 /\
  (aes_encode s a).1 = (aes_encode (aes_encode s (take k a)).1 (drop k a)).1.
Proof.
  intros Hk Ha Hle. assert (Ht : length (take k a) = k) by (rewrite length_take; lia).
  pose proof (encode_app s (take k a) (drop k a) ltac:(by rewrite Ht) (blocks_drop k a Hk Ha)) as E.
  pose proof (encode_length s (take k a) ltac:(by rewrite Ht)) as Hl. rewrite Ht in Hl.
  rewrite take_drop in E. rewrite E.
  destruct (aes_encode s (take k a)) as [s1 x]. cbn [fst snd] in *.
  destruct (aes_encode s1 (drop k a)) as [s2 y]. cbn [fst snd].
  by rewrite <- Hl, take_app_length, drop_app_length.
Qed.

Lemma write_loop_encode fuel s a :
  (length a <= fuel)%nat -> blocks a -> write_loop fuel s a = aes_encode s a.
Proof.
  revert s a. induction fuel as [|fuel IH]; intros s a Hle Ha.
  { destruct a; [by rewrite encode_nil|cbn in Hle; lia]. }
  destruct a as [|x a']; [by rewrite encode_nil|]. remember (x :: a') as a eqn:Ea.
  assert (Hpos : (16 <= length a)%nat).
  { assert (length a <> 0)%nat by by rewrite Ea. apply Nat.Div0.mod_divides in Ha as [[|c] Hc]; lia. }
  replace (write_loop (S fuel) s a) with
    (let '(len, aes, sent) := writesome s a in
     let '(aes, rest) := write_loop fuel aes (drop len a) in (aes, sent ++ rest)) by by rewrite Ea.
  unfold writesome. set (len := Nat.min 4096 (length a)).
  assert (Hlen : (len mod 16 = 0 /\ 0 < len <= length a)%nat).
  { unfold len. destruct (Nat.min_spec 4096 (length a)) as [[? ->]|[? ->]]; split; try done; lia. }
  destruct Hlen as [Hlen Hlen']. destruct (encode_split s len a Hlen Ha ltac:(lia)) as (E1 & E2 & E3).
  pose proof (take_drop len (aes_encode s a).2) as Et. rewrite E1, E2 in Et.
  destruct (aes_encode s (take len a)) as [s1 y] eqn:Ey. cbn [fst snd] in *.
  rewrite IH; [|rewrite length_drop; lia|by apply blocks_drop].
  destruct (aes_encode s1 (drop len a)) as [s2 z]. cbn [fst snd] in *.
  rewrite Et, <- E3. by destruct (aes_encode s a).
Qed.
Lemma write_encode s a : blocks a -> write s a = aes_encode s a.
Proof. by apply write_loop_encode. Qed.

(** Enough turns for any read. *)
Definition arrives (l : list Z) (arrived : list nat) : Prop :=
  Forall (fun a => 0 < a)%nat arrived /\ (length l <= 16 * length arrived)%nat.

Lemma readsome_loop_decode (arrived : list nat) : forall (len : nat) s r (stream : list Z),
  in_step s r -> blocks stream -> (len mod 16 = 0)%nat -> (len <= length stream)%nat ->
  Forall (fun a => 0 < a)%nat arrived -> (len <= 16 * length arrived)%nat ->
  exists r', readsome_loop arrived len r (aes_encode s stream).2 =
    Some (r', take len stream, (aes_encode (aes_encode s (take len stream)).1 (drop len stream)).2) /\
    in_step (aes_encode s (take len stream)).1 r'.
Proof.
  induction arrived as [|a arrived IH]; intros len s r stream Hin Hb Hlen Hle Hpos Hn.
  { assert (len = 0%nat) as -> by (cbn in Hn; lia). exists r. cbn. rewrite encode_nil. by rewrite drop_0. }
  destruct len as [|len'].
  { exists r. cbn. rewrite encode_nil. by rewrite drop_0. }
  remember (S len') as len eqn:El. pose proof (Forall_inv Hpos) as Ha. cbn beta in Ha. apply Forall_inv_tail in Hpos.
  assert (Hl16 : (16 <= len)%nat).
  { apply Nat.Div0.mod_divides in Hlen as [[|c] Hc]; lia. }
  replace (readsome_loop (a :: arrived) len r (aes_encode s stream).2) with
    (let '(aes, buffer, tcp) := readsome a len r (aes_encode s stream).2 in
     match readsome_loop arrived (len - length buffer) aes tcp with
     | None => None
     | Some (aes, rest, tcp) => Some (aes, buffer ++ rest, tcp)
     end) by by rewrite El.
  unfold readsome. set (k0 := Nat.min a (Nat.min 4096 len)).
  set (k := if (k0 mod 16 =? 0)%nat then k0 else (k0 + (16 - k0 mod 16))%nat).
  assert (Hk : (k mod 16 = 0 /\ 16 <= k <= len)%nat).
  { apply Nat.Div0.mod_divides in Hlen as [c Hc]. pose proof (Nat.div_mod_eq k0 16) as Hdm.
    pose proof (Nat.mod_upper_bound k0 16 ltac:(lia)).
    assert (Hk0 : (0 < k0 <= len)%nat) by (unfold k0; lia). unfold k. clearbody k0.
    destruct (Nat.eqb_spec (k0 mod 16) 0) as [E0|Hne]; [split; [done|lia]|].
    split; [|lia]. replace (k0 + _)%nat with ((k0 / 16 + 1) * 16)%nat by lia. apply Nat.Div0.mod_mul. }
  clearbody k. destruct Hk as [Hk Hk'].
  destruct (encode_split s k stream Hk Hb ltac:(lia)) as (E1 & E2 & E3).
  rewrite E1, E2. assert (Ht : length (take k stream) = k) by (rewrite length_take; lia).
  destruct (decode_encode s r (take k stream) Hin ltac:(by rewrite Ht)) as (r1 & -> & Hin1).
  rewrite Ht. destruct (IH (len - k)%nat (aes_encode s (take k stream)).1 r1 (drop k stream)) as (r2 & -> & Hin2);
    [done|by apply blocks_drop| |rewrite length_drop; lia|done|cbn in Hn; lia|].
  { apply Nat.Div0.mod_divides in Hk as [c ->]. apply Nat.Div0.mod_divides in Hlen as [d ->].
    rewrite <- Nat.mul_sub_distr_l, Nat.mul_comm. apply Nat.Div0.mod_mul. }
  assert (Etake : take k stream ++ take (len - k) (drop k stream) = take len stream).
  { rewrite <- (take_drop k (take len stream)), take_take, skipn_firstn_comm.
    f_equal. f_equal. lia. }
  assert (Estate : (aes_encode (aes_encode s (take k stream)).1 (take (len - k) (drop k stream))).1 =
    (aes_encode s (take len stream)).1).
  { destruct (encode_split s k (take len stream) Hk) as (_ & _ & ->);
      [rewrite length_take; by rewrite Nat.min_l by lia|rewrite length_take; lia|].
    rewrite take_take, Nat.min_l, skipn_firstn_comm by lia. done. }
  exists r2. rewrite Etake, drop_drop, Estate in *. split; [|done].
  by replace (k + (len - k))%nat with len by lia.
Qed.
Definition inbox_holds (n : nat) (sock : inbox) (stream : list Z) : Prop :=
  exists s, in_step s (recv_aes sock) /\ blocks stream /\ tcp sock = (aes_encode s stream).2 /\
    (n <= length (arrivals sock))%nat /\ Forall (arrives stream) (arrivals sock).

Lemma inbox_read n sock a b :
  inbox_holds (S n) sock (a ++ b) -> blocks a ->
  exists sock', stcp_read (length a) sock = Some (a, sock') /\ inbox_holds n sock' b.
Proof.
  intros (s & Hin & Hb & Et & Hn & Ha) Hbl. destruct sock as [r t [|arrived later]]; [cbn in Hn; lia|].
  cbn [recv_aes tcp arrivals length] in *. pose proof (Forall_inv Ha) as [Hpos Hlong].
  apply Forall_inv_tail in Ha. rewrite length_app in Hlong.
  destruct (readsome_loop_decode arrived (length a) s r (a ++ b)) as (r' & E & Hin');
    [done|done|done|rewrite length_app; lia|done|lia|].
  rewrite take_app_length, drop_app_length in E. rewrite take_app_length in Hin'.
  unfold stcp_read. cbn [recv_aes tcp arrivals]. rewrite Et, E. eexists. split; [reflexivity|].
  eexists. split; [exact Hin'|]. split; [|split; [done|]].
  - rewrite <- (drop_app_length a b). by apply blocks_drop.
  - split; [cbn; lia|]. revert Ha. apply Forall_impl. intros p [Hp1 Hp2]. split; [done|].
    rewrite length_app in Hp2. lia.
Qed.

Notation stream_of ms := (concat (map (fun pm => send_message pm.1 pm.2) ms)).
Definition sendable (pm : list Z * wire_message) : Prop :=
  (15 <= length pm.1)%nat /\ well_formed pm.2.

Lemma stream_blocks ms : Forall sendable ms -> blocks (stream_of ms).
Proof.
  induction 1 as [|[padding m] ms [Hp Hm] _ IH]; [done|]. cbn [map concat fst snd].
  rewrite length_app, send_message_length by done. destruct (remaining_eq m Hm) as [-> Hr].
  apply Nat.Div0.mod_divides in Hr as [c ->]. apply Nat.Div0.mod_divides in IH as [d ->].
  replace (16 + 16 * c + 16 * d)%nat with ((1 + c + d) * 16)%nat by lia. apply Nat.Div0.mod_mul.
Qed.

Lemma send_messages_encode s ms :
  Forall sendable ms -> send_messages s ms = aes_encode s (stream_of ms).
Proof.
  intros Hms. revert s. induction Hms as [|[padding m] ms Hm Hms IH]; intros s.
  { cbn. by rewrite encode_nil. }
  cbn [map concat fst snd send_messages].
  pose proof (stream_blocks [(padding, m)] ltac:(by constructor)) as Hb.
  cbn [map concat fst snd] in Hb. rewrite app_nil_r in Hb.
  rewrite encode_app, write_encode by (done || by apply stream_blocks).
  destruct (aes_encode s _) as [s1 x]. by rewrite IH.
Qed.

(** C12: A connection delivers what is sent. Messages of any types, of at most [MAX_MESSAGE_SIZE]
    bytes as [message.hpp] has it, each padded to blocks with arbitrary bytes, encrypted in pieces of
    4096 bytes and cut up by TCP in any way, are read by the loop of the other side one by one, as
    they were sent, and nothing is left over; the assertion on the size holds. The cipher is taken
    to encode block by block and to decode what it encoded, wherever the calls on the two sides are
    cut; a comment in [writesome] reports that fc's failed at every 4096 bytes. The pieces of the two
    sides, which need not agree, are then not the cause. Larger messages, which the sender does not
    refuse, end a reader with assertions ([oversize_ends_reader]). *)
Theorem connection_delivers asserts s r ms arrivals :
  in_step s r -> Forall sendable ms ->
  (2 * length ms <= length arrivals)%nat -> Forall (arrives (stream_of ms)) arrivals ->
  exists sock, read_loop asserts stcp_read (length ms) (Inbox r (send_messages s ms).2 arrivals) =
    (map snd ms, sock) /\ tcp sock = [].
Proof.
  intros Hin Hms Hn Ha. rewrite send_messages_encode by done.
  destruct (read_loop_sent asserts stcp_read inbox_holds) with (n := 0%nat) (ms := ms) (rest := @nil Z)
    (sock := Inbox r (aes_encode s (stream_of ms)).2 arrivals) as (sock & E & s' & _ & _ & Et & _).
  - intros n sock stream (s0 & H1 & H2 & H3 & H4 & H5). exists s0. repeat split; (done || lia).
  - intros n sock a b. apply inbox_read.
  - done.
  - exists s. rewrite app_nil_r. split; [done|]. split; [by apply stream_blocks|]. split; [done|].
    split; [cbn; lia|done].
  - exists sock. split; [done|]. by rewrite Et, encode_nil.
Qed.

(** A header that promises more than the cap ends a reader that was built with assertions. *)
Theorem oversize_ends_reader {source} (sock_read : nat -> source -> option (list Z * source)) sock buffer sock' :
  sock_read 16%nat sock = Some (buffer, sock') -> MAX_MESSAGE_SIZE < sph_dec32le (take 4 buffer) ->
  read_message true sock_read sock = None.
Proof.
  intros E Hs. unfold read_message. change (Z.to_nat BUFFER_SIZE) with 16%nat. rewrite E. cbv zeta.
  destruct (Z.ltb_spec MAX_MESSAGE_SIZE (sph_dec32le (take 4 buffer))); [done|lia].
Qed.
End Socket_proofs.

(** ** A connection
    The cipher adds a counter to every byte. *)
Section Story.
Fixpoint shift_all (sign : Z) (s : Z) (l : list Z) : Z * list Z :=
  match l with
  | [] => (s, [])
  | x :: l => let '(s', l') := shift_all sign (s + 1) l in (s', x + sign * s :: l')
  end.
#[local] Instance some_aes : FcAes :=
  { aes_state := Z; aes_encode := shift_all 1; aes_decode := shift_all (-1) }.
#[local, refine] Instance some_aes_laws : FcAesLaws := { in_step := eq }.
Proof.
  - done.
  - cbn. intros s a _. revert s. induction a as [|x a IH]; intros s; [done|]. cbn.
    specialize (IH (s + 1)). destruct (shift_all 1 (s + 1) a). cbn in *. lia.
  - cbn. intros s a b _ _. revert s. induction a as [|x a IH]; intros s; cbn.
    + by destruct (shift_all 1 s b).
    + rewrite IH. destruct (shift_all 1 (s + 1) a) as [s1 y]. by destruct (shift_all 1 s1 b).
  - cbn. intros s r a -> _. revert r. induction a as [|x a IH]; intros r; [by exists r|]. cbn.
    destruct (IH (r + 1)) as (r' & E & E'). destruct (shift_all 1 (r + 1) a) as [s1 y]. cbn in *.
    rewrite E. exists r'. split; [do 2 f_equal; lia|done].
Defined.

Definition key : @aes_state some_aes := 5.
Definition two_messages : list (list Z * wire_message) :=
  [(replicate 15 170, WireMessage 3 1000 [1; 2; 3]);
   (replicate 15 170, WireMessage 5000 5010 (replicate 5000 7))].
Lemma connection_delivers_witness :
  in_step key key /\ exists sock, read_loop true stcp_read 2
    (Inbox key (send_messages key two_messages).2 (replicate 4 (replicate 400 37%nat))) =
    (map snd two_messages, sock) /\ tcp sock = [].
Proof.
  split; [reflexivity|]. apply (connection_delivers true key key two_messages).
  - reflexivity.
  - repeat constructor; vm_compute; discriminate || reflexivity || lia.
  - vm_compute. lia.
  - apply Forall_replicate. split; [apply Forall_replicate; lia|vm_compute; lia].
Defined.
End Story.
