(* ===== verification/PeerDatabase.v ===== *)
(** The addresses of peers that a node remembers: [peer_database.cpp] over
    [level_pod_map.hpp].

    LevelDB itself is a finite map in the order of its keys. [peer_database_persists] shows
    that what is in memory is what is found again when the database is opened, as long as the
    keys do not wrap around; [garbage_key_loses_entries] is a run where they do. The error of
    the last connection, an exception, is not kept. *)
From stdpp Require Import gmap sorting.
From S2P Require Import Prelude NetMessages.

Inductive potential_peer_last_connection_disposition :=
| never_attempted_to_connect
| last_connection_failed
| last_connection_rejected
| last_connection_handshaking_failed
| last_connection_succeeded.
#[export] Instance disposition_eq_dec : EqDecision potential_peer_last_connection_disposition.
Proof. solve_decision. Defined.

(** Times are in seconds here. *)
Record potential_peer_record := PotentialPeer {
  peer_endpoint : endpoint;
  last_seen_time : Z;
  last_connection_disposition : potential_peer_last_connection_disposition;
  last_connection_attempt_time : Z;
  number_of_successful_connection_attempts : Z;
  number_of_failed_connection_attempts : Z
}.
#[export] Instance potential_peer_record_eq_dec : EqDecision potential_peer_record.
Proof. solve_decision. Defined.
#[export, refine] Instance potential_peer_members : Members potential_peer_record := {
  eta r := PotentialPeer (peer_endpoint r) (last_seen_time r) (last_connection_disposition r)
    (last_connection_attempt_time r) (number_of_successful_connection_attempts r)
    (number_of_failed_connection_attempts r)
}.
Proof. by intros []. Defined.
Definition new_peer_record (ep : endpoint) : potential_peer_record :=
  PotentialPeer ep 0 never_attempted_to_connect 0 0 0.

(** ** [level_pod_map] *)
Section LevelPodMap.
Context {A : Type}.
Implicit Types m : gmap Z A.

Definition entry_le (a b : Z * A) : Prop := a.1 <= b.1.
#[export] Instance entry_le_dec a b : Decision (entry_le a b).
Proof. unfold entry_le. apply _. Defined.
(** From [begin()] on. *)
Definition iterate m : list (Z * A) := merge_sort entry_le (map_to_list m).

(** [last( k )]: without an entry, [k] stays as it is. *)
Definition last (k : Z) m : Z :=
  match map fst (map_to_list m) with
  | [] => k
  | k :: keys => foldr Z.max k keys
  end.
End LevelPodMap.

(** ** [peer_database_impl]
    The set has an index by endpoints, which are unique, and one by [last_seen_time]. *)
Record peer_database := PeerDatabase {
  leveldb : gmap Z potential_peer_record;
  potential_peer_set : gmap endpoint (Z * potential_peer_record)
}.

(** [insert] does nothing when there is an entry for the endpoint. *)
Definition insert_entry (set : gmap endpoint (Z * potential_peer_record))
    (entry : Z * potential_peer_record) : gmap endpoint (Z * potential_peer_record) :=
  match set !! peer_endpoint entry.2 with
  | Some _ => set
  | None => <[peer_endpoint entry.2 := entry]> set
  end.

Definition open (stored : gmap Z potential_peer_record) : peer_database :=
  PeerDatabase stored (foldl insert_entry ∅ (iterate stored)).
(** [close]: what stays on the disk. *)
Definition close (d : peer_database) : gmap Z potential_peer_record := leveldb d.
Definition clear (d : peer_database) : peer_database :=
  PeerDatabase (foldl (fun m entry => delete entry.1 m) (leveldb d) (iterate (leveldb d))) ∅.

(** [update_entry]. The variable [last_database_key] is not initialised: it is [garbage]
    when the database is empty. *)
Definition update_entry (garbage : Z) (updated : potential_peer_record) (d : peer_database)
    : peer_database :=
  let ep := peer_endpoint updated in
  match potential_peer_set d !! ep with
  | Some (key, _) =>
      PeerDatabase (<[key := updated]> (leveldb d)) (<[ep := (key, updated)]> (potential_peer_set d))
  | None =>
      let last_database_key := last garbage (leveldb d) in
      let new_database_key := uint32 (last_database_key + 1) in
      PeerDatabase (<[new_database_key := updated]> (leveldb d))
        (insert_entry (potential_peer_set d) (new_database_key, updated))
  end.

Definition lookup_or_create_entry_for_endpoint (ep : endpoint) (d : peer_database)
    : potential_peer_record :=
  match potential_peer_set d !! ep with
  | Some (_, r) => r
  | None => new_peer_record ep
  end.

(** From [begin()] to [end()]: those not seen for the longest time first. *)
Definition seen_before (a b : potential_peer_record) : Prop := last_seen_time a <= last_seen_time b.
#[export] Instance seen_before_dec a b : Decision (seen_before a b).
Proof. unfold seen_before. apply _. Defined.
Definition by_last_seen_time (d : peer_database) : list potential_peer_record :=
  merge_sort seen_before (map (fun kv => kv.2.2) (map_to_list (potential_peer_set d))).

Definition get_all (d : peer_database) : list potential_peer_record :=
  map snd (iterate (leveldb d)).

(** ** Proofs *)
Lemma iterate_spec {A} (m : gmap Z A) k r : (k, r) ∈ iterate m <-> m !! k = Some r.
Proof. unfold iterate. rewrite merge_sort_Permutation. apply elem_of_map_to_list. Qed.

Lemma last_is {A} g (m : gmap Z A) :
  (m = ∅ /\ last g m = g) \/
  (is_Some (m !! last g m) /\ forall k, is_Some (m !! k) -> k <= last g m).
Proof.
  unfold last. assert (Hk : forall k, is_Some (m !! k) <-> k ∈ map fst (map_to_list m)).
  { intros k. rewrite list_elem_of_fmap. split.
    - intros [r Hr]. exists (k, r). by rewrite elem_of_map_to_list.
    - intros ([k' r] & -> & Hin). apply elem_of_map_to_list in Hin. by exists r. }
  destruct (map fst (map_to_list m)) as [|k keys] eqn:E.
  { left. split; [|done]. apply map_empty. intros i. apply eq_None_not_Some. rewrite Hk.
    apply not_elem_of_nil. }
  right. setoid_rewrite Hk. clear E Hk. induction keys as [|k' keys IH]; cbn.
  { split; [by left|]. intros i [->|Hi]%elem_of_cons; [lia|]. by apply elem_of_nil in Hi. }
  destruct IH as [IH1 IH2]. split.
  - destruct (Z.max_spec k' (foldr Z.max k keys)) as [[_ ->]|[_ ->]]; set_solver.
  - intros i Hi. assert (i = k' \/ i ∈ k :: keys) as [->|Hin] by set_solver; [lia|].
    specialize (IH2 i Hin). lia.
Qed.

(** The set in memory is that of the entries on the disk, none of which has the endpoint of
    another. *)
Definition in_sync (d : peer_database) : Prop := forall ep k r,
  potential_peer_set d !! ep = Some (k, r) <-> leveldb d !! k = Some r /\ peer_endpoint r = ep.

Definition endpoints_unique (entries : list (Z * potential_peer_record)) : Prop :=
  forall a b, a ∈ entries -> b ∈ entries -> peer_endpoint a.2 = peer_endpoint b.2 -> a = b.

Lemma insert_entries_spec entries set ep k r :
  NoDup entries -> endpoints_unique entries ->
  (forall a, a ∈ entries -> set !! peer_endpoint a.2 = None) ->
  foldl insert_entry set entries !! ep = Some (k, r) <->
  set !! ep = Some (k, r) \/ (k, r) ∈ entries /\ peer_endpoint r = ep.
Proof.
  intros Hd. revert set. induction Hd as [|a entries Ha Hd IH]; intros set Hu Hn; cbn [foldl].
  { split; [by left|]. intros [?|[[]%elem_of_nil _]]. done. }
  assert (Ea : insert_entry set a = <[peer_endpoint a.2 := a]> set).
  { unfold insert_entry. rewrite Hn; [done|]. by left. }
  assert (Hne : forall b, b ∈ entries -> peer_endpoint a.2 <> peer_endpoint b.2).
  { intros b Hb E. assert (a = b) as -> by (apply Hu; [by left|by right|done]). done. }
  rewrite Ea, IH.
  - rewrite elem_of_cons. destruct (decide (peer_endpoint a.2 = ep)) as [<-|Hep].
    + rewrite lookup_insert_eq. split.
      * intros [[= ->]|[Hin E]]; [right; split; [by left|done]|]. by destruct (Hne (k, r) Hin).
      * intros [E|[[->|Hin] E]]; [|by left|by destruct (Hne (k, r) Hin)].
        rewrite Hn in E; [done|by left].
    + rewrite lookup_insert_ne by done. split; [intuition|]. intros [?|[[<-|Hin] E]]; [by left|done|by right].
  - intros b c Hb Hc. apply Hu; by right.
  - intros b Hb. rewrite lookup_insert_ne by by apply Hne. apply Hn. by right.
Qed.

Lemma iterate_NoDup {A} (m : gmap Z A) : NoDup (iterate m).
Proof. unfold iterate. rewrite merge_sort_Permutation. apply NoDup_map_to_list. Qed.

Lemma open_in_sync d : in_sync d -> open (close d) = d.
Proof.
  intros Hs. unfold open, close. destruct d as [db set]. cbn [leveldb]. f_equal. apply map_eq.
  intros ep. apply option_eq. intros [k r].
  rewrite insert_entries_spec, iterate_spec; [|apply iterate_NoDup| |done].
  - rewrite lookup_empty. split; [|intros H; right; by apply (Hs ep k r)].
    intros [[=]|H]. by apply (Hs ep k r).
  - intros [k1 r1] [k2 r2] H1%iterate_spec H2%iterate_spec E. cbn in E.
    assert (set !! peer_endpoint r1 = Some (k1, r1)) as E1 by (by apply (Hs _ k1 r1)).
    assert (set !! peer_endpoint r1 = Some (k2, r2)) as E2 by (by apply (Hs _ k2 r2)).
    congruence.
Qed.

(** No key of the database is greater than [n]. *)
Definition keys_upto (n : Z) (d : peer_database) : Prop :=
  forall k, is_Some (leveldb d !! k) -> 0 <= k <= n.

Lemma update_entry_spec g r d n :
  in_sync d -> keys_upto n d -> -1 <= g <= n -> n < 2 ^ 32 - 1 ->
  let d' := update_entry g r d in
  in_sync d' /\ keys_upto (n + 1) d' /\
  forall ep, lookup_or_create_entry_for_endpoint ep d' =
    if decide (ep = peer_endpoint r) then r else lookup_or_create_entry_for_endpoint ep d.
Proof.
  intros Hs Hk Hg Hn. cbn zeta. unfold update_entry, lookup_or_create_entry_for_endpoint.
  destruct (potential_peer_set d !! peer_endpoint r) as [[key old]|] eqn:E; cbn [potential_peer_set leveldb].
  - apply Hs in E as [E1 E2]. split; [|split].
    + intros ep k r'. cbn. rewrite lookup_insert_Some, lookup_insert_Some.
      pose proof (Hs ep k r') as Hep. split.
      * intros [[<- [= <- <-]]|[Hne Hr]]; [by split; [left|]|]. apply Hep in Hr as [Hr <-].
        split; [|done]. right. split; [|done]. intros ->. congruence.
      * intros [[[<- <-]|[Hne Hr]] Ee]; [by left|]. right. split; [|by apply Hep].
        intros <-. apply Hne. assert (E3 : potential_peer_set d !! peer_endpoint r = Some (key, old))
          by by apply Hs. assert (Some (k, r') = Some (key, old)); [|congruence].
        rewrite <- E3. symmetry. by apply Hs.
    + intros k. cbn. rewrite lookup_insert_is_Some. intros [<-|[_ Hr]].
      * pose proof (Hk key ltac:(by rewrite E1)). lia.
      * specialize (Hk k Hr). lia.
    + intros ep. destruct (decide (ep = peer_endpoint r)) as [->|Hne].
      * by rewrite lookup_insert_eq.
      * by rewrite lookup_insert_ne.
  - set (key := uint32 (last g (leveldb d) + 1)).
    assert (Hkey : 0 <= key <= n + 1 /\ leveldb d !! key = None).
    { unfold key, uint32. destruct (last_is g (leveldb d)) as [[E0 ->]|[Hin Hmax]].
      - rewrite E0, lookup_empty, Z.mod_small by lia. split; [lia|done].
      - pose proof (Hk _ Hin). rewrite Z.mod_small by lia. split; [lia|].
        apply eq_None_not_Some. intros Hsome%Hmax. lia. }
    clearbody key. destruct Hkey as [Hkey Hfree]. unfold insert_entry. cbn [snd]. rewrite E.
    split; [|split].
    + intros ep k r'. cbn. rewrite lookup_insert_Some, lookup_insert_Some.
      pose proof (Hs ep k r') as Hep. split.
      * intros [[<- [= <- <-]]|[Hne Hr]]; [by split; [left|]|]. apply Hep in Hr as [Hr <-].
        split; [|done]. right. split; [|done]. intros ->. congruence.
      * intros [[[<- <-]|[Hne Hr]] Ee]; [by left|]. right. split; [|by apply Hep].
        intros E'. assert (potential_peer_set d !! ep = Some (k, r')) by (by apply Hep).
        congruence.
    + intros k. cbn. rewrite lookup_insert_is_Some. intros [<-|[_ Hr]]; [done|].
      specialize (Hk k Hr). lia.
    + intros ep. destruct (decide (ep = peer_endpoint r)) as [->|Hne].
      * by rewrite lookup_insert_eq.
      * by rewrite lookup_insert_ne.
Qed.

(** Opening an empty directory, and any number of updates. *)
Definition update_all (rs : list (Z * potential_peer_record)) (d : peer_database) : peer_database :=
  foldl (fun d gr => update_entry gr.1 gr.2 d) d rs.

Lemma update_all_spec rs d n :
  in_sync d -> keys_upto n d -> n + Z.of_nat (length rs) < 2 ^ 32 - 1 ->
  Forall (fun gr => -1 <= gr.1 <= n) rs ->
  in_sync (update_all rs d) /\
  forall ep, lookup_or_create_entry_for_endpoint ep (update_all rs d) =
    default (lookup_or_create_entry_for_endpoint ep d)
      (List.find (fun r => bool_decide (peer_endpoint r = ep)) (rev (map snd rs))).
Proof.
  revert d n. induction rs as [|[g r] rs IH]; intros d n Hs Hk Hn Hg; [done|].
  cbn [length] in Hn. pose proof (Forall_inv Hg) as Hg0. apply Forall_inv_tail in Hg. cbn in Hg0.
  destruct (update_entry_spec g r d n Hs Hk Hg0 ltac:(lia)) as (Hs' & Hk' & Hl).
  cbn [update_all foldl fst snd map rev].
  destruct (IH (update_entry g r d) (n + 1) Hs' Hk' ltac:(lia)) as [IH1 IH2].
  { revert Hg. apply Forall_impl. intros []. cbn. lia. }
  split; [done|]. intros ep. rewrite IH2, Hl, find_app. cbn [List.find].
  destruct (List.find _ (rev (map snd rs))); [done|]. cbn [default].
  by destruct (decide (ep = peer_endpoint r)) as [->|Hne]; case_bool_decide.
Qed.

(** C21: The database of peers persists. After a directory was created and any updates were
    made, closing and opening it again gives the same database, in which every endpoint has its
    last update, if the first key, which the source does not initialise, leaves room: it is at
    most [n], and [n] and the number of updates are below [2^32 - 1] together. Otherwise entries
    are lost ([garbage_key_loses_entries]). *)
Theorem peer_database_persists rs n :
  Forall (fun gr => -1 <= gr.1 <= n) rs -> -1 <= n -> n + Z.of_nat (length rs) < 2 ^ 32 - 1 ->
  let d := update_all rs (open ∅) in
  open (close d) = d /\
  forall ep, lookup_or_create_entry_for_endpoint ep d =
    default (new_peer_record ep)
      (List.find (fun r => bool_decide (peer_endpoint r = ep)) (rev (map snd rs))).
Proof.
  intros Hg H1 Hn d. assert (H0 : in_sync (open ∅)).
  { intros ep k r. unfold open. cbn. rewrite !lookup_empty. by split; [|intros [[=]]]. }
  destruct (update_all_spec rs (open ∅) n H0) as [Hs Hl]; [|done|done|].
  { intros k. cbn. rewrite lookup_empty. by intros [? [=]]. }
  split; [by apply open_in_sync|]. intros ep. apply Hl.
Qed.

Definition some_peer (port : Z) : potential_peer_record := new_peer_record (Endpoint 1 port).
Lemma peer_database_persists_witness :
  let rs := [(-1, some_peer 1); (0, some_peer 2); (0, (some_peer 1) <| last_seen_time := 9 |>)] in
  let d := update_all rs (open ∅) in
  Forall (fun gr => -1 <= gr.1 <= 0) rs /\ open (close d) = d /\
  last_seen_time (lookup_or_create_entry_for_endpoint (Endpoint 1 1) d) = 9.
Proof.
  intros rs d. split; [repeat constructor; cbn; lia|].
  destruct (peer_database_persists rs 0) as [H1 H2];
    [repeat constructor; cbn; lia|lia|cbn; lia|].
  split; [exact H1|]. exact (f_equal last_seen_time (H2 (Endpoint 1 1))).
Defined.

(** The first key is whatever was on the stack; if it is large, the keys wrap around, two
    peers get the same one, and the database forgets a peer. *)
Example garbage_key_loses_entries :
  let d := update_all [(2 ^ 32 - 2, some_peer 1); (0, some_peer 2); (0, some_peer 3)] (open ∅) in
  size (potential_peer_set d) = 3%nat /\ size (potential_peer_set (open (close d))) = 2%nat.
Proof. vm_compute. by split. Qed.
