(* ===== verification/MessageCache.v ===== *)
(** [blockchain_tied_message_cache] of [node.cpp]: the messages a node can still give to its
    peers. Its clock ticks with the blocks that are accepted; [cache_spec] says for how long a
    message stays. *)
From S2P Require Import Prelude NetMessages.

Record message_propagation_data := PropagationData {
  received_time : Z;
  validated_time : Z;
  originating_peer : Z
}.
Record message_info := MessageInfo {
  message_hash : Z;
  message_body : message;
  block_clock_when_received : Z;
  propagation_data : message_propagation_data;
  message_contents_hash : Z
}.

(** The container in the order of insertion. It has an index of unique message hashes, and
    others in which equal keys keep this order. *)
Record blockchain_tied_message_cache := MessageCache {
  message_cache : list message_info;
  block_clock : Z
}.
Definition new_message_cache : blockchain_tied_message_cache := MessageCache [] 0.

Definition cache_duration_in_blocks : Z := 2.

(** The entries before [lower_bound( block_clock - cache_duration_in_blocks )] go. *)
Definition block_accepted (c : blockchain_tied_message_cache) : blockchain_tied_message_cache :=
  let block_clock := uint32 (block_clock c + 1) in
  if cache_duration_in_blocks <? block_clock then
    MessageCache (List.filter (fun i =>
      block_clock - cache_duration_in_blocks <=? block_clock_when_received i) (message_cache c))
      block_clock
  else MessageCache (message_cache c) block_clock.

Definition find_message (hash : Z) (c : blockchain_tied_message_cache) : option message_info :=
  List.find (fun i => message_hash i =? hash) (message_cache c).

(** Nothing is inserted when there is a message with this hash. *)
Definition cache_message (m : message) (hash : Z) (data : message_propagation_data)
    (content_hash : Z) (c : blockchain_tied_message_cache) : blockchain_tied_message_cache :=
  match find_message hash c with
  | Some _ => c
  | None => MessageCache
      (message_cache c ++ [MessageInfo hash m (block_clock c) data content_hash]) (block_clock c)
  end.

Definition get_message (hash : Z) (c : blockchain_tied_message_cache) : result message :=
  match find_message hash c with
  | Some i => Ok (message_body i)
  | None => Throw key_not_found
  end.
Definition get_message_propagation_data (hash : Z) (c : blockchain_tied_message_cache)
    : result message_propagation_data :=
  if hash =? 0 then Throw key_not_found
  else
    match List.find (fun i => message_contents_hash i =? hash) (message_cache c) with
    | Some i => Ok (propagation_data i)
    | None => Throw key_not_found
    end.

(** ** Proofs *)
(** What happens to a cache. *)
Inductive cache_event :=
| block_came
| message_came (m : message) (hash : Z) (data : message_propagation_data) (content_hash : Z).
Definition cache_step (c : blockchain_tied_message_cache) (e : cache_event)
    : blockchain_tied_message_cache :=
  match e with
  | block_came => block_accepted c
  | message_came m hash data content => cache_message m hash data content c
  end.
Definition blocks_in (es : list cache_event) : Z :=
  Z.of_nat (length (List.filter (fun e => match e with block_came => true | _ => false end) es)).

Notation cache_steps := (foldl cache_step).

(** No entry comes from the future, and the clock does not wrap around in the next [n] blocks. *)
Definition clock_ok (n : Z) (c : blockchain_tied_message_cache) : Prop :=
  0 <= block_clock c /\ block_clock c + n < 2 ^ 32 /\
  Forall (fun i => 0 <= block_clock_when_received i <= block_clock c) (message_cache c).

Lemma block_accepted_eq n c : clock_ok (n + 1) c -> 0 <= n ->
  block_accepted c = MessageCache (List.filter (fun i =>
    block_clock c - 1 <=? block_clock_when_received i) (message_cache c)) (block_clock c + 1) /\
  clock_ok n (block_accepted c).
Proof.
  intros (H0 & Hn & Hf) Hpos. unfold block_accepted, cache_duration_in_blocks, uint32.
  rewrite Z.mod_small by lia. destruct (Z.ltb_spec 2 (block_clock c + 1)).
  - split; [f_equal; apply filter_ext; intros i; f_equal; lia|].
    split; [cbn; lia|]. split; [cbn; lia|]. cbn. apply List.Forall_forall. intros i Hi.
    apply List.filter_In in Hi as [Hi _]. rewrite List.Forall_forall in Hf. specialize (Hf i Hi). lia.
  - split.
    + f_equal. symmetry. apply forallb_filter_id, forallb_forall. intros i Hi.
      rewrite List.Forall_forall in Hf. specialize (Hf i Hi). lia.
    + split; [cbn; lia|]. split; [cbn; lia|]. cbn. revert Hf. apply Forall_impl. lia.
Qed.

Lemma cache_message_ok n m hash data content c :
  clock_ok n c -> 0 <= n -> clock_ok n (cache_message m hash data content c).
Proof.
  unfold cache_message. destruct (find_message hash c); [done|]. intros (H0 & Hn & Hf) ?.
  split; [done|]. split; [done|]. cbn. apply Forall_app. split; [done|]. repeat constructor; cbn; lia.
Qed.

Lemma find_filter {A} (f g : A -> bool) l a :
  List.find f l = Some a -> g a = true -> List.find f (List.filter g l) = Some a.
Proof.
  induction l as [|b l IH]; cbn; [done|]. destruct (f b) eqn:Ef.
  - intros [= ->] Hg. rewrite Hg. cbn. by rewrite Ef.
  - intros Hl Hg. specialize (IH Hl Hg). destruct (g b); [|done]. cbn. by rewrite Ef.
Qed.

Lemma blocks_in_cons e es :
  blocks_in (e :: es) = (match e with block_came => 1 | _ => 0 end) + blocks_in es.
Proof. unfold blocks_in. destruct e; cbn [List.filter length]; lia. Qed.
Lemma blocks_in_nonneg es : 0 <= blocks_in es.
Proof. unfold blocks_in. lia. Qed.

Lemma message_stays es c hash i :
  clock_ok (blocks_in es) c -> find_message hash c = Some i ->
  block_clock c + blocks_in es <= block_clock_when_received i + 2 ->
  find_message hash (cache_steps c es) = Some i.
Proof.
  revert c. induction es as [|e es IH]; intros c Hc Hf Hle; [done|].
  rewrite blocks_in_cons in Hc, Hle. pose proof (blocks_in_nonneg es). cbn [foldl].
  destruct e as [|m h data content]; cbn [cache_step].
  - rewrite Z.add_comm in Hc. destruct (block_accepted_eq _ _ Hc) as [E Hc']; [done|].
    apply IH; [done| |rewrite E; cbn; lia]. rewrite E. unfold find_message. cbn.
    apply find_filter; [done|]. lia.
  - apply IH; [by apply cache_message_ok| |].
    + unfold cache_message. destruct (find_message h c); [done|]. unfold find_message in *. cbn.
      by rewrite find_app, Hf.
    + unfold cache_message. destruct (find_message h c); cbn; lia.
Qed.

Definition caches (hash : Z) (e : cache_event) : bool :=
  match e with message_came _ h _ _ => h =? hash | block_came => false end.

Lemma message_goes es c hash k :
  clock_ok (blocks_in es) c -> forallb (fun e => negb (caches hash e)) es = true ->
  (forall i, In i (message_cache c) -> message_hash i = hash ->
    block_clock_when_received i = k /\ block_clock c <= k + 2) ->
  k + 2 < block_clock c + blocks_in es -> find_message hash (cache_steps c es) = None.
Proof.
  revert c. induction es as [|e es IH]; intros c Hc Hes Hi Hlt.
  { cbn [foldl]. unfold find_message.
    destruct (List.find _ _) as [i|] eqn:E; [|done]. apply List.find_some in E as [Hin Hh].
    apply Z.eqb_eq in Hh. destruct (Hi i Hin Hh). unfold blocks_in in Hlt. cbn in Hlt. lia. }
  rewrite blocks_in_cons in Hc, Hlt. pose proof (blocks_in_nonneg es). cbn [foldl forallb] in *.
  apply andb_prop in Hes as [He Hes]. destruct e as [|m h data content]; cbn [cache_step].
  - rewrite Z.add_comm in Hc. destruct (block_accepted_eq _ _ Hc) as [E Hc']; [done|].
    apply IH; [done|done| |rewrite E; cbn; lia]. rewrite E. cbn. intros i [Hin Hk]%List.filter_In Hh.
    destruct (Hi i Hin Hh). lia.
  - cbn in He. apply negb_true_iff, Z.eqb_neq in He.
    assert (Eb : block_clock (cache_message m h data content c) = block_clock c)
      by (unfold cache_message; by destruct (find_message h c)).
    apply IH; [by apply cache_message_ok|done| |by rewrite Eb]. rewrite Eb. intros i Hin Hh.
    unfold cache_message in Hin. destruct (find_message h c); [by apply Hi|].
    apply List.in_app_iff in Hin as [Hin|[<-|[]]]; [by apply Hi|]. by cbn in Hh.
Qed.

(** C40: A message stays in the cache for two more blocks. A message that is cached is found
    until the second block after it, whatever else is cached; at the third block it goes, and
    unless it is cached again, it is not found any more. *)
Theorem cache_spec c m hash data content es :
  clock_ok (blocks_in es) c -> find_message hash c = None ->
  let c' := cache_steps (cache_message m hash data content c) es in
  (blocks_in es <= 2 -> get_message hash c' = Ok m) /\
  (3 <= blocks_in es -> forallb (fun e => negb (caches hash e)) es = true ->
    get_message hash c' = Throw key_not_found).
Proof.
  intros Hc Hn c'. set (i := MessageInfo hash m (block_clock c) data content).
  assert (Ec : cache_message m hash data content c = MessageCache (message_cache c ++ [i]) (block_clock c))
    by (unfold cache_message; by rewrite Hn).
  pose proof (cache_message_ok _ m hash data content c Hc (blocks_in_nonneg es)) as Hc1.
  unfold get_message. split.
  - intros H2. unfold c'. rewrite (message_stays es _ hash i Hc1); [done| |].
    + rewrite Ec. unfold find_message in *. cbn. rewrite find_app, Hn. cbn. by rewrite Z.eqb_refl.
    + rewrite Ec. cbn. lia.
  - intros H3 Hes. unfold c'. rewrite (message_goes es _ hash (block_clock c) Hc1); [done|done| |].
    + rewrite Ec. cbn. intros j Hin Hh. split; [|lia].
      apply List.in_app_iff in Hin as [Hin|[<-|[]]]; [|done]. unfold find_message in Hn.
      pose proof (List.find_none _ _ Hn j Hin) as Hj. cbn in Hj. lia.
    + rewrite Ec. cbn. lia.
Qed.

Lemma cache_spec_witness :
  let some_data := PropagationData 0 0 0 in
  clock_ok 3 new_message_cache /\
  get_message 7 (cache_steps (cache_message address_request 7 some_data 0 new_message_cache)
    [block_came; message_came address_request 8 some_data 0; block_came]) = Ok address_request /\
  get_message 7 (cache_steps (cache_message address_request 7 some_data 0 new_message_cache)
    [block_came; block_came; block_came]) = Throw key_not_found.
Proof.
  intros some_data. assert (H : forall n, 0 <= n <= 3 -> clock_ok n new_message_cache)
    by (intros n Hn; repeat split; cbn; [lia|lia|constructor]).
  split; [apply H; lia|]. split.
  - destruct (cache_spec new_message_cache address_request 7 some_data 0
      [block_came; message_came address_request 8 some_data 0; block_came] (H 2 ltac:(lia)) eq_refl) as [H2 _].
    apply H2. vm_compute. discriminate.
  - destruct (cache_spec new_message_cache address_request 7 some_data 0
      [block_came; block_came; block_came] (H 3 ltac:(lia)) eq_refl) as [_ H3].
    apply H3; [vm_compute; discriminate|reflexivity].
Defined.
