(* ===== verification/NodeState.v ===== *)
(** The state of the network node of [node.cpp]: [peer_connection] and [node_impl], with what
    its fibers still have to do.

    fc runs fibers that take turns: another one runs only where a fiber waits, which it does
    when it writes to a socket, and at the end of a turn of a loop. A fiber is therefore the
    list of what it will do, one [task] from one such point to the next; a task adds the tasks
    that follow from it. What the node sends and what it gives to its delegate is kept in
    [log]. *)
From S2P Require Import Prelude.
From S2P Require Export NetMessages PeerDatabase MessageCache.

(** ** [peer_connection] *)
Inductive peer_connection_direction := unknown | inbound | outbound.
Inductive connection_state :=
| disconnected
| just_connected
| secure_connection_established
| hello_sent
| hello_reply_sent
| connection_rejected_sent
| connected
| rejected.
#[export] Instance direction_eq_dec : EqDecision peer_connection_direction.
Proof. solve_decision. Defined.
#[export] Instance connection_state_eq_dec : EqDecision connection_state.
Proof. solve_decision. Defined.

(** [boost::tribool]: [None] is [indeterminate]. Tests of an indeterminate value fail. *)
Definition tribool : Set := option bool.
Definition is_true (b : tribool) : bool := match b with Some b => b | None => false end.
Definition tri_not (b : tribool) : tribool := option_map negb b.
Definition tri_or (b : tribool) (c : bool) : tribool := if c then Some true else b.

(** Times are in microseconds. *)
Record peer_connection := Peer {
  (* the connection; [socket_remote] and [socket_local] are the ends of the socket *)
  remote_endpoint : option endpoint;
  socket_remote : endpoint;
  socket_local : endpoint;
  connection_initiation_time : Z;
  direction : peer_connection_direction;
  state : connection_state;
  is_firewalled : tribool;
  last_message_received_time : Z;
  last_message_sent_time : Z;
  (* data about the peer node *)
  peer_node_id : Z;
  core_protocol_version : Z;
  inbound_address : Z;
  inbound_port : Z;
  outbound_port : Z;
  (* blockchain synchronization state data *)
  ids_of_items_to_get : list Z;
  number_of_unfetched_item_ids : Z;
  peer_needs_sync_items_from_us : bool;
  we_need_sync_items_from_peer : bool;
  item_ids_requested_from_peer : option (item_id * Z);
  sync_items_requested_from_peer : gmap item_id Z;
  last_block_number_delegate_has_seen : Z;
  last_block_delegate_has_seen : Z;
  (* non-synchronization state data *)
  inventory_peer_advertised_to_us : gset item_id;
  inventory_advertised_to_peer : gset item_id;
  items_requested_from_peer : gmap item_id Z
}.
#[export, refine] Instance peer_members : Members peer_connection := {
  eta p := Peer (remote_endpoint p) (socket_remote p) (socket_local p)
    (connection_initiation_time p) (direction p) (state p) (is_firewalled p)
    (last_message_received_time p) (last_message_sent_time p) (peer_node_id p)
    (core_protocol_version p) (inbound_address p) (inbound_port p) (outbound_port p)
    (ids_of_items_to_get p) (number_of_unfetched_item_ids p) (peer_needs_sync_items_from_us p)
    (we_need_sync_items_from_peer p) (item_ids_requested_from_peer p)
    (sync_items_requested_from_peer p) (last_block_number_delegate_has_seen p)
    (last_block_delegate_has_seen p) (inventory_peer_advertised_to_us p)
    (inventory_advertised_to_peer p) (items_requested_from_peer p)
}.
Proof. by intros []. Defined.

Definition no_endpoint : endpoint := Endpoint 0 0.
(** [peer_connection( n )]; what is not initialised is [0]. *)
Definition new_peer : peer_connection :=
  Peer None no_endpoint no_endpoint 0 unknown disconnected None 0 0 0 0 0 0 0
    [] 0 true true None ∅ 0 0 ∅ ∅ ∅.

Definition busy (p : peer_connection) : bool :=
  bool_decide (items_requested_from_peer p <> ∅) ||
  bool_decide (sync_items_requested_from_peer p <> ∅) ||
  match item_ids_requested_from_peer p with Some _ => true | None => false end.
Definition idle (p : peer_connection) : bool := negb (busy p).

(** [insert] of a map: an entry that is there stays. *)
Definition insert_new `{Countable K} {A} (k : K) (a : A) (m : gmap K A) : gmap K A :=
  match m !! k with Some _ => m | None => <[k := a]> m end.
Lemma dom_insert_new `{Countable K} {A} (k : K) (a : A) (m : gmap K A) :
  dom (insert_new k a m) = {[ k ]} ∪ dom m.
Proof.
  unfold insert_new. destruct (m !! k) eqn:E; [|apply dom_insert_L].
  apply elem_of_dom_2 in E. set_solver.
Qed.

(** Peers and fibers have names. *)
Definition peer_name : Set := nat.

(** What a fiber does up to the next point where it may wait. *)
Inductive task :=
(* writing to a socket *)
| send_message (to : peer_name) (m : message)
(* functions of [node_impl] that are called after a point where the fiber may wait *)
| fetch_next_batch (peer : peer_name)
| start_synchronizing_with (peer : peer_name)
| finish_handshake (peer : peer_name)
| process_backlog_of_sync_blocks
| trigger_fetch_sync_items_loop
| request_sync_item (peer : peer_name) (item : Z)
| disconnect (peer : peer_name) (caused_by_error : bool)
| record_disconnect (peer : peer_name)
| connect_to_task (peer : peer_name)
| connecting (peer : peer_name) (record : potential_peer_record)
| add_once_peer (record : potential_peer_record)
| add_once_later (record : potential_peer_record)
| connect_to_candidates
(* the loops, and the points where they wait *)
| fetch_sync_items_turn
| fetch_items_turn
| fetch_items_from (kept : nat)
| advertise_inventory_turn
| terminate_inactive_turn
| connect_turn
| wait_for_sync_items
| wait_for_items
| wait_for_inventory
| sleep.

(** A fiber is the loop that reads from a peer, the task that connects to it, one of the
    loops of the node, or a call of the client. *)
Inductive fiber :=
| reader (peer : peer_name)
| connector (peer : peer_name)
| fetch_sync_items_loop
| fetch_items_loop
| advertise_inventory_loop
| terminate_inactive_connections_loop
| p2p_network_connect_loop
| caller (n : nat).
#[export] Instance fiber_eq_dec : EqDecision fiber.
Proof. solve_decision. Defined.
#[export] Instance fiber_countable : Countable fiber.
Proof.
  refine (inj_countable' (fun f => match f with
    | reader p => (0, p) | connector p => (1, p) | fetch_sync_items_loop => (2, 0)
    | fetch_items_loop => (3, 0) | advertise_inventory_loop => (4, 0)
    | terminate_inactive_connections_loop => (5, 0) | p2p_network_connect_loop => (6, 0)
    | caller n => (7, n) end)%nat
    (fun p => match p.1 with
    | 0 => reader p.2 | 1 => connector p.2 | 2 => fetch_sync_items_loop | 3 => fetch_items_loop
    | 4 => advertise_inventory_loop | 5 => terminate_inactive_connections_loop
    | 6 => p2p_network_connect_loop | _ => caller p.2 end)%nat _).
  by intros [].
Defined.

Inductive output :=
| requested (peer : peer_name) (item : item_id)
| sync_requested (peer : peer_name) (block_id : Z)
| advertised (peer : peer_name) (item : item_id)
| sent (by_fiber : fiber) (to : peer_name) (m : message)
| handled (m : message) (sync_mode : bool)
| sync_status (item_type item_count : Z)
| closed_socket (peer : peer_name).

(** [node_delegate]: what the client promises. Its notifications are only displayed.
    [set_clock] is the passing of time, which the client sees as well. *)
Class NodeDelegate (D : Type) := {
  has_item : D -> item_id -> bool;
  handle_message : message -> bool -> run D bool;
  get_item_ids : D -> Z -> list Z -> result (list Z * Z);
  get_item : D -> item_id -> result message;
  get_chain_id : D -> Z;
  get_blockchain_synopsis : D -> Z -> Z -> Z -> result (list Z);
  get_block_number : D -> Z -> result Z;
  set_clock : Z -> D -> D
}.

(** ** [node_impl] *)
Record node {D : Type} := Node {
  delegate : D;
  node_chain_id : Z;
  node_id : Z;
  clock : Z;
  actual_listening_endpoint : endpoint;
  allowed_peers : gset Z;
  (* parameters *)
  desired_number_of_connections : Z;
  maximum_number_of_connections : Z;
  peer_connection_retry_timeout : Z;
  peer_inactivity_timeout : Z;
  (* connections; [peers] are the objects the sets point to *)
  peers : gmap peer_name peer_connection;
  handshaking_connections : gset peer_name;
  active_connections : gset peer_name;
  closing_connections : gset peer_name;
  (* used by the task that manages connecting to peers *)
  potential_peer_db : peer_database;
  add_once_node_list : list potential_peer_record;
  potential_peer_database_updated : bool;
  (* used by the task that fetches sync items *)
  sync_items_to_fetch_updated : bool;
  active_sync_requests : gmap Z Z;
  received_sync_items : list block_message;
  (* used by the tasks that fetch and advertise items during normal operation *)
  items_to_fetch_updated : bool;
  items_to_fetch : list item_id;
  new_inventory : gset item_id;
  most_recent_blocks_accepted : list Z;
  sync_item_type : Z;
  total_number_of_unfetched_items : Z;
  node_message_cache : blockchain_tied_message_cache;
  (* the fibers, and what was sent *)
  fibers : gmap fiber (list task);
  log : list output
}.
Arguments node : clear implicits.
#[export, refine] Instance node_members D : Members (node D) := {
  eta n := Node D (delegate n) (node_chain_id n) (node_id n) (clock n)
    (actual_listening_endpoint n) (allowed_peers n) (desired_number_of_connections n)
    (maximum_number_of_connections n) (peer_connection_retry_timeout n)
    (peer_inactivity_timeout n) (peers n) (handshaking_connections n) (active_connections n)
    (closing_connections n) (potential_peer_db n) (add_once_node_list n)
    (potential_peer_database_updated n) (sync_items_to_fetch_updated n) (active_sync_requests n)
    (received_sync_items n) (items_to_fetch_updated n) (items_to_fetch n) (new_inventory n)
    (most_recent_blocks_accepted n) (sync_item_type n) (total_number_of_unfetched_items n)
    (node_message_cache n) (fibers n) (log n)
}.
Proof. by intros []. Defined.

(** ** Reading and changing it *)
(** What a variable that is not initialised holds. *)
Class Uninitialised := { garbage : Z }.

Section Access.
Context {D : Type}.
Implicit Types n : node D.

Definition get : run (node D) (node D) := reads Ok.
Definition peer_of n (p : peer_name) : peer_connection := default new_peer (peers n !! p).
Definition set_peer (p : peer_name) (f : peer_connection -> peer_connection) : run (node D) unit :=
  modify (fun n => n <| peers ::= <[p := f (peer_of n p)]> |>).
(** A name that no peer has had: peers are never forgotten. *)
Definition new_name n : peer_name := S (foldr Nat.max 0%nat (map fst (map_to_list (peers n)))).
Definition put_log (o : output) : run (node D) unit :=
  modify (fun n => n <| log ::= fun l => l ++ [o] |>).
(** The peers of a set in the order of an iteration. *)
Definition each_peer n (s : gset peer_name) : list (peer_name * peer_connection) :=
  map (fun p => (p, peer_of n p)) (elements s).

(** [fc::time_point::now()], as a [time_point_sec]. *)
Definition to_seconds (t : Z) : Z := t / 1000000.
Definition now_sec n : Z := to_seconds (clock n).
Definition seconds (s : Z) : Z := s * 1000000.

Definition trigger_p2p_network_connect_loop : run (node D) unit :=
  modify (fun n => n <| potential_peer_database_updated := true |>).
Definition trigger_fetch_sync_items : run (node D) unit :=
  modify (fun n => n <| sync_items_to_fetch_updated := true |>).
Definition trigger_fetch_items : run (node D) unit :=
  modify (fun n => n <| items_to_fetch_updated := true |>).
End Access.
