(* ===== verification/NodePeers.v ===== *)
(** The connections of the network node: which peers it connects to and accepts, the messages
    at the beginning of a connection, and how connections end; with the database of peers. *)
From S2P Require Import Prelude.
From S2P Require Export NodeState.

Section NodePeers.
Context `{FcNet} `{Uninitialised} {D : Type} `{NodeDelegate D}.
Notation run := (run (node D)).
Implicit Types (n : node D) (p : peer_name).

(** ** The database of peers *)
Definition update_db (r : potential_peer_record) : run unit :=
  modify (fun n => n <| potential_peer_db ::= update_entry garbage r |>).
Definition lookup_db n (ep : endpoint) : potential_peer_record :=
  lookup_or_create_entry_for_endpoint ep (potential_peer_db n).

Fixpoint merge_address_info_with_potential_peer_database (addresses : list address_info) : run bool :=
  match addresses with
  | [] => ret false
  | a :: addresses =>
      let! n := get in
      let r := lookup_db n (address_endpoint a) in
      let new_information := last_seen_time r <? address_last_seen_time a in
      let! _ := update_db (r <| last_seen_time ::= Z.max (address_last_seen_time a) |>) in
      let! more := merge_address_info_with_potential_peer_database addresses in
      ret (new_information || more)
  end.

(** ** Counting and finding connections *)
Definition get_number_of_connections n : Z :=
  uint32 (Z.of_nat (size (handshaking_connections n)) + Z.of_nat (size (active_connections n))).
Definition is_accepting_new_connections n : bool :=
  get_number_of_connections n <=? maximum_number_of_connections n.
Definition is_wanting_new_connections n : bool :=
  get_number_of_connections n <? desired_number_of_connections n.

Definition is_already_connected_to_id n (id : Z) : bool :=
  (node_id n =? id) ||
  existsb (fun q => peer_node_id q.2 =? id) (each_peer n (active_connections n)) ||
  existsb (fun q => peer_node_id q.2 =? id) (each_peer n (handshaking_connections n)).

Definition get_connection_to_endpoint n (ep : endpoint) : option peer_name :=
  option_map fst (List.find (fun q => bool_decide (remote_endpoint q.2 = Some ep))
    (each_peer n (active_connections n) ++ each_peer n (handshaking_connections n))).
Definition is_connection_to_endpoint_in_progress n (ep : endpoint) : bool :=
  match get_connection_to_endpoint n ep with Some _ => true | None => false end.

(** ** The end of a connection *)
(** [disconnect_from_peer]; its reason is only displayed. *)
Definition disconnect_from_peer p (caused_by_error : bool) : run (list task) :=
  let! _ := modify (fun n =>
    n <| closing_connections ::= union {[ p ]} |>
      <| handshaking_connections ::= fun s => s ∖ {[ p ]} |>
      <| active_connections ::= fun s => s ∖ {[ p ]} |>) in
  let! n := get in
  if bool_decide (state (peer_of n p) = connected) then
    ret [send_message p (closing_connection caused_by_error); record_disconnect p]
  else let! _ := put_log (closed_socket p) in ret [].
(** The rest of it, after the message was sent. *)
Definition disconnect_sent p : run (list task) :=
  let! n := get in
  let! ep := reads (fun n => deref (remote_endpoint (peer_of n p))) in
  let! _ := update_db ((lookup_db n ep) <| last_seen_time := now_sec n |>) in
  let! _ := put_log (closed_socket p) in
  ret [].

Definition on_connection_closed p : run unit :=
  let! n := get in
  let! _ :=
    if bool_decide (p ∈ closing_connections n) then
      modify (fun n => n <| closing_connections ::= fun s => s ∖ {[ p ]} |>)
    else if bool_decide (p ∈ active_connections n) then
      let! _ := modify (fun n => n <| active_connections ::= fun s => s ∖ {[ p ]} |>) in
      let! ep := reads (fun n => deref (remote_endpoint (peer_of n p))) in
      update_db ((lookup_db n ep) <| last_seen_time := now_sec n |>)
    else modify (fun n => n <| handshaking_connections ::= fun s => s ∖ {[ p ]} |>) in
  trigger_p2p_network_connect_loop.

(** ** The beginning of a connection *)
(** A [peer_connection] is made, and inserted into [_handshaking_connections]. *)
Definition add_peer (peer : peer_connection) : run peer_name :=
  let! n := get in
  let p := new_name n in
  let! _ := modify (fun n =>
    n <| peers ::= insert p (peer <| connection_initiation_time := clock n |>) |>
      <| handshaking_connections ::= union {[ p ]} |>) in
  ret p.

(** [accept_loop], with the connection from [remote] that was accepted. *)
Definition accept_connection (remote local : endpoint) : run unit :=
  let! _ := add_peer (new_peer <| socket_remote := remote |> <| socket_local := local |>
    <| direction := inbound |> <| state := just_connected |>) in
  ret tt.
(** [peer_connection::accept_connection], when the keys are exchanged; the loop that reads
    from the peer starts. *)
Definition connection_accepted p : run unit :=
  let! _ := set_peer p (fun q => q <| remote_endpoint := Some (socket_remote q) |>
    <| state := secure_connection_established |>) in
  modify (fun n => n <| fibers ::= insert (reader p) [] |>).

Definition connect_to (ep : endpoint) : run unit :=
  let! n := get in
  if is_connection_to_endpoint_in_progress n ep then raise assert_exception
  else
    let! p := add_peer (new_peer <| remote_endpoint := Some ep |> <| socket_remote := ep |>) in
    modify (fun n => n <| fibers ::= insert (connector p) [connect_to_task p] |>).

(** [connect_to_task] up to the point where it waits for the connection. It keeps a copy of
    the record. *)
Definition connect_to_peer p : run (list task) :=
  let! n := get in
  let! ep := reads (fun n => deref (remote_endpoint (peer_of n p))) in
  let r := (lookup_db n ep) <| last_connection_disposition := last_connection_failed |>
    <| last_connection_attempt_time := now_sec n |> in
  let! _ := update_db r in
  let! _ := set_peer p (fun q => q <| direction := outbound |>) in
  ret [connecting p r].
(** The rest of it: the local end of the connection, or an exception. *)
Definition connect_returned p (r : potential_peer_record) (outcome : result endpoint)
    : run (list task) :=
  match outcome with
  | Throw e =>
      let! _ := update_db (r <| last_connection_disposition := last_connection_failed |>
        <| number_of_failed_connection_attempts ::= fun k => uint32 (k + 1) |>) in
      let! _ := modify (fun n => n <| handshaking_connections ::= fun s => s ∖ {[ p ]} |>) in
      let! _ := trigger_p2p_network_connect_loop in
      raise e
  | Ok local =>
      let! _ := set_peer p (fun q => q <| state := secure_connection_established |>
        <| socket_local := local |>) in
      let! _ := modify (fun n => n <| fibers ::= insert (reader p) [] |>) in
      let! n := get in
      let! _ := update_db (r <| last_connection_disposition := last_connection_handshaking_failed |>
        <| number_of_successful_connection_attempts ::= fun k => uint32 (k + 1) |>
        <| last_seen_time := now_sec n |>) in
      let listening := get_port (actual_listening_endpoint n) in
      let! _ := set_peer p (fun q => q <| inbound_address := get_address local |>
        <| inbound_port := listening |> <| outbound_port := get_port local |>
        <| state := hello_sent |>) in
      ret [send_message p (hello (Hello BTS_NET_PROTOCOL_VERSION (get_address local) listening
        (get_port local) (node_id n) (node_chain_id n)))]
  end.

(** ** [p2p_network_connect_loop] *)
Definition is_candidate n (r : potential_peer_record) : bool :=
  let delay_until_retry := seconds (uint32 (uint32 (number_of_failed_connection_attempts r + 1)
    * peer_connection_retry_timeout n)) in
  negb (is_connection_to_endpoint_in_progress n (peer_endpoint r)) &&
  (negb (bool_decide (last_connection_disposition r ∈
     [last_connection_failed; last_connection_rejected; last_connection_handshaking_failed])) ||
   (delay_until_retry <? clock n - seconds (last_connection_attempt_time r))).

Fixpoint connect_each (candidates : list potential_peer_record) : run bool :=
  match candidates with
  | [] => ret false
  | r :: candidates =>
      let! n := get in
      if is_wanting_new_connections n then
        if is_candidate n r then
          let! _ := connect_to (peer_endpoint r) in
          let! _ := connect_each candidates in
          ret true
        else connect_each candidates
      else ret false
  end.
(** [while( is_wanting_new_connections() )]. *)
Fixpoint connect_while_wanting (fuel : nat) : run unit :=
  match fuel with
  | O => raise does_not_return
  | S fuel =>
      let! n := get in
      if is_wanting_new_connections n then
        let! _ := modify (fun n => n <| potential_peer_database_updated := false |>) in
        let! initiated_connection_this_pass := connect_each (by_last_seen_time (potential_peer_db n)) in
        let! n := get in
        if negb initiated_connection_this_pass && negb (potential_peer_database_updated n)
        then ret tt
        else connect_while_wanting fuel
      else ret tt
  end.
(** Every turn but the last one adds a connection. *)
Definition connect_candidates : run (list task) :=
  let! n := get in
  let! _ := connect_while_wanting (S (Z.to_nat (desired_number_of_connections n))) in
  ret [sleep; connect_turn].

Definition connect_loop_turn : run (list task) :=
  let! n := get in
  let! _ := modify (fun n => n <| add_once_node_list := [] |>) in
  ret (map add_once_peer (add_once_node_list n) ++ [connect_to_candidates]).
Definition connect_once (r : potential_peer_record) : run (list task) :=
  let! n := get in
  match get_connection_to_endpoint n (peer_endpoint r) with
  | Some existing =>
      let! tasks := disconnect_from_peer existing false in
      ret (tasks ++ [add_once_later r])
  | None => let! _ := connect_to (peer_endpoint r) in ret []
  end.
Definition retry_once (r : potential_peer_record) : run (list task) :=
  let! _ := modify (fun n => n <| add_once_node_list ::= fun l => l ++ [r] |>) in
  ret [].

(** ** [terminate_inactive_connections_loop] *)
Definition inactive (threshold : Z) (q : peer_connection) : bool :=
  (connection_initiation_time q <? threshold) && (last_message_received_time q <? threshold) &&
  (last_message_sent_time q <? threshold).
Definition terminate_inactive_connections : run (list task) :=
  let! n := get in
  let handshaking_threshold := clock n - seconds (peer_inactivity_timeout n) in
  let active_threshold := clock n - seconds (uint32 (peer_inactivity_timeout n * 20)) in
  let peers_to_disconnect :=
    List.filter (fun q => inactive handshaking_threshold q.2) (each_peer n (handshaking_connections n)) ++
    List.filter (fun q => inactive active_threshold q.2) (each_peer n (active_connections n)) in
  ret (map (fun q => disconnect q.1 false) peers_to_disconnect ++ [sleep; terminate_inactive_turn]).

(** ** The first messages *)
(** A rejection: the connection stays open. *)
Definition reject p : run (list task) :=
  let! _ := set_peer p (fun q => q <| state := connection_rejected_sent |>) in
  let! n := get in
  ret [send_message p (connection_rejected (socket_remote (peer_of n p)))].

(** The part of [on_hello_message] that finds out whether the peer is behind a firewall. *)
Definition check_firewall p : run unit :=
  let! n := get in
  let q := peer_of n p in
  let actual := socket_remote q in
  if (get_address actual =? inbound_address q) && (get_port actual =? outbound_port q) then
    if inbound_port q =? 0 then set_peer p (fun q => q <| is_firewalled := Some true |>)
    else
      let! _ := update_db (lookup_db n (Endpoint (inbound_address q) (inbound_port q))) in
      set_peer p (fun q => q <| is_firewalled := Some false |>)
  else set_peer p (fun q => q <| is_firewalled := Some true |>).

Definition on_hello_message p (m : hello_message) : run (list task) :=
  let! n := get in
  let already_connected_to_this_peer := is_already_connected_to_id n (hello_node_id m) in
  if negb (hello_chain_id m =? node_chain_id n) then
    let! tasks := reject p in
    ret (tasks ++ [disconnect p false])
  else
    let! _ := set_peer p (fun q => q <| peer_node_id := hello_node_id m |>
      <| core_protocol_version := hello_protocol_version m |>
      <| inbound_address := hello_inbound_address m |>
      <| inbound_port := hello_inbound_port m |>
      <| outbound_port := hello_outbound_port m |>) in
    let q := peer_of n p in
    if bool_decide (state q = secure_connection_established /\ direction q = inbound) then
      if already_connected_to_this_peer then reject p
      else if bool_decide (allowed_peers n <> ∅ /\ hello_node_id m ∉ allowed_peers n) then reject p
      else
        let! _ := check_firewall p in
        let! n := get in
        if is_accepting_new_connections n then
          let! _ := set_peer p (fun q => q <| state := hello_reply_sent |>) in
          ret [send_message p (hello_reply (HelloReply BTS_NET_PROTOCOL_VERSION
            (socket_remote q) (node_id n) (node_chain_id n)))]
        else reject p
    else disconnect_from_peer p false.

Definition on_hello_reply_message p (m : hello_reply_message) : run (list task) :=
  let! n := get in
  let already_connected_to_this_peer := is_already_connected_to_id n (reply_node_id m) in
  let! _ := set_peer p (fun q => q <| peer_node_id := reply_node_id m |>
    <| core_protocol_version := reply_protocol_version m |>) in
  let q := peer_of n p in
  if bool_decide (state q = hello_sent /\ direction q = outbound) then
    if already_connected_to_this_peer then disconnect_from_peer p false
    else if bool_decide (allowed_peers n <> ∅ /\ reply_node_id m ∉ allowed_peers n) then
      disconnect_from_peer p false
    else
      let! _ := set_peer p (fun q => q <| state := connected |>) in
      ret [send_message p address_request]
  else raise assert_exception.

Definition on_connection_rejected_message p : run (list task) :=
  let! n := get in
  let q := peer_of n p in
  if bool_decide (state q = hello_sent /\ direction q = outbound) then
    let! _ := update_db ((lookup_db n (socket_remote q))
      <| last_connection_disposition := last_connection_rejected |>
      <| last_connection_attempt_time := now_sec n |>) in
    let! _ := set_peer p (fun q => q <| state := rejected |>) in
    ret [send_message p address_request]
  else raise assert_exception.

Definition is_advertised (q : peer_connection) : bool :=
  is_true (tri_or (tri_not (is_firewalled q)) (bool_decide (direction q = outbound))).
Definition on_address_request_message p : run (list task) :=
  let! n := get in
  let! addresses := run_fold (fun reply q =>
    if is_advertised q.2 then
      let! ep := reads (fun _ => deref (remote_endpoint q.2)) in
      ret (reply ++ [AddressInfo ep (now_sec n)])
    else ret reply) [] (each_peer n (active_connections n)) in
  ret [send_message p (address addresses)].

(** Both ways into [_active_connections]: [if( !originating_peer->is_firewalled )] records the
    success. *)
Definition activate p : run unit :=
  let! n := get in
  let q := peer_of n p in
  let! _ :=
    if is_true (tri_not (is_firewalled q)) then
      let! ep := reads (fun _ => deref (remote_endpoint q)) in
      update_db ((lookup_db n ep) <| last_connection_disposition := last_connection_succeeded |>)
    else ret tt in
  modify (fun n =>
    n <| active_connections ::= union {[ p ]} |>
      <| handshaking_connections ::= fun s => s ∖ {[ p ]} |>).
End NodePeers.
