(* ===== verification/NodeSync.v ===== *)
(** How the network node synchronizes its chain with its peers: asking a peer for the ids of
    the blocks it has, fetching the blocks that are missing, and giving them to the client in
    the order of the chain. *)
From S2P Require Import Prelude.
From S2P Require Export NodePeers.

(** ** Synopses
    A chain is summed up by the first block, the one half way to the last, and so on: the
    loop that the client and the node share. [entry] is what the synopsis has for a block. *)
Section Synopsis.
Context (entry : Z -> result (list Z)) (true_high_block_num high_block_num : Z).
Fixpoint synopsis_loop (fuel : nat) (low_block_num : Z) : result (list Z) :=
  match fuel with
  | O => Throw does_not_return
  | S fuel =>
      let* ids := entry low_block_num in
      let low_block_num :=
        uint32 (low_block_num + uint32 (true_high_block_num - low_block_num + 2) / 2) in
      if low_block_num <=? high_block_num then
        let* rest := synopsis_loop fuel low_block_num in
        Ok (ids ++ rest)
      else Ok ids
  end.
End Synopsis.

Section NodeSync.
Context `{FcNet} `{Uninitialised} {D : Type} `{NodeDelegate D}.
Notation run := (run (node D)).
Implicit Types (n : node D) (p : peer_name).

(** ** Asking for ids *)
Definition list_at (l : list Z) (i : Z) : result (list Z) :=
  if i <? 0 then Throw undefined_behaviour
  else match l !! Z.to_nat i with Some x => Ok [x] | None => Throw undefined_behaviour end.

(** [create_blockchain_synopsis_for_peer]; it asks the delegate twice for the same when the
    first answer is empty. *)
Definition create_blockchain_synopsis_for_peer n (q : peer_connection) : result (list Z) :=
  let reference_point := last_block_delegate_has_seen q in
  let ids := ids_of_items_to_get q in
  let number_of_blocks_after_reference_point := uint32 (Z.of_nat (length ids)) in
  let ask := get_blockchain_synopsis (delegate n) (sync_item_type n) reference_point
    number_of_blocks_after_reference_point in
  let* synopsis := ask in
  let* synopsis :=
    if negb (reference_point =? 0) && bool_decide (synopsis = []) then ask else Ok synopsis in
  if number_of_blocks_after_reference_point =? 0 then Ok synopsis
  else
    let seen := last_block_number_delegate_has_seen q in
    let true_high_block_num := uint32 (seen + number_of_blocks_after_reference_point) in
    let* rest := synopsis_loop
      (fun low_block_num => if seen <? low_block_num then list_at ids (low_block_num - seen - 1) else Ok [])
      true_high_block_num true_high_block_num (S (Z.to_nat true_high_block_num)) 1 in
    Ok (synopsis ++ rest).

Definition fetch_next_batch_of_item_ids_from_peer p : run (list task) :=
  let! blockchain_synopsis := reads (fun n => create_blockchain_synopsis_for_peer n (peer_of n p)) in
  let last_item_seen := List.last blockchain_synopsis 0 in
  let! n := get in
  let! _ := set_peer p (fun q =>
    q <| item_ids_requested_from_peer := Some (ItemId (sync_item_type n) last_item_seen, clock n) |>) in
  ret [send_message p (fetch_blockchain_item_ids (sync_item_type n) blockchain_synopsis)].

Definition start_synchronizing_with_peer p : run (list task) :=
  let! _ := set_peer p (fun q => q <| we_need_sync_items_from_peer := true |>
    <| last_block_delegate_has_seen := 0 |> <| last_block_number_delegate_has_seen := 0 |>) in
  fetch_next_batch_of_item_ids_from_peer p.

(** [on_address_message], with [new_peer_just_added]. *)
Definition on_address_message p (addresses : list address_info) : run (list task) :=
  let! new_information_received := merge_address_info_with_potential_peer_database addresses in
  let! _ := if new_information_received : bool then trigger_p2p_network_connect_loop else ret tt in
  let! n := get in
  if bool_decide (state (peer_of n p) = rejected) then disconnect_from_peer p false
  else
    let! _ := activate p in
    start_synchronizing_with_peer p.

(** The part of [on_fetch_blockchain_item_ids_message] after the reply. *)
Definition handshake_finished p : run (list task) :=
  let! n := get in
  if bool_decide (direction (peer_of n p) = inbound /\ p ∈ handshaking_connections n) then
    let! _ := activate p in
    start_synchronizing_with_peer p
  else ret [].

Definition on_fetch_blockchain_item_ids_message p (type : Z) (blockchain_synopsis : list Z)
    : run (list task) :=
  let! (item_hashes, remaining) :=
    reads (fun n => get_item_ids (delegate n) type blockchain_synopsis) in
  let peers_last_item_seen := List.last blockchain_synopsis 0 in
  let in_sync :=
    match item_hashes with
    | [] => true
    | [last] => negb (bool_decide (blockchain_synopsis = [])) && (last =? peers_last_item_seen)
    | _ => false
    end in
  let! _ := set_peer p (fun q => q <| peer_needs_sync_items_from_us := negb in_sync |>) in
  let! n := get in
  let! restart :=
    if negb (we_need_sync_items_from_peer (peer_of n p)) &&
       negb (bool_decide (blockchain_synopsis = [])) &&
       negb (has_item (delegate n) (ItemId type peers_last_item_seen))
    then start_synchronizing_with_peer p else ret [] in
  ret (restart ++ [send_message p (blockchain_item_ids_inventory
    (BlockchainItemIdsInventory remaining type item_hashes)); finish_handshake p]).

(** ** The ids a peer has *)
Definition calculate_unsynced_block_count_from_all_peers n : Z :=
  foldr (fun q count => Z.max count
    (uint32 (Z.of_nat (length (ids_of_items_to_get q.2)) + number_of_unfetched_item_ids q.2))) 0
    (each_peer n (active_connections n)).

(** The loop that drops ids of blocks the delegate has; how many, and the last of them. *)
Fixpoint flush_known (d : D) (type : Z) (received : list Z) : list Z * option Z * Z :=
  match received with
  | [] => ([], None, 0)
  | id :: rest =>
      if has_item d (ItemId type id) then
        let '(remaining, last, k) := flush_known d type rest in
        (remaining, Some (default id last), k + 1)
      else (received, None, 0)
  end.

(** [pop_back] until the list ends with [id]. *)
Fixpoint pop_back_until (id : Z) (rev_ids : list Z) : list Z :=
  match rev_ids with
  | [] => []
  | last :: rest => if last =? id then rev_ids else pop_back_until id rest
  end.

(** What is received joins the list of the peer: the part that is appended. *)
Definition join_received p (type : Z) (received : list Z) : run (list Z) :=
  let! n := get in
  let ids := ids_of_items_to_get (peer_of n p) in
  match received with
  | [] => ret []
  | first :: rest =>
      if bool_decide (ids = []) then
        let is_first_item_for_other_peer := existsb (fun q =>
          negb (bool_decide (q.1 = p)) && bool_decide (head (ids_of_items_to_get q.2) = Some first))
          (each_peer n (active_connections n)) in
        if is_first_item_for_other_peer then ret received
        else
          let '(remaining, last, k) := flush_known (delegate n) type received in
          let! _ := set_peer p (fun q =>
            q <| last_block_delegate_has_seen ::= fun seen => default seen last |>
              <| last_block_number_delegate_has_seen ::= fun num => uint32 (num + k) |>) in
          ret remaining
      else
        let ids := rev (pop_back_until first (rev ids)) in
        if bool_decide (ids = []) then
          (* the peer switched forks *)
          let! _ := set_peer p (fun q => q <| ids_of_items_to_get := [] |>
            <| last_block_delegate_has_seen := first |>) in
          let! num := reads (fun n => get_block_number (delegate n) first) in
          let! _ := set_peer p (fun q => q <| last_block_number_delegate_has_seen := num |>) in
          ret rest
        else
          let! _ := set_peer p (fun q => q <| ids_of_items_to_get := removelast ids |>) in
          ret received
  end.

Definition report_sync_status (type : Z) (changed : Z -> Z -> bool) : run unit :=
  let! n := get in
  let count := calculate_unsynced_block_count_from_all_peers n in
  let! _ := if changed count (total_number_of_unfetched_items n)
            then put_log (sync_status type count) else ret tt in
  modify (fun n => n <| total_number_of_unfetched_items := count |>).

Definition on_blockchain_item_ids_inventory_message p (m : blockchain_item_ids_inventory_message)
    : run (list task) :=
  let! n := get in
  match item_ids_requested_from_peer (peer_of n p) with
  | None => ret []
  | Some _ =>
      let! _ := set_peer p (fun q => q <| item_ids_requested_from_peer := None |>) in
      let q := peer_of n p in
      let type := inventory_item_type m in
      let seen_the_last_one :=
        match item_hashes_available m with
        | [] => true
        | [last] => has_item (delegate n) (ItemId type last)
        | _ => false
        end in
      if (total_remaining_item_count m =? 0) && seen_the_last_one &&
         bool_decide (ids_of_items_to_get q = []) && (number_of_unfetched_item_ids q =? 0)
      then
        let! _ := set_peer p (fun q => q <| we_need_sync_items_from_peer := false |>) in
        let! _ := report_sync_status type (fun count _ => count =? 0) in
        ret []
      else
        let! _ := set_peer p (fun q =>
          q <| number_of_unfetched_item_ids := total_remaining_item_count m |>) in
        let! received := join_received p type (item_hashes_available m) in
        let! _ := set_peer p (fun q => q <| ids_of_items_to_get ::= fun ids => ids ++ received |>) in
        let! _ := report_sync_status type (fun count total => negb (count =? total)) in
        let! n := get in
        if (total_remaining_item_count m =? 0) &&
           negb (bool_decide (ids_of_items_to_get (peer_of n p) = []))
        then let! _ := trigger_fetch_sync_items in ret []
        else fetch_next_batch_of_item_ids_from_peer p
  end.

(** ** [fetch_sync_items_loop] *)
Definition have_already_received_sync_item n (item : Z) : bool :=
  existsb (fun b => message_block_id b =? item) (received_sync_items n).

Definition request_sync_item_from_peer p (item : Z) : run (list task) :=
  let! n := get in
  let id := ItemId block_message_type item in
  let now := clock n in
  let! _ := modify (fun n => n <| active_sync_requests ::= insert_new item now |>) in
  let! _ := set_peer p (fun q => q <| sync_items_requested_from_peer ::= insert_new id now |>) in
  let! _ := put_log (sync_requested p item) in
  ret [send_message p (fetch_items block_message_type [item])].

(** The requests that are scheduled, for one peer after the other. *)
Definition is_requestable n (scheduled : list (peer_name * Z)) (item : Z) : bool :=
  negb (have_already_received_sync_item n item) &&
  negb (bool_decide (item ∈ map snd scheduled)) &&
  bool_decide (active_sync_requests n !! item = None).
Definition schedule n (scheduled : list (peer_name * Z)) (q : peer_name * peer_connection)
    : list (peer_name * Z) :=
  if we_need_sync_items_from_peer q.2 && idle q.2 then
    match List.find (is_requestable n scheduled) (ids_of_items_to_get q.2) with
    | Some item => scheduled ++ [(q.1, item)]
    | None => scheduled
    end
  else scheduled.
Definition fetch_sync_items : run (list task) :=
  let! _ := modify (fun n => n <| sync_items_to_fetch_updated := false |>) in
  let! n := get in
  let sync_item_requests_to_send := foldl (schedule n) [] (each_peer n (active_connections n)) in
  ret (map (fun r => request_sync_item r.1 r.2) sync_item_requests_to_send ++ [wait_for_sync_items]).

Definition on_item_not_available_message p (item : item_id) : run (list task) :=
  let! n := get in
  let q := peer_of n p in
  if bool_decide (is_Some (items_requested_from_peer q !! item)) then
    let! _ := set_peer p (fun q => q <| items_requested_from_peer ::= delete item |>) in
    let! _ := trigger_fetch_items in ret []
  else if bool_decide (is_Some (sync_items_requested_from_peer q !! item)) then
    let! _ := set_peer p (fun q => q <| sync_items_requested_from_peer ::= delete item |>) in
    let! _ := trigger_fetch_sync_items in ret []
  else ret [].

(** ** The blocks *)
(** [boost::circular_buffer], for as many blocks as there can be connections at the beginning. *)
Definition recent_blocks_capacity : nat := 12.
Definition push_recent (id : Z) n : node D :=
  n <| most_recent_blocks_accepted ::= fun l =>
    let l := l ++ [id] in drop (length l - recent_blocks_capacity) l |>.

(** The delegate handles a message, unless it is a block that was accepted recently. *)
Definition delegate_handles (m : message) (sync_mode : bool) : run bool :=
  let! _ := put_log (handled m sync_mode) in
  on_part delegate (fun d n => n <| delegate := d |>) (handle_message m sync_mode).
Definition accept_block (b : block_message) (sync_mode : bool) : run bool :=
  let! n := get in
  if bool_decide (message_block_id b ∈ most_recent_blocks_accepted n) then ret false
  else
    let! _ := delegate_handles (block b) sync_mode in
    let! _ := modify (push_recent (message_block_id b)) in
    ret true.

Definition is_first_item (id : Z) (q : peer_connection) : bool :=
  bool_decide (head (ids_of_items_to_get q) = Some id).
Definition peers_offering n (id : Z) : list peer_name :=
  map fst (List.filter (fun q => is_first_item id q.2) (each_peer n (active_connections n))).

(** The first block of [_received_sync_items] that is next for some peer, and the others. *)
Fixpoint take_first {A} (f : A -> bool) (l : list A) : option (A * list A) :=
  match l with
  | [] => None
  | x :: l =>
      if f x then Some (x, l)
      else match take_first f l with Some (y, l) => Some (y, x :: l) | None => None end
  end.
Definition potential_first_block n (b : block_message) : bool :=
  existsb (fun q => is_first_item (message_block_id b) q.2) (each_peer n (active_connections n)).

(** An accepted block goes off the front of the lists of the peers. *)
Definition pop_accepted (id : Z) (q : peer_connection) : peer_connection :=
  if is_first_item id q then
    q <| last_block_delegate_has_seen := id |>
      <| last_block_number_delegate_has_seen ::= fun k => uint32 (k + 1) |>
      <| ids_of_items_to_get ::= tail |>
  else q.
Definition is_newly_empty (id : Z) (q : peer_connection) : bool :=
  is_first_item id q && bool_decide (tail (ids_of_items_to_get q) = []) &&
  (number_of_unfetched_item_ids q =? 0).
Definition is_to_restart (q : peer_connection) : bool :=
  bool_decide (ids_of_items_to_get q = []) && negb (peer_needs_sync_items_from_us q) &&
  negb (we_need_sync_items_from_peer q).

Definition block_was_accepted (id : Z) : run (list task) :=
  let! _ := modify (fun n => n <| total_number_of_unfetched_items ::= fun k => uint32 (k - 1) |>) in
  let! n := get in
  let peers := each_peer n (active_connections n) in
  let newly_empty := List.filter (fun q => is_newly_empty id q.2) peers in
  let to_restart := List.filter (fun q => is_to_restart q.2) peers in
  let! _ := run_each (fun q => set_peer q (pop_accepted id)) (map fst peers) in
  ret (map (fun q => fetch_next_batch q.1) newly_empty ++
    map (fun q => start_synchronizing_with q.1) to_restart ++ [process_backlog_of_sync_blocks]).

(** A turn of the loop of [process_backlog_of_sync_blocks]. *)
Definition process_backlog : run (list task) :=
  let! n := get in
  match take_first (potential_first_block n) (received_sync_items n) with
  | None => ret []
  | Some (b, others) =>
      let! _ := modify (fun n => n <| received_sync_items := others |>) in
      let id := message_block_id b in
      let! client_accepted_block :=
        try_catch (let! _ := accept_block b true in ret true) (fun _ => ret false) in
      if client_accepted_block : bool then block_was_accepted id
      else
        let! n := get in
        ret (map (fun p => disconnect p true) (peers_offering n id))
  end.

Definition process_block_during_sync (b : block_message) : run (list task) :=
  let! _ := modify (fun n => n <| received_sync_items ::= cons b |>) in
  ret [process_backlog_of_sync_blocks; trigger_fetch_sync_items_loop].
End NodeSync.
