(* ===== verification/NodeItems.v ===== *)
(** Normal operation of the network node: advertising what is new, fetching what others
    advertise, and passing on what the client accepts. *)
From S2P Require Import Prelude.
From S2P Require Export NodeSync.

Section NodeItems.
Context `{FcNet} `{FcTransaction} `{Uninitialised} {D : Type} `{NodeDelegate D}.
Notation run := (run (node D)).
Implicit Types (n : node D) (p : peer_name).

(** ** Passing messages on *)
(** [broadcast]: the loop that advertises is woken by [_new_inventory]. *)
Definition contents_hash (m : message) : Z :=
  match m with
  | block b => message_block_id b
  | trx t => trx_id t
  | _ => 0
  end.
Definition broadcast (m : message) (data : message_propagation_data) : run unit :=
  let! _ :=
    match m with
    | block b => modify (push_recent (message_block_id b))
    | _ => ret tt
    end in
  modify (fun n =>
    n <| node_message_cache ::= cache_message m (message_id m) data (contents_hash m) |>
      <| new_inventory ::= union {[ ItemId (msg_type m) (message_id m) ]} |>).

(** ** [advertise_inventory_loop] *)
(** What is new to a peer, by type. *)
Definition new_to (inventory : list item_id) (q : peer_connection) : list item_id :=
  List.filter (fun i => negb (bool_decide (i ∈ inventory_advertised_to_peer q)) &&
    negb (bool_decide (i ∈ inventory_peer_advertised_to_us q))) inventory.
Fixpoint insert_by_type (i : item_id) (groups : list (Z * list Z)) : list (Z * list Z) :=
  match groups with
  | [] => [(item_type i, [item_hash i])]
  | (type, hashes) :: rest =>
      if item_type i <? type then (item_type i, [item_hash i]) :: groups
      else if item_type i =? type then (type, hashes ++ [item_hash i]) :: rest
      else (type, hashes) :: insert_by_type i rest
  end.
Definition items_by_type (items : list item_id) : list (Z * list Z) :=
  foldl (fun groups i => insert_by_type i groups) [] items.

Definition advertise_to (inventory : list item_id) (messages : list task) p : run (list task) :=
  let! n := get in
  let q := peer_of n p in
  if peer_needs_sync_items_from_us q then ret messages
  else
    let items := new_to inventory q in
    let! _ := set_peer p (fun q =>
      q <| inventory_advertised_to_peer ::= union (list_to_set items) |>) in
    let! _ := run_each (fun i => put_log (advertised p i)) items in
    ret (messages ++
      map (fun group => send_message p (item_ids_inventory group.1 group.2)) (items_by_type items)).
Definition advertise_inventory : run (list task) :=
  let! n := get in
  let! _ := modify (fun n => n <| new_inventory := ∅ |>) in
  let! messages := run_fold (advertise_to (elements (new_inventory n))) []
    (elements (active_connections n)) in
  ret (messages ++ [wait_for_inventory]).

(** ** Fetching *)
Definition can_fetch_from n (i : item_id) (q : peer_connection) : bool :=
  idle q && bool_decide (i ∈ inventory_peer_advertised_to_us q).
Definition peer_to_fetch_from n (i : item_id) : option peer_name :=
  option_map fst (List.find (fun q => can_fetch_from n i q.2) (each_peer n (active_connections n))).

(** [fetch_items_loop]: [_items_to_fetch] from the position [kept] on, up to the next request. *)
Definition next_fetch n (kept : nat) : option (nat * item_id * peer_name) :=
  let fix search k l :=
    match l with
    | [] => None
    | i :: l =>
        match peer_to_fetch_from n i with
        | Some p => Some (k, i, p)
        | None => search (S k) l
        end
    end in
  search kept (drop kept (items_to_fetch n)).
Definition fetch_items_at (kept : nat) : run (list task) :=
  let! n := get in
  match next_fetch n kept with
  | None => ret [wait_for_items]
  | Some (k, i, p) =>
      let now := clock n in
      let! _ := set_peer p (fun q => q <| items_requested_from_peer ::= insert_new i now |>) in
      let! _ := put_log (requested p i) in
      let! _ := modify (fun n => n <| items_to_fetch ::= delete k |>) in
      ret [send_message p (fetch_items (item_type i) [item_hash i]); fetch_items_from k]
  end.
Definition fetch_items_loop_turn : run (list task) :=
  let! _ := modify (fun n => n <| items_to_fetch_updated := false |>) in
  fetch_items_at 0.

(** [on_item_ids_inventory_message]: the scan of the peers stops at one the item was
    advertised to. *)
Definition advertised_by_us n (i : item_id) : bool :=
  existsb (fun q => bool_decide (i ∈ inventory_advertised_to_peer q.2))
    (each_peer n (active_connections n)).
Definition requested_by_us n (i : item_id) : bool :=
  existsb (fun q => bool_decide (is_Some (items_requested_from_peer q.2 !! i)))
    (each_peer n (active_connections n)).
Definition item_advertised p (i : item_id) : run unit :=
  let! n := get in
  if advertised_by_us n i then ret tt
  else
    let! _ := set_peer p (fun q => q <| inventory_peer_advertised_to_us ::= union {[ i ]} |>) in
    if requested_by_us n i then ret tt
    else if bool_decide (i ∈ items_to_fetch n) then ret tt
    else
      let! _ := modify (fun n => n <| items_to_fetch ::= fun l => l ++ [i] |>) in
      trigger_fetch_items.
Definition on_item_ids_inventory_message p (type : Z) (item_hashes : list Z) : run (list task) :=
  let! _ := run_each (fun hash => item_advertised p (ItemId type hash)) item_hashes in
  ret [].

(** [on_fetch_items_message]: from the cache, or from the delegate. *)
Definition requested_message n (type hash : Z) : result message :=
  match get_message hash (node_message_cache n) with
  | Ok m => Ok m
  | Throw _ =>
      match get_item (delegate n) (ItemId type hash) with
      | Throw key_not_found => Ok (item_not_available (ItemId type hash))
      | r => r
      end
  end.
Definition on_fetch_items_message p (type : Z) (hashes : list Z) : run (list task) :=
  let! n := get in
  let! replies := reads (fun _ => foldM (fun replies hash =>
    let* m := requested_message n type hash in Ok (replies ++ [m])) [] hashes) in
  ret (map (send_message p) replies).

(** ** What was fetched *)
(** A peer that offered an accepted block is as one that it was offered to. *)
Definition offered_to_us (i : item_id) (q : peer_connection) : peer_connection :=
  if bool_decide (i ∈ inventory_peer_advertised_to_us q) then
    q <| inventory_peer_advertised_to_us ::= fun s => s ∖ {[ i ]} |>
      <| inventory_advertised_to_peer ::= union {[ i ]} |>
  else q.
Definition process_block_during_normal_operation p (b : block_message) (hash : Z)
    : run (list task) :=
  let! n := get in
  let message_receive_time := clock n in
  let! _ := trigger_fetch_items in
  try_catch
    (let! handled_now := accept_block b false in
     let! n := get in
     let message_validated_time := if handled_now : bool then clock n else 0 in
     let! _ := run_each (fun p => set_peer p (offered_to_us (ItemId block_message_type hash)))
       (elements (active_connections n)) in
     let! _ := broadcast (block b) (PropagationData message_receive_time
       message_validated_time (peer_node_id (peer_of n p))) in
     let! _ := modify (fun n => n <| node_message_cache ::= block_accepted |>) in
     ret [])
    (fun _ =>
      let! n := get in
      ret (map (fun p => disconnect p true) (peers_offering n (message_block_id b)))).

Definition process_block_message p (b : block_message) (hash : Z) : run (list task) :=
  let! n := get in
  let q := peer_of n p in
  let item := ItemId block_message_type hash in
  let sync_item := ItemId block_message_type (message_block_id b) in
  if bool_decide (is_Some (items_requested_from_peer q !! item)) then
    let! _ := set_peer p (fun q => q <| items_requested_from_peer ::= delete item |>) in
    process_block_during_normal_operation p b hash
  else if bool_decide (is_Some (sync_items_requested_from_peer q !! sync_item)) then
    let! _ := set_peer p (fun q => q <| sync_items_requested_from_peer ::= delete sync_item |>) in
    process_block_during_sync b
  else disconnect_from_peer p true.

Definition process_ordinary_message p (m : message) (hash : Z) : run (list task) :=
  let! n := get in
  let message_receive_time := clock n in
  let item := ItemId (msg_type m) hash in
  if bool_decide (is_Some (items_requested_from_peer (peer_of n p) !! item)) then
    let! _ := set_peer p (fun q => q <| items_requested_from_peer ::= delete item |>) in
    let! _ := trigger_fetch_items in
    let! accepted := try_catch (let! _ := delegate_handles m false in ret true) (fun _ => ret false) in
    if accepted : bool then
      let! n := get in
      let! _ := broadcast m (PropagationData message_receive_time (clock n)
        (peer_node_id (peer_of n p))) in
      ret []
    else ret []
  else disconnect_from_peer p true.
End NodeItems.
