(* ===== verification/Node.v ===== *)
(** The network node as a whole: what its fibers do with the messages and calls that come in,
    in any order.

    A run is a sequence of [event]s: messages and connections from outside, the outcome of
    writing to a socket, and the next task of a fiber. What a fiber throws ends it, except
    that the loops that read from peers and the loop that connects go on. Between two tasks of
    a fiber others can run, at the points where the fiber waits and at a few more, so that all
    runs of the node are among these. *)
From S2P Require Import Prelude.
From S2P Require Export NodeItems.

Section Node.
Context `{FcNet} `{FcTransaction} `{Uninitialised} {D : Type} `{NodeDelegate D}.
Notation run := (run (node D)).
Implicit Types (n : node D) (p : peer_name).

(** ** [node_impl::on_message] *)
Definition on_message p (m : message) : run (list task) :=
  match m with
  | hello m => on_hello_message p m
  | hello_reply m => on_hello_reply_message p m
  | connection_rejected _ => on_connection_rejected_message p
  | address_request => on_address_request_message p
  | address addresses => on_address_message p addresses
  | fetch_blockchain_item_ids type synopsis => on_fetch_blockchain_item_ids_message p type synopsis
  | blockchain_item_ids_inventory m => on_blockchain_item_ids_inventory_message p m
  | fetch_items type items => on_fetch_items_message p type items
  | item_not_available item => on_item_not_available_message p item
  | item_ids_inventory type items => on_item_ids_inventory_message p type items
  | closing_connection _ => ret []
  | block b => process_block_message p b (message_id m)
  | trx _ | other _ _ => process_ordinary_message p m (message_id m)
  end.

(** ** Tasks *)
(** What a task does, and the tasks that come of it before the others of the fiber. Writing
    to a socket and connecting wait for an outcome, and are not done here. *)
Definition run_task (t : task) : run (list task) :=
  match t with
  | send_message _ _ | connecting _ _ => ret [t]
  | fetch_next_batch p => fetch_next_batch_of_item_ids_from_peer p
  | start_synchronizing_with p => start_synchronizing_with_peer p
  | finish_handshake p => handshake_finished p
  | process_backlog_of_sync_blocks => process_backlog
  | trigger_fetch_sync_items_loop => let! _ := trigger_fetch_sync_items in ret []
  | request_sync_item p item => request_sync_item_from_peer p item
  | disconnect p caused_by_error => disconnect_from_peer p caused_by_error
  | record_disconnect p => disconnect_sent p
  | connect_to_task p => connect_to_peer p
  | add_once_peer r => connect_once r
  | add_once_later r => retry_once r
  | connect_to_candidates => connect_candidates
  | fetch_sync_items_turn | wait_for_sync_items => fetch_sync_items
  | fetch_items_turn | wait_for_items => fetch_items_loop_turn
  | fetch_items_from kept => fetch_items_at kept
  | advertise_inventory_turn | wait_for_inventory => advertise_inventory
  | terminate_inactive_turn => terminate_inactive_connections
  | connect_turn => connect_loop_turn
  | sleep => ret []
  end.

(** When a task can be done: the ends of loops wait to be triggered. *)
Definition is_ready n (t : task) : bool :=
  match t with
  | send_message _ _ | connecting _ _ => false
  | wait_for_sync_items => sync_items_to_fetch_updated n
  | wait_for_items => items_to_fetch_updated n
  | wait_for_inventory => negb (bool_decide (new_inventory n = ∅))
  | _ => true
  end.

(** What is left of a fiber that throws. *)
Definition after_throw (f : fiber) : option (list task) :=
  match f with
  | reader _ => Some []
  | p2p_network_connect_loop => Some [connect_turn]
  | _ => None
  end.
Definition set_fiber (f : fiber) (rest : option (list task)) : run unit :=
  modify (fun n => n <| fibers ::= partial_alter (fun _ => rest) f |>).

(** A step of the fiber [f], which has [rest] to do after it. *)
Definition step_fiber (f : fiber) (rest : list task) (m : run (list task)) : run unit := fun n =>
  match m n with
  | (Ok tasks, n) => set_fiber f (Some (tasks ++ rest)) n
  | (Throw e, n) =>
      if is_fc_exception e then set_fiber f (after_throw f) n else (Throw e, n)
  end.

(** ** The public interface of [node_impl] *)
Inductive call :=
| call_broadcast (m : message)
| call_sync_from (last : item_id)
| call_add_node (ep : endpoint)
| call_connect_to (ep : endpoint)
| call_set_allowed_peers (ids : list Z)
| call_set_advanced_node_parameters (retry desired maximum : option Z)
| call_clear_peer_database
| call_set_node_delegate (d : D).

Definition add_node (ep : endpoint) : run unit :=
  let! n := get in
  let r := (lookup_db n ep) <| last_connection_attempt_time ::=
    Z.min (now_sec n - peer_connection_retry_timeout n) |> in
  let! _ := modify (fun n => n <| add_once_node_list ::= fun l => l ++ [r] |>) in
  let! _ := update_db r in
  trigger_p2p_network_connect_loop.

Definition sync_from (last : item_id) : run unit :=
  modify (fun n => n <| most_recent_blocks_accepted := [item_hash last] |>
    <| sync_item_type := item_type last |>).

Definition set_allowed_peers (ids : list Z) : run (list task) :=
  let! _ := modify (fun n => n <| allowed_peers := list_to_set ids |>) in
  let! n := get in
  let peers_to_disconnect :=
    if bool_decide (allowed_peers n = ∅) then []
    else List.filter (fun q => negb (bool_decide (peer_node_id q.2 ∈ allowed_peers n)))
           (each_peer n (active_connections n)) in
  ret (map (fun q => disconnect q.1 false) peers_to_disconnect).

(** Every parameter is there or not; numbers are cast to [uint32_t]. *)
Definition set_advanced_node_parameters (retry desired maximum : option Z) : run unit :=
  modify (fun n =>
    n <| peer_connection_retry_timeout ::= fun x => default x (uint32 <$> retry) |>
      <| desired_number_of_connections ::= fun x => default x (uint32 <$> desired) |>
      <| maximum_number_of_connections ::= fun x => default x (uint32 <$> maximum) |>).

Definition do_call (c : call) : run (list task) :=
  match c with
  | call_broadcast m =>
      let! n := get in
      let! _ := broadcast m (PropagationData (clock n) (clock n) (node_id n)) in ret []
  | call_sync_from last => let! _ := sync_from last in ret []
  | call_add_node ep => let! _ := add_node ep in ret []
  | call_connect_to ep => let! _ := connect_to ep in ret []
  | call_set_allowed_peers ids => set_allowed_peers ids
  | call_set_advanced_node_parameters retry desired maximum =>
      let! _ := set_advanced_node_parameters retry desired maximum in ret []
  | call_clear_peer_database =>
      let! _ := modify (fun n => n <| potential_peer_db ::= clear |>) in ret []
  | call_set_node_delegate d =>
      let! _ := modify (fun n => n <| delegate := d |> <| node_chain_id := get_chain_id d |>) in
      ret []
  end.

(** ** Runs *)
Inductive event :=
| tick (microseconds : Z)
| accepted (remote local : endpoint)
| keys_exchanged (p : peer_name)
| delivered (p : peer_name) (m : message)
| connection_closed (p : peer_name)
| connect_outcome (p : peer_name) (outcome : result endpoint)
| written (f : fiber) (success : bool)
| runs (f : fiber)
| called (i : nat) (c : call)
| locally (act : Errors.run D unit).

(** What an event does; [None] if it cannot happen. [locally] is what the client does on its
    own, as when it produces a block. *)
Definition handle (e : event) n : option (run unit) :=
  match e with
  | tick t =>
      if 0 <=? t then Some (modify (fun n =>
        n <| clock := clock n + t |> <| delegate ::= set_clock (to_seconds (clock n + t)) |>))
      else None
  | accepted remote local => Some (accept_connection remote local)
  | keys_exchanged p =>
      match peers n !! p with
      | Some q => if bool_decide (state q = just_connected) then Some (connection_accepted p) else None
      | None => None
      end
  | delivered p m =>
      match fibers n !! reader p with
      | Some [] => Some (
          let! _ := set_peer p (fun q => q <| last_message_received_time := clock n |>) in
          step_fiber (reader p) [] (on_message p m))
      | _ => None
      end
  | connection_closed p =>
      match fibers n !! reader p with
      | Some [] => Some (let! _ := set_fiber (reader p) None in on_connection_closed p)
      | _ => None
      end
  | connect_outcome p outcome =>
      match fibers n !! connector p with
      | Some (connecting q r :: rest) =>
          if bool_decide (p = q) then Some (step_fiber (connector p) rest (connect_returned p r outcome))
          else None
      | _ => None
      end
  | written f success =>
      match fibers n !! f with
      | Some (send_message p m :: rest) => Some (step_fiber f rest (
          if success : bool then
            let! _ := put_log (sent f p m) in
            let! _ := set_peer p (fun q => q <| last_message_sent_time := clock n |>) in
            ret []
          else raise assert_exception))
      | _ => None
      end
  | runs f =>
      match fibers n !! f with
      | Some (t :: rest) => if is_ready n t then Some (step_fiber f rest (run_task t)) else None
      | _ => None
      end
  | called i c =>
      match fibers n !! caller i with
      | Some (_ :: _) => None
      | _ => Some (step_fiber (caller i) [] (do_call c))
      end
  | locally act =>
      Some (try_catch (on_part delegate (fun d n => n <| delegate := d |>) act) (fun _ => ret tt))
  end.

(** A run, which ends when its behaviour is undefined. *)
Inductive steps : node D -> list event -> node D -> Prop :=
| steps_nil n : steps n [] n
| steps_cons n e op n1 trace n2 :
    handle e n = Some op -> op n = (Ok tt, n1) -> steps n1 trace n2 -> steps n (e :: trace) n2.

(** The same as a function. *)
Fixpoint exec (trace : list event) n : option (node D) :=
  match trace with
  | [] => Some n
  | e :: trace =>
      match handle e n with
      | Some op => match op n with (Ok tt, n1) => exec trace n1 | _ => None end
      | None => None
      end
  end.

(** A node on which [connect_to_p2p_network] was called, listening at [listening]. *)
Definition first_node (d : D) (id : Z) (listening : endpoint) (stored : gmap Z potential_peer_record)
    : node D :=
  Node D d (get_chain_id d) id 0 listening ∅ 8 12 30 5 ∅ ∅ ∅ ∅ (open stored) [] false false ∅ []
    false [] ∅ [] 0 0 new_message_cache
    (<[fetch_sync_items_loop := [fetch_sync_items_turn]]>
     (<[fetch_items_loop := [fetch_items_turn]]>
     (<[advertise_inventory_loop := [advertise_inventory_turn]]>
     (<[terminate_inactive_connections_loop := [terminate_inactive_turn]]>
     {[p2p_network_connect_loop := [connect_turn]]})))) [].
End Node.
