(* ===== verification/NodeChanges.v ===== *)
(** What the operations of the network node change, proved once for all of them: every
    operation is a sequence of the changes [change], and the tasks it leaves belong to its
    fiber. The properties of the node then follow by induction on these changes. *)
From stdpp Require Import relations.
From S2P Require Import Prelude.
From S2P Require Export Node.

(** ** Changes *)
(** The part of a peer that is watched. *)
Record watch := Watch {
  watch_items : gmap item_id Z;
  watch_sync_items : gmap item_id Z;
  watch_advertised : gset item_id;
  watch_firewalled : tribool;
  watch_direction : peer_connection_direction;
  watch_socket : endpoint;
  watch_endpoint : option endpoint
}.
Definition watch_of (q : peer_connection) : watch :=
  Watch (items_requested_from_peer q) (sync_items_requested_from_peer q)
    (inventory_advertised_to_peer q) (is_firewalled q) (direction q) (socket_remote q)
    (remote_endpoint q).

(** What only some operations do. *)
Inductive permission {D : Type} :=
| may_handle (m : message) (sync_mode : bool)
| may_receive (b : block_message)
| may_request_sync (p : peer_name) (item : Z)
| may_turn_outbound (p : peer_name)
| may_continue (f : fiber) (rest : option (list task))
| may_change (d d' : D).
Arguments permission : clear implicits.

Definition succeeded (r : potential_peer_record) : Prop :=
  last_connection_disposition r = last_connection_succeeded.
Definition plain_output (o : output) : Prop :=
  match o with sent _ _ _ | sync_status _ _ | closed_socket _ => True | _ => False end.

Section Changes.
Context `{NodeDelegate D} (allowed : permission D -> Prop).
Notation node := (node D).
Implicit Types (n : node) (p : peer_name).

Definition watched n p : watch := watch_of (peer_of n p).
Definition books n :=
  (delegate n, active_sync_requests n, received_sync_items n, potential_peer_db n, fibers n, log n).

(** The peers, or all but one, are as they were; none is forgotten. *)
Definition same_peers n n' : Prop :=
  (forall p, watched n' p = watched n p) /\
  (forall p, is_Some (peers n !! p) -> is_Some (peers n' !! p)).
Definition same_other_peers p n n' : Prop :=
  (forall p', p' <> p -> watched n' p' = watched n p') /\
  (forall p', is_Some (peers n !! p') -> is_Some (peers n' !! p')) /\ is_Some (peers n' !! p).

Inductive peer_change p : watch -> watch -> Prop :=
| peer_forgets items sync_items items' sync_items' adv adv' fw dir sock ep :
    items' ⊆ items -> sync_items' ⊆ sync_items -> adv ⊆ adv' ->
    peer_change p (Watch items sync_items adv fw dir sock ep)
      (Watch items' sync_items' adv' fw dir sock ep)
| peer_firewalled items sync_items adv fw fw' sock ep :
    peer_change p (Watch items sync_items adv fw inbound sock ep)
      (Watch items sync_items adv fw' inbound sock ep)
| peer_outbound items sync_items adv fw dir sock ep :
    allowed (may_turn_outbound p) ->
    peer_change p (Watch items sync_items adv fw dir sock ep)
      (Watch items sync_items adv fw outbound sock ep)
| peer_connected items sync_items adv fw dir sock ep :
    peer_change p (Watch items sync_items adv fw dir sock ep)
      (Watch items sync_items adv fw dir sock (Some sock)).

Definition fresh_watch (w : watch) : Prop :=
  watch_items w = ∅ /\ watch_sync_items w = ∅ /\ watch_advertised w = ∅ /\
  watch_firewalled w = None /\ watch_direction w <> outbound /\
  (watch_endpoint w = None \/ watch_endpoint w = Some (watch_socket w)).

(** A record of the database that says the connection succeeded did so before, or is that of
    a peer without a firewall. *)
Definition storable n (r : potential_peer_record) : Prop :=
  succeeded r ->
  (exists ep k r0, potential_peer_set (potential_peer_db n) !! ep = Some (k, r0) /\
    succeeded r0 /\ peer_endpoint r0 = peer_endpoint r) \/
  exists p ep, watch_firewalled (watched n p) = Some false /\
    watch_endpoint (watched n p) = Some ep /\ peer_endpoint r = peer_endpoint (lookup_db n ep).

Definition new_fiber n (f : fiber) (ts : list task) : Prop :=
  match f with
  | reader _ => ts = []
  | connector p => ts = [connect_to_task p] /\ is_Some (peers n !! p) /\
      watch_direction (watched n p) = unknown /\ watch_firewalled (watched n p) = None
  | _ => False
  end.

Inductive change n n' : Prop :=
| changes_nothing : same_peers n n' -> books n' = books n -> change n n'
| changes_peer p : same_other_peers p n n' -> books n' = books n ->
    peer_change p (watched n p) (watched n' p) -> change n n'
| adds_peer p : same_other_peers p n n' -> books n' = books n ->
    peers n !! p = None -> fresh_watch (watched n' p) -> change n n'
| logs o : same_peers n n' -> plain_output o ->
    books n' = (delegate n, active_sync_requests n, received_sync_items n, potential_peer_db n, fibers n,
      log n ++ [o]) -> change n n'
| handles m sync_mode r d' : same_peers n n' -> allowed (may_handle m sync_mode) ->
    handle_message m sync_mode (delegate n) = (r, d') -> returned r ->
    books n' = (d', active_sync_requests n, received_sync_items n, potential_peer_db n, fibers n,
      log n ++ [handled m sync_mode]) -> change n n'
| requests_sync p item t : same_other_peers p n n' -> allowed (may_request_sync p item) ->
    watched n' p = watch_of ((peer_of n p) <| sync_items_requested_from_peer ::=
      insert_new (ItemId block_message_type item) t |>) ->
    books n' = (delegate n, insert_new item t (active_sync_requests n), received_sync_items n, potential_peer_db n,
      fibers n, log n ++ [sync_requested p item]) -> change n n'
| requests p i t : same_other_peers p n n' ->
    watched n' p = watch_of ((peer_of n p) <| items_requested_from_peer ::= insert_new i t |>) ->
    books n' = (delegate n, active_sync_requests n, received_sync_items n, potential_peer_db n, fibers n,
      log n ++ [requested p i]) -> change n n'
| advertises p items : same_other_peers p n n' ->
    NoDup items -> (forall i, i ∈ items -> i ∉ watch_advertised (watched n p)) ->
    watched n' p = watch_of ((peer_of n p) <| inventory_advertised_to_peer ::=
      union (list_to_set items) |>) ->
    books n' = (delegate n, active_sync_requests n, received_sync_items n, potential_peer_db n, fibers n,
      log n ++ map (advertised p) items) -> change n n'
| receives b : same_peers n n' -> allowed (may_receive b) ->
    books n' = (delegate n, active_sync_requests n, b :: received_sync_items n, potential_peer_db n, fibers n,
      log n) -> change n n'
| takes l : same_peers n n' -> (forall b, b ∈ l -> b ∈ received_sync_items n) ->
    books n' = (delegate n, active_sync_requests n, l, potential_peer_db n, fibers n, log n) -> change n n'
| stores g r : same_peers n n' -> storable n r ->
    books n' = (delegate n, active_sync_requests n, received_sync_items n,
      update_entry g r (potential_peer_db n), fibers n, log n) -> change n n'
| clears : same_peers n n' ->
    books n' = (delegate n, active_sync_requests n, received_sync_items n,
      clear (potential_peer_db n), fibers n, log n) -> change n n'
| opens f ts : same_peers n n' -> new_fiber n f ts ->
    books n' = (delegate n, active_sync_requests n, received_sync_items n, potential_peer_db n,
      <[f := ts]> (fibers n), log n) -> change n n'
| continues f rest : same_peers n n' -> allowed (may_continue f rest) ->
    books n' = (delegate n, active_sync_requests n, received_sync_items n, potential_peer_db n,
      partial_alter (fun _ => rest) f (fibers n), log n) -> change n n'
| changes_client d' : same_peers n n' -> allowed (may_change (delegate n) d') ->
    books n' = (d', active_sync_requests n, received_sync_items n, potential_peer_db n, fibers n,
      log n) -> change n n'.

(** ** Operations as sequences of changes *)
Notation run := (run node).
Definition does_at {A} n (m : run A) : Prop := forall r n', m n = (r, n') -> returned r -> rtc change n n'.
Definition does {A} (m : run A) : Prop := forall n, does_at n m.

Lemma does_ret {A} (a : A) : does (ret a).
Proof. intros n r n' [= _ <-] _. constructor. Qed.
Lemma does_raise {A} e : does (raise e : run A).
Proof. intros n r n' [= _ <-] _. constructor. Qed.
Lemma does_reads {A} (f : node -> result A) : does (reads f).
Proof. intros n r n' [= _ <-] _. constructor. Qed.
Lemma does_at_bind {A B} n (m : run A) (f : A -> run B) :
  does_at n m -> (forall a n', m n = (Ok a, n') -> does_at n' (f a)) -> does_at n (run_bind m f).
Proof.
  intros Hm Hf r n'. unfold run_bind. destruct (m n) as [[a|e] n1] eqn:E.
  - intros Hr Hret. etransitivity; [by eapply Hm|by eapply Hf].
  - intros [= <- <-] Hret. by eapply Hm.
Qed.
Lemma does_bind {A B} (m : run A) (f : A -> run B) :
  does m -> (forall a, does (f a)) -> does (run_bind m f).
Proof. intros Hm Hf n. apply does_at_bind; [apply Hm|]. intros a n' _. apply Hf. Qed.
(** A computation that looks at the state first. *)
Lemma does_get {B} (f : node -> run B) :
  (forall n, does_at n (f n)) -> does (run_bind get f).
Proof. intros Hf n. exact (Hf n). Qed.
Lemma does_try {A} (m : run A) h : does m -> (forall e, does (h e)) -> does (try_catch m h).
Proof.
  intros Hm Hh n r n'. unfold try_catch. destruct (m n) as [[a|e] n1] eqn:E.
  - intros [= <- <-] Hret. by eapply Hm.
  - destruct (is_fc_exception e) eqn:Ee; [|intros [= <- <-] Hret; by eapply Hm].
    intros Hr Hret. etransitivity; [by eapply Hm|by eapply Hh].
Qed.
Lemma does_each {B} (f : B -> run unit) l : (forall b, does (f b)) -> does (run_each f l).
Proof.
  intros Hf. induction l as [|b l IH]; [apply does_ret|]. by apply does_bind; [|intros].
Qed.
Lemma does_fold {A B} (f : A -> B -> run A) a l : (forall a b, does (f a b)) -> does (run_fold f a l).
Proof.
  intros Hf. revert a. induction l as [|b l IH]; intros a; [apply does_ret|]. by apply does_bind; [|intros].
Qed.

(** *** The changes one by one *)
Lemma same_peers_refl n : same_peers n n.
Proof. done. Qed.
Lemma peer_of_insert n p p' q :
  peer_of (n <| peers ::= <[p := q]> |>) p' = if decide (p' = p) then q else peer_of n p'.
Proof.
  unfold peer_of. cbn. destruct (decide (p' = p)) as [->|Hne].
  - by rewrite lookup_insert_eq.
  - by rewrite lookup_insert_ne.
Qed.

Lemma set_peer_others n n' p q :
  peers n' = <[p := q]> (peers n) -> same_other_peers p n n' /\ watched n' p = watch_of q.
Proof.
  intros E. unfold same_other_peers, watched, peer_of. rewrite E. split; [split; [|split]|].
  - intros p' Hne. by rewrite lookup_insert_ne.
  - intros p' Hp. rewrite lookup_insert_is_Some. destruct (decide (p = p')); auto.
  - rewrite lookup_insert_eq. by eexists.
  - by rewrite lookup_insert_eq.
Qed.

Lemma does_modify (f : node -> node) :
  (forall n, peers (f n) = peers n /\ books (f n) = books n) -> does (modify f).
Proof.
  intros Hf n r n' [= _ <-] _. apply rtc_once. destruct (Hf n) as [Hp Hb].
  apply changes_nothing; [|done]. unfold same_peers, watched, peer_of. by rewrite Hp.
Qed.
Lemma does_set_peer_at n p f :
  peer_change p (watched n p) (watch_of (f (peer_of n p))) -> does_at n (set_peer p f).
Proof.
  intros Hc r n' [= _ <-] _. apply rtc_once.
  destruct (set_peer_others n (n <| peers ::= <[p := f (peer_of n p)]> |>) p (f (peer_of n p)))
    as [Ho E]; [done|].
  apply (changes_peer _ _ p); [done|done|by rewrite E].
Qed.
Lemma does_set_peer p f :
  (forall q, peer_change p (watch_of q) (watch_of (f q))) -> does (set_peer p f).
Proof. intros Hc n. apply does_set_peer_at, Hc. Qed.
Lemma peer_change_refl p w : peer_change p w w.
Proof. destruct w. by constructor. Qed.
Lemma does_set_peer_quiet p f : (forall q, watch_of (f q) = watch_of q) -> does (set_peer p f).
Proof. intros Hf. apply does_set_peer. intros q. rewrite Hf. apply peer_change_refl. Qed.
Lemma does_put_log o : plain_output o -> does (put_log o).
Proof.
  intros Ho n r n' [= _ <-] _. apply rtc_once. by eapply (logs _ _ o).
Qed.
Lemma does_update_db `{Uninitialised} n r : storable n r -> does_at n (update_db r).
Proof.
  intros Hr u n' [= _ <-] _. apply rtc_once. by eapply (stores _ _ garbage r).
Qed.

Lemma does_update_db_other `{Uninitialised} r :
  last_connection_disposition r <> last_connection_succeeded -> does (update_db r).
Proof. intros Hr n. apply does_update_db. by intros ?. Qed.
Lemma does_open_reader p : does (modify (fun n => n <| fibers ::= insert (reader p) [] |>)).
Proof. intros n r n' [= _ <-] _. by apply rtc_once, (opens _ _ (reader p) []). Qed.

Lemma does_here {A} n (m : run A) : does m -> does_at n m.
Proof. intros Hm. apply Hm. Qed.
Lemma does_at_reads {A B} n (f : node -> result A) (k : A -> run B) :
  (forall a, f n = Ok a -> does_at n (k a)) -> does_at n (run_bind (reads f) k).
Proof.
  intros Hk. apply does_at_bind; [apply does_here, does_reads|].
  intros a n' [= E <-]. by apply Hk.
Qed.
Lemma does_at_get {B} n (k : node -> run B) : does_at n (k n) -> does_at n (run_bind get k).
Proof. intros Hk r n' Hr. exact (Hk r n' Hr). Qed.
Lemma does_at_modify {B} n f (k : unit -> run B) :
  peers (f n) = peers n -> books (f n) = books n -> does_at (f n) (k tt) ->
  does_at n (run_bind (modify f) k).
Proof.
  intros Hp Hb Hk. apply does_at_bind; [|by intros [] n' [= <-]].
  intros r n' [= _ <-] _. apply rtc_once, changes_nothing; [|done].
  unfold same_peers, watched, peer_of. by rewrite Hp.
Qed.

(** *** Records of the database *)
Lemma storable_other n r : last_connection_disposition r <> last_connection_succeeded -> storable n r.
Proof. by intros Hr ?. Qed.
Lemma storable_lookup n n0 ep r :
  potential_peer_db n0 = potential_peer_db n ->
  last_connection_disposition r = last_connection_disposition (lookup_db n0 ep) ->
  peer_endpoint r = peer_endpoint (lookup_db n0 ep) -> storable n r.
Proof.
  unfold storable, succeeded, lookup_db, lookup_or_create_entry_for_endpoint. intros -> -> ->.
  destruct (potential_peer_set (potential_peer_db n) !! ep) as [[k r0]|] eqn:E; [|done].
  intros Hr. left. by exists ep, k, r0.
Qed.
End Changes.

#[export] Hint Resolve does_ret does_raise does_reads does_modify does_set_peer_quiet does_put_log
  does_open_reader does_update_db_other
  : does.

(** Walks through an operation. *)
Ltac does_step :=
  match goal with
  | |- does _ (fun _ => _) => fail 1
  | |- does _ (run_bind get _) => apply does_get; intros ?n
  | |- does _ (run_bind _ _) => apply does_bind; [|intros ?]
  | |- does _ (try_catch _ _) => apply does_try; [|intros ?]
  | |- does _ (run_each _ _) => apply does_each; intros ?
  | |- does _ (run_fold _ _ _) => apply does_fold; intros ? ?
  | |- does_at _ _ (run_bind get _) => apply does_at_get
  | |- does_at _ _ (run_bind (reads _) _) => apply does_at_reads; intros ? ?
  | |- does_at _ _ (run_bind (update_db _) _) =>
      apply does_at_bind; [apply does_update_db|intros ? ? _; apply does_here]
  | |- does_at _ _ (update_db _) => apply does_update_db
  | |- does_at _ _ (run_bind (modify _) _) => apply does_at_modify; [reflexivity|reflexivity|]
  | |- does_at _ _ (run_bind _ _) => apply does_at_bind; [|intros ? ? _; apply does_here]
  | |- does_at _ _ (match ?x with _ => _ end) => destruct x eqn:?
  | |- does_at _ _ _ => apply does_here
  | |- does _ (match ?x with _ => _ end) => destruct x eqn:?
  | |- does _ (let '(_, _) := ?x in _) => destruct x eqn:?
  | |- does _ (set_peer _ _) => apply does_set_peer_quiet; reflexivity
  | |- does _ (set_peer _ _) =>
      apply does_set_peer; intros ?; constructor; first [done|apply delete_subseteq|set_solver]
  | |- does _ (update_db _) => apply does_update_db_other; discriminate
  | |- does _ (modify (fun n => n <| fibers ::= insert (reader _) [] |>)) => apply does_open_reader
  | |- does _ (modify _) => apply does_modify; by intros
  | |- does _ (put_log _) => apply does_put_log; exact I
  | |- does _ _ => solve [auto with does nocore]
  | |- storable _ _ => solve [apply storable_other; discriminate
      | eapply storable_lookup; [|reflexivity|reflexivity]; reflexivity]
  end.
Ltac does := repeat (cbv beta iota zeta; does_step).

(** ** The operations of [NodePeers] *)
Section NodeChanges.
Context `{FcNet} `{FcTransaction} `{Uninitialised} {D : Type} `{NodeDelegate D}.
Context (allowed : permission D -> Prop).
Notation node := (node D).
Implicit Types (n : node) (p : peer_name).
Notation does := (does (D := D) allowed).

Lemma does_merge_address_info addresses :
  does (merge_address_info_with_potential_peer_database addresses).
Proof. induction addresses; cbn [merge_address_info_with_potential_peer_database]; does. Qed.
Lemma does_disconnect_from_peer p e : does (disconnect_from_peer p e).
Proof. unfold disconnect_from_peer. does. Qed.
Lemma does_disconnect_sent p : does (disconnect_sent p).
Proof. unfold disconnect_sent. does. Qed.
Lemma does_on_connection_closed p : does (on_connection_closed p).
Proof. unfold on_connection_closed, trigger_p2p_network_connect_loop. does. Qed.

Lemma new_name_fresh n : peers n !! new_name n = None.
Proof.
  apply not_elem_of_dom. intros Hp. apply elem_of_dom in Hp as [q Hq].
  assert (Hle : forall l, new_name n ∈ map fst l ->
    (new_name n <= foldr Nat.max 0 (map fst (l : list (peer_name * peer_connection))))%nat).
  { intros l. induction l as [|x l IH]; cbn; [by intros ?%elem_of_nil|].
    intros [->|Hl]%elem_of_cons; [lia|]. specialize (IH Hl). lia. }
  enough (new_name n <= pred (new_name n))%nat by (unfold new_name in *; lia).
  unfold new_name at 2. cbn [pred]. apply Hle, list_elem_of_fmap.
  exists (new_name n, q). split; [done|]. by apply elem_of_map_to_list.
Qed.

Lemma add_peer_does n q p n' :
  fresh_watch (watch_of q) -> add_peer q n = (Ok p, n') ->
  rtc (change allowed) n n' /\ is_Some (peers n' !! p) /\ watched n' p = watch_of q.
Proof.
  intros Hq Hadd.
  assert (Hp : p = new_name n /\ n' = (n <| peers ::= insert (new_name n)
    (q <| connection_initiation_time := clock n |>) |>
    <| handshaking_connections ::= union {[ new_name n ]} |>)) by by injection Hadd as <- <-.
  destruct Hp as [-> ->].
  destruct (set_peer_others n (n <| peers ::= insert (new_name n)
    (q <| connection_initiation_time := clock n |>) |>
    <| handshaking_connections ::= union {[ new_name n ]} |>) (new_name n)
    (q <| connection_initiation_time := clock n |>)) as [Ho E]; [done|].
  split; [|split; [by apply Ho|by rewrite E]].
  apply rtc_once, (adds_peer _ _ _ (new_name n)); [done|done|apply new_name_fresh|by rewrite E].
Qed.

Lemma does_accept_connection remote local : does (accept_connection remote local).
Proof.
  intros n r n' Hr _. unfold accept_connection, run_bind in Hr.
  destruct (add_peer _ n) as [[p|e] n1] eqn:E in Hr; [|by injection E].
  injection Hr as _ <-. by apply add_peer_does in E as [? _]; [|split_and!; auto].
Qed.
Lemma does_connect_to ep : does (connect_to ep).
Proof.
  apply does_get. intros n. destruct is_connection_to_endpoint_in_progress; [by does_step; does_step|].
  intros r n' Hr _. unfold run_bind in Hr.
  destruct (add_peer _ n) as [[p|e] n1] eqn:E in Hr; [|by injection E].
  apply add_peer_does in E as (Hn1 & Hp & Ew); [|split_and!; auto].
  injection Hr as _ <-. etransitivity; [done|].
  apply rtc_once. eapply (opens _ _ _ (connector p)); [done| |done].
  unfold new_fiber. by rewrite Ew.
Qed.

#[local] Hint Resolve does_merge_address_info does_disconnect_from_peer does_disconnect_sent
  does_on_connection_closed does_accept_connection does_connect_to : does.

Lemma does_connection_accepted p : does (connection_accepted p).
Proof. unfold connection_accepted. does. Qed.
Lemma does_connect_to_peer p : allowed (may_turn_outbound p) -> does (connect_to_peer p).
Proof. intros Hp. unfold connect_to_peer. does. Qed.
Lemma does_connect_returned p r outcome : does (connect_returned p r outcome).
Proof.
  unfold connect_returned, trigger_p2p_network_connect_loop. destruct outcome; does.
Qed.
Lemma does_connect_once r : does (connect_once r).
Proof. unfold connect_once. does. Qed.
Lemma does_connect_each l : does (connect_each l).
Proof. induction l; cbn [connect_each]; does. Qed.
#[local] Hint Resolve does_connect_each : does.
Lemma does_connect_while_wanting fuel : does (connect_while_wanting fuel).
Proof. induction fuel; cbn [connect_while_wanting]; does. Qed.

(** Only inbound peers are found to be firewalled or not. *)
Lemma does_check_firewall n p :
  direction (peer_of n p) = inbound -> does_at allowed n (check_firewall p).
Proof.
  intros Hp. unfold check_firewall.
  assert (Hset : forall n' b, direction (peer_of n' p) = inbound ->
    does_at allowed n' (set_peer p (fun q => q <| is_firewalled := b |>))).
  { intros n' b Hd. apply does_set_peer_at. unfold watched, watch_of. cbn. rewrite Hd. constructor. }
  apply does_at_get. destruct (_ && _); [|by apply Hset].
  destruct (_ =? 0); [by apply Hset|].
  apply does_at_bind; [apply does_update_db; does|]. intros [] n' [= <-]. by apply Hset.
Qed.
Lemma does_on_hello_message p m : does (on_hello_message p m).
Proof.
  unfold on_hello_message, reject. apply does_get. intros n. cbv zeta.
  destruct (negb _); [does|].
  apply does_at_bind; [apply does_here; does|]. intros u n' [= _ <-].
  destruct (bool_decide (state _ = _ /\ _)) eqn:E; [|does].
  apply bool_decide_eq_true in E as [_ E].
  destruct (is_already_connected_to_id _ _); [does|]. destruct (bool_decide _); [does|].
  apply does_at_bind; [|intros; does].
  apply does_check_firewall. rewrite peer_of_insert, decide_True; done.
Qed.
Lemma does_on_hello_reply_message p m : does (on_hello_reply_message p m).
Proof. unfold on_hello_reply_message. does. Qed.
Lemma does_on_connection_rejected_message p : does (on_connection_rejected_message p).
Proof. unfold on_connection_rejected_message. does. Qed.
Lemma does_on_address_request_message p : does (on_address_request_message p).
Proof. unfold on_address_request_message. does. Qed.
Lemma does_activate p : does (activate p).
Proof.
  unfold activate. apply does_get. intros n. cbv zeta. apply does_at_bind; [|intros; does].
  destruct (is_firewalled (peer_of n p)) as [[]|] eqn:E; cbn [tri_not option_map negb is_true]; [does| |does].
  apply does_at_reads. intros ep Hep. apply does_update_db. intros _. right.
  exists p, ep. split_and!; [done| |done]. unfold watched. cbn.
  by destruct (remote_endpoint _); [injection Hep as ->|].
Qed.
#[local] Hint Resolve does_connection_accepted does_connect_to_peer does_connect_returned
  does_connect_once does_connect_while_wanting does_on_hello_message does_on_hello_reply_message
  does_on_connection_rejected_message does_on_address_request_message does_activate : does.

(** ** The operations of [NodeSync] *)
Lemma does_fetch_next_batch p : does (fetch_next_batch_of_item_ids_from_peer p).
Proof. unfold fetch_next_batch_of_item_ids_from_peer. does. Qed.
#[local] Hint Resolve does_fetch_next_batch : does.
Lemma does_start_synchronizing p : does (start_synchronizing_with_peer p).
Proof. unfold start_synchronizing_with_peer. does. Qed.
#[local] Hint Resolve does_start_synchronizing : does.
Lemma does_on_address_message p addresses : does (on_address_message p addresses).
Proof. unfold on_address_message, trigger_p2p_network_connect_loop. does. Qed.
Lemma does_handshake_finished p : does (handshake_finished p).
Proof. unfold handshake_finished. does. Qed.
Lemma does_on_fetch_blockchain_item_ids p type synopsis :
  does (on_fetch_blockchain_item_ids_message p type synopsis).
Proof. unfold on_fetch_blockchain_item_ids_message. does. Qed.
Lemma does_report_sync_status type changed : does (report_sync_status type changed).
Proof. unfold report_sync_status. does. Qed.
Lemma does_join_received p type received : does (join_received p type received).
Proof. unfold join_received. does. Qed.
#[local] Hint Resolve does_report_sync_status does_join_received : does.
Lemma does_on_blockchain_item_ids_inventory p m :
  does (on_blockchain_item_ids_inventory_message p m).
Proof. unfold on_blockchain_item_ids_inventory_message, trigger_fetch_sync_items. does. Qed.
Lemma does_fetch_sync_items : does fetch_sync_items.
Proof. unfold fetch_sync_items. does. Qed.
Lemma does_on_item_not_available p item : does (on_item_not_available_message p item).
Proof. unfold on_item_not_available_message, trigger_fetch_items, trigger_fetch_sync_items. does.
Qed.
Lemma does_request_sync_item p item :
  allowed (may_request_sync p item) -> does (request_sync_item_from_peer p item).
Proof.
  intros Ha n r n' [= _ <-] _. apply rtc_once.
  apply (requests_sync _ _ _ p item (clock n)); [|done| |done].
  - by eapply (set_peer_others n _ p).
  - etransitivity; [by eapply (set_peer_others n _ p)|done].
Qed.
Lemma does_delegate_handles m sync_mode :
  allowed (may_handle m sync_mode) -> does (delegate_handles m sync_mode).
Proof.
  intros Ha n r n'. unfold delegate_handles, run_bind, put_log, modify, on_part, update. cbn.
  destruct (handle_message m sync_mode (delegate n)) as [a d'] eqn:E. intros [= -> <-] Hret.
  by eapply rtc_once, (handles _ _ _ m sync_mode).
Qed.
Lemma does_accept_block b sync_mode :
  allowed (may_handle (block b) sync_mode) -> does (accept_block b sync_mode).
Proof.
  intros Ha. unfold accept_block. does. by apply does_delegate_handles.
Qed.
Lemma does_process_block_during_sync b : allowed (may_receive b) -> does (process_block_during_sync b).
Proof.
  intros Ha. unfold process_block_during_sync. does.
  intros n r n' [= _ <-] _. by apply rtc_once, (receives _ _ _ b).
Qed.
Lemma does_block_was_accepted id : does (block_was_accepted id).
Proof.
  unfold block_was_accepted. does. apply does_set_peer_quiet. intros q. unfold pop_accepted.
  by destruct (is_first_item id q).
Qed.
Lemma take_first_elem {A} (f : A -> bool) (l : list A) x l' :
  take_first f l = Some (x, l') -> x ∈ l /\ forall y, y ∈ l' -> y ∈ l.
Proof.
  revert l'. induction l as [|y l IH]; intros l'; cbn; [done|]. destruct (f y).
  - intros [= -> ->]. split; [by left|by right].
  - destruct (take_first f l) as [[z l0]|]; [|done]. intros [= -> <-].
    destruct (IH l0 eq_refl) as [Hx Hl]. split; [by right|]. set_solver.
Qed.
Lemma does_process_backlog n :
  (forall b, b ∈ received_sync_items n -> allowed (may_handle (block b) true)) ->
  does_at allowed n process_backlog.
Proof.
  intros Ha. unfold process_backlog. apply does_at_get.
  destruct (take_first _ _) as [[b l]|] eqn:E; [|does]. apply take_first_elem in E as [Hb Hl].
  apply does_at_bind.
  { intros r n' [= _ <-] _. by apply rtc_once, (takes _ _ _ l). }
  intros _ n' _. apply does_here. does; [by apply does_accept_block, Ha|by apply does_block_was_accepted].
Qed.

(** ** The operations of [NodeItems] *)
Lemma does_broadcast m data : does (broadcast m data).
Proof. unfold broadcast. does. Qed.
#[local] Hint Resolve does_broadcast : does.
Lemma put_all {B} (f : B -> output) l n :
  run_each (fun b => put_log (f b)) l n = (Ok tt, n <| log ::= fun log => log ++ map f l |>).
Proof.
  revert n. induction l as [|b l IH]; intros n; cbn [run_each].
  - unfold ret. f_equal. destruct n. unfold update. cbn. f_equal. by rewrite app_nil_r.
  - unfold run_bind, put_log at 1, modify at 1. rewrite IH. f_equal. destruct n. unfold update. cbn.
    f_equal. by rewrite <- app_assoc.
Qed.
Lemma new_to_spec inventory q :
  NoDup inventory -> NoDup (new_to inventory q) /\
  forall i, i ∈ new_to inventory q -> i ∉ inventory_advertised_to_peer q.
Proof.
  intros Hd. unfold new_to. split.
  { apply NoDup_ListNoDup, NoDup_filter. by apply NoDup_ListNoDup. }
  intros i (_ & [Hi _]%andb_true_iff)%list_elem_of_In%List.filter_In.
  by apply negb_true_iff, bool_decide_eq_false in Hi.
Qed.
Lemma does_advertise_to inventory messages p :
  NoDup inventory -> does (advertise_to inventory messages p).
Proof.
  intros Hd. unfold advertise_to. apply does_get. intros n. cbv zeta.
  destruct (peer_needs_sync_items_from_us _); [does|].
  set (items := new_to inventory (peer_of n p)).
  destruct (new_to_spec inventory (peer_of n p) Hd) as [Hnd Hnew].
  intros r n' Hr _. unfold run_bind, set_peer, modify in Hr. rewrite put_all in Hr.
  injection Hr as _ <-. apply rtc_once, (advertises _ _ _ p items); [|done|done| |done].
  - by eapply (set_peer_others n _ p).
  - etransitivity; [by eapply (set_peer_others n _ p)|done].
Qed.
Lemma does_advertise_inventory : does advertise_inventory.
Proof.
  unfold advertise_inventory. does. apply does_advertise_to, NoDup_elements.
Qed.
Lemma does_fetch_items_at kept : does (fetch_items_at kept).
Proof.
  unfold fetch_items_at. apply does_get. intros n.
  destruct (next_fetch n kept) as [[[k i] p]|]; [|does].
  intros r n' [= _ <-] _. apply rtc_once, (requests _ _ _ p i (clock n)); [| |done].
  - by eapply (set_peer_others n _ p).
  - etransitivity; [by eapply (set_peer_others n _ p)|done].
Qed.
#[local] Hint Resolve does_fetch_items_at : does.
Lemma does_fetch_items_loop_turn : does fetch_items_loop_turn.
Proof. unfold fetch_items_loop_turn. does. Qed.
Lemma does_on_item_ids_inventory p type hashes : does (on_item_ids_inventory_message p type hashes).
Proof. unfold on_item_ids_inventory_message, item_advertised, trigger_fetch_items. does. Qed.
Lemma does_on_fetch_items p type hashes : does (on_fetch_items_message p type hashes).
Proof. unfold on_fetch_items_message. does. Qed.
Lemma does_process_block_normally p b hash :
  allowed (may_handle (block b) false) -> does (process_block_during_normal_operation p b hash).
Proof.
  intros Ha. unfold process_block_during_normal_operation, trigger_fetch_items. does.
  - by apply does_accept_block.
  - apply does_set_peer. intros q. unfold offered_to_us. destruct (bool_decide _); constructor; done || set_solver.
Qed.
Lemma does_process_block_message n p b hash :
  (is_Some (watch_items (watched n p) !! ItemId block_message_type hash) ->
    allowed (may_handle (block b) false)) ->
  (is_Some (watch_sync_items (watched n p) !! ItemId block_message_type (message_block_id b)) ->
    allowed (may_receive b)) ->
  does_at allowed n (process_block_message p b hash).
Proof.
  intros Ha Hs. unfold process_block_message. apply does_at_get. cbv zeta.
  destruct (bool_decide (is_Some (items_requested_from_peer _ !! _))) eqn:E1.
  { apply bool_decide_eq_true in E1. does. by apply does_process_block_normally, Ha. }
  destruct (bool_decide (is_Some (sync_items_requested_from_peer _ !! _))) eqn:E2; [|does].
  apply bool_decide_eq_true in E2. does. by apply does_process_block_during_sync, Hs.
Qed.
Lemma does_process_ordinary_message n p m hash :
  (is_Some (watch_items (watched n p) !! ItemId (msg_type m) hash) -> allowed (may_handle m false)) ->
  does_at allowed n (process_ordinary_message p m hash).
Proof.
  intros Ha. unfold process_ordinary_message, trigger_fetch_items. apply does_at_get. cbv zeta.
  destruct (bool_decide (is_Some (items_requested_from_peer _ !! _))) eqn:E1; [|does].
  apply bool_decide_eq_true in E1. does. by apply does_delegate_handles, Ha.
Qed.
#[local] Hint Resolve does_on_address_message does_on_fetch_blockchain_item_ids
  does_on_blockchain_item_ids_inventory does_on_item_not_available does_on_item_ids_inventory
  does_on_fetch_items does_handshake_finished does_advertise_inventory does_fetch_sync_items
  does_fetch_items_loop_turn : does.
End NodeChanges.

#[export] Hint Resolve does_on_hello_message does_on_hello_reply_message
  does_on_connection_rejected_message does_on_address_request_message does_on_address_message
  does_on_fetch_blockchain_item_ids does_on_blockchain_item_ids_inventory
  does_on_item_not_available does_on_item_ids_inventory does_on_fetch_items
  does_disconnect_from_peer does_disconnect_sent does_on_connection_closed
  does_accept_connection does_connection_accepted does_connect_to does_connect_returned
  does_connect_once does_connect_while_wanting does_fetch_next_batch does_start_synchronizing
  does_handshake_finished does_advertise_inventory does_fetch_sync_items does_fetch_items_at
  does_fetch_items_loop_turn does_broadcast : does.
