(* ===== verification/NodeRuns.v ===== *)
(** The changes that the events of a run of the network node make, and the tasks that they
    leave. *)
From stdpp Require Import relations.
From S2P Require Import Prelude.
From S2P Require Export NodeChanges.

Section NodeRuns.
Context `{FcNet} `{FcTransaction} `{Uninitialised} {D : Type} `{NodeDelegate D}.
Context (allowed : permission D -> Prop).
Notation node := (node D).
Implicit Types (n : node) (p : peer_name).
Notation does := (does (D := D) allowed).

(** ** Events *)
(** A message that came from [p] was asked for. *)
Definition asked n p (m : message) : Prop :=
  is_Some (watch_items (watched n p) !! ItemId (msg_type m) (message_id m)).
Definition asked_to_sync n p (b : block_message) : Prop :=
  is_Some (watch_sync_items (watched n p) !! ItemId block_message_type (message_block_id b)).

Lemma does_on_message n p m :
  (asked n p m -> allowed (may_handle m false)) ->
  (forall b, m = block b -> asked_to_sync n p b -> allowed (may_receive b)) ->
  does_at allowed n (on_message p m).
Proof.
  intros Hm Hb. destruct m; cbn [on_message]; try (apply does_here; solve [does]).
  - apply does_process_block_message; [exact Hm|by apply Hb].
  - apply does_process_ordinary_message, Hm.
  - apply does_process_ordinary_message, Hm.
Qed.
Lemma does_run_task n t :
  (forall p item, t = request_sync_item p item -> allowed (may_request_sync p item)) ->
  (forall p, t = connect_to_task p -> allowed (may_turn_outbound p)) ->
  (forall b, b ∈ received_sync_items n -> allowed (may_handle (block b) true)) ->
  does_at allowed n (run_task t).
Proof.
  intros Hr Hc Hb. destruct t; cbn [run_task]; try (apply does_here; solve [does]).
  - by apply does_process_backlog.
  - apply does_here. unfold trigger_fetch_sync_items. does.
  - by apply does_here, does_request_sync_item, Hr.
  - by apply does_here, does_connect_to_peer, Hc.
  - apply does_here. unfold retry_once. does.
  - apply does_here. unfold connect_candidates. does.
  - apply does_here. unfold terminate_inactive_connections. does.
  - apply does_here. unfold connect_loop_turn. does.
Qed.
Lemma does_do_call c :
  (forall d d', c = call_set_node_delegate d' -> allowed (may_change d d')) -> does (do_call c).
Proof.
  intros Hd. destruct c; cbn [do_call]; unfold add_node, sync_from, set_allowed_peers,
    set_advanced_node_parameters, trigger_p2p_network_connect_loop; does.
  - intros n r n' [= _ <-] _. by apply rtc_once, clears.
  - intros n r n' [= _ <-] _. by eapply rtc_once, (changes_client _ _ _ d); [done|apply Hd|].
Qed.
Lemma does_locally n act :
  (forall r d', act (delegate n) = (r, d') -> returned r -> allowed (may_change (delegate n) d')) ->
  does_at allowed n (try_catch (on_part delegate (fun d n => n <| delegate := d |>) act)
    (fun _ => ret tt)).
Proof.
  intros Ha r n'. unfold try_catch, on_part. destruct (act (delegate n)) as [a d'] eqn:E.
  assert (Hc : returned a -> rtc (change allowed) n (n <| delegate := d' |>)).
  { intros Hret. eapply rtc_once, (changes_client _ _ _ d'); [done|by eapply Ha|done]. }
  destruct a as [u|e]; [intros [= <- <-] _; by apply Hc|].
  destruct (is_fc_exception e) eqn:Ee; [|intros [= <- <-] Hret; cbn in Hret; congruence].
  intros [= _ <-] _. by apply Hc.
Qed.
Lemma does_tick n t :
  allowed (may_change (delegate n) (set_clock (to_seconds (clock n + t)) (delegate n))) ->
  does_at allowed n (modify (fun n =>
    n <| clock := clock n + t |> <| delegate ::= set_clock (to_seconds (clock n + t)) |>)).
Proof. intros Ha r n' [= _ <-] _. by eapply rtc_once, changes_client. Qed.

(** ** The tasks that are left *)
(** Most operations leave neither scheduled requests nor connections to be made. *)
Definition ordinary (t : task) : Prop :=
  match t with
  | connect_to_task _ | request_sync_item _ _ | fetch_sync_items_turn | wait_for_sync_items => False
  | _ => True
  end.
Definition yields (m : run (node) (list task)) : Prop :=
  forall n ts n', m n = (Ok ts, n') -> Forall ordinary ts.
(** The loop that fetches the blocks that are missing schedules requests. *)
Definition fetching (t : task) : Prop := match t with connect_to_task _ => False | _ => True end.
Lemma ordinary_fetching t : ordinary t -> fetching t.
Proof. by destruct t. Qed.

Lemma yields_ret ts : Forall ordinary ts -> yields (ret ts).
Proof. by intros Ht n ts' n' [= <- _]. Qed.
Lemma yields_raise e : yields (raise e).
Proof. done. Qed.
Lemma yields_bind {A} (m : run node A) f : (forall a, yields (f a)) -> yields (run_bind m f).
Proof. intros Hf n ts n' (a & n1 & _ & Hr)%run_bind_ok. by eapply Hf. Qed.
Lemma yields_then m (f : list task -> run node (list task)) :
  yields m -> (forall ts, Forall ordinary ts -> yields (f ts)) -> yields (run_bind m f).
Proof.
  intros Hm Hf n ts n' (ts1 & n1 & Hts & Hr)%run_bind_ok. eapply Hf; [|done]. by eapply Hm.
Qed.
Lemma yields_try m h : yields m -> (forall e, yields (h e)) -> yields (try_catch m h).
Proof.
  intros Hm Hh n ts n' [Hr|(e & n1 & _ & _ & Hr)]%try_catch_ok; [by eapply Hm|by eapply Hh].
Qed.
Lemma ordinary_map {A} (f : A -> task) l : (forall a, ordinary (f a)) -> Forall ordinary (map f l).
Proof. intros Hf. induction l; by constructor. Qed.

Create HintDb yields.
#[local] Ltac ordinary := repeat first
  [assumption | apply List.Forall_app; split | apply ordinary_map; intros; exact I
  | apply List.Forall_nil | apply List.Forall_cons; [exact I|]].
#[local] Ltac yields_step :=
  match goal with
  | |- yields (ret _) => apply yields_ret; ordinary
  | |- yields (raise _) => apply yields_raise
  | |- yields (@run_bind _ (list task) _ _ _) => apply yields_then; [|intros ? ?]
  | |- yields (run_bind _ _) => apply yields_bind; intros ?
  | |- yields (try_catch _ _) => apply yields_try; [|intros ?]
  | |- yields (match ?x with _ => _ end) => destruct x
  | |- yields (let '(_, _) := ?x in _) => destruct x
  | |- yields _ => solve [auto with yields nocore]
  end.
#[local] Ltac yields := repeat (cbv beta iota zeta; yields_step).

Lemma yields_disconnect p e : yields (disconnect_from_peer p e).
Proof. unfold disconnect_from_peer. yields. Qed.
#[local] Hint Resolve yields_disconnect : yields.
Lemma yields_disconnect_sent p : yields (disconnect_sent p).
Proof. unfold disconnect_sent. yields. Qed.
#[local] Hint Resolve yields_disconnect_sent : yields.
Lemma yields_reject p : yields (reject p).
Proof. unfold reject. yields. Qed.
#[local] Hint Resolve yields_reject : yields.
Lemma yields_connect_to_peer p : yields (connect_to_peer p).
Proof. unfold connect_to_peer. yields. Qed.
#[local] Hint Resolve yields_connect_to_peer : yields.
Lemma yields_connect_returned p r o : yields (connect_returned p r o).
Proof. unfold connect_returned. yields. Qed.
#[local] Hint Resolve yields_connect_returned : yields.
Lemma yields_connect_candidates : yields (connect_candidates).
Proof. unfold connect_candidates. yields. Qed.
#[local] Hint Resolve yields_connect_candidates : yields.
Lemma yields_connect_loop_turn : yields (connect_loop_turn).
Proof. unfold connect_loop_turn. yields. Qed.
#[local] Hint Resolve yields_connect_loop_turn : yields.
Lemma yields_connect_once r : yields (connect_once r).
Proof. unfold connect_once. yields. Qed.
#[local] Hint Resolve yields_connect_once : yields.
Lemma yields_retry_once r : yields (retry_once r).
Proof. unfold retry_once. yields. Qed.
#[local] Hint Resolve yields_retry_once : yields.
Lemma yields_terminate : yields (terminate_inactive_connections).
Proof. unfold terminate_inactive_connections. yields. Qed.
#[local] Hint Resolve yields_terminate : yields.
Lemma yields_hello p m : yields (on_hello_message p m).
Proof. unfold on_hello_message. yields. Qed.
#[local] Hint Resolve yields_hello : yields.
Lemma yields_hello_reply p m : yields (on_hello_reply_message p m).
Proof. unfold on_hello_reply_message. yields. Qed.
#[local] Hint Resolve yields_hello_reply : yields.
Lemma yields_rejected p : yields (on_connection_rejected_message p).
Proof. unfold on_connection_rejected_message. yields. Qed.
#[local] Hint Resolve yields_rejected : yields.
Lemma yields_address_request p : yields (on_address_request_message p).
Proof. unfold on_address_request_message. yields. Qed.
#[local] Hint Resolve yields_address_request : yields.
Lemma yields_fetch_next_batch p : yields (fetch_next_batch_of_item_ids_from_peer p).
Proof. unfold fetch_next_batch_of_item_ids_from_peer. yields. Qed.
#[local] Hint Resolve yields_fetch_next_batch : yields.
Lemma yields_start_synchronizing p : yields (start_synchronizing_with_peer p).
Proof. unfold start_synchronizing_with_peer. yields. Qed.
#[local] Hint Resolve yields_start_synchronizing : yields.
Lemma yields_address p l : yields (on_address_message p l).
Proof. unfold on_address_message. yields. Qed.
#[local] Hint Resolve yields_address : yields.
Lemma yields_handshake_finished p : yields (handshake_finished p).
Proof. unfold handshake_finished. yields. Qed.
#[local] Hint Resolve yields_handshake_finished : yields.
Lemma yields_fetch_ids p type l : yields (on_fetch_blockchain_item_ids_message p type l).
Proof. unfold on_fetch_blockchain_item_ids_message. yields. Qed.
#[local] Hint Resolve yields_fetch_ids : yields.
Lemma yields_ids_inventory p m : yields (on_blockchain_item_ids_inventory_message p m).
Proof. unfold on_blockchain_item_ids_inventory_message. yields. Qed.
#[local] Hint Resolve yields_ids_inventory : yields.
Lemma yields_request_sync_item p i : yields (request_sync_item_from_peer p i).
Proof. unfold request_sync_item_from_peer. yields. Qed.
#[local] Hint Resolve yields_request_sync_item : yields.
Lemma yields_not_available p i : yields (on_item_not_available_message p i).
Proof. unfold on_item_not_available_message. yields. Qed.
#[local] Hint Resolve yields_not_available : yields.
Lemma yields_block_was_accepted id : yields (block_was_accepted id).
Proof. unfold block_was_accepted. yields. Qed.
#[local] Hint Resolve yields_block_was_accepted : yields.
Lemma yields_process_backlog : yields (process_backlog).
Proof. unfold process_backlog. yields. Qed.
#[local] Hint Resolve yields_process_backlog : yields.
Lemma yields_block_during_sync b : yields (process_block_during_sync b).
Proof. unfold process_block_during_sync. yields. Qed.
#[local] Hint Resolve yields_block_during_sync : yields.
Lemma yields_advertise_inventory : yields advertise_inventory.
Proof.
  assert (Hfold : forall l ps ts, Forall ordinary ts -> yields (run_fold (advertise_to l) ts ps)).
  { intros l ps. induction ps as [|p ps IH]; intros ts Hts; cbn [run_fold]; [yields|].
    apply yields_then; [|apply IH]. unfold advertise_to. yields. }
  unfold advertise_inventory. yields. apply Hfold. constructor.
Qed.
#[local] Hint Resolve yields_advertise_inventory : yields.
Lemma yields_fetch_items_at k : yields (fetch_items_at k).
Proof. unfold fetch_items_at. yields. Qed.
#[local] Hint Resolve yields_fetch_items_at : yields.
Lemma yields_fetch_items_loop_turn : yields (fetch_items_loop_turn).
Proof. unfold fetch_items_loop_turn. yields. Qed.
#[local] Hint Resolve yields_fetch_items_loop_turn : yields.
Lemma yields_item_ids_inventory p type l : yields (on_item_ids_inventory_message p type l).
Proof. unfold on_item_ids_inventory_message. yields. Qed.
#[local] Hint Resolve yields_item_ids_inventory : yields.
Lemma yields_fetch_items p type l : yields (on_fetch_items_message p type l).
Proof. unfold on_fetch_items_message. yields. Qed.
#[local] Hint Resolve yields_fetch_items : yields.
Lemma yields_block_normally p b h : yields (process_block_during_normal_operation p b h).
Proof. unfold process_block_during_normal_operation. yields. Qed.
#[local] Hint Resolve yields_block_normally : yields.
Lemma yields_block_message p b h : yields (process_block_message p b h).
Proof. unfold process_block_message. yields. Qed.
#[local] Hint Resolve yields_block_message : yields.
Lemma yields_ordinary_message p m h : yields (process_ordinary_message p m h).
Proof. unfold process_ordinary_message. yields. Qed.
#[local] Hint Resolve yields_ordinary_message : yields.
Lemma yields_on_message p m : yields (on_message p m).
Proof. destruct m; cbn [on_message]; yields. Qed.
#[local] Hint Resolve yields_on_message : yields.
Lemma yields_run_task t :
  t <> fetch_sync_items_turn -> t <> wait_for_sync_items -> yields (run_task t).
Proof.
  intros Ht1 Ht2. destruct t; try done; cbn [run_task]; unfold trigger_fetch_sync_items; yields.
Qed.
Lemma run_task_fetching t n ts n' : run_task t n = (Ok ts, n') -> Forall fetching ts.
Proof.
  assert (Ht : (t = fetch_sync_items_turn \/ t = wait_for_sync_items) \/
    ~ (t = fetch_sync_items_turn \/ t = wait_for_sync_items)) by (destruct t; auto; right; intros [[=]|[=]]).
  destruct Ht as [Ht|Ht].
  - assert (run_task t = fetch_sync_items) as -> by (by destruct Ht as [->| ->]).
    intros [= <- _]. apply List.Forall_app. split; [|by repeat constructor].
    induction (foldl _ _ _); by constructor.
  - intros Hr. apply (List.Forall_impl _ ordinary_fetching).
    by apply (yields_run_task t) in Hr; [|intros ->; auto..].
Qed.
Lemma yields_do_call c : yields (do_call c).
Proof. destruct c; cbn [do_call]; unfold set_allowed_peers; yields. Qed.
End NodeRuns.

(** ** What an event grants *)
Section Events.
Context `{FcNet} `{FcTransaction} `{Uninitialised} {D : Type} `{NodeDelegate D}.
Notation node := (node D).
Implicit Types (n : node) (p : peer_name) (e : event (D := D)).

(** The fiber that goes on in an event. *)
Definition fiber_of e : option fiber :=
  match e with
  | delivered p _ | connection_closed p => Some (reader p)
  | connect_outcome p _ => Some (connector p)
  | written f _ | runs f => Some f
  | called i _ => Some (caller i)
  | tick _ | accepted _ _ | keys_exchanged _ | locally _ => None
  end.
Definition may_add e (t : task) : Prop :=
  match e with runs fetch_sync_items_loop => fetching t | _ => ordinary t end.
Lemma ordinary_may_add e t : ordinary t -> may_add e t.
Proof. destruct e as [| | | | | | |[]| |]; try done. apply ordinary_fetching. Qed.
(** It ends, or goes on with new tasks before the others it has. *)
Definition continues_with n e (f : fiber) (rest : option (list task)) : Prop :=
  match rest with
  | None => True
  | Some ts => exists added old, ts = added ++ old /\
      (old = [] /\ f <> fetch_sync_items_loop \/ exists t, fibers n !! f = Some (t :: old)) /\
      Forall (may_add e) added
  end.
Definition granted n e (perm : permission D) : Prop :=
  match perm with
  | may_handle m false => exists p, asked n p m
  | may_handle m true => exists b, m = block b /\ b ∈ received_sync_items n
  | may_receive b => exists p, asked_to_sync n p b
  | may_request_sync p item =>
      exists f rest, e = runs f /\ fibers n !! f = Some (request_sync_item p item :: rest)
  | may_turn_outbound p => exists f rest, fibers n !! f = Some (connect_to_task p :: rest)
  | may_continue f rest => fiber_of e = Some f /\ continues_with n e f rest
  | may_change d d' =>
      match e with
      | tick t => d' = set_clock (to_seconds (clock n + t)) d
      | locally act => exists r, act d = (r, d') /\ returned r
      | called _ (call_set_node_delegate d0) => d' = d0
      | _ => False
      end
  end.

(** The tasks that are not ordinary are in the fibers they belong to. *)
Definition belongs (f : fiber) (t : task) : Prop :=
  match f with
  | fetch_sync_items_loop => fetching t
  | connector p => ordinary t \/ t = connect_to_task p
  | _ => ordinary t
  end.
Definition placed n : Prop := forall f ts, fibers n !! f = Some ts -> Forall (belongs f) ts.

Lemma does_set_fiber allowed (f : fiber) rest n :
  allowed (may_continue f rest) -> does_at allowed n (set_fiber f rest).
Proof. intros Ha r n' [= _ <-] _. by apply rtc_once, (continues _ _ _ f rest). Qed.

Lemma yields_may_add e m : yields m -> forall n ts n', m n = (Ok ts, n') -> Forall (may_add e) ts.
Proof. intros Hm n ts n' Hr. eapply List.Forall_impl; [apply ordinary_may_add|by eapply Hm]. Qed.
Lemma does_step_fiber n e n0 f rest m :
  fiber_of e = Some f ->
  (exists t, fibers n !! f = Some (t :: rest)) \/ rest = [] /\ f <> fetch_sync_items_loop ->
  does_at (granted n e) n0 m ->
  (forall n ts n', m n = (Ok ts, n') -> Forall (may_add e) ts) ->
  does_at (granted n e) n0 (step_fiber f rest m).
Proof.
  intros Hf Hrest Hm Hy r n2. unfold step_fiber. destruct (m n0) as [[ts|ex] n1] eqn:E.
  - intros Hr Hret. etransitivity; [by eapply Hm|]. eapply does_set_fiber; [|done|done]. split; [done|].
    exists ts, rest. split; [done|]. split; [destruct Hrest; auto|]. by eapply Hy.
  - destruct (is_fc_exception ex) eqn:Ex; [|intros [= <- <-] Hret; cbn in Hret; congruence].
    intros Hr Hret. etransitivity; [by eapply Hm|]. eapply does_set_fiber; [|done|done]. split; [done|].
    destruct f; cbn [after_throw]; try done; [by exists [], []; auto|].
    exists [connect_turn], []. split; [done|]. split; [by left|]. by repeat (apply ordinary_may_add || constructor).
Qed.

(** Running is a run. *)
Lemma node_exec_steps trace n n' : exec trace n = Some n' -> steps n trace n'.
Proof.
  revert n. induction trace as [|e trace IH]; intros n; cbn [exec]; [intros [= ->]; constructor|].
  destruct (handle e n) as [op|] eqn:Eh; [|done]. destruct (op n) as [[[]|] n1] eqn:Eo; [|done].
  intros Hx. by eapply steps_cons; [| |apply IH].
Qed.

Lemma watched_quiet n p p' f :
  (forall q, watch_of (f q) = watch_of q) ->
  watched (n <| peers ::= <[p := f (peer_of n p)]> |>) p' = watched n p'.
Proof.
  intros Hf. unfold watched. rewrite peer_of_insert. destruct (decide (p' = p)) as [->|]; [apply Hf|done].
Qed.

(** Whatever happens, it is a sequence of changes that are granted. *)
Theorem handle_does n e op :
  placed n -> handle e n = Some op -> does_at (granted n e) n op.
Proof.
  intros Hp. destruct e as [t|remote local|p|p m|p|p outcome|f success|f|i c|act]; cbn [handle].
  - destruct (0 <=? t); [|done]. intros [= <-]. by apply does_tick.
  - intros [= <-]. apply does_here. does.
  - destruct (peers n !! p); [|done]. destruct (bool_decide _); [|done]. intros [= <-].
    apply does_here. does.
  - destruct (fibers n !! reader p) as [[|t l]|] eqn:E; [|done..]. intros [= <-].
    apply does_at_bind; [apply does_here; does|]. intros u n1 [= _ <-].
    apply does_step_fiber; [done|by right| |apply yields_may_add, yields_on_message].
    apply does_on_message; unfold asked, asked_to_sync; rewrite watched_quiet by done; [|intros b _];
      by exists p.
  - destruct (fibers n !! reader p) as [[|t l]|] eqn:E; [|done..]. intros [= <-].
    apply does_at_bind; [by apply does_set_fiber|]. intros _ n1 _. apply does_here. does.
  - destruct (fibers n !! connector p) as [[|[] rest]|] eqn:E; try done.
    destruct (bool_decide _); [|done]. intros [= <-].
    apply does_step_fiber; [done|by eauto|apply does_here; does|apply yields_may_add, yields_connect_returned].
  - destruct (fibers n !! f) as [[|[] rest]|] eqn:E; try done. intros [= <-].
    apply does_step_fiber; [done|by eauto| |]; destruct success.
    + apply does_here. does.
    + apply does_here. does.
    + apply yields_may_add, yields_bind. intros _. apply yields_bind. intros _. by apply yields_ret.
    + done.
  - destruct (fibers n !! f) as [[|t rest]|] eqn:E; try done.
    destruct (is_ready n t); [|done]. intros [= <-].
    apply does_step_fiber; [done|by eauto| |].
    + apply does_run_task; [intros p item -> |intros p -> |intros b Hb]; cbn; eauto.
    + apply Hp in E. apply Forall_inv in E.
      destruct f; cbn in E; try (apply yields_may_add, yields_run_task; intros ->; by destruct E).
      intros ? ? ?. apply run_task_fetching.
  - destruct (fibers n !! caller i) as [[|t l]|] eqn:E; [|done|]; intros [= <-];
      (apply does_step_fiber; [done|by right| |apply yields_may_add, yields_do_call]);
      apply does_here, does_do_call; by intros d d' ->.
  - intros [= <-]. apply does_locally. intros r d' Hr Hret. by exists r.
Qed.
End Events.
