(* ===== verification/NodeSafety.v ===== *)
(** What holds in every run of the network node, whatever its peers send and however its
    fibers take turns: what it asks for, what it gives to its client, what it advertises and
    what it remembers of its peers. *)
From stdpp Require Import relations.
From S2P Require Import Prelude.
From S2P Require Export NodeRuns.

(** ** The log *)
Definition advertisements (l : list output) : list (peer_name * item_id) :=
  omap (fun o => match o with advertised p i => Some (p, i) | _ => None end) l.
Definition sync_requests (l : list output) : list Z :=
  omap (fun o => match o with sync_requested _ item => Some item | _ => None end) l.

Lemma advertisements_map p items : advertisements (map (advertised p) items) = map (pair p) items.
Proof. induction items as [|i items IH]; [done|]. cbn. by rewrite <- IH. Qed.
Lemma sync_requests_advertised p items : sync_requests (map (advertised p) items) = [].
Proof. induction items as [|i items IH]; [done|]. cbn. by rewrite <- IH. Qed.

(** ** The effect of a change *)
Section Effects.
Context `{NodeDelegate D} (allowed : permission D -> Prop).
Notation node := (node D).
Implicit Types (n : node) (p : peer_name).

(** On a peer, which was there before or not, with the log afterwards. *)
Record peer_effect (existed : Prop) (l : list output) p (w w' : watch) : Prop := {
  effect_items i : is_Some (watch_items w' !! i) ->
    is_Some (watch_items w !! i) \/ requested p i ∈ l;
  effect_sync_items i : is_Some (watch_sync_items w' !! i) ->
    is_Some (watch_sync_items w !! i) \/ sync_requested p (item_hash i) ∈ l;
  effect_advertised : watch_advertised w ⊆ watch_advertised w';
  effect_socket : existed -> watch_socket w' = watch_socket w;
  effect_direction : watch_direction w' = watch_direction w \/
    watch_direction w' = outbound /\ allowed (may_turn_outbound p) \/
    ~ existed /\ watch_firewalled w' = None;
  effect_firewalled : watch_firewalled w' = watch_firewalled w \/
    watch_firewalled w' = None /\ ~ existed \/ watch_direction w = inbound /\ watch_direction w' = inbound;
  effect_endpoint :
    watch_endpoint w' = watch_endpoint w /\ watch_socket w' = watch_socket w \/
    watch_endpoint w' = None \/ watch_endpoint w' = Some (watch_socket w')
}.
Record effect n n' : Prop := {
  effect_peer p : peer_effect (is_Some (peers n !! p)) (log n') p (watched n p) (watched n' p);
  effect_stays p : is_Some (peers n !! p) -> is_Some (peers n' !! p);
  effect_log : exists os, log n' = log n ++ os /\
    forall m sync_mode, handled m sync_mode ∈ os -> allowed (may_handle m sync_mode);
  effect_received b : b ∈ received_sync_items n' ->
    b ∈ received_sync_items n \/ allowed (may_receive b);
  effect_advertisements : exists ads,
    advertisements (log n') = advertisements (log n) ++ ads /\ NoDup ads /\
    forall p i, (p, i) ∈ ads ->
      i ∉ watch_advertised (watched n p) /\ i ∈ watch_advertised (watched n' p);
  effect_db : potential_peer_db n' = potential_peer_db n \/
    (exists g r, storable n r /\ potential_peer_db n' = update_entry g r (potential_peer_db n)) \/
    potential_peer_db n' = clear (potential_peer_db n);
  effect_fibers : fibers n' = fibers n \/
    (exists f ts, new_fiber n f ts /\ fibers n' = <[f := ts]> (fibers n)) \/
    (exists f rest, allowed (may_continue f rest) /\
      fibers n' = partial_alter (fun _ => rest) f (fibers n));
  effect_requests :
    active_sync_requests n' = active_sync_requests n /\
    sync_requests (log n') = sync_requests (log n) \/
    exists p item, allowed (may_request_sync p item);
  effect_client : delegate n' = delegate n \/
    (exists m sync_mode r, handle_message m sync_mode (delegate n) = (r, delegate n') /\
      returned r /\ handled m sync_mode ∈ log n') \/
    allowed (may_change (delegate n) (delegate n'))
}.

Lemma watched_new n p : peers n !! p = None -> watched n p = watch_of new_peer.
Proof. unfold watched, peer_of. by intros ->. Qed.
Lemma peer_effect_refl P l p w : peer_effect P l p w w.
Proof. constructor; auto. Qed.
Lemma peer_change_effect P l p w w' : peer_change allowed p w w' -> peer_effect P l p w w'.
Proof.
  intros []; constructor; cbn; auto; intros i [t Ht]; left; exists t;
    by eapply lookup_weaken.
Qed.
Lemma insert_new_Some `{Countable K} {A} (k k' : K) (a : A) m :
  is_Some (insert_new k a m !! k') <-> k = k' \/ is_Some (m !! k').
Proof. rewrite <- !elem_of_dom, dom_insert_new. set_solver. Qed.
Lemma same_peers_effect n n' P l p : same_peers n n' -> peer_effect P l p (watched n p) (watched n' p).
Proof. intros [-> _]. apply peer_effect_refl. Qed.
Lemma other_peers_effect n n' P l p p' : same_other_peers p n n' ->
  (p' = p -> peer_effect P l p (watched n p) (watched n' p)) ->
  peer_effect P l p' (watched n p') (watched n' p').
Proof.
  intros [Hw _] Hp. destruct (decide (p' = p)) as [->|Hne]; [by apply Hp|].
  rewrite Hw by done. apply peer_effect_refl.
Qed.

(** Takes a change apart. *)
Ltac changes :=
  intros [Hs Hb|p0 Hs Hb Hc|p0 Hs Hb Hn Hf|o Hs Ho Hb|m0 mode r0 d' Hs Ha Hh Hret Hb|p0 item t Hs Ha Hw Hb
    |p0 i0 t Hs Hw Hb|p0 items Hs Hd Hi Hw Hb|b0 Hs Ha Hb|l Hs Hl Hb|g r Hs Hr Hb|Hs Hb
    |f ts Hs Hf Hb|f rest Hs Ha Hb|d' Hs Ha Hb]; injection Hb as Ec Ea Er Ed Ef El.

Lemma change_peer n n' p : change allowed n n' ->
  peer_effect (is_Some (peers n !! p)) (log n') p (watched n p) (watched n' p).
Proof.
  changes; try (by apply same_peers_effect); eapply other_peers_effect; try done; intros ->;
    try (rewrite Hw).
  - by apply peer_change_effect.
  - destruct Hf as (E1 & E2 & E3 & E4 & E5 & E6).
    pose proof (watched_new n p0 Hn) as En.
    constructor; rewrite ?E1, ?E2, ?E3, ?E4, ?En, ?Hn; auto.
    all: try (intros i; rewrite lookup_empty; by intros [? [=]]).
    by intros [? [=]].
  - constructor; cbn; auto. intros i. rewrite El, insert_new_Some, elem_of_app, list_elem_of_singleton.
    intros [<-|Hi]; auto.
  - constructor; cbn; auto. intros i. rewrite El, insert_new_Some, elem_of_app, list_elem_of_singleton.
    intros [<-|Hi]; auto.
  - constructor; cbn; auto. set_solver.
Qed.

Lemma change_effect n n' : change allowed n n' -> effect n n'.
Proof.
  intros Hc. constructor.
  - intros p. by apply change_peer.
  - revert Hc. changes; intros p Hp; try (by apply Hs);
      destruct (decide (p = p0)) as [->|]; by apply Hs.
  - revert Hc. changes; rewrite El; try (exists []; rewrite app_nil_r; split; [done|];
      by intros ? ? ?%elem_of_nil).
    all: eexists; split; [done|]; intros m sync_mode.
    all: rewrite ?list_elem_of_singleton; try (by intros [=]); try (by intros [= -> ->]).
    + intros <-. by destruct Ho.
    + intros (? & [=] & _)%list_elem_of_fmap.
  - revert Hc. changes; intros b; rewrite Er; auto. intros [->|?]%elem_of_cons; auto.
  - revert Hc. changes; rewrite El; try (exists []; rewrite app_nil_r; split; [done|];
      split; [constructor|]; by intros ? ? ?%elem_of_nil).
    all: unfold advertisements; rewrite ?omap_app.
    all: try (exists []; split; [done|]; split; [constructor|]; by intros ? ? ?%elem_of_nil).
    + exists []. split; [by destruct o|]. split; [constructor|]; by intros ? ? ?%elem_of_nil.
    + exists (map (pair p0) items). rewrite <- advertisements_map. split; [done|]. split.
      { rewrite advertisements_map. apply NoDup_fmap_2; [congruence|done]. }
      intros p i. rewrite advertisements_map. intros (i' & [= -> ->] & Hin)%list_elem_of_fmap.
      split; [by apply Hi|]. rewrite Hw. cbn. set_solver.
  - revert Hc. changes; rewrite Ed; auto. right. left. eauto.
  - revert Hc. changes; rewrite Ef; auto; right; [left|right]; eauto.
  - revert Hc. changes; rewrite Ea, El; auto; try (left; split; [done|]; unfold sync_requests;
      rewrite ?omap_app, ?app_nil_r; done).
    + left. split; [done|]. unfold sync_requests. rewrite omap_app. destruct o; try done; apply app_nil_r.
    + right. eauto.
    + left. split; [done|]. unfold sync_requests. rewrite omap_app.
      etransitivity; [|apply app_nil_r]. f_equal. apply sync_requests_advertised.
  - revert Hc. changes; rewrite Ec; auto. right. left. exists m0, mode, r0.
    rewrite El. split_and!; [done|done|]. set_solver.
Qed.
End Effects.

(** ** What every run keeps *)
Section Safety.
Context `{FcNet} `{FcTransaction} `{Uninitialised} {D : Type} `{NodeDelegate D}.
Notation node := (node D).
Implicit Types (n : node) (p : peer_name) (e : event (D := D)).

(** The peer a connector connects to. *)
Definition calling n p : Prop := is_Some (peers n !! p) /\
  watch_direction (watched n p) <> inbound /\ watch_firewalled (watched n p) = None.
(** An endpoint a peer connected to this node from. *)
Definition connected_from n (ep : endpoint) : Prop := exists p, is_Some (peers n !! p) /\
  watch_direction (watched n p) = inbound /\ watch_socket (watched n p) = ep.

(** An output that asks for a message that the delegate handles. *)
Definition asks_for (m : message) (sync_mode : bool) (o : output) : Prop :=
  if sync_mode then exists p b, m = block b /\ o = sync_requested p (message_block_id b)
  else exists p, o = requested p (ItemId (msg_type m) (message_id m)).

Section Since.
(** The run started with the peers [stored] on the disk. *)
Context (stored : gmap Z potential_peer_record).
Definition known_before (ep : endpoint) : Prop := exists k r,
  stored !! k = Some r /\ succeeded r /\ peer_endpoint r = ep.

Record sound n : Prop := {
  sound_placed : placed n;
  sound_calls p ts : fibers n !! connector p = Some ts -> connect_to_task p ∈ ts -> calling n p;
  sound_items p i : is_Some (watch_items (watched n p) !! i) -> requested p i ∈ log n;
  sound_sync_items p i :
    is_Some (watch_sync_items (watched n p) !! i) -> sync_requested p (item_hash i) ∈ log n;
  sound_received b :
    b ∈ received_sync_items n -> exists p, sync_requested p (message_block_id b) ∈ log n;
  sound_handled k m sync_mode : log n !! k = Some (handled m sync_mode) ->
    exists k' o, (k' < k)%nat /\ log n !! k' = Some o /\ asks_for m sync_mode o;
  sound_advertised p i : (p, i) ∈ advertisements (log n) -> i ∈ watch_advertised (watched n p);
  sound_advertisements : NoDup (advertisements (log n));
  sound_firewalled p : watch_firewalled (watched n p) <> None ->
    is_Some (peers n !! p) /\ watch_direction (watched n p) = inbound;
  sound_endpoint p ep : watch_endpoint (watched n p) = Some ep -> watch_socket (watched n p) = ep;
  sound_entries ep k r : potential_peer_set (potential_peer_db n) !! ep = Some (k, r) ->
    peer_endpoint r = ep /\ (succeeded r -> known_before ep \/ connected_from n ep)
}.

(** What stays as it was since the beginning [n0] of an event. *)
Record later n0 n : Prop := {
  later_log : log n0 `prefix_of` log n;
  later_calling p : calling n0 p -> calling n p
}.

(** *** The fibers *)
Lemma turned_outbound n0 e p :
  sound n0 -> granted n0 e (may_turn_outbound p) -> calling n0 p.
Proof.
  intros Hs (f & rest & Hf). pose proof (sound_placed _ Hs _ _ Hf) as Hb. apply Forall_inv in Hb.
  destruct f; try done. destruct Hb as [[]|[= ->]]. eapply sound_calls; [done|done|by left].
Qed.
Lemma calling_stays n0 e n n' p : effect (granted n0 e) n n' -> calling n p -> calling n' p.
Proof.
  intros He (Hs & Hdir & Hfw). pose proof (effect_peer _ _ _ He p) as Hp.
  split; [by eapply effect_stays|].
  destruct (effect_direction _ _ _ _ _ _ Hp) as [->|[[-> _]|[Hnot _]]]; [| |done];
    (split; [done|]); by destruct (effect_firewalled _ _ _ _ _ _ Hp) as [->|[[? ?]|[? ?]]].
Qed.
Lemma may_add_belongs e f t : fiber_of e = Some f -> may_add e t ->
  belongs f t /\ forall p, t <> connect_to_task p.
Proof.
  intros Hf Ht. assert (ordinary t \/ f = fetch_sync_items_loop /\ fetching t) as [Ho|[-> Ho]].
  { destruct e as [| | | | | | |f'| |]; try (by left). destruct f'; try (by left). right. by injection Hf as <-. }
  - split; [destruct f; cbn; auto using ordinary_fetching|by intros p ->].
  - split; [done|by intros p ->].
Qed.
Lemma continues_elem n0 e f ts t :
  sound n0 -> granted n0 e (may_continue f (Some ts)) -> t ∈ ts ->
  belongs f t /\ (forall p, t = connect_to_task p -> calling n0 p).
Proof.
  intros Hs [Hf (added & old & -> & Hold & Hadded)] [Ht|Ht]%elem_of_app.
  - rewrite List.Forall_forall in Hadded. apply list_elem_of_In, Hadded in Ht.
    destruct (may_add_belongs _ _ _ Hf Ht) as [Hb Hc]. split; [done|]. intros p E. by destruct (Hc p).
  - destruct Hold as [[-> _]|[t0 Hold]]; [by apply elem_of_nil in Ht|].
    pose proof (sound_placed _ Hs _ _ Hold) as Hb. rewrite List.Forall_forall in Hb.
    assert (Hin : t ∈ t0 :: old) by (by right). split; [by apply Hb, list_elem_of_In|].
    intros p ->. pose proof (Hb _ (proj1 (list_elem_of_In _ _) Hin)) as Hb'. destruct f; try done.
    destruct Hb' as [[]|[= ->]]. exact (sound_calls _ Hs _ _ Hold Hin).
Qed.
Lemma fibers_change n0 e n n' f ts :
  sound n0 -> later n0 n -> sound n -> effect (granted n0 e) n n' -> fibers n' !! f = Some ts ->
  Forall (belongs f) ts /\ forall p, f = connector p -> connect_to_task p ∈ ts -> calling n' p.
Proof.
  intros Hs0 [_ Hcall] Hn He Hf. pose proof (effect_fibers _ _ _ He) as Hfs.
  destruct Hfs as [E|[(f' & ts' & Hnew & E)|(f' & rest & Hg & E)]]; rewrite E in Hf.
  - split; [by eapply sound_placed|]. intros p -> Ht. eapply calling_stays; [done|]. by eapply sound_calls.
  - apply lookup_insert_Some in Hf as [[<- <-]|[_ Hf]].
    + destruct f' as [|p| | | | | |]; unfold new_fiber in Hnew; try done; [by subst|].
      destruct Hnew as (-> & Hp & Hdir & Hfw).
      split; [by repeat constructor; right|]. intros ? [= <-] _. eapply calling_stays; [done|].
      split; [done|]. by rewrite Hdir.
    + split; [by eapply sound_placed|]. intros p -> Ht. eapply calling_stays; [done|]. by eapply sound_calls.
  - destruct (decide (f' = f)) as [->|Hne].
    + rewrite lookup_partial_alter_eq in Hf. subst rest. split.
      * apply List.Forall_forall. intros t Ht. eapply (continues_elem n0 e f ts); [done..|by apply list_elem_of_In].
      * intros p -> Ht. eapply calling_stays; [done|]. apply Hcall. by eapply (continues_elem n0 e _ ts).
    + rewrite lookup_partial_alter_ne in Hf by done.
      split; [by eapply sound_placed|]. intros p -> Ht. eapply calling_stays; [done|]. by eapply sound_calls.
Qed.

(** *** The database of peers *)
Lemma update_entry_lookup g r d ep k r' :
  potential_peer_set (update_entry g r d) !! ep = Some (k, r') ->
  (r' = r /\ ep = peer_endpoint r) \/ potential_peer_set d !! ep = Some (k, r').
Proof.
  unfold update_entry, insert_entry.
  destruct (potential_peer_set d !! peer_endpoint r) as [[key r0]|] eqn:E; cbn; [|rewrite E];
    (intros [[<- [= _ <-]]|[_ Hr]]%lookup_insert_Some; auto).
Qed.
Lemma connected_from_stays n0 e n n' ep :
  sound n0 -> later n0 n -> effect (granted n0 e) n n' -> connected_from n ep -> connected_from n' ep.
Proof.
  intros Hs0 [_ Hcall] He (p & Hp & Hdir & Hsock). exists p.
  pose proof (effect_peer _ _ _ He p) as Hpe. split; [by eapply effect_stays|].
  rewrite (effect_socket _ _ _ _ _ _ Hpe) by done.
  destruct (effect_direction _ _ _ _ _ _ Hpe) as [->|[[_ Hg]|[Hnot _]]]; [done| |done].
  apply turned_outbound in Hg; [|done]. by apply Hcall in Hg as (_ & [] & _).
Qed.
Lemma lookup_endpoint n ep : sound n -> peer_endpoint (lookup_db n ep) = ep.
Proof.
  intros Hn. unfold lookup_db, lookup_or_create_entry_for_endpoint.
  destruct (potential_peer_set (potential_peer_db n) !! ep) as [[k r]|] eqn:E; [|done].
  by destruct (sound_entries _ Hn _ _ _ E).
Qed.
Lemma entries_change n0 e n n' ep k r :
  sound n0 -> later n0 n -> sound n -> effect (granted n0 e) n n' ->
  potential_peer_set (potential_peer_db n') !! ep = Some (k, r) ->
  peer_endpoint r = ep /\ (succeeded r -> known_before ep \/ connected_from n' ep).
Proof.
  intros Hs0 Hl Hn He. pose proof (connected_from_stays n0 e n n' ep Hs0 Hl He) as Hstay.
  assert (Hold : forall r0 k0, potential_peer_set (potential_peer_db n) !! ep = Some (k0, r0) ->
    peer_endpoint r0 = ep /\ (succeeded r0 -> known_before ep \/ connected_from n' ep)).
  { intros r0 k0 (E & Hs)%(sound_entries _ Hn). split; [done|]. intros [?|?]%Hs; auto. }
  destruct (effect_db _ _ _ He) as [->|[(g & r0 & Hst & ->)| ->]].
  - apply Hold.
  - intros [[-> ->]|Hr]%update_entry_lookup; [|by eapply Hold]. split; [done|].
    intros [(ep' & k' & r' & Hr' & Hs' & Ee)|(p & ep' & Hfw & Hep & Ee)]%Hst.
    + destruct (sound_entries _ Hn _ _ _ Hr') as [Ee' Hs'']. rewrite <- Ee, Ee' in *.
      destruct (Hs'' Hs'); auto.
    + rewrite lookup_endpoint in Ee by done. right. apply Hstay. exists p.
      destruct (sound_firewalled _ Hn p) as [Hin Hdir]; [by rewrite Hfw|].
      split_and!; [done|done|]. rewrite Ee. by apply sound_endpoint.
  - cbn. by rewrite lookup_empty.
Qed.

(** *** What was asked for *)
Lemma asked_change n0 e n n' :
  sound n0 -> later n0 n -> sound n -> effect (granted n0 e) n n' ->
  (forall k m sync_mode, log n' !! k = Some (handled m sync_mode) ->
    exists k' o, (k' < k)%nat /\ log n' !! k' = Some o /\ asks_for m sync_mode o) /\
  forall b, b ∈ received_sync_items n' -> exists p, sync_requested p (message_block_id b) ∈ log n'.
Proof.
  intros Hs0 [Hlog _] Hn He. destruct (effect_log _ _ _ He) as (os & El & Hh).
  assert (Hin : forall o, o ∈ log n0 -> o ∈ log n) by (destruct Hlog as [l ->]; set_solver).
  split.
  - intros k m mode Hk. rewrite El in *. destruct (decide (k < length (log n))%nat) as [Hlt|Hge].
    + rewrite lookup_app_l in Hk by done.
      destruct (sound_handled _ Hn _ _ _ Hk) as (k' & o & Hk' & Ho & Ha). exists k', o.
      split_and!; [done| |done]. rewrite lookup_app_l; [done|lia].
    + rewrite lookup_app_r in Hk by lia. apply list_elem_of_lookup_2, Hh in Hk.
      assert (exists o, o ∈ log n /\ asks_for m mode o) as (o & Ho & Ha).
      { destruct mode; cbn in Hk.
        - destruct Hk as (b & -> & Hb). destruct (sound_received _ Hs0 _ Hb) as [p Hp].
          exists (sync_requested p (message_block_id b)). split; [auto|]. by exists p, b.
        - destruct Hk as [p Hp]. apply (sound_items _ Hs0) in Hp. eexists. split; [eauto|]. by exists p. }
      apply list_elem_of_lookup in Ho as [k' Ho]. apply lookup_lt_Some in Ho as Hlt.
      exists k', o. split_and!; [lia| |done]. by rewrite lookup_app_l.
  - intros b [Hb|[p Hp]]%(effect_received _ _ _ He); rewrite El.
    + apply (sound_received _ Hn) in Hb as [p Hp]. exists p. set_solver.
    + apply (sound_sync_items _ Hs0) in Hp. exists p. set_solver.
Qed.

Lemma sound_change n0 e n n' :
  sound n0 -> later n0 n -> sound n -> change (granted n0 e) n n' -> sound n' /\ later n0 n'.
Proof.
  intros Hs0 Hl Hn Hc. apply change_effect in Hc as He.
  assert (Hl0 : later n0 n').
  { destruct Hl as [Hlog Hcall], (effect_log _ _ _ He) as (os & El & _). split.
    - etransitivity; [done|]. rewrite El. by apply prefix_app_r.
    - intros p Hp. eapply calling_stays; [done|auto]. }
  assert (Hin : forall o, o ∈ log n -> o ∈ log n').
  { destruct (effect_log _ _ _ He) as (os & -> & _). set_solver. }
  split; [|done]. pose proof (effect_peer _ _ _ He) as Hp.
  destruct (asked_change _ _ _ _ Hs0 Hl Hn He) as [Hhandled Hreceived].
  destruct (effect_advertisements _ _ _ He) as (ads & Ea & Hads & Hadv).
  constructor; [| | | |done|done| | | | |].
  - intros f ts Hf. exact (proj1 (fibers_change _ _ _ _ _ _ Hs0 Hl Hn He Hf)).
  - intros p ts Hf. exact (proj2 (fibers_change _ _ _ _ _ _ Hs0 Hl Hn He Hf) p eq_refl).
  - intros p i [Hi|Hi]%(effect_items _ _ _ _ _ _ (Hp p)); [by apply Hin, sound_items|done].
  - intros p i [Hi|Hi]%(effect_sync_items _ _ _ _ _ _ (Hp p)); [by apply Hin, sound_sync_items|done].
  - intros p i. rewrite Ea. intros [Hi|Hi]%elem_of_app; [|by apply Hadv].
    by apply (effect_advertised _ _ _ _ _ _ (Hp p)), sound_advertised.
  - rewrite Ea. apply list.NoDup_app. split_and!; [by apply sound_advertisements| |done].
    intros [p i] Hi Hi'. apply Hadv in Hi' as [[] _]. by apply sound_advertised.
  - intros p Hfw. assert (Hdir : is_Some (peers n !! p) /\ watch_direction (watched n p) = inbound ->
      watch_direction (watched n' p) = inbound).
    { intros [Hs Hd]. destruct (effect_direction _ _ _ _ _ _ (Hp p)) as [->|[[_ Hg]|[? ?]]]; [done| |done].
      apply turned_outbound in Hg; [|done]. by apply Hl in Hg as (_ & [] & _). }
    destruct (effect_firewalled _ _ _ _ _ _ (Hp p)) as [E|[[E _]|[E1 E2]]].
    + rewrite E in Hfw. apply (sound_firewalled _ Hn) in Hfw.
      split; [by eapply effect_stays; [|apply Hfw]|auto].
    + done.
    + split; [|done]. eapply effect_stays; [done|]. apply not_eq_None_Some. intros Hno.
      by rewrite (watched_new n p Hno) in E1.
  - intros p ep. destruct (effect_endpoint _ _ _ _ _ _ (Hp p)) as [[-> ->]|[->| ->]]; [|done|congruence].
    by apply sound_endpoint.
  - intros ep k r. exact (entries_change _ _ _ _ ep k r Hs0 Hl Hn He).
Qed.

(** *** Runs *)
Lemma sound_handle n e op n' :
  sound n -> handle e n = Some op -> op n = (Ok tt, n') -> sound n'.
Proof.
  intros Hs Hop Hr. apply handle_does in Hop; [|by apply sound_placed]. apply Hop in Hr.
  specialize (Hr I). assert (Hgen : forall n1, rtc (change (granted n e)) n1 n' -> sound n1 -> later n n1 -> sound n').
  { intros n1. induction 1 as [|n1 n2 n3 Hc _ IH]; intros Hs1 Hl; [done|].
    destruct (sound_change n e n1 n2) as [Hs2 Hl2]; auto. }
  by apply (Hgen n).
Qed.
Lemma sound_steps n trace n' : steps n trace n' -> sound n -> sound n'.
Proof. induction 1 as [|n e op n1 trace n2 Hop Hr _ IH]; [done|]. intros Hs. by apply IH, (sound_handle n e op). Qed.

Lemma insert_entry_lookup set a ep k r :
  insert_entry set a !! ep = Some (k, r) -> (a = (k, r) /\ ep = peer_endpoint r) \/ set !! ep = Some (k, r).
Proof.
  unfold insert_entry. destruct (set !! _); [auto|]. rewrite lookup_insert_Some.
  intros [[<- ->]|[_ ?]]; auto.
Qed.
Lemma opened_entries entries set ep k r :
  foldl insert_entry set entries !! ep = Some (k, r) ->
  ((k, r) ∈ entries /\ ep = peer_endpoint r) \/ set !! ep = Some (k, r).
Proof.
  revert set. induction entries as [|a entries IH]; intros set; cbn [foldl]; [auto|].
  intros [[? ?]|[[-> ->]|?]%insert_entry_lookup]%IH; auto; left; split; auto; [by right|by left].
Qed.
Lemma sound_first d id listening : sound (first_node d id listening stored).
Proof.
  assert (Hnew : forall p, watched (first_node d id listening stored) p = watch_of new_peer).
  { intros p. by apply watched_new. }
  constructor; try setoid_rewrite Hnew; cbn; try done.
  - intros f ts. cbn. rewrite !lookup_insert_Some, lookup_singleton_Some.
    intros Hf. repeat destruct Hf as [[<- <-]|[_ Hf]]; [by repeat constructor..|].
    destruct Hf as [<- <-]. by repeat constructor.
  - intros p ts. rewrite !lookup_insert_Some, lookup_singleton_Some.
    intros Hf. repeat destruct Hf as [[[=] _]|[_ Hf]]. by destruct Hf.
  - intros p i. rewrite lookup_empty. by intros [? [=]].
  - intros p i. rewrite lookup_empty. by intros [? [=]].
  - by intros b ?%elem_of_nil.
  - by intros p i ?%elem_of_nil.
  - constructor.
  - intros ep k r [[Hk%iterate_spec ->]|Hr]%opened_entries; [|by rewrite lookup_empty in Hr].
    split; [done|]. intros Hr. left. by exists k, r.
Qed.
Lemma sound_run d id listening trace n :
  steps (first_node d id listening stored) trace n -> sound n.
Proof. intros Hs. by eapply sound_steps, sound_first. Qed.
End Since.

(** *** The client *)
(** An invariant [Inv] of the client that messages with [P] keep. *)
Section Client.
Context (Inv : D -> Prop) (P : message -> Prop).
(** What the client does on its own keeps it. *)
Definition keeps e : Prop :=
  match e with
  | locally act => forall d r d', act d = (r, d') -> returned r -> Inv d -> Inv d'
  | called _ (call_set_node_delegate d) => Inv d
  | _ => True
  end.
Context (Inv_clock : forall t d, Inv d -> Inv (set_clock t d)).
Context (Inv_handles : forall m sync_mode d r d',
  P m -> handle_message m sync_mode d = (r, d') -> returned r -> Inv d -> Inv d').

Lemma client_change n0 e n n' :
  keeps e -> change (granted n0 e) n n' ->
  (forall m sync_mode, handled m sync_mode ∈ log n' -> P m) -> Inv (delegate n) -> Inv (delegate n').
Proof.
  intros Hk Hc%change_effect Hm Hi.
  destruct (effect_client _ _ _ Hc) as [->|[(m & mode & r & Hh & Hr & Ho)|Hg]]; [done| |].
  - eapply Inv_handles; [by eapply Hm|done..].
  - destruct e as [t| | | | | | | |i []|act]; try done.
    + cbn in Hg. rewrite Hg. by apply Inv_clock.
    + cbn in Hg. by rewrite Hg.
    + destruct Hg as (r & Hr & Hret). by eapply Hk.
Qed.
Lemma log_grows n0 e n n' : rtc (change (granted n0 e)) n n' -> log n `prefix_of` log n'.
Proof.
  induction 1 as [|n1 n2 n3 Hc%change_effect _ IH]; [done|]. etransitivity; [|done].
  destruct (effect_log _ _ _ Hc) as (os & -> & _). by apply prefix_app_r.
Qed.
Lemma client_changes n0 e n n' :
  keeps e -> rtc (change (granted n0 e)) n n' ->
  (forall m sync_mode, handled m sync_mode ∈ log n' -> P m) -> Inv (delegate n) -> Inv (delegate n').
Proof.
  intros Hk Hr Hm. induction Hr as [|n1 n2 n3 Hc Hr IH]; [done|]. intros Hi. apply IH; [done|].
  eapply client_change; [done..| |done]. intros m mode Ho. eapply (Hm m mode).
  destruct (log_grows _ _ _ _ Hr) as [l ->]. set_solver.
Qed.
Lemma steps_log stored n trace n' : steps n trace n' -> sound stored n -> log n `prefix_of` log n'.
Proof.
  induction 1 as [|n e op n1 trace n2 Hop Hr _ IH]; intros Hs; [done|].
  pose proof (handle_does n e op (sound_placed _ _ Hs) Hop _ _ Hr I) as Hc.
  etransitivity; [by eapply log_grows|]. apply IH. by eapply sound_handle.
Qed.
Lemma client_steps stored n trace n' :
  steps n trace n' -> sound stored n -> Forall keeps trace ->
  (forall m sync_mode, handled m sync_mode ∈ log n' -> P m) -> Inv (delegate n) -> Inv (delegate n').
Proof.
  induction 1 as [|n e op n1 trace n2 Hop Hr Hst IH]; intros Hs Hk Hm Hi; [done|].
  assert (Hs1 : sound stored n1) by by eapply sound_handle.
  pose proof (Forall_inv Hk) as He. apply Forall_inv_tail in Hk.
  apply IH; [done|done|done|]. eapply client_changes; [done| | |done].
  - exact (handle_does n e op (sound_placed _ _ Hs) Hop _ _ Hr I).
  - intros m mode Ho. eapply (Hm m mode). destruct (steps_log _ _ _ _ Hst Hs1) as [l ->]. set_solver.
Qed.
End Client.

(** C4: Whatever the peers send and however the fibers take turns, the client is only
    given messages for which a request was sent before: an ordinary message or a new block by
    the hash of the message; a block during synchronization by the id that its sender says it
    has, [message_block_id]. The code does not compare this label with the id of the block, so
    of these only the label was asked for. *)
Theorem only_what_was_asked d id listening stored trace n k m sync_mode :
  steps (first_node d id listening stored) trace n ->
  log n !! k = Some (handled m sync_mode) ->
  exists k' o, (k' < k)%nat /\ log n !! k' = Some o /\ asks_for m sync_mode o.
Proof. intros Hs%sound_run. apply Hs. Qed.

(** C19: In no run is an item advertised to the same peer twice. *)
Theorem advertised_once d id listening stored trace n :
  steps (first_node d id listening stored) trace n -> NoDup (advertisements (log n)).
Proof. intros Hs%sound_run. apply Hs. Qed.

(** The database of peers says of an endpoint that the last connection succeeded only
    if it said so when it was opened, or if a peer connected to this node from there: never of
    an endpoint that this node connected to. *)
Theorem success_is_inbound d id listening stored trace n ep k r :
  steps (first_node d id listening stored) trace n ->
  potential_peer_set (potential_peer_db n) !! ep = Some (k, r) ->
  last_connection_disposition r = last_connection_succeeded ->
  known_before stored ep \/ connected_from n ep.
Proof. intros Hs%sound_run Hr. apply (sound_entries stored n Hs ep k r Hr). Qed.
End Safety.
