(* ===== verification/NodeFetching.v ===== *)
(** The loop of the network node that fetches the blocks that are missing: no block is
    requested twice, not even when the peer it was requested from is gone or does not have it,
    although comments in [node.cpp] mean it to be; and what becomes of a loop that fails to write
    to a socket. *)
From stdpp Require Import relations.
From S2P Require Import Prelude.
From S2P Require Export NodeSafety.

Section NodeFetching.
Context `{FcNet} `{FcTransaction} `{Uninitialised} {D : Type} `{NodeDelegate D}.
Notation node := (node D).
Implicit Types (n : node) (p : peer_name) (e : event (D := D)).

(** ** The schedule *)
Lemma schedule_spec n qs scheduled :
  let ok l := NoDup (map snd l) /\ forall item, item ∈ map snd l -> item ∉ dom (active_sync_requests n) in
  ok scheduled -> ok (foldl (schedule n) scheduled qs).
Proof.
  intros ok. revert scheduled. induction qs as [|q qs IH]; intros l Hl; [done|]. cbn [foldl]. apply IH.
  unfold schedule. destruct (_ && _); [|done].
  destruct (List.find _ _) as [item|] eqn:E; [|done]. apply List.find_some in E as [_ E].
  unfold is_requestable in E. rewrite !andb_true_iff, !negb_true_iff in E.
  destruct E as [[_ E1%bool_decide_eq_false] E2%bool_decide_eq_true], Hl as [Hd Hl].
  unfold ok. rewrite map_app. split.
  - apply list.NoDup_app. split_and!; [done|set_solver|apply NoDup_singleton].
  - intros i [Hi|Hi]%elem_of_app; [by apply Hl|]. apply list_elem_of_singleton in Hi as ->.
    by apply not_elem_of_dom.
Qed.

(** ** The tasks of the loop *)
Definition scheduled_item (t : task) : option Z :=
  match t with request_sync_item _ item => Some item | _ => None end.
(** Requests and messages, and at the end the next turn. *)
Inductive turn_of_loop : list task -> Prop :=
| at_the_end t : t = fetch_sync_items_turn \/ t = wait_for_sync_items -> turn_of_loop [t]
| then_sends p m ts : turn_of_loop ts -> turn_of_loop (send_message p m :: ts)
| then_requests p item ts : turn_of_loop ts -> turn_of_loop (request_sync_item p item :: ts).
Definition loop_tasks n : list task := default [] (fibers n !! fetch_sync_items_loop).
Definition pending n : list Z := omap scheduled_item (loop_tasks n).

Record fetches_once n : Prop := {
  fetches_turn : match fibers n !! fetch_sync_items_loop with Some ts => turn_of_loop ts | None => True end;
  fetches_NoDup : NoDup (sync_requests (log n) ++ pending n);
  fetches_active item : item ∈ sync_requests (log n) -> item ∈ dom (active_sync_requests n)
}.

(** What the loop looks at. *)
Definition same_loop n n' : Prop :=
  fibers n' !! fetch_sync_items_loop = fibers n !! fetch_sync_items_loop /\
  active_sync_requests n' = active_sync_requests n /\ sync_requests (log n') = sync_requests (log n).
Lemma same_loop_once n n' : same_loop n n' -> fetches_once n -> fetches_once n'.
Proof.
  intros (Ef & Ea & El) []. constructor; rewrite ?Ef, ?Ea, ?El; auto.
  unfold pending, loop_tasks. by rewrite Ef.
Qed.

Lemma goes_on n ts :
  fibers n !! fetch_sync_items_loop = Some ts -> turn_of_loop ts ->
  NoDup (sync_requests (log n) ++ omap scheduled_item ts) ->
  (forall item, item ∈ sync_requests (log n) -> item ∈ dom (active_sync_requests n)) ->
  fetches_once n.
Proof. intros Hf Ht Hd Ha. constructor; [by rewrite Hf| |done]. unfold pending, loop_tasks. by rewrite Hf. Qed.
Lemma ends n n' : fetches_once n -> fibers n' !! fetch_sync_items_loop = None ->
  log n' = log n -> active_sync_requests n' = active_sync_requests n -> fetches_once n'.
Proof.
  intros Hn Hf El Ea. constructor; [by rewrite Hf| |by rewrite El, Ea; apply Hn].
  unfold pending, loop_tasks. rewrite Hf, El. cbn. rewrite app_nil_r.
  by apply fetches_NoDup, list.NoDup_app in Hn as [Hd _].
Qed.
Lemma sync_requests_app l l' : sync_requests (l ++ l') = sync_requests l ++ sync_requests l'.
Proof. apply omap_app. Qed.

(** Other events leave it alone. *)
Lemma others_same_loop n e op n' :
  placed n -> fiber_of e <> Some fetch_sync_items_loop -> handle e n = Some op ->
  op n = (Ok tt, n') -> same_loop n n'.
Proof.
  intros Hp He Hop Hr. apply handle_does in Hop; [|done]. specialize (Hop _ _ Hr I).
  assert (Hgen : forall n1 n2, change (granted n e) n1 n2 -> same_loop n1 n2).
  { intros n1 n2 Hn%change_effect.
    assert (Hreq : forall p item, ~ granted n e (may_request_sync p item)).
    { intros p item (f & rest & -> & Hf). apply Hp, Forall_inv in Hf. by destruct f; cbn in Hf; try destruct Hf. }
    destruct (effect_requests _ _ _ Hn) as [[Ea El]|(p & item & [] %Hreq)]. split; [|done].
    destruct (effect_fibers _ _ _ Hn) as [->|[(f & ts & Hf & ->)|(f & rest & [Hf _] & ->)]]; [done| |].
    - rewrite lookup_insert_ne; [done|]. by intros ->.
    - rewrite lookup_partial_alter_ne; [done|]. by intros ->. }
  clear Hr. induction Hop as [n1|n1 n2 n3 Hc _ IH]; [done|].
  destruct (Hgen _ _ Hc) as (E1 & E2 & E3), IH as (E4 & E5 & E6). split_and!; congruence.
Qed.

(** A message was written, or not; a task was run. *)
Lemma after_write n to m rest success n' :
  fetches_once n -> fibers n !! fetch_sync_items_loop = Some (send_message to m :: rest) ->
  step_fiber fetch_sync_items_loop rest (if success : bool then
    let! _ := put_log (sent fetch_sync_items_loop to m) in
    let! _ := set_peer to (fun q => q <| last_message_sent_time := clock n |>) in ret []
    else raise assert_exception) n = (Ok tt, n') -> fetches_once n'.
Proof.
  intros Hn Hf. pose proof (fetches_turn _ Hn) as Ht. pose proof (fetches_NoDup _ Hn) as Hd.
  unfold pending, loop_tasks in Hd. rewrite Hf in Ht, Hd. cbn in Hd.
  destruct success; intros [= <-].
  - apply (goes_on _ rest); cbn.
    + by rewrite lookup_partial_alter_eq.
    + inversion Ht as [? [->|[=]]| |]; [done|]. done.
    + rewrite sync_requests_app. cbn. by rewrite app_nil_r.
    + intros item. rewrite sync_requests_app. cbn. rewrite app_nil_r. apply Hn.
  - eapply ends; [done| |done|done]. cbn. by rewrite lookup_partial_alter_eq.
Qed.
Lemma after_task n t rest n' :
  fetches_once n -> fibers n !! fetch_sync_items_loop = Some (t :: rest) ->
  step_fiber fetch_sync_items_loop rest (run_task t) n = (Ok tt, n') -> fetches_once n'.
Proof.
  intros Hn Hf. pose proof (fetches_turn _ Hn) as Ht. pose proof (fetches_NoDup _ Hn) as Hd.
  unfold pending, loop_tasks in Hd. rewrite Hf in Ht, Hd. cbn in Hd.
  inversion Ht as [t0 Ht0|p m ts Hts|p item ts Hts]; subst.
  - assert (run_task t = fetch_sync_items) as -> by (by destruct Ht0 as [->| ->]).
    intros [= <-].
    set (reqs := foldl _ _ _).
    destruct (schedule_spec _ _ [] : _ -> NoDup (map snd reqs) /\ _) as [Hd' Ha'];
      [split; [constructor|by intros ? ?%elem_of_nil]|].
    assert (Eo : omap scheduled_item (map (fun r => request_sync_item r.1 r.2) reqs ++ [wait_for_sync_items])
      = map snd reqs).
    { clear Hd' Ha'. clearbody reqs. rewrite omap_app. cbn. rewrite app_nil_r.
      induction reqs as [|r reqs IH]; [done|]. cbn. by rewrite IH. }
    eapply goes_on; cbn.
    + by rewrite lookup_partial_alter_eq.
    + rewrite app_nil_r. clear. clearbody reqs. induction reqs; cbn; constructor; [auto|done].
    + rewrite app_nil_r, Eo. apply list.NoDup_app. split_and!; [| |done].
      * by apply fetches_NoDup, list.NoDup_app in Hn as [? _].
      * intros item Hi%(fetches_active _ Hn) Hi'. by apply Ha' in Hi'.
    + apply Hn.
  - intros [= <-]. eapply goes_on; [cbn; by rewrite lookup_partial_alter_eq|done|exact Hd|apply Hn].
  - intros [= <-]. eapply goes_on; cbn; [by rewrite lookup_partial_alter_eq|by constructor| |].
    + rewrite sync_requests_app. by rewrite <- app_assoc.
    + intros i. rewrite sync_requests_app, dom_insert_new, elem_of_app.
      intros [Hi%(fetches_active _ Hn)|Hi]; set_solver.
Qed.

Lemma fetches_once_handle n e op n' :
  placed n -> fetches_once n -> handle e n = Some op -> op n = (Ok tt, n') -> fetches_once n'.
Proof.
  intros Hp Hn Hop Hr. destruct (decide (fiber_of e = Some fetch_sync_items_loop)) as [Ef|Ef];
    [|by eapply same_loop_once, Hn; eapply others_same_loop].
  destruct e; try done; injection Ef as ->; cbn [handle] in Hop;
    destruct (fibers n !! fetch_sync_items_loop) as [ts|] eqn:E; try done.
  - destruct ts as [|[] rest]; try done. injection Hop as <-. apply (after_write n to m rest) in Hr; done.
  - destruct ts as [|t rest]; [done|]. destruct (is_ready n t); [|done]. injection Hop as <-.
    by apply (after_task n t rest) in Hr.
Qed.

Lemma fetches_once_steps stored n trace n' :
  steps n trace n' -> sound stored n -> fetches_once n -> fetches_once n'.
Proof.
  induction 1 as [|n e op n1 trace n2 Hop Hr _ IH]; [done|]. intros Hs Hf. apply IH.
  - by eapply sound_handle.
  - eapply fetches_once_handle; [by eapply sound_placed|done..].
Qed.
Lemma first_fetches_once d id listening stored : fetches_once (first_node d id listening stored).
Proof.
  eapply goes_on; cbn; [apply lookup_insert_eq|by constructor; left|constructor|by intros ? ?%elem_of_nil].
Qed.

(** In no run does the node request a block twice during synchronization: not even
    when the peer that it was requested from answers that it is not available, or is gone. *)
Theorem requested_once d id listening stored trace n :
  steps (first_node d id listening stored) trace n -> NoDup (sync_requests (log n)).
Proof.
  intros Hs. pose proof (fetches_once_steps stored _ _ _ Hs
    (sound_first stored d id listening) (first_fetches_once _ _ _ _)) as Hn.
  by apply fetches_NoDup, list.NoDup_app in Hn as [? _].
Qed.

(** ** Loops that end *)
Definition loops : list fiber :=
  [fetch_sync_items_loop; fetch_items_loop; advertise_inventory_loop;
   terminate_inactive_connections_loop].

Lemma idle_event e f n op : f ∈ loops -> fibers n !! f = None -> handle e n = Some op -> fiber_of e <> Some f.
Proof.
  intros Hl Hf Hop [= Hfe]. unfold loops in Hl. rewrite !elem_of_cons, elem_of_nil in Hl.
  destruct e; cbn in Hfe; try done; injection Hfe as Hfe; subst; try (by destruct Hl as [|[|[|[|]]]]);
    cbn [handle] in Hop; by rewrite Hf in Hop.
Qed.
Lemma other_fiber n e n1 f : f ∈ loops -> fiber_of e <> Some f ->
  rtc (change (granted n e)) n n1 -> fibers n1 !! f = fibers n !! f.
Proof.
  intros Hl He. assert (Hgen : forall n1 n2, change (granted n e) n1 n2 -> fibers n2 !! f = fibers n1 !! f).
  { intros n2 n3 Hn%change_effect. destruct (effect_fibers _ _ _ Hn) as [->|[(f' & ts & Hf & ->)|(f' & rest & [Hf _] & ->)]].
    - done.
    - rewrite lookup_insert_ne; [done|]. intros ->. unfold loops in Hl. rewrite !elem_of_cons, elem_of_nil in Hl.
      by destruct Hl as [->|[->|[->|[->|]]]].
    - rewrite lookup_partial_alter_ne; [done|]. by intros ->. }
  intros Hr. induction Hr as [|? n2 n3 Hc _ IH]; [done|]. rewrite IH. by apply Hgen.
Qed.
Lemma loop_stays_ended stored f n trace n' :
  f ∈ loops -> steps n trace n' -> sound stored n -> fibers n !! f = None ->
  fibers n' !! f = None /\
  (f = fetch_sync_items_loop -> sync_requests (log n') = sync_requests (log n)).
Proof.
  intros Hl. induction 1 as [|n e op n1 trace n2 Hop Hr _ IH]; [done|]. intros Hs Hf.
  pose proof (idle_event _ _ _ _ Hl Hf Hop) as He.
  destruct IH as [IH1 IH2]; [by eapply sound_handle| |].
  - rewrite <- Hf. eapply other_fiber; [done..|].
    exact (handle_does n e op (sound_placed _ _ Hs) Hop _ _ Hr I).
  - split; [done|]. intros ->. rewrite IH2 by done.
    eapply others_same_loop; [by eapply sound_placed|done..].
Qed.

(** When one of the loops that fetch, advertise and disconnect fails to write to the
    socket of a peer, the loop ends for the rest of the run, and after the one that fetches
    the blocks that are missing no block is requested from any peer any more. *)
Theorem write_failure_ends_loop d id listening stored before n f op n1 after n2 :
  f ∈ loops -> steps (first_node d id listening stored) before n ->
  handle (written f false) n = Some op -> op n = (Ok tt, n1) -> steps n1 after n2 ->
  fibers n2 !! f = None /\
  (f = fetch_sync_items_loop -> sync_requests (log n2) = sync_requests (log n)).
Proof.
  intros Hl Hb Hop Hr Ha. apply sound_run in Hb. assert (Hs : sound stored n1) by by eapply sound_handle.
  cbn [handle] in Hop. destruct (fibers n !! f) as [[|[] rest]|]; try done. injection Hop as <-.
  assert (E : n1 = n <| fibers ::= partial_alter (fun _ => None) f |>).
  { unfold loops in Hl. rewrite !elem_of_cons, elem_of_nil in Hl.
    destruct Hl as [->|[->|[->|[->|[]]]]]; by injection Hr as <-. }
  assert (Hf : fibers n1 !! f = None) by (rewrite E; cbn; by rewrite lookup_partial_alter_eq).
  destruct (loop_stays_ended stored f n1 after n2 Hl Ha Hs Hf) as [E1 E2]. split; [done|].
  intros Ef. rewrite E2 by done. by rewrite E.
Qed.
End NodeFetching.
