(* ===== verification/NodeConnecting.v ===== *)
(** How connections of the network node come about: the loop that connects to peers ends with
    the number it wants, and what it takes to become an active connection. *)
From S2P Require Import Prelude.
From S2P Require Export NodeSafety.

Section NodeConnecting.
Context `{FcNet} `{FcTransaction} `{Uninitialised} {D : Type} `{NodeDelegate D}.
Notation node := (node D).
Implicit Types (n : node) (p : peer_name).

(** ** Connecting to as many peers as wanted *)
(** What a pass of the loop keeps and counts. *)
Record dials n n' : Prop := {
  dials_desired : desired_number_of_connections n' = desired_number_of_connections n;
  dials_updated : potential_peer_database_updated n' = potential_peer_database_updated n;
  dials_names : handshaking_connections n' ⊆ dom (peers n')
}.
Definition has_names n : Prop := handshaking_connections n ⊆ dom (peers n).
Lemma dials_refl n : has_names n -> dials n n.
Proof. by constructor. Qed.
Lemma dials_trans n1 n2 n3 : dials n1 n2 -> dials n2 n3 -> dials n1 n3.
Proof. intros [] []. constructor; [congruence..|done]. Qed.

Lemma connect_to_counts n ep :
  has_names n -> is_connection_to_endpoint_in_progress n ep = false ->
  exists n', connect_to ep n = (Ok tt, n') /\ dials n n' /\
    get_number_of_connections n' = uint32 (get_number_of_connections n + 1).
Proof.
  intros Hn Hp. unfold connect_to, run_bind, get, reads. rewrite Hp. cbn. eexists. split; [reflexivity|].
  assert (Hfresh : new_name n ∉ handshaking_connections n).
  { intros Hin%Hn%elem_of_dom. rewrite new_name_fresh in Hin. by destruct Hin. }
  split; [constructor; cbn; [done|done|]|].
  - unfold has_names in Hn. rewrite dom_insert. set_solver.
  - unfold get_number_of_connections. cbn. rewrite size_union by set_solver. rewrite size_singleton.
    unfold uint32. rewrite Zplus_mod_idemp_l. f_equal. lia.
Qed.

(** A pass connects to some peers, and never to more than wanted. *)
Lemma connect_each_counts l n :
  has_names n -> 0 <= desired_number_of_connections n < 2 ^ 32 ->
  get_number_of_connections n <= desired_number_of_connections n ->
  exists b n', connect_each l n = (Ok b, n') /\ dials n n' /\
    get_number_of_connections n <= get_number_of_connections n' <= desired_number_of_connections n /\
    (b = true -> get_number_of_connections n < get_number_of_connections n').
Proof.
  revert n. induction l as [|r l IH]; intros n Hn Hd Hle; cbn [connect_each].
  { exists false, n. split_and!; try done; by apply dials_refl. }
  unfold run_bind at 1, get, reads at 1.
  destruct (is_wanting_new_connections n) eqn:Ew.
  2: { exists false, n. split_and!; try done; by apply dials_refl. }
  destruct (is_candidate n r) eqn:Ec; [|by apply IH].
  unfold is_candidate in Ec. apply andb_true_iff in Ec as [Ec%negb_true_iff _].
  destruct (connect_to_counts n (peer_endpoint r) Hn Ec) as (n1 & E1 & Hd1 & Hc1).
  apply Z.ltb_lt in Ew. assert (0 <= get_number_of_connections n) by (apply Z.mod_pos_bound; lia).
  unfold uint32 in Hc1. rewrite Z.mod_small in Hc1 by lia.
  destruct (IH n1) as (b & n2 & E2 & Hd2 & Hc2 & _); [by apply Hd1|rewrite (dials_desired _ _ Hd1); lia..|].
  rewrite (dials_desired _ _ Hd1) in Hc2.
  unfold run_bind. rewrite E1, E2. exists true, n2. split_and!; [done|by eapply dials_trans|lia|lia|lia].
Qed.

Lemma connect_while_counts fuel n :
  has_names n -> 0 <= desired_number_of_connections n < 2 ^ 32 ->
  get_number_of_connections n <= desired_number_of_connections n ->
  desired_number_of_connections n - get_number_of_connections n < Z.of_nat fuel ->
  exists n', connect_while_wanting fuel n = (Ok tt, n') /\
    get_number_of_connections n <= get_number_of_connections n' <= desired_number_of_connections n.
Proof.
  revert n. induction fuel as [|fuel IH]; intros n Hn Hd Hle Hf; [lia|]. cbn [connect_while_wanting].
  unfold run_bind at 1, get, reads at 1. destruct (is_wanting_new_connections n); [|exists n; by split].
  rewrite run_modify. set (n1 := n <| potential_peer_database_updated := false |>).
  destruct (connect_each_counts (by_last_seen_time (potential_peer_db n)) n1 Hn Hd Hle)
    as (b & n2 & E & Hd2 & Hc & Hb).
  unfold run_bind. rewrite E. unfold reads. rewrite (dials_updated _ _ Hd2). cbn [negb].
  change (potential_peer_database_updated n1) with false.
  change (get_number_of_connections n1) with (get_number_of_connections n) in *.
  destruct b; cbn; [|by exists n2].
  specialize (Hb eq_refl). pose proof (dials_desired _ _ Hd2) as Ed.
  change (desired_number_of_connections n1) with (desired_number_of_connections n) in *.
  destruct (IH n2) as (n3 & E3 & Hc3); [by apply Hd2|lia..|]. exists n3. split; [done|lia].
Qed.

(** C20: The loop that connects to known peers ends, whatever the database of peers, and
    never makes more connections than wanted. *)
Theorem connecting_ends n :
  handshaking_connections n ⊆ dom (peers n) -> 0 <= desired_number_of_connections n < 2 ^ 32 ->
  exists n', connect_candidates n = (Ok [sleep; connect_turn], n') /\
    (get_number_of_connections n <= desired_number_of_connections n ->
     get_number_of_connections n <= get_number_of_connections n' <= desired_number_of_connections n) /\
    (desired_number_of_connections n < get_number_of_connections n -> n' = n).
Proof.
  intros Hn Hd. unfold connect_candidates. unfold run_bind at 1, get, reads at 1.
  destruct (Z.le_gt_cases (get_number_of_connections n) (desired_number_of_connections n)) as [Hle|Hgt].
  - assert (0 <= get_number_of_connections n) by (apply Z.mod_pos_bound; lia).
    destruct (connect_while_counts (S (Z.to_nat (desired_number_of_connections n))) n Hn Hd Hle ltac:(lia))
      as (n' & E & Hc).
    unfold run_bind. rewrite E. exists n'. split; [done|]. split; [done|lia].
  - exists n. cbn [connect_while_wanting]. unfold run_bind, get, reads, ret.
    unfold is_wanting_new_connections. destruct (Z.ltb_spec (get_number_of_connections n)
      (desired_number_of_connections n)); [lia|]. split; [done|]. split; [lia|done].
Qed.

(** ** Becoming active *)
Lemma merge_keeps_peers l n :
  exists b n', merge_address_info_with_potential_peer_database l n = (Ok b, n') /\ peers n' = peers n.
Proof.
  revert n. induction l as [|a l IH]; intros n; cbn [merge_address_info_with_potential_peer_database].
  { by exists false, n. }
  unfold run_bind at 1, get, reads at 1. unfold update_db. rewrite run_modify.
  match goal with |- context [run_bind _ _ ?n1] => destruct (IH n1) as (b & n2 & E & Ep) end.
  unfold run_bind. rewrite E. by eexists _, n2.
Qed.

Lemma fetch_keeps_active p n r n' :
  fetch_next_batch_of_item_ids_from_peer p n = (r, n') -> active_connections n' = active_connections n.
Proof.
  unfold fetch_next_batch_of_item_ids_from_peer. rewrite run_reads.
  destruct (create_blockchain_synopsis_for_peer n (peer_of n p)); by intros [= _ <-].
Qed.
Lemma activated p n r n' :
  activate p n = (r, n') -> returned r -> p ∈ active_connections n' /\ exists u, r = Ok u.
Proof.
  unfold activate, run_bind, get, reads, update_db, modify, ret, deref. destruct (is_true _).
  - destruct (remote_endpoint _); cbn; intros [= <- <-] Hret; [|done]. split; [set_solver|by eexists].
  - intros [= <- <-] _. split; [set_solver|by eexists].
Qed.

Lemma address_message_activates p l n r n' :
  state (peer_of n p) <> rejected -> on_address_message p l n = (r, n') -> returned r ->
  p ∈ active_connections n'.
Proof.
  intros Hs Hr Hret. unfold on_address_message in Hr.
  destruct (merge_keeps_peers l n) as (b & n1 & E & Ep). unfold run_bind at 1 in Hr. rewrite E in Hr.
  assert (Hr' : (if bool_decide (state (peer_of n1 p) = rejected) then disconnect_from_peer p false
    else let! _ := activate p in start_synchronizing_with_peer p)
    (if b then n1 <| potential_peer_database_updated := true |> else n1) = (r, n')) by by destruct b.
  unfold peer_of in Hr', Hs. rewrite Ep in Hr'. rewrite bool_decide_false in Hr' by done.
  unfold run_bind in Hr'. destruct (activate p _) as [[u|e] n2] eqn:Ea.
  - apply activated in Ea as [Hp _]; [|done]. unfold start_synchronizing_with_peer, set_peer in Hr'.
    rewrite run_modify in Hr'. apply fetch_keeps_active in Hr'. by rewrite Hr'.
  - injection Hr' as <- <-. by apply activated in Ea as [? [? [=]]].
Qed.

(** Whoever sends an address message becomes an active connection, in whatever state
    the connection is, except for an outbound peer that refused this node: also a peer that
    never said hello, or that was refused as it is not among the allowed peers, is connected
    already, or is one too many. *)
Theorem address_activates n p addresses op n' :
  handle (delivered p (address addresses)) n = Some op -> op n = (Ok tt, n') ->
  state (peer_of n p) <> rejected -> p ∈ active_connections n'.
Proof.
  cbn [handle]. destruct (fibers n !! reader p) as [[|]|]; try done. intros [= <-] Hr Hs.
  unfold set_peer in Hr. rewrite run_modify in Hr. cbn [on_message] in Hr.
  set (n1 := n <| peers ::= _ |>) in Hr. unfold step_fiber in Hr.
  assert (Hs1 : state (peer_of n1 p) <> rejected).
  { unfold n1. rewrite peer_of_insert, decide_True by done. exact Hs. }
  destruct (on_address_message p addresses n1) as [[ts|e] n2] eqn:E.
  - injection Hr as <-. exact (address_message_activates p addresses n1 _ n2 Hs1 E I).
  - destruct (is_fc_exception e) eqn:Ee; [|done]. injection Hr as <-.
    exact (address_message_activates p addresses n1 _ n2 Hs1 E Ee).
Qed.
End NodeConnecting.
