(* ===== verification/Client.v ===== *)
(** The client as the delegate of the network node: [client_impl] of [client.cpp] over the
    chain. What it stores of the exceptions it catches, and what it displays, is left out. *)
From S2P Require Import Prelude.
From S2P Require Export Chain Genesis Node.

(** Whether the program is built with its [assert]s. *)
Class Build := { keeps_asserts : bool }.
Definition c_assert `{Build} (b : bool) : result unit :=
  throw_if (keeps_asserts && negb b) aborted.

Section Client.
Context `{FC : Fc} `{FT : FcTransaction} `{FBl : FcBlock} `{FO : FcOperations} `{FB : FcBigint}.
Context `{Build}.
Implicit Types (c : chain) (b : full_block).

(** ** Of [chain_database.cpp] *)
Definition get_head_block_num c : Z := block_num (head_block_header (db c)).
Definition get_block_num c (id : Z) : result Z :=
  if id =? 0 then Ok 0
  else let* r := fetch id (block_id_to_block_record_db c) : result block_record in Ok (block_num r).
(** [get_block( uint32_t )]. *)
Definition get_block_at c (num : Z) : result full_block :=
  let* id := fetch num (block_num_to_id_db c) in get_block c id.

(** [try r catch( const fc::key_not_found_exception& ) h]. *)
Definition catch_key_not_found {A} (r h : result A) : result A :=
  match r with Throw key_not_found => h | _ => r end.

(** ** Messages *)
Definition push_new b (sync_mode : bool) : run chain block_fork_data :=
  let! result := push_block b in
  if sync_mode && negb (is_linked result) then raise unlinkable_block else ret result.
(** [on_new_block]: what is known is found by the id that came with the block. *)
Definition on_new_block b (block_id : Z) (sync_mode : bool) : run chain block_fork_data :=
  let! fork_data := reads (fun c => Ok (get_block_fork_data c block_id)) in
  match fork_data with
  | Some f =>
      if is_known f then
        if sync_mode && negb (is_linked f) then raise unlinkable_block else ret f
      else push_new b sync_mode
  | None => push_new b sync_mode
  end.
Definition on_new_transaction (t : signed_transaction) : run chain unit :=
  let! _ := store_pending_transaction t in ret tt.

Definition client_handle_message (m : message) (sync_mode : bool) : run chain bool :=
  match m with
  | block b =>
      let! old_head_block := reads (fun c => Ok (head_block_id c)) in
      let! fork_data := on_new_block (message_block b) (message_block_id b) sync_mode in
      ret (xorb (is_included fork_data) (previous (message_block b) =? old_head_block))
  | trx t => let! _ := on_new_transaction t in ret false
  | _ => ret false
  end.

(** ** Items *)
Definition client_has_item c (id : item_id) : bool :=
  if item_type id =? block_message_type then is_known_block c (item_hash id)
  else if item_type id =? trx_message_type then is_known_transaction (db c) (item_hash id)
  else false.

(** [get_item]: for a transaction it looks into [_pending_trxs], which nothing is ever put
    into, and throws in any case. *)
Definition client_get_item c (id : item_id) : result message :=
  if item_type id =? block_message_type then
    let* b := get_block c (item_hash id) in
    let* _ := FC_ASSERT (item_hash id =? block_id b) in
    Ok (block (BlockMessage b (block_id b)))
  else Throw key_not_found.

(** The loop over the reversed synopsis in [get_item_ids]. *)
Fixpoint last_seen_block c (reversed_synopsis : list Z) : result Z :=
  match reversed_synopsis with
  | [] => Ok 1
  | item_hash :: rest =>
      let* found := catch_key_not_found
        (let* block_num := get_block_num c item_hash in
         Ok (if is_included_block c item_hash then Some block_num else None)) (Ok None) in
      match found with
      | Some block_num => Ok block_num
      | None => last_seen_block c rest
      end
  end.
(** The loop over the blocks from [block_num] on. *)
Fixpoint block_ids_from c (block_num : Z) (items : nat) : result (list Z) :=
  match items with
  | O => Ok []
  | S items =>
      let* header := catch_key_not_found
        (let* b := get_block_at c block_num in Ok (full_header b))
        (let* _ := c_assert false in Ok new_header) in
      let* ids := block_ids_from c (uint32 (block_num + 1)) items in
      Ok (block_id header :: ids)
  end.
Definition item_ids_limit : Z := 2000.
Definition client_get_item_ids c (type : Z) (blockchain_synopsis : list Z) : result (list Z * Z) :=
  let* _ := FC_ASSERT (type =? block_message_type) in
  let* last_seen_block_num := last_seen_block c (rev blockchain_synopsis) in
  let head_block_num := get_head_block_num c in
  if head_block_num =? 0 then Ok ([], 0)
  else
    let* last_seen_block_num :=
      if head_block_num <? last_seen_block_num
      then let* _ := c_assert false in Ok head_block_num
      else Ok last_seen_block_num in
    let remaining_item_count := uint32 (head_block_num - last_seen_block_num + 1) in
    let items := Z.min item_ids_limit remaining_item_count in
    let* hashes := block_ids_from c last_seen_block_num (Z.to_nat items) in
    Ok (hashes, uint32 (remaining_item_count - items)).

(** ** [get_blockchain_synopsis] *)
Record summary := Summary {
  high_block_num : Z; non_fork_high_block_num : Z; fork_history : list Z }.
(** Up to where the synopsis goes; [None] is an early return of an empty one. *)
Definition fork_summary c (reference_point : Z) : result summary :=
  let* fork_history := get_fork_history c reference_point in
  let* _ := c_assert (2 <=? Z.of_nat (length fork_history)) in
  let* _ := c_assert (bool_decide (head fork_history = Some reference_point)) in
  let last_non_fork_block := List.last fork_history 0 in
  let fork_history := rev (removelast fork_history) in
  let* non_fork_high_block_num := catch_key_not_found
    (let* num := get_block_num c last_non_fork_block in
     let* _ := c_assert (0 <? num) in Ok num)
    (let* _ := c_assert false in Ok 0) in
  let high_block_num := uint32 (non_fork_high_block_num + Z.of_nat (length fork_history)) in
  let* _ :=
    if keeps_asserts then
      let* h := get_block_header c (List.last fork_history 0) in
      c_assert (high_block_num =? block_num h)
    else Ok tt in
  Ok (Summary high_block_num non_fork_high_block_num fork_history).
Definition summarize c (reference_point : Z) : result (option summary) :=
  if reference_point =? 0 then
    let num := get_head_block_num c in
    Ok (if num =? 0 then None else Some (Summary num num []))
  else if is_included_block c reference_point then
    catch_key_not_found
      (let* num := get_block_num c reference_point in
       let* _ := c_assert (0 <? num) in
       Ok (Some (Summary num num [])))
      (let* _ := c_assert false in Ok None)
  else
    match fork_summary c reference_point with
    | Ok s => Ok (Some s)
    | Throw e => if is_fc_exception e then Ok None else Throw e
    end.

Definition synopsis_entry c (s : summary) (low_block_num : Z) : result (list Z) :=
  if low_block_num <=? non_fork_high_block_num s then
    let* b := get_block_at c low_block_num in Ok [block_id b]
  else list_at (fork_history s) (low_block_num - non_fork_high_block_num s - 1).
Definition client_get_blockchain_synopsis c (type reference_point after : Z) : result (list Z) :=
  let* _ := FC_ASSERT (type =? block_message_type) in
  let* s := summarize c reference_point in
  match s with
  | None => Ok []
  | Some s =>
      let true_high_block_num := uint32 (high_block_num s + after) in
      synopsis_loop (synopsis_entry c s) true_high_block_num (high_block_num s)
        (S (Z.to_nat (high_block_num s))) 1
  end.

#[export] Instance client : NodeDelegate chain := {
  has_item := client_has_item;
  handle_message := client_handle_message;
  get_item_ids := client_get_item_ids;
  get_item := client_get_item;
  get_chain_id := chain_id;
  get_blockchain_synopsis := client_get_blockchain_synopsis;
  get_block_number := get_block_num;
  set_clock t c := with_db (db_with_clock t (db c)) c
}.

(** ** Producing blocks *)
(** A turn of [delegate_loop] when it is time for a block: what the client does before the
    block is broadcast. [sign] is [sign_block] of the wallet. *)
Definition produce_block (sign : full_block -> full_block) (time : Z) : run chain full_block :=
  let! next_block := reads (fun c => generate_block c time) in
  let next_block := sign next_block in
  let! _ := on_new_block next_block (block_id next_block) false in
  ret next_block.
End Client.
