(* ===== verification/ClientSync.v ===== *)
(** What the client tells the network about its chain: the ids after the last block of a
    synopsis that is on the chain, and synopses. *)
From stdpp Require Import relations.
From S2P Require Import Prelude.
From S2P Require Export Client History.

Section Official.
Context `{FC : Fc} `{FT : FcTransaction} `{FBl : FcBlock} `{FO : FcOperations} `{FB : FcBigint}.
Context `{Build}.
Implicit Types (c : chain) (b : full_block).

(** The ids of the blocks of the chain, the first one first. *)
Definition official c : list Z :=
  map (fun k => default 0 (block_num_to_id_db c !! Z.of_nat k)) (seq 1 (Z.to_nat (get_head_block_num c))).
(** A list from an element on. *)
Fixpoint since (id : Z) (l : list Z) : list Z :=
  match l with
  | [] => []
  | x :: rest => if x =? id then l else since id rest
  end.

Lemma elem_of_rev {A} (x : A) l : x ∈ rev l <-> x ∈ l.
Proof. rewrite !list_elem_of_In. symmetry. apply List.in_rev. Qed.

Context (U : signed_block_header -> Prop) (parent rank : Z -> Z) (HU : ids_ok U parent rank).
Context (G : ledger).
Notation history := (history U).
Notation chain_ok := (chain_ok U parent rank G).

Lemma history_nth undo bs id h L i b :
  history G undo bs id h L -> Z.of_nat (length bs) < 2 ^ 32 -> rev bs !! i = Some b ->
  block_num b = Z.of_nat i + 1.
Proof.
  induction 1 as [h Hh|bs c b0 s u Hh IH Hb Hv Hs Hu Ho Hl]; intros Hlen Hi; [done|].
  cbn [rev length] in *. apply lookup_app_Some in Hi as [Hi|[Hle Hi]]; [apply IH; [lia|done]|].
  apply list_lookup_singleton_Some in Hi as [Hi <-]. rewrite length_rev in *.
  rewrite (verify_header_num c b0 Hv), (history_num U G _ _ _ _ _ Hh). unfold uint32.
  rewrite Zplus_mod_idemp_l, Z.mod_small; lia.
Qed.
Lemma history_NoDup undo bs id h L : history G undo bs id h L -> NoDup (map (fun b => block_id b) bs).
Proof.
  induction 1 as [h Hh|bs c b0 s u Hh IH Hb Hv Hs Hu Ho Hl]; [constructor|]. constructor; [|done].
  intros (b & E & Hin)%list_elem_of_fmap. by eapply (history_fresh U parent rank HU).
Qed.

Record main_chain c (bs : list full_block) : Prop := {
  main_length : get_head_block_num c = Z.of_nat (length bs) /\ Z.of_nat (length bs) + 1 < 2 ^ 32;
  main_official : official c = rev (map (fun b => block_id b) bs);
  main_NoDup : NoDup (official c);
  main_block k id : official c !! k = Some id <-> block_num_to_id_db c !! (Z.of_nat k + 1) = Some id;
  main_zero : block_num_to_id_db c !! 0 = None;
  main_included id : is_included_block c id = true <-> id = 0 \/ id ∈ official c;
  main_record k id : official c !! k = Some id -> id <> 0 /\
    exists r : block_record, block_id_to_block_record_db c !! id = Some r /\ block_id r = id /\
      block_num r = Z.of_nat k + 1
}.

Lemma nums_nth undo bs id h L (nums : gmap Z Z) i :
  history G undo bs id h L -> Z.of_nat (length bs) < 2 ^ 32 ->
  (forall num id, nums !! num = Some id <-> exists b, b ∈ bs /\ block_num b = num /\ block_id b = id) ->
  nums !! (Z.of_nat i + 1) = (fun b => block_id b) <$> rev bs !! i.
Proof.
  intros Hh Hlen Hn. apply option_eq. intros x. rewrite Hn, fmap_Some. split.
  - intros (b & Hin & Eb & <-). exists b. split; [|done].
    assert (Hin' : b ∈ rev bs) by (by apply elem_of_rev).
    apply list_elem_of_lookup in Hin' as [j Hj]. rewrite (history_nth _ _ _ _ _ j b Hh Hlen Hj) in Eb.
    by assert (i = j) as -> by lia.
  - intros (b & Hb & ->). exists b. split_and!; [|by eapply history_nth|done].
    apply elem_of_rev. by eapply list_elem_of_lookup_2.
Qed.

Lemma chain_main c :
  chain_ok c -> Z.of_nat (size (block_id_to_block_record_db c)) + 1 < 2 ^ 32 -> exists bs, main_chain c bs.
Proof.
  intros [_ Hrec (bs & Hh & Hn & Hi & Hr)] Hsize. exists bs.
  pose proof (history_NoDup _ _ _ _ _ Hh) as Hnd.
  assert (Hlen' : Z.of_nat (length bs) + 1 < 2 ^ 32).
  { enough (length bs <= size (block_id_to_block_record_db c))%nat by lia.
    rewrite <- size_dom, <- (length_map (fun b => block_id b) bs), <- (size_list_to_set (C := gset Z)) by done.
    apply subseteq_size. intros id (b & -> & Hin)%elem_of_list_to_set%list_elem_of_fmap.
    by apply elem_of_dom, Hr. }
  assert (Hlen : Z.of_nat (length bs) < 2 ^ 32) by lia. specialize (Hn Hlen).
  assert (Hnum : get_head_block_num c = Z.of_nat (length bs)).
  { unfold get_head_block_num. rewrite (history_num U G _ _ _ _ _ Hh). unfold uint32.
    rewrite Z.mod_small; lia. }
  assert (Hnth : forall i, block_num_to_id_db c !! (Z.of_nat i + 1) =
    rev (map (fun b => block_id b) bs) !! i).
  { intros i. rewrite (nums_nth _ _ _ _ _ _ i Hh Hlen Hn), <- map_rev. symmetry. apply list_lookup_fmap. }
  assert (Hoff : official c = rev (map (fun b => block_id b) bs)).
  { apply list_eq. intros i. unfold official. rewrite Hnum, Nat2Z.id.
    destruct (decide (i < length bs)%nat) as [Hlt|Hge].
    - rewrite (list_lookup_fmap _ (seq 1 (length bs))), lookup_seq_lt by done. cbn [fmap option_fmap option_map].
      replace (Z.of_nat (1 + i)) with (Z.of_nat i + 1) by lia. rewrite Hnth.
      destruct (rev _ !! i) eqn:E; [done|]. apply lookup_ge_None in E. rewrite length_rev, length_map in E. lia.
    - rewrite !lookup_ge_None_2; [done|rewrite length_rev, length_map; lia|
        rewrite length_map, length_seq; lia]. }
  assert (Hin : forall id, id ∈ official c <-> exists b, b ∈ bs /\ block_id b = id).
  { intros id. rewrite Hoff, elem_of_rev, list_elem_of_fmap. naive_solver. }
  constructor.
  - done.
  - done.
  - rewrite Hoff. apply NoDup_ListNoDup, NoDup_rev. by apply NoDup_ListNoDup.
  - intros k id. by rewrite Hoff, Hnth.
  - apply eq_None_not_Some. intros [id (b & Hb & Eb & _)%Hn].
    pose proof (history_nums U G _ _ _ _ _ b Hh Hlen Hb). lia.
  - intros id. rewrite Hin. apply Hi.
  - intros k id Hk. assert (exists b, b ∈ bs /\ block_id b = id) as (b & Hb & <-).
    { apply Hin. by eapply list_elem_of_lookup_2. }
    destruct (history_ids U parent rank HU _ _ _ _ _ _ b Hh Hb) as [_ HUb].
    split; [by apply (ids_nonzero _ _ _ HU)|]. destruct (Hr b Hb) as [r Er]. exists r.
    destruct (Hrec _ _ Er) as (Ei & HUr & _). split_and!; [done|done|].
    assert (E : digest_header r = full_header b :> signed_block_header)
      by (by apply (ids_injective _ _ _ HU)).
    rewrite Hoff, <- Hnth, Hn in Hk. destruct Hk as (b' & Hb' & <- & Eb).
    destruct (history_ids U parent rank HU _ _ _ _ _ _ b' Hh Hb') as [_ HUb'].
    assert (E' : full_header b = full_header b' :> signed_block_header)
      by (by apply (ids_injective _ _ _ HU)).
    by rewrite E, E'.
Qed.

(** ** Blocks by their number *)
Lemma official_length c bs : main_chain c bs -> Z.of_nat (length (official c)) = get_head_block_num c.
Proof.
  intros Hm. destruct (main_length _ _ Hm) as [En _].
  rewrite (main_official _ _ Hm), length_rev, length_map, En. done.
Qed.
Lemma get_num_official c bs k id :
  main_chain c bs -> official c !! k = Some id -> get_block_num c id = Ok (Z.of_nat k + 1).
Proof.
  intros Hm Hk. destruct (main_record _ _ Hm _ _ Hk) as (H0 & r & Hr & _ & Hn). unfold get_block_num.
  destruct (Z.eqb_spec id 0); [done|]. unfold fetch. rewrite Hr. cbn. by rewrite Hn.
Qed.
Lemma read_transactions (d : chain_database) ids acc :
  let read := foldM (fun trxs trx_id =>
      let* t := get_transaction d trx_id in
      let* t := value_or_throw t unknown_transaction in
      Ok (trxs ++ [record_trx t])) acc ids in
  read = Throw unknown_transaction \/ exists l, read = Ok l.
Proof.
  revert acc. induction ids as [|t ids IH]; intros acc; cbn [foldM]; [right; by eexists|].
  cbn [get_transaction database_interface bind]. destruct (db_get_transaction d t) as [q|];
    cbn [value_or_throw bind]; [apply IH|by left].
Qed.
Lemma get_block_at_official c bs k id :
  main_chain c bs -> official c !! k = Some id ->
  get_block_at c (Z.of_nat k + 1) = Throw unknown_transaction \/
  exists b, get_block_at c (Z.of_nat k + 1) = Ok b /\ block_id b = id.
Proof.
  intros Hm Hk. destruct (main_record _ _ Hm _ _ Hk) as (H0 & r & Hr & Hid & _).
  apply (main_block _ _ Hm) in Hk. unfold get_block_at, fetch. rewrite Hk. cbn [value_or_throw bind].
  unfold get_block, fetch. rewrite Hr. cbn [value_or_throw bind].
  destruct (read_transactions (db c) (user_transaction_ids r) []) as [->|[l ->]]; [by left|right].
  eexists. by split.
Qed.

Lemma block_ids_official c bs k n :
  main_chain c bs -> (k + n <= length (official c))%nat ->
  block_ids_from c (Z.of_nat k + 1) n = Throw unknown_transaction \/
  block_ids_from c (Z.of_nat k + 1) n = Ok (take n (drop k (official c))).
Proof.
  intros Hm. revert k. induction n as [|n IH]; intros k Hk; [by right|].
  destruct (lookup_lt_is_Some_2 (official c) k) as [id Hid]; [lia|].
  cbn [block_ids_from]. destruct (get_block_at_official c bs k id Hm Hid) as [E|(b & E & Eb)]; rewrite E;
    cbn [bind catch_key_not_found]; [by left|].
  pose proof (official_length c bs Hm) as El. destruct (main_length _ _ Hm) as [En Hlt].
  destruct n as [|n]; [right; cbn; rewrite (drop_S _ _ _ Hid); cbn; by rewrite Eb|].
  replace (uint32 (Z.of_nat k + 1 + 1)) with (Z.of_nat (S k) + 1)
    by (unfold uint32; rewrite Z.mod_small; lia).
  destruct (IH (S k) ltac:(lia)) as [->| ->]; [by left|right]. cbn [bind].
  rewrite (drop_S _ _ _ Hid). cbn [take]. by rewrite Eb.
Qed.

Lemma since_nth l k id : NoDup l -> l !! k = Some id -> since id l = drop k l.
Proof.
  intros Hd. revert k. induction Hd as [|x l Hx Hd IH]; intros k Hk; [done|]. cbn [since].
  destruct k as [|k]; cbn in Hk.
  - injection Hk as ->. by rewrite Z.eqb_refl.
  - destruct (Z.eqb_spec x id) as [->|Hne]; [by apply list_elem_of_lookup_2 in Hk|]. by apply IH.
Qed.

Lemma last_seen_official c bs l :
  main_chain c bs ->
  match List.find (is_included_block c) l with
  | None => last_seen_block c l = Ok 1
  | Some id => id = 0 /\ last_seen_block c l = Ok 0 \/
      exists k, official c !! k = Some id /\ last_seen_block c l = Ok (Z.of_nat k + 1)
  end.
Proof.
  intros Hm. induction l as [|id l IH]; [done|]. cbn [List.find last_seen_block].
  destruct (is_included_block c id) eqn:Ei.
  - apply (main_included _ _ Hm) in Ei as [->|Ei]; [by left|right].
    apply list_elem_of_lookup in Ei as [k Hk]. exists k. split; [done|].
    by rewrite (get_num_official c bs k id Hm Hk).
  - unfold get_block_num, fetch. destruct (id =? 0); [exact IH|].
    destruct (block_id_to_block_record_db c !! id); exact IH.
Qed.

(** What [get_item_ids] returns from the block number [n] on. *)
Definition reply_from c (n : Z) : result (list Z * Z) :=
  let remaining_item_count := uint32 (get_head_block_num c - n + 1) in
  let items := Z.min item_ids_limit remaining_item_count in
  let* hashes := block_ids_from c n (Z.to_nat items) in
  Ok (hashes, uint32 (remaining_item_count - items)).
Definition answers (rest : list Z) (r : result (list Z * Z)) : Prop :=
  match r with
  | Ok (ids, remaining) =>
      ids = take 2000 rest /\ remaining = Z.of_nat (length rest) - Z.of_nat (length ids)
  | Throw e => e = unknown_transaction
  end.
Lemma reply_official c bs k :
  main_chain c bs -> (k < length (official c))%nat ->
  answers (drop k (official c)) (reply_from c (Z.of_nat k + 1)).
Proof.
  intros Hm Hk. pose proof (official_length c bs Hm) as El. destruct (main_length _ _ Hm) as [En Hlt].
  unfold reply_from, item_ids_limit. rewrite <- El.
  replace (uint32 (Z.of_nat (length (official c)) - (Z.of_nat k + 1) + 1))
    with (Z.of_nat (length (drop k (official c))))
    by (unfold uint32; rewrite length_drop, Z.mod_small; lia).
  set (rest := drop k (official c)).
  replace (Z.to_nat (2000 `min` Z.of_nat (length rest))) with (Nat.min 2000 (length rest)) by lia.
  destruct (block_ids_official c bs k (Nat.min 2000 (length rest)) Hm) as [->| ->]; [|done|].
  { unfold rest. rewrite length_drop. lia. }
  cbn [bind answers]. fold rest.
  assert (E : take (Nat.min 2000 (length rest)) rest = take 2000 rest).
  { destruct (Nat.min_spec 2000 (length rest)) as [[_ ->]|[Hle ->]]; [done|].
    by rewrite !take_ge. }
  rewrite E. split; [done|]. unfold uint32. rewrite length_take, Z.mod_small; [lia|].
  unfold rest. rewrite length_drop. lia.
Qed.

(** C11: The answer to a synopsis: from the last block of the synopsis that is on the
    official chain, or else from the first block on, the ids of up to 2000 blocks of the
    chain and the number of the remaining ones, unless a block cannot be read back as a
    transaction is missing ([unknown_transaction] is thrown). The block of the synopsis is itself
    the first of them, as [on_fetch_blockchain_item_ids_message] in [node.cpp] relies on, while the
    comment in [node.hpp] speaks of the ids after it. When the last one found is the id 0 of
    the genesis, the program ends on an assertion, if it was built with them; of a build
    without nothing is said here. *)
Theorem get_item_ids_spec c synopsis :
  chain_ok c -> Z.of_nat (size (block_id_to_block_record_db c)) + 1 < 2 ^ 32 -> official c <> [] ->
  let reply := client_get_item_ids c block_message_type synopsis in
  match List.find (is_included_block c) (rev synopsis) with
  | Some id =>
      if id =? 0 then keeps_asserts = true -> reply = Throw aborted
      else answers (since id (official c)) reply
  | None => answers (official c) reply
  end.
Proof.
  intros Hc Hsize Hne reply. destruct (chain_main c Hc Hsize) as [bs Hm].
  pose proof (last_seen_official c bs (rev synopsis) Hm) as Hl.
  pose proof (official_length c bs Hm) as El. destruct (main_length _ _ Hm) as [En Hlt].
  assert (Hpos : (0 < length (official c))%nat) by (destruct (official c); [done|cbn; lia]).
  assert (Hfrom : forall k, (k < length (official c))%nat -> last_seen_block c (rev synopsis) = Ok (Z.of_nat k + 1) ->
    reply = reply_from c (Z.of_nat k + 1)).
  { intros k Hk E. unfold reply, client_get_item_ids. rewrite Z.eqb_refl. cbn [FC_ASSERT throw_if negb bind].
    rewrite E. cbn [bind]. destruct (Z.eqb_spec (get_head_block_num c) 0); [lia|].
    destruct (Z.ltb_spec (get_head_block_num c) (Z.of_nat k + 1)); [lia|]. done. }
  destruct (List.find _ _) as [id|].
  - destruct (Z.eqb_spec id 0) as [->|H0].
    + destruct Hl as [[_ E]|(k & Hk & _)]; [|by apply (main_record _ _ Hm) in Hk as [[] _]].
      intros Hka. unfold reply, client_get_item_ids. rewrite Z.eqb_refl. cbn [FC_ASSERT throw_if negb bind].
      rewrite E. cbn [bind]. destruct (Z.eqb_spec (get_head_block_num c) 0); [lia|].
      destruct (Z.ltb_spec (get_head_block_num c) 0); [lia|]. cbn [bind].
      replace (uint32 _) with (get_head_block_num c + 1) by (unfold uint32; rewrite Z.mod_small; lia).
      destruct (Z.to_nat (item_ids_limit `min` (get_head_block_num c + 1))) as [|items] eqn:Ei;
        [unfold item_ids_limit in Ei; lia|].
      cbn [block_ids_from]. unfold get_block_at, fetch. rewrite (main_zero _ _ Hm).
      cbn [value_or_throw bind catch_key_not_found]. unfold c_assert. by rewrite Hka.
    + destruct Hl as [[-> _]|(k & Hk & E)]; [done|]. apply lookup_lt_Some in Hk as Hlk.
      rewrite (Hfrom k Hlk E), (since_nth _ k id (main_NoDup _ _ Hm) Hk). by eapply reply_official.
  - rewrite (Hfrom 0%nat Hpos Hl). by apply (reply_official c bs 0).
Qed.
End Official.
