(* ===== verification/Synopses.v ===== *)
(** The synopses of chains that the node and the client make together: the blocks they name,
    and how many. *)
From stdpp Require Import sorting.
From S2P Require Import Prelude.
From S2P Require Export ClientSync.

(** ** The numbers of the blocks
    From [low] to half way to the end, and so on, up to the end. *)
Fixpoint synopsis_numbers (true_high : Z) (fuel : nat) (low : Z) : list Z :=
  match fuel with
  | O => []
  | S fuel =>
      let next := low + (true_high - low + 2) / 2 in
      low :: if next <=? true_high then synopsis_numbers true_high fuel next else []
  end.

Section Numbers.
Context (th : Z).

Lemma next_bounds low : low <= th -> low < low + (th - low + 2) / 2 <= th + 1.
Proof. intros Hl. pose proof (Z.div_mod (th - low + 2) 2). pose proof (Z.mod_pos_bound (th - low + 2) 2). lia. Qed.

Lemma numbers_bounds fuel low k : low <= th -> k ∈ synopsis_numbers th fuel low -> low <= k <= th.
Proof.
  revert low. induction fuel as [|fuel IH]; intros low Hl; cbn [synopsis_numbers]; [by intros ?%elem_of_nil|].
  pose proof (next_bounds low Hl). intros [->|Hk]%elem_of_cons; [lia|].
  destruct (Z.leb_spec (low + (th - low + 2) / 2) th) as [Hn|Hn]; [|by apply elem_of_nil in Hk].
  apply IH in Hk; lia.
Qed.
Lemma numbers_sorted fuel low : low <= th -> StronglySorted Z.lt (synopsis_numbers th fuel low).
Proof.
  revert low. induction fuel as [|fuel IH]; intros low Hl; cbn [synopsis_numbers]; constructor.
  - destruct (Z.leb_spec (low + (th - low + 2) / 2) th); [by apply IH|constructor].
  - pose proof (next_bounds low Hl). destruct (Z.leb_spec (low + (th - low + 2) / 2) th) as [Hn|Hn]; [|constructor].
    apply List.Forall_forall. intros k Hk%list_elem_of_In%numbers_bounds; lia.
Qed.

(** The last one is the end. *)
Lemma numbers_last fuel low d :
  low <= th -> th - low < Z.of_nat fuel -> List.last (synopsis_numbers th fuel low) d = th.
Proof.
  revert low. induction fuel as [|fuel IH]; intros low Hl Hf; [lia|]. cbn [synopsis_numbers].
  pose proof (next_bounds low Hl). destruct (Z.leb_spec (low + (th - low + 2) / 2) th) as [Hn|Hn].
  - etransitivity; [|apply (IH (low + (th - low + 2) / 2)); lia]. destruct fuel; [lia|done].
  - cbn. pose proof (Z.div_mod (th - low + 2) 2). pose proof (Z.mod_pos_bound (th - low + 2) 2). lia.
Qed.

(** Every step halves what is left. *)
Lemma numbers_length fuel low :
  low <= th -> th - low < Z.of_nat fuel ->
  Z.of_nat (length (synopsis_numbers th fuel low)) = Z.log2 (th - low + 1) + 1.
Proof.
  revert low. induction fuel as [|fuel IH]; intros low Hl Hf; [lia|]. cbn [synopsis_numbers length].
  pose proof (next_bounds low Hl). set (next := low + (th - low + 2) / 2) in *.
  pose proof (Z.div_mod (th - low + 2) 2 ltac:(lia)) as Hd.
  pose proof (Z.mod_pos_bound (th - low + 2) 2 ltac:(lia)) as Hb.
  destruct (Z.leb_spec next th) as [Hn|Hn].
  - rewrite Nat2Z.inj_succ, IH by lia.
    assert (E : th - next + 1 = (th - low + 1) / 2).
    { unfold next. apply (Z.div_unique _ _ _ ((th - low + 1) mod 2)).
      - left. apply Z.mod_pos_bound. lia.
      - pose proof (Z.div_mod (th - low + 1) 2 ltac:(lia)). 
        pose proof (Z.mod_pos_bound (th - low + 1) 2 ltac:(lia)). lia. }
    rewrite E. rewrite <- (Z.shiftr_div_pow2 _ 1) by lia. rewrite Z.log2_shiftr by lia.
    assert (1 <= Z.log2 (th - low + 1)).
    { apply Z.log2_le_pow2; [lia|]. unfold next in Hn. lia. }
    lia.
  - assert (th = low) as -> by (unfold next in Hn; lia). cbn. replace (low - low + 1) with 1 by lia. done.
Qed.
End Numbers.

(** ** The loop *)
Lemma synopsis_loop_numbers entry (f : Z -> list Z) e (P : Prop) th high fuel fuel' low :
  0 < low <= high -> high <= th -> th + 1 < 2 ^ 32 ->
  high - low < Z.of_nat fuel -> th - low < Z.of_nat fuel' ->
  (forall k, low <= k <= high -> entry k = Ok (f k) \/ entry k = Throw e /\ P) ->
  let r := synopsis_loop entry th high fuel low in
  r = Ok (concat (map f (List.filter (fun k => k <=? high) (synopsis_numbers th fuel' low)))) \/
  r = Throw e /\ P.
Proof.
  revert fuel' low. induction fuel as [|fuel IH]; intros fuel' low Hl Hh Hth Hf Hf' He; [lia|].
  destruct fuel' as [|fuel']; [lia|]. cbn [synopsis_loop synopsis_numbers].
  destruct (He low ltac:(lia)) as [->|[-> HP]]; cbn [bind]; [|by right].
  pose proof (next_bounds th low ltac:(lia)) as Hn.
  assert (Ediv : uint32 (th - low + 2) = th - low + 2) by (unfold uint32; rewrite Z.mod_small; lia).
  rewrite Ediv. set (next := low + (th - low + 2) / 2) in *.
  assert (Enext : uint32 next = next) by (unfold uint32; rewrite Z.mod_small; lia). rewrite Enext.
  cbn [List.filter]. destruct (Z.leb_spec low high); [|lia]. cbn [map concat].
  destruct (Z.leb_spec next high) as [Hle|Hgt].
  - destruct (Z.leb_spec next th); [|lia].
    destruct (IH fuel' next) as [->|[-> HP]]; cbn [bind]; try lia; [|by left|by right].
    intros; apply He; lia.
  - assert (E : List.filter (fun k => k <=? high)
      (if next <=? th then synopsis_numbers th fuel' next else []) = []).
    { destruct (Z.leb_spec next th) as [Hle|]; [|done].
      destruct (List.filter _ _) as [|k l] eqn:E; [done|].
      assert (Hk : In k (List.filter (fun k => k <=? high) (synopsis_numbers th fuel' next)))
        by (rewrite E; by left).
      apply List.filter_In in Hk as [Hk Hk'%Z.leb_le].
      apply list_elem_of_In, numbers_bounds in Hk; lia. }
    rewrite E. cbn. left. by rewrite app_nil_r.
Qed.

(** Up to some number, and from it on. *)
Lemma concat_split (g : Z -> Z) high l :
  StronglySorted Z.lt l ->
  concat (map (fun k => [g k]) (List.filter (fun k => k <=? high) l)) ++
  concat (map (fun k => if high <? k then [g k] else []) l) = map g l.
Proof.
  induction 1 as [|k l Hl IH Hk]; [done|]. cbn [List.filter map concat].
  destruct (Z.leb_spec k high) as [Hle|Hgt]; destruct (Z.ltb_spec high k); try lia.
  - cbn [map concat app]. by rewrite IH.
  - assert (E : List.filter (fun k => k <=? high) l = []).
    { destruct (List.filter _ l) as [|j l'] eqn:E; [done|].
      assert (Hj : In j (List.filter (fun k => k <=? high) l)) by (rewrite E; by left).
      apply List.filter_In in Hj as [Hj Hj'%Z.leb_le]. rewrite List.Forall_forall in Hk.
      specialize (Hk j Hj). lia. }
    rewrite E in *. cbn in *. by rewrite IH.
Qed.

Section Synopses.
Context `{FC : Fc} `{FT : FcTransaction} `{FBl : FcBlock} `{FO : FcOperations} `{FB : FcBigint}.
Context `{Build} `{Uninitialised} `{FcNet}.
Context (U : signed_block_header -> Prop) (parent rank : Z -> Z) (HU : ids_ok U parent rank).
Context (G : ledger).
Notation chain_ok := (chain_ok U parent rank G).
Implicit Types (c : chain) (q : peer_connection).

(** The block of a number of a chain, and its synopsis. *)
Definition nth_block (l : list Z) (num : Z) : Z := List.nth (Z.to_nat (num - 1)) l 0.
Definition synopsis (l : list Z) : list Z :=
  map (nth_block l) (synopsis_numbers (Z.of_nat (length l)) (length l) 1).

Lemma synopsis_ends l :
  l <> [] -> head (synopsis l) = head l /\ List.last (synopsis l) 0 = List.last l 0 /\
  Z.of_nat (length (synopsis l)) = Z.log2 (Z.of_nat (length l)) + 1.
Proof.
  intros Hl. assert (Hlen : (0 < length l)%nat) by (destruct l; [done|cbn; lia]).
  set (ns := synopsis_numbers (Z.of_nat (length l)) (length l) 1).
  split; [|split].
  - destruct l as [|x l]; [done|]. by cbn.
  - assert (E : List.last ns 1 = Z.of_nat (length l)) by (apply numbers_last; lia).
    unfold synopsis. fold ns. assert (Hns : ns <> []) by (unfold ns; by destruct (length l); [lia|]).
    destruct (exists_last Hns) as (ns' & k & Ens). rewrite Ens, last_last in E. subst k.
    rewrite Ens, map_app. cbn [map]. rewrite last_last. unfold nth_block.
    destruct (exists_last Hl) as (l' & x & ->). rewrite last_last, length_app. cbn [length].
    replace (Z.to_nat (Z.of_nat (length l' + 1) - 1)) with (length l') by lia.
    by rewrite nth_middle.
  - unfold synopsis. rewrite length_map, numbers_length by lia. f_equal. f_equal. lia.
Qed.

(** The numbers of a chain of [th] blocks that a synopsis names, up to [k] and after it. *)
Definition numbers (th : Z) : list Z := synopsis_numbers th (Z.to_nat th) 1.
Definition named_until (l : list Z) (th k : Z) : list Z :=
  map (nth_block l) (List.filter (fun i => i <=? k) (numbers th)).
Definition named_after (l : list Z) (k : Z) : list Z :=
  map (nth_block l) (List.filter (fun i => k <? i) (numbers (Z.of_nat (length l)))).

Lemma concat_singletons {A} (g : A -> Z) (f : A -> bool) ns :
  concat (map (fun i => if f i then [g i] else []) ns) = map g (List.filter f ns).
Proof. induction ns as [|i ns IH]; [done|]. cbn. rewrite IH. by destruct (f i). Qed.
Lemma concat_map_singleton {A} (g : A -> Z) ns : concat (map (fun i => [g i]) ns) = map g ns.
Proof. induction ns as [|i ns IH]; [done|]. cbn. by rewrite IH. Qed.

(** The client names the blocks of its chain up to [k], of a chain that goes on. *)
Lemma client_part c bs k after :
  main_chain c bs -> 0 < k <= Z.of_nat (length (official c)) -> 0 <= after -> k + after + 1 < 2 ^ 32 ->
  let r := synopsis_loop (synopsis_entry c (Summary k k [])) (k + after) k (S (Z.to_nat k)) 1 in
  r = Ok (named_until (official c) (k + after) k) \/ r = Throw unknown_transaction /\ True.
Proof.
  intros Hm Hk Ha Hth. unfold named_until. rewrite <- concat_map_singleton.
  apply synopsis_loop_numbers; try lia. intros i Hi.
  unfold synopsis_entry. cbn [non_fork_high_block_num]. destruct (Z.leb_spec i k); [|lia].
  destruct (lookup_lt_is_Some_2 (official c) (Z.to_nat (i - 1))) as [id Hid]; [lia|].
  destruct (get_block_at_official c bs _ id Hm Hid) as [E|(b & E & Eb)];
    replace (Z.of_nat (Z.to_nat (i - 1)) + 1) with i in E by lia; rewrite E; cbn [bind];
    [by right|left]. unfold nth_block. by rewrite (nth_lookup_Some _ _ _ _ Hid), Eb.
Qed.

(** The node names the rest, as if [seen] blocks came before its ids. *)
Lemma node_part (ids : list Z) (seen : Z) :
  0 <= seen -> ids <> [] -> seen + Z.of_nat (length ids) + 1 < 2 ^ 32 ->
  let th := seen + Z.of_nat (length ids) in
  synopsis_loop (fun low => if seen <? low then list_at ids (low - seen - 1) else Ok []) th th
    (S (Z.to_nat th)) 1 = Ok (named_after (replicate (Z.to_nat seen) 0 ++ ids) seen).
Proof.
  intros Hs Hids Hb th. assert (Hl : (0 < length ids)%nat) by (destruct ids; [done|cbn; lia]).
  assert (Elen : Z.of_nat (length (replicate (Z.to_nat seen) 0 ++ ids)) = th)
    by (rewrite length_app, length_replicate; lia).
  destruct (synopsis_loop_numbers (fun low => if seen <? low then list_at ids (low - seen - 1) else Ok [])
    (fun i => if seen <? i then [nth_block (replicate (Z.to_nat seen) 0 ++ ids) i] else []) aborted False th th
    (S (Z.to_nat th)) (Z.to_nat th) 1) as [->|[_ []]]; try lia.
  - intros i Hi. left. destruct (Z.ltb_spec seen i); [|done]. unfold list_at.
    destruct (Z.ltb_spec (i - seen - 1) 0); [lia|].
    destruct (lookup_lt_is_Some_2 ids (Z.to_nat (i - seen - 1))) as [x Hx]; [lia|]. rewrite Hx.
    unfold nth_block. rewrite app_nth2 by (rewrite length_replicate; lia). rewrite length_replicate.
    replace (Z.to_nat (i - 1) - Z.to_nat seen)%nat with (Z.to_nat (i - seen - 1)) by lia.
    by rewrite (nth_lookup_Some _ _ _ _ Hx).
  - unfold named_after. rewrite Elen, concat_singletons. do 3 f_equal.
    apply forallb_filter_id, forallb_forall.
    intros i Hi%list_elem_of_In%numbers_bounds; lia.
Qed.

(** Nothing comes after the end. *)
Lemma named_after_none l : named_after l (Z.of_nat (length l)) = [].
Proof.
  unfold named_after. destruct (List.filter _ _) as [|i r] eqn:Ef; [done|].
  assert (Hi : In i (List.filter (fun i => Z.of_nat (length l) <? i) (numbers (Z.of_nat (length l)))))
    by (rewrite Ef; by left).
  apply List.filter_In in Hi as [Hi Hlt%Z.ltb_lt]. unfold numbers in Hi.
  destruct l as [|x l]; [destruct Hi|]. apply list_elem_of_In, numbers_bounds in Hi; cbn [length] in *; lia.
Qed.

(** *** What is named is part of the chain, in its order *)
Lemma sorted_sublist (l : list Z) (a : Z) ns :
  StronglySorted Z.lt ns -> Forall (fun i => a < i <= a + Z.of_nat (length l)) ns ->
  sublist (map (fun i => List.nth (Z.to_nat (i - a - 1)) l 0) ns) l.
Proof.
  revert a ns. induction l as [|x l IH]; intros a ns Hs Hb.
  { destruct ns as [|i ns]; [done|]. apply Forall_cons_iff in Hb as [Hi _]. cbn in Hi. lia. }
  assert (Hshift : forall ms, Forall (fun i => a + 1 < i <= a + 1 + Z.of_nat (length l)) ms ->
    map (fun i => List.nth (Z.to_nat (i - a - 1)) (x :: l) 0) ms =
    map (fun i => List.nth (Z.to_nat (i - (a + 1) - 1)) l 0) ms).
  { intros ms Hms. apply map_ext_in. intros i Hi. rewrite List.Forall_forall in Hms. specialize (Hms i Hi).
    replace (Z.to_nat (i - a - 1)) with (S (Z.to_nat (i - (a + 1) - 1))) by lia. done. }
  destruct ns as [|i ns]; [apply sublist_nil_l|].
  apply StronglySorted_inv in Hs as [Hs Hi]. apply Forall_cons_iff in Hb as [Hb0 Hb]. cbn [length] in *.
  assert (Hns : Forall (fun j => a + 1 < j <= a + 1 + Z.of_nat (length l)) ns).
  { rewrite List.Forall_forall in *. intros j Hj. specialize (Hb j Hj). specialize (Hi j Hj). lia. }
  destruct (decide (i = a + 1)) as [->|Hne].
  - cbn [map]. rewrite Hshift by done. replace (a + 1 - a - 1) with 0 by lia. cbn [Z.to_nat List.nth].
    apply sublist_skip. by apply IH.
  - rewrite Hshift by (constructor; [lia|done]). apply sublist_cons. apply IH; [by constructor|].
    constructor; [lia|done].
Qed.
Lemma filter_sorted (f : Z -> bool) ns :
  StronglySorted Z.lt ns -> StronglySorted Z.lt (List.filter f ns).
Proof.
  induction 1 as [|i ns Hs IH Hi]; [constructor|]. cbn. destruct (f i); [|done]. constructor; [done|].
  rewrite List.Forall_forall in *. intros j [Hj _]%List.filter_In. by apply Hi.
Qed.

Lemma named_until_sublist l th k :
  0 < th -> k <= Z.of_nat (length l) -> sublist (named_until l th k) l.
Proof.
  intros Hth Hk. unfold named_until, nth_block.
  erewrite map_ext; [apply (sorted_sublist l 0); [apply filter_sorted, numbers_sorted; lia|]|
    intros i; cbn beta; by rewrite Z.sub_0_r].
  apply List.Forall_forall. intros i [Hi Hik%Z.leb_le]%List.filter_In.
  apply list_elem_of_In, numbers_bounds in Hi; lia.
Qed.
Lemma named_after_sublist (front ids : list Z) :
  ids <> [] -> sublist (named_after (front ++ ids) (Z.of_nat (length front))) ids.
Proof.
  intros Hids. assert (Hl : (0 < length ids)%nat) by (destruct ids; [done|cbn; lia]).
  unfold named_after, nth_block, numbers. rewrite length_app.
  set (th := Z.of_nat (length front + length ids)).
  assert (Hb : forall i, In i (List.filter (fun i => Z.of_nat (length front) <? i)
      (synopsis_numbers th (Z.to_nat th) 1)) -> Z.of_nat (length front) < i <= th).
  { intros i [Hi Hik%Z.ltb_lt]%List.filter_In. apply list_elem_of_In, numbers_bounds in Hi; lia. }
  erewrite map_ext_in; [apply (sorted_sublist ids (Z.of_nat (length front)));
    [apply filter_sorted, numbers_sorted; lia|]|].
  - apply List.Forall_forall. intros i Hi%Hb. lia.
  - intros i Hi%Hb. cbn beta. rewrite app_nth2 by lia. f_equal. lia.
Qed.

(** The last number is the end. *)
Lemma named_after_last (front ids : list Z) :
  ids <> [] ->
  List.last (named_after (front ++ ids) (Z.of_nat (length front))) 0 = List.last ids 0 /\
  named_after (front ++ ids) (Z.of_nat (length front)) <> [].
Proof.
  intros Hids. assert (Hl : (0 < length ids)%nat) by (destruct ids; [done|cbn; lia]).
  unfold named_after, numbers. rewrite length_app. set (th := Z.of_nat (length front + length ids)).
  set (ns := synopsis_numbers th (Z.to_nat th) 1).
  assert (E : List.last ns 1 = th) by (apply numbers_last; lia).
  assert (Hns : ns <> []) by (unfold ns; by destruct (Z.to_nat th) eqn:?; [lia|]).
  destruct (exists_last Hns) as (ns' & k & Ens). rewrite Ens, last_last in E. subst k.
  rewrite Ens, filter_app. cbn [List.filter]. destruct (Z.ltb_spec (Z.of_nat (length front)) th); [|lia].
  rewrite map_app. cbn [map]. split; [|by intros []%app_eq_nil].
  rewrite last_last. unfold nth_block. destruct (exists_last Hids) as (l' & x & ->).
  rewrite last_last. replace (Z.to_nat (th - 1)) with (length front + length l')%nat
    by (unfold th; rewrite length_app; cbn; lia).
  rewrite app_nth2 by lia. replace (length front + length l' - length front)%nat with (length l') by lia.
  by rewrite nth_middle.
Qed.

(** The part of the synopsis that the client knows, and the part of the node. *)
Lemma synopsis_split (front ids : list Z) :
  synopsis (front ++ ids) =
    named_until front (Z.of_nat (length (front ++ ids))) (Z.of_nat (length front)) ++
    named_after (front ++ ids) (Z.of_nat (length front)).
Proof.
  set (l := front ++ ids). set (k := Z.of_nat (length front)).
  destruct (decide (l = [])) as [E|Hl].
  { unfold l in *. rewrite E. apply app_eq_nil in E as [-> ->]. done. }
  assert (Hlen : (0 < length l)%nat) by (destruct l; [done|cbn; lia]).
  unfold synopsis, named_after. rewrite <- (Nat2Z.id (length l)) at 2. fold (numbers (Z.of_nat (length l))).
  rewrite <- (concat_split _ k) by (apply numbers_sorted; lia).
  rewrite concat_map_singleton, concat_singletons. f_equal. unfold named_until.
  apply map_ext_in. intros i [Hi Hik%Z.leb_le]%List.filter_In.
  apply list_elem_of_In, numbers_bounds in Hi; [|lia].
  unfold nth_block, l, k in *. by rewrite app_nth1 by lia.
Qed.

Lemma named_until_length l th k :
  0 < th -> Z.of_nat (length (named_until l th k)) <= Z.log2 th + 1.
Proof.
  intros Hth. unfold named_until. rewrite length_map.
  assert (E : Z.of_nat (length (numbers th)) = Z.log2 th + 1).
  { unfold numbers. rewrite numbers_length by lia. f_equal. f_equal. lia. }
  pose proof (filter_length_le (fun i => i <=? k) (numbers th)). lia.
Qed.
Lemma named_after_length l k :
  l <> [] -> Z.of_nat (length (named_after l k)) <= Z.log2 (Z.of_nat (length l)) + 1.
Proof.
  intros Hl. assert (Hlen : (0 < length l)%nat) by (destruct l; [done|cbn; lia]).
  unfold named_after. rewrite length_map.
  assert (E : Z.of_nat (length (numbers (Z.of_nat (length l)))) = Z.log2 (Z.of_nat (length l)) + 1).
  { unfold numbers. rewrite numbers_length by lia. f_equal. f_equal. lia. }
  pose proof (filter_length_le (fun i => k <? i) (numbers (Z.of_nat (length l)))). lia.
Qed.

(** What the client has of the chain of a peer: its main chain up to the last block of the peer
    that it has; as long as there is no such block, all of its main chain. The node has the ids that
    come after it, and a number that it counts up. *)
Definition known_chain c q (front : list Z) : Prop :=
  last_block_delegate_has_seen q = 0 /\ last_block_number_delegate_has_seen q = 0 /\ front = official c \/
  exists k, official c !! k = Some (last_block_delegate_has_seen q) /\ front = take (S k) (official c).

(** The client's part. *)
Lemma client_answers c bs q front after :
  main_chain c bs -> known_chain c q front -> 0 <= after ->
  Z.of_nat (length front) + after + 1 < 2 ^ 32 -> 0 < Z.of_nat (length front) + after ->
  let k := Z.of_nat (length front) in
  let r := client_get_blockchain_synopsis c block_message_type (last_block_delegate_has_seen q) after in
  r = Ok (named_until front (k + after) k) \/ r = Throw unknown_transaction.
Proof.
  intros Hm Hk Ha Hb Hpos k r. subst r. destruct (main_length _ _ Hm) as [En Hlt].
  pose proof (official_length c bs Hm) as El.
  unfold client_get_blockchain_synopsis. rewrite Z.eqb_refl. cbn [FC_ASSERT throw_if negb bind].
  destruct (decide (k = 0)) as [E0|Hk0].
  { left. assert (front = []) as -> by (destruct front; [done|unfold k in E0; cbn in E0; lia]).
    destruct Hk as [(Es & _ & Ef)|(j & Hj & Ef)];
      [|by destruct (official c)].
    unfold summarize. rewrite Es. cbn [Z.eqb].
    assert (En0 : get_head_block_num c = 0) by (rewrite <- Ef in El; cbn in El; lia).
    rewrite En0. cbn [Z.eqb bind]. f_equal. unfold named_until. rewrite E0, Z.add_0_l.
    destruct (List.filter _ _) as [|i l] eqn:E; [done|].
    assert (Hi : In i (List.filter (fun i => i <=? 0) (numbers after))) by (rewrite E; by left).
    apply List.filter_In in Hi as [Hi Hle%Z.leb_le]. apply list_elem_of_In, numbers_bounds in Hi; lia. }
  assert (Hs : summarize c (last_block_delegate_has_seen q) = Ok (Some (Summary k k [])) /\
    k <= Z.of_nat (length (official c)) /\ front = take (Z.to_nat k) (official c)).
  { destruct Hk as [(Es & _ & Ef)|(j & Hj & Ef)].
    - assert (Ek : k = get_head_block_num c) by (unfold k; rewrite Ef; lia).
      unfold summarize. rewrite Es, <- Ek. cbn [Z.eqb]. destruct (Z.eqb_spec k 0); [done|].
      split; [done|]. rewrite <- Ef. split; [unfold k; lia|]. rewrite take_ge; [done|unfold k; lia].
    - apply lookup_lt_Some in Hj as Hlj.
      assert (Ek : k = Z.of_nat j + 1) by (unfold k; rewrite Ef, length_take; lia).
      destruct (main_record _ _ Hm _ _ Hj) as (Hnz & _). unfold summarize.
      destruct (Z.eqb_spec (last_block_delegate_has_seen q) 0); [done|].
      rewrite (proj2 (main_included _ _ Hm _) (or_intror (list_elem_of_lookup_2 _ _ _ Hj))).
      rewrite (get_num_official c bs j _ Hm Hj), <- Ek. cbn [bind]. unfold c_assert.
      destruct (Z.ltb_spec 0 k); [|lia]. cbn [negb]. rewrite andb_false_r. split; [done|]. split; [lia|].
      rewrite Ef. f_equal. lia. }
  destruct Hs as (-> & Hko & Hfront). cbn [bind high_block_num].
  unfold uint32. rewrite Z.mod_small by lia.
  destruct (client_part c bs k after Hm ltac:(lia) Ha Hb) as [->|[-> _]]; [left|by right]. f_equal.
  unfold named_until. apply map_ext_in. intros i [Hi Hik%Z.leb_le]%List.filter_In.
  apply list_elem_of_In, numbers_bounds in Hi; [|lia]. unfold nth_block. rewrite Hfront.
  rewrite <- (take_drop (Z.to_nat k) (official c)) at 1. by rewrite app_nth1 by (rewrite length_take; lia).
Qed.

(** What is sent: the part of the client, then that of the node, whose numbers are those of a chain
    with as many blocks in front as it has counted. *)
Definition sent_synopsis (front ids : list Z) (counted : Z) : list Z :=
  named_until front (Z.of_nat (length front) + Z.of_nat (length ids)) (Z.of_nat (length front)) ++
  match ids with [] => [] | _ => named_after (replicate (Z.to_nat counted) 0 ++ ids) counted end.

Lemma sent_exact front ids counted :
  front ++ ids <> [] -> counted = Z.of_nat (length front) \/ ids = [] ->
  sent_synopsis front ids counted = synopsis (front ++ ids).
Proof.
  intros Hl Hc. rewrite synopsis_split, length_app, Nat2Z.inj_add. unfold sent_synopsis. f_equal.
  assert (E : named_after (replicate (length front) 0 ++ ids) (Z.of_nat (length front)) =
    named_after (front ++ ids) (Z.of_nat (length front))).
  { unfold named_after. rewrite !length_app, length_replicate. apply map_ext_in.
    intros i [Hi Hik%Z.ltb_lt]%List.filter_In. unfold nth_block.
    rewrite !app_nth2 by (rewrite ?length_replicate; lia). by rewrite length_replicate. }
  destruct ids as [|x ids].
  - by rewrite app_nil_r, named_after_none.
  - destruct Hc as [->|[=]]. by rewrite Nat2Z.id.
Qed.

Lemma head_app {A} (a b : list A) : a <> [] -> head (a ++ b) = head a.
Proof. by destruct a. Qed.
Lemma last_app_ne (a b : list Z) : b <> [] -> List.last (a ++ b) 0 = List.last b 0.
Proof.
  intros Hb. destruct (exists_last Hb) as (b' & x & ->). by rewrite app_assoc, !last_last.
Qed.

Lemma sent_ends front ids counted :
  front ++ ids <> [] -> 0 <= counted -> front <> [] \/ counted = 0 ->
  let s := sent_synopsis front ids counted in
  let l := front ++ ids in
  sublist s l /\ head s = head l /\ List.last s 0 = List.last l 0 /\
  Z.of_nat (length s) <= Z.log2 (Z.of_nat (length l)) + Z.log2 (counted + Z.of_nat (length ids)) + 2.
Proof.
  intros Hl Hc Hf s l. set (th := Z.of_nat (length front) + Z.of_nat (length ids)).
  assert (Hth : Z.of_nat (length l) = th) by (unfold l, th; rewrite length_app; lia).
  assert (Hpos : 0 < th) by (rewrite <- Hth; unfold l; destruct (front ++ ids); [done|cbn; lia]).
  pose proof (named_until_sublist front th (Z.of_nat (length front)) Hpos ltac:(lia)) as Hs1.
  pose proof (named_until_length front th (Z.of_nat (length front)) Hpos) as Hs2.
  pose proof (Z.log2_nonneg (counted + Z.of_nat (length ids))) as Hlog.
  destruct (decide (ids = [])) as [E|Hids].
  { unfold s, l in *. rewrite sent_exact by (done || by right).
    destruct (synopsis_ends (front ++ ids) Hl) as (E1 & E2 & E3).
    split; [|split; [done|split; [done|lia]]].
    rewrite synopsis_split. assert (Eth : th = Z.of_nat (length front)) by (unfold th; rewrite E; cbn; lia).
    rewrite Hth, E, !app_nil_r, named_after_none, app_nil_r. done. }
  assert (Es : s = named_until front th (Z.of_nat (length front)) ++
    named_after (replicate (Z.to_nat counted) 0 ++ ids) (Z.of_nat (length (replicate (Z.to_nat counted) 0)))).
  { unfold s, sent_synopsis, th. rewrite length_replicate, Z2Nat.id by done. by destruct ids. }
  destruct (named_after_last (replicate (Z.to_nat counted) 0) ids Hids) as [Hs3 Hs4].
  pose proof (named_after_sublist (replicate (Z.to_nat counted) 0) ids Hids) as Hs5.
  pose proof (named_after_length (replicate (Z.to_nat counted) 0 ++ ids)
    (Z.of_nat (length (replicate (Z.to_nat counted) 0))) ltac:(by intros []%app_eq_nil)) as Hs6.
  rewrite length_app, length_replicate in Hs6. rewrite length_replicate in Hs3, Hs4, Hs5, Es.
  set (after := named_after _ _) in *. rewrite Es. split; [|split; [|split]].
  - by apply sublist_app.
  - destruct (decide (front = [])) as [->|Hne].
    + destruct Hf as [| ->]; [done|]. rewrite <- Es. unfold s, l.
      rewrite sent_exact by (done || by left). by apply synopsis_ends.
    + unfold l. rewrite (head_app front) by done.
      assert (Hh : head (named_until front th (Z.of_nat (length front))) = head front).
      { unfold named_until, numbers. destruct (Z.to_nat th) as [|fuel] eqn:Ef; [lia|].
        cbn [synopsis_numbers List.filter].
        destruct front as [|x front]; [done|]. cbn [length].
        destruct (Z.leb_spec 1 (Z.of_nat (S (length front)))); [|lia]. done. }
      rewrite head_app; [done|]. intros E. rewrite E in Hh. by destruct front.
  - unfold l. by rewrite !last_app_ne.
  - rewrite length_app, Hth. replace (Z.of_nat (Z.to_nat counted + length ids)) with
      (counted + Z.of_nat (length ids)) in Hs6 by lia. lia.
Qed.

(** C10: What the node and the client together send to a peer names blocks of the chain of the peer
    as far as it is known, in order and from its first to its last: the main chain of the client
    up to the last block of the peer that it has, and the ids of the peer after it. They are
    logarithmically many. When the number that the node has counted is that of the block where the
    two parts meet, or the node has no ids, they are exactly its first block, then always the one half
    way to the end, and the last; when it is another one, which happens as the node counts from zero
    ([counted_from_zero]), the part of the node is spaced for a chain with that many blocks in front.
    Nothing is sent, as [unknown_transaction] is thrown, when a block cannot be read back because a
    transaction of it is not stored. A peer whose last seen block is on a fork is not covered. *)
Theorem synopsis_spec (n : node chain) q front :
  let c := delegate n in
  let ids := ids_of_items_to_get q in
  let counted := last_block_number_delegate_has_seen q in
  let l := front ++ ids in
  chain_ok c -> Z.of_nat (size (block_id_to_block_record_db c)) + 1 < 2 ^ 32 ->
  sync_item_type n = block_message_type ->
  known_chain c q front -> l <> [] -> Z.of_nat (length l) + 1 < 2 ^ 32 ->
  0 <= counted -> counted + Z.of_nat (length ids) + 1 < 2 ^ 32 ->
  match create_blockchain_synopsis_for_peer n q with
  | Ok s => s = sent_synopsis front ids counted /\
      sublist s l /\ head s = head l /\ List.last s 0 = List.last l 0 /\
      Z.of_nat (length s) <= Z.log2 (Z.of_nat (length l)) + Z.log2 (counted + Z.of_nat (length ids)) + 2 /\
      (counted = Z.of_nat (length front) \/ ids = [] ->
         s = synopsis l /\ Z.of_nat (length s) = Z.log2 (Z.of_nat (length l)) + 1)
  | Throw e => e = unknown_transaction
  end.
Proof.
  intros c ids counted l Hc Hsize Ht Hk Hl Hb Hcnt Hcb.
  destruct (chain_main U parent rank HU G c Hc Hsize) as [bs Hm].
  assert (Hlen : Z.of_nat (length l) = Z.of_nat (length front) + Z.of_nat (length ids))
    by (unfold l; rewrite length_app; lia).
  assert (Hpos : 0 < Z.of_nat (length l)) by (unfold l in *; destruct (front ++ ids); [done|cbn; lia]).
  assert (Eu : uint32 (Z.of_nat (length ids)) = Z.of_nat (length ids)) by (unfold uint32; rewrite Z.mod_small; lia).
  assert (Hf : front <> [] \/ counted = 0).
  { destruct Hk as [(_ & E & _)|(k & Hj & ->)]; [by right|left].
    destruct (official c); [by apply lookup_lt_Some in Hj; cbn in Hj; lia|done]. }
  pose proof (client_answers c bs q front (Z.of_nat (length ids)) Hm Hk ltac:(lia) ltac:(lia) ltac:(lia)) as Hask.
  cbv zeta in Hask. unfold create_blockchain_synopsis_for_peer. cbn [get_blockchain_synopsis client].
  fold c ids. rewrite Ht, Eu.
  assert (Hgoal : forall s, s = sent_synopsis front ids counted ->
    s = sent_synopsis front ids counted /\
    sublist s l /\ head s = head l /\ List.last s 0 = List.last l 0 /\
    Z.of_nat (length s) <= Z.log2 (Z.of_nat (length l)) + Z.log2 (counted + Z.of_nat (length ids)) + 2 /\
    (counted = Z.of_nat (length front) \/ ids = [] ->
       s = synopsis l /\ Z.of_nat (length s) = Z.log2 (Z.of_nat (length l)) + 1)).
  { intros s ->. pose proof (sent_ends front ids counted Hl Hcnt Hf) as (Hs1 & Hs2 & Hs3 & Hs4).
    split; [done|]. split; [done|]. split; [done|]. split; [done|]. split; [done|]. intros He.
    rewrite sent_exact by done. split; [done|]. by apply synopsis_ends. }
  set (mine := named_until _ _ _) in *.
  destruct Hask as [E|E]; rewrite E; cbn [bind]; [|done].
  assert (Easked : (if negb (last_block_delegate_has_seen q =? 0) && bool_decide (mine = [])
    then Ok mine else Ok mine) = Ok mine) by (by destruct (_ && _)).
  rewrite Easked. cbn [bind].
  destruct (Z.eqb_spec (Z.of_nat (length ids)) 0) as [E0|E0].
  - apply Hgoal. unfold sent_synopsis. destruct ids; [by rewrite app_nil_r|done].
  - assert (Hids : ids <> []) by (by intros Ei; rewrite Ei in E0).
    fold counted. assert (Eth : uint32 (counted + Z.of_nat (length ids)) = counted + Z.of_nat (length ids))
      by (unfold uint32; rewrite Z.mod_small; lia). rewrite Eth.
    rewrite (node_part ids counted Hcnt Hids Hcb). cbn [bind]. apply Hgoal.
    unfold sent_synopsis. by destruct ids.
Qed.
End Synopses.
