(* ===== verification/NodeClient.v ===== *)
(** The network node with the client as its delegate: whatever comes from the network, the
    chain only grows, forks and queues as [push_block] and [store_pending_transaction] let
    it. *)
From stdpp Require Import relations.
From S2P Require Import Prelude Conservation Undo BlockEffects ForkTree History Supply Genesis Origin.
From S2P Require Export Client NodeSafety.

Section NodeClient.
Context `{FC : Fc} `{FT : FcTransaction} `{FBl : FcBlock} `{FO : FcOperations} `{FB : FcBigint}.
Context `{FG : FcGenesis} `{Build} `{FcNet} `{Uninitialised}.
Context (U : signed_block_header -> Prop) (parent rank : Z -> Z) (HU : ids_ok U parent rank).
Implicit Types (c : chain) (b : full_block).

(** A block that is in [U]; transactions may be any. *)
Definition block_in (m : message) : Prop :=
  match m with block b => U (message_block b) | _ => True end.

Lemma on_new_block_reachable b id sync_mode c r c' :
  U b -> on_new_block b id sync_mode c = (r, c') -> returned r -> reachable U c c'.
Proof.
  intros Hb. assert (Hpush : forall r, push_new b sync_mode c = (r, c') -> returned r -> reachable U c c').
  { intros r1. unfold push_new, run_bind. destruct (push_block b c) as [[f|e] c1] eqn:E; intros Hr Hret.
    - apply rtc_once, (step_push U b c (Ok f)); [done| |done].
      destruct (_ && _); by injection Hr as _ <-.
    - injection Hr as <- <-. by apply rtc_once, (step_push U b c (Throw e)). }
  unfold on_new_block. rewrite run_reads. destruct (get_block_fork_data c id) as [f|]; [|apply Hpush].
  destruct (is_known f); [|apply Hpush]. destruct (_ && _); intros [= _ <-] _; constructor.
Qed.

Lemma handle_message_reachable m sync_mode c r c' :
  block_in m -> client_handle_message m sync_mode c = (r, c') -> returned r -> reachable U c c'.
Proof.
  intros Hm. destruct m as [| | | | | | | | | | |b|t|]; cbn [client_handle_message];
    try (intros [= _ <-] _; constructor).
  - rewrite run_reads. unfold run_bind. destruct (on_new_block _ _ _ c) as [[f|e] c1] eqn:E;
      intros [= <- <-] Hret; by eapply on_new_block_reachable.
  - unfold on_new_transaction. rewrite run_assoc. unfold run_bind.
    destruct (store_pending_transaction t c) as [[q|e] c1] eqn:E; intros [= <- <-] Hret;
      apply rtc_once; by eapply step_queue.
Qed.

(** A block that the client makes itself. *)
Lemma produce_block_keeps c0 (sign : full_block -> full_block) time :
  (forall b, U (sign b)) ->
  keeps (reachable U c0) (locally (let! _ := produce_block sign time in ret tt)).
Proof.
  intros Hs c r c' Hr Hret Hc. etransitivity; [exact Hc|]. unfold produce_block in Hr.
  rewrite !run_assoc, run_reads in Hr. destruct (generate_block c time) as [b|e];
    [|injection Hr as _ <-; constructor].
  rewrite run_assoc in Hr. unfold run_bind in Hr.
  destruct (on_new_block _ _ _ c) as [[f|e] c1] eqn:E; injection Hr as <- <-;
    by eapply on_new_block_reachable; [apply Hs|done|].
Qed.

(** The chain of the node only makes its own steps. *)
Lemma network_reachable c id listening stored trace n :
  steps (first_node c id listening stored) trace n ->
  Forall (keeps (reachable U c)) trace ->
  (forall (m : block_message) sync_mode, handled (block m) sync_mode ∈ log n -> U (message_block m)) ->
  reachable U c (delegate n).
Proof.
  intros Hs Hk Hb. eapply (client_steps (reachable U c) block_in); [| |exact Hs|apply sound_first|exact Hk| |constructor].
  - intros t d Hd. etransitivity; [exact Hd|]. apply rtc_once, step_clock.
  - intros m mode d r d' Hm Hh Hret Hd. etransitivity; [exact Hd|].
    exact (handle_message_reachable m mode d r d' Hm Hh Hret).
  - intros m mode Ho. destruct m; try done. by eapply Hb.
Qed.

(** C3: The network cannot harm the ledger. In every run of the node with the client of a
    chain that starts from its genesis, whatever peers connect and send and in whatever order
    the fibers run, the chain is one that pushing blocks, queueing transactions and the
    passing of time lead to, so that its ledger is the one that the valid blocks of its
    official chain build. *)
Theorem network_keeps_ledger cfg start c id listening stored trace n :
  initialize_genesis cfg (new_chain start) = Ok c ->
  steps (first_node c id listening stored) trace n ->
  Forall (keeps (reachable U c)) trace ->
  (forall (m : block_message) sync_mode, handled (block m) sync_mode ∈ log n -> U (message_block m)) ->
  reachable U c (delegate n) /\
  exists bs, history U (ledger_of (db c)) (undo_state_db (delegate n)) bs (head_block_id (delegate n))
    (head_block_header (db (delegate n))) (ledger_of (db (delegate n))).
Proof.
  intros Hc Hs Hk Hb. pose proof (network_reachable c id listening stored trace n Hs Hk Hb) as Hr.
  split; [done|]. pose proof (genesis_chain_ok cfg start U parent rank c Hc) as Hok.
  apply genesis_facts in Hc as (HG & _).
  destruct (reachable_ok U parent rank HU _ c (delegate n) HG Hr Hok) as [_ _ (bs & Hh & _)]. by exists bs.
Qed.
End NodeClient.
