(* ===== verification/NodeStory.v ===== *)
(** A story of the network node with the client of the concrete chain: a peer connects,
    the node fetches the first block from it, a transaction that it offers, and advertises
    another; on which the theorems about the node are applied. A second peer shows how the number
    of the last block that is known is counted ([counted_from_zero]). *)
From stdpp Require Import relations.
From S2P Require Import Prelude Conservation Closure Concrete Undo BlockEffects ForkTree History Supply.
From S2P Require Import Genesis Origin Story NodeSafety NodeFetching NodeClient NodeConnecting Synopses.
#[local] Existing Instance concrete_fc.
#[local] Existing Instance concrete_transaction.
#[local] Existing Instance concrete_block.
#[local] Existing Instance concrete_operations.
#[local] Existing Instance concrete_genesis.
Definition story_net : FcNet := {| message_id m :=
  match m with block b => 7000 + message_block_id b | trx t => 9000 + trx_id t | _ => 0 end |}.
#[local] Existing Instance story_net.
Definition story_build : Build := {| keeps_asserts := true |}.
#[local] Existing Instance story_build.
Definition story_memory : Uninitialised := {| garbage := -1 |}.
#[local] Existing Instance story_memory.

Definition here : endpoint := Endpoint 10 8764.
Definition there : endpoint := Endpoint 20 40000.
Definition start : node chain := first_node c0 99 here ∅.
Definition a1_message : block_message := BlockMessage a1 (block_id a1).
Definition hello_from_20 : message := hello (Hello 1 20 0 40000 55 7).
Definition read (k : nat) : list (event (D := chain)) := repeat (runs (reader 1%nat)) k.
Definition wrote : event (D := chain) := written (reader 1%nat) true.
Definition meeting : list (event (D := chain)) :=
  [ tick 3000000000; called 0 (call_sync_from (ItemId block_message_type 0));
    accepted there here; keys_exchanged 1%nat; delivered 1%nat hello_from_20; wrote;
    delivered 1%nat (fetch_blockchain_item_ids block_message_type []); wrote;
    runs (reader 1%nat); wrote;
    delivered 1%nat (blockchain_item_ids_inventory
      (BlockchainItemIdsInventory 0 block_message_type [block_id a1])) ].
Definition requesting : list (event (D := chain)) :=
  [ runs fetch_sync_items_loop; runs fetch_sync_items_loop ].
Definition requested_it : list (event (D := chain)) := [ written fetch_sync_items_loop true ].
Definition receiving : list (event (D := chain)) :=
  delivered 1%nat (block a1_message) :: read 2 ++ [wrote] ++ read 2.
Definition offering : list (event (D := chain)) :=
  [ delivered 1%nat (blockchain_item_ids_inventory
      (BlockchainItemIdsInventory 0 block_message_type [block_id a1]));
    delivered 1%nat (item_ids_inventory trx_message_type [9000 + trx_id spend]);
    runs fetch_items_loop; written fetch_items_loop true; delivered 1%nat (trx spend) ].
Definition advertising : list (event (D := chain)) :=
  [ called 1 (call_broadcast (other 77 [])); runs advertise_inventory_loop;
    written advertise_inventory_loop true ].
Definition whole : list (event (D := chain)) :=
  meeting ++ requesting ++ requested_it ++ receiving ++ offering ++ advertising.

(** ** Where the runs lead *)
Definition led (trace : list (event (D := chain))) (n : node chain) : node chain := default n (exec trace n).
Definition runs_well (trace : list (event (D := chain))) (n : node chain) : bool :=
  match exec trace n with Some _ => true | None => false end.
Lemma led_steps trace n : runs_well trace n = true -> steps n trace (led trace n).
Proof.
  unfold runs_well, led. destruct (exec trace n) as [n'|] eqn:E; [|done]. intros _. by apply node_exec_steps.
Qed.
Lemma led_step e n : runs_well [e] n = true ->
  exists op, handle e n = Some op /\ op n = (Ok tt, led [e] n).
Proof.
  intros Hs%led_steps. inversion Hs as [|? ? op n1 ? ? Hop Hr Hn]; subst. inversion Hn; subst. by exists op.
Qed.
Lemma whole_steps : steps start whole (led whole start).
Proof. apply led_steps. vm_compute. reflexivity. Qed.

(** A peer that says at which port it can be reached, and connected from there. *)
Definition reachable_peer : list (event (D := chain)) :=
  [ tick 3000000000; accepted there here; keys_exchanged 1%nat;
    delivered 1%nat (hello (Hello 1 20 40000 40000 55 7)); wrote; delivered 1%nat (address []) ].
(** A peer that is refused, as it is not allowed, and sends addresses instead. *)
Definition refused_peer : list (event (D := chain)) :=
  [ tick 3000000000; called 0 (call_set_allowed_peers [77]); accepted there here;
    keys_exchanged 1%nat; delivered 1%nat hello_from_20; wrote ].
(** A node that knows where a peer may be. *)
Definition hopeful : list (event (D := chain)) :=
  [ tick 3000000000; called 0 (call_add_node there) ].

(** ** What the theorems say of it *)
Definition given_log : list output := log (led whole start).
Definition the_block : message := block a1_message.
Definition the_payment : message := trx spend.

(** The block and the transaction were asked for before. *)
Lemma only_what_was_asked_witness :
  (exists k' o, (k' < 6)%nat /\ given_log !! k' = Some o /\ asks_for the_block true o) /\
  (exists k' o, (k' < 11)%nat /\ given_log !! k' = Some o /\ asks_for the_payment false o).
Proof.
  split.
  - apply (only_what_was_asked c0 99 here ∅ whole (led whole start) 6 the_block true whole_steps).
    vm_compute. reflexivity.
  - apply (only_what_was_asked c0 99 here ∅ whole (led whole start) 11 the_payment false whole_steps).
    vm_compute. reflexivity.
Defined.

Lemma advertised_once_witness :
  NoDup (advertisements given_log) /\ advertisements given_log = [(1%nat, ItemId 77 0)].
Proof.
  split; [|vm_compute; reflexivity].
  exact (advertised_once c0 99 here ∅ whole (led whole start) whole_steps).
Defined.

Lemma requested_once_witness :
  NoDup (sync_requests given_log) /\ sync_requests given_log = [block_id a1].
Proof.
  split; [|vm_compute; reflexivity].
  exact (requested_once c0 99 here ∅ whole (led whole start) whole_steps).
Defined.

(** The peer was reached from its own side; nothing was stored. *)
Definition after_hello : node chain := led reachable_peer start.
Lemma success_is_inbound_witness : connected_from after_hello there.
Proof.
  assert (E : exists k r, potential_peer_set (potential_peer_db after_hello) !! there = Some (k, r) /\
    last_connection_disposition r = last_connection_succeeded).
  { eexists _, _. split; vm_compute; reflexivity. }
  destruct E as (k & r & Er & Es).
  destruct (success_is_inbound c0 99 here ∅ reachable_peer after_hello there k r
    (led_steps reachable_peer start ltac:(vm_compute; reflexivity)) Er Es) as [(k' & r' & Hk & _)|Hc].
  - rewrite lookup_empty in Hk. discriminate.
  - exact Hc.
Defined.

(** The socket fails when the first block is requested; a later inventory changes nothing. *)
Definition asking : node chain := led (meeting ++ requesting) start.
Definition failing : node chain := led [written fetch_sync_items_loop false] asking.
Definition later : list (event (D := chain)) :=
  [ delivered 1%nat (item_ids_inventory trx_message_type [9000 + trx_id spend]);
    delivered 1%nat (block a1_message) ] ++ read 2.
Lemma write_failure_ends_loop_witness :
  fibers (led later failing) !! fetch_sync_items_loop = None /\
  sync_requests (log (led later failing)) = [block_id a1].
Proof.
  destruct (led_step (written fetch_sync_items_loop false) asking) as (op & Hop & Hr); [vm_compute; reflexivity|].
  destruct (write_failure_ends_loop c0 99 here ∅ (meeting ++ requesting) asking fetch_sync_items_loop
    op failing later (led later failing)) as [Hf Hl].
  - left.
  - apply led_steps. vm_compute. reflexivity.
  - exact Hop.
  - exact Hr.
  - apply led_steps. vm_compute. reflexivity.
  - split; [exact Hf|]. rewrite (Hl eq_refl). vm_compute. reflexivity.
Defined.

(** The peer that was refused. *)
Definition refused : node chain := led refused_peer start.
Definition let_in : node chain := led [delivered 1%nat (address [])] refused.
Lemma address_activates_witness :
  1%nat ∈ active_connections let_in /\ peer_node_id (peer_of let_in 1%nat) ∉ allowed_peers let_in.
Proof.
  destruct (led_step (delivered 1%nat (address [])) refused) as (op & Hop & Hr); [vm_compute; reflexivity|].
  split.
  - apply (address_activates refused 1%nat [] op let_in Hop Hr). vm_compute. discriminate.
  - vm_compute. intros [=].
Defined.

(** The node connects to the peer that it knows. *)
Lemma connecting_ends_witness :
  exists n', connect_candidates (led hopeful start) = (Ok [sleep; connect_turn], n') /\
    get_number_of_connections n' = 1.
Proof.
  destruct (connecting_ends (led hopeful start)) as (n' & Hn & _).
  - assert (E : handshaking_connections (led hopeful start) = ∅) by (vm_compute; reflexivity).
    rewrite E. apply empty_subseteq.
  - split; vm_compute; [discriminate|reflexivity].
  - exists n'. split; [exact Hn|].
    assert (E : get_number_of_connections (connect_candidates (led hopeful start)).2 = 1)
      by (vm_compute; reflexivity).
    rewrite Hn in E. exact E.
Defined.

(** The block that came from the network is on the chain. *)
Lemma whole_keeps : Forall (keeps (reachable told c0)) whole.
Proof. unfold whole. repeat (constructor; [exact I|]). constructor. Qed.
Definition named (m : message) : option full_block :=
  match m with block b => Some (message_block b) | _ => None end.
Lemma handled_told (m : block_message) sync_mode :
  handled (block m) sync_mode ∈ given_log -> told (message_block m).
Proof.
  intros Hm. assert (Hn : message_block m ∈ omap (fun o =>
    match o with handled m _ => named m | _ => None end) given_log).
  { apply list_elem_of_omap. by exists (handled (block m) sync_mode). }
  assert (E : omap (fun o => match o with handled m _ => named m | _ => None end) given_log = [a1])
    by (vm_compute; reflexivity).
  rewrite E, list_elem_of_singleton in Hn. rewrite Hn. exact (told_nth 0 a1 eq_refl).
Qed.
Lemma network_keeps_ledger_witness :
  reachable told c0 (delegate (led whole start)) /\ head_block_id (delegate (led whole start)) = block_id a1.
Proof.
  split; [|vm_compute; reflexivity].
  apply (network_keeps_ledger told parent_of rank_of story_ids config 3000 c0 99 here ∅ whole
    (led whole start) story_starts whole_steps whole_keeps handled_told).
Defined.

Lemma answers_all rest r :
  is_ok r = true -> (length rest <= 2000)%nat -> answers rest r -> r = Ok (rest, 0).
Proof.
  destruct r as [[ids n]|e]; [|discriminate]. intros _ Hl [-> ->]. rewrite take_ge by exact Hl.
  f_equal. f_equal. lia.
Qed.

(** What the client answers to a peer that knows the first block. *)
Lemma get_item_ids_spec_witness :
  client_get_item_ids c5 block_message_type [block_id a1] = Ok (official c5, 0).
Proof.
  assert (Hok : is_ok (client_get_item_ids c5 block_message_type [block_id a1]) = true)
    by (vm_compute; reflexivity).
  pose proof (get_item_ids_spec told parent_of rank_of story_ids _ c5 [block_id a1]
    (story_chain_ok c5 reached)) as Hs.
  assert (Hf : List.find (is_included_block c5) (rev [block_id a1]) = Some (block_id a1))
    by (vm_compute; reflexivity).
  assert (Hz : (block_id a1 =? 0) = false) by (vm_compute; reflexivity).
  assert (Hs' : since (block_id a1) (official c5) = official c5) by (vm_compute; reflexivity).
  cbv zeta in Hs. rewrite Hf, Hz, Hs' in Hs.
  specialize (Hs ltac:(vm_compute; reflexivity) ltac:(vm_compute; discriminate)).
  apply answers_all; [exact Hok| |exact Hs]. apply Nat.leb_le. vm_compute. reflexivity.
Defined.

(** *** Synopses
    The node with the client whose main chain has three blocks, and a peer that has the second one
    and four more. The node was told of them from the second block on, after it started anew: it
    counts that block as the first. *)
Definition with_three : node chain := (led whole start) <| delegate := c5 |>.
Definition told_ids : list Z := [block_id b2; 901; 902; 903; 904].
Definition joined : result (list Z) * node chain :=
  (let! _ := set_peer 1%nat (fun _ => new_peer) in join_received 1%nat block_message_type told_ids) with_three.
Definition ahead : peer_connection :=
  (peer_of joined.2 1%nat) <| ids_of_items_to_get := value_or [] joined.1 |>.

(** The number is that of the ids received, not of the block. *)
Theorem counted_from_zero :
  joined.1 = Ok [901; 902; 903; 904] /\
  last_block_delegate_has_seen ahead = block_id b2 /\
  last_block_number_delegate_has_seen ahead = 1 /\ get_block_num c5 (block_id b2) = Ok 2 /\
  create_blockchain_synopsis_for_peer with_three ahead = Ok [block_id a1; 903; 904] /\
  synopsis [block_id a1; block_id b2; 901; 902; 903; 904] = [block_id a1; 902; 904].
Proof. vm_compute. split_and!; reflexivity. Qed.


(** What is sent is what the theorem says. *)
Lemma synopsis_spec_witness :
  let l := [block_id a1; block_id b2; 901; 902; 903; 904] in
  exists s, create_blockchain_synopsis_for_peer with_three ahead = Ok s /\
    s = sent_synopsis [block_id a1; block_id b2] [901; 902; 903; 904] 1 /\
    sublist s l /\ head s = head l /\ List.last s 0 = 904 /\ Z.of_nat (length s) <= 6.
Proof.
  intros l. assert (Hok : is_ok (create_blockchain_synopsis_for_peer with_three ahead) = true)
    by (vm_compute; reflexivity).
  pose proof (synopsis_spec told parent_of rank_of story_ids _ with_three ahead [block_id a1; block_id b2]
    (story_chain_ok c5 reached)) as Hs.
  assert (Eids : ids_of_items_to_get ahead = [901; 902; 903; 904]) by (vm_compute; reflexivity).
  assert (Ecnt : last_block_number_delegate_has_seen ahead = 1) by (vm_compute; reflexivity).
  cbv zeta in Hs. rewrite Eids, Ecnt in Hs.
  specialize (Hs ltac:(vm_compute; reflexivity) ltac:(vm_compute; reflexivity)).
  assert (Hk : known_chain (delegate with_three) ahead [block_id a1; block_id b2]).
  { right. exists 1%nat. split; vm_compute; reflexivity. }
  specialize (Hs Hk ltac:(discriminate) ltac:(reflexivity) ltac:(lia) ltac:(reflexivity)).
  destruct (create_blockchain_synopsis_for_peer with_three ahead) as [s|e]; [|discriminate Hok].
  exists s. destruct Hs as (E1 & E2 & E3 & E4 & E5 & _). split; [reflexivity|].
  split; [exact E1|]. split; [exact E2|]. split; [exact E3|]. split; [exact E4|exact E5].
Defined.
