(* ===== verification/Transaction.v ===== *)
(** Deposits to an account that only its owner recognises ([withdraw_types.cpp] over
    [extended_address.cpp]), and the building of transactions ([transaction.cpp] and the
    constructors of the operations). *)
From S2P Require Import Prelude Errors.
From S2P Require Export ChainInterface Operations.

(** * Deposits to an account.

    The sender derives a fresh public key from a one time key and the key of the receiver and
    deposits to its address; the receiver derives the private key. Private keys are their
    secrets, lists of bytes; the curve and the hashes are those of fc. [memo_roundtrip] shows
    that the receiver finds the deposit, with the message, and can spend it. *)

(** [fc::ecc], [fc::sha256], [fc::sha512], [fc::aes_encrypt] and what is packed. *)
Class FcKeys := {
  get_public_key : list Z -> Z;
  get_shared_secret : list Z -> Z -> result (list Z);
  public_key_add : Z -> list Z -> Z;
  generate_from_seed : list Z -> list Z -> list Z;
  sign_compact : list Z -> Z -> Z;
  sha256_hash : list Z -> list Z;
  sha512_hash : list Z -> list Z;
  first_word : list Z -> Z;
  aes_encrypt : list Z -> list Z -> list Z;
  aes_decrypt : list Z -> list Z -> result (list Z);
  pack_public_key : Z -> list Z;
  pack_uint32 : Z -> list Z
}.

(** ** [extended_address.cpp]: keys with a chain code, and their children *)
Inductive derivation_type := public_derivation | private_derivation.
Record extended_public_key := ExtendedPublicKey { pub_key : Z; pub_chain_code : list Z }.
Record extended_private_key := ExtendedPrivateKey { priv_key : list Z; chain_code : list Z }.

#[export] Instance extended_private_key_eq_dec : EqDecision extended_private_key.
Proof. solve_decision. Defined.

(** [fc::sha256()]. *)
Definition sha256_default : list Z := replicate 32 0.
(** Of a key; of a seed, where the chain code is commented out. *)
Definition extended_of_public_key (k : Z) : extended_public_key := ExtendedPublicKey k sha256_default.
Definition extended_of_private_key (k : list Z) : extended_private_key :=
  ExtendedPrivateKey k sha256_default.
Definition extended_of_seed (seed : list Z) : extended_private_key :=
  ExtendedPrivateKey (take 32 seed) sha256_default.

Section Children.
Context `{FcKeys}.

(** [child], for a packed index: a hash, or a number. *)
Definition public_child (child_idx : list Z) (k : extended_public_key) : extended_public_key :=
  let ikey := sha512_hash (pack_public_key (pub_key k) ++ child_idx ++ pub_chain_code k) in
  ExtendedPublicKey (public_key_add (pub_key k) (take 32 ikey)) (drop 32 ikey).
Definition private_child (child_idx : list Z) (derivation : derivation_type)
    (k : extended_private_key) : extended_private_key :=
  let own := match derivation with
             | public_derivation => pack_public_key (get_public_key (priv_key k))
             | private_derivation => 0 :: priv_key k
             end in
  let ikey := sha512_hash (own ++ child_idx ++ chain_code k) in
  ExtendedPrivateKey (generate_from_seed (priv_key k) (take 32 ikey)) (drop 32 ikey).
(** [child( uint32_t )], with the default derivation. *)
Definition private_child_of_index (i : Z) (k : extended_private_key) : extended_private_key :=
  private_child (pack_uint32 i) private_derivation k.
End Children.

(** ** Memos *)
Definition BTS_BLOCKCHAIN_MAX_MEMO_SIZE : nat := 19.
Definition from_memo : Z := 0.
Definition to_memo : Z := 1.

Record memo_data := MemoData {
  memo_from : Z; from_signature : Z; message : list Z; memo_flags : Z }.
Record memo_status := MemoStatus {
  memo_of_status : memo_data; has_valid_signature : bool; owner_private_key : list Z }.

#[export] Instance memo_data_eq_dec : EqDecision memo_data.
Proof. solve_decision. Defined.
#[export] Instance memo_status_eq_dec : EqDecision memo_status.
Proof. solve_decision. Defined.

(** [fc::array]: zeroes. *)
Definition no_message : list Z := replicate BTS_BLOCKCHAIN_MAX_MEMO_SIZE 0.
Definition set_message (str : list Z) : result (list Z) :=
  let* _ := FC_ASSERT (length str <=? BTS_BLOCKCHAIN_MAX_MEMO_SIZE)%nat in
  Ok (memcpy no_message 0 str).
(** [c_str]: up to the first zero. *)
Fixpoint c_str (s : list Z) : list Z :=
  match s with
  | [] => []
  | c :: s => if c =? 0 then [] else c :: c_str s
  end.
Definition get_message (m : memo_data) : list Z := c_str (message m).

(** [fc::raw] on memos. *)
Class FcMemo := {
  pack_memo_data : memo_data -> list Z;
  unpack_memo_data : list Z -> option memo_data
}.

Section Titan.
Context `{FC : Fc} `{FK : FcKeys} `{FM : FcMemo}.

Definition decrypt_with_secret (secret : list Z) (w : withdraw_with_signature) : result memo_data :=
  let* m := value_or_throw (memo w) assert_exception in
  let* plain := aes_decrypt secret (encrypted_memo_data m) in
  value_or_throw (unpack_memo_data plain) unpack_error.

(** [withdraw_with_signature::decrypt_memo_data]: nothing when the deposit is not for the
    receiver. *)
Definition decrypt_memo_data (receiver_key : list Z) (w : withdraw_with_signature)
    : result (option memo_status) :=
  let* m := value_or_throw (memo w) assert_exception in
  let* secret := get_shared_secret receiver_key (one_time_key m) in
  let ext_receiver_key := extended_of_private_key receiver_key in
  let secret_private_key :=
    priv_key (private_child (sha256_hash secret) public_derivation ext_receiver_key) in
  let secret_public_key := get_public_key secret_private_key in
  if negb (owner w =? address_of_key secret_public_key) then Ok None
  else
    let* data := decrypt_with_secret secret w in
    let* valid :=
      if memo_flags data =? from_memo then
        let* check_secret := get_shared_secret secret_private_key (memo_from data) in
        Ok (first_word check_secret =? from_signature data)
      else Ok true in
    Ok (Some (MemoStatus data valid secret_private_key)).

(** [encrypt_memo_data], on a new condition. *)
Definition encrypt_memo_data (one_time_private_key : list Z) (to_public_key : Z)
    (from_private_key : list Z) (memo_message : list Z) (memo_pub_key memo_type : Z)
    : result withdraw_with_signature :=
  let* secret := get_shared_secret one_time_private_key to_public_key in
  let ext_to_public_key := extended_of_public_key to_public_key in
  let secret_ext_public_key := public_child (sha256_hash secret) ext_to_public_key in
  let secret_public_key := pub_key secret_ext_public_key in
  let* check_secret := get_shared_secret from_private_key secret_public_key in
  let* msg := set_message memo_message in
  let memo_content := MemoData memo_pub_key (first_word check_secret) msg memo_type in
  Ok (WithSignature (address_of_key secret_public_key)
        (Some (TitanMemo (get_public_key one_time_private_key)
                 (aes_encrypt secret (pack_memo_data memo_content))))).
End Titan.

(** ** What the documentation of the curve, the cipher and the serialization says *)
Class FcKeysLaws `{FcKeys} `{FcMemo} := {
  shared_secret_sym a b : get_shared_secret a (get_public_key b) = get_shared_secret b (get_public_key a);
  shared_secret_ok a b : is_ok (get_shared_secret a (get_public_key b)) = true;
  public_key_seed k offset :
    get_public_key (generate_from_seed k offset) = public_key_add (get_public_key k) offset;
  aes_decrypt_encrypt key plain : aes_decrypt key (aes_encrypt key plain) = Ok plain;
  aes_encrypt_some key plain : aes_encrypt key plain <> [];
  unpack_memo m : unpack_memo_data (pack_memo_data m) = Some m
}.

Lemma c_str_padded s n : Forall (fun c => c <> 0) s -> c_str (s ++ replicate n 0) = s.
Proof.
  induction 1 as [|c s Hc _ IH]; cbn; [by destruct n|].
  destruct (Z.eqb_spec c 0); [done|]. by rewrite IH.
Qed.

Section Titan_proofs.
Context `{FC : Fc} `{FK : FcKeys} `{FM : FcMemo} `{KL : !FcKeysLaws}.

Lemma shared_secret_exists a b : exists s,
  get_shared_secret a (get_public_key b) = Ok s /\ get_shared_secret b (get_public_key a) = Ok s.
Proof.
  pose proof (shared_secret_ok a b) as Hok. pose proof (shared_secret_sym a b) as Hs.
  destruct (get_shared_secret a (get_public_key b)) as [s|]; [|done]. by exists s.
Qed.

(** Deriving by the public way commutes with taking the public key. *)
Lemma child_public_key idx k :
  get_public_key (priv_key (private_child idx public_derivation (extended_of_private_key k))) =
  pub_key (public_child idx (extended_of_public_key (get_public_key k))).
Proof. unfold private_child, public_child. cbn. apply public_key_seed. Qed.

(** C13: A deposit to an account is found by the owner of the account: whatever one time key
    the sender chose, the encryption succeeds for any message of at most 19 bytes, and the
    receiver decrypts the message and the key of the sender from it, sees the signature of
    the sender as valid, and gets the private key of the address that owns the deposit. *)
Theorem memo_roundtrip one_time receiver sender (msg : list Z) type :
  (length msg <= BTS_BLOCKCHAIN_MAX_MEMO_SIZE)%nat -> Forall (fun c => c <> 0) msg ->
  exists w st,
    encrypt_memo_data one_time (get_public_key receiver) sender msg (get_public_key sender) type
      = Ok w /\
    decrypt_memo_data receiver w = Ok (Some st) /\
    get_message (memo_of_status st) = msg /\ memo_from (memo_of_status st) = get_public_key sender /\
    memo_flags (memo_of_status st) = type /\ has_valid_signature st = true /\
    owner w = address_of_key (get_public_key (owner_private_key st)).
Proof.
  intros Hlen Hz. destruct (shared_secret_exists one_time receiver) as (s & E1 & E2).
  set (k := priv_key (private_child (sha256_hash s) public_derivation
              (extended_of_private_key receiver))).
  destruct (shared_secret_exists sender k) as (c & E3 & E4).
  pose proof (child_public_key (sha256_hash s) receiver) as Ek. fold k in Ek.
  assert (Em : set_message msg = Ok (msg ++ replicate (BTS_BLOCKCHAIN_MAX_MEMO_SIZE - length msg) 0)).
  { unfold set_message, FC_ASSERT. destruct (Nat.leb_spec (length msg) BTS_BLOCKCHAIN_MAX_MEMO_SIZE);
      [|lia]. cbn [negb throw_if bind]. unfold memcpy, no_message. cbn [take app Nat.add].
    by rewrite drop_replicate. }
  eexists _, _. split; [|split].
  - unfold encrypt_memo_data. rewrite E1. cbn [bind]. rewrite <- Ek, E3. cbn [bind]. rewrite Em.
    reflexivity.
  - unfold decrypt_memo_data. cbn [memo value_or_throw bind one_time_key]. rewrite E2. cbn [bind].
    fold k. cbn [owner]. rewrite Z.eqb_refl. cbn [negb].
    unfold decrypt_with_secret. cbn [memo value_or_throw bind encrypted_memo_data].
    rewrite aes_decrypt_encrypt. cbn [bind]. rewrite unpack_memo. cbn [value_or_throw bind memo_flags memo_from].
    rewrite E4. cbn [bind from_signature]. rewrite Z.eqb_refl. by destruct (type =? from_memo).
  - cbn. split; [by apply c_str_padded|]. done.
Qed.
End Titan_proofs.

(** * Building transactions.

    Packing is that of fc; what is used of it is that unpacking gives back what was packed
    ([FcPackLaws]), which the evaluation of a transaction relies on. The clock of the machine,
    which two operations read, is an argument. *)

(** [fc::raw::pack] of the operations. *)
Class FcPack := {
  pack_withdraw : withdraw_operation -> list Z;
  pack_deposit : deposit_operation -> list Z;
  pack_register_account : register_account_operation -> list Z;
  pack_update_account : update_account_operation -> list Z;
  pack_withdraw_pay : withdraw_pay_operation -> list Z;
  pack_create_asset : create_asset_operation -> list Z;
  pack_issue_asset : issue_asset_operation -> list Z;
  pack_submit_proposal : submit_proposal_operation -> list Z;
  pack_vote_proposal : vote_proposal_operation -> list Z;
  pack_bid : bid_operation -> list Z
}.

Definition add_operation (op : operation) (t : signed_transaction) : signed_transaction :=
  SignedTransaction (expiration t) (trx_delegate_id t) (operations t ++ [op]) (signatures t).

Section Builders.
Context `{FC : Fc} `{FT : FcTransaction} `{FK : FcKeys} `{FM : FcMemo} `{FP : FcPack}.
Implicit Types t : signed_transaction.

(** [signed_transaction::sign]. *)
Definition sign (signer : list Z) (chain_id : Z) t : signed_transaction :=
  SignedTransaction (expiration t) (trx_delegate_id t) (operations t)
    (signatures t ++ [sign_compact signer (trx_digest t chain_id)]).

(** [operation( const OperationType& )]: its type and what is packed. *)
Definition withdraw_op (op : withdraw_operation) : operation := Operation withdraw_op_type (pack_withdraw op).
Definition deposit_op (op : deposit_operation) : operation := Operation deposit_op_type (pack_deposit op).

Definition bid (quantity : asset) (price_per_unit : price) (owner delegate_id : Z) t
    : signed_transaction :=
  add_operation (Operation bid_op_type
    (pack_bid (BidOperation (amount quantity) (MarketIndexKey price_per_unit owner) delegate_id))) t.

(** The constructor asserts again what [withdraw] has asserted. *)
Definition new_withdraw_operation (id amount : Z) : result withdraw_operation :=
  let* _ := FC_ASSERT (0 <? amount) in Ok (WithdrawOperation id amount []).
Definition withdraw (balance_id amount : Z) t : result signed_transaction :=
  let* _ := FC_ASSERT (0 <? amount) in
  let* op := new_withdraw_operation balance_id amount in
  Ok (add_operation (withdraw_op op) t).

Definition withdraw_pay (account amount : Z) t : result signed_transaction :=
  let* _ := FC_ASSERT (0 <? amount) in
  Ok (add_operation (Operation withdraw_pay_op_type
        (pack_withdraw_pay (WithdrawPayOperation amount account))) t).

Definition new_deposit_operation (owner : Z) (amnt : asset) (delegate_id : Z) : result deposit_operation :=
  let* _ := FC_ASSERT (0 <? amount amnt) in
  Ok (DepositOperation (amount amnt)
        (condition_with_signature (WithSignature owner None) (asset_id amnt) delegate_id)).
Definition deposit (owner : Z) (amnt : asset) (delegate_id : Z) t : result signed_transaction :=
  let* _ := FC_ASSERT (0 <? amount amnt) in
  let* op := new_deposit_operation owner amnt delegate_id in
  Ok (add_operation (deposit_op op) t).

(** The amount is not looked at. *)
Definition deposit_to_account (receiver_key : Z) (amnt : asset) (from_key : list Z)
    (memo_message : list Z) (delegate_id memo_pub_key : Z) (one_time_private_key : list Z)
    (memo_type : Z) t : result signed_transaction :=
  let* by_account := encrypt_memo_data one_time_private_key receiver_key from_key memo_message
                       memo_pub_key memo_type in
  Ok (add_operation (deposit_op (DepositOperation (amount amnt)
        (condition_with_signature by_account (asset_id amnt) delegate_id))) t).

Definition register_account (name : string) (public_data : variant) (master active : Z)
    (as_delegate : bool) t : signed_transaction :=
  add_operation (Operation register_account_op_type (pack_register_account
    (RegisterAccountOperation name public_data master active as_delegate None))) t.
Definition update_account (account_id : Z) (public_data : option variant) (active : option Z)
    (as_delegate : bool) t : signed_transaction :=
  add_operation (Operation update_account_op_type (pack_update_account
    (UpdateAccountOperation account_id public_data active as_delegate))) t.

Definition submit_proposal (clock delegate_id : Z) (subject body proposal_type : string)
    (public_data : variant) t : signed_transaction :=
  add_operation (Operation submit_proposal_op_type (pack_submit_proposal
    (SubmitProposalOperation delegate_id clock subject body proposal_type public_data))) t.
Definition vote_proposal (clock proposal_id voter_id : Z) (vote : vote_type) (message : string) t
    : signed_transaction :=
  add_operation (Operation vote_proposal_op_type (pack_vote_proposal
    (VoteProposalOperation (proposal_id, voter_id) clock vote message))) t.

Definition create_asset (symbol name description : string) (data : variant) (issuer_id : Z)
    (max_share_supply precision : Z) t : result signed_transaction :=
  let* _ := FC_ASSERT (0 <? max_share_supply) in
  Ok (add_operation (Operation create_asset_op_type (pack_create_asset
        (CreateAssetOperation symbol name description data issuer_id max_share_supply precision))) t).
Definition issue (amount_to_issue : asset) t : signed_transaction :=
  add_operation (Operation issue_asset_op_type
    (pack_issue_asset (IssueAssetOperation amount_to_issue))) t.
End Builders.

(** Unpacking gives back what was packed; the digest that is signed does not cover the
    signatures; a signature gives the key back. *)
Class FcPackLaws `{Fc} `{FcTransaction} `{FcOperations} `{FcKeys} `{FcPack} := {
  unpack_pack_withdraw op : unpack_withdraw (pack_withdraw op) = Some op;
  unpack_pack_deposit op : unpack_deposit (pack_deposit op) = Some op;
  unpack_pack_signature w : unpack_with_signature (pack_with_signature w) = Some w;
  digest_unsigned e d ops sigs sigs' c :
    trx_digest (SignedTransaction e d ops sigs) c = trx_digest (SignedTransaction e d ops sigs') c;
  recover_signature k d : recover_key (sign_compact k d) d = Some (get_public_key k)
}.
