(* ===== verification/WalletDb.v ===== *)
(** The database of the wallet: [wallet_records.hpp], [wallet_records.cpp] and [wallet_db.cpp]
    over [level_map.hpp].

    Records of different types share a LevelDB directory under one sequence of indexes, and
    are kept in memory in maps of their own. A directory is a finite map by index, which
    [open] goes through in the order of the indexes. Exceptions leave what was changed. *)
From stdpp Require Import sorting.
From S2P Require Import Prelude Errors.
From S2P Require Export Records ChainInterface EvalState Transaction.

(** ** Records *)

(** [wallet_record<T>]: a record with its index, which is 0 until it is stored. *)
Record wallet_record (T : Type) := WalletRecord { wallet_record_index : Z; data : T }.
Arguments WalletRecord {T}.
Arguments wallet_record_index {T} _.
Arguments data {T} _.

Record master_key := MasterKey { encrypted_key : list Z; checksum : list Z }.
Record key_data := KeyData {
  key_account_address : Z;
  public_key_of : Z;
  encrypted_private_key : list Z;
  valid_from_signature : bool;
  key_memo : option (list Z)
}.
Record account := Account {
  chain_account : account_record;
  account_address : Z;
  private_data : variant;
  trust_level : Z
}.
Record transaction_data := TransactionData {
  data_trx : signed_transaction;
  transaction_id : Z;
  to_account : option Z;
  from_account : option Z;
  data_amount : asset;
  data_fees : Z;
  memo_message : list Z;
  data_block_num : Z;
  created_time : Z;
  received_time : Z;
  transmit_count : Z;
  extra_addresses : list Z
}.
Inductive property_enum :=
  | next_record_number
  | default_transaction_priority_fee
  | next_child_key_index
  | last_locked_scanned_block_number
  | last_unlocked_scanned_block_number.
Record wallet_property := WalletProperty { property_key : property_enum; property_value : variant }.
Record market_order := MarketOrder {
  order_type : Z; market_index : market_index_key; order_state : order_record }.
Record market_order_status := MarketOrderStatus {
  order : market_order; proceeds : Z; order_transactions : gset Z }.

#[export] Instance wallet_record_eq_dec `{EqDecision T} : EqDecision (wallet_record T).
Proof. solve_decision. Defined.
#[export] Instance master_key_eq_dec : EqDecision master_key.
Proof. solve_decision. Defined.
#[export] Instance key_data_eq_dec : EqDecision key_data.
Proof. solve_decision. Defined.
#[export] Instance wallet_account_eq_dec : EqDecision account.
Proof. solve_decision. Defined.
#[export] Instance transaction_data_eq_dec : EqDecision transaction_data.
Proof. solve_decision. Defined.
#[export] Instance property_enum_eq_dec : EqDecision property_enum.
Proof. solve_decision. Defined.
#[export] Instance property_enum_countable : Countable property_enum.
Proof.
  refine (inj_countable' (fun p => match p with
    | next_record_number => 0%nat | default_transaction_priority_fee => 1%nat
    | next_child_key_index => 2%nat | last_locked_scanned_block_number => 3%nat
    | last_unlocked_scanned_block_number => 4%nat end)
    (fun n => match n with
    | 0%nat => next_record_number | 1%nat => default_transaction_priority_fee
    | 2%nat => next_child_key_index | 3%nat => last_locked_scanned_block_number
    | _ => last_unlocked_scanned_block_number end) _).
  by intros [].
Defined.
#[export] Instance wallet_property_eq_dec : EqDecision wallet_property.
Proof. solve_decision. Defined.

#[export, refine] Instance key_data_members : Members key_data := {
  eta r := KeyData (key_account_address r) (public_key_of r) (encrypted_private_key r)
    (valid_from_signature r) (key_memo r) }.
Proof. by intros []. Defined.
#[export, refine] Instance account_members : Members account := {
  eta r := Account (chain_account r) (account_address r) (private_data r) (trust_level r) }.
Proof. by intros []. Defined.
#[export, refine] Instance transaction_data_members : Members transaction_data := {
  eta r := TransactionData (data_trx r) (transaction_id r) (to_account r) (from_account r)
    (data_amount r) (data_fees r) (memo_message r) (data_block_num r) (created_time r)
    (received_time r) (transmit_count r) (extra_addresses r) }.
Proof. by intros []. Defined.

(** The members of a record's data, the index kept. *)
Definition on_data {T} (f : T -> T) (r : wallet_record T) : wallet_record T :=
  WalletRecord (wallet_record_index r) (f (data r)).

(** [asset()], [transaction_data()]. *)
Definition transaction_data_default : transaction_data :=
  TransactionData signed_transaction_default 0 None None asset_default 0 [] 0 0 0 0 [].
Definition wallet_transaction_default : wallet_record transaction_data :=
  WalletRecord 0 transaction_data_default.

(** [generic_wallet_record]: the records that are stored. They go through [fc::variant] by
    their reflection, which does not list [valid_from_signature] and [extra_addresses]: these
    come back as they are constructed. *)
Inductive generic_wallet_record :=
  | master_key_record (r : wallet_record master_key)
  | wallet_account_record (r : wallet_record account)
  | key_record (r : wallet_record key_data)
  | wallet_transaction_record (r : wallet_record transaction_data)
  | wallet_balance_record (r : wallet_record balance_record)
  | property_record (r : wallet_record wallet_property).
Definition reflected_key (k : key_data) : key_data := k <| valid_from_signature := false |>.
Definition reflected_transaction (t : transaction_data) : transaction_data := t <| extra_addresses := [] |>.

(** [RecordType::type] with the conversion. *)
Class StoredType (T : Type) := generic_of : wallet_record T -> generic_wallet_record.
#[export] Instance stored_master_key : StoredType master_key := master_key_record.
#[export] Instance stored_account : StoredType account := wallet_account_record.
#[export] Instance stored_key : StoredType key_data := fun r => key_record (on_data reflected_key r).
#[export] Instance stored_transaction : StoredType transaction_data :=
  fun r => wallet_transaction_record (on_data reflected_transaction r).
#[export] Instance stored_balance : StoredType balance_record := wallet_balance_record.
#[export] Instance stored_property : StoredType wallet_property := property_record.

(** [fc::raw] on private keys. *)
Class FcPrivate := {
  pack_private_key : list Z -> list Z;
  unpack_private_key : list Z -> option (list Z);
  pack_extended : extended_private_key -> list Z;
  unpack_extended : list Z -> option extended_private_key
}.

(** A hash map is gone through in an order of its own. *)
Class HashOrder := {
  items : forall {A}, gmap Z A -> list (Z * A);
  items_spec : forall {A} (m : gmap Z A), items m ≡ₚ map_to_list m
}.

Section Keys.
Context `{FC : Fc} `{FK : FcKeys} `{FP : FcPrivate}.

(** ** [wallet_records.cpp] *)
Definition decrypt_key (password : list Z) (m : master_key) : result extended_private_key :=
  let* _ := FC_ASSERT (negb (length (encrypted_key m) =? 0)%nat) in
  let* plain := aes_decrypt password (encrypted_key m) in
  value_or_throw (unpack_extended plain) unpack_error.
Definition validate_password (password : list Z) (m : master_key) : bool :=
  bool_decide (checksum m = sha512_hash password).
Definition encrypt_key (password : list Z) (k : extended_private_key) : master_key :=
  MasterKey (aes_encrypt password (pack_extended k)) (sha512_hash password).

Definition key_address (k : key_data) : Z := address_of_key (public_key_of k).
Definition has_private_key (k : key_data) : bool := (0 <? length (encrypted_private_key k))%nat.
Definition encrypt_private_key (password : list Z) (key : list Z) (k : key_data) : key_data :=
  k <| public_key_of := get_public_key key |>
    <| encrypted_private_key := aes_encrypt password (pack_private_key key) |>.
Definition decrypt_private_key (password : list Z) (k : key_data) : result (list Z) :=
  let* plain := aes_decrypt password (encrypted_private_key k) in
  value_or_throw (unpack_private_key plain) unpack_error.
(** [key_data()]. *)
Definition key_data_default : key_data := KeyData 0 0 [] false None.
End Keys.

(** ** [wallet_db] *)
Notation directory := (gmap Z generic_wallet_record).

(** The directories of the disk, by their path, and the one that is open. *)
Record wallet_db := WalletDb {
  directories : gmap string directory;
  open_directory : option string;
  wallet_master_key : option (wallet_record master_key);
  keys : gmap Z (wallet_record key_data);
  btc_to_bts_address : gmap Z Z;
  address_to_account_index : gmap Z Z;
  account_id_to_index : gmap Z Z;
  name_to_account_index : gmap string Z;
  market_orders : gmap Z market_order_status;
  accounts : gmap Z (wallet_record account);
  transactions : gmap Z (wallet_record transaction_data);
  balances : gmap Z (wallet_record balance_record);
  properties : gmap property_enum (wallet_record wallet_property)
}.
#[export, refine] Instance wallet_db_members : Members wallet_db := {
  eta d := WalletDb (directories d) (open_directory d) (wallet_master_key d) (keys d)
    (btc_to_bts_address d) (address_to_account_index d) (account_id_to_index d)
    (name_to_account_index d) (market_orders d) (accounts d) (transactions d) (balances d)
    (properties d) }.
Proof. by intros []. Defined.

(** [wallet_db()], with what is on the disk. *)
Definition new_wallet_db (disk : gmap string directory) : wallet_db :=
  WalletDb disk None None ∅ ∅ ∅ ∅ ∅ ∅ ∅ ∅ ∅ ∅.

Definition is_open (d : wallet_db) : bool := match open_directory d with Some _ => true | None => false end.
(** [_records], while it is open. *)
Definition records (d : wallet_db) : directory :=
  match open_directory d with Some path => default ∅ (directories d !! path) | None => ∅ end.
Definition set_records (f : directory -> directory) (d : wallet_db) : wallet_db :=
  match open_directory d with
  | Some path => d <| directories := <[path := f (default ∅ (directories d !! path))]> (directories d) |>
  | None => d
  end.

Section WalletDb.
Context `{FC : Fc} `{FT : FcTransaction} `{FK : FcKeys} `{FP : FcPrivate} `{HO : HashOrder}.
Notation run := (run wallet_db).
Implicit Types d : wallet_db.

(** ** Storing *)
Definition store_generic_record (index : Z) (r : generic_wallet_record) : run unit :=
  let! _ := reads (fun d => FC_ASSERT (is_open d)) in
  let! _ := reads (fun d => FC_ASSERT (negb (index =? 0))) in
  modify (set_records <[index := r]>).
Definition remove_item (index : Z) : run unit :=
  let! _ := reads (fun d => FC_ASSERT (is_open d)) in
  modify (set_records (delete index)).

Definition get_property d (id : property_enum) : variant :=
  match properties d !! id with Some r => property_value (data r) | None => variant_null end.

(** [set_property] and [new_wallet_record_index] call each other; the second calls the first
    for [next_record_number], which does not need a new index. *)
Definition set_property_with (new_index : run Z) (id : property_enum) (v : variant) : run unit :=
  let! itr := reads (fun d => Ok (properties d !! id)) in
  let! r :=
    match itr with
    | Some r => ret (WalletRecord (wallet_record_index r) (WalletProperty (property_key (data r)) v))
    | None =>
        let! index := if bool_decide (id = next_record_number) then ret 1 else new_index in
        ret (WalletRecord index (WalletProperty id v))
    end in
  let! _ := modify (fun d => d <| properties ::= <[id := r]> |>) in
  store_generic_record (wallet_record_index r) (generic_of r).
Definition new_wallet_record_index : run Z :=
  let! v := reads (fun d => Ok (get_property d next_record_number)) in
  let! next_rec_number :=
    reads (fun d => if bool_decide (v = variant_null) then Ok 2
                    else let* n := as_int v in Ok (int32 n)) in
  let! _ := set_property_with (raise does_not_return) next_record_number
              (variant_int (int32 (next_rec_number + 1))) in
  ret next_rec_number.
Definition set_property : property_enum -> variant -> run unit :=
  set_property_with new_wallet_record_index.

(** [store_record], on a copy. *)
Definition store_record {T} `{StoredType T} (r : wallet_record T) : run unit :=
  let! index := if wallet_record_index r =? 0 then new_wallet_record_index
                else ret (wallet_record_index r) in
  store_generic_record index (generic_of (WalletRecord index (data r))).

Definition new_key_child_index : run Z :=
  let! v := reads (fun d => Ok (get_property d next_child_key_index)) in
  let! next_child_index :=
    reads (fun d => if bool_decide (v = variant_null) then Ok 1
                    else let* n := as_int v in Ok (int32 n)) in
  let! _ := set_property next_child_key_index (variant_int (int32 (next_child_index + 1))) in
  ret next_child_index.

(** ** Look-ups *)
Definition account_at d (index : option Z) : result (option (wallet_record account)) :=
  match index with
  | Some i => let* r := value_or_throw (accounts d !! i) assert_exception in Ok (Some r)
  | None => Ok None
  end.
Definition lookup_account d (address_of_public_key : Z) : result (option (wallet_record account)) :=
  account_at d (address_to_account_index d !! address_of_public_key).
Definition lookup_account_by_name d (name : string) : result (option (wallet_record account)) :=
  account_at d (name_to_account_index d !! name).
Definition lookup_account_by_id d (id : Z) : result (option (wallet_record account)) :=
  account_at d (account_id_to_index d !! id).
Definition lookup_key d (address : Z) : option (wallet_record key_data) :=
  btc_to_bts_address d !! address ≫= fun a => keys d !! a.
Definition lookup_balance d (balance_id : Z) : option (wallet_record balance_record) :=
  balances d !! balance_id.
Definition lookup_transaction d (trx_id : Z) : option (wallet_record transaction_data) :=
  transactions d !! trx_id.
(** Not through [btc_to_bts_address]. *)
Definition db_has_private_key d (a : Z) : bool :=
  match keys d !! a with Some k => has_private_key (data k) | None => false end.

Definition add_private_key (password : list Z) d (ks : list (list Z)) (item : Z * wallet_record account)
    : result (list (list Z)) :=
  match lookup_key d (account_address (data item.2)) with
  | Some k =>
      if has_private_key (data k) then let* p := decrypt_private_key password (data k) in Ok (ks ++ [p])
      else Ok ks
  | None => Ok ks
  end.
Definition get_account_private_keys (password : list Z) d : result (list (list Z)) :=
  foldM (add_private_key password d) [] (items (accounts d)).

(** ** Keys *)

(** The five addresses of a key lead to its record. *)
Definition index_key (key bts_addr : Z) d : wallet_db :=
  d <| btc_to_bts_address ::= fun m =>
    foldl (fun m a => <[a := bts_addr]> m) m
      [address_of_key key; address_of_pts key false 56; address_of_pts key true 56;
       address_of_pts key false 0; address_of_pts key true 0] |>.

Definition store_key (k : key_data) : run unit :=
  let! key_itr := reads (fun d => Ok (keys d !! key_address k)) in
  match key_itr with
  | Some old =>
      let r := WalletRecord (wallet_record_index old) k in
      let! _ := modify (fun d => d <| keys ::= <[key_address k := r]> |>) in
      store_record r
  | None =>
      let! index := new_wallet_record_index in
      let r := WalletRecord index k in
      let! _ := modify (fun d => d <| keys ::= <[key_address k := r]> |>) in
      let! _ := store_record r in
      modify (index_key (public_key_of k) (key_address k))
  end.

Definition new_private_key (password : list Z) (parent_account_address : Z) : run (list Z) :=
  let! m := reads (fun d => value_or_throw (wallet_master_key d) assert_exception) in
  let! master_ext_priv_key := reads (fun d => decrypt_key password (data m)) in
  let! i := new_key_child_index in
  let new_priv_key := priv_key (private_child_of_index i master_ext_priv_key) in
  let new_key := encrypt_private_key password new_priv_key
                   (key_data_default <| key_account_address := parent_account_address |>) in
  let! _ := store_key new_key in
  ret new_priv_key.

Definition cache_memo (st : memo_status) (account_key password : list Z) : run unit :=
  store_key (encrypt_private_key password (owner_private_key st)
    (key_data_default <| key_account_address := address_of_key (get_public_key account_key) |>
                      <| valid_from_signature := has_valid_signature st |>)).

(** ** Balances and transactions *)
Definition cache_balance (b : balance_record) : run unit :=
  let! current_bal := reads (fun d => Ok (lookup_balance d (balance_id b))) in
  let! index := match current_bal with
                | None => new_wallet_record_index
                | Some r => ret (wallet_record_index r)
                end in
  let r := WalletRecord index b in
  let! _ := store_record r in
  modify (fun d => d <| balances ::= <[balance_id b := r]> |>).
Definition store_balance (r : wallet_record balance_record) : run unit :=
  let! _ := store_record r in
  modify (fun d => d <| balances ::= <[balance_id (data r) := r]> |>).

Definition store_transaction (t : wallet_record transaction_data) : run unit :=
  let! index := if wallet_record_index t =? 0 then new_wallet_record_index
                else ret (wallet_record_index t) in
  let t := WalletRecord index (data t) in
  let! _ := store_record t in
  modify (fun d => d <| transactions ::= <[trx_id (data_trx (data t)) := t]> |>).

Definition cache_transaction (trx : signed_transaction) (amount : asset) (fees : Z)
    (memo : list Z) (to_key created received from_key : Z) (extra : list Z)
    : run (wallet_record transaction_data) :=
  let! itr := reads (fun d => Ok (transactions d !! trx_id trx)) in
  let old := default wallet_transaction_default itr in
  let! index := if wallet_record_index old =? 0 then new_wallet_record_index
                else ret (wallet_record_index old) in
  let r := WalletRecord index (TransactionData trx (trx_id trx) (Some to_key) (Some from_key)
    amount fees memo (data_block_num (data old)) created received (transmit_count (data old)) extra) in
  let! _ := store_record r in
  let! _ := modify (fun d => d <| transactions ::= <[trx_id trx := r]> |>) in
  ret r.

(** The element that the loop is at is erased, and then the next one is looked for. *)
Definition clear_pending_transactions : run unit :=
  let! pending := reads (fun d =>
    Ok (existsb (fun t => data_block_num (data t.2) =? 0) (items (transactions d)))) in
  if pending then raise undefined_behaviour else ret tt.

(** ** Accounts *)
Definition load_account_record (r : wallet_record account) : run unit :=
  let index := wallet_record_index r in
  let! _ := modify (fun d => d <| accounts ::= <[index := r]> |>) in
  let! _ := reads (fun d =>
    FC_ASSERT (bool_decide (address_to_account_index d !! account_address (data r) = None))) in
  let! _ := modify (fun d => d <| address_to_account_index ::= <[account_address (data r) := index]> |>) in
  let id := account_id (chain_account (data r)) in
  let! _ :=
    if id =? 0 then ret tt
    else
      let! _ := reads (fun d =>
        match account_id_to_index d !! id with
        | Some i => FC_ASSERT (i =? index)
        | None => Ok tt
        end) in
      modify (fun d => d <| account_id_to_index ::= <[id := index]> |>) in
  let name := account_name (chain_account (data r)) in
  let! _ := reads (fun d => FC_ASSERT (bool_decide (name_to_account_index d !! name = None))) in
  modify (fun d => d <| name_to_account_index ::= <[name := index]> |>).

Definition load_key_record (r : wallet_record key_data) : run unit :=
  let! _ := reads (fun d => FC_ASSERT (bool_decide (keys d !! key_address (data r) = None))) in
  let! _ := modify (fun d => d <| keys ::= <[key_address (data r) := r]> |>) in
  modify (index_key (public_key_of (data r)) (key_address (data r))).

(** The end of both functions that add a contact: the key of the account is stored. A key that
    is known gets its account on the disk only. *)
Definition add_contact_key (lookup key_of_record account_of_key : Z) : run unit :=
  let! current_key := reads (fun d => Ok (lookup_key d (address_of_key lookup))) in
  match current_key with
  | Some k => store_record (on_data (fun k => k <| key_account_address := account_of_key |>) k)
  | None =>
      let! index := new_wallet_record_index in
      let new_key := WalletRecord index (key_data_default
        <| key_account_address := account_of_key |> <| public_key_of := key_of_record |>) in
      let! _ := load_key_record new_key in
      store_key (data new_key)
  end.

(** [add_contact_account( const account_record&, ... )]. *)
Definition add_registered_contact (blockchain_account : account_record) (private_data : variant)
    : run unit :=
  let a := address_of_key (owner_key blockchain_account) in
  let! index := new_wallet_record_index in
  let war := WalletRecord index (Account blockchain_account a private_data 0) in
  let! _ := store_record war in
  let! _ := load_account_record war in
  add_contact_key (owner_key blockchain_account) (active_key blockchain_account) a.

(** [add_contact_account( const string&, const public_key_type&, ... )]. *)
Definition add_contact_account (clock : Z) (name : string) (key : Z) (private_data : variant)
    : run unit :=
  let! _ := reads (fun d => FC_ASSERT (bool_decide (name_to_account_index d !! name = None))) in
  let! _ := reads (fun d =>
    FC_ASSERT (bool_decide (address_to_account_index d !! address_of_key key = None))) in
  let war := AccountRecord 0 name variant_null key [] 0 0 None None in
  let! war := reads (fun d => set_active_key clock key war) in
  let! index := new_wallet_record_index in
  let war := WalletRecord index (Account war (address_of_key key) private_data 0) in
  let! _ := store_record war in
  let! _ := load_account_record war in
  add_contact_key key key (address_of_key key).

(** What was indexed stays indexed by the id. *)
Definition remove_contact_account (name : string) : run unit :=
  let! opt_account := reads (fun d => lookup_account_by_name d name) in
  let! acct := reads (fun d => value_or_throw opt_account assert_exception) in
  let a := address_of_key (owner_key (chain_account (data acct))) in
  let! _ := reads (fun d => FC_ASSERT (negb (db_has_private_key d a))) in
  let! _ := modify (fun d => d <| accounts ::= delete (wallet_record_index acct) |>) in
  let! _ := remove_item (wallet_record_index acct) in
  let addresses := a :: map (fun tk => address_of_key tk.2) (active_key_history (chain_account (data acct))) in
  modify (fun d =>
    d <| keys ::= fun m => foldl (fun m a => delete a m) m addresses |>
      <| address_to_account_index ::= fun m => foldl (fun m a => delete a m) m addresses |>
      <| name_to_account_index ::= delete name |>).

(** Nothing is stored. *)
Definition rename_account (old_name new_name : string) : run unit :=
  let! _ := reads (fun d => FC_ASSERT (is_open d)) in
  let! opt_old_acct := reads (fun d => lookup_account_by_name d old_name) in
  let! acct := reads (fun d => value_or_throw opt_old_acct assert_exception) in
  let r := chain_account (data acct) in
  let renamed := AccountRecord (account_id r) new_name (account_public_data r) (owner_key r)
    (active_key_history r) (account_registration_date r) (account_last_update r)
    (delegate_info r) (meta_data r) in
  let acct := on_data (fun a => a <| chain_account := renamed |>) acct in
  let index := wallet_record_index acct in
  let addresses := address_of_key (owner_key r) ::
                   map (fun tk => address_of_key tk.2) (active_key_history r) in
  modify (fun d =>
    d <| name_to_account_index ::= fun m => delete old_name (<[new_name := index]> m) |>
      <| accounts ::= <[index := acct]> |>
      <| address_to_account_index ::= fun m => foldl (fun m a => <[a := index]> m) m addresses |>).

Definition cache_account (war : wallet_record account) : run unit :=
  let index := wallet_record_index war in
  let! _ := modify (fun d => d <| accounts ::= <[index := war]> |>) in
  let r := chain_account (data war) in
  let! _ :=
    if account_id r =? 0 then ret tt
    else modify (fun d =>
      d <| account_id_to_index ::= <[account_id r := index]> |>
        <| name_to_account_index ::= <[account_name r := index]> |>) in
  store_record war.

(** ** Opening and closing *)
Definition load_record (r : generic_wallet_record) : run unit :=
  match r with
  | master_key_record r =>
      let! _ := reads (fun d => FC_ASSERT (bool_decide (wallet_master_key d = None))) in
      modify (fun d => d <| wallet_master_key := Some r |>)
  | wallet_account_record r => load_account_record r
  | key_record r => load_key_record r
  | property_record r =>
      let! _ := reads (fun d =>
        FC_ASSERT (bool_decide (properties d !! property_key (data r) = None))) in
      modify (fun d => d <| properties ::= <[property_key (data r) := r]> |>)
  | wallet_balance_record r => modify (fun d => d <| balances ::= <[balance_id (data r) := r]> |>)
  | wallet_transaction_record r =>
      let! _ := reads (fun d =>
        FC_ASSERT (bool_decide (transactions d !! trx_id (data_trx (data r)) = None))) in
      modify (fun d => d <| transactions ::= <[trx_id (data_trx (data r)) := r]> |>)
  end.

(** From [begin()] on; a record that is refused is left out. *)
Definition index_le (a b : Z * generic_wallet_record) : Prop := a.1 <= b.1.
#[export] Instance index_le_dec a b : Decision (index_le a b).
Proof. unfold index_le. apply _. Defined.
Definition in_index_order (m : directory) : list (Z * generic_wallet_record) :=
  merge_sort index_le (map_to_list m).

Definition open (path : string) : run unit :=
  let! _ := modify (fun d =>
    d <| directories ::= fun m => <[path := default ∅ (m !! path)]> m |>
      <| open_directory := Some path |>) in
  let! entries := reads (fun d => Ok (in_index_order (records d))) in
  run_each (fun e => try_catch (load_record e.2) (fun _ => ret tt)) entries.

(** [btc_to_bts_address] and [market_orders] are not cleared. *)
Definition close : run unit :=
  modify (fun d => WalletDb (directories d) None None ∅ (btc_to_bts_address d) ∅ ∅ ∅
                     (market_orders d) ∅ ∅ ∅ ∅).

(** What [wallet::create_file] writes into a new directory; then it opens it again. *)
Definition write_new_wallet (path : string) (new_master_key : master_key) (head_block_num fee : Z)
    : run unit :=
  let! _ := set_property last_unlocked_scanned_block_number (variant_int head_block_num) in
  let! _ := set_property default_transaction_priority_fee (variant_int fee) in
  let! _ := store_record (WalletRecord (-1) new_master_key) in
  let! _ := close in
  open path.
End WalletDb.
