(* ===== verification/WalletStored.v ===== *)
(** A map in memory and the records that are stored of it, and that the operations of the
    database of the wallet keep the two the same, up to what the source stores only or changes
    in memory only: the account of a key, the registered part and the private data of an
    account, and balances that were dropped. *)
From S2P Require Import Prelude Errors WalletDb.

(** ** A map in memory and the stored records of its kind *)
Section Mirror.
Context {K T O : Type} `{Countable K}.
Context (key : wallet_record T -> K) (obs : wallet_record T -> O).
Context (obs_index : forall r r', obs r = obs r' -> wallet_record_index r = wallet_record_index r')
  (obs_key : forall r r', obs r = obs r' -> key r = key r').
Implicit Types (m : gmap K (wallet_record T)) (s : gmap Z (wallet_record T)).

Record mirror m s : Prop := {
  stored_index i r : s !! i = Some r -> wallet_record_index r = i;
  memory_stored a r : m !! a = Some r ->
    key r = a /\ exists r', s !! wallet_record_index r = Some r' /\ obs r' = obs r;
  stored_memory i r' : s !! i = Some r' -> exists r, m !! key r' = Some r /\ obs r' = obs r
}.

Lemma mirror_empty : mirror ∅ ∅.
Proof. split; intros *; rewrite lookup_empty; discriminate. Qed.

(** Two records in memory do not share an index. *)
Lemma mirror_inj m s a a' r r' :
  mirror m s -> m !! a = Some r -> m !! a' = Some r' ->
  wallet_record_index r = wallet_record_index r' -> a = a'.
Proof.
  intros Hm Hr Hr' E. destruct (memory_stored _ _ Hm a r Hr) as (<- & s1 & H1 & E1).
  destruct (memory_stored _ _ Hm a' r' Hr') as (<- & s2 & H2 & E2).
  rewrite E in H1. assert (s1 = s2) as -> by congruence. apply obs_key. congruence.
Qed.

(** A record is stored and put in memory, under a new index or the one it had. *)
Lemma mirror_put m s r r' :
  mirror m s -> obs r' = obs r ->
  (m !! key r = None /\ s !! wallet_record_index r = None) \/
  (exists r0, m !! key r = Some r0 /\ wallet_record_index r0 = wallet_record_index r) ->
  mirror (<[key r := r]> m) (<[wallet_record_index r := r']> s).
Proof.
  intros Hm Ho Hold. pose proof (obs_index _ _ Ho) as Ei. pose proof (obs_key _ _ Ho) as Ek.
  split.
  - intros i r1. rewrite lookup_insert_Some. intros [[<- <-]|[_ ?]]; [done|].
    by eapply stored_index.
  - intros a r1. rewrite lookup_insert_Some. intros [[<- <-]|[Hne Hr]].
    { split; [done|]. exists r'. by rewrite lookup_insert_eq. }
    destruct (memory_stored _ _ Hm a r1 Hr) as (Ea & r1' & H1 & E1).
    split; [done|]. exists r1'. split; [|done]. rewrite lookup_insert_ne; [done|]. intros E.
    destruct Hold as [[_ Hf]|(r0 & H0 & E0)]; [congruence|].
    apply Hne. eapply mirror_inj; [done..|]. congruence.
  - intros i r1. rewrite lookup_insert_Some. intros [[<- <-]|[Hne Hr]].
    { exists r. by rewrite Ek, lookup_insert_eq. }
    destruct (stored_memory _ _ Hm i r1 Hr) as (r2 & H2 & E2). exists r2. split; [|done].
    rewrite lookup_insert_ne; [done|]. intros E. pose proof (stored_index _ _ Hm _ _ Hr) as E3.
    rewrite <- E in H2. destruct Hold as [[Hn _]|(r0 & H0 & E0)]; [congruence|].
    apply Hne. rewrite <- E3, <- E0, (obs_index _ _ E2). congruence.
Qed.

(** Only one of the two changes, and not in what is observed. *)
Lemma mirror_store m s i r0 r' :
  mirror m s -> s !! i = Some r0 -> obs r' = obs r0 -> mirror m (<[i := r']> s).
Proof.
  intros Hm H0 Ho. pose proof (stored_index _ _ Hm _ _ H0) as Ei.
  assert (H1 : m !! key r' = m !! key r0) by by rewrite (obs_key _ _ Ho).
  split.
  - intros j r1. rewrite lookup_insert_Some. intros [[<- <-]|[_ ?]]; [|by eapply stored_index].
    rewrite <- Ei. by apply obs_index.
  - intros a r1 Hr. destruct (memory_stored _ _ Hm a r1 Hr) as (Ea & r1' & H2 & E2).
    split; [done|]. destruct (decide (i = wallet_record_index r1)) as [->|Hne].
    + exists r'. rewrite lookup_insert_eq. split; [done|]. congruence.
    + exists r1'. by rewrite lookup_insert_ne.
  - intros j r1. rewrite lookup_insert_Some. intros [[<- <-]|[_ Hr]]; [|by eapply stored_memory].
    destruct (stored_memory _ _ Hm _ _ H0) as (r2 & H2 & E2). exists r2.
    rewrite H1. split; [done|]. congruence.
Qed.

Lemma mirror_memory m s r0 r :
  mirror m s -> m !! key r = Some r0 -> obs r = obs r0 -> mirror (<[key r := r]> m) s.
Proof.
  intros Hm H0 Ho. destruct (memory_stored _ _ Hm _ _ H0) as (_ & r0' & H1 & E1).
  assert (Ei : wallet_record_index r = wallet_record_index r0) by by apply obs_index.
  replace s with (<[wallet_record_index r := r0']> s) by (apply insert_id; congruence).
  apply mirror_put; [done|congruence|]. right. by exists r0.
Qed.

(** Going through the stored records rebuilds the memory, when [step] puts a record in that is
    new: each is found again. *)
Definition loads (sel : generic_wallet_record -> option (wallet_record T))
    (step : gmap K (wallet_record T) -> generic_wallet_record -> gmap K (wallet_record T)) : Prop :=
  forall m g, match sel g with
              | Some r => m !! key r = None -> step m g = <[key r := r]> m
              | None => step m g = m
              end.

Lemma loads_all sel step (l : list (Z * generic_wallet_record)) m :
  loads sel step -> NoDup l ->
  (forall e e' r r', e ∈ l -> e' ∈ l -> sel e.2 = Some r -> sel e'.2 = Some r' -> key r = key r' -> e = e') ->
  (forall e r, e ∈ l -> sel e.2 = Some r -> m !! key r = None) ->
  forall a r, foldl (fun m e => step m e.2) m l !! a = Some r <->
    m !! a = Some r \/ exists e, e ∈ l /\ sel e.2 = Some r /\ key r = a.
Proof.
  intros Hs Hd. revert m. induction Hd as [|e l He Hd IH]; intros m Hu Hf a r; cbn [foldl].
  { split; [by left|]. intros [?|(e & []%elem_of_nil & _)]. done. }
  pose proof (Hs m e.2) as Estep. pose proof (Hf e) as Hfe. destruct (sel e.2) as [r1|] eqn:E1.
  - rewrite Estep by (by apply Hfe; [left|]). rewrite IH.
    + rewrite lookup_insert_Some. setoid_rewrite elem_of_cons. split.
      * intros [[[<- <-]|[_ ?]]|(e' & ? & ?)]; [right; exists e|by left|right; exists e']; auto.
      * intros [Hr|(e' & [->|Hin] & E' & <-)].
        -- left. right. split; [|done]. intros <-. rewrite (Hfe r1 ltac:(left) eq_refl) in Hr. done.
        -- left. left. by split; congruence.
        -- right. by exists e'.
    + intros e1 e2 r2 r3 H1 H2. apply Hu; by right.
    + intros e' r' Hin E'. rewrite lookup_insert_ne; [by eapply Hf; [right|]|].
      intros Ek. assert (e = e') as -> by (eapply (Hu e e'); [left|by right|done..]). done.
  - rewrite Estep, IH.
    + setoid_rewrite elem_of_cons. naive_solver.
    + intros e1 e2 r2 r3 H1 H2. apply Hu; by right.
    + intros e' r' Hin. apply Hf. by right.
Qed.

(** The records stored in a directory. *)
Section Reload.
Context (sel : generic_wallet_record -> option (wallet_record T)).
Context (step : gmap K (wallet_record T) -> generic_wallet_record -> gmap K (wallet_record T)).
Context (s : gmap Z generic_wallet_record) (l : list (Z * generic_wallet_record)) (m : gmap K (wallet_record T)).
Context (Hs : loads sel step) (Hl : l ≡ₚ map_to_list s) (Hm : mirror m (omap sel s)).
Definition reloaded : gmap K (wallet_record T) := foldl (fun m e => step m e.2) ∅ l.

Lemma reloaded_stored a r : reloaded !! a = Some r <-> exists i, omap sel s !! i = Some r /\ key r = a.
Proof.
  assert (Hin : forall i g, (i, g) ∈ l <-> s !! i = Some g)
    by (intros i g; by rewrite Hl, elem_of_map_to_list).
  unfold reloaded. rewrite (loads_all sel step l ∅ Hs).
  - rewrite lookup_empty. split.
    + intros [?|([i g] & He & Hr & Ek)]; [done|]. apply Hin in He. exists i. split; [|done].
      rewrite lookup_omap, He. exact Hr.
    + intros (i & (g & Hg & Hr)%lookup_omap_Some & Ek). right. exists (i, g). by rewrite Hin.
  - rewrite Hl. apply NoDup_map_to_list.
  - intros [i g] [i' g'] r1 r2 H1 H2 E1 E2 Ek. cbn in E1, E2. apply Hin in H1, H2.
    assert (S1 : omap sel s !! i = Some r1) by (rewrite lookup_omap, H1; exact E1).
    assert (S2 : omap sel s !! i' = Some r2) by (rewrite lookup_omap, H2; exact E2).
    destruct (stored_memory _ _ Hm i r1 S1) as (q1 & Q1 & O1).
    destruct (stored_memory _ _ Hm i' r2 S2) as (q2 & Q2 & O2).
    assert (i = i') as ->; [|congruence].
    rewrite <- (stored_index _ _ Hm i r1), <- (stored_index _ _ Hm i' r2) by done.
    rewrite (obs_index _ _ O1), (obs_index _ _ O2). congruence.
  - intros. apply lookup_empty.
Qed.

Lemma reloaded_same a : obs <$> (reloaded !! a) = obs <$> (m !! a).
Proof.
  destruct (reloaded !! a) as [r|] eqn:E.
  - apply reloaded_stored in E as (i & Hr & <-).
    destruct (stored_memory _ _ Hm i r Hr) as (q & -> & Eo). cbn. by rewrite Eo.
  - destruct (m !! a) as [q|] eqn:Eq; [|done]. exfalso.
    destruct (memory_stored _ _ Hm a q Eq) as (<- & q' & Hq & Eo).
    assert (Hbad : reloaded !! key q = Some q').
    { apply reloaded_stored. exists (wallet_record_index q). split; [done|]. by apply obs_key. }
    congruence.
Qed.

Lemma reloaded_mirror : mirror reloaded (omap sel s).
Proof.
  split.
  - apply (stored_index _ _ Hm).
  - intros a r (i & Hr & <-)%reloaded_stored. split; [done|]. exists r.
    by rewrite (stored_index _ _ Hm i r).
  - intros i r Hr. exists r. split; [|done]. apply reloaded_stored. by exists i.
Qed.
End Reload.
End Mirror.

(** ** The observations *)
Definition key_of_key `{Fc} (r : wallet_record key_data) : Z := key_address (data r).
Definition vault (r : wallet_record key_data) : Z * Z * list Z * option (list Z) :=
  (wallet_record_index r, public_key_of (data r), encrypted_private_key (data r), key_memo (data r)).
Definition contact (r : wallet_record account) : Z * Z * Z :=
  (wallet_record_index r, account_address (data r), trust_level (data r)).
Definition key_of_transaction `{FcTransaction} (r : wallet_record transaction_data) : Z :=
  trx_id (data_trx (data r)).
Definition key_of_property (r : wallet_record wallet_property) : property_enum :=
  property_key (data r).
Definition id_of_balance `{Fc} (r : wallet_record balance_record) : Z := balance_id (data r).

(** * What is stored of the wallet, and what is in memory *)

(** ** The stored records of one kind *)
Definition sel_master g := match g with master_key_record r => Some r | _ => None end.
Definition sel_account g := match g with wallet_account_record r => Some r | _ => None end.
Definition sel_key g := match g with key_record r => Some r | _ => None end.
Definition sel_transaction g := match g with wallet_transaction_record r => Some r | _ => None end.
Definition sel_balance g := match g with wallet_balance_record r => Some r | _ => None end.
Definition sel_property g := match g with property_record r => Some r | _ => None end.
Definition kind (g : generic_wallet_record) : Z :=
  match g with
  | master_key_record _ => 0 | wallet_account_record _ => 1 | key_record _ => 2
  | wallet_transaction_record _ => 3 | wallet_balance_record _ => 6 | property_record _ => 7
  end.

(** An index that is free or holds a record of the same kind. *)
Definition slot (i : Z) (g : generic_wallet_record) (s : directory) : Prop :=
  forall g0, s !! i = Some g0 -> kind g0 = kind g.

Section View.
Context {T : Type} (sel : generic_wallet_record -> option (wallet_record T)).
Context (sel_kind : forall g g', kind g = kind g' -> sel g = None -> sel g' = None).

Lemma view_insert i g r (s : directory) :
  sel g = Some r -> omap sel (<[i := g]> s) = <[i := r]> (omap sel s).
Proof. intros Hs. by rewrite (omap_insert_Some _ _ _ _ r). Qed.
Lemma view_insert_other i g (s : directory) :
  sel g = None -> slot i g s -> omap sel (<[i := g]> s) = omap sel s.
Proof.
  intros Hs Hslot. rewrite omap_insert_None by done. apply delete_id.
  rewrite lookup_omap. destruct (s !! i) as [g0|] eqn:E; [|done]. cbn.
  apply (sel_kind g); [symmetry; by apply Hslot|done].
Qed.
End View.

Lemma records_set d f : is_open d = true -> records (set_records f d) = f (records d).
Proof.
  unfold is_open, records, set_records. destruct (open_directory d) as [path|] eqn:E; [|done].
  intros _. cbn. rewrite E, lookup_insert_eq. done.
Qed.

(** ** Balances: those in memory are stored, last under their id *)
Section Balances.
Context `{Fc}.
Implicit Types (m s : gmap Z (wallet_record balance_record)).
Record balances_kept m s : Prop := {
  balance_index i b : s !! i = Some b -> wallet_record_index b = i;
  balance_stored id b : m !! id = Some b -> id_of_balance b = id /\ s !! wallet_record_index b = Some b;
  balance_last id b i b' : m !! id = Some b -> s !! i = Some b' -> id_of_balance b' = id ->
    i <= wallet_record_index b
}.

Lemma balances_put m s b :
  balances_kept m s ->
  (s !! wallet_record_index b = None /\ m !! id_of_balance b = None /\
     forall i, is_Some (s !! i) -> i < wallet_record_index b) \/
  (exists b0, m !! id_of_balance b = Some b0 /\ wallet_record_index b0 = wallet_record_index b) ->
  balances_kept (<[id_of_balance b := b]> m) (<[wallet_record_index b := b]> s).
Proof.
  intros Hk Hold. split.
  - intros i b'. rewrite lookup_insert_Some. intros [[<- <-]|[_ ?]]; [done|]. by eapply balance_index.
  - intros id b'. rewrite lookup_insert_Some. intros [[<- <-]|[Hne Hb]].
    { by rewrite lookup_insert_eq. }
    destruct (balance_stored _ _ Hk id b' Hb) as [E1 E2]. split; [done|].
    rewrite lookup_insert_ne; [done|]. intros E.
    destruct Hold as [(Hf & _)|(b0 & H0 & E0)]; [congruence|].
    destruct (balance_stored _ _ Hk _ b0 H0) as [E3 E4]. congruence.
  - intros id b1 i b'. rewrite !lookup_insert_Some. intros [[<- <-]|[Hne Hb]] [[<- <-]|[Hne' Hb']] E.
    + lia.
    + destruct Hold as [(_ & _ & Hlt)|(b0 & H0 & E0)].
      * specialize (Hlt i ltac:(eauto)). lia.
      * pose proof (balance_last _ _ Hk _ b0 i b' H0 Hb' E). lia.
    + done.
    + by eapply balance_last.
Qed.

Lemma balances_drop m s id : balances_kept m s -> balances_kept (delete id m) s.
Proof.
  intros Hk. split; [apply Hk| |].
  - intros i b [_ Hb]%lookup_delete_Some. by eapply balance_stored.
  - intros i b j b' [_ Hb]%lookup_delete_Some. by eapply balance_last.
Qed.
End Balances.

(** ** The invariant *)
Section Kept.
Context `{FC : Fc} `{FT : FcTransaction} `{FK : FcKeys} `{FP : FcPrivate} `{HO : HashOrder}.
Implicit Types d : wallet_db.

(** The next index is [n]; no index from [n] on is used, -1 by the master key only. *)
Definition next_is (n : Z) d : Prop :=
  match properties d !! next_record_number with
  | Some p => wallet_record_index p = 1 /\ property_value (data p) = variant_int n /\
      2 <= n /\ forall i g, records d !! i = Some g -> i = -1 /\ kind g = 0 \/ 1 <= i < n
  | None => n = 2 /\ forall i g, records d !! i = Some g -> i = -1 /\ kind g = 0
  end.

Definition stored_form (r : wallet_record transaction_data) : wallet_record transaction_data :=
  on_data reflected_transaction r.

Record kept (n : Z) d : Prop := {
  kept_open : is_open d = true;
  kept_next : next_is n d;
  kept_master : omap sel_master (records d) =
    match wallet_master_key d with Some m => {[-1 := m]} | None => ∅ end;
  kept_keys : mirror key_of_key vault (keys d) (omap sel_key (records d));
  kept_accounts : mirror wallet_record_index contact (accounts d) (omap sel_account (records d));
  kept_transactions :
    mirror key_of_transaction stored_form (transactions d) (omap sel_transaction (records d));
  kept_properties : mirror key_of_property id (properties d) (omap sel_property (records d));
  kept_balances : balances_kept (balances d) (omap sel_balance (records d))
}.

Lemma vault_index r r' : vault r = vault r' -> wallet_record_index r = wallet_record_index r'.
Proof. unfold vault. congruence. Qed.
Lemma vault_key r r' : vault r = vault r' -> key_of_key r = key_of_key r'.
Proof. unfold vault, key_of_key, key_address. congruence. Qed.
Lemma contact_index r r' : contact r = contact r' -> wallet_record_index r = wallet_record_index r'.
Proof. unfold contact. congruence. Qed.
Lemma stored_form_index r r' :
  stored_form r = stored_form r' -> wallet_record_index r = wallet_record_index r'.
Proof. unfold stored_form, on_data. congruence. Qed.
Lemma stored_form_key r r' : stored_form r = stored_form r' -> key_of_transaction r = key_of_transaction r'.
Proof. intros E. exact (f_equal (fun r => trx_id (data_trx (data r))) E). Qed.

Lemma id_index {T} (r r' : wallet_record T) : id r = id r' -> wallet_record_index r = wallet_record_index r'.
Proof. intros E. exact (f_equal wallet_record_index E). Qed.
Lemma id_key r r' : id r = id r' -> key_of_property r = key_of_property r'.
Proof. intros E. exact (f_equal key_of_property E). Qed.

(** ** Storing *)

(** The members of a database other than its directories. *)
Definition same_memory d d' : Prop :=
  open_directory d' = open_directory d /\ wallet_master_key d' = wallet_master_key d /\
  keys d' = keys d /\ accounts d' = accounts d /\ transactions d' = transactions d /\
  properties d' = properties d /\ balances d' = balances d.
Lemma set_records_memory f d : same_memory d (set_records f d).
Proof. unfold set_records. by destruct (open_directory d). Qed.

(** What the other operations leave alone: the indexes of accounts and addresses, the orders. *)
Lemma next_is_memory n d d' :
  properties d' = properties d -> records d' = records d -> next_is n d -> next_is n d'.
Proof. unfold next_is. by intros -> ->. Qed.

(** A record is stored at an index that is in use or new. *)
Lemma next_store n d i g :
  is_open d = true -> next_is n d -> slot i g (records d) ->
  is_Some (records d !! i) \/ properties d !! next_record_number <> None /\ 1 <= i < n ->
  next_is n (set_records <[i := g]> d).
Proof.
  intros Ho Hn Hslot Hi. unfold next_is in *. rewrite records_set by done.
  destruct (set_records_memory <[i := g]> d) as (_ & _ & _ & _ & _ & -> & _).
  destruct (properties d !! next_record_number) as [p|].
  - destruct Hn as (E1 & E2 & H2 & Hr). do 3 (split; [done|]). intros j g'.
    rewrite lookup_insert_Some. intros [[<- <-]|[_ Hj]]; [|by apply Hr].
    destruct Hi as [[g0 Hi]|[_ Hi]]; [|by right]. rewrite <- (Hslot g0 Hi). by apply Hr.
  - destruct Hn as [E1 Hr]. split; [done|]. intros j g'. rewrite lookup_insert_Some.
    intros [[<- <-]|[_ Hj]]; [|by apply Hr]. destruct Hi as [[g0 Hi]|[Hi _]]; [|done].
    rewrite <- (Hslot g0 Hi). by apply Hr.
Qed.

Local Ltac by_kind := by intros g1 g2; destruct g1, g2.

(** Each kind of record has its own part of the invariant. *)
Definition master_kept (o : option (wallet_record master_key)) (s : directory) : Prop :=
  omap sel_master s = match o with Some m => {[-1 := m]} | None => ∅ end.
Lemma kept_parts n d :
  kept n d <->
  is_open d = true /\ next_is n d /\ master_kept (wallet_master_key d) (records d) /\
  mirror key_of_key vault (keys d) (omap sel_key (records d)) /\
  mirror wallet_record_index contact (accounts d) (omap sel_account (records d)) /\
  mirror key_of_transaction stored_form (transactions d) (omap sel_transaction (records d)) /\
  mirror key_of_property id (properties d) (omap sel_property (records d)) /\
  balances_kept (balances d) (omap sel_balance (records d)).
Proof. split; [intros []; by split_and!|intros (? & ? & ? & ? & ? & ? & ? & ?); by constructor]. Qed.

(** The indexes in memory are in use on the disk. *)
Lemma mirror_used {K T O} `{Countable K} (key : wallet_record T -> K) (obs : wallet_record T -> O)
    m (s : directory) sel a r :
  mirror key obs m (omap sel s) -> m !! a = Some r ->
  exists g, s !! wallet_record_index r = Some g /\ is_Some (sel g).
Proof.
  intros Hm Hr. destruct (memory_stored _ _ _ _ Hm a r Hr) as (_ & r' & Hs & _).
  apply lookup_omap_Some in Hs as (g & E & Hg). exists g. split; [done|by exists r'].
Qed.

(** [d1] is [d] with some of the memory changed, and [g] is stored: what is left to show is the
    part of the kind of [g]. *)
Definition part {T M} (sel : generic_wallet_record -> option (wallet_record T)) (g : generic_wallet_record)
    (holds : M -> gmap Z (wallet_record T) -> Prop) (i : Z) (m m1 : M) (s : directory) : Prop :=
  match sel g with
  | Some r => holds m1 (<[i := r]> (omap sel s))
  | None => m1 = m
  end.
Lemma part_holds {T M} (sel : generic_wallet_record -> option (wallet_record T)) g holds i (m m1 : M) s :
  (forall g g', kind g = kind g' -> sel g = None -> sel g' = None) ->
  slot i g s -> holds m (omap sel s) -> part sel g holds i m m1 s ->
  holds m1 (omap sel (<[i := g]> s)).
Proof.
  unfold part. intros Hsel Hslot Hm Hp. destruct (sel g) as [r|] eqn:E.
  - by rewrite (view_insert _ _ _ r).
  - subst. by rewrite view_insert_other.
Qed.

Lemma kept_put n n' d d1 i g :
  kept n d -> open_directory d1 = open_directory d -> directories d1 = directories d ->
  wallet_master_key d1 = wallet_master_key d -> kind g <> 0 ->
  slot i g (records d) -> next_is n' (set_records <[i := g]> d1) ->
  part sel_key g (mirror key_of_key vault) i (keys d) (keys d1) (records d) ->
  part sel_account g (mirror wallet_record_index contact) i (accounts d) (accounts d1) (records d) ->
  part sel_transaction g (mirror key_of_transaction stored_form) i (transactions d) (transactions d1) (records d) ->
  part sel_property g (mirror key_of_property id) i (properties d) (properties d1) (records d) ->
  part sel_balance g balances_kept i (balances d) (balances d1) (records d) ->
  kept n' (set_records <[i := g]> d1).
Proof.
  intros (Ho & _ & Hm & Hk & Ha & Ht & Hp & Hb)%kept_parts Eo Ed Em Hkind Hslot Hn Pk Pa Pt Pp Pb.
  assert (Ho1 : is_open d1 = true) by (unfold is_open in *; by rewrite Eo).
  assert (Er : records (set_records <[i := g]> d1) = <[i := g]> (records d)).
  { rewrite records_set by done. unfold records. by rewrite Eo, Ed. }
  destruct (set_records_memory <[i := g]> d1) as (Eo' & Em' & Ek' & Ea' & Et' & Ep' & Eb').
  apply kept_parts. rewrite Er, Em', Ek', Ea', Et', Ep', Eb', Em.
  split; [unfold is_open in *; by rewrite Eo', Eo|]. split; [done|]. split.
  { unfold master_kept. rewrite view_insert_other; [done|by_kind|by destruct g|done]. }
  split; [eapply part_holds; [by_kind|done..]|].
  split; [eapply part_holds; [by_kind|done..]|].
  split; [eapply part_holds; [by_kind|done..]|].
  split; (eapply part_holds; [by_kind|done..]).
Qed.

(** ** The counter of indexes *)
Lemma next_below n d i : next_is n d -> is_Some (records d !! i) -> i = -1 \/ 1 <= i < n.
Proof.
  unfold next_is. intros Hn [g Hi]. destruct (properties d !! next_record_number) as [p|].
  - destruct Hn as (_ & _ & _ & Hr). destruct (Hr i g Hi) as [[? _]|?]; auto.
  - left. by apply (proj2 Hn i g).
Qed.
Lemma next_free n d : next_is n d -> records d !! n = None /\ 2 <= n.
Proof.
  intros Hn. assert (H2 : 2 <= n).
  { unfold next_is in Hn. destruct (properties d !! next_record_number); [apply Hn|destruct Hn; lia]. }
  split; [|done]. apply eq_None_not_Some. intros Hs. destruct (next_below n d n Hn Hs); lia.
Qed.

Lemma store_generic_record_ok i g d :
  is_open d = true -> i <> 0 -> store_generic_record i g d = (Ok tt, set_records <[i := g]> d).
Proof.
  intros Ho Hi. unfold store_generic_record. rewrite run_reads, Ho. cbn [FC_ASSERT negb throw_if].
  rewrite run_reads. destruct (Z.eqb_spec i 0); [done|]. reflexivity.
Qed.
Lemma store_record_ok {T} `{StoredType T} (r : wallet_record T) d :
  is_open d = true -> wallet_record_index r <> 0 ->
  store_record r d = (Ok tt, set_records <[wallet_record_index r := generic_of r]> d).
Proof.
  intros Ho Hi. unfold store_record. destruct (Z.eqb_spec (wallet_record_index r) 0); [done|].
  rewrite (run_step _ _ d (wallet_record_index r) d) by done.
  destruct r. by apply store_generic_record_ok.
Qed.

(** The counter after an index was given out. *)
Definition counter (n : Z) : wallet_record wallet_property :=
  WalletRecord 1 (WalletProperty next_record_number (variant_int n)).
Definition counted (n : Z) d : wallet_db :=
  set_records <[1 := property_record (counter n)]>
    (d <| properties ::= <[next_record_number := counter n]> |>).

Lemma new_index_run n d :
  kept n d -> n + 1 < 2 ^ 31 -> new_wallet_record_index d = (Ok n, counted (n + 1) d).
Proof.
  intros Hk Hlt. pose proof (kept_next _ _ Hk) as Hn. destruct (next_free _ _ Hn) as [_ H2].
  unfold new_wallet_record_index, get_property. rewrite run_reads. unfold next_is in Hn.
  assert (Hset : set_property_with (raise does_not_return) next_record_number
                   (variant_int (int32 (n + 1))) d = (Ok tt, counted (n + 1) d)).
  { assert (Ei : int32 (n + 1) = n + 1) by (unfold int32; rewrite Z.mod_small; lia). rewrite Ei.
    unfold set_property_with. rewrite run_reads. pose proof (kept_properties _ _ Hk) as Hp.
    assert (Hr : forall o, (properties d !! next_record_number = o) ->
      match o with
      | Some r => ret (WalletRecord (wallet_record_index r)
                    (WalletProperty (property_key (data r)) (variant_int (n + 1))))
      | None => let! index := if bool_decide (next_record_number = next_record_number) then ret 1
                              else raise does_not_return in
                ret (WalletRecord index (WalletProperty next_record_number (variant_int (n + 1))))
      end d = (Ok (counter (n + 1)), d)).
    { intros [r|] E; [|done]. rewrite E in Hn. destruct Hn as (E1 & _).
      destruct (memory_stored _ _ _ _ Hp _ _ E) as (Ek & _). unfold key_of_property in Ek.
      by rewrite E1, Ek. }
    rewrite (run_step _ _ d _ d (Hr _ eq_refl)), run_modify.
    apply store_generic_record_ok; [apply Hk|done]. }
  destruct (properties d !! next_record_number) as [p|] eqn:E.
  - destruct Hn as (_ & E2 & _). rewrite E2. rewrite bool_decide_eq_false_2 by done. cbn [as_int bind].
    rewrite run_reads. replace (int32 n) with n by (unfold int32; rewrite Z.mod_small; lia).
    by rewrite (run_step _ _ d tt _ Hset).
  - destruct Hn as [-> _]. rewrite bool_decide_eq_true_2 by done. rewrite run_reads.
    by rewrite (run_step _ _ d tt _ Hset).
Qed.

Lemma counted_kept n d : kept n d -> kept (n + 1) (counted (n + 1) d).
Proof.
  intros Hk. pose proof (kept_next _ _ Hk) as Hn. pose proof (kept_properties _ _ Hk) as Hp.
  assert (Hslot : slot 1 (property_record (counter (n + 1))) (records d)).
  { intros g Hg. unfold next_is in Hn. destruct (properties d !! next_record_number) as [p|] eqn:E.
    - destruct Hn as (E1 & _). destruct (mirror_used _ _ _ _ _ _ _ Hp E) as (g' & Hg' & Hs).
      rewrite E1 in Hg'. assert (g = g') as -> by congruence. by destruct g', Hs.
    - destruct (proj2 Hn 1 g Hg); lia. }
  unfold counted. eapply kept_put; try done.
  - unfold next_is. rewrite records_set by apply Hk.
    destruct (set_records_memory <[1 := property_record (counter (n + 1))]>
      (d <| properties ::= <[next_record_number := counter (n + 1)]> |>)) as (_ & _ & _ & _ & _ & -> & _).
    cbn [properties]. cbn. rewrite lookup_insert_eq. cbn.
    destruct (next_free _ _ Hn) as [_ H2]. do 2 (split; [done|]). split; [lia|]. intros i g.
    rewrite lookup_insert_Some. intros [[<- <-]|[_ Hi]]; [lia|]. unfold next_is in Hn.
    destruct (properties d !! next_record_number) as [p|].
    + destruct Hn as (_ & _ & _ & Hr). destruct (Hr i g Hi); [by left|right; lia].
    + left. by apply (proj2 Hn).
  - unfold part. cbn [sel_property].
    apply (mirror_put key_of_property id id_index id_key _ _
             (counter (n + 1)) (counter (n + 1)) Hp eq_refl).
    unfold key_of_property. cbn. unfold next_is in Hn.
    destruct (properties d !! next_record_number) as [p|] eqn:E; [right; exists p; split; [done|apply Hn]|].
    left. split; [done|]. rewrite lookup_omap.
    destruct (records d !! 1) as [g|] eqn:Eg; [|done]. destruct (proj2 Hn 1 g Eg); lia.
Qed.

Lemma counted_facts n d :
  kept n d ->
  records (counted (n + 1) d) !! n = None /\ properties (counted (n + 1) d) !! next_record_number <> None /\
  open_directory (counted (n + 1) d) = open_directory d /\
  wallet_master_key (counted (n + 1) d) = wallet_master_key d /\
  keys (counted (n + 1) d) = keys d /\ accounts (counted (n + 1) d) = accounts d /\
  transactions (counted (n + 1) d) = transactions d /\ balances (counted (n + 1) d) = balances d.
Proof.
  intros Hk. destruct (next_free _ _ (kept_next _ _ Hk)) as [Hf H2]. unfold counted.
  destruct (set_records_memory <[1 := property_record (counter (n + 1))]>
    (d <| properties ::= <[next_record_number := counter (n + 1)]> |>))
    as (-> & -> & -> & -> & -> & -> & ->).
  rewrite records_set by apply Hk. rewrite lookup_insert_ne by lia. split; [done|].
  split; [|done]. cbn. by rewrite lookup_insert_eq.
Qed.
End Kept.

#[export] Hint Resolve @vault_index @vault_key @contact_index @stored_form_index @stored_form_key
  @id_index @id_key : model.
