(* ===== verification/WalletPersists.v ===== *)
(** The wallet keeps what it has: whatever operations were done on the database of a wallet,
    closing and opening it again finds the master key, every key with its encrypted private
    key, every transaction, property and account, and every balance. *)
From stdpp Require Import relations sorting.
From S2P Require Import Prelude Errors WalletDb WalletStored.

Section Kept.
Context `{FC : Fc} `{FT : FcTransaction} `{FK : FcKeys} `{FP : FcPrivate} `{HO : HashOrder}.
Notation run := (run wallet_db).
Implicit Types d : wallet_db.

(** ** One record is stored and put in memory *)

(** The index is new, or that of the record under the key. *)
Definition new_or_old {K T} `{Countable K} (n : Z) d (key : wallet_record T -> K)
    (m : gmap K (wallet_record T)) (r : wallet_record T) : Prop :=
  (properties d !! next_record_number <> None /\ m !! key r = None /\
   records d !! wallet_record_index r = None /\ 1 <= wallet_record_index r < n) \/
  (exists r0, m !! key r = Some r0 /\ wallet_record_index r0 = wallet_record_index r).

Section One.
Context {K T O : Type} `{Countable K} (key : wallet_record T -> K) (obs : wallet_record T -> O).
Context (sel : generic_wallet_record -> option (wallet_record T)).

Lemma new_or_old_stored n d m r :
  mirror key obs m (omap sel (records d)) -> new_or_old n d key m r ->
  (is_Some (records d !! wallet_record_index r) \/
   properties d !! next_record_number <> None /\ 1 <= wallet_record_index r < n) /\
  (forall g, records d !! wallet_record_index r = Some g -> is_Some (sel g)) /\
  ((m !! key r = None /\ omap sel (records d) !! wallet_record_index r = None) \/
   (exists r0, m !! key r = Some r0 /\ wallet_record_index r0 = wallet_record_index r)).
Proof.
  intros Hm [(Hp & Hn & Hf & Hi)|(r0 & H0 & E0)].
  - split; [by right|]. split; [by rewrite Hf|]. left. split; [done|]. by rewrite lookup_omap, Hf.
  - destruct (mirror_used _ _ _ _ _ _ _ Hm H0) as (g & Hg & Hs). rewrite E0 in Hg.
    split; [left; by eexists|]. split; [|right; by exists r0].
    intros g' Hg'. by assert (g' = g) as -> by congruence.
Qed.
End One.

Ltac put_one Hk Hm Hold :=
  destruct (new_or_old_stored _ _ _ _ _ _ _ Hm Hold) as (Hnext & Hsel & Hput);
  eapply kept_put;
  [ exact Hk | reflexivity | reflexivity | reflexivity | discriminate
  | let g := fresh "g" in let Hg := fresh "Hg" in
    intros g Hg; destruct (Hsel g Hg); by destruct g
  | apply next_store;
    [ apply Hk | apply (next_is_memory _ _ _ eq_refl eq_refl), Hk
    | let g := fresh "g" in let Hg := fresh "Hg" in
      intros g Hg; destruct (Hsel g Hg); by destruct g
    | exact Hnext ]
  | try reflexivity..].

Lemma put_key n d k k' :
  kept n d -> vault k' = vault k -> new_or_old n d key_of_key (keys d) k ->
  kept n (set_records <[wallet_record_index k := key_record k']>
            (d <| keys ::= <[key_of_key k := k]> |>)).
Proof.
  intros Hk Hv Hold. pose proof (kept_keys _ _ Hk) as Hm. put_one Hk Hm Hold.
  by apply (mirror_put _ _ vault_index vault_key _ _ k k').
Qed.
Lemma put_transaction n d t :
  kept n d -> new_or_old n d key_of_transaction (transactions d) t ->
  kept n (set_records <[wallet_record_index t := wallet_transaction_record (stored_form t)]>
            (d <| transactions ::= <[key_of_transaction t := t]> |>)).
Proof.
  intros Hk Hold. pose proof (kept_transactions _ _ Hk) as Hm. put_one Hk Hm Hold.
  by apply (mirror_put _ _ stored_form_index stored_form_key _ _ t (stored_form t)).
Qed.
Lemma put_account n d a a' :
  kept n d -> contact a' = contact a -> new_or_old n d wallet_record_index (accounts d) a ->
  kept n (set_records <[wallet_record_index a := wallet_account_record a']>
            (d <| accounts ::= <[wallet_record_index a := a]> |>)).
Proof.
  intros Hk Hc Hold. pose proof (kept_accounts _ _ Hk) as Hm. put_one Hk Hm Hold.
  by apply (mirror_put _ _ contact_index contact_index _ _ a a').
Qed.
Lemma put_property n d p :
  kept n d -> property_key (data p) <> next_record_number ->
  new_or_old n d key_of_property (properties d) p ->
  kept n (set_records <[wallet_record_index p := property_record p]>
            (d <| properties ::= <[key_of_property p := p]> |>)).
Proof.
  intros Hk Hne Hold. pose proof (kept_properties _ _ Hk) as Hm.
  destruct (new_or_old_stored _ _ _ _ _ _ _ Hm Hold) as (Hnext & Hsel & Hput).
  assert (Elook : (properties (d <| properties ::= <[key_of_property p := p]> |>)) !! next_record_number
                  = properties d !! next_record_number) by (cbn; by rewrite lookup_insert_ne).
  eapply kept_put; [exact Hk|reflexivity|reflexivity|reflexivity|discriminate| | |reflexivity..| |reflexivity].
  - intros g Hg. destruct (Hsel g Hg). by destruct g.
  - apply next_store; [apply Hk| |intros g Hg; destruct (Hsel g Hg); by destruct g|by rewrite Elook].
    unfold next_is. rewrite Elook. apply (kept_next _ _ Hk).
  - by apply (mirror_put _ _ id_index id_key _ _ p p).
Qed.
Lemma put_balance n d b :
  kept n d -> 
  (properties d !! next_record_number <> None /\ balances d !! id_of_balance b = None /\
   records d !! wallet_record_index b = None /\ wallet_record_index b = n - 1 /\ 2 <= wallet_record_index b) \/
  (exists r0, balances d !! id_of_balance b = Some r0 /\ wallet_record_index r0 = wallet_record_index b) ->
  kept n (set_records <[wallet_record_index b := wallet_balance_record b]>
            (d <| balances ::= <[id_of_balance b := b]> |>)).
Proof.
  intros Hk Hold. pose proof (kept_balances _ _ Hk) as Hm.
  assert (Hnext : (is_Some (records d !! wallet_record_index b) \/
                   properties d !! next_record_number <> None /\ 1 <= wallet_record_index b < n) /\
    (forall g, records d !! wallet_record_index b = Some g -> is_Some (sel_balance g)) /\
    ((omap sel_balance (records d) !! wallet_record_index b = None /\ balances d !! id_of_balance b = None /\
      forall i, is_Some (omap sel_balance (records d) !! i) -> i < wallet_record_index b) \/
     (exists b0, balances d !! id_of_balance b = Some b0 /\ wallet_record_index b0 = wallet_record_index b))).
  { destruct Hold as [(Hp & Hn & Hf & Hi & H2)|(r0 & H0 & E0)].
    - split; [right; split; [done|lia]|]. split; [by rewrite Hf|]. left.
      split; [by rewrite lookup_omap, Hf|]. split; [done|]. intros i [b' Hb'].
      apply lookup_omap_Some in Hb' as (g & _ & Hg).
      destruct (next_below _ _ i (kept_next _ _ Hk) ltac:(eauto)) as [->|Hlt]; [lia|].
      destruct (decide (i = wallet_record_index b)) as [->|]; [congruence|lia].
    - destruct (balance_stored _ _ Hm _ r0 H0) as [_ Hs]. rewrite E0 in Hs.
      apply lookup_omap_Some in Hs as (g & Hg & Hs). rewrite Hs.
      split; [left; by eexists|]. split; [|right; by exists r0].
      intros g' Hg'. assert (g' = g) as -> by congruence. by eexists. }
  destruct Hnext as (Hnext & Hsel & Hput). eapply kept_put;
    [exact Hk|reflexivity|reflexivity|reflexivity|discriminate| | |reflexivity..|].
  - intros g Hg. destruct (Hsel g Hg). by destruct g.
  - apply next_store; [apply Hk|apply (next_is_memory _ _ _ eq_refl eq_refl), Hk| |exact Hnext].
    intros g Hg. destruct (Hsel g Hg). by destruct g.
  - by apply balances_put.
Qed.

(** ** One record is stored, or changed in memory, only *)
Lemma store_key_only n d a k k' :
  kept n d -> keys d !! a = Some k -> vault k' = vault k ->
  kept n (set_records <[wallet_record_index k := key_record k']> d).
Proof.
  intros Hk Ha Hv. pose proof (kept_keys _ _ Hk) as Hm.
  destruct (memory_stored _ _ _ _ Hm a k Ha) as (_ & k0 & Hs & Ev).
  pose proof Hs as Hs'. apply lookup_omap_Some in Hs' as (g & Eg & Hg).
  eapply (kept_put n n d d); [exact Hk|reflexivity|reflexivity|reflexivity|discriminate| | | |reflexivity..].
  - intros g' Hg'. assert (g' = g) as -> by congruence. by destruct g.
  - apply next_store; [apply Hk|apply Hk| |left; by eexists].
    intros g' Hg'. assert (g' = g) as -> by congruence. by destruct g.
  - apply (mirror_store _ _ vault_index vault_key _ _ _ k0); [done..|congruence].
Qed.
Lemma store_account_only n d i a a' :
  kept n d -> accounts d !! i = Some a -> contact a' = contact a ->
  kept n (set_records <[wallet_record_index a := wallet_account_record a']> d).
Proof.
  intros Hk Ha Hv. pose proof (kept_accounts _ _ Hk) as Hm.
  destruct (memory_stored _ _ _ _ Hm i a Ha) as (_ & a0 & Hs & Ev).
  pose proof Hs as Hs'. apply lookup_omap_Some in Hs' as (g & Eg & Hg).
  eapply (kept_put n n d d); [exact Hk|reflexivity|reflexivity|reflexivity|discriminate| | |reflexivity| |reflexivity..].
  - intros g' Hg'. assert (g' = g) as -> by congruence. by destruct g.
  - apply next_store; [apply Hk|apply Hk| |left; by eexists].
    intros g' Hg'. assert (g' = g) as -> by congruence. by destruct g.
  - apply (mirror_store _ _ contact_index contact_index _ _ _ a0); [done..|congruence].
Qed.

(** The members the invariant does not look at. *)
Lemma kept_other n d d' :
  directories d' = directories d -> same_memory d d' -> kept n d -> kept n d'.
Proof.
  intros Ed (Eo & Em & Ek & Ea & Et & Ep & Eb) Hk. apply kept_parts in Hk as Hk'.
  assert (Er : records d' = records d) by (unfold records; by rewrite Eo, Ed).
  apply kept_parts. rewrite Er, Em, Ek, Ea, Et, Ep, Eb. unfold is_open. rewrite Eo.
  destruct Hk' as (? & ? & ?). split; [done|]. split; [|done]. by eapply next_is_memory.
Qed.
Lemma index_key_kept n key a d : kept n d -> kept n (index_key key a d).
Proof. by apply kept_other. Qed.
Lemma rename_kept n d a a0 :
  kept n d -> accounts d !! wallet_record_index a = Some a0 -> contact a = contact a0 ->
  kept n (d <| accounts ::= <[wallet_record_index a := a]> |>).
Proof.
  intros Hk Ha Hc. pose proof Hk as (Ho & Hn & Hm & Hke & Hac & Ht & Hp & Hb)%kept_parts.
  apply kept_parts. do 4 (split; [done|]). split; [|done].
  by apply (mirror_memory _ _ contact_index contact_index _ _ a0).
Qed.
Lemma drop_kept n d id : kept n d -> kept n (d <| balances ::= delete id |>).
Proof.
  intros Hk. pose proof Hk as (Ho & Hn & Hm & Hke & Hac & Ht & Hp & Hb)%kept_parts.
  apply kept_parts. do 7 (split; [done|]). by apply balances_drop.
Qed.

(** ** Computations that keep the invariant and take at most [k] indexes *)
Definition safe_from {A} (n k : Z) (m : run A) d : Prop :=
  n + k < 2 ^ 31 -> forall r d', m d = (r, d') -> exists n', n <= n' <= n + k /\ kept n' d'.
Definition safe_at {A} (k : Z) (m : run A) d : Prop := forall n, kept n d -> safe_from n k m d.

Lemma safe_state {A} k (m : run A) d r d' :
  0 <= k -> m d = (r, d') -> (forall n, kept n d -> kept n d') -> safe_at k m d.
Proof. intros Hk E Hd n Hn _ r1 d1 E1. exists n. split; [lia|]. rewrite E in E1. injection E1 as <- <-. auto. Qed.
Lemma safe_same {A} k (m : run A) d : 0 <= k -> snd (m d) = d -> safe_at k m d.
Proof.
  intros Hk E. destruct (m d) as [r d'] eqn:Em. cbn in E. subst.
  by eapply safe_state.
Qed.
Lemma safe_bind_from {A B} n k1 k2 (m : run A) (f : A -> run B) d :
  0 <= k2 -> safe_from n k1 m d -> (forall a d1, m d = (Ok a, d1) -> safe_at k2 (f a) d1) ->
  safe_from n (k1 + k2) (run_bind m f) d.
Proof.
  intros H2 Hm Hf Hlt r d' E. unfold run_bind in E.
  destruct (m d) as [[a|e] d1] eqn:Em; destruct (Hm ltac:(lia) _ _ Em) as (n1 & Hn1 & Hk1).
  - destruct (Hf a d1 eq_refl n1 Hk1 ltac:(lia) _ _ E) as (n2 & Hn2 & Hk2). exists n2. split; [lia|done].
  - injection E as <- <-. exists n1. split; [lia|done].
Qed.
Lemma safe_bind {A B} k1 k2 (m : run A) (f : A -> run B) d :
  0 <= k2 -> safe_at k1 m d -> (forall a d1, m d = (Ok a, d1) -> safe_at k2 (f a) d1) ->
  safe_at (k1 + k2) (run_bind m f) d.
Proof. intros H2 Hm Hf n Hn. apply safe_bind_from; [done|by apply Hm|done]. Qed.
Lemma safe_reads {A B} k (g : wallet_db -> result A) (f : A -> run B) d :
  0 <= k -> (forall a, g d = Ok a -> safe_at k (f a) d) -> safe_at k (run_bind (reads g) f) d.
Proof.
  intros Hk Hf n Hn. unfold safe_from. rewrite run_reads. destruct (g d) as [a|e] eqn:E.
  - by apply Hf.
  - intros _ r d' [= <- <-]. exists n. split; [lia|done].
Qed.
Lemma safe_modify {B} k g (f : unit -> run B) d :
  (forall n, kept n d -> kept n (g d)) -> safe_at k (f tt) (g d) -> safe_at k (run_bind (modify g) f) d.
Proof. intros Hg Hf n Hn. unfold safe_from. rewrite run_modify. by apply Hf, Hg. Qed.

Lemma run_ret {A B} (a : A) (f : A -> run B) d : run_bind (ret a) f d = f a d.
Proof. reflexivity. Qed.
(** After a new index is taken. *)
Definition after_new_index (n : Z) d d1 : Prop :=
  kept (n + 1) d1 /\ 2 <= n /\ records d1 !! n = None /\ properties d1 !! next_record_number <> None /\
  keys d1 = keys d /\ accounts d1 = accounts d /\ transactions d1 = transactions d /\
  balances d1 = balances d /\
  forall id, id <> next_record_number -> properties d1 !! id = properties d !! id.
Lemma safe_new_index {A} k (f : Z -> run A) d :
  0 <= k -> (forall n d1, after_new_index n d d1 -> safe_from (n + 1) k (f n) d1) ->
  safe_at (1 + k) (run_bind new_wallet_record_index f) d.
Proof.
  intros Hk Hf n Hn Hlt r d' E.
  rewrite (run_step _ _ d n _ (new_index_run n d Hn ltac:(lia))) in E.
  destruct (counted_facts n d Hn) as (H1 & H2 & _ & _ & H3 & H4 & H5 & H6).
  destruct (Hf n (counted (n + 1) d)) with (r := r) (d' := d') as (n' & Hn' & Hk'); [|lia|done|].
  { unfold after_new_index. split_and!; [by apply counted_kept|apply (next_free n d), Hn|done..|].
    - intros id Hid. unfold counted.
      destruct (set_records_memory <[1 := property_record (counter (n + 1))]>
        (d <| properties ::= <[next_record_number := counter (n + 1)]> |>))
        as (_ & _ & _ & _ & _ & -> & _). cbn. by rewrite lookup_insert_ne. }
  exists n'. split; [lia|done].
Qed.

Lemma stored_not_zero {K T O} `{Countable K} (key : wallet_record T -> K) (obs : wallet_record T -> O)
    sel m n d a r :
  kept n d -> mirror key obs m (omap sel (records d)) -> m !! a = Some r -> wallet_record_index r <> 0.
Proof.
  intros Hk Hm Ha. destruct (mirror_used _ _ _ _ _ _ _ Hm Ha) as (g & Hg & _).
  destruct (next_below _ _ _ (kept_next _ _ Hk) ltac:(by eexists)); lia.
Qed.

(** Storing and changing the memory commute. *)
Lemma set_records_balances f g d :
  (set_records f d) <| balances ::= g |> = set_records f (d <| balances ::= g |>).
Proof. unfold set_records. cbn. by destruct (open_directory d). Qed.
Lemma set_records_transactions f g d :
  (set_records f d) <| transactions ::= g |> = set_records f (d <| transactions ::= g |>).
Proof. unfold set_records. cbn. by destruct (open_directory d). Qed.
Lemma set_records_accounts f g d :
  (set_records f d) <| accounts ::= g |> = set_records f (d <| accounts ::= g |>).
Proof. unfold set_records. cbn. by destruct (open_directory d). Qed.

(** ** Properties and keys *)
Lemma safe_set_property id v d : id <> next_record_number -> safe_at 1 (set_property id v) d.
Proof.
  intros Hid. unfold set_property, set_property_with. apply safe_reads; [lia|]. intros itr [= <-].
  destruct (properties d !! id) as [r|] eqn:E.
  - intros n Hn. unfold safe_from. rewrite run_ret, run_modify.
    pose proof (kept_properties _ _ Hn) as Hp.
    destruct (memory_stored _ _ _ _ Hp _ _ E) as (Ek & _). unfold key_of_property in Ek.
    rewrite store_generic_record_ok; [|apply Hn|exact (stored_not_zero _ _ _ _ _ _ _ _ Hn Hp E)].
    intros _ r1 d1 [= <- <-]. exists n. split; [lia|]. rewrite Ek.
    apply (put_property n d (WalletRecord (wallet_record_index r) (WalletProperty id v))); [done..|].
    right. exists r. by split.
  - intros n Hn. unfold safe_from. rewrite bool_decide_eq_false_2 by done. rewrite run_assoc.
    apply (safe_new_index 0); [lia| |done]. intros n1 d1 (Hk1 & H2 & Hf & Hp & _ & _ & _ & _ & Hps) _.
    rewrite run_ret, run_modify, store_generic_record_ok; [|apply Hk1|cbn; lia].
    intros r1 d2 [= <- <-]. exists (n1 + 1). split; [lia|].
    apply (put_property (n1 + 1) d1 (WalletRecord n1 (WalletProperty id v))); [done..|].
    left. unfold key_of_property. cbn. rewrite (Hps id Hid). split_and!; (done || lia).
Qed.

Lemma safe_store_key k d : safe_at 1 (store_key k) d.
Proof.
  unfold store_key. apply safe_reads; [lia|]. intros itr [= <-].
  destruct (keys d !! key_address k) as [old|] eqn:E.
  - intros n Hn. unfold safe_from. rewrite run_modify.
    rewrite store_record_ok; [|apply Hn|exact (stored_not_zero _ _ _ _ _ _ _ _ Hn (kept_keys _ _ Hn) E)].
    intros _ r1 d1 [= <- <-]. exists n. split; [lia|].
    apply (put_key n d (WalletRecord (wallet_record_index old) k)); [done..|].
    right. exists old. by split.
  - apply (safe_new_index 0); [lia|]. intros n d1 (Hk1 & H2 & Hf & Hp & Hks & _).
    unfold safe_from. cbn zeta. rewrite run_modify. cbn beta.
    erewrite run_step by (apply store_record_ok; [apply (kept_open _ _ Hk1)|cbn; lia]).
    intros _ r1 d2 [= <- <-]. exists (n + 1). split; [lia|]. apply (index_key_kept (n + 1)).
    apply (put_key (n + 1) d1 (WalletRecord n k)); [done..|]. left. unfold key_of_key. cbn. rewrite Hks.
    split_and!; (done || lia).
Qed.

Lemma safe_ret {A} k (a : A) d : 0 <= k -> safe_at k (ret a) d.
Proof. intros. by apply safe_same. Qed.
Lemma safe_weaken {A} k k' (m : run A) d : k <= k' -> safe_at k m d -> safe_at k' m d.
Proof.
  intros Hkk Hs n Hn Hlt r d' E. destruct (Hs n Hn ltac:(lia) r d' E) as (n' & Hn' & Hk).
  exists n'. split; [lia|done].
Qed.

Lemma safe_new_private_key password parent d : safe_at 2 (new_private_key password parent) d.
Proof.
  unfold new_private_key. apply safe_reads; [lia|]. intros m _. apply safe_reads; [lia|]. intros k _.
  apply (safe_bind 1 1); [lia| |].
  - unfold new_key_child_index. apply safe_reads; [lia|]. intros v _. apply safe_reads; [lia|]. intros i _.
    apply (safe_bind 1 0); [lia|by apply safe_set_property|]. intros. by apply safe_ret.
  - intros i d1 _. apply (safe_bind 1 0); [lia|apply safe_store_key|]. intros. by apply safe_ret.
Qed.

(** ** Balances *)
Lemma safe_cache_balance b d : safe_at 1 (cache_balance b) d.
Proof.
  unfold cache_balance, lookup_balance. apply safe_reads; [lia|]. intros cur [= <-].
  destruct (balances d !! balance_id b) as [r0|] eqn:E.
  - intros n Hn. unfold safe_from. rewrite run_ret. cbn zeta.
    destruct (balance_stored _ _ (kept_balances _ _ Hn) _ _ E) as [_ Hs].
    apply lookup_omap_Some in Hs as (g & Hg & Hs).
    assert (wallet_record_index r0 <> 0)
      by (destruct (next_below _ _ _ (kept_next _ _ Hn) ltac:(by eexists)); lia).
    erewrite run_step by (apply store_record_ok; [apply Hn|done]).
    intros _ r1 d1 [= <- <-]. exists n. split; [lia|].
    cbn beta. rewrite set_records_balances. apply (put_balance n d (WalletRecord (wallet_record_index r0) b)); [done|].
    right. exists r0. by split.
  - apply (safe_new_index 0); [lia|]. intros n d1 (Hk1 & H2 & Hf & Hp & _ & _ & _ & Hb & _).
    unfold safe_from. cbn zeta.
    erewrite run_step by (apply store_record_ok; [apply Hk1|cbn; lia]).
    intros _ r1 d2 [= <- <-]. exists (n + 1). split; [lia|].
    cbn beta. rewrite set_records_balances. apply (put_balance (n + 1) d1 (WalletRecord n b)); [done|].
    left. unfold id_of_balance. cbn. rewrite Hb. split_and!; (done || lia).
Qed.

(** The balance of a record changes in memory, and is stored. *)
Lemma safe_change_balance id r b d :
  balances d !! id = Some r -> balance_id b = id ->
  safe_at 0 (let! _ := modify (fun d => d <| balances ::= <[id := WalletRecord (wallet_record_index r) b]> |>) in
             store_record (WalletRecord (wallet_record_index r) b)) d.
Proof.
  intros E Hid n Hn. unfold safe_from. rewrite run_modify.
  destruct (balance_stored _ _ (kept_balances _ _ Hn) _ _ E) as [_ Hs].
  apply lookup_omap_Some in Hs as (g & Hg & Hs).
  assert (wallet_record_index r <> 0)
    by (destruct (next_below _ _ _ (kept_next _ _ Hn) ltac:(by eexists)); lia).
  rewrite store_record_ok; [|apply Hn|done]. intros _ r1 d1 [= <- <-]. exists n. split; [lia|].
  rewrite <- Hid. apply (put_balance n d (WalletRecord (wallet_record_index r) b)); [done|].
  right. exists r. unfold id_of_balance. cbn. by rewrite Hid.
Qed.

(** ** Transactions *)
Lemma safe_put_transaction n d t :
  kept n d -> new_or_old n d key_of_transaction (transactions d) t -> wallet_record_index t <> 0 ->
  safe_from n 0 (let! _ := store_record t in
                 modify (fun d => d <| transactions ::= <[key_of_transaction t := t]> |>)) d.
Proof.
  intros Hn Hold Hi. unfold safe_from. erewrite run_step by (apply store_record_ok; [apply Hn|done]).
  intros _ r1 d1 [= <- <-]. exists n. split; [lia|]. cbn beta. rewrite set_records_transactions.
  by apply put_transaction.
Qed.
Lemma safe_store_transaction t d :
  (wallet_record_index t = 0 /\ transactions d !! key_of_transaction t = None) \/
  (exists r0, transactions d !! key_of_transaction t = Some r0 /\
     wallet_record_index r0 = wallet_record_index t) ->
  safe_at 1 (store_transaction t) d.
Proof.
  intros Hold. unfold store_transaction. destruct (Z.eqb_spec (wallet_record_index t) 0) as [Hz|Hz].
  - destruct Hold as [[_ Hnone]|(r0 & H0 & E0)].
    + apply (safe_new_index 0); [lia|]. intros n d1 (Hk1 & H2 & Hf & Hp & _ & _ & Ht & _).
      apply (safe_put_transaction (n + 1) d1 (WalletRecord n (data t))); [done| |cbn; lia].
      left. unfold key_of_transaction in *. cbn. rewrite Ht. split_and!; (done || lia).
    + intros n Hn. exfalso.
      apply (stored_not_zero _ _ _ _ _ _ _ _ Hn (kept_transactions _ _ Hn) H0). congruence.
  - destruct Hold as [[? _]|(r0 & H0 & E0)]; [done|]. intros n Hn. unfold safe_from. rewrite run_ret.
    intros Hlt r d' E. destruct (safe_put_transaction n d t) with (r := r) (d' := d') as (n' & Hn' & Hk');
      [done|right; by exists r0|done|lia| |exists n'; split; [lia|done]].
    by destruct t.
Qed.
Lemma safe_cache_transaction t a f m k1 c r k2 x d : safe_at 1 (cache_transaction t a f m k1 c r k2 x) d.
Proof.
  unfold cache_transaction. apply safe_reads; [lia|]. intros itr [= <-].
  assert (Hput : forall n d (w : wallet_record transaction_data), kept n d ->
    new_or_old n d key_of_transaction (transactions d) w -> wallet_record_index w <> 0 ->
    safe_from n 0 (let! _ := store_record w in
      let! _ := modify (fun d => d <| transactions ::= <[key_of_transaction w := w]> |>) in ret w) d).
  { intros n d1 w Hn Hold Hi. unfold safe_from. intros Hlt q d' E.
    apply (safe_put_transaction n d1 w Hn Hold Hi Hlt (Ok tt)).
    pose proof (store_record_ok w d1 (kept_open _ _ Hn) Hi) as Hs.
    rewrite (run_step _ _ _ _ _ Hs). rewrite (run_step _ _ _ _ _ Hs) in E.
    rewrite run_modify in E. by injection E as _ <-. }
  destruct (transactions d !! trx_id t) as [r0|] eqn:E; cbn [from_option id]; cbn zeta.
  - intros n Hn. assert (wallet_record_index r0 <> 0) as Hz
      by exact (stored_not_zero _ _ _ _ _ _ _ _ Hn (kept_transactions _ _ Hn) E).
    change (id r0) with r0. destruct (Z.eqb_spec (wallet_record_index r0) 0); [done|]. unfold safe_from.
    rewrite run_ret. intros Hlt q d' Eq.
    assert (Hold : new_or_old n d key_of_transaction (transactions d) (WalletRecord (wallet_record_index r0)
      (TransactionData t (trx_id t) (Some k1) (Some k2) a f m (data_block_num (data r0)) c r
         (transmit_count (data r0)) x))) by (right; exists r0; by split).
    destruct (Hput n d _ Hn Hold Hz ltac:(lia) _ _ Eq) as (n' & Hn' & Hk').
    exists n'. split; [lia|done].
  - apply (safe_new_index 0); [lia|]. intros n d1 (Hk1 & H2 & Hf & Hp & _ & _ & Ht & _).
    apply Hput; [done| |cbn; lia]. left. unfold key_of_transaction. cbn. rewrite Ht.
    split_and!; (done || lia).
Qed.

(** ** Accounts *)
Lemma safe_store_account i a a' d :
  accounts d !! i = Some a -> contact a' = contact a -> safe_at 0 (store_record a') d.
Proof.
  intros Ha Hc n Hn. pose proof (stored_not_zero _ _ _ _ _ _ _ _ Hn (kept_accounts _ _ Hn) Ha) as Hz.
  pose proof (contact_index _ _ Hc) as Ei. unfold safe_from. rewrite store_record_ok; [|apply Hn|congruence].
  intros _ r1 d1 [= <- <-]. exists n. split; [lia|]. rewrite Ei. by eapply store_account_only.
Qed.

Lemma safe_load_rest index (r : account) d :
  safe_at 0 (let! _ := reads (fun d =>
               FC_ASSERT (bool_decide (address_to_account_index d !! account_address r = None))) in
             let! _ := modify (fun d => d <| address_to_account_index ::= <[account_address r := index]> |>) in
             let! _ :=
               if account_id (chain_account r) =? 0 then ret tt
               else
                 let! _ := reads (fun d =>
                   match account_id_to_index d !! account_id (chain_account r) with
                   | Some i => FC_ASSERT (i =? index)
                   | None => Ok tt
                   end) in
                 modify (fun d => d <| account_id_to_index ::= <[account_id (chain_account r) := index]> |>) in
             let! _ := reads (fun d =>
               FC_ASSERT (bool_decide (name_to_account_index d !! account_name (chain_account r) = None))) in
             modify (fun d => d <| name_to_account_index ::= <[account_name (chain_account r) := index]> |>)) d.
Proof.
  apply safe_reads; [lia|]. intros _ _. apply safe_modify; [by intros; apply kept_other with (d := d)|].
  apply (safe_bind 0 0); [lia| |].
  - destruct (_ =? 0); [by apply safe_ret|]. apply safe_reads; [lia|]. intros _ _.
    eapply safe_state; [lia|reflexivity|]. intros n. by apply kept_other.
  - intros _ d1 _. apply safe_reads; [lia|]. intros _ _.
    eapply safe_state; [lia|reflexivity|]. intros n. by apply kept_other.
Qed.

Lemma safe_new_account n d a :
  kept n d -> new_or_old n d wallet_record_index (accounts d) a -> wallet_record_index a <> 0 ->
  safe_from n 0 (let! _ := store_record a in load_account_record a) d.
Proof.
  intros Hn Hold Hz. unfold safe_from. erewrite run_step by (apply store_record_ok; [apply Hn|done]).
  unfold load_account_record. rewrite run_modify. cbn beta zeta. rewrite set_records_accounts.
  apply safe_load_rest. by apply (put_account n d a a).
Qed.

Lemma safe_add_contact_key l k a d : safe_at 1 (add_contact_key l k a) d.
Proof.
  unfold add_contact_key, lookup_key. apply safe_reads; [lia|]. intros cur [= <-].
  destruct (btc_to_bts_address d !! address_of_key l ≫= _) as [k0|] eqn:E.
  - apply bind_Some in E as (b & _ & E). intros n Hn.
    pose proof (stored_not_zero _ _ _ _ _ _ _ _ Hn (kept_keys _ _ Hn) E) as Hz. unfold safe_from.
    rewrite store_record_ok; [|apply Hn|done]. intros _ r1 d1 [= <- <-]. exists n. split; [lia|].
    by eapply store_key_only.
  - apply (safe_new_index 0); [lia|]. intros n d1 (Hk1 & H2 & Hf & Hp & _). cbn zeta.
    set (new_key := WalletRecord n _). unfold safe_from, load_key_record. rewrite run_assoc, run_reads.
    destruct (bool_decide_reflect (keys d1 !! key_address (data new_key) = None)) as [Hnone|Hsome];
      cbn [FC_ASSERT negb throw_if]; [|intros _ r1 d2 [= <- <-]; exists (n + 1); split; [lia|done]].
    rewrite run_assoc, run_modify, run_modify. cbn beta. unfold store_key at 1. rewrite run_reads.
    cbn [index_key keys update]. rewrite lookup_insert_eq. cbn zeta. rewrite run_modify. cbn beta.
    rewrite store_record_ok; [|apply Hk1|cbn; lia]. intros _ r1 d2 [= <- <-]. exists (n + 1).
    split; [lia|].
    match goal with |- kept _ ?d2 => assert (E2 : d2 =
      set_records <[n := key_record (on_data reflected_key new_key)]>
        ((index_key (public_key_of (data new_key)) (key_address (data new_key)) d1)
           <| keys ::= <[key_of_key new_key := new_key]> |>)) end.
    { unfold set_records, update. cbn [open_directory index_key].
      destruct (open_directory d1) as [path|] eqn:Eo; cbn; rewrite ?Eo; f_equal; apply insert_insert_eq. }
    rewrite E2. apply (put_key (n + 1) _ new_key); [by apply index_key_kept|done|].
    left. unfold key_of_key. split_and!; (done || cbn; lia).
Qed.

Lemma safe_add_contact (mk : Z -> wallet_record account) l k a d :
  (forall i, wallet_record_index (mk i) = i) ->
  safe_at 2 (let! index := new_wallet_record_index in
             let war := mk index in
             let! _ := store_record war in
             let! _ := load_account_record war in
             add_contact_key l k a) d.
Proof.
  intros Hmk. apply (safe_new_index 1); [lia|]. intros n d1 (Hk1 & H2 & Hf & Hp & _ & Ha & _). cbn zeta.
  pose proof (safe_bind_from (n + 1) 0 1 (let! _ := store_record (mk n) in load_account_record (mk n))
    (fun _ => add_contact_key l k a) d1) as Hs.
  intros Hlt r d' E. rewrite <- run_assoc in E. apply (Hs ltac:(lia)) in E; [done| | |lia].
  - apply safe_new_account; [done| |rewrite Hmk; lia]. left. rewrite Hmk, Ha.
    split_and!; try (done || lia). destruct (accounts d !! n) as [a0|] eqn:E0; [|done].
    rewrite <- Ha in E0.
    destruct (mirror_used _ _ _ _ _ _ _ (kept_accounts _ _ Hk1) E0) as (g & Hg & _).
    destruct (memory_stored _ _ _ _ (kept_accounts _ _ Hk1) _ _ E0) as (Ei & _). congruence.
  - intros. by apply safe_add_contact_key.
Qed.
End Kept.

(** * Opening a wallet again *)

(** ** Computations that only throw failed assertions, and leave a member alone *)
Section Frames.
Notation run := (run wallet_db).
Implicit Types d : wallet_db.
Definition only_asserts (m : run unit) : Prop := forall d,
  (exists d', m d = (Ok tt, d')) \/ (exists d', m d = (Throw assert_exception, d')).
Definition leaves {X A} (get : wallet_db -> X) (m : run A) : Prop := forall d, get (snd (m d)) = get d.

Lemma asserts_bind m (f : unit -> run unit) :
  only_asserts m -> only_asserts (f tt) -> only_asserts (run_bind m f).
Proof.
  intros Hm Hf d. unfold run_bind. destruct (Hm d) as [[d1 ->]|[d1 ->]]; [apply Hf|eauto].
Qed.
Lemma asserts_reads (f : wallet_db -> result unit) :
  (forall d, f d = Ok tt \/ f d = Throw assert_exception) -> only_asserts (reads f).
Proof. intros Hf d. unfold reads. destruct (Hf d) as [-> | ->]; eauto. Qed.
Lemma asserts_modify g : only_asserts (modify g).
Proof. intros d. left. by eexists. Qed.
Lemma asserts_ret : only_asserts (ret tt).
Proof. intros d. left. by eexists. Qed.

Lemma leaves_bind {X A B} (get : wallet_db -> X) (m : run A) (f : A -> run B) :
  leaves get m -> (forall a, leaves get (f a)) -> leaves get (run_bind m f).
Proof.
  intros Hm Hf d. unfold run_bind. specialize (Hm d). destruct (m d) as [[a|e] d1]; [|done].
  by rewrite (Hf a).
Qed.
Lemma leaves_reads {X A} (get : wallet_db -> X) (f : wallet_db -> result A) : leaves get (reads f).
Proof. done. Qed.
Lemma leaves_ret {X A} (get : wallet_db -> X) (a : A) : leaves get (ret a).
Proof. done. Qed.
Lemma leaves_modify {X} (get : wallet_db -> X) g : (forall d, get (g d) = get d) -> leaves get (modify g).
Proof. intros Hg d. apply Hg. Qed.

End Frames.

Ltac load_step :=
  lazymatch goal with
  | |- only_asserts (run_bind _ _) => apply asserts_bind
  | |- only_asserts (modify _) => apply asserts_modify
  | |- only_asserts (ret _) => apply asserts_ret
  | |- only_asserts (reads _) => apply asserts_reads
  | |- only_asserts (if ?b then _ else _) => destruct b
  | |- leaves _ (run_bind _ _) => apply leaves_bind
  | |- leaves _ (reads _) => apply leaves_reads
  | |- leaves _ (ret _) => apply leaves_ret
  | |- leaves _ (modify _) => apply leaves_modify; intros; reflexivity
  | |- leaves _ (if ?b then _ else _) => destruct b
  | |- context [match ?o with Some _ => _ | None => _ end] => destruct o
  | |- FC_ASSERT ?b = _ \/ _ => destruct b; [by left|by right]
  | |- Ok tt = Ok tt \/ _ => by left
  | |- forall _, _ => intro
  end.
Ltac db_auto := repeat load_step.

Section Reopen.
Context `{FC : Fc} `{FT : FcTransaction} `{FK : FcKeys} `{FP : FcPrivate} `{HO : HashOrder}.
Notation run := (run wallet_db).
Implicit Types d : wallet_db.

(** ** Loading *)
Definition load_one (g : generic_wallet_record) d : wallet_db :=
  snd (try_catch (load_record g) (fun _ => ret tt) d).

Lemma load_asserts g : only_asserts (load_record g).
Proof.
  destruct g; cbn [load_record]; unfold load_account_record, load_key_record, index_key; cbn zeta; db_auto.
Qed.
Lemma load_returns g d : try_catch (load_record g) (fun _ => ret tt) d = (Ok tt, load_one g d).
Proof. unfold load_one, try_catch. by destruct (load_asserts g d) as [[d' ->]|[d' ->]]. Qed.
Lemma load_leaves {X} (get : wallet_db -> X) g d :
  leaves get (load_record g) -> get (load_one g d) = get d.
Proof.
  intros Hl. specialize (Hl d). unfold load_one, try_catch.
  by destruct (load_asserts g d) as [[d' E]|[d' E]]; rewrite E in *.
Qed.

(** What loading a record does to each member. *)
Section Effects.
Context {K T : Type} `{Countable K} (key : wallet_record T -> K).
Definition put_new (sel : generic_wallet_record -> option (wallet_record T))
    (m : gmap K (wallet_record T)) (g : generic_wallet_record) : gmap K (wallet_record T) :=
  match sel g with
  | Some r => match m !! key r with Some _ => m | None => <[key r := r]> m end
  | None => m
  end.
Definition put_any (sel : generic_wallet_record -> option (wallet_record T))
    (m : gmap K (wallet_record T)) (g : generic_wallet_record) : gmap K (wallet_record T) :=
  match sel g with Some r => <[key r := r]> m | None => m end.
Lemma put_new_loads sel : loads key sel (put_new sel).
Proof. intros m g. unfold put_new. destruct (sel g); [|done]. by intros ->. Qed.
Lemma put_any_loads sel : loads key sel (put_any sel).
Proof. intros m g. unfold put_any. by destruct (sel g). Qed.
End Effects.

Ltac other_kind := apply load_leaves; cbn [load_record];
  unfold load_account_record, load_key_record, index_key; cbn zeta; db_auto.
Ltac assert_case :=
  unfold load_one, try_catch; cbn [load_record]; unfold load_key_record; rewrite run_reads;
  case_bool_decide as Hnone; cbn [FC_ASSERT negb throw_if].

Lemma load_keys g d : keys (load_one g d) = put_new key_of_key sel_key (keys d) g.
Proof.
  destruct g; try (unfold put_new; cbn [sel_key]; other_kind; fail).
  unfold put_new. cbn [sel_key]. assert_case; unfold key_of_key.
  - by rewrite Hnone.
  - by destruct (keys d !! key_address (data r)).
Qed.
Lemma load_accounts g d : accounts (load_one g d) = put_any wallet_record_index sel_account (accounts d) g.
Proof.
  destruct g; try (unfold put_any; cbn [sel_account]; other_kind; fail).
  unfold put_any. cbn [sel_account]. unfold load_one, try_catch. cbn [load_record].
  destruct (load_asserts (wallet_account_record r) d) as [[d' E]|[d' E]]; cbn [load_record] in E; rewrite E;
    cbn [is_fc_exception ret snd]; revert E; unfold load_account_record; rewrite run_modify; cbn zeta; intros E.
  all: match type of E with ?m ?d1 = _ => assert (Hl : leaves accounts m) by db_auto;
         specialize (Hl d1); rewrite E in Hl; exact Hl end.
Qed.
Lemma load_transactions g d :
  transactions (load_one g d) = put_new key_of_transaction sel_transaction (transactions d) g.
Proof.
  destruct g; try (unfold put_new; cbn [sel_transaction]; other_kind; fail).
  unfold put_new. cbn [sel_transaction]. assert_case; unfold key_of_transaction.
  - by rewrite Hnone.
  - by destruct (transactions d !! trx_id (data_trx (data r))).
Qed.
Lemma load_properties g d :
  properties (load_one g d) = put_new key_of_property sel_property (properties d) g.
Proof.
  destruct g; try (unfold put_new; cbn [sel_property]; other_kind; fail).
  unfold put_new. cbn [sel_property]. assert_case; unfold key_of_property.
  - by rewrite Hnone.
  - by destruct (properties d !! property_key (data r)).
Qed.
Lemma load_balances g d : balances (load_one g d) = put_any id_of_balance sel_balance (balances d) g.
Proof. destruct g; try (unfold put_any; cbn [sel_balance]; other_kind; fail). done. Qed.
Definition put_master (o : option (wallet_record master_key)) (g : generic_wallet_record) :=
  match sel_master g, o with Some r, None => Some r | _, _ => o end.
Lemma load_master g d : wallet_master_key (load_one g d) = put_master (wallet_master_key d) g.
Proof.
  destruct g; try (unfold put_master; cbn [sel_master]; other_kind; fail).
  unfold put_master. cbn [sel_master]. assert_case; [by rewrite Hnone|].
  change (wallet_master_key d = match wallet_master_key d with None => Some r | _ => wallet_master_key d end).
  by destruct (wallet_master_key d).
Qed.
Lemma load_directory g d :
  directories (load_one g d) = directories d /\ open_directory (load_one g d) = open_directory d.
Proof. split; destruct g; other_kind. Qed.

(** ** Opening again *)
Lemma in_index_order_perm (s : directory) : in_index_order s ≡ₚ map_to_list s.
Proof. apply merge_sort_Permutation. Qed.
Lemma in_index_order_sorted (s : directory) : StronglySorted index_le (in_index_order s).
Proof.
  apply StronglySorted_merge_sort; unfold index_le; [intros ???; lia|].
  intros x y. destruct (Z.le_gt_cases x.1 y.1); [by left|right; lia].
Qed.

Lemma foldl_get {D M E} (get : D -> M) (f : D -> E -> D) (step : M -> E -> M) (l : list E) (x : D) :
  (forall x e, get (f x e) = step (get x) e) -> get (foldl f x l) = foldl step (get x) l.
Proof. intros Hf. revert x. induction l as [|e l IH]; intros x; cbn; [done|]. by rewrite IH, Hf. Qed.

(** Balances: the last one under an id is found. *)
Lemma reloaded_balances (l : list (Z * generic_wallet_record)) id :
  StronglySorted index_le l ->
  match foldl (fun m e => put_any id_of_balance sel_balance m e.2) ∅ l !! id with
  | Some b => exists e, e ∈ l /\ sel_balance e.2 = Some b /\ id_of_balance b = id /\
      forall e' b', e' ∈ l -> sel_balance e'.2 = Some b' -> id_of_balance b' = id -> e'.1 <= e.1
  | None => forall e b, e ∈ l -> sel_balance e.2 = Some b -> id_of_balance b <> id
  end.
Proof.
  induction l as [|e l IH] using rev_ind; intros Hs.
  { cbn. rewrite lookup_empty. by intros e b []%elem_of_nil. }
  apply StronglySorted_app in Hs as (Hle & Hs & _). specialize (IH Hs). rewrite foldl_snoc.
  set (m := foldl _ _ l) in *. unfold put_any. destruct (sel_balance e.2) as [b|] eqn:Eb.
  - destruct (decide (id_of_balance b = id)) as [<-|Hne].
    + rewrite lookup_insert_eq. exists e. split; [set_solver|]. split; [done|]. split; [done|].
      intros e' b' [Hin| ->%list_elem_of_singleton]%elem_of_app _ _; [|lia].
      apply (Hle e' e Hin). set_solver.
    + rewrite lookup_insert_ne by done. destruct (m !! id) as [b1|].
      * destruct IH as (e1 & H1 & H2 & H3 & H4). exists e1. split; [set_solver|]. split; [done|].
        split; [done|]. intros e' b' [Hin| ->%list_elem_of_singleton]%elem_of_app E' Ei; [by eapply H4|congruence].
      * intros e' b' [Hin| ->%list_elem_of_singleton]%elem_of_app E'; [by eapply IH|congruence].
  - destruct (m !! id) as [b1|].
    + destruct IH as (e1 & H1 & H2 & H3 & H4). exists e1. split; [set_solver|]. split; [done|].
      split; [done|]. intros e' b' [Hin| ->%list_elem_of_singleton]%elem_of_app E' Ei; [by eapply H4|congruence].
    + intros e' b' [Hin| ->%list_elem_of_singleton]%elem_of_app E'; [by eapply IH|congruence].
Qed.

Lemma load_master_all (l : list (Z * generic_wallet_record)) (o : option (wallet_record master_key)) m :
  (forall e r, e ∈ l -> sel_master e.2 = Some r -> r = m) ->
  foldl (fun o e => put_master o e.2) o l =
    match o with
    | Some m => Some m
    | None => if existsb (fun e => match sel_master e.2 with Some _ => true | None => false end) l
              then Some m else None
    end.
Proof.
  revert o. induction l as [|e l IH]; intros o Hm; cbn [foldl existsb]; [by destruct o|].
  rewrite IH by (intros; eapply Hm; [by right|done]). unfold put_master.
  destruct o as [m'|]; [by destruct (sel_master e.2)|].
  destruct (sel_master e.2) as [r|] eqn:E; [|done]. f_equal. by apply (Hm e r ltac:(left)).
Qed.

(** The database after closing and opening it again. *)
Definition opened (path : string) d : wallet_db :=
  (WalletDb (directories d) None None ∅ (btc_to_bts_address d) ∅ ∅ ∅ (market_orders d) ∅ ∅ ∅ ∅)
    <| directories ::= fun m => <[path := default ∅ (m !! path)]> m |> <| open_directory := Some path |>.
Definition load_all (l : list (Z * generic_wallet_record)) d : wallet_db :=
  foldl (fun d e => load_one e.2 d) d l.
Definition reopened (path : string) d : wallet_db :=
  load_all (in_index_order (records d)) (opened path d).

Lemma run_each_loads l d :
  run_each (fun e : Z * generic_wallet_record => try_catch (load_record e.2) (fun _ => ret tt)) l d
    = (Ok tt, load_all l d).
Proof.
  unfold load_all. revert d. induction l as [|e l IH]; intros d; cbn [run_each foldl]; [done|].
  unfold run_bind at 1. by rewrite load_returns.
Qed.
Lemma reopen_run path d :
  open_directory d = Some path -> (let! _ := close in open path) d = (Ok tt, reopened path d).
Proof.
  intros Ho. unfold close. rewrite run_modify. unfold open. rewrite run_modify, run_reads.
  assert (Er : records (opened path d) = records d).
  { unfold records. cbn. by rewrite lookup_insert_eq, Ho. }
  unfold reopened. rewrite <- Er. apply run_each_loads.
Qed.

Lemma load_all_directory d l :
  directories (load_all l d) = directories d /\ open_directory (load_all l d) = open_directory d.
Proof.
  revert d. unfold load_all. induction l as [|e l IH]; intros d; cbn [foldl]; [done|].
  destruct (IH (load_one e.2 d)) as [-> ->]. apply load_directory.
Qed.

Lemma reopened_open path d : open_directory (reopened path d) = Some path.
Proof. exact (proj2 (load_all_directory (opened path d) (in_index_order (records d)))). Qed.

Section Again.
Context (n : Z) (path : string) (o : option (wallet_record master_key)) (d : wallet_db).
Context (Hk : kept n (d <| wallet_master_key := o |>)) (Ho : open_directory d = Some path).
Notation d' := (reopened path d).
Notation entries := (in_index_order (records d)).

Lemma reopened_records : records d' = records d.
Proof.
  unfold reopened. generalize entries. intros l. unfold records.
  destruct (load_all_directory (opened path d) l) as [-> ->].
  cbn. by rewrite Ho, lookup_insert_eq.
Qed.
Lemma reopened_keys : keys d' = reloaded (put_new key_of_key sel_key) entries.
Proof. unfold reopened, load_all. by rewrite (foldl_get keys _ (fun m e => put_new key_of_key sel_key m e.2)) by (intros; apply load_keys). Qed.
Lemma reopened_accounts : accounts d' = reloaded (put_any wallet_record_index sel_account) entries.
Proof. unfold reopened, load_all. by rewrite (foldl_get accounts _ (fun m e => put_any wallet_record_index sel_account m e.2)) by (intros; apply load_accounts). Qed.
Lemma reopened_transactions :
  transactions d' = reloaded (put_new key_of_transaction sel_transaction) entries.
Proof. unfold reopened, load_all. by rewrite (foldl_get transactions _ (fun m e => put_new key_of_transaction sel_transaction m e.2)) by (intros; apply load_transactions). Qed.
Lemma reopened_properties : properties d' = reloaded (put_new key_of_property sel_property) entries.
Proof. unfold reopened, load_all. by rewrite (foldl_get properties _ (fun m e => put_new key_of_property sel_property m e.2)) by (intros; apply load_properties). Qed.
Lemma reopened_balances :
  balances d' = foldl (fun m e => put_any id_of_balance sel_balance m e.2) ∅ entries.
Proof. unfold reopened, load_all. by rewrite (foldl_get balances _ (fun m e => put_any id_of_balance sel_balance m e.2)) by (intros; apply load_balances). Qed.

Lemma reopened_master : wallet_master_key d' = o.
Proof.
  unfold reopened, load_all.
  rewrite (foldl_get wallet_master_key _ (fun o e => put_master o e.2))
    by (intros; apply load_master).
  pose proof (kept_master _ _ Hk) as Hm. cbn in Hm.
  change (records (d <| wallet_master_key := o |>)) with (records d) in Hm.
  assert (Hin : forall e r, e ∈ entries -> sel_master e.2 = Some r -> o = Some r).
  { intros [i g] r He Hr. rewrite in_index_order_perm, elem_of_map_to_list in He. cbn in Hr.
    assert (Hs : omap sel_master (records d) !! i = Some r) by (rewrite lookup_omap, He; exact Hr).
    rewrite Hm in Hs. destruct o as [m|]; [|done]. by apply lookup_singleton_Some in Hs as [_ ->]. }
  destruct o as [m|].
  - rewrite (load_master_all _ _ m) by (intros e r He Hr; specialize (Hin e r He Hr); congruence).
    cbn [opened wallet_master_key]. change (wallet_master_key (opened path d)) with (@None (wallet_record master_key)).
    cbn iota. replace (existsb _ _) with true; [done|]. symmetry. apply existsb_exists.
    assert (Hs : omap sel_master (records d) !! (-1) = Some m) by (rewrite Hm; apply lookup_singleton_eq).
    apply lookup_omap_Some in Hs as (g & Hg & Hs). exists (-1, g). split; [|cbn; by rewrite Hg].
    apply list_elem_of_In. by rewrite in_index_order_perm, elem_of_map_to_list.
  - rewrite (load_master_all _ _ (WalletRecord 0 (MasterKey [] []))) by (intros e r He Hr; by specialize (Hin e r He Hr)).
    change (wallet_master_key (opened path d)) with (@None (wallet_record master_key)). cbn iota.
    replace (existsb _ _) with false; [done|]. symmetry. apply not_true_iff_false. intros (e & He & Hs)%existsb_exists.
    apply list_elem_of_In in He. destruct (sel_master e.2) eqn:E; [|done]. by specialize (Hin e _ He E).
Qed.

Lemma stored_at i g : (i, g) ∈ entries <-> records d !! i = Some g.
Proof. by rewrite in_index_order_perm, elem_of_map_to_list. Qed.

(** What was in memory is found again; more of the balances may be. *)
Lemma reopened_balance id b : balances d !! id = Some b -> balances d' !! id = Some b.
Proof.
  intros Hb. pose proof (kept_balances _ _ Hk) as Hm. cbn in Hm.
  change (records (d <| wallet_master_key := o |>)) with (records d) in Hm.
  destruct (balance_stored _ _ Hm id b Hb) as [Eid Hs].
  apply lookup_omap_Some in Hs as (g & Hg & Hr). apply stored_at in Hr.
  rewrite reopened_balances. pose proof (reloaded_balances entries id (in_index_order_sorted _)) as H.
  destruct (foldl _ ∅ entries !! id) as [b1|]; [|by destruct (H _ b Hr)].
  destruct H as ([i1 g1] & H1 & Hg1 & E1 & Hmax). specialize (Hmax _ b Hr Hg Eid). cbn in Hmax, Hg1.
  apply stored_at in H1. assert (Hs1 : omap sel_balance (records d) !! i1 = Some b1)
    by (rewrite lookup_omap, H1; exact Hg1).
  pose proof (balance_last _ _ Hm id b i1 b1 Hb Hs1 E1).
  assert (i1 = wallet_record_index b) as -> by lia. apply stored_at in Hr. congruence.
Qed.

Lemma reopened_kept : kept n d'.
Proof.
  pose proof Hk as (Hop & Hn & Hm & Hke & Hac & Ht & Hp & Hb)%kept_parts. cbn in Hke, Hac, Ht, Hp, Hb.
  change (records (d <| wallet_master_key := o |>)) with (records d) in *.
  pose proof (in_index_order_perm (records d)) as Hl.
  apply kept_parts. rewrite reopened_records, reopened_master, reopened_keys, reopened_accounts,
    reopened_transactions, reopened_properties.
  split. { unfold is_open, reopened. by destruct (load_all_directory (opened path d) entries) as [_ ->]. }
  split. { unfold next_is in *. change (records (d <| wallet_master_key := o |>)) with (records d) in Hn. cbn in Hn.
    assert (Ep : properties d' !! next_record_number = properties d !! next_record_number).
    { rewrite reopened_properties.
      pose proof (reloaded_same _ _ id_index id_key sel_property _ (records d) _ (properties d)
        (put_new_loads _ _) Hl Hp next_record_number) as E. rewrite !option_fmap_id in E. exact E. }
    rewrite Ep, reopened_records. exact Hn. }
  split; [done|].
  split; [exact (reloaded_mirror _ _ vault_index vault_key _ _ _ _ _ (put_new_loads _ _) Hl Hke)|].
  split; [exact (reloaded_mirror _ _ contact_index contact_index _ _ _ _ _ (put_any_loads _ _) Hl Hac)|].
  split; [exact (reloaded_mirror _ _ stored_form_index stored_form_key _ _ _ _ _ (put_new_loads _ _) Hl Ht)|].
  split; [exact (reloaded_mirror _ _ id_index id_key _ _ _ _ _ (put_new_loads _ _) Hl Hp)|].
  rewrite reopened_balances. split.
  - apply Hb.
  - intros id b Hbal. pose proof (reloaded_balances entries id (in_index_order_sorted _)) as H. rewrite Hbal in H.
    destruct H as ([i g] & H1 & H2 & H3 & _). split; [done|]. apply stored_at in H1. cbn in H2.
    assert (Hs : omap sel_balance (records d) !! i = Some b) by (rewrite lookup_omap, H1; exact H2).
    by rewrite (balance_index _ _ Hb i b Hs).
  - intros id b i b' Hbal Hb' E. pose proof (reloaded_balances entries id (in_index_order_sorted _)) as H.
    rewrite Hbal in H. destruct H as ([i1 g] & H1 & H2 & H3 & Hmax). apply stored_at in H1. cbn in H2.
    assert (Hs : omap sel_balance (records d) !! i1 = Some b) by (rewrite lookup_omap, H1; exact H2).
    rewrite (balance_index _ _ Hb i1 b Hs). apply lookup_omap_Some in Hb' as (g' & Hg' & Hr').
    by apply stored_at in Hr' as Hr; specialize (Hmax (i, g') b' Hr Hg' E).
Qed.
End Again.
End Reopen.

(** * Sessions of a wallet: a new wallet, then any operations on its database, closing and
    opening included.

    [wallet_persists] states that what is in memory is what is found when the wallet is opened
    again. Left out of the steps are [change_passphrase] and [remove_contact_account], after
    which this is not so: see [WalletStory]. *)

Section Sessions.
Context `{FC : Fc} `{FT : FcTransaction} `{FK : FcKeys} `{FP : FcPrivate} `{HO : HashOrder}.
Implicit Types d : wallet_db.

(** The operations, with what the wallet calls them with: it does not set the counter of
    indexes, stores again only what it has looked up, and drops balances. *)
Inductive db_step d d' : Prop :=
| step_set_property id v r :
    id <> next_record_number -> set_property id v d = (r, d') -> db_step d d'
| step_new_private_key password parent r : new_private_key password parent d = (r, d') -> db_step d d'
| step_store_key k r : store_key k d = (r, d') -> db_step d d'
| step_cache_memo st k password r : cache_memo st k password d = (r, d') -> db_step d d'
| step_cache_balance b r : cache_balance b d = (r, d') -> db_step d d'
| step_change_balance id old b r :
    balances d !! id = Some old -> balance_id b = id ->
    (let! _ := modify (fun d => d <| balances ::= <[id := WalletRecord (wallet_record_index old) b]> |>) in
     store_record (WalletRecord (wallet_record_index old) b)) d = (r, d') -> db_step d d'
| step_drop_balance id : d' = d <| balances ::= delete id |> -> db_step d d'
| step_store_transaction t r :
    (wallet_record_index t = 0 /\ lookup_transaction d (trx_id (data_trx (data t))) = None) \/
    (exists old, lookup_transaction d (trx_id (data_trx (data t))) = Some old /\
       wallet_record_index old = wallet_record_index t) ->
    store_transaction t d = (r, d') -> db_step d d'
| step_cache_transaction t a f m k1 c rc k2 x r :
    cache_transaction t a f m k1 c rc k2 x d = (r, d') -> db_step d d'
| step_add_contact clock name key v r : add_contact_account clock name key v d = (r, d') -> db_step d d'
| step_add_registered a v r : add_registered_contact a v d = (r, d') -> db_step d d'
| step_rename old new r : rename_account old new d = (r, d') -> db_step d d'
| step_cache_account war old r :
    accounts d !! wallet_record_index war = Some old -> cache_account war d = (r, d') -> db_step d d'
| step_store_account i a a' r :
    accounts d !! i = Some a -> contact a' = contact a -> store_record a' d = (r, d') -> db_step d d'
| step_reopen path r :
    open_directory d = Some path -> (let! _ := close in open path) d = (r, d') -> db_step d d'.

Lemma safe_add_contact_account clock name key v d : safe_at 2 (add_contact_account clock name key v) d.
Proof.
  unfold add_contact_account. apply safe_reads; [lia|]. intros _ _. apply safe_reads; [lia|].
  intros _ _. cbn zeta. apply safe_reads; [lia|]. intros war _.
  by apply (safe_add_contact (fun i => WalletRecord i (Account war (address_of_key key) v 0))).
Qed.
Lemma safe_add_registered a v d : safe_at 2 (add_registered_contact a v) d.
Proof.
  unfold add_registered_contact.
  by apply (safe_add_contact (fun i => WalletRecord i (Account a (address_of_key (owner_key a)) v 0))).
Qed.

Lemma safe_rename old new d : safe_at 0 (rename_account old new) d.
Proof.
  unfold rename_account. apply safe_reads; [lia|]. intros _ _. apply safe_reads; [lia|].
  intros acct Ha. apply safe_reads; [lia|]. intros a Hs. cbn zeta. eapply safe_state; [lia|reflexivity|].
  intros n Hn. unfold lookup_account_by_name, account_at in Ha.
  destruct (name_to_account_index d !! old) as [i|]; [|injection Ha as <-; discriminate].
  apply value_or_throw_ok in Hs as ->. apply bind_ok in Ha as (a1 & Hl & [= ->]).
  apply value_or_throw_ok in Hl.
  destruct (memory_stored _ _ _ _ (kept_accounts _ _ Hn) _ _ Hl) as (Ei & _).
  set (renamed := on_data _ a).
  assert (Hr : kept n (d <| accounts ::= <[wallet_record_index a := renamed]> |>)).
  { apply (rename_kept n d renamed a); [done|rewrite <- Ei in Hl; exact Hl|done]. }
  revert Hr. apply kept_other; [done|by split_and!].
Qed.

Lemma safe_cache_account war old d :
  accounts d !! wallet_record_index war = Some old -> safe_at 0 (cache_account war) d.
Proof.
  intros Ha n Hn. unfold cache_account. cbn zeta. unfold safe_from. rewrite run_modify. cbn beta.
  pose proof (stored_not_zero _ _ _ _ _ _ _ _ Hn (kept_accounts _ _ Hn) Ha) as Hz.
  destruct (memory_stored _ _ _ _ (kept_accounts _ _ Hn) _ _ Ha) as (Ei & _). rewrite Ei in Hz.
  pose proof (put_account n d war war Hn eq_refl) as Hput.
  assert (Hk : kept n (set_records <[wallet_record_index war := wallet_account_record war]>
    (d <| accounts ::= <[wallet_record_index war := war]> |>))).
  { apply Hput. right. exists old. by split. }
  destruct (account_id (chain_account (data war)) =? 0).
  - rewrite run_ret, store_record_ok; [|apply Hn|done]. intros _ r d' [= <- <-]. exists n. split; [lia|done].
  - rewrite run_modify. cbn beta. rewrite store_record_ok; [|apply Hn|done].
    intros _ r d' [= <- <-]. exists n. split; [lia|].
    eapply kept_other; [| |exact Hk]; unfold set_records; cbn; by destruct (open_directory d).
Qed.

Lemma db_step_kept n d d' :
  db_step d d' -> kept n d -> n + 2 < 2 ^ 31 -> exists n', n <= n' <= n + 2 /\ kept n' d'.
Proof.
  intros Hs Hk Hlt.
  assert (Hat : forall A (m : run wallet_db A) k r, k <= 2 -> safe_at k m d -> m d = (r, d') ->
    exists n', n <= n' <= n + 2 /\ kept n' d').
  { intros A m k r Hk2 Hm E. exact (safe_weaken k 2 m d Hk2 Hm n Hk Hlt r d' E). }
  destruct Hs.
  - eapply Hat; [|by apply safe_set_property|done]. lia.
  - eapply Hat; [|apply safe_new_private_key|done]. lia.
  - eapply Hat; [|apply safe_store_key|done]. lia.
  - eapply Hat; [|apply safe_store_key|done]. lia.
  - eapply Hat; [|apply safe_cache_balance|done]. lia.
  - eapply Hat; [|by apply safe_change_balance|done]. lia.
  - subst. exists n. split; [lia|]. by apply drop_kept.
  - eapply Hat; [|by apply safe_store_transaction|done]. lia.
  - eapply Hat; [|apply safe_cache_transaction|done]. lia.
  - eapply Hat; [|apply safe_add_contact_account|done]. lia.
  - eapply Hat; [|apply safe_add_registered|done]. lia.
  - eapply Hat; [|apply safe_rename|done]. lia.
  - eapply Hat; [|by eapply safe_cache_account|done]. lia.
  - eapply Hat; [|by eapply safe_store_account|done]. lia.
  - rewrite reopen_run in * by done. simplify_eq. exists n. split; [lia|].
    apply (reopened_kept n path (wallet_master_key d) d); [by destruct d|done].
Qed.

Lemma db_steps_kept n m d d' :
  nsteps db_step m d d' -> kept n d -> n + 2 * Z.of_nat m < 2 ^ 31 ->
  exists n', n <= n' <= n + 2 * Z.of_nat m /\ kept n' d'.
Proof.
  intros Hs. revert n. induction Hs as [d|m d d1 d' H1 Hs IH]; intros n Hk Hlt; [exists n; split; [lia|done]|].
  destruct (db_step_kept n d d1 H1 Hk ltac:(lia)) as (n1 & Hn1 & Hk1).
  destruct (IH n1 Hk1 ltac:(lia)) as (n2 & Hn2 & Hk2). exists n2. split; [lia|done].
Qed.

(** ** The same directory stays open *)
Notation stays m := (leaves open_directory m).
Lemma stays_set_records f : stays (modify (set_records f)).
Proof. intros d. cbn. unfold set_records. by destruct (open_directory d) eqn:E. Qed.
Ltac stay :=
  repeat (cbn zeta; lazymatch goal with
  | |- leaves _ (modify (set_records _)) => apply stays_set_records
  | |- leaves _ (set_property _ _) => unfold set_property
  | |- leaves _ (store_generic_record _ _) => unfold store_generic_record
  | |- leaves _ (set_property_with _ _ _) => unfold set_property_with
  | |- leaves _ new_wallet_record_index => unfold new_wallet_record_index
  | |- leaves _ (store_record _) => unfold store_record
  | |- leaves _ (store_key _) => unfold store_key
  | |- leaves _ (raise _) => done
  | _ => load_step
  end).
Lemma stays_store_generic i g : stays (store_generic_record i g).
Proof. stay. Qed.
Lemma stays_set_property id v : stays (set_property id v).
Proof. stay. Qed.
Lemma stays_store_record {T} `{StoredType T} (r : wallet_record T) : stays (store_record r).
Proof. stay. Qed.
Lemma stays_store_key k : stays (store_key k).
Proof. stay. Qed.
Lemma stays_load_account r : stays (load_account_record r).
Proof. unfold load_account_record. stay. Qed.
Lemma stays_load_key r : stays (load_key_record r).
Proof. unfold load_key_record. stay. Qed.
Lemma stays_add_contact_key l k a : stays (add_contact_key l k a).
Proof.
  unfold add_contact_key. apply leaves_bind; [done|]. intros [k0|]; [apply stays_store_record|].
  stay. apply stays_load_key.
Qed.

Lemma stays_after {A} (m : run wallet_db A) d r d' :
  leaves open_directory m -> m d = (r, d') -> open_directory d' = open_directory d.
Proof. intros Hm E. specialize (Hm d). by rewrite E in Hm. Qed.
Lemma db_step_open d d' : db_step d d' -> open_directory d' = open_directory d.
Proof.
  intros []; lazymatch goal with
             | _ : open_directory d = Some _ |- _ => idtac
             | _ => try (eapply stays_after; [|done])
             end.
  - apply stays_set_property.
  - unfold new_private_key, new_key_child_index. stay.
  - apply stays_store_key.
  - apply stays_store_key.
  - unfold cache_balance. stay.
  - stay.
  - by subst.
  - unfold store_transaction. stay.
  - unfold cache_transaction. stay.
  - unfold add_contact_account. stay; [apply stays_load_account|apply stays_add_contact_key].
  - unfold add_registered_contact. stay; [apply stays_load_account|apply stays_add_contact_key].
  - unfold rename_account. stay.
  - unfold cache_account. stay.
  - apply stays_store_record.
  - match goal with H : open_directory d = Some _, E : _ = (_, d') |- _ =>
      rewrite (reopen_run _ _ H) in E; injection E as _ <-; by rewrite H, reopened_open end.
Qed.

(** ** A new wallet *)

(** A database that was just constructed, or closed. *)
Definition cleared d : Prop :=
  wallet_master_key d = None /\ keys d = ∅ /\ accounts d = ∅ /\ transactions d = ∅ /\
  balances d = ∅ /\ properties d = ∅.
Definition new_wallet (path : string) (m : master_key) (head_block_num fee : Z) : run wallet_db unit :=
  let! _ := open path in write_new_wallet path m head_block_num fee.

Lemma open_new path d :
  directories d !! path = None ->
  open path d = (Ok tt, d <| directories ::= <[path := ∅]> |> <| open_directory := Some path |>).
Proof.
  intros Hn. unfold open. rewrite run_modify, run_reads. cbn beta.
  assert (E : d <| directories ::= fun m => <[path := default ∅ (m !! path)]> m |> <| open_directory := Some path |>
    = d <| directories ::= <[path := ∅]> |> <| open_directory := Some path |>).
  { unfold update. cbn. by rewrite Hn. }
  rewrite E. unfold records. cbn. by rewrite lookup_insert_eq.
Qed.

Lemma master_stays id v : leaves wallet_master_key (set_property id v).
Proof.
  assert (Hr : forall f, leaves wallet_master_key (modify (set_records f)))
    by (intros f d; cbn; unfold set_records; by destruct (open_directory d)).
  unfold set_property, set_property_with, new_wallet_record_index, set_property_with, store_generic_record.
  repeat (cbn zeta; lazymatch goal with
          | |- leaves _ (modify (set_records _)) => apply Hr
          | |- leaves _ (raise _) => done
          | _ => load_step
          end).
Qed.

Lemma master_kept_stored n d m :
  kept n d -> wallet_master_key d = None ->
  kept n ((set_records <[-1 := master_key_record (WalletRecord (-1) m)]> d)
            <| wallet_master_key := Some (WalletRecord (-1) m) |>).
Proof.
  intros Hk Em. pose proof Hk as (Ho & Hn & Hm & Hrest)%kept_parts. unfold master_kept in Hm. rewrite Em in Hm.
  set (g := master_key_record _).
  assert (Hslot : slot (-1) g (records d)).
  { intros g0 Hg. unfold next_is in Hn. destruct (properties d !! next_record_number).
    - destruct Hn as (_ & _ & _ & Hr). by destruct (Hr _ _ Hg) as [[_ ?]|?]; [|lia].
    - by apply (proj2 Hn _ _ Hg). }
  set (d1 := set_records <[-1 := g]> d). assert (Er : records d1 = <[-1 := g]> (records d)) by (by apply records_set).
  destruct (set_records_memory <[-1 := g]> d) as (Eo & _ & Ek & Ea & Et & Ep & Eb). fold d1 in Eo, Ek, Ea, Et, Ep, Eb.
  assert (Hn1 : next_is n d1).
  { unfold next_is in *. rewrite Er, Ep. destruct (properties d !! next_record_number).
    - destruct Hn as (? & ? & ? & Hr). do 3 (split; [done|]). intros i g0. rewrite lookup_insert_Some.
      intros [[<- <-]|[_ Hi]]; [by left|by apply Hr].
    - destruct Hn as [? Hr]. split; [done|]. intros i g0. rewrite lookup_insert_Some.
      intros [[<- <-]|[_ Hi]]; [done|by apply Hr]. }
  apply kept_parts. split; [unfold is_open in *; by rewrite <- Eo in Ho|]. split; [exact Hn1|].
  change (records (d1 <| wallet_master_key := _ |>)) with (records d1). cbn.
  rewrite Er, Ek, Ea, Et, Ep, Eb.
  unfold master_kept. rewrite (view_insert sel_master _ g (WalletRecord (-1) m)) by done. rewrite Hm.
  split; [done|]. by rewrite !view_insert_other by (done || by intros [] []).
Qed.

Lemma new_wallet_kept path m h fee d0 d1 :
  cleared d0 -> directories d0 !! path = None -> new_wallet path m h fee d0 = (Ok tt, d1) ->
  exists n, n <= 4 /\ kept n d1 /\ wallet_master_key d1 = Some (WalletRecord (-1) m) /\
    open_directory d1 = Some path.
Proof.
  intros (Em & Ek & Ea & Et & Eb & Ep) Hnew E. unfold new_wallet, write_new_wallet in E.
  rewrite (run_step _ _ _ _ _ (open_new path d0 Hnew)) in E. set (d2 := d0 <| directories ::= _ |> <| _ := _ |>) in E.
  assert (Er : records d2 = ∅) by (unfold records, d2; cbn; by rewrite lookup_insert_eq).
  assert (Hk2 : kept 2 d2).
  { apply kept_parts. unfold next_is, master_kept. rewrite Er. unfold d2. cbn. rewrite Em, Ek, Ea, Et, Eb, Ep.
    rewrite lookup_empty, !omap_empty. split; [done|]. split.
    { split; [done|]. intros i. rewrite lookup_empty. by intros []. }
    do 5 (split; [done || apply mirror_empty|]). split; intros *; rewrite lookup_empty; discriminate. }
  apply run_bind_ok in E as ([] & d3 & E3 & E). apply run_bind_ok in E as ([] & d4 & E4 & E).
  destruct (safe_set_property last_unlocked_scanned_block_number (variant_int h) d2 ltac:(done) 2 Hk2 ltac:(lia) _ _ E3)
    as (n3 & Hn3 & Hk3).
  destruct (safe_set_property default_transaction_priority_fee (variant_int fee) d3 ltac:(done) n3 Hk3 ltac:(lia) _ _ E4)
    as (n4 & Hn4 & Hk4).
  assert (Eo : open_directory d4 = Some path).
  { rewrite (stays_after _ _ _ _ (stays_set_property _ _) E4).
    by rewrite (stays_after _ _ _ _ (stays_set_property _ _) E3). }
  erewrite run_step in E by (apply store_record_ok; [apply Hk4|done]).
  set (d5 := set_records _ d4) in E.
  assert (Em4 : wallet_master_key d4 = None).
  { pose proof (master_stays last_unlocked_scanned_block_number (variant_int h) d2) as H3.
    pose proof (master_stays default_transaction_priority_fee (variant_int fee) d3) as H4.
    rewrite E3 in H3. rewrite E4 in H4. cbn in H3, H4. by rewrite H4, H3. }
  pose proof (master_kept_stored n4 d4 m Hk4 Em4) as Hk5. fold d5 in Hk5.
  assert (Eo5 : open_directory d5 = Some path) by (unfold d5; match goal with |- open_directory (set_records ?f ?d) = _ => by rewrite (proj1 (set_records_memory f d)) end).
  rewrite (reopen_run path d5 Eo5) in E. injection E as <-. exists n4. split; [lia|].
  split; [by apply (reopened_kept n4 path (Some (WalletRecord (-1) m)) d5)|].
  split; [by apply (reopened_master n4)|apply reopened_open].
Qed.

(** ** What is in memory is found again *)

(** What the wallet relies on of the memory of its database; the rest of it are indexes. *)
Record found_again d d' : Prop := {
  found_master : wallet_master_key d' = wallet_master_key d;
  found_properties : properties d' = properties d;
  found_keys a : vault <$> (keys d' !! a) = vault <$> (keys d !! a);
  found_accounts i : contact <$> (accounts d' !! i) = contact <$> (accounts d !! i);
  found_transactions a : stored_form <$> (transactions d' !! a) = stored_form <$> (transactions d !! a);
  found_balances : balances d ⊆ balances d'
}.

Lemma kept_found n path d :
  kept n d -> open_directory d = Some path -> found_again d (reopened path d).
Proof.
  intros Hk Ho. assert (Hk' : kept n (d <| wallet_master_key := wallet_master_key d |>)) by (by destruct d).
  pose proof (in_index_order_perm (records d)) as Hl. split.
  - by apply (reopened_master n).
  - apply map_eq. intros i. rewrite (reopened_properties path d).
    pose proof (reloaded_same _ _ id_index id_key sel_property _ (records d) _ (properties d)
        (put_new_loads _ _) Hl (kept_properties _ _ Hk) i) as E. by rewrite !option_fmap_id in E.
  - intros a. rewrite (reopened_keys path d).
    exact (reloaded_same _ _ vault_index vault_key _ _ _ _ _ (put_new_loads _ _) Hl (kept_keys _ _ Hk) a).
  - intros a. rewrite (reopened_accounts path d).
    exact (reloaded_same _ _ contact_index contact_index _ _ _ _ _ (put_any_loads _ _) Hl (kept_accounts _ _ Hk) a).
  - intros a. rewrite (reopened_transactions path d).
    exact (reloaded_same _ _ stored_form_index stored_form_key _ _ _ _ _ (put_new_loads _ _) Hl (kept_transactions _ _ Hk) a).
  - apply map_subseteq_spec. intros i b. by apply (reopened_balance n path _ d Hk').
Qed.

(** C5: A wallet is created in a directory that does not exist, and [k] operations of
    [db_step] are made on its database, none of them more than two new indexes, so that
    [2 k + 10 < 2^31] leaves enough: whatever they answered, closing it and
    opening it again succeeds, and finds the same master key, the same properties, the same keys
    (index, private and public key, memo), the same contacts (index, address, trust level; a new
    name is in memory only), the same transactions up to the two fields that are not written, and
    every balance it had. [change_passphrase] and the removal of contacts are not among the
    operations: after them it fails ([keys_unreadable], [key_lost]). *)
Theorem wallet_persists path m h fee k d0 d1 d :
  cleared d0 -> directories d0 !! path = None -> new_wallet path m h fee d0 = (Ok tt, d1) ->
  nsteps db_step k d1 d -> 2 * Z.of_nat k + 10 < 2 ^ 31 ->
  exists d', (let! _ := close in open path) d = (Ok tt, d') /\ found_again d d'.
Proof.
  intros Hc Hnew E Hs Hlt. destruct (new_wallet_kept _ _ _ _ _ _ Hc Hnew E) as (n & Hn & Hk & _ & Ho).
  destruct (db_steps_kept n k d1 d Hs Hk ltac:(lia)) as (n' & _ & Hk').
  assert (Ho' : open_directory d = Some path).
  { rewrite <- Ho. clear -Hs. induction Hs as [|k d1 d2 d H1 _ IH]; [done|].
    by rewrite IH, (db_step_open _ _ H1). }
  exists (reopened path d). split; [by apply reopen_run|by eapply kept_found].
Qed.
End Sessions.
