(* ===== verification/Wallet.v ===== *)
(** The wallet of [wallet.cpp]: its password, its accounts and its keys, over the database of
    [WalletDb] and a chain that is read only.

    What the source draws at random is an argument, and so is the clock of the machine. A
    wallet is locked while its password is the empty hash; the fiber that locks it again is
    left out: [lock] may happen between any two operations. *)
From stdpp Require Import sorting.
From S2P Require Import Prelude Errors.
From S2P Require Export Chain Transaction WalletDb.

Record wallet := Wallet {
  database : wallet_db;
  wallet_password : list Z;
  use_deterministic_one_time_keys : bool;
  current_wallet_path : string
}.
#[export, refine] Instance wallet_members : Members wallet := {
  eta w := Wallet (database w) (wallet_password w) (use_deterministic_one_time_keys w)
    (current_wallet_path w) }.
Proof. by intros []. Defined.

Definition BTS_MIN_PASSWORD_LENGTH : nat := 8.
Definition BTS_DEFAULT_PRIORITY_FEE : Z := 10000.

(** [fc::sha512()]. *)
Definition no_password : list Z := replicate 64 0.
Definition is_locked (w : wallet) : bool := bool_decide (wallet_password w = no_password).
Definition is_unlocked (w : wallet) : bool := negb (is_locked w).
Definition wallet_is_open (w : wallet) : bool := is_open (database w).

Definition on_db {A} (m : run wallet_db A) : run wallet A :=
  on_part database (fun d w => w <| database := d |>) m.
(** [FC_ASSERT] of the state. *)
Definition asserts {S} (b : S -> bool) : run S unit := reads (fun s => FC_ASSERT (b s)).

(** [fc::raw::pack] of the id of a block. *)
Class FcSecrets := { pack_block_id : Z -> list Z }.

Section Wallet.
Context `{FC : Fc} `{FT : FcTransaction} `{FK : FcKeys} `{FP : FcPrivate} `{HO : HashOrder}.
Notation run := (run wallet).
Implicit Types (w : wallet) (c : chain) (name : string).

(** ** Opening and locking *)

(** [wallet( chain_database_ptr )], with what is on the disk. *)
Definition new_wallet_state (disk : gmap string directory) : wallet :=
  Wallet (new_wallet_db disk) no_password false "".

(** [sha512::hash] 100000 times more; a random key when there is no brain key. *)
Fixpoint strengthen (n : nat) (base : list Z) : list Z :=
  match n with O => base | S n => strengthen n (sha512_hash base) end.
Definition key_of_brain (brainkey generated : list Z) : extended_private_key :=
  if (0 <? length brainkey)%nat then
    extended_of_seed (strengthen (Z.to_nat 100000) (sha512_hash brainkey))
  else extended_of_private_key generated.

(** A closed directory exists when it is among those of the disk. *)
Definition exists_path (path : string) w : bool := bool_decide (is_Some (directories (database w) !! path)).
Definition create_file c (wallet_file_path : string) (password brainkey generated : list Z) : run unit :=
  let! _ := asserts (fun w => negb (exists_path wallet_file_path w)) in
  let! _ := asserts (fun _ => 8 <? length password)%nat in
  let! _ := on_db (WalletDb.open wallet_file_path) in
  let! _ := modify (fun w => w <| wallet_password := sha512_hash password |>) in
  let! p := reads (fun w => Ok (wallet_password w)) in
  let new_master_key := encrypt_key p (key_of_brain brainkey generated) in
  let! _ := on_db (write_new_wallet wallet_file_path new_master_key
                     (block_num (head_block_header (db c))) BTS_DEFAULT_PRIORITY_FEE) in
  asserts (fun w => bool_decide (is_Some (wallet_master_key (database w)))).

Definition close : run unit := on_db WalletDb.close.

(** [wallet_impl::cache_balance]: what the chain does not know is dropped, not from the disk. *)
Definition cache_balance_of c (id : Z) : run bool :=
  match get_balance_record (db c) id with
  | None =>
      let! _ := on_db (modify (fun d => d <| balances ::= delete id |>)) in ret false
  | Some r => let! _ := on_db (cache_balance r) in ret true
  end.
Definition open_file c (wallet_filename : string) : run unit :=
  let! _ := close in
  let! _ := asserts (exists_path wallet_filename) in
  let! _ := on_db (WalletDb.open wallet_filename) in
  let! _ := modify (fun w => w <| current_wallet_path := wallet_filename |>) in
  let! tmp_balances := reads (fun w => Ok (items (balances (database w)))) in
  run_each (fun item => let! _ := cache_balance_of c item.1 in ret tt) tmp_balances.
(** Wallets are named by their files. *)
Definition open c (wallet_name : string) : run unit :=
  let! known := reads (fun w => Ok (exists_path wallet_name w)) in
  if negb known then raise no_such_wallet else open_file c wallet_name.
Definition create c (wallet_name : string) (password brainkey generated : list Z) : run unit :=
  let! known := reads (fun w => Ok (exists_path wallet_name w)) in
  if known : bool then raise wallet_already_exists
  else
    let! o := reads (fun w => Ok (wallet_is_open w)) in
    let! _ := if o : bool then close else ret tt in
    let! _ := create_file c wallet_name password brainkey generated in
    open c wallet_name.

Definition lock : run unit := modify (fun w => w <| wallet_password := no_password |>).
(** [unlock], up to the scan; a day of the clock is no part of the state. *)
Definition unlock_with (password : list Z) : run unit :=
  let! _ := asserts (fun _ => BTS_MIN_PASSWORD_LENGTH <=? length password)%nat in
  let! m := reads (fun w => value_or_throw (wallet_master_key (database w)) assert_exception) in
  let! _ := modify (fun w => w <| wallet_password := sha512_hash password |>) in
  let! p := reads (fun w => Ok (wallet_password w)) in
  if negb (validate_password p (data m)) then let! _ := lock in raise invalid_password else ret tt.

(** The loop goes over copies: the keys in memory stay as they are. *)
Definition reencrypt (old_password new_password : list Z) (key : Z * wallet_record key_data)
    : run unit :=
  if has_private_key (data key.2) then
    let! priv_key := reads (fun _ => decrypt_private_key old_password (data key.2)) in
    on_db (store_record (on_data (encrypt_private_key new_password priv_key) key.2))
  else ret tt.
Definition change_passphrase (new_passphrase : list Z) : run unit :=
  let! _ := reads (fun w => throw_if (negb (wallet_is_open w)) wallet_closed) in
  let! _ := reads (fun w => throw_if (negb (is_unlocked w)) login_required) in
  let! _ := reads (fun _ => throw_if (length new_passphrase <? BTS_MIN_PASSWORD_LENGTH)%nat password_too_short) in
  let! m := reads (fun w => value_or_throw (wallet_master_key (database w)) assert_exception) in
  let new_password := sha512_hash new_passphrase in
  let! old_password := reads (fun w => Ok (wallet_password w)) in
  let! ks := reads (fun w => Ok (items (keys (database w)))) in
  let! _ := run_each (reencrypt old_password new_password) ks in
  let! master_key := reads (fun _ => decrypt_key old_password (data m)) in
  let m := WalletRecord (wallet_record_index m) (encrypt_key new_password master_key) in
  let! _ := modify (fun w => w <| database ::= fun d => d <| wallet_master_key := Some m |> |>) in
  let! _ := on_db (store_record m) in
  modify (fun w => w <| wallet_password := new_password |>).

(** ** Accounts *)
Definition with_account name w : result (option (wallet_record account)) :=
  lookup_account_by_name (database w) name.

Definition is_valid_account c name w : result bool :=
  let* _ := FC_ASSERT (wallet_is_open w) in
  let* _ := FC_ASSERT (is_valid_account_name name) in
  let* a := with_account name w in
  Ok (bool_decide (is_Some a) || bool_decide (is_Some (get_account_record_by_name (db c) name))).
Definition is_receive_account name w : result bool :=
  let* _ := FC_ASSERT (wallet_is_open w) in
  let* _ := FC_ASSERT (is_valid_account_name name) in
  let* opt_account := with_account name w in
  Ok match opt_account with
     | None => false
     | Some a =>
         match lookup_key (database w) (account_address (data a)) with
         | None => false
         | Some k => has_private_key (data k)
         end
     end.
Definition is_unique_account c name w : result bool :=
  let* local_account := with_account name w in
  Ok match local_account, get_account_record_by_name (db c) name with
     | Some l, Some r => account_address (data l) =? address_of_key (active_key r)
     | None, None => false
     | _, _ => true
     end.
Definition is_receive_address (addr : Z) w : bool :=
  match lookup_key (database w) addr with Some k => has_private_key (data k) | None => false end.

(** The local name goes first. *)
Definition account_key_of (a : wallet_record account) w : result (wallet_record key_data) :=
  value_or_throw (lookup_key (database w) (account_address (data a))) assert_exception.
Definition get_account_public_key c name w : result Z :=
  let* _ := FC_ASSERT (wallet_is_open w) in
  let* _ := FC_ASSERT (is_valid_account_name name) in
  let* opt_account := with_account name w in
  match opt_account, get_account_record_by_name (db c) name with
  | None, Some r => Ok (active_key r)
  | None, None => Throw assert_exception
  | Some a, _ => let* k := account_key_of a w in Ok (public_key_of (data k))
  end.

Definition decrypt_private w (k : wallet_record key_data) : result (list Z) :=
  let* _ := FC_ASSERT (has_private_key (data k)) in
  decrypt_private_key (wallet_password w) (data k).
Definition get_private_key (addr : Z) w : result (list Z) :=
  let* _ := FC_ASSERT (wallet_is_open w) in
  let* _ := FC_ASSERT (is_unlocked w) in
  let* key := value_or_throw (lookup_key (database w) addr) assert_exception in
  decrypt_private w key.
Definition get_account_private_key name w : result (list Z) :=
  let* _ := FC_ASSERT (wallet_is_open w) in
  let* _ := FC_ASSERT (is_unlocked w) in
  let* _ := FC_ASSERT (is_valid_account_name name) in
  let* opt_account := with_account name w in
  let* a := value_or_throw opt_account assert_exception in
  let* k := account_key_of a w in
  decrypt_private w k.

(** [FC_ASSERT( is_open() ); FC_ASSERT( is_unlocked() )]. *)
Definition open_and_unlocked : run unit :=
  let! _ := asserts wallet_is_open in asserts is_unlocked.
Definition valid_name name : run unit := asserts (fun _ => is_valid_account_name name).

Definition create_account c (clock : Z) name (private_data : variant) : run Z :=
  let! _ := open_and_unlocked in
  let! _ := valid_name name in
  let! current_account := reads (with_account name) in
  let! _ := asserts (fun _ => bool_decide (current_account = None)) in
  let! _ := asserts (fun _ => bool_decide (get_account_record_by_name (db c) name = None)) in
  let! p := reads (fun w => Ok (wallet_password w)) in
  let! new_priv_key := on_db (new_private_key p 0) in
  let new_pub_key := get_public_key new_priv_key in
  let! _ := on_db (WalletDb.add_contact_account clock name new_pub_key private_data) in
  ret new_pub_key.

Definition get_new_public_key name : run Z :=
  let! _ := reads (fun w => throw_if (negb (wallet_is_open w)) wallet_closed) in
  let! _ := reads (fun w => throw_if (negb (is_unlocked w)) login_required) in
  let! mine := reads (is_receive_account name) in
  let! _ := reads (fun _ => throw_if (negb mine) unknown_receive_account) in
  let! current_account := reads (with_account name) in
  let! a := reads (fun _ => value_or_throw current_account assert_exception) in
  let! p := reads (fun w => Ok (wallet_password w)) in
  let! new_priv_key := on_db (new_private_key p (account_address (data a))) in
  ret (get_public_key new_priv_key).
Definition get_new_address name : run Z :=
  let! k := get_new_public_key name in ret (address_of_key k).

Definition add_contact_account c (clock : Z) name (key : Z) (data_ : variant) : run unit :=
  let! _ := asserts wallet_is_open in
  let! _ := valid_name name in
  let current_registered_account := get_account_record_by_name (db c) name in
  let! _ := reads (fun _ =>
    match current_registered_account with
    | Some r => FC_ASSERT (active_key r =? key)
    | None => Ok tt
    end) in
  let! current_account := reads (with_account name) in
  match current_account with
  | Some a =>
      let! _ := asserts (fun _ => account_address (data a) =? address_of_key key) in
      on_db (store_record (on_data (fun a => a <| private_data := data_ |>) a))
  | None =>
      let! _ := asserts (fun w => bool_decide (lookup_key (database w) (address_of_key key) = None)) in
      let! _ := on_db match current_registered_account with
                      | Some r => add_registered_contact r data_
                      | None => WalletDb.add_contact_account clock name key data_
                      end in
      asserts (fun w => bool_decide (is_Some (lookup_key (database w) (address_of_key key))))
  end.

(** [account_record& bca = *local_account; bca = *chain_account]. *)
Definition with_chain_account (r : account_record) (a : wallet_record account) : wallet_record account :=
  on_data (fun a => a <| chain_account := r |>) a.
Definition get_account c name : run (option (wallet_record account)) :=
  let! _ := asserts wallet_is_open in
  let! _ := valid_name name in
  let! local_account := reads (with_account name) in
  match local_account, get_account_record_by_name (db c) name with
  | Some a, Some r =>
      if owner_key (chain_account (data a)) =? owner_key r then
        let a := with_chain_account r a in
        let! _ := on_db (store_record a) in ret (Some a)
      else ret local_account
  | _, _ => ret local_account
  end.

Definition remove_contact name : run unit :=
  let! oaccount := reads (with_account name) in
  let! a := reads (fun _ => value_or_throw oaccount assert_exception) in
  let! _ := asserts (fun w =>
    negb (db_has_private_key (database w) (address_of_key (owner_key (chain_account (data a)))))) in
  on_db (remove_contact_account name).
Definition rename (old_account_name new_account_name : string) : run unit :=
  let! _ := asserts wallet_is_open in
  let! _ := valid_name old_account_name in
  let! _ := valid_name new_account_name in
  let! old_account := reads (with_account old_account_name) in
  let! _ := asserts (fun _ => bool_decide (is_Some old_account)) in
  let! new_account := reads (with_account new_account_name) in
  let! _ := asserts (fun _ => bool_decide (new_account = None)) in
  on_db (rename_account old_account_name new_account_name).

(** ** Keys *)
Definition set_private_key (key : list Z) (k : key_data) : run unit :=
  let! p := reads (fun w => Ok (wallet_password w)) in
  on_db (store_key (encrypt_private_key p key k)).

(** The last branch of [import_private_key]: under an account of the wallet. *)
Definition import_into (key : list Z) (a : wallet_record account) : run Z :=
  let pub_key := get_public_key key in
  let! current_key_record := reads (fun w => Ok (lookup_key (database w) (address_of_key pub_key))) in
  match current_key_record with
  | Some k =>
      let! _ := asserts (fun _ => key_account_address (data k) =? account_address (data a)) in
      let! _ := set_private_key key (data k) in
      ret (get_public_key key)
  | None =>
      let! _ := set_private_key key (key_data_default <| key_account_address := account_address (data a) |>) in
      ret pub_key
  end.
(** It calls itself once, for an account that was added: the second call finds the key, or an
    account under a name that is not empty. *)
Fixpoint import_fuel (fuel : nat) c (clock : Z) (key : list Z) name (create_account : bool) : run Z :=
  match fuel with
  | O => raise does_not_return
  | S fuel =>
      let! _ := open_and_unlocked in
      let import_public_key := get_public_key key in
      let! current_key_record := reads (fun w => Ok (lookup_key (database w) (address_of_key import_public_key))) in
      match current_key_record with
      | Some k => let! _ := set_private_key key (data k) in ret import_public_key
      | None =>
          if bool_decide (name = ""%string) then
            let! registered_account := reads (fun _ => get_account_record_by_owner (db c) (address_of_key import_public_key)) in
            let! r := reads (fun _ => value_or_throw registered_account assert_exception) in
            let! _ := add_contact_account c clock (account_name r) import_public_key variant_null in
            import_fuel fuel c clock key (account_name r) false
          else
            let! _ := valid_name name in
            let! current_account := reads (with_account name) in
            match current_account with
            | None =>
                if create_account then
                  let! _ := add_contact_account c clock name import_public_key variant_null in
                  import_fuel fuel c clock key name false
                else raise assert_exception
            | Some a => import_into key a
            end
      end
  end.
Definition import_private_key : chain -> Z -> list Z -> string -> bool -> run Z := import_fuel 2.

(** [create_one_time_key]. *)
Definition create_one_time_key (generated : list Z) : run (list Z) :=
  let! deterministic := reads (fun w => Ok (use_deterministic_one_time_keys w)) in
  if deterministic : bool then
    let! p := reads (fun w => Ok (wallet_password w)) in on_db (new_private_key p 0)
  else ret generated.

(** ** Fees and trust *)
Definition get_priority_fee w : result asset :=
  let v := get_property (database w) default_transaction_priority_fee in
  if bool_decide (v = variant_null) then Ok (Asset BTS_DEFAULT_PRIORITY_FEE 0)
  else let* n := as_int v in Ok (Asset (int64 n) 0).
Definition set_priority_fee (fee : Z) : run unit :=
  on_db (set_property default_transaction_priority_fee (variant_int fee)).

Definition get_delegate_trust_level name w : result Z :=
  let* _ := FC_ASSERT (wallet_is_open w) in
  let* war := with_account name w in
  Ok match war with Some a => trust_level (data a) | None => 0 end.
(** Again for an account that was just added; were it not found, its key would be. *)
Definition set_trust_of (level : Z) (a : wallet_record account) : run unit :=
  on_db (cache_account (on_data (fun a => a <| trust_level := level |>) a)).
Definition set_delegate_trust_level c (clock : Z) (delegate_name : string) (level : Z) : run unit :=
  let! _ := asserts wallet_is_open in
  let! war := reads (with_account delegate_name) in
  match war with
  | Some a => set_trust_of level a
  | None =>
      let! r := reads (fun _ => value_or_throw (get_account_record_by_name (db c) delegate_name) assert_exception) in
      let! _ := add_contact_account c clock delegate_name (active_key r) variant_null in
      let! war := reads (with_account delegate_name) in
      match war with
      | Some a => set_trust_of level a
      | None => raise assert_exception
      end
  end.

(** ** Producing blocks *)
Context `{FBl : FcBlock} `{FSe : FcSecrets}.
Definition get_secret c (num : Z) (delegate_key : list Z) : result Z :=
  let* header_id :=
    if negb (num =? 2 ^ 32 - 1) && (1 <? num) then
      let* id := fetch (num - 1) (block_num_to_id_db c) in
      let* h := get_block_header c id in Ok (block_id h)
    else Ok 0 in
  Ok (ripemd160_hash (sha512_hash (sha512_hash (pack_private_key delegate_key) ++ pack_block_id header_id))).

Definition with_secrets (next_hash previous_secret : Z) (h : signed_block_header) : block_header :=
  BlockHeader (previous h) (block_num h) (fee_rate h) (delegate_pay_rate h) (timestamp h)
    (transaction_digest h) next_hash previous_secret.
(** [signed_block_header::sign]. *)
Definition sign_header (delegate_key : list Z) (h : block_header) : signed_block_header :=
  SignedBlockHeader h (sign_compact delegate_key (block_digest h)).
Definition sign_block c (h : signed_block_header) w : result signed_block_header :=
  let* _ := FC_ASSERT (is_unlocked w) in
  let* signing_delegate_id := get_signing_delegate_id (db c) (timestamp h) in
  let delegate_rec := get_account_record (db c) signing_delegate_id in
  let* delegate_pub_key := get_signing_delegate_key (db c) (timestamp h) in
  let* delegate_key := get_private_key (address_of_key delegate_pub_key) w in
  let* _ := FC_ASSERT (delegate_pub_key =? get_public_key delegate_key) in
  let* r := deref delegate_rec in
  let* info := deref (delegate_info r) in
  let* previous_secret := get_secret c (last_block_num_produced info) delegate_key in
  let* next_secret := get_secret c (uint32 (block_num (head_block_header (db c)) + 1)) delegate_key in
  let h := sign_header delegate_key (with_secrets (hash_secret next_secret) previous_secret h) in
  let* signed := validate_signee h delegate_pub_key in
  let* _ := FC_ASSERT signed in
  Ok h.

(** The slots of one round from now on, by the clock of the machine. *)
Fixpoint next_slot (fuel : nat) c (sorted_delegates : list Z) (next_block_time last_block_time : Z) w : result Z :=
  if next_block_time <? last_block_time then
    match fuel with
    | O => Throw does_not_return
    | S fuel =>
        let delegate_pos := Z.rem (next_block_time / BTS_BLOCKCHAIN_BLOCK_INTERVAL_SEC) BTS_BLOCKCHAIN_NUM_DELEGATES in
        let* id := deref (sorted_delegates !! Z.to_nat delegate_pos) in
        let* r := value_or_throw (get_account_record (db c) id) assert_exception in
        if is_receive_address (address_of_key (active_key r)) w then Ok next_block_time
        else next_slot fuel c sorted_delegates (uint32 (next_block_time + BTS_BLOCKCHAIN_BLOCK_INTERVAL_SEC)) last_block_time w
    end
  else Ok 0.
Definition next_block_production_time c (clock : Z) w : result Z :=
  let interval := BTS_BLOCKCHAIN_BLOCK_INTERVAL_SEC in
  let next_block_time := uint32 (clock / interval * interval) in
  let next_block_time :=
    if next_block_time =? timestamp (head_block_header (db c)) then uint32 (next_block_time + interval)
    else next_block_time in
  let last_block_time := uint32 (next_block_time + BTS_BLOCKCHAIN_NUM_DELEGATES * interval) in
  let* sorted_delegates := get_active_delegates (db c) in
  next_slot (Z.to_nat BTS_BLOCKCHAIN_NUM_DELEGATES) c sorted_delegates next_block_time last_block_time w.

(** The fuel is enough, as every turn goes on by one slot. *)
Lemma next_slot_ends fuel c ids next_block_time last_block_time w :
  0 <= next_block_time -> last_block_time + BTS_BLOCKCHAIN_BLOCK_INTERVAL_SEC <= 2 ^ 32 ->
  last_block_time - next_block_time <= BTS_BLOCKCHAIN_BLOCK_INTERVAL_SEC * Z.of_nat fuel ->
  next_slot fuel c ids next_block_time last_block_time w <> Throw does_not_return.
Proof.
  change BTS_BLOCKCHAIN_BLOCK_INTERVAL_SEC with 15. revert next_block_time.
  induction fuel as [|fuel IH]; intros t Ht Hl Hf; cbn [next_slot]; destruct (Z.ltb_spec t last_block_time) as [Hlt|]; try done; [lia|].
  destruct (ids !! _) as [id|]; [|done]. cbn [deref value_or_throw bind].
  destruct (get_account_record (db c) id) as [r|]; [|done]. cbn [value_or_throw bind].
  destruct (is_receive_address _ w); [done|]. change BTS_BLOCKCHAIN_BLOCK_INTERVAL_SEC with 15.
  unfold uint32. rewrite Z.mod_small by lia. apply IH; lia.
Qed.

(** ** What is listed *)
Definition list_contact_accounts w : list (wallet_record account) :=
  filter (fun a => db_has_private_key (database w) (account_address (data a)) = false)
    (map snd (items (accounts (database w)))).
Definition list_receive_accounts w : list (wallet_record account) :=
  filter (fun a => db_has_private_key (database w) (account_address (data a)) = true)
    (map snd (items (accounts (database w)))).
Definition get_public_keys_in_account c name w : result (list Z) :=
  let* account_public_key := get_account_public_key c name w in
  let a := address_of_key account_public_key in
  Ok (map (fun k => public_key_of (data k.2))
        (filter (fun k => key_account_address (data k.2) = a \/ k.1 = a) (items (keys (database w))))).

(** The transactions of an account, in the order of the time they were received. *)
Definition received_le (a b : wallet_record transaction_data) : Prop := received_time (data a) <= received_time (data b).
#[export] Instance received_le_dec a b : Decision (received_le a b).
Proof. unfold received_le. apply _. Defined.
Definition concerns (name : string) (key : Z) (t : wallet_record transaction_data) : bool :=
  bool_decide (name = "" \/ name = "*")%string ||
  bool_decide (to_account (data t) = Some key) || bool_decide (from_account (data t) = Some key).
Definition get_transaction_history c name w : result (list (wallet_record transaction_data)) :=
  let* _ := FC_ASSERT (wallet_is_open w) in
  let* account_pub := if bool_decide (name = "")%string then Ok 0 else get_account_public_key c name w in
  Ok (merge_sort received_le
        (filter (fun t => concerns name account_pub t = true) (map snd (items (transactions (database w)))))).
End Wallet.
