(* ===== verification/WalletSpending.v ===== *)
(** Spending from a wallet: the transactions that [wallet.cpp] builds, signs and remembers, and
    what [withdraw_to_transaction] takes from its balances.

    Amounts are entered as doubles, which are those of IEEE 754 ([SpecFloat]). What is drawn at
    random is an argument: the one time keys, the numbers of [rand], the clock. A transaction
    that is being built is lost when the wallet throws; what was stored is not. *)
From Stdlib Require Import SpecFloat.
From S2P Require Import Prelude Errors Asset ChainInterface WalletStored.
From S2P Require Export Schedule Wallet.

(** ** Amounts *)
Notation double := spec_float.
Definition double_of_int (z : Z) : double := binary_normalize 53 1024 z 0 false.
Definition double_mul : double -> double -> double := SFmul 53 1024.
(** The conversion to [int64_t] truncates; it is undefined out of range. *)
Definition share_of_double (x : double) : result Z :=
  match x with
  | S754_zero _ => Ok 0
  | S754_finite s m e =>
      let v := if 0 <=? e then Z.pos m * 2 ^ e else Z.pos m / 2 ^ (- e) in
      let v := if s then - v else v in
      if (- 2 ^ 63 <=? v) && (v <? 2 ^ 63) then Ok v else Throw undefined_behaviour
  | _ => Throw undefined_behaviour
  end.
Definition shares_of (real_amount : double) (r : asset_record) : result Z :=
  share_of_double (double_mul real_amount (double_of_int (get_precision r))).

(** [fc::raw::pack_size]. *)
Class FcSizes := { pack_size_variant : variant -> Z; pack_size_optional : option variant -> Z }.

(** A transaction that is built, and the addresses that have to sign it. *)
Record building := Building { built : signed_transaction; required_signatures : gset Z }.
Definition building_nothing : building := Building signed_transaction_default ∅.

Section Spending.
Context `{FC : Fc} `{FT : FcTransaction} `{FK : FcKeys} `{FM : FcMemo} `{FP : FcPrivate} `{FPa : FcPack}.
Context `{HO : HashOrder} `{FS : FcSizes}.
Notation run := (run wallet).
Implicit Types (w : wallet) (c : chain) (b : building).

(** ** Withdrawing *)
Definition address_in_account (address_to_check account_address : Z) w : bool :=
  if address_to_check =? account_address then true
  else match lookup_key (database w) address_to_check with
       | None => false
       | Some k => key_account_address (data k) =? account_address
       end.

Definition add_withdraw (id amount : Z) (signer : Z) b : result building :=
  let* t := withdraw id amount (built b) in
  Ok (Building t ({[ signer ]} ∪ required_signatures b)).
(** [balance_item.second.balance = x], in memory, and [store_record]. *)
Definition left_with (x : Z) (r : balance_record) : balance_record :=
  BalanceRecord x (condition r) (balance_last_update r).
Definition store_left (id x : Z) (r : wallet_record balance_record) : run unit :=
  let r := on_data (left_with x) r in
  let! _ := on_db (modify (fun d => d <| balances ::= <[id := r]> |>)) in
  on_db (store_record r).

(** [withdraw_to_transaction]: the balances in the order of the hash map. *)
Fixpoint withdraw_from (l : list (Z * wallet_record balance_record)) (remaining asset from_account_address : Z) b
    : run building :=
  match l with
  | [] => raise wallet_insufficient_funds
  | (id, r) :: l =>
      let! owner := reads (fun _ => balance_owner (data r)) in
      let! mine := reads (fun w => Ok (address_in_account owner from_account_address w)) in
      if (condition_asset_id (condition (data r)) =? asset) && mine && (0 <? balance (data r)) then
        if balance (data r) <? remaining then
          let! b := reads (fun _ => add_withdraw id (balance (data r)) owner b) in
          let! _ := store_left id 0 r in
          withdraw_from l (remaining - balance (data r)) asset from_account_address b
        else
          let! b := reads (fun _ => add_withdraw id remaining owner b) in
          let! _ := store_left id (balance (data r) - remaining) r in
          ret b
      else withdraw_from l remaining asset from_account_address b
  end.
Definition withdraw_to_transaction (amount asset from_account_address : Z) b : run building :=
  let! l := reads (fun w => Ok (items (balances (database w)))) in
  withdraw_from l amount asset from_account_address b.

(** [withdraw_to_transaction] for the amount and for the fee, together when in one asset. *)
Definition withdraw_with_fee (amnt : asset) (fees : asset) (from : Z) b : run building :=
  if asset_id fees =? asset_id amnt then
    withdraw_to_transaction (int64 (amount fees + amount amnt)) (asset_id fees) from b
  else
    let! b := withdraw_to_transaction (amount amnt) (asset_id amnt) from b in
    withdraw_to_transaction (amount fees) (asset_id fees) from b.

(** ** Signing *)
Definition in_hash_order (s : gset Z) : list Z := map fst (items (gset_to_gmap tt s)).
Definition sign_transaction c b : run signed_transaction :=
  run_fold (fun t addr =>
    let! k := reads (get_private_key addr) in ret (sign k (chain_id c) t))
    (built b) (in_hash_order (required_signatures b)).
Definition sign_if (sign_ : bool) c b : run signed_transaction :=
  if sign_ then sign_transaction c b else ret (built b).

(** ** Voting *)
Definition candidates (p : Z -> bool) w : list account :=
  filter (fun a => p (trust_level a) = true) (map (fun a => data a.2) (items (accounts (database w)))).
Definition candidate_id (a : account) : Z := account_id (chain_account a).
(** The warnings are assertions of a string. *)
Definition vote_of (id : Z) : result Z := if id =? 0 then Throw assert_exception else Ok id.
Definition lowest_votes c (best : Z * Z) (a : account) : result (Z * Z) :=
  let* r := value_or_throw (get_account_record (db c) (candidate_id a)) assert_exception in
  let* n := net_votes r in
  Ok (if n <? best.1 then (n, account_id r) else best).
Definition select_delegate_vote c (rand : Z) w : result Z :=
  let active_delegates := get_delegates_by_vote (db c) 0 (Z.to_nat BTS_BLOCKCHAIN_NUM_DELEGATES) in
  let for_candidates := candidates (fun t => 0 <? t) w in
  let against_candidates := candidates (fun t => t <? 0) w in
  match find (fun id => existsb (fun a => candidate_id a =? id) against_candidates) active_delegates with
  | Some id => let* id := vote_of id in Ok (- id)
  | None =>
      match for_candidates with
      | [] => let* id := deref (active_delegates !! Z.to_nat (Z.rem rand BTS_BLOCKCHAIN_NUM_DELEGATES)) in vote_of id
      | _ =>
          match find (fun a => negb (existsb (fun id => candidate_id a =? id) active_delegates)) for_candidates with
          | Some a => vote_of (candidate_id a)
          | None =>
              let* best := foldM (lowest_votes c) (2 ^ 63 - 1, 0) for_candidates in
              vote_of best.2
          end
      end
  end.

(** ** Transfers *)
Definition pretty_asset c (symbol : string) : run asset_record :=
  reads (fun _ => value_or_throw (get_asset_record_by_symbol (db c) symbol) assert_exception).
Definition valid_symbol c (symbol : string) : run unit :=
  asserts (fun _ => bool_decide (is_Some (get_asset_record_by_symbol (db c) symbol))).
Definition receives (name : string) : run unit :=
  let! mine := reads (is_receive_account name) in asserts (fun _ => mine).
Definition deposit_to c (rand : Z) (generated : list Z) (receiver : Z) (amnt : asset) (sender : list Z)
    (memo : list Z) (memo_key type : Z) b : run building :=
  let! vote := reads (select_delegate_vote c rand) in
  let! one_time := create_one_time_key generated in
  let! t := reads (fun _ =>
    deposit_to_account receiver amnt sender memo vote memo_key one_time type (built b)) in
  ret (Building t (required_signatures b)).
Definition remember (t : signed_transaction) (amnt : asset) (fees : Z) (memo : list Z)
    (to_key clock from_key : Z) (extra : list Z) : run unit :=
  let! _ := on_db (cache_transaction t amnt fees memo to_key clock clock from_key extra) in ret tt.

Definition transfer_asset c (clock rand : Z) (generated : list Z) (real_amount : double)
    (symbol from_account_name to_account_name : string) (memo : list Z) (sign_ : bool)
    : run signed_transaction :=
  let! _ := open_and_unlocked in
  let! _ := valid_symbol c symbol in
  let! _ := receives from_account_name in
  let! valid := reads (is_valid_account c to_account_name) in
  let! _ := asserts (fun _ => valid) in
  let! unique := reads (is_unique_account c to_account_name) in
  let! _ := asserts (fun _ => unique) in
  let! asset_rec := pretty_asset c symbol in
  let! amount_to_transfer := reads (fun _ => shares_of real_amount asset_rec) in
  let asset_to_transfer := Asset amount_to_transfer (asset_record_id asset_rec) in
  let! receiver_public_key := reads (get_account_public_key c to_account_name) in
  let! sender_private_key := reads (get_account_private_key from_account_name) in
  let sender_public_key := get_public_key sender_private_key in
  let sender_account_address := address_of_key sender_public_key in
  let! required_fees := reads get_priority_fee in
  let! b := withdraw_with_fee asset_to_transfer required_fees sender_account_address building_nothing in
  let! b := deposit_to c rand generated receiver_public_key asset_to_transfer sender_private_key
              memo sender_public_key from_memo b in
  if sign_ then
    let! t := sign_transaction c b in
    let! _ := remember t asset_to_transfer (amount required_fees) memo receiver_public_key clock
                sender_public_key [] in
    ret t
  else ret (built b).

Definition transfer_asset_to_address c (clock rand : Z) (real_amount : double) (symbol from_account_name : string)
    (to_address : Z) (memo : list Z) (sign_ : bool) : run signed_transaction :=
  let! _ := open_and_unlocked in
  let! _ := valid_symbol c symbol in
  let! _ := receives from_account_name in
  let! asset_rec := pretty_asset c symbol in
  let! amount_to_transfer := reads (fun _ => shares_of real_amount asset_rec) in
  let asset_to_transfer := Asset amount_to_transfer (asset_record_id asset_rec) in
  let! sender_private_key := reads (get_account_private_key from_account_name) in
  let sender_public_key := get_public_key sender_private_key in
  let sender_account_address := address_of_key sender_public_key in
  let! required_fees := reads get_priority_fee in
  let! b := withdraw_with_fee asset_to_transfer required_fees sender_account_address building_nothing in
  let! vote := reads (select_delegate_vote c rand) in
  let! t := reads (fun _ => deposit to_address asset_to_transfer vote (built b)) in
  let b := Building t (required_signatures b) in
  if sign_ then
    let! t := sign_transaction c b in
    let! _ := remember t asset_to_transfer (amount required_fees) memo 0 clock sender_public_key [to_address] in
    ret t
  else ret t.

(** One address: a withdrawal and a deposit of its own. *)
Definition pay_address c (asset_rec : asset_record) (from : Z) (s : building * asset * list Z)
    (item : Z * double * Z) : run (building * asset * list Z) :=
  let '(b, total, to_addresses) := s in
  let '(to_address, real_amount, rand) := item in
  let! amount_to_transfer := reads (fun _ => shares_of real_amount asset_rec) in
  let asset_to_transfer := Asset amount_to_transfer (asset_record_id asset_rec) in
  let! b := withdraw_to_transaction amount_to_transfer (asset_record_id asset_rec) from b in
  let! total := reads (fun _ => asset_plus_assign total asset_to_transfer) in
  let! vote := reads (select_delegate_vote c rand) in
  let! t := reads (fun _ => deposit to_address asset_to_transfer vote (built b)) in
  ret (Building t (required_signatures b), total, to_addresses ++ [to_address]).
(** The addresses in the order of their map, with the numbers drawn. *)
Definition transfer_asset_to_many_address c (clock : Z) (symbol from_account_name : string)
    (to_address_amounts : list (Z * double * Z)) (memo : list Z) (sign_ : bool) : run signed_transaction :=
  let! _ := open_and_unlocked in
  let! _ := valid_symbol c symbol in
  let! _ := receives from_account_name in
  let! _ := asserts (fun _ => 0 <? length to_address_amounts)%nat in
  let! asset_rec := pretty_asset c symbol in
  let! sender_private_key := reads (get_account_private_key from_account_name) in
  let sender_public_key := get_public_key sender_private_key in
  let from := address_of_key sender_public_key in
  let! required_fees := reads get_priority_fee in
  let! s := run_fold (pay_address c asset_rec from)
              (building_nothing, Asset 0 (asset_record_id asset_rec), []) to_address_amounts in
  let '(b, total, to_addresses) := s in
  let! b := withdraw_to_transaction (amount required_fees) (asset_id required_fees) from b in
  if sign_ then
    let! t := sign_transaction c b in
    let! _ := remember t total (amount required_fees) memo 0 clock sender_public_key to_addresses in
    ret t
  else ret (built b).
End Spending.

(** * The other transactions [wallet.cpp] builds: transfers in several parts, delegates' pay,
    accounts, assets and proposals; and what it shows of its balances. *)

(** What is drawn for one part of a transfer. *)
Record draws := Draws {
  deposit_rand : Z; change_rand : Z; swap_rand : Z; deposit_key : list Z; change_key : list Z }.

(** [std::swap( trx.operations[1], trx.operations[2] )]. *)
Definition swap_operations (t : signed_transaction) : signed_transaction :=
  SignedTransaction (expiration t) (trx_delegate_id t)
    match operations t with
    | o :: o1 :: o2 :: ops => o :: o2 :: o1 :: ops
    | ops => ops
    end (signatures t).

Section Operations.
Context `{FC : Fc} `{FT : FcTransaction} `{FK : FcKeys} `{FM : FcMemo} `{FP : FcPrivate} `{FPa : FcPack}.
Context `{HO : HashOrder} `{FS : FcSizes}.
Notation run := (run wallet).
Implicit Types (w : wallet) (c : chain) (b : building).

(** ** [multipart_transfer] *)

(** What is collected, the transactions with the amounts sent, the balances to store. *)
Record multipart := Multipart {
  amount_collected : asset;
  parts : list (signed_transaction * Z);
  balances_to_store : list (wallet_record balance_record)
}.
Record parties := Parties {
  receiver_public_key : Z; sender_private_key : list Z; part_memo : list Z; total_fee : asset }.

(** What one balance contributes: the deposit, the change, and what is collected with it. In
    the last branch nothing is added to what is collected. *)
Definition split_balance (asset_to_transfer from_balance collected : asset)
    : result (asset * asset * asset) :=
  let* sum := asset_plus_assign collected from_balance in
  if asset_lt asset_to_transfer sum then
    let* amount_to_deposit := asset_minus_assign asset_to_transfer collected in
    let* amount_of_change := asset_minus_assign from_balance amount_to_deposit in
    let* collected := asset_plus_assign collected amount_to_deposit in
    Ok (amount_to_deposit, amount_of_change, collected)
  else Ok (from_balance, Asset 0 (asset_id asset_to_transfer), collected).

Definition part_deposit c (p : parties) (d : draws) (amount_to_deposit : asset) b : run building :=
  if 0 <? amount amount_to_deposit then
    deposit_to c (deposit_rand d) (deposit_key d) (receiver_public_key p) amount_to_deposit
      (sender_private_key p) (part_memo p) (get_public_key (sender_private_key p)) from_memo b
  else ret b.
Definition part_change c (p : parties) (d : draws) (amount_of_change : asset) b : run building :=
  if asset_lt (total_fee p) amount_of_change then
    let! b := deposit_to c (change_rand d) (change_key d) (get_public_key (sender_private_key p))
                amount_of_change (sender_private_key p) (part_memo p) (receiver_public_key p) to_memo b in
    if Z.rem (swap_rand d) 2 =? 0 then ret b
    else
      let! _ := asserts (fun _ => 3 <=? length (operations (built b)))%nat in
      ret (Building (swap_operations (built b)) (required_signatures b))
  else ret b.
Definition sign_part c (sign_ : bool) (owner : Z) b : run signed_transaction :=
  if sign_ then
    let! k := reads (get_private_key owner) in ret (sign k (chain_id c) (built b))
  else ret (built b).

Fixpoint multipart_from c (p : parties) (sign_ : bool) (draw : Z -> draws) (asset_to_transfer : asset)
    (l : list (Z * wallet_record balance_record)) (m : multipart) : run multipart :=
  match l with
  | [] => ret m
  | (id, r) :: l =>
      let skip := multipart_from c p sign_ draw asset_to_transfer l m in
      let! owner := reads (fun _ => balance_owner (data r)) in
      let! mine := reads (fun w => Ok (address_in_account owner
                     (address_of_key (get_public_key (sender_private_key p))) w)) in
      let from_balance := Asset (balance (data r)) (condition_asset_id (condition (data r))) in
      if negb ((asset_id from_balance =? asset_id asset_to_transfer) && mine) then skip
      else if amount from_balance <=? 0 then skip
      else
        let! t := reads (fun _ => withdraw id (amount from_balance) signed_transaction_default) in
        let! from_balance := reads (fun _ => asset_minus_assign from_balance (total_fee p)) in
        if asset_lt from_balance (total_fee p) then skip
        else
          let! s := reads (fun _ => split_balance asset_to_transfer from_balance (amount_collected m)) in
          let '(amount_to_deposit, amount_of_change, collected) := s in
          let! b := part_deposit c p (draw id) amount_to_deposit (Building t ∅) in
          let! b := part_change c p (draw id) amount_of_change b in
          let! t := sign_part c sign_ owner b in
          let m := Multipart collected (parts m ++ [(t, amount amount_to_deposit)])
                     (balances_to_store m ++ [on_data (left_with 0) r]) in
          if (asset_id collected =? asset_id asset_to_transfer) && (amount asset_to_transfer <=? amount collected)
          then ret m
          else multipart_from c p sign_ draw asset_to_transfer l m
  end.

Definition multipart_transfer c (clock : Z) (draw : Z -> draws) (real_amount : double)
    (symbol from_account_name to_account_name : string) (memo : list Z) (sign_ : bool)
    : run (list signed_transaction) :=
  let! _ := open_and_unlocked in
  let! _ := valid_symbol c symbol in
  let! _ := receives from_account_name in
  let! valid := reads (is_valid_account c to_account_name) in
  let! _ := asserts (fun _ => valid) in
  let! unique := reads (is_unique_account c to_account_name) in
  let! _ := asserts (fun _ => unique) in
  let! asset_rec := pretty_asset c symbol in
  let! amount_to_transfer := reads (fun _ => shares_of real_amount asset_rec) in
  let asset_to_transfer := Asset amount_to_transfer (asset_record_id asset_rec) in
  let! _ := asserts (fun _ => length memo <=? BTS_BLOCKCHAIN_MAX_MEMO_SIZE)%nat in
  let! fee := reads get_priority_fee in
  let! _ := asserts (fun _ => amount fee <? amount_to_transfer) in
  let! _ := asserts (fun _ => asset_record_id asset_rec =? 0) in
  let! receiver := reads (get_account_public_key c to_account_name) in
  let! sender := reads (get_account_private_key from_account_name) in
  let p := Parties receiver sender memo fee in
  let! l := reads (fun w => Ok (items (balances (database w)))) in
  let! m := multipart_from c p sign_ draw asset_to_transfer l
              (Multipart (Asset 0 (asset_record_id asset_rec)) [] []) in
  let! _ := asserts (fun _ => negb (asset_lt (amount_collected m) asset_to_transfer)) in
  if sign_ then
    let! _ := run_each (fun r => on_db (store_balance r)) (balances_to_store m) in
    let! _ := run_each (fun part =>
        remember part.1 (Asset (int64 (- part.2)) (asset_record_id asset_rec)) (amount fee) memo receiver clock
          (get_public_key sender) []) (parts m) in
    ret (map fst (parts m))
  else ret (map fst (parts m)).

(** ** Delegates and proposals *)
Definition chain_account_named c (name : string) : run account_record :=
  reads (fun _ => value_or_throw (get_account_record_by_name (db c) name) assert_exception).

Definition withdraw_delegate_pay c (generated : list Z) (delegate_name : string) (amount_to_withdraw : Z)
    (to_account_name : string) (memo : list Z) (sign_ : bool) : run signed_transaction :=
  let! _ := open_and_unlocked in
  let! _ := receives delegate_name in
  let! valid := reads (is_valid_account c to_account_name) in
  let! _ := asserts (fun _ => valid) in
  let! r := chain_account_named c delegate_name in
  let! _ := asserts (fun _ => is_delegate r) in
  let! fees := reads get_priority_fee in
  let! info := reads (fun _ => deref (delegate_info r)) in
  let with_fee := int64 (amount_to_withdraw + amount fees) in
  let! _ := asserts (fun _ => with_fee <=? pay_balance info) in
  let! k := reads (fun w => value_or_throw (lookup_key (database w) (address_of_key (active_key r))) assert_exception) in
  let! delegate_private_key := reads (fun w => decrypt_private w k) in
  let delegate_public_key := get_public_key delegate_private_key in
  let! receiver := reads (get_account_public_key c to_account_name) in
  let! t := reads (fun _ => withdraw_pay (account_id r) with_fee signed_transaction_default) in
  let! one_time := create_one_time_key generated in
  let! t := reads (fun _ =>
    deposit_to_account receiver (Asset amount_to_withdraw 0) delegate_private_key memo (account_id r)
      delegate_public_key one_time from_memo t) in
  sign_if sign_ c (Building t {[ address_of_key delegate_public_key ]}).

(** [get_fee_rate() * size / 1000] on unsigned integers, as base shares. *)
Definition size_fee_of c (size : Z) : result asset :=
  let* rate := get_fee_rate (db c) in Ok (Asset (int64 (uint64 (rate * size) / 1000)) 0).
Definition plus_size_fee c (size : Z) (fees : asset) : run asset :=
  let! f := reads (fun _ => size_fee_of c size) in reads (fun _ => asset_plus_assign fees f).
Definition plus_fee (fee : result Z) (fees : asset) : run asset :=
  let! f := reads (fun _ => fee) in reads (fun _ => asset_plus_assign fees (Asset f 0)).

Definition register_account_in_wallet c (clock : Z) (name : string) (public_data : variant) (as_delegate : bool)
    (pay_with_account_name : string) (sign_ : bool) : run (wallet_record transaction_data) :=
  let! _ := open_and_unlocked in
  let! _ := valid_name name in
  let! _ := asserts (fun _ => bool_decide (get_account_record_by_name (db c) name = None)) in
  let! payer_public_key := reads (get_account_public_key c pay_with_account_name) in
  let! opt_account := get_account c name in
  let! _ := asserts (fun _ => bool_decide (is_Some opt_account)) in
  let! account_public_key := reads (get_account_public_key c name) in
  let t := register_account name public_data account_public_key account_public_key as_delegate
             signed_transaction_default in
  let! required :=
    if bool_decide (String.index 0 "." name = None) then ret ∅
    else
      let! parent := get_account c (get_parent_account_name name) in
      let! a := reads (fun _ => value_or_throw parent assert_exception) in
      ret {[ address_of_key (active_key (chain_account (data a))) ]} in
  let! fees := reads get_priority_fee in
  let! fees := if as_delegate then plus_fee (get_delegate_registration_fee (db c)) fees else ret fees in
  let! fees := plus_size_fee c (pack_size_variant public_data) fees in
  let! b := withdraw_to_transaction (amount fees) (asset_id fees) (address_of_key payer_public_key)
              (Building t required) in
  if sign_ then
    let! t := sign_transaction c b in
    on_db (cache_transaction t asset_default (amount fees)
             (chars ("register " ++ name ++ (if as_delegate then " as a delegate" else ""))%string)
             payer_public_key clock clock payer_public_key [])
  else ret (WalletRecord 0 (transaction_data_default <| data_trx := built b |>)).

Definition update_registered_account c (clock : Z) (name pay_from_account : string) (public_data : option variant)
    (new_active_key : option Z) (as_delegate sign_ : bool) : run (wallet_record transaction_data) :=
  let! _ := open_and_unlocked in
  let! _ := valid_name name in
  let! _ := valid_name pay_from_account in
  let! payer_public_key := reads (get_account_public_key c pay_from_account) in
  let! r := chain_account_named c name in
  let! fees := reads get_priority_fee in
  let! fees := if as_delegate && negb (is_delegate r)
               then plus_fee (get_delegate_registration_fee (db c)) fees else ret fees in
  let! fees := plus_size_fee c (pack_size_optional public_data) fees in
  let! b := withdraw_to_transaction (amount fees) (asset_id fees) (address_of_key payer_public_key)
              building_nothing in
  let b := Building (update_account (account_id r) public_data new_active_key as_delegate (built b))
             ({[ address_of_key (active_key r) ]} ∪ required_signatures b) in
  if sign_ then
    let! t := sign_transaction c b in
    on_db (cache_transaction t asset_default (amount fees)
             (chars ("update " ++ name ++ (if as_delegate then " as a delegate" else ""))%string)
             payer_public_key clock clock payer_public_key [])
  else ret (WalletRecord 0 (transaction_data_default <| data_trx := built b |>)).

(** The fee is paid from the pay of the delegate. *)
Definition paid_by_delegate c (r : account_record) (t : signed_transaction) (sign_ : bool) : run signed_transaction :=
  let! fees := reads get_priority_fee in
  let! fees := plus_size_fee c (data_size t) fees in
  let! t := reads (fun _ => withdraw_pay (account_id r) (amount fees) t) in
  sign_if sign_ c (Building t {[ address_of_key (active_key r) ]}).
Definition create_proposal c (clock : Z) (delegate_name subject body proposal_type : string) (data : variant)
    (sign_ : bool) : run signed_transaction :=
  let! _ := open_and_unlocked in
  let! _ := valid_name delegate_name in
  let! r := chain_account_named c delegate_name in
  paid_by_delegate c r
    (submit_proposal clock (account_id r) subject body proposal_type data signed_transaction_default) sign_.
Definition vote_on_proposal c (clock : Z) (delegate_name : string) (proposal_id : Z) (vote : vote_type)
    (message : string) (sign_ : bool) : run signed_transaction :=
  let! _ := open_and_unlocked in
  let! _ := valid_name delegate_name in
  let! r := chain_account_named c delegate_name in
  let! _ := asserts (fun _ => is_delegate r) in
  let! _ := asserts (fun _ => existsb (Z.eqb (account_id r)) (next_round_active_delegates (db c))) in
  let! _ := asserts (fun _ => String.length message <? BTS_BLOCKCHAIN_PROPOSAL_VOTE_MESSAGE_MAX_SIZE)%nat in
  paid_by_delegate c r (vote_proposal clock proposal_id (account_id r) vote message signed_transaction_default) sign_.

(** ** Assets *)
Definition create_asset_in_wallet c (symbol asset_name description : string) (data : variant)
    (issuer_account_name : string) (max_share_supply precision : Z) (sign_ : bool) : run signed_transaction :=
  let! _ := open_and_unlocked in
  let! _ := valid_name issuer_account_name in
  let! _ := asserts (fun _ => is_valid_symbol_name symbol) in
  let! _ := asserts (fun _ => bool_decide (get_asset_record_by_symbol (db c) symbol = None)) in
  let! fees := reads get_priority_fee in
  let! fees := plus_size_fee c (pack_size_variant data) fees in
  let! fees := plus_fee (get_asset_registration_fee (db c)) fees in
  let! from_key := reads (get_account_public_key c issuer_account_name) in
  let! r := chain_account_named c issuer_account_name in
  let! b := withdraw_to_transaction (amount fees) (asset_id fees) (address_of_key from_key)
              (Building signed_transaction_default {[ address_of_key from_key ]}) in
  let! t := reads (fun _ =>
    create_asset symbol asset_name description data (account_id r) max_share_supply precision (built b)) in
  sign_if sign_ c (Building t (required_signatures b)).

Definition issue_asset c (generated : list Z) (amount_to_issue : double) (symbol to_account_name : string)
    (memo : list Z) (sign_ : bool) : run signed_transaction :=
  let! _ := open_and_unlocked in
  let! _ := valid_name to_account_name in
  let! _ := valid_symbol c symbol in
  let! fees := reads get_priority_fee in
  let! asset_record := pretty_asset c symbol in
  let! issuer_account := reads (fun _ =>
    value_or_throw (get_account_record (db c) (issuer_account_id asset_record)) assert_exception) in
  let! shares := reads (fun _ => shares_of amount_to_issue asset_record) in
  let shares_to_issue := Asset shares (asset_record_id asset_record) in
  let! from_key := reads (get_account_public_key c (account_name issuer_account)) in
  let! b := withdraw_to_transaction (amount fees) (asset_id fees) (address_of_key from_key) building_nothing in
  let t := issue shares_to_issue (built b) in
  let required := {[ address_of_key (active_key issuer_account) ]} ∪ required_signatures b in
  let! receiver := reads (get_account_public_key c to_account_name) in
  let! issuer := reads (fun w => lookup_account_by_id (database w) (issuer_account_id asset_record)) in
  let! a := reads (fun _ => value_or_throw issuer assert_exception) in
  let! issuer_key := reads (account_key_of a) in
  let! sender := reads (fun w => decrypt_private w issuer_key) in
  let! one_time := create_one_time_key generated in
  let! t := reads (fun _ =>
    deposit_to_account receiver shares_to_issue sender memo 0 (get_public_key sender) one_time from_memo t) in
  sign_if sign_ c (Building t required).

(** ** What is shown *)
Definition get_unspent_balances w : list (wallet_record balance_record) :=
  filter (fun r => 0 < balance (data r)) (map snd (items (balances (database w)))).

(** By the account of the key of the owner, and by asset. *)
Definition add_to_summary w (m : gmap (Z * Z) Z) (item : Z * wallet_record balance_record) : result (gmap (Z * Z) Z) :=
  let r := data item.2 in
  let* owner := balance_owner r in
  Ok match lookup_key (database w) owner with
     | Some k =>
         if has_private_key (data k) then
           let key := (key_account_address (data k), condition_asset_id (condition r)) in
           <[key := int64 (default 0 (m !! key) + balance r)]> m
         else m
     | None => m
     end.
Definition get_account_balances w : result (gmap (Z * Z) Z) :=
  foldM (add_to_summary w) ∅ (items (balances (database w))).

(** By delegate: the base shares that vote for it, and against it. *)
Definition add_votes w (m : gmap Z (Z * Z)) (item : Z * wallet_record balance_record) : result (gmap Z (Z * Z)) :=
  let r := data item.2 in
  let* owner := balance_owner r in
  Ok match lookup_key (database w) owner with
     | Some k =>
         if has_private_key (data k) && (condition_asset_id (condition r) =? 0) then
           let d := condition_delegate_id (condition r) in
           let v := default (0, 0) (m !! Z.abs d) in
           <[Z.abs d := if d <? 0 then (v.1, int64 (v.2 + balance r)) else (int64 (v.1 + balance r), v.2)]> m
         else m
     | None => m
     end.
Definition name_votes c (m : gmap string (Z * Z)) (item : Z * (Z * Z)) : result (gmap string (Z * Z)) :=
  let* r := deref (get_account_record (db c) item.1) in
  Ok (<[account_name r := item.2]> m).
Definition get_account_vote_summary c w : result (gmap string (Z * Z)) :=
  let* raw_votes := foldM (add_votes w) ∅ (items (balances (database w))) in
  foldM (name_votes c) ∅ (items raw_votes).
End Operations.

(** * Orders on the market.

    They are put into the queue of the chain, so the chain is part of their state. What is
    written of numbers and addresses is text of the standard library and of fc. *)
Class FcTexts := {
  text_of_double : double -> list Z;
  order_label : Z -> list Z;
  text_of_memo : option (list Z) -> list Z
}.

Section Market.
Context `{FC : Fc} `{FT : FcTransaction} `{FK : FcKeys} `{FM : FcMemo} `{FP : FcPrivate} `{FPa : FcPack}.
Context `{HO : HashOrder} `{FBl : FcBlock} `{FO : FcOperations} `{FB : FcBigint} `{FTe : FcTexts}.
Notation run := (run wallet).
Implicit Types (w : wallet) (c : chain) (b : building).

(** [market_order_status::get_balance]. *)
Definition bid_order : Z := 0.
Definition ask_order : Z := 1.
Definition status_balance (s : market_order_status) : result asset :=
  let o := order s in
  let p := order_price (market_index o) in
  if order_type o =? bid_order then Ok (Asset (order_balance (order_state o)) (quote_asset_id p))
  else if order_type o =? ask_order then Ok (Asset (order_balance (order_state o)) (base_asset_id p))
  else Throw assert_exception.

Definition opened_and_logged_in : run unit :=
  let! _ := reads (fun w => throw_if (negb (wallet_is_open w)) wallet_closed) in
  reads (fun w => throw_if (negb (is_unlocked w)) login_required).

(** The deposit of what the order holds: the whole of it, also when the fee is to come from it. *)
Definition deposit_order c (rand : Z) (owner_address from_address : Z) (balance fees : asset) b : run building :=
  let deposited :=
    let! vote := reads (select_delegate_vote c rand) in
    let! t := reads (fun _ => deposit owner_address balance vote (built b)) in
    ret (Building t (required_signatures b)) in
  if asset_id balance =? 0 then
    if amount fees <? amount balance then
      let! _ := reads (fun _ => asset_minus_assign balance fees) in deposited
    else raise fee_greater_than_amount
  else
    let! b := deposited in withdraw_to_transaction (amount fees) 0 from_address b.
Definition cancel_order c (clock rand : Z) (owner_address : Z) : run signed_transaction :=
  let! _ := opened_and_logged_in in
  let! s := reads (fun w =>
    value_or_throw (market_orders (database w) !! owner_address) wallet_unknown_market_order) in
  let! owner_key_record := reads (fun w => value_or_throw (lookup_key (database w) owner_address) unknown_address) in
  let from_address := key_account_address (data owner_key_record) in
  let! account_key_record := reads (fun w => value_or_throw (lookup_key (database w) from_address) assert_exception) in
  let! balance := reads (fun _ => status_balance s) in
  let! required_fees := reads get_priority_fee in
  let! _ := reads (fun _ => throw_if (amount balance =? 0) zero_amount) in
  let t := bid (Asset (int64 (- amount balance)) (asset_id balance)) (order_price (market_index (order s)))
             owner_address 0 signed_transaction_default in
  let! b := deposit_order c rand owner_address from_address balance required_fees (Building t {[ owner_address ]}) in
  let! t := sign_transaction c b in
  let! _ := remember t balance (amount required_fees) (chars "cancel " ++ text_of_memo (key_memo (data owner_key_record)))
              (public_key_of (data account_key_record)) clock (public_key_of (data owner_key_record)) [] in
  ret t.

Definition bid_memo (real_quantity quote_price : double) (base quote : asset_record) : list Z :=
  chars "buy " ++ text_of_double real_quantity ++ chars (" " ++ symbol base ++ " @ ")%string ++
  text_of_double quote_price ++ chars (" " ++ symbol quote)%string.
(** [key_rec->memo = "ORDER-..."; store_key( *key_rec )]. *)
Definition label_order (order_key : Z) : run unit :=
  let! key_rec := reads (fun w => deref (lookup_key (database w) (address_of_key order_key))) in
  on_db (store_key ((data key_rec) <| key_memo := Some (chars "ORDER-" ++ order_label (address_of_key order_key)) |>)).
Definition market_asset c (symbol : string) : run asset_record :=
  reads (fun _ => value_or_throw (get_asset_record_by_symbol (db c) symbol) unknown_asset_symbol).
Definition make_bid c (clock rand : Z) (from_account_name : string) (real_quantity : double)
    (quantity_symbol : string) (quote_price : double) (quote_symbol : string) (sign_ : bool) : run signed_transaction :=
  let! _ := opened_and_logged_in in
  let! mine := reads (is_receive_account from_account_name) in
  let! _ := reads (fun _ => throw_if (negb mine) unknown_receive_account) in
  let! _ := reads (fun _ => throw_if (SFleb real_quantity (S754_zero false)) negative_bid) in
  let! _ := reads (fun _ => throw_if (SFleb quote_price (S754_zero false)) invalid_price) in
  let! _ := reads (fun _ => throw_if (bool_decide (quote_symbol = quantity_symbol)) invalid_price) in
  let! quote_asset_record := market_asset c quote_symbol in
  let! base_asset_record := market_asset c quantity_symbol in
  let! from_account_key := reads (get_account_public_key c from_account_name) in
  let! _ := reads (fun _ =>
    throw_if (asset_record_id quote_asset_record <? asset_record_id base_asset_record) invalid_market) in
  let! cost := reads (fun _ => shares_of (double_mul real_quantity quote_price) quote_asset_record) in
  let cost_shares := Asset cost (asset_record_id quote_asset_record) in
  let! price_amount := reads (fun _ => shares_of quote_price quote_asset_record) in
  let! quote_price_shares := reads (fun _ =>
    asset_div (Asset price_amount (asset_record_id quote_asset_record))
      (Asset (get_precision base_asset_record) (asset_record_id base_asset_record))) in
  let! order_key := get_new_public_key from_account_name in
  let order_address := address_of_key order_key in
  let! from_private_key := reads (get_account_private_key from_account_name) in
  let from_address := address_of_key (get_public_key from_private_key) in
  let! required_fees := reads get_priority_fee in
  let b := Building signed_transaction_default {[ order_address ]} in
  let! b :=
    if asset_id cost_shares =? 0 then
      withdraw_to_transaction (int64 (amount cost_shares + amount required_fees)) 0 from_address b
    else
      let! b := withdraw_to_transaction (amount cost_shares) (asset_id cost_shares) from_address b in
      withdraw_to_transaction (amount required_fees) 0 from_address b in
  let! vote := if asset_id cost_shares =? 0 then reads (select_delegate_vote c rand) else ret 0 in
  let b := Building (bid cost_shares quote_price_shares order_address vote (built b)) (required_signatures b) in
  if sign_ then
    let! t := sign_transaction c b in
    let! _ := remember t cost_shares (amount required_fees)
                (bid_memo real_quantity quote_price base_asset_record quote_asset_record)
                order_key clock from_account_key [] in
    let! _ := label_order order_key in
    ret t
  else ret (built b).

(** When an order in base shares is cancelled, all that it held is deposited: nothing is left
    for the fee. *)
Lemma cancel_leaves_no_fee c rand owner_address from_address balance fees t req w b w' :
  asset_id balance = 0 ->
  deposit_order c rand owner_address from_address balance fees (Building t req) w = (Ok b, w') ->
  exists vote, operations (built b) = operations t ++ [deposit_op (DepositOperation (amount balance)
    (condition_with_signature (WithSignature owner_address None) 0 vote))].
Proof.
  intros E H. unfold deposit_order in H. rewrite E in H. cbn [Z.eqb] in H.
  destruct (amount fees <? amount balance); [|done].
  rewrite run_reads in H. destruct (asset_minus_assign balance fees); [|done].
  rewrite run_reads in H. destruct (select_delegate_vote c rand w) as [vote|]; [|done].
  rewrite run_reads in H. destruct (deposit owner_address balance vote _) as [t'|] eqn:Ed; [|done].
  injection H as <- <-. exists vote. cbn [built] in *. unfold deposit, new_deposit_operation in Ed.
  destruct (0 <? amount balance); [|done]. cbn in Ed. injection Ed as <-. cbn. by rewrite E.
Qed.

(** The wallet and the chain. *)
Definition on_wallet {A} (m : chain -> run A) : Errors.run (wallet * chain) A := fun s =>
  let '(r, w) := m s.2 s.1 in (r, (w, s.2)).
Definition queued_in_chain (t : signed_transaction) : Errors.run (wallet * chain) signed_transaction :=
  let! _ := on_part snd (fun c s => (s.1, c)) (store_pending_transaction t) in ret t.
Definition cancel_market_order (clock rand : Z) (owner_address : Z) : Errors.run (wallet * chain) signed_transaction :=
  let! t := on_wallet (fun c => cancel_order c clock rand owner_address) in queued_in_chain t.
Definition submit_bid (clock rand : Z) (from_account_name : string) (real_quantity : double)
    (quantity_symbol : string) (quote_price : double) (quote_symbol : string) (sign_ : bool)
    : Errors.run (wallet * chain) signed_transaction :=
  let! t := on_wallet (fun c =>
    make_bid c clock rand from_account_name real_quantity quantity_symbol quote_price quote_symbol sign_) in
  if sign_ then queued_in_chain t else ret t.
(** [get_asset_id]. *)
Definition asset_id_of c (symbol : string) : result Z :=
  let* r := value_or_throw (get_asset_record_by_symbol (db c) symbol) assert_exception in
  Ok (asset_record_id r).
Definition get_market_orders c (quote base : string) w : result (list market_order_status) :=
  let* quote_id := asset_id_of c quote in
  let* base_id := asset_id_of c base in
  Ok (filter (fun s => let p := order_price (market_index (order s)) in
        quote_asset_id p = quote_id /\ base_asset_id p = base_id) (map snd (items (market_orders (database w))))).
End Market.

(** * What [withdraw_to_transaction] takes: exactly the amount, from balances of the account, each
    withdrawn once and at most of what it holds; or it reports that the funds are short. *)

Section Funds.
Context `{FC : Fc} `{FT : FcTransaction} `{FK : FcKeys} `{FM : FcMemo} `{FP : FcPrivate} `{FPa : FcPack}.
Context `{HO : HashOrder} `{FS : FcSizes}.
Implicit Types (w : wallet) (b : building) (d : wallet_db).
Notation entry := (Z * wallet_record balance_record)%type.

(** The balances that count: of the asset, of the account, and not empty. *)
Definition counts (asset from : Z) w (e : entry) : Prop :=
  condition_asset_id (condition (data e.2)) = asset /\
  (exists o, balance_owner (data e.2) = Ok o /\ address_in_account o from w = true) /\
  0 < balance (data e.2).
Definition spendable (asset from : Z) w (e : entry) : bool :=
  (condition_asset_id (condition (data e.2)) =? asset) &&
  match balance_owner (data e.2) with Ok o => address_in_account o from w | Throw _ => false end &&
  (0 <? balance (data e.2)).
Definition available (asset from : Z) w (l : list entry) : Z :=
  foldr (fun e n => (if spendable asset from w e then balance (data e.2) else 0) + n) 0 l.

Lemma spendable_counts asset from w e : spendable asset from w e = true <-> counts asset from w e.
Proof.
  unfold spendable, counts. rewrite !andb_true_iff, Z.eqb_eq, Z.ltb_lt.
  destruct (balance_owner (data e.2)) as [o|x]; naive_solver.
Qed.

(** What is taken: from which balance, how much, and who has to sign. *)
Record taking := Taking { taken_from : Z; taken_amount : Z; taken_owner : Z }.
Definition withdrawal (s : taking) : operation :=
  withdraw_op (WithdrawOperation (taken_from s) (taken_amount s) []).
Definition taken (spent : list taking) : Z := foldr (fun s n => taken_amount s + n) 0 spent.
Definition owner_of (r : wallet_record balance_record) : Z :=
  match balance_owner (data r) with Ok o => o | Throw _ => 0 end.
Fixpoint plan (asset from : Z) w (l : list entry) (remaining : Z) : list taking :=
  match l with
  | [] => []
  | (id, r) :: l =>
      if spendable asset from w (id, r) then
        if balance (data r) <? remaining
        then Taking id (balance (data r)) (owner_of r) :: plan asset from w l (remaining - balance (data r))
        else [Taking id remaining (owner_of r)]
      else plan asset from w l remaining
  end.

(** The database after it, and the transaction. *)
Definition spend (d : wallet_db) (s : taking) : wallet_db :=
  match balances d !! taken_from s with
  | Some r =>
      let r := on_data (left_with (balance (data r) - taken_amount s)) r in
      set_records <[wallet_record_index r := wallet_balance_record r]> (d <| balances ::= <[taken_from s := r]> |>)
  | None => d
  end.
Definition with_withdrawal b (s : taking) : building :=
  Building (add_operation (withdrawal s) (built b)) ({[ taken_owner s ]} ∪ required_signatures b).

(** A wallet whose balances can be stored and are readable. *)
Record solvent w : Prop := {
  solvent_open : is_open (database w) = true;
  solvent_index id r : balances (database w) !! id = Some r -> wallet_record_index r <> 0;
  solvent_owner id r : balances (database w) !! id = Some r -> exists o, balance_owner (data r) = Ok o
}.

Lemma address_in_account_memory a from w d :
  keys d = keys (database w) -> btc_to_bts_address d = btc_to_bts_address (database w) ->
  address_in_account a from (w <| database := d |>) = address_in_account a from w.
Proof. unfold address_in_account, lookup_key. cbn. by intros -> ->. Qed.

Lemma spend_memory d s :
  keys (spend d s) = keys d /\ btc_to_bts_address (spend d s) = btc_to_bts_address d /\
  is_open (spend d s) = is_open d.
Proof.
  unfold spend. destruct (balances d !! taken_from s); [|done]. unfold set_records, is_open, update. cbn.
  destruct (open_directory d) eqn:E; cbn; by rewrite ?E.
Qed.
Lemma spend_balances d s r :
  balances d !! taken_from s = Some r ->
  balances (spend d s) = <[taken_from s := on_data (left_with (balance (data r) - taken_amount s)) r]> (balances d).
Proof. intros Hr. unfold spend. rewrite Hr. unfold set_records, update. cbn. by destruct (open_directory d). Qed.

(** A step of the loop. *)
Lemma store_left_run id x o r w :
  is_open (database w) = true -> wallet_record_index r <> 0 -> balances (database w) !! id = Some r ->
  store_left id (balance (data r) - x) r w = (Ok tt, w <| database ::= fun d => spend d (Taking id x o) |>).
Proof.
  intros Ho Hi Hr. unfold store_left, run_bind, on_db, on_part. cbn zeta. cbn [modify].
  match goal with |- context [store_record ?r ?d] => rewrite (store_record_ok r d) by done end.
  unfold spend, update. cbn. by rewrite Hr.
Qed.
Lemma solvent_spend w s :
  solvent w -> solvent (w <| database ::= fun d => spend d s |>).
Proof.
  intros [Ho Hi Hw]. destruct (spend_memory (database w) s) as (_ & _ & Eo).
  destruct (balances (database w) !! taken_from s) as [r|] eqn:E.
  - split; cbn; [by rewrite Eo| |]; intros id r'; rewrite (spend_balances _ _ _ E), lookup_insert_Some;
      intros [[<- <-]|[_ Hr]]; cbn; eauto. destruct (Hw _ _ E) as [o Hr]. exists o. exact Hr.
  - assert (Es : spend (database w) s = database w) by (unfold spend; by rewrite E).
    split; cbn; rewrite Es; done.
Qed.

Lemma spendable_spend asset from w s e :
  spendable asset from (w <| database ::= fun d => spend d s |>) e = spendable asset from w e.
Proof.
  destruct (spend_memory (database w) s) as (Ek & Eb & _). unfold spendable. do 2 f_equal.
  destruct (balance_owner (data e.2)); [|done]. by apply address_in_account_memory.
Qed.
Lemma available_spend asset from w s l :
  available asset from (w <| database ::= fun d => spend d s |>) l = available asset from w l.
Proof.
  unfold available. induction l as [|e l IH]; [done|]. cbn [foldr]. rewrite spendable_spend. by f_equal.
Qed.
Lemma plan_spend asset from w s l n :
  plan asset from (w <| database ::= fun d => spend d s |>) l n = plan asset from w l n.
Proof.
  revert n. induction l as [|[id r] l IH]; intros n; [done|]. cbn [plan]. by rewrite spendable_spend, !IH.
Qed.

Lemma available_nonneg asset from w l : 0 <= available asset from w l.
Proof.
  unfold available. induction l as [|e l IH]; [done|]. cbn [foldr].
  destruct (spendable asset from w e) eqn:E; [|lia]. apply spendable_counts in E as (_ & _ & E). lia.
Qed.

Lemma withdraw_from_run l remaining asset from b w :
  solvent w -> NoDup l.*1 -> (forall id r, (id, r) ∈ l -> balances (database w) !! id = Some r) -> 0 < remaining ->
  withdraw_from l remaining asset from b w =
  (if remaining <=? available asset from w l
   then Ok (foldl with_withdrawal b (plan asset from w l remaining)) else Throw wallet_insufficient_funds,
   w <| database ::= fun d => foldl spend d (plan asset from w l remaining) |>).
Proof.
  revert remaining b w. induction l as [|[id r] l IH]; intros n b w Hw Hnd Hl Hn.
  { cbn. rewrite (proj2 (Z.leb_gt n 0)) by lia. by destruct w. }
  cbn in Hnd. apply list.NoDup_cons in Hnd as [Hid Hnd].
  assert (Hr : balances (database w) !! id = Some r) by (apply Hl; by left).
  assert (Hl' : forall id' r', (id', r') ∈ l -> balances (database w) !! id' = Some r') by (intros; apply Hl; by right).
  destruct (solvent_owner _ Hw id r Hr) as [o Eo]. cbn [withdraw_from]. rewrite run_reads, Eo. cbv beta. rewrite run_reads.
  cbn [plan available foldr]. fold (available asset from w l).
  assert (Es : spendable asset from w (id, r) =
    (condition_asset_id (condition (data r)) =? asset) && address_in_account o from w && (0 <? balance (data r)))
    by (unfold spendable; cbn [snd]; by rewrite Eo).
  rewrite !Es. unfold owner_of. rewrite Eo.
  destruct ((condition_asset_id (condition (data r)) =? asset) && address_in_account o from w && (0 <? balance (data r))) eqn:E;
    [|by rewrite IH].
  assert (Hpos : 0 < balance (data r)) by (rewrite !andb_true_iff in E; lia). pose proof (available_nonneg asset from w l).
  pose proof (solvent_index _ Hw id r Hr) as Hi. pose proof (solvent_open _ Hw) as Hopen.
  assert (Hadd : forall x, 0 < x -> add_withdraw id x o b = Ok (with_withdrawal b (Taking id x o))).
  { intros x Hx. unfold add_withdraw, withdraw, new_withdraw_operation, FC_ASSERT.
    by rewrite (proj2 (Z.ltb_lt 0 x)) by done. }
  destruct (Z.ltb_spec (balance (data r)) n) as [Hlt|Hge].
  - rewrite run_reads, Hadd by done. cbv beta.
    pose proof (store_left_run id (balance (data r)) o r w Hopen Hi Hr) as Hs. rewrite Z.sub_diag in Hs.
    rewrite (run_step _ _ w _ _ Hs). clear Hs.
    rewrite IH; [|by apply solvent_spend|done| |lia].
    + rewrite available_spend, plan_spend.
      by replace (n - balance (data r) <=? available asset from w l)
        with (n <=? balance (data r) + available asset from w l) by lia.
    + intros id' r' Hin. assert (Hne : id <> id').
      { intros <-. apply Hid. apply list_elem_of_fmap. by exists (id, r'). }
      cbn. rewrite (spend_balances _ (Taking id _ o) r) by done. cbn. rewrite lookup_insert_ne by done. by apply Hl'.
  - rewrite run_reads, Hadd by done. cbv beta.
    rewrite (run_step _ _ w _ _ (store_left_run id n o r w Hopen Hi Hr)).
    cbn [snd]. by replace (n <=? balance (data r) + available asset from w l) with true by lia.
Qed.

(** *** What the plan takes *)
Definition taken_for (id : Z) (spent : list taking) : Z :=
  taken (filter (fun s => taken_from s = id) spent).

Lemma plan_from asset from w l n s :
  0 < n -> s ∈ plan asset from w l n ->
  exists r, (taken_from s, r) ∈ l /\ spendable asset from w (taken_from s, r) = true /\
    0 < taken_amount s <= balance (data r) /\ taken_owner s = owner_of r.
Proof.
  revert n. induction l as [|[id r] l IH]; intros n Hn; cbn [plan]; [by intros ?%not_elem_of_nil|].
  assert (Hl : forall n, 0 < n -> s ∈ plan asset from w l n ->
    exists r', (taken_from s, r') ∈ (id, r) :: l /\ spendable asset from w (taken_from s, r') = true /\
      0 < taken_amount s <= balance (data r') /\ taken_owner s = owner_of r').
  { intros n' Hn' Hs. destruct (IH n' Hn' Hs) as (r' & Hin & H). exists r'. split; [by right|exact H]. }
  destruct (spendable asset from w (id, r)) eqn:E; [|by apply Hl].
  apply spendable_counts in E as E'. destruct E' as (_ & _ & Hpos). cbn in Hpos.
  destruct (Z.ltb_spec (balance (data r)) n) as [Hlt|Hge]; rewrite elem_of_cons.
  - intros [->|Hs]; [exists r; cbn; split_and!; [by left|done|lia|lia|done]|]. apply (Hl (n - balance (data r))); [lia|done].
  - intros [->|Hs%not_elem_of_nil]; [exists r; cbn; split_and!; [by left|done|lia|lia|done]|done].
Qed.
Lemma plan_nodup asset from w l n : 0 < n -> NoDup l.*1 -> NoDup (map taken_from (plan asset from w l n)).
Proof.
  revert n. induction l as [|[id r] l IH]; intros n Hn; cbn; [constructor|]. intros [Hid Hnd]%list.NoDup_cons.
  destruct (spendable asset from w (id, r)) eqn:E; [|by apply IH].
  destruct (Z.ltb_spec (balance (data r)) n) as [Hlt|Hge]; [|apply NoDup_singleton].
  cbn. apply list.NoDup_cons. split; [|apply IH; [lia|done]].
  intros (s & -> & Hs)%list_elem_of_fmap. apply plan_from in Hs as (r' & Hin & _); [|lia].
  apply Hid, list_elem_of_fmap. by exists (taken_from s, r').
Qed.
Lemma plan_taken asset from w l n : 0 < n -> taken (plan asset from w l n) = Z.min n (available asset from w l).
Proof.
  revert n. induction l as [|[id r] l IH]; intros n Hn; cbn [plan available foldr]; [cbn; lia|].
  fold (available asset from w l). destruct (spendable asset from w (id, r)) eqn:E; [|rewrite IH; lia].
  apply spendable_counts in E as (_ & _ & Hpos). cbn [snd] in *. pose proof (available_nonneg asset from w l).
  destruct (Z.ltb_spec (balance (data r)) n) as [Hlt|Hge]; cbn [taken foldr taken_amount]; [|lia].
  fold (taken (plan asset from w l (n - balance (data r)))). rewrite IH; lia.
Qed.
Lemma available_perm asset from w l l' :
  l ≡ₚ l' -> available asset from w l = available asset from w l'.
Proof. unfold available. induction 1; cbn [foldr]; lia. Qed.

(** *** What it leaves *)
Definition left_of (spent : list taking) (id : Z) (r : wallet_record balance_record) : wallet_record balance_record :=
  on_data (left_with (balance (data r) - taken_for id spent)) r.

Lemma left_of_nil id r : left_of [] id r = r.
Proof. unfold left_of, on_data, left_with, taken_for. cbn. rewrite Z.sub_0_r. by destruct r as [? []]. Qed.
Lemma left_of_other s id r : taken_from s <> id -> left_of [s] id r = r.
Proof. intros H. rewrite <- (left_of_nil id r) at 2. unfold left_of, taken_for. by rewrite filter_cons_False. Qed.
Lemma spend_lookup d s id :
  balances (spend d s) !! id = left_of [s] id <$> balances d !! id.
Proof.
  destruct (balances d !! taken_from s) as [r|] eqn:E.
  - rewrite (spend_balances _ _ _ E). destruct (decide (taken_from s = id)) as [Hd|Hd].
    + subst id. rewrite lookup_insert_eq, E. cbn. unfold left_of, taken_for.
      rewrite filter_cons_True by done. cbn. by rewrite Z.add_0_r.
    + rewrite lookup_insert_ne by done. destruct (balances d !! id) as [r'|]; [|done]. cbn. by rewrite left_of_other.
  - unfold spend. rewrite E. destruct (balances d !! id) as [r'|] eqn:E'; [|done].
    cbn. rewrite left_of_other; [done|]. intros <-. congruence.
Qed.
Lemma taken_for_cons s spent id : taken_for id (s :: spent) = taken_for id [s] + taken_for id spent.
Proof. unfold taken_for. rewrite (filter_cons _ s spent), (filter_cons _ s []). case_decide; unfold taken; cbn [foldr filter list_filter]; lia. Qed.
Lemma spends_lookup d spent id :
  balances (foldl spend d spent) !! id = left_of spent id <$> balances d !! id.
Proof.
  revert d. induction spent as [|s spent IH]; intros d; cbn [foldl].
  - destruct (balances d !! id); [|done]. cbn. by rewrite left_of_nil.
  - rewrite IH, spend_lookup. destruct (balances d !! id) as [r|]; [|done]. cbn [fmap option_fmap option_map]. f_equal.
    unfold left_of. rewrite (taken_for_cons s spent). unfold on_data, left_with. cbn. do 2 f_equal. lia.
Qed.

Lemma with_withdrawals b spent :
  operations (built (foldl with_withdrawal b spent)) = operations (built b) ++ map withdrawal spent /\
  required_signatures (foldl with_withdrawal b spent) = required_signatures b ∪ list_to_set (map taken_owner spent).
Proof.
  revert b. induction spent as [|s spent IH]; intros b; cbn [foldl map].
  - rewrite app_nil_r. split; [done|]. cbn. set_solver.
  - destruct (IH (with_withdrawal b s)) as [-> ->]. cbn. rewrite <- app_assoc. split; [done|]. set_solver.
Qed.

(** *** The account *)
(** The funds of the account in the asset. *)
Definition funds (asset from : Z) w : Z := available asset from w (map_to_list (balances (database w))).

(** A balance a taking may be made from, and who signs for it. *)
Definition may_take (asset from : Z) w (s : taking) : Prop :=
  exists r, balances (database w) !! taken_from s = Some r /\ counts asset from w (taken_from s, r) /\
    0 < taken_amount s <= balance (data r) /\ balance_owner (data r) = Ok (taken_owner s).

Lemma items_nodup {A} (m : gmap Z A) : NoDup (items m).*1.
Proof. rewrite items_spec. apply NoDup_fst_map_to_list. Qed.
Lemma items_elem {A} (m : gmap Z A) id r : (id, r) ∈ items m <-> m !! id = Some r.
Proof. rewrite items_spec. apply elem_of_map_to_list. Qed.

(** C9: [withdraw_to_transaction] of a positive amount takes from distinct balances of the
    account in that asset, from each something and no more than it holds, and adds to the
    transaction exactly one withdrawal for each and the owner of each to those who have to
    sign. When the funds of the account are enough, it takes exactly the amount; when they are
    not, it throws [insufficient_funds], and all that the account holds in the asset stays
    taken. What is taken is gone from the balances, and nothing else is. *)
Theorem withdraw_to_transaction_spec amount asset from b w :
  solvent w -> 0 < amount ->
  exists spent r w',
    withdraw_to_transaction amount asset from b w = (r, w') /\
    NoDup (map taken_from spent) /\ (forall s, s ∈ spent -> may_take asset from w s) /\
    taken spent = Z.min amount (funds asset from w) /\
    (forall id, balances (database w') !! id = left_of spent id <$> balances (database w) !! id) /\
    if amount <=? funds asset from w
    then exists b', r = Ok b' /\
      operations (built b') = operations (built b) ++ map withdrawal spent /\
      required_signatures b' = required_signatures b ∪ list_to_set (map taken_owner spent)
    else r = Throw wallet_insufficient_funds.
Proof.
  intros Hw Ha. set (l := items (balances (database w))).
  assert (Ef : funds asset from w = available asset from w l) by (apply available_perm; symmetry; apply items_spec).
  pose proof (withdraw_from_run l amount asset from b w Hw (items_nodup _) (fun id r => proj1 (items_elem _ id r)) Ha) as Hrun.
  exists (plan asset from w l amount). eexists _, _. split; [exact Hrun|]. rewrite Ef.
  split_and!.
  - apply plan_nodup; [done|apply items_nodup].
  - intros s Hs. destruct (plan_from _ _ _ _ _ _ Ha Hs) as (r & Hin%items_elem & Hc & Hx & Ho).
    exists r. split_and!; [done|by apply spendable_counts|lia|lia|].
    destruct (solvent_owner _ Hw _ _ Hin) as [o Eo]. rewrite Ho. unfold owner_of. by rewrite Eo.
  - by apply plan_taken.
  - intros id. apply spends_lookup.
  - destruct (_ <=? _); [|done]. eexists. split; [done|]. apply with_withdrawals.
Qed.
End Funds.
