(* ===== verification/WalletScan.v ===== *)
(** How the wallet follows the chain: the scan of blocks and of the records of the chain in
    [wallet.cpp], [block_applied] and [unlock].

    Blocks are scanned with the chain as it is, so what is stored of a balance is what the
    chain has when it is scanned. *)
From S2P Require Import Prelude Errors Asset NodeState Client.
From S2P Require Export Wallet.

Section Scan.
Context `{FC : Fc} `{FT : FcTransaction} `{FBl : FcBlock} `{FO : FcOperations} `{FB : FcBigint}.
Context `{FK : FcKeys} `{FM : FcMemo} `{FP : FcPrivate} `{HO : HashOrder} `{UN : Uninitialised}.
Notation run := (run wallet).
Implicit Types (w : wallet) (c : chain).

(** ** Operations *)

(** What was found of a transaction: its record, and whether it is to be stored. *)
Notation found := (wallet_record transaction_data).

Definition scan_withdraw c (op : withdraw_operation) : run bool :=
  let! current_balance := reads (fun w => Ok (lookup_balance (database w) (withdraw_balance_id op))) in
  match current_balance with
  | Some _ => let! _ := cache_balance_of c (withdraw_balance_id op) in ret true
  | None => ret false
  end.

(** The account of a key of the wallet, with what the chain has of it. *)
Definition refresh_account c (owner : Z) (name : string) : run bool :=
  let! known := reads (fun w => Ok (lookup_key (database w) (address_of_key owner))) in
  match known with
  | None => ret false
  | Some _ =>
      let! opt_account := reads (fun w => lookup_account (database w) (address_of_key owner)) in
      match opt_account with
      | None => ret false
      | Some a =>
          let! r := reads (fun _ => value_or_throw (get_account_record_by_name (db c) name) assert_exception) in
          let! _ := on_db (cache_account (with_chain_account r a)) in
          ret false
      end
  end.
Definition scan_register_account c (op : register_account_operation) : run bool :=
  refresh_account c (register_owner_key op) (register_name op).
Definition scan_update_account c (op : update_account_operation) : run bool :=
  let! r := reads (fun _ => value_or_throw (get_account_record (db c) (update_account_id op)) assert_exception) in
  refresh_account c (owner_key r) (account_name r).

Definition scan_create_asset c (t : found) (op : create_asset_operation) : run (found * bool) :=
  let! r := reads (fun _ => value_or_throw (get_account_record (db c) (create_issuer op)) assert_exception) in
  let! key_rec := reads (fun w => Ok (lookup_key (database w) (address_of_key (owner_key r)))) in
  ret (match key_rec with
       | Some k =>
           if has_private_key (data k) then
             on_data (fun t => t <| to_account := Some (owner_key r) |>
                                 <| from_account := Some (owner_key r) |>
                                 <| memo_message := chars ("create " ++ create_symbol op ++ " (" ++ create_name op ++ ")")%string |>) t
           else t
       | None => t
       end, true).

(** [market_order_status()]: the type is not set. *)
Definition market_order_status_default : market_order_status :=
  MarketOrderStatus (MarketOrder garbage (MarketIndexKey (Price 0 0 0) 0) (OrderRecord 0 0)) 0 ∅.
Definition with_order (o : option (market_index_key * order_record)) (id : Z) (s : market_order_status)
    : market_order_status :=
  let old := order s in
  MarketOrderStatus
    match o with
    | Some (k, r) => MarketOrder 0 k r
    | None => MarketOrder (order_type old) (market_index old)
                (OrderRecord 0 (order_delegate_id (order_state old)))
    end (proceeds s) ({[ id ]} ∪ order_transactions s).
Definition scan_bid c (t : found) (op : bid_operation) : run bool :=
  let owner := order_owner (bid_index op) in
  let! key_rec := reads (fun w => Ok (lookup_key (database w) owner)) in
  match key_rec with
  | Some k =>
      if has_private_key (data k) then
        let o := bid_db (db c) !! index_of (bid_index op) in
        let! _ := on_db (modify (fun d => d <| market_orders ::= fun m =>
          <[owner := with_order o (trx_id (data_trx (data t))) (default market_order_status_default (m !! owner))]> m |>)) in
        ret true
      else ret false
  | None => ret false
  end.

(** What a memo says of the transaction. *)
Definition with_memo (st : memo_status) (op : deposit_operation) (key : list Z) (t : transaction_data) : transaction_data :=
  let m := memo_of_status st in
  if memo_flags m =? from_memo then
    t <| memo_message := get_message m |>
      <| data_amount := Asset (deposit_amount op) (condition_asset_id (deposit_condition op)) |>
      <| from_account := Some (memo_from m) |> <| to_account := Some (get_public_key key) |>
  else
    t <| memo_message := get_message m |> <| from_account := Some (get_public_key key) |>
      <| to_account := Some (memo_from m) |>.
(** The first key that the deposit is for. *)
Fixpoint scan_memo (d : withdraw_with_signature) (op : deposit_operation) (t : found) (keys : list (list Z))
    : run (found * bool) :=
  match keys with
  | [] => ret (t, false)
  | key :: keys =>
      let! status := reads (fun _ => decrypt_memo_data key d) in
      match status with
      | Some st =>
          let! p := reads (fun w => Ok (wallet_password w)) in
          let! _ := on_db (cache_memo st key p) in
          ret (on_data (with_memo st op key) t, true)
      | None => scan_memo d op t keys
      end
  end.
Definition scan_deposit c (keys : list (list Z)) (t : found) (op : deposit_operation) : run (found * bool) :=
  let! s :=
    if condition_type (deposit_condition op) =? withdraw_signature_type then
      let! deposit := reads (fun _ => as_type withdraw_signature_type unpack_with_signature (deposit_condition op)) in
      let! mine := reads (fun w => Ok (db_has_private_key (database w) (owner deposit))) in
      if mine : bool then ret (t, true)
      else if bool_decide (is_Some (memo deposit)) then scan_memo deposit op t keys
      else ret (t, false)
    else ret (t, false) in
  let! _ := if s.2 : bool then let! _ := cache_balance_of c (get_address (deposit_condition op)) in ret tt
            else ret tt in
  ret s.

(** [op.as<OperationType>()]. *)
Definition scan_as {A} (unpack : list Z -> option A) (op : operation) (f : A -> run (found * bool)) : run (found * bool) :=
  let! o := reads (fun _ => value_or_throw (unpack (op_data op)) unpack_error) in f o.
Definition scan_operation c (keys : list (list Z)) (s : found * bool) (op : operation) : run (found * bool) :=
  let '(t, cache_trx) := s in
  let same (m : run bool) := let! b := m in ret (t, b) in
  let type := op_type op in
  let! r :=
    if type =? withdraw_op_type then scan_as unpack_withdraw op (fun o => same (scan_withdraw c o))
    else if type =? deposit_op_type then scan_as unpack_deposit op (scan_deposit c keys t)
    else if type =? register_account_op_type then
      scan_as unpack_register_account op (fun o => same (scan_register_account c o))
    else if type =? update_account_op_type then
      scan_as unpack_update_account op (fun o => same (scan_update_account c o))
    else if type =? create_asset_op_type then scan_as unpack_create_asset op (scan_create_asset c t)
    else if type =? issue_asset_op_type then
      scan_as unpack_issue_asset op (fun _ => ret (t, false))
    else if type =? bid_op_type then scan_as unpack_bid op (fun o => same (scan_bid c t o))
    else ret (t, false) in
  ret (r.1, cache_trx || r.2).

(** ** Blocks *)
Definition scan_transaction c (keys : list (list Z)) (block_num_ time : Z) (t : signed_transaction) : run unit :=
  let! known := reads (fun w => Ok (lookup_transaction (database w) (trx_id t))) in
  let r := default wallet_transaction_default known in
  let r := on_data (fun d => d <| data_block_num := block_num_ |> <| data_trx := t |> <| received_time := time |>) r in
  let! s := run_fold (scan_operation c keys) (r, bool_decide (is_Some known)) (operations t) in
  if s.2 : bool then on_db (store_transaction s.1) else ret tt.
Definition scan_block c (block_num_ : Z) (keys : list (list Z)) : run unit :=
  let! b := reads (fun _ => get_block_at c block_num_) in
  run_each (scan_transaction c keys block_num_ (timestamp b)) (user_transactions b).

Definition account_private_keys : run (list (list Z)) :=
  reads (fun w => get_account_private_keys (wallet_password w) (database w)).
Definition block_applied c (num : Z) : run unit :=
  let! unlocked := reads (fun w => Ok (is_unlocked w)) in
  if unlocked : bool then let! keys := account_private_keys in scan_block c num keys else ret tt.

(** ** The records of the chain *)
Definition scan_balance (r : balance_record) : run unit :=
  let! owner := reads (fun _ => balance_owner r) in
  let! mine := reads (fun w => Ok (is_receive_address owner w)) in
  if mine : bool then on_db (cache_balance r) else ret tt.
(** Stored on the disk only. *)
Definition scan_registered_account (r : account_record) : run unit :=
  let! key_rec := reads (fun w => Ok (lookup_key (database w) (address_of_key (active_key r)))) in
  match key_rec with
  | Some k =>
      if has_private_key (data k) then
        let! existing := reads (fun w => lookup_account (database w) (key_account_address (data k))) in
        match existing with
        | Some a => on_db (store_record (with_chain_account r a))
        | None => ret tt
        end
      else ret tt
  | None => ret tt
  end.
Definition scan_state c : run unit :=
  let! _ := run_each (fun kv => scan_balance kv.2) (level_list (balance_db (db c))) in
  run_each (fun kv => scan_registered_account kv.2) (level_list (account_db (db c))).

Definition refresh_stored c (a : wallet_record account) : run unit :=
  match get_account_record (db c) (account_id (chain_account (data a))) with
  | Some r => on_db (store_record (with_chain_account r a))
  | None => ret tt
  end.
Definition blocks_between (start min_end : Z) : list Z :=
  map (fun i => start + Z.of_nat i) (seq 0 (Z.to_nat (min_end - start + 1))).
Definition scan_chain c (start end_ : Z) : run unit :=
  let! _ := open_and_unlocked in
  let! start := if start =? 0 then let! _ := scan_state c in ret (start + 1) else ret start in
  let min_end := Z.min (get_head_block_num c) end_ in
  let! keys := account_private_keys in
  let! _ := run_each (fun num => scan_block c num keys) (blocks_between start min_end) in
  let! accts := reads (fun w => Ok (map snd (items (accounts (database w))))) in
  run_each (refresh_stored c) accts.

Definition unlock c (password : list Z) : run unit :=
  let! _ := unlock_with password in
  let! v := reads (fun w => as_int (get_property (database w) last_unlocked_scanned_block_number)) in
  scan_chain c (uint32 v) (get_head_block_num c).
End Scan.
