(* ===== verification/WalletSync.v ===== *)
(** The wallet and the chain: what a block does to the balances of the chain, and that a wallet
    which goes through the block follows ([block_in_step]), as does one that scans the chain from
    its beginning and then every block ([wallet_in_step]); and the blocks that the wallet signs. *)
From stdpp Require Import sorting.
From S2P Require Import Client History Totals Conservation Closure Undo Evaluate BlockEffects Queue.
From S2P Require Import Prelude Errors Asset ChainInterface NodeState Chain.
From S2P Require Import WalletDb WalletPersists Wallet WalletScan.

Section Frame.
Context `{FC : Fc} `{FT : FcTransaction} `{FBl : FcBlock} `{FO : FcOperations} `{FB : FcBigint}.
Implicit Types (d : chain_database) (s : block_state) (b : full_block) (c : chain).

(** ** Balances *)

(** An operation of the block withdraws from the balance, or deposits to it. *)
Definition withdraws_from (op : operation) (id : Z) : Prop :=
  op_type op = withdraw_op_type /\ exists o, unpack_withdraw (op_data op) = Some o /\ withdraw_balance_id o = id.
Definition deposits_to (op : operation) (id : Z) : Prop :=
  op_type op = deposit_op_type /\ exists o, unpack_deposit (op_data op) = Some o /\ get_address (deposit_condition o) = id.
Definition some_operation (Q : operation -> Z -> Prop) b (id : Z) : Prop :=
  exists t op, In t (user_transactions b) /\ In op (operations t) /\ Q op id.
Notation withdrawn := (some_operation withdraws_from).
Notation deposited := (some_operation deposits_to).
Definition touched b (id : Z) : Prop := withdrawn b id \/ deposited b id.

#[local] Instance withdraws_from_dec op id : Decision (withdraws_from op id).
Proof.
  unfold withdraws_from. destruct (unpack_withdraw (op_data op)) as [o|].
  - destruct (decide (op_type op = withdraw_op_type /\ withdraw_balance_id o = id)) as [H|H]; [left|right]; naive_solver.
  - right. naive_solver.
Defined.
#[local] Instance deposits_to_dec op id : Decision (deposits_to op id).
Proof.
  unfold deposits_to. destruct (unpack_deposit (op_data op)) as [o|].
  - destruct (decide (op_type op = deposit_op_type /\ get_address (deposit_condition o) = id)) as [H|H]; [left|right]; naive_solver.
  - right. naive_solver.
Defined.
Lemma some_operation_dec (Q : operation -> Z -> Prop) `{forall op id, Decision (Q op id)} b id :
  some_operation Q b id \/ ~ some_operation Q b id.
Proof.
  assert (E : some_operation Q b id <->
    Exists (fun t => Exists (fun op => Q op id) (operations t)) (user_transactions b)).
  { unfold some_operation. rewrite List.Exists_exists. setoid_rewrite List.Exists_exists. naive_solver. }
  rewrite E. destruct (decide (Exists (fun t => Exists (fun op => Q op id) (operations t)) (user_transactions b))); auto.
Qed.
Lemma withdrawn_dec b id : withdrawn b id \/ ~ withdrawn b id.
Proof. apply some_operation_dec, _. Qed.
Lemma deposited_dec b id : deposited b id \/ ~ deposited b id.
Proof. apply some_operation_dec, _. Qed.

(** The balances of [s] over [d]: under their ids, with the conditions they had, and the same
    where they are not touched. *)
Record frame b d s : Prop := {
  frame_over : over_state d s;
  frame_keyed id r : get_balance_record s id = Some r -> balance_id r = id;
  frame_condition id r0 r :
    get_balance_record d id = Some r0 -> get_balance_record s id = Some r -> condition r = condition r0;
  frame_kept id r0 : get_balance_record d id = Some r0 -> is_Some (get_balance_record s id);
  frame_new id r : get_balance_record s id = Some r -> is_Some (get_balance_record d id) \/ deposited b id;
  frame_same id : ~ touched b id -> get_balance_record s id = get_balance_record d id
}.
Definition same_condition b d s (r : balance_record) : Prop :=
  touched b (balance_id r) /\ (is_Some (get_balance_record d (balance_id r)) \/ deposited b (balance_id r)) /\
  forall r0, get_balance_record s (balance_id r) = Some r0 -> condition r = condition r0.

Lemma balance_id_condition (r r0 : balance_record) : condition r = condition r0 -> balance_id r = balance_id r0.
Proof. unfold balance_id. by intros ->. Qed.

Lemma store_balance_lookup s r id :
  get_balance_record (store_balance_record s r) id =
  if decide (balance_id r = id) then Some r else get_balance_record s id.
Proof.
  cbn. unfold pending_get_balance_record, pending_store_balance_record. cbn.
  destruct (decide (balance_id r = id)) as [<-|Hne]; [by rewrite lookup_insert_eq|].
  by rewrite lookup_insert_ne.
Qed.

(** Only a store of a balance changes what the look-up of balances finds. *)
Lemma frame_other b d s s' :
  over_state d s' -> (forall id, get_balance_record s' id = get_balance_record s id) ->
  frame b d s -> frame b d s'.
Proof.
  intros Ho Hg [_ H1 H2 H3 H4 H5].
  split; [done| | | | |]; intros id; [intros r|intros r0 r|intros r0|intros r|]; rewrite Hg; eauto.
Qed.
Lemma frame_closed b d : store_closed anyone anyone (withdrawn b) (deposited b) (same_condition b d) (frame b d).
Proof.
  pose proof (over_state_closed d) as HO. split; try done.
  all: try (intros s; intros; match goal with H : frame _ _ _ |- frame _ _ _ => pose proof (frame_over _ _ _ H) as Hov end).
  - apply (frame_other b d s); [by apply (closed_property _ _ _ _ _ _ HO)|done|done].
  - apply (frame_other b d s); [by apply (closed_bid _ _ _ _ _ _ HO)|done|done].
  - apply (frame_other b d s); [by apply (closed_ask _ _ _ _ _ _ HO)|done|done].
  - apply (frame_other b d s); [by apply (closed_proposal _ _ _ _ _ _ HO)|done|done].
  - apply (frame_other b d s); [by apply (closed_vote _ _ _ _ _ _ HO)|done|done].
  - apply (frame_other b d s); [by apply (closed_asset _ _ _ _ _ _ HO)|done|done].
  - intros s id r x t Hf Ht Hr. assert (E : balance_id (BalanceRecord x (condition r) t) = id)
      by (by rewrite <- (frame_keyed _ _ _ Hf _ _ Hr)).
    unfold same_condition. rewrite E. split; [done|].
    split; [by eapply frame_new|]. intros r0. rewrite Hr. by intros [= <-].
  - intros s cond x t Hf Ht Hr. split; [by right|]. split; [by right|]. intros r0.
    change (balance_id _) with (get_address cond). by rewrite Hr.
  - match goal with H : same_condition _ _ _ _ |- _ => destruct H as (Ht & Hd & Hc) end.
    match goal with H : frame _ _ _ |- _ => rename H into Hf end.
    split; [by apply (closed_balance _ _ _ _ _ _ HO)| | | | |]; intros id; rewrite ?store_balance_lookup;
      destruct (decide (balance_id r = id)) as [<-|Hne]; rewrite ?store_balance_lookup.
    + by intros r' [= <-].
    + apply Hf.
    + intros r0 r' H0 [= <-].
      destruct (frame_kept _ _ _ Hf _ _ H0) as [r1 H1]. rewrite (Hc _ H1). by eapply frame_condition.
    + apply Hf.
    + intros r0 H0. by eexists.
    + apply Hf.
    + by intros r' _.
    + intros r'. apply Hf.
    + by intros [].
    + apply Hf.
  - apply (frame_other b d s); [by apply (closed_account _ _ _ _ _ _ HO)|done|done].
Qed.

Lemma frame_create b d : keyed (ledger_of d) -> frame b d (PendingState.create (Some d)).
Proof.
  intros Hk. assert (E : forall id, get_balance_record (PendingState.create (Some d) : block_state) id = get_balance_record d id).
  { intros id. by rewrite !view_balance, create_ledger. }
  split; [split; [done|apply own_keys_create]| | | | |]; intros id; [intros r|intros r0 r|intros r0|intros r|]; rewrite E.
  - rewrite view_balance. by apply keyed_balances.
  - congruence.
  - by eexists.
  - left. by eexists.
  - done.
Qed.
Lemma block_frame c b s :
  keyed (ledger_of (db c)) -> block_changes c b = Ok s -> frame b (db c) s.
Proof.
  intros Hk Hs. eapply block_changes_closed; [apply frame_closed| | |exact Hs|by apply frame_create].
  - intros s0 t loc _ Hf. apply (frame_other b _ s0); [|done|done].
    destruct (frame_over _ _ _ Hf) as [Hp Ho]. split; [done|]. by destruct Ho.
  - apply List.Forall_forall. intros t Ht. apply List.Forall_forall. intros op Hop.
    do 3 (split; [done|]). split; intros o E Ho; exists t, op; (split; [done|split; [done|split; [done|eauto]]]).
Qed.

(** ** Transactions *)
Notation stays T := (fun s : block_state => PendingState.transactions s = T).
Lemma stays_closed T : store_closed anyone anyone anyone anyone any_balance (stays T).
Proof. by split. Qed.

Lemma transaction_stays t chain s e' :
  evaluate t (eval_state_new s chain) = Ok e' ->
  PendingState.transactions (current_state e') = PendingState.transactions s /\ PendingState.transactions s !! trx_id t = None.
Proof.
  intros He. split.
  - eapply (evaluate_closed anyone anyone anyone anyone any_balance (stays (PendingState.transactions s)) (stays_closed _));
      [|exact He|done]. by apply List.Forall_forall.
  - pose proof (evaluated_unknown _ _ _ He) as Hn. cbn in Hn. unfold pending_get_transaction in Hn.
    by destruct (PendingState.transactions s !! trx_id t).
Qed.
Lemma recorded_stays chain num n trxs s s' id r :
  apply_transactions chain num n trxs s = Ok s' -> PendingState.transactions s !! id = Some r -> PendingState.transactions s' !! id = Some r.
Proof.
  revert n s. induction trxs as [|t trxs IH]; cbn [apply_transactions]; intros n s Hs Hr; [by inv_ok|].
  apply bind_ok in Hs as (e & He & Hs). destruct (transaction_stays _ _ _ _ He) as [Et Hn].
  eapply IH; [exact Hs|]. cbn. rewrite Et, lookup_insert_ne; [done|]. congruence.
Qed.
Lemma transactions_recorded chain num n trxs s s' t :
  apply_transactions chain num n trxs s = Ok s' -> In t trxs ->
  exists loc, PendingState.transactions s' !! trx_id t = Some (TransactionRecord t loc).
Proof.
  revert n s. induction trxs as [|t' trxs IH]; cbn [apply_transactions]; intros n s Hs Hin; [done|].
  apply bind_ok in Hs as (e & He & Hs). destruct Hin as [->|Hin]; [|by eapply IH].
  eexists. eapply recorded_stays; [exact Hs|]. cbn. apply lookup_insert_eq.
Qed.

Lemma block_recorded c b s t :
  block_changes c b = Ok s -> In t (user_transactions b) ->
  exists loc, PendingState.transactions s !! trx_id t = Some (TransactionRecord t loc).
Proof.
  unfold block_changes. intros Hs Hin. apply bind_ok in Hs as (s1 & _ & Hs).
  apply bind_ok in Hs as (s2 & H2 & Hs). apply bind_ok in Hs as (s3 & H3 & Hs).
  apply bind_ok in Hs as (s4 & H4 & Hs). destruct (transactions_recorded _ _ _ _ _ _ _ H2 Hin) as [loc Hr].
  exists loc. pose proof (stays_closed (PendingState.transactions s2)) as HS.
  pose proof (random_seed_closed _ _ _ _ _ _ HS _ _ _ Hs) as E.
  pose proof (active_list_closed _ _ _ _ _ _ HS _ _ _ _ H4) as E4.
  pose proof (pay_delegate_closed _ _ _ _ _ _ HS _ _ _ _ _ H3 eq_refl) as E3. cbv beta in *.
  by rewrite (E (E4 E3)).
Qed.

Lemma fold_recorded_other l d id r :
  (forall x, (id, x) ∉ l) -> id_to_transaction_record_db d !! id = Some r ->
  id_to_transaction_record_db (foldl (fun d kv => ChainInterface.store_transaction d kv.1 kv.2) d l) !! id = Some r.
Proof.
  revert d. induction l as [|[k x] l IH]; intros d Hn Hd; [done|]. cbn [foldl fst snd]. apply IH.
  - intros y Hy. apply (Hn y). by right.
  - cbn. rewrite lookup_insert_ne; [done|]. intros ->. apply (Hn x). by left.
Qed.
Lemma fold_recorded l d id r :
  (forall x y, (id, x) ∈ l -> (id, y) ∈ l -> x = y) -> (id, r) ∈ l ->
  id_to_transaction_record_db (foldl (fun d kv => ChainInterface.store_transaction d kv.1 kv.2) d l) !! id = Some r.
Proof.
  revert d. induction l as [|[k x] l IH]; intros d Hu Hin; [by apply elem_of_nil in Hin|]. cbn [foldl fst snd].
  destruct (decide ((id, r) ∈ l)) as [Hl|Hl].
  - apply IH; [|done]. intros y z Hy Hz. apply Hu; by right.
  - apply elem_of_cons in Hin as [[= <- <-]|Hin]; [|done]. apply fold_recorded_other.
    + intros y Hy. assert (y = r) as -> by (apply Hu; [by right|by left]). done.
    + cbn. apply lookup_insert_eq.
Qed.
Lemma applied_transactions s d id r :
  PendingState.transactions s !! id = Some r -> id_to_transaction_record_db (apply_changes s d) !! id = Some r.
Proof.
  intros Hr. unfold apply_changes. apply fold_recorded; [|by apply elem_of_map_to_list].
  intros x y Hx%elem_of_map_to_list Hy%elem_of_map_to_list. congruence.
Qed.

(** ** Applying the block *)
Lemma apply_block_inv b c c' :
  apply_block b c = (Ok tt, c') ->
  exists s r, verify_header c b = Ok tt /\ block_changes c b = Ok s /\
    db c' = db_with_head b (apply_changes s (db c)) /\
    block_num_to_id_db c' !! block_num b = Some (block_id b) /\
    block_id_to_block_record_db c' !! block_id b = Some r /\ record_block r = digest_block_of b.
Proof.
  unfold apply_block, save_undo_state, update_head_block. intros H. inv_st.
  match goal with H : on_fork_db _ _ = _ |- _ => apply on_part_ok in H as (m & _ & ->) end.
  match goal with H : clear_pending b ?c1 = _ |- _ =>
    apply (proj1 (calm_clear_pending b)) in H as (Ed & _ & _ & Er & _ & _) end.
  match goal with H : block_record_of _ b = Ok _ |- _ => unfold block_record_of in H; apply bind_ok in H as (seed & _ & H);
    apply Ok_inj in H; subst end.
  do 2 eexists. split; [done|]. split; [done|]. cbn in Ed, Er |- *. rewrite Ed, Er.
  split; [done|]. rewrite !lookup_insert_eq. done.
Qed.

(** The balances after the block. *)
Lemma applied_balance b c s h id r :
  live_ledger (ledger_of (db c)) = ledger_of (db c) -> block_changes c b = Ok s ->
  get_balance_record (db_with_head h (apply_changes s (db c))) id = Some r ->
  get_balance_record s id = Some r.
Proof.
  intros Hl Hs. change (get_balance_record (db_with_head h (apply_changes s (db c))) id)
    with (get_balance_record (apply_changes s (db c)) id).
  rewrite !view_balance, (block_ledger c b s Hs Hl). by intros [Hr _]%live_lookup.
Qed.

(** What the chain has of a balance after a block, in terms of what it had. *)
Record balances_after b c c' : Prop := {
  after_keyed id r : get_balance_record (db c') id = Some r -> balance_id r = id;
  after_untouched id : ~ touched b id -> get_balance_record (db c') id = get_balance_record (db c) id;
  after_condition id r0 r :
    get_balance_record (db c) id = Some r0 -> get_balance_record (db c') id = Some r -> condition r = condition r0;
  after_new id r :
    get_balance_record (db c') id = Some r -> is_Some (get_balance_record (db c) id) \/ deposited b id
}.
Lemma applied_balances b c c' :
  keyed (ledger_of (db c)) -> live_ledger (ledger_of (db c)) = ledger_of (db c) ->
  apply_block b c = (Ok tt, c') -> balances_after b c c'.
Proof.
  intros Hk Hl H. destruct (apply_block_inv _ _ _ H) as (s & r & _ & Hs & Ed & _).
  pose proof (block_frame c b s Hk Hs) as Hf. split; rewrite ?Ed.
  - intros id r1 H1. by eapply (frame_keyed _ _ _ Hf), applied_balance.
  - intros id Hid. change (get_balance_record (db_with_head b (apply_changes s (db c))) id)
      with (get_balance_record (apply_changes s (db c)) id).
    pose proof (frame_same _ _ _ Hf id Hid) as Es. do 2 rewrite view_balance in Es. do 2 rewrite view_balance.
    rewrite (block_ledger c b s Hs Hl). rewrite <- Hl. cbn [l_balances live_ledger].
    unfold live. by rewrite !lookup_omap, Es.
  - intros id r0 r1 H0 H1. eapply (frame_condition _ _ _ Hf); [exact H0|by eapply applied_balance].
  - intros id r1 H1. by eapply (frame_new _ _ _ Hf), applied_balance.
Qed.

(** The transactions that [get_block] finds under the number of the block are its own. *)
Lemma applied_block_found b c c' :
  apply_block b c = (Ok tt, c') ->
  exists h, get_block_at c' (block_num b) = Ok (FullBlock h (user_transactions b)).
Proof.
  intros H. destruct (apply_block_inv _ _ _ H) as (s & r & _ & Hs & Ed & En & Er & Eb).
  unfold get_block_at, fetch. rewrite En. cbn [value_or_throw bind]. unfold get_block, fetch. rewrite Er.
  cbn [value_or_throw bind]. rewrite Eb. cbn [digest_block_of user_transaction_ids].
  assert (Hall : forall t, In t (user_transactions b) ->
    exists loc, get_transaction (db c') (trx_id t) = Ok (Some (TransactionRecord t loc))).
  { intros t Ht. destruct (block_recorded c b s t Hs Ht) as [loc Hr]. exists loc. rewrite Ed.
    cbn. f_equal. by apply applied_transactions. }
  assert (E : forall l acc, (forall t, In t l -> In t (user_transactions b)) ->
    foldM (fun trxs trx_id =>
      let* t := get_transaction (db c') trx_id in
      let* t := value_or_throw t unknown_transaction in
      Ok (trxs ++ [record_trx t])) acc (map trx_id l) = Ok (acc ++ l)).
  { induction l as [|t l IH]; intros acc Hin; [by rewrite app_nil_r|]. cbn [map foldM].
    destruct (Hall t (Hin t (or_introl eq_refl))) as [loc ->]. cbn [bind value_or_throw record_trx].
    rewrite IH by (intros; apply Hin; by right). by rewrite <- app_assoc. }
  rewrite E by done. by eexists.
Qed.
End Frame.

(** * The wallet follows the chain *)

(** ** Computations whose steps are related, whatever they answer *)
Section Keeps.
Context {S : Type} (R : relation S) `{PR : !PreOrder R}.
Definition keeps {A} (m : run S A) : Prop := forall s, R s (m s).2.

Lemma related_bind {A B} (m : run S A) (f : A -> run S B) :
  keeps m -> (forall a, keeps (f a)) -> keeps (run_bind m f).
Proof.
  intros Hm Hf s. unfold run_bind. specialize (Hm s). destruct (m s) as [[a|e] s1]; [|done].
  etrans; [exact Hm|apply Hf].
Qed.
Lemma related_reads {A} (f : S -> result A) : keeps (reads f).
Proof. intros s. reflexivity. Qed.
Lemma related_ret {A} (a : A) : keeps (ret a).
Proof. intros s. reflexivity. Qed.
Lemma related_raise {A} e : keeps (raise e : run S A).
Proof. intros s. reflexivity. Qed.
Lemma related_modify f : (forall s, R s (f s)) -> keeps (modify f).
Proof. intros Hf s. apply Hf. Qed.
Lemma related_each {B} (f : B -> run S unit) l : (forall b, keeps (f b)) -> keeps (run_each f l).
Proof. intros Hf. induction l; cbn; [apply related_ret|by apply related_bind]. Qed.
Lemma keeps_fold {A B} (f : A -> B -> run S A) l a : (forall a b, keeps (f a b)) -> keeps (run_fold f a l).
Proof.
  intros Hf. revert a. induction l; intros b; cbn; [apply related_ret|by apply related_bind].
Qed.

(** From a state. *)
Lemma keeps_bind_at {A B} (m : run S A) (f : A -> run S B) s :
  R s (m s).2 -> (forall a s1, m s = (Ok a, s1) -> R s1 (f a s1).2) -> R s (run_bind m f s).2.
Proof.
  intros Hm Hf. unfold run_bind. destruct (m s) as [[a|e] s1] eqn:E; [|done].
  etrans; [exact Hm|by apply Hf].
Qed.

(** What a run that succeeds has established at some step is kept by the later steps. *)
Lemma keeps_after {A} (m : run S A) s r s' : keeps m -> m s = (r, s') -> R s s'.
Proof. intros Hm E. specialize (Hm s). by rewrite E in Hm. Qed.
Lemma each_establishes {B} (f : B -> run S unit) (P : S -> Prop) l s0 s s' b :
  (forall b, keeps (f b)) -> (forall s s', R s s' -> P s -> P s') -> In b l ->
  R s0 s -> (forall s1 s2, R s0 s1 -> f b s1 = (Ok tt, s2) -> P s2) ->
  run_each f l s = (Ok tt, s') -> P s'.
Proof.
  intros Hf HP Hin Hs0 Hb. revert s Hs0. induction l as [|x l IH]; [done|]. cbn. intros s1 Hs1 E.
  apply run_bind_ok in E as ([] & s2 & E1 & E).
  pose proof (keeps_after _ _ _ _ (Hf x) E1) as H12. destruct Hin as [->|Hin].
  - eapply HP; [|by eapply Hb]. eapply keeps_after; [|exact E]. by apply related_each.
  - eapply IH; [done| |exact E]. by etrans.
Qed.
Lemma fold_establishes {A B} (f : A -> B -> run S A) (P : S -> Prop) l a s0 s a' s' b :
  (forall a b, keeps (f a b)) -> (forall s s', R s s' -> P s -> P s') -> In b l ->
  R s0 s -> (forall a1 s1 a2 s2, R s0 s1 -> f a1 b s1 = (Ok a2, s2) -> P s2) ->
  run_fold f a l s = (Ok a', s') -> P s'.
Proof.
  intros Hf HP Hin Hs0 Hb. revert a s Hs0. induction l as [|x l IH]; [done|]. cbn. intros a s1 Hs1 E.
  apply run_bind_ok in E as (a1 & s2 & E1 & E).
  pose proof (keeps_after _ _ _ _ (Hf a x) E1) as H12. destruct Hin as [->|Hin].
  - eapply HP; [|by eapply Hb]. eapply keeps_after; [|exact E]. by apply keeps_fold.
  - eapply IH; [done| |exact E]. by etrans.
Qed.
End Keeps.

Section Sync.
Context `{FC : Fc} `{FT : FcTransaction} `{FBl : FcBlock} `{FO : FcOperations} `{FB : FcBigint}.
Context `{FK : FcKeys} `{FM : FcMemo} `{FP : FcPrivate} `{HO : HashOrder} `{UN : Uninitialised}.
Context `{KL : !FcKeysLaws}.
Implicit Types (w : wallet) (c : chain) (d : wallet_db).

(** The wallet has nothing of a balance that the chain has not. *)
Definition agrees c (id : Z) d : Prop :=
  forall r, balances d !! id = Some r -> get_balance_record (db c) id = Some (data r).
(** It has what the chain has of it. *)
Definition held c (id : Z) d : Prop :=
  forall r, get_balance_record (db c) id = Some r -> exists i, balances d !! id = Some (WalletRecord i r).
(** It has something of it, or the chain has nothing. *)
Definition tracked c (id : Z) d : Prop :=
  is_Some (balances d !! id) \/ get_balance_record (db c) id = None.
(** Whose signature a condition asks for. *)
Definition owned_by (a : Z) (x : withdraw_condition) : Prop :=
  condition_type x = withdraw_signature_type /\
  exists s, unpack_with_signature (condition_data x) = Some s /\ owner s = a.

Lemma owned_by_fun a a' x : owned_by a x -> owned_by a' x -> a = a'.
Proof. intros (_ & s & Hs & <-) (_ & s' & Hs' & <-). congruence. Qed.

(** Of the conditions there are, no two have the same address. *)
Section Scanned.
Context (c : chain) (P : withdraw_condition -> Prop).
Context (Hinj : forall x y, P x -> P y -> get_address x = get_address y -> x = y).
Context (Hkeyed : forall id r, get_balance_record (db c) id = Some r -> balance_id r = id).
Context (HP : forall id r, get_balance_record (db c) id = Some r -> P (condition r)).

(** The balances of the wallet are under keys of the wallet. *)
Definition owns d : Prop := forall id rw, balances d !! id = Some rw ->
  balance_id (data rw) = id /\ P (condition (data rw)) /\
  exists a, owned_by a (condition (data rw)) /\ db_has_private_key d a = true.

(** What the steps of a scan keep. *)
Definition follows d d' : Prop :=
  owns d -> owns d' /\ (forall id, agrees c id d -> agrees c id d') /\
  (forall id, held c id d -> held c id d') /\ (forall id, tracked c id d -> tracked c id d') /\
  (forall a, db_has_private_key d a = true -> db_has_private_key d' a = true).
#[local] Instance follows_preorder : PreOrder follows.
Proof.
  split; unfold follows; [by intros d|]. intros d1 d2 d3 H1 H2 Ho.
  destruct (H1 Ho) as (O1 & A1 & E1 & T1 & P1). destruct (H2 O1) as (O2 & A2 & E2 & T2 & P2). split_and!; eauto.
Qed.
Definition followed w w' : Prop := follows (database w) (database w').
#[local] Instance followed_preorder : PreOrder followed.
Proof.
  split; [intros w; unfold followed; reflexivity|].
  intros w1 w2 w3 H1 H2. unfold followed in *. by etrans.
Qed.
(** The same while a key is held. *)
Definition follows_if (a : Z) d d' : Prop := db_has_private_key d a = true -> follows d d'.
#[local] Instance follows_if_preorder a : PreOrder (follows_if a).
Proof.
  split; unfold follows_if; [by intros d _|]. intros d1 d2 d3 H1 H2 Hp Ho.
  destruct (H1 Hp Ho) as (O1 & A1 & E1 & T1 & P1).
  destruct (H2 (P1 _ Hp) O1) as (O2 & A2 & E2 & T2 & P2). split_and!; eauto.
Qed.

Lemma follows_same d d' : balances d' = balances d -> keys d' = keys d -> follows d d'.
Proof. unfold follows, owns, agrees, held, tracked, db_has_private_key. intros -> ->. done. Qed.
Lemma follows_if_same a d d' : balances d' = balances d -> keys d' = keys d -> follows_if a d d'.
Proof. intros ? ? _. by apply follows_same. Qed.
Lemma keeps_on_db {A} (m : run wallet_db A) : keeps follows m -> keeps followed (on_db m).
Proof. intros Hm w. unfold on_db, on_part, followed. specialize (Hm (database w)). by destruct (m (database w)). Qed.
Lemma set_records_same f d : balances (set_records f d) = balances d /\ keys (set_records f d) = keys d.
Proof. unfold set_records. by destruct (open_directory d). Qed.

Ltac keep :=
  repeat (cbn zeta; lazymatch goal with
  | |- keeps _ (run_bind _ _) => apply related_bind; [apply _| |intro]
  | |- keeps _ (reads _) => apply related_reads; apply _
  | |- keeps _ (asserts _) => apply related_reads; apply _
  | |- keeps _ (ret _) => apply related_ret; apply _
  | |- keeps _ (raise _) => apply related_raise; apply _
  | |- keeps _ (modify (set_records _)) => apply related_modify; intros;
      first [apply follows_same|apply follows_if_same]; apply set_records_same
  | |- keeps _ (modify _) => apply related_modify; intro; try (by apply follows_same || by apply follows_if_same)
  | |- keeps _ (run_each _ _) => apply related_each; [apply _|intro]
  | |- keeps _ (run_fold _ _ _) => apply keeps_fold; [apply _|intros]
  | |- keeps _ (on_db _) => apply keeps_on_db
  | |- keeps _ (store_generic_record _ _) => unfold store_generic_record
  | |- keeps _ (set_property_with _ _ _) => unfold set_property_with
  | |- keeps _ new_wallet_record_index => unfold new_wallet_record_index
  | |- keeps _ (store_record _) => unfold store_record
  | |- keeps _ (if ?b then _ else _) => destruct b
  | |- context [match ?o with Some _ => _ | None => _ end] => destruct o
  | |- context [let '(_, _) := ?s in _] => destruct s
  end).

(** ** The operations on the database *)
Lemma keeps_cache_account war : keeps follows (cache_account war).
Proof. unfold cache_account. keep. Qed.
Lemma keeps_store_transaction t : keeps follows (store_transaction t).
Proof. unfold store_transaction. keep. Qed.
Lemma follows_put_key (r : wallet_record key_data) d :
  has_private_key (data r) = true -> follows d (d <| keys ::= <[key_address (data r) := r]> |>).
Proof.
  intros Hp. assert (Hk : forall a, db_has_private_key d a = true ->
    db_has_private_key (d <| keys ::= <[key_address (data r) := r]> |>) a = true).
  { intros a. unfold db_has_private_key. cbn.
    destruct (decide (key_address (data r) = a)) as [<-|Hne]; [by rewrite lookup_insert_eq|].
    by rewrite lookup_insert_ne. }
  intros Ho. split; [|done]. intros id rw Hr. destruct (Ho id rw Hr) as (? & ? & a & ? & ?). eauto 10.
Qed.
Lemma keeps_cache_memo st key p : keeps follows (cache_memo st key p).
Proof.
  unfold cache_memo, store_key. set (k := encrypt_private_key p _ _).
  assert (Hk : has_private_key k = true).
  { unfold has_private_key, k. cbn. pose proof (aes_encrypt_some p (pack_private_key (owner_private_key st))) as He.
    by destruct (aes_encrypt _ _). }
  keep; by apply (follows_put_key (WalletRecord _ k)).
Qed.

Lemma follows_put_balance i id r a d :
  get_balance_record (db c) id = Some r -> owned_by a (condition r) ->
  follows_if a d (d <| balances ::= <[id := WalletRecord i r]> |>).
Proof.
  intros Hr Ha Hp Ho. split; [|split; [|split; [|split; [|done]]]].
  - intros id' rw. cbn. rewrite lookup_insert_Some. intros [[<- <-]|[_ Hr']]; [|by apply Ho].
    split; [by apply Hkeyed|]. split; [by eapply HP|]. by exists a.
  - intros id' Hg r'. cbn. rewrite lookup_insert_Some. intros [[<- <-]|[_ Hr']]; [done|by apply Hg].
  - intros id' Hh r' Hr'. cbn. destruct (decide (id = id')) as [<-|Hne].
    + rewrite lookup_insert_eq. exists i. congruence.
    + rewrite lookup_insert_ne by done. by apply Hh.
  - intros id' [Ht|Ht]; [left|by right]. cbn. apply lookup_insert_is_Some.
    destruct (decide (id = id')); auto.
Qed.
Lemma keeps_cache_balance id r a :
  get_balance_record (db c) id = Some r -> owned_by a (condition r) -> keeps (follows_if a) (cache_balance r).
Proof.
  intros Hr Ha. pose proof (Hkeyed id r Hr) as Eid. unfold cache_balance. rewrite Eid.
  keep; by apply follows_put_balance.
Qed.
Lemma follows_drop id d : get_balance_record (db c) id = None -> follows d (d <| balances ::= delete id |>).
Proof.
  intros E Ho. split; [|split; [|split; [|split; [|done]]]].
  - intros id' rw. cbn. rewrite lookup_delete_Some. intros [_ Hr]. by apply Ho.
  - intros id' Ha r. cbn. rewrite lookup_delete_Some. intros [_ ?]. by apply Ha.
  - intros id' Hh r Hr. cbn. rewrite lookup_delete_ne by congruence. by apply Hh.
  - intros id' Ht. destruct (decide (id = id')) as [<-|Hne]; [by right|].
    destruct Ht as [Ht|Ht]; [left|by right]. cbn. by rewrite lookup_delete_ne.
Qed.
(** The key of what is cached is held. *)
Lemma followed_cache_balance_of id w :
  (owns (database w) -> forall r, get_balance_record (db c) id = Some r ->
     exists a, owned_by a (condition r) /\ db_has_private_key (database w) a = true) ->
  followed w (cache_balance_of c id w).2.
Proof.
  intros Ha. unfold cache_balance_of. destruct (get_balance_record (db c) id) as [r|] eqn:E.
  - intros Ho. destruct (Ha Ho r eq_refl) as (a & Hr & Hp). revert Ho.
    pose proof (keeps_cache_balance id r a E Hr (database w) Hp) as Hk.
    unfold run_bind, on_db, on_part. destruct (cache_balance r (database w)) as [[[]|e] d]; exact Hk.
  - unfold run_bind, on_db, on_part. cbn. by apply follows_drop.
Qed.
(** After it the wallet has of the balance what the chain has. *)
Lemma cache_balance_of_synced id w b w' :
  cache_balance_of c id w = (Ok b, w') -> agrees c id (database w') /\ held c id (database w').
Proof.
  unfold cache_balance_of. destruct (get_balance_record (db c) id) as [r|] eqn:E; intros Hrun;
    apply run_bind_ok in Hrun as ([] & w1 & Hrun & [_ ->]%ret_ok);
    apply on_part_ok in Hrun as (d & Hd & ->); cbn.
  - unfold cache_balance in Hd. rewrite (Hkeyed id r E) in Hd. inv_st.
    split; intros r' Hr'.
    + cbn in Hr'. rewrite lookup_insert_eq in Hr'. by injection Hr' as <-.
    + rewrite E in Hr'. injection Hr' as <-. cbn. rewrite lookup_insert_eq. by eexists.
  - apply modify_ok in Hd as ->. split; intros r' Hr'; [|congruence].
    cbn in Hr'. by rewrite lookup_delete_eq in Hr'.
Qed.

(** ** The operations of a block *)
Lemma keeps_refresh owner name : keeps followed (refresh_account c owner name).
Proof. unfold refresh_account. keep. apply keeps_cache_account. Qed.
Lemma keeps_scan_create t op : keeps followed (scan_create_asset c t op).
Proof. unfold scan_create_asset. keep. Qed.
Lemma keeps_scan_bid t op : keeps followed (scan_bid c t op).
Proof. unfold scan_bid. keep. Qed.

Lemma scan_withdraw_run op w :
  scan_withdraw c op w =
  match balances (database w) !! withdraw_balance_id op with
  | Some _ => (let! _ := cache_balance_of c (withdraw_balance_id op) in ret true) w
  | None => (Ok false, w)
  end.
Proof. unfold scan_withdraw, lookup_balance. rewrite run_reads. by destruct (_ !! _). Qed.
Lemma keeps_scan_withdraw op : keeps followed (scan_withdraw c op).
Proof.
  intros w. rewrite scan_withdraw_run.
  destruct (balances (database w) !! withdraw_balance_id op) as [rw|] eqn:E; [|reflexivity].
  apply keeps_bind_at; [apply _| |intros; reflexivity]. apply followed_cache_balance_of. intros Ho r Hr.
  destruct (Ho _ _ E) as (Eid & HPw & a & Ha & Hp). exists a. split; [|done].
  assert (condition r = condition (data rw)) as ->; [|done].
  apply Hinj; [by eapply HP|done|]. by rewrite <- (Hkeyed _ _ Hr) in Eid.
Qed.
Lemma scan_withdraw_synced op w b w' :
  scan_withdraw c op w = (Ok b, w') ->
  agrees c (withdraw_balance_id op) (database w') /\
  (tracked c (withdraw_balance_id op) (database w) -> held c (withdraw_balance_id op) (database w')).
Proof.
  rewrite scan_withdraw_run.
  destruct (balances (database w) !! withdraw_balance_id op) as [rw|] eqn:E; intros Hrun.
  - apply run_bind_ok in Hrun as (b1 & w1 & Hrun & [_ ->]%ret_ok).
    by apply cache_balance_of_synced in Hrun as [? ?].
  - injection Hrun as <- <-. split; [intros r; by rewrite E|]. intros [[r Hr]|Hn] r' Hr'; congruence.
Qed.

(** *** Deposits *)
Lemma decrypted_owner key dep st :
  decrypt_memo_data key dep = Ok (Some st) ->
  owner dep = address_of_key (get_public_key (owner_private_key st)).
Proof.
  unfold decrypt_memo_data. intros H. apply bind_ok in H as (m & _ & H). apply bind_ok in H as (s & _ & H).
  cbv zeta in H. destruct (Z.eqb_spec (owner dep)
    (address_of_key (get_public_key (priv_key (private_child (sha256_hash s) public_derivation
       (extended_of_private_key key)))))) as [E|E]; cbn [negb] in H; [|done].
  apply bind_ok in H as (dt & _ & H). apply bind_ok in H as (v & _ & H).
  by apply Ok_inj in H as [= <-].
Qed.
Lemma memo_key_held st key p d u d' :
  cache_memo st key p d = (Ok u, d') ->
  db_has_private_key d' (address_of_key (get_public_key (owner_private_key st))) = true.
Proof.
  unfold cache_memo, store_key. set (k := encrypt_private_key p _ _).
  assert (Hk : forall i, has_private_key (data (WalletRecord i k)) = true).
  { intros i. unfold has_private_key, k. cbn.
    pose proof (aes_encrypt_some p (pack_private_key (owner_private_key st))) as He. by destruct (aes_encrypt _ _). }
  assert (Hput : forall i d0, db_has_private_key (d0 <| keys ::= <[key_address k := WalletRecord i k]> |>)
    (address_of_key (get_public_key (owner_private_key st))) = true).
  { intros i d0. unfold db_has_private_key. cbn. rewrite lookup_insert_eq. apply Hk. }
  assert (Hst : forall (r : wallet_record key_data) d0, keys (store_record r d0).2 = keys d0).
  { intros r d0. assert (HI : leaves keys (store_record r)); [|apply HI].
    unfold store_record, new_wallet_record_index, set_property_with, store_generic_record.
    repeat (cbn zeta; lazymatch goal with
      | |- leaves _ (modify (set_records _)) => intros ?; cbn; apply set_records_same
      | |- leaves _ (raise _) => done
      | _ => load_step end). }
  rewrite run_reads. cbv beta. destruct (keys d !! key_address k) as [old|]; intros H.
  - rewrite run_modify in H. cbv beta in H. match type of H with store_record ?r ?d0 = _ => specialize (Hst r d0) end.
    rewrite H in Hst. unfold db_has_private_key in *. cbn [snd] in Hst. rewrite Hst. apply Hput.
  - apply run_bind_ok in H as (i & d1 & _ & H). cbv zeta in H. rewrite run_modify in H. cbv beta in H.
    apply run_bind_ok in H as ([] & d2 & H & Hi). apply modify_ok in Hi as ->.
    match type of H with store_record ?r ?d0 = _ => specialize (Hst r d0) end.
    rewrite H in Hst. unfold db_has_private_key in *. cbn [snd] in Hst.
    change (keys (index_key (public_key_of k) (key_address k) d2)) with (keys d2). rewrite Hst. apply Hput.
Qed.

Lemma keeps_scan_memo dep op t keys : keeps followed (scan_memo dep op t keys).
Proof.
  revert t. induction keys as [|key keys IH]; intros t; cbn [scan_memo]; keep; [|apply IH].
  apply keeps_cache_memo.
Qed.
(** A deposit that is recognised is under a key that is held from then on. *)
Lemma scan_memo_held dep op t keys w t' w' :
  scan_memo dep op t keys w = (Ok (t', true), w') -> db_has_private_key (database w') (owner dep) = true.
Proof.
  revert t. induction keys as [|key keys IH]; intros t H; cbn [scan_memo] in H; [discriminate|].
  rewrite run_reads in H. destruct (decrypt_memo_data key dep) as [[st|]|e] eqn:Ed; [|by eapply IH|done].
  rewrite run_reads in H. apply run_bind_ok in H as (u & w1 & H & H1). apply ret_ok in H1 as [_ ->].
  apply on_part_ok in H as (d & H & ->). rewrite (decrypted_owner _ _ _ Ed). cbn.
  by eapply memo_key_held.
Qed.

(** The first part of [scan_deposit]: is the deposit for the wallet? *)
Definition recognise (keys : list (list Z)) t (op : deposit_operation) : run wallet (wallet_record transaction_data * bool) :=
  if condition_type (deposit_condition op) =? withdraw_signature_type then
    let! deposit := reads (fun _ => as_type withdraw_signature_type unpack_with_signature (deposit_condition op)) in
    let! mine := reads (fun w => Ok (db_has_private_key (database w) (owner deposit))) in
    if mine : bool then ret (t, true)
    else if bool_decide (is_Some (memo deposit)) then scan_memo deposit op t keys
    else ret (t, false)
  else ret (t, false).
Lemma keeps_recognise keys t op : keeps followed (recognise keys t op).
Proof. unfold recognise. keep. apply keeps_scan_memo. Qed.
Lemma recognise_held keys t op w t' w' :
  recognise keys t op w = (Ok (t', true), w') ->
  exists a, owned_by a (deposit_condition op) /\ db_has_private_key (database w') a = true.
Proof.
  unfold recognise. destruct (Z.eqb_spec (condition_type (deposit_condition op)) withdraw_signature_type) as [Et|]; [|discriminate].
  rewrite run_reads. destruct (as_type _ _ _) as [s|e] eqn:Es; [|discriminate].
  apply bind_ok in Es as (u & _ & Hs). apply value_or_throw_ok in Hs.
  rewrite run_reads. intros H. exists (owner s). split; [by split; [|exists s]|].
  destruct (db_has_private_key (database w) (owner s)) eqn:Ep; [by injection H as <- <-|].
  destruct (bool_decide _); [by eapply scan_memo_held|discriminate].
Qed.
(** Nothing has changed when it is not. *)
Lemma scan_memo_none dep op t keys w t' w' : scan_memo dep op t keys w = (Ok (t', false), w') -> w' = w.
Proof.
  revert t. induction keys as [|key keys IH]; intros t H; cbn [scan_memo] in H; [by injection H as _ <-|].
  rewrite run_reads in H. destruct (decrypt_memo_data key dep) as [[st|]|e]; [|by eapply IH|done].
  rewrite run_reads in H. apply run_bind_ok in H as (u & w1 & _ & H1). by apply ret_ok in H1 as [[=] _].
Qed.
Lemma recognise_none keys t op w t' w' : recognise keys t op w = (Ok (t', false), w') -> w' = w.
Proof.
  unfold recognise. destruct (_ =? _); [|by intros [= _ <-]]. rewrite run_reads.
  destruct (as_type _ _ _); [|discriminate]. rewrite run_reads. destruct (db_has_private_key _ _); [discriminate|].
  destruct (bool_decide _); [by apply scan_memo_none|by intros [= _ <-]].
Qed.
(** One under a key that is held already is recognised. *)
Lemma recognise_mine keys t op w r w' a :
  owned_by a (deposit_condition op) -> db_has_private_key (database w) a = true ->
  recognise keys t op w = (Ok r, w') -> r.2 = true.
Proof.
  intros (Et & s & Hs & <-) Hp. unfold recognise, as_type. rewrite Et, Z.eqb_refl. cbn [FC_ASSERT negb throw_if bind].
  rewrite Hs, run_reads. cbn [value_or_throw]. rewrite run_reads, Hp. by intros [= <- _].
Qed.

Lemma scan_deposit_run keys t op w :
  scan_deposit c keys t op w =
  (let! s := recognise keys t op in
   let! _ := if s.2 : bool then let! _ := cache_balance_of c (get_address (deposit_condition op)) in ret tt
             else ret tt in
   ret s) w.
Proof. reflexivity. Qed.
Lemma keeps_scan_deposit keys t op : P (deposit_condition op) -> keeps followed (scan_deposit c keys t op).
Proof.
  intros HPo w. rewrite scan_deposit_run. apply keeps_bind_at; [apply _|apply keeps_recognise|].
  intros [t' [|]] w1 H1; [|reflexivity]. cbn [snd].
  apply keeps_bind_at; [apply _| |intros; reflexivity].
  apply keeps_bind_at; [apply _| |intros; reflexivity]. apply followed_cache_balance_of. intros Ho r Hr.
  destruct (recognise_held _ _ _ _ _ _ H1) as (a & Ha & Hp). exists a. split; [|done].
  assert (condition r = deposit_condition op) as ->; [|done].
  apply Hinj; [by eapply HP|done|]. by apply (Hkeyed _ _ Hr).
Qed.
Lemma scan_deposit_synced keys t op w r w' :
  P (deposit_condition op) -> owns (database w) -> scan_deposit c keys t op w = (Ok r, w') ->
  agrees c (get_address (deposit_condition op)) (database w') /\
  (forall a, owned_by a (deposit_condition op) -> db_has_private_key (database w) a = true ->
     held c (get_address (deposit_condition op)) (database w')).
Proof.
  intros HPo Ho. rewrite scan_deposit_run. intros H. apply run_bind_ok in H as ([t' b] & w1 & H1 & H).
  apply run_bind_ok in H as ([] & w2 & H2 & H). apply ret_ok in H as [-> ->].
  cbn [snd] in H2. destruct b.
  - apply run_bind_ok in H2 as (u & w3 & H2 & H3). apply ret_ok in H3 as [_ ->].
    destruct (cache_balance_of_synced _ _ _ _ H2). by split.
  - apply ret_ok in H2 as [_ ->]. pose proof (recognise_none _ _ _ _ _ _ H1) as ->. split.
    + intros rw Hrw. exfalso. destruct (Ho _ _ Hrw) as (Eid & HPw & a & Ha & Hp).
      assert (E : condition (data rw) = deposit_condition op) by (by apply Hinj). rewrite E in Ha.
      by pose proof (recognise_mine _ _ _ _ _ _ _ Ha Hp H1).
    + intros a Ha Hp. by pose proof (recognise_mine _ _ _ _ _ _ _ Ha Hp H1).
Qed.

(** *** Transactions and blocks *)
Definition known_conditions (t : signed_transaction) : Prop :=
  forall op o, In op (operations t) -> op_type op = deposit_op_type ->
    unpack_deposit (op_data op) = Some o -> P (deposit_condition o).

Lemma keeps_scan_operation keys s op :
  (forall o, op_type op = deposit_op_type -> unpack_deposit (op_data op) = Some o -> P (deposit_condition o)) ->
  keeps followed (scan_operation c keys s op).
Proof.
  intros HPo. unfold scan_operation, scan_as. destruct s as [t cached].
  destruct (Z.eqb_spec (op_type op) deposit_op_type) as [E|_].
  { rewrite E. cbn [Z.eqb]. change (deposit_op_type =? withdraw_op_type) with false. cbv iota.
    apply related_bind; [apply _| |intro; apply related_ret; apply _]. intros w. apply keeps_bind_at; [apply _|reflexivity|].
    intros o w1 [Hu ->]%reads_ok. apply value_or_throw_ok in Hu. apply keeps_scan_deposit. by apply HPo. }
  keep; first [apply keeps_scan_withdraw|apply keeps_refresh|apply keeps_scan_create|apply keeps_scan_bid|idtac].
  unfold scan_update_account. keep. apply keeps_refresh.
Qed.
Lemma keeps_fold_in {A B} (f : A -> B -> run wallet A) l a :
  (forall a b, In b l -> keeps followed (f a b)) -> keeps followed (run_fold f a l).
Proof.
  revert a. induction l as [|b l IH]; intros a Hf; cbn; [apply related_ret; apply _|].
  apply related_bind; [apply _|apply Hf; by left|]. intros a'. apply IH. intros a'' b' Hb. apply Hf. by right.
Qed.
Lemma keeps_each_in {B} (f : B -> run wallet unit) l :
  (forall b, In b l -> keeps followed (f b)) -> keeps followed (run_each f l).
Proof.
  induction l as [|b l IH]; intros Hf; cbn; [apply related_ret; apply _|].
  apply related_bind; [apply _|apply Hf; by left|]. intros a'. apply IH. intros b' Hb. apply Hf. by right.
Qed.
Lemma keeps_scan_operations keys l s :
  (forall op o, In op l -> op_type op = deposit_op_type -> unpack_deposit (op_data op) = Some o -> P (deposit_condition o)) ->
  keeps followed (run_fold (scan_operation c keys) s l).
Proof. intros HPo. apply keeps_fold_in. intros. apply keeps_scan_operation. intros o. by apply HPo. Qed.
Lemma keeps_scan_transaction keys num time t :
  known_conditions t -> keeps followed (scan_transaction c keys num time t).
Proof.
  intros HPt. unfold scan_transaction. cbn zeta. apply related_bind; [apply _|apply related_reads; apply _|].
  intros known. apply related_bind; [apply _|by apply keeps_scan_operations|]. intros s. keep. apply keeps_store_transaction.
Qed.

(** What is so of a balance that an operation touches, once it was scanned. *)
Definition synced (a : Z) (op : operation) (id : Z) w w' : Prop :=
  agrees c id (database w') /\
  (withdraws_from op id -> tracked c id (database w) -> held c id (database w')) /\
  (forall o, op_type op = deposit_op_type -> unpack_deposit (op_data op) = Some o ->
     get_address (deposit_condition o) = id -> owned_by a (deposit_condition o) ->
     db_has_private_key (database w) a = true -> held c id (database w')).

Lemma scan_operation_synced a keys s op id w s' w' :
  (forall o, op_type op = deposit_op_type -> unpack_deposit (op_data op) = Some o -> P (deposit_condition o)) ->
  owns (database w) -> withdraws_from op id \/ deposits_to op id ->
  scan_operation c keys s op w = (Ok s', w') -> synced a op id w w'.
Proof.
  intros HPo Ho Ht H. unfold scan_operation, scan_as in H. destruct s as [t cached].
  apply run_bind_ok in H as (r & w1 & H & H1). apply ret_ok in H1 as [_ ->].
  destruct Ht as [(E & o & Hu & <-)|(E & o & Hu & <-)]; rewrite E in H.
  - rewrite Z.eqb_refl, run_reads, Hu in H. cbn [value_or_throw] in H.
    apply run_bind_ok in H as (b & w2 & H & H1). apply ret_ok in H1 as [_ ->].
    destruct (scan_withdraw_synced _ _ _ _ H) as [Ha Hh]. split; [done|]. split; [by intros _|].
    intros o' E'. by rewrite E in E'.
  - change (deposit_op_type =? withdraw_op_type) with false in H. rewrite Z.eqb_refl, run_reads, Hu in H.
    cbn [value_or_throw] in H.
    destruct (scan_deposit_synced _ _ _ _ _ _ (HPo o E Hu) Ho H) as [Ha Hh]. split; [done|].
    split; [intros [E' _]; by rewrite E in E'|]. intros o' _ Hu' _ Hown Hp.
    assert (o' = o) as -> by congruence. by eapply Hh.
Qed.

(** It stays so, as the chain does not change; what is asked at the time of the operation is
    kept since the beginning. *)
Lemma synced_kept a op id w0 w w' w1 :
  owns (database w0) -> followed w0 w -> followed w' w1 -> owns (database w') ->
  synced a op id w w' -> synced a op id w0 w1.
Proof.
  intros Ho0 F0 F1 Ho' (Ha & Hw & Hd). destruct (F0 Ho0) as (_ & _ & _ & T0 & K0).
  destruct (F1 Ho') as (_ & A1 & E1 & _ & _). split; [by apply A1|]. split.
  - intros H1 H2. by apply E1, Hw, T0.
  - intros o H1 H2 H3 H4 H5. eapply E1, Hd; eauto.
Qed.

Lemma owns_followed w w' : followed w w' -> owns (database w) -> owns (database w').
Proof. intros F Ho. by destruct (F Ho). Qed.

Lemma scan_operations_synced a keys l s op id w s' w' :
  (forall op o, In op l -> op_type op = deposit_op_type -> unpack_deposit (op_data op) = Some o -> P (deposit_condition o)) ->
  owns (database w) -> In op l -> withdraws_from op id \/ deposits_to op id ->
  run_fold (scan_operation c keys) s l w = (Ok s', w') -> synced a op id w w'.
Proof.
  intros HPl Ho Hin Ht. revert s w Ho. induction l as [|x l IH]; [done|]. cbn. intros s w Ho H.
  apply run_bind_ok in H as (s1 & w1 & H1 & H).
  assert (F1 : followed w w1).
  { eapply keeps_after; [|exact H1]. apply keeps_scan_operation. intros o. apply HPl. by left. }
  assert (HPl' : forall op o, In op l -> op_type op = deposit_op_type ->
    unpack_deposit (op_data op) = Some o -> P (deposit_condition o)) by (intros op' o' Hop'; apply HPl; by right).
  assert (F2 : followed w1 w').
  { eapply keeps_after; [|exact H]. by apply keeps_scan_operations. }
  pose proof (owns_followed _ _ F1 Ho) as Ho1. destruct Hin as [->|Hin].
  - apply (synced_kept a op id w w w1 w'); [done|reflexivity|done|done|].
    eapply scan_operation_synced; [|done|done|exact H1]. intros o. apply HPl. by left.
  - apply (synced_kept a op id w w1 w' w'); [done|done|reflexivity|by eapply owns_followed|].
    by eapply (IH HPl' Hin).
Qed.

Lemma scan_transaction_synced a keys num time t op id w w' :
  known_conditions t -> owns (database w) -> In op (operations t) -> withdraws_from op id \/ deposits_to op id ->
  scan_transaction c keys num time t w = (Ok tt, w') -> synced a op id w w'.
Proof.
  intros HPt Ho Hin Ht. unfold scan_transaction. cbn zeta. rewrite run_reads. intros H.
  apply run_bind_ok in H as (s & w1 & H1 & H).
  assert (F1 : followed w w1) by (eapply keeps_after; [|exact H1]; by apply keeps_scan_operations).
  apply (synced_kept a op id w w w1 w'); [done|reflexivity| |by eapply owns_followed|].
  - eapply keeps_after; [|exact H]. keep. apply keeps_store_transaction.
  - by eapply scan_operations_synced.
Qed.

Lemma scan_transactions_synced a keys num time l t op id w w' :
  (forall t, In t l -> known_conditions t) -> owns (database w) -> In t l -> In op (operations t) ->
  withdraws_from op id \/ deposits_to op id ->
  run_each (scan_transaction c keys num time) l w = (Ok tt, w') -> synced a op id w w'.
Proof.
  intros HPl Ho Hin Hop Ht. revert w Ho. induction l as [|x l IH]; [done|]. cbn. intros w Ho H.
  apply run_bind_ok in H as ([] & w1 & H1 & H).
  assert (F1 : followed w w1).
  { eapply keeps_after; [|exact H1]. apply keeps_scan_transaction, HPl. by left. }
  assert (HPl' : forall t, In t l -> known_conditions t) by (intros t' Ht'; apply HPl; by right).
  assert (F2 : followed w1 w').
  { eapply keeps_after; [|exact H]. apply keeps_each_in. intros x' Hx'. by apply keeps_scan_transaction, HPl'. }
  pose proof (owns_followed _ _ F1 Ho) as Ho1. destruct Hin as [->|Hin].
  - apply (synced_kept a op id w w w1 w'); [done|reflexivity|done|done|].
    eapply scan_transaction_synced; [|done|done|done|exact H1]. apply HPl. by left.
  - apply (synced_kept a op id w w1 w' w'); [done|done|reflexivity|by eapply owns_followed|].
    by eapply (IH HPl' Hin).
Qed.
(** *** The state of the chain *)

(** The balances whose owner the wallet knows are under the address that it has the key under: not
    under one of the older forms of it, which [is_receive_address] finds too and [scan_deposit]
    does not. *)
Definition plain d : Prop := forall id r o a, get_balance_record (db c) id = Some r ->
  balance_owner r = Ok o -> btc_to_bts_address d !! o = Some a -> a = o /\ owned_by o (condition r).
Definition own_key d (a : Z) : Prop := btc_to_bts_address d !! a = Some a /\ db_has_private_key d a = true.
Definition same_keys d d' : Prop := keys d' = keys d /\ btc_to_bts_address d' = btc_to_bts_address d.

Lemma owned_by_owner a r : owned_by a (condition r) -> balance_owner r = Ok a.
Proof.
  intros (Et & s & Hs & <-). unfold balance_owner, as_type. rewrite Et, Z.eqb_refl.
  cbn [FC_ASSERT negb throw_if bind]. by rewrite Hs.
Qed.

Lemma cache_balance_keys r d u d' : cache_balance r d = (Ok u, d') -> same_keys d d'.
Proof.
  intros H. assert (HI : leaves (fun d => (keys d, btc_to_bts_address d)) (cache_balance r)).
  { unfold cache_balance, store_record, new_wallet_record_index, set_property_with, store_generic_record.
    repeat (cbn zeta; lazymatch goal with
      | |- leaves _ (modify (set_records _)) => intros ?; cbn; unfold set_records; by destruct (open_directory _)
      | |- leaves _ (raise _) => done
      | _ => load_step end). }
  specialize (HI d). rewrite H in HI. cbn in HI. injection HI as E1 E2. by split.
Qed.

Lemma scan_balance_spec id r w w' :
  get_balance_record (db c) id = Some r -> plain (database w) -> scan_balance r w = (Ok tt, w') ->
  followed w w' /\ same_keys (database w) (database w') /\
  forall a, owned_by a (condition r) -> own_key (database w) a -> held c id (database w').
Proof.
  intros Hr Hp H. unfold scan_balance in H. rewrite run_reads in H.
  destruct (balance_owner r) as [o|e] eqn:Eo; [|done]. rewrite run_reads in H. cbn beta in H.
  unfold is_receive_address, lookup_key in H.
  assert (Hnot : w' = w -> followed w w' /\ same_keys (database w) (database w')) by (by intros ->).
  destruct (btc_to_bts_address (database w) !! o) as [a|] eqn:Ea; cbn [mbind option_bind] in H.
  - destruct (Hp id r o a Hr Eo Ea) as [-> Ho].
    destruct (keys (database w) !! o) as [k|] eqn:Ek; [destruct (has_private_key (data k)) eqn:Ekp|].
    + apply on_part_ok in H as (d & H & ->). split; [|split].
      * unfold followed. cbn. pose proof (keeps_cache_balance id r o Hr Ho (database w)) as Hf.
        rewrite H in Hf. apply Hf. unfold db_has_private_key. by rewrite Ek.
      * by eapply cache_balance_keys.
      * intros a' _ _ r' Hr'. unfold cache_balance in H. rewrite (Hkeyed id r Hr) in H. inv_st. cbn.
        rewrite Hr in Hr'. injection Hr' as <-. rewrite lookup_insert_eq. by eexists.
    + apply ret_ok in H as [_ ->]. split; [reflexivity|]. split; [done|]. intros a' Ha' [_ Hk].
      rewrite (owned_by_fun _ _ _ Ha' Ho) in Hk. unfold db_has_private_key in Hk. rewrite Ek in Hk. congruence.
    + apply ret_ok in H as [_ ->]. split; [reflexivity|]. split; [done|]. intros a' Ha' [_ Hk].
      rewrite (owned_by_fun _ _ _ Ha' Ho) in Hk. unfold db_has_private_key in Hk. by rewrite Ek in Hk.
  - apply ret_ok in H as [_ ->]. split; [reflexivity|]. split; [done|]. intros a' Ha' [Hi _].
    apply owned_by_owner in Ha'. rewrite Eo in Ha'. injection Ha' as ->. congruence.
Qed.

Lemma scan_balances_spec l w w' :
  (forall kv, In kv l -> get_balance_record (db c) kv.1 = Some kv.2) -> plain (database w) -> owns (database w) ->
  run_each (fun kv : Z * balance_record => scan_balance kv.2) l w = (Ok tt, w') ->
  followed w w' /\ same_keys (database w) (database w') /\
  forall kv a, In kv l -> owned_by a (condition kv.2) -> own_key (database w) a -> held c kv.1 (database w').
Proof.
  revert w. induction l as [|kv l IH]; intros w Hl Hp Ho H.
  { apply ret_ok in H as [_ ->]. split; [reflexivity|]. by split. }
  cbn in H. apply run_bind_ok in H as ([] & w1 & H1 & H).
  destruct (scan_balance_spec kv.1 kv.2 w w1 (Hl kv (or_introl eq_refl)) Hp H1) as (F1 & [K1 I1] & S1).
  assert (Hp1 : plain (database w1)) by (unfold plain; rewrite I1; exact Hp).
  pose proof (owns_followed _ _ F1 Ho) as Ho1.
  destruct (IH w1 (fun kv' Hin => Hl kv' (or_intror Hin)) Hp1 Ho1 H) as (F2 & [K2 I2] & S2).
  split; [by etrans|]. split; [split; congruence|]. intros kv' a [<-|Hin] Ha Hk.
  - destruct (F2 Ho1) as (_ & _ & E & _). by eapply E, S1.
  - apply (S2 kv' a Hin Ha). unfold own_key, db_has_private_key in *. by rewrite K1, I1.
Qed.

Lemma keeps_scan_accounts l :
  keeps followed (run_each (fun kv : Z * account_record => scan_registered_account kv.2) l).
Proof. apply related_each; [apply _|]. intros kv. unfold scan_registered_account. keep. Qed.

Lemma scan_state_spec w w' :
  plain (database w) -> owns (database w) -> scan_state c w = (Ok tt, w') ->
  followed w w' /\
  forall id r a, get_balance_record (db c) id = Some r -> owned_by a (condition r) -> own_key (database w) a ->
    held c id (database w').
Proof.
  intros Hp Ho H. unfold scan_state in H. apply run_bind_ok in H as ([] & w1 & H1 & H).
  assert (Hin : forall kv, In kv (level_list (balance_db (db c))) <-> get_balance_record (db c) kv.1 = Some kv.2).
  { intros [id r]. rewrite <- list_elem_of_In. unfold level_list. rewrite merge_sort_Permutation.
    apply elem_of_map_to_list. }
  destruct (scan_balances_spec _ _ _ (fun kv => proj1 (Hin kv)) Hp Ho H1) as (F1 & _ & S1).
  assert (F2 : followed w1 w') by (eapply keeps_after; [|exact H]; apply keeps_scan_accounts).
  split; [by etrans|]. intros id r a Hr Ha Hk. destruct (F2 (owns_followed _ _ F1 Ho)) as (_ & _ & E & _).
  apply E. exact (S1 (id, r) a (proj2 (Hin (id, r)) Hr) Ha Hk).
Qed.

(** Scanning blocks of the past. *)
Definition known_blocks : Prop :=
  forall num b t, get_block_at c num = Ok b -> In t (user_transactions b) -> known_conditions t.
Lemma keeps_scan_blocks l ks :
  known_blocks -> keeps followed (run_each (fun num => scan_block c num ks) l).
Proof.
  intros Hb. apply related_each; [apply _|]. intros num w. unfold scan_block. apply keeps_bind_at; [apply _|reflexivity|].
  intros b w1 [Hn ->]%reads_ok. apply keeps_each_in. intros t Ht. apply keeps_scan_transaction. by eapply Hb.
Qed.
Lemma keeps_refresh_stored l : keeps followed (run_each (refresh_stored c) l).
Proof. apply related_each; [apply _|]. intros a. unfold refresh_stored. keep. Qed.

Lemma scan_chain_spec start e w w' :
  known_blocks -> start = 0 -> plain (database w) -> owns (database w) -> scan_chain c start e w = (Ok tt, w') ->
  followed w w' /\
  forall id r a, get_balance_record (db c) id = Some r -> owned_by a (condition r) -> own_key (database w) a ->
    held c id (database w').
Proof.
  intros Hb -> Hp Ho H. unfold scan_chain in H. apply run_bind_ok in H as (u & w0 & H0 & H).
  assert (w0 = w) as ->.
  { unfold open_and_unlocked in H0. apply run_bind_ok in H0 as (u' & w1 & H0 & H1).
    unfold asserts in *. apply reads_ok in H0 as [_ ->]. by apply reads_ok in H1 as [_ ->]. }
  apply run_bind_ok in H as (s & w1 & H1 & H). cbn [Z.eqb] in H1.
  apply run_bind_ok in H1 as ([] & w1' & H1 & Hs). apply ret_ok in Hs as [_ ->].
  destruct (scan_state_spec _ _ Hp Ho H1) as [F1 S1].
  assert (F2 : followed w1' w').
  { apply run_bind_ok in H as (ks & w2 & Hk & H). unfold account_private_keys in Hk. apply reads_ok in Hk as [_ ->].
    apply run_bind_ok in H as ([] & w3 & H3 & H). apply run_bind_ok in H as (ac & w4 & Hac & H).
    apply reads_ok in Hac as [_ ->]. etrans; (eapply keeps_after; [|done]);
      [by apply keeps_scan_blocks|apply keeps_refresh_stored]. }
  split; [by etrans|]. intros id r a Hr Ha Hk. destruct (F2 (owns_followed _ _ F1 Ho)) as (_ & _ & E & _).
  apply E. by eapply S1.
Qed.
End Scanned.

(** ** The wallet is in step with the chain *)

(** [K]: keys of the wallet. It has every balance under these keys, and has of its balances what
    the chain has; they are all under its keys. *)
Record in_step (K : Z -> Prop) c d : Prop := {
  step_keys a : K a -> db_has_private_key d a = true;
  step_agrees id : agrees c id d;
  step_owned id rw : balances d !! id = Some rw ->
    exists a, owned_by a (condition (data rw)) /\ db_has_private_key d a = true;
  step_held id r a : get_balance_record (db c) id = Some r -> owned_by a (condition r) -> K a -> held c id d
}.

(** The conditions the chain has, before or after a block, and those of the block. *)
Definition condition_in c c' (b : full_block) (x : withdraw_condition) : Prop :=
  (exists id r, (get_balance_record (db c) id = Some r \/ get_balance_record (db c') id = Some r) /\ condition r = x) \/
  (exists t op o, In t (user_transactions b) /\ In op (operations t) /\ op_type op = deposit_op_type /\
     unpack_deposit (op_data op) = Some o /\ deposit_condition o = x).

Section Step.
Context (K : Z -> Prop) (c c' : chain) (b : full_block) (w w' : wallet).
Context (Hafter : balances_after b c c') (Hkc : forall id r, get_balance_record (db c) id = Some r -> balance_id r = id).
Context (Hinj : forall x y, condition_in c c' b x -> condition_in c c' b y -> get_address x = get_address y -> x = y).
Context (Hstep : in_step K c (database w)).
Notation P := (condition_in c c' b).

Lemma owns_before : owns P (database w).
Proof.
  intros id rw Hrw. pose proof (step_agrees _ _ _ Hstep id rw Hrw) as Hc. split; [by apply Hkc|].
  split; [left; eauto|]. by eapply step_owned.
Qed.

Lemma scanned_in_step keys num time :
  run_each (scan_transaction c' keys num time) (user_transactions b) w = (Ok tt, w') ->
  in_step K c' (database w').
Proof.
  intros H. pose proof owns_before as Ho. pose proof (after_keyed _ _ _ Hafter) as Hk'.
  assert (HP : forall id r, get_balance_record (db c') id = Some r -> P (condition r)) by (intros; left; eauto).
  assert (HPt : forall t, In t (user_transactions b) -> known_conditions P t).
  { intros t Ht op o Hop E Hu. right. exists t, op, o. by split_and!. }
  assert (F : followed c' P w w').
  { eapply keeps_after; [|exact H]. apply keeps_each_in. intros t Ht. apply keeps_scan_transaction; auto. }
  assert (Hs : forall a t op id, In t (user_transactions b) -> In op (operations t) ->
    withdraws_from op id \/ deposits_to op id -> synced c' a op id w w').
  { intros. by eapply (scan_transactions_synced c' P). }
  destruct (F Ho) as (Ho' & A & E & T & Kp). split.
  - intros a Ha. by apply Kp, (step_keys _ _ _ Hstep).
  - intros id. destruct (deposited_dec b id) as [(t & op & H1 & H2 & H3)|Hd];
      [by destruct (Hs 0 t op id H1 H2 (or_intror H3))|].
    destruct (withdrawn_dec b id) as [(t & op & H1 & H2 & H3)|Hw];
      [by destruct (Hs 0 t op id H1 H2 (or_introl H3))|].
    apply A. intros r Hr. rewrite (after_untouched _ _ _ Hafter id) by (intros []; done).
    by apply (step_agrees _ _ _ Hstep).
  - intros id rw Hrw. destruct (Ho' id rw Hrw) as (_ & _ & Ha). exact Ha.
  - intros id r a Hr Hown Ha. pose proof (step_keys _ _ _ Hstep a Ha) as Hp.
    destruct (deposited_dec b id) as [(t & op & H1 & H2 & H3)|Hd].
    { destruct (Hs a t op id H1 H2 (or_intror H3)) as (_ & _ & Hh). destruct H3 as (Et & o & Hu & Eo).
      eapply Hh; [exact Et|exact Hu|exact Eo| |exact Hp].
      assert (deposit_condition o = condition r) as ->; [|done].
      apply Hinj; [right; exists t, op, o; by split_and!|by eapply HP|]. rewrite Eo. symmetry. by apply (Hk' _ _ Hr). }
    destruct (after_new _ _ _ Hafter id r Hr) as [[r0 H0]|]; [|done].
    pose proof (after_condition _ _ _ Hafter id r0 r H0 Hr) as Ec.
    assert (Hheld : held c id (database w)) by (eapply (step_held _ _ _ Hstep id r0 a H0); [by rewrite <- Ec|done]).
    destruct (withdrawn_dec b id) as [(t & op & H1 & H2 & H3)|Hw].
    + destruct (Hs a t op id H1 H2 (or_introl H3)) as (_ & Hh & _). apply Hh; [done|].
      left. destruct (Hheld r0 H0) as [i Hi]. by eexists.
    + apply E. intros r' Hr'. rewrite (after_untouched _ _ _ Hafter id) in Hr' by (intros []; done). by apply Hheld.
Qed.
End Step.

(** One block: the wallet was in step before it, and goes through it without throwing. *)
Lemma block_in_step (K : Z -> Prop) b c c' w w' :
  keyed (ledger_of (db c)) -> live_ledger (ledger_of (db c)) = ledger_of (db c) ->
  (forall x y, condition_in c c' b x -> condition_in c c' b y -> get_address x = get_address y -> x = y) ->
  in_step K c (database w) ->
  apply_block b c = (Ok tt, c') ->
  is_unlocked w = true -> block_applied c' (block_num b) w = (Ok tt, w') ->
  in_step K c' (database w').
Proof.
  intros Hk Hl Hinj Hstep Hb Hu Hscan.
  unfold block_applied in Hscan. rewrite run_reads, Hu in Hscan. unfold account_private_keys in Hscan.
  rewrite run_reads in Hscan. destruct (get_account_private_keys _ _) as [keys|e]; [|done].
  unfold scan_block in Hscan. rewrite run_reads in Hscan.
  destruct (applied_block_found b c c' Hb) as [h Hh]. rewrite Hh in Hscan.
  eapply (scanned_in_step K c c' b); [by apply applied_balances| |done|done|exact Hscan].
  intros id r Hr. rewrite view_balance in Hr. by apply (keyed_balances _ Hk).
Qed.
(** ** From the first scan on
    [P] holds of the conditions that occur. *)
Section Following.
Context (P : withdraw_condition -> Prop).
Context (Hinj : forall x y, P x -> P y -> get_address x = get_address y -> x = y).

Definition conditions_known c : Prop := forall id r, get_balance_record (db c) id = Some r -> P (condition r).

(** What happens to the chain and the wallet: a block is applied and the wallet, unlocked, goes through
    it; the chain changes but for its ledger (blocks on forks arrive, transactions are queued, the
    clock goes on); the wallet changes but for its balances, and loses no private key. *)
Inductive sync_step : chain * wallet -> chain * wallet -> Prop :=
| sync_block b c c' w w' :
    apply_block b c = (Ok tt, c') -> is_unlocked w = true -> block_applied c' (block_num b) w = (Ok tt, w') ->
    (forall t, In t (user_transactions b) -> known_conditions P t) -> conditions_known c' ->
    sync_step (c, w) (c', w')
| sync_chain c c' w : ledger_of (db c') = ledger_of (db c) -> sync_step (c, w) (c', w)
| sync_wallet c w w' :
    balances (database w') = balances (database w) ->
    (forall a, db_has_private_key (database w) a = true -> db_has_private_key (database w') a = true) ->
    sync_step (c, w) (c, w').

Record follows_chain (K : Z -> Prop) (st : chain * wallet) : Prop := {
  follows_step : in_step K st.1 (database st.2);
  follows_ledger : ledger_ok (ledger_of (db st.1));
  follows_known : conditions_known st.1
}.

Lemma same_balances c c' id :
  ledger_of (db c') = ledger_of (db c) -> get_balance_record (db c') id = get_balance_record (db c) id.
Proof. intros E. do 2 rewrite view_balance. by rewrite E. Qed.

Lemma applied_ledger_ok b c c' :
  ledger_ok (ledger_of (db c)) -> apply_block b c = (Ok tt, c') -> ledger_ok (ledger_of (db c')).
Proof.
  intros [Hk Hl] H. destruct (apply_block_inv _ _ _ H) as (s & r & _ & Hs & Ed & _). rewrite Ed.
  change (ledger_of (db_with_head b (apply_changes s (db c)))) with (ledger_of (apply_changes s (db c))).
  rewrite (block_ledger c b s Hs Hl). by eapply block_ledger_ok.
Qed.

Lemma sync_step_follows K st st' : follows_chain K st -> sync_step st st' -> follows_chain K st'.
Proof.
  intros [Hs Hl Hc] Hst. destruct Hst as [b c c' w w' Hb Hu Hscan Ht Hc'|c c' w E|c w w' Eb Ek]; cbn [fst snd] in *.
  - split; cbn [fst snd]; [|by eapply applied_ledger_ok|done]. destruct Hl as [Hk Hl].
    eapply block_in_step; [exact Hk|exact Hl| |exact Hs|exact Hb|exact Hu|exact Hscan].
    assert (Hall : forall x, condition_in c c' b x -> P x).
    { intros x [(id & r & [Hr|Hr] & <-)|(t & op & o & Htin & Hop & Et & Eo & <-)]; [exact (Hc id r Hr)|exact (Hc' id r Hr)|].
      exact (Ht t Htin op o Hop Et Eo). }
    intros x y Hx Hy. apply Hinj; by apply Hall.
  - split; cbn [fst snd]; [|by rewrite E|intros id r; rewrite (same_balances c c' id E); apply Hc].
    destruct Hs as [H1 H2 H3 H4]. split; [done| |done|].
    + intros id r Hr. rewrite (same_balances c c' id E). by apply H2.
    + intros id r a Hr Ho Ha. rewrite (same_balances c c' id E) in Hr.
      intros r' Hr'. rewrite (same_balances c c' id E) in Hr'. exact (H4 id r a Hr Ho Ha r' Hr').
  - split; cbn [fst snd]; [|done|done]. destruct Hs as [H1 H2 H3 H4]. split.
    + intros a Ha. by apply Ek, H1.
    + unfold agrees. rewrite Eb. exact H2.
    + rewrite Eb. intros id rw Hr. destruct (H3 id rw Hr) as (a & Ho & Ha). exists a. split; [done|by apply Ek].
    + unfold held. rewrite Eb. exact H4.
Qed.

(** The first scan. *)
Lemma first_scan c e w w' :
  ledger_ok (ledger_of (db c)) -> conditions_known c -> known_blocks c P -> plain c (database w) ->
  balances (database w) = ∅ -> scan_chain c 0 e w = (Ok tt, w') ->
  follows_chain (own_key (database w)) (c, w').
Proof.
  intros Hl Hc Hb Hp He H.
  assert (Hkeyed : forall id r, get_balance_record (db c) id = Some r -> balance_id r = id).
  { intros id r Hr. rewrite view_balance in Hr. by apply (keyed_balances _ (proj1 Hl)). }
  assert (Ho : owns P (database w)) by (intros id rw; by rewrite He, lookup_empty).
  destruct (scan_chain_spec c P Hinj Hkeyed Hc 0 e w w' Hb eq_refl Hp Ho H) as [F S1].
  destruct (F Ho) as (Ho' & A & _ & _ & Kp). split; cbn [fst snd]; [|done|done]. split.
  - intros a [_ Ha]. by apply Kp.
  - intros id. apply A. intros r. by rewrite He, lookup_empty.
  - intros id rw Hrw. by destruct (Ho' id rw Hrw) as (_ & _ & ?).
  - exact S1.
Qed.
End Following.

(** C6: A wallet that scans every block follows the chain. Let a wallet with no balances scan the chain
    from its beginning, and then let any number of blocks be applied that it goes through, unlocked and
    without throwing; between them the chain may change but for its ledger, and the wallet but for
    its balances and the private keys it has. Then the wallet has every balance under the keys it had at
    first, nothing that is not under a key it has, and of each balance exactly what the chain has. No
    two conditions that occur have the same address; no balance is at first under one of the older
    forms of the address of a key. A block that is undone is none of these steps, as the wallet is not
    told of it: then it fails. *)
Theorem wallet_in_step (P : withdraw_condition -> Prop) c0 w0 e w1 c w :
  (forall x y, P x -> P y -> get_address x = get_address y -> x = y) ->
  ledger_ok (ledger_of (db c0)) -> conditions_known P c0 -> known_blocks c0 P -> plain c0 (database w0) ->
  balances (database w0) = ∅ -> scan_chain c0 0 e w0 = (Ok tt, w1) ->
  rtc (sync_step P) (c0, w1) (c, w) ->
  in_step (own_key (database w0)) c (database w).
Proof.
  intros Hinj Hl Hc Hb Hp He Hscan Hrun.
  pose proof (first_scan P Hinj c0 e w0 w1 Hl Hc Hb Hp He Hscan) as Hf.
  assert (Hgoal : follows_chain P (own_key (database w0)) (c, w)); [|apply Hgoal].
  revert Hf. induction Hrun as [st|st st1 st2 Hst _ IH]; [done|].
  intros Hf. apply IH. by eapply sync_step_follows.
Qed.
(** A balance under an older form of the address of a key is found in the state of the chain, and a
    deposit to it, without a memo, is passed over. *)
Theorem older_form_missed c keys t op s r w :
  condition_type (deposit_condition op) = withdraw_signature_type ->
  unpack_with_signature (condition_data (deposit_condition op)) = Some s -> memo s = None ->
  condition r = deposit_condition op ->
  is_receive_address (owner s) w = true -> db_has_private_key (database w) (owner s) = false ->
  scan_deposit c keys t op w = (Ok (t, false), w) /\ scan_balance r w = on_db (cache_balance r) w.
Proof.
  intros Et Hs Hm Hc Hr Hk. split.
  - rewrite scan_deposit_run. unfold recognise, as_type. rewrite Et, Z.eqb_refl.
    cbn [FC_ASSERT negb throw_if bind]. rewrite Hs. unfold run_bind, reads, ret. cbn [value_or_throw].
    by rewrite Hk, Hm.
  - assert (Ho : owned_by (owner s) (condition r)) by (rewrite Hc; split; [done|by exists s]).
    unfold scan_balance. rewrite (owned_by_owner _ _ Ho), run_reads, run_reads. by rewrite Hr.
Qed.
End Sync.

(** * The chain accepts what the wallet signs *)
Section Producing.
Context `{FC : Fc} `{FT : FcTransaction} `{FBl : FcBlock} `{FO : FcOperations} `{FB : FcBigint}.
Context `{FK : FcKeys} `{FP : FcPrivate} `{FPa : FcPack} `{HO : HashOrder} `{FSe : FcSecrets} `{PL : !FcPackLaws}.

Lemma sign_block_ok c (h : signed_block_header) id a i k s next w :
  is_unlocked w = true -> get_signing_delegate_id (db c) (timestamp h) = Ok id ->
  get_account_record (db c) id = Some a -> delegate_info a = Some i ->
  get_private_key (address_of_key (active_key a)) w = Ok k -> get_public_key k = active_key a ->
  get_secret c (last_block_num_produced i) k = Ok s ->
  get_secret c (uint32 (block_num (head_block_header (db c)) + 1)) k = Ok next ->
  sign_block c h w = Ok (sign_header k (with_secrets (hash_secret next) s h)).
Proof.
  intros Hu Hid Ha Hi Hk Epub Hs Hn. unfold sign_block, get_signing_delegate_key. rewrite Hu. cbn [FC_ASSERT bind].
  rewrite Hid. cbn [bind]. rewrite Ha. cbn [value_or_throw bind]. rewrite Hk. cbn [bind].
  rewrite Epub, Z.eqb_refl. cbn [FC_ASSERT bind]. unfold deref. cbn [value_or_throw bind]. rewrite Hi. cbn [value_or_throw bind].
  rewrite Hs. cbn [bind]. rewrite Hn. cbn [bind]. unfold validate_signee, signee, public_key. cbn [sign_header delegate_signature].
  change (block_digest (signed_header (sign_header k ?h))) with (block_digest h).
  rewrite recover_signature. cbn. by rewrite Epub, Z.eqb_refl.
Qed.

Lemma generated_timestamp c t b : generate_block c t = Ok b -> timestamp b = t.
Proof. unfold generate_block. intros H. apply bind_ok in H as (g & _ & [= <-]). done. Qed.

(** C23: When a delegate can make the next block. Generating a block never fails, whatever is
    queued (short of a crash of an evaluation); and for a slot after the head block that is
    not in the future, while the fee rate is the least one (at another the rate that is
    generated can be that of another size), the wallet of the delegate whose
    turn it is signs the block, and the chain accepts its header: when the wallet is unlocked
    and has the private key of the delegate, and the chain has the blocks that the secrets
    are derived from, [sign_block] succeeds, and what it returns verifies, if the block is not
    larger than twice the greatest size. *)
Theorem signed_block_verifies c t r id a i k w :
  queue_ok c -> generate_block c t = r -> returned r ->
  get_signing_delegate_id (db c) t = Ok id -> get_account_record (db c) id = Some a -> delegate_info a = Some i ->
  Z.rem t BTS_BLOCKCHAIN_BLOCK_INTERVAL_SEC = 0 ->
  timestamp (head_block_header (db c)) < t <=
    wall_clock (db c) + Z.quot BTS_BLOCKCHAIN_BLOCK_INTERVAL_SEC 2 ->
  0 <= fee_rate (head_block_header (db c)) <= BTS_BLOCKCHAIN_MIN_FEE ->
  is_unlocked w = true -> get_private_key (address_of_key (active_key a)) w = Ok k -> get_public_key k = active_key a ->
  is_ok (get_secret c (last_block_num_produced i) k) = true ->
  is_ok (get_secret c (uint32 (block_num (head_block_header (db c)) + 1)) k) = true ->
  exists b, r = Ok b /\ exists h, sign_block c b w = Ok h /\
    let b' := FullBlock h (user_transactions b) in
    (0 <= block_size b' <= 2 * BTS_BLOCKCHAIN_MAX_BLOCK_SIZE -> verify_header c b' = Ok tt).
Proof.
  intros Hq Hg Hr Hid Ha Hi Ht Hlate Hfee Hu Hk Epub Hs Hn.
  destruct (generate_returns c t r Hg Hr) as [b ->]. exists b. split; [done|].
  destruct (get_secret c (last_block_num_produced i) k) as [s|] eqn:Es; [|done].
  destruct (get_secret c (uint32 _) k) as [next|] eqn:En; [|done].
  eexists. split.
  - eapply sign_block_ok; [done| |exact Ha|exact Hi|exact Hk|exact Epub|exact Es|exact En].
    by rewrite (generated_timestamp _ _ _ Hg).
  - intros b' Hsize. apply (generated_verifies c t b id a (hash_secret next) s (delegate_signature b')); try done.
    cbn. rewrite <- Epub. apply recover_signature.
Qed.
End Producing.
