(* ===== verification/WalletStory.v ===== *)
(** Wallets on which the statements about the wallet are evaluated: stand-ins for the keys, the
    cipher and the serialization, which satisfy the laws that are assumed of them; a wallet
    on the database alone, and one on the chain of [Story]. *)
From stdpp Require Import relations.
From S2P Require Import Conservation Closure Undo BlockEffects ForkTree History Supply.
From S2P Require Import Delegates Header Queue Genesis Origin Switching Client Story.
From S2P Require Import Prelude Errors Asset Records ChainInterface EvalState Operations Concrete NodeState.
From S2P Require Import Transaction WalletDb WalletStored WalletPersists Wallet WalletSpending WalletScan WalletSync.

(** ** Stand-ins *)
Definition secret_sum (k : list Z) : Z := foldr (fun x s => Z.abs x + s) 0 k.
Definition story_keys : FcKeys := {|
  get_public_key k := 1 + secret_sum k;
  get_shared_secret k p := Ok [(1 + secret_sum k) * p];
  public_key_add p offset := p + secret_sum offset;
  generate_from_seed k offset := k ++ offset;
  sign_compact k _ := 1 + secret_sum k;
  sha256_hash l := [mix l];
  sha512_hash l := map (fun i => mix (i :: l)) [1; 2; 3; 4];
  first_word l := hd 0 l;
  aes_encrypt k plain := mix k :: plain;
  aes_decrypt k l :=
    match l with h :: plain => if h =? mix k then Ok plain else Throw assert_exception | [] => Throw assert_exception end;
  pack_public_key p := [p];
  pack_uint32 i := [i]
|}.
Definition story_memo : FcMemo := {|
  pack_memo_data m := memo_from m :: from_signature m :: memo_flags m :: message m;
  unpack_memo_data l := match l with f :: s :: t :: msg => Some (MemoData f s msg t) | _ => None end
|}.
Definition story_private : FcPrivate := {|
  pack_private_key k := k;
  unpack_private_key l := Some l;
  pack_extended k := Z.of_nat (length (priv_key k)) :: priv_key k ++ chain_code k;
  unpack_extended l :=
    match l with
    | n :: l => Some (ExtendedPrivateKey (take (Z.to_nat n) l) (drop (Z.to_nat n) l))
    | [] => None
    end
|}.
Definition story_order : HashOrder.
Proof. exact {| items A m := map_to_list m; items_spec A m := Permutation_refl _ |}. Defined.
Definition story_pack : FcPack := {|
  pack_withdraw o := withdraw_balance_id o :: withdraw_amount o :: claim_input_data o;
  pack_deposit o := deposit_amount o :: condition_asset_id (deposit_condition o) ::
    condition_delegate_id (deposit_condition o) :: condition_type (deposit_condition o) ::
    condition_data (deposit_condition o);
  pack_register_account _ := [];
  pack_update_account _ := [];
  pack_withdraw_pay o := [pay_amount o; pay_account_id o];
  pack_create_asset _ := [];
  pack_issue_asset o := [amount (issue_amount o); asset_id (issue_amount o)];
  pack_submit_proposal _ := [];
  pack_vote_proposal _ := [];
  pack_bid _ := []
|}.
#[local] Existing Instance concrete_fc.
#[local] Existing Instance concrete_transaction.
#[local] Existing Instance concrete_operations.
#[local] Existing Instance story_keys.
#[local] Existing Instance story_memo.
#[local] Existing Instance story_private.
#[local] Existing Instance story_order.
#[local] Existing Instance story_pack.

Lemma secret_sum_app a b : secret_sum (a ++ b) = secret_sum a + secret_sum b.
Proof. unfold secret_sum. induction a as [|x a IH]; [done|]. cbn [app foldr]. lia. Qed.
Lemma secret_sum_nonneg a : 0 <= secret_sum a.
Proof. unfold secret_sum. induction a as [|x a IH]; cbn [foldr]; lia. Qed.

Lemma story_keys_laws : FcKeysLaws.
Proof.
  split; cbn.
  - intros a b. do 2 f_equal. lia.
  - done.
  - intros k o. rewrite secret_sum_app. lia.
  - intros k p. by rewrite Z.eqb_refl.
  - done.
  - by intros [].
Qed.
Lemma story_pack_laws : FcPackLaws.
Proof.
  split; cbn.
  - by intros [].
  - by intros [a []].
  - by intros [o [[]|]].
  - done.
  - intros k d. pose proof (secret_sum_nonneg k). by destruct (Z.ltb_spec 0 (1 + secret_sum k)); [|lia].
Qed.

(** ** A message to carol *)
Definition receiver_secret : list Z := [32].
Definition sender_secret : list Z := [21].

(** The hypotheses of [memo_roundtrip] hold of a message of two letters. *)
Lemma memo_roundtrip_witness : (2 <= BTS_BLOCKCHAIN_MAX_MEMO_SIZE)%nat /\
  exists w st,
    encrypt_memo_data [5] (get_public_key receiver_secret) sender_secret [104; 105]
      (get_public_key sender_secret) from_memo = Ok w /\
    decrypt_memo_data receiver_secret w = Ok (Some st) /\
    get_message (memo_of_status st) = [104; 105] /\
    memo_from (memo_of_status st) = get_public_key sender_secret /\
    memo_flags (memo_of_status st) = from_memo /\ has_valid_signature st = true /\
    owner w = address_of_key (get_public_key (owner_private_key st)).
Proof.
  split; [unfold BTS_BLOCKCHAIN_MAX_MEMO_SIZE; lia|].
  apply (memo_roundtrip (KL := story_keys_laws)); [unfold BTS_BLOCKCHAIN_MAX_MEMO_SIZE; cbn; lia|].
  repeat constructor; done.
Defined.

(** ** A wallet *)
Definition story_master : master_key := encrypt_key [1; 2] (extended_of_seed [7; 7]).
Definition fresh_wallet : result unit * wallet_db :=
  new_wallet "wallet" story_master 5 50000 (new_wallet_db ∅).
(** A key is derived, a contact is added, a balance is cached. *)
Definition with_key := new_private_key [1; 2] 0 fresh_wallet.2.
Definition with_contact := WalletDb.add_contact_account 9 "dave" 44 variant_null with_key.2.
Definition with_balance := cache_balance bob_balance with_contact.2.
(** The key of an account that was created is under the null account in memory. *)
Example in_use :
  (length (map_to_list (keys with_balance.2)), length (map_to_list (accounts with_balance.2)),
   length (map_to_list (balances with_balance.2)), get_property with_balance.2 next_record_number) =
  (2%nat, 1%nat, 1%nat, variant_int 9).
Proof. vm_compute. reflexivity. Qed.

Lemma wallet_persists_witness : exists d',
  (let! _ := WalletDb.close in WalletDb.open "wallet") with_balance.2 = (Ok tt, d') /\ found_again with_balance.2 d'.
Proof.
  apply (wallet_persists "wallet" story_master 5 50000 3 (new_wallet_db ∅) fresh_wallet.2).
  - by split_and!.
  - done.
  - vm_compute. reflexivity.
  - apply (nsteps_l _ _ _ with_key.2).
    { apply (step_new_private_key _ _ [1; 2] 0 with_key.1). vm_compute. reflexivity. }
    apply (nsteps_l _ _ _ with_contact.2).
    { apply (step_add_contact _ _ 9 "dave" 44 variant_null with_contact.1). vm_compute. reflexivity. }
    apply (nsteps_l _ _ _ with_balance.2).
    { apply (step_cache_balance _ _ bob_balance with_balance.1). vm_compute. reflexivity. }
    apply nsteps_O.
  - lia.
Defined.

(** * A wallet on the chain of [Story]: the keys of the payer and of the payee are imported, the
    chain is scanned, the block with the payment is applied, and the balances are spent. *)
#[local] Existing Instance concrete_block.
#[local] Existing Instance concrete_genesis.
#[local] Existing Instance story_keys_laws.
Definition story_garbage : Uninitialised := {| garbage := 0 |}.
#[local] Existing Instance story_garbage.

(** ** The wallet *)
Definition empty_wallet : wallet := Wallet (new_wallet_db ∅) no_password false "".
Definition passphrase : list Z := [1; 2; 3; 4; 5; 6; 7; 8; 9].
Definition set_up : run wallet Z :=
  let! _ := create c1 "wallet" passphrase [] [5; 5] in
  let! _ := unlock c1 passphrase in
  let! _ := import_private_key c1 1000 [76] "dave" true in
  import_private_key c1 1000 [1] "saving" true.
Definition with_keys : wallet := Eval vm_compute in (set_up empty_wallet).2.
Definition story_wallet : wallet := Eval vm_compute in (scan_chain c1 0 1 with_keys).2.

(** The block with the payment, before and after. *)
Definition before : chain := after (store_and_index (block_id a2) a2) c2.
Definition paid : chain := after (apply_block a2) before.
Definition paid_wallet : wallet := Eval vm_compute in (block_applied paid (block_num a2) story_wallet).2.

(** The payment leaves the saving, and comes to dave. *)
Example wallet_saw_it :
  map (fun p => (balance (data p.2), condition_data (condition (data p.2)))) (map_to_list (balances (database story_wallet))) =
    [(10000000, [1002])] /\
  map (fun p => (balance (data p.2), condition_data (condition (data p.2)))) (map_to_list (balances (database paid_wallet))) =
    [(9995000, [1002]); (4900, [1077])].
Proof. split; vm_compute; reflexivity. Qed.

(** ** In step *)
Lemma on_fork_db_db {A} (m : run fork_map A) c : db (on_fork_db m c).2 = db c.
Proof. unfold on_fork_db, on_part. by destruct (m (fork_db c)). Qed.
Lemma store_and_index_db id b c : db (store_and_index id b c).2 = db c.
Proof.
  unfold store_and_index, run_bind, reads, modify. destruct (block_record_of c b); [|done].
  rewrite on_fork_db_db. by destruct (bool_decide _).
Qed.
Lemma before_ok : ledger_ok (ledger_of (db before)).
Proof.
  unfold before. rewrite store_and_index_db. destruct (story_chain_ok c2 reached_queue) as [_ _ (bs & Hh & _)].
  exact (history_ledger_ok _ _ _ _ _ _ _ story_ledger_ok Hh).
Qed.

Definition all_balances (c : chain) : list (Z * balance_record) := map_to_list (balance_db (db c)).
Lemma balance_listed c id r : get_balance_record (db c) id = Some r <-> In (id, r) (all_balances c).
Proof. unfold all_balances. rewrite <- list_elem_of_In, elem_of_map_to_list. done. Qed.

(** The conditions of the story, whose addresses differ. *)
Definition story_deposit : withdraw_condition := WithdrawCondition 0 4 withdraw_signature_type [1077].
Definition story_conditions : list withdraw_condition :=
  story_deposit :: map (fun p => condition p.2) (all_balances before ++ all_balances paid).
Definition apart (l : list withdraw_condition) : bool :=
  let l := map (fun x => (get_address x, x)) l in
  forallb (fun x => forallb (fun y => if x.1 =? y.1 then bool_decide (x.2 = y.2) else true) l) l.
Lemma apart_inj l x y : apart l = true -> In x l -> In y l -> get_address x = get_address y -> x = y.
Proof.
  unfold apart. rewrite forallb_forall. intros H Hx Hy E.
  specialize (H _ (in_map (fun x => (get_address x, x)) l x Hx)). rewrite forallb_forall in H.
  specialize (H _ (in_map (fun x => (get_address x, x)) l y Hy)). cbn [fst snd] in H.
  rewrite E, Z.eqb_refl in H. by apply bool_decide_eq_true in H.
Qed.
Lemma condition_listed c c' id r :
  get_balance_record (db c) id = Some r \/ get_balance_record (db c') id = Some r ->
  In (condition r) (map (fun p : Z * balance_record => condition p.2) (all_balances c ++ all_balances c')).
Proof.
  intros Hr. apply in_map_iff. exists (id, r). split; [done|]. apply in_or_app.
  by destruct Hr as [Hr|Hr]; [left|right]; apply balance_listed.
Qed.
Lemma story_condition x : condition_in before paid a2 x -> In x story_conditions.
Proof.
  intros [(id & r & Hr & <-)|(t & op & o & Ht & Ho & Et & Eo & <-)].
  - unfold story_conditions. apply in_cons. exact (condition_listed before paid id r Hr).
  - unfold story_conditions. left. destruct Ht as [<-|[]]. cbn in Ho. destruct Ho as [<-|[<-|[]]]; [done|].
    vm_compute in Eo. by injection Eo as <-.
Qed.

(** What is asked of the conditions, by computation. *)
Definition signature_owner (x : withdraw_condition) : option Z :=
  if condition_type x =? withdraw_signature_type then owner <$> unpack_with_signature (condition_data x) else None.
Lemma signature_owner_spec a x : owned_by a x <-> signature_owner x = Some a.
Proof.
  unfold owned_by, signature_owner. destruct (Z.eqb_spec (condition_type x) withdraw_signature_type) as [E|E].
  - rewrite E. destruct (unpack_with_signature _) as [s|]; cbn; naive_solver.
  - naive_solver.
Qed.
Lemma applied b c : is_ok (apply_block b c).1 = true -> apply_block b c = (Ok tt, after (apply_block b) c).
Proof. by destruct (apply_block b c) as [[[]|e] c']. Qed.
Definition plain_b (c : chain) (d : wallet_db) : bool :=
  forallb (fun p => match balance_owner p.2 with
    | Ok o => match btc_to_bts_address d !! o with
              | Some a => (a =? o) && bool_decide (signature_owner (condition p.2) = Some o)
              | None => true
              end
    | Throw _ => true
    end) (all_balances c).
Lemma plain_decided c d : plain_b c d = true -> plain c d.
Proof.
  unfold plain_b. rewrite forallb_forall. intros H id r o a Hr%balance_listed Ho Ha. specialize (H _ Hr).
  cbn [snd] in H. rewrite Ho, Ha in H. apply andb_true_iff in H as [->%Z.eqb_eq H%bool_decide_eq_true].
  by rewrite signature_owner_spec.
Qed.

(** The first block has no transactions. *)
Lemma c1_numbers : map fst (map_to_list (block_num_to_id_db c1)) = [1].
Proof. vm_compute. reflexivity. Qed.
Lemma c1_empty : match get_block_at c1 1 with Ok b => user_transactions b | Throw _ => [] end = [].
Proof. vm_compute. reflexivity. Qed.
Lemma block_at_number c num b : get_block_at c num = Ok b -> In num (map fst (map_to_list (block_num_to_id_db c))).
Proof.
  intros Hb. unfold get_block_at in Hb. apply bind_ok in Hb as (id & Hid & _). unfold fetch in Hid.
  apply value_or_throw_ok in Hid. apply elem_of_map_to_list, list_elem_of_In in Hid.
  exact (in_map fst _ _ Hid).
Qed.
Lemma story_known_blocks P : known_blocks c1 P.
Proof.
  intros num b t Hb Ht. pose proof (block_at_number _ _ _ Hb) as Hn. rewrite c1_numbers in Hn.
  destruct Hn as [<-|[]]. pose proof c1_empty as E. rewrite Hb in E. rewrite E in Ht. destruct Ht.
Qed.
Lemma before_ledger : ledger_of (db before) = ledger_of (db c1).
Proof. unfold before. rewrite store_and_index_db. vm_compute. reflexivity. Qed.
Lemma before_balances id : get_balance_record (db c1) id = get_balance_record (db before) id.
Proof. apply same_balances. symmetry. exact before_ledger. Qed.

(** The wallet scans the chain, the transaction and the block arrive, and the block is applied. *)
Lemma wallet_in_step_witness :
  own_key (database with_keys) 1002 /\ own_key (database with_keys) 1077 /\
  in_step (own_key (database with_keys)) paid (database paid_wallet).
Proof.
  split; [split; vm_compute; reflexivity|]. split; [split; vm_compute; reflexivity|].
  apply (wallet_in_step (fun x => In x story_conditions) c1 with_keys 1 story_wallet paid paid_wallet).
  - intros x y. apply apart_inj. vm_compute. reflexivity.
  - rewrite <- before_ledger. exact before_ok.
  - intros id r Hr. rewrite before_balances in Hr. apply in_cons. apply (condition_listed before paid id r). by left.
  - apply story_known_blocks.
  - apply plain_decided. vm_compute. reflexivity.
  - vm_compute. reflexivity.
  - vm_cast_no_check (eq_refl (Ok tt, story_wallet)).
  - apply (rtc_l _ _ (before, story_wallet)); [apply sync_chain; exact before_ledger|].
    apply (rtc_l _ _ (paid, paid_wallet)); [|apply rtc_refl].
    apply (sync_block _ a2 before paid story_wallet paid_wallet).
    + apply applied. vm_compute. reflexivity.
    + reflexivity.
    + vm_cast_no_check (eq_refl (Ok tt, paid_wallet)).
    + intros t Ht op o Ho Et Eo. apply story_condition. right. by exists t, op, o.
    + intros id r Hr. apply in_cons. apply (condition_listed before paid id r). by right.
Defined.

(** ** Spending *)
Definition solvent_b (w : wallet) : bool :=
  is_open (database w) &&
  forallb (fun p => negb (wallet_record_index p.2 =? 0) && is_ok (balance_owner (data p.2)))
    (map_to_list (balances (database w))).
Lemma solvent_decided w : solvent_b w = true -> solvent w.
Proof.
  unfold solvent_b. rewrite andb_true_iff, forallb_forall. intros [Ho H].
  assert (H' : forall id r, balances (database w) !! id = Some r ->
    wallet_record_index r <> 0 /\ is_ok (balance_owner (data r)) = true).
  { intros id r Hr. specialize (H (id, r)). rewrite <- list_elem_of_In, elem_of_map_to_list in H.
    specialize (H Hr). cbn in H. rewrite andb_true_iff, negb_true_iff, Z.eqb_neq in H. done. }
  split; [done| |]; intros id r Hr; destruct (H' _ _ Hr) as [Hi Hok]; [done|].
  destruct (balance_owner (data r)) as [o|]; [by exists o|done].
Qed.
Lemma story_solvent : solvent paid_wallet.
Proof. apply solvent_decided. vm_compute. reflexivity. Qed.

(** The payee spends a part of what it got; more than that it has not. *)
Lemma withdraw_to_transaction_spec_witness :
  (exists b' w', withdraw_to_transaction 4000 0 1077 building_nothing paid_wallet = (Ok b', w') /\
     length (operations (built b')) = 1%nat) /\
  (exists w', withdraw_to_transaction 5000 0 1077 building_nothing paid_wallet = (Throw wallet_insufficient_funds, w')).
Proof.
  split.
  - destruct (withdraw_to_transaction_spec 4000 0 1077 building_nothing paid_wallet story_solvent eq_refl)
      as (spent & r & w' & E & _ & _ & _ & _ & H).
    replace (4000 <=? funds 0 1077 paid_wallet) with true in H by (vm_compute; reflexivity).
    destruct H as (b' & -> & _). exists b', w'. split; [exact E|].
    assert (Hl : match (withdraw_to_transaction 4000 0 1077 building_nothing paid_wallet).1 with
      | Ok b => length (operations (built b)) | Throw _ => 0%nat end = 1%nat) by (vm_compute; reflexivity).
    rewrite E in Hl. exact Hl.
  - destruct (withdraw_to_transaction_spec 5000 0 1077 building_nothing paid_wallet story_solvent eq_refl)
      as (spent & r & w' & E & _ & _ & _ & _ & H).
    replace (5000 <=? funds 0 1077 paid_wallet) with false in H by (vm_compute; reflexivity).
    exists w'. by rewrite <- H.
Defined.

(** ** Signing *)
Definition story_secrets : FcSecrets := {| pack_block_id id := [id] |}.
#[local] Existing Instance story_secrets.
#[local] Existing Instance story_pack_laws.
(** The wallet of the delegate whose turn it is at 1515, the fifth. *)
Definition delegate_wallet : wallet :=
  Eval vm_compute in (import_private_key c1 1000 [103] "" true story_wallet).2.

Definition key_and_last (o : option account_record) : option (Z * Z) :=
  match o with
  | Some a => match delegate_info a with Some i => Some (active_key a, last_block_num_produced i) | None => None end
  | None => None
  end.
Lemma delegate_found o k n : key_and_last o = Some (k, n) ->
  exists a i, o = Some a /\ delegate_info a = Some i /\ active_key a = k /\ last_block_num_produced i = n.
Proof.
  destruct o as [a|]; [|done]. cbn. destruct (delegate_info a) as [i|] eqn:E; [|done].
  intros [= <- <-]. by exists a, i.
Qed.
Lemma signed_block_verifies_witness :
  exists h, sign_block c2 unsealed delegate_wallet = Ok h /\
    verify_header c2 (FullBlock h (user_transactions unsealed)) = Ok tt.
Proof.
  destruct (delegate_found (get_account_record (db c2) 5) 104 (2 ^ 32 - 1)) as (a & i & Ha & Hi & Ek & El);
    [vm_compute; reflexivity|].
  destruct (signed_block_verifies c2 1515 (Ok unsealed) 5 a i [103] delegate_wallet) as (b & Eb & h & Hh & Hv).
  - apply (reachable_queue told c0 c2 reached_queue), (genesis_queue config 3000 c0 story_starts).
  - vm_compute. reflexivity.
  - exact I.
  - vm_compute. reflexivity.
  - exact Ha.
  - exact Hi.
  - vm_compute. reflexivity.
  - split; vm_compute; [reflexivity|discriminate].
  - split; vm_compute; discriminate.
  - vm_compute. reflexivity.
  - rewrite Ek. vm_compute. reflexivity.
  - by rewrite Ek.
  - rewrite El. vm_compute. reflexivity.
  - vm_compute. reflexivity.
  - apply Ok_inj in Eb as <-. exists h. split; [exact Hh|]. apply Hv. split; vm_compute; discriminate.
Defined.

(** ** What the wallet does that it does not mean to *)

(** A passphrase that was changed: the keys are encrypted again on the disk only, and cannot be
    read in memory until the wallet is opened again. *)
Definition new_passphrase : list Z := [9; 8; 7; 6; 5; 4; 3; 2; 1].
Definition changed : wallet := (change_passphrase new_passphrase story_wallet).2.
Definition again : wallet :=
  ((let! _ := Wallet.open c1 "wallet" in unlock_with new_passphrase) changed).2.
Lemma keys_unreadable :
  (change_passphrase new_passphrase story_wallet).1 = Ok tt /\
  get_private_key 1077 story_wallet = Ok [76] /\ get_private_key 1077 changed = Throw assert_exception /\
  get_private_key 1077 again = Ok [76].
Proof. vm_compute. done. Qed.

(** A contact that was removed, and whose private key is imported afterwards: its key is stored
    twice, and the older one, without the private key, is what is found when the wallet is
    opened again. *)
Definition returned_contact : run wallet Z :=
  let! _ := Wallet.add_contact_account c1 1000 "erin" 45 variant_null in
  let! _ := remove_contact "erin" in
  import_private_key c1 1000 [44] "erin" true.
Definition reopened_wallet : wallet :=
  ((let! _ := Wallet.open c1 "wallet" in unlock_with passphrase) (returned_contact story_wallet).2).2.
Lemma key_lost :
  (returned_contact story_wallet).1 = Ok 45 /\
  get_private_key 1045 (returned_contact story_wallet).2 = Ok [44] /\
  get_private_key 1045 reopened_wallet = Throw assert_exception.
Proof. vm_compute. done. Qed.

(** 0.29 of an asset with two digits are 28 shares. *)
Lemma share_truncated :
  shares_of (SpecFloat.S754_finite false 5224175567749775 (-54))
    (AssetRecord 1 "CENT" "cent" "" variant_null 0 100 0 0 0 0 0) = Ok 28.
Proof. vm_compute. done. Qed.
